(* ===== verification/_CoqProject ===== *)
-Q . S2P
Prelude.v
Util.v
Floats.v
Exec.v
Doubles.v
Rand.v
TimeStamp.v
Platform.v
Log.v
Formats.v
Closure.v
NullDefect.v
Downsample.v
XoY.v
FirstLast.v
Median.v
Bytes.v
Identity.v
PeriodicCounter.v
IoThread.v
ReorderBuffer.v
IoFlush.v
CompFlush.v
NetConf.v
ConfTables.v
ConfigServer.v
NetClient.v
ConfMain.v
Fox.v
FastPeriodicCounter.v
FpcInv.v
FpcThread.v
FpcRun.v
TscSlave.v
TscMaster.v
TscRun.v
TscOld.v
EmitLoad.v
EmitPace.v
EmitRecv.v
EmitZmq.v
EmitZmqRun.v
EmitRun.v
Gpio.v
GpioRun.v
FoxClients.v
Stable.v
Channels.v
ChannelsTyped.v
ChannelsOpen.v
Ntplogd.v
CpuUtil.v
CpuLoad.v
Converter.v
ConverterLogs.v
Barrier.v
ArmFreq.v
