(* ===== verification/Prelude.v ===== *)
(** * cloud_profiler: verification library (root file)

    cloud_profiler measures the latency and the rate of tuples in distributed
    stream processors: a client logs tuples to channels, each channel hands its
    tuples to a handler, and what the handlers keep goes to log files. This
    library models the program under src/src/cp as pure and monadic functions
    and proves what its parts promise.

    ** How code is modelled

    An integer of width w is a [Z]; every operation that can leave its range is
    followed by [wrapU w] or [wrapS w]. A float or double is the rational it stands
    for, rounded after every operation. A function that changes state is one of
    the monad [M S] of this file: it returns the state it leaves, and a value or
    a fault - exit, a step without meaning in C++ (NULL call, division by zero,
    access out of bounds), waiting for another thread for ever, or an abort (a
    failed assertion, an exception nobody catches). A function pointer is a
    constructor of an enumeration, an ofstream a record with its two flags and the
    chunks written.

    What the program does not define is a class: [Env] (clock, network interfaces,
    creatable files, allocator), [Libc], [Libm] and [Qsort], [Squash] (compression),
    [ConfNet] (delivery of messages), [TscHost] (the seed of a machine and what query_tsc prints there),
    [FoxOs] and [ZmqOs] (ZeroMQ and threads), [NtpOs] (the commands ntplogd runs),
    [CpuOs] and [Stat] (the files of /proc), [Pmu] and [Wiring] (the pins of the
    board), [Machine] (directories, streams and decompression of the converter), [Papi] and [TscLink] (counters and sockets of the older tools), [Sizes]
    (compile-time sizes), [StdCpp] (what the C++ library leaves open), and [TscNet],
    [Profiler] and [Client] (the calls one program makes to another). Threads are
    interleaved step by step, where the code takes no lock around more; a call that
    waits for a thread is given what the other threads do meanwhile.

    ** Files, and the sources they model (below src/src/cp)

    - Prelude: integers, effects, text, lists. Util: util.c (number parsing and
      printing). Floats: rounding, printing and parsing of floating-point numbers.
      Doubles: their arithmetic. Exec: exec of ntplogd/exec.cpp and of
      tsc/query_tsc/query_tsc.cpp, the output of a command.
      Rand: the rest of util.c (random numbers, the identities made of them,
      messages that end a program). TimeStamp: time.cpp. Platform: output streams,
      operating system, net.c. Log: log.cpp. Formats: handler and format names
      (handlers.cpp, cloud_profiler.h). Bytes: memory images.
    - Closure: closure.cpp, closure.h, the state every channel has.
      NullDefect, Downsample, XoY, FirstLast, Median, Identity,
      PeriodicCounter: the handler of the same name in handlers/, each a
      Section with the derived fields as a Record, the handler, the parameter
      function and the constructor.
    - IoThread: buffered channels, handlers/buffer_id_handler.cpp,
      handlers/io_thread and handlers/compression_thread, on a state of channels
      and queues. ReorderBuffer: the order of compressed blocks. IoFlush: any
      number of uncompressed channels interleaved with the IO thread. CompFlush: a
      compressed channel with the four compression threads and the IO thread.
    - FastPeriodicCounter: handlers/fast_periodic_counter_handler.cpp, with one
      sampling thread per period as a machine with program points. FpcInv:
      the invariant. FpcThread: steps of the threads. FpcRun: the step relation
      and its theorems.
    - Gpio: handlers/gpio_handler.cpp, two boards whose threads and handlers toggle
      each other's pins. GpioRun: their runs.
    - NetConf, ConfTables, ConfigServer: config_server/, messages, the tables
      shipped and the server loop. NetClient: net_conf.cpp, the client. ConfMain:
      the programs config_server and config_client.
      Fox: fox_start_handler.cpp and fox_end_handler.cpp. FoxClients: fox_clients/,
      the programs that use fox channels.
    - Channels: channels.cpp and io_thread/cleanup.cpp, the interface a client
      calls, on a heap of channel objects and the states of the components.
      Stable: code that stays within a relation, used to show that function
      pointers fit their channels. ChannelsTyped: that invariant over all runs.
      ChannelsOpen: opening, closing, and the way from a table row to a log file.
    - TscSlave, TscMaster: tsc/tsc_slave.cpp and tsc/tsc_master.cpp, the programs
      that measure the round trips between machines. TscRun: a master with its
      slaves, each with a clock of its own and a frequency read from query_tsc. TscOld: the older tools tsc_slave_1.cpp,
      tsc_slave_2.cpp, and tsc.cpp.
    - EmitLoad, EmitPace, EmitRecv: cpp_emit/emit.cpp, the data generator: loading
      tuples, the paced sender threads (against the interface [Profiler]), and
      the receiver's queues. EmitZmq: its ZeroMQ and TCP channels and their timer
      threads. EmitZmqRun: timers and calls interleaved. EmitRun: the threads
      runDGSender and openSelfFeedChannel start.
    - Converter: src/postprocessing/btoa_converter.cpp (below src), the program that
      turns binary and compressed logs into text, on a map of files. ConverterLogs:
      the converter behind the channels that write its input. Barrier, ArmFreq:
      armfreq/, threads that meet at a barrier, and the frequency test of six of
      them.
    - Ntplogd: ntplogd/core.cpp, the daemon that logs the error of the clock. CpuUtil,
      CpuLoad: os/cpu_util.cpp, the load of the CPUs from /proc, and its watch
      thread.

    ** What the theorems show

    - End to end: a channel configured by the server logs what its table row
      says (ChannelsOpen.net_conf_channel_downsamples, on top of ConfMain, where the
      program config_server is shown to refine its contract, and of
      NetClient.net_conf_end_to_end); a pair of fox channels meets
      (Fox.fox_rendezvous).
    - From a call to text: the log of a compressed channel, written by the
      compression threads and the IO thread in any interleaving, is converted to
      one line per call, in order (ConverterLogs.compressed_log_converts); that of
      a binary channel to the very file an ASCII channel would have written
      (converted_log_is_ascii_log). The conversion of a file ends exactly if it can be
      opened (Converter), and without arguments the program finds no log
      (default_run_converts_no_log).
    - Types: no run calls a function of another class on a channel
      (ChannelsTyped.calls_keep_types).
    - Measurement: a session of tsc_master logs for every ordered pair of slaves
      the round of the fewest cycles (TscRun.cluster_measures_all_pairs); slaves
      get different ports (TscMaster); tsc_master ends (TscRun); the older tools
      answer every message, report the shortest round trip, and keep no more than a
      bulk on the way (TscOld); two boards count the round trips in lock step
      (GpioRun).
    - Rate and schedule: a sender of the data generator keeps its rate and repeats no
      tuple too early (EmitPace.emit_keeps_rate), and gets the tuples that were loaded
      for it (EmitRun); the receiver is fair (EmitRecv); timer threads count the
      intervals, never touch a freed timer and end (EmitZmqRun); ntplogd and
      fox_end_client keep their schedules without drift (Ntplogd, FoxClients).
    - Barrier: no thread passes a call of barrier_wait before all have come to it, and
      none is kept (Barrier); so the threads of the frequency test write after all
      measurements (ArmFreq).
    - No loss: events of both periodic counters are counted exactly once in any
      interleaving, jobs of sampling threads are not lost, compressed blocks are
      written once and in order, samples of buffered channels, compressed or not, are
      in the file, in a queue or in the current block at any time, and the threads
      and the final flush end with all of them in the files (FpcRun,
      PeriodicCounter, ReorderBuffer, IoFlush, CompFlush).
    - What is logged: every handler against a specification of the tuples it
      keeps, and the binary format read back (Downsample, XoY, FirstLast, Median,
      Identity); the clock errors of chronyd digit by digit (Ntplogd); more busy CPUs
      than allowed are reported (CpuLoad).
    - Errors and bounds: refused parameters, failed opens, defect channels,
      overflow of timestamps and durations, closing and clean-up; a random number
      stays below its bound, whatever the rounding (Rand).
    - Text: parsing, printing and names as round trips or numerals (Util,
      TimeStamp, Formats, Floats).

    ** Fuel and bounds

    The loop of l2aCommas has fuel 20, one per digit of a 64-bit number
    (Util.l2a_loop_length); flushBlockInQueues takes as fuel the length of the
    queue, which every round shortens; the loop that reads the output of a command,
    or a file, its length and one, as do the loops of the converter. Loops that wait for the clock take as fuel
    the number of readings (waits) within which the clock is supposed to pass the
    limit; the rounds of a sender thread are bounded by the milliseconds of its
    duration (EmitPace.phase_rounds), the port search by the number of slaves.
    ntplogd and fox_end_client need two readings for a wait, and ntplogd one round
    more than measurements; the asynchronous loops of TscOld as many polls as a link
    can answer in vain. All other loops are structural: over
    a list, a table or the FOX_END_RETRY attempts. Theorems about timers assume
    clock readings below 2^62 ns (of the data generator and the daemons: 2^50 s
    and 2^60 s) and fewer than 2^32 periods between two events;
    theorems about buffered channels a channel number below 200, the size of the
    two vectors in io_thread.cpp; about compressed channels that compression
    succeeds, that the push to the IO queue finds room (the code ignores its
    failure), that operations of a queue are atomic, and fewer than 2^31 blocks;
    about the load of CPUs at most 256 of them.

    ** Not modelled

    The library's Java and native bindings, the tests and benchmarks (cp_test), vendored
    headers (cxxopts, cppzmq), helpers on vectors that no program calls (rtt.cpp),
    calls of Boost serialization and examples of it, and the C programs for the
    performance counters of a board (pmu_access): they are input and output, or code
    of others, with no state the channels depend on. What
    cxxopts makes of a command line is an input of the main functions. The NUMA
    statistics of os/cpu_util.cpp are dead code. DUMP_BLOCK_WRITING_TIME and
    DUMP_FREE_BLOCK_NUM are 0 and the code they guard is left out. *)
From stdpp Require Export base tactics numbers option list strings pretty gmap.
From Stdlib Require Export ZArith Lia Ascii.

#[global] Open Scope Z_scope.

Create HintDb cp discriminated.
Create Rewrite HintDb cpw.

(** ** Machine-width integers

    A w-bit integer of the source is a [Z]; every conversion and every
    arithmetic operation that may leave the range is followed by one of these
    wrap-around functions. *)
Definition wrapU (w : Z) (z : Z) : Z := z `mod` 2 ^ w.
Definition wrapS (w : Z) (z : Z) : Z :=
  (z + 2 ^ (w - 1)) `mod` 2 ^ w - 2 ^ (w - 1).

Abbreviation u8 := (wrapU 8).
Abbreviation u32 := (wrapU 32).
Abbreviation u64 := (wrapU 64).
Abbreviation i8 := (wrapS 8).
Abbreviation i32 := (wrapS 32).
Abbreviation i64 := (wrapS 64).

Lemma wrapU_small w z : 0 ≤ z < 2 ^ w → wrapU w z = z.
Proof. intros ?. by apply Z.mod_small. Qed.

Lemma wrapU_range w z : 0 ≤ w → 0 ≤ wrapU w z < 2 ^ w.
Proof. intros ?. apply Z.mod_pos_bound. by apply Z.pow_pos_nonneg. Qed.

Lemma pow2_half w : 0 < w → 2 ^ w = 2 * 2 ^ (w - 1).
Proof. intros ?. rewrite <- Z.pow_succ_r by lia. f_equal. lia. Qed.

Lemma wrapS_small w z :
  0 < w → - 2 ^ (w - 1) ≤ z < 2 ^ (w - 1) → wrapS w z = z.
Proof.
  intros Hw ?. unfold wrapS. rewrite Z.mod_small; [lia|].
  rewrite (pow2_half w) by done. lia.
Qed.

Lemma wrapS_range w z : 0 < w → - 2 ^ (w - 1) ≤ wrapS w z < 2 ^ (w - 1).
Proof.
  intros Hw. unfold wrapS.
  pose proof (Z.mod_pos_bound (z + 2 ^ (w - 1)) (2 ^ w)
                ltac:(apply Z.pow_pos_nonneg; lia)).
  rewrite (pow2_half w) in * by done. lia.
Qed.

Lemma wrapU_idemp_add w x y : wrapU w (wrapU w x + y) = wrapU w (x + y).
Proof. apply Zplus_mod_idemp_l. Qed.

Lemma wrapU_idemp w x : wrapU w (wrapU w x) = wrapU w x.
Proof. apply Zmod_mod. Qed.

(** Converting to unsigned, adding, and converting back to signed is adding. *)
Lemma wrapS_wrapU_add w x y : wrapS w (wrapU w x + y) = wrapS w (x + y).
Proof.
  unfold wrapS, wrapU. rewrite <- !Z.add_assoc. by rewrite Zplus_mod_idemp_l.
Qed.

Lemma wrapS_wrapU_sub w x y : wrapS w (wrapU w x - y) = wrapS w (x - y).
Proof. apply wrapS_wrapU_add. Qed.

Lemma wrapS_wrapU w x : wrapS w (wrapU w x) = wrapS w x.
Proof.
  rewrite <- (Z.add_0_r (wrapU w x)), wrapS_wrapU_add. by rewrite Z.add_0_r.
Qed.

Lemma wrapS_idemp_add w x y : wrapS w (wrapS w x + y) = wrapS w (x + y).
Proof.
  unfold wrapS. f_equal.
  replace ((x + 2 ^ (w - 1)) `mod` 2 ^ w - 2 ^ (w - 1) + y + 2 ^ (w - 1))
    with ((x + 2 ^ (w - 1)) `mod` 2 ^ w + y) by lia.
  rewrite Zplus_mod_idemp_l. f_equal. lia.
Qed.

Lemma wrapU_wrapS w x : 0 ≤ w → wrapU w (wrapS w x) = wrapU w x.
Proof.
  intros Hw. unfold wrapU, wrapS. rewrite Zminus_mod_idemp_l. f_equal. lia.
Qed.

Lemma wrapU_wrapS_pred w x : 0 ≤ w → wrapU w (wrapS w x - 1) = wrapU w (x - 1).
Proof.
  intros Hw. unfold wrapU, wrapS. rewrite <- Z.sub_add_distr, Zminus_mod_idemp_l.
  f_equal. lia.
Qed.
#[export] Hint Rewrite wrapU_idemp_add wrapU_idemp wrapS_wrapU_add
  wrapS_wrapU_sub wrapS_wrapU : cpw.
#[export] Hint Rewrite wrapU_wrapS wrapU_wrapS_pred using lia : cpw.

Lemma wrapU_congr w x y : wrapU w x = wrapU w y ↔ (x - y) `mod` 2 ^ w = 0.
Proof.
  unfold wrapU. destruct (Z.eq_dec (2 ^ w) 0) as [->|Hw].
  { rewrite !Z.mod_0_r. lia. }
  split; intros H.
  - by rewrite Zminus_mod, H, Z.sub_diag, Z.mod_0_l.
  - replace x with (y + (x - y)) by lia.
    by rewrite Zplus_mod, H, Z.add_0_r, Zmod_mod.
Qed.

(** The side conditions of the lemmas above are decided by [lia] once the
    powers of two are numerals. *)
Ltac pow2 := change (2 ^ 8) with 256 in *; change (2 ^ 7) with 128 in *;
  change (2 ^ 31) with 2147483648 in *; change (2 ^ 32) with 4294967296 in *;
  change (2 ^ 53) with 9007199254740992 in *;
  change (2 ^ 63) with 9223372036854775808 in *;
  change (2 ^ 64) with 18446744073709551616 in *.
Ltac width := simpl Z.sub in *; pow2; lia.
Ltac zmod := Z.to_euclidean_division_equations; lia.
Ltac wrap_free z :=
  lazymatch z with
  | context [wrapU _ _] => fail
  | context [wrapS _ _] => fail
  | _ => idtac
  end.
Ltac unwrap :=
  repeat match goal with
  | |- context [wrapU ?w ?z] =>
      wrap_free z; rewrite (wrapU_small w z) by width
  | |- context [wrapS ?w ?z] =>
      wrap_free z; rewrite (wrapS_small w z) by width
  end.

(** Discharges a closed decidable side condition by evaluation. *)
Ltac by_decide := refine (bool_decide_unpack _ _); vm_compute; exact I.

(** Case analysis on membership in a literal list. *)
Ltac list_cases H :=
  rewrite ?elem_of_cons, ?elem_of_nil in H; destruct_or! H; simplify_eq; try done.

(** Case analysis on the first integer comparison of the goal. *)
Ltac zcase :=
  match goal with
  | |- context [?a <=? ?b] => destruct (Z.leb_spec a b)
  | |- context [?a <? ?b] => destruct (Z.ltb_spec a b)
  | |- context [?a =? ?b] => destruct (Z.eqb_spec a b)
  end.

(** ** Effects

    A C++ function that mutates state is a function of the monad [M S]: it
    always returns the state it leaves behind, and its result is the value
    returned or the fault that ended the run: [exit(code)], a step C++ gives
    no meaning to (a NULL function pointer called, a division by 0), a loop that
    spins until another thread acts, or an abort (a failed assertion, an exception
    nobody catches). *)
Inductive fault :=
  | FExit (code : Z)
  | FUndefined (why : string)
  | FSpin (why : string)
  | FAbort (why : string).

Inductive outcome (A : Type) :=
  | Ret (a : A)
  | Fault (f : fault).
Arguments Ret {A} a.
Arguments Fault {A} f.

Definition M (S A : Type) : Type := S → S * outcome A.

#[global] Instance M_ret {S} : MRet (M S) := λ A a s, (s, Ret a).
#[global] Instance M_bind {S} : MBind (M S) := λ A B k m s,
  match m s with
  | (s', Ret a) => k a s'
  | (s', Fault f) => (s', Fault f)
  end.

Definition get {S} : M S S := λ s, (s, Ret s).
Definition gets {S A} (f : S → A) : M S A := λ s, (s, Ret (f s)).
Definition modify {S} (f : S → S) : M S unit := λ s, (f s, Ret tt).
Definition raise {S A} (f : fault) : M S A := λ s, (s, Fault f).
Definition exit {S A} (code : Z) : M S A := raise (FExit code).
Definition undefined {S A} (why : string) : M S A := raise (FUndefined why).
Definition spin {S A} (why : string) : M S A := raise (FSpin why).
Definition abort {S A} (why : string) : M S A := raise (FAbort why).
Definition when {S} (b : bool) (m : M S unit) : M S unit :=
  if b then m else mret tt.

(** Runs a computation on a component of a larger state. *)
Definition zoom {S T A} (view : S → T) (upd : T → S → S) (m : M T A) : M S A :=
  λ s, let '(t, r) := m (view s) in (upd t s, r).

Section MonadLaws.
Context {S A B C : Type}.
Implicit Types (m : M S A) (f : A → M S B) (g : B → M S C).

Lemma bind_ret_l (a : A) f s : (mret a ≫= f) s = f a s.
Proof. done. Qed.

Lemma bind_ret_r m s : (m ≫= mret) s = m s.
Proof.
  unfold mbind, M_bind, mret, M_ret. by destruct (m s) as [? [?|?]].
Qed.

Lemma bind_assoc m f g s :
  ((m ≫= f) ≫= g) s = (m ≫= λ a, f a ≫= g) s.
Proof.
  unfold mbind, M_bind. by destruct (m s) as [? [?|?]].
Qed.

(** A run that ends normally splits at a bind. *)
Lemma bind_Ret_inv m f s s' b :
  (m ≫= f) s = (s', Ret b) → ∃ s1 a, m s = (s1, Ret a) ∧ f a s1 = (s', Ret b).
Proof.
  unfold mbind, M_bind. destruct (m s) as [s1 [a|?]]; [eauto|done].
Qed.

Lemma bind_Ret m f s s1 a : m s = (s1, Ret a) → (m ≫= f) s = f a s1.
Proof. intros E. unfold mbind, M_bind. by rewrite E. Qed.
End MonadLaws.

#[global] Typeclasses Opaque M.

(** [monad_simpl] evaluates the monadic skeleton of the goal. *)
Ltac monad_simpl :=
  unfold mbind, M_bind, mret, M_ret, get, gets, modify, raise, exit,
    undefined, spin, when, zoom in *; simpl in *.

(** ** The first of the least elements *)
Section FirstLeast.
Context {A : Type} (f : A → Z).
Implicit Types l : list A.

Definition first_least l (r : A) : Prop :=
  ∃ l1 l2, l = l1 ++ r :: l2
    ∧ Forall (λ r', f r < f r') l1 ∧ Forall (λ r', f r ≤ f r') l2.

Lemma first_least_snoc l r r' :
  first_least l r → first_least (l ++ [r']) (if f r' <? f r then r' else r).
Proof.
  intros (l1 & l2 & -> & F1 & F2). zcase.
  - exists (l1 ++ r :: l2), []. split_and!; [done| |done].
    rewrite Forall_app, Forall_cons. split_and!; [|lia|].
    + eapply Forall_impl; [exact F1|]. simpl. lia.
    + eapply Forall_impl; [exact F2|]. simpl. lia.
  - exists l1, (l2 ++ [r']). split_and!; [by rewrite <- app_assoc|done|].
    rewrite Forall_app, Forall_singleton. done.
Qed.
End FirstLeast.

(** ** Text

    [zstr z] is what [ostream << z] writes for an integer; [nl] ends a line. *)
Definition nl : string := String "010"%char EmptyString.
Definition quote (s : string) : string :=
  String "034"%char (s +:+ String "034"%char EmptyString).
Definition zstr (z : Z) : string := pretty z.

#[global] Instance zstr_inj : Inj (=) (=) zstr.
Proof. intros x y. apply (inj pretty). Qed.

Lemma string_app_cons c (s t : string) : String c s +:+ t = String c (s +:+ t).
Proof. done. Qed.

Lemma string_app_nil_r (s : string) : s +:+ "" = s.
Proof. induction s as [|c s IH]; [done|]. by rewrite string_app_cons, IH. Qed.

Lemma string_app_assoc (s t u : string) : (s +:+ t) +:+ u = s +:+ t +:+ u.
Proof. induction s as [|c s IH]; [done|]. by rewrite !string_app_cons, IH. Qed.

Lemma string_length_app (s t : string) :
  String.length (s +:+ t) = (String.length s + String.length t)%nat.
Proof. induction s as [|x s IH]; [done|]. rewrite string_app_cons. simpl. lia. Qed.

(** The text of several pieces. *)
Definition string_concat (l : list string) : string := foldr String.append "" l.

Lemma string_concat_app l1 l2 :
  string_concat (l1 ++ l2) = string_concat l1 +:+ string_concat l2.
Proof.
  induction l1 as [|s l1 IH]; [done|]. simpl. by rewrite IH, string_app_assoc.
Qed.

Fixpoint string_rep (c : ascii) (n : nat) : string :=
  match n with
  | O => EmptyString
  | S n => String c (string_rep c n)
  end.

(** A C string: the bytes before the first NUL. *)
Fixpoint c_string (s : string) : string :=
  match s with
  | EmptyString => EmptyString
  | String c s => if Ascii.eqb c "000"%char then EmptyString else String c (c_string s)
  end.

(** [strstr(s, sub) != NULL] on C strings. *)
Fixpoint strstr (s sub : string) : bool :=
  String.prefix sub s
  || match s with EmptyString => false | String _ s => strstr s sub end.

Definition pad_left (c : ascii) (width : nat) (s : string) : string :=
  string_rep c (width - String.length s) +:+ s.

(** [printf]'s ["%0<width>d"]: the sign comes before the zeros. *)
Definition zero_pad (width : nat) (z : Z) : string :=
  if z <? 0 then "-" +:+ pad_left "0"%char (width - 1) (zstr (- z))
  else pad_left "0"%char width (zstr z).

(** ** Lists *)
Section Lists.
Context {A : Type}.
Implicit Types l : list A.

(** The number of elements satisfying a boolean test. *)
Definition count (p : A → bool) (l : list A) : nat :=
  length (List.filter p l).

Lemma count_app p l1 l2 : count p (l1 ++ l2) = (count p l1 + count p l2)%nat.
Proof. unfold count. by rewrite List.filter_app, length_app. Qed.

Lemma count_perm p l1 l2 : l1 ≡ₚ l2 → count p l1 = count p l2.
Proof.
  unfold count. induction 1 as [|x l1 l2 _ IH|x y l|l1 l2 l3 _ IH1 _ IH2];
    simpl; [done| |by destruct (p x), (p y)|congruence].
  destruct (p x); simpl; congruence.
Qed.

Lemma count_all p l : Forall (λ x, p x = true) l → count p l = length l.
Proof.
  unfold count. induction 1 as [|x l Hx _ IH]; [done|]. simpl. rewrite Hx. simpl.
  by rewrite IH.
Qed.

Lemma list_insert_at a i x y l :
  i = length a → <[i := y]> (a ++ x :: l) = a ++ y :: l.
Proof. intros ->. by induction a as [|z a IH]; simpl; [|rewrite IH]. Qed.

Lemma snoc_inv l : l = [] ∨ ∃ l' x, l = l' ++ [x].
Proof.
  induction l as [|x l _] using rev_ind; [by left|right; eauto].
Qed.
End Lists.
