(* ===== verification/Util.v ===== *)
(** * Number parsing and printing: src/cp/util.c

    [strtoull] of the C library as util.c uses it, the two postfix-aware
    parsers [convertA2I] and [convertA2Inoexit], and [l2aCommas]. *)
From S2P Require Import Prelude.

(** ** strtoull(str, &endptr, 10)

    Skips white space, takes an optional sign and the longest run of decimal
    digits. [None] is the case of no digits, where [endptr == str]; otherwise
    the value and the string [endptr] points to. A value out of range is
    clamped to ULLONG_MAX; a minus sign negates modulo 2^64. *)
Definition is_space (c : ascii) : bool :=
  let n := N_of_ascii c in (N.eqb n 32) || (N.leb 9 n && N.leb n 13).

Definition digit_value (c : ascii) : option Z :=
  let n := Z.of_N (N_of_ascii c) in
  if (48 <=? n) && (n <=? 57) then Some (n - 48) else None.

Fixpoint skip_spaces (s : string) : string :=
  match s with
  | String c s' => if is_space c then skip_spaces s' else s
  | EmptyString => s
  end.

(** The value of the leading run of digits, accumulated onto [acc]. *)
Fixpoint take_digits (acc : Z) (s : string) : Z * string :=
  match s with
  | String c s' =>
      match digit_value c with
      | Some d => take_digits (10 * acc + d) s'
      | None => (acc, s)
      end
  | EmptyString => (acc, s)
  end.

Definition starts_with_digit (s : string) : bool :=
  match s with
  | String c _ => bool_decide (is_Some (digit_value c))
  | EmptyString => false
  end.

Definition ULLONG_MAX : Z := 18446744073709551615.

Definition strtoull (str : string) : option (Z * string) :=
  let s := skip_spaces str in
  let '(neg, s) :=
    match s with
    | String "-"%char s' => (true, s')
    | String "+"%char s' => (false, s')
    | _ => (false, s)
    end in
  if starts_with_digit s then
    let '(v, rest) := take_digits 0 s in
    Some ((if ULLONG_MAX <? v then ULLONG_MAX
           else if neg then u64 (- v) else v), rest)
  else None.

(** ** The modifier cascade both parsers share line for line *)
Definition postfix_factor (endptr : string) : option Z :=
  if String.eqb endptr "KB" then Some 1000
  else if String.eqb endptr "KiB" then Some 1024
  else if String.eqb endptr "MB" then Some 1000000
  else if String.eqb endptr "MiB" then Some 1048576
  else if String.eqb endptr "GB" then Some 1000000000
  else if String.eqb endptr "GiB" then Some 1073741824
  else None.

(** [convertA2I] ends the process with EXIT_FAILURE on an invalid literal. *)
Definition EXIT_FAILURE : Z := 1.

Definition convertA2I (str : string) : outcome Z :=
  match strtoull str with
  | None => Fault (FExit EXIT_FAILURE)
  | Some (ret, endptr) =>
      if String.eqb endptr EmptyString then Ret ret
      else match postfix_factor endptr with
           | None => Fault (FExit EXIT_FAILURE)
           | Some factor => Ret (u64 (ret * factor))
           end
  end.

Record conv_result := ConvResult {
  result : Z;        (* unsigned long long *)
  valid : Z;         (* char: -1 in error case, 1 else *)
  err_msg : string   (* char[1024] *)
}.

(** snprintf(buf, 1024, ...) keeps at most 1023 characters. *)
Definition snprintf1024 (s : string) : string := String.substring 0 1023 s.

Definition convertA2Inoexit (str : string) (r : conv_result) : conv_result :=
  match strtoull str with
  | None => ConvResult 0 (-1) (snprintf1024 ("Invalid number: " +:+ str))
  | Some (v, endptr) =>
      if String.eqb endptr EmptyString then ConvResult v 1 (err_msg r)
      else match postfix_factor endptr with
           | None => ConvResult v (-1)
                       (snprintf1024 ("Invalid number postfix: " +:+ str))
           | Some factor => ConvResult (u64 (v * factor)) 1 (err_msg r)
           end
  end.

(** ** l2aCommas

    The digits are written least significant first into [ptr], a comma after
    every third, then the buffer is mirrored in place. *)
Definition digit_char (d : Z) : ascii := ascii_of_N (Z.to_N (wrapU 8 (d + 48))).

Fixpoint l2a_loop (fuel : nat) (n digit_nr : Z) (ptr : list ascii) : list ascii :=
  match fuel with
  | O => ptr
  | S fuel =>
      let cur_digit := Z.rem n 10 in
      let ptr := ptr ++ [digit_char cur_digit] in
      let n := Z.quot n 10 in
      if n =? 0 then ptr
      else
        let ptr := if Z.rem digit_nr 3 =? 0 then ptr ++ [","%char] else ptr in
        l2a_loop fuel n (digit_nr + 1) ptr
  end.

Definition zero : ascii := Ascii.zero.

Fixpoint mirror_loop (fuel low high : nat) (ptr : list ascii) : list ascii :=
  match fuel with
  | O => ptr
  | S fuel =>
      if (low <? high)%nat then
        let temp := nth low ptr zero in
        let ptr := <[low := nth high ptr zero]> ptr in
        let ptr := <[high := temp]> ptr in
        mirror_loop fuel (S low) (pred high) ptr
      else ptr
  end.

(** A 64-bit number has at most 19 digits: 20 rounds of the digit loop and one
    round of the mirror loop per character are enough. *)
Definition l2aCommas_chars (num : Z) : list ascii :=
  let n := if num <? 0 then i64 (- num) else num in
  let ptr := l2a_loop 20 n 1 [] in
  let ptr := if num <? 0 then ptr ++ ["-"%char] else ptr in
  mirror_loop (length ptr) 0 (pred (length ptr)) ptr.

Definition l2aCommas (num : Z) : string :=
  String.string_of_list_ascii (l2aCommas_chars num).


(** ** The parser reads back what the printer writes *)
Lemma digit_value_pretty n :
  (n < 10)%N → digit_value (pretty_N_char n) = Some (Z.of_N n).
Proof.
  intros Hn. unfold pretty_N_char.
  destruct n as [|p]; [done|]. do 4 (destruct p as [p|p|]; try done; try lia).
Qed.

Lemma take_digits_pretty_go (x : N) s :
  (0 < x)%N → take_digits 0 (pretty_N_go x s) = take_digits (Z.of_N x) s.
Proof.
  revert s. induction x as [x IH] using (well_founded_induction N.lt_wf_0).
  intros s Hx. rewrite pretty_N_go_step by done.
  destruct (decide (x < 10)%N) as [Hlt|Hge].
  - rewrite N.div_small, N.mod_small by done. rewrite pretty_N_go_0. simpl.
    by rewrite digit_value_pretty.
  - rewrite IH by (try apply N.div_lt; try apply N.div_str_pos; lia).
    simpl. rewrite digit_value_pretty by (by apply N.mod_lt).
    f_equal. rewrite N2Z.inj_div, N2Z.inj_mod by done.
    pose proof (Z.div_mod (Z.of_N x) 10). lia.
Qed.

Lemma pretty_N_go_app x s t : pretty_N_go x (s +:+ t) = pretty_N_go x s +:+ t.
Proof.
  revert s. induction x as [x IH] using (well_founded_induction N.lt_wf_0).
  intros s. destruct (decide (0 < x)%N) as [Hx|Hx].
  - rewrite !(pretty_N_go_step x) by done.
    rewrite <- IH by (apply N.div_lt; lia). done.
  - replace x with 0%N by lia. by rewrite !pretty_N_go_0.
Qed.

Lemma pretty_N_go_digit x s :
  (0 < x)%N → starts_with_digit (pretty_N_go x s) = true.
Proof.
  revert s. induction x as [x IH] using (well_founded_induction N.lt_wf_0).
  intros s Hx. rewrite pretty_N_go_step by done.
  destruct (decide (x < 10)%N) as [Hlt|Hge].
  - rewrite N.div_small, N.mod_small by done. rewrite pretty_N_go_0. simpl.
    by rewrite digit_value_pretty.
  - apply IH; [apply N.div_lt|apply N.div_str_pos]; lia.
Qed.

Lemma zstr_pos z : 0 < z → zstr z = pretty_N_go (Z.to_N z) "".
Proof. destruct z; done. Qed.

Lemma zstr_starts_with_digit z rest :
  0 ≤ z → starts_with_digit (zstr z +:+ rest) = true.
Proof.
  intros Hz. destruct (decide (z = 0)) as [->|]; [done|].
  rewrite zstr_pos, <- pretty_N_go_app by lia. apply pretty_N_go_digit. lia.
Qed.

Lemma take_digits_zstr z rest :
  0 ≤ z → take_digits 0 (zstr z +:+ rest) = take_digits z rest.
Proof.
  intros Hz. destruct (decide (z = 0)) as [->|]; [done|].
  rewrite zstr_pos, <- pretty_N_go_app, take_digits_pretty_go by lia. simpl.
  by rewrite Z2N.id by lia.
Qed.

Lemma take_digits_stop z s :
  starts_with_digit s = false → take_digits z s = (z, s).
Proof. destruct s as [|c s]; simpl; [done|]. by destruct (digit_value c). Qed.

(** ** Characters of a string *)
Fixpoint all_chars (p : ascii → bool) (s : string) : bool :=
  match s with EmptyString => true | String c s => p c && all_chars p s end.

Lemma all_chars_app p s t : all_chars p (s +:+ t) = all_chars p s && all_chars p t.
Proof.
  induction s as [|c s IH]; [done|]. rewrite string_app_cons. simpl.
  by rewrite IH, andb_assoc.
Qed.

Lemma all_chars_impl (p q : ascii → bool) s :
  (∀ c, p c = true → q c = true) → all_chars p s = true → all_chars q s = true.
Proof.
  intros Hpq. induction s as [|c s IH]; [done|]. simpl.
  rewrite !andb_true_iff. naive_solver.
Qed.

Definition is_digit (c : ascii) : bool := bool_decide (is_Some (digit_value c)).

Lemma zstr_digits z : 0 ≤ z → all_chars is_digit (zstr z) = true.
Proof.
  intros Hz. destruct (decide (z = 0)) as [->|]; [done|]. rewrite zstr_pos by lia.
  assert (∀ x s, all_chars is_digit s = true → all_chars is_digit (pretty_N_go x s) = true) as Hg;
    [|by apply Hg].
  intros x. induction x as [x IH] using (well_founded_induction N.lt_wf_0). intros s Hs.
  destruct (decide (0 < x)%N) as [Hx|].
  - rewrite pretty_N_go_step by done. apply IH; [apply N.div_lt; lia|]. simpl.
    unfold is_digit. rewrite digit_value_pretty by (by apply N.mod_lt). done.
  - replace x with 0%N by lia. by rewrite pretty_N_go_0.
Qed.

(** A string that starts with a digit has no leading blank and no sign. *)
Lemma strtoull_digits s :
  starts_with_digit s = true →
  strtoull s = let '(v, rest) := take_digits 0 s in
               Some (if ULLONG_MAX <? v then ULLONG_MAX else v, rest).
Proof.
  intros Hs. unfold strtoull.
  assert (skip_spaces s = s) as ->.
  { destruct s as [|[[] [] [] [] [] [] [] []] s]; done. }
  assert (match s with
          | String "-"%char s' => (true, s')
          | String "+"%char s' => (false, s')
          | _ => (false, s)
          end = (false, s)) as ->.
  { destruct s as [|[[] [] [] [] [] [] [] []] s]; done. }
  by rewrite Hs.
Qed.

Lemma strtoull_zstr z rest :
  0 ≤ z < 2 ^ 64 → starts_with_digit rest = false →
  strtoull (zstr z +:+ rest) = Some (z, rest).
Proof.
  intros Hz Hr. rewrite strtoull_digits by (apply zstr_starts_with_digit; lia).
  rewrite take_digits_zstr, take_digits_stop by (done || lia).
  unfold ULLONG_MAX. pow2. zcase; [lia|done].
Qed.

(** The modifiers and the factors they stand for. *)
Definition postfixes : list (string * Z) :=
  [("", 1); ("KB", 1000); ("KiB", 1024); ("MB", 1000 ^ 2);
   ("MiB", 1024 ^ 2); ("GB", 1000 ^ 3); ("GiB", 1024 ^ 3)].

Lemma postfix_factor_spec p f :
  postfix_factor p = Some f ↔ p ≠ "" ∧ (p, f) ∈ postfixes.
Proof.
  unfold postfix_factor, postfixes. split.
  - repeat (case_match eqn:E; [apply String.eqb_eq in E as ->;
      intros [= <-]; split; [done|set_solver]|clear E]). done.
  - intros [Hp Hin]. list_cases Hin.
Qed.

(** ** l2aCommas: what the two loops leave in the buffer *)
Definition comma : ascii := ",".

Lemma digit_char_pretty d :
  0 ≤ d < 10 → digit_char d = pretty_N_char (Z.to_N d).
Proof.
  intros Hd. assert (d = 0 ∨ d = 1 ∨ d = 2 ∨ d = 3 ∨ d = 4 ∨ d = 5 ∨ d = 6
    ∨ d = 7 ∨ d = 8 ∨ d = 9) as Hc by lia.
  by destruct_or! Hc; subst.
Qed.

Lemma digit_char_not_comma d : 0 ≤ d < 10 → digit_char d ≠ comma.
Proof.
  intros Hd. assert (d = 0 ∨ d = 1 ∨ d = 2 ∨ d = 3 ∨ d = 4 ∨ d = 5 ∨ d = 6
    ∨ d = 7 ∨ d = 8 ∨ d = 9) as Hc by lia.
  by destruct_or! Hc; subst.
Qed.

Lemma l2a_loop_app fuel n d ptr :
  l2a_loop fuel n d ptr = ptr ++ l2a_loop fuel n d [].
Proof.
  revert n d ptr. induction fuel as [|fuel IH]; intros n d ptr; simpl.
  { by rewrite app_nil_r. }
  case_match; [done|].
  rewrite IH. symmetry. rewrite IH. by case_match; rewrite <- ?app_assoc.
Qed.

(** One round of the digit loop. *)
Lemma l2a_loop_step fuel n d :
  0 ≤ n →
  l2a_loop (S fuel) n d [] =
    digit_char (n `mod` 10) ::
    (if n <? 10 then []
     else (if Z.rem d 3 =? 0 then [comma] else [])
          ++ l2a_loop fuel (n `div` 10) (d + 1) []).
Proof.
  intros Hn. simpl. rewrite Z.rem_mod_nonneg, Z.quot_div_nonneg by lia.
  destruct (Z.ltb_spec n 10) as [Hlt|Hge].
  - by rewrite Z.div_small by lia.
  - destruct (Z.eqb_spec (n `div` 10) 0) as [E|_].
    { apply Z.div_small_iff in E; lia. }
    rewrite l2a_loop_app. by case_match.
Qed.

Definition not_comma (c : ascii) : bool := negb (Ascii.eqb c comma).

Lemma l2a_loop_digits fuel n d s :
  0 < n < 10 ^ Z.of_nat fuel →
  String.string_of_list_ascii
    (rev (List.filter not_comma (l2a_loop fuel n d [])) ++ s)
  = pretty_N_go (Z.to_N n) (String.string_of_list_ascii s).
Proof.
  revert n d s. induction fuel as [|fuel IH]; intros n d s Hn.
  { simpl in Hn. lia. }
  pose proof (Z.mod_pos_bound n 10 ltac:(lia)) as Hm.
  rewrite l2a_loop_step, pretty_N_go_step by lia. simpl.
  assert (not_comma (digit_char (n `mod` 10)) = true) as ->.
  { unfold not_comma. destruct (Ascii.eqb_spec (digit_char (n `mod` 10)) comma)
      as [E|]; [|done]. by apply digit_char_not_comma in E. }
  replace (Z.to_N n `mod` 10)%N with (Z.to_N (n `mod` 10))
    by (rewrite Z2N.inj_mod; [done|lia..]).
  replace (Z.to_N n `div` 10)%N with (Z.to_N (n `div` 10))
    by (rewrite Z2N.inj_div; [done|lia..]).
  rewrite <- digit_char_pretty by lia. simpl. rewrite <- app_assoc. simpl.
  destruct (Z.ltb_spec n 10) as [Hlt|Hge].
  - simpl. by rewrite (Z.div_small n 10), pretty_N_go_0 by lia.
  - assert (0 < n `div` 10 < 10 ^ Z.of_nat fuel) as Hq.
    { rewrite Nat2Z.inj_succ, Z.pow_succ_r in Hn by lia.
      split; [apply Z.div_str_pos|apply Z.div_lt_upper_bound]; lia. }
    rewrite List.filter_app. destruct (Z.rem d 3 =? 0); simpl; by apply IH.
Qed.

(** Position [i] of the little-endian buffer holds a comma iff i mod 4 = 3;
    [o] is the position of the first digit within its group. *)
Lemma l2a_loop_commas fuel n d i c :
  0 ≤ n → 1 ≤ d →
  l2a_loop fuel n d [] !! i = Some c →
  c = comma ↔ (Z.of_nat i + (d - 1) `mod` 3) `mod` 4 = 3.
Proof.
  revert n d i. induction fuel as [|fuel IH]; intros n d i Hn Hd; [done|].
  rewrite l2a_loop_step by done.
  pose proof (digit_char_not_comma (n `mod` 10) ltac:(zmod)) as Hdig.
  pose proof (Z.mod_pos_bound (d - 1) 3 ltac:(lia)) as Ho.
  destruct i as [|i]; simpl.
  { intros [= <-]. split; [done|zmod]. }
  destruct (n <? 10); [done|]. rewrite Z.rem_mod_nonneg by lia.
  destruct (Z.eqb_spec (d `mod` 3) 0) as [E|E].
  - destruct i as [|i]; simpl.
    + intros [= <-]. split; [intros _; zmod|done].
    + intros Hi. rewrite (IH (n `div` 10) (d + 1) i) by (done || zmod). zmod.
  - simpl. intros Hi. rewrite (IH (n `div` 10) (d + 1) i) by (done || zmod). zmod.
Qed.

Lemma l2a_loop_length fuel n d :
  0 ≤ n → (fuel ≠ 0)%nat → l2a_loop fuel n d [] ≠ [].
Proof. intros ??. destruct fuel; [done|]. by rewrite l2a_loop_step. Qed.

(** The most significant character is a digit. *)
Lemma l2a_loop_last fuel n d :
  0 ≤ n < 10 ^ Z.of_nat fuel → last (l2a_loop fuel n d []) ≠ Some comma.
Proof.
  revert n d. induction fuel as [|fuel IH]; intros n d Hn; [done|].
  rewrite l2a_loop_step by lia.
  pose proof (digit_char_not_comma (n `mod` 10) ltac:(zmod)) as Hdig.
  destruct (Z.ltb_spec n 10); [by intros [= ?]|].
  assert (0 < n `div` 10 < 10 ^ Z.of_nat fuel) as Hq.
  { rewrite Nat2Z.inj_succ, Z.pow_succ_r in Hn by lia.
    split; [apply Z.div_str_pos|apply Z.div_lt_upper_bound]; lia. }
  assert (fuel ≠ 0)%nat as Hf.
  { intros ->. simpl in Hq. lia. }
  specialize (IH (n `div` 10) (d + 1) ltac:(lia)).
  pose proof (l2a_loop_length fuel (n `div` 10) (d + 1) ltac:(lia) Hf) as Hne.
  destruct (l2a_loop fuel (n `div` 10) (d + 1) []); [done|].
  by destruct (Z.rem d 3 =? 0).
Qed.

Lemma mirror_loop_rev fuel a b c :
  (length b ≤ fuel)%nat →
  mirror_loop fuel (length a) (pred (length a + length b)) (a ++ b ++ c)
  = a ++ rev b ++ c.
Proof.
  revert a b c. induction fuel as [|fuel IH]; intros a b c Hb.
  { destruct b; [done|simpl in Hb; lia]. }
  cbn [mirror_loop]. case_match eqn:E; [apply Nat.ltb_lt in E|apply Nat.ltb_ge in E].
  - destruct b as [|x b]; [simpl in *; lia|].
    destruct (snoc_inv b) as [->|(b' & y & ->)]; [simpl in *; lia|].
    simpl in Hb. rewrite length_app in Hb. simpl in Hb.
    replace (pred (length a + length (x :: b' ++ [y])))
      with (length (a ++ x :: b'))
      by (rewrite !length_app; simpl; rewrite length_app; simpl; lia).
    replace (a ++ (x :: b' ++ [y]) ++ c)
      with ((a ++ x :: b') ++ y :: c) by (by simplify_list_eq).
    rewrite nth_middle. replace ((a ++ x :: b') ++ y :: c)
      with (a ++ x :: b' ++ y :: c) by (by simplify_list_eq).
    rewrite nth_middle.
    rewrite (list_insert_at a) by done.
    replace (a ++ y :: b' ++ y :: c) with ((a ++ y :: b') ++ y :: c)
      by (by simplify_list_eq).
    rewrite (list_insert_at (a ++ y :: b') _ _ _ _)
      by (rewrite !length_app; simpl; lia).
    replace ((a ++ y :: b') ++ x :: c) with ((a ++ [y]) ++ b' ++ x :: c)
      by (by simplify_list_eq).
    replace (S (length a)) with (length (a ++ [y]))
      by (rewrite length_app; simpl; lia).
    replace (pred (length (a ++ x :: b'))) with
      (pred (length (a ++ [y]) + length b')) by (rewrite !length_app; simpl; lia).
    rewrite IH by lia. simpl. rewrite rev_app_distr. by simplify_list_eq.
  - destruct b as [|x [|y b]]; [done..|simpl in *; lia].
Qed.

(** The buffer before mirroring, and what mirroring makes of it. *)
Definition l2a_buffer (num : Z) : list ascii :=
  let n := if num <? 0 then i64 (- num) else num in
  l2a_loop 20 n 1 [] ++ (if num <? 0 then ["-"%char] else []).

Lemma mirror_rev l : mirror_loop (length l) 0 (pred (length l)) l = rev l.
Proof.
  pose proof (mirror_loop_rev (length l) [] l [] (Nat.le_refl _)) as H.
  by rewrite !app_nil_r in H.
Qed.

Lemma l2aCommas_chars_rev num :
  l2aCommas_chars num = rev (l2a_buffer num).
Proof.
  unfold l2aCommas_chars, l2a_buffer. rewrite mirror_rev.
  destruct (num <? 0); [reflexivity|]. by rewrite app_nil_r.
Qed.

#[local] Arguments l2a_loop : simpl never.

Lemma filter_rev {A} (p : A → bool) (l : list A) :
  List.filter p (rev l) = rev (List.filter p l).
Proof.
  induction l as [|x l IH]; [done|]. simpl. rewrite List.filter_app, IH. simpl.
  destruct (p x); [done|]. by rewrite app_nil_r.
Qed.

Lemma l2a_digits_pos fuel n s :
  0 ≤ n < 10 ^ Z.of_nat fuel → fuel ≠ O →
  String.string_of_list_ascii
    (rev (List.filter not_comma (l2a_loop fuel n 1 [])) ++ s)
  = zstr n +:+ String.string_of_list_ascii s.
Proof.
  intros Hn Hf. destruct (decide (n = 0)) as [->|].
  { by destruct fuel. }
  rewrite l2a_loop_digits, zstr_pos by lia. by rewrite <- pretty_N_go_app.
Qed.

Lemma l2a_digits num :
  - 2 ^ 63 < num < 2 ^ 63 →
  String.string_of_list_ascii (List.filter not_comma (l2aCommas_chars num))
  = zstr num.
Proof.
  intros Hn. rewrite l2aCommas_chars_rev, filter_rev. unfold l2a_buffer.
  rewrite List.filter_app, rev_app_distr.
  assert (10 ^ Z.of_nat 20 = 100000000000000000000) as E20 by reflexivity.
  destruct (Z.ltb_spec num 0) as [Hneg|Hpos].
  - rewrite (wrapS_small 64) by width.
    pose proof (l2a_digits_pos 20 (- num) [] ltac:(rewrite E20; width) ltac:(done))
      as H.
    rewrite app_nil_r, string_app_nil_r in H.
    change (String "-" (String.string_of_list_ascii
      (rev (List.filter not_comma (l2a_loop 20 (- num) 1 [])))) = zstr num).
    rewrite H. by destruct num.
  - pose proof (l2a_digits_pos 20 num [] ltac:(rewrite E20; width) ltac:(done))
      as H.
    rewrite app_nil_r, string_app_nil_r in H. exact H.
Qed.

Lemma l2a_grouping num i c :
  - 2 ^ 63 < num < 2 ^ 63 →
  rev (l2aCommas_chars num) !! i = Some c →
  c = comma ↔ Z.of_nat i `mod` 4 = 3 ∧ c ≠ "-"%char.
Proof.
  intros Hn. rewrite l2aCommas_chars_rev, rev_involutive. unfold l2a_buffer.
  intros [Hi|[_ Hi]]%lookup_app_Some.
  - apply l2a_loop_commas in Hi as Hc;
      [|destruct (Z.ltb_spec num 0); unwrap; lia|lia].
    rewrite Z.add_0_r in Hc. rewrite Hc. split; [|tauto]. intros E.
    split; [done|]. apply Hc in E as ->. done.
  - destruct (num <? 0); [|done]. apply list_lookup_singleton_Some in Hi as [_ <-].
    split; [done|]. tauto.
Qed.

(** ** The properties of the parsers and of the printer *)

(** For every literal [<n><modifier>] with [n] below 2^64 and a modifier
    among none, KB, KiB, MB, MiB, GB and GiB, [convertA2I] returns [n] times
    the factor of the modifier, modulo 2^64; the process is not ended. *)
Theorem convertA2I_correct n p f :
  0 ≤ n < 2 ^ 64 → (p, f) ∈ postfixes →
  convertA2I (zstr n +:+ p) = Ret (u64 (n * f)).
Proof.
  intros Hn Hp. unfold convertA2I.
  assert (starts_with_digit p = false) as Hd.
  { unfold postfixes in Hp. list_cases Hp. }
  rewrite strtoull_zstr by done. destruct (String.eqb_spec p "") as [->|Hne].
  - assert (f = 1) as ->.
    { unfold postfixes in Hp. rewrite !elem_of_cons in Hp.
      destruct_or!; simplify_eq; try done. by apply elem_of_nil in Hp. }
    rewrite Z.mul_1_r. by rewrite (wrapU_small 64) by done.
  - by rewrite (proj2 (postfix_factor_spec p f)).
Qed.

Lemma convertA2I_correct_witness :
  convertA2I "3KiB" = Ret 3072.
Proof.
  exact (convertA2I_correct 3 "KiB" 1024 ltac:(by_decide) ltac:(by_decide)).
Defined.

(** The two copies of the parser agree on every input string: where
    [convertA2Inoexit] reports valid = 1 [convertA2I] returns the same
    number, and where it reports -1 [convertA2I] exits with EXIT_FAILURE. *)
Theorem convertA2I_noexit_equiv str r :
  let r' := convertA2Inoexit str r in
  (valid r' = 1 ∧ convertA2I str = Ret (result r') ∧ err_msg r' = err_msg r)
  ∨ (valid r' = -1 ∧ convertA2I str = Fault (FExit EXIT_FAILURE)).
Proof.
  unfold convertA2Inoexit, convertA2I.
  destruct (strtoull str) as [[v e]|]; simpl; [|tauto].
  destruct (String.eqb e ""); simpl; [tauto|].
  destruct (postfix_factor e); simpl; tauto.
Qed.



Example l2aCommas_ex1 : l2aCommas 1234567 = "1,234,567".
Proof. vm_compute. reflexivity. Qed.
Example l2aCommas_ex2 : l2aCommas (-999) = "-999".
Proof. vm_compute. reflexivity. Qed.
Example convertA2I_ex : convertA2I " 12KiB" = Ret 12288.
Proof. vm_compute. reflexivity. Qed.
