(* ===== verification/Floats.v ===== *)
(** * Floating-point numbers

    What the C++ code does with float and double: a value is the rational it stands
    for, and every operation rounds the exact result to the nearest number of the
    precision, ties to even ([rnd]). The ranges of the exponents matter only where
    text is parsed. *)
From Stdlib Require Import QArith Qreduction Qpower Lqa.
From S2P Require Import Prelude Util.

#[local] Open Scope Q_scope.

Abbreviation FLOAT := 24%Z.
Abbreviation DOUBLE := 53%Z.

(** The integer nearest to a / b, ties to even. *)
Definition div_half_even (a b : Z) : Z :=
  (let q := a / b in
   let r := a mod b in
   if 2 * r <? b then q
   else if b <? 2 * r then q + 1
   else if Z.even q then q else q + 1)%Z.

Lemma div_half_even_err a b :
  (0 < b)%Z → (- b <= 2 * (div_half_even a b * b - a) <= b)%Z.
Proof.
  intros Hb. unfold div_half_even. pose proof (Z.div_mod a b ltac:(lia)) as E.
  pose proof (Z.mod_pos_bound a b Hb).
  destruct (Z.ltb_spec (2 * (a mod b)) b); [nia|].
  destruct (Z.ltb_spec b (2 * (a mod b))); [nia|].
  destruct (Z.even (a / b)); nia.
Qed.

Definition pow2 (k : Z) : Q := Qpower 2 k.

Lemma pow2_pos k : 0 < pow2 k.
Proof. by apply Qpower_0_lt. Qed.

Lemma pow2_plus j k : pow2 (j + k) == pow2 j * pow2 k.
Proof. by apply Qpower_plus. Qed.

Lemma pow2_inv k : pow2 k * pow2 (- k) == 1.
Proof. rewrite <- pow2_plus. by rewrite Z.add_opp_diag_r. Qed.

Lemma pow2_Z k : (0 <= k)%Z → pow2 k == inject_Z (2 ^ k).
Proof. intros Hk. unfold pow2. by rewrite Zpower_Qpower. Qed.

(** The exponent: 2 ^ exp2 x is the largest power of two up to x. *)
Definition exp2 (x : Q) : Z :=
  let e := (Z.log2 (Qnum x) - Z.log2 (Zpos (Qden x)))%Z in
  if Qle_bool (pow2 e) x then e else (e - 1)%Z.

Lemma Qmake_div x : x == inject_Z (Qnum x) / inject_Z (Zpos (Qden x)).
Proof. destruct x as [n d]. rewrite <- Qmake_Qdiv. done. Qed.

Lemma exp2_spec x : 0 < x → pow2 (exp2 x) <= x ∧ x < pow2 (exp2 x + 1).
Proof.
  intros Hx. unfold exp2. set (n := Qnum x). set (d := Zpos (Qden x)).
  assert (0 < n)%Z as Hn by (unfold Qlt in Hx; simpl in Hx; lia).
  destruct (Z.log2_spec n Hn) as [N1 N2].
  destruct (Z.log2_spec d ltac:(lia)) as [D1 D2].
  set (p := Z.log2 n) in *. set (q := Z.log2 d) in *.
  assert (0 <= p)%Z by apply Z.log2_nonneg. assert (0 <= q)%Z by apply Z.log2_nonneg.
  assert (inject_Z n == x * inject_Z d) as En.
  { rewrite (Qmake_div x) at 1. fold n d. field. intros E. apply (inject_Z_injective d 0) in E.
    lia. }
  assert (pow2 q <= inject_Z d ∧ inject_Z d < pow2 (q + 1)) as [E1 E2].
  { rewrite !pow2_Z by lia. rewrite <- Zle_Qle, <- Zlt_Qlt. by rewrite Z.add_1_r. }
  assert (pow2 p <= inject_Z n ∧ inject_Z n < pow2 (p + 1)) as [E3 E4].
  { rewrite !pow2_Z by lia. rewrite <- Zle_Qle, <- Zlt_Qlt. by rewrite Z.add_1_r. }
  rewrite En in E3, E4. set (D := inject_Z d) in *.
  assert (pow2 (q + 1) == 2 * pow2 q) as P1 by (rewrite pow2_plus; change (pow2 1) with 2; ring).
  assert (pow2 (p + 1) == 2 * pow2 p) as P2 by (rewrite pow2_plus; change (pow2 1) with 2; ring).
  assert (pow2 p == pow2 (p - q) * pow2 q) as P3 by (rewrite <- pow2_plus; by rewrite Z.sub_add).
  pose proof (pow2_pos (p - q)) as H1'. pose proof (pow2_pos q) as H2'.
  assert (pow2 (p - q + 1) == 2 * pow2 (p - q)) as P4
    by (rewrite pow2_plus; change (pow2 1) with 2; ring).
  assert (pow2 (p - q) == 2 * pow2 (p - q - 1)) as P5.
  { replace (p - q)%Z with (p - q - 1 + 1)%Z at 1 by lia. rewrite pow2_plus.
    change (pow2 1) with 2. ring. }
  rewrite P1 in E2. rewrite P2, P3 in E4. rewrite P3 in E3.
  assert (x < pow2 (p - q + 1)) as Hup.
  { rewrite P4. apply Qnot_le_lt. intros Hle.
    assert (2 * pow2 (p - q) * D <= x * D) by (apply Qmult_le_compat_r; lra).
    nra. }
  destruct (Qle_bool (pow2 (p - q)) x) eqn:Eb.
  - apply Qle_bool_iff in Eb. split; [exact Eb|exact Hup].
  - assert (x < pow2 (p - q)) as Hlt.
    { apply Qnot_le_lt. intros Hle. apply Qle_bool_iff in Hle. congruence. }
    split; [|by rewrite Z.sub_add]. apply Qnot_lt_le. intros Hlt'.
    rewrite P5 in *.
    assert (x * D <= pow2 (p - q - 1) * D) by (apply Qmult_le_compat_r; lra). nra.
Qed.

(** Rounding to [prec] bits, for numbers that are not negative. *)
Definition rnd (prec : Z) (x : Q) : Q :=
  if Qle_bool x 0 then 0
  else
    let k := (prec - 1 - exp2 x)%Z in
    let y := x * pow2 k in
    Qred (inject_Z (div_half_even (Qnum y) (Zpos (Qden y))) * pow2 (- k)).

Lemma div_half_even_Q y :
  y - (1 # 2) <= inject_Z (div_half_even (Qnum y) (Zpos (Qden y)))
  ∧ inject_Z (div_half_even (Qnum y) (Zpos (Qden y))) <= y + (1 # 2).
Proof.
  destruct y as [n d]. simpl.
  pose proof (div_half_even_err n (Zpos d) ltac:(lia)) as He.
  set (m := div_half_even n (Zpos d)) in *. unfold Qle, Qplus, Qminus, Qopp. simpl.
  split; lia.
Qed.

(** The relative error of one rounding. *)
Lemma rnd_err prec x :
  0 <= x → x - x * pow2 (- prec) <= rnd prec x ∧ rnd prec x <= x + x * pow2 (- prec).
Proof.
  intros Hx. pose proof (pow2_pos (- prec)) as Hp. unfold rnd.
  destruct (Qle_bool x 0) eqn:E0.
  { apply Qle_bool_iff in E0. assert (x == 0) as -> by lra. split; lra. }
  assert (0 < x) as Hpos.
  { apply Qnot_le_lt. intros Hle. apply Qle_bool_iff in Hle. congruence. }
  destruct (exp2_spec x Hpos) as [E1 _]. rewrite Qred_correct.
  set (k := (prec - 1 - exp2 x)%Z). set (y := x * pow2 k).
  destruct (div_half_even_Q y) as [D1 D2].
  set (m := inject_Z (div_half_even (Qnum y) (Zpos (Qden y)))) in *.
  pose proof (pow2_pos (- k)) as Hk.
  assert (y * pow2 (- k) == x) as Ey
    by (unfold y; rewrite <- Qmult_assoc, pow2_inv; ring).
  assert (pow2 (- k) == 2 * (pow2 (exp2 x) * pow2 (- prec))) as Ek.
  { rewrite <- pow2_plus. change 2 with (pow2 1) at 1. rewrite <- pow2_plus.
    unfold k. replace (1 + (exp2 x + - prec))%Z with (- (prec - 1 - exp2 x))%Z by lia. done. }
  assert (pow2 (exp2 x) * pow2 (- prec) <= x * pow2 (- prec))
    by (apply Qmult_le_compat_r; lra).
  assert ((y - (1 # 2)) * pow2 (- k) <= m * pow2 (- k)) by (apply Qmult_le_compat_r; lra).
  assert (m * pow2 (- k) <= (y + (1 # 2)) * pow2 (- k)) by (apply Qmult_le_compat_r; lra).
  lra.
Qed.

Lemma rnd_nonneg prec x : (0 <= prec)%Z → 0 <= x → 0 <= rnd prec x.
Proof.
  intros Hp Hx. destruct (rnd_err prec x Hx) as [H1' _].
  assert (pow2 (- prec) <= 1).
  { pose proof (pow2_inv prec) as E. pose proof (pow2_pos (- prec)).
    assert (1 <= pow2 prec).
    { rewrite pow2_Z by done. change 1 with (inject_Z 1). rewrite <- Zle_Qle.
      pose proof (Z.pow_pos_nonneg 2 prec). lia. }
    nra. }
  nra.
Qed.

(** ** Accumulated rounding

    [close k x y]: [x] is [y] after at most [k] roundings. *)
Definition ulp : Q := pow2 (- FLOAT).

Lemma ulp_val : ulp == 1 # 16777216.
Proof. vm_compute. reflexivity. Qed.

Definition up (k : nat) : Q := Qpower (1 + ulp) (Z.of_nat k).
Definition down (k : nat) : Q := Qpower (1 - ulp) (Z.of_nat k).
Definition close (k : nat) (x y : Q) : Prop := y * down k <= x ∧ x <= y * up k.

Lemma up_S k : up (S k) == up k * (1 + ulp).
Proof.
  unfold up. rewrite Nat2Z.inj_succ, <- Z.add_1_r, Qpower_plus; [ring|].
  vm_compute. done.
Qed.

Lemma down_S k : down (S k) == down k * (1 - ulp).
Proof.
  unfold down. rewrite Nat2Z.inj_succ, <- Z.add_1_r, Qpower_plus; [ring|].
  vm_compute. done.
Qed.

Lemma up_add j k : up (j + k) == up j * up k.
Proof. unfold up. rewrite Nat2Z.inj_add, Qpower_plus; [done|]. vm_compute. done. Qed.

Lemma down_add j k : down (j + k) == down j * down k.
Proof. unfold down. rewrite Nat2Z.inj_add, Qpower_plus; [done|]. vm_compute. done. Qed.

Lemma up_ge k : 1 <= up k.
Proof.
  induction k as [|k IH]; [by vm_compute|]. rewrite up_S. pose proof ulp_val. nra.
Qed.

Lemma down_range k : 0 < down k ∧ down k <= 1.
Proof.
  induction k as [|k IH]; [by vm_compute|]. rewrite down_S. pose proof ulp_val. nra.
Qed.

(** Bernoulli's inequality, on both sides. *)
Lemma up_bound k : (k <= 4096)%nat → up k <= 1 + inject_Z (Z.of_nat k) * 2 * ulp.
Proof.
  induction k as [|k IH]; intros Hk; [by vm_compute|].
  specialize (IH ltac:(lia)). rewrite up_S.
  assert (inject_Z (Z.of_nat k) <= inject_Z 4096) as Hb by (rewrite <- Zle_Qle; lia).
  assert (0 <= inject_Z (Z.of_nat k)) by (change 0 with (inject_Z 0); rewrite <- Zle_Qle; lia).
  rewrite Nat2Z.inj_succ, <- Z.add_1_r, inject_Z_plus. rewrite ulp_val in *.
  change (inject_Z 4096) with (4096 # 1) in Hb. change (inject_Z 1) with 1.
  set (q := inject_Z (Z.of_nat k)) in *. nra.
Qed.

Lemma down_bound k : 1 - inject_Z (Z.of_nat k) * ulp <= down k.
Proof.
  induction k as [|k IH]; [by vm_compute|].
  assert (0 <= inject_Z (Z.of_nat k)) by (change 0 with (inject_Z 0); rewrite <- Zle_Qle; lia).
  rewrite down_S, Nat2Z.inj_succ, <- Z.add_1_r, inject_Z_plus.
  change (inject_Z 1) with 1. rewrite ulp_val in *.
  set (q := inject_Z (Z.of_nat k)) in *. nra.
Qed.

Lemma close_refl y : close 0 y y.
Proof. unfold close. change (up 0) with 1. change (down 0) with 1. lra. Qed.

Lemma close_nonneg k x y : close k x y → 0 <= y → 0 <= x.
Proof. intros [E _] Hy. pose proof (down_range k). nra. Qed.

Lemma close_rnd prec k x y :
  (FLOAT <= prec)%Z → 0 <= y → close k x y → close (S k) (rnd prec x) y.
Proof.
  intros Hp Hy Hc. pose proof (close_nonneg _ _ _ Hc Hy) as Hx. destruct Hc as [E1 E2].
  destruct (rnd_err prec x Hx) as [R1 R2].
  assert (pow2 (- prec) <= ulp) as Hpu.
  { unfold ulp. replace (- FLOAT)%Z with (- prec + (prec - FLOAT))%Z by lia.
    rewrite pow2_plus. assert (1 <= pow2 (prec - FLOAT)).
    { rewrite pow2_Z by lia. change 1 with (inject_Z 1). rewrite <- Zle_Qle.
      pose proof (Z.pow_pos_nonneg 2 (prec - FLOAT)). lia. }
    pose proof (pow2_pos (- prec)). nra. }
  unfold close. rewrite up_S, down_S. pose proof (up_ge k). pose proof (down_range k).
  pose proof ulp_val as Hu. assert (x * pow2 (- prec) <= x * ulp) by nra.
  rewrite Hu in *. split; nra.
Qed.

Lemma close_add k x y x' y' :
  close k x y → close k x' y' → close k (x + x') (y + y').
Proof. intros [A1 A2] [B1 B2]. split; lra. Qed.

Lemma close_le j k x y : (j <= k)%nat → 0 <= y → close j x y → close k x y.
Proof.
  intros Hjk Hy [A1 A2]. replace k with (j + (k - j))%nat by lia.
  unfold close. rewrite up_add, down_add.
  pose proof (up_ge (k - j)). pose proof (down_range (k - j)).
  pose proof (up_ge j). pose proof (down_range j).
  assert (0 <= y * down j) by nra. assert (0 <= y * up j) by nra. split; nra.
Qed.

Lemma close_mul j k x y x' y' :
  0 <= y → 0 <= y' → close j x y → close k x' y' → close (j + k) (x * x') (y * y').
Proof.
  intros Hy Hy' Hc Hc'. pose proof (close_nonneg _ _ _ Hc Hy). pose proof (close_nonneg _ _ _ Hc' Hy').
  destruct Hc as [A1 A2], Hc' as [B1 B2]. unfold close. rewrite up_add, down_add.
  pose proof (up_ge j). pose proof (down_range j). pose proof (up_ge k). pose proof (down_range k).
  assert (0 <= y * down j) by nra. assert (0 <= y' * down k) by nra.
  split.
  - apply Qle_trans with ((y * down j) * (y' * down k)); [apply Qle_lteq; right; ring|].
    apply Qle_trans with (x * (y' * down k)); nra.
  - apply Qle_trans with ((y * up j) * (y' * up k)); [|apply Qle_lteq; right; ring].
    apply Qle_trans with (x * (y' * up k)); nra.
Qed.

Lemma close_scale k c x y : 0 <= c → close k x y → close k (c * x) (c * y).
Proof. intros Hc [A1 A2]. split; nra. Qed.

(** One rounding of the divisor counts twice. *)
Lemma close_inv x y : 0 < y → close 1 x y → close 2 (/ x) (/ y).
Proof.
  intros Hy [A1 A2].
  assert (up 1 == 1 + ulp) as U1 by (rewrite up_S; change (up 0) with 1; ring).
  assert (down 1 == 1 - ulp) as D1 by (rewrite down_S; change (down 0) with 1; ring).
  assert (up 2 == (1 + ulp) * (1 + ulp)) as U2 by (rewrite up_S, U1; ring).
  assert (down 2 == (1 - ulp) * (1 - ulp)) as D2 by (rewrite down_S, D1; ring).
  pose proof ulp_val as Hu. rewrite Hu in U1, D1, U2, D2. rewrite D1 in A1.
  rewrite U1 in A2. unfold close. rewrite U2, D2.
  assert (0 < x) by nra.
  assert (y * / y == 1) as Ey by (field; lra).
  assert (0 < / y) as Hi by (by apply Qinv_lt_0_compat).
  set (iy := / y) in *. clearbody iy. split.
  - apply Qle_shift_inv_l; [done|]. nra.
  - apply Qle_shift_inv_r; [done|]. nra.
Qed.

(** ** Text *)

(** A double: a finite one is its sign, also that of a zero, and its magnitude. *)
Inductive double :=
  | Finite (neg : bool) (mag : Q)
  | Infinite (neg : bool)
  | NotANumber (neg : bool).

Definition sign_text (neg : bool) : string := if neg then "-" else "".

(** The numeral of n / 10^9 with 9 digits after the point. *)
Definition decimal9 (n : Z) : string :=
  zstr (n / 10 ^ 9) +:+ "." +:+ zero_pad 9 (n mod 10 ^ 9).

(** [std::fixed << std::setprecision(9)] *)
Definition fixed9 (d : double) : string :=
  match d with
  | Finite neg x =>
      sign_text neg +:+ decimal9 (div_half_even (Qnum x * 10 ^ 9) (Zpos (Qden x)))
  | Infinite neg => sign_text neg +:+ "inf"
  | NotANumber neg => sign_text neg +:+ "nan"
  end.

Definition DBL_MIN : Q := pow2 (- 1022).
Definition DBL_MAX_1 : Q := pow2 1024.

Definition lower (c : ascii) : ascii :=
  let n := N_of_ascii c in
  if (N.leb 65 n && N.leb n 90)%bool then ascii_of_N (n + 32) else c.

(** Does [s] start with [p] (in small letters), whatever its capitals? *)
Fixpoint starts_with_ci (p s : string) : bool :=
  match p, s with
  | EmptyString, _ => true
  | String a p, String b s => Ascii.eqb a (lower b) && starts_with_ci p s
  | _, EmptyString => false
  end.

Definition hex_value (c : ascii) : option Z :=
  let n := Z.of_N (N_of_ascii (lower c)) in
  if (97 <=? n)%Z && (n <=? 102)%Z then Some (n - 87)%Z else digit_value c.

(** The value of the leading digits of a base, accumulated, and their number. *)
Fixpoint take_base (base : Z) (value : ascii → option Z) (acc : Z) (k : nat) (s : string)
    : Z * nat * string :=
  match s with
  | String c s' =>
      match value c with
      | Some d => take_base base value (base * acc + d)%Z (S k) s'
      | None => (acc, k, s)
      end
  | EmptyString => (acc, k, s)
  end.

(** What strtod reads as a numeral at the start of [s]: its digits, the number of
    digits after the point, and the rest; [None] where there is no digit. *)
Definition take_numeral (base : Z) (value : ascii → option Z) (s : string)
    : option (Z * nat * string) :=
  let '(i, ki, r) := take_base base value 0 0 s in
  let '(v, kf, r) :=
    match r with
    | String "."%char r' => take_base base value i 0 r'
    | _ => (i, 0%nat, r)
    end in
  if (0 <? ki + kf)%nat then Some (v, kf, r) else None.

(** The exponent part after the letter [e], when it is complete. *)
Definition take_exponent (e : ascii) (s : string) : Z :=
  match s with
  | String c s =>
      if Ascii.eqb (lower c) e then
        let '(neg, s) := match s with
          | String "-"%char s => (true, s)
          | String "+"%char s => (false, s)
          | _ => (false, s) end in
        let v := (take_base 10 digit_value 0 0 s).1.1 in
        if (neg : bool) then (- v)%Z else v
      else 0%Z
  | EmptyString => 0%Z
  end.

(** A magnitude as a double; [None] is ERANGE: too large, or below the normal
    numbers and not exact. *)
Definition to_double (neg : bool) (x : Q) : option double :=
  let r := rnd DOUBLE x in
  if Qeq_bool x 0 then Some (Finite neg 0)
  else if Qle_bool DBL_MAX_1 r then None
  else if Qle_bool DBL_MIN r then Some (Finite neg r)
  else if Pos.eqb (Qden (Qred (x * pow2 1074))) 1 then Some (Finite neg (Qred x))
  else None.

(** [std::stod]; [None] is an exception: no number, or one that is out of range. *)
Definition stod (str : string) : option double :=
  let s := skip_spaces str in
  let '(neg, s) :=
    match s with
    | String "-"%char s' => (true, s')
    | String "+"%char s' => (false, s')
    | _ => (false, s)
    end in
  if starts_with_ci "inf" s then Some (Infinite neg)
  else if starts_with_ci "nan" s then Some (NotANumber neg)
  else
    match (if starts_with_ci "0x" s
           then take_numeral 16 hex_value (String.substring 2 (String.length s) s) else None) with
    | Some (v, k, rest) =>
        to_double neg (inject_Z v * pow2 (take_exponent "p" rest - 4 * Z.of_nat k))
    | None =>
        match take_numeral 10 digit_value s with
        | Some (v, k, rest) =>
            to_double neg (inject_Z v * Qpower 10 (take_exponent "e" rest - Z.of_nat k))
        | None => None
        end
    end.

Example stod_ex : option_map fixed9 (stod " -12.000000345,") = Some "-12.000000345".
Proof. vm_compute. reflexivity. Qed.
Example stod_ex2 : option_map fixed9 (stod "1.5e-3x") = Some "0.001500000".
Proof. vm_compute. reflexivity. Qed.
Example stod_ex3 : option_map fixed9 (stod "-0.0000000001") = Some "-0.000000000".
Proof. vm_compute. reflexivity. Qed.
Example stod_ex4 : option_map fixed9 (stod "0X1.8p1") = Some "3.000000000".
Proof. vm_compute. reflexivity. Qed.
Example stod_ex5 : option_map fixed9 (stod "0x") = Some "0.000000000" ∧ stod ".e1" = None.
Proof. vm_compute. done. Qed.

(** ** What is printed is read back *)
Definition digits (x : N) : nat := String.length (pretty_N_go x "").

Lemma digits_step x : (0 < x)%N → digits x = S (digits (x / 10)).
Proof.
  intros Hx. unfold digits. rewrite pretty_N_go_step by done.
  rewrite <- (string_app_nil_r (String _ EmptyString)).
  change (String ?c "" +:+ "") with ("" +:+ String c "").
  rewrite pretty_N_go_app, string_length_app. simpl. lia.
Qed.

Lemma digits_bound n x : (x < 10 ^ N.of_nat n)%N → (digits x ≤ n)%nat.
Proof.
  revert x. induction n as [|n IH]; intros x Hx.
  - replace x with 0%N by (simpl in Hx; lia). by unfold digits; rewrite pretty_N_go_0.
  - destruct (decide (x = 0%N)) as [->|]; [unfold digits; rewrite pretty_N_go_0; simpl; lia|].
    rewrite digits_step by lia. apply le_n_S, IH. apply N.Div0.div_lt_upper_bound.
    rewrite Nat2N.inj_succ, N.pow_succ_r in Hx by lia. lia.
Qed.

Lemma take_base_pretty x acc k s :
  (0 < x)%N →
  take_base 10 digit_value acc k (pretty_N_go x s)
  = take_base 10 digit_value (acc * 10 ^ Z.of_nat (digits x) + Z.of_N x) (k + digits x) s.
Proof.
  revert acc k s. induction x as [x IH] using (well_founded_induction N.lt_wf_0).
  intros acc k s Hx. rewrite pretty_N_go_step, digits_step by done.
  assert (∀ acc k, take_base 10 digit_value acc k (String (pretty_N_char (x `mod` 10)) s)
      = take_base 10 digit_value (10 * acc + Z.of_N (x `mod` 10)) (S k) s) as Hd.
  { intros. simpl. rewrite digit_value_pretty by (by apply N.mod_lt). done. }
  pose proof (N.div_mod x 10 ltac:(done)) as Ex.
  destruct (decide (x < 10)%N) as [Hlt|Hge].
  - rewrite (N.div_small x) by done. unfold digits. rewrite pretty_N_go_0, Hd.
    rewrite N.mod_small by done. f_equal; simpl; lia.
  - assert (0 < x / 10)%N by (apply N.div_str_pos; lia).
    rewrite IH by (try apply N.div_lt; lia). rewrite Hd. f_equal; [|lia].
    rewrite Nat2Z.inj_succ, Z.pow_succ_r by lia.
    replace (Z.of_N x) with (10 * Z.of_N (x / 10) + Z.of_N (x `mod` 10))%Z by lia. ring.
Qed.

Lemma take_base_zeros m acc k s :
  take_base 10 digit_value acc k (string_rep "0" m +:+ s)
  = take_base 10 digit_value (acc * 10 ^ Z.of_nat m) (k + m) s.
Proof.
  revert acc k. induction m as [|m IH]; intros acc k.
  - simpl. by rewrite Z.mul_1_r, Nat.add_0_r.
  - rewrite Nat2Z.inj_succ, Z.pow_succ_r by lia.
    change (take_base 10 digit_value acc k (string_rep "0" (S m) +:+ s)) with
      (take_base 10 digit_value (10 * acc + 0) (S k) (string_rep "0" m +:+ s)).
    rewrite IH. f_equal; [ring|lia].
Qed.

Lemma take_base_stop acc k s :
  starts_with_digit s = false → take_base 10 digit_value acc k s = (acc, k, s).
Proof. destruct s as [|c s]; simpl; [done|]. by destruct (digit_value c). Qed.

Lemma take_base_zstr z k s :
  (0 <= z)%Z →
  ∃ n, (0 < n)%nat ∧ take_base 10 digit_value 0 k (zstr z +:+ s)
  = take_base 10 digit_value z (k + n) s.
Proof.
  intros Hz. destruct (decide (z = 0%Z)) as [->|].
  - exists 1%nat. split; [lia|]. simpl. by rewrite Nat.add_1_r.
  - exists (digits (Z.to_N z)). split; [rewrite digits_step by lia; lia|].
    rewrite zstr_pos, <- pretty_N_go_app, take_base_pretty by lia.
    simpl. by rewrite Z2N.id by lia.
Qed.

Lemma zstr_length z : (0 <= z)%Z → String.length (zstr z) = Nat.max 1 (digits (Z.to_N z)).
Proof.
  intros Hz. destruct (decide (z = 0%Z)) as [->|]; [done|].
  rewrite zstr_pos by lia. fold (digits (Z.to_N z)). rewrite digits_step by lia. lia.
Qed.

Lemma take_base_zero_pad w z acc k s :
  (0 < w)%nat → (0 <= z < 10 ^ Z.of_nat w)%Z →
  take_base 10 digit_value acc k (zero_pad w z +:+ s)
  = take_base 10 digit_value (acc * 10 ^ Z.of_nat w + z) (k + w) s.
Proof.
  intros Hw Hz. unfold zero_pad. destruct (Z.ltb_spec z 0); [lia|]. unfold pad_left.
  rewrite string_app_assoc, take_base_zeros.
  pose proof (digits_bound w (Z.to_N z) ltac:(apply N2Z.inj_lt; rewrite N2Z.inj_pow; lia)) as Hd.
  rewrite zstr_length by lia. destruct (decide (z = 0%Z)) as [->|].
  - change (digits (Z.to_N 0)) with 0%nat. simpl (zstr 0 +:+ s).
    change (zstr 0 +:+ s) with (String "0" s). simpl.
    replace w with (S (w - 1)) at 3 4 by lia. rewrite Nat2Z.inj_succ, Z.pow_succ_r by lia.
    f_equal; lia.
  - rewrite zstr_pos, <- pretty_N_go_app, take_base_pretty by lia. simpl (_ +:+ s).
    assert (0 < digits (Z.to_N z))%nat by (rewrite digits_step by lia; lia).
    rewrite Nat.max_r by lia. f_equal; [|lia].
    rewrite Z2N.id by lia. f_equal. rewrite <- Z.mul_assoc. f_equal.
    rewrite <- Z.pow_add_r by lia. f_equal. lia.
Qed.

Lemma take_numeral_decimal9 n :
  (0 <= n)%Z → take_numeral 10 digit_value (decimal9 n) = Some (n, 9%nat, "").
Proof.
  intros Hn. unfold take_numeral, decimal9.
  pose proof (Z.mod_pos_bound n (10 ^ 9) ltac:(lia)) as Hm.
  destruct (take_base_zstr (n / 10 ^ 9) 0 ("." +:+ zero_pad 9 (n mod 10 ^ 9))
    ltac:(apply Z.div_pos; lia)) as (k & Hk & E).
  rewrite E, take_base_stop by done.
  change ("." +:+ zero_pad 9 ?z) with (String "." (zero_pad 9 z)). cbv iota beta.
  rewrite <- (string_app_nil_r (zero_pad 9 (n mod 10 ^ 9))).
  rewrite take_base_zero_pad by (try done; lia). change (take_base 10 digit_value ?a ?b "") with (a, b, EmptyString).
  cbv iota beta. destruct (Nat.ltb_spec 0 (0 + k + (0 + 9))); [|lia].
  repeat f_equal. rewrite (Z.div_mod n (10 ^ 9)) at 3 by lia. simpl (Z.of_nat 9). lia.
Qed.

(** Rounding n / 10^9 to a double and printing 9 digits gives n again. *)
Lemma fixed9_rnd neg n x :
  (0 <= n < 2 ^ 52)%Z → x * inject_Z (10 ^ 9) == inject_Z n →
  fixed9 (Finite neg (rnd DOUBLE x)) = sign_text neg +:+ decimal9 n.
Proof.
  intros Hn Ex. unfold fixed9. do 2 f_equal. set (r := rnd DOUBLE x).
  assert (0 <= inject_Z n) by (change 0 with (inject_Z 0); rewrite <- Zle_Qle; lia).
  assert (inject_Z n * pow2 (- DOUBLE) < (1 # 2)) as Hs.
  { assert (inject_Z n < pow2 52) by (rewrite pow2_Z by done; rewrite <- Zlt_Qlt; lia).
    assert ((1 # 2) == pow2 52 * pow2 (- DOUBLE)) as -> by (vm_compute; reflexivity).
    apply Qmult_lt_compat_r; [apply pow2_pos|done]. }
  assert (0 <= x).
  { apply Qnot_lt_le. intros Hlt. apply (Qmult_lt_compat_r _ _ (inject_Z (10 ^ 9))) in Hlt; [|done].
    rewrite Ex, Qmult_0_l in Hlt. lra. }
  destruct (rnd_err DOUBLE x ltac:(done)) as [R1 R2]. fold r in R1, R2.
  assert (inject_Z n - inject_Z n * pow2 (- DOUBLE) <= r * inject_Z (10 ^ 9)) as B1.
  { rewrite <- Ex.
    apply Qle_trans with ((x - x * pow2 (- DOUBLE)) * inject_Z (10 ^ 9)); [apply Qle_lteq; right; ring|].
    by apply Qmult_le_compat_r. }
  assert (r * inject_Z (10 ^ 9) <= inject_Z n + inject_Z n * pow2 (- DOUBLE)) as B2.
  { rewrite <- Ex.
    apply Qle_trans with ((x + x * pow2 (- DOUBLE)) * inject_Z (10 ^ 9)); [|apply Qle_lteq; right; ring].
    by apply Qmult_le_compat_r. }
  destruct (div_half_even_Q (r * inject_Z (10 ^ 9))) as [D1 D2].
  replace (Qnum (r * inject_Z (10 ^ 9))) with (Qnum r * 10 ^ 9)%Z in * by done.
  replace (Qden (r * inject_Z (10 ^ 9))) with (Qden r) in *
    by (simpl; by rewrite Pos.mul_1_r).
  set (m := div_half_even _ _) in *.
  assert (inject_Z m < inject_Z (n + 1) ∧ inject_Z (n - 1) < inject_Z m) as [L1 L2].
  { unfold Z.sub. rewrite !inject_Z_plus.
    change (inject_Z 1) with 1. change (inject_Z (- (1))%Z) with (- (1)).
    generalize dependent (r * inject_Z (10 ^ 9)).
    generalize dependent (inject_Z n * pow2 (- DOUBLE)).
    generalize (inject_Z m), (inject_Z n). intros. split; lra. }
  rewrite <- Zlt_Qlt in L1, L2. lia.
Qed.

Lemma skip_sign neg s :
  starts_with_digit s = true →
  skip_spaces (sign_text neg +:+ s) = sign_text neg +:+ s
  ∧ match sign_text neg +:+ s with
    | String "-"%char s' => (true, s')
    | String "+"%char s' => (false, s')
    | _ => (false, sign_text neg +:+ s)
    end = (neg, s)
  ∧ starts_with_ci "inf" s = false ∧ starts_with_ci "nan" s = false.
Proof.
  intros Hs. destruct neg; destruct s as [|[[] [] [] [] [] [] [] []] s]; done.
Qed.

Lemma no_hex_pretty x s :
  starts_with_ci "x" s = false → starts_with_ci "x" (pretty_N_go x s) = false
  ∧ (starts_with_ci "0x" s = false → starts_with_ci "0x" (pretty_N_go x s) = false).
Proof.
  revert s. induction x as [x IH] using (well_founded_induction N.lt_wf_0). intros s Hs.
  destruct (decide (0 < x)%N) as [Hx|].
  - rewrite pretty_N_go_step by done.
    assert (starts_with_ci "x" (String (pretty_N_char (x `mod` 10)) s) = false
      ∧ starts_with_ci "0x" (String (pretty_N_char (x `mod` 10)) s) = false) as [E1 E2].
    { pose proof (N.mod_lt x 10 ltac:(done)) as Hm.
      destruct (x `mod` 10)%N as [|p]; [by simpl; rewrite ?Hs|].
      do 4 (destruct p as [p|p|]; try done; try lia). }
    destruct (IH (x / 10)%N ltac:(apply N.div_lt; lia) _ E1). auto.
  - replace x with 0%N by lia. by rewrite pretty_N_go_0.
Qed.

Lemma no_hex_decimal9 n : (0 <= n)%Z → starts_with_ci "0x" (decimal9 n) = false.
Proof.
  intros Hn. unfold decimal9. pose proof (Z.div_pos n (10 ^ 9) Hn ltac:(lia)) as Hd.
  destruct (decide (n / 10 ^ 9 = 0)%Z) as [->|]; [done|].
  rewrite zstr_pos, <- pretty_N_go_app by lia. by apply no_hex_pretty.
Qed.

Lemma stod_decimal9 neg n :
  (0 <= n < 2 ^ 52)%Z →
  ∃ d, stod (sign_text neg +:+ decimal9 n) = Some d
    ∧ fixed9 d = sign_text neg +:+ decimal9 n.
Proof.
  intros Hn. unfold stod.
  assert (starts_with_digit (decimal9 n) = true) as Hs
    by (apply zstr_starts_with_digit, Z.div_pos; lia).
  destruct (skip_sign neg _ Hs) as (-> & E2 & E3 & E4). rewrite E2, E3, E4.
  rewrite no_hex_decimal9, take_numeral_decimal9 by lia. cbv iota beta.
  change (take_exponent "e" "" - Z.of_nat 9)%Z with (-9)%Z.
  set (x := inject_Z n * Qpower 10 (-9)).
  assert (x * inject_Z (10 ^ 9) == inject_Z n) as Ex.
  { unfold x. rewrite <- Qmult_assoc.
    assert (Qpower 10 (-9) * inject_Z (10 ^ 9) == 1) as -> by (vm_compute; reflexivity).
    apply Qmult_1_r. }
  unfold to_double. destruct (Qeq_bool x 0) eqn:E0.
  { exists (Finite neg 0). split; [done|]. apply Qeq_bool_iff in E0.
    rewrite E0, Qmult_0_l in Ex. apply (inject_Z_injective 0 n) in Ex as <-. done. }
  assert (n ≠ 0)%Z as Hn0.
  { intros ->. unfold x in E0. rewrite (proj2 (Qeq_bool_iff _ _)) in E0 by (apply Qmult_0_l). done. }
  assert (inject_Z 1 <= inject_Z n ∧ inject_Z n <= inject_Z (2 ^ 52)) as [B1 B2]
    by (split; rewrite <- Zle_Qle; lia).
  assert ((1 # 1000000000) <= x ∧ x <= inject_Z (2 ^ 52)) as [X1 X2].
  { unfold x. change (Qpower 10 (-9)) with (1 # 1000000000).
    change (inject_Z 1) with 1 in B1. change (inject_Z (2 ^ 52)) with (4503599627370496 # 1) in *.
    split; lra. }
  destruct (rnd_err DOUBLE x ltac:(lra)) as [R1 R2].
  assert (x * pow2 (- DOUBLE) <= x * (1 # 2)) as Hh by (apply Qmult_le_l; [lra|done]).
  assert (Qle_bool DBL_MAX_1 (rnd DOUBLE x) = false) as ->.
  { apply not_true_iff_false. intros Hle. apply Qle_bool_iff in Hle.
    assert (inject_Z (2 ^ 54) <= DBL_MAX_1) as Hm by (by vm_compute).
    change (inject_Z (2 ^ 52)) with (4503599627370496 # 1) in *.
    change (inject_Z (2 ^ 54)) with (18014398509481984 # 1) in *. lra. }
  assert (Qle_bool DBL_MIN (rnd DOUBLE x) = true) as ->.
  { apply Qle_bool_iff. assert (DBL_MIN <= (1 # 4000000000)) as Hm by (by vm_compute). lra. }
  eexists. split; [done|]. by apply fixed9_rnd.
Qed.
