(* ===== verification/Exec.v ===== *)
(** * The output of a command: src/cp/ntplogd/exec.cpp

    [exec] runs a command and takes its output, without the blanks around it. The
    NTP daemon and the slaves of the time-stamp counter programs use it, the latter
    in a copy, tsc/query_tsc/query_tsc.cpp. *)
From S2P Require Import Prelude Util.

Definition ltrim (s : string) : string := skip_spaces s.

Fixpoint rtrim (s : string) : string :=
  match s with
  | EmptyString => EmptyString
  | String c s =>
      match rtrim s with
      | EmptyString => if is_space c then EmptyString else String c EmptyString
      | t => String c t
      end
  end.

Definition trim (s : string) : string := rtrim (ltrim s).

(** fgets of at most [n] characters: what is stored, what is left to read, and
    whether the end of the file was seen. *)
Fixpoint fgets (n : nat) (s : string) : string * string * bool :=
  match n with
  | O => (EmptyString, s, false)
  | S n =>
      match s with
      | EmptyString => (EmptyString, EmptyString, true)
      | String c s =>
          if Ascii.eqb c "010"%char then (String c EmptyString, s, false)
          else let '(l, r, eof) := fgets n s in (String c l, r, eof)
      end
  end.

(** A read that stores nothing returns NULL and adds nothing. *)
Fixpoint exec_loop (fuel : nat) (pipe result : string) : string :=
  match fuel with
  | O => result
  | S fuel =>
      let '(buffer, pipe, eof) := fgets 127 pipe in
      let result := result +:+ c_string buffer in
      if (eof : bool) then result else exec_loop fuel pipe result
  end.

Definition exec_result (pipe : string) : string :=
  trim (exec_loop (S (String.length pipe)) pipe "").

(** ** The lines that are read *)
Lemma c_string_app_inv s t : c_string (s +:+ t) = s +:+ t → c_string s = s ∧ c_string t = t.
Proof.
  induction s as [|c s IH]; [done|]. rewrite string_app_cons. simpl.
  destruct (Ascii.eqb c "000"); [done|]. intros E. injection E as E.
  destruct (IH E) as [E1 E2]. by rewrite E1.
Qed.

Lemma fgets_split n s :
  let '(l, r, eof) := fgets n s in
  s = l +:+ r ∧ (eof = true → r = EmptyString)
  ∧ (eof = false → (0 < n)%nat → (String.length r < String.length s)%nat).
Proof.
  revert s. induction n as [|n IH]; intros [|c s]; simpl; [naive_solver lia..|].
  destruct (Ascii.eqb c "010"); [split_and!; simpl; (done || lia)|].
  specialize (IH s). destruct (fgets n s) as [[l r] eof]. destruct IH as (E & E1 & E2).
  split_and!; [by rewrite E|done|]. intros Hf _. destruct n as [|n]; [|specialize (E2 Hf); lia].
  rewrite E. rewrite string_length_app. lia.
Qed.

(** Whatever the lengths of its lines, the output of the command is read whole. *)
Lemma exec_loop_all fuel s result :
  c_string s = s → (String.length s < fuel)%nat → exec_loop fuel s result = result +:+ s.
Proof.
  revert s result. induction fuel as [|fuel IH]; intros s result Hs Hf; [lia|]. cbn [exec_loop].
  pose proof (fgets_split 127 s) as Hg. destruct (fgets 127 s) as [[l r] eof].
  destruct Hg as (E & E1 & E2). rewrite E in Hs. destruct (c_string_app_inv _ _ Hs) as [Hl Hr].
  rewrite Hl. destruct eof.
  - rewrite E, (E1 eq_refl). by rewrite string_app_nil_r.
  - specialize (E2 eq_refl ltac:(lia)). rewrite IH by (done || lia). by rewrite E, string_app_assoc.
Qed.

Lemma exec_result_spec pipe : c_string pipe = pipe → exec_result pipe = trim pipe.
Proof. intros Hp. unfold exec_result. by rewrite exec_loop_all by (done || lia). Qed.
