(* ===== verification/Doubles.v ===== *)
(** * Arithmetic of doubles

    The operations of IEEE 754 in double precision, rounding to nearest, on the values
    of Floats.v: zeros with a sign, infinities and what is not a number. *)
From Stdlib Require Import QArith Qreduction Qabs Qround.
From S2P Require Import Prelude Util Floats.

#[local] Open Scope Q_scope.

Definition value (neg : bool) (mag : Q) : Q := if neg then - mag else mag.

(** A magnitude that is not 0, rounded; [None]: it overflows. Below DBL_MIN the
    numbers have a fixed distance. *)
Definition round_mag (x : Q) : option Q :=
  if Qle_bool DBL_MIN x then
    let r := rnd DOUBLE x in
    if Qle_bool DBL_MAX_1 r then None else Some r
  else
    let y := x * pow2 1074 in
    Some (Qred (inject_Z (div_half_even (Qnum y) (Zpos (Qden y))) * pow2 (- 1074))).

(** The double nearest to [x]; [neg0] is the sign of an exact 0. *)
Definition nearest (neg0 : bool) (x : Q) : double :=
  if Qeq_bool x 0 then Finite neg0 0
  else
    let neg := negb (Qle_bool 0 x) in
    match round_mag (Qabs x) with
    | Some r => Finite neg r
    | None => Infinite neg
    end.

Definition of_int (z : Z) : double := nearest false (inject_Z z).

Definition is_zero (d : double) : bool :=
  match d with Finite _ x => Qeq_bool x 0 | _ => false end.
Definition sign_of (d : double) : bool :=
  match d with Finite neg _ | Infinite neg | NotANumber neg => neg end.

Definition dneg (d : double) : double :=
  match d with
  | Finite neg x => Finite (negb neg) x
  | Infinite neg => Infinite (negb neg)
  | NotANumber neg => NotANumber (negb neg)
  end.

Definition dadd (a b : double) : double :=
  match a, b with
  | NotANumber s, _ => NotANumber s
  | _, NotANumber s => NotANumber s
  | Infinite s, Infinite t => if Bool.eqb s t then Infinite s else NotANumber true
  | Infinite s, Finite _ _ | Finite _ _, Infinite s => Infinite s
  | Finite s x, Finite t y => nearest (s && t) (value s x + value t y)
  end.

Definition dsub (a b : double) : double :=
  match b with NotANumber _ => dadd a b | _ => dadd a (dneg b) end.

Definition dmul (a b : double) : double :=
  let s := xorb (sign_of a) (sign_of b) in
  match a, b with
  | NotANumber s, _ => NotANumber s
  | _, NotANumber s => NotANumber s
  | Finite _ x, Finite _ y => nearest s (value s (x * y))
  | _, _ => if is_zero a || is_zero b then NotANumber true else Infinite s
  end.

Definition ddiv (a b : double) : double :=
  let s := xorb (sign_of a) (sign_of b) in
  match a, b with
  | NotANumber s, _ => NotANumber s
  | _, NotANumber s => NotANumber s
  | Infinite _, Infinite _ => NotANumber true
  | Infinite _, Finite _ _ => Infinite s
  | Finite _ _, Infinite _ => Finite s 0
  | Finite _ x, Finite _ y =>
      if Qeq_bool y 0 then (if Qeq_bool x 0 then NotANumber true else Infinite s)
      else nearest s (value s (x / y))
  end.

(** [(long long)d]; [None] where the value does not fit, which is undefined. *)
Definition to_long_long (d : double) : option Z :=
  match d with
  | Finite neg x =>
      let n := Qfloor x in
      let z := if neg then Z.opp n else n in
      if (- 2 ^ 63 <=? z)%Z && (z <? 2 ^ 63)%Z then Some z else None
  | _ => None
  end.

(** [std::fixed << std::setprecision(0) << d] *)
Definition fixed0 (d : double) : string :=
  match d with
  | Finite neg x => sign_text neg +:+ zstr (div_half_even (Qnum x) (Zpos (Qden x)))
  | Infinite neg => sign_text neg +:+ "inf"
  | NotANumber neg => sign_text neg +:+ "nan"
  end.

(** A third of 10 rounds down; 0.1 + 0.2 is not 0.3; overflow; 0 / 0 and 1 / 0. *)
Example ddiv_ex :
  option_map (λ d, fixed0 (dmul (ddiv (of_int 10) (of_int 3)) d)) (stod "3e15")
  = Some "10000000000000000".
Proof. vm_compute. reflexivity. Qed.
Example dadd_ex :
  match stod "0.1", stod "0.2", stod "0.3" with
  | Some a, Some b, Some c => is_zero (dsub (dadd a b) c)
  | _, _, _ => true
  end = false.
Proof. vm_compute. reflexivity. Qed.
Example dmul_ex :
  option_map (λ d, dmul d d) (stod "-1e200") = Some (Infinite false).
Proof. vm_compute. reflexivity. Qed.
Example ddiv_ex2 :
  ddiv (of_int 0) (of_int 0) = NotANumber true ∧ ddiv (of_int (-1)) (of_int 0) = Infinite true.
Proof. vm_compute. done. Qed.
Example to_long_long_ex :
  option_map (λ d, to_long_long (dmul d (of_int 1000000))) (stod "2399.9970") = Some (Some 2399997000%Z)
  ∧ to_long_long (of_int (2 ^ 63)) = None.
Proof. vm_compute. done. Qed.
