(* ===== verification/Rand.v ===== *)
(** * Random numbers and messages: the rest of src/cp/util.c

    [init_rand] seeds the generator of the C library from the clock and [within]
    draws from it; the sockets of ending fox nodes and of time-stamp counter slaves
    get an identity of two such numbers. [Usage] and [fail] end the process. *)
From Stdlib Require Import QArith Qreduction Qpower Qround Lqa.
From S2P Require Import Prelude Util Floats.

#[local] Open Scope Z_scope.

(** ** drand48_r

    The generator of POSIX: X' = (a X + c) mod 2^48, and the number drawn is
    X' / 2^48. srand48_r takes the low 32 bits of the seed. *)
Definition DRAND48_A : Z := 25214903917.   (* 0x5DEECE66D *)
Definition DRAND48_C : Z := 11.
Definition SRAND48_LOW : Z := 13070.       (* 0x330E *)

Definition srand48_r (seedval : Z) : Z := u32 seedval * 2 ^ 16 + SRAND48_LOW.
Definition drand48_r (data : Z) : Z * Q :=
  let data := wrapU 48 (DRAND48_A * data + DRAND48_C) in
  (data, Qred (inject_Z data / inject_Z (2 ^ 48))).

(** Rounding to a double, whatever the sign. *)
Definition round_double (x : Q) : Q :=
  if Qle_bool 0 x then rnd DOUBLE x else Qopp (rnd DOUBLE (Qopp x)).

(** [realtime] is the tv_nsec of the reading of CLOCK_REALTIME, [None] when it
    fails; [data] is the struct drand48_data given. *)
Definition init_rand (realtime : option Z) (data : Z) : Z * Z :=
  match realtime with
  | None => (data, -1)
  | Some tv_nsec => (srand48_r tv_nsec, 0)
  end.

Definition within (data num : Z) : Z * Z :=
  let '(data, rand_val) := drand48_r data in
  (data, Qfloor (round_double (rand_val * inject_Z num)%Q)).

(** ** Identities *)

(** printf's %04X of a number below 2^16. *)
Definition hex_digit (d : Z) : ascii :=
  ascii_of_N (Z.to_N (if d <? 10 then 48 + d else 55 + d)).
Definition hex4 (v : Z) : string :=
  String (hex_digit (Z.land (Z.shiftr v 12) 15))
  (String (hex_digit (Z.land (Z.shiftr v 8) 15))
  (String (hex_digit (Z.land (Z.shiftr v 4) 15))
  (String (hex_digit (Z.land v 15)) ""))).

(** Both numbers are arguments of one call of sprintf, in an order that C++
    leaves open: [right_first] is the choice of the compiler. *)
Definition draw_two (right_first : bool) (data : Z) : Z * Z :=
  let '(data, v1) := within data 65536 in
  let '(_, v2) := within data 65536 in
  if right_first then (v2, v1) else (v1, v2).

Definition identity_of (draws : Z * Z) : string := hex4 draws.1 +:+ "-" +:+ hex4 draws.2.

(** ** Messages that end the process; the state is stderr and stdout. *)
Definition Usage (argv0 : string) (extra : option string)
    : M (list string * list string) unit :=
  let print s := modify (λ w, (w.1 ++ [s], w.2)) in
  print ("Usage: " +:+ argv0 +:+ " -i number_of_iterations") ;;
  (match extra with Some extra => print (" " +:+ extra) | None => mret tt end) ;;
  print nl ;;
  print ("number_of_iterations accepts postfix modifiers: "
         +:+ "KB, KiB, MB, MiB, GB, GiB" +:+ nl) ;;
  exit EXIT_FAILURE.

Definition fail_call (file : string) (line : Z) (call : string)
    : M (list string * list string) unit :=
  modify (λ w, (w.1, w.2 ++ ["ERROR: " +:+ call +:+ " FAILED, Line # " +:+ zstr line
                             +:+ ", File " +:+ file +:+ nl])) ;;
  exit EXIT_FAILURE.

(** ** Rounding a number that needs no more bits leaves it as it is *)
Lemma div_half_even_mul z d : 0 < d → div_half_even (z * d) d = z.
Proof.
  intros Hd. unfold div_half_even. rewrite Z.div_mul, Z.mod_mul by lia.
  simpl. by destruct d.
Qed.

Lemma div_half_even_int y z :
  (y == inject_Z z)%Q → div_half_even (Qnum y) (Zpos (Qden y)) = z.
Proof.
  intros E. unfold Qeq in E. simpl in E. rewrite Z.mul_1_r in E. rewrite E.
  by apply div_half_even_mul.
Qed.

Lemma pow2_mono j k : j ≤ k → (pow2 j <= pow2 k)%Q.
Proof.
  intros Hjk. replace k with (j + (k - j)) by lia. rewrite pow2_plus.
  assert (1 <= pow2 (k - j))%Q.
  { rewrite pow2_Z by lia. change 1%Q with (inject_Z 1). rewrite <- Zle_Qle.
    pose proof (Z.pow_pos_nonneg 2 (k - j)). lia. }
  pose proof (pow2_pos j). nra.
Qed.

Lemma exp2_unique x e : (0 < x → pow2 e <= x → x < pow2 (e + 1) → exp2 x = e)%Q.
Proof.
  intros Hx E1 E2. destruct (exp2_spec x Hx) as [F1 F2].
  destruct (Z.lt_trichotomy (exp2 x) e) as [Hlt|[?|Hgt]]; [|done|].
  - pose proof (pow2_mono (exp2 x + 1) e ltac:(lia)). lra.
  - pose proof (pow2_mono (e + 1) (exp2 x) ltac:(lia)). lra.
Qed.

Lemma rnd_exact prec x m j :
  0 ≤ m < 2 ^ prec → (x == inject_Z m * pow2 j)%Q → (rnd prec x == x)%Q.
Proof.
  intros [Hm Hp] Ex. pose proof (pow2_pos j) as Hj. unfold rnd.
  assert (0 <= inject_Z m)%Q as Hm' by (change 0%Q with (inject_Z 0); by rewrite <- Zle_Qle).
  destruct (Qle_bool _ 0) eqn:E0.
  { apply Qle_bool_iff in E0. assert (0 <= x)%Q by (rewrite Ex; nra). lra. }
  assert (0 < x)%Q as Hx
    by (apply Qnot_le_lt; intros Hle; apply Qle_bool_iff in Hle; congruence).
  assert (0 < m) as Hm0.
  { destruct (Z.eq_dec m 0) as [->|]; [|lia]. change (inject_Z 0) with 0%Q in Ex. lra. }
  pose proof (Z.log2_spec m Hm0) as [L1 L2]. pose proof (Z.log2_nonneg m) as L0.
  assert (exp2 x = Z.log2 m + j) as Ee.
  { apply exp2_unique; [done|..]; rewrite Ex.
    - rewrite pow2_plus, pow2_Z by done. apply Qmult_le_compat_r; [|lra]. by rewrite <- Zle_Qle.
    - replace (Z.log2 m + j + 1) with (Z.succ (Z.log2 m) + j) by lia.
      rewrite pow2_plus, (pow2_Z (Z.succ _)) by lia. apply Qmult_lt_compat_r; [lra|].
      by rewrite <- Zlt_Qlt. }
  rewrite Ee, Qred_correct. set (k := prec - 1 - (Z.log2 m + j)).
  assert (Z.log2 m < prec) as Hl.
  { apply Z.nle_gt. intros Hle. pose proof (Z.pow_le_mono_r 2 _ _ ltac:(lia) Hle). lia. }
  assert (x * pow2 k == inject_Z (m * 2 ^ (prec - 1 - Z.log2 m)))%Q as Ey.
  { rewrite Ex, inject_Z_mult, <- (pow2_Z (_ - _)) by lia.
    rewrite <- Qmult_assoc, <- pow2_plus. unfold k. f_equiv.
    replace (_ + _) with (prec - 1 - Z.log2 m) by lia. done. }
  rewrite (div_half_even_int _ _ Ey), <- Ey, <- Qmult_assoc, pow2_inv. ring.
Qed.

(** ** What is drawn *)
Lemma drand48_range data :
  let '(data', r) := drand48_r data in
  0 ≤ data' < 2 ^ 48 ∧ (r == inject_Z data' * pow2 (- 48))%Q.
Proof.
  unfold drand48_r. split; [by apply wrapU_range|].
  rewrite Qred_correct. done.
Qed.

(** A number from 0 up to, but not including, [num]. *)
Lemma within_range data num :
  0 < num < 2 ^ 31 →
  0 ≤ (within data num).2 < num ∧ 0 ≤ (within data num).1 < 2 ^ 48.
Proof.
  intros Hn. unfold within. pose proof (drand48_range data) as H.
  destruct (drand48_r data) as [d r]. destruct H as [Hd Hr]. simpl. split; [|done].
  set (x := (r * inject_Z num)%Q).
  assert (0 <= inject_Z d)%Q as D0 by (change 0%Q with (inject_Z 0); rewrite <- Zle_Qle; lia).
  assert (inject_Z d <= inject_Z (2 ^ 48 - 1))%Q as D1 by (rewrite <- Zle_Qle; lia).
  assert (inject_Z 1 <= inject_Z num)%Q as N0 by (rewrite <- Zle_Qle; lia).
  change (inject_Z 1) with 1%Q in N0.
  assert (pow2 (- 48) == 1 # 281474976710656)%Q as E48 by (by vm_compute).
  change (inject_Z (2 ^ 48 - 1)) with (281474976710655 # 1)%Q in D1.
  assert (0 <= r)%Q as R0 by (rewrite Hr, E48; lra).
  assert (r <= 281474976710655 # 281474976710656)%Q as R1 by (rewrite Hr, E48; lra).
  assert (0 <= x)%Q as X0 by (unfold x; nra).
  assert (x <= (281474976710655 # 281474976710656) * inject_Z num)%Q as X1
    by (unfold x; apply Qmult_le_compat_r; lra).
  unfold round_double. rewrite (proj2 (Qle_bool_iff 0 x) X0).
  pose proof (rnd_nonneg DOUBLE x ltac:(lia) X0) as Y0.
  destruct (rnd_err DOUBLE x X0) as [_ Y1].
  assert (pow2 (- DOUBLE) == 1 # 9007199254740992)%Q as E53 by (by vm_compute).
  rewrite E53 in Y1.
  assert (rnd DOUBLE x < inject_Z num)%Q as Y2 by lra.
  split.
  - apply Qfloor_resp_le in Y0. by change 0 with (Qfloor 0).
  - rewrite Zlt_Qlt. eapply Qle_lt_trans; [apply Qfloor_le|done].
Qed.

(** The numbers of an identity are the upper 16 bits of the state: nothing is lost
    to the rounding. *)
Lemma within_65536 data :
  within data 65536 =
  (wrapU 48 (DRAND48_A * data + DRAND48_C), wrapU 48 (DRAND48_A * data + DRAND48_C) / 2 ^ 32).
Proof.
  unfold within. pose proof (drand48_range data) as H. unfold drand48_r in *.
  set (d := wrapU 48 _) in *. destruct H as [Hd Hr]. f_equal.
  assert (Qred (inject_Z d / inject_Z (2 ^ 48)) * inject_Z 65536
          == inject_Z d * pow2 (- 32))%Q as E.
  { rewrite Hr. change (inject_Z 65536) with (pow2 16).
    rewrite <- Qmult_assoc, <- pow2_plus. done. }
  assert (0 <= inject_Z d)%Q as D0 by (change 0%Q with (inject_Z 0); rewrite <- Zle_Qle; lia).
  pose proof (pow2_pos (- 32)) as P. unfold round_double.
  rewrite (proj2 (Qle_bool_iff 0 _)) by (rewrite E; nra).
  set (y := (_ * inject_Z 65536)%Q) in *.
  assert (rnd DOUBLE y == inject_Z d * (1 # 4294967296))%Q as Ey
    by (rewrite <- E; apply (rnd_exact _ _ d (- 32)); [lia|done]).
  rewrite (Qfloor_comp _ _ Ey). unfold Qfloor, Qmult. simpl. by rewrite Z.mul_1_r.
Qed.

Lemma hex_digit_value d : 0 ≤ d < 16 → hex_value (hex_digit d) = Some d.
Proof.
  intros Hd. assert (d ∈ seqZ 0 16) as H by (apply elem_of_seqZ; lia).
  clear Hd. revert d H. apply Forall_forall. by_decide.
Qed.

Lemma hex_digit_inj d e : 0 ≤ d < 16 → 0 ≤ e < 16 → hex_digit d = hex_digit e → d = e.
Proof.
  intros Hd He E. apply (f_equal hex_value) in E. rewrite !hex_digit_value in E by done.
  by simplify_eq.
Qed.

Lemma nibble_range v k : 0 ≤ k → 0 ≤ Z.land (Z.shiftr v k) 15 < 16.
Proof.
  intros ?. change 15 with (Z.ones 4). rewrite Z.land_ones by done. by apply Z.mod_pos_bound.
Qed.

Lemma hex4_inj v w : 0 ≤ v < 65536 → 0 ≤ w < 65536 → hex4 v = hex4 w → v = w.
Proof.
  intros Hv Hw E. unfold hex4 in E.
  rewrite <- (Z.shiftr_0_r v), <- (Z.shiftr_0_r w) in E at 4.
  injection E as E3 E2 E1 E0.
  apply hex_digit_inj in E3, E2, E1, E0; try (by apply nibble_range).
  revert E3 E2 E1 E0. change 15 with (Z.ones 4).
  rewrite !Z.land_ones, !Z.shiftr_div_pow2 by done. change (2 ^ 4) with 16.
  change (2 ^ 12) with 4096. change (2 ^ 8) with 256. change (2 ^ 0) with 1. zmod.
Qed.

(** The text fits into char identity[10] with its end, and two identities are
    the same only when both numbers are. *)
Lemma identity_of_inj v w :
  0 ≤ v.1 < 65536 → 0 ≤ v.2 < 65536 → 0 ≤ w.1 < 65536 → 0 ≤ w.2 < 65536 →
  String.length (identity_of v) = 9%nat ∧ (identity_of v = identity_of w → v = w).
Proof.
  destruct v as [v1 v2], w as [w1 w2]. simpl. intros H1 H2 H3 H4. split; [done|].
  intros E. unfold identity_of, hex4 in E. simpl in E. injection E as E1 E2 E3 E4 E5 E6 E7 E8.
  f_equal; apply hex4_inj; try done; unfold hex4; congruence.
Qed.

(** What a process calls itself is a function of the nanoseconds of the clock
    alone. *)
Lemma identity_of_clock tv_nsec data right_first :
  let d1 := wrapU 48 (DRAND48_A * srand48_r tv_nsec + DRAND48_C) in
  let d2 := wrapU 48 (DRAND48_A * d1 + DRAND48_C) in
  draw_two right_first (init_rand (Some tv_nsec) data).1
  = (if right_first then (d2 / 2 ^ 32, d1 / 2 ^ 32) else (d1 / 2 ^ 32, d2 / 2 ^ 32)).
Proof. cbv zeta. unfold draw_two. simpl init_rand. simpl fst. by rewrite !within_65536. Qed.

Lemma draw_two_range right_first data :
  0 ≤ (draw_two right_first data).1 < 65536 ∧ 0 ≤ (draw_two right_first data).2 < 65536.
Proof.
  unfold draw_two.
  pose proof (within_range data 65536 ltac:(lia)) as H1. destruct (within data 65536) as [d v1].
  pose proof (within_range d 65536 ltac:(lia)) as H2. destruct (within d 65536) as [d' v2].
  simpl in *. destruct right_first; simpl; lia.
Qed.
