(* ===== verification/TimeStamp.v ===== *)
(** * Timestamps: src/cp/time.cpp, src/cp/time_tsc.h, src/cp/time_io.cpp

    [struct timespec] as redefined by time_tsc.h (seconds, nanoseconds, TSC
    value and the RDTSCP auxiliary word) with its arithmetic, its order and
    the textual form of durations. *)
From S2P Require Import Prelude Util.

(** ** Constants of globals.h *)
Definition S_PER_MIN : Z := 60.
Definition S_PER_HOUR : Z := 60 * S_PER_MIN.
Definition S_PER_DAY : Z := 24 * S_PER_HOUR.
Definition MILLI_S_PER_S : Z := 1000.
Definition MICRO_S_PER_S : Z := 1000 * MILLI_S_PER_S.
Definition NANO_S_PER_S : Z := 1000 * MICRO_S_PER_S.

(** ** Data *)
Record timespec := Timespec {
  tv_sec : Z;   (* __time_t: 64-bit signed *)
  tv_nsec : Z;  (* __syscall_slong_t: 64-bit signed *)
  tsc : Z;      (* unsigned long long *)
  aux : Z       (* unsigned int *)
}.

#[global] Instance timespec_eq_dec : EqDecision timespec.
Proof. solve_decision. Defined.

(** ** Operations

    The functions of time.cpp write through a result pointer; here they return
    the new contents of the result. [addTS], [subtractTS] and [divideTS] leave
    [result->aux] as it was, hence the argument [old]. Every field of the
    operands is read before the same field of the result is written, so the
    calls that pass one object as operand and result agree with this form. *)
Definition addTS (old t1 t2 : timespec) : timespec :=
  let sec := i64 (tv_sec t1 + tv_sec t2) in
  let nsec := i64 (tv_nsec t1 + tv_nsec t2) in
  let '(sec, nsec) :=
    if NANO_S_PER_S <=? nsec
    then (i64 (sec + 1), i64 (u64 nsec - NANO_S_PER_S))
    else (sec, nsec) in
  Timespec sec nsec (u64 (tsc t1 + tsc t2)) (aux old).

Definition subtractTS (old start end_ : timespec) : timespec :=
  if i64 (tv_nsec end_ - tv_nsec start) <? 0 then
    Timespec (i64 (tv_sec end_ - tv_sec start - 1))
      (i64 (u64 (i64 (tv_nsec end_ - tv_nsec start)) + NANO_S_PER_S))
      (u64 (tsc end_ - tsc start)) (aux old)
  else
    Timespec (i64 (tv_sec end_ - tv_sec start))
      (i64 (tv_nsec end_ - tv_nsec start))
      (u64 (tsc end_ - tsc start)) (aux old).

(** Returns the new result and 0, or the unchanged result and -1. The int
    divisor is converted to unsigned long by the division. *)
Definition divideTS (old t : timespec) (div : Z) : timespec * Z :=
  if (div =? 0) || (18446744073709551614 `div` NANO_S_PER_S <? tv_sec t)
  then (old, -1)
  else
    let ns := u64 (u64 (tv_sec t) * NANO_S_PER_S + tv_nsec t) `div` u64 div in
    (Timespec (i64 (ns `div` NANO_S_PER_S)) (i64 (ns `mod` NANO_S_PER_S))
       (tsc t `div` u64 div) (aux old), 0).

Definition compareTS (t1 t2 : timespec) : Z :=
  if (tv_sec t1 =? tv_sec t2) && (tv_nsec t1 =? tv_nsec t2) then 0
  else if (tv_sec t1 <? tv_sec t2)
          || ((tv_sec t1 =? tv_sec t2) && (tv_nsec t1 <? tv_nsec t2)) then -1
  else 1.

(** ** Abstraction: the instant a timestamp denotes, in nanoseconds *)
Definition ts_ns (t : timespec) : Z := tv_sec t * NANO_S_PER_S + tv_nsec t.

(** A normalised timestamp, the form every clock reading has. *)
Definition ts_wf (t : timespec) : Prop :=
  0 ≤ tv_nsec t < NANO_S_PER_S.

Definition ts_fits (t : timespec) : Prop :=
  ts_wf t ∧ - 2 ^ 62 ≤ tv_sec t < 2 ^ 62.

#[global] Instance ts_wf_dec t : Decision (ts_wf t).
Proof. apply _. Defined.
#[global] Instance ts_fits_dec t : Decision (ts_fits t).
Proof. apply _. Defined.

Ltac ts_unfold :=
  unfold ts_fits, ts_wf, ts_ns in *;
  change NANO_S_PER_S with 1000000000 in *;
  change (2 ^ 62) with 4611686018427387904 in *; simpl in *.

Section Arithmetic.
Implicit Types t d old : timespec.

Lemma addTS_spec old t1 t2 :
  ts_fits t1 → ts_fits t2 →
  ts_wf (addTS old t1 t2)
  ∧ ts_ns (addTS old t1 t2) = ts_ns t1 + ts_ns t2.
Proof.
  intros H1 H2. unfold addTS. ts_unfold. unwrap.
  zcase; simpl; split; autorewrite with cpw; unwrap; lia.
Qed.

Lemma subtractTS_spec old start end_ :
  ts_fits start → ts_fits end_ →
  ts_wf (subtractTS old start end_)
  ∧ ts_ns (subtractTS old start end_) = ts_ns end_ - ts_ns start.
Proof.
  intros H1 H2. unfold subtractTS. ts_unfold. unwrap.
  zcase; simpl; split; autorewrite with cpw; unwrap; lia.
Qed.

Lemma compareTS_spec t1 t2 :
  ts_wf t1 → ts_wf t2 →
  compareTS t1 t2 = match ts_ns t1 ?= ts_ns t2 with
                    | Eq => 0 | Lt => -1 | Gt => 1 end.
Proof.
  intros H1 H2. unfold compareTS. ts_unfold.
  repeat (zcase; simpl); destruct (Z.compare_spec
    (tv_sec t1 * 1000000000 + tv_nsec t1)
    (tv_sec t2 * 1000000000 + tv_nsec t2)); lia.
Qed.

Lemma divideTS_spec old t div :
  (1 ≤ div < 2 ^ 31 → ts_wf t → 0 ≤ tv_sec t < 18446744073 →
   let '(r, ret) := divideTS old t div in
   ret = 0 ∧ ts_wf r ∧ ts_ns r = ts_ns t `div` div
   ∧ tsc r = tsc t `div` div ∧ aux r = aux old)
  ∧ ((div = 0 ∨ 18446744073 < tv_sec t) → divideTS old t div = (old, -1)).
Proof.
  unfold divideTS. ts_unfold.
  change (18446744073709551614 `div` 1000000000) with 18446744073. split.
  - intros Hd Hw Hs. pow2. destruct (Z.eqb_spec div 0) as [|_]; [lia|].
    destruct (Z.ltb_spec 18446744073 (tv_sec t)) as [|_]; [lia|]. simpl.
    unwrap. set (n := tv_sec t * 1000000000 + tv_nsec t).
    assert (0 ≤ n `div` div ≤ n) as Hn.
    { split; [apply Z.div_pos; lia|]. apply Z.div_le_upper_bound; nia. }
    repeat split; rewrite ?(wrapS_small 64) by (pow2; zmod); zmod.
  - intros Hc. destruct (Z.eqb_spec div 0); [done|].
    destruct (Z.ltb_spec 18446744073 (tv_sec t)); [done|lia].
Qed.
End Arithmetic.

(** ** Text: formatTS and formatDuration

    [snprintf(s, max, ...)] keeps the first [max - 1] characters. *)
Definition snprintf (max : nat) (s : string) : string :=
  String.substring 0 (pred max) s.

Definition def_format : string := "%Y-%m-%d_%H:%M:%S".

(** What the libraries know and the code does not: the local time of an
    instant, as strftime writes it for a format ([None]: localtime_r fails),
    and the bytes an uninitialised character buffer happens to hold. *)
Class Libc := {
  local_time : string → Z → option string;
  uninit_buf : string
}.

Section Format.
Context `{Libc}.

(** The return value, and the buffer [s] where it was written. strftime
    returns 0 when the text and its NUL do not fit, or when it is empty. *)
Definition formatTS (ts : timespec) (max : nat) (format : string)
    : Z * option string :=
  match local_time format (tv_sec ts) with
  | None => (-1, None)
  | Some tmp_buf =>
      if (String.length tmp_buf =? 0)%nat
         || (max <=? String.length tmp_buf)%nat then (-1, None)
      else (0, Some (snprintf max
              (tmp_buf +:+ ":" +:+ zero_pad 9 (tv_nsec ts))))
  end.

(** The text writeTimeStampedCtr sends to its stream. The return value of
    formatTS is not looked at. *)
Definition writeTimeStampedCtr (ts : timespec) (ctr : Z) (newline : bool)
    : string :=
  default uninit_buf (formatTS ts 1024 def_format).2
  +:+ ", " +:+ zstr ctr
  +:+ ", [" +:+ zstr (tv_sec ts) +:+ ", " +:+ zstr (tv_nsec ts)
  +:+ ", " +:+ zstr (tsc ts) +:+ "]"
  +:+ (if newline then nl else "").
End Format.

Definition writeTimeStampHeader : string := "[period_end <s>, <ns>, <tsc>]".

(** [formatDuration(t_secs, ns, s, max, units)]: what is printed; the
    narrowing assignments to uint32_t and uint8_t, and the reading of the
    uint32_t by "%d" and of the uint64_t by "%ld", are explicit. *)
Definition duration_text (t_secs ns : Z) (units : bool) : string :=
  let ns_text := zero_pad 9 (i64 ns) in
  let two z := zero_pad 2 z in
  if S_PER_DAY <? t_secs then
    let days := u32 (t_secs `div` S_PER_DAY) in
    let t_secs := t_secs `mod` S_PER_DAY in
    let hours := u8 (t_secs `div` S_PER_HOUR) in
    let t_secs := t_secs `mod` S_PER_HOUR in
    let mins := u8 (t_secs `div` 60) in
    let secs := u8 (t_secs `mod` 60) in
    zstr (i32 days) +:+ "_" +:+ two hours +:+ ":" +:+ two mins +:+ ":"
    +:+ two secs +:+ ":" +:+ ns_text
    +:+ (if units then " days_hh:mm:ss:ns" else "")
  else if S_PER_HOUR <? t_secs then
    let hours := u8 (t_secs `div` S_PER_HOUR) in
    let t_secs := t_secs `mod` S_PER_HOUR in
    let mins := u8 (t_secs `div` 60) in
    let secs := u8 (t_secs `mod` 60) in
    two hours +:+ ":" +:+ two mins +:+ ":" +:+ two secs +:+ ":" +:+ ns_text
    +:+ (if units then " hh:mm:ss:ns" else "")
  else if S_PER_MIN <? t_secs then
    let mins := u8 (t_secs `div` 60) in
    let secs := u8 (t_secs `mod` 60) in
    two mins +:+ ":" +:+ two secs +:+ ":" +:+ ns_text
    +:+ (if units then " mm:ss:ns" else "")
  else if 0 <? t_secs then
    pad_left " "%char 2 (zstr (u8 t_secs)) +:+ ":" +:+ ns_text
    +:+ (if units then " ss:ns" else "")
  else
    l2aCommas (i64 ns) +:+ (if units then " ns" else "").

(** snprintf does not fail here, so the result is always 0. *)
Definition formatDuration (t_secs ns : Z) (max : nat) (units : bool)
    : Z * string := (0, snprintf max (duration_text t_secs ns units)).

Definition formatDuration_ts (ts : timespec) (max : nat) (units : bool)
    : Z * string := formatDuration (u64 (tv_sec ts)) (u64 (tv_nsec ts)) max units.

Definition formatDuration_ns (ns : Z) (max : nat) (units : bool)
    : Z * string :=
  let split_s := ns `div` NANO_S_PER_S in
  let split_ns := ns `mod` NANO_S_PER_S in
  formatDuration split_s split_ns max units.

Example duration_ex1 : duration_text 90061 5 true
  = "1_01:01:01:000000005 days_hh:mm:ss:ns".
Proof. vm_compute. reflexivity. Qed.
Example duration_ex2 : duration_text 0 1234567 true = "1,234,567 ns".
Proof. vm_compute. reflexivity. Qed.
Example duration_ex3 : duration_text 60 0 false = "60:000000000".
Proof. vm_compute. reflexivity. Qed.

(** ** The mixed-radix reading of a duration *)
Inductive duration_fields : Z → Z → Z → Z → Z → Prop :=
  | Fields t d h m s :
      0 ≤ d → 0 ≤ h < 24 → 0 ≤ m < 60 → 0 ≤ s < 60 →
      t = d * S_PER_DAY + h * S_PER_HOUR + m * S_PER_MIN + s →
      duration_fields t d h m s.

Ltac time_units :=
  change S_PER_DAY with 86400 in *; change S_PER_HOUR with 3600 in *;
  change S_PER_MIN with 60 in *; change NANO_S_PER_S with 1000000000 in *.

Lemma duration_split t :
  0 ≤ t →
  duration_fields t (t `div` S_PER_DAY) ((t `mod` S_PER_DAY) `div` S_PER_HOUR)
    (((t `mod` S_PER_DAY) `mod` S_PER_HOUR) `div` 60)
    (((t `mod` S_PER_DAY) `mod` S_PER_HOUR) `mod` 60).
Proof. intros Ht. time_units. constructor; time_units; zmod. Qed.

Lemma duration_fields_unique t d1 h1 m1 s1 d2 h2 m2 s2 :
  duration_fields t d1 h1 m1 s1 → duration_fields t d2 h2 m2 s2 →
  d1 = d2 ∧ h1 = h2 ∧ m1 = m2 ∧ s1 = s2.
Proof.
  inversion_clear 1 as [????? D1 H1 M1 S1 E1].
  inversion_clear 1 as [????? D2 H2 M2 S2 E2]. time_units. lia.
Qed.

(** ** Properties *)

(** [subtractTS] undoes [addTS]: for any two normalised instants whose
    seconds stay below 2^61 in absolute value, subtracting the first operand
    from the sum gives back the second one, seconds, nanoseconds and TSC
    delta alike; the auxiliary word of the result object is left alone. *)
Theorem add_subtract_roundtrip old t1 t2 :
  ts_wf t1 → ts_wf t2 →
  - 2 ^ 61 ≤ tv_sec t1 < 2 ^ 61 → - 2 ^ 61 ≤ tv_sec t2 < 2 ^ 61 →
  0 ≤ tsc t2 < 2 ^ 64 →
  subtractTS old t1 (addTS old t1 t2)
  = Timespec (tv_sec t2) (tv_nsec t2) (tsc t2) (aux old).
Proof.
  intros W1 W2 R1 R2 RT. change (2 ^ 61) with 2305843009213693952 in *.
  assert (tsc (subtractTS old t1 (addTS old t1 t2)) = tsc t2) as Et.
  { unfold subtractTS, addTS. repeat case_match; simpl;
    autorewrite with cpw; rewrite <- (wrapU_small 64 (tsc t2)) at 2 by done;
    apply wrapU_congr; rewrite <- (Z.mod_0_l (2 ^ 64)) by done;
    unfold wrapU; pow2; zmod. }
  assert (ts_fits t1 ∧ ts_fits t2) as [F1 F2] by (ts_unfold; lia).
  destruct (addTS_spec old t1 t2 F1 F2) as [Ws Es].
  assert (ts_fits (addTS old t1 t2)) as Fs by (ts_unfold; lia).
  destruct (subtractTS_spec old t1 (addTS old t1 t2) F1 Fs) as [Wd Ed].
  assert (aux (subtractTS old t1 (addTS old t1 t2)) = aux old) as Ea
    by (unfold subtractTS; by case_match).
  destruct (subtractTS old t1 (addTS old t1 t2)) as [s n c a].
  ts_unfold. subst. f_equal; lia.
Qed.

Lemma add_subtract_roundtrip_witness :
  let t1 := Timespec 1700000000 999999999 (2 ^ 64 - 5) 3 in
  let t2 := Timespec 2 7 1000 9 in
  let r := Timespec 0 0 0 42 in
  addTS r t1 t2 = Timespec 1700000003 6 995 42
  ∧ subtractTS r t1 (addTS r t1 t2) = Timespec 2 7 1000 42.
Proof.
  intros t1 t2 r. split; [reflexivity|].
  exact (add_subtract_roundtrip r t1 t2 ltac:(by_decide) ltac:(by_decide)
    ltac:(by_decide) ltac:(by_decide) ltac:(by_decide)).
Defined.

(** [compareTS] is the order of the instants in nanoseconds: -1, 0 or 1 as
    the first is before, equal to or after the second, and exchanging the
    operands negates the answer. *)
Theorem compareTS_order t1 t2 :
  ts_wf t1 → ts_wf t2 →
  (compareTS t1 t2 = -1 ↔ ts_ns t1 < ts_ns t2)
  ∧ (compareTS t1 t2 = 0 ↔ ts_ns t1 = ts_ns t2)
  ∧ (compareTS t1 t2 = 1 ↔ ts_ns t1 > ts_ns t2)
  ∧ compareTS t2 t1 = - compareTS t1 t2.
Proof.
  intros W1 W2. rewrite !compareTS_spec, (Z.compare_antisym (ts_ns t1)) by done.
  destruct (Z.compare_spec (ts_ns t1) (ts_ns t2)); simpl; lia.
Qed.

Lemma compareTS_order_witness :
  compareTS (Timespec 5 1 0 0) (Timespec 4 999999999 0 0) = 1.
Proof.
  apply (compareTS_order (Timespec 5 1 0 0) (Timespec 4 999999999 0 0));
    [by_decide|by_decide|reflexivity].
Defined.

(** [divideTS] divides an instant by a positive int exactly (rounding
    down) and leaves a normalised result, for seconds below the overflow
    guard; a zero divisor or seconds above the guard leave the result object
    untouched and return -1. *)
Theorem divideTS_correct old t div :
  (1 ≤ div < 2 ^ 31 → ts_wf t → 0 ≤ tv_sec t < 18446744073 →
   let '(r, ret) := divideTS old t div in
   ret = 0 ∧ ts_wf r ∧ ts_ns r = ts_ns t `div` div
   ∧ tsc r = tsc t `div` div ∧ aux r = aux old)
  ∧ ((div = 0 ∨ 18446744073 < tv_sec t) → divideTS old t div = (old, -1)).
Proof. apply divideTS_spec. Qed.

Lemma divideTS_correct_witness :
  let t := Timespec 10 500000000 4000 1 in
  let '(r, ret) := divideTS (Timespec 0 0 0 7) t 4 in
  ret = 0 ∧ ts_wf r ∧ ts_ns r = ts_ns t `div` 4
  ∧ tsc r = tsc t `div` 4 ∧ aux r = 7.
Proof.
  apply (proj1 (divideTS_correct (Timespec 0 0 0 7)
                  (Timespec 10 500000000 4000 1) 4)); by_decide.
Defined.

(** [formatDuration] shows every duration below 2^31 days exactly: the
    days, hours, minutes and seconds it prints are the mixed-radix digits of
    the seconds (no narrowing store loses a bit), with the leading units left
    out when the duration does not exceed one day, hour or minute. *)
Theorem formatDuration_fields t_secs ns units d h m s :
  duration_fields t_secs d h m s → d < 2 ^ 31 → 0 ≤ ns < 2 ^ 63 →
  duration_text t_secs ns units =
    if S_PER_DAY <? t_secs then
      zstr d +:+ "_" +:+ zero_pad 2 h +:+ ":" +:+ zero_pad 2 m +:+ ":"
      +:+ zero_pad 2 s +:+ ":" +:+ zero_pad 9 ns
      +:+ (if units then " days_hh:mm:ss:ns" else "")
    else if S_PER_HOUR <? t_secs then
      zero_pad 2 (24 * d + h) +:+ ":" +:+ zero_pad 2 m +:+ ":"
      +:+ zero_pad 2 s +:+ ":" +:+ zero_pad 9 ns
      +:+ (if units then " hh:mm:ss:ns" else "")
    else if S_PER_MIN <? t_secs then
      zero_pad 2 (60 * h + m) +:+ ":" +:+ zero_pad 2 s +:+ ":" +:+ zero_pad 9 ns
      +:+ (if units then " mm:ss:ns" else "")
    else if 0 <? t_secs then
      pad_left " "%char 2 (zstr (60 * m + s)) +:+ ":" +:+ zero_pad 9 ns
      +:+ (if units then " ss:ns" else "")
    else l2aCommas ns +:+ (if units then " ns" else "").
Proof.
  intros Hf Hd Hns. assert (0 ≤ t_secs) as Ht
    by (destruct Hf; time_units; lia).
  pose proof (duration_split t_secs Ht) as Hs.
  destruct (duration_fields_unique _ _ _ _ _ _ _ _ _ Hf Hs)
    as (Ed & Eh & Em & Es).
  destruct Hf. unfold duration_text. time_units. rewrite (wrapS_small 64) by width.
  zcase; [|zcase; [|zcase; [|zcase; [|done]]]].
  - rewrite <- Ed, <- Eh, <- Em, <- Es. by unwrap.
  - rewrite !(wrapU_small 8) by (pow2; zmod). repeat f_equal; zmod.
  - rewrite !(wrapU_small 8) by (pow2; zmod). repeat f_equal; zmod.
  - rewrite !(wrapU_small 8) by (pow2; zmod). repeat f_equal; zmod.
Qed.

Lemma formatDuration_fields_witness :
  duration_text 273906 12 true = "3_04:05:06:000000012 days_hh:mm:ss:ns".
Proof.
  rewrite (formatDuration_fields 273906 12 true 3 4 5 6);
    [vm_compute; reflexivity| |by_decide|by_decide].
  constructor; vm_compute; intuition discriminate.
Defined.
