(* ===== verification/Platform.v ===== *)
(** * The operating system as the library sees it

    The process-wide state the components share ([sys]), the values only the
    running system can supply ([Env]: clock readings, network interfaces, the
    files that can be created), C++ output streams, and the IP look-up of
    src/cp/net.c. *)
From S2P Require Import Prelude TimeStamp.

(** ** Output streams

    [std::ofstream]: a stream that failed to open, or that was closed, drops
    what is written to it. The file holds the chunks of the successful
    writes, oldest first. *)
Record ofstream := Ofstream {
  ofs_open : bool;
  ofs_fail : bool;
  ofs_file : list string
}.

Definition ofs_new : ofstream := Ofstream false false [].

(** open(name, out|trunc): truncates the file and clears the fail bit, or sets it. Opening
    an open stream fails as well. *)
Definition ofs_do_open (creatable : bool) (o : ofstream) : ofstream :=
  if negb (ofs_open o) && creatable then Ofstream true false []
  else Ofstream (ofs_open o) true (ofs_file o).

Definition ofs_write (s : string) (o : ofstream) : ofstream :=
  if ofs_open o && negb (ofs_fail o)
  then Ofstream true false (ofs_file o ++ [s])
  else Ofstream (ofs_open o) true (ofs_file o).

Definition ofs_close (o : ofstream) : ofstream :=
  if ofs_open o then Ofstream false (ofs_fail o) (ofs_file o)
  else Ofstream false true (ofs_file o).

(** A stream that takes everything written to it. *)
Definition ofs_ok (o : ofstream) : Prop := ofs_open o = true ∧ ofs_fail o = false.

#[global] Instance ofs_ok_dec o : Decision (ofs_ok o).
Proof. apply _. Defined.

Lemma ofs_write_ok s o :
  ofs_ok o → ofs_write s o = Ofstream true false (ofs_file o ++ [s]).
Proof. intros [E1 E2]. unfold ofs_write. by rewrite E1, E2. Qed.

Lemma ofs_write_open s o : ofs_open (ofs_write s o) = ofs_open o.
Proof. unfold ofs_write. by destruct o as [[] []]. Qed.

Lemma ofs_write_closed s o :
  ofs_open o = false → ofs_file (ofs_write s o) = ofs_file o.
Proof. unfold ofs_write. by intros ->. Qed.

Lemma ofs_write_prefix s o : ofs_file o `prefix_of` ofs_file (ofs_write s o).
Proof. unfold ofs_write. case_match; simpl; [by apply prefix_app_r|done]. Qed.
#[export] Hint Resolve ofs_write_prefix : cp.

(** Lines written, as an update of the stream. *)
Definition ofs_writes (l : list string) (o : ofstream) : ofstream :=
  foldl (λ o s, ofs_write s o) o l.

Lemma ofs_writes_ok l o :
  ofs_ok o → ofs_ok (ofs_writes l o) ∧ ofs_file (ofs_writes l o) = ofs_file o ++ l.
Proof.
  revert o. induction l as [|s l IH]; intros o Ho; simpl.
  { by rewrite app_nil_r. }
  rewrite ofs_write_ok by done.
  destruct (IH (Ofstream true false (ofs_file o ++ [s]))) as [H1 H2]; [done|].
  split; [done|]. rewrite H2. simpl. by rewrite <- app_assoc.
Qed.

(** ** Network interfaces, as getifaddrs(3) lists them *)
Inductive sockaddr :=
  | AF_INET (quad : string)
  | AF_INET6
  | AF_OTHER.

Record ifaddr := Ifaddr { ifa_name : string; ifa_addr : option sockaddr }.

(** ** Memory: what realloc(3) does with an aligned block *)
Inductive realloc_result := Aligned | Misaligned | NoMemory.

(** ** The environment of a run *)
Class Env := {
  env_libc :: Libc;
  clock : nat → timespec;          (* the n-th reading of clock_gettime_tsc *)
  tsc_clock : nat → Z;             (* what rdtsc reads instead at that point *)
  stale_ts : timespec;             (* an uninitialised struct timespec *)
  fresh_mem : nat → timespec;      (* an uninitialised array of them *)
  pad_word : Z;                    (* the 4 padding bytes of one *)
  aligned_alloc_ok : Z → bool;     (* by size *)
  realloc_aligned : Z → realloc_result;
  getifaddrs : option (list ifaddr);   (* None: the call fails *)
  creatable : string → bool;       (* the files a stream can create *)
  getpid : Z;
  gettid : Z
}.

(** ** The process-wide state *)
Record sys := Sys {
  clk : nat;                (* clock readings so far *)
  IP : option string;       (* net.c: IP, with IP_valid *)
  md0 : bool;               (* /tmp/md0 exists *)
  outfile_name : string;    (* log.cpp *)
  to_console : bool;
  logf : ofstream;
  console : list string
}.

Definition set_clk n s := Sys n (IP s) (md0 s) (outfile_name s) (to_console s)
  (logf s) (console s).
Definition set_IP x s := Sys (clk s) x (md0 s) (outfile_name s) (to_console s)
  (logf s) (console s).
Definition set_md0 x s := Sys (clk s) (IP s) x (outfile_name s) (to_console s)
  (logf s) (console s).
Definition set_outfile_name x s := Sys (clk s) (IP s) (md0 s) x (to_console s)
  (logf s) (console s).
Definition set_to_console x s := Sys (clk s) (IP s) (md0 s) (outfile_name s) x
  (logf s) (console s).
Definition set_logf x s := Sys (clk s) (IP s) (md0 s) (outfile_name s)
  (to_console s) x (console s).
Definition set_console x s := Sys (clk s) (IP s) (md0 s) (outfile_name s)
  (to_console s) (logf s) x.

Section Platform.
Context `{Env}.

(** One reading of CLOCK_REALTIME with RDTSCP. *)
Definition clock_gettime_tsc : M sys timespec :=
  s ← get; modify (set_clk (S (clk s))) ;; mret (clock (clk s)).

(** Only the TSC field is stored; the rest of the object is what it was. *)
Definition clock_gettime_tsc_only (old : timespec) : M sys timespec :=
  s ← get;
  modify (set_clk (S (clk s))) ;;
  mret (Timespec (tv_sec old) (tv_nsec old) (tsc_clock (clk s)) (aux old)).

(** The first non-loopback IPv4 address. *)
Fixpoint first_quad (l : list ifaddr) : option string :=
  match l with
  | [] => None
  | i :: l =>
      match ifa_addr i with
      | Some (AF_INET quad) =>
          if String.eqb "lo" (ifa_name i) then first_quad l else Some quad
      | _ => first_quad l
      end
  end.

(** net.c: returns 0 and the address, or -1 and the default address; a
    found address is kept for the rest of the process. *)
Definition getIPDottedQuad : M sys (Z * string) :=
  s ← get;
  match IP s with
  | Some ip => mret (0, ip)
  | None =>
      match getifaddrs with
      | None => mret (-1, "0.0.0.0")
      | Some l =>
          match first_quad l with
          | Some quad => modify (set_IP (Some quad)) ;; mret (0, quad)
          | None => mret (-1, "0.0.0.0")
          end
      end
  end.
End Platform.

(** ** A concrete environment, at which the theorems are instantiated *)
Definition demo_libc : Libc := {|
  local_time := λ _ t, Some ("1970-01-01_00:00:" +:+ zero_pad 2 (t `mod` 60));
  uninit_buf := ""
|}.

Definition demo_env : Env := {|
  env_libc := demo_libc;
  clock := λ n, Timespec (1000 + Z.of_nat n) 500 (7000 + 10 * Z.of_nat n) 3;
  tsc_clock := λ n, 7000 + 10 * Z.of_nat n;
  stale_ts := Timespec 0 0 0 0;
  fresh_mem := λ _, Timespec 0 0 0 0;
  pad_word := 0;
  aligned_alloc_ok := λ _, true;
  realloc_aligned := λ _, Aligned;
  getifaddrs := Some [Ifaddr "lo" (Some (AF_INET "127.0.0.1"));
                      Ifaddr "eth0" (Some (AF_INET "10.0.0.7"))];
  creatable := λ _, true;
  getpid := 4242;
  gettid := 4243
|}.
