(* ===== verification/Log.v ===== *)
(** * The status log: src/cp/log.cpp

    One log file per process, opened on first use, which every component
    reports its failures and state changes to. *)
From S2P Require Import Prelude TimeStamp Platform.

Definition MAX_NAME_LEN : Z := 1024.
Definition outfile_default : string := "/tmp/cloud_profiler_logfile".

Section Log.
Context `{Env}.

Definition openStatusLogFile : M sys unit :=
  s ← get;
  if ofs_open (logf s) then mret tt
  else
    '(_, tmp_buf) ← getIPDottedQuad;
    s ← get;
    let name := outfile_name s +:+ ":" +:+ tmp_buf +:+ ":" +:+ zstr getpid
                +:+ ".txt" in
    modify (set_logf (ofs_do_open (creatable name) (logf s))).

Definition closeStatusLogFile : M sys unit :=
  s ← get;
  when (ofs_open (logf s)) (modify (set_logf (ofs_close (logf s)))).

(** The common tail of logFail and logStatus: one line to the log file and,
    when the console is on, to standard output. *)
Definition log_line (msgstrm : string) : M sys unit :=
  s ← get;
  when (negb (ofs_open (logf s))) openStatusLogFile ;;
  modify (λ s, set_logf (ofs_write msgstrm (logf s)) s) ;;
  s ← get;
  when (to_console s) (modify (λ s, set_console (console s ++ [msgstrm]) s)).

Definition logFail (file : string) (line : Z) (msg : string) : M sys unit :=
  log_line ("ERROR: " +:+ msg +:+ ", line # " +:+ zstr line
            +:+ ", file " +:+ file +:+ nl).

Definition logFail_err (file : string) (line : Z) (msg : string) (err : Z)
    : M sys unit :=
  logFail file line (msg +:+ ", error: " +:+ zstr err +:+ nl).

Definition logStatus (file : string) (line : Z) (msg : string) : M sys unit :=
  log_line ("STATUS: " +:+ msg +:+ ", file " +:+ file
            +:+ ", line # " +:+ zstr line +:+ nl).

Definition logStatus_err (file : string) (line : Z) (msg : string) (err : Z)
    : M sys unit :=
  logStatus file line (msg +:+ ", error: " +:+ zstr err +:+ nl).

Definition toggleConsoleLog (flag : bool) : M sys unit :=
  modify (set_to_console flag).

(** assert(strlen(name) < MAX_NAME_LEN) aborts on a longer name. *)
Definition setLogFileName (name : string) : M sys unit :=
  if Z.of_nat (String.length name) <? MAX_NAME_LEN
  then modify (set_outfile_name name)
  else abort "assertion failed".

(** The initial state of the globals of log.cpp and net.c. *)
Definition sys_init (md0_exists : bool) : sys :=
  Sys 0 None md0_exists outfile_default false ofs_new [].

(** ** What logging does and does not touch

    A log call always returns; it reads no clock, and the lines that were
    in the log file stay in front. *)
Record log_only (s s' : sys) : Prop := LogOnly {
  lo_clk : clk s' = clk s;
  lo_md0 : md0 s' = md0 s;
  lo_name : outfile_name s' = outfile_name s;
  lo_con : to_console s' = to_console s;
  lo_IP : is_Some (IP s) → IP s' = IP s
}.

#[global] Instance log_only_po : PreOrder log_only.
Proof.
  split; [done|]. intros s1 s2 s3 [] [? ? ? ? HI].
  constructor; try congruence. intros Hs. rewrite HI; auto. rewrite lo_IP0; auto.
Qed.

Lemma getIPDottedQuad_frame s :
  ∃ s' r, getIPDottedQuad s = (s', Ret r) ∧ log_only s s'
          ∧ logf s' = logf s ∧ console s' = console s.
Proof.
  unfold getIPDottedQuad. monad_simpl.
  repeat case_match; do 2 eexists; split_and!; try done; constructor; try done;
    simpl in *; intros [? ?]; congruence.
Qed.

Lemma openStatusLogFile_frame s :
  ∃ s', openStatusLogFile s = (s', Ret tt) ∧ log_only s s'
        ∧ (ofs_open (logf s) = true → s' = s).
Proof.
  destruct (getIPDottedQuad_frame s) as (s1 & [z q] & E & L & _).
  unfold openStatusLogFile. monad_simpl. destruct (ofs_open (logf s)); simpl.
  { by exists s. }
  rewrite E. eexists. split_and!; [done| |done]. by destruct L.
Qed.

Lemma log_line_frame m s :
  ∃ s', log_line m s = (s', Ret tt) ∧ log_only s s'.
Proof.
  destruct (openStatusLogFile_frame s) as (s1 & E & L & _).
  unfold log_line. monad_simpl. destruct (ofs_open (logf s)); simpl.
  - destruct (to_console s) eqn:Ec; by eexists.
  - rewrite E. simpl.
    destruct (to_console s1) eqn:Ec; eexists; (split; [done|]); by destruct L.
Qed.

Lemma logFail_frame f l m s :
  ∃ s', logFail f l m s = (s', Ret tt) ∧ log_only s s'.
Proof. apply log_line_frame. Qed.

Lemma logStatus_frame f l m s :
  ∃ s', logStatus f l m s = (s', Ret tt) ∧ log_only s s'.
Proof. apply log_line_frame. Qed.

(** The file and the console while the log is open. *)
Lemma log_line_open m s :
  ofs_ok (logf s) →
  log_line m s =
    (set_console (console s ++ (if to_console s then [m] else []))
       (set_logf (Ofstream true false (ofs_file (logf s) ++ [m])) s), Ret tt).
Proof.
  intros Hok. pose proof Hok as [E1 E2]. unfold log_line. monad_simpl.
  rewrite E1. simpl. rewrite (ofs_write_ok m (logf s)) by done.
  destruct s as [a b c d e f g]; simpl. destruct e; simpl; [done|].
  by rewrite app_nil_r.
Qed.

(** A stream that is open takes what is written; every state of the program
    satisfies this, since the stream is only opened, written and closed. *)
Definition log_wf (s : sys) : Prop :=
  ofs_open (logf s) = true → ofs_fail (logf s) = false.

Lemma openStatusLogFile_ok s :
  log_wf s → (∀ name, creatable name = true) →
  ∃ s', openStatusLogFile s = (s', Ret tt) ∧ log_only s s'
        ∧ console s' = console s
        ∧ logf s' = if ofs_open (logf s) then logf s
                    else Ofstream true false [].
Proof.
  intros W Hc. destruct (getIPDottedQuad_frame s) as (s1 & [z q] & E & L & E1 & E2).
  unfold openStatusLogFile. monad_simpl.
  destruct (ofs_open (logf s)) eqn:Eo; simpl; [by exists s|].
  rewrite E. simpl. rewrite Hc, E1. unfold ofs_do_open. rewrite Eo. simpl.
  eexists. split_and!; [done| |done..]. by destruct L.
Qed.

(** Reporting a failure always returns and loses nothing: the report is
    the last line of the log file, after all lines already there when the
    file was open (an unopened log is created empty first), and it is echoed
    to the console iff the console log is on. *)
Theorem logFail_appends file line msg s :
  log_wf s → (∀ name, creatable name = true) →
  let text := "ERROR: " +:+ msg +:+ ", line # " +:+ zstr line
              +:+ ", file " +:+ file +:+ nl in
  ∃ s', logFail file line msg s = (s', Ret tt) ∧ log_only s s' ∧ log_wf s'
    ∧ ofs_file (logf s')
      = (if ofs_open (logf s) then ofs_file (logf s) else []) ++ [text]
    ∧ console s' = console s ++ (if to_console s then [text] else []).
Proof.
  intros W Hc text. unfold logFail. fold text.
  destruct (ofs_open (logf s)) eqn:Eo.
  - rewrite log_line_open by (split; auto).
    eexists. split; [done|]. split; [done|]. by split.
  - destruct (openStatusLogFile_ok s W Hc) as (s1 & E1 & L & Ec & El).
    rewrite Eo in El. destruct L as [L1 L2 L3 L4].
    assert (log_line text s = log_line text s1) as ->.
    { unfold log_line. monad_simpl. rewrite Eo, El. simpl. by rewrite E1. }
    rewrite log_line_open by (by rewrite El).
    eexists. split; [done|]. split; [done|]. split; [done|].
    rewrite El. simpl. rewrite Ec, L4. done.
Qed.
End Log.

Lemma logFail_appends_witness :
  let s := @sys_init true in
  ∃ s', @logFail demo_env "a.cpp" 7 "boom" s = (s', Ret tt)
    ∧ ofs_file (logf s') = ["ERROR: boom, line # 7, file a.cpp" +:+ nl].
Proof.
  intros s. destruct (@logFail_appends demo_env "a.cpp" 7 "boom" s
    ltac:(discriminate) ltac:(reflexivity)) as (s' & E & _ & _ & F & _).
  exists s'. split; [exact E|exact F].
Defined.

#[export] Hint Resolve logFail_frame logStatus_frame : cp.

(** Runs the next log call of the goal. *)
Ltac log_step := simpl;
  match goal with
  | |- context [logFail ?f ?l ?m ?s] =>
      let s' := fresh "s" in let E := fresh "Elog" in let L := fresh "L" in
      destruct (logFail_frame f l m s) as (s' & E & L); rewrite E; simpl
  | |- context [logStatus ?f ?l ?m ?s] =>
      let s' := fresh "s" in let E := fresh "Elog" in let L := fresh "L" in
      destruct (logStatus_frame f l m s) as (s' & E & L); rewrite E; simpl
  end.
