(* ===== verification/Formats.v ===== *)
(** * Log formats and handler types: src/include/cloud_profiler.h and
    src/cp/handlers.cpp

    The two enumerations of the public interface and their textual names,
    which the configuration server and its clients exchange. *)
From S2P Require Import Prelude.

Inductive log_format :=
  | ASCII | ASCII_TSC | BINARY | BINARY_TSC
  | ZSTD | ZSTD_TSC | LZO1X | LZO1X_TSC.

Inductive handler_type :=
  | IDENTITY | BUFFER_IDENTITY | BUFFER_IDENTITY_COMP
  | MEDIAN | DOWNSAMPLE | XOY | FIRSTLAST
  | PERIODICCOUNTER | FASTPERIODICCOUNTER | NULLH | NET_CONF
  | FOX_START | FOX_END | GPIORTT.

#[global] Instance log_format_eq_dec : EqDecision log_format.
Proof. solve_decision. Defined.
#[global] Instance handler_type_eq_dec : EqDecision handler_type.
Proof. solve_decision. Defined.

(** The numbers C++ gives to the enumerators, in the order of declaration. *)
Definition all_formats : list log_format :=
  [ASCII; ASCII_TSC; BINARY; BINARY_TSC; ZSTD; ZSTD_TSC; LZO1X; LZO1X_TSC].
Definition all_handlers : list handler_type :=
  [IDENTITY; BUFFER_IDENTITY; BUFFER_IDENTITY_COMP; MEDIAN; DOWNSAMPLE; XOY;
   FIRSTLAST; PERIODICCOUNTER; FASTPERIODICCOUNTER; NULLH; NET_CONF;
   FOX_START; FOX_END; GPIORTT].

#[global] Instance log_format_finite : finite.Finite log_format.
Proof.
  refine {| finite.enum := all_formats |}; [by_decide|].
  intros []; by_decide.
Defined.
#[global] Instance handler_type_finite : finite.Finite handler_type.
Proof.
  refine {| finite.enum := all_handlers |}; [by_decide|].
  intros []; by_decide.
Defined.

(** ** The four maps *)
Definition String2HandlerMap : gmap string handler_type := list_to_map [
  ("IDENTITY",             IDENTITY);
  ("MEDIAN",               MEDIAN);
  ("DOWNSAMPLE",           DOWNSAMPLE);
  ("XOY",                  XOY);
  ("FIRSTLAST",            FIRSTLAST);
  ("PERIODICCOUNTER",      PERIODICCOUNTER);
  ("FASTPERIODICCOUNTER",  FASTPERIODICCOUNTER);
  ("NULLH",                NULLH);
  ("NET_CONF",             NET_CONF);
  ("FOX_START",            FOX_START);
  ("FOX_END",              FOX_END);
  ("GPIORTT",              GPIORTT);
  ("BUFFER_IDENTITY",      BUFFER_IDENTITY);
  ("BUFFER_IDENTITY_COMP", BUFFER_IDENTITY_COMP)].

Definition Handler2StringMap : gmap handler_type string := list_to_map [
  (IDENTITY,             "IDENTITY");
  (MEDIAN,               "MEDIAN");
  (DOWNSAMPLE,           "DOWNSAMPLE");
  (XOY,                  "XOY");
  (FIRSTLAST,            "FIRSTLAST");
  (PERIODICCOUNTER,      "PERIODICCOUNTER");
  (FASTPERIODICCOUNTER,  "FASTPERIODICCOUNTER");
  (NULLH,                "NULLH");
  (NET_CONF,             "NET_CONF");
  (FOX_START,            "FOX_START");
  (FOX_END,              "FOX_END");
  (GPIORTT,              "GPIORTT");
  (BUFFER_IDENTITY,      "BUFFER_IDENTITY");
  (BUFFER_IDENTITY_COMP, "BUFFER_IDENTITY_COMP")].

Definition LogFormat2StringMap : gmap log_format string := list_to_map [
  (ASCII,      "a");
  (BINARY,     "b");
  (ZSTD,       "z");
  (LZO1X,      "l");
  (ASCII_TSC,  "i");
  (BINARY_TSC, "y");
  (ZSTD_TSC,   "d");
  (LZO1X_TSC,  "x")].

Definition String2LogFormatMap : gmap string log_format := list_to_map [
  ("a", ASCII);
  ("b", BINARY);
  ("z", ZSTD);
  ("l", LZO1X);
  ("i", ASCII_TSC);
  ("y", BINARY_TSC);
  ("d", ZSTD_TSC);
  ("x", LZO1X_TSC)].

(** ** The conversions: [None] where the function returns false *)
Definition str_to_handler (s : string) : option handler_type :=
  String2HandlerMap !! s.
Definition handler_to_str (t : handler_type) : option string :=
  Handler2StringMap !! t.
Definition format_to_str (f : log_format) : option string :=
  LogFormat2StringMap !! f.
Definition str_to_format (s : string) : option log_format :=
  String2LogFormatMap !! s.

Lemma handler_to_str_total t : is_Some (handler_to_str t).
Proof. destruct t; by eexists. Qed.
Lemma format_to_str_total f : is_Some (format_to_str f).
Proof. destruct f; by eexists. Qed.
#[export] Hint Resolve handler_to_str_total format_to_str_total : cp.

(** A [list_to_map] lookup is membership when the keys are distinct, which is
    decided by evaluation. *)
Lemma map_table_lookup {V} (l : list (string * V)) k v :
  bool_decide (NoDup l.*1) = true →
  (list_to_map l : gmap string V) !! k = Some v → (k, v) ∈ l.
Proof.
  intros Hd%bool_decide_eq_true_1 Hl. by apply elem_of_list_to_map.
Qed.

(** Handler types and log formats survive the trip through their textual
    names in both directions: every enumerator has a name that reads back as
    itself, and every string that is recognised is the name of the enumerator
    it is read as, so no other string is accepted. *)
Theorem names_roundtrip :
  (∀ t, ∃ s, handler_to_str t = Some s ∧ str_to_handler s = Some t)
  ∧ (∀ s t, str_to_handler s = Some t → handler_to_str t = Some s)
  ∧ (∀ f, ∃ s, format_to_str f = Some s ∧ str_to_format s = Some f)
  ∧ (∀ s f, str_to_format s = Some f → format_to_str f = Some s).
Proof.
  split_and!.
  - intros []; by eexists.
  - intros s t Hs%map_table_lookup; [|by vm_compute].
    list_cases Hs.
  - intros []; by eexists.
  - intros s f Hs%map_table_lookup; [|by vm_compute].
    list_cases Hs.
Qed.
