(* ===== verification/Closure.v ===== *)
(** * Channels as objects: src/cp/closure.h and src/cp/closure.cpp

    [struct closure] holds what all channels have; a handler's own struct
    derives from it and adds fields. Here [closure E] is a closure whose
    derived part is [E]. The function pointers of a closure are values of the
    enumerations below, one constructor per function the source stores there;
    Channels.v calls the function a value stands for. *)
From S2P Require Import Prelude TimeStamp Platform Log Formats.

Inductive handler_fn :=
  | NullHandler_fn | IdentityHandler_fn | IdentityHandlerTsc_fn
  | DownsampleHandler_fn | XoYHandler_fn | FirstlastHandler_fn
  | MedianHandler_fn | PeriodicCounterHandler_fn
  | FastPeriodicCounterHandler_fn | BufferIdentityHandler_fn
  | BufferIdentityHandlerTsc_fn | DefectHandler_fn
  | FoxStartHandler_fn | FoxEndHandler_fn | GPIORTTHandler_client_fn.

Inductive write_fn :=
  | writeInAscii_fn | writeInAsciiTsc_fn | writeInBinary_fn
  | writeInBinaryTsc_fn.

Inductive parm_fn :=
  | setArgDownsampleHandler_fn | setArgXoYHandler_fn | setArgMedianHandler_fn
  | setArgPeriodicCounterHandler_fn | setArgFastPeriodicCounterHandler_fn
  | setArgDefectHandler_fn | setArgFoxEndHandler_fn
  | setArgGPIORTTHandler_fn.

#[global] Instance handler_fn_eq_dec : EqDecision handler_fn.
Proof. solve_decision. Defined.
#[global] Instance write_fn_eq_dec : EqDecision write_fn.
Proof. solve_decision. Defined.
#[global] Instance parm_fn_eq_dec : EqDecision parm_fn.
Proof. solve_decision. Defined.

(** A NULL or never assigned function pointer is [None]. *)
Record closure (E : Type) := Closure {
  handler_f : option handler_fn;
  write_handler_f : option write_fn;
  parm_handler_f : option parm_fn;
  ch_nr : Z;
  ch_logf : ofstream;
  ch_logf_name : option string;
  isCloseCalled : bool;
  format : log_format;
  ext : E
}.
Arguments Closure {E}.
Arguments handler_f {E}.
Arguments write_handler_f {E}.
Arguments parm_handler_f {E}.
Arguments ch_nr {E}.
Arguments ch_logf {E}.
Arguments ch_logf_name {E}.
Arguments isCloseCalled {E}.
Arguments format {E}.
Arguments ext {E}.

Section Setters.
Context {E : Type}.
Implicit Types c : closure E.

Definition set_handler_f x c := Closure x (write_handler_f c)
  (parm_handler_f c) (ch_nr c) (ch_logf c) (ch_logf_name c)
  (isCloseCalled c) (format c) (ext c).
Definition set_write_handler_f x c := Closure (handler_f c) x
  (parm_handler_f c) (ch_nr c) (ch_logf c) (ch_logf_name c)
  (isCloseCalled c) (format c) (ext c).
Definition set_parm_handler_f x c := Closure (handler_f c)
  (write_handler_f c) x (ch_nr c) (ch_logf c) (ch_logf_name c)
  (isCloseCalled c) (format c) (ext c).
Definition set_ch_nr x c := Closure (handler_f c) (write_handler_f c)
  (parm_handler_f c) x (ch_logf c) (ch_logf_name c)
  (isCloseCalled c) (format c) (ext c).
Definition set_ch_logf x c := Closure (handler_f c) (write_handler_f c)
  (parm_handler_f c) (ch_nr c) x (ch_logf_name c)
  (isCloseCalled c) (format c) (ext c).
Definition set_ch_logf_name x c := Closure (handler_f c) (write_handler_f c)
  (parm_handler_f c) (ch_nr c) (ch_logf c) x
  (isCloseCalled c) (format c) (ext c).
Definition set_isCloseCalled x c := Closure (handler_f c)
  (write_handler_f c) (parm_handler_f c) (ch_nr c) (ch_logf c)
  (ch_logf_name c) x (format c) (ext c).
Definition set_format x c := Closure (handler_f c) (write_handler_f c)
  (parm_handler_f c) (ch_nr c) (ch_logf c) (ch_logf_name c)
  (isCloseCalled c) x (ext c).
Definition set_ext (x : E) c := Closure (handler_f c) (write_handler_f c)
  (parm_handler_f c) (ch_nr c) (ch_logf c) (ch_logf_name c)
  (isCloseCalled c) (format c) x.
End Setters.

(** ** The code of a channel runs on its closure and the process state *)
Abbreviation CM E := (M (closure E * sys)).

Definition sysm {E A} (m : M sys A) : CM E A := zoom snd (λ s cs, (cs.1, s)) m.
Definition this {E} : CM E (closure E) := gets fst.
Definition assign {E} (f : closure E → closure E) : CM E unit :=
  modify (λ cs, (f cs.1, cs.2)).
Definition assign_ext {E} (f : E → E) : CM E unit :=
  assign (λ c, set_ext (f (ext c)) c).
(** [ch_logf << ...], one statement. *)
Definition emit {E} (s : string) : CM E unit :=
  assign (λ c, set_ch_logf (ofs_write s (ch_logf c)) c).

Ltac cm_simpl :=
  unfold sysm, this, assign, assign_ext, emit in *; monad_simpl.

Definition path_to_output : string := "/tmp".

Fixpoint replace_char (a b : ascii) (s : string) : string :=
  match s with
  | EmptyString => EmptyString
  | String c s =>
      String (if Ascii.eqb c a then b else c) (replace_char a b s)
  end.

Section Closure.
Context `{Env} {E : Type}.

(** The constructor; the fields it leaves unset have some value. *)
Definition closure_new (fmt0 : log_format) (e : E) : closure E :=
  Closure None None None (-1) ofs_new None false fmt0 e.

Definition logf_path (ip : string) (nr : Z) (fmt : log_format)
    (ch_msg : string) : string :=
  path_to_output +:+ "/md0" +:+ "/" +:+ "cloud_profiler:" +:+ ip
  +:+ ":" +:+ zstr getpid +:+ ":" +:+ zstr gettid +:+ ":ch" +:+ zstr nr +:+ ":"
  +:+ match format_to_str fmt with
      | Some format_str => format_str +:+ ":"
      | None => "unknown_type:"
      end
  +:+ replace_char " " "_" ch_msg +:+ ".txt".

(** closure::openChannel *)
Definition closure_openChannel (nr : Z) (ch_msg : string) (fmt : log_format)
    : CM E bool :=
  assign (set_ch_nr nr) ;;
  '(ret, tmp_buf) ← sysm getIPDottedQuad;
  if negb (ret =? 0) then mret false
  else
    s ← sysm get;
    sysm (when (negb (md0 s)) (modify (set_md0 true))) ;;
    let name := logf_path tmp_buf nr fmt ch_msg in
    assign (set_format fmt) ;;
    assign (set_ch_logf_name (Some name)) ;;
    sysm (logStatus "closure.cpp" 71
            ("Channel " +:+ name +:+ " will be opened")) ;;
    if bool_decide (fmt = ASCII ∨ fmt = ASCII_TSC ∨ fmt = BINARY
         ∨ fmt = BINARY_TSC ∨ fmt = ZSTD ∨ fmt = ZSTD_TSC ∨ fmt = LZO1X
         ∨ fmt = LZO1X)
    then
      assign (λ c, set_ch_logf (ofs_do_open (creatable name) (ch_logf c)) c) ;;
      c ← this;
      if ofs_fail (ch_logf c) then
        sysm (logFail "closure.cpp" 88 ("open file " +:+ name)) ;; mret false
      else mret true
    else
      sysm (logFail "closure.cpp" 82 ("Unknown log format: " +:+ name)) ;;
      mret false.

(** [*ch_logf_name]: the pointer is NULL until openChannel has got past the
    IP look-up. *)
Definition deref_name (c : closure E) : CM E string :=
  match ch_logf_name c with
  | Some n => mret n
  | None => undefined "NULL ch_logf_name dereferenced"
  end.

(** closure::closeChannel *)
Definition closure_closeChannel : CM E unit :=
  assign (set_handler_f (Some NullHandler_fn)) ;;
  c ← this;
  if ofs_open (ch_logf c) then
    assign (λ c, set_ch_logf (ofs_close (ch_logf c)) c) ;;
    n ← deref_name c;
    sysm (logStatus "closure.cpp" 98 ("Channel " +:+ n +:+ " closed"))
  else if negb (isCloseCalled c) then
    n ← deref_name c;
    sysm (logStatus "closure.cpp" 104 ("Warning: channel " +:+ n
      +:+ " attempted to close already closed logfile."
      +:+ " (Further warnings will be omitted.)")) ;;
    assign (set_isCloseCalled true)
  else mret tt.

(** ** Running log calls inside a channel *)
Lemma sysm_log {A} (m : M sys unit) (k : unit → CM E A) (c : closure E) s :
  (∃ s', m s = (s', Ret tt) ∧ log_only s s') →
  ∃ s', (sysm m ≫= k) (c, s) = k tt (c, s') ∧ log_only s s'.
Proof. intros (s' & Em & L). exists s'. cm_simpl. by rewrite Em. Qed.

Lemma sysm_log_end (m : M sys unit) (c : closure E) s :
  (∃ s', m s = (s', Ret tt) ∧ log_only s s') →
  ∃ s', sysm m (c, s) = ((c, s'), Ret tt) ∧ log_only s s'.
Proof. intros (s' & Em & L). exists s'. cm_simpl. by rewrite Em. Qed.

(** *** Opening *)
Definition openable (fmt : log_format) : bool := bool_decide (fmt ≠ LZO1X_TSC).

(** What an attempt to open leaves in the closure. *)
Lemma closure_openChannel_spec nr msg fmt c s :
  ofs_open (ch_logf c) = false →
  ∃ c' s' ok, closure_openChannel nr msg fmt (c, s) = ((c', s'), Ret ok)
    ∧ clk s' = clk s
    ∧ ch_nr c' = nr ∧ handler_f c' = handler_f c
    ∧ parm_handler_f c' = parm_handler_f c
    ∧ write_handler_f c' = write_handler_f c
    ∧ isCloseCalled c' = isCloseCalled c ∧ ext c' = ext c
    ∧ match (getIPDottedQuad s).2 with
      | Ret (0, ip) =>
          let name := logf_path ip nr fmt msg in
          ch_logf_name c' = Some name
          ∧ ok = openable fmt && creatable name
          ∧ ofs_open (ch_logf c') = ok
          ∧ (ok = true → ch_logf c' = Ofstream true false [])
          ∧ (ok = false → ofs_file (ch_logf c') = ofs_file (ch_logf c))
      | _ => ok = false ∧ ch_logf_name c' = ch_logf_name c
             ∧ ch_logf c' = ch_logf c
      end.
Proof.
  intros Eo. destruct (getIPDottedQuad_frame s) as (s1 & [z ip] & Eip & L & _).
  unfold closure_openChannel. cm_simpl. rewrite Eip. simpl.
  destruct (Z.eqb_spec z 0) as [->|Hz]; simpl.
  2:{ exists (set_ch_nr nr c), s1, false. destruct L.
      split_and!; try done. by destruct z. }
  set (s2 := if md0 s1 then s1 else set_md0 true s1).
  assert ((when (negb (md0 s1)) (modify (set_md0 true))) s1 = (s2, Ret tt))
    as E2.
  { unfold s2. cm_simpl. by destruct (md0 s1). }
  assert (clk s2 = clk s) as C2.
  { unfold s2. destruct L. by destruct (md0 s1). }
  unfold when, modify in E2. rewrite E2. simpl.
  log_step. destruct L0 as [C3 _ _ _].
  destruct (decide (fmt = LZO1X_TSC)) as [->|Hf].
  - rewrite bool_decide_eq_false_2 by (intros Hx; by destruct_or! Hx).
    log_step. destruct L0 as [C4 _ _ _]. do 3 eexists. split; [done|]. simpl.
    split_and!; congruence || done.
  - rewrite bool_decide_eq_true_2 by (destruct fmt; tauto).
    assert (openable fmt = true) as ->
      by (by apply bool_decide_eq_true_2). simpl.
    unfold ofs_do_open. rewrite Eo. simpl.
    destruct (creatable (logf_path ip nr fmt msg)) eqn:Ecr; simpl.
    { do 3 eexists. split; [done|]. simpl. split_and!; congruence || done. }
    log_step. destruct L0 as [C4 _ _ _]. do 3 eexists. split; [done|]. simpl.
    split_and!; congruence || done.
Qed.

(** *** Closing *)

(** A closure whose log file has a name: closing it is defined. *)
Definition named (c : closure E) : Prop := is_Some (ch_logf_name c).

Definition closed_form (c : closure E) : closure E :=
  let c := set_handler_f (Some NullHandler_fn) c in
  if ofs_open (ch_logf c) then set_ch_logf (ofs_close (ch_logf c)) c
  else set_isCloseCalled true c.

Lemma closure_closeChannel_spec c s :
  named c →
  ∃ s', closure_closeChannel (c, s) = ((closed_form c, s'), Ret tt)
        ∧ log_only s s'
        ∧ (ofs_open (ch_logf c) = false → isCloseCalled c = true → s' = s).
Proof.
  intros [n En]. unfold closure_closeChannel, closed_form, deref_name.
  destruct c as [h w p nr l nm b f e]; simpl in *. subst nm.
  cm_simpl. destruct (ofs_open l) eqn:Eo; simpl; rewrite ?Eo.
  - log_step. by eexists.
  - destruct b; simpl; [by exists s|].
    log_step. by eexists.
Qed.

Lemma closed_form_closed c : ofs_open (ch_logf (closed_form c)) = false.
Proof.
  unfold closed_form. simpl. destruct (ofs_open (ch_logf c)) eqn:Eo; simpl.
  - unfold ofs_close. by rewrite Eo.
  - done.
Qed.

Lemma closed_form_file c :
  ofs_file (ch_logf (closed_form c)) = ofs_file (ch_logf c).
Proof.
  unfold closed_form. simpl. destruct (ofs_open (ch_logf c)) eqn:Eo; simpl.
  - unfold ofs_close. by rewrite Eo.
  - done.
Qed.

Lemma closed_form_handler c :
  handler_f (closed_form c) = Some NullHandler_fn
  ∧ parm_handler_f (closed_form c) = parm_handler_f c
  ∧ ch_logf_name (closed_form c) = ch_logf_name c
  ∧ ext (closed_form c) = ext c.
Proof. unfold closed_form. simpl. by destruct (ofs_open (ch_logf c)). Qed.

(** The way parameter functions give up: report, close, return -1. *)
Lemma log_close_fail file line msg c s :
  named c →
  ∃ s', (sysm (logFail file line msg) ;; closure_closeChannel ;; mret (-1)) (c, s)
        = ((closed_form c, s'), Ret (-1)).
Proof.
  intros Hn.
  destruct (sysm_log (logFail file line msg)
    (λ _, closure_closeChannel ;; mret (-1)) c s) as (s1 & -> & _);
    [apply logFail_frame|].
  destruct (closure_closeChannel_spec c s1 Hn) as (s2 & E2 & _).
  exists s2. by rewrite (bind_Ret _ _ _ _ _ E2).
Qed.

(** A last line, then the close. *)
Lemma emit_close line c s :
  ofs_ok (ch_logf c) → named c →
  let c1 := set_ch_logf (ofs_write line (ch_logf c)) c in
  ∃ s', (emit line ;; closure_closeChannel) (c, s) = ((closed_form c1, s'), Ret tt)
    ∧ ofs_file (ch_logf (closed_form c1)) = ofs_file (ch_logf c) ++ [line].
Proof.
  intros Hok Hn c1. destruct (closure_closeChannel_spec c1 s Hn) as (s' & Ec & _).
  exists s'. split; [exact Ec|].
  rewrite closed_form_file. unfold c1. simpl. by rewrite ofs_write_ok.
Qed.
End Closure.

(** An open channel, for the witnesses. *)
Definition demo_open {E} (e : E) : closure E :=
  Closure (Some NullHandler_fn) None None 0 (Ofstream true false [])
    (Some "f") false ASCII e.

(** ** What the handlers share *)

(** The text line most handlers write for a sample. *)
Definition sample_line (tuple : Z) (ts : timespec) : string :=
  zstr tuple +:+ ", " +:+ zstr (tv_sec ts) +:+ ", " +:+ zstr (tv_nsec ts)
  +:+ ", " +:+ zstr (tsc ts) +:+ nl.

(** The int64_t argument of a parameter handler: a number, or the address of
    an int64_t array (argument number -1, "set all arguments at once"). *)
Inductive arg_val :=
  | Num (v : Z)
  | Ptr (par : list Z).

Section Args.
Context {E : Type}.

Definition as_num (a : arg_val) : CM E Z :=
  match a with Num v => mret v | Ptr _ => undefined "address as a number" end.
Definition as_ptr (a : arg_val) : CM E (list Z) :=
  match a with Ptr p => mret p | Num _ => undefined "number as an address" end.
Definition par_at (par : list Z) (i : nat) : CM E Z :=
  match par !! i with Some v => mret v | None => undefined "out of bounds" end.

(** One handler call per tuple. *)
Fixpoint log_all (h : Z → CM E unit) (tuples : list Z) : CM E unit :=
  match tuples with
  | [] => mret tt
  | t :: tuples => h t ;; log_all h tuples
  end.

Lemma log_all_one h t cs : log_all h [t] cs = h t cs.
Proof.
  simpl. unfold mbind, M_bind, mret, M_ret. by destruct (h t cs) as [? [[]|]].
Qed.

Lemma log_all_app h l1 l2 cs :
  log_all h (l1 ++ l2) cs = (log_all h l1 ;; log_all h l2) cs.
Proof.
  revert cs. induction l1 as [|t l1 IH]; intros cs; [done|]. simpl.
  rewrite bind_assoc. destruct (h t cs) as [cs' [[]|f]] eqn:Eh.
  - rewrite !(bind_Ret _ _ _ _ _ Eh). apply IH.
  - unfold mbind, M_bind at 1 2. by rewrite Eh.
Qed.
End Args.

Section Stamped.
Context `{Env}.

(** The k-th tuple kept is stamped with the k-th clock reading. *)
Definition stamped (clk0 : nat) (l : list Z) : list string :=
  imap (λ k t, sample_line t (clock (clk0 + k))) l.

Lemma stamped_cons clk0 t l :
  stamped clk0 (t :: l) = sample_line t (clock clk0) :: stamped (S clk0) l.
Proof.
  unfold stamped. simpl. rewrite Nat.add_0_r. f_equal. apply imap_ext.
  intros i x _. simpl. by rewrite Nat.add_succ_r.
Qed.

Lemma stamped_app clk0 l1 l2 :
  stamped clk0 (l1 ++ l2) = stamped clk0 l1 ++ stamped (clk0 + length l1) l2.
Proof.
  revert clk0. induction l1 as [|t l1 IH]; intros clk0.
  { simpl. by rewrite Nat.add_0_r. }
  change ((t :: l1) ++ l2) with (t :: (l1 ++ l2)).
  rewrite (stamped_cons _ _ (l1 ++ l2)), (stamped_cons _ _ l1), IH.
  simpl length. by rewrite Nat.add_succ_r.
Qed.

End Stamped.
#[global] Arguments stamped : simpl never.

(** ** Properties *)
Section Properties.
Context `{Env} {E : Type}.

(** closure::openChannel on a closure without an open log file returns
    true iff the machine's address is known, the format is any but
    LZO1X_TSC and the log file can be created; then the file is open and
    empty under the name made of address, process, thread, channel number,
    format letter and message. Otherwise no file is open. The handler, its
    parameter function and the derived fields are never touched. *)
Theorem closure_openChannel_result nr msg fmt (c : closure E) s :
  ofs_open (ch_logf c) = false →
  ∃ c' s' ok, closure_openChannel nr msg fmt (c, s) = ((c', s'), Ret ok)
    ∧ (ok = true ↔ ∃ ip, (getIPDottedQuad s).2 = Ret (0, ip)
                         ∧ fmt ≠ LZO1X_TSC
                         ∧ creatable (logf_path ip nr fmt msg) = true)
    ∧ ofs_open (ch_logf c') = ok
    ∧ (ok = true → ofs_ok (ch_logf c') ∧ ofs_file (ch_logf c') = []
                   ∧ named c')
    ∧ handler_f c' = handler_f c ∧ parm_handler_f c' = parm_handler_f c
    ∧ ext c' = ext c.
Proof.
  intros Eo.
  destruct (closure_openChannel_spec nr msg fmt c s Eo)
    as (c' & s' & ok & Er & _ & _ & Eh & Ep & _ & _ & Ee & Hm).
  exists c', s', ok. split; [done|].
  destruct ((getIPDottedQuad s).2) as [[[|z|z] ip]|f] eqn:Eip; simpl in Hm.
  2-4: destruct Hm as (-> & _ & ->);
    split_and!; try done; split; [done|]; intros (ip' & Hip & _); congruence.
  destruct Hm as (En & -> & Eop & Hf). unfold openable in *.
  split_and!; try done.
  - rewrite andb_true_iff, bool_decide_eq_true. split.
    + intros [??]. eauto.
    + intros (ip' & Hip & ? & ?). by simplify_eq.
  - intros Hok. rewrite (proj1 Hf Hok). split_and!; [done|done|by eexists].
Qed.

(** Closing a channel always returns, installs the null handler, keeps
    everything logged so far and leaves no file open; from the third call
    on closing changes nothing at all, not even the status log. *)
Theorem closeChannel_stable (c : closure E) s :
  named c →
  let close : M (closure E * sys) unit := closure_closeChannel in
  ∃ c1 s1 c2 s2,
    close (c, s) = ((c1, s1), Ret tt) ∧ close (c1, s1) = ((c2, s2), Ret tt)
    ∧ close (c2, s2) = ((c2, s2), Ret tt)
    ∧ handler_f c1 = Some NullHandler_fn ∧ handler_f c2 = Some NullHandler_fn
    ∧ ofs_open (ch_logf c1) = false
    ∧ ofs_file (ch_logf c1) = ofs_file (ch_logf c)
    ∧ ofs_file (ch_logf c2) = ofs_file (ch_logf c).
Proof.
  intros Hn close. assert (∀ c : closure E, named c → named (closed_form c))
    as Hnc by (intros c0; unfold named;
               by destruct (closed_form_handler c0) as (_ & _ & -> & _)).
  destruct (closure_closeChannel_spec c s Hn) as (s1 & E1 & _ & _).
  destruct (closure_closeChannel_spec (closed_form c) s1 (Hnc c Hn))
    as (s2 & E2 & _ & _).
  destruct (closure_closeChannel_spec (closed_form (closed_form c)) s2)
    as (s3 & E3 & _ & Hs); [auto|].
  pose proof (closed_form_closed c) as Hc1.
  assert (closed_form (closed_form c)
          = set_isCloseCalled true (closed_form c)) as Ef.
  { unfold closed_form at 1. simpl. rewrite Hc1. 
    unfold closed_form. simpl. by destruct (ofs_open (ch_logf c)). }
  assert (closed_form (closed_form (closed_form c))
          = closed_form (closed_form c)) as Ef2.
  { rewrite Ef. unfold closed_form at 1. simpl. rewrite Hc1.
    unfold closed_form. simpl. by destruct (ofs_open (ch_logf c)). }
  rewrite Ef2, Hs in E3; [|apply closed_form_closed|by rewrite Ef].
  exists (closed_form c), s1, (closed_form (closed_form c)), s2.
  split_and!; [done..| | | | |].
  - apply closed_form_handler.
  - apply closed_form_handler.
  - done.
  - apply closed_form_file.
  - by rewrite !closed_form_file.
Qed.
End Properties.

(** A channel on a null handler, for the witnesses. *)
Definition demo_closure {E} (e : E) (fmt : log_format) : closure E :=
  Closure (Some NullHandler_fn) None None 0 ofs_new None false fmt e.

Lemma closure_openChannel_result_witness :
  ∃ c' s', @closure_openChannel demo_env unit 3 "a b" ASCII
             (demo_closure tt ASCII, @sys_init false) = ((c', s'), Ret true).
Proof.
  destruct (@closure_openChannel_result demo_env unit 3 "a b" ASCII
    (demo_closure tt ASCII) (@sys_init false) eq_refl)
    as (c' & s' & ok & E & Hok & _).
  assert (ok = true) as ->.
  { apply Hok. exists "10.0.0.7". split; [reflexivity|].
    split; [discriminate|reflexivity]. }
  eauto.
Defined.

Lemma closeChannel_stable_witness :
  let c := set_ch_logf_name (Some "f") (demo_closure tt ASCII) in
  ∃ c2 s2, (@closure_closeChannel demo_env unit ;;
            @closure_closeChannel demo_env unit) (c, @sys_init true)
           = ((c2, s2), Ret tt).
Proof.
  intros c. destruct (@closeChannel_stable demo_env unit c (@sys_init true)
    ltac:(eexists; reflexivity)) as (c1 & s1 & c2 & s2 & E1 & E2 & _).
  exists c2, s2. rewrite (bind_Ret _ _ _ _ _ E1). exact E2.
Defined.
