(* ===== verification/NullDefect.v ===== *)
(** * Channels that log nothing: src/cp/handlers/null_handler.cpp and
    src/cp/handlers/defect_handler.cpp

    The null handler takes over when a channel is closed; a defect channel is
    what openChannel returns when it fails, so that a client that does not
    look at the result cannot crash. *)
From S2P Require Import Prelude TimeStamp Platform Log Formats Closure.

Section Null.
Context `{Env} {E : Type}.

Definition NullHandler (tuple : Z) : CM E unit := mret tt.

Definition initNullHandler (fmt0 : log_format) : closure unit :=
  set_parm_handler_f None
    (set_handler_f (Some NullHandler_fn) (closure_new fmt0 tt)).
End Null.

Record defect_ext := DefectExt {
  ch_name : string;
  handler_f_called : bool;
  parm_handler_f_called : bool
}.

Definition set_handler_f_called x e :=
  DefectExt (ch_name e) x (parm_handler_f_called e).
Definition set_parm_handler_f_called x e :=
  DefectExt (ch_name e) (handler_f_called e) x.

Section Defect.
Context `{Env}.

Definition defect_openChannel (nr : Z) (ch_msg : string) (fmt : log_format)
    : CM defect_ext bool := mret false.

Definition defect_closeChannel : CM defect_ext unit := mret tt.

Definition defect_report (line : Z) (fn : string) : CM defect_ext unit :=
  dcl ← this;
  sysm (logFail "handlers/defect_handler.cpp" line
    (fn +:+ " of channel <" +:+ ch_name (ext dcl) +:+ "> "
     +:+ "called. Logging of further calls omitted")).

Definition DefectHandler (tuple : Z) : CM defect_ext unit :=
  dcl ← this;
  if negb (handler_f_called (ext dcl)) then
    assign_ext (set_handler_f_called true) ;;
    defect_report 33 "defect_handler"
  else mret tt.

Definition setArgDefectHandler (arg_number : Z) (arg : arg_val)
    : CM defect_ext Z :=
  dcl ← this;
  when (negb (parm_handler_f_called (ext dcl)))
    (assign_ext (set_parm_handler_f_called true) ;;
     defect_report 46 "setArgDefectHandler") ;;
  mret (-1).

Definition initDefectHandler (fmt0 : log_format) (name : string)
    : closure defect_ext :=
  set_parm_handler_f (Some setArgDefectHandler_fn)
    (set_handler_f (Some DefectHandler_fn)
       (closure_new fmt0 (DefectExt name false false))).

Lemma DefectHandler_called t c s :
  handler_f_called (ext c) = true → DefectHandler t (c, s) = ((c, s), Ret tt).
Proof. intros Hc. unfold DefectHandler. cm_simpl. by rewrite Hc. Qed.

Lemma log_all_defect ts c s :
  handler_f_called (ext c) = true →
  log_all DefectHandler ts (c, s) = ((c, s), Ret tt).
Proof.
  intros Hc. induction ts as [|t ts IH]; [done|]. simpl.
  by rewrite (bind_Ret _ _ _ _ _ (DefectHandler_called t c s Hc)).
Qed.

(** A defect channel survives any use and reports it once: however many
    tuples are logged, the run ends normally with exactly the report of the
    first call in the status log (none if the channel was used before), the
    closure is otherwise unchanged and no log file of its own appears. *)
Theorem defect_reports_once t ts c s :
  let msg := "defect_handler of channel <" +:+ ch_name (ext c)
    +:+ "> called. Logging of further calls omitted" in
  ∃ s', log_all DefectHandler (t :: ts) (c, s)
        = ((set_ext (set_handler_f_called true (ext c)) c, s'), Ret tt)
    ∧ (if handler_f_called (ext c) then s' = s
       else logFail "handlers/defect_handler.cpp" 33 msg s = (s', Ret tt)).
Proof.
  intros msg. destruct (handler_f_called (ext c)) eqn:Hc.
  - exists s. rewrite log_all_defect by done. split; [|done].
    destruct c as [? ? ? ? ? ? ? ? [n h p]]; simpl in *. by subst.
  - destruct (logFail_frame "handlers/defect_handler.cpp" 33 msg s)
      as (s' & El & _). exists s'. split; [|done]. simpl.
    rewrite (bind_Ret _ _ (c, s)
      (set_ext (set_handler_f_called true (ext c)) c, s') tt).
    + by apply log_all_defect.
    + unfold DefectHandler, defect_report. cm_simpl. rewrite Hc. simpl.
      change ("defect_handler" +:+ " of channel <" +:+ ch_name (ext c) +:+ "> "
        +:+ "called. Logging of further calls omitted") with msg.
      by rewrite El.
Qed.
End Defect.
