(* ===== verification/Downsample.v ===== *)
(** * The downsampling handler: src/cp/handlers/downsample_handler.cpp

    Keeps every n-th sample and discards the rest. *)
From S2P Require Import Prelude TimeStamp Platform Log Formats Closure.

Definition SAMPLING_FACTOR : Z := 10.

Record downsample_ext := DownsampleExt {
  factor : Z;    (* downsampling factor, int64_t *)
  counter : Z    (* sample counter, int64_t *)
}.

Definition set_factor x e := DownsampleExt x (counter e).
Definition set_counter x e := DownsampleExt (factor e) x.

Section Downsample.
Context `{Env}.

Definition DownsampleHandler (tuple : Z) : CM downsample_ext unit :=
  dcl ← this;
  if counter (ext dcl) <? factor (ext dcl) then
    assign_ext (λ e, set_counter (counter e + 1) e)
  else
    ts ← sysm clock_gettime_tsc;
    emit (sample_line tuple ts) ;;
    assign_ext (set_counter 1).

Definition initDownsampleHandler (fmt0 : log_format) : closure downsample_ext :=
  let dcl := closure_new fmt0 (DownsampleExt SAMPLING_FACTOR 1) in
  set_parm_handler_f (Some setArgDownsampleHandler_fn)
    (set_handler_f (Some DownsampleHandler_fn) dcl).

Definition fail_line (line : Z) (msg : string) : CM downsample_ext unit :=
  sysm (logFail "handlers/downsample_handler.cpp" line msg).

(** The call with a number for argument; the guard of lines 56-60 repeats the
    test of line 39 and never holds. *)
Definition setArgDownsample_num (arg_number arg_value : Z)
    : CM downsample_ext Z :=
  if negb (arg_number =? 0) && (arg_value <? 1) then
    fail_line 57 "setArgDownsampleHandler argument error" ;;
    closure_closeChannel ;; mret (-1)
  else
    assign_ext (set_factor arg_value) ;; mret 0.

(** The recursive call of line 54 passes 0, so that it goes straight to the
    part for numbers. *)
Definition setArgDownsampleHandler (arg_number : Z) (arg : arg_val)
    : CM downsample_ext Z :=
  if negb (arg_number =? 0) && negb (arg_number =? -1) then
    fail_line 40 "setArgDownsampleHandler arg number out of range" ;;
    closure_closeChannel ;; mret (-1)
  else if arg_number =? -1 then
    par ← as_ptr arg;
    n ← par_at par 0;
    if negb (u64 n =? 1) then
      fail_line 49 "setArgDownsampleHandler arg number out of range" ;;
      closure_closeChannel ;; mret (-1)
    else
      v ← par_at par 1;
      setArgDownsample_num 0 (i64 v)
  else
    v ← as_num arg;
    setArgDownsample_num arg_number v.

(** ** Specification *)

(** The elements of [l] at the positions divisible by [n], when the head has
    position [i]. *)
Fixpoint every (n i : Z) (l : list Z) : list Z :=
  match l with
  | [] => []
  | x :: l => if i `mod` n =? 0 then x :: every n (i + 1) l
              else every n (i + 1) l
  end.

Lemma every_congr n i j l : i `mod` n = j `mod` n → every n i l = every n j l.
Proof.
  revert i j. induction l as [|x l IH]; intros i j E; [done|]. simpl.
  rewrite E, (IH (i + 1) (j + 1)); [done|].
  by rewrite <- Zplus_mod_idemp_l, E, Zplus_mod_idemp_l.
Qed.

(** ** What the handler does *)
Lemma DownsampleHandler_skip t c s :
  counter (ext c) < factor (ext c) →
  DownsampleHandler t (c, s)
  = ((set_ext (set_counter (counter (ext c) + 1) (ext c)) c, s), Ret tt).
Proof.
  intros Hlt. unfold DownsampleHandler. cm_simpl.
  by destruct (Z.ltb_spec (counter (ext c)) (factor (ext c))); [|lia].
Qed.

Lemma DownsampleHandler_log t c s :
  factor (ext c) ≤ counter (ext c) →
  DownsampleHandler t (c, s)
  = ((set_ext (set_counter 1 (ext c))
        (set_ch_logf (ofs_write (sample_line t (clock (clk s))) (ch_logf c)) c),
      set_clk (S (clk s)) s), Ret tt).
Proof.
  intros Hle. unfold DownsampleHandler, clock_gettime_tsc. cm_simpl.
  by destruct (Z.ltb_spec (counter (ext c)) (factor (ext c))); [lia|].
Qed.

Definition downsample_wf (c : closure downsample_ext) : Prop :=
  1 ≤ counter (ext c) ≤ factor (ext c).

Lemma downsample_run ts c s :
  downsample_wf c → ofs_ok (ch_logf c) →
  let kept := every (factor (ext c)) (counter (ext c)) ts in
  ∃ c' s', log_all DownsampleHandler ts (c, s) = ((c', s'), Ret tt)
    ∧ downsample_wf c' ∧ ofs_ok (ch_logf c')
    ∧ factor (ext c') = factor (ext c)
    ∧ clk s' = (clk s + length kept)%nat
    ∧ ofs_file (ch_logf c') = ofs_file (ch_logf c) ++ stamped (clk s) kept.
Proof.
  revert c s. induction ts as [|t ts IH]; intros c s Hw Hok; cbn zeta.
  { exists c, s. simpl. by rewrite Nat.add_0_r, app_nil_r. }
  unfold downsample_wf in Hw.
  destruct (decide (counter (ext c) < factor (ext c))) as [Hlt|Hge].
  - set (c1 := set_ext (set_counter (counter (ext c) + 1) (ext c)) c).
    destruct (IH c1 s) as (c' & s' & Er & Hw' & Hok' & Ef & Ek & El);
      [unfold downsample_wf; simpl; lia|done|].
    exists c', s'. simpl log_all. rewrite (bind_Ret _ _ _ _ _
      (DownsampleHandler_skip t c s Hlt)). simpl in Ef, Ek, El.
    simpl every. rewrite Z.mod_small by lia.
    destruct (Z.eqb_spec (counter (ext c)) 0); [lia|]. done.
  - assert (counter (ext c) = factor (ext c)) as Ec by lia.
    set (c1 := set_ext (set_counter 1 (ext c))
      (set_ch_logf (ofs_write (sample_line t (clock (clk s))) (ch_logf c)) c)).
    destruct (IH c1 (set_clk (S (clk s)) s))
      as (c' & s' & Er & Hw' & Hok' & Ef & Ek & El).
    { unfold downsample_wf. simpl. lia. }
    { simpl. rewrite ofs_write_ok by done. done. }
    exists c', s'. simpl log_all. rewrite (bind_Ret _ _ _ _ _
      (DownsampleHandler_log t c s ltac:(lia))). simpl in Ef, Ek, El.
    simpl every. rewrite Ec, Z.mod_same by lia. simpl.
    rewrite (every_congr _ (factor (ext c) + 1) 1).
    2:{ rewrite <- Zplus_mod_idemp_l, Z.mod_same by lia. done. }
    rewrite ofs_write_ok in El by done. simpl in El.
    rewrite stamped_cons, Ek, El. simpl.
    split_and!; try done; first [lia|by rewrite <- app_assoc].
Qed.

Lemma setArg_array k v rest c s :
  setArgDownsampleHandler (-1) (Ptr (k :: v :: rest)) (c, s)
  = (if negb (u64 k =? 1) then
       fail_line 49 "setArgDownsampleHandler arg number out of range" ;;
       closure_closeChannel ;; mret (-1)
     else setArgDownsample_num 0 (i64 v)) (c, s).
Proof.
  unfold setArgDownsampleHandler, as_ptr, par_at. cm_simpl.
  by destruct (negb (u64 k =? 1)).
Qed.

(** ** Properties *)

(** From its initial state, or after its factor n was set to any positive
    value and a sample was kept, the handler logs exactly the tuples number
    n, 2n, 3n, ... of those it is given, each with a clock reading of its own
    in increasing order, and nothing else; every call returns. *)
Theorem downsample_keeps_every_nth ts c s :
  counter (ext c) = 1 → 1 ≤ factor (ext c) → ofs_ok (ch_logf c) →
  let kept := every (factor (ext c)) 1 ts in
  ∃ c' s', log_all DownsampleHandler ts (c, s) = ((c', s'), Ret tt)
    ∧ ofs_file (ch_logf c') = ofs_file (ch_logf c) ++ stamped (clk s) kept
    ∧ clk s' = (clk s + length kept)%nat
    ∧ (length kept = Z.to_nat (Z.of_nat (length ts) `div` factor (ext c)))%nat.
Proof.
  intros Hc Hf Hok kept. destruct (downsample_run ts c s) as
    (c' & s' & Er & _ & _ & _ & Ek & El); [unfold downsample_wf; lia|done|].
  rewrite Hc in Ek, El. exists c', s'. split_and!; try done.
  unfold kept. set (n := factor (ext c)) in *.
  assert (∀ l i, 0 < i → Z.of_nat (length (every n i l))
    = (i - 1 + Z.of_nat (length l)) `div` n - (i - 1) `div` n) as Hlen.
  { induction l as [|x l IH]; intros i Hi; simpl length.
    { simpl. rewrite Z.add_0_r. lia. }
    simpl every. specialize (IH (i + 1) ltac:(lia)).
    replace (i + 1 - 1 + Z.of_nat (length l))
      with (i - 1 + Z.of_nat (S (length l))) in IH by lia.
    replace (i + 1 - 1) with i in IH by lia.
    assert (i `div` n = (i - 1) `div` n + (if i `mod` n =? 0 then 1 else 0))
      as Hs by (destruct (Z.eqb_spec (i `mod` n) 0);
                Z.to_euclidean_division_equations; nia).
    destruct (i `mod` n =? 0); simpl length; lia. }
  specialize (Hlen ts 1 ltac:(lia)).
  change (1 - 1 + Z.of_nat (length ts)) with (Z.of_nat (length ts)) in Hlen.
  change (1 - 1) with 0 in Hlen. rewrite Z.div_0_l in Hlen by lia. lia.
Qed.

(** Setting the factor: argument 0, directly or as the only element of an
    argument array, always succeeds, stores the value and leaves the log alone,
    whatever its sign; any other argument number, or an array that announces
    another number of arguments, closes the channel and returns -1 with the
    factor unchanged. *)
Theorem setArgDownsample_outcome n arg c s :
  named c → (n = -1 → ∃ k v rest, arg = Ptr (k :: v :: rest)) →
  (n = 0 → ∃ v, arg = Num v) →
  ∃ c' s' ret, setArgDownsampleHandler n arg (c, s) = ((c', s'), Ret ret) ∧
  match n, arg with
  | 0, Num v => ret = 0 ∧ c' = set_ext (set_factor v (ext c)) c ∧ s' = s
  | -1, Ptr (k :: v :: _) =>
      if u64 k =? 1
      then ret = 0 ∧ c' = set_ext (set_factor (i64 v) (ext c)) c ∧ s' = s
      else ret = -1 ∧ c' = closed_form c
  | _, _ => ret = -1 ∧ c' = closed_form c
  end.
Proof.
  intros Hn Hp Hv.
  destruct (decide (n = 0)) as [->|H0].
  { destruct (Hv eq_refl) as [v ->]. by do 3 eexists. }
  destruct (decide (n = -1)) as [->|H1].
  - destruct (Hp eq_refl) as (k & v & rest & ->). rewrite setArg_array.
    destruct (u64 k =? 1); cbn [negb].
    { do 3 eexists. split; [reflexivity|]. done. }
    destruct (log_close_fail "handlers/downsample_handler.cpp" 49
      "setArgDownsampleHandler arg number out of range" c s Hn) as (s' & E). unfold fail_line. rewrite E. by do 3 eexists.
  - unfold setArgDownsampleHandler.
    destruct (Z.eqb_spec n 0) as [|_]; [done|].
    destruct (Z.eqb_spec n (-1)) as [|_]; [done|]. simpl.
    destruct (log_close_fail "handlers/downsample_handler.cpp" 40
      "setArgDownsampleHandler arg number out of range" c s Hn) as (s' & E). unfold fail_line. rewrite E. do 3 eexists. split; [done|].
    destruct n as [|p|[p|p|]]; by destruct arg as [|[|? [|? ?]]].
Qed.
End Downsample.

Lemma downsample_keeps_every_nth_witness :
  let c := demo_open (DownsampleExt 3 1) in
  ∃ c' s', log_all (@DownsampleHandler demo_env) [5; 6; 7; 8; 9; 10; 11]
             (c, @sys_init true) = ((c', s'), Ret tt)
    ∧ ofs_file (ch_logf c')
      = [sample_line 7 (@clock demo_env 0); sample_line 10 (@clock demo_env 1)].
Proof.
  intros c. destruct (@downsample_keeps_every_nth demo_env
    [5; 6; 7; 8; 9; 10; 11] c (@sys_init true) eq_refl ltac:(by_decide)
    ltac:(by_decide)) as (c' & s' & E & F & _).
  exists c', s'. split; [exact E|exact F].
Defined.

Lemma setArgDownsample_outcome_witness :
  let c := demo_open (DownsampleExt 10 1) in
  ∃ c' s', @setArgDownsampleHandler demo_env (-1) (Ptr [1; 4]) (c, @sys_init true)
           = ((c', s'), Ret 0) ∧ factor (ext c') = 4.
Proof.
  intros c. destruct (@setArgDownsample_outcome demo_env (-1) (Ptr [1; 4]) c
    (@sys_init true) ltac:(eexists; reflexivity) ltac:(eauto) ltac:(discriminate))
    as (c' & s' & ret & E & R & -> & _).
  rewrite R in E. eexists _, _. split; [exact E|reflexivity].
Defined.
