(* ===== verification/XoY.v ===== *)
(** * The X-out-of-Y handler: src/cp/handlers/XoY_handler.cpp

    Logs the first X tuple ids of every batch of Y tuple ids. Y is a power of
    two, so that the modulo is a bit mask. *)
From S2P Require Import Prelude TimeStamp Platform Log Formats Closure.

Definition X_FACTOR : Z := 100.
Definition Y_FACTOR : Z := 16384.

Record XoY_ext := XoYExt {
  x_factor : Z;   (* uint64_t *)
  y_factor : Z;   (* uint64_t *)
  y_mask : Z      (* uint64_t *)
}.

Definition set_x x e := XoYExt x (y_factor e) (y_mask e).
Definition set_y y m e := XoYExt (x_factor e) y m.

(** ** Doubles

    [(double) Y] of a uint64_t rounds to the nearest number of 53 significant
    bits, ties to even. *)
Definition to_double (Y : Z) : Z :=
  if Y <? 2 ^ 53 then Y
  else
    let e := Z.log2 Y - 52 in
    let q := Y `div` 2 ^ e in
    let r := Y `mod` 2 ^ e in
    let half := 2 ^ (e - 1) in
    let q := if (half <? r) || ((r =? half) && Z.odd q) then q + 1 else q in
    q * 2 ^ e.

(** [floor(log2(x))] for a double x that is a positive integer. The libm need
    not round log2 correctly; the code relies on its exactness at the powers
    of two. *)
Class Libm := {
  floor_log2 : Z → Z;
  floor_log2_pow2 k : 0 ≤ k ≤ 64 → floor_log2 (2 ^ k) = k;
  floor_log2_nonneg x : 1 ≤ x → 0 ≤ floor_log2 x
}.

Definition demo_libm : Libm.
Proof.
  refine {| floor_log2 := Z.log2 |}.
  - intros k [Hk _]. by apply Z.log2_pow2.
  - intros x _. apply Z.log2_nonneg.
Defined.

Section XoY.
Context `{Env} `{Libm}.

(** [log2(0)] is minus infinity and [pow(2, -inf)] is 0. *)
Definition checkConsistency (X Y : Z) : bool :=
  if Y <? X then false
  else
    let param := to_double Y in
    let pow2result := if param =? 0 then 0 else 2 ^ floor_log2 param in
    pow2result =? to_double Y.

Definition XoYHandler (tuple : Z) : CM XoY_ext unit :=
  XoYcl ← this;
  if Z.land (u64 tuple) (y_mask (ext XoYcl)) <? x_factor (ext XoYcl) then
    ts ← sysm clock_gettime_tsc;
    emit (sample_line tuple ts)
  else mret tt.

Definition initXoYHandler (fmt0 : log_format) : closure XoY_ext :=
  let XoYcl := closure_new fmt0 (XoYExt X_FACTOR Y_FACTOR (Y_FACTOR - 1)) in
  set_parm_handler_f (Some setArgXoYHandler_fn)
    (set_handler_f (Some XoYHandler_fn) XoYcl).

Definition xoy_fail (line : Z) (msg : string) : CM XoY_ext Z :=
  sysm (logFail "handlers/XoY_handler.cpp" line msg) ;;
  closure_closeChannel ;; mret (-1).

(** Lines 61-80, for an argument number 0 or 1. *)
Definition setArgXoY_num (arg_number arg_value : Z) : CM XoY_ext Z :=
  XoYcl ← this;
  if arg_number =? 0 then
    if checkConsistency (u64 arg_value) (y_factor (ext XoYcl)) then
      assign_ext (set_x (u64 arg_value)) ;; mret 0
    else xoy_fail 65 "setArgXoYHandler arg 0 inconsistent"
  else if arg_number =? 1 then
    if checkConsistency (x_factor (ext XoYcl)) (u64 arg_value) then
      assign_ext (set_y (u64 arg_value) (u64 (arg_value - 1))) ;; mret 0
    else xoy_fail 75 "setArgXoYHandler arg 1 inconsistent"
  else mret 0.

(** The recursive calls of lines 56 and 59 have argument number 1 and 0. *)
Definition setArgXoYHandler (arg_number : Z) (arg : arg_val) : CM XoY_ext Z :=
  if negb (arg_number =? 0) && negb (arg_number =? 1) && negb (arg_number =? -1)
  then xoy_fail 43 "setArgXoYHandler arg number out of range"
  else if arg_number =? -1 then
    par ← as_ptr arg;
    n ← par_at par 0;
    if negb (u64 n =? 2) then
      sysm (logFail "handlers/XoY_handler.cpp" 51
              "setArgXoYHandler arg number out of range") ;; mret (-1)
    else
      par2 ← par_at par 2;
      ret ← setArgXoY_num 1 (i64 par2);
      if ret =? -1 then mret (-1)
      else
        par1 ← par_at par 1;
        setArgXoY_num 0 (i64 par1)
  else
    v ← as_num arg;
    setArgXoY_num arg_number v.

(** ** The check of the factors *)
Lemma to_double_small Y : 0 ≤ Y ≤ 2 ^ 53 → to_double Y = Y.
Proof.
  intros HY. destruct (decide (Y = 2 ^ 53)) as [->|]; [reflexivity|].
  unfold to_double. zcase; [done|lia].
Qed.

Lemma to_double_pow2 k : 0 ≤ k → to_double (2 ^ k) = 2 ^ k.
Proof.
  intros Hk. unfold to_double. zcase; [done|].
  assert (53 ≤ k) as Hk53.
  { apply (Z.pow_le_mono_r_iff 2); lia. }
  rewrite Z.log2_pow2 by done.
  replace (2 ^ k) with (2 ^ 52 * 2 ^ (k - 52))
    by (rewrite <- Z.pow_add_r by lia; f_equal; lia).
  assert (0 < 2 ^ (k - 52)) by (apply Z.pow_pos_nonneg; lia).
  assert (0 < 2 ^ (k - 52 - 1)) by (apply Z.pow_pos_nonneg; lia).
  rewrite Z.div_mul, Z.mod_mul by lia.
  destruct (Z.ltb_spec (2 ^ (k - 52 - 1)) 0); [lia|].
  by destruct (Z.eqb_spec 0 (2 ^ (k - 52 - 1))); [lia|].
Qed.

Lemma checkConsistency_spec X Y :
  0 ≤ Y ≤ 2 ^ 53 →
  checkConsistency X Y = true
  ↔ X ≤ Y ∧ (Y = 0 ∨ ∃ k, 0 ≤ k ∧ Y = 2 ^ k).
Proof.
  intros HY. unfold checkConsistency. rewrite to_double_small by done.
  destruct (Z.ltb_spec Y X); [split; [done|lia]|].
  destruct (Z.eqb_spec Y 0) as [->|Hne].
  { split; [|done]. intros _. split; [lia|by left]. }
  rewrite Z.eqb_eq. split.
  - intros E. split; [lia|right]. exists (floor_log2 Y).
    by pose proof (floor_log2_nonneg Y ltac:(lia)).
  - intros [_ [?|(k & Hk & ->)]]; [done|]. rewrite floor_log2_pow2; [done|].
    split; [done|]. destruct (decide (k ≤ 64)); [done|].
    assert (2 ^ 64 ≤ 2 ^ k) by (apply Z.pow_le_mono_r; lia). pow2. lia.
Qed.

(** ** The mask is the modulo *)
Lemma land_mask t y :
  y = 0 ∨ (∃ k, 0 ≤ k ≤ 64 ∧ y = 2 ^ k) →
  Z.land (u64 t) (u64 (y - 1)) = u64 t `mod` y.
Proof.
  intros Hy. pose proof (wrapU_range 64 t ltac:(lia)) as Ht.
  assert (∀ k, 0 ≤ k → Z.land (u64 t) (2 ^ k - 1) = u64 t `mod` 2 ^ k) as Hk.
  { intros k Hk. rewrite <- Z.land_ones by done. by rewrite Z.ones_equiv. }
  destruct Hy as [->|(k & Hk0 & ->)].
  - rewrite Z.mod_0_r. change (u64 (0 - 1)) with (2 ^ 64 - 1).
    rewrite Hk by lia. by rewrite Z.mod_small.
  - rewrite (wrapU_small 64 (2 ^ k - 1)); [apply Hk; lia|].
    assert (2 ^ k ≤ 2 ^ 64) by (apply Z.pow_le_mono_r; lia).
    assert (0 < 2 ^ k) by (apply Z.pow_pos_nonneg; lia). lia.
Qed.

(** The documented test: the tuple id modulo Y is below X. *)
Definition xoy_keeps (X Y tuple : Z) : bool := u64 tuple `mod` Y <? X.

(** The factors belong together: every state reached from the initial one. *)
Definition xoy_wf (e : XoY_ext) : Prop :=
  y_mask e = u64 (y_factor e - 1)
  ∧ checkConsistency (x_factor e) (y_factor e) = true.

Lemma xoy_wf_set_y e v :
  checkConsistency (x_factor e) (u64 v) = true →
  xoy_wf (set_y (u64 v) (u64 (v - 1)) e).
Proof.
  intros Hc. split; [|done]. simpl. symmetry. apply wrapU_idemp_add.
Qed.

Lemma xoy_wf_set_x e v :
  xoy_wf e → checkConsistency v (y_factor e) = true → xoy_wf (set_x v e).
Proof. intros [Em _] Hc. by split. Qed.
#[local] Hint Resolve xoy_wf_set_y xoy_wf_set_x : core.

Lemma xoy_wf_mask e t :
  xoy_wf e → 0 ≤ y_factor e ≤ 2 ^ 53 →
  (Z.land (u64 t) (y_mask e) <? x_factor e)
  = xoy_keeps (x_factor e) (y_factor e) t.
Proof.
  intros [Em Hc] Hy. apply checkConsistency_spec in Hc as [_ Hc]; [|done].
  unfold xoy_keeps. rewrite Em, land_mask; [done|].
  destruct Hc as [->|(k & Hk & E)]; [by left|]. right. exists k.
  split; [|done]. split; [done|]. apply (Z.pow_le_mono_r_iff 2); [lia..|].
  rewrite <- E. pow2. lia.
Qed.

Lemma XoYHandler_step t c s :
  xoy_wf (ext c) → 0 ≤ y_factor (ext c) ≤ 2 ^ 53 →
  XoYHandler t (c, s) =
    if xoy_keeps (x_factor (ext c)) (y_factor (ext c)) t then
      ((set_ch_logf (ofs_write (sample_line t (clock (clk s))) (ch_logf c)) c,
        set_clk (S (clk s)) s), Ret tt)
    else ((c, s), Ret tt).
Proof.
  intros Hw Hy. unfold XoYHandler, clock_gettime_tsc. cm_simpl.
  rewrite (xoy_wf_mask _ _ Hw Hy). by case_match.
Qed.

(** ** Properties *)

(** C30. With consistent factors (Y at most 2^53, where the check is exact) the
    handler logs exactly the tuples whose id modulo Y is below X, each with a
    clock reading of its own in increasing order; every call returns and the
    factors do not change. *)
Theorem xoy_logs_X_of_Y ts c s :
  xoy_wf (ext c) → 0 ≤ y_factor (ext c) ≤ 2 ^ 53 → ofs_ok (ch_logf c) →
  let kept := List.filter
    (xoy_keeps (x_factor (ext c)) (y_factor (ext c))) ts in
  ∃ c' s', log_all XoYHandler ts (c, s) = ((c', s'), Ret tt)
    ∧ ext c' = ext c ∧ ofs_ok (ch_logf c')
    ∧ clk s' = (clk s + length kept)%nat
    ∧ ofs_file (ch_logf c') = ofs_file (ch_logf c) ++ stamped (clk s) kept.
Proof.
  intros Hw Hy. revert c s Hw Hy.
  induction ts as [|t ts IH]; intros c s Hw Hy Hok kept; unfold kept; clear kept.
  { exists c, s. simpl. by rewrite Nat.add_0_r, app_nil_r. }
  simpl log_all. pose proof (XoYHandler_step t c s Hw Hy) as Et.
  cbn [List.filter].
  destruct (xoy_keeps (x_factor (ext c)) (y_factor (ext c)) t).
  - rewrite (bind_Ret _ _ _ _ _ Et).
    set (o1 := ofs_write (sample_line t (clock (clk s))) (ch_logf c)) in *.
    destruct (IH (set_ch_logf o1 c) (set_clk (S (clk s)) s) Hw Hy)
      as (c' & s' & Er & Ee & Hok' & Ek & El).
    { unfold o1. simpl. by rewrite ofs_write_ok. }
    exists c', s'. rewrite Er. split; [done|]. split; [done|]. split; [done|].
    unfold o1 in El. rewrite ofs_write_ok in El by done. simpl in Ek, El |- *.
    rewrite Ek, El, stamped_cons. split; [lia|by rewrite <- app_assoc].
  - rewrite (bind_Ret _ _ _ _ _ Et). by apply IH.
Qed.

Lemma setArgXoY_num_spec n v c s :
  named c → xoy_wf (ext c) → n = 0 ∨ n = 1 →
  let e := if n =? 0 then set_x (u64 v) (ext c)
           else set_y (u64 v) (u64 (v - 1)) (ext c) in
  ∃ s', setArgXoY_num n v (c, s) =
    (if checkConsistency (x_factor e) (y_factor e)
     then ((set_ext e c, s'), Ret 0) else ((closed_form c, s'), Ret (-1))).
Proof.
  intros Hn Hw Hc e. unfold setArgXoY_num, xoy_fail.
  destruct Hc as [->| ->]; simpl in e; subst e; cbn [Z.eqb Pos.eqb];
    rewrite (bind_Ret this _ (c, s) (c, s) c) by reflexivity; simpl x_factor;
    simpl y_factor; case_match; try (by exists s); by apply log_close_fail.
Qed.

Lemma setArgXoY_array k x y rest cs :
  setArgXoYHandler (-1) (Ptr (k :: x :: y :: rest)) cs
  = (if negb (u64 k =? 2) then
       sysm (logFail "handlers/XoY_handler.cpp" 51
               "setArgXoYHandler arg number out of range") ;; mret (-1)
     else
       ret ← setArgXoY_num 1 (i64 y);
       if ret =? -1 then mret (-1) else setArgXoY_num 0 (i64 x)) cs.
Proof.
  unfold setArgXoYHandler, as_ptr, par_at. cm_simpl.
  destruct (negb (u64 k =? 2)); [done|].
  destruct (setArgXoY_num 1 (i64 y) cs) as [s1 [r|]]; [|done].
  by destruct (r =? -1).
Qed.

(** Setting the factors keeps them consistent (mask = Y - 1, X and Y
    accepted by the check), whatever the values, and always returns. A single
    factor is stored iff it is consistent with the other one, else the channel
    is closed and -1 returned. An argument array announcing two arguments sets
    Y, then X, and stops at the first one refused; with any other announced
    number nothing happens at all and -1 is returned. *)
Theorem setArgXoY_outcome n arg c s :
  named c → xoy_wf (ext c) →
  (n = -1 → ∃ k x y rest, arg = Ptr (k :: x :: y :: rest)) →
  (n = 0 ∨ n = 1 → ∃ v, arg = Num v) →
  ∃ c' s' ret, setArgXoYHandler n arg (c, s) = ((c', s'), Ret ret)
  ∧ xoy_wf (ext c') ∧ (ret = 0 ∨ ret = -1) ∧
  match n, arg with
  | 0, Num v =>
      if checkConsistency (u64 v) (y_factor (ext c))
      then ret = 0 ∧ c' = set_ext (set_x (u64 v) (ext c)) c
      else ret = -1 ∧ c' = closed_form c
  | 1, Num v =>
      if checkConsistency (x_factor (ext c)) (u64 v)
      then ret = 0 ∧ c' = set_ext (set_y (u64 v) (u64 (v - 1)) (ext c)) c
      else ret = -1 ∧ c' = closed_form c
  | -1, Ptr (k :: x :: y :: _) =>
      if u64 k =? 2 then
        if checkConsistency (x_factor (ext c)) (u64 y) then
          let c1 := set_ext (set_y (u64 y) (u64 (y - 1)) (ext c)) c in
          if checkConsistency (u64 x) (u64 y)
          then ret = 0 ∧ c' = set_ext (set_x (u64 x) (ext c1)) c1
          else ret = -1 ∧ c' = closed_form c1
        else ret = -1 ∧ c' = closed_form c
      else ret = -1 ∧ c' = c
  | _, _ => ret = -1 ∧ c' = closed_form c
  end.
Proof.
  intros Hn Hw Hp Hv. assert (∀ c : closure XoY_ext, ext (closed_form c) = ext c)
    as Hcl by (intros c0; apply closed_form_handler).
  destruct (decide (n = -1)) as [->|H1].
  - destruct (Hp eq_refl) as (k & x & y & rest & ->). rewrite setArgXoY_array.
    destruct (Z.eqb_spec (u64 k) 2) as [|_]; cbn [negb].
    + destruct (setArgXoY_num_spec 1 (i64 y) c s Hn Hw ltac:(by right))
        as (s1 & E1). simpl in E1. autorewrite with cpw in E1.
      destruct (checkConsistency (x_factor (ext c)) (u64 y)) eqn:Ec1.
      * set (c1 := set_ext (set_y (u64 y) (u64 (y - 1)) (ext c)) c) in *.
        destruct (setArgXoY_num_spec 0 (i64 x) c1 s1) as (s2 & E2);
          [done|by apply xoy_wf_set_y|by left|]. simpl in E2. autorewrite with cpw in E2.
        rewrite (bind_Ret _ _ _ _ _ E1). cbn [Z.eqb]. rewrite E2.
        destruct (checkConsistency (u64 x) (u64 y)) eqn:Ec2; do 3 eexists;
          (split; [done|]); rewrite ?Hcl; split_and!; auto.
        -- by apply xoy_wf_set_x; [apply xoy_wf_set_y|].
        -- by apply xoy_wf_set_y.
      * rewrite (bind_Ret _ _ _ _ _ E1). cbn [Z.eqb Pos.eqb].
        do 3 eexists. split; [done|]. rewrite Hcl. split_and!; auto.
    + destruct (sysm_log (logFail "handlers/XoY_handler.cpp" 51
        "setArgXoYHandler arg number out of range") (λ _, mret (-1)) c s)
        as (s1 & -> & _); [apply logFail_frame|].
      do 3 eexists. split; [done|]. split_and!; auto.
  - destruct (decide (n = 0 ∨ n = 1)) as [H01|Hx].
    + destruct (Hv H01) as [v ->].
      destruct (setArgXoY_num_spec n v c s Hn Hw H01) as (s' & E').
      assert (setArgXoYHandler n (Num v) (c, s) = setArgXoY_num n v (c, s)) as ->
        by (by destruct H01 as [->| ->]).
      rewrite E'. destruct H01 as [->| ->]; simpl;
        [destruct (checkConsistency (u64 v) (y_factor (ext c))) eqn:Ec
        |destruct (checkConsistency (x_factor (ext c)) (u64 v)) eqn:Ec];
        do 3 eexists; (split; [reflexivity|]); rewrite ?Hcl;
        split_and!; simpl; auto.
    + unfold setArgXoYHandler.
      destruct (Z.eqb_spec n 0) as [|_]; [tauto|].
      destruct (Z.eqb_spec n 1) as [|_]; [tauto|].
      destruct (Z.eqb_spec n (-1)) as [|_]; [done|]. cbn [negb andb].
      destruct (log_close_fail "handlers/XoY_handler.cpp" 43
        "setArgXoYHandler arg number out of range" c s Hn) as (s' & E').
      unfold xoy_fail. rewrite E'. do 3 eexists. split; [done|]. rewrite Hcl.
      split_and!; auto. destruct n as [|[| |]|[| |]]; try done; tauto.
Qed.

(** The consistency check accepts, up to 2^53, exactly the factors with
    X at most Y and Y a power of two - and also X = Y = 0, which the header
    excludes. *)
Theorem checkConsistency_accepts X Y :
  0 ≤ X → 0 ≤ Y ≤ 2 ^ 53 →
  checkConsistency X Y = true
  ↔ (X = 0 ∧ Y = 0) ∨ (X ≤ Y ∧ ∃ k, 0 ≤ k ∧ Y = 2 ^ k).
Proof.
  intros HX HY. rewrite checkConsistency_spec by done. split.
  - intros [Hle [->|Hk]]; [left; lia|by right].
  - intros [[-> ->]|[Hle Hk]]; [|by auto]. split; [done|by left].
Qed.
End XoY.

#[local] Existing Instance demo_libm.

(** Above 2^53 the conversion to double rounds first: 2^62 + 1 passes. *)
Example checkConsistency_rounds : checkConsistency 1 (2 ^ 62 + 1) = true.
Proof. vm_compute. reflexivity. Qed.

Lemma xoy_logs_X_of_Y_witness :
  let c := demo_open (XoYExt 2 8 7) in
  ∃ c' s', log_all (@XoYHandler demo_env) [0; 1; 2; 8; 15; 17]
             (c, @sys_init true) = ((c', s'), Ret tt)
    ∧ length (ofs_file (ch_logf c')) = 4%nat.
Proof.
  intros c. destruct (@xoy_logs_X_of_Y demo_env _ [0; 1; 2; 8; 15; 17] c
    (@sys_init true)) as (c' & s' & E & _ & _ & _ & F);
    [split; reflexivity|by_decide|by_decide|].
  exists c', s'. split; [exact E|]. rewrite F. vm_compute. reflexivity.
Defined.

Lemma setArgXoY_outcome_witness :
  let c := demo_open (XoYExt 100 16384 16383) in
  ∃ c' s', @setArgXoYHandler demo_env _ (-1) (Ptr [2; 4; 1024]) (c, @sys_init true)
           = ((c', s'), Ret 0) ∧ ext c' = XoYExt 4 1024 1023.
Proof.
  intros c. destruct (@setArgXoY_outcome demo_env _ (-1) (Ptr [2; 4; 1024]) c
    (@sys_init true)) as (c' & s' & ret & E & _ & _ & R).
  - eexists; reflexivity.
  - split; reflexivity.
  - intros _. eauto.
  - intros [H|H]; discriminate.
  - vm_compute in R. destruct R as [-> ->]. eexists _, _.
    split; [exact E|reflexivity].
Defined.

Lemma checkConsistency_accepts_witness :
  checkConsistency 100 16384 = true.
Proof.
  apply (checkConsistency_accepts 100 16384); [by_decide|by_decide|].
  right. split; [discriminate|]. exists 14. split; [discriminate|reflexivity].
Defined.

