(* ===== verification/FirstLast.v ===== *)
(** * The first-last handler: src/cp/handlers/firstlast_handler.cpp

    Keeps the first and the last sample of a channel. *)
From S2P Require Import Prelude TimeStamp Platform Log Formats Closure.

Record firstlast_ext := FirstlastExt {
  has_first : bool;
  fl_tuple : Z;
  fl_ts : timespec
}.

Definition set_has_first x e := FirstlastExt x (fl_tuple e) (fl_ts e).
Definition set_fl_tuple x e := FirstlastExt (has_first e) x (fl_ts e).
Definition set_fl_ts x e := FirstlastExt (has_first e) (fl_tuple e) x.

Section FirstLast.
Context `{Env}.

Definition no_tuple_line : string := "ERROR: no tuple logged!" +:+ nl.

Definition firstlast_closeChannel : CM firstlast_ext unit :=
  c ← this;
  (if negb (has_first (ext c)) then emit no_tuple_line
   else emit (sample_line (fl_tuple (ext c)) (fl_ts (ext c)))) ;;
  closure_closeChannel.

Definition FirstlastHandler (tuple : Z) : CM firstlast_ext unit :=
  assign_ext (set_fl_tuple tuple) ;;
  ts ← sysm clock_gettime_tsc;
  assign_ext (set_fl_ts ts) ;;
  fcl ← this;
  if negb (has_first (ext fcl)) then
    assign_ext (set_has_first true) ;;
    fcl ← this;
    emit (sample_line tuple (fl_ts (ext fcl)))
  else mret tt.

Definition initFirstlastHandler (fmt0 : log_format) : closure firstlast_ext :=
  set_parm_handler_f None (set_handler_f (Some FirstlastHandler_fn)
    (closure_new fmt0 (FirstlastExt false (-1) stale_ts))).

Lemma FirstlastHandler_later t c s :
  has_first (ext c) = true →
  FirstlastHandler t (c, s)
  = ((set_ext (FirstlastExt true t (clock (clk s))) c, set_clk (S (clk s)) s),
     Ret tt).
Proof.
  intros Hf. unfold FirstlastHandler, clock_gettime_tsc. cm_simpl.
  rewrite Hf. simpl. by destruct c as [? ? ? ? ? ? ? ? [h u v]]; simpl in *; subst.
Qed.

Lemma FirstlastHandler_first t c s :
  has_first (ext c) = false →
  FirstlastHandler t (c, s)
  = ((set_ch_logf (ofs_write (sample_line t (clock (clk s))) (ch_logf c))
        (set_ext (FirstlastExt true t (clock (clk s))) c),
      set_clk (S (clk s)) s), Ret tt).
Proof.
  intros Hf. unfold FirstlastHandler, clock_gettime_tsc. cm_simpl.
  by rewrite Hf.
Qed.

Lemma log_all_later ts c s :
  has_first (ext c) = true →
  log_all FirstlastHandler ts (c, s) =
    ((set_ext (match last ts with
               | Some t => FirstlastExt true t (clock (clk s + pred (length ts)))
               | None => ext c end) c,
      set_clk (clk s + length ts) s), Ret tt).
Proof.
  revert c s. induction ts as [|t ts IH]; intros c s Hf.
  { simpl. rewrite Nat.add_0_r. by destruct c, s. }
  simpl log_all. rewrite (bind_Ret _ _ _ _ _ (FirstlastHandler_later t c s Hf)).
  rewrite IH by done. simpl. f_equal. f_equal; [|by rewrite Nat.add_succ_r].
  destruct ts as [|t2 ts]; simpl.
  - by rewrite Nat.add_0_r.
  - destruct (last (t2 :: ts)) as [x|] eqn:El.
    + by rewrite Nat.add_succ_r.
    + by apply last_None in El.
Qed.

(** A first-last channel that is fed any tuples and then closed has logged
    exactly two lines, the first tuple with the first clock reading and the
    last one with the last (the same tuple twice if there was only one), or
    the line "ERROR: no tuple logged!" if there was none; it is then closed. *)
Theorem firstlast_logs_first_and_last ts c s :
  ofs_ok (ch_logf c) → named c → has_first (ext c) = false →
  ∃ c' s', (log_all FirstlastHandler ts ;; firstlast_closeChannel) (c, s)
           = ((c', s'), Ret tt)
    ∧ ofs_open (ch_logf c') = false ∧ handler_f c' = Some NullHandler_fn
    ∧ ofs_file (ch_logf c') = ofs_file (ch_logf c) ++
        match ts with
        | [] => [no_tuple_line]
        | t :: ts' =>
            [sample_line t (clock (clk s));
             sample_line (List.last ts' t) (clock (clk s + length ts'))]
        end.
Proof.
  intros Hok Hn Hf.
  destruct ts as [|t ts].
  - simpl. rewrite (bind_Ret _ _ _ (c, s) tt) by done.
    unfold firstlast_closeChannel. rewrite (bind_Ret this _ _ (c, s) c) by done.
    rewrite Hf. destruct (emit_close no_tuple_line c s Hok Hn) as (s' & E & F).
    eexists _, s'. split; [exact E|]. split; [apply closed_form_closed|].
    split; [apply closed_form_handler|exact F].
  - simpl log_all. rewrite bind_assoc,
      (bind_Ret _ _ _ _ _ (FirstlastHandler_first t c s Hf)).
    set (c1 := set_ch_logf _ _). rewrite (bind_Ret _ _ _ _ _
      (log_all_later ts c1 (set_clk (S (clk s)) s) eq_refl)).
    set (c2 := set_ext _ c1). unfold firstlast_closeChannel.
    set (s2 := set_clk _ _). rewrite (bind_Ret this _ _ (c2, s2) c2) by done.
    assert (ext c2 = FirstlastExt true (List.last ts t)
      (clock (clk s + length ts))) as E2.
    { unfold c2. simpl. destruct (snoc_inv ts) as [->|(l & x & ->)]; simpl.
      - by rewrite Nat.add_0_r.
      - rewrite last_snoc, List.last_last, length_app. simpl.
        do 2 f_equal. lia. }
    assert (has_first (ext c2) = true) as -> by (by rewrite E2).
    simpl negb. rewrite E2. simpl fl_tuple. simpl fl_ts.
    destruct (emit_close
      (sample_line (List.last ts t) (clock (clk s + length ts)))
      c2 s2) as (s' & E & F).
    { unfold c2, c1. simpl. by rewrite ofs_write_ok. }
    { done. }
    eexists _, s'. split; [exact E|]. split; [apply closed_form_closed|].
    split; [apply closed_form_handler|]. rewrite F. unfold c2, c1. simpl.
    rewrite ofs_write_ok by done. simpl. by rewrite <- app_assoc.
Qed.
End FirstLast.

Lemma firstlast_logs_first_and_last_witness :
  let c := demo_open (FirstlastExt false (-1) (Timespec 0 0 0 0)) in
  ∃ c' s', (log_all (@FirstlastHandler demo_env) [4; 5; 6] ;;
            @firstlast_closeChannel demo_env) (c, @sys_init true)
           = ((c', s'), Ret tt)
    ∧ ofs_file (ch_logf c')
      = [sample_line 4 (@clock demo_env 0); sample_line 6 (@clock demo_env 2)].
Proof.
  intros c. destruct (@firstlast_logs_first_and_last demo_env [4; 5; 6] c
    (@sys_init true) ltac:(by_decide) ltac:(eexists; reflexivity) eq_refl)
    as (c' & s' & E & _ & _ & F).
  exists c', s'. split; [exact E|exact F].
Defined.
