(* ===== verification/Median.v ===== *)
(** * The median handler: src/cp/handlers/median_handler.cpp

    Buffers timestamps and, when the buffer is full, logs their median. *)
From stdpp Require Import sorting.
From S2P Require Import Prelude TimeStamp Platform Log Formats Closure.

Definition MAX_TS : Z := 1000.
Definition CACHELINE_SIZE : Z := 64.
Definition sizeof_timespec : Z := 32.

Record median_ext := MedianExt {
  buffer : option (list timespec);   (* NULL, or a heap block *)
  nr_ts : Z;                         (* int64_t *)
  max_ts : Z                         (* int64_t *)
}.

Definition set_buffer x e := MedianExt x (nr_ts e) (max_ts e).
Definition set_nr_ts x e := MedianExt (buffer e) x (max_ts e).
Definition set_max_ts x e := MedianExt (buffer e) (nr_ts e) x.

Definition roundCachlineSize (size : Z) : Z :=
  if Z.rem size CACHELINE_SIZE =? 0 then size
  else i64 ((Z.quot size CACHELINE_SIZE + 1) * CACHELINE_SIZE).

(** The order qsort is called with. *)
Definition ts_le (t1 t2 : timespec) : Prop := compareTS t1 t2 ≤ 0.

(** qsort of the C library, on the comparison function of this file: any
    function that returns a sorted permutation. *)
Class Qsort := {
  qsort : list timespec → list timespec;
  qsort_perm l : qsort l ≡ₚ l;
  qsort_sorted l : StronglySorted ts_le (qsort l)
}.

Section Median.
Context `{Env} `{Qsort}.

(** A fresh block of [size] bytes as an array of timestamps. *)
Definition fresh_block (size : Z) : list timespec :=
  map fresh_mem (seq 0 (Z.to_nat (size `div` sizeof_timespec))).

Definition aligned_alloc (size : Z) : option (list timespec) :=
  if aligned_alloc_ok size then Some (fresh_block size) else None.

(** realloc keeps the common prefix of the old block. *)
Definition resize_block (old : list timespec) (size : Z) : list timespec :=
  let n := Z.to_nat (size `div` sizeof_timespec) in
  take n old ++ drop (length old) (fresh_block size).

(** [buffer[i]], out of bounds undefined. *)
Definition buf_read (i : Z) : CM median_ext timespec :=
  c ← this;
  match buffer (ext c) with
  | Some b => match (if i <? 0 then None else b !! Z.to_nat i) with
              | Some t => mret t
              | None => undefined "read outside of the buffer"
              end
  | None => undefined "NULL buffer read"
  end.

Definition buf_write (i : Z) (t : timespec) : CM median_ext unit :=
  c ← this;
  match buffer (ext c) with
  | Some b => if (0 <=? i) && (i <? Z.of_nat (length b))
              then assign_ext (set_buffer (Some (<[Z.to_nat i := t]> b)))
              else undefined "write outside of the buffer"
  | None => undefined "NULL buffer written"
  end.

(** [qsort(buffer, n, ...)] sorts the first n elements. *)
Definition buf_sort (n : Z) : CM median_ext unit :=
  c ← this;
  match buffer (ext c) with
  | Some b => if n <=? Z.of_nat (length b)
              then assign_ext (set_buffer (Some
                     (qsort (take (Z.to_nat n) b) ++ drop (Z.to_nat n) b)))
              else undefined "sort outside of the buffer"
  | None => undefined "NULL buffer sorted"
  end.

Definition median_line (t : timespec) : string :=
  zstr (tv_sec t) +:+ ", " +:+ zstr (tv_nsec t) +:+ ", " +:+ zstr (tsc t) +:+ nl.

Definition MedianHandler (tuple : Z) : CM median_ext unit :=
  assign_ext (λ e, set_nr_ts (nr_ts e + 1) e) ;;
  mcl ← this;
  if nr_ts (ext mcl) <? max_ts (ext mcl) then
    ts ← sysm clock_gettime_tsc;
    buf_write (nr_ts (ext mcl)) ts
  else
    let m := max_ts (ext mcl) in
    buf_sort m ;;
    res ← (if Z.rem m 2 =? 0 then
             t1 ← buf_read (Z.quot (m - 1) 2);
             t2 ← buf_read (Z.quot m 2);
             let sum := addTS stale_ts t1 t2 in
             mret (divideTS stale_ts sum 2).1
           else buf_read (Z.quot m 2));
    emit (median_line res) ;;
    assign_ext (set_nr_ts 0).

Definition median_fail (line : Z) (msg : string) : CM median_ext unit :=
  sysm (logFail "handlers/median_handler.cpp" line msg).

Definition initMedianHandler (fmt0 : log_format)
    : M sys (closure median_ext) :=
  let mcl := closure_new fmt0 (MedianExt None 0 0) in
  let size := roundCachlineSize (MAX_TS * sizeof_timespec) in
  match aligned_alloc size with
  | None =>
      logFail "handlers/median_handler.cpp" 56 "initMedianHandler aligned alloc" ;;
      mret (set_parm_handler_f None (set_handler_f (Some NullHandler_fn) mcl))
  | Some b =>
      mret (set_ext (MedianExt (Some b) 0 MAX_TS)
              (set_parm_handler_f (Some setArgMedianHandler_fn)
                 (set_handler_f (Some MedianHandler_fn) mcl)))
  end.

(** [arg_value * sizeof(struct timespec)] is computed in size_t. *)
Definition setArgMedianHandler (arg_number : Z) (arg : arg_val)
    : CM median_ext Z :=
  if negb (arg_number =? 0) then
    median_fail 69 "setArgMedianHandler wrong arguments" ;;
    closure_closeChannel ;; mret (-1)
  else
    arg_value ← as_num arg;
    if arg_value <? sizeof_timespec then
      median_fail 69 "setArgMedianHandler wrong arguments" ;;
      closure_closeChannel ;; mret (-1)
    else
      let size := roundCachlineSize (i64 (u64 (arg_value * sizeof_timespec))) in
      mcl ← this;
      let done_ :=
        assign_ext (set_nr_ts 0) ;; assign_ext (set_max_ts arg_value) ;; mret 0 in
      match realloc_aligned size with
      | Aligned =>
          assign_ext (set_buffer (Some
            (resize_block (default [] (buffer (ext mcl))) size))) ;; done_
      | NoMemory =>   (* the NULL pointer passes the alignment test *)
          assign_ext (set_buffer None) ;; done_
      | Misaligned =>
          assign_ext (set_buffer (aligned_alloc size)) ;;
          mcl ← this;
          if bool_decide (buffer (ext mcl) = None) then
            assign (set_handler_f (Some NullHandler_fn)) ;;
            assign (set_parm_handler_f None) ;;
            assign_ext (set_nr_ts 0) ;; assign_ext (set_max_ts 0) ;;
            median_fail 87 "setArgMedianHandler re-alloc" ;;
            mret (-1)
          else done_
      end.

(** ** Rounding up to cache lines *)
Lemma roundCachlineSize_spec size :
  0 ≤ size < 2 ^ 63 - CACHELINE_SIZE →
  roundCachlineSize size `mod` CACHELINE_SIZE = 0
  ∧ size ≤ roundCachlineSize size < size + CACHELINE_SIZE.
Proof.
  unfold roundCachlineSize. change CACHELINE_SIZE with 64. intros Hs. pow2.
  rewrite Z.rem_mod_nonneg, Z.quot_div_nonneg by lia.
  destruct (Z.eqb_spec (size `mod` 64) 0); [lia|].
  rewrite (wrapS_small 64) by (pow2; zmod). zmod.
Qed.

(** ** A round of the handler *)
Definition median_wf (e : median_ext) (b : list timespec) : Prop :=
  buffer e = Some b ∧ 2 ≤ max_ts e ≤ Z.of_nat (length b)
  ∧ 0 ≤ nr_ts e < max_ts e.

(** The stamps of [n] calls, from the k-th clock reading on. *)
Definition stamps (k n : nat) : list timespec := map clock (seq k n).

Lemma MedianHandler_store t c s b :
  median_wf (ext c) b → nr_ts (ext c) + 1 < max_ts (ext c) →
  MedianHandler t (c, s) =
    ((set_ext (MedianExt
        (Some (<[Z.to_nat (nr_ts (ext c) + 1) := clock (clk s)]> b))
        (nr_ts (ext c) + 1) (max_ts (ext c))) c,
      set_clk (S (clk s)) s), Ret tt).
Proof.
  intros (Eb & Hm & Hn) Hlt. unfold MedianHandler, clock_gettime_tsc, buf_write.
  cm_simpl. destruct (Z.ltb_spec (nr_ts (ext c) + 1) (max_ts (ext c))); [|lia].
  simpl. rewrite Eb.
  destruct (Z.leb_spec 0 (nr_ts (ext c) + 1)); [|lia].
  destruct (Z.ltb_spec (nr_ts (ext c) + 1) (Z.of_nat (length b))); [|lia].
  done.
Qed.

(** The element logged for the first [m] entries of the buffer. *)
Definition median_of (m : Z) (l : list timespec) : timespec :=
  let l := qsort l in
  if Z.rem m 2 =? 0 then
    (divideTS stale_ts (addTS stale_ts
       (nth (Z.to_nat (Z.quot (m - 1) 2)) l stale_ts)
       (nth (Z.to_nat (Z.quot m 2)) l stale_ts)) 2).1
  else nth (Z.to_nat (Z.quot m 2)) l stale_ts.

Lemma buf_read_nth i c s b :
  buffer (ext c) = Some b → 0 ≤ i < Z.of_nat (length b) →
  buf_read i (c, s) = ((c, s), Ret (nth (Z.to_nat i) b stale_ts)).
Proof.
  intros Eb Hi. unfold buf_read. cm_simpl. rewrite Eb.
  destruct (Z.ltb_spec i 0); [lia|].
  destruct (lookup_lt_is_Some_2 b (Z.to_nat i)) as [x Ex]; [lia|].
  rewrite Ex. cm_simpl. by rewrite (nth_lookup_Some _ _ _ _ Ex).
Qed.

Lemma qsort_length l : length (qsort l) = length l.
Proof. by rewrite qsort_perm. Qed.

Lemma MedianHandler_full t c s b :
  median_wf (ext c) b → nr_ts (ext c) + 1 = max_ts (ext c) →
  let m := max_ts (ext c) in
  MedianHandler t (c, s) =
    ((set_ext (MedianExt
        (Some (qsort (take (Z.to_nat m) b) ++ drop (Z.to_nat m) b)) 0 m)
        (set_ch_logf (ofs_write
           (median_line (median_of m (take (Z.to_nat m) b))) (ch_logf c)) c), s),
     Ret tt).
Proof.
  intros (Eb & Hm & Hn) Heq m.
  set (b' := qsort (take (Z.to_nat m) b) ++ drop (Z.to_nat m) b).
  set (c1 := set_ext (MedianExt (Some b') m m) c).
  assert (length (qsort (take (Z.to_nat m) b)) = Z.to_nat m) as Hl.
  { rewrite qsort_length, length_take. unfold m. lia. }
  assert (∀ i, 0 ≤ i < m → buf_read i (c1, s)
    = ((c1, s), Ret (nth (Z.to_nat i) (qsort (take (Z.to_nat m) b)) stale_ts)))
    as Hr.
  { intros i Hi. rewrite (buf_read_nth i c1 s b') by
      (done || (unfold b'; rewrite length_app; lia)).
    unfold b'. by rewrite app_nth1 by lia. }
  assert ((if Z.rem m 2 =? 0 then
             t1 ← buf_read (Z.quot (m - 1) 2);
             t2 ← buf_read (Z.quot m 2);
             let sum := addTS stale_ts t1 t2 in
             mret (divideTS stale_ts sum 2).1
           else buf_read (Z.quot m 2)) (c1, s)
    = ((c1, s), Ret (median_of m (take (Z.to_nat m) b)))) as Hres.
  { assert (0 ≤ Z.quot (m - 1) 2 < m ∧ 0 ≤ Z.quot m 2 < m) as [Q1 Q2]
      by (unfold m; zmod).
    unfold median_of. destruct (Z.rem m 2 =? 0); [|by apply Hr].
    by rewrite (bind_Ret _ _ _ _ _ (Hr _ Q1)), (bind_Ret _ _ _ _ _ (Hr _ Q2)). }
  unfold MedianHandler.
  rewrite (bind_Ret _ _ (c, s)
    (set_ext (set_nr_ts (nr_ts (ext c) + 1) (ext c)) c, s) tt) by done.
  set (c0 := set_ext _ c). rewrite (bind_Ret this _ (c0, s) (c0, s) c0) by done.
  assert (nr_ts (ext c0) = m) as -> by exact Heq.
  assert (max_ts (ext c0) = m) as -> by done. rewrite Z.ltb_irrefl.
  rewrite (bind_Ret _ _ (c0, s) (c1, s) tt).
  2:{ unfold buf_sort. cm_simpl. rewrite Eb.
      destruct (Z.leb_spec m (Z.of_nat (length b))); [|unfold m in *; lia].
      unfold assign, modify, set_buffer, c0. simpl. by rewrite Heq. }
  rewrite (bind_Ret _ _ _ _ _ Hres). cm_simpl.
  by destruct c.
Qed.

(** A number of calls that does not fill the buffer. *)
Lemma median_stores ts c s b :
  median_wf (ext c) b →
  nr_ts (ext c) + Z.of_nat (length ts) < max_ts (ext c) →
  let n := Z.to_nat (nr_ts (ext c)) in
  log_all MedianHandler ts (c, s) =
    ((set_ext (MedianExt
        (Some (take (S n) b ++ stamps (clk s) (length ts)
               ++ drop (S n + length ts) b))
        (nr_ts (ext c) + Z.of_nat (length ts)) (max_ts (ext c))) c,
      set_clk (clk s + length ts) s), Ret tt).
Proof.
  revert c s b. induction ts as [|t ts IH]; intros c s b Hw Hlt n.
  { destruct Hw as (Eb & _). simpl. rewrite Nat.add_0_r, !Z.add_0_r.
    rewrite Nat.add_0_r, take_drop. rewrite <- Eb.
    by destruct c as [? ? ? ? ? ? ? ? []], s. }
  simpl length in Hlt. destruct Hw as (Eb & Hm & Hn). simpl log_all.
  rewrite (bind_Ret _ _ _ _ _ (MedianHandler_store t c s b
    (conj Eb (conj Hm Hn)) ltac:(lia))).
  set (b1 := <[Z.to_nat (nr_ts (ext c) + 1) := clock (clk s)]> b).
  set (c1 := set_ext _ c).
  rewrite (IH c1 _ b1); [|split; [done|]|].
  2:{ simpl. unfold b1. rewrite length_insert. lia. }
  2:{ simpl. lia. }
  replace (Z.to_nat (nr_ts (ext c1))) with (S n) by (unfold n, c1; simpl; lia).
  assert (S n < length b)%nat as Hlen by (unfold n; lia).
  assert (take (S (S n)) b1 = take (S n) b ++ [clock (clk s)]) as Et.
  { unfold b1. replace (Z.to_nat (nr_ts (ext c) + 1)) with (S n)
      by (unfold n; lia).
    rewrite (take_S_r _ _ (clock (clk s))) by (by apply list_lookup_insert_eq).
    by rewrite take_insert_ge by lia. }
  assert (drop (S (S n) + length ts) b1 = drop (S n + S (length ts)) b) as Ed.
  { unfold b1. rewrite drop_insert_lt by (unfold n; lia). f_equal. lia. }
  rewrite Et, Ed. rewrite <- app_assoc. unfold c1, stamps. simpl.
  replace (clk s + S (length ts))%nat with (S (clk s + length ts)) by lia.
  replace (nr_ts (ext c) + Z.of_nat (S (length ts)))
    with (nr_ts (ext c) + 1 + Z.of_nat (length ts)) by lia.
  done.
Qed.

(** ** Ranks *)
Definition le_b (t1 t2 : timespec) : bool := compareTS t1 t2 <=? 0.

Lemma sorted_rank l i x :
  StronglySorted ts_le l → l !! i = Some x →
  (S i ≤ count (λ t, le_b t x) l)%nat
  ∧ (length l - i ≤ count (λ t, le_b x t) l)%nat.
Proof.
  intros Hs Hi. pose proof (take_drop_middle l i x Hi) as El.
  assert (compareTS x x = 0) as Hx.
  { unfold compareTS. by rewrite !Z.eqb_refl. }
  assert (length (take i l) = i) as Hlen.
  { rewrite length_take. apply lookup_lt_Some in Hi. lia. }
  rewrite <- El in Hs. apply StronglySorted_app in Hs as (Hc & _ & Hs).
  apply StronglySorted_inv in Hs as [_ Hd].
  assert (count (λ t, le_b t x) (take i l ++ [x]) = S i) as C1.
  { rewrite count_all; [rewrite length_app; simpl; lia|].
    apply Forall_app. split; [|constructor; [|done]; unfold le_b; by rewrite Hx].
    apply Forall_forall. intros t Ht. apply Z.leb_le. apply Hc; [done|by left]. }
  assert (count (λ t, le_b x t) (x :: drop (S i) l) = (length l - i)%nat) as C2.
  { rewrite count_all; [simpl; rewrite length_drop;
      apply lookup_lt_Some in Hi; lia|].
    constructor; [unfold le_b; by rewrite Hx|].
    eapply Forall_impl; [exact Hd|]. intros t Ht. by apply Z.leb_le. }
  split.
  - rewrite <- El, (cons_middle x), app_assoc, count_app, C1. lia.
  - rewrite <- El at 2. rewrite count_app, C2. lia.
Qed.

Lemma sorted_lookup_le l i j x y :
  StronglySorted ts_le l → (i < j)%nat → l !! i = Some x → l !! j = Some y →
  ts_le x y.
Proof.
  intros Hs Hij Hx Hy. rewrite <- (take_drop_middle l i x Hx) in Hs.
  apply StronglySorted_app in Hs as (_ & _ & Hs).
  apply StronglySorted_inv in Hs as [_ Hd]. rewrite Forall_forall in Hd.
  apply Hd. apply list_elem_of_lookup. exists (j - S i)%nat.
  rewrite lookup_drop. by replace (S i + (j - S i))%nat with j by lia.
Qed.

(** Half the sum of two instants, by the two functions the handler calls. *)
Lemma mean_of_two x y :
  ts_wf x → ts_wf y → 0 ≤ tv_sec x < 2 ^ 33 → 0 ≤ tv_sec y < 2 ^ 33 →
  let r := (divideTS stale_ts (addTS stale_ts x y) 2).1 in
  ts_ns r = (ts_ns x + ts_ns y) `div` 2 ∧ ts_wf r.
Proof.
  intros Wx Wy Rx Ry r. change (2 ^ 33) with 8589934592 in *.
  destruct (addTS_spec stale_ts x y) as [Ws Es]; [ts_unfold; lia..|].
  assert (0 ≤ tv_sec (addTS stale_ts x y) < 18446744073) as Hs
    by (ts_unfold; lia).
  pose proof (proj1 (divideTS_spec stale_ts (addTS stale_ts x y) 2)
    ltac:(pow2; lia) Ws Hs) as Hd.
  unfold r. destruct (divideTS stale_ts (addTS stale_ts x y) 2) as [q ret].
  simpl. destruct Hd as (_ & Hq & Eq & _). by rewrite Eq, Es.
Qed.

(** An element of middle rank: at least [k] elements are not above it and at
    least [k] are not below it. *)
Definition middle_rank (k : nat) (l : list timespec) (x : timespec) : Prop :=
  x ∈ l ∧ (k ≤ count (λ t, le_b t x) l)%nat ∧ (k ≤ count (λ t, le_b x t) l)%nat.

Lemma qsort_rank l i :
  (i < length l)%nat →
  let x := nth i (qsort l) stale_ts in
  x ∈ l ∧ (S i ≤ count (λ t, le_b t x) l)%nat
  ∧ (length l - i ≤ count (λ t, le_b x t) l)%nat.
Proof.
  intros Hi x. destruct (lookup_lt_is_Some_2 (qsort l) i) as [y Hy];
    [by rewrite qsort_length|].
  assert (x = y) as -> by (by apply nth_lookup_Some).
  destruct (sorted_rank _ _ _ (qsort_sorted l) Hy) as [H1 H2].
  rewrite !(count_perm _ _ _ (qsort_perm l)), qsort_length in *.
  split; [|done]. rewrite <- (qsort_perm l). by eapply list_elem_of_lookup_2.
Qed.

(** ** Properties *)


(** What is logged is a median: for an odd number of entries, an entry that
    at least half of them do not exceed and that does not exceed at least half
    of them; for an even number, the exact mean (rounded down to a nanosecond)
    of two such entries, as long as their seconds are below 2^33. *)
Theorem median_of_median m l :
  Z.of_nat (length l) = m → l ≠ [] →
  if Z.rem m 2 =? 0 then
    ∃ x y, middle_rank (Z.to_nat (m / 2)) l x ∧ middle_rank (Z.to_nat (m / 2)) l y
      ∧ compareTS x y ≤ 0
      ∧ (Forall (λ t, ts_wf t ∧ 0 ≤ tv_sec t < 2 ^ 33) l →
         ts_ns (median_of m l) = (ts_ns x + ts_ns y) `div` 2
         ∧ ts_wf (median_of m l))
  else middle_rank (Z.to_nat (m / 2 + 1)) l (median_of m l).
Proof.
  intros Hl Hne. assert (0 < length l)%nat as Hpos by (destruct l; [done|simpl; lia]).
  assert (∀ i k, 0 ≤ i < m → k = Z.to_nat (Z.min (i + 1) (m - i)) →
    middle_rank k l (nth (Z.to_nat i) (qsort l) stale_ts)) as Hr.
  { intros i k Hi ->. destruct (qsort_rank l (Z.to_nat i) ltac:(lia))
      as (Hx & H1 & H2). split; [done|lia]. }
  unfold median_of. cbv zeta.
  rewrite Z.rem_mod_nonneg, !Z.quot_div_nonneg by lia.
  destruct (Z.eqb_spec (m `mod` 2) 0) as [E0|E1].
  - set (x := nth (Z.to_nat ((m - 1) `div` 2)) (qsort l) stale_ts).
    set (y := nth (Z.to_nat (m `div` 2)) (qsort l) stale_ts).
    assert (middle_rank (Z.to_nat (m `div` 2)) l x) as Hx by (apply Hr; zmod).
    assert (middle_rank (Z.to_nat (m `div` 2)) l y) as Hy by (apply Hr; zmod).
    exists x, y. split_and!; try done.
    + assert (Z.to_nat ((m - 1) `div` 2) < Z.to_nat (m `div` 2))%nat as Hlt by zmod.
      destruct (nth_lookup_or_length (qsort l) (Z.to_nat ((m - 1) `div` 2)) stale_ts)
        as [Ex|Hx']; [|rewrite qsort_length in Hx'; zmod].
      destruct (nth_lookup_or_length (qsort l) (Z.to_nat (m `div` 2)) stale_ts)
        as [Ey|Hy']; [|rewrite qsort_length in Hy'; zmod].
      fold x in Ex. fold y in Ey. by apply (sorted_lookup_le (qsort l) _ _ x y
        (qsort_sorted l) Hlt).
    + intros Hall. rewrite Forall_forall in Hall.
      destruct (Hall x (proj1 Hx)) as [Wx Rx], (Hall y (proj1 Hy)) as [Wy Ry].
      apply mean_of_two; done.
  - replace (Z.to_nat (m `div` 2 + 1))
      with (Z.to_nat (Z.min (m `div` 2 + 1) (m - m `div` 2))) by zmod.
    apply Hr; zmod.
Qed.
End Median.

#[global] Instance ts_le_dec : RelDecision ts_le.
Proof. intros x y. unfold ts_le. apply _. Defined.

Lemma ts_le_lex x y :
  ts_le x y ↔ tv_sec x < tv_sec y ∨ (tv_sec x = tv_sec y ∧ tv_nsec x ≤ tv_nsec y).
Proof.
  unfold ts_le, compareTS. repeat (zcase; simpl); lia.
Qed.

(** Merge sort is such a function. *)
Definition demo_qsort : Qsort.
Proof.
  refine {| qsort := merge_sort ts_le |}.
  - intros l. apply merge_sort_Permutation.
  - intros l. apply StronglySorted_merge_sort.
    + intros x y z. rewrite !ts_le_lex. lia.
    + intros x y. rewrite !ts_le_lex. lia.
Defined.

#[local] Existing Instance demo_qsort.


Lemma median_of_median_witness :
  let l := [Timespec 5 0 0 0; Timespec 1 0 0 0; Timespec 3 0 0 0] in
  middle_rank 2 l (@median_of demo_env _ 3 l).
Proof.
  intros l. exact (@median_of_median demo_env _ 3 l eq_refl ltac:(discriminate)).
Defined.
