(* ===== verification/Bytes.v ===== *)
(** * Little-endian memory images

    The bytes [ostream::write] copies from an object of an x86-64 or AArch64
    process, and what [istream::read] makes of them. *)
From S2P Require Import Prelude.

(** The [n] low bytes of [z], least significant first. *)
Fixpoint le_bytes (n : nat) (z : Z) : string :=
  match n with
  | O => EmptyString
  | S n => String (ascii_of_N (Z.to_N (z `mod` 256))) (le_bytes n (z `div` 256))
  end.

(** Reads [n] bytes; [None] when the input is shorter. *)
Fixpoint le_read (n : nat) (s : string) : option (Z * string) :=
  match n with
  | O => Some (0, s)
  | S n =>
      match s with
      | EmptyString => None
      | String c s =>
          '(v, rest) ← le_read n s;
          Some (Z.of_N (N_of_ascii c) + 256 * v, rest)
      end
  end.

Lemma le_bytes_length n z : String.length (le_bytes n z) = n.
Proof. revert z. induction n as [|n IH]; intros z; simpl; [done|by rewrite IH]. Qed.

Lemma byte_roundtrip z :
  Z.of_N (N_of_ascii (ascii_of_N (Z.to_N (z `mod` 256)))) = z `mod` 256.
Proof.
  rewrite N_ascii_embedding; [rewrite Z2N.id; zmod|].
  apply N2Z.inj_lt. rewrite Z2N.id; zmod.
Qed.

Lemma le_read_bytes n z rest :
  le_read n (le_bytes n z +:+ rest) = Some (wrapU (8 * Z.of_nat n) z, rest).
Proof.
  revert z. induction n as [|n IH]; intros z.
  { unfold wrapU. simpl. by rewrite Z.mod_1_r. }
  change (le_bytes (S n) z +:+ rest) with
    (String (ascii_of_N (Z.to_N (z `mod` 256))) (le_bytes n (z `div` 256) +:+ rest)).
  cbn [le_read]. rewrite IH, byte_roundtrip. simpl. do 2 f_equal.
  unfold wrapU. replace (2 ^ (8 * Z.of_nat (S n))) with (256 * 2 ^ (8 * Z.of_nat n))
    by (change 256 with (2 ^ 8); rewrite <- Z.pow_add_r by lia; f_equal; lia).
  assert (0 < 2 ^ (8 * Z.of_nat n)) by (apply Z.pow_pos_nonneg; lia).
  rewrite (Z.rem_mul_r z 256) by lia. done.
Qed.

Lemma le_read_length n s v rest :
  le_read n s = Some (v, rest) → String.length s = (n + String.length rest)%nat.
Proof.
  revert s v. induction n as [|n IH]; intros s v; simpl; [by intros [= _ ->]|].
  destruct s as [|c s]; [done|]. destruct (le_read n s) as [[v' r']|] eqn:E; [|done].
  simpl. intros [= _ <-]. by rewrite (IH _ _ E).
Qed.

Lemma le_read_range n s v rest :
  le_read n s = Some (v, rest) → 0 ≤ v < 2 ^ (8 * Z.of_nat n).
Proof.
  revert s v. induction n as [|n IH]; intros s v; simpl; [by intros [= <- _]|].
  destruct s as [|c s]; [done|]. destruct (le_read n s) as [[v' r']|] eqn:E; [|done].
  simpl. intros [= <- <-]. specialize (IH _ _ E).
  replace (2 ^ (8 * Z.of_nat (S n))) with (256 * 2 ^ (8 * Z.of_nat n))
    by (change 256 with (2 ^ 8); rewrite <- Z.pow_add_r by lia; f_equal; lia).
  pose proof (N_ascii_bounded c). lia.
Qed.
