(* ===== verification/Identity.v ===== *)
(** * The identity handler: src/cp/handlers/id_handler.cpp

    Writes every sample straight to the log file, as text or in binary, with
    the whole timestamp or, in the TSC formats, with the whole timestamp for
    the first sample and the TSC value alone for the others. *)
From S2P Require Import Prelude TimeStamp Platform Log Formats Closure Bytes.

Record id_ext := IdExt { first_logging : bool }.

Section Identity.
Context `{Env}.

(** ** The write functions *)
Definition ascii_record (tuple : Z) (ts : timespec) : string :=
  zstr tuple +:+ ", " +:+ zstr (tv_sec ts) +:+ ", " +:+ zstr (tv_nsec ts)
  +:+ ", " +:+ zstr (tsc ts) +:+ ", " +:+ zstr (aux ts) +:+ nl.

Definition ascii_tsc_record (tuple : Z) (ts : timespec) : string :=
  zstr tuple +:+ ", " +:+ zstr (tsc ts) +:+ ", " +:+ zstr (aux ts) +:+ nl.

(** The 32 bytes of a struct timespec: 8 + 8 + 8 + 4 and 4 bytes of padding. *)
Definition timespec_bytes (ts : timespec) : string :=
  le_bytes 8 (tv_sec ts) +:+ le_bytes 8 (tv_nsec ts) +:+ le_bytes 8 (tsc ts)
  +:+ le_bytes 4 (aux ts) +:+ le_bytes 4 pad_word.

Definition binary_record (tuple : Z) (ts : timespec) : string :=
  le_bytes 8 tuple +:+ timespec_bytes ts.

Definition binary_tsc_record (tuple : Z) (ts : timespec) : string :=
  le_bytes 8 tuple +:+ le_bytes 8 (tsc ts).

Section Write.
Context {E : Type}.

Definition writeInAscii (tuple : Z) (ts : timespec) : CM E unit :=
  emit (ascii_record tuple ts).
Definition writeInAsciiTsc (tuple : Z) (ts : timespec) : CM E unit :=
  emit (ascii_tsc_record tuple ts).
Definition writeInBinary (tuple : Z) (ts : timespec) : CM E unit :=
  emit (le_bytes 8 tuple) ;; emit (timespec_bytes ts).
Definition writeInBinaryTsc (tuple : Z) (ts : timespec) : CM E unit :=
  emit (le_bytes 8 tuple) ;; emit (le_bytes 8 (tsc ts)).

(** The call through [write_handler_f], which no constructor initialises. *)
Definition call_write (tuple : Z) (ts : timespec) : CM E unit :=
  c ← this;
  match write_handler_f c with
  | Some writeInAscii_fn => writeInAscii tuple ts
  | Some writeInAsciiTsc_fn => writeInAsciiTsc tuple ts
  | Some writeInBinary_fn => writeInBinary tuple ts
  | Some writeInBinaryTsc_fn => writeInBinaryTsc tuple ts
  | None => undefined "uninitialised write_handler_f called"
  end.
End Write.

(** [read(tuple, sizeof(tuple))] takes the size of a pointer, 8 as well. *)
Definition readInBinary (log_to_read : string)
    : option (Z * timespec * string) :=
  '(tuple, s) ← le_read 8 log_to_read;
  '(sec, s) ← le_read 8 s;
  '(nsec, s) ← le_read 8 s;
  '(t, s) ← le_read 8 s;
  '(a, s) ← le_read 4 s;
  '(_, s) ← le_read 4 s;
  Some (i64 tuple, Timespec (i64 sec) (i64 nsec) t a, s).

(** ** The handlers *)
Definition IdentityHandler (tuple : Z) : CM id_ext unit :=
  ts ← sysm clock_gettime_tsc;
  call_write tuple ts.

Definition IdentityHandlerTsc (tuple : Z) : CM id_ext unit :=
  ch_cl ← this;
  if first_logging (ext ch_cl) then
    assign_ext (λ _, IdExt false) ;;
    ts ← sysm clock_gettime_tsc;
    call_write tuple ts ;;
    assign (λ c, set_write_handler_f
      (Some (if bool_decide (write_handler_f c = Some writeInAscii_fn)
             then writeInAsciiTsc_fn else writeInBinaryTsc_fn)) c)
  else
    ts ← sysm (clock_gettime_tsc_only stale_ts);
    call_write tuple ts.

(** The switch has no case for the compressed formats: the handler pointer
    then stays NULL and the write function unset. *)
Definition initIdentityHandler (fmt : log_format) : closure id_ext :=
  let tmp := set_parm_handler_f None (closure_new fmt (IdExt true)) in
  match fmt with
  | ASCII => set_write_handler_f (Some writeInAscii_fn)
               (set_handler_f (Some IdentityHandler_fn) tmp)
  | ASCII_TSC => set_write_handler_f (Some writeInAscii_fn)
               (set_handler_f (Some IdentityHandlerTsc_fn) tmp)
  | BINARY => set_write_handler_f (Some writeInBinary_fn)
               (set_handler_f (Some IdentityHandler_fn) tmp)
  | BINARY_TSC => set_write_handler_f (Some writeInBinary_fn)
               (set_handler_f (Some IdentityHandlerTsc_fn) tmp)
  | _ => tmp
  end.

(** The call through [handler_f], for the handlers this file defines. *)
Definition id_dispatch (tuple : Z) : CM id_ext unit :=
  c ← this;
  match handler_f c with
  | Some IdentityHandler_fn => IdentityHandler tuple
  | Some IdentityHandlerTsc_fn => IdentityHandlerTsc tuple
  | Some NullHandler_fn => mret tt
  | Some _ => undefined "handler of another closure type"
  | None => undefined "NULL handler_f called"
  end.

(** ** What is written, as one string *)
Definition contents (o : ofstream) : string := string_concat (ofs_file o).

Lemma contents_write o s :
  ofs_ok o → contents (ofs_write s o) = contents o +:+ s ∧ ofs_ok (ofs_write s o).
Proof.
  intros Ho. rewrite ofs_write_ok by done. split; [|done].
  unfold contents. simpl. rewrite string_concat_app. simpl.
  by rewrite string_app_nil_r.
Qed.

Definition timespec_ok (ts : timespec) : Prop :=
  - 2 ^ 63 ≤ tv_sec ts < 2 ^ 63 ∧ - 2 ^ 63 ≤ tv_nsec ts < 2 ^ 63
  ∧ 0 ≤ tsc ts < 2 ^ 64 ∧ 0 ≤ aux ts < 2 ^ 32.

#[global] Instance timespec_ok_dec ts : Decision (timespec_ok ts).
Proof. apply _. Defined.

Lemma wrapS_wrapU_id w z :
  0 < w → - 2 ^ (w - 1) ≤ z < 2 ^ (w - 1) → wrapS w (wrapU w z) = z.
Proof. intros Hw Hz. rewrite wrapS_wrapU. by apply wrapS_small. Qed.

Lemma readInBinary_record tuple ts rest :
  - 2 ^ 63 ≤ tuple < 2 ^ 63 → timespec_ok ts →
  readInBinary (binary_record tuple ts +:+ rest) = Some (tuple, ts, rest).
Proof.
  intros Ht (Hs & Hn & Hc & Ha). unfold readInBinary, binary_record,
    timespec_bytes. rewrite !string_app_assoc.
  unfold mbind, option_bind. repeat (rewrite le_read_bytes; cbv beta iota).
  change (8 * Z.of_nat 8) with 64. change (8 * Z.of_nat 4) with 32.
  rewrite !(wrapS_wrapU_id 64) by done.
  rewrite (wrapU_small 64 (tsc ts)), (wrapU_small 32 (aux ts)) by done.
  by destruct ts.
Qed.

(** A sequence of binary records, as a reader of the log file decodes it. *)
Fixpoint read_all (fuel : nat) (s : string) : list (Z * timespec) :=
  match fuel with
  | O => []
  | S fuel =>
      match readInBinary s with
      | Some (t, ts, s) => (t, ts) :: read_all fuel s
      | None => []
      end
  end.

Lemma read_all_records l :
  Forall (λ r, - 2 ^ 63 ≤ r.1 < 2 ^ 63 ∧ timespec_ok r.2) l →
  read_all (S (length l))
    (string_concat (map (λ r, binary_record r.1 r.2) l)) = l.
Proof.
  induction 1 as [|[t ts] l [Ht Hts] _ IH]; [done|]. cbn [length map string_concat
    foldr]. cbn [read_all]. simpl in Ht, Hts.
  rewrite readInBinary_record by done. by f_equal.
Qed.

(** The samples of a run: each tuple with the reading its call made. *)
Definition samples (clk0 : nat) (l : list Z) : list (Z * timespec) :=
  imap (λ k t, (t, clock (clk0 + k))) l.

Lemma samples_cons clk0 t l :
  samples clk0 (t :: l) = (t, clock clk0) :: samples (S clk0) l.
Proof.
  unfold samples. simpl. rewrite Nat.add_0_r. f_equal. apply imap_ext.
  intros i x _. simpl. by rewrite Nat.add_succ_r.
Qed.
#[local] Arguments samples : simpl never.

(** A sample whose fields have the ranges of their types. *)
Definition sample_ok (r : Z * timespec) : Prop :=
  - 2 ^ 63 ≤ r.1 < 2 ^ 63 ∧ timespec_ok r.2.

Lemma samples_ok n ts :
  Forall (λ t, - 2 ^ 63 ≤ t < 2 ^ 63) ts →
  (∀ k, (n ≤ k < n + length ts)%nat → timespec_ok (clock k)) →
  Forall sample_ok (samples n ts).
Proof.
  intros Hts. revert n. induction Hts as [|t ts Ht _ IH]; intros n Hclk; [constructor|].
  rewrite samples_cons. constructor.
  - split; [done|]. apply Hclk. simpl. lia.
  - apply IH. intros k Hk. apply Hclk. simpl. lia.
Qed.

Lemma contents_write2 o s t :
  ofs_ok o →
  contents (ofs_write t (ofs_write s o)) = contents o +:+ s +:+ t
  ∧ ofs_ok (ofs_write t (ofs_write s o)).
Proof.
  intros Ho. destruct (contents_write o s Ho) as [E1 Ho1].
  destruct (contents_write _ t Ho1) as [E2 Ho2]. split; [|done].
  by rewrite E2, E1, string_app_assoc.
Qed.

(** Runs of the identity handler, by write function. *)
Definition writes (w : write_fn) (rec : Z → timespec → string) : Prop :=
  ∀ t u (c : closure id_ext) s,
    write_handler_f c = Some w → ofs_ok (ch_logf c) →
    ∃ o, call_write t u (c, s) = ((set_ch_logf o c, s), Ret tt) ∧ ofs_ok o
         ∧ contents o = contents (ch_logf c) +:+ rec t u.

Lemma writes_all :
  writes writeInAscii_fn ascii_record
  ∧ writes writeInAsciiTsc_fn ascii_tsc_record
  ∧ writes writeInBinary_fn binary_record
  ∧ writes writeInBinaryTsc_fn binary_tsc_record.
Proof.
  split_and!; intros t u c s Hw Hok; unfold call_write;
    rewrite (bind_Ret this _ (c, s) (c, s) c), Hw by done;
    eexists; (split; [reflexivity|]);
    apply and_comm; first [by apply contents_write2 | by apply contents_write].
Qed.

Lemma identity_run (rec : Z → timespec → string) w ts c s :
  write_handler_f c = Some w → ofs_ok (ch_logf c) → writes w rec →
  ∃ o, log_all IdentityHandler ts (c, s)
       = ((set_ch_logf o c, set_clk (clk s + length ts) s), Ret tt)
    ∧ ofs_ok o
    ∧ contents o = contents (ch_logf c) +:+
        string_concat (map (λ r, rec r.1 r.2) (samples (clk s) ts)).
Proof.
  intros Hw Hok Hc. revert c s Hw Hok.
  induction ts as [|t ts IH]; intros c s Hw Hok.
  { exists (ch_logf c). simpl. rewrite Nat.add_0_r, string_app_nil_r.
    by destruct c, s. }
  destruct (Hc t (clock (clk s)) c (set_clk (S (clk s)) s) Hw Hok)
    as (o & Ec & Ho & Eo).
  assert (IdentityHandler t (c, s)
    = ((set_ch_logf o c, set_clk (S (clk s)) s), Ret tt)) as Es.
  { unfold IdentityHandler. by rewrite (bind_Ret _ _ (c, s)
      (c, set_clk (S (clk s)) s) (clock (clk s))). }
  destruct (IH (set_ch_logf o c) (set_clk (S (clk s)) s) Hw Ho)
    as (o' & Er & Ho' & Eo').
  exists o'. simpl log_all. rewrite (bind_Ret _ _ _ _ _ Es), Er.
  split; [simpl; by rewrite Nat.add_succ_r|]. split; [done|].
  simpl in Eo'. rewrite Eo', Eo, samples_cons. simpl.
  by rewrite string_app_assoc.
Qed.

(** Later samples in a TSC format: only the TSC field is a new reading, the
    rest of the timestamp object is stack garbage. *)
Definition tsc_sample (k : nat) : timespec :=
  Timespec (tv_sec stale_ts) (tv_nsec stale_ts) (tsc_clock k) (aux stale_ts).

Definition tsc_samples (clk0 : nat) (l : list Z) : list (Z * timespec) :=
  imap (λ k t, (t, tsc_sample (clk0 + k))) l.

Lemma tsc_samples_cons clk0 t l :
  tsc_samples clk0 (t :: l) = (t, tsc_sample clk0) :: tsc_samples (S clk0) l.
Proof.
  unfold tsc_samples. simpl. rewrite Nat.add_0_r. f_equal. apply imap_ext.
  intros i x _. simpl. by rewrite Nat.add_succ_r.
Qed.
#[local] Arguments tsc_samples : simpl never.

Lemma identity_tsc_later (rec : Z → timespec → string) w ts c s :
  first_logging (ext c) = false → write_handler_f c = Some w →
  ofs_ok (ch_logf c) → writes w rec →
  ∃ o, log_all IdentityHandlerTsc ts (c, s)
       = ((set_ch_logf o c, set_clk (clk s + length ts) s), Ret tt)
    ∧ ofs_ok o
    ∧ contents o = contents (ch_logf c) +:+
        string_concat (map (λ r, rec r.1 r.2) (tsc_samples (clk s) ts)).
Proof.
  intros Hf Hw Hok Hc. revert c s Hf Hw Hok.
  induction ts as [|t ts IH]; intros c s Hf Hw Hok.
  { exists (ch_logf c). simpl. rewrite Nat.add_0_r, string_app_nil_r.
    by destruct c, s. }
  destruct (Hc t (tsc_sample (clk s)) c (set_clk (S (clk s)) s) Hw Hok)
    as (o & Ec & Ho & Eo).
  assert (IdentityHandlerTsc t (c, s)
    = ((set_ch_logf o c, set_clk (S (clk s)) s), Ret tt)) as Es.
  { unfold IdentityHandlerTsc. rewrite (bind_Ret this _ (c, s) (c, s) c), Hf by done.
    by rewrite (bind_Ret _ _ (c, s) (c, set_clk (S (clk s)) s)
      (tsc_sample (clk s))). }
  destruct (IH (set_ch_logf o c) (set_clk (S (clk s)) s) Hf Hw Ho)
    as (o' & Er & Ho' & Eo').
  exists o'. simpl log_all. rewrite (bind_Ret _ _ _ _ _ Es), Er.
  split; [simpl; by rewrite Nat.add_succ_r|]. split; [done|].
  simpl in Eo'. rewrite Eo', Eo, tsc_samples_cons. simpl.
  by rewrite string_app_assoc.
Qed.

(** ** Properties *)

(** Whatever is logged to a channel opened in the binary format, a reader
    that applies readInBinary to the log file until it ends gets back exactly
    the tuples logged, in order, each with the complete clock reading of its
    own call. *)
Theorem identity_binary_roundtrip ts c s :
  c = set_ch_logf (Ofstream true false []) (initIdentityHandler BINARY) →
  Forall (λ t, - 2 ^ 63 ≤ t < 2 ^ 63) ts →
  (∀ k, (clk s ≤ k < clk s + length ts)%nat → timespec_ok (clock k)) →
  ∃ c' s', log_all IdentityHandler ts (c, s) = ((c', s'), Ret tt)
    ∧ read_all (S (length ts)) (contents (ch_logf c')) = samples (clk s) ts
    ∧ length (samples (clk s) ts) = length ts
    ∧ (samples (clk s) ts).*1 = ts.
Proof.
  intros -> Hts Hclk. set (c := set_ch_logf _ _).
  destruct (identity_run binary_record writeInBinary_fn ts c s eq_refl)
    as (o & Er & Ho & Eo); [done|apply writes_all|].
  assert (length (samples (clk s) ts) = length ts) as El by apply length_imap.
  eexists _, _. split; [exact Er|]. split_and!; [|done|].
  - simpl. rewrite Eo. change (contents (ch_logf c)) with "". rewrite <- El.
    apply read_all_records. by apply samples_ok.
  - clear. generalize (clk s). induction ts as [|t ts IH]; intros n; [done|].
    rewrite samples_cons. simpl. by rewrite IH.
Qed.

(** In the two TSC formats the first sample of a channel is written with
    its whole timestamp and every later one with the TSC value of its call
    (in text also with the auxiliary word, which is not read any more). *)
Theorem identity_tsc_contents fmt t ts c s :
  fmt = ASCII_TSC ∨ fmt = BINARY_TSC →
  c = set_ch_logf (Ofstream true false []) (initIdentityHandler fmt) →
  let first := if decide (fmt = ASCII_TSC) then ascii_record else binary_record in
  let later := if decide (fmt = ASCII_TSC) then ascii_tsc_record
               else binary_tsc_record in
  ∃ c' s', log_all IdentityHandlerTsc (t :: ts) (c, s) = ((c', s'), Ret tt)
    ∧ contents (ch_logf c') = first t (clock (clk s)) +:+
        string_concat (map (λ r, later r.1 r.2) (tsc_samples (S (clk s)) ts)).
Proof.
  intros Hfmt Hc first later.
  destruct writes_all as (Wa & Wat & Wb & Wbt).
  assert (∃ w w', write_handler_f c = Some w ∧ writes w first ∧ writes w' later
    ∧ w' = (if bool_decide (Some w = Some writeInAscii_fn)
            then writeInAsciiTsc_fn else writeInBinaryTsc_fn)
    ∧ first_logging (ext c) = true ∧ ch_logf c = Ofstream true false [])
    as (w & w' & Ew & Hw & Hw' & Ed & Ef & Eo).
  { unfold first, later. destruct Hfmt as [->| ->]; subst c; simpl.
    - by exists writeInAscii_fn, writeInAsciiTsc_fn.
    - by exists writeInBinary_fn, writeInBinaryTsc_fn. }
  set (c1 := set_ext (IdExt false) c).
  destruct (Hw t (clock (clk s)) c1 (set_clk (S (clk s)) s) Ew)
    as (o & Ec & Ho & Eo1); [unfold c1; simpl; by rewrite Eo|].
  set (c2 := set_write_handler_f (Some w') (set_ch_logf o c1)).
  assert (IdentityHandlerTsc t (c, s) = ((c2, set_clk (S (clk s)) s), Ret tt)) as Es.
  { unfold IdentityHandlerTsc. rewrite (bind_Ret this _ (c, s) (c, s) c), Ef by done.
    rewrite (bind_Ret _ _ (c, s) (c1, s) tt) by done.
    rewrite (bind_Ret _ _ (c1, s) (c1, set_clk (S (clk s)) s) (clock (clk s)))
      by done.
    rewrite (bind_Ret _ _ _ _ _ Ec). unfold assign, modify. simpl.
    unfold c2. rewrite Ew. by subst w'. }
  destruct (identity_tsc_later later w' ts c2 (set_clk (S (clk s)) s))
    as (o' & Er & _ & Eo'); [done..|].
  exists (set_ch_logf o' c2), (set_clk (S (clk s) + length ts) s).
  simpl log_all. rewrite (bind_Ret _ _ _ _ _ Es), Er. split; [done|].
  simpl in Eo' |- *. rewrite Eo', Eo1. unfold c1. simpl. by rewrite Eo.
Qed.
End Identity.

Lemma identity_binary_roundtrip_witness :
  let c := set_ch_logf (Ofstream true false [])
             (@initIdentityHandler BINARY) in
  ∃ c' s', log_all (@IdentityHandler demo_env) [3; -7] (c, @sys_init true)
             = ((c', s'), Ret tt)
    ∧ read_all 3 (contents (ch_logf c'))
      = [(3, @clock demo_env 0); (-7, @clock demo_env 1)].
Proof.
  intros c. destruct (@identity_binary_roundtrip demo_env [3; -7] c
    (@sys_init true) eq_refl ltac:(by_decide)) as (c' & s' & E & R & _).
  { intros n Hn. unfold timespec_ok. simpl in Hn |- *. pow2. lia. }
  exists c', s'. split; [exact E|exact R].
Defined.

Lemma identity_tsc_contents_witness :
  let c := set_ch_logf (Ofstream true false [])
             (@initIdentityHandler ASCII_TSC) in
  ∃ c' s', log_all (@IdentityHandlerTsc demo_env) [3; 4] (c, @sys_init true)
             = ((c', s'), Ret tt)
    ∧ contents (ch_logf c') = "3, 1000, 500, 7000, 3" +:+ nl +:+ "4, 7010, 0" +:+ nl.
Proof.
  intros c. destruct (@identity_tsc_contents demo_env ASCII_TSC 3 [4] c
    (@sys_init true) ltac:(left; reflexivity) eq_refl) as (c' & s' & E & F).
  exists c', s'. split; [exact E|]. rewrite F. vm_compute. reflexivity.
Defined.

