(* ===== verification/PeriodicCounter.v ===== *)
(** * The periodic counter: src/cp/handlers/periodic_counter_handler.cpp

    Counts events and writes the count once per period; periods without an
    event are reported as skipped. *)
From S2P Require Import Prelude TimeStamp Platform Log Formats Closure.

Definition DEFAULT_PERIOD : Z := 1 * NANO_S_PER_S.

Record pc_ext := PcExt {
  ctr : Z;                    (* uint64_t *)
  time_start : timespec;
  time_flush : timespec;
  periodic_inc : timespec;
  periodic_inc_ns : Z;        (* uint64_t *)
  isHeaderLogged : bool
}.

Definition set_ctr x e := PcExt x (time_start e) (time_flush e)
  (periodic_inc e) (periodic_inc_ns e) (isHeaderLogged e).
Definition set_time_start x e := PcExt (ctr e) x (time_flush e)
  (periodic_inc e) (periodic_inc_ns e) (isHeaderLogged e).
Definition set_time_flush x e := PcExt (ctr e) (time_start e) x
  (periodic_inc e) (periodic_inc_ns e) (isHeaderLogged e).
Definition set_period x ns e := PcExt (ctr e) (time_start e) (time_flush e)
  x ns (isHeaderLogged e).
Definition set_isHeaderLogged x e := PcExt (ctr e) (time_start e)
  (time_flush e) (periodic_inc e) (periodic_inc_ns e) x.

Section PeriodicCounter.
Context `{Env}.

(** What formatTS leaves in a buffer of the calling function. *)
Definition ts_text (ts : timespec) : string :=
  default uninit_buf (formatTS ts 1024 def_format).2.

Definition printCtr : CM pc_ext unit :=
  PCcl ← this;
  emit (ts_text (time_flush (ext PCcl)) +:+ ", " +:+ zstr (ctr (ext PCcl)) +:+ nl).

Definition printPeriod : CM pc_ext unit :=
  PCcl ← this;
  emit (ts_text (time_start (ext PCcl)) +:+ ", start, period: ") ;;
  emit ((formatDuration_ts (periodic_inc (ext PCcl)) 1024 true).2 +:+ nl).

Definition printInitialHeaderAndPeriod : CM pc_ext unit :=
  emit ("# <end_of_period>, <number_of_events>" +:+ nl) ;;
  printPeriod ;;
  assign_ext (set_isHeaderLogged true).

Definition printSkippedIntervals (intervals : Z) : CM pc_ext unit :=
  emit ("# *** skipped " +:+ zstr intervals +:+ " intervals ***") ;;
  emit nl.

(** [x / y] on unsigned operands. *)
Definition udiv (x y : Z) : CM pc_ext Z :=
  if y =? 0 then undefined "division by zero" else mret (x `div` y).

Definition elapsed_since_flush (e : pc_ext) (now : timespec) : Z :=
  let elapsed := subtractTS stale_ts (time_flush e) now in
  u64 (u64 (tv_sec elapsed) * NANO_S_PER_S + tv_nsec elapsed).

Definition flushCtr (now : timespec) : CM pc_ext unit :=
  PCcl ← this;
  '(truncated, skipped_intervals_total) ←
    (if compareTS now (time_flush (ext PCcl)) =? -1 then mret (true, 0)
     else
       q ← udiv (elapsed_since_flush (ext PCcl) now)
                (periodic_inc_ns (ext PCcl));
       let n := u32 q in
       mret (false, if ctr (ext PCcl) =? 0 then u32 (n + 1) else n));
  (if truncated : bool then
     emit (ts_text now +:+ ", " +:+ zstr (ctr (ext PCcl))) ;;
     emit (" <truncated period>" +:+ nl)
   else when (0 <? ctr (ext PCcl)) printCtr) ;;
  when (0 <? skipped_intervals_total)
    (printSkippedIntervals skipped_intervals_total).

(** Returns the distance to the next flush. *)
Definition getNextShot_and_flushCtr (now : timespec) : CM pc_ext timespec :=
  PCcl ← this;
  q ← udiv (elapsed_since_flush (ext PCcl) now) (periodic_inc_ns (ext PCcl));
  let skipped_intervals_from_flush := u32 q in
  let next_shot_ns :=
    u64 (u32 (1 + skipped_intervals_from_flush) * periodic_inc_ns (ext PCcl)) in
  let next_shot := Timespec (i64 (next_shot_ns `div` NANO_S_PER_S))
    (i64 (next_shot_ns `mod` NANO_S_PER_S)) (tsc stale_ts) (aux stale_ts) in
  when (0 <? ctr (ext PCcl)) printCtr ;;
  let skipped_intervals_total :=
    if ctr (ext PCcl) =? 0 then u32 (skipped_intervals_from_flush + 1)
    else skipped_intervals_from_flush in
  when (0 <? skipped_intervals_total)
    (printSkippedIntervals skipped_intervals_total) ;;
  mret next_shot.

Definition pc_closeChannel : CM pc_ext unit :=
  c ← this;
  when (negb (isHeaderLogged (ext c))) printInitialHeaderAndPeriod ;;
  now ← sysm clock_gettime_tsc;
  flushCtr now ;;
  emit (ts_text now +:+ ", *** timer shut down ***" +:+ nl) ;;
  closure_closeChannel.

Definition PeriodicCounterHandler (tuple : Z) : CM pc_ext unit :=
  now ← sysm clock_gettime_tsc;
  PCcl ← this;
  let f := time_flush (ext PCcl) in
  if (tv_sec f <? tv_sec now)
     || ((tv_sec now =? tv_sec f) && (tv_nsec f <? tv_nsec now)) then
    when (negb (isHeaderLogged (ext PCcl))) printInitialHeaderAndPeriod ;;
    next_shot ← getNextShot_and_flushCtr now;
    assign_ext (λ e, set_time_flush
      (addTS (time_flush e) (time_flush e) next_shot) e) ;;
    assign_ext (set_ctr 1)
  else
    assign_ext (λ e, set_ctr (u64 (ctr e + 1)) e).

Definition initPeriodicCounterHandler (fmt0 : log_format)
    : M sys (closure pc_ext) :=
  let inc := Timespec (DEFAULT_PERIOD `div` NANO_S_PER_S)
    (DEFAULT_PERIOD `mod` NANO_S_PER_S) 0 0 in
  start ← clock_gettime_tsc;
  mret (set_parm_handler_f (Some setArgPeriodicCounterHandler_fn)
    (set_handler_f (Some PeriodicCounterHandler_fn)
      (closure_new fmt0
        (PcExt 0 start (addTS (Timespec 0 0 0 0) start inc) inc DEFAULT_PERIOD
           false)))).

Definition pc_refuse (line : Z) (msg : string) : CM pc_ext Z :=
  sysm (logFail "handlers/periodic_counter_handler.cpp" line msg) ;;
  pc_closeChannel ;; mret (-1).

Definition setArgPeriodicCounterHandler (arg_number : Z) (arg : arg_val)
    : CM pc_ext Z :=
  if negb (arg_number =? 0) then
    pc_refuse 90 "setArgPeriodicCounterHandler arg number out of range"
  else
    arg_value ← as_num arg;
    if arg_value <? 0 then
      pc_refuse 96 "setArgPeriodicCounterHandler arg 0 val out of range"
    else
      PCcl ← this;
      when (negb (isHeaderLogged (ext PCcl))) printInitialHeaderAndPeriod ;;
      start ← sysm clock_gettime_tsc;
      assign_ext (set_time_start start) ;;
      flushCtr start ;;
      assign_ext (λ e, set_period (Timespec (arg_value `div` NANO_S_PER_S)
        (arg_value `mod` NANO_S_PER_S) (tsc (periodic_inc e))
        (aux (periodic_inc e))) arg_value e) ;;
      assign_ext (λ e, set_time_flush
        (addTS (time_flush e) (time_start e) (periodic_inc e)) e) ;;
      emit (ts_text start +:+ ", *** timer reprogrammed ***" +:+ nl) ;;
      printPeriod ;;
      assign_ext (set_ctr 0) ;;
      mret 0.

(** ** What is written, as records *)
Inductive pc_rec :=
  | RHeader (start inc : timespec)
  | RCount (flush : timespec) (n : Z)
  | RTruncated (now : timespec) (n : Z)
  | RSkipped (n : Z).

Definition render (r : pc_rec) : list string :=
  match r with
  | RHeader start inc =>
      ["# <end_of_period>, <number_of_events>" +:+ nl;
       ts_text start +:+ ", start, period: ";
       (formatDuration_ts inc 1024 true).2 +:+ nl]
  | RCount flush n => [ts_text flush +:+ ", " +:+ zstr n +:+ nl]
  | RTruncated now n => [ts_text now +:+ ", " +:+ zstr n;
                         " <truncated period>" +:+ nl]
  | RSkipped n => ["# *** skipped " +:+ zstr n +:+ " intervals ***"; nl]
  end.

Definition render_all (l : list pc_rec) : list string := concat (map render l).

Lemma render_all_app l1 l2 :
  render_all (l1 ++ l2) = render_all l1 ++ render_all l2.
Proof. unfold render_all. by rewrite map_app, concat_app. Qed.

(** Events and periods a record accounts for. *)
Definition rec_events (r : pc_rec) : Z :=
  match r with RCount _ n => n | RTruncated _ n => n | _ => 0 end.
Definition rec_periods (r : pc_rec) : Z :=
  match r with RCount _ _ => 1 | RSkipped n => n | _ => 0 end.
Definition total (f : pc_rec → Z) (l : list pc_rec) : Z :=
  foldr (λ r n, f r + n) 0 l.

Lemma total_app f l1 l2 : total f (l1 ++ l2) = total f l1 + total f l2.
Proof. unfold total. induction l1 as [|r l1 IH]; simpl; lia. Qed.

(** ** The timer *)

(** All times are in a window [T0, T0 + W] that is shorter than 2^32 - 1
    periods, so that no counter of intervals wraps. *)
Record window (T0 W p : Z) : Prop := Window {
  win_T0 : 0 ≤ T0;
  win_W : 0 ≤ W;
  win_p : 1 ≤ p;
  win_top : T0 + W + p < 2 ^ 62;
  win_short : W `div` p + 1 < 2 ^ 32
}.

Definition in_window (T0 W : Z) (t : timespec) : Prop :=
  ts_wf t ∧ T0 ≤ ts_ns t ≤ T0 + W.

Record pc_wf (T0 W p : Z) (e : pc_ext) : Prop := PcWf {
  pw_ns : periodic_inc_ns e = p;
  pw_flush : ts_wf (time_flush e);
  pw_range : T0 ≤ ts_ns (time_flush e) ≤ T0 + W + p;
  pw_ctr : 0 ≤ ctr e < 2 ^ 63
}.

Lemma in_window_fits T0 W p t : window T0 W p → in_window T0 W t → ts_fits t.
Proof. intros [] [Hw Hr]. ts_unfold. lia. Qed.

Lemma pc_wf_fits T0 W p e : window T0 W p → pc_wf T0 W p e → ts_fits (time_flush e).
Proof. intros [] []. ts_unfold. lia. Qed.

Lemma elapsed_ns T0 W p e now :
  window T0 W p → pc_wf T0 W p e → in_window T0 W now →
  ts_ns (time_flush e) ≤ ts_ns now →
  elapsed_since_flush e now = ts_ns now - ts_ns (time_flush e).
Proof.
  intros Hwin Hw Hn Hle. unfold elapsed_since_flush.
  destruct (subtractTS_spec stale_ts (time_flush e) now) as [Wd Ed];
    [by eapply pc_wf_fits|by eapply in_window_fits|].
  destruct Hwin, Hw, Hn. rewrite <- Ed.
  set (d := subtractTS stale_ts (time_flush e) now) in *.
  ts_unfold. rewrite (wrapU_small 64 (tv_sec d)) by (pow2; lia).
  rewrite wrapU_small by (pow2; lia). done.
Qed.

(** The number of whole periods between the flush time and now. *)
Definition late (e : pc_ext) (p : Z) (now : timespec) : Z :=
  (ts_ns now - ts_ns (time_flush e)) `div` p.

Lemma late_range T0 W p e now :
  window T0 W p → pc_wf T0 W p e → in_window T0 W now →
  ts_ns (time_flush e) ≤ ts_ns now →
  0 ≤ late e p now ∧ late e p now + 1 < 2 ^ 32
  ∧ (late e p now) * p ≤ ts_ns now - ts_ns (time_flush e)
    < (late e p now + 1) * p.
Proof.
  intros [] [] [] Hle. unfold late.
  assert ((ts_ns now - ts_ns (time_flush e)) `div` p ≤ W `div` p) as Hdiv
    by (apply Z.div_le_mono; lia).
  split; [apply Z.div_pos; lia|]. split; [lia|].
  pose proof (Z.mul_div_le (ts_ns now - ts_ns (time_flush e)) p ltac:(lia)).
  pose proof (Z.mul_succ_div_gt (ts_ns now - ts_ns (time_flush e)) p ltac:(lia)).
  nia.
Qed.

Definition write_recs (l : list pc_rec) (c : closure pc_ext) : closure pc_ext :=
  set_ch_logf (ofs_writes (render_all l) (ch_logf c)) c.

Lemma write_recs_app l1 l2 c :
  write_recs (l1 ++ l2) c = write_recs l2 (write_recs l1 c).
Proof.
  unfold write_recs, ofs_writes. simpl. by rewrite render_all_app, foldl_app.
Qed.

Lemma printInitialHeader_run c s :
  printInitialHeaderAndPeriod (c, s) =
    ((set_ext (set_isHeaderLogged true (ext c))
        (write_recs [RHeader (time_start (ext c)) (periodic_inc (ext c))] c), s),
     Ret tt).
Proof. reflexivity. Qed.

Definition header_recs (e : pc_ext) : list pc_rec :=
  if isHeaderLogged e then [] else [RHeader (time_start e) (periodic_inc e)].

Lemma when_header c s :
  when (negb (isHeaderLogged (ext c))) printInitialHeaderAndPeriod (c, s) =
    ((set_ext (set_isHeaderLogged true (ext c))
        (write_recs (header_recs (ext c)) c), s), Ret tt).
Proof.
  unfold header_recs. destruct (isHeaderLogged (ext c)) eqn:Eh; [|reflexivity].
  destruct c as [? ? ? ? ? ? ? ? [? ? ? ? ? ?]]. simpl in *. by subst.
Qed.

(** What a flush writes [n] whole periods after the flush time: the count of
    the first period, unless it is 0, and the number of empty periods. *)
Definition flush_recs (e : pc_ext) (n : Z) : list pc_rec :=
  (if 0 <? ctr e then [RCount (time_flush e) (ctr e)] else [])
  ++ (let k := if ctr e =? 0 then n + 1 else n in
      if 0 <? k then [RSkipped k] else []).

Lemma flush_recs_events e n :
  0 ≤ ctr e → total rec_events (flush_recs e n) = ctr e.
Proof.
  intros Hc. unfold flush_recs. rewrite total_app.
  destruct (Z.ltb_spec 0 (ctr e)); simpl; case_match; simpl; lia.
Qed.

(** Every period is either counted or skipped. *)
Lemma flush_recs_periods e n :
  0 ≤ ctr e → 0 ≤ n → total rec_periods (flush_recs e n) = n + 1.
Proof.
  intros Hc Hn. unfold flush_recs. rewrite total_app.
  destruct (Z.ltb_spec 0 (ctr e)), (Z.eqb_spec (ctr e) 0); simpl;
    try lia; zcase; simpl; lia.
Qed.

Lemma write_flush_recs c s n :
  (when (0 <? ctr (ext c)) printCtr ;;
   when (0 <? (if ctr (ext c) =? 0 then n + 1 else n))
     (printSkippedIntervals (if ctr (ext c) =? 0 then n + 1 else n))) (c, s)
  = ((write_recs (flush_recs (ext c) n) c, s), Ret tt).
Proof.
  unfold flush_recs, printSkippedIntervals, printCtr. cm_simpl.
  destruct (0 <? ctr (ext c)); simpl;
    destruct (0 <? (if ctr (ext c) =? 0 then n + 1 else n)); simpl; try done;
    by destruct c.
Qed.

Lemma getNextShot_run T0 W p now c s :
  window T0 W p → pc_wf T0 W p (ext c) → in_window T0 W now →
  ts_ns (time_flush (ext c)) ≤ ts_ns now →
  ∃ shot, getNextShot_and_flushCtr now (c, s) =
      ((write_recs (flush_recs (ext c) (late (ext c) p now)) c, s), Ret shot)
    ∧ ts_fits shot ∧ ts_ns shot = (1 + late (ext c) p now) * p.
Proof.
  intros Hwin Hw Hn Hle.
  destruct (late_range _ _ _ _ _ Hwin Hw Hn Hle) as (L0 & L1 & L2).
  pose proof (elapsed_ns _ _ _ _ _ Hwin Hw Hn Hle) as Ee.
  assert (periodic_inc_ns (ext c) = p) as Ep by apply Hw.
  set (n := late (ext c) p now) in *.
  assert (0 ≤ (1 + n) * p < 2 ^ 62) as Hshot.
  { destruct Hwin, Hw, Hn as [? ?]. nia. }
  unfold getNextShot_and_flushCtr.
  rewrite (bind_Ret this _ (c, s) (c, s) c) by done.
  rewrite (bind_Ret _ _ (c, s) (c, s) n).
  2:{ unfold udiv. rewrite Ee, Ep. destruct (Z.eqb_spec p 0);
      [destruct Hwin; lia|done]. }
  rewrite Ep, (wrapU_small 32 n) by (pow2; lia).
  rewrite (wrapU_small 32 (1 + n)), (wrapU_small 32 (n + 1)) by (pow2; lia).
  change (2 ^ 62) with 4611686018427387904 in Hshot.
  rewrite (wrapU_small 64) by (pow2; lia).
  eexists. split.
  - cbv zeta. pose proof (write_flush_recs c s n) as Ew.
    rewrite <- bind_assoc. by rewrite (bind_Ret _ _ _ _ _ Ew).
  - change NANO_S_PER_S with 1000000000 in *.
    rewrite !(wrapS_small 64) by (pow2; zmod).
    split; ts_unfold; zmod.
Qed.

(** *** One event *)
Definition is_late (e : pc_ext) (now : timespec) : bool :=
  ts_ns (time_flush e) <? ts_ns now.

Lemma is_late_test e now :
  ts_wf (time_flush e) → ts_wf now →
  (tv_sec (time_flush e) <? tv_sec now)
  || ((tv_sec now =? tv_sec (time_flush e))
      && (tv_nsec (time_flush e) <? tv_nsec now)) = is_late e now.
Proof.
  intros W1 W2. unfold is_late. ts_unfold. repeat (zcase; simpl); lia.
Qed.

Definition event_recs (e : pc_ext) (p : Z) (now : timespec) : list pc_rec :=
  if is_late e now then header_recs e ++ flush_recs e (late e p now) else [].

Lemma PeriodicCounterHandler_run T0 W p t c s :
  window T0 W p → pc_wf T0 W p (ext c) → in_window T0 W (clock (clk s)) →
  let now := clock (clk s) in
  ∃ e', PeriodicCounterHandler t (c, s) =
      ((set_ext e' (write_recs (event_recs (ext c) p now) c),
        set_clk (S (clk s)) s), Ret tt)
    ∧ (ctr (ext c) + 1 < 2 ^ 63 → pc_wf T0 W p e')
    ∧ time_start e' = time_start (ext c)
    ∧ (if is_late (ext c) now then
         ctr e' = 1
         ∧ ts_ns (time_flush e')
           = ts_ns (time_flush (ext c)) + (1 + late (ext c) p now) * p
       else ctr e' = u64 (ctr (ext c) + 1) ∧ time_flush e' = time_flush (ext c))
    ∧ ts_ns now ≤ ts_ns (time_flush e').
Proof.
  intros Hwin Hw Hn now. fold now in Hn. unfold PeriodicCounterHandler.
  set (s1 := set_clk (S (clk s)) s).
  rewrite (bind_Ret _ _ (c, s) (c, s1) now) by done.
  rewrite (bind_Ret this _ (c, s1) (c, s1) c) by done. cbv zeta.
  rewrite is_late_test by apply Hw || apply Hn. unfold event_recs.
  destruct (is_late (ext c) now) eqn:El; unfold is_late in El.
  - apply Z.ltb_lt in El.
    assert (ts_ns (time_flush (ext c)) ≤ ts_ns now) as Hle by lia.
    rewrite (bind_Ret _ _ _ _ _ (when_header c s1)).
    set (c1 := set_ext (set_isHeaderLogged true (ext c)) _).
    assert (pc_wf T0 W p (ext c1)) as Hw1 by (by destruct Hw).
    destruct (getNextShot_run T0 W p now c1 s1 Hwin Hw1 Hn Hle) as (shot & Eg & Hfit & Eshot).
    rewrite (bind_Ret _ _ _ _ _ Eg).
    set (f' := addTS (time_flush (ext c)) (time_flush (ext c)) shot).
    destruct (addTS_spec (time_flush (ext c)) (time_flush (ext c)) shot) as [Wf Ef];
      [by eapply pc_wf_fits|done|]. fold f' in Wf, Ef.
    destruct (late_range _ _ _ _ _ Hwin Hw Hn Hle) as (L0 & L1 & L2).
    assert (late (ext c1) p now = late (ext c) p now) as El1 by done.
    rewrite El1 in *.
    exists (set_ctr 1 (set_time_flush f' (set_isHeaderLogged true (ext c)))).
    split.
    { rewrite write_recs_app. unfold c1. unfold assign_ext, assign, modify.
      simpl. by destruct c. }
    split; [|split; [done|split; [split; [done|]|]]].
    + intros _. destruct Hwin, Hw, Hn. constructor; simpl; [done..| |pow2; lia].
      rewrite Ef, Eshot. nia.
    + simpl. rewrite Ef, Eshot. lia.
    + simpl. rewrite Ef, Eshot. lia.
  - apply Z.ltb_ge in El. eexists. split.
    { unfold assign_ext, assign, modify, write_recs, render_all. simpl.
      instantiate (1 := set_ctr (u64 (ctr (ext c) + 1)) (ext c)). by destruct c. }
    split_and!; try done. intros Hb. destruct Hw as [? ? ? Hc].
    constructor; simpl; [done..|]. rewrite wrapU_small by (pow2; lia). lia.
Qed.

(** A count is stamped with a point of the grid of flush times. *)
Definition on_grid (F0 p : Z) (r : pc_rec) : Prop :=
  match r with RCount f _ => (ts_ns f - F0) `mod` p = 0 | _ => True end.

Lemma flush_recs_grid F0 p e n :
  (ts_ns (time_flush e) - F0) `mod` p = 0 →
  Forall (on_grid F0 p) (header_recs e ++ flush_recs e n).
Proof.
  intros Hg. unfold header_recs, flush_recs. apply Forall_app. split;
    [|apply Forall_app; split]; case_match; repeat constructor; done.
Qed.

Lemma event_recs_total T0 W p e now :
  window T0 W p → pc_wf T0 W p e → in_window T0 W now →
  total rec_events (event_recs e p now) = (if is_late e now then ctr e else 0)
  ∧ total rec_periods (event_recs e p now)
    = (if is_late e now then 1 + late e p now else 0).
Proof.
  intros Hwin Hw Hn. unfold event_recs. destruct (is_late e now) eqn:El; [|done].
  unfold is_late in El. apply Z.ltb_lt in El.
  destruct (late_range _ _ _ _ _ Hwin Hw Hn) as (L0 & _); [lia|].
  assert (0 ≤ ctr e) as Hc by apply Hw.
  rewrite !total_app, flush_recs_events, flush_recs_periods by done.
  unfold header_recs. destruct (isHeaderLogged e); simpl; lia.
Qed.

(** *** A run *)
Definition clocked (T0 W : Z) (clk0 n : nat) : Prop :=
  ∀ k, (clk0 ≤ k < clk0 + n)%nat → in_window T0 W (clock k).

Lemma pc_run T0 W p ts c s :
  window T0 W p → pc_wf T0 W p (ext c) → clocked T0 W (clk s) (length ts) →
  ctr (ext c) + Z.of_nat (length ts) < 2 ^ 63 →
  ∃ e' recs, log_all PeriodicCounterHandler ts (c, s) =
      ((set_ext e' (write_recs recs c), set_clk (clk s + length ts) s), Ret tt)
    ∧ pc_wf T0 W p e'
    ∧ total rec_events recs + ctr e' = ctr (ext c) + Z.of_nat (length ts)
    ∧ ts_ns (time_flush e')
      = ts_ns (time_flush (ext c)) + total rec_periods recs * p
    ∧ Forall (on_grid (ts_ns (time_flush (ext c))) p) recs.
Proof.
  intros Hwin. revert c s. induction ts as [|t ts IH]; intros c s Hw Hclk Hc.
  { exists (ext c), []. simpl. rewrite Nat.add_0_r. split_and!; [|done|lia..|done].
    unfold write_recs. simpl. by destruct c, s. }
  simpl length in Hc. assert (in_window T0 W (clock (clk s))) as Hn
    by (apply Hclk; simpl; lia).
  destruct (PeriodicCounterHandler_run T0 W p t c s Hwin Hw Hn)
    as (e1 & Er & Hw1 & _ & Hcase & _).
  specialize (Hw1 ltac:(lia)). set (now := clock (clk s)) in *.
  destruct (event_recs_total _ _ _ _ _ Hwin Hw Hn) as [Tev Tper].
  assert (0 ≤ ctr (ext c)) as Hc0 by apply Hw.
  set (recs1 := event_recs (ext c) p now) in *.
  set (c1 := set_ext e1 (write_recs recs1 c)) in *.
  destruct (IH c1 (set_clk (S (clk s)) s)) as
    (e2 & recs2 & Er2 & Hw2 & Hev2 & Hper2 & Hg2).
  { done. }
  { intros k Hk. apply Hclk. simpl in *. lia. }
  { unfold c1. simpl ext. destruct (is_late (ext c) now).
    - destruct Hcase as [-> _]. lia.
    - destruct Hcase as [-> _]. rewrite wrapU_small by (pow2; lia). lia. }
  exists e2, (recs1 ++ recs2). simpl log_all. rewrite (bind_Ret _ _ _ _ _ Er), Er2.
  unfold c1 in *. simpl ext in *. rewrite !total_app.
  split; [simpl; rewrite Nat.add_succ_r, write_recs_app; by destruct c|].
  split; [done|]. rewrite Tev, Tper, Forall_app.
  destruct (is_late (ext c) now) eqn:El; destruct Hcase as [Hctr Hfl].
  - rewrite Hctr in Hev2. rewrite Hfl in Hper2, Hg2.
    split; [simpl; lia|]. split; [lia|]. split.
    + unfold recs1, event_recs. rewrite El. apply flush_recs_grid.
      by rewrite Z.sub_diag, Z.mod_0_l by (destruct Hwin; lia).
    + eapply Forall_impl; [exact Hg2|]. intros [| f n | |]; try done. simpl.
      intros Hm. rewrite <- Hm.
      replace (ts_ns f - ts_ns (time_flush (ext c))) with
        (ts_ns f - (ts_ns (time_flush (ext c)) + (1 + late (ext c) p now) * p)
         + (1 + late (ext c) p now) * p) by lia.
      by rewrite Z.mod_add by (destruct Hwin; lia).
  - rewrite wrapU_small in Hctr by (pow2; lia). rewrite Hctr in Hev2.
    rewrite Hfl in Hper2, Hg2. split; [simpl; lia|]. split; [lia|]. split; [|done].
    unfold recs1, event_recs. by rewrite El.
Qed.

(** *** Closing *)
Definition close_recs (e : pc_ext) (p : Z) (now : timespec) : list pc_rec :=
  if ts_ns now <? ts_ns (time_flush e) then [RTruncated now (ctr e)]
  else flush_recs e (late e p now).

Lemma close_recs_events T0 W p e now :
  window T0 W p → pc_wf T0 W p e → in_window T0 W now →
  total rec_events (close_recs e p now) = ctr e.
Proof.
  intros Hwin Hw Hn. unfold close_recs. destruct (ts_ns now <? _); simpl; [lia|].
  apply flush_recs_events, Hw.
Qed.

Lemma flushCtr_run T0 W p now c s :
  window T0 W p → pc_wf T0 W p (ext c) → in_window T0 W now →
  flushCtr now (c, s) = ((write_recs (close_recs (ext c) p now) c, s), Ret tt).
Proof.
  intros Hwin Hw Hn. unfold flushCtr, close_recs.
  rewrite (bind_Ret this _ (c, s) (c, s) c) by done.
  rewrite compareTS_spec by apply Hn || apply Hw.
  destruct (Z.ltb_spec (ts_ns now) (ts_ns (time_flush (ext c)))) as [Hlt|Hge].
  - rewrite (proj2 (Z.compare_lt_iff _ _) Hlt). cbn [Z.eqb Pos.eqb].
    rewrite bind_ret_l. cbn [when Z.ltb Z.compare]. reflexivity.
  - assert (match ts_ns now ?= ts_ns (time_flush (ext c)) with
            | Eq => 0 | Lt => -1 | Gt => 1 end =? -1 = false) as ->.
    { destruct (Z.compare_spec (ts_ns now) (ts_ns (time_flush (ext c))));
        [done|lia|done]. }
    pose proof (elapsed_ns _ _ _ _ _ Hwin Hw Hn Hge) as Ee.
    destruct (late_range _ _ _ _ _ Hwin Hw Hn Hge) as (L0 & L1 & _).
    set (n := late (ext c) p now) in *.
    rewrite (bind_Ret _ _ (c, s) (c, s)
      (false, if ctr (ext c) =? 0 then n + 1 else n)).
    + apply write_flush_recs.
    + rewrite Ee, (pw_ns _ _ _ _ Hw). unfold udiv.
      destruct (Z.eqb_spec p 0); [destruct Hwin; lia|].
      rewrite bind_ret_l. fold (late (ext c) p now). fold n.
      rewrite (wrapU_small 32 n), (wrapU_small 32 (n + 1)) by (pow2; lia). done.
Qed.

Lemma pc_closeChannel_run T0 W p c s :
  window T0 W p → pc_wf T0 W p (ext c) → in_window T0 W (clock (clk s)) →
  ofs_ok (ch_logf c) → named c →
  ∃ c' s', pc_closeChannel (c, s) = ((c', s'), Ret tt)
    ∧ ofs_open (ch_logf c') = false ∧ handler_f c' = Some NullHandler_fn
    ∧ ofs_file (ch_logf c') = ofs_file (ch_logf c)
        ++ render_all (header_recs (ext c)
                       ++ close_recs (ext c) p (clock (clk s)))
        ++ [ts_text (clock (clk s)) +:+ ", *** timer shut down ***" +:+ nl].
Proof.
  intros Hwin Hw Hn Hok Hnm. unfold pc_closeChannel.
  rewrite (bind_Ret this _ (c, s) (c, s) c) by done.
  rewrite (bind_Ret _ _ _ _ _ (when_header c s)).
  set (c1 := set_ext _ _). set (now := clock (clk s)) in *.
  set (s1 := set_clk (S (clk s)) s).
  rewrite (bind_Ret _ _ (c1, s) (c1, s1) now) by done.
  assert (pc_wf T0 W p (ext c1)) as Hw1 by (by destruct Hw).
  rewrite (bind_Ret _ _ _ _ _ (flushCtr_run _ _ _ now c1 s1 Hwin Hw1 Hn)).
  assert (close_recs (ext c1) p now = close_recs (ext c) p now) as -> by done.
  set (recs := close_recs (ext c) p now).
  destruct (ofs_writes_ok (render_all (header_recs (ext c))) _ Hok) as [O1 F1].
  destruct (ofs_writes_ok (render_all recs) _ O1) as [O2 F2].
  destruct (emit_close (ts_text now +:+ ", *** timer shut down ***" +:+ nl)
    (write_recs recs c1) s1) as (s2 & E2 & F3); [done|done|].
  eexists _, s2. split; [exact E2|]. split; [apply closed_form_closed|].
  split; [apply closed_form_handler|]. rewrite F3. unfold write_recs, c1. simpl.
  rewrite F2, F1, render_all_app, <- !app_assoc. done.
Qed.

(** ** Properties *)

(** C24. No event is lost and no period is unaccounted for. Feed any number of
    tuples to a periodic counter, then close the channel: every call returns,
    and what the log file gained is a sequence of records whose event counts
    add up to exactly the number of tuples (plus the events counted before).
    Up to the close, the flush time advanced by exactly one period per count
    record and per skipped interval, so it stays on its grid, and every count
    is stamped with a point of the grid. The clock need not be monotonic; it
    must stay within a window of less than 2^32 - 1 periods. *)
Theorem pc_conserves_events T0 W p ts c s :
  window T0 W p → pc_wf T0 W p (ext c) → ofs_ok (ch_logf c) → named c →
  clocked T0 W (clk s) (S (length ts)) →
  ctr (ext c) + Z.of_nat (length ts) < 2 ^ 63 →
  ∃ c1 s1 c' s' recs1 recs2 line,
    log_all PeriodicCounterHandler ts (c, s) = ((c1, s1), Ret tt)
    ∧ pc_closeChannel (c1, s1) = ((c', s'), Ret tt)
    ∧ ofs_file (ch_logf c') = ofs_file (ch_logf c)
        ++ render_all (recs1 ++ recs2) ++ [line]
    ∧ total rec_events (recs1 ++ recs2) = ctr (ext c) + Z.of_nat (length ts)
    ∧ ts_ns (time_flush (ext c1))
      = ts_ns (time_flush (ext c)) + total rec_periods recs1 * p
    ∧ Forall (on_grid (ts_ns (time_flush (ext c))) p) (recs1 ++ recs2)
    ∧ ofs_open (ch_logf c') = false ∧ handler_f c' = Some NullHandler_fn.
Proof.
  intros Hwin Hw Hok Hnm Hclk Hc.
  destruct (pc_run T0 W p ts c s Hwin Hw) as (e1 & recs & Er & Hw1 & Hev & Hper & Hg);
    [intros k Hk; apply Hclk; lia|done|].
  destruct (ofs_writes_ok (render_all recs) _ Hok) as [O1 F1].
  assert (in_window T0 W (clock (clk s + length ts))) as Hn
    by (apply Hclk; lia).
  set (c1 := set_ext e1 (write_recs recs c)).
  set (s1 := set_clk (clk s + length ts) s).
  destruct (pc_closeChannel_run T0 W p c1 s1 Hwin Hw1 Hn O1 Hnm)
    as (c' & s' & Ec & Hcl & Hh & Hf).
  eexists c1, s1, c', s', recs, _, _. split; [exact Er|]. split; [exact Ec|].
  split.
  { rewrite Hf. unfold c1 at 1. simpl ch_logf. rewrite F1.
    rewrite (render_all_app recs), <- !app_assoc. done. }
  simpl ext in *. rewrite !total_app.
  rewrite (close_recs_events T0 W p) by done.
  split_and!; try done.
  - unfold header_recs. destruct (isHeaderLogged e1); simpl; lia.
  - rewrite Forall_app. split; [done|].
    assert ((ts_ns (time_flush e1) - ts_ns (time_flush (ext c))) `mod` p = 0) as Hm.
    { rewrite Hper. replace (ts_ns (time_flush (ext c)) + total rec_periods recs * p
        - ts_ns (time_flush (ext c))) with (total rec_periods recs * p) by lia.
      apply Z.mod_mul. destruct Hwin. lia. }
    unfold close_recs. destruct (_ <? _).
    + apply Forall_app. split; [|by repeat constructor].
      unfold header_recs. case_match; by repeat constructor.
    + by apply flush_recs_grid.
Qed.

(** The timer makes progress: after every event the next flush lies at or
    after the event, so that the next event before it is counted without
    looking at the period again. *)
Theorem pc_flush_ahead T0 W p t c s :
  window T0 W p → pc_wf T0 W p (ext c) → in_window T0 W (clock (clk s)) →
  ∃ c' s', PeriodicCounterHandler t (c, s) = ((c', s'), Ret tt)
    ∧ ts_ns (clock (clk s)) ≤ ts_ns (time_flush (ext c'))
    ∧ ts_ns (time_flush (ext c))
      ≤ ts_ns (time_flush (ext c'))
      ≤ Z.max (ts_ns (time_flush (ext c))) (ts_ns (clock (clk s)) + p).
Proof.
  intros Hwin Hw Hn.
  destruct (PeriodicCounterHandler_run T0 W p t c s Hwin Hw Hn)
    as (e1 & Er & _ & _ & Hcase & Hahead).
  eexists _, _. split; [exact Er|]. split; [exact Hahead|]. simpl.
  destruct (is_late (ext c) (clock (clk s))) eqn:El; destruct Hcase as [_ Ef].
  - unfold is_late in El. apply Z.ltb_lt in El.
    assert (ts_ns (time_flush (ext c)) ≤ ts_ns (clock (clk s))) as Hle by lia.
    destruct (late_range _ _ _ _ _ Hwin Hw Hn Hle) as (L0 & _ & L2).
    assert (1 ≤ p) by apply Hwin. rewrite Ef. nia.
  - rewrite Ef. lia.
Qed.
End PeriodicCounter.

Definition demo_pc : closure pc_ext :=
  demo_open (PcExt 0 (Timespec 999 500 0 0) (Timespec 1000 500 0 0)
    (Timespec 1 0 0 0) 1000000000 false).

Lemma demo_window : window 999000000000 100000000000 1000000000.
Proof. constructor; by_decide. Defined.

Lemma demo_pc_wf : pc_wf 999000000000 100000000000 1000000000 (ext demo_pc).
Proof. constructor; by_decide. Defined.

Lemma pc_conserves_events_witness :
  ∃ c1 s1 c' s' recs,
    log_all (@PeriodicCounterHandler demo_env) [1; 2; 3] (demo_pc, @sys_init true)
      = ((c1, s1), Ret tt)
    ∧ @pc_closeChannel demo_env (c1, s1) = ((c', s'), Ret tt)
    ∧ total rec_events recs = 3.
Proof.
  destruct (@pc_conserves_events demo_env 999000000000 100000000000 1000000000
    [1; 2; 3] demo_pc (@sys_init true) demo_window demo_pc_wf ltac:(by_decide)
    ltac:(eexists; reflexivity)) as (c1 & s1 & c' & s' & r1 & r2 & l & E1 & E2 & _ & T & _).
  { intros k Hk. simpl in Hk. unfold in_window, ts_wf, ts_ns. simpl.
    change NANO_S_PER_S with 1000000000. lia. }
  { by_decide. }
  exists c1, s1, c', s', (r1 ++ r2). split; [exact E1|split; [exact E2|exact T]].
Defined.

Lemma pc_flush_ahead_witness :
  ∃ c' s', @PeriodicCounterHandler demo_env 9 (demo_pc, @sys_init true)
    = ((c', s'), Ret tt) ∧ 1000000000500 ≤ ts_ns (time_flush (ext c')).
Proof.
  destruct (@pc_flush_ahead demo_env 999000000000 100000000000 1000000000 9 demo_pc
    (@sys_init true) demo_window demo_pc_wf) as (c' & s' & E & L & _).
  { split; by_decide. }
  exists c', s'. split; [exact E|exact L].
Defined.
