(* ===== verification/IoThread.v ===== *)
(** * Buffered channels: src/cp/handlers/buffer_id_handler.cpp,
    handlers/io_thread/io_thread.cpp, handlers/io_thread/block_data.cpp,
    handlers/compression_thread/comp_thread.cpp

    A buffered channel collects samples in blocks. Full blocks go to the IO
    thread, directly or through the compression threads, and empty blocks come
    back. This file has the state the threads share and the functions they
    run; IoFlush.v and ReorderBuffer.v interleave them. *)
From S2P Require Import Prelude TimeStamp Platform Log Formats Closure Bytes.
From S2P Require Import Identity.

(** ** Constants *)
Definition IO_QUEUE_SIZE : nat := Z.to_nat 100000.
Definition RETURN_QUEUE_SIZE : nat := Z.to_nat 10000.
Definition COMPRESS_QUEUE_SIZE : nat := Z.to_nat 100000.
Definition COMP_THREAD_NUM : Z := 4.

(** The two sizes of buffer_id_handler.h the developers vary. *)
Class Sizes := {
  NUM_BUFFER_BLOCK : nat;
  BUFFER_BLOCK_SIZE : Z;
  size_blocks : (1 ≤ NUM_BUFFER_BLOCK ≤ RETURN_QUEUE_SIZE)%nat;
  size_tuples : 1 ≤ BUFFER_BLOCK_SIZE
}.

#[global] Instance code_sizes : Sizes.
Proof.
  refine {| NUM_BUFFER_BLOCK := 32; BUFFER_BLOCK_SIZE := 1000000 |}.
  - unfold RETURN_QUEUE_SIZE. lia.
  - lia.
Defined.

(** ** The squash compression library: [None] is any status but SQUASH_OK *)
Class Squash := {
  squash_compress : string → string → string → option string
    (* codec, level, data *)
}.

(** ** Data *)
Definition log_data : Type := Z * timespec.

(** What [block_data::block] points to: the filled part of the sample array,
    compressed bytes, or nothing. *)
Inductive payload :=
  | Samples (l : list log_data)
  | Compressed (bytes : string)
  | NullBlock.

Record block_data := BlockData {
  block_id : Z;
  block : payload;
  block_idx : Z;     (* samples, or bytes *)
  compress : bool;
  close_file : bool;
  ch_cl : Z          (* the channel, by its address *)
}.

Definition set_block_id x b := BlockData x (block b) (block_idx b) (compress b)
  (close_file b) (ch_cl b).
Definition set_block x b := BlockData (block_id b) x (block_idx b) (compress b)
  (close_file b) (ch_cl b).
Definition set_block_idx x b := BlockData (block_id b) (block b) x (compress b)
  (close_file b) (ch_cl b).
Definition set_close_file x b := BlockData (block_id b) (block b) (block_idx b)
  (compress b) x (ch_cl b).

(** block_data::block_data, and its copy constructor. *)
Definition block_new (comp : bool) (cl : Z) : block_data :=
  BlockData 0 (Samples []) 0 comp false cl.
Definition block_copy (ref : block_data) : block_data :=
  BlockData (block_id ref) NullBlock 0 true (close_file ref) (ch_cl ref).

(** The derived part of a buffer_closure. A pointer to a block is in one place
    at a time - a channel, a queue, a thread, the pending blocks - so that the
    block itself can be kept there. *)
Record buf_ext := BufExt {
  queue : list block_data;          (* empty blocks, spsc_queue *)
  cur_block : option block_data;    (* block; unset before initialisation *)
  block_cnt : Z;
  buf_first_logging : bool
}.

Definition set_queue x e := BufExt x (cur_block e) (block_cnt e)
  (buf_first_logging e).
Definition set_cur_block x e := BufExt (queue e) x (block_cnt e)
  (buf_first_logging e).
Definition set_block_cnt x e := BufExt (queue e) (cur_block e) x
  (buf_first_logging e).
Definition set_buf_first_logging x e := BufExt (queue e) (cur_block e)
  (block_cnt e) x.

(** The globals the threads share. *)
Record bst := Bst {
  chans : gmap Z (closure buf_ext);
  io_queue : list block_data;
  compression_queue : list block_data;
  next_block : list Z;                     (* vector<int> next_block(200, 0) *)
  pending : list (list block_data);        (* 200 priority queues *)
  num_buf_ch : Z;
  num_buf_comp_ch : Z;
  io_thread_created : bool;
  comp_thread_created : bool;
  stop_io_thread : Z;
  bsys : sys
}.

Definition set_chans x s := Bst x (io_queue s) (compression_queue s)
  (next_block s) (pending s) (num_buf_ch s) (num_buf_comp_ch s)
  (io_thread_created s) (comp_thread_created s) (stop_io_thread s) (bsys s).
Definition set_io_queue x s := Bst (chans s) x (compression_queue s)
  (next_block s) (pending s) (num_buf_ch s) (num_buf_comp_ch s)
  (io_thread_created s) (comp_thread_created s) (stop_io_thread s) (bsys s).
Definition set_compression_queue x s := Bst (chans s) (io_queue s) x
  (next_block s) (pending s) (num_buf_ch s) (num_buf_comp_ch s)
  (io_thread_created s) (comp_thread_created s) (stop_io_thread s) (bsys s).
Definition set_next_block x s := Bst (chans s) (io_queue s)
  (compression_queue s) x (pending s) (num_buf_ch s) (num_buf_comp_ch s)
  (io_thread_created s) (comp_thread_created s) (stop_io_thread s) (bsys s).
Definition set_pending x s := Bst (chans s) (io_queue s) (compression_queue s)
  (next_block s) x (num_buf_ch s) (num_buf_comp_ch s)
  (io_thread_created s) (comp_thread_created s) (stop_io_thread s) (bsys s).
Definition set_num_buf_ch x s := Bst (chans s) (io_queue s)
  (compression_queue s) (next_block s) (pending s) x (num_buf_comp_ch s)
  (io_thread_created s) (comp_thread_created s) (stop_io_thread s) (bsys s).
Definition set_num_buf_comp_ch x s := Bst (chans s) (io_queue s)
  (compression_queue s) (next_block s) (pending s) (num_buf_ch s) x
  (io_thread_created s) (comp_thread_created s) (stop_io_thread s) (bsys s).
Definition set_io_thread_created x s := Bst (chans s) (io_queue s)
  (compression_queue s) (next_block s) (pending s) (num_buf_ch s)
  (num_buf_comp_ch s) x (comp_thread_created s) (stop_io_thread s) (bsys s).
Definition set_stop_io_thread x s := Bst (chans s) (io_queue s)
  (compression_queue s) (next_block s) (pending s) (num_buf_ch s) (num_buf_comp_ch s)
  (io_thread_created s) (comp_thread_created s) x (bsys s).
Definition set_comp_thread_created x s := Bst (chans s) (io_queue s)
  (compression_queue s) (next_block s) (pending s) (num_buf_ch s)
  (num_buf_comp_ch s) (io_thread_created s) x (stop_io_thread s) (bsys s).
Definition set_bsys x s := Bst (chans s) (io_queue s) (compression_queue s)
  (next_block s) (pending s) (num_buf_ch s) (num_buf_comp_ch s)
  (io_thread_created s) (comp_thread_created s) (stop_io_thread s) x.

Definition bst_init (s : sys) : bst :=
  Bst ∅ [] [] (replicate 200 0) (replicate 200 []) 0 0 false false 0 s.

(** Code that works on the closure at address [cl]. *)
Definition on_closure {A} (cl : Z) (m : CM buf_ext A) : M bst A := λ s,
  match chans s !! cl with
  | Some c => let '((c', y'), r) := m (c, bsys s) in
              (set_bsys y' (set_chans (<[cl := c']> (chans s)) s), r)
  | None => (s, Fault (FUndefined "dangling channel"))
  end.

Section IoThread.
Context `{Env} `{Sizes} `{Squash}.

(** ** block_data.cpp and the queues *)

(** A block holds BUFFER_BLOCK_SIZE samples. *)
Definition writeOnBlock (b : block_data) (tuple : Z) (ts : timespec)
    : CM buf_ext block_data :=
  match block b with
  | Samples l =>
      if (block_idx b =? Z.of_nat (length l)) && (block_idx b <? BUFFER_BLOCK_SIZE)
      then mret (set_block_idx (block_idx b + 1)
                   (set_block (Samples (l ++ [(tuple, ts)])) b))
      else undefined "sample outside of the block"
  | _ => undefined "not a sample block"
  end.

(** The auxiliary word keeps what the slot held before. *)
Definition writeOnBlockTsc (b : block_data) (tuple : Z) (ts : timespec)
    : CM buf_ext block_data :=
  writeOnBlock b tuple (Timespec 0 0 (tsc ts) (aux stale_ts)).

Definition checkBlockIsFull (b : block_data) : bool :=
  block_idx b =? BUFFER_BLOCK_SIZE.

(** [false] when the target queue is full. *)
Definition enqueueBlock (b : block_data) : M bst bool :=
  s ← get;
  if compress b then
    if bool_decide (length (compression_queue s) < COMPRESS_QUEUE_SIZE)%nat
    then modify (set_compression_queue (compression_queue s ++ [b])) ;; mret true
    else mret false
  else
    if bool_decide (length (io_queue s) < IO_QUEUE_SIZE)%nat
    then modify (set_io_queue (io_queue s ++ [b])) ;; mret true
    else mret false.

Definition enqueueBlockUntilSuccess (b : block_data) : M bst unit :=
  ok ← enqueueBlock b;
  if ok : bool then mret tt else spin "enqueueBlockUntilSuccess".

Definition enqueueFullBlockFromCompThread (b : block_data) : M bst bool :=
  s ← get;
  if bool_decide (length (io_queue s) < IO_QUEUE_SIZE)%nat
  then modify (set_io_queue (io_queue s ++ [b])) ;; mret true
  else mret false.

(** getBlock, getBlockUntilSuccess, dequeueEmptyBlock and
    dequeueEmptyBlockPolling pop the channel's queue of empty blocks. *)
Definition dequeueEmptyBlock : CM buf_ext (option block_data) :=
  c ← this;
  match queue (ext c) with
  | [] => mret None
  | b :: q => assign_ext (set_queue q) ;; mret (Some b)
  end.

Definition dequeueEmptyBlockPolling : CM buf_ext block_data :=
  ob ← dequeueEmptyBlock;
  match ob with
  | Some b => mret b
  | None => spin "dequeueEmptyBlockPolling"
  end.

Definition sendBackBlock (b : block_data) : CM buf_ext bool :=
  c ← this;
  if bool_decide (length (queue (ext c)) < RETURN_QUEUE_SIZE)%nat
  then assign_ext (set_queue (queue (ext c) ++ [b])) ;; mret true
  else mret false.

Definition sendBackBlockUntilSuccess (b : block_data) : M bst unit :=
  ok ← on_closure (ch_cl b) (sendBackBlock b);
  if ok : bool then mret tt else spin "sendBackBlockUntilSuccess".

(** ** The IO thread *)

(** Closes the file of a channel, without a word to the status log. *)
Definition close_logf : CM buf_ext unit :=
  assign (λ c, set_ch_logf (ofs_close (ch_logf c)) c).

Fixpoint write_samples (l : list log_data) : CM buf_ext unit :=
  match l with
  | [] => mret tt
  | (tuple, ts) :: l => call_write tuple ts ;; write_samples l
  end.

Definition writeUncompressedBlock (data : block_data) : M bst unit :=
  match block data with
  | Samples l =>
      on_closure (ch_cl data) (write_samples (take (Z.to_nat (block_idx data)) l)) ;;
      when (close_file data) (on_closure (ch_cl data) close_logf) ;;
      sendBackBlockUntilSuccess (set_block_idx 0 (set_block (Samples []) data))
  | _ => undefined "not a sample block"
  end.

(** [block_idx] bytes from the address [block]. *)
Definition payload_bytes (data : block_data) : option string :=
  match block data with
  | Compressed bytes =>
      if block_idx data =? Z.of_nat (String.length bytes) then Some bytes
      else None
  | _ => None
  end.

Definition writeCompressed (data : block_data) : CM buf_ext unit :=
  emit (le_bytes 4 (block_idx data)) ;;
  match payload_bytes data with
  | Some bytes => emit bytes
  | None => undefined "read outside of the compressed data"
  end.

(** [priority_queue::push]: the smallest block_id is on top. *)
Fixpoint pq_push (b : block_data) (q : list block_data) : list block_data :=
  match q with
  | [] => [b]
  | x :: q' => if block_id b <? block_id x then b :: q else x :: pq_push b q'
  end.

Definition channel_nr (cl : Z) : M bst Z :=
  on_closure cl (c ← this; mret (ch_nr c)).

(** Elements of the two vectors of 200; others do not exist. *)
Definition vec_at {A} (l : list A) (i : Z) : M bst A :=
  match (if i <? 0 then None else l !! Z.to_nat i) with
  | Some x => mret x
  | None => undefined "vector index out of range"
  end.

Definition put_next (nr : Z) (v : Z) : M bst unit :=
  modify (λ s, set_next_block (<[Z.to_nat nr := v]> (next_block s)) s).
Definition put_pending (nr : Z) (q : list block_data) : M bst unit :=
  modify (λ s, set_pending (<[Z.to_nat nr := q]> (pending s)) s).

(** The loop of lines 158-169; [q] is the queue of the channel and loses its
    top in every round. *)
Fixpoint drain_pending (nr : Z) (q : list block_data) : M bst unit :=
  match q with
  | [] => mret tt
  | temp :: q' =>
      s ← get;
      nb ← vec_at (next_block s) nr;
      if block_id temp =? nb then
        on_closure (ch_cl temp) (writeCompressed temp) ;;
        put_next nr (i32 (nb + 1)) ;;
        put_pending nr q' ;;
        when (close_file temp) (on_closure (ch_cl temp) close_logf) ;;
        drain_pending nr q'
      else mret tt
  end.

Definition writeCompressedBlock (data : block_data) : M bst unit :=
  nr ← channel_nr (ch_cl data);
  s ← get;
  nb ← vec_at (next_block s) nr;
  if negb (block_id data =? nb) then
    q ← vec_at (pending s) nr;
    put_pending nr (pq_push data q)
  else
    on_closure (ch_cl data) (writeCompressed data) ;;
    put_next nr (i32 (nb + 1)) ;;
    q ← vec_at (pending s) nr;
    drain_pending nr q ;;
    when (close_file data) (on_closure (ch_cl data) close_logf).

Definition write_block (data : block_data) : M bst unit :=
  if compress data then writeCompressedBlock data
  else writeUncompressedBlock data.

(** One round of the loop of runIOThread; flushBlockInQueues repeats it until
    the queue is empty. The writing times are not stored, as
    DUMP_BLOCK_WRITING_TIME is 0. *)
Definition io_round : M bst bool :=
  s ← get;
  match io_queue s with
  | [] => mret false
  | data :: q => modify (set_io_queue q) ;; write_block data ;; mret true
  end.

(** The condition of the loop of runIOThread. *)
Definition io_running (s : bst) : bool :=
  (comp_thread_created s && negb (stop_io_thread s =? COMP_THREAD_NUM))
  || (negb (comp_thread_created s) && negb (num_buf_ch s =? 0)).

Fixpoint flushBlockInQueues (fuel : nat) : M bst unit :=
  match fuel with
  | O => mret tt
  | S fuel =>
      more ← io_round;
      if more : bool then flushBlockInQueues fuel else mret tt
  end.

(** ** The compression threads *)

(** The bytes of the sample array, 40 per sample. *)
Definition raw_bytes (l : list log_data) : string :=
  string_concat (map (λ d, le_bytes 8 d.1 +:+ timespec_bytes d.2) l).

Definition compressBlock (b : block_data) : M bst (option string) :=
  match block b with
  | Samples l =>
      s ← get;
      fmt ← on_closure (ch_cl b) (c ← this; mret (format c));
      let codec := if bool_decide (fmt = ZSTD) then "zstd" else "lzo1x" in
      let level := if bool_decide (fmt = ZSTD) then "1" else "12" in
      match squash_compress codec level
              (raw_bytes (take (Z.to_nat (block_idx b)) l)) with
      | Some bytes => mret (Some bytes)
      | None =>
          zoom bsys set_bsys
            (logFail "handlers/compression_thread/comp_thread.cpp" 74
               "Unable to compress data: ") ;;
          mret None
      end
  | _ => undefined "not a sample block"
  end.

(** The first half of compressBlockAndSend: the block to send on, after the
    emptied block went back. On failure the size is uninitialised. *)
Definition compress_and_return (b : block_data) : M bst block_data :=
  compressed ← compressBlock b;
  sendBackBlockUntilSuccess (set_block_idx 0 (set_block (Samples []) b)) ;;
  mret match compressed with
       | Some bytes => set_block (Compressed bytes)
           (set_block_idx (Z.of_nat (String.length bytes)) (block_copy b))
       | None => block_copy b
       end.

(** compressBlockAndSend: whether the IO queue had room is not looked at. *)
Definition compressBlockAndSend (b : block_data) : M bst unit :=
  new_block ← compress_and_return b;
  _ ← enqueueFullBlockFromCompThread new_block;
  mret tt.

Definition comp_round : M bst bool :=
  s ← get;
  match compression_queue s with
  | [] => mret false
  | b :: q =>
      modify (set_compression_queue q) ;; compressBlockAndSend b ;; mret true
  end.

(** ** The threads as machines

    A thread is where its program is; one step is one test of a loop condition
    with the block it handles. The priority queues of createPriorityQueue are in
    the initial state; a later IO thread puts 200 more behind them, which no
    channel number reaches. *)
Inductive io_pc := io_loop | io_flush | io_end.

(** runIOThread. At its end the flags are reset, so that the next buffered
    channel starts a new IO thread; stop_io_thread is not. *)
Definition runIOThread (io_test quick_term : bool) (pc : io_pc) : M bst io_pc :=
  match pc with
  | io_loop =>
      s ← get;
      if io_running s then
        found ← io_round;
        mret (if negb found && io_test then io_flush else io_loop)
      else mret io_flush
  | io_flush =>
      more ← io_round;
      if more : bool then mret io_flush
      else
        (if quick_term then exit 0 else mret tt) ;;
        modify (set_io_thread_created false) ;;
        modify (set_comp_thread_created false) ;;
        mret io_end
  | io_end => mret io_end
  end.

Inductive comp_pc := comp_loop | comp_drain | comp_end.

(** runCompThread. *)
Definition runCompThread (stop_comp_thread : bool) (pc : comp_pc) : M bst comp_pc :=
  match pc with
  | comp_loop =>
      s ← get;
      if negb stop_comp_thread && negb (num_buf_comp_ch s =? 0)
      then comp_round ;; mret comp_loop
      else mret comp_drain
  | comp_drain =>
      more ← comp_round;
      if more : bool then mret comp_drain
      else modify (λ s, set_stop_io_thread (stop_io_thread s + 1) s) ;; mret comp_end
  | comp_end => mret comp_end
  end.

(** Once the compression threads of any channel have ended, the IO thread
    leaves its loop, whether or not other channels are still in use; a channel
    in a TSC format keeps it there even after it was closed. *)
Lemma runIOThread_leaves io_test quick_term s :
  comp_thread_created s = true → stop_io_thread s = COMP_THREAD_NUM →
  runIOThread io_test quick_term io_loop s = (s, Ret io_flush).
Proof.
  intros Hc Hs. unfold runIOThread. rewrite (bind_Ret get _ _ _ _ eq_refl).
  unfold io_running. by rewrite Hc, Hs.
Qed.

Lemma runIOThread_stays quick_term s :
  comp_thread_created s = false → num_buf_ch s ≠ 0 → io_queue s = [] →
  runIOThread false quick_term io_loop s = (s, Ret io_loop).
Proof.
  intros Hc Hn Hq. unfold runIOThread. rewrite (bind_Ret get _ _ _ _ eq_refl).
  unfold io_running. rewrite Hc, (proj2 (Z.eqb_neq _ _) Hn). simpl.
  unfold io_round. rewrite bind_assoc, (bind_Ret get _ _ _ _ eq_refl), Hq. done.
Qed.

(** ** The handlers of a buffered channel *)

(** Gets a fresh block and numbers it. *)
Definition refill : CM buf_ext unit :=
  b ← dequeueEmptyBlockPolling;
  c ← this;
  assign_ext (set_cur_block (Some (set_block_id (block_cnt (ext c)) b))) ;;
  assign_ext (λ e, set_block_cnt (i32 (block_cnt e + 1)) e).

Definition this_block : CM buf_ext block_data :=
  c ← this;
  match cur_block (ext c) with
  | Some b => mret b
  | None => undefined "uninitialised block"
  end.

(** The sample goes to the current block; [true] when that is full now. *)
Definition buffer_write (tuple : Z) : CM buf_ext bool :=
  ts ← sysm clock_gettime_tsc;
  b ← this_block;
  b ← writeOnBlock b tuple ts;
  assign_ext (set_cur_block (Some b)) ;;
  mret (checkBlockIsFull b).

Definition buffer_enqueue (cl : Z) : M bst unit :=
  b ← on_closure cl this_block;
  enqueueBlockUntilSuccess b ;;
  on_closure cl (assign_ext (set_cur_block None)).

Definition buffer_refill (cl : Z) : M bst unit :=
  on_closure cl
    (refill ;;
     c ← this;
     when (block_cnt (ext c) =? Z.of_nat NUM_BUFFER_BLOCK + 1)
       (sysm (logStatus "handlers/buffer_id_handler.cpp" 83
         ("The channel waits for a fresh block. "
          +:+ "This might lead to performance degradation.")))).

Definition BufferIdentityHandler (cl tuple : Z) : M bst unit :=
  full ← on_closure cl (buffer_write tuple);
  if full : bool then buffer_enqueue cl ;; buffer_refill cl else mret tt.

Definition buffer_write_tsc (tuple : Z) : CM buf_ext bool :=
  ts ← sysm (clock_gettime_tsc_only stale_ts);
  b ← this_block;
  b ← writeOnBlockTsc b tuple ts;
  assign_ext (set_cur_block (Some b)) ;;
  mret (checkBlockIsFull b).

Definition BufferIdentityHandlerTsc (cl tuple : Z) : M bst unit :=
  first ← on_closure cl (c ← this; mret (buf_first_logging (ext c)));
  if first : bool then
    on_closure cl
      (assign_ext (set_buf_first_logging false) ;;
       ts ← sysm clock_gettime_tsc;
       c ← this;
       if bool_decide (format c = ASCII_TSC) then writeInAscii tuple ts
       else if bool_decide (format c = BINARY_TSC ∨ format c = ZSTD_TSC
                            ∨ format c = LZO1X_TSC)
       then writeInBinary tuple ts else mret tt)
  else
    full ← on_closure cl (buffer_write_tsc tuple);
    if full : bool then buffer_enqueue cl ;; on_closure cl refill else mret tt.

(** buffer_closure::closeChannel: only a channel whose handler is
    BufferIdentityHandler is flushed. *)
Definition buffer_closeChannel (cl : Z) : M bst unit :=
  old ← on_closure cl
    (c ← this; assign (set_handler_f (Some NullHandler_fn)) ;; mret (handler_f c));
  if bool_decide (old = Some BufferIdentityHandler_fn) then
    b ← on_closure cl this_block;
    enqueueBlockUntilSuccess (set_close_file true b) ;;
    when (compress b) (modify (λ s, set_num_buf_comp_ch (num_buf_comp_ch s - 1) s)) ;;
    modify (λ s, set_num_buf_ch (num_buf_ch s - 1) s) ;;
    on_closure cl
      (c ← this;
       n ← deref_name c;
       sysm (logStatus "handlers/buffer_id_handler.cpp" 61
         ("Channel " +:+ n +:+ " will be closed by IO thread after flushing.")))
  else mret tt.

Fixpoint log_times (n : nat) (line : Z) (msg : string) : M bst unit :=
  match n with
  | O => mret tt
  | S n => zoom bsys set_bsys
             (logStatus "handlers/buffer_id_handler.cpp" line msg) ;;
           log_times n line msg
  end.

(** The constructor of a buffered channel at the fresh address [cl]. The
    compressed formats leave the write function unset. *)
Definition initBufferIdentityHandler (cl : Z) (fmt : log_format) (comp : bool)
    : M bst unit :=
  let tmp := closure_new fmt
    (BufExt (replicate NUM_BUFFER_BLOCK (block_new comp cl)) None 0 true) in
  let tmp :=
    match fmt with
    | ASCII => set_write_handler_f (Some writeInAscii_fn)
                 (set_handler_f (Some BufferIdentityHandler_fn) tmp)
    | ASCII_TSC => set_write_handler_f (Some writeInAsciiTsc_fn)
                 (set_handler_f (Some BufferIdentityHandlerTsc_fn) tmp)
    | BINARY => set_write_handler_f (Some writeInBinary_fn)
                 (set_handler_f (Some BufferIdentityHandler_fn) tmp)
    | BINARY_TSC => set_write_handler_f (Some writeInBinaryTsc_fn)
                 (set_handler_f (Some BufferIdentityHandlerTsc_fn) tmp)
    | ZSTD | LZO1X => set_handler_f (Some BufferIdentityHandler_fn) tmp
    | ZSTD_TSC | LZO1X_TSC => set_handler_f (Some BufferIdentityHandlerTsc_fn) tmp
    end in
  modify (λ s, set_num_buf_ch (num_buf_ch s + 1) s) ;;
  modify (set_io_thread_created true) ;;
  when comp (modify (λ s, set_num_buf_comp_ch (num_buf_comp_ch s + 1) s)) ;;
  s ← get;
  when (comp && negb (comp_thread_created s))
    (modify (set_comp_thread_created true) ;;
     log_times (Z.to_nat COMP_THREAD_NUM) 162 "New compression thread created") ;;
  modify (λ s, set_chans (<[cl := tmp]> (chans s)) s) ;;
  on_closure cl refill.
(** C37. A buffered channel in a TSC format is never flushed: closing it only
    silences it. Its current block and the samples in it stay where they are, its
    file stays open, and as the number of buffered channels does not go down, the
    IO thread stays in its loop with nothing to do, so that the process, which
    joins it when it exits, never ends. *)
Theorem tsc_channel_blocks_exit cl s c quick_term :
  chans s !! cl = Some c → handler_f c = Some BufferIdentityHandlerTsc_fn →
  comp_thread_created s = false → num_buf_ch s ≠ 0 → io_queue s = [] →
  ∃ s', buffer_closeChannel cl s = (s', Ret tt)
    ∧ chans s' !! cl = Some (set_handler_f (Some NullHandler_fn) c)
    ∧ io_queue s' = [] ∧ num_buf_ch s' = num_buf_ch s
    ∧ runIOThread false quick_term io_loop s' = (s', Ret io_loop).
Proof.
  intros Hc Hh Ht Hn Hq.
  set (c' := set_handler_f (Some NullHandler_fn) c).
  set (s' := set_bsys (bsys s) (set_chans (<[cl := c']> (chans s)) s)).
  assert (on_closure cl
    (c ← this; assign (set_handler_f (Some NullHandler_fn)) ;; mret (handler_f c)) s
    = (s', Ret (Some BufferIdentityHandlerTsc_fn))) as E1.
  { unfold on_closure. rewrite Hc. cm_simpl. by rewrite Hh. }
  exists s'. split_and!.
  - unfold buffer_closeChannel. by rewrite (bind_Ret _ _ _ _ _ E1).
  - apply lookup_insert_eq.
  - done.
  - done.
  - by apply runIOThread_stays.
Qed.
End IoThread.

(** A library that does not compress, for the witnesses. *)
Definition demo_squash : Squash := {|
  squash_compress := λ _ _ d, Some d
|}.

#[local] Existing Instance demo_squash.

Lemma tsc_channel_blocks_exit_witness :
  let s := (@initBufferIdentityHandler demo_env code_sizes 1 ASCII_TSC false
              (bst_init (@sys_init true))).1 in
  ∃ s', @buffer_closeChannel demo_env 1 s = (s', Ret tt)
    ∧ @runIOThread demo_env false false io_loop s' = (s', Ret io_loop).
Proof.
  intros s.
  assert (∃ c, chans s !! 1 = Some c ∧ handler_f c = Some BufferIdentityHandlerTsc_fn)
    as (c & Hc & Hh) by (eexists; split; vm_compute; reflexivity).
  destruct (@tsc_channel_blocks_exit demo_env 1 s c false Hc Hh)
    as (s' & E1 & _ & _ & _ & E2); [done|vm_compute; discriminate|done|].
  exists s'. split; [exact E1|exact E2].
Defined.
