(* ===== verification/ReorderBuffer.v ===== *)
(** * The order of compressed blocks: writeCompressedBlock of
    src/cp/handlers/io_thread/io_thread.cpp

    Several compression threads finish the blocks of a channel in any order;
    the IO thread writes them in the order of their numbers, and keeps the
    early ones in a priority queue. *)
From stdpp Require Import sorting.
From S2P Require Import Prelude TimeStamp Platform Log Formats Closure Bytes.
From S2P Require Import Identity IoThread.

(** ** The abstract reorder buffer: next number, early blocks *)
Fixpoint drain_spec (k : Z) (q : list block_data)
    : Z * list block_data * list block_data :=
  match q with
  | [] => (k, [], [])
  | b :: q' =>
      if block_id b =? k then
        let '(k', q'', w) := drain_spec (k + 1) q' in (k', q'', b :: w)
      else (k, q, [])
  end.

(** The new state and the blocks written, in order. *)
Definition reorder_step (k : Z) (q : list block_data) (b : block_data)
    : Z * list block_data * list block_data :=
  if block_id b =? k then
    let '(k', q', w) := drain_spec (k + 1) q in (k', q', b :: w)
  else (k, pq_push b q, []).

Fixpoint reorder_run (k : Z) (q : list block_data) (l : list block_data)
    : Z * list block_data * list block_data :=
  match l with
  | [] => (k, q, [])
  | b :: l =>
      let '(k, q, w) := reorder_step k q b in
      let '(k, q, w') := reorder_run k q l in (k, q, w ++ w')
  end.

(** ** The invariant: what arrived is what was written, the blocks number
    0 .. k-1, and what is early, all numbers above k, sorted. *)
Section Invariant.
Context (bs : list block_data).
Context (Hids : ∀ i b, bs !! i = Some b → block_id b = Z.of_nat i).

Lemma ids_nodup l : l ⊆+ bs → NoDup (map block_id l).
Proof.
  intros Hsub. assert (map block_id bs = map Z.of_nat (seq 0 (length bs))) as E.
  { apply list_eq. intros i. rewrite !list_lookup_fmap.
    destruct (bs !! i) as [b|] eqn:Eb; simpl.
    - rewrite lookup_seq_lt by (by apply lookup_lt_Some in Eb). simpl.
      by rewrite (Hids i b).
    - rewrite lookup_seq_ge by (by apply lookup_ge_None in Eb). done. }
  destruct (submseteq_Permutation _ _ Hsub) as [r Hr].
  assert (NoDup (map block_id bs)) as Hnd.
  { rewrite E. apply (NoDup_fmap_2 _). apply NoDup_seq. }
  rewrite Hr, map_app in Hnd. by apply NoDup_app in Hnd as [? _].
Qed.

Definition sorted_above (k : Z) (q : list block_data) : Prop :=
  StronglySorted (λ x y, block_id x < block_id y) q
  ∧ Forall (λ x, k < block_id x) q.

Lemma pq_push_perm b q : pq_push b q ≡ₚ b :: q.
Proof.
  induction q as [|x q IH]; simpl; [done|]. destruct (block_id b <? block_id x);
    [done|]. rewrite IH. by constructor.
Qed.

Lemma pq_push_sorted k b q :
  sorted_above k q → k < block_id b → block_id b ∉ map block_id q →
  sorted_above k (pq_push b q).
Proof.
  intros [Hs Ha] Hb Hn. split.
  - clear Ha Hb. induction Hs as [|x q Hs IH Hx]; simpl.
    { repeat constructor. }
    destruct (Z.ltb_spec (block_id b) (block_id x)).
    + constructor; [by constructor|]. constructor; [done|].
      eapply Forall_impl; [exact Hx|]. simpl. lia.
    + simpl in Hn. constructor; [apply IH; set_solver|].
      rewrite pq_push_perm. constructor; [|done].
      assert (block_id b ≠ block_id x) by set_solver. lia.
  - rewrite pq_push_perm. by constructor.
Qed.

Lemma drain_spec_inv k q k' q' w :
  drain_spec k q = (k', q', w) →
  StronglySorted (λ x y, block_id x < block_id y) q →
  Forall (λ x, k ≤ block_id x) q →
  q = w ++ q' ∧ k' = k + Z.of_nat (length w) ∧ sorted_above k' q'
  ∧ ∀ i b, w !! i = Some b → block_id b = k + Z.of_nat i.
Proof.
  revert k k' q' w. induction q as [|b q IH]; intros k k' q' w; simpl.
  { intros [= <- <- <-] _ _. split_and!; [done|simpl; lia| |done].
    split; constructor. }
  intros E Hs Ha. apply StronglySorted_inv in Hs as [Hs Hb].
  apply Forall_cons_1 in Ha as [Hk Ha].
  destruct (Z.eqb_spec (block_id b) k) as [Ek|Ek].
  - destruct (drain_spec (k + 1) q) as [[k2 q2] w2] eqn:Ed. simplify_eq E.
    intros <- <- <-. destruct (IH _ _ _ _ Ed Hs) as (Eq & Ek2 & Hs2 & Hw).
    { eapply Forall_impl; [exact Hb|]. simpl. lia. }
    split_and!; [by rewrite Eq at 1|simpl; lia|done|].
    intros [|i] x; simpl; [intros [= <-]; lia|]. intros Hx. rewrite (Hw i x Hx). lia.
  - simplify_eq E. intros <- <- <-. split_and!; [done|simpl; lia| |done].
    split; [by constructor|]. constructor; [lia|].
    eapply Forall_impl; [exact Hb|]. simpl. lia.
Qed.

(** [l] has arrived. *)
Record arrived (l : list block_data) (k : Z) (q w : list block_data) : Prop :=
  Arrived {
    ar_sub : l ⊆+ bs;
    ar_k : k = Z.of_nat (length w);
    ar_w : w = take (length w) bs;
    ar_q : sorted_above k q;
    ar_perm : l ≡ₚ w ++ q
  }.

Lemma arrived_nil : arrived [] 0 [] [].
Proof. constructor; try done; [apply submseteq_nil_l|split; constructor]. Qed.

Lemma prefix_ids w k : k = Z.of_nat (length w) → w = take (length w) bs →
  ∀ b, b ∈ w → block_id b < k.
Proof.
  intros -> Ew b [i Hi]%list_elem_of_lookup.
  pose proof (lookup_lt_Some _ _ _ Hi). rewrite Ew in Hi.
  rewrite lookup_take_lt in Hi by done. rewrite (Hids _ _ Hi). lia.
Qed.

Lemma prefix_snoc w b :
  w = take (length w) bs → b ∈ bs → block_id b = Z.of_nat (length w) →
  w ++ [b] = take (length (w ++ [b])) bs.
Proof.
  intros Ew [i Hi]%list_elem_of_lookup Eb.
  assert (i = length w) as -> by (apply Hids in Hi; lia).
  rewrite length_app, Nat.add_1_r. rewrite (take_S_r _ _ _ Hi). by rewrite <- Ew.
Qed.

Lemma prefix_app w w' :
  w = take (length w) bs → (∀ b, b ∈ w' → b ∈ bs) →
  (∀ i b, w' !! i = Some b → block_id b = Z.of_nat (length w) + Z.of_nat i) →
  w ++ w' = take (length (w ++ w')) bs.
Proof.
  revert w. induction w' as [|b w' IH]; intros w Ew Hin Hid.
  { by rewrite app_nil_r. }
  rewrite (cons_middle b w w'), app_assoc. apply IH.
  - apply prefix_snoc; [done|apply Hin; by left|].
    rewrite (Hid 0%nat b eq_refl). lia.
  - intros x Hx. apply Hin. by right.
  - intros i x Hx. rewrite (Hid (S i) x Hx), length_app. simpl. lia.
Qed.

Lemma arrived_step l k q w b k' q' w' :
  arrived l k q w → l ++ [b] ⊆+ bs →
  reorder_step k q b = (k', q', w') →
  arrived (l ++ [b]) k' q' (w ++ w').
Proof.
  intros [Hsub Ek Ew [Hqs Hqa] Hp] Hsub' E. unfold reorder_step in E.
  pose proof (ids_nodup _ Hsub') as Hnd.
  rewrite map_app in Hnd. apply NoDup_app in Hnd as (_ & Hb & _).
  assert (block_id b ∉ map block_id l) as Hnb.
  { intros Hin. by apply (Hb _ Hin), list_elem_of_singleton. }
  rewrite Hp, map_app, elem_of_app in Hnb.
  assert (∀ x, x ∈ l ++ [b] → x ∈ bs) as Hbs
    by (intros x Hx; by eapply elem_of_submseteq).
  destruct (Z.eqb_spec (block_id b) k) as [Ebk|Ebk].
  - destruct (drain_spec (k + 1) q) as [[k2 q2] w2] eqn:Ed. simplify_eq E.
    intros <- <- <-.
    destruct (drain_spec_inv _ _ _ _ _ Ed Hqs) as (Eq & Ek2 & Hs2 & Hw2).
    { eapply Forall_impl; [exact Hqa|]. simpl. lia. }
    constructor; [done|rewrite length_app; simpl; lia| |done|].
    + apply prefix_app; [done| |].
      * intros x [->|Hx]%elem_of_cons; [apply Hbs; set_solver|].
        apply Hbs. rewrite Hp, Eq. set_solver.
      * intros [|i] x; simpl; [intros [= <-]; lia|].
        intros Hx. rewrite (Hw2 _ _ Hx). lia.
    + rewrite Hp, Eq, <- (Permutation_middle w). rewrite <- !app_assoc. simpl.
      solve_Permutation.
  - simplify_eq E. intros <- <- <-. rewrite app_nil_r.
    constructor; [done|done|done| |].
    + apply pq_push_sorted; [done| |tauto].
      assert (b ∈ bs) as [i Hi]%list_elem_of_lookup by (apply Hbs; set_solver).
      pose proof (Hids _ _ Hi) as Ei.
      destruct (decide (i < length w)%nat) as [Hlt|]; [|lia].
      exfalso. apply Hnb. left.
      rewrite <- (lookup_take_lt bs (length w)), <- Ew in Hi by done.
      apply list_elem_of_fmap. exists b. split; [done|].
      by eapply list_elem_of_lookup_2.
    + rewrite Hp, pq_push_perm. solve_Permutation.
Qed.

Lemma arrived_run l0 k q w l k' q' w' :
  arrived l0 k q w → l0 ++ l ⊆+ bs →
  reorder_run k q l = (k', q', w') →
  arrived (l0 ++ l) k' q' (w ++ w').
Proof.
  revert l0 k q w w'. induction l as [|b l IH]; intros l0 k q w w' Ha Hsub.
  { simpl. intros [= <- <- <-]. by rewrite !app_nil_r. }
  simpl. destruct (reorder_step k q b) as [[k1 q1] w1] eqn:E1.
  destruct (reorder_run k1 q1 l) as [[k2 q2] w2] eqn:E2. intros [= <- <- <-].
  rewrite (cons_middle b l0 l), app_assoc in *. rewrite app_assoc.
  eapply IH; [|done|done]. eapply arrived_step; [done| |done].
  etransitivity; [|exact Hsub]. by apply submseteq_inserts_r.
Qed.

(** When everything has arrived, everything was written, in order. *)
Lemma arrived_all k q w :
  arrived bs k q w → w = bs ∧ q = [] ∧ k = Z.of_nat (length bs).
Proof.
  intros [_ Ek Ew [_ Hqa] Hp].
  destruct (decide (length w < length bs)%nat) as [Hlt|Hge].
  - destruct (lookup_lt_is_Some_2 bs (length w) Hlt) as [b Hb].
    assert (b ∈ w ++ q) as Hin by (rewrite <- Hp; by eapply list_elem_of_lookup_2).
    apply elem_of_app in Hin as [Hin|Hin].
    + pose proof (prefix_ids w k Ek Ew b Hin). apply Hids in Hb. lia.
    + rewrite Forall_forall in Hqa. apply Hqa in Hin. apply Hids in Hb. lia.
  - rewrite take_ge in Ew by lia. subst w.
    assert (q = []) as ->.
    { apply Permutation_length in Hp. rewrite length_app in Hp.
      destruct q; [done|simpl in Hp; lia]. }
    done.
Qed.
End Invariant.

(** ** Refinement: the code implements the abstract reorder buffer *)

(** The bytes of one block in the file: its length, then its data. *)
Definition frame (b : block_data) : list string :=
  [le_bytes 4 (block_idx b); default "" (payload_bytes b)].

Definition ofs_frame (o : ofstream) (b : block_data) : ofstream :=
  let o := foldl (λ o s, ofs_write s o) o (frame b) in
  if close_file b then ofs_close o else o.

Definition ofs_frames (o : ofstream) (l : list block_data) : ofstream :=
  foldl ofs_frame o l.

(** A compressed block of channel [cl] that can be written. *)
Definition cblock (cl : Z) (b : block_data) : Prop :=
  ch_cl b = cl ∧ is_Some (payload_bytes b).

(** What the shared state says of the compressed channel at address [cl]. *)
Record rb (s : bst) (cl nr k : Z) (q : list block_data) (o : ofstream) : Prop :=
  Rb {
    rb_ch : ∃ c, chans s !! cl = Some c ∧ ch_nr c = nr ∧ ch_logf c = o;
    rb_nr : 0 ≤ nr;
    rb_next : next_block s !! Z.to_nat nr = Some k;
    rb_pending : pending s !! Z.to_nat nr = Some q
  }.

(** Only the file of the channel and its entries in the two vectors change. *)
Record rb_frame (cl nr : Z) (s s' : bst) : Prop := RbFrame {
  rf_chans c : chans s !! cl = Some c →
    ∃ o, chans s' = <[cl := set_ch_logf o c]> (chans s);
  rf_io : io_queue s' = io_queue s;
  rf_comp : compression_queue s' = compression_queue s;
  rf_next i : i ≠ Z.to_nat nr → next_block s' !! i = next_block s !! i;
  rf_pending i : i ≠ Z.to_nat nr → pending s' !! i = pending s !! i
}.

#[global] Instance rb_frame_po cl nr : PreOrder (rb_frame cl nr).
Proof.
  split.
  - intros s. split; try done. intros c Hc. exists (ch_logf c).
    rewrite insert_id; [done|]. rewrite Hc. by destruct c.
  - intros s1 s2 s3 [A1 A2 A3 A4 A5] [B1 B2 B3 B4 B5]. split; try congruence.
    + intros c Hc. destruct (A1 c Hc) as [o Eo].
      destruct (B1 (set_ch_logf o c)) as [o2 Eo2]; [rewrite Eo; apply lookup_insert_eq|].
      exists o2. by rewrite Eo2, Eo, insert_insert_eq.
    + intros i Hi. by rewrite B4, A4.
    + intros i Hi. by rewrite B5, A5.
Qed.

(** Nothing changes for the other channels. *)
Lemma rb_frame_rb cl nr s s' c cl2 nr2 k2 q2 o2 :
  rb_frame cl nr s s' → chans s !! cl = Some c → 0 ≤ nr → cl2 ≠ cl → nr2 ≠ nr →
  rb s cl2 nr2 k2 q2 o2 → rb s' cl2 nr2 k2 q2 o2.
Proof.
  intros [A1 _ _ A4 A5] Hc Hnr Hcl Hn [(c2 & Hc2 & ?) ? ? ?].
  destruct (A1 c Hc) as [o Eo]. split; [|done|rewrite A4; [done|lia]|rewrite A5; [done|lia]].
  exists c2. by rewrite Eo, lookup_insert_ne.
Qed.

Section Refinement.
Context `{Env} `{Sizes} `{Squash}.

Lemma rb_write_ch s cl nr k q o o' :
  rb s cl nr k q o →
  ∃ c, chans s !! cl = Some c ∧ ch_logf c = o ∧
    let s' := set_chans (<[cl := set_ch_logf o' c]> (chans s)) s in
    rb s' cl nr k q o' ∧ rb_frame cl nr s s'.
Proof.
  intros [(c & Ec & En & Eo) Hnr Hnx Hp]. exists c. do 2 (split; [done|]).
  intros s'; split.
  - constructor; try done. exists (set_ch_logf o' c). simpl.
    by rewrite lookup_insert_eq.
  - split; try done. intros c2 Ec2. simplify_eq. by exists o'.
Qed.

Lemma writeCompressed_run s cl nr k q o b :
  rb s cl nr k q o → cblock cl b →
  ∃ s', on_closure (ch_cl b) (writeCompressed b) s = (s', Ret tt)
    ∧ rb s' cl nr k q (foldl (λ o s, ofs_write s o) o (frame b))
    ∧ rb_frame cl nr s s'.
Proof.
  intros Hr [<- [bytes Hb]].
  destruct (rb_write_ch _ _ _ _ _ _ (foldl (λ o s, ofs_write s o) o (frame b)) Hr)
    as (c & Ec & Eo & Hr' & Hf).
  eexists. split; [|split; [exact Hr'|exact Hf]].
  unfold on_closure, writeCompressed. rewrite Ec, Hb. cm_simpl.
  unfold frame. rewrite Hb, Eo. by destruct s, c.
Qed.

Lemma close_logf_run s cl nr k q o :
  rb s cl nr k q o →
  ∃ s', on_closure cl close_logf s = (s', Ret tt)
    ∧ rb s' cl nr k q (ofs_close o) ∧ rb_frame cl nr s s'.
Proof.
  intros Hr.
  destruct (rb_write_ch _ _ _ _ _ _ (ofs_close o) Hr) as (c & Ec & Eo & Hr' & Hf).
  eexists. split; [|split; [exact Hr'|exact Hf]].
  unfold on_closure, close_logf. rewrite Ec. cm_simpl. rewrite Eo. by destruct s.
Qed.

Lemma when_close_run s cl nr k q o b :
  rb s cl nr k q o → ch_cl b = cl →
  ∃ s', when (close_file b) (on_closure (ch_cl b) close_logf) s = (s', Ret tt)
    ∧ rb s' cl nr k q (if close_file b then ofs_close o else o)
    ∧ rb_frame cl nr s s'.
Proof.
  intros Hr <-. destruct (close_file b); [by apply close_logf_run|by exists s].
Qed.

Lemma put_next_run s cl nr k q o v :
  rb s cl nr k q o →
  ∃ s', put_next nr v s = (s', Ret tt) ∧ rb s' cl nr v q o ∧ rb_frame cl nr s s'.
Proof.
  intros [Hc Hnr Hnx Hp]. eexists. split; [done|]. split.
  - constructor; try done. simpl. apply list_lookup_insert_eq.
    by apply lookup_lt_Some in Hnx.
  - split; try done; simpl.
    + intros c Ec. exists (ch_logf c). rewrite insert_id; [done|]. rewrite Ec. by destruct c.
    + intros i Hi. by rewrite list_lookup_insert_ne.
Qed.

Lemma put_pending_run s cl nr k q o q' :
  rb s cl nr k q o →
  ∃ s', put_pending nr q' s = (s', Ret tt) ∧ rb s' cl nr k q' o
        ∧ rb_frame cl nr s s'.
Proof.
  intros [Hc Hnr Hnx Hp]. eexists. split; [done|]. split.
  - constructor; try done. simpl. apply list_lookup_insert_eq.
    by apply lookup_lt_Some in Hp.
  - split; try done; simpl.
    + intros c Ec. exists (ch_logf c). rewrite insert_id; [done|]. rewrite Ec. by destruct c.
    + intros i Hi. by rewrite list_lookup_insert_ne.
Qed.

Lemma vec_at_run {A} (l : list A) i x (s : bst) :
  0 ≤ i → l !! Z.to_nat i = Some x → vec_at l i s = (s, Ret x).
Proof.
  intros Hi Hx. unfold vec_at. destruct (Z.ltb_spec i 0); [lia|]. by rewrite Hx.
Qed.

Lemma drain_pending_run q s cl nr k o :
  rb s cl nr k q o → Forall (cblock cl) q →
  0 ≤ k → k + Z.of_nat (length q) < 2 ^ 31 →
  let '(k', q', w) := drain_spec k q in
  ∃ s', drain_pending nr q s = (s', Ret tt) ∧ rb s' cl nr k' q' (ofs_frames o w)
        ∧ rb_frame cl nr s s'.
Proof.
  revert s k o. induction q as [|b q IH]; intros s k o Hr Hv Hk Hlen.
  { simpl. by exists s. }
  apply Forall_cons_1 in Hv as [Hb Hv]. simpl drain_spec. simpl drain_pending.
  rewrite (bind_Ret get _ s s s) by done.
  rewrite (bind_Ret _ _ _ _ _ (vec_at_run _ nr k s (rb_nr _ _ _ _ _ _ Hr)
    (rb_next _ _ _ _ _ _ Hr))).
  destruct (block_id b =? k).
  2:{ by exists s. }
  destruct (writeCompressed_run _ _ _ _ _ _ _ Hr Hb) as (s1 & E1 & R1 & F1).
  simpl length in Hlen.
  destruct (put_next_run _ _ _ _ _ _ (i32 (k + 1)) R1) as (s2 & E2 & R2 & F2).
  rewrite (wrapS_small 32 (k + 1)) in * by (width).
  destruct (put_pending_run _ _ _ _ _ _ q R2) as (s3 & E3 & R3 & F3).
  destruct (when_close_run _ _ _ _ _ _ b R3 (proj1 Hb)) as (s4 & E4 & R4 & F4).
  specialize (IH _ _ _ R4 Hv ltac:(lia) ltac:(lia)).
  destruct (drain_spec (k + 1) q) as [[k' q'] w].
  destruct IH as (s5 & E5 & R5 & F5). exists s5.
  rewrite (bind_Ret _ _ _ _ _ E1), (bind_Ret _ _ _ _ _ E2),
    (bind_Ret _ _ _ _ _ E3), (bind_Ret _ _ _ _ _ E4), E5.
  split; [done|]. split; [done|]. by do 4 (etransitivity; [eassumption|]).
Qed.

Lemma channel_nr_run s cl nr k q o :
  rb s cl nr k q o → channel_nr cl s = (s, Ret nr).
Proof.
  intros [(c & Ec & En & _) _ _ _]. unfold channel_nr, on_closure. rewrite Ec.
  cm_simpl. rewrite insert_id by done. rewrite En. by destruct s.
Qed.

(** One call. The file of a block that closes is closed after the blocks that
    were waiting; [close_last] says that there are none. *)
Lemma writeCompressedBlock_run s cl nr k q o b :
  rb s cl nr k q o → cblock cl b → Forall (cblock cl) q →
  0 ≤ k → k + Z.of_nat (length q) + 1 < 2 ^ 31 →
  let '(k', q', w) := reorder_step k q b in
  (close_file b = true → block_id b = k → w = [b]) →
  ∃ s', writeCompressedBlock b s = (s', Ret tt)
        ∧ rb s' cl nr k' q' (ofs_frames o w) ∧ rb_frame cl nr s s'.
Proof.
  intros Hr Hb Hv Hk Hlen. unfold reorder_step.
  pose proof (channel_nr_run _ _ _ _ _ _ Hr) as Enr. rewrite <- (proj1 Hb) in Enr.
  assert (∀ {A} (f : Z → Z → bst → M bst A),
    (nr ← channel_nr (ch_cl b); s ← get; nb ← vec_at (next_block s) nr; f nr nb s) s
    = f nr k s s) as Hpre.
  { intros A f. rewrite (bind_Ret _ _ _ _ _ Enr), (bind_Ret get _ s s s) by done.
    by rewrite (bind_Ret _ _ _ _ _ (vec_at_run _ nr k s (rb_nr _ _ _ _ _ _ Hr)
      (rb_next _ _ _ _ _ _ Hr))). }
  unfold writeCompressedBlock. rewrite Hpre. clear Hpre.
  destruct (Z.eqb_spec (block_id b) k) as [Ek|Ek]; cbn [negb].
  - pose proof (writeCompressed_run _ _ _ _ _ _ _ Hr Hb) as (s1 & E1 & R1 & F1).
    destruct (put_next_run _ _ _ _ _ _ (i32 (k + 1)) R1) as (s2 & E2 & R2 & F2).
    rewrite (wrapS_small 32 (k + 1)) in * by (width).
    assert (vec_at (pending s) nr s2 = (s2, Ret q)) as E3
      by (apply vec_at_run; apply Hr).
    pose proof (drain_pending_run _ _ _ _ _ _ R2 Hv ltac:(lia) ltac:(lia)) as Hd.
    destruct (drain_spec (k + 1) q) as [[k' q'] w]. intros Hlast.
    destruct Hd as (s3 & E4 & R3 & F3).
    destruct (when_close_run _ _ _ _ _ _ b R3 (proj1 Hb)) as (s4 & E5 & R4 & F4).
    exists s4. rewrite (bind_Ret _ _ _ _ _ E1), (bind_Ret _ _ _ _ _ E2),
      (bind_Ret _ _ _ _ _ E3), (bind_Ret _ _ _ _ _ E4), E5.
    split; [done|]. split; [|by do 3 (etransitivity; [eassumption|])].
    replace (ofs_frames o (b :: w)) with
      (if close_file b then
         ofs_close (ofs_frames (foldl (λ o s, ofs_write s o) o (frame b)) w)
       else ofs_frames (foldl (λ o s, ofs_write s o) o (frame b)) w); [done|].
    change (ofs_frames o (b :: w)) with (ofs_frames (ofs_frame o b) w).
    unfold ofs_frame. destruct (close_file b) eqn:Ec; [|done].
    specialize (Hlast eq_refl Ek). simplify_eq Hlast. by intros ->.
  - intros _. rewrite (bind_Ret _ _ _ _ _ (vec_at_run (pending s) nr q s
      (rb_nr _ _ _ _ _ _ Hr) (rb_pending _ _ _ _ _ _ Hr))).
    apply (put_pending_run _ _ _ _ _ _ _ Hr).
Qed.
End Refinement.

(** ** Properties *)
Section Properties.
Context `{Env} `{Sizes} `{Squash}.

Fixpoint write_compressed_all (l : list block_data) : M bst unit :=
  match l with
  | [] => mret tt
  | b :: l => writeCompressedBlock b ;; write_compressed_all l
  end.

(** The blocks of one channel: numbered from 0, writable, and only the last
    one, which closeChannel enqueued, closes the file. *)
Record channel_blocks (cl : Z) (bs : list block_data) : Prop := ChannelBlocks {
  cb_ids i b : bs !! i = Some b → block_id b = Z.of_nat i;
  cb_ok : Forall (cblock cl) bs;
  cb_last i b : bs !! i = Some b → close_file b = true → S i = length bs;
  cb_size : Z.of_nat (length bs) + 1 < 2 ^ 31
}.

Lemma reorder_step_last cl bs l k q w b :
  channel_blocks cl bs → arrived bs l k q w → l ++ [b] ⊆+ bs →
  close_file b = true → block_id b = k →
  (reorder_step k q b).2 = [b].
Proof.
  intros [Hids _ Hlast _] Ha Hsub Hc Hk.
  destruct (reorder_step k q b) as [[k' q'] w'] eqn:E.
  pose proof (arrived_step bs Hids _ _ _ _ _ _ _ _ Ha Hsub E) as Ha'.
  assert (b ∈ bs) as [i Hi]%list_elem_of_lookup
    by (eapply elem_of_submseteq; [|exact Hsub]; set_solver).
  pose proof (Hlast _ _ Hi Hc) as Hn. pose proof (Hids _ _ Hi) as Ei.
  unfold reorder_step in E. rewrite (proj2 (Z.eqb_eq _ _) Hk) in E.
  destruct (drain_spec (k + 1) q) as [[k2 q2] w2]. simplify_eq E.
  intros <- <- <-. simpl. destruct w2 as [|x w2]; [done|].
  destruct Ha' as [_ _ Ew' _ _]. apply (f_equal length) in Ew'.
  rewrite length_take, !length_app in Ew'. simpl in Ew'.
  destruct Ha as [_ Ek _ _ _]. lia.
Qed.

(** One block of the channel arrives. *)
Lemma arrive_one cl nr bs l k q w s o0 b :
  channel_blocks cl bs → rb s cl nr k q (ofs_frames o0 w) →
  arrived bs l k q w → l ++ [b] ⊆+ bs →
  ∃ s' k' q' w', writeCompressedBlock b s = (s', Ret tt)
    ∧ rb s' cl nr k' q' (ofs_frames o0 w') ∧ arrived bs (l ++ [b]) k' q' w'
    ∧ rb_frame cl nr s s'.
Proof.
  intros Hb Hr Ha Hsub. destruct (reorder_step k q b) as [[k1 q1] w1] eqn:E.
  pose proof Hb as [Hids Hok _ Hsz].
  pose proof (arrived_step bs Hids _ _ _ _ _ _ _ _ Ha Hsub E) as Ha1.
  assert (∀ x, x ∈ l ++ [b] → cblock cl x) as Hall.
  { intros x Hx. rewrite Forall_forall in Hok. apply Hok.
    by eapply elem_of_submseteq. }
  assert (length w + length q ≤ length bs)%nat as Hle.
  { destruct Ha as [Hs _ _ _ Hp]. apply submseteq_length in Hs.
    by rewrite Hp, length_app in Hs. }
  pose proof (writeCompressedBlock_run s cl nr k q (ofs_frames o0 w) b Hr) as Hw.
  rewrite E, (ar_k _ _ _ _ _ Ha) in Hw. destruct Hw as (s1 & E1 & R1 & F1).
  - apply Hall. set_solver.
  - apply Forall_forall. intros x Hx. apply Hall. rewrite (ar_perm _ _ _ _ _ Ha).
    set_solver.
  - lia.
  - lia.
  - intros Hc Hk. rewrite <- (ar_k _ _ _ _ _ Ha) in Hk.
    pose proof (reorder_step_last cl bs l k q w b Hb Ha Hsub Hc Hk) as Hx.
    by rewrite E in Hx.
  - exists s1, k1, q1, (w ++ w1). split_and!; try done.
    assert (ofs_frames o0 (w ++ w1) = ofs_frames (ofs_frames o0 w) w1) as ->
      by (unfold ofs_frames; by rewrite foldl_app). done.
Qed.

(** Several channels at once: their addresses, numbers, blocks and files. *)
Context (D : list Z) (nr : Z → Z) (bs : Z → list block_data) (o0 : Z → ofstream).

Definition of_channel (cl : Z) (b : block_data) : bool := ch_cl b =? cl.

Definition channels_inv (s : bst) (l : list block_data) : Prop :=
  ∀ cl, cl ∈ D → ∃ k q w, rb s cl (nr cl) k q (ofs_frames (o0 cl) w)
    ∧ arrived (bs cl) (List.filter (of_channel cl) l) k q w.

Definition distinct_numbers : Prop :=
  ∀ cl1 cl2, cl1 ∈ D → cl2 ∈ D → nr cl1 = nr cl2 → cl1 = cl2.

Lemma channels_inv_step s l b :
  distinct_numbers → (∀ cl, cl ∈ D → channel_blocks cl (bs cl)) →
  ch_cl b ∈ D → channels_inv s l →
  List.filter (of_channel (ch_cl b)) (l ++ [b]) ⊆+ bs (ch_cl b) →
  ∃ s', writeCompressedBlock b s = (s', Ret tt) ∧ channels_inv s' (l ++ [b]).
Proof.
  intros Hnr Hb Hin Hinv Hsub. destruct (Hinv _ Hin) as (k & q & w & Hr & Ha).
  assert (∀ cl, List.filter (of_channel cl) (l ++ [b])
    = List.filter (of_channel cl) l
      ++ (if ch_cl b =? cl then [b] else [])) as Hf.
  { intros cl. by rewrite List.filter_app. }
  rewrite Hf, Z.eqb_refl in Hsub.
  destruct (arrive_one _ _ _ _ _ _ _ _ _ _ (Hb _ Hin) Hr Ha Hsub)
    as (s' & k' & q' & w' & E & R & A & F).
  exists s'. split; [done|]. intros cl Hcl. rewrite Hf.
  destruct (Z.eqb_spec (ch_cl b) cl) as [<-|Hne]; [eauto|].
  destruct (Hinv _ Hcl) as (k2 & q2 & w2 & R2 & A2).
  exists k2, q2, w2. rewrite app_nil_r. split; [|done].
  destruct (rb_ch _ _ _ _ _ _ Hr) as (c & Hc & _).
  eapply rb_frame_rb; [exact F|exact Hc|apply Hr|congruence| |done].
  intros En. by apply Hne, Hnr.
Qed.

Lemma channels_inv_run arr s l :
  distinct_numbers → (∀ cl, cl ∈ D → channel_blocks cl (bs cl)) →
  Forall (λ b, ch_cl b ∈ D) arr → channels_inv s l →
  (∀ cl, cl ∈ D → List.filter (of_channel cl) (l ++ arr) ⊆+ bs cl) →
  ∃ s', write_compressed_all arr s = (s', Ret tt) ∧ channels_inv s' (l ++ arr).
Proof.
  intros Hnr Hb Hall. revert s l.
  induction Hall as [|b arr Hin Hall IH]; intros s l Hinv Hsub.
  { exists s. by rewrite app_nil_r. }
  destruct (channels_inv_step s l b Hnr Hb Hin Hinv) as (s1 & E1 & Hinv1).
  { etransitivity; [|apply (Hsub _ Hin)]. rewrite (cons_middle b l arr), app_assoc.
    rewrite (List.filter_app _ (l ++ [b])). apply submseteq_inserts_r. done. }
  destruct (IH s1 (l ++ [b]) Hinv1) as (s' & E' & Hinv').
  { intros cl Hcl. rewrite <- app_assoc. by apply Hsub. }
  exists s'. simpl. rewrite (bind_Ret _ _ _ _ _ E1).
  rewrite <- app_assoc in Hinv'. done.
Qed.

(** The file after all blocks, in the order of their numbers. *)
Lemma ofs_frames_file cl l o :
  channel_blocks cl l → ofs_ok o →
  ofs_file (ofs_frames o l) = ofs_file o ++ concat (map frame l)
  ∧ ofs_open (ofs_frames o l) = negb (existsb close_file l).
Proof.
  intros [_ _ Hlast _]. revert Hlast. induction l as [|b l IH] using rev_ind.
  { intros _ [Ho _]. by rewrite app_nil_r. }
  intros Hlast Ho. unfold ofs_frames. rewrite foldl_app. simpl.
  fold (ofs_frames o l).
  assert (∀ i x, l !! i = Some x → close_file x = false) as Hno.
  { intros i x Hx. destruct (close_file x) eqn:Ec; [|done]. exfalso.
    pose proof (lookup_lt_Some _ _ _ Hx).
    assert (S i = length (l ++ [b])) as E
      by (apply (Hlast i x); [by rewrite lookup_app_l|done]).
    rewrite length_app in E. simpl in E. lia. }
  destruct IH as [IHf IHo]; [|done|].
  { intros i x Hx Hc. by rewrite (Hno i x Hx) in Hc. }
  assert (existsb close_file l = false) as Ee.
  { apply not_true_is_false. intros (x & Hx & Hc)%existsb_exists.
    apply list_elem_of_In, list_elem_of_lookup in Hx as [i Hi].
    by rewrite (Hno i x Hi) in Hc. }
  assert (ofs_ok (ofs_frames o l)) as Hok.
  { rewrite Ee in IHo. split; [done|].
    clear -Ho Hno. revert o Ho Hno. induction l as [|x l IH]; intros o [Ho1 Ho2] Hno;
      [done|]. change (ofs_frames o (x :: l)) with (ofs_frames (ofs_frame o x) l).
    unfold ofs_frame. rewrite (Hno 0%nat x eq_refl). apply IH.
    - simpl. rewrite !ofs_write_ok; [done|done|]. by rewrite ofs_write_ok.
    - intros i y Hy. apply (Hno (S i) y Hy). }
  rewrite existsb_app, Ee, map_app, concat_app. simpl.
  unfold ofs_frame. simpl. rewrite (ofs_write_ok _ (ofs_frames o l)) by done.
  rewrite ofs_write_ok by done. rewrite IHf. simpl. unfold ofs_close. simpl.
  rewrite <- !app_assoc. simpl. by destruct (close_file b).
Qed.

(** C19. Compressed channels are written in order, whatever the order in which
    the compression threads finish. Let each of any number of channels (with
    distinct channel numbers) have blocks numbered 0, 1, 2, ...; let all of
    them arrive at the IO thread in any order and interleaving. Then every
    call returns, the file of each channel holds exactly its blocks, each once,
    in increasing order, each as its length followed by its data, no block is
    left in a pending queue, and the file is closed iff the last block asked
    for it. *)
Theorem compressed_blocks_in_order arr s :
  distinct_numbers → (∀ cl, cl ∈ D → channel_blocks cl (bs cl)) →
  (∀ cl, cl ∈ D → rb s cl (nr cl) 0 [] (o0 cl) ∧ ofs_ok (o0 cl)) →
  Forall (λ b, ch_cl b ∈ D) arr →
  (∀ cl, cl ∈ D → List.filter (of_channel cl) arr ≡ₚ bs cl) →
  ∃ s', write_compressed_all arr s = (s', Ret tt) ∧
    ∀ cl, cl ∈ D → ∃ o,
      rb s' cl (nr cl) (Z.of_nat (length (bs cl))) [] o
      ∧ ofs_file o = ofs_file (o0 cl) ++ concat (map frame (bs cl))
      ∧ ofs_open o = negb (existsb close_file (bs cl)).
Proof.
  intros Hnr Hb Hs Hall Hp.
  destruct (channels_inv_run arr s [] Hnr Hb Hall) as (s' & E & Hinv).
  { intros cl Hcl. exists 0, [], []. split; [by apply Hs|]. apply arrived_nil. }
  { intros cl Hcl. simpl. by rewrite (Hp cl Hcl). }
  exists s'. split; [done|]. intros cl Hcl.
  destruct (Hinv cl Hcl) as (k & q & w & R & A). simpl in A.
  assert (arrived (bs cl) (bs cl) k q w) as A'.
  { destruct A as [A1 A2 A3 A4 A5]. constructor; try done.
    by rewrite <- (Hp cl Hcl). }
  destruct (arrived_all (bs cl) (cb_ids _ _ (Hb cl Hcl)) _ _ _ A') as (-> & -> & ->).
  exists (ofs_frames (o0 cl) (bs cl)). split; [done|].
  apply (ofs_frames_file cl); [by apply Hb|by apply Hs].
Qed.
End Properties.

(** ** Two channels, four blocks, out of order *)
Definition demo_block (cl id : Z) (close : bool) : block_data :=
  BlockData id (Compressed "ab") 2 true close cl.

Definition demo_blocks (cl : Z) : list block_data :=
  if cl =? 100 then
    [demo_block 100 0 false; demo_block 100 1 false; demo_block 100 2 true]
  else [demo_block 200 0 false].

Definition demo_channel (nr : Z) : closure buf_ext :=
  Closure (Some BufferIdentityHandler_fn) None None nr (Ofstream true false [])
    (Some "f") false ZSTD (BufExt [] None 0 true).

Definition demo_bst : bst :=
  set_chans (<[100 := demo_channel 0]> {[200 := demo_channel 100]})
    (bst_init (@sys_init true)).

Lemma demo_channel_blocks cl : cl = 100 ∨ cl = 200 → channel_blocks cl (demo_blocks cl).
Proof.
  intros [->| ->]; constructor.
  - intros [|[|[|i]]] b; simpl; intros [= <-]; reflexivity.
  - repeat constructor; eexists; reflexivity.
  - intros [|[|[|i]]] b; simpl; intros [= <-]; [discriminate..|reflexivity].
  - reflexivity.
  - intros [|i] b; simpl; intros [= <-]; reflexivity.
  - repeat constructor; eexists; reflexivity.
  - intros [|i] b; simpl; intros [= <-]; discriminate.
  - reflexivity.
Defined.

Lemma compressed_blocks_in_order_witness :
  ∃ s', @write_compressed_all
      [demo_block 100 2 true; demo_block 200 0 false; demo_block 100 1 false;
       demo_block 100 0 false] demo_bst = (s', Ret tt)
    ∧ ∃ o, rb s' 100 0 3 [] o ∧ ofs_open o = false.
Proof.
  destruct (compressed_blocks_in_order [100; 200] (λ cl, cl - 100) demo_blocks
    (λ _, Ofstream true false [])
    [demo_block 100 2 true; demo_block 200 0 false; demo_block 100 1 false;
     demo_block 100 0 false] demo_bst) as (s' & E & Hall).
  - intros cl1 cl2 _ _ Heq. lia.
  - intros cl Hcl. apply demo_channel_blocks.
    apply elem_of_cons in Hcl as [->|Hcl]; [left; reflexivity|].
    apply list_elem_of_singleton in Hcl. right. exact Hcl.
  - intros cl Hcl. apply elem_of_cons in Hcl as [->|Hcl].
    + split; [|by_decide]. constructor; try reflexivity.
      exists (demo_channel 0). split; [reflexivity|split; reflexivity].
    + apply list_elem_of_singleton in Hcl as ->.
      split; [|by_decide]. constructor; try reflexivity; [|discriminate].
      exists (demo_channel 100). split; [reflexivity|split; reflexivity].
  - repeat constructor; by_decide.
  - intros cl Hcl. apply elem_of_cons in Hcl as [->|Hcl].
    + change ([demo_block 100 2 true; demo_block 100 1 false; demo_block 100 0 false]
        ≡ₚ demo_blocks 100).
      symmetry. apply (Permutation_rev (demo_blocks 100)).
    + apply list_elem_of_singleton in Hcl as ->. reflexivity.
  - exists s'. split; [exact E|].
    destruct (Hall 100 ltac:(left)) as (o & R & _ & O). exists o.
    split; [exact R|exact O].
Defined.
