(* ===== verification/IoFlush.v ===== *)
(** * Uncompressed buffered channels: the application and the IO thread

    Any number of buffered channels in an uncompressed format (ASCII or BINARY),
    interleaved with the IO thread. A call of the handler is split where it
    touches a queue that another thread uses: it writes to the current block,
    passes the full block on when the IO queue has room, and takes a fresh block
    when one has come back. *)
From S2P Require Import Prelude TimeStamp Platform Log Formats Closure Bytes.
From S2P Require Import Identity IoThread.

Section IoFlush.
Context `{Env} `{Sizes} `{Squash}.

(** ** What is written for a sample *)
Definition chunks (wf : write_fn) (d : log_data) : list string :=
  match wf with
  | writeInAscii_fn => [ascii_record d.1 d.2]
  | writeInAsciiTsc_fn => [ascii_tsc_record d.1 d.2]
  | writeInBinary_fn => [le_bytes 8 d.1; timespec_bytes d.2]
  | writeInBinaryTsc_fn => [le_bytes 8 d.1; le_bytes 8 (tsc d.2)]
  end.

Definition render (wf : write_fn) (l : list log_data) : list string :=
  concat (map (chunks wf) l).

Lemma render_app wf l1 l2 : render wf (l1 ++ l2) = render wf l1 ++ render wf l2.
Proof. unfold render. by rewrite map_app, concat_app. Qed.

Definition samples (b : block_data) : list log_data :=
  match block b with Samples l => l | _ => [] end.

Definition all_samples (l : list block_data) : list log_data := concat (map samples l).

Lemma all_samples_app l1 l2 : all_samples (l1 ++ l2) = all_samples l1 ++ all_samples l2.
Proof. unfold all_samples. by rewrite map_app, concat_app. Qed.

Lemma write_samples_run wf l (c : closure buf_ext) y :
  write_handler_f c = Some wf →
  write_samples l (c, y)
  = ((set_ch_logf (ofs_writes (render wf l) (ch_logf c)) c, y), Ret tt).
Proof.
  revert c. induction l as [|[t ts] l IH]; intros c Hw.
  { simpl. by destruct c. }
  simpl write_samples.
  assert (call_write t ts (c, y)
    = ((set_ch_logf (ofs_writes (chunks wf (t, ts)) (ch_logf c)) c, y), Ret tt)) as E1.
  { unfold call_write, writeInAscii, writeInAsciiTsc, writeInBinary,
      writeInBinaryTsc. cm_simpl. rewrite Hw. by destruct wf. }
  rewrite (bind_Ret _ _ _ _ _ E1), IH by done. simpl.
  unfold render, ofs_writes. simpl. by rewrite foldl_app.
Qed.

(** ** The state of a channel *)

(** A block with samples, or an empty one, of channel [cl]; [comp] says whether it
    goes to the compression threads. *)
Record raw_block (comp : bool) (cl : Z) (b : block_data) : Prop := RawBlock {
  db_comp : compress b = comp;
  db_cl : ch_cl b = cl;
  db_block : block b = Samples (samples b);
  db_idx : block_idx b = Z.of_nat (length (samples b))
}.
Arguments db_comp {comp cl b}.
Arguments db_cl {comp cl b}.
Arguments db_block {comp cl b}.
Arguments db_idx {comp cl b}.

Abbreviation data_block := (raw_block false).

Definition count_cur (c : closure buf_ext) : nat :=
  match cur_block (ext c) with Some _ => 1 | None => 0 end.
Definition cur_samples (c : closure buf_ext) : list log_data :=
  match cur_block (ext c) with Some b => samples b | None => [] end.

Definition empty_raw (comp : bool) (cl : Z) (b : block_data) : Prop :=
  raw_block comp cl b ∧ samples b = [] ∧ close_file b = false.
Abbreviation empty_block := (empty_raw false).

(** Channel [cl] and the process state replaced. *)
Definition upd (cl : Z) (c : closure buf_ext) (y : sys) (s : bst) : bst :=
  set_bsys y (set_chans (<[cl := c]> (chans s)) s).

(** [pend] are the blocks of the channel in the IO queue, [hist] all samples
    logged so far. *)
Record chan_open (cl : Z) (pend : list block_data) (hist : list log_data)
    (c : closure buf_ext) (wf : write_fn) : Prop := ChanOpen {
  co_handler : handler_f c = Some BufferIdentityHandler_fn;
  co_write : write_handler_f c = Some wf;
  co_named : named c;
  co_file : ofs_ok (ch_logf c);
  co_pend : Forall (λ b, data_block cl b ∧ close_file b = false) pend;
  co_queue : Forall (empty_block cl) (queue (ext c));
  co_cur : ∀ b, cur_block (ext c) = Some b → data_block cl b ∧ close_file b = false
             ∧ block_idx b ≤ BUFFER_BLOCK_SIZE;
  co_blocks : (length (queue (ext c)) + length pend + count_cur c = NUM_BUFFER_BLOCK)%nat;
  co_content : ofs_file (ch_logf c) ++ render wf (all_samples pend ++ cur_samples c)
             = render wf hist
}.

(** A closed channel: the last block carries the request to close the file,
    until the IO thread has seen it. *)
Record chan_closed (cl : Z) (pend : list block_data) (hist : list log_data)
    (c : closure buf_ext) (wf : write_fn) : Prop := ChanClosed {
  cc_handler : handler_f c = Some NullHandler_fn;
  cc_write : write_handler_f c = Some wf;
  cc_pend : Forall (data_block cl) pend;
  cc_blocks : (length (queue (ext c)) + length pend <= NUM_BUFFER_BLOCK)%nat;
  cc_content : ofs_file (ch_logf c) ++ render wf (all_samples pend) = render wf hist;
  cc_last : (pend = [] ∧ ofs_open (ch_logf c) = false)
    ∨ (ofs_ok (ch_logf c) ∧ ∃ p b, pend = p ++ [b] ∧ close_file b = true
                            ∧ Forall (λ b, close_file b = false) p)
}.

Definition chan_inv cl pend hist c : Prop :=
  ∃ wf, chan_open cl pend hist c wf ∨ chan_closed cl pend hist c wf.

Definition of_channel (cl : Z) (q : list block_data) : list block_data :=
  filter (λ b, ch_cl b = cl) q.

Definition uinv (hist : Z → list log_data) (s : bst) : Prop :=
  (∀ cl c, chans s !! cl = Some c → chan_inv cl (of_channel cl (io_queue s)) (hist cl) c)
  ∧ (∀ b, b ∈ io_queue s → is_Some (chans s !! ch_cl b))
  ∧ ∀ cl, chans s !! cl = None → hist cl = [].

Lemma of_channel_app cl q1 q2 :
  of_channel cl (q1 ++ q2) = of_channel cl q1 ++ of_channel cl q2.
Proof. apply filter_app. Qed.

Lemma of_channel_one cl b :
  of_channel cl [b] = if decide (ch_cl b = cl) then [b] else [].
Proof. unfold of_channel. by rewrite filter_cons, filter_nil. Qed.

(** A step that changes channel [cl] and its blocks only. *)
Lemma uinv_step hist hist' s s' cl c' :
  uinv hist s → chans s' = <[cl := c']> (chans s) →
  (∀ d, d ≠ cl → of_channel d (io_queue s') = of_channel d (io_queue s)
                 ∧ hist' d = hist d) →
  chan_inv cl (of_channel cl (io_queue s')) (hist' cl) c' →
  uinv hist' s'.
Proof.
  intros (Hc & Hb & Hn) Ec Hd Hcl. split_and!.
  - intros d e. rewrite Ec. destruct (decide (cl = d)) as [<-|Hne].
    + rewrite lookup_insert_eq. intros [= <-]. done.
    + rewrite lookup_insert_ne by done. intros He.
      destruct (Hd d) as [-> ->]; [done|]. by apply Hc.
  - intros b Hin. rewrite Ec. destruct (decide (cl = ch_cl b)) as [<-|Hne].
    { rewrite lookup_insert_eq. by eexists. }
    rewrite lookup_insert_ne by done. apply Hb.
    assert (b ∈ of_channel (ch_cl b) (io_queue s')) as Hf
      by by apply list_elem_of_filter.
    destruct (Hd (ch_cl b)) as [E _]; [done|]. rewrite E in Hf.
    by apply list_elem_of_filter in Hf as [_ Hf].
  - intros d. rewrite Ec. destruct (decide (cl = d)) as [<-|Hne].
    { by rewrite lookup_insert_eq. }
    rewrite lookup_insert_ne by done. intros Hnone.
    destruct (Hd d) as [_ ->]; [done|]. by apply Hn.
Qed.

(** ** A round of the IO thread *)
Lemma on_closure_run {A} cl (m : CM buf_ext A) s c c' y x :
  chans s !! cl = Some c → m (c, bsys s) = ((c', y), Ret x) →
  on_closure cl m s = (upd cl c' y s, Ret x).
Proof. intros Hc Em. unfold on_closure. by rewrite Hc, Em. Qed.

Definition emptied (b : block_data) : block_data :=
  set_block_idx 0 (set_block (Samples []) b).

(** The channel after its block [b] was written and went back. *)
Definition wrote (wf : write_fn) (b : block_data) (c : closure buf_ext)
    : closure buf_ext :=
  let o := ofs_writes (render wf (samples b)) (ch_logf c) in
  set_ext (set_queue (queue (ext c) ++ [emptied b]) (ext c))
    (set_ch_logf (if close_file b then ofs_close o else o) c).

Lemma write_block_run wf b s c :
  data_block (ch_cl b) b → chans s !! ch_cl b = Some c →
  write_handler_f c = Some wf → (length (queue (ext c)) < RETURN_QUEUE_SIZE)%nat →
  ∃ s', write_block b s = (s', Ret tt)
    ∧ chans s' = <[ch_cl b := wrote wf b c]> (chans s) ∧ io_queue s' = io_queue s.
Proof.
  intros [Hcomp _ Hb Hi] Hc Hw Hq. unfold write_block. rewrite Hcomp.
  unfold writeUncompressedBlock. rewrite Hb, Hi, Nat2Z.id, firstn_all.
  set (o := ofs_writes (render wf (samples b)) (ch_logf c)).
  set (c1 := set_ch_logf o c).
  rewrite (bind_Ret _ _ _ _ _
    (on_closure_run (ch_cl b) _ s c c1 (bsys s) tt Hc (write_samples_run wf _ _ _ Hw))).
  set (s1 := set_bsys (bsys s) (set_chans (<[ch_cl b := c1]> (chans s)) s)).
  set (c2 := if close_file b then set_ch_logf (ofs_close o) c1 else c1).
  assert (∃ s2, (when (close_file b) (on_closure (ch_cl b) close_logf)) s1
    = (s2, Ret tt) ∧ chans s2 = <[ch_cl b := c2]> (chans s)
      ∧ io_queue s2 = io_queue s) as (s2 & E2 & Ec2 & Ei2).
  { unfold c2. destruct (close_file b).
    - eexists. split; [|split].
      + eapply on_closure_run; [apply lookup_insert_eq|]. done.
      + simpl. by rewrite insert_insert_eq.
      + done.
    - by exists s1. }
  rewrite (bind_Ret _ _ _ _ _ E2). unfold sendBackBlockUntilSuccess.
  assert (ext c2 = ext c) as Ex by (unfold c2; by destruct (close_file b)).
  rewrite (bind_Ret _ _ s2
    (set_bsys (bsys s2) (set_chans (<[ch_cl b := wrote wf b c]> (chans s2)) s2)) true).
  - eexists. split; [done|]. simpl. by rewrite Ec2, insert_insert_eq.
  - apply (on_closure_run _ _ _ c2).
    { rewrite Ec2. apply lookup_insert_eq. }
    unfold sendBackBlock. cm_simpl. rewrite Ex, bool_decide_eq_true_2 by done.
    do 3 f_equal. unfold wrote, c2, c1. by destruct (close_file b).
Qed.

Lemma emptied_block comp cl b :
  raw_block comp cl b → raw_block comp cl (emptied b) ∧ samples (emptied b) = [].
Proof. intros [H1' H2' H3' H4']. by repeat split. Qed.

(** The file gets the samples of the block. *)
Lemma wrote_file wf b c :
  ofs_ok (ch_logf c) →
  ofs_file (ch_logf (wrote wf b c)) = ofs_file (ch_logf c) ++ render wf (samples b)
  ∧ if close_file b then ofs_open (ch_logf (wrote wf b c)) = false
    else ofs_ok (ch_logf (wrote wf b c)).
Proof.
  intros Hok. destruct (ofs_writes_ok (render wf (samples b)) (ch_logf c) Hok)
    as [[O1 O2] Hf].
  unfold wrote. simpl. unfold ofs_close. destruct (close_file b); [|done].
  by rewrite O1.
Qed.

Lemma chan_inv_write cl b pend hist c wf :
  data_block cl b →
  (chan_open cl (b :: pend) hist c wf → chan_open cl pend hist (wrote wf b c) wf)
  ∧ (chan_closed cl (b :: pend) hist c wf → chan_closed cl pend hist (wrote wf b c) wf).
Proof.
  intros Hb. destruct (emptied_block false cl b Hb) as [He Hs]. split.
  - intros []. apply Forall_cons in co_pend0 as [[_ Hcl] Hp].
    destruct (wrote_file wf b c co_file0) as [Hf Hok]. rewrite Hcl in Hok.
    split; try done.
    + by apply Forall_app_2; [|apply Forall_singleton].
    + unfold count_cur in *. simpl in *. rewrite length_app. simpl. lia.
    + rewrite Hf, <- co_content0, <- app_assoc. f_equal. rewrite <- render_app.
      unfold all_samples. simpl. by rewrite app_assoc.
  - intros []. apply Forall_cons in cc_pend0 as [_ Hp].
    destruct cc_last0 as [[? _]|(Hok & p & l & El & Hl & Hpc)]; [done|].
    destruct (wrote_file wf b c Hok) as [Hf Hcl].
    split; try done.
    + simpl in *. rewrite length_app. simpl. lia.
    + rewrite Hf, <- cc_content0, <- app_assoc. f_equal. by rewrite <- render_app.
    + destruct p as [|b' p]; injection El as -> ->.
      * left. by rewrite Hl in Hcl.
      * right. apply Forall_cons in Hpc as [Hb' Hpc]. rewrite Hb' in Hcl.
        split; [exact Hcl|]. by exists p, l.
Qed.

Lemma room_of_inv cl b pend hist c wf :
  chan_open cl (b :: pend) hist c wf ∨ chan_closed cl (b :: pend) hist c wf →
  write_handler_f c = Some wf ∧ data_block cl b
  ∧ (length (queue (ext c)) < RETURN_QUEUE_SIZE)%nat.
Proof.
  pose proof size_blocks. intros [[]|[]].
  - apply Forall_cons in co_pend0 as [[? _] _]. simpl in *. split_and!; [done..|lia].
  - apply Forall_cons in cc_pend0 as [? _]. simpl in *. split_and!; [done..|lia].
Qed.

(** With a block in its queue, the IO thread writes it and goes on. *)
Lemma io_round_step hist s b q :
  uinv hist s → io_queue s = b :: q →
  ∃ s', io_round s = (s', Ret true) ∧ uinv hist s' ∧ io_queue s' = q.
Proof.
  intros Hu Eq. pose proof Hu as (Hc & Hin & _).
  destruct (Hin b) as [c Ec]; [rewrite Eq; by left|].
  destruct (Hc _ c Ec) as [wf Hi].
  assert (of_channel (ch_cl b) (io_queue s) = b :: of_channel (ch_cl b) q) as Ef
    by (rewrite Eq; unfold of_channel; by rewrite filter_cons_True).
  rewrite Ef in Hi. destruct (room_of_inv _ _ _ _ _ _ Hi) as (Hw & Hb & Hr).
  destruct (write_block_run wf b (set_io_queue q s) c) as (s' & Es & Ec' & Eq'); [done..|].
  exists s'. split_and!; [|idtac|done].
  - unfold io_round. rewrite (bind_Ret get _ s s s), Eq by done.
    rewrite (bind_Ret (modify _) _ _ _ tt eq_refl). by rewrite (bind_Ret _ _ _ _ _ Es).
  - apply (uinv_step hist hist s s' (ch_cl b) (wrote wf b c)); try done.
    + intros d Hd. split; [|done]. rewrite Eq', Eq. simpl. unfold of_channel.
      by rewrite filter_cons_False by done.
    + rewrite Eq'. simpl. exists wf. destruct (chan_inv_write _ b (of_channel (ch_cl b) q)
        (hist (ch_cl b)) c wf Hb) as [W1 W2].
      destruct Hi; [left; by apply W1|right; by apply W2].
Qed.

(** ** The application *)

(** A sample more in the block. *)
Definition filled (d : log_data) (b : block_data) : block_data :=
  set_block_idx (block_idx b + 1) (set_block (Samples (samples b ++ [d])) b).

Lemma filled_block comp cl d b :
  raw_block comp cl b → raw_block comp cl (filled d b) ∧ samples (filled d b) = samples b ++ [d].
Proof.
  intros [D1 D2 D3 D4]. split; [|done]. split; try done.
  change (samples (filled d b)) with (samples b ++ [d]). simpl.
  rewrite D4, length_app. simpl. lia.
Qed.

Lemma write_run comp cl s c b t :
  chans s !! cl = Some c → cur_block (ext c) = Some b → raw_block comp cl b →
  block_idx b < BUFFER_BLOCK_SIZE →
  let d := (t, clock (clk (bsys s))) in
  ∃ y full, on_closure cl (buffer_write t) s
    = (upd cl (set_ext (set_cur_block (Some (filled d b)) (ext c)) c) y s, Ret full).
Proof.
  intros Hc Hb [D1 D2 D3 D4] Hlt d.
  exists (set_clk (S (clk (bsys s))) (bsys s)), (checkBlockIsFull (filled d b)).
  apply (on_closure_run _ _ _ c); [done|].
  unfold buffer_write, clock_gettime_tsc, this_block, writeOnBlock. cm_simpl.
  rewrite Hb. simpl. rewrite D3. simpl. rewrite D4, Z.eqb_refl. simpl.
  destruct (Z.ltb_spec (Z.of_nat (length (samples b))) BUFFER_BLOCK_SIZE); [|lia].
  simpl. unfold filled. by rewrite D4.
Qed.

Lemma enqueue_plain b s :
  compress b = false →
  enqueueBlockUntilSuccess b s
  = if bool_decide (length (io_queue s) < IO_QUEUE_SIZE)%nat
    then (set_io_queue (io_queue s ++ [b]) s, Ret tt)
    else (s, Fault (FSpin "enqueueBlockUntilSuccess")).
Proof.
  intros Hb. unfold enqueueBlockUntilSuccess, enqueueBlock. monad_simpl.
  rewrite Hb. by case_bool_decide.
Qed.

Lemma this_block_run cl s c b :
  chans s !! cl = Some c → cur_block (ext c) = Some b →
  on_closure cl this_block s = (upd cl c (bsys s) s, Ret b).
Proof.
  intros Hc Hb. apply (on_closure_run _ _ _ c); [done|].
  unfold this_block. cm_simpl. by rewrite Hb.
Qed.

Lemma enqueue_step_run cl s s' c b :
  chans s !! cl = Some c → cur_block (ext c) = Some b → compress b = false →
  buffer_enqueue cl s = (s', Ret tt) →
  chans s' = <[cl := set_ext (set_cur_block None (ext c)) c]> (chans s)
  ∧ io_queue s' = io_queue s ++ [b].
Proof.
  intros Hc Hb Hcomp Em. unfold buffer_enqueue in Em.
  rewrite (bind_Ret _ _ _ _ _ (this_block_run cl s c b Hc Hb)) in Em.
  apply bind_Ret_inv in Em as (s1 & [] & E1 & Em).
  rewrite enqueue_plain in E1 by done. case_bool_decide; [|done]. injection E1 as <-.
  rewrite (on_closure_run cl _ _ c (set_ext (set_cur_block None (ext c)) c) (bsys s) tt)
    in Em; [|simpl; apply lookup_insert_eq|done].
  injection Em as <-. simpl. by rewrite insert_insert_eq.
Qed.

Lemma refill_run c c' y y' :
  refill (c, y) = ((c', y'), Ret tt) →
  ∃ b q, queue (ext c) = b :: q
    ∧ c' = set_ext (BufExt q (Some (set_block_id (block_cnt (ext c)) b))
                      (i32 (block_cnt (ext c) + 1)) (buf_first_logging (ext c))) c.
Proof.
  unfold refill, dequeueEmptyBlockPolling, dequeueEmptyBlock. cm_simpl.
  destruct (queue (ext c)) as [|b q]; [done|]. simpl. intros [= <- _]. by exists b, q.
Qed.

(** The channel after it took an empty block [b] and left [q]. *)
Definition refilled (b : block_data) (q : list block_data) (c : closure buf_ext)
    : closure buf_ext :=
  set_ext (BufExt q (Some (set_block_id (block_cnt (ext c)) b))
             (i32 (block_cnt (ext c) + 1)) (buf_first_logging (ext c))) c.

Lemma refill_step_run cl s s' c :
  chans s !! cl = Some c → buffer_refill cl s = (s', Ret tt) →
  ∃ b q y, queue (ext c) = b :: q ∧ s' = upd cl (refilled b q c) y s.
Proof.
  intros Hc Em. unfold buffer_refill, on_closure in Em. rewrite Hc in Em.
  match type of Em with (let '(_, _) := ?m (c, bsys s) in _) = _ =>
    destruct (m (c, bsys s)) as [[c' y'] r] eqn:Er end.
  injection Em as <- ->. apply bind_Ret_inv in Er as ([c1 y1] & [] & E1 & Er).
  apply refill_run in E1 as (b & q & Eq & ->). exists b, q.
  rewrite (bind_Ret this _ _ _ _ eq_refl) in Er. simpl in Er. unfold when in Er.
  destruct (_ =? _).
  - match type of Er with sysm (logStatus ?f ?l ?m) (?c0, _) = _ =>
      destruct (sysm_log_end (logStatus f l m) c0 y1) as (y2 & E2 & _);
        [apply logStatus_frame|] end.
    rewrite E2 in Er. exists y2. by injection Er as <- <-.
  - exists y1. by injection Er as <- <-.
Qed.

Lemma close_step_run cl s s' c b :
  chans s !! cl = Some c → handler_f c = Some BufferIdentityHandler_fn →
  cur_block (ext c) = Some b → compress b = false →
  buffer_closeChannel cl s = (s', Ret tt) →
  chans s' = <[cl := set_handler_f (Some NullHandler_fn) c]> (chans s)
  ∧ io_queue s' = io_queue s ++ [set_close_file true b].
Proof.
  intros Hc Hh Hb Hcomp Em. unfold buffer_closeChannel in Em.
  set (c1 := set_handler_f (Some NullHandler_fn) c) in *.
  set (s1 := set_bsys (bsys s) (set_chans (<[cl := c1]> (chans s)) s)) in *.
  rewrite (bind_Ret _ _ s s1 (handler_f c)) in Em
    by (by apply (on_closure_run _ _ _ c)).
  rewrite Hh, bool_decide_eq_true_2 in Em by done.
  assert (chans s1 !! cl = Some c1) as Hc1 by apply lookup_insert_eq.
  rewrite (bind_Ret _ _ _ _ _ (this_block_run cl s1 c1 b Hc1 Hb)) in Em.
  apply bind_Ret_inv in Em as (s2 & [] & E2 & Em).
  rewrite enqueue_plain in E2 by done. case_bool_decide; [|done]. injection E2 as <-.
  rewrite Hcomp in Em.
  rewrite (bind_Ret (when false _) _ _ _ tt eq_refl) in Em.
  rewrite (bind_Ret (modify _) _ _ _ tt eq_refl) in Em.
  unfold on_closure in Em. simpl in Em. rewrite lookup_insert_eq in Em.
  match type of Em with (let '(_, _) := ?m (c1, ?y) in _) = _ =>
    destruct (m (c1, y)) as [[c' y'] r] eqn:Er end.
  injection Em as <- ->. rewrite (bind_Ret this _ _ _ _ eq_refl) in Er.
  apply bind_Ret_inv in Er as ([c2 y2] & n & E2 & Er).
  unfold deref_name in E2. simpl in E2. destruct (ch_logf_name c); [|done].
  injection E2 as <- <- <-.
  match type of Er with sysm (logStatus ?f ?l ?m) (?c0, ?y0) = _ =>
    destruct (sysm_log_end (logStatus f l m) c0 y0) as (y3 & E3 & _);
      [apply logStatus_frame|] end.
  rewrite E3 in Er. injection Er as <- _. simpl. by rewrite !insert_insert_eq.
Qed.

(** A new channel: one block in use, the others in the queue. *)
Lemma init_run cl fmt s s' :
  fmt = ASCII ∨ fmt = BINARY →
  initBufferIdentityHandler cl fmt false s = (s', Ret tt) →
  ∃ c wf, chans s' = <[cl := c]> (chans s) ∧ io_queue s' = io_queue s
    ∧ handler_f c = Some BufferIdentityHandler_fn ∧ write_handler_f c = Some wf
    ∧ ch_logf c = ofs_new ∧ (length (queue (ext c)) + 1 = NUM_BUFFER_BLOCK)%nat
    ∧ Forall (empty_block cl) (queue (ext c))
    ∧ ∃ b, cur_block (ext c) = Some b ∧ empty_block cl b.
Proof.
  intros Hf Em. unfold initBufferIdentityHandler in Em. cbv zeta in Em.
  rewrite (bind_Ret (modify _) _ _ _ tt eq_refl) in Em.
  rewrite (bind_Ret (modify _) _ _ _ tt eq_refl) in Em.
  rewrite (bind_Ret (when false _) _ _ _ tt eq_refl) in Em.
  rewrite (bind_Ret get _ _ _ _ eq_refl) in Em. cbn [andb] in Em.
  rewrite (bind_Ret (when false _) _ _ _ tt eq_refl) in Em.
  rewrite (bind_Ret (modify _) _ _ _ tt eq_refl) in Em.
  match type of Em with context [<[cl := ?x]> _] => set (c0 := x) in Em end.
  assert (∃ wf, handler_f c0 = Some BufferIdentityHandler_fn
    ∧ write_handler_f c0 = Some wf ∧ ch_logf c0 = ofs_new
    ∧ queue (ext c0) = replicate NUM_BUFFER_BLOCK (block_new false cl))
    as (wf & Hh & Hw & Hl & Hq).
  { unfold c0. destruct Hf as [-> | ->]; by eexists. }
  unfold on_closure in Em. simpl in Em. rewrite lookup_insert_eq in Em.
  destruct (refill (c0, bsys s)) as [[c' y'] r] eqn:Er. injection Em as <- ->.
  apply refill_run in Er as (b & q & Eq & ->).
  assert (∀ x, x ∈ queue (ext c0) → x = block_new false cl) as Hx.
  { intros x. rewrite Hq. intros Hx. by apply elem_of_replicate in Hx as [-> _]. }
  assert (empty_block cl (block_new false cl)) as He by by repeat split.
  eexists _, wf. split_and!; [by simpl; rewrite insert_insert_eq|done|exact Hh|exact Hw
    |exact Hl| | |].
  - simpl. pose proof (f_equal length Eq) as El. rewrite Hq, length_replicate in El.
    simpl in El. lia.
  - simpl. apply Forall_forall. intros x Hin. rewrite (Hx x); [done|].
    rewrite Eq. by right.
  - simpl. eexists. split; [done|].
    rewrite (Hx b) by (rewrite Eq; by left). by repeat split.
Qed.

(** ** The steps *)
Definition the_cur (s : bst) (cl : Z) (b : block_data) : Prop :=
  ∃ c, chans s !! cl = Some c ∧ handler_f c = Some BufferIdentityHandler_fn
       ∧ cur_block (ext c) = Some b.
Definition no_cur (s : bst) (cl : Z) : Prop :=
  ∃ c, chans s !! cl = Some c ∧ handler_f c = Some BufferIdentityHandler_fn
       ∧ cur_block (ext c) = None.

(** The label of a step that logs is the channel and the sample. A thread that
    waits for a queue takes its step once the queue is ready. *)
Inductive ustep : option (Z * log_data) → bst → bst → Prop :=
  | u_open s s1 s2 cl nr msg fmt :
      chans s !! cl = None → fmt = ASCII ∨ fmt = BINARY →
      initBufferIdentityHandler cl fmt false s = (s1, Ret tt) →
      on_closure cl (closure_openChannel nr msg fmt) s1 = (s2, Ret true) →
      ustep None s s2
  | u_write s s' cl b t full :
      the_cur s cl b → block_idx b < BUFFER_BLOCK_SIZE →
      on_closure cl (buffer_write t) s = (s', Ret full) →
      ustep (Some (cl, (t, clock (clk (bsys s))))) s s'
  | u_enqueue s s' cl b :
      the_cur s cl b → block_idx b = BUFFER_BLOCK_SIZE →
      buffer_enqueue cl s = (s', Ret tt) → ustep None s s'
  | u_refill s s' cl :
      no_cur s cl → buffer_refill cl s = (s', Ret tt) → ustep None s s'
  | u_close s s' cl b :
      the_cur s cl b → block_idx b < BUFFER_BLOCK_SIZE →
      buffer_closeChannel cl s = (s', Ret tt) → ustep None s s'
  | u_io s s' more : io_round s = (s', Ret more) → ustep None s s'.

(** Runs, with the trace of what was logged, oldest first. *)
Inductive usteps : list (Z * log_data) → bst → Prop :=
  | usteps_init y : usteps [] (bst_init y)
  | usteps_step tr s l s' :
      usteps tr s → ustep l s s' → usteps (tr ++ option_list l) s'.

Definition logged (tr : list (Z * log_data)) (cl : Z) : list log_data :=
  map snd (filter (λ x, x.1 = cl) tr).

Lemma logged_app tr1 tr2 cl : logged (tr1 ++ tr2) cl = logged tr1 cl ++ logged tr2 cl.
Proof. unfold logged. by rewrite filter_app, map_app. Qed.

Lemma logged_one cl d e : logged [(cl, d)] e = if decide (cl = e) then [d] else [].
Proof. unfold logged. rewrite filter_cons, filter_nil. simpl. by case_decide. Qed.

(** The open channel a step of its application thread finds. *)
Lemma inv_open hist s cl c :
  uinv hist s → chans s !! cl = Some c → handler_f c = Some BufferIdentityHandler_fn →
  ∃ wf, chan_open cl (of_channel cl (io_queue s)) (hist cl) c wf.
Proof.
  intros (Hc & _ & _) Ec Hh. destruct (Hc cl c Ec) as [wf [Ho|Hcl]]; [by exists wf|].
  destruct Hcl. congruence.
Qed.

(** Blocks of one channel are appended to the queue. *)
Lemma append_others s s' b cl d :
  io_queue s' = io_queue s ++ [b] → ch_cl b = cl → d ≠ cl →
  of_channel d (io_queue s') = of_channel d (io_queue s).
Proof.
  intros -> <- Hd. rewrite of_channel_app, of_channel_one.
  rewrite decide_False by done. by rewrite app_nil_r.
Qed.
Lemma append_own s s' b cl :
  io_queue s' = io_queue s ++ [b] → ch_cl b = cl →
  of_channel cl (io_queue s') = of_channel cl (io_queue s) ++ [b].
Proof. intros -> <-. by rewrite of_channel_app, of_channel_one, decide_True. Qed.

Definition extend (hist : Z → list log_data) (l : option (Z * log_data)) (cl : Z)
    : list log_data := hist cl ++ logged (option_list l) cl.

Lemma extend_none hist cl : extend hist None cl = hist cl.
Proof. apply app_nil_r. Qed.

Lemma step_write hist s s' cl b t full :
  uinv hist s → the_cur s cl b → block_idx b < BUFFER_BLOCK_SIZE →
  on_closure cl (buffer_write t) s = (s', Ret full) →
  uinv (extend hist (Some (cl, (t, clock (clk (bsys s)))))) s'.
Proof.
  intros Hu (c & Hc & Hh & Hb) Hlt Em.
  destruct (inv_open hist s cl c Hu Hc Hh) as [wf []].
  destruct (co_cur0 b Hb) as (Db & Hcl & _).
  destruct (write_run false cl s c b t Hc Hb Db Hlt) as (y & full1 & E1).
  rewrite E1 in Em. injection Em as <- _. set (d := (t, clock (clk (bsys s)))) in *.
  simpl in *.
  destruct (filled_block false cl d b Db) as [Df Sf].
  eapply (uinv_step hist _ s _ cl); [done|reflexivity| |].
  - intros e He. split; [done|]. unfold extend. simpl.
    rewrite logged_one, decide_False by done. by rewrite app_nil_r.
  - unfold extend. simpl. rewrite logged_one, decide_True by done.
    exists wf. left. split; try done.
    + simpl. intros b' [= <-]. split_and!; [done|done|]. simpl. lia.
    + unfold count_cur in *. simpl. by rewrite Hb in co_blocks0.
    + unfold cur_samples in *. rewrite Hb in co_content0. simpl.
      change (samples (set_block_idx _ _)) with (samples b ++ [d]).
      rewrite (render_app wf (hist cl)), <- co_content0, <- app_assoc.
      by rewrite <- render_app, <- app_assoc.
Qed.

Lemma step_enqueue hist s s' cl b :
  uinv hist s → the_cur s cl b → buffer_enqueue cl s = (s', Ret tt) →
  uinv (extend hist None) s'.
Proof.
  intros Hu (c & Hc & Hh & Hb) Em.
  destruct (inv_open hist s cl c Hu Hc Hh) as [wf []].
  destruct (co_cur0 b Hb) as (Db & Hcl & _).
  destruct (enqueue_step_run cl s s' c b Hc Hb (db_comp Db) Em) as [Ec Eq].
  eapply (uinv_step hist _ s s' cl); [done|exact Ec| |].
  - intros e He. rewrite extend_none. split; [|done].
    eapply append_others; [done|exact (db_cl Db)|done].
  - rewrite extend_none, (append_own _ _ _ _ Eq (db_cl Db)).
    exists wf. left. split; try done.
    + by apply Forall_app_2; [|apply Forall_singleton].
    + rewrite length_app. unfold count_cur in *. rewrite Hb in co_blocks0. simpl in *. lia.
    + unfold cur_samples in *. rewrite Hb in co_content0. simpl.
      rewrite app_nil_r, all_samples_app. unfold all_samples at 2. simpl.
      by rewrite app_nil_r.
Qed.

Lemma step_refill hist s s' cl :
  uinv hist s → no_cur s cl → buffer_refill cl s = (s', Ret tt) →
  uinv (extend hist None) s'.
Proof.
  intros Hu (c & Hc & Hh & Hb) Em.
  destruct (inv_open hist s cl c Hu Hc Hh) as [wf []].
  destruct (refill_step_run cl s s' c Hc Em) as (b & q & y & Eb & ->).
  rewrite Eb in co_queue0. apply Forall_cons in co_queue0 as [(Db & Sb & Cb) Hq].
  eapply (uinv_step hist _ s _ cl); [done|reflexivity| |].
  - intros e He. by rewrite extend_none.
  - rewrite extend_none. exists wf. left. split; try done.
    + simpl. intros b' [= <-]. destruct Db as [D1 D2 D3 D4].
      split_and!; [by split|done|]. simpl. rewrite D4, Sb. simpl.
      pose proof size_tuples. lia.
    + unfold count_cur in *. rewrite Hb, Eb in co_blocks0. simpl in *. lia.
    + unfold cur_samples in *. rewrite Hb in co_content0. simpl.
      change (samples (set_block_id _ b)) with (samples b). by rewrite Sb.
Qed.

Lemma step_close hist s s' cl b :
  uinv hist s → the_cur s cl b → buffer_closeChannel cl s = (s', Ret tt) →
  uinv (extend hist None) s'.
Proof.
  intros Hu (c & Hc & Hh & Hb) Em.
  destruct (inv_open hist s cl c Hu Hc Hh) as [wf []].
  destruct (co_cur0 b Hb) as (Db & Hcl & _).
  destruct (close_step_run cl s s' c b Hc Hh Hb (db_comp Db) Em) as [Ec Eq].
  assert (data_block cl (set_close_file true b)) as Db' by by destruct Db; split.
  eapply (uinv_step hist _ s s' cl); [done|exact Ec| |].
  - intros e He. rewrite extend_none. split; [|done].
    eapply append_others; [done|exact (db_cl Db')|done].
  - rewrite extend_none, (append_own _ _ _ _ Eq (db_cl Db')).
    exists wf. right. split; try done.
    + apply Forall_app_2; [|by apply Forall_singleton].
      eapply Forall_impl; [exact co_pend0|]. by intros ? [].
    + rewrite length_app. unfold count_cur in *. rewrite Hb in co_blocks0. simpl in *. lia.
    + unfold cur_samples in *. rewrite Hb in co_content0. simpl.
      rewrite all_samples_app. unfold all_samples at 2. simpl.
      change (samples (set_close_file true b)) with (samples b).
      by rewrite app_nil_r.
    + right. split; [done|]. eexists _, _. split; [done|]. split; [done|].
      eapply Forall_impl; [exact co_pend0|]. by intros ? [].
Qed.

Lemma step_open hist s s1 s2 cl nr msg fmt :
  uinv hist s → chans s !! cl = None → fmt = ASCII ∨ fmt = BINARY →
  initBufferIdentityHandler cl fmt false s = (s1, Ret tt) →
  on_closure cl (closure_openChannel nr msg fmt) s1 = (s2, Ret true) →
  uinv (extend hist None) s2.
Proof.
  intros Hu Hnone Hf E1 E2. pose proof Hu as (_ & Hin & Hhist).
  destruct (init_run cl fmt s s1 Hf E1)
    as (c & wf & Ec & Eq & Hh & Hw & Hl & Hlen & Hq & b & Hb & He).
  unfold on_closure in E2. rewrite Ec, lookup_insert_eq in E2.
  destruct (closure_openChannel_spec nr msg fmt c (bsys s1))
    as (c' & y' & ok & Er & _ & _ & Hh' & _ & Hw' & _ & Hx & Hm); [by rewrite Hl|].
  rewrite Er in E2. injection E2 as <- ->.
  assert (ch_logf c' = Ofstream true false [] ∧ named c') as [Hlf Hnm].
  { destruct (getIPDottedQuad (bsys s1)).2 as [[[|z|z] ip]|ft];
      try (by destruct Hm as (? & _)).
    destruct Hm as (Hn & _ & _ & Hok & _). split; [by apply Hok|by eexists]. }
  assert (of_channel cl (io_queue s) = []) as Hpend.
  { destruct (of_channel cl (io_queue s)) as [|x q] eqn:Ef; [done|].
    assert (x ∈ of_channel cl (io_queue s)) as Hxq by (rewrite Ef; by left).
    apply list_elem_of_filter in Hxq as [<- Hxq]. destruct (Hin x Hxq). congruence. }
  eapply (uinv_step hist _ s _ cl c'); [done|by simpl; rewrite insert_insert_eq| |].
  - intros e He'. by rewrite extend_none; simpl; rewrite Eq.
  - rewrite extend_none. simpl. rewrite Eq, Hpend, (Hhist cl Hnone).
    destruct He as (Db & Sb & Cb). exists wf. left. split.
    + by rewrite Hh'.
    + by rewrite Hw'.
    + done.
    + by rewrite Hlf.
    + constructor.
    + by rewrite Hx.
    + rewrite Hx, Hb. intros b' [= <-]. split_and!; [done..|].
      rewrite (db_idx Db), Sb. simpl. pose proof size_tuples. lia.
    + rewrite Hx. unfold count_cur. rewrite Hx, Hb. simpl. lia.
    + rewrite Hlf. unfold cur_samples. rewrite Hx, Hb, Sb. done.
Qed.

Lemma uinv_ext hist hist' s : (∀ cl, hist' cl = hist cl) → uinv hist s → uinv hist' s.
Proof.
  intros Hh (U1 & U2 & U3). split_and!; [|done|].
  - intros cl c. rewrite Hh. apply U1.
  - intros cl. rewrite Hh. apply U3.
Qed.

Lemma ustep_inv hist l s s' : uinv hist s → ustep l s s' → uinv (extend hist l) s'.
Proof.
  intros Hu Hs. destruct Hs as [s s1 s2 cl nr msg fmt H1' H2' H3' H4'|s s' cl b t full H1' H2' H3'
    |s s' cl b H1' H2' H3'|s s' cl H1' H2'|s s' cl b H1' H2' H3'|s s' more Em].
  - by eapply step_open.
  - by eapply step_write.
  - by eapply step_enqueue.
  - by eapply step_refill.
  - by eapply step_close.
  - apply (uinv_ext hist); [apply extend_none|]. destruct (io_queue s) as [|b q] eqn:Eq.
    + unfold io_round in Em. rewrite (bind_Ret get _ s s s), Eq in Em by done.
      by injection Em as <- _.
    + destruct (io_round_step hist s b q Hu Eq) as (s1 & E1 & Hu1 & _).
      rewrite E1 in Em. by injection Em as <- _.
Qed.

Lemma usteps_inv tr s : usteps tr s → uinv (logged tr) s.
Proof.
  induction 1 as [y|tr s l s' _ IH Hs].
  - split_and!; [done| |done]. by intros b ?%elem_of_nil.
  - apply (uinv_ext (extend (logged tr) l)); [|by apply (ustep_inv _ _ s)].
    intros cl. by rewrite logged_app.
Qed.


Lemma flush_run hist q s :
  uinv hist s → io_queue s = q →
  ∃ s', uinv hist s' ∧ io_queue s' = []
    ∧ ∀ fuel, (length q <= fuel)%nat → flushBlockInQueues fuel s = (s', Ret tt).
Proof.
  revert s. induction q as [|b q IH]; intros s Hu Eq.
  - exists s. split_and!; [done..|]. intros [|fuel] _; [done|].
    simpl. unfold io_round. rewrite bind_assoc, (bind_Ret get _ s s s) by done.
    by rewrite Eq.
  - destruct (io_round_step hist s b q Hu Eq) as (s1 & E1 & Hu1 & Eq1).
    destruct (IH s1 Hu1 Eq1) as (s' & Hu' & Eq' & Hf). exists s'.
    split_and!; [done..|]. intros [|fuel] Hlen; simpl in Hlen; [lia|].
    simpl. rewrite (bind_Ret _ _ _ _ _ E1). apply Hf. lia.
Qed.

End IoFlush.
Arguments db_comp {comp cl b}.
Arguments db_cl {comp cl b}.
Arguments db_block {comp cl b}.
Arguments db_idx {comp cl b}.

(** ** A run with two blocks of two samples *)
Section Demo.
#[local] Existing Instances demo_env demo_squash.

Definition demo_sizes : Sizes.
Proof.
  refine {| NUM_BUFFER_BLOCK := 2; BUFFER_BLOCK_SIZE := 2 |};
    [unfold RETURN_QUEUE_SIZE; lia|lia].
Defined.
#[local] Existing Instance demo_sizes.

Definition demo_s1 : bst :=
  (on_closure 1 (closure_openChannel 0 "b" ASCII)
     (initBufferIdentityHandler 1 ASCII false (bst_init (sys_init true))).1).1.
Definition demo_s2 : bst := (on_closure 1 (buffer_write 10) demo_s1).1.
Definition demo_s3 : bst := (on_closure 1 (buffer_write 20) demo_s2).1.
Definition demo_s4 : bst := (buffer_enqueue 1 demo_s3).1.
Definition demo_s5 : bst := (buffer_refill 1 demo_s4).1.
Definition demo_s6 : bst := (on_closure 1 (buffer_write 30) demo_s5).1.
Definition demo_s7 : bst := (buffer_closeChannel 1 demo_s6).1.
Definition demo_tr : list (Z * log_data) :=
  [(1, (10, clock 0)); (1, (20, clock 1)); (1, (30, clock 2))].

Ltac compute_step := eexists; split_and!; vm_compute; reflexivity.

Lemma demo_usteps : usteps demo_tr demo_s7.
Proof.
  assert (usteps [] demo_s1) as R1.
  { refine (usteps_step [] (bst_init (sys_init true)) None _ _ _); [constructor|].
    eapply (u_open _ _ _ 1 0 "b" ASCII); [done|by left|..];
      vm_compute; reflexivity. }
  assert (usteps (take 1 demo_tr) demo_s2) as R2.
  { refine (usteps_step [] demo_s1 (Some (1, (10, clock 0))) _ R1 _).
    eapply (u_write demo_s1 demo_s2 1 _ 10); [compute_step|done|vm_compute; reflexivity]. }
  assert (usteps (take 2 demo_tr) demo_s3) as R3.
  { refine (usteps_step (take 1 demo_tr) demo_s2 (Some (1, (20, clock 1))) _ R2 _).
    eapply (u_write demo_s2 demo_s3 1 _ 20); [compute_step|done|vm_compute; reflexivity]. }
  assert (usteps (take 2 demo_tr) demo_s4) as R4.
  { refine (usteps_step (take 2 demo_tr) demo_s3 (None) _ R3 _).
    eapply (u_enqueue _ _ 1); [compute_step|done|vm_compute; reflexivity]. }
  assert (usteps (take 2 demo_tr) demo_s5) as R5.
  { refine (usteps_step (take 2 demo_tr) demo_s4 (None) _ R4 _).
    eapply (u_refill _ _ 1); [compute_step|vm_compute; reflexivity]. }
  assert (usteps demo_tr demo_s6) as R6.
  { refine (usteps_step (take 2 demo_tr) demo_s5 (Some (1, (30, clock 2))) _ R5 _).
    eapply (u_write demo_s5 demo_s6 1 _ 30); [compute_step|done|vm_compute; reflexivity]. }
  refine (usteps_step demo_tr demo_s6 (None) _ R6 _).
  eapply (u_close _ _ 1); [compute_step|done|vm_compute; reflexivity].
Qed.


End Demo.
