(* ===== verification/CompFlush.v ===== *)
(** * Compressed channels: application, compression threads and IO thread

    Any number of channels in the formats ZSTD and LZO1X, interleaved with the
    compression threads and the IO thread. A compression thread takes a block from
    its queue, compresses it and gives the emptied block back, and passes the
    compressed block on; these are three steps, so that blocks of one channel can
    overtake each other. A queue operation is one step. *)
From S2P Require Import Prelude TimeStamp Platform Log Formats Closure Bytes.
From S2P Require Import Identity IoThread ReorderBuffer IoFlush.

(** Where a compression thread is: without a block, with a block to compress, with
    a compressed block to pass on. *)
Inductive worker := WIdle | WRaw (b : block_data) | WDone (b : block_data).

Definition raws (ws : list worker) : list block_data :=
  omap (λ w, match w with WRaw b => Some b | _ => None end) ws.
Definition dones (ws : list worker) : list block_data :=
  omap (λ w, match w with WDone b => Some b | _ => None end) ws.

Section CompFlush.
Context `{Env} `{Sizes} `{Squash}.

(** ** A round of a compression thread, in three steps *)
Lemma comp_round_steps b q s s1 s2 nb ok :
  compression_queue s = b :: q →
  compress_and_return b (set_compression_queue q s) = (s1, Ret nb) →
  enqueueFullBlockFromCompThread nb s1 = (s2, Ret ok) →
  comp_round s = (s2, Ret true).
Proof.
  intros Hq E1 E2. unfold comp_round. rewrite (bind_Ret get _ _ _ _ eq_refl), Hq.
  rewrite (bind_Ret (modify _) _ _ _ tt eq_refl). unfold compressBlockAndSend.
  rewrite bind_assoc, (bind_Ret _ _ _ _ _ E1), bind_assoc, (bind_Ret _ _ _ _ _ E2).
  done.
Qed.

(** ** What the compression of a block gives *)
Definition codec_of (fmt : log_format) : string :=
  if bool_decide (fmt = ZSTD) then "zstd" else "lzo1x".
Definition level_of (fmt : log_format) : string :=
  if bool_decide (fmt = ZSTD) then "1" else "12".

Definition packed_bytes (fmt : log_format) (l : list log_data) : string :=
  default "" (squash_compress (codec_of fmt) (level_of fmt) (raw_bytes l)).

Definition packed (fmt : log_format) (b : block_data) : block_data :=
  set_block (Compressed (packed_bytes fmt (samples b)))
    (set_block_idx (Z.of_nat (String.length (packed_bytes fmt (samples b))))
       (block_copy b)).

Lemma packed_cblock fmt comp cl b : raw_block comp cl b → cblock cl (packed fmt b).
Proof.
  intros [_ Hcl _ _]. split; [exact Hcl|]. unfold payload_bytes, packed. simpl.
  rewrite Z.eqb_refl. by eexists.
Qed.

(** The channel with an emptied block more. *)
Definition returned (b : block_data) (c : closure buf_ext) : closure buf_ext :=
  set_ext (set_queue (queue (ext c) ++ [emptied b]) (ext c)) c.

Lemma compress_run comp b s c :
  (∀ codec level d, is_Some (squash_compress codec level d)) →
  raw_block comp (ch_cl b) b → chans s !! ch_cl b = Some c →
  (length (queue (ext c)) < RETURN_QUEUE_SIZE)%nat →
  compress_and_return b s
  = (upd (ch_cl b) (returned b c) (bsys s) s, Ret (packed (format c) b)).
Proof.
  intros Hsq [_ _ Db Di] Hc Hroom. unfold compress_and_return, compressBlock.
  rewrite Db, Di, Nat2Z.id, firstn_all.
  rewrite bind_assoc, (bind_Ret get _ _ _ _ eq_refl), bind_assoc.
  rewrite (bind_Ret _ _ s (upd (ch_cl b) c (bsys s) s) (format c))
    by (by apply (on_closure_run _ _ _ c)).
  destruct (Hsq (codec_of (format c)) (level_of (format c)) (raw_bytes (samples b)))
    as [bytes Hb].
  unfold codec_of, level_of in Hb. rewrite Hb.
  rewrite bind_ret_l. unfold sendBackBlockUntilSuccess. rewrite bind_assoc.
  rewrite (bind_Ret _ _ (upd (ch_cl b) c (bsys s) s)
    (upd (ch_cl b) (returned b c) (bsys s) s) true).
  - rewrite bind_ret_l. unfold packed, packed_bytes, codec_of, level_of. rewrite Hb. done.
  - rewrite (on_closure_run _ _ _ c (returned b c) (bsys s) true).
    + unfold upd. simpl. by rewrite insert_insert_eq.
    + apply lookup_insert_eq.
    + unfold sendBackBlock. cm_simpl. by rewrite bool_decide_eq_true_2.
Qed.

(** ** The steps of the application, for a channel with compression *)
Lemma enqueue_comp b s :
  compress b = true →
  enqueueBlockUntilSuccess b s
  = if bool_decide (length (compression_queue s) < COMPRESS_QUEUE_SIZE)%nat
    then (set_compression_queue (compression_queue s ++ [b]) s, Ret tt)
    else (s, Fault (FSpin "enqueueBlockUntilSuccess")).
Proof.
  intros Hb. unfold enqueueBlockUntilSuccess, enqueueBlock. monad_simpl.
  rewrite Hb. by case_bool_decide.
Qed.

Lemma cenqueue_run cl s s' c b :
  chans s !! cl = Some c → cur_block (ext c) = Some b → compress b = true →
  buffer_enqueue cl s = (s', Ret tt) →
  s' = upd cl (set_ext (set_cur_block None (ext c)) c) (bsys s)
         (set_compression_queue (compression_queue s ++ [b]) s).
Proof.
  intros Hc Hb Hcomp Em. unfold buffer_enqueue in Em.
  rewrite (bind_Ret _ _ _ _ _ (this_block_run cl s c b Hc Hb)) in Em.
  apply bind_Ret_inv in Em as (s1 & [] & E1 & Em).
  rewrite enqueue_comp in E1 by done. case_bool_decide; [|done]. injection E1 as <-.
  rewrite (on_closure_run cl _ _ c (set_ext (set_cur_block None (ext c)) c) (bsys s) tt)
    in Em; [|simpl; apply lookup_insert_eq|done].
  injection Em as <-. unfold upd. simpl. by rewrite insert_insert_eq.
Qed.

(** What a step leaves of the queues and vectors. *)
Definition same_rest (s s' : bst) : Prop :=
  io_queue s' = io_queue s ∧ next_block s' = next_block s ∧ pending s' = pending s.

Lemma cclose_run cl s s' c b :
  chans s !! cl = Some c → handler_f c = Some BufferIdentityHandler_fn →
  cur_block (ext c) = Some b → compress b = true →
  buffer_closeChannel cl s = (s', Ret tt) →
  chans s' = <[cl := set_handler_f (Some NullHandler_fn) c]> (chans s)
  ∧ compression_queue s' = compression_queue s ++ [set_close_file true b]
  ∧ same_rest s s'.
Proof.
  intros Hc Hh Hb Hcomp Em. unfold buffer_closeChannel in Em.
  set (c1 := set_handler_f (Some NullHandler_fn) c) in *.
  set (s1 := upd cl c1 (bsys s) s) in *.
  rewrite (bind_Ret _ _ s s1 (handler_f c)) in Em
    by (by apply (on_closure_run _ _ _ c)).
  rewrite Hh, bool_decide_eq_true_2 in Em by done.
  assert (chans s1 !! cl = Some c1) as Hc1 by apply lookup_insert_eq.
  rewrite (bind_Ret _ _ _ _ _ (this_block_run cl s1 c1 b Hc1 Hb)) in Em.
  apply bind_Ret_inv in Em as (s2 & [] & E2 & Em).
  rewrite enqueue_comp in E2 by done. case_bool_decide; [|done]. injection E2 as <-.
  rewrite Hcomp in Em.
  unfold when in Em. do 2 rewrite (bind_Ret (modify _) _ _ _ tt eq_refl) in Em.
  unfold on_closure in Em. simpl in Em. rewrite lookup_insert_eq in Em.
  match type of Em with (let '(_, _) := ?m (c1, ?y) in _) = _ =>
    destruct (m (c1, y)) as [[c' y'] r] eqn:Er end.
  injection Em as <- ->. rewrite (bind_Ret this _ _ _ _ eq_refl) in Er.
  apply bind_Ret_inv in Er as ([c2 y2] & n & E2 & Er).
  unfold deref_name in E2. simpl in E2. destruct (ch_logf_name c); [|done].
  injection E2 as <- <- <-.
  match type of Er with sysm (logStatus ?f ?l ?m) (?c0, ?y0) = _ =>
    destruct (sysm_log_end (logStatus f l m) c0 y0) as (y3 & E3 & _);
      [apply logStatus_frame|] end.
  rewrite E3 in Er. injection Er as <- _. simpl. by rewrite !insert_insert_eq.
Qed.

Lemma log_times_frame n line msg s :
  ∃ y, log_times n line msg s = (set_bsys y s, Ret tt).
Proof.
  revert s. induction n as [|n IH]; intros s; simpl.
  { exists (bsys s). by destruct s. }
  destruct (logStatus_frame "handlers/buffer_id_handler.cpp" line msg (bsys s))
    as (y1 & E1 & _).
  rewrite (bind_Ret _ _ _ (set_bsys y1 s) tt) by (unfold zoom; by rewrite E1).
  destruct (IH (set_bsys y1 s)) as [y E2]. exists y. by rewrite E2.
Qed.

(** A new channel: one block in use, the others in the queue. *)
Lemma cinit_run cl fmt s s' :
  fmt = ZSTD ∨ fmt = LZO1X →
  initBufferIdentityHandler cl fmt true s = (s', Ret tt) →
  ∃ c b, chans s' = <[cl := c]> (chans s) ∧ same_rest s s'
    ∧ compression_queue s' = compression_queue s
    ∧ handler_f c = Some BufferIdentityHandler_fn
    ∧ ch_logf c = ofs_new ∧ (length (queue (ext c)) + 1 = NUM_BUFFER_BLOCK)%nat
    ∧ Forall (empty_raw true cl) (queue (ext c))
    ∧ cur_block (ext c) = Some b ∧ empty_raw true cl b ∧ block_id b = 0
    ∧ block_cnt (ext c) = 1.
Proof.
  intros Hf Em. unfold initBufferIdentityHandler in Em. cbv zeta in Em.
  match type of Em with context [<[cl := ?x]> _] => set (c0 := x) in Em end.
  assert (handler_f c0 = Some BufferIdentityHandler_fn ∧ ch_logf c0 = ofs_new
    ∧ block_cnt (ext c0) = 0
    ∧ queue (ext c0) = replicate NUM_BUFFER_BLOCK (block_new true cl))
    as (Hh & Hl & Hn & Hq).
  { unfold c0. by destruct Hf as [-> | ->]. }
  unfold when in Em. do 3 rewrite (bind_Ret (modify _) _ _ _ tt eq_refl) in Em.
  rewrite (bind_Ret get _ _ _ _ eq_refl) in Em.
  apply bind_Ret_inv in Em as (s1 & [] & E1 & Em).
  assert (same_rest s s1 ∧ chans s1 = chans s
    ∧ compression_queue s1 = compression_queue s) as (R1 & C1 & Q1).
  { destruct (true && negb _); [|by injection E1 as <-].
    rewrite (bind_Ret (modify _) _ _ _ tt eq_refl) in E1.
    match type of E1 with log_times ?n ?l ?m ?s2 = _ =>
      destruct (log_times_frame n l m s2) as [y E2]; rewrite E2 in E1 end.
    by injection E1 as <-. }
  rewrite (bind_Ret (modify _) _ _ _ tt eq_refl) in Em.
  unfold on_closure in Em. simpl in Em. rewrite lookup_insert_eq in Em.
  destruct (refill (c0, bsys s1)) as [[c' y'] r] eqn:Er. injection Em as <- ->.
  apply refill_run in Er as (b & q & Eq & ->).
  assert (∀ x, x ∈ queue (ext c0) → x = block_new true cl) as Hx.
  { intros x. rewrite Hq. intros Hx. by apply elem_of_replicate in Hx as [-> _]. }
  assert (empty_raw true cl (block_new true cl)) as He by by repeat split.
  eexists _, _. split_and!; [by simpl; rewrite C1, insert_insert_eq|done|done|exact Hh
    |exact Hl| | |done| | |].
  - simpl. pose proof (f_equal length Eq) as El. rewrite Hq, length_replicate in El.
    simpl in El. lia.
  - simpl. apply Forall_forall. intros x Hin. rewrite (Hx x); [done|].
    rewrite Eq. by right.
  - rewrite (Hx b) by (rewrite Eq; by left). by repeat split.
  - simpl. by rewrite Hn.
  - simpl. by rewrite Hn.
Qed.

(** ** The state of a channel *)

(** The blocks a channel has passed on, in order: numbered, of its size, and only
    the last can close the file. *)
Record csent (cl : Z) (sent : list block_data) : Prop := CSent {
  se_ids i b : sent !! i = Some b → block_id b = Z.of_nat i;
  se_raw : Forall (raw_block true cl) sent;
  se_full : Forall (λ b, block_idx b ≤ BUFFER_BLOCK_SIZE
    ∧ (close_file b = false → block_idx b = BUFFER_BLOCK_SIZE)) sent;
  se_last i b : sent !! i = Some b → close_file b = true → S i = length sent;
  se_size : Z.of_nat (length sent) + 1 < 2 ^ 31
}.

(** Where they are: [l] have reached the IO thread, which wrote [w] and keeps [q];
    [io] are in its queue, [dn] compressed, [rw] not compressed yet. *)
Record ctransit (cl : Z) (fmt : log_format) (sent : list block_data) (k : Z)
    (q io dn rw : list block_data) (o : ofstream) (l w : list block_data) : Prop :=
  CTransit {
    ct_arr : arrived (map (packed fmt) sent) l k q w;
    ct_file : o = ofs_frames (Ofstream true false []) w;
    ct_perm : l ++ io ++ dn ++ map (packed fmt) rw ≡ₚ map (packed fmt) sent;
    ct_rw : Forall (raw_block true cl) rw
  }.

Record copen (cl : Z) (c : closure buf_ext) (sent rw : list block_data)
    (hist : list log_data) : Prop := COpen {
  op_handler : handler_f c = Some BufferIdentityHandler_fn;
  op_sent : Forall (λ b, close_file b = false) sent;
  op_cur b : cur_block (ext c) = Some b →
    raw_block true cl b ∧ close_file b = false ∧ block_id b = Z.of_nat (length sent);
  op_cnt : block_cnt (ext c) = Z.of_nat (length sent + count_cur c);
  op_queue : Forall (empty_raw true cl) (queue (ext c));
  op_blocks : (length (queue (ext c)) + length rw + count_cur c = NUM_BUFFER_BLOCK)%nat;
  op_content : all_samples sent ++ cur_samples c = hist
}.

Record cclosed (cl : Z) (c : closure buf_ext) (sent rw : list block_data)
    (hist : list log_data) : Prop := CClosed {
  cd_handler : handler_f c = Some NullHandler_fn;
  cd_last : ∃ b, last sent = Some b ∧ close_file b = true;
  cd_blocks : (length (queue (ext c)) + length rw <= NUM_BUFFER_BLOCK)%nat;
  cd_content : all_samples sent = hist
}.

Definition cchan (cl : Z) (c : closure buf_ext) (k : Z) (q io dn rw : list block_data)
    (hist : list log_data) : Prop :=
  named c ∧ ∃ sent l w, csent cl sent
    ∧ ctransit cl (format c) sent k q io dn rw (ch_logf c) l w
    ∧ (copen cl c sent rw hist ∨ cclosed cl c sent rw hist).

(** The blocks as the reorder buffer sees them. *)
Lemma csent_blocks cl fmt sent :
  csent cl sent → channel_blocks cl (map (packed fmt) sent).
Proof.
  intros []. split.
  - intros i b. rewrite list_lookup_fmap.
    destruct (sent !! i) as [b0|] eqn:E; [|done]. intros [= <-]. exact (se_ids0 i b0 E).
  - apply Forall_map. eapply Forall_impl; [exact se_raw0|].
    intros b. apply packed_cblock.
  - intros i b. rewrite list_lookup_fmap, length_map.
    destruct (sent !! i) as [b0|] eqn:E; [|done]. intros [= <-]. exact (se_last0 i b0 E).
  - by rewrite length_map.
Qed.

Lemma channel_blocks_take cl bs n :
  channel_blocks cl bs → channel_blocks cl (take n bs).
Proof.
  intros [Hi Ho Hl Hs]. split.
  - intros i b [E ?]%lookup_take_Some. by apply Hi.
  - by apply Forall_take.
  - intros i b [E ?]%lookup_take_Some Hc. pose proof (Hl i b E Hc).
    rewrite length_take. lia.
  - rewrite length_take. lia.
Qed.

(** *** A block more *)
Lemma csent_snoc cl sent b :
  csent cl sent → Forall (λ b, close_file b = false) sent →
  raw_block true cl b → block_id b = Z.of_nat (length sent) →
  block_idx b ≤ BUFFER_BLOCK_SIZE →
  (close_file b = false → block_idx b = BUFFER_BLOCK_SIZE) →
  Z.of_nat (length sent) + 2 < 2 ^ 31 →
  csent cl (sent ++ [b]).
Proof.
  intros [] Hcl Hb Hid Hmax Hfull Hsz. split.
  - intros i x [E|[? E]]%lookup_app_Some; [by apply se_ids0|].
    apply list_lookup_singleton_Some in E as [? <-]. lia.
  - by apply Forall_app_2; [|apply Forall_singleton].
  - by apply Forall_app_2; [|apply Forall_singleton].
  - intros i x [E|[? E]]%lookup_app_Some Hc; rewrite length_app; simpl.
    + by rewrite (Forall_lookup_1 _ _ _ _ Hcl E) in Hc.
    + apply list_lookup_singleton_Some in E as [? <-]. lia.
  - rewrite length_app. simpl. lia.
Qed.

Lemma arrived_snoc bs b l k q w :
  arrived bs l k q w → arrived (bs ++ [b]) l k q w.
Proof.
  intros [A1 A2 A3 A4 A5]. split; try done.
  - etransitivity; [exact A1|]. apply submseteq_inserts_r. done.
  - assert (length w <= length bs)%nat.
    { apply (f_equal length) in A3. rewrite length_take in A3. lia. }
    by rewrite take_app_le.
Qed.

Lemma ctransit_snoc cl fmt sent k q io dn rw rw' o l w b :
  ctransit cl fmt sent k q io dn rw o l w → raw_block true cl b →
  rw' ≡ₚ rw ++ [b] → ctransit cl fmt (sent ++ [b]) k q io dn rw' o l w.
Proof.
  intros [] Hb Hp. split; try done.
  - rewrite map_app. by apply arrived_snoc.
  - rewrite Hp, !map_app, <- ct_perm0. by rewrite <- !app_assoc.
  - rewrite Hp. by apply Forall_app_2; [|apply Forall_singleton].
Qed.

(** Blocks that pass from one place to the next. *)
Lemma ctransit_move cl fmt sent k q io io' dn dn' rw rw' o l w :
  ctransit cl fmt sent k q io dn rw o l w →
  io ++ dn ++ map (packed fmt) rw ≡ₚ io' ++ dn' ++ map (packed fmt) rw' →
  Forall (raw_block true cl) rw' →
  ctransit cl fmt sent k q io' dn' rw' o l w.
Proof. intros [] Hp Hr. split; try done. by rewrite <- Hp. Qed.

Lemma cchan_perm cl c k q io dn dn' rw rw' hist :
  dn ≡ₚ dn' → rw ≡ₚ rw' → cchan cl c k q io dn rw hist →
  cchan cl c k q io dn' rw' hist.
Proof.
  intros Hd Hr (Hn & sent & l & w & Hs & Ht & Hc). split; [done|].
  exists sent, l, w. split; [done|]. split.
  - eapply ctransit_move; [exact Ht|by rewrite Hd, Hr|]. rewrite <- Hr. apply Ht.
  - pose proof (Permutation_length Hr). destruct Hc as [[]|[]]; [left|right]; split;
      try done; congruence || lia.
Qed.

(** *** What the application does *)
Lemma cchan_write cl c k q io dn rw hist b d :
  cchan cl c k q io dn rw hist → handler_f c = Some BufferIdentityHandler_fn →
  cur_block (ext c) = Some b →
  cchan cl (set_ext (set_cur_block (Some (filled d b)) (ext c)) c) k q io dn rw
    (hist ++ [d]).
Proof.
  intros (Hn & sent & l & w & Hs & Ht & [[]|[]]) Hh Hb; [|congruence].
  split; [done|]. exists sent, l, w. split; [done|]. split; [done|]. left.
  destruct (op_cur0 b Hb) as (Db & Hc & Hi).
  destruct (filled_block true cl d b Db) as [Df Sf]. split; try done.
  - simpl. by intros b' [= <-].
  - unfold count_cur in *. simpl. by rewrite Hb in op_cnt0.
  - unfold count_cur in *. simpl. by rewrite Hb in op_blocks0.
  - unfold cur_samples in *. rewrite Hb in op_content0. simpl.
    change (samples (set_block_idx _ _)) with (samples b ++ [d]).
    by rewrite <- op_content0, <- app_assoc.
Qed.

Lemma all_samples_snoc l b : all_samples (l ++ [b]) = all_samples l ++ samples b.
Proof. rewrite all_samples_app. unfold all_samples at 2. simpl. by rewrite app_nil_r. Qed.

Lemma cchan_enqueue cl c k q io dn rw rw' hist b :
  cchan cl c k q io dn rw hist → handler_f c = Some BufferIdentityHandler_fn →
  cur_block (ext c) = Some b → block_idx b = BUFFER_BLOCK_SIZE →
  block_cnt (ext c) + 1 < 2 ^ 31 → rw' ≡ₚ rw ++ [b] →
  cchan cl (set_ext (set_cur_block None (ext c)) c) k q io dn rw' hist.
Proof.
  intros (Hn & sent & l & w & Hs & Ht & [[]|[]]) Hh Hb Hf Hcnt Hp; [|congruence].
  destruct (op_cur0 b Hb) as (Db & Hc & Hi).
  rewrite op_cnt0 in Hcnt. unfold count_cur in *. rewrite Hb in *.
  split; [done|]. exists (sent ++ [b]), l, w. split_and!.
  - apply csent_snoc; try done; lia.
  - by apply (ctransit_snoc _ _ _ _ _ _ _ rw).
  - left. split; try done.
    + by apply Forall_app_2; [|apply Forall_singleton].
    + unfold count_cur. simpl. rewrite op_cnt0, length_app. simpl. lia.
    + unfold count_cur. simpl. rewrite Hp, length_app. simpl. lia.
    + unfold cur_samples in *. rewrite Hb in op_content0. simpl.
      by rewrite all_samples_snoc, app_nil_r.
Qed.

Lemma cchan_refill cl c k q io dn rw hist b eq :
  cchan cl c k q io dn rw hist → handler_f c = Some BufferIdentityHandler_fn →
  cur_block (ext c) = None → queue (ext c) = b :: eq →
  block_cnt (ext c) + 1 < 2 ^ 31 →
  cchan cl (refilled b eq c) k q io dn rw hist.
Proof.
  intros (Hn & sent & l & w & Hs & Ht & [[]|[]]) Hh Hb Hq Hcnt; [|congruence].
  rewrite Hq in op_queue0. apply Forall_cons in op_queue0 as [([D1 D2 D3 D4] & Sb & Cb) Hqs].
  unfold count_cur in *. rewrite Hb in *. rewrite Nat.add_0_r in *.
  split; [done|]. exists sent, l, w. split; [done|]. split; [done|]. left. split; try done.
  - simpl. by intros b' [= <-].
  - unfold count_cur. simpl. rewrite wrapS_small; [lia|lia|]. rewrite op_cnt0 in *. pow2. lia.
  - unfold count_cur. simpl. rewrite Hq in op_blocks0. simpl in op_blocks0. lia.
  - unfold cur_samples in *. rewrite Hb in op_content0. simpl.
    change (samples (set_block_id _ b)) with (samples b). by rewrite Sb.
Qed.

Lemma cchan_close cl c k q io dn rw rw' hist b :
  cchan cl c k q io dn rw hist → handler_f c = Some BufferIdentityHandler_fn →
  cur_block (ext c) = Some b → block_idx b ≤ BUFFER_BLOCK_SIZE →
  block_cnt (ext c) + 1 < 2 ^ 31 → rw' ≡ₚ rw ++ [set_close_file true b] →
  cchan cl (set_handler_f (Some NullHandler_fn) c) k q io dn rw' hist.
Proof.
  intros (Hn & sent & l & w & Hs & Ht & [[]|[]]) Hh Hb Hmax Hcnt Hp; [|congruence].
  destruct (op_cur0 b Hb) as (Db & Hc & Hi).
  assert (raw_block true cl (set_close_file true b)) as Db' by by destruct Db; split.
  rewrite op_cnt0 in Hcnt. unfold count_cur in *. rewrite Hb in *.
  split; [done|]. exists (sent ++ [set_close_file true b]), l, w. split_and!.
  - apply csent_snoc; try done; lia.
  - by apply (ctransit_snoc _ _ _ _ _ _ _ rw).
  - right. split; try done.
    + eexists. by rewrite last_snoc.
    + rewrite Hp, length_app. simpl. lia.
    + unfold cur_samples in *. rewrite Hb in op_content0.
      rewrite all_samples_snoc. by change (samples (set_close_file true b)) with (samples b).
Qed.

(** *** What the threads do *)

(** A block on its way in is one that was sent. *)
Lemma ctransit_sent cl fmt sent k q io dn rw o l w b :
  ctransit cl fmt sent k q io dn rw o l w → b ∈ rw →
  ∃ b0, b0 ∈ sent ∧ packed fmt b = packed fmt b0.
Proof.
  intros [] Hb.
  assert (packed fmt b ∈ map (packed fmt) sent) as (b0 & E & Hin)%list_elem_of_fmap; [|eauto].
  rewrite <- ct_perm0, !elem_of_app. do 3 right. apply list_elem_of_fmap. eauto.
Qed.

Lemma cchan_pack cl c k q io dn dn' rw rw' hist b :
  cchan cl c k q io dn rw hist → rw ≡ₚ b :: rw' → dn' ≡ₚ packed (format c) b :: dn →
  raw_block true cl b ∧ (length (queue (ext c)) < RETURN_QUEUE_SIZE)%nat
  ∧ cchan cl (returned b c) k q io dn' rw' hist.
Proof.
  intros (Hn & sent & l & w & Hs & Ht & Hc) Hr Hd.
  pose proof size_blocks as Hsz. pose proof (Permutation_length Hr) as Hlen. simpl in Hlen.
  pose proof (ct_rw _ _ _ _ _ _ _ _ _ _ _ Ht) as Hraw.
  rewrite Hr in Hraw. apply Forall_cons in Hraw as [Hb Hraw].
  assert (length (queue (ext c)) + length rw <= NUM_BUFFER_BLOCK)%nat
    by (destruct Hc as [[]|[]]; lia).
  split; [done|]. split; [lia|]. split; [done|]. exists sent, l, w. split; [done|]. split.
  - eapply ctransit_move; [exact Ht| |done]. rewrite Hr, Hd. simpl. solve_Permutation.
  - destruct Hc as [[]|[]]; [left|right]; split; try done; simpl.
    + apply Forall_app_2; [done|]. apply Forall_singleton.
      destruct (emptied_block true cl b Hb). split_and!; [done..|].
      destruct (ctransit_sent _ _ _ _ _ _ _ _ _ _ _ b Ht) as (b0 & Hin & E);
        [rewrite Hr; by left|].
      apply (f_equal close_file) in E. rewrite Forall_forall in op_sent0.
      etransitivity; [exact E|]. exact (op_sent0 b0 Hin).
    + rewrite length_app. unfold count_cur in *. simpl. lia.
    + rewrite length_app. simpl. lia.
Qed.

Lemma cchan_push cl c k q io dn dn' rw hist b :
  cchan cl c k q io dn rw hist → dn ≡ₚ b :: dn' →
  cchan cl c k q (io ++ [b]) dn' rw hist.
Proof.
  intros (Hn & sent & l & w & Hs & Ht & Hc) Hd. split; [done|].
  exists sent, l, w. split; [done|]. split; [|done].
  eapply ctransit_move; [exact Ht| |apply Ht]. rewrite Hd, <- !app_assoc. done.
Qed.

(** What writeCompressedBlock is given. *)
Lemma cchan_next cl c k q b io dn rw hist :
  cchan cl c k q (b :: io) dn rw hist →
  ∃ bs l w, channel_blocks cl bs ∧ arrived bs l k q w ∧ l ++ [b] ⊆+ bs
    ∧ ch_logf c = ofs_frames (Ofstream true false []) w ∧ compress b = true
    ∧ ∀ k' q' w', arrived bs (l ++ [b]) k' q' w' →
        cchan cl (set_ch_logf (ofs_frames (Ofstream true false []) w') c) k' q' io dn rw hist.
Proof.
  intros (Hn & sent & l & w & Hs & [] & Hc).
  assert (l ++ [b] ⊆+ map (packed (format c)) sent) as Hsub.
  { rewrite <- ct_perm0.
    replace (l ++ (b :: io) ++ dn ++ map (packed (format c)) rw) with
      ((l ++ [b]) ++ io ++ dn ++ map (packed (format c)) rw) by by rewrite <- app_assoc.
    by apply submseteq_inserts_r. }
  exists (map (packed (format c)) sent), l, w.
  split; [by apply csent_blocks|]. split; [done|]. split; [done|]. split; [done|].
  split.
  { assert (b ∈ map (packed (format c)) sent) as (b0 & -> & _)%list_elem_of_fmap; [|done].
    eapply elem_of_submseteq; [|exact Hsub]. set_solver. }
  intros k' q' w' Ha. split; [done|]. exists sent, (l ++ [b]), w'.
  split; [done|]. split.
  - split; try done. by rewrite <- app_assoc.
  - destruct Hc as [[]|[]]; [left|right]; by split.
Qed.

(** ** All channels *)
Definition uncompressed (s : bst) (ws : list worker) : list block_data :=
  raws ws ++ compression_queue s.

Record ginv (hist : Z → list log_data) (s : bst) (ws : list worker) : Prop := GInv {
  gi_chan cl c : chans s !! cl = Some c →
    0 ≤ ch_nr c ∧ ∃ k q, next_block s !! Z.to_nat (ch_nr c) = Some k
      ∧ pending s !! Z.to_nat (ch_nr c) = Some q
      ∧ cchan cl c k q (of_channel cl (io_queue s)) (of_channel cl (dones ws))
          (of_channel cl (uncompressed s ws)) (hist cl);
  gi_nr cl cl' c c' : chans s !! cl = Some c → chans s !! cl' = Some c' →
    cl ≠ cl' → ch_nr c ≠ ch_nr c';
  gi_in b : b ∈ io_queue s ++ dones ws ++ uncompressed s ws → is_Some (chans s !! ch_cl b);
  gi_none cl : chans s !! cl = None → hist cl = [];
  gi_free nr : 0 ≤ nr < 200 → (∀ cl c, chans s !! cl = Some c → ch_nr c ≠ nr) →
    next_block s !! Z.to_nat nr = Some 0 ∧ pending s !! Z.to_nat nr = Some []
}.

#[local] Instance of_channel_perm cl : Proper ((≡ₚ) ==> (≡ₚ)) (of_channel cl).
Proof. intros l1 l2 Hp. unfold of_channel. by rewrite Hp. Qed.

(** The blocks of the other channels stay where they are. *)
Record others_stay (cl : Z) (s : bst) (ws : list worker) (s' : bst) (ws' : list worker)
    : Prop := OthersStay {
  os_io d : d ≠ cl → of_channel d (io_queue s') = of_channel d (io_queue s);
  os_dn d : d ≠ cl → of_channel d (dones ws') ≡ₚ of_channel d (dones ws);
  os_rw d : d ≠ cl → of_channel d (uncompressed s' ws')
                     ≡ₚ of_channel d (uncompressed s ws)
}.

Lemma elem_of_channel b l : b ∈ l → b ∈ of_channel (ch_cl b) l.
Proof. intros Hb. by apply list_elem_of_filter. Qed.

Lemma of_channel_sub cl b l : b ∈ of_channel cl l → b ∈ l ∧ ch_cl b = cl.
Proof. intros [? ?]%list_elem_of_filter. done. Qed.

(** A step that changes channel [cl], its blocks and its vector entries only. *)
Lemma ginv_step hist hist' s s' ws ws' cl c' :
  ginv hist s ws → chans s' = <[cl := c']> (chans s) →
  (∀ c, chans s !! cl = Some c → ch_nr c' = ch_nr c) →
  (∀ d c, chans s !! d = Some c → d ≠ cl → ch_nr c ≠ ch_nr c') →
  others_stay cl s ws s' ws' → (∀ d, d ≠ cl → hist' d = hist d) →
  (∀ i, i ≠ Z.to_nat (ch_nr c') →
     next_block s' !! i = next_block s !! i ∧ pending s' !! i = pending s !! i) →
  0 ≤ ch_nr c' →
  (∃ k q, next_block s' !! Z.to_nat (ch_nr c') = Some k
     ∧ pending s' !! Z.to_nat (ch_nr c') = Some q
     ∧ cchan cl c' k q (of_channel cl (io_queue s')) (of_channel cl (dones ws'))
         (of_channel cl (uncompressed s' ws')) (hist' cl)) →
  ginv hist' s' ws'.
Proof.
  intros [] Ec Hnr Hdist [] Hhist Hvec Hpos Hown. split.
  - intros d e. rewrite Ec. destruct (decide (cl = d)) as [<-|Hne].
    + rewrite lookup_insert_eq. intros [= <-]. done.
    + rewrite lookup_insert_ne by done. intros He.
      destruct (gi_chan0 d e He) as (Hp & k & q & Ek & Eq & Hc). split; [done|].
      exists k, q. assert (ch_nr e ≠ ch_nr c') by by apply (Hdist d).
      destruct (Hvec (Z.to_nat (ch_nr e))) as [-> ->]; [lia|].
      split; [done|]. split; [done|].
      rewrite os_io0, Hhist by done.
      eapply cchan_perm; [| |exact Hc]; symmetry; auto.
  - intros d d' e e'. rewrite Ec. intros He He' Hdd.
    destruct (decide (cl = d)) as [<-|Hne]; destruct (decide (cl = d')) as [<-|Hne'];
      [done|..].
    + rewrite lookup_insert_eq in He. rewrite lookup_insert_ne in He' by done.
      simplify_eq. intros E. by apply (Hdist d' e' He').
    + rewrite lookup_insert_eq in He'. rewrite lookup_insert_ne in He by done.
      simplify_eq. by apply (Hdist d e).
    + rewrite lookup_insert_ne in He, He' by done. by apply (gi_nr0 d d').
  - intros b Hb. rewrite Ec. destruct (decide (cl = ch_cl b)) as [<-|Hne].
    { rewrite lookup_insert_eq. by eexists. }
    rewrite lookup_insert_ne by done. apply gi_in0. rewrite !elem_of_app in *.
    destruct Hb as [Hb|[Hb|Hb]]; apply elem_of_channel in Hb.
    + rewrite os_io0 in Hb by done. left. by apply of_channel_sub in Hb as [? _].
    + rewrite os_dn0 in Hb by done. right. left. by apply of_channel_sub in Hb as [? _].
    + rewrite os_rw0 in Hb by done. right. right. by apply of_channel_sub in Hb as [? _].
  - intros d. rewrite Ec. destruct (decide (cl = d)) as [<-|Hne].
    { by rewrite lookup_insert_eq. }
    rewrite lookup_insert_ne by done. intros Hd. rewrite Hhist by done. by apply gi_none0.
  - intros nr Hr Hfree.
    assert (nr ≠ ch_nr c').
    { intros ->. apply (Hfree cl c'); [|done]. rewrite Ec. apply lookup_insert_eq. }
    destruct (Hvec (Z.to_nat nr)) as [-> ->]; [lia|]. apply gi_free0; [done|].
    intros d e He. destruct (decide (cl = d)) as [<-|Hne].
    + rewrite <- (Hnr e He). done.
    + apply (Hfree d e). by rewrite Ec, lookup_insert_ne.
Qed.

(** ... of an existing channel, which keeps its number, while the vectors stay. *)
Lemma ginv_upd hist hist' s s' ws ws' cl c c' :
  ginv hist s ws → chans s !! cl = Some c → chans s' = <[cl := c']> (chans s) →
  ch_nr c' = ch_nr c → next_block s' = next_block s → pending s' = pending s →
  others_stay cl s ws s' ws' → (∀ d, d ≠ cl → hist' d = hist d) →
  (∀ k q, cchan cl c k q (of_channel cl (io_queue s)) (of_channel cl (dones ws))
            (of_channel cl (uncompressed s ws)) (hist cl) →
          cchan cl c' k q (of_channel cl (io_queue s')) (of_channel cl (dones ws'))
            (of_channel cl (uncompressed s' ws')) (hist' cl)) →
  ginv hist' s' ws'.
Proof.
  intros Hg Hc Ec Hn En Ep Ho Hh Hown. pose proof Hg as [].
  destruct (gi_chan0 cl c Hc) as (Hp & k & q & Ek & Eq & Hch).
  apply (ginv_step hist hist' s s' ws ws' cl c'); try done.
  - intros e He. congruence.
  - intros d e He Hd. rewrite Hn. by apply (gi_nr0 d cl).
  - intros i _. by rewrite En, Ep.
  - by rewrite Hn.
  - exists k, q. rewrite Hn, En, Ep. auto.
Qed.

(** *** The workers *)
Lemma worker_perm (ws : list worker) i w w' :
  ws !! i = Some w →
  ∃ rest, ws ≡ₚ w :: rest ∧ <[i := w']> ws ≡ₚ w' :: rest.
Proof.
  intros Hi. exists (take i ws ++ drop (S i) ws). split.
  - rewrite <- (take_drop_middle ws i w Hi) at 1. by rewrite Permutation_middle.
  - rewrite insert_take_drop by (by eapply lookup_lt_Some). by rewrite Permutation_middle.
Qed.

#[local] Instance raws_perm : Proper ((≡ₚ) ==> (≡ₚ)) raws.
Proof. intros ws ws' Hp. unfold raws. by rewrite Hp. Qed.
#[local] Instance dones_perm : Proper ((≡ₚ) ==> (≡ₚ)) dones.
Proof. intros ws ws' Hp. unfold dones. by rewrite Hp. Qed.

Lemma of_channel_cons cl b l :
  of_channel cl (b :: l) = if decide (ch_cl b = cl) then b :: of_channel cl l
                           else of_channel cl l.
Proof. unfold of_channel. by rewrite filter_cons. Qed.

Lemma of_channel_own b l : of_channel (ch_cl b) (b :: l) = b :: of_channel (ch_cl b) l.
Proof. by rewrite of_channel_cons, decide_True. Qed.
Lemma of_channel_other d b l : d ≠ ch_cl b → of_channel d (b :: l) = of_channel d l.
Proof. intros ?. by rewrite of_channel_cons, decide_False. Qed.

(** ** The steps *)

(** A channel has given out fewer blocks than an int counts. *)
Definition counts (s : bst) (cl : Z) : Prop :=
  ∃ c, chans s !! cl = Some c ∧ block_cnt (ext c) + 1 < 2 ^ 31.

(** A step of a compression thread or of the IO thread. The push to the IO queue,
    whose failure the code ignores, is one that finds room. *)
Inductive tstep : bst * list worker → bst * list worker → Prop :=
  | c_take s ws i b q :
      ws !! i = Some WIdle → compression_queue s = b :: q →
      tstep (s, ws) (set_compression_queue q s, <[i := WRaw b]> ws)
  | c_pack s s' ws i b nb :
      ws !! i = Some (WRaw b) → compress_and_return b s = (s', Ret nb) →
      tstep (s, ws) (s', <[i := WDone nb]> ws)
  | c_push s s' ws i nb :
      ws !! i = Some (WDone nb) → enqueueFullBlockFromCompThread nb s = (s', Ret true) →
      tstep (s, ws) (s', <[i := WIdle]> ws)
  | c_io s s' ws more : io_round s = (s', Ret more) → tstep (s, ws) (s', ws).

(** The label of a step that logs is the channel and the sample. A thread that
    waits for a queue takes its step once the queue is ready. *)
Inductive cstep : option (Z * log_data) → bst * list worker → bst * list worker → Prop :=
  | c_open s s1 s2 ws cl nr msg fmt :
      chans s !! cl = None → fmt = ZSTD ∨ fmt = LZO1X → 0 ≤ nr < 200 →
      (∀ d c, chans s !! d = Some c → ch_nr c ≠ nr) →
      initBufferIdentityHandler cl fmt true s = (s1, Ret tt) →
      on_closure cl (closure_openChannel nr msg fmt) s1 = (s2, Ret true) →
      cstep None (s, ws) (s2, ws)
  | c_write s s' ws cl b t full :
      the_cur s cl b → block_idx b < BUFFER_BLOCK_SIZE →
      on_closure cl (buffer_write t) s = (s', Ret full) →
      cstep (Some (cl, (t, clock (clk (bsys s))))) (s, ws) (s', ws)
  | c_enqueue s s' ws cl b :
      the_cur s cl b → block_idx b = BUFFER_BLOCK_SIZE → counts s cl →
      buffer_enqueue cl s = (s', Ret tt) → cstep None (s, ws) (s', ws)
  | c_refill s s' ws cl :
      no_cur s cl → counts s cl → buffer_refill cl s = (s', Ret tt) →
      cstep None (s, ws) (s', ws)
  | c_close s s' ws cl b :
      the_cur s cl b → block_idx b < BUFFER_BLOCK_SIZE → counts s cl →
      buffer_closeChannel cl s = (s', Ret tt) → cstep None (s, ws) (s', ws)
  | c_thread a b : tstep a b → cstep None a b.

Definition cstart (y : sys) : bst * list worker :=
  (bst_init y, replicate (Z.to_nat COMP_THREAD_NUM) WIdle).

(** Runs, with the trace of what was logged, oldest first. *)
Inductive csteps : list (Z * log_data) → bst * list worker → Prop :=
  | csteps_init y : csteps [] (cstart y)
  | csteps_step tr a l b : csteps tr a → cstep l a b → csteps (tr ++ option_list l) b.

Lemma others_same cl s s' ws :
  io_queue s' = io_queue s → compression_queue s' = compression_queue s →
  others_stay cl s ws s' ws.
Proof. intros Ei Eq. split; intros d _; unfold uncompressed; by rewrite ?Ei, ?Eq. Qed.

(** A block more in the compression queue. *)
Lemma others_queue cl s s' ws b :
  io_queue s' = io_queue s → compression_queue s' = compression_queue s ++ [b] →
  ch_cl b = cl →
  others_stay cl s ws s' ws
  ∧ of_channel cl (uncompressed s' ws) = of_channel cl (uncompressed s ws) ++ [b].
Proof.
  intros Ei Eq <-. unfold uncompressed. rewrite Eq. split.
  - split; intros d Hd; [by rewrite Ei|done|].
    unfold uncompressed. rewrite Eq, app_assoc, of_channel_app, of_channel_one, decide_False by done.
    by rewrite app_nil_r.
  - by rewrite app_assoc, (of_channel_app _ (_ ++ _)), of_channel_one, decide_True.
Qed.

Lemma cur_raw hist s ws cl c b :
  ginv hist s ws → chans s !! cl = Some c →
  handler_f c = Some BufferIdentityHandler_fn → cur_block (ext c) = Some b →
  raw_block true cl b.
Proof.
  intros Hg Hc Hh Hb.
  destruct (gi_chan _ _ _ Hg cl c Hc) as (_ & k & q & _ & _ & _ & sent & l & w & _ & _ & Ho).
  destruct Ho as [[]|[]]; [|congruence]. by apply op_cur0.
Qed.

Lemma gwrite hist s s' ws cl b t full :
  ginv hist s ws → the_cur s cl b → block_idx b < BUFFER_BLOCK_SIZE →
  on_closure cl (buffer_write t) s = (s', Ret full) →
  ginv (extend hist (Some (cl, (t, clock (clk (bsys s)))))) s' ws.
Proof.
  intros Hg (c & Hc & Hh & Hb) Hlt Em.
  pose proof (cur_raw _ _ _ _ _ _ Hg Hc Hh Hb) as Db.
  destruct (write_run true cl s c b t Hc Hb Db Hlt) as (y & full1 & E1).
  rewrite E1 in Em. injection Em as <- _. simpl in *.
  eapply (ginv_upd hist _ s _ ws ws cl c); [done|done|reflexivity|done..| | |].
  - by apply others_same.
  - intros d Hd. unfold extend. simpl. rewrite logged_one, decide_False by done.
    apply app_nil_r.
  - intros k q Hch. unfold extend. simpl. rewrite logged_one, decide_True by done.
    by apply cchan_write.
Qed.

Lemma genqueue hist s s' ws cl b :
  ginv hist s ws → the_cur s cl b → block_idx b = BUFFER_BLOCK_SIZE → counts s cl →
  buffer_enqueue cl s = (s', Ret tt) → ginv hist s' ws.
Proof.
  intros Hg (c & Hc & Hh & Hb) Hf (c' & Hc' & Hcnt) Em. simplify_eq.
  pose proof (cur_raw _ _ _ _ _ _ Hg Hc Hh Hb) as Db.
  pose proof (cenqueue_run cl s s' c b Hc Hb (db_comp Db) Em) as ->.
  destruct (others_queue cl s (upd cl (set_ext (set_cur_block None (ext c)) c) (bsys s)
    (set_compression_queue (compression_queue s ++ [b]) s)) ws b) as [Ho Eu];
    [done|done|exact (db_cl Db)|].
  eapply (ginv_upd hist _ s _ ws ws cl c); [done|done|reflexivity|done..|].
  intros k q Hch. eapply cchan_enqueue; [exact Hch|done..|]. by rewrite Eu.
Qed.

Lemma grefill hist s s' ws cl :
  ginv hist s ws → no_cur s cl → counts s cl → buffer_refill cl s = (s', Ret tt) →
  ginv hist s' ws.
Proof.
  intros Hg (c & Hc & Hh & Hb) (c' & Hc' & Hcnt) Em. simplify_eq.
  destruct (refill_step_run cl s s' c Hc Em) as (b & q & y & Eb & ->).
  eapply (ginv_upd hist _ s _ ws ws cl c); [done|done|reflexivity|done..| |done|].
  - by apply others_same.
  - intros k q' Hch. by apply cchan_refill.
Qed.

Lemma gclose hist s s' ws cl b :
  ginv hist s ws → the_cur s cl b → block_idx b < BUFFER_BLOCK_SIZE → counts s cl →
  buffer_closeChannel cl s = (s', Ret tt) → ginv hist s' ws.
Proof.
  intros Hg (c & Hc & Hh & Hb) Hmax (c' & Hc' & Hcnt) Em. simplify_eq.
  pose proof (cur_raw _ _ _ _ _ _ Hg Hc Hh Hb) as Db.
  destruct (cclose_run cl s s' c b Hc Hh Hb (db_comp Db) Em) as (Ec & Eq & Ei & En & Ep).
  destruct (others_queue cl s s' ws (set_close_file true b) Ei Eq (db_cl Db)) as [Ho Eu].
  eapply (ginv_upd hist _ s _ ws ws cl c); [done|done|exact Ec|done..|].
  intros k q Hch. rewrite Ei. eapply cchan_close; [exact Hch|done..|lia|done|]. by rewrite Eu.
Qed.

(** Blocks that only change hands. *)
Lemma ginv_perm hist s s' ws ws' :
  ginv hist s ws → chans s' = chans s → io_queue s' = io_queue s →
  next_block s' = next_block s → pending s' = pending s →
  dones ws' ≡ₚ dones ws → uncompressed s' ws' ≡ₚ uncompressed s ws →
  ginv hist s' ws'.
Proof.
  intros [] Ec Ei En Ep Hd Hu. split.
  - intros cl c. rewrite Ec. intros Hc. destruct (gi_chan0 cl c Hc) as (Hp & k & q & E1 & E2 & Hch).
    split; [done|]. exists k, q. rewrite En, Ep, Ei. split; [done|]. split; [done|].
    eapply cchan_perm; [| |exact Hch]; by symmetry; apply of_channel_perm.
  - intros cl cl' c c'. rewrite Ec. apply gi_nr0.
  - intros b. rewrite Ec, Ei, Hd, Hu. apply gi_in0.
  - intros cl. rewrite Ec. apply gi_none0.
  - intros nr Hr. rewrite Ec, En, Ep. by apply gi_free0.
Qed.

Lemma gtake hist s ws i b q :
  ginv hist s ws → ws !! i = Some WIdle → compression_queue s = b :: q →
  ginv hist (set_compression_queue q s) (<[i := WRaw b]> ws).
Proof.
  intros Hg Hi Eq. destruct (worker_perm ws i _ (WRaw b) Hi) as (rest & P1 & P2).
  eapply ginv_perm; [exact Hg|done..| |].
  - by rewrite P2, P1.
  - unfold uncompressed. rewrite P2, P1, Eq. simpl. by rewrite Permutation_middle.
Qed.

(** A compression thread with a block can compress it and give it back. *)
Lemma pack_run hist s ws i b :
  (∀ codec level d, is_Some (squash_compress codec level d)) →
  ginv hist s ws → ws !! i = Some (WRaw b) →
  ∃ c, chans s !! ch_cl b = Some c
    ∧ compress_and_return b s
      = (upd (ch_cl b) (returned b c) (bsys s) s, Ret (packed (format c) b)).
Proof.
  intros Hsq Hg Hi. destruct (worker_perm ws i _ WIdle Hi) as (rest & P1 & _).
  assert (uncompressed s ws ≡ₚ b :: (raws rest ++ compression_queue s)) as Hu
    by (unfold uncompressed; by rewrite P1).
  destruct (gi_in _ _ _ Hg b) as [c Hc].
  { rewrite Hu, !elem_of_app. right. right. by left. }
  destruct (gi_chan _ _ _ Hg _ c Hc) as (_ & k & q & _ & _ & Hch).
  destruct (cchan_pack _ _ _ _ _ _ (packed (format c) b :: of_channel (ch_cl b) (dones ws))
    _ (of_channel (ch_cl b) (raws rest ++ compression_queue s)) _ b Hch)
    as (Hb & Hroom & _); [by rewrite Hu, of_channel_own|done|].
  exists c. split; [done|]. by apply (compress_run true).
Qed.

Lemma gpack hist s s' ws i b nb :
  (∀ codec level d, is_Some (squash_compress codec level d)) →
  ginv hist s ws → ws !! i = Some (WRaw b) → compress_and_return b s = (s', Ret nb) →
  ginv hist s' (<[i := WDone nb]> ws).
Proof.
  intros Hsq Hg Hi Em. destruct (worker_perm ws i _ (WDone nb) Hi) as (rest & P1 & P2).
  assert (uncompressed s ws ≡ₚ b :: uncompressed s (<[i := WDone nb]> ws)) as Hu.
  { unfold uncompressed. rewrite P2, P1. done. }
  assert (dones (<[i := WDone nb]> ws) ≡ₚ nb :: dones ws) as Hd by by rewrite P2, P1.
  destruct (pack_run hist s ws i b Hsq Hg Hi) as (c & Hc & E1).
  rewrite E1 in Em. injection Em as <- <-. set (nb := packed (format c) b) in *.
  eapply (ginv_upd hist hist s _ ws _ (ch_cl b) c (returned b c)); try done.
  - split; intros d Hne; [done| |].
    + by rewrite Hd, (of_channel_other d nb) by done.
    + unfold uncompressed in *. simpl. by rewrite Hu, (of_channel_other d b) by done.
  - intros k' q' Hch'. eapply cchan_pack; [exact Hch'|by rewrite Hu, of_channel_own|].
    by rewrite Hd, (of_channel_own nb).
Qed.

Lemma gpush hist s s' ws i nb :
  ginv hist s ws → ws !! i = Some (WDone nb) →
  enqueueFullBlockFromCompThread nb s = (s', Ret true) →
  ginv hist s' (<[i := WIdle]> ws).
Proof.
  intros Hg Hi Em. destruct (worker_perm ws i _ WIdle Hi) as (rest & P1 & P2).
  assert (dones ws ≡ₚ nb :: dones (<[i := WIdle]> ws)) as Hd by by rewrite P2, P1.
  assert (raws (<[i := WIdle]> ws) ≡ₚ raws ws) as Hr by by rewrite P2, P1.
  unfold enqueueFullBlockFromCompThread in Em.
  rewrite (bind_Ret get _ _ _ _ eq_refl) in Em. case_bool_decide; [|done].
  rewrite (bind_Ret (modify _) _ _ _ tt eq_refl) in Em. injection Em as <-.
  destruct (gi_in _ _ _ Hg nb) as [c Hc].
  { rewrite !elem_of_app. right. left. rewrite Hd. by left. }
  eapply (ginv_upd hist hist s _ ws _ (ch_cl nb) c c); try done.
  - simpl. by rewrite insert_id.
  - split; intros d Hne; simpl.
    + rewrite of_channel_app, of_channel_one, decide_False by done. apply app_nil_r.
    + by rewrite Hd, (of_channel_other d nb) by done.
    + unfold uncompressed. simpl. by rewrite Hr.
  - intros k q Hch. simpl. rewrite of_channel_app, of_channel_one, decide_True by done.
    eapply cchan_push.
    + eapply cchan_perm; [reflexivity| |exact Hch]. unfold uncompressed. simpl. by rewrite Hr.
    + by rewrite Hd, of_channel_own.
Qed.

(** A round of the IO thread with a block in its queue. *)
Lemma gio hist s ws b q :
  ginv hist s ws → io_queue s = b :: q →
  ∃ s', io_round s = (s', Ret true) ∧ ginv hist s' ws ∧ io_queue s' = q
    ∧ compression_queue s' = compression_queue s.
Proof.
  intros Hg Eq. destruct (gi_in _ _ _ Hg b) as [c Hc]; [rewrite Eq; by left|].
  destruct (gi_chan _ _ _ Hg _ c Hc) as (Hp & k & p & Ek & Ep & Hch).
  rewrite Eq, of_channel_own in Hch.
  destruct (cchan_next _ _ _ _ _ _ _ _ _ Hch)
    as (bs & l & w & Hbs & Ha & Hsub & Ho & Hcb & Hgo).
  set (s0 := set_io_queue q s).
  assert (rb s0 (ch_cl b) (ch_nr c) k p (ofs_frames (Ofstream true false []) w)) as Hrb.
  { split; [|done..]. by exists c. }
  destruct (arrive_one _ _ _ _ _ _ _ _ _ _ Hbs Hrb Ha Hsub)
    as (s' & k' & p' & w' & E1 & Hrb' & Ha' & Hf).
  destruct Hrb' as [(c' & Hc' & _ & Hl') _ Ek' Ep'].
  destruct Hf as [F1 F2 F3 F4 F5]. destruct (F1 c Hc) as [o Eo].
  assert (c' = set_ch_logf o c) as -> by (rewrite Eo, lookup_insert_eq in Hc'; by simplify_eq).
  simpl in Hl'. subst o.
  exists s'. split; [|split; [|by split]].
  - unfold io_round. rewrite (bind_Ret get _ _ _ _ eq_refl), Eq.
    rewrite (bind_Ret (modify _) _ _ _ tt eq_refl).
    unfold write_block. rewrite Hcb. by rewrite (bind_Ret _ _ _ _ _ E1).
  - eapply (ginv_step hist hist s s' ws ws (ch_cl b)
      (set_ch_logf (ofs_frames (Ofstream true false []) w') c)); try done.
    + intros e He. simpl. congruence.
    + intros d e He Hd. simpl. by apply (gi_nr _ _ _ Hg d (ch_cl b)).
    + split; intros d Hd; [|done|].
      * rewrite F2, Eq. simpl. by rewrite of_channel_other.
      * unfold uncompressed. by rewrite F3.
    + intros i Hi. split; [by apply F4|by apply F5].
    + exists k', p'. split; [done|]. split; [done|]. rewrite F2.
      unfold uncompressed. rewrite F3. by apply Hgo.
Qed.

Lemma gopen hist s s1 s2 ws cl nr msg fmt :
  ginv hist s ws → chans s !! cl = None → fmt = ZSTD ∨ fmt = LZO1X → 0 ≤ nr < 200 →
  (∀ d c, chans s !! d = Some c → ch_nr c ≠ nr) →
  initBufferIdentityHandler cl fmt true s = (s1, Ret tt) →
  on_closure cl (closure_openChannel nr msg fmt) s1 = (s2, Ret true) →
  ginv hist s2 ws.
Proof.
  intros Hg Hnone Hf Hr Hfresh E1 E2.
  destruct (cinit_run cl fmt s s1 Hf E1)
    as (c & b & Ec & (Ei & En & Ep) & Eq & Hh & Hl & Hlen & Hq & Hb & He & Hid & Hcnt).
  unfold on_closure in E2. rewrite Ec, lookup_insert_eq in E2.
  destruct (closure_openChannel_spec nr msg fmt c (bsys s1))
    as (c' & y' & ok & Er & _ & Hn' & Hh' & _ & _ & _ & Hx & Hm); [by rewrite Hl|].
  rewrite Er in E2. injection E2 as <- ->.
  assert (ch_logf c' = Ofstream true false [] ∧ named c') as [Hlf Hnm].
  { destruct (getIPDottedQuad (bsys s1)).2 as [[[|z|z] ip]|ft];
      try (by destruct Hm as (? & _)).
    destruct Hm as (Hn & _ & _ & Hok & _). split; [by apply Hok|by eexists]. }
  assert (∀ l, l ⊆ io_queue s ++ dones ws ++ uncompressed s ws → of_channel cl l = [])
    as Hnil.
  { intros l Hsub. destruct (of_channel cl l) as [|x q] eqn:Ef; [done|].
    destruct (of_channel_sub cl x l) as [Hin <-]; [rewrite Ef; by left|].
    destruct (gi_in _ _ _ Hg x (Hsub _ Hin)). congruence. }
  destruct (gi_free _ _ _ Hg nr Hr Hfresh) as [Fk Fp].
  eapply (ginv_step hist hist s _ ws ws cl c'); try done.
  - simpl. by rewrite insert_insert_eq.
  - intros e He'. congruence.
  - intros d e He' _. rewrite Hn'. by apply (Hfresh d).
  - by apply others_same.
  - intros i _. simpl. by rewrite En, Ep.
  - rewrite Hn'. lia.
  - exists 0, []. rewrite Hn'. simpl. rewrite En, Ep. split; [done|]. split; [done|].
    unfold uncompressed. simpl. rewrite Ei, Eq.
    rewrite (Hnil (io_queue s)), (Hnil (dones ws)), (Hnil (raws ws ++ compression_queue s))
      by set_solver.
    rewrite (gi_none _ _ _ Hg cl Hnone).
    split; [done|]. exists [], [], []. split; [by split|]. split.
    + split; [apply arrived_nil|by rewrite Hlf|done|done].
    + left. destruct He as (Db & Sb & Cb). split; try done.
      * by rewrite Hh'.
      * rewrite Hx, Hb. intros b' [= <-]. by split_and!.
      * unfold count_cur. by rewrite Hx, Hcnt, Hb.
      * by rewrite Hx.
      * unfold count_cur. rewrite Hx, Hb. simpl. lia.
      * unfold cur_samples. by rewrite Hx, Hb, Sb.
Qed.

Lemma ginv_ext hist hist' s ws : (∀ cl, hist' cl = hist cl) → ginv hist s ws → ginv hist' s ws.
Proof.
  intros Hh []. split; try done.
  - intros cl c. rewrite Hh. apply gi_chan0.
  - intros cl. rewrite Hh. apply gi_none0.
Qed.

Lemma io_round_idle s s' more :
  io_queue s = [] → io_round s = (s', Ret more) → s' = s.
Proof.
  intros Eq Em. unfold io_round in Em.
  rewrite (bind_Ret get _ _ _ _ eq_refl), Eq in Em. by injection Em as <- _.
Qed.

Definition load (a : bst * list worker) : nat :=
  4 * length (compression_queue a.1) + 3 * length (raws a.2) + 2 * length (dones a.2)
  + length (io_queue a.1).

(** A step of a thread keeps the invariant and takes load away, unless it is an
    idle round of the IO thread. *)
Lemma tstep_inv hist a b :
  (∀ codec level d, is_Some (squash_compress codec level d)) →
  ginv hist a.1 a.2 → tstep a b →
  ginv hist b.1 b.2 ∧ length b.2 = length a.2 ∧ (b = a ∨ (load b < load a)%nat).
Proof.
  intros Hsq Hg Hs. unfold load. destruct Hs as [s ws i b q Hi Eq|s s' ws i b nb Hi Em
    |s s' ws i nb Hi Em|s s' ws more Em]; simpl in *.
  - split; [by apply gtake|]. rewrite length_insert. split; [done|right].
    destruct (worker_perm ws i _ (WRaw b) Hi) as (rest & P1 & P2).
    rewrite P2, P1, Eq. simpl. lia.
  - split; [by eapply gpack|]. rewrite length_insert. split; [done|right].
    destruct (worker_perm ws i _ (WDone nb) Hi) as (rest & P1 & P2).
    assert (io_queue s' = io_queue s ∧ compression_queue s' = compression_queue s) as [-> ->].
    { destruct (pack_run hist s ws i b Hsq Hg Hi) as (c & _ & E1).
      rewrite E1 in Em. by injection Em as <- _. }
    rewrite P2, P1. simpl. lia.
  - split; [by eapply gpush|]. rewrite length_insert. split; [done|right].
    destruct (worker_perm ws i _ WIdle Hi) as (rest & P1 & P2).
    unfold enqueueFullBlockFromCompThread in Em.
    rewrite (bind_Ret get _ _ _ _ eq_refl) in Em. case_bool_decide; [|done].
    rewrite (bind_Ret (modify _) _ _ _ tt eq_refl) in Em. injection Em as <-.
    rewrite P2, P1. simpl. rewrite length_app. simpl. lia.
  - destruct (io_queue s) as [|b q] eqn:Eq.
    { rewrite (io_round_idle s s' more Eq Em). auto. }
    destruct (gio hist s ws b q Hg Eq) as (s1 & E1 & Hg1 & Eq1 & Ec1).
    rewrite E1 in Em. injection Em as <- _. split; [done|]. split; [done|right].
    rewrite Eq1, Ec1. simpl. lia.
Qed.

Lemma cstep_inv hist l a b :
  (∀ codec level d, is_Some (squash_compress codec level d)) →
  ginv hist a.1 a.2 → cstep l a b →
  ginv (extend hist l) b.1 b.2 ∧ length b.2 = length a.2.
Proof.
  intros Hsq Hg Hs. destruct Hs as [| | | | |a b Hs]; simpl in *.
  1, 3-5: split; [|done]; apply (ginv_ext hist); [apply extend_none|].
  - by eapply gopen.
  - by eapply genqueue.
  - by eapply grefill.
  - by eapply gclose.
  - split; [|done]. by eapply gwrite.
  - destruct (tstep_inv hist a b Hsq Hg Hs) as (Hg' & Hl & _). split; [|done].
    apply (ginv_ext hist); [apply extend_none|done].
Qed.

Lemma csteps_inv tr a :
  (∀ codec level d, is_Some (squash_compress codec level d)) →
  csteps tr a →
  ginv (logged tr) a.1 a.2 ∧ length a.2 = Z.to_nat COMP_THREAD_NUM.
Proof.
  intros Hsq Hs. induction Hs as [y|tr a l b _ [IHg IHl] Hs].
  - split; [|apply length_replicate]. split; try done.
    + intros b Hb. exfalso. simpl in Hb. by apply elem_of_nil in Hb.
    + intros nr Hnr _. split; apply lookup_replicate_2; lia.
  - destruct (cstep_inv _ l a b Hsq IHg Hs) as [Hg Hl]. split; [|by rewrite Hl].
    apply (ginv_ext (extend (logged tr) l)); [|done]. intros cl. by rewrite logged_app.
Qed.

(** What the channel has in the file, and where its other blocks are. *)
Record comp_log (s : bst) (ws : list worker) (cl : Z) (c : closure buf_ext)
    (sent : list block_data) (k : nat) (q : list block_data) : Prop := CompLog {
  cg_blocks i b : sent !! i = Some b →
    block_id b = Z.of_nat i ∧ raw_block true cl b ∧ block_idx b ≤ BUFFER_BLOCK_SIZE
    ∧ (close_file b = false → block_idx b = BUFFER_BLOCK_SIZE);
  cg_pending : pending s !! Z.to_nat (ch_nr c) = Some q;
  cg_file : ofs_file (ch_logf c) = concat (map frame (take k (map (packed (format c)) sent)));
  cg_rest : q ++ of_channel cl (io_queue s) ++ of_channel cl (dones ws)
            ++ map (packed (format c)) (of_channel cl (uncompressed s ws))
            ≡ₚ drop k (map (packed (format c)) sent);
  cg_open : ofs_open (ch_logf c)
            = negb (existsb close_file (take k (map (packed (format c)) sent)));
  cg_idle : of_channel cl (io_queue s) = [] → of_channel cl (dones ws) = [] →
            of_channel cl (uncompressed s ws) = [] → q = [] ∧ k = length sent
}.

Lemma ginv_comp_log hist s ws cl c :
  ginv hist s ws → chans s !! cl = Some c →
  ∃ sent k q, comp_log s ws cl c sent k q
    ∧ (copen cl c sent (of_channel cl (uncompressed s ws)) (hist cl)
       ∨ cclosed cl c sent (of_channel cl (uncompressed s ws)) (hist cl)).
Proof.
  intros Hg Hc.
  destruct (gi_chan _ _ _ Hg cl c Hc) as (_ & k & q & _ & Eq & _ & sent & l & w & Hs & Ht & Ho).
  exists sent, (length w), q. split; [|done]. set (out := map (packed (format c)) sent).
  destruct Ht as [Ha Hf Hp _]. pose proof (csent_blocks cl (format c) sent Hs) as Hb.
  fold out in Ha, Hp, Hb.
  assert (channel_blocks cl w) as Hw
    by (rewrite (ar_w _ _ _ _ _ Ha); by apply channel_blocks_take).
  destruct (ofs_frames_file cl w (Ofstream true false []) Hw) as [F1 F2]; [done|].
  rewrite <- Hf in F1, F2. simpl in F1.
  split; fold out; try done.
  - intros i b Hi. split; [by apply (se_ids _ _ Hs)|].
    split; [exact (Forall_lookup_1 _ _ _ _ (se_raw _ _ Hs) Hi)|].
    exact (Forall_lookup_1 _ _ _ _ (se_full _ _ Hs) Hi).
  - by rewrite <- (ar_w _ _ _ _ _ Ha).
  - apply (Permutation_app_inv_l w). rewrite (ar_w _ _ _ _ _ Ha) at 2.
    rewrite take_drop, <- Hp, (ar_perm _ _ _ _ _ Ha). by rewrite <- !app_assoc.
  - by rewrite <- (ar_w _ _ _ _ _ Ha).
  - intros E1 E2 E3. rewrite E1, E2, E3 in Hp. simpl in Hp. rewrite app_nil_r in Hp.
    assert (arrived out out (Z.of_nat (length w)) q w) as Ha'.
    { destruct Ha as [A1 A2 A3 A4 A5]. split; try done; [by rewrite <- A2|by rewrite <- Hp]. }
    destruct (arrived_all out (cb_ids _ _ Hb) _ _ _ Ha') as (-> & -> & _).
    split; [done|]. apply length_map.
Qed.


(** ** The threads finish what they have *)
Lemma worker_cases (ws : list worker) :
  (∃ i b, ws !! i = Some (WDone b)) ∨ (∃ i b, ws !! i = Some (WRaw b))
  ∨ Forall (λ w, w = WIdle) ws.
Proof.
  induction ws as [|w ws IH]; [by right; right|].
  destruct w as [|b|b].
  - destruct IH as [(i & b & E)|[(i & b & E)|E]].
    + left. by exists (S i), b.
    + right. left. by exists (S i), b.
    + right. right. by constructor.
  - destruct IH as [(i & b' & E)|_]; [left; by exists (S i), b'|].
    right. left. by exists 0%nat, b.
  - left. by exists 0%nat, b.
Qed.

Definition at_rest (a : bst * list worker) : Prop :=
  io_queue a.1 = [] ∧ compression_queue a.1 = [] ∧ Forall (λ w, w = WIdle) a.2.

(** While something is under way, a thread can take a step. *)
Lemma threads_go_on hist a :
  (∀ codec level d, is_Some (squash_compress codec level d)) →
  ginv hist a.1 a.2 → length a.2 = Z.to_nat COMP_THREAD_NUM →
  at_rest a ∨ ∃ b, tstep a b ∧ b ≠ a.
Proof.
  intros Hsq Hg Hlen. destruct a as [s ws]. simpl in *.
  destruct (io_queue s) as [|b q] eqn:Eq.
  2:{ right. destruct (gio hist s ws b q Hg Eq) as (s1 & E1 & _ & Eq1 & _).
      exists (s1, ws). split; [by eapply c_io|]. intros [= ->]. rewrite Eq1 in Eq.
      by apply (f_equal length) in Eq; simpl in Eq; lia. }
  destruct (worker_cases ws) as [(i & b & Hi)|[(i & b & Hi)|Hidle]].
  - right. exists (set_io_queue (io_queue s ++ [b]) s, <[i := WIdle]> ws). split.
    + apply (c_push _ _ _ _ b Hi). unfold enqueueFullBlockFromCompThread.
      rewrite (bind_Ret get _ _ _ _ eq_refl), Eq, bool_decide_eq_true_2; [done|].
      unfold IO_QUEUE_SIZE. simpl. lia.
    + intros [= E _]. apply (f_equal io_queue) in E. simpl in E. by rewrite Eq in E.
  - right. destruct (pack_run hist s ws i b Hsq Hg Hi) as (c & _ & E1).
    eexists (_, <[i := WDone _]> ws). split.
    + by eapply (c_pack _ _ _ _ b _ Hi).
    + intros [= _ E]. apply (f_equal (.!! i)) in E. rewrite Hi in E.
      by rewrite list_lookup_insert_eq in E by (by eapply lookup_lt_Some).
  - destruct (compression_queue s) as [|b q] eqn:Ecq; [left; by split|]. right.
    destruct ws as [|w ws]; [done|]. apply Forall_cons in Hidle as [-> _].
    exists (set_compression_queue q s, WRaw b :: ws). split; [|by intros [= _ ?]].
    by apply (c_take s (WIdle :: ws) 0 b q).
Qed.

(** At rest the file of a closed channel holds all blocks. *)
Lemma at_rest_file hist s ws cl c :
  ginv hist s ws → at_rest (s, ws) → chans s !! cl = Some c →
  ∃ sent, Forall (λ b, raw_block true cl b ∧ block_idx b ≤ BUFFER_BLOCK_SIZE) sent
    ∧ ofs_file (ch_logf c) = concat (map frame (map (packed (format c)) sent))
    ∧ ((handler_f c = Some NullHandler_fn ∧ all_samples sent = hist cl
        ∧ ofs_open (ch_logf c) = false)
       ∨ (handler_f c = Some BufferIdentityHandler_fn
          ∧ all_samples sent ++ cur_samples c = hist cl
          ∧ ofs_open (ch_logf c) = true)).
Proof.
  intros Hg (R1 & R2 & R3) Hc. simpl in *.
  assert (raws ws = [] ∧ dones ws = []) as [Er Ed].
  { clear -R3. induction R3 as [|w ws -> _ [IH1 IH2]]; [done|]. by split. }
  destruct (ginv_comp_log _ s ws cl c Hg Hc) as (sent & k & q & [] & Ho).
  destruct cg_idle0 as [-> ->]; [by rewrite R1|by rewrite Ed|
    unfold uncompressed; by rewrite Er, R2|].
  exists sent. rewrite take_ge in cg_file0, cg_open0 by (by rewrite length_map).
  split; [|split; [done|]].
  { apply Forall_lookup_2. intros i b Hi. by destruct (cg_blocks0 i b Hi) as (_ & ? & ? & _). }
  assert (existsb close_file (map (packed (format c)) sent) = existsb close_file sent) as Ee.
  { clear. induction sent as [|b sent IH]; [done|]. simpl. by rewrite IH. }
  rewrite Ee in cg_open0. destruct Ho as [[]|[]]; [right|left].
  - split; [done|]. split; [done|]. rewrite cg_open0.
    apply negb_true_iff, not_true_is_false. intros (x & Hx & Hc')%existsb_exists.
    apply list_elem_of_In in Hx. rewrite Forall_forall in op_sent0.
    by rewrite (op_sent0 x Hx) in Hc'.
  - split; [done|]. split; [done|]. rewrite cg_open0.
    apply negb_false_iff, existsb_exists. destruct cd_last0 as (b & Hb & Hcb).
    exists b. split; [|done]. apply list_elem_of_In. by apply last_Some_elem_of.
Qed.

End CompFlush.

(** ** Two blocks, compressed out of order *)
Section Demo.
#[local] Existing Instances demo_env demo_squash demo_sizes.

Definition demo_c1 : bst :=
  (on_closure 1 (closure_openChannel 0 "z" ZSTD)
     (initBufferIdentityHandler 1 ZSTD true (bst_init (sys_init true))).1).1.
Definition demo_c2 : bst := (on_closure 1 (buffer_write 10) demo_c1).1.
Definition demo_c3 : bst := (on_closure 1 (buffer_write 20) demo_c2).1.
Definition demo_c4 : bst := (buffer_enqueue 1 demo_c3).1.
Definition demo_c5 : bst := (buffer_refill 1 demo_c4).1.
Definition demo_c6 : bst := (on_closure 1 (buffer_write 30) demo_c5).1.
Definition demo_c7 : bst := (buffer_closeChannel 1 demo_c6).1.

Definition demo_ctr : list (Z * log_data) :=
  [(1, (10, clock 0)); (1, (20, clock 1)); (1, (30, clock 2))].

Definition demo_idle : list worker := replicate 4 WIdle.
Definition demo_raw (s : bst) : block_data :=
  match compression_queue s with b :: _ => b | [] => block_new true 0 end.

Lemma demo_squashes codec level d : is_Some (squash_compress codec level d).
Proof. by eexists. Qed.

Ltac compute_cur := eexists; split_and!; vm_compute; reflexivity.
Ltac compute_counts := eexists; split; [vm_compute; reflexivity|vm_compute; reflexivity].

Lemma demo_csteps : csteps demo_ctr (demo_c7, demo_idle).
Proof.
  assert (csteps [] (demo_c1, demo_idle)) as R1.
  { refine (csteps_step [] (cstart (sys_init true)) None _ _ _); [constructor|].
    refine (c_open (bst_init (sys_init true))
      (initBufferIdentityHandler 1 ZSTD true (bst_init (sys_init true))).1 demo_c1 demo_idle
      1 0 "z" ZSTD _ _ _ _ _ _); [reflexivity|by left|by_decide| |vm_compute; reflexivity..].
    intros d c Hd. discriminate Hd. }
  assert (csteps (take 1 demo_ctr) (demo_c2, demo_idle)) as R2.
  { refine (csteps_step [] (demo_c1, demo_idle) (Some (1, (10, clock 0))) _ R1 _).
    eapply (c_write demo_c1 demo_c2 _ 1 _ 10); [compute_cur|done|vm_compute; reflexivity]. }
  assert (csteps (take 2 demo_ctr) (demo_c3, demo_idle)) as R3.
  { refine (csteps_step (take 1 demo_ctr) (demo_c2, demo_idle) (Some (1, (20, clock 1))) _ R2 _).
    eapply (c_write demo_c2 demo_c3 _ 1 _ 20); [compute_cur|done|vm_compute; reflexivity]. }
  assert (csteps (take 2 demo_ctr) (demo_c4, demo_idle)) as R4.
  { refine (csteps_step (take 2 demo_ctr) (demo_c3, demo_idle) None _ R3 _).
    eapply (c_enqueue demo_c3 demo_c4 _ 1); [compute_cur|reflexivity|compute_counts|].
    vm_compute. reflexivity. }
  assert (csteps (take 2 demo_ctr) (demo_c5, demo_idle)) as R5.
  { refine (csteps_step (take 2 demo_ctr) (demo_c4, demo_idle) None _ R4 _).
    eapply (c_refill _ _ _ 1); [compute_cur|compute_counts|vm_compute; reflexivity]. }
  assert (csteps demo_ctr (demo_c6, demo_idle)) as R6.
  { refine (csteps_step (take 2 demo_ctr) (demo_c5, demo_idle) (Some (1, (30, clock 2))) _ R5 _).
    eapply (c_write demo_c5 demo_c6 _ 1 _ 30); [compute_cur|done|vm_compute; reflexivity]. }
  refine (csteps_step demo_ctr (demo_c6, demo_idle) None _ R6 _).
  eapply (c_close _ _ _ 1); [compute_cur|done|compute_counts|vm_compute; reflexivity].
Qed.

(** The second block is compressed and written before the first is. *)
Definition demo_b0 : block_data := demo_raw demo_c7.
Definition demo_c8 : bst := set_compression_queue (tail (compression_queue demo_c7)) demo_c7.
Definition demo_b1 : block_data := demo_raw demo_c8.
Definition demo_c9 : bst := set_compression_queue [] demo_c8.
Definition demo_c10 : bst := (compress_and_return demo_b1 demo_c9).1.
Definition demo_n1 : block_data := packed ZSTD demo_b1.
Definition demo_c11 : bst := (enqueueFullBlockFromCompThread demo_n1 demo_c10).1.
Definition demo_c12 : bst := (io_round demo_c11).1.

Lemma demo_early : csteps demo_ctr (demo_c12, [WRaw demo_b0; WIdle; WIdle; WIdle]).
Proof.
  assert (∀ a b, csteps demo_ctr a → tstep a b → csteps demo_ctr b) as Hstep.
  { intros a b Ha Hb. refine (csteps_step demo_ctr a None b Ha _). by constructor. }
  assert (tstep (demo_c7, demo_idle) (demo_c8, [WRaw demo_b0; WIdle; WIdle; WIdle])) as T1
    by (refine (c_take demo_c7 demo_idle 0 demo_b0 _ _ _); [done|vm_compute; reflexivity]).
  assert (tstep (demo_c8, [WRaw demo_b0; WIdle; WIdle; WIdle])
                (demo_c9, [WRaw demo_b0; WRaw demo_b1; WIdle; WIdle])) as T2
    by (refine (c_take demo_c8 _ 1 demo_b1 [] _ _); [done|vm_compute; reflexivity]).
  assert (tstep (demo_c9, [WRaw demo_b0; WRaw demo_b1; WIdle; WIdle])
                (demo_c10, [WRaw demo_b0; WDone demo_n1; WIdle; WIdle])) as T3
    by (refine (c_pack demo_c9 _ _ 1 demo_b1 demo_n1 _ _); [done|vm_compute; reflexivity]).
  assert (tstep (demo_c10, [WRaw demo_b0; WDone demo_n1; WIdle; WIdle])
                (demo_c11, [WRaw demo_b0; WIdle; WIdle; WIdle])) as T4
    by (refine (c_push demo_c10 _ _ 1 demo_n1 _ _); [done|vm_compute; reflexivity]).
  assert (tstep (demo_c11, [WRaw demo_b0; WIdle; WIdle; WIdle])
                (demo_c12, [WRaw demo_b0; WIdle; WIdle; WIdle])) as T5
    by (eapply c_io; vm_compute; reflexivity).
  exact (Hstep _ _ (Hstep _ _ (Hstep _ _ (Hstep _ _ (Hstep _ _ demo_csteps T1) T2) T3) T4) T5).
Qed.


End Demo.
