(* ===== verification/NetConf.v ===== *)
(** * Channel configuration messages: src/cp/config_server/net_conf.h and the
    printing functions of net_conf.cpp

    A NET_CONF channel asks the configuration server for its handler type, log
    format and parameters. *)
From S2P Require Import Prelude TimeStamp Platform Log Formats.

Definition MAX_STR_SIZE : nat := 128.
Definition conf_server_max_param : nat := 7.

Definition CONF_LOOKUP_SUCCESS : Z := 0.
Definition ERR_CONF_NOT_FOUND : Z := -1.
(** fox/fox_config_server.h *)
Definition ERR_FOX_MULTIPE_START_NODE : Z := -2.
Definition ERR_FOX_INVALID_ARG : Z := -3.
Definition ERR_FOX_START_NOT_SET : Z := -4.

Record conf_req_msg := ConfReqMsg {
  rq_ch_name : string;          (* char[128] *)
  rq_ch_dotted_quad : string;   (* char[128] *)
  rq_ch_pid : Z;                (* uint32_t *)
  rq_ch_tid : Z;                (* uint32_t *)
  rq_ch_nr : Z;                 (* int32_t *)
  rq_nr_parameters : Z;         (* int32_t *)
  rq_par_value : list Z         (* int64_t[7] *)
}.

Record conf_reply_msg := ConfReplyMsg {
  err : Z;                      (* int8_t *)
  h_type : handler_type;
  log_f : log_format;
  nr_parameters : Z;            (* uint8_t *)
  par_value : list Z            (* int64_t[7] *)
}.

Definition set_err x r := ConfReplyMsg x (h_type r) (log_f r) (nr_parameters r)
  (par_value r).
Definition set_h_type x r := ConfReplyMsg (err r) x (log_f r) (nr_parameters r)
  (par_value r).
Definition set_log_f x r := ConfReplyMsg (err r) (h_type r) x (nr_parameters r)
  (par_value r).
Definition set_nr_parameters x r := ConfReplyMsg (err r) (h_type r) (log_f r) x
  (par_value r).
Definition set_par_value x r := ConfReplyMsg (err r) (h_type r) (log_f r)
  (nr_parameters r) x.

(** A row of a configuration table; missing values of the initialiser are 0. *)
Record conf_entry := ConfEntry {
  ce_ch_name : string;
  ce_ch_dotted_quad : string;
  ce_ch_pid : string;
  ce_ch_tid : string;
  ce_ch_nr : string;
  ce_h_type : handler_type;
  ce_log_f : log_format;
  ce_nr_parameters : Z;
  ce_par_value : list Z
}.

Record conf_table := ConfTable {
  table_name : string;
  entries : list conf_entry
}.

#[global] Instance conf_reply_msg_eq_dec : EqDecision conf_reply_msg.
Proof. solve_decision. Defined.
#[global] Instance conf_entry_eq_dec : EqDecision conf_entry.
Proof. solve_decision. Defined.

(** [a[i]] of an array member of 7 elements. *)
Definition arr_at (l : list Z) (i : nat) : Z := nth i l 0.

(** The parameters of a reply: [nr_parameters] of them. *)
Definition reply_params (r : conf_reply_msg) : list Z :=
  take (Z.to_nat (nr_parameters r)) (par_value r).

(** conf_req_msg::toStr prints element 0, which getConfigFromServer does not
    set, before elements 1 to n. *)
Definition conf_req_msg_toStr (m : conf_req_msg) : string :=
  "Request: ch <" +:+ rq_ch_name m +:+ ">, "
  +:+ "IP <" +:+ rq_ch_dotted_quad m +:+ ">, "
  +:+ "PID <" +:+ zstr (rq_ch_pid m) +:+ ">, "
  +:+ "TID <" +:+ zstr (rq_ch_tid m) +:+ ">, "
  +:+ "CH# <" +:+ zstr (rq_ch_nr m) +:+ ">"
  +:+ (if 0 <? rq_nr_parameters m then
         ", Parameters <" +:+ zstr (arr_at (rq_par_value m) 0)
         +:+ string_concat (map (λ i, ", " +:+ zstr (arr_at (rq_par_value m) i))
               (seq 1 (Z.to_nat (rq_nr_parameters m))))
         +:+ ">"
       else "").

Definition conf_reply_msg_toStr (m : conf_reply_msg) : string :=
  match handler_to_str (h_type m) with
  | None => "unknown handler type"
  | Some s2 =>
      "handler type <" +:+ s2 +:+ ">, log format <"
      +:+ match format_to_str (log_f m) with Some s1 => s1 | None => "Unknown" end
      +:+ ">"
      +:+ (if 0 <? nr_parameters m then
             string_concat (map (λ i, ", arg. #" +:+ zstr (Z.of_nat i) +:+ ": "
                +:+ zstr (arr_at (par_value m) i))
               (seq 0 (Z.to_nat (nr_parameters m))))
           else "")
  end.
