(* ===== verification/ConfigServer.v ===== *)
(** * The configuration server: src/cp/config_server/parser.cpp,
    fox/fox_config_server.cpp and config_server.cpp

    Serves channel configurations from the selected table. Rows of handler
    type FOX_START and FOX_END are special: the server passes the address of
    the one starting node on to all ending nodes. *)
From S2P Require Import Prelude Util TimeStamp Platform Log Formats NetConf.
From S2P Require Import ConfTables.

(** ** State *)
Record fox_info := FoxInfo {
  fox_ip : list Z;     (* int64_t ip[4] *)
  fox_port : Z;
  fox_isSet : bool
}.

(** The static initialiser of FoxStartInfo. *)
Definition fox_init : fox_info := FoxInfo [-1; -1; -1; -1] (-1) false.

Record srv := Srv {
  cf_tbl : option (list conf_entry);
  foxStartInfo : fox_info;
  cerr : list string;
  srv_sys : sys
}.

Definition set_cf_tbl x s := Srv x (foxStartInfo s) (cerr s) (srv_sys s).
Definition set_fox x s := Srv (cf_tbl s) x (cerr s) (srv_sys s).
Definition set_cerr x s := Srv (cf_tbl s) (foxStartInfo s) x (srv_sys s).
Definition set_srv_sys x s := Srv (cf_tbl s) (foxStartInfo s) (cerr s) x.

Definition srv_init (s : sys) : srv := Srv None fox_init [] s.

(** ** parser.cpp *)
Definition match_expr (str expr : string) : bool :=
  if String.eqb expr ".*" then true else String.eqb str expr.

Section Server.
Context `{Env}.
(** [conf_tables] of default_conf.h, or any other list of tables. *)
Context (tables : list conf_table).

Definition srv_log {A} (m : M sys A) : M srv A := zoom srv_sys set_srv_sys m.
Definition print_cerr (line : string) : M srv unit :=
  modify (λ s, set_cerr (cerr s ++ [line]) s).

Definition logConfigTableName (name : string) : M srv unit :=
  srv_log (logStatus "parser.cpp" 23
    ("Selected configuration table: " +:+ quote name)).

Definition duplicate_table (name : string) : M srv unit :=
  print_cerr ("ERROR: duplicated table name " +:+ quote name
              +:+ " in file default_conf.h" +:+ nl) ;;
  exit EXIT_FAILURE.

Fixpoint select_table (cnf : string) (found : bool) (l : list conf_table)
    : M srv bool :=
  match l with
  | [] => mret found
  | it :: l =>
      if String.eqb (table_name it) cnf then
        when found (duplicate_table cnf) ;;
        modify (set_cf_tbl (Some (entries it))) ;;
        select_table cnf true l
      else select_table cnf found l
  end.

Definition setConfigTable (cnf : string) : M srv unit :=
  found ← select_table cnf false tables;
  when (negb found)
    (print_cerr ("ERROR: invalid configuration table name " +:+ quote cnf +:+ nl) ;;
     exit EXIT_FAILURE) ;;
  logConfigTableName cnf.

Definition setDefaultConfigTable : M srv unit :=
  match tables with
  | [] => print_cerr ("ERROR: empty configuration table" +:+ nl) ;;
          exit EXIT_FAILURE
  | t0 :: rest =>
      modify (set_cf_tbl (Some (entries t0))) ;;
      when (existsb (λ t, String.eqb (table_name t) (table_name t0)) rest)
        (duplicate_table (table_name t0)) ;;
      logConfigTableName (table_name t0)
  end.

(** *** fox_config_server.cpp

    The reply is passed by reference: here the functions return the new reply
    and, on success, the line number they store. *)
Definition copy_params (it : conf_entry) (reply : conf_reply_msg)
    : conf_reply_msg :=
  let n := Z.to_nat (ce_nr_parameters it) in
  set_par_value
    (map (arr_at (ce_par_value it)) (seq 0 n) ++ drop n (par_value reply))
    (set_nr_parameters (ce_nr_parameters it) reply).

Definition makeFoxStartReply (request : conf_req_msg) (reply : conf_reply_msg)
    (it : conf_entry) (line : Z)
    : M srv (bool * conf_reply_msg * option Z) :=
  let reply := set_h_type (ce_h_type it) reply in
  s ← get;
  if fox_isSet (foxStartInfo s) then
    mret (false, set_err ERR_FOX_MULTIPE_START_NODE reply, None)
  else
    let par := arr_at (rq_par_value request) in
    modify (set_fox (FoxInfo [par 1%nat; par 2%nat; par 3%nat; par 4%nat]
      (par 5%nat) (rq_nr_parameters request =? 5))) ;;
    mret (true, copy_params it (set_err CONF_LOOKUP_SUCCESS reply), Some line).

Definition makeFoxEndReply (reply : conf_reply_msg) (it : conf_entry) (line : Z)
    : M srv (bool * conf_reply_msg * option Z) :=
  let reply := set_h_type (ce_h_type it) reply in
  s ← get;
  let f := foxStartInfo s in
  if negb (fox_isSet f) then
    mret (false, set_err ERR_FOX_START_NOT_SET (set_nr_parameters 0 reply), None)
  else
    mret (true,
      set_par_value (fox_ip f ++ [fox_port f] ++ drop 5 (par_value reply))
        (set_nr_parameters 5 (set_err CONF_LOOKUP_SUCCESS reply)), Some line).

Definition getErrorMsgFox (errorCode : Z) : string :=
  if errorCode =? ERR_FOX_MULTIPE_START_NODE then
    "Multiple node request 'fox_start' handler"
  else if errorCode =? ERR_FOX_INVALID_ARG then
    "'fox_start' handler need 5 parameters"
  else if errorCode =? ERR_FOX_START_NOT_SET then
    "'fox_end' handler requested, but 'fox_start' is not set"
  else "unknown error for fox".

(** *** lookupConfig *)
Definition entry_matches (request : conf_req_msg) (it : conf_entry) : bool :=
  match_expr (rq_ch_name request) (ce_ch_name it)
  && match_expr (rq_ch_dotted_quad request) (ce_ch_dotted_quad it)
  && match_expr (zstr (rq_ch_pid request)) (ce_ch_pid it)
  && match_expr (zstr (rq_ch_tid request)) (ce_ch_tid it)
  && match_expr (zstr (rq_ch_nr request)) (ce_ch_nr it).

Fixpoint lookup_loop (request : conf_req_msg) (reply : conf_reply_msg)
    (line : Z) (tbl : list conf_entry)
    : M srv (bool * conf_reply_msg * option Z) :=
  match tbl with
  | [] => mret (false, set_err ERR_CONF_NOT_FOUND reply, None)
  | it :: tbl =>
      if entry_matches request it then
        match ce_h_type it with
        | FOX_START =>
            makeFoxStartReply request (set_log_f (ce_log_f it) reply) it line
        | FOX_END => makeFoxEndReply (set_log_f (ce_log_f it) reply) it line
        | _ =>
            mret (true,
              copy_params it
                (set_log_f (ce_log_f it) (set_h_type (ce_h_type it)
                   (set_err CONF_LOOKUP_SUCCESS reply))), Some line)
        end
      else lookup_loop request reply (u32 (line + 1)) tbl
  end.

Definition lookupConfig (request : conf_req_msg) (reply : conf_reply_msg)
    : M srv (bool * conf_reply_msg * option Z) :=
  s ← get;
  when (bool_decide (cf_tbl s = None)) setDefaultConfigTable ;;
  s ← get;
  match cf_tbl s with
  | Some tbl => lookup_loop request reply 0 tbl
  | None => undefined "no configuration table"
  end.

(** ** config_server.cpp: one round of the main loop

    [reply0] is the reply object before the look-up: only nr_parameters is
    initialised. The result is the reply sent, and whether the server goes
    on. *)
Definition serve (reply0 : conf_reply_msg) (request : conf_req_msg)
    : M srv (conf_reply_msg * bool) :=
  srv_log (logStatus "config_server.cpp" 80 (conf_req_msg_toStr request)) ;;
  '(ret, reply, line_nr) ← lookupConfig request (set_nr_parameters 0 reply0);
  (if negb ret then
     if err reply =? ERR_CONF_NOT_FOUND then
       srv_log (logStatus "config_server.cpp" 95
         "Configuration cannot be obtained (no matching entry for request)")
     else if bool_decide (h_type reply = FOX_START ∨ h_type reply = FOX_END) then
       srv_log (logStatus "config_server.cpp" 100 (getErrorMsgFox (err reply)))
     else
       srv_log (logStatus "config_server.cpp" 105
         ("unknown error, msg->err returned: " +:+ zstr (err reply)))
   else
     srv_log (logStatus "config_server.cpp" 119
       ("Reply (match in 0-indexed entry # " +:+ zstr (default 0 line_nr)
        +:+ "): " +:+ conf_reply_msg_toStr reply))) ;;
  if err reply =? ERR_FOX_MULTIPE_START_NODE then
    srv_log (logStatus "config_server.cpp" 127
      "Terminating Config Server due to multiple starting nodes") ;;
    srv_log closeStatusLogFile ;;
    mret (reply, false)
  else mret (reply, true).

(** The loop: the replies sent to a sequence of requests. *)
Fixpoint serve_all (reply0 : conf_reply_msg) (l : list conf_req_msg)
    : M srv (list conf_reply_msg) :=
  match l with
  | [] => mret []
  | rq :: l =>
      '(rep, continue) ← serve reply0 rq;
      if continue : bool then
        reps ← serve_all reply0 l; mret (rep :: reps)
      else mret [rep]
  end.

(** ** Looking up, as a function of the table and the fox registration *)
Definition first_match (request : conf_req_msg) (tbl : list conf_entry)
    : option (nat * conf_entry) :=
  list_find (λ it, entry_matches request it = true) tbl.

Definition lookup_at (request : conf_req_msg) (reply : conf_reply_msg)
    (i : Z) (it : conf_entry) : M srv (bool * conf_reply_msg * option Z) :=
  match ce_h_type it with
  | FOX_START => makeFoxStartReply request (set_log_f (ce_log_f it) reply) it i
  | FOX_END => makeFoxEndReply (set_log_f (ce_log_f it) reply) it i
  | _ => mret (true, copy_params it (set_log_f (ce_log_f it)
           (set_h_type (ce_h_type it) (set_err CONF_LOOKUP_SUCCESS reply))), Some i)
  end.

Lemma lookup_loop_first request reply line tbl s :
  0 ≤ line → line + Z.of_nat (length tbl) < 2 ^ 32 →
  lookup_loop request reply line tbl s =
    match first_match request tbl with
    | Some (i, it) => lookup_at request reply (line + Z.of_nat i) it s
    | None => (s, Ret (false, set_err ERR_CONF_NOT_FOUND reply, None))
    end.
Proof.
  revert line. induction tbl as [|it tbl IH]; intros line Hl Hb; [done|].
  unfold first_match in *. simpl. simpl in Hb.
  destruct (entry_matches request it) eqn:Em.
  - rewrite decide_True by done. simpl. by rewrite Z.add_0_r.
  - rewrite decide_False by done.
    rewrite (wrapU_small 32) by (pow2; lia). rewrite IH by lia.
    destruct (list_find _ tbl) as [[i e]|]; [|done]. simpl. f_equal. lia.
Qed.

Lemma lookupConfig_eq request reply s tbl :
  cf_tbl s = Some tbl → Z.of_nat (length tbl) < 2 ^ 32 →
  lookupConfig request reply s =
    match first_match request tbl with
    | Some (i, it) => lookup_at request reply (Z.of_nat i) it s
    | None => (s, Ret (false, set_err ERR_CONF_NOT_FOUND reply, None))
    end.
Proof.
  intros Et Hb. unfold lookupConfig.
  rewrite (bind_Ret get _ s s s), Et by done.
  rewrite bool_decide_eq_false_2 by done. cbn [when]. rewrite bind_ret_l.
  rewrite (bind_Ret get _ s s s), Et by done.
  rewrite lookup_loop_first by lia. by destruct (first_match request tbl) as [[i e]|].
Qed.

Lemma copy_params_params it reply :
  length (ce_par_value it) = Z.to_nat (ce_nr_parameters it) →
  reply_params (copy_params it reply) = ce_par_value it.
Proof.
  intros Hl. unfold reply_params, copy_params. simpl. rewrite <- Hl.
  assert (map (arr_at (ce_par_value it)) (seq 0 (length (ce_par_value it)))
          = ce_par_value it) as E.
  { apply list_eq. intros i. rewrite list_lookup_fmap.
    destruct (decide (i < length (ce_par_value it))%nat) as [Hlt|Hge].
    - rewrite lookup_seq_lt by done. simpl. unfold arr_at.
      destruct (lookup_lt_is_Some_2 _ _ Hlt) as [v Hv].
      by rewrite Hv, (nth_lookup_Some _ _ _ _ Hv).
    - rewrite lookup_seq_ge by lia. symmetry. apply lookup_ge_None. lia. }
  rewrite E. apply take_app_length.
Qed.

(** ** The registration, abstractly: nothing, or the five numbers of the
    starting node *)
Definition fox_rel (f : fox_info) (a : option (list Z)) : Prop :=
  if fox_isSet f then length (fox_ip f) = 4%nat ∧ a = Some (fox_ip f ++ [fox_port f])
  else a = None.

Definition start_params (rq : conf_req_msg) : list Z :=
  map (arr_at (rq_par_value rq)) [1%nat; 2%nat; 3%nat; 4%nat; 5%nat].

Definition fox_spec (a : option (list Z)) (rq : conf_req_msg) (h : handler_type)
    : option (list Z) :=
  match h, a with
  | FOX_START, None => if rq_nr_parameters rq =? 5 then Some (start_params rq) else None
  | _, _ => a
  end.

(** What a look-up answers, given the registration. *)
Definition reply_spec (a : option (list Z)) (it : conf_entry)
    (ret : bool) (rep : conf_reply_msg) : Prop :=
  h_type rep = ce_h_type it ∧ log_f rep = ce_log_f it ∧
  match ce_h_type it, a with
  | FOX_START, Some _ => ret = false ∧ err rep = ERR_FOX_MULTIPE_START_NODE
  | FOX_END, None =>
      ret = false ∧ err rep = ERR_FOX_START_NOT_SET ∧ nr_parameters rep = 0
  | FOX_END, Some l =>
      ret = true ∧ err rep = CONF_LOOKUP_SUCCESS ∧ nr_parameters rep = 5
      ∧ reply_params rep = l
  | _, _ => ret = true ∧ err rep = CONF_LOOKUP_SUCCESS
            ∧ nr_parameters rep = ce_nr_parameters it
            ∧ (length (ce_par_value it) = Z.to_nat (ce_nr_parameters it) →
               reply_params rep = ce_par_value it)
  end.

Lemma lookup_at_spec rq reply i it s a :
  fox_rel (foxStartInfo s) a →
  ∃ s' ret rep ln, lookup_at rq reply i it s = (s', Ret (ret, rep, ln))
    ∧ reply_spec a it ret rep ∧ (ret = true → ln = Some i)
    ∧ fox_rel (foxStartInfo s') (fox_spec a rq (ce_h_type it))
    ∧ cf_tbl s' = cf_tbl s ∧ srv_sys s' = srv_sys s.
Proof.
  intros Hf. unfold lookup_at, reply_spec.
  assert (∀ h, h ≠ FOX_START → fox_spec a rq h = a) as Hsp
    by (by intros []; destruct a).
  pose proof (copy_params_params it) as Hcp. unfold reply_params, copy_params in *.
  simpl in Hcp.
  destruct (ce_h_type it) eqn:Eh;
    try (do 4 eexists; split; [reflexivity|]; simpl; by split_and!; auto).
  - (* FOX_START *)
    unfold makeFoxStartReply, fox_rel in *. monad_simpl.
    destruct (fox_isSet (foxStartInfo s)) eqn:Es.
    + destruct Hf as [Hl ->]. do 4 eexists. split; [reflexivity|]. simpl.
      rewrite Es. by split_and!.
    + subst a. do 4 eexists. split; [reflexivity|]. simpl.
      destruct (rq_nr_parameters rq =? 5); simpl; by split_and!; auto.
  - (* FOX_END *)
    unfold makeFoxEndReply, fox_rel in *. monad_simpl.
    destruct (fox_isSet (foxStartInfo s)) eqn:Es.
    + destruct Hf as [Hl ->]. do 4 eexists. split; [reflexivity|]. simpl.
      rewrite Es. split_and!; try done.
      destruct (fox_ip _) as [|? [|? [|? [|? [|]]]]]; by inversion Hl.
    + subst a. do 4 eexists. split; [reflexivity|]. simpl.
      rewrite Es. by split_and!.
Qed.

(** Logging does not touch the table or the registration. *)
Lemma srv_log_run (m : M sys unit) s :
  (∃ y, m (srv_sys s) = (y, Ret tt) ∧ log_only (srv_sys s) y) →
  ∃ y, srv_log m s = (set_srv_sys y s, Ret tt).
Proof. intros (y & E & _). exists y. unfold srv_log, zoom. by rewrite E. Qed.

Lemma srv_log_status l m s :
  ∃ y, srv_log (logStatus "config_server.cpp" l m) s = (set_srv_sys y s, Ret tt).
Proof. apply srv_log_run, logStatus_frame. Qed.

Lemma closeStatusLogFile_run s :
  ∃ y, srv_log closeStatusLogFile s = (set_srv_sys y s, Ret tt).
Proof.
  unfold srv_log, zoom, closeStatusLogFile. monad_simpl.
  destruct (ofs_open (logf (srv_sys s))); by eexists.
Qed.

Lemma serve_run reply0 rq s tbl a :
  cf_tbl s = Some tbl → Z.of_nat (length tbl) < 2 ^ 32 →
  fox_rel (foxStartInfo s) a →
  ∃ s' rep, serve reply0 rq s
      = (s', Ret (rep, negb (err rep =? ERR_FOX_MULTIPE_START_NODE)))
    ∧ cf_tbl s' = Some tbl
    ∧ match first_match rq tbl with
      | Some (_, it) => (∃ ret, reply_spec a it ret rep)
          ∧ fox_rel (foxStartInfo s') (fox_spec a rq (ce_h_type it))
      | None => err rep = ERR_CONF_NOT_FOUND ∧ nr_parameters rep = 0
          ∧ fox_rel (foxStartInfo s') a
      end.
Proof.
  intros Et Hb Hf. unfold serve.
  destruct (srv_log_status 80 (conf_req_msg_toStr rq) s) as (y1 & E1).
  rewrite (bind_Ret _ _ _ _ _ E1).
  set (s1 := set_srv_sys y1 s).
  assert (∃ s2 ret rep ln, lookupConfig rq (set_nr_parameters 0 reply0) s1
      = (s2, Ret (ret, rep, ln)) ∧ cf_tbl s2 = Some tbl
      ∧ match first_match rq tbl with
        | Some (_, it) => reply_spec a it ret rep
            ∧ fox_rel (foxStartInfo s2) (fox_spec a rq (ce_h_type it))
        | None => err rep = ERR_CONF_NOT_FOUND ∧ nr_parameters rep = 0
            ∧ fox_rel (foxStartInfo s2) a
        end) as (s2 & ret & rep & ln & E2 & Et2 & Hm).
  { rewrite (lookupConfig_eq _ _ s1 tbl) by done.
    destruct (first_match rq tbl) as [[i it]|]; [|by do 4 eexists].
    destruct (lookup_at_spec rq (set_nr_parameters 0 reply0) (Z.of_nat i) it s1 a)
      as (s2 & ret & rep & ln & E & Hr & _ & Hf2 & Ht2 & _); [done|].
    exists s2, ret, rep, ln. rewrite Ht2. by split_and!. }
  rewrite (bind_Ret _ _ _ _ _ E2). cbv beta iota.
  match goal with |- context [(?m ;; ?k) s2] =>
    assert (∃ y, m s2 = (set_srv_sys y s2, Ret tt)) as (y3 & E3)
  end.
  { destruct ret; simpl; [apply srv_log_status|].
    destruct (err rep =? ERR_CONF_NOT_FOUND); [apply srv_log_status|].
    destruct (bool_decide _); apply srv_log_status. }
  rewrite (bind_Ret _ _ _ _ _ E3). set (s3 := set_srv_sys y3 s2).
  destruct (err rep =? ERR_FOX_MULTIPE_START_NODE) eqn:Em.
  - destruct (srv_log_status 127
      "Terminating Config Server due to multiple starting nodes" s3) as (y4 & E4).
    rewrite (bind_Ret _ _ _ _ _ E4).
    destruct (closeStatusLogFile_run (set_srv_sys y4 s3)) as (y5 & E5).
    rewrite (bind_Ret _ _ _ _ _ E5). do 2 eexists. rewrite Em.
    split; [reflexivity|]. split; [done|].
    destruct (first_match rq tbl) as [[i it]|]; [|done]. destruct Hm. by eauto.
  - do 2 eexists. rewrite Em. split; [reflexivity|]. split; [done|].
    destruct (first_match rq tbl) as [[i it]|]; [|done]. destruct Hm. by eauto.
Qed.

(** ** The contract of the server

    Every request is answered from the first row that matches it; the numbers
    of the first registered starting node are what all ending nodes get; a
    second starting node ends the service. *)
Fixpoint served (tbl : list conf_entry) (a : option (list Z))
    (rqs : list conf_req_msg) (reps : list conf_reply_msg) : Prop :=
  match rqs, reps with
  | [], [] => True
  | rq :: rqs, rep :: reps =>
      match first_match rq tbl with
      | None => err rep = ERR_CONF_NOT_FOUND ∧ served tbl a rqs reps
      | Some (_, it) =>
          (∃ ret, reply_spec a it ret rep)
          ∧ (if decide (err rep = ERR_FOX_MULTIPE_START_NODE) then reps = []
             else served tbl (fox_spec a rq (ce_h_type it)) rqs reps)
      end
  | _, _ => False
  end.

(** The numbers registered by a sequence of requests. *)
Definition is_start (tbl : list conf_entry) (rq : conf_req_msg) : bool :=
  match first_match rq tbl with
  | Some (_, it) =>
      bool_decide (ce_h_type it = FOX_START) && (rq_nr_parameters rq =? 5)
  | None => false
  end.

Fixpoint registered (tbl : list conf_entry) (rqs : list conf_req_msg)
    : option (list Z) :=
  match rqs with
  | [] => None
  | rq :: rqs =>
      if is_start tbl rq then Some (start_params rq) else registered tbl rqs
  end.

Lemma registered_prefix tbl i rqs l :
  registered tbl (take i rqs) = Some l → registered tbl rqs = Some l.
Proof.
  revert i. induction rqs as [|rq rqs IH]; intros [|i]; simpl; try done.
  destruct (is_start tbl rq); [done|apply IH].
Qed.

Lemma served_end tbl rqs : ∀ a reps i rep,
  served tbl a rqs reps → reps !! i = Some rep →
  h_type rep = FOX_END → err rep = CONF_LOOKUP_SUCCESS →
  (match a with Some l => Some l | None => registered tbl (take i rqs) end)
  = Some (reply_params rep).
Proof.
  induction rqs as [|rq rqs IH]; intros a [|rep0 reps] i rep Hs Hi Hh He;
    try done.
  simpl in Hs. unfold is_start. destruct (first_match rq tbl) as [[n it]|] eqn:Em.
  - destruct Hs as [(ret & Hr & Hf & Hm) Hs]. destruct i as [|i]; simpl in Hi.
    + simplify_eq. rewrite <- Hr, Hh in Hm. destruct a as [l|]; simpl.
      * by destruct Hm as (_ & _ & _ & ->).
      * destruct Hm as (_ & E & _). by rewrite He in E.
    + destruct (decide _) as [|_]; [by subst reps|].
      pose proof (IH _ _ _ _ Hs Hi Hh He) as HI. destruct a as [l|].
      * by destruct (ce_h_type it).
      * simpl. unfold is_start. rewrite Em. unfold fox_spec in HI.
        destruct (ce_h_type it); try done. simpl.
        by destruct (rq_nr_parameters rq =? 5).
  - destruct Hs as [Hn Hs]. destruct i as [|i]; simpl in Hi.
    + simplify_eq. by rewrite He in Hn.
    + pose proof (IH _ _ _ _ Hs Hi Hh He) as HI. destruct a as [l|]; [done|].
      simpl. unfold is_start. by rewrite Em.
Qed.

Lemma serve_all_served tbl reply0 rqs : ∀ a s,
  cf_tbl s = Some tbl → Z.of_nat (length tbl) < 2 ^ 32 →
  fox_rel (foxStartInfo s) a →
  ∃ s' reps, serve_all reply0 rqs s = (s', Ret reps) ∧ served tbl a rqs reps.
Proof.
  induction rqs as [|rq rqs IH]; intros a s Et Hb Hf; [by do 2 eexists|].
  destruct (serve_run reply0 rq s tbl a) as (s1 & rep & E & Et1 & Hm); [done..|].
  simpl serve_all. rewrite (bind_Ret _ _ _ _ _ E). cbv beta iota.
  simpl. destruct (err rep =? ERR_FOX_MULTIPE_START_NODE) eqn:Ee; simpl.
  - exists s1, [rep]. split; [done|]. apply Z.eqb_eq in Ee.
    destruct (first_match rq tbl) as [[n it]|].
    + destruct Hm. split; [done|]. by rewrite decide_True.
    + destruct Hm as [Hm _]. by rewrite Ee in Hm.
  - apply Z.eqb_neq in Ee. destruct (first_match rq tbl) as [[n it]|] eqn:Em.
    + destruct Hm as [Hr Hf1].
      destruct (IH _ s1 Et1 Hb Hf1) as (s2 & reps & E2 & Hs).
      rewrite (bind_Ret _ _ _ _ _ E2). do 2 eexists. split; [reflexivity|].
      split; [done|]. by rewrite decide_False.
    + destruct Hm as (Hr & _ & Hf1).
      destruct (IH _ s1 Et1 Hb Hf1) as (s2 & reps & E2 & Hs).
      rewrite (bind_Ret _ _ _ _ _ E2). do 2 eexists. split; [reflexivity|].
      done.
Qed.

(** Selecting a table by name. *)
Lemma select_table_unique cnf : ∀ l (found : bool) s,
  (if found then 1 else 0) + Z.of_nat (count (λ t, String.eqb (table_name t) cnf) l) ≤ 1 →
  select_table cnf found l s =
    match list_find (λ t, String.eqb (table_name t) cnf = true) l with
    | Some (_, t) => (set_cf_tbl (Some (entries t)) s, Ret true)
    | None => (s, Ret found)
    end.
Proof.
  induction l as [|t l IH]; intros found s Hc; [done|].
  unfold count in Hc. simpl in *.
  destruct (String.eqb (table_name t) cnf) eqn:Et; simpl in Hc.
  - destruct found; [lia|]. rewrite decide_True by done. cbn [when].
    rewrite bind_ret_l, (bind_Ret (modify _) _ s
      (set_cf_tbl (Some (entries t)) s) tt) by done.
    rewrite IH by (unfold count; lia).
    assert (count (λ t, String.eqb (table_name t) cnf) l = 0%nat) as Hz
      by (unfold count; lia).
    replace (list_find _ l) with (@None (nat * conf_table)); [done|].
    symmetry. apply list_find_None, Forall_forall. intros x Hx Hq.
    apply list_elem_of_split in Hx as (l1 & l2 & ->).
    rewrite count_app in Hz. unfold count in Hz. simpl in Hz.
    rewrite Hq in Hz. simpl in Hz. lia.
  - rewrite decide_False by done. rewrite IH by (unfold count; done).
    by destruct (list_find _ l) as [[i u]|].
Qed.

Lemma logConfigTableName_run name s :
  ∃ y, logConfigTableName name s = (set_srv_sys y s, Ret tt).
Proof. apply srv_log_run, logStatus_frame. Qed.

(** ** Properties *)

(** The server refines its contract: on every sequence of requests the
    loop returns, each request is answered from the first matching row (its
    handler type, log format and parameters), the not-found error is sent when
    no row matches, and the service ends exactly when a second starting node
    shows up. *)
Theorem serve_all_refines reply0 rqs s tbl a :
  cf_tbl s = Some tbl → Z.of_nat (length tbl) < 2 ^ 32 →
  fox_rel (foxStartInfo s) a →
  ∃ s' reps, serve_all reply0 rqs s = (s', Ret reps) ∧ served tbl a rqs reps.
Proof. apply serve_all_served. Qed.

(** C31. Agreement on the starting node: from the initial state, a successful
    reply of handler type FOX_END carries the five numbers of the first
    starting node that registered before it, so all ending nodes are sent the
    same address. *)
Theorem fox_end_agreement reply0 rqs s tbl s' reps :
  cf_tbl s = Some tbl → Z.of_nat (length tbl) < 2 ^ 32 →
  foxStartInfo s = fox_init →
  serve_all reply0 rqs s = (s', Ret reps) →
  (∀ i rep, reps !! i = Some rep → h_type rep = FOX_END →
     err rep = CONF_LOOKUP_SUCCESS →
     registered tbl (take i rqs) = Some (reply_params rep))
  ∧ (∀ i j rep rep', reps !! i = Some rep → reps !! j = Some rep' →
     h_type rep = FOX_END → err rep = CONF_LOOKUP_SUCCESS →
     h_type rep' = FOX_END → err rep' = CONF_LOOKUP_SUCCESS →
     reply_params rep = reply_params rep').
Proof.
  intros Et Hb Hf E.
  destruct (serve_all_served tbl reply0 rqs None s) as (s1 & reps1 & E1 & Hs);
    [done|done|by rewrite Hf|].
  rewrite E in E1. simplify_eq.
  assert (∀ i rep, reps1 !! i = Some rep → h_type rep = FOX_END →
     err rep = CONF_LOOKUP_SUCCESS →
     registered tbl (take i rqs) = Some (reply_params rep)) as HA
    by (intros i rep; apply (served_end tbl rqs None reps1 i rep Hs)).
  split; [exact HA|]. intros i j rep rep' Hi Hj Hh He Hh' He'.
  pose proof (registered_prefix _ _ _ _ (HA i rep Hi Hh He)) as R1.
  pose proof (registered_prefix _ _ _ _ (HA j rep' Hj Hh' He')) as R2.
  congruence.
Qed.

(** Selecting a table: with table names that occur at most once, the named
    table is selected when there is one, and the server exits with an error
    when there is none, leaving the selection as it was. *)
Theorem setConfigTable_selects cnf s :
  (count (λ t, String.eqb (table_name t) cnf) tables ≤ 1)%nat →
  match list_find (λ t, String.eqb (table_name t) cnf = true) tables with
  | Some (_, t) => ∃ y, setConfigTable cnf s
      = (set_srv_sys y (set_cf_tbl (Some (entries t)) s), Ret tt)
  | None => ∃ s', setConfigTable cnf s = (s', Fault (FExit EXIT_FAILURE))
      ∧ cf_tbl s' = cf_tbl s ∧ foxStartInfo s' = foxStartInfo s
  end.
Proof.
  intros Hc. unfold setConfigTable.
  pose proof (select_table_unique cnf tables false s ltac:(simpl; lia)) as E.
  destruct (list_find _ tables) as [[i t]|].
  - rewrite (bind_Ret _ _ _ _ _ E). cbn [negb when]. rewrite bind_ret_l.
    apply logConfigTableName_run.
  - rewrite (bind_Ret _ _ _ _ _ E). by eexists.
Qed.
End Server.

(** ** The tables of default_conf.h *)

(** A row is served as it is written: the number of parameters is the number of
    values, and they fit into the message. *)
Definition row_ok (it : conf_entry) : bool :=
  (Z.of_nat (length (ce_par_value it)) =? ce_nr_parameters it)
  && (ce_nr_parameters it <=? Z.of_nat conf_server_max_param).

(** A row is unreachable when an earlier row matches whenever it does. *)
Definition shadows (a b : conf_entry) : bool :=
  let covers x y := String.eqb x ".*" || String.eqb x y in
  covers (ce_ch_name a) (ce_ch_name b)
  && covers (ce_ch_dotted_quad a) (ce_ch_dotted_quad b)
  && covers (ce_ch_pid a) (ce_ch_pid b)
  && covers (ce_ch_tid a) (ce_ch_tid b)
  && covers (ce_ch_nr a) (ce_ch_nr b).

Fixpoint shadowed (seen l : list conf_entry) : list nat :=
  match l with
  | [] => []
  | it :: l =>
      (if existsb (λ x, shadows x it) seen then [length seen] else [])
      ++ shadowed (seen ++ [it]) l
  end.

Lemma match_expr_covers x y str :
  String.eqb x ".*" || String.eqb x y = true →
  match_expr str y = true → match_expr str x = true.
Proof.
  unfold match_expr. intros H. apply orb_true_iff in H as [H|H].
  - by rewrite H.
  - apply String.eqb_eq in H. by subst.
Qed.

Lemma shadows_match a b rq :
  shadows a b = true → entry_matches rq b = true → entry_matches rq a = true.
Proof.
  unfold shadows, entry_matches. rewrite !andb_true_iff.
  intros ((((H1 & H2) & H3) & H4) & H5) ((((? & ?) & ?) & ?) & ?).
  split_and!; by eapply match_expr_covers.
Qed.

Lemma shadowed_unreachable rq l seen j :
  j ∈ shadowed seen l → ∀ k it, j = (length seen + k)%nat → l !! k = Some it →
  entry_matches rq it = true → ∃ x, x ∈ seen ++ take k l ∧ entry_matches rq x = true.
Proof.
  revert seen. induction l as [|b l IH]; intros seen Hj k it Ek Hk Hm; [done|].
  simpl in Hj. apply elem_of_app in Hj as [Hj|Hj].
  - destruct (existsb _ seen) eqn:Ex; [|by apply not_elem_of_nil in Hj].
    apply list_elem_of_singleton in Hj. assert (k = 0%nat) as -> by lia.
    simpl in Hk. simplify_eq. apply existsb_exists in Ex as (x & Hx & Hs).
    apply list_elem_of_In in Hx. exists x. split; [set_solver|].
    by eapply shadows_match.
  - destruct k as [|k].
    { exfalso. assert (∀ sn m, m ∈ shadowed sn l → (length sn <= m)%nat) as Hge.
      { clear. induction l as [|c l IH]; intros sn m Hm; simpl in Hm.
        - by apply not_elem_of_nil in Hm.
        - apply elem_of_app in Hm as [Hm|Hm].
          + case_match; [set_solver|by apply not_elem_of_nil in Hm].
          + apply IH in Hm. rewrite length_app in Hm. simpl in Hm. lia. }
      apply Hge in Hj. rewrite length_app in Hj. simpl in Hj. lia. }
    destruct (IH (seen ++ [b]) Hj k it) as (x & Hx & Hxm);
      [rewrite length_app; simpl; lia|done|done|].
    exists x. split; [|done]. simpl. by rewrite <- app_assoc in Hx.
Qed.

Lemma default_conf_ok :
  Forall (λ t, forallb row_ok (entries t) = true
    ∧ Z.of_nat (length (entries t)) < 2 ^ 32
    ∧ (count (λ u, String.eqb (table_name u) (table_name t)) conf_tables = 1)%nat)
    conf_tables.
Proof. by_decide. Qed.

Section DefaultConf.
Context `{Env}.

(** C36. The shipped configuration is served as written: any of the tables can
    be selected by its name, and a request whose first matching row is of an
    ordinary handler type is sent exactly that row's handler type, log format
    and values. *)
Theorem default_conf_served t reply0 rq s s1 a i it :
  t ∈ conf_tables → setConfigTable conf_tables (table_name t) s = (s1, Ret tt) →
  first_match rq (entries t) = Some (i, it) →
  ce_h_type it ≠ FOX_START → ce_h_type it ≠ FOX_END →
  fox_rel (foxStartInfo s1) a →
  ∃ s' rep, serve conf_tables reply0 rq s1 = (s', Ret (rep, true))
    ∧ err rep = CONF_LOOKUP_SUCCESS ∧ h_type rep = ce_h_type it
    ∧ log_f rep = ce_log_f it ∧ reply_params rep = ce_par_value it.
Proof.
  intros Ht Es Em Hn1 Hn2 Hf.
  pose proof default_conf_ok as Hok. rewrite Forall_forall in Hok.
  destruct (Hok t Ht) as (Hrows & Hlen & Hone).
  pose proof (select_table_unique (table_name t) conf_tables false s
    ltac:(rewrite Hone; simpl; lia)) as Esel.
  assert (cf_tbl s1 = Some (entries t)) as Etbl.
  { unfold setConfigTable in Es. destruct (list_find _ conf_tables) as [[k u]|] eqn:Ef.
    - rewrite (bind_Ret _ _ _ _ _ Esel) in Es. cbn [negb when] in Es.
      rewrite bind_ret_l in Es.
      destruct (logConfigTableName_run (table_name t) (set_cf_tbl (Some (entries u)) s))
        as (y & Ey). rewrite Ey in Es. simplify_eq. simpl.
      apply list_find_Some in Ef as (Hk & Hu & _). apply String.eqb_eq in Hu.
      do 2 f_equal. apply list_elem_of_lookup_2 in Hk. clear -Ht Hk Hu.
      repeat (apply elem_of_cons in Ht as [->|Ht];
        [repeat (apply elem_of_cons in Hk as [->|Hk]; [done|]);
         by apply not_elem_of_nil in Hk|]).
      by apply not_elem_of_nil in Ht.
    - rewrite (bind_Ret _ _ _ _ _ Esel) in Es. by monad_simpl. }
  destruct (serve_run conf_tables reply0 rq s1 (entries t) a)
    as (s' & rep & E & _ & Hm); [done..|].
  rewrite Em in Hm. destruct Hm as [(ret & Hr1 & Hr2 & Hr3) _].
  assert (row_ok it = true) as Hrow.
  { apply list_find_Some in Em as (Hk & _ & _). rewrite forallb_forall in Hrows.
    by eapply Hrows, list_elem_of_In, list_elem_of_lookup_2. }
  apply andb_true_iff in Hrow as [Hl _]. apply Z.eqb_eq in Hl.
  assert (err rep = CONF_LOOKUP_SUCCESS ∧ reply_params rep = ce_par_value it)
    as [He Hp].
  { destruct (ce_h_type it); try done;
      destruct Hr3 as (_ & ? & _ & Hp); (split; [done|]; apply Hp; lia). }
  exists s', rep. rewrite E, He. by split_and!.
Qed.
End DefaultConf.

(** The two duplicates in table fox_test (rows 3 and 6, 0-indexed) are never
    the first match of any request. *)
Theorem fox_test_unreachable rq i it :
  first_match rq (entries fox_test) = Some (i, it) → i ≠ 3%nat ∧ i ≠ 6%nat.
Proof.
  assert (∀ j, j ∈ shadowed [] (entries fox_test) → i = j →
    first_match rq (entries fox_test) = Some (i, it) → False) as Hd.
  { intros j Hj -> Hm. apply list_find_Some in Hm as (Hk & Hm & Hfirst).
    destruct (shadowed_unreachable rq (entries fox_test) [] j Hj j it) as
      (x & Hx & Hxm); [done..|].
    apply list_elem_of_lookup in Hx as [k Hk']. simpl in Hk'.
    apply lookup_take_Some in Hk' as [Hk' Hlt]. by eapply Hfirst. }
  intros Hm. split; intros Hi; eapply Hd; try done; by_decide.
Qed.

(** ** Concrete runs *)
Definition demo_request (name : string) (n : Z) (par : list Z) : conf_req_msg :=
  ConfReqMsg name "10.0.0.7" 100 101 0 n par.

Definition demo_requests : list conf_req_msg :=
  [demo_request "fox_end" 0 []; demo_request "fox_start" 5 [0; 10; 0; 0; 7; 9000; 0];
   demo_request "fox_end" 0 []; demo_request "x" 0 [];
   demo_request "CampaignProcessor_NET_CONF" 0 [];
   demo_request "fox_start" 5 [0; 10; 0; 0; 8; 9000; 0];
   demo_request "fox_end" 0 []].

Definition demo_srv : srv :=
  set_cf_tbl (Some (entries fox_test)) (srv_init (sys_init true)).

Definition demo_reply : conf_reply_msg :=
  ConfReplyMsg 0 NULLH ASCII 0 [0; 0; 0; 0; 0; 0; 0].

Definition demo_replies : list conf_reply_msg :=
  match (@serve_all demo_env conf_tables demo_reply demo_requests demo_srv).2 with
  | Ret l => l
  | Fault _ => []
  end.

Lemma serve_all_refines_witness :
  ∃ s' reps, @serve_all demo_env conf_tables demo_reply demo_requests demo_srv
    = (s', Ret reps) ∧ served (entries fox_test) None demo_requests reps.
Proof.
  exact (@serve_all_refines demo_env conf_tables demo_reply demo_requests demo_srv
    (entries fox_test) None eq_refl eq_refl eq_refl).
Defined.

Lemma fox_end_agreement_witness :
  length demo_replies = 6%nat
  ∧ ∀ rep rep', demo_replies !! 2%nat = Some rep → demo_replies !! 4%nat = Some rep' →
    h_type rep = FOX_END → h_type rep' = FOX_END →
    err rep = CONF_LOOKUP_SUCCESS → err rep' = CONF_LOOKUP_SUCCESS →
    reply_params rep = reply_params rep'.
Proof.
  split; [by vm_compute|]. intros rep rep' H1 H2 H3 H4 H5 H6.
  destruct (@serve_all demo_env conf_tables demo_reply demo_requests demo_srv)
    as [s' [reps|f]] eqn:E; unfold demo_replies in *; rewrite E in *; [|done].
  simpl in *.
  destruct (@fox_end_agreement demo_env conf_tables demo_reply demo_requests demo_srv
    (entries fox_test) s' reps eq_refl eq_refl eq_refl E) as [_ HB].
  by apply (HB 2%nat 4%nat).
Defined.

Lemma setConfigTable_selects_witness :
  ∃ y, @setConfigTable demo_env conf_tables "gpio_test" demo_srv
    = (set_srv_sys y (set_cf_tbl (Some (entries gpio_test)) demo_srv), Ret tt).
Proof.
  exact (@setConfigTable_selects demo_env conf_tables "gpio_test" demo_srv
    ltac:(by_decide)).
Defined.

Lemma default_conf_served_witness :
  ∃ s' rep, @serve demo_env conf_tables demo_reply
      (demo_request "XoY 1000     32768" 0 [])
      ((@setConfigTable demo_env conf_tables "fox_test" demo_srv).1)
    = (s', Ret (rep, true))
    ∧ err rep = CONF_LOOKUP_SUCCESS ∧ h_type rep = XOY
    ∧ log_f rep = ASCII ∧ reply_params rep = [1000; 32768].
Proof.
  refine (@default_conf_served demo_env fox_test demo_reply
    (demo_request "XoY 1000     32768" 0 []) demo_srv _ None 11%nat
    (ConfEntry "XoY 1000     32768" ".*" ".*" ".*" ".*" XOY ASCII 2 [1000; 32768])
    _ _ _ _ _ _).
  - by apply (list_elem_of_lookup_2 _ 6%nat).
  - by vm_compute.
  - by vm_compute.
  - done.
  - done.
  - by vm_compute.
Defined.

Lemma fox_test_unreachable_witness :
  5%nat ≠ 3%nat ∧ 5%nat ≠ 6%nat.
Proof.
  exact (fox_test_unreachable (demo_request "CampaignProcessor_NET_CONF" 0 []) 5%nat
    (ConfEntry "CampaignProcessor_NET_CONF" ".*" ".*" ".*" ".*" FOX_END ASCII 5
       [0; 0; 0; 0; 0]) eq_refl).
Defined.
