(* ===== verification/NetClient.v ===== *)
(** * Asking for a channel configuration: getConfigFromServer of
    src/cp/config_server/net_conf.cpp

    The network is an instance of [ConfNet]: it delivers a request to an end
    point and brings back the reply, if one ever comes. ConfigServer.v's server
    is one such instance, and the two sides are proved to work together. *)
From S2P Require Import Prelude Util TimeStamp Platform Log Formats NetConf.
From S2P Require Import ConfTables ConfigServer.

Definition conf_server_default_ip : string := "10.140.2.1".
Definition conf_server_default_port : Z := 9100.

Class ConfNet (N : Type) := {
  ask : string → conf_req_msg → N → N * option conf_reply_msg;
  stale_par : list Z              (* the 7 uninitialised values of a request *)
}.

(** strncpy into a member of 128 characters: a longer string is not
    terminated, and reading it goes on into the [next] member. *)
Definition strncpy_field (s next : string) : string :=
  if (String.length s <? MAX_STR_SIZE)%nat then s
  else String.substring 0 MAX_STR_SIZE s +:+ next.

(** What a look-up yields: the return value, and the three results passed by
    reference. *)
Record conf_result := ConfResult {
  cr_ret : bool;
  cr_h : handler_type;
  cr_par : list Z;            (* int64_t par[8] *)
  cr_format : log_format
}.

Section NetClient.
Context `{Env} {N : Type} `{ConfNet N}.

Definition net_sys {A} (m : M sys A) : M (N * sys) A := zoom snd (λ y w, (w.1, y)) m.

Definition make_request (ch_name ch_dotted_quad : string)
    (ch_pid ch_tid ch_nr : Z) (par : list Z) : M (N * sys) conf_req_msg :=
  let n := arr_at par 0 in
  if (0 <? n) && (6 <? n) then undefined "par_value overrun"
  else if (MAX_STR_SIZE <=? String.length ch_dotted_quad)%nat
  then undefined "unterminated ch_dotted_quad"
  else
    mret (ConfReqMsg (strncpy_field ch_name ch_dotted_quad) ch_dotted_quad
      ch_pid ch_tid ch_nr (i32 n)
      (if 0 <? n then
         take 1 stale_par ++ take (Z.to_nat n) (drop 1 par)
         ++ drop (S (Z.to_nat n)) stale_par
       else stale_par)).

Definition GET_CONFIG_FAIL_ERR_MSG : string := "ERROR: getConfigFromServer failed: ".

Definition log_client (line : Z) (msg : string) : M (N * sys) unit :=
  net_sys (logStatus "config_server/net_conf.cpp" line msg).

(** Lines 97-137: the reply [msg] read into the results. *)
Definition read_reply (msg : conf_reply_msg) (h : handler_type) (par : list Z)
    (format : log_format) : M (N * sys) conf_result :=
  if bool_decide (handler_to_str (h_type msg) = None) || negb (err msg =? 0) then
    if err msg =? ERR_CONF_NOT_FOUND then
      log_client 103 (GET_CONFIG_FAIL_ERR_MSG
        +:+ "Configuration cannot be obtained (no matching entry for request)") ;;
      mret (ConfResult false h par format)
    else if err msg =? ERR_FOX_MULTIPE_START_NODE then
      log_client 108 (GET_CONFIG_FAIL_ERR_MSG
        +:+ "Multiple node request 'fox_start' handler") ;;
      mret (ConfResult false h par format)
    else if err msg =? ERR_FOX_INVALID_ARG then
      log_client 113 (GET_CONFIG_FAIL_ERR_MSG
        +:+ "'fox_start' handler need 5 parameters") ;;
      mret (ConfResult false h par format)
    else if err msg =? ERR_FOX_START_NOT_SET then
      log_client 118 (GET_CONFIG_FAIL_ERR_MSG
        +:+ "'fox_end' handler requested, but 'fox_start' is not set") ;;
      mret (ConfResult true (h_type msg) par format)
    else mret (ConfResult false h par format)
  else
    let n := Z.to_nat (nr_parameters msg) in
    if (length par <=? n)%nat then undefined "par overrun"
    else
      mret (ConfResult true (h_type msg)
        (nr_parameters msg :: map (arr_at (par_value msg)) (seq 0 n)
         ++ drop (S n) par)
        (log_f msg)).

Definition getConfigFromServer (sv_dotted_quad : string) (sv_port : Z)
    (ch_name ch_dotted_quad : string) (ch_pid ch_tid ch_nr : Z)
    (h : handler_type) (par : list Z) (format : log_format)
    : M (N * sys) conf_result :=
  req_msg ← make_request ch_name ch_dotted_quad ch_pid ch_tid ch_nr par;
  log_client 69 (conf_req_msg_toStr req_msg) ;;
  let ep := "tcp://" +:+ sv_dotted_quad +:+ ":" +:+ zstr sv_port in
  w ← get;
  let '(n', reply) := ask ep req_msg w.1 in
  modify (λ w, (n', w.2)) ;;
  match reply with
  | None => spin "no reply from the configuration server"
  | Some msg =>
      log_client 92 (conf_reply_msg_toStr msg) ;;
      read_reply msg h par format
  end.

(** The overload a channel uses. *)
Definition getConfigFromDefaultServer (ch_name : string) (ch_nr : Z)
    (h : handler_type) (par : list Z) (format : log_format)
    : M (N * sys) conf_result :=
  '(rc, quad) ← net_sys getIPDottedQuad;
  ch_dotted_quad ←
    (if negb (rc =? 0) then
       net_sys (logFail "config_server/net_conf.cpp" 33
         "unable to obtain channel's IP address") ;;
       mret "NO.IP.ADDR"
     else mret quad);
  getConfigFromServer conf_server_default_ip conf_server_default_port ch_name
    ch_dotted_quad (u32 getpid) (u32 gettid) ch_nr h par format.

(** ** Lemmas *)
Lemma log_client_run {A} line msg (k : unit → M (N * sys) A) n y :
  ∃ y', (log_client line msg ≫= k) (n, y) = k tt (n, y') ∧ log_only y y'.
Proof.
  destruct (logStatus_frame "config_server/net_conf.cpp" line msg y) as (y' & E & L).
  exists y'. split; [|done]. unfold log_client, net_sys. monad_simpl. by rewrite E.
Qed.

Ltac client_log :=
  match goal with
  | |- context [mbind ?k (log_client ?l ?m) (?a, ?b)] =>
      let y := fresh "y" in let E := fresh "El" in let L := fresh "L" in
      destruct (log_client_run l m k a b) as (y & E & L); rewrite E; clear E
  end.

(** What the client makes of a reply. *)
Definition client_result (msg : conf_reply_msg) (h : handler_type)
    (par : list Z) (format : log_format) : conf_result :=
  if err msg =? CONF_LOOKUP_SUCCESS then
    ConfResult true (h_type msg)
      (nr_parameters msg
       :: map (arr_at (par_value msg)) (seq 0 (Z.to_nat (nr_parameters msg)))
       ++ drop (S (Z.to_nat (nr_parameters msg))) par)
      (log_f msg)
  else if err msg =? ERR_FOX_START_NOT_SET then
    ConfResult true (h_type msg) par format
  else ConfResult false h par format.

Lemma read_reply_spec msg h par format n y :
  (Z.to_nat (nr_parameters msg) < length par)%nat →
  ∃ y', read_reply msg h par format (n, y)
      = ((n, y'), Ret (client_result msg h par format)) ∧ log_only y y'.
Proof.
  intros Hn. unfold read_reply, client_result, CONF_LOOKUP_SUCCESS.
  rewrite bool_decide_eq_false_2
    by (destruct (handler_to_str_total (h_type msg)) as [? ->]; done). simpl orb.
  destruct (Z.eqb_spec (err msg) 0) as [E0|E0]; cbn [negb orb]; cbv iota.
  - destruct (length par <=? _)%nat eqn:El; [|by exists y].
    apply Nat.leb_le in El. lia.
  - destruct (Z.eqb_spec (err msg) ERR_CONF_NOT_FOUND) as [->|E1].
    { cbv iota. client_log. by eexists. }
    destruct (Z.eqb_spec (err msg) ERR_FOX_MULTIPE_START_NODE) as [->|E2].
    { cbv iota. client_log. by eexists. }
    destruct (Z.eqb_spec (err msg) ERR_FOX_INVALID_ARG) as [->|E3].
    { cbv iota. client_log. by eexists. }
    destruct (Z.eqb_spec (err msg) ERR_FOX_START_NOT_SET) as [E4|E4]; [|by exists y].
    cbv iota. client_log. by eexists.
Qed.

(** A request within the bounds of the message, answered. *)
Definition request_of (ch_name ch_dotted_quad : string)
    (ch_pid ch_tid ch_nr : Z) (par : list Z) : conf_req_msg :=
  let n := arr_at par 0 in
  ConfReqMsg ch_name ch_dotted_quad ch_pid ch_tid ch_nr n
    (if 0 <? n then
       take 1 stale_par ++ take (Z.to_nat n) (drop 1 par)
       ++ drop (S (Z.to_nat n)) stale_par
     else stale_par).

Lemma make_request_spec name quad pid tid nr par w :
  (String.length name < MAX_STR_SIZE)%nat → (String.length quad < MAX_STR_SIZE)%nat →
  -1 ≤ arr_at par 0 ≤ 6 →
  make_request name quad pid tid nr par w
  = (w, Ret (request_of name quad pid tid nr par)).
Proof.
  intros Hname Hquad Hpar. unfold make_request, request_of, strncpy_field. cbv zeta.
  replace (6 <? arr_at par 0) with false by lia. rewrite andb_false_r.
  replace (MAX_STR_SIZE <=? String.length quad)%nat with false
    by (symmetry; apply Nat.leb_gt; done).
  replace (String.length name <? MAX_STR_SIZE)%nat with true
    by (symmetry; apply Nat.ltb_lt; done).
  by rewrite (wrapS_small 32) by (simpl Z.sub; pow2; lia).
Qed.

Lemma getConfigFromServer_spec ip port name quad pid tid nr h par format n n' y msg :
  (String.length name < MAX_STR_SIZE)%nat → (String.length quad < MAX_STR_SIZE)%nat →
  -1 ≤ arr_at par 0 ≤ 6 →
  ask ("tcp://" +:+ ip +:+ ":" +:+ zstr port)
    (request_of name quad pid tid nr par) n = (n', Some msg) →
  (Z.to_nat (nr_parameters msg) < length par)%nat →
  ∃ y', getConfigFromServer ip port name quad pid tid nr h par format (n, y)
      = ((n', y'), Ret (client_result msg h par format)) ∧ log_only y y'.
Proof.
  intros Hname Hquad Hpar Hask Hlen. unfold getConfigFromServer.
  rewrite (bind_Ret _ _ _ _ _
    (make_request_spec name quad pid tid nr par (n, y) Hname Hquad Hpar)).
  client_log.
  rewrite (bind_Ret get _ (n, y0) (n, y0) (n, y0)) by done. cbn [fst].
  rewrite Hask.
  rewrite (bind_Ret (modify _) _ (n, y0) (n', y0) tt) by done.
  client_log.
  destruct (read_reply_spec msg h par format n' y1 Hlen) as (y3 & -> & L3).
  exists y3. split; [done|]. by do 2 (etrans; [done|]).
Qed.

(** The overload of a channel asks the default server with the address, process
    and thread of the channel; without an address it asks with a placeholder. *)
Definition own_quad (y : sys) : string :=
  match (getIPDottedQuad y).2 with
  | Ret (0, q) => q
  | _ => "NO.IP.ADDR"
  end.

Definition default_ep : string :=
  "tcp://" +:+ conf_server_default_ip +:+ ":" +:+ zstr conf_server_default_port.

Definition own_request (ch_name : string) (ch_nr : Z) (par : list Z) (y : sys)
    : conf_req_msg :=
  request_of ch_name (own_quad y) (u32 getpid) (u32 gettid) ch_nr par.

Lemma getConfigFromDefaultServer_spec name nr h par format n n' y msg :
  (String.length name < MAX_STR_SIZE)%nat →
  (String.length (own_quad y) < MAX_STR_SIZE)%nat →
  -1 ≤ arr_at par 0 ≤ 6 →
  ask default_ep (own_request name nr par y) n = (n', Some msg) →
  (Z.to_nat (nr_parameters msg) < length par)%nat →
  ∃ y', getConfigFromDefaultServer name nr h par format (n, y)
      = ((n', y'), Ret (client_result msg h par format)) ∧ log_only y y'.
Proof.
  intros Hname Hquad Hpar Hask Hlen. unfold getConfigFromDefaultServer.
  unfold own_request, own_quad in *.
  destruct (getIPDottedQuad_frame y) as (y1 & [z q] & E & L & _).
  rewrite E in *. cbn [snd] in *.
  rewrite (bind_Ret (net_sys getIPDottedQuad) _ (n, y) (n, y1) (z, q))
    by (unfold net_sys, zoom; simpl; by rewrite E).
  cbv beta iota. destruct (Z.eqb_spec z 0) as [->|Hz].
  - cbn [negb]. rewrite bind_ret_l.
    destruct (getConfigFromServer_spec conf_server_default_ip
      conf_server_default_port name q (u32 getpid) (u32 gettid) nr h par format
      n n' y1 msg) as (y2 & -> & L2); try done.
    exists y2. split; [done|]. by etrans.
  - cbn [negb].
    assert (∃ y2, (net_sys (logFail "config_server/net_conf.cpp" 33
         "unable to obtain channel's IP address") ;; mret "NO.IP.ADDR") (n, y1)
       = ((n, y2), Ret "NO.IP.ADDR") ∧ log_only y1 y2) as (y2 & E2 & L2).
    { destruct (logFail_frame "config_server/net_conf.cpp" 33
        "unable to obtain channel's IP address" y1) as (y2 & E2 & L2).
      exists y2. split; [|done]. unfold net_sys. monad_simpl. by rewrite E2. }
    rewrite (bind_Ret _ _ _ _ _ E2).
    destruct (getConfigFromServer_spec conf_server_default_ip
      conf_server_default_port name "NO.IP.ADDR" (u32 getpid) (u32 gettid) nr h
      par format n n' y2 msg) as (y3 & -> & L3);
      [done|unfold MAX_STR_SIZE; simpl; lia|done|by destruct z|done|].
    exists y3. split; [done|]. by do 2 (etrans; [done|]).
Qed.
End NetClient.

(** ** The server of ConfigServer.v at the default end point

    The server is a process of its own, with its own environment; it stops
    answering when its loop has ended. [reply0] is the uninitialised reply. *)
Definition conf_service (ES : Env) (tables : list conf_table)
    (reply0 : conf_reply_msg) (stale : list Z) : ConfNet (srv * bool) := {|
  ask ep rq st :=
    if String.eqb ep default_ep && st.2 then
      match @serve ES tables reply0 rq st.1 with
      | (s, Ret (rep, continue)) => ((s, continue), Some rep)
      | (s, Fault _) => ((s, false), None)
      end
    else (st, None);
  stale_par := stale
|}.

Lemma map_arr_at l n : (n <= length l)%nat → map (arr_at l) (seq 0 n) = take n l.
Proof.
  intros Hn. apply list_eq. intros i. rewrite list_lookup_fmap.
  destruct (decide (i < n)%nat) as [Hi|Hi].
  - rewrite lookup_seq_lt, lookup_take_lt by done. simpl. unfold arr_at.
    destruct (lookup_lt_is_Some_2 l i ltac:(lia)) as [v Hv].
    by rewrite Hv, (nth_lookup_Some _ _ _ _ Hv).
  - rewrite lookup_seq_ge by lia. symmetry. apply lookup_ge_None.
    rewrite length_take. lia.
Qed.

Section EndToEnd.
Context (ES EC : Env) (tables : list conf_table) (reply0 : conf_reply_msg)
  (stale : list Z).
Local Instance the_net : ConfNet (srv * bool) :=
  conf_service ES tables reply0 stale.

(** The service answers a request as [serve_run] says. *)
Lemma ask_service rq s tbl a :
  cf_tbl s = Some tbl → Z.of_nat (length tbl) < 2 ^ 32 →
  fox_rel (foxStartInfo s) a →
  ∃ s' rep, ask default_ep rq (s, true)
      = ((s', negb (err rep =? ERR_FOX_MULTIPE_START_NODE)), Some rep)
    ∧ cf_tbl s' = Some tbl
    ∧ match first_match rq tbl with
      | Some (_, it) => (∃ ret, reply_spec a it ret rep)
          ∧ fox_rel (foxStartInfo s') (fox_spec a rq (ce_h_type it))
      | None => err rep = ERR_CONF_NOT_FOUND ∧ nr_parameters rep = 0
          ∧ fox_rel (foxStartInfo s') a
      end.
Proof.
  intros Et Hb Hf.
  destruct (@serve_run ES tables reply0 rq s tbl a) as (s' & rep & E & Et' & Hm);
    [done..|].
  exists s', rep. simpl. rewrite E. by split_and!.
Qed.

Lemma reply_spec_ordinary a it ret rep :
  reply_spec a it ret rep → row_ok it = true →
  ce_h_type it ≠ FOX_START → ce_h_type it ≠ FOX_END →
  err rep = CONF_LOOKUP_SUCCESS ∧ h_type rep = ce_h_type it
  ∧ log_f rep = ce_log_f it ∧ nr_parameters rep = ce_nr_parameters it
  ∧ map (arr_at (par_value rep)) (seq 0 (Z.to_nat (nr_parameters rep)))
    = ce_par_value it.
Proof.
  intros (Hh & Hl & Hm) Hrow H1 H2. apply andb_true_iff in Hrow as [Hrow _].
  apply Z.eqb_eq in Hrow.
  assert (err rep = CONF_LOOKUP_SUCCESS
    ∧ nr_parameters rep = ce_nr_parameters it
    ∧ reply_params rep = ce_par_value it) as (He & Hn & Hp).
  { destruct (ce_h_type it); try done;
      destruct Hm as (_ & ? & ? & Hp); (split_and!; [done|done|apply Hp; lia]). }
  split_and!; try done. unfold reply_params in Hp. rewrite map_arr_at; [done|].
  apply (f_equal length) in Hp. rewrite length_take in Hp. lia.
Qed.

(** C20. From table row to channel: a channel that asks the running server gets
    the handler type, the log format and, in [par], the number of values and
    the values of the first row that matches it; rows of type FOX_START and
    FOX_END aside, neither the server nor the registration changes. *)
Theorem net_conf_end_to_end name nr h par format s y tbl a i it :
  cf_tbl s = Some tbl → Z.of_nat (length tbl) < 2 ^ 32 →
  fox_rel (foxStartInfo s) a →
  (String.length name < MAX_STR_SIZE)%nat →
  (String.length (own_quad y) < MAX_STR_SIZE)%nat →
  arr_at par 0 = 0 → length par = S conf_server_max_param →
  first_match (own_request name nr par y) tbl = Some (i, it) →
  row_ok it = true → ce_h_type it ≠ FOX_START → ce_h_type it ≠ FOX_END →
  ∃ s' y', getConfigFromDefaultServer name nr h par format ((s, true), y)
      = (((s', true), y'),
         Ret (ConfResult true (ce_h_type it)
           (ce_nr_parameters it :: ce_par_value it
            ++ drop (S (length (ce_par_value it))) par)
           (ce_log_f it)))
    ∧ cf_tbl s' = Some tbl ∧ fox_rel (foxStartInfo s') a.
Proof.
  intros Et Hb Hf Hn Hq Hp0 Hpl Hm Hrow H1 H2.
  destruct (ask_service (own_request name nr par y) s tbl a)
    as (s' & rep & Ea & Et' & Hr); [done..|].
  rewrite Hm in Hr. destruct Hr as [(ret & Hr) Hf'].
  destruct (reply_spec_ordinary a it ret rep Hr Hrow H1 H2)
    as (He & Hh & Hl & Hnr & Hpar).
  apply andb_true_iff in Hrow as [Hlen Hmax].
  apply Z.eqb_eq in Hlen. apply Z.leb_le in Hmax.
  rewrite He in Ea. simpl in Ea.
  destruct (getConfigFromDefaultServer_spec name nr h par format (s, true)
    (s', true) y rep) as (y' & E & _);
    [done|done|lia|exact Ea|rewrite Hnr, Hpl; unfold conf_server_max_param in *; lia|].
  exists s', y'. rewrite E. split_and!; [|done|].
  - unfold client_result. rewrite He, Hpar, Hh, Hl, Hnr.
    by replace (Z.to_nat (ce_nr_parameters it)) with (length (ce_par_value it)) by lia.
  - assert (fox_spec a (own_request name nr par y) (ce_h_type it) = a) as E2
      by (destruct (ce_h_type it), a; done).
    by rewrite E2 in Hf'.
Qed.
End EndToEnd.

Definition demo_row : conf_entry :=
  ConfEntry "XoY 1000     32768" ".*" ".*" ".*" ".*" XOY ASCII 2 [1000; 32768].

Lemma net_conf_end_to_end_witness :
  ∃ s' y', @getConfigFromDefaultServer demo_env _
      (conf_service demo_env conf_tables demo_reply [1; 2; 3; 4; 5; 6; 7])
      "XoY 1000     32768" 3 NET_CONF [0; 9; 9; 9; 9; 9; 9; 9] BINARY
      ((demo_srv, true), sys_init true)
    = (((s', true), y'),
       Ret (ConfResult true XOY [2; 1000; 32768; 9; 9; 9; 9; 9] ASCII))
    ∧ cf_tbl s' = Some (entries fox_test) ∧ fox_rel (foxStartInfo s') None.
Proof.
  refine (@net_conf_end_to_end demo_env demo_env conf_tables demo_reply
    [1; 2; 3; 4; 5; 6; 7] "XoY 1000     32768" 3 NET_CONF
    [0; 9; 9; 9; 9; 9; 9; 9] BINARY demo_srv (sys_init true) (entries fox_test)
    None 11%nat demo_row _ _ _ _ _ _ _ _ _ _ _); try done; try by vm_compute.
  all: unfold MAX_STR_SIZE; simpl; lia.
Defined.
