(* ===== verification/ConfMain.v ===== *)
(** * The programs config_server and config_client:
    src/cp/config_server/config_server.cpp and config_client.cpp

    The main functions, around the server loop of ConfigServer.v and the look-up of
    NetClient.v. What cxxopts makes of the command line is a record of the options
    given, [None] when it throws. *)
From S2P Require Import Prelude Util TimeStamp Platform Log Formats NetConf.
From S2P Require Import ConfTables ConfigServer NetClient.

(** ** config_server *)

(** The server with the end point its socket is bound to and the replies sent. *)
Record cs_world := CsWorld {
  cs_srv : srv;
  cs_bound : option string;
  cs_sent : list conf_reply_msg
}.

Definition set_cs_srv x w := CsWorld x (cs_bound w) (cs_sent w).
Definition set_cs_bound x w := CsWorld (cs_srv w) x (cs_sent w).
Definition add_cs_sent r w := CsWorld (cs_srv w) (cs_bound w) (cs_sent w ++ [r]).

Record server_options := ServerOptions {
  so_help : bool;             (* -h *)
  so_positional : bool;       (* arguments that are not options *)
  so_console : option bool;
  so_cnf : option string;
  so_port : option Z
}.

(** "Console log: enabled" or "disabled", in two writes to standard output. *)
Definition say (line : string) : M sys unit :=
  modify (λ s, set_console (console s ++ [line]) s).

Section ServerMain.
Context `{Env} (tables : list conf_table) (reply0 : conf_reply_msg).
(** options.help(), and the end points a socket can be bound to. *)
Context (help_text : string) (bindable : string → bool).

Definition cs_on {A} (m : M srv A) : M cs_world A := zoom cs_srv set_cs_srv m.
Definition cs_log {A} (m : M sys A) : M cs_world A := cs_on (srv_log m).

(** The port of the options, -1 standing for the default. *)
Definition server_port (o : server_options) : Z :=
  let port_number := default (-1) (so_port o) in
  if port_number =? -1 then conf_server_default_port else port_number.

Definition server_ep (o : server_options) : string := "tcp://*:" +:+ zstr (server_port o).

(** socket.bind throws when the end point is taken. *)
Definition bind_server (ep : string) : M cs_world unit :=
  if bindable ep then modify (set_cs_bound (Some ep))
  else abort "an exception of zmq::socket_t::bind".

(** The loop on the requests that arrive; after the last one it waits for ever. *)
Fixpoint server_loop (rqs : list conf_req_msg) : M cs_world unit :=
  match rqs with
  | [] => spin "no request"
  | rq :: rqs =>
      '(rep, continue) ← cs_on (serve tables reply0 rq);
      modify (add_cs_sent rep) ;;
      if continue : bool then server_loop rqs else mret tt
  end.

(** Everything before the socket is bound. *)
Definition server_setup (o : server_options) : M cs_world unit :=
  let console_log := default false (so_console o) in
  when (so_help o || so_positional o)
    (cs_log (say (help_text +:+ nl)) ;; exit EXIT_FAILURE) ;;
  cs_log (setLogFileName "/tmp/conf_server") ;;
  cs_log (toggleConsoleLog console_log) ;;
  cs_log openStatusLogFile ;;
  cs_log (say "Console log: ") ;;
  cs_log (say ((if console_log then "enabled" else "disabled") +:+ nl)) ;;
  cs_on (match so_cnf o with
         | Some cnf => setConfigTable tables cnf
         | None => setDefaultConfigTable tables
         end).

(** main; [serve] closes the log file when it ends the service. *)
Definition config_server_main (o : option server_options) (rqs : list conf_req_msg)
    : M cs_world Z :=
  match o with
  | None => abort "an exception of the option parser"
  | Some o =>
      server_setup o ;;
      bind_server (server_ep o) ;;
      server_loop rqs ;;
      mret 0
  end.

(** *** The specification *)

(** The table the options ask for. *)
Definition wanted_name (o : server_options) : option string :=
  match so_cnf o with Some cnf => Some cnf | None => table_name <$> head tables end.
Definition wanted_table (o : server_options) : option conf_table :=
  match so_cnf o with
  | Some cnf => snd <$> list_find (λ t, String.eqb (table_name t) cnf = true) tables
  | None => head tables
  end.

(** The service ends with a second starting node. *)
Definition service_ended (reps : list conf_reply_msg) : bool :=
  existsb (λ rep, err rep =? ERR_FOX_MULTIPE_START_NODE) reps.

(** *** Lemmas *)
Lemma server_loop_served tbl rqs : ∀ a w,
  cf_tbl (cs_srv w) = Some tbl → Z.of_nat (length tbl) < 2 ^ 32 →
  fox_rel (foxStartInfo (cs_srv w)) a →
  ∃ s' reps, server_loop rqs w
    = (CsWorld s' (cs_bound w) (cs_sent w ++ reps),
       if service_ended reps then Ret tt else Fault (FSpin "no request"))
    ∧ served tbl a rqs reps.
Proof.
  induction rqs as [|rq rqs IH]; intros a [s ep sent] Et Hb Hf;
    cbn [cs_srv cs_bound cs_sent] in *.
  { exists s, []. by rewrite app_nil_r. }
  destruct (serve_run tables reply0 rq s tbl a) as (s1 & rep & E & Et1 & Hm); [done..|].
  assert (cs_on (serve tables reply0 rq) (CsWorld s ep sent)
    = (CsWorld s1 ep sent, Ret (rep, negb (err rep =? ERR_FOX_MULTIPE_START_NODE)))) as E1
    by (unfold cs_on, zoom; simpl; by rewrite E).
  cbn [server_loop]. rewrite (bind_Ret _ _ _ _ _ E1). cbv beta iota.
  rewrite (bind_Ret (modify _) _ _ _ tt eq_refl). unfold add_cs_sent. cbn [cs_srv cs_bound cs_sent].
  destruct (err rep =? ERR_FOX_MULTIPE_START_NODE) eqn:Ee; cbn [negb].
  - exists s1, [rep]. unfold service_ended. simpl. rewrite Ee. split; [done|].
    apply Z.eqb_eq in Ee. destruct (first_match rq tbl) as [[n it]|].
    + destruct Hm. split; [done|]. by rewrite decide_True.
    + destruct Hm as [Hm _]. by rewrite Ee in Hm.
  - assert (∀ a', fox_rel (foxStartInfo s1) a' →
      (∀ reps, served tbl a' rqs reps → served tbl a (rq :: rqs) (rep :: reps)) →
      ∃ s' reps, server_loop rqs (CsWorld s1 ep (sent ++ [rep]))
        = (CsWorld s' ep (sent ++ reps),
           if service_ended reps then Ret tt else Fault (FSpin "no request"))
        ∧ served tbl a (rq :: rqs) reps) as Hgo.
    { intros a' Hf1 Hs. destruct (IH a' (CsWorld s1 ep (sent ++ [rep])) Et1 Hb Hf1)
        as (s2 & reps & E2 & Hr).
      exists s2, (rep :: reps). rewrite E2. cbn [cs_bound cs_sent]. rewrite <- app_assoc.
      split; [|by apply Hs]. unfold service_ended. simpl. by rewrite Ee. }
    apply Z.eqb_neq in Ee. destruct (first_match rq tbl) as [[n it]|] eqn:Em.
    + destruct Hm as [Hr Hf1]. apply (Hgo _ Hf1). intros reps Hs. cbn [served]. rewrite Em.
      split; [done|]. by rewrite decide_False.
    + destruct Hm as (Hr & _ & Hf1). apply (Hgo _ Hf1). intros reps Hs. cbn [served]. by rewrite Em.
Qed.

(** Steps that only log. *)
Definition only_sys (w w' : cs_world) : Prop :=
  ∃ y, w' = set_cs_srv (set_srv_sys y (cs_srv w)) w.

Lemma only_sys_trans w1 w2 w3 : only_sys w1 w2 → only_sys w2 w3 → only_sys w1 w3.
Proof. intros [y ->] [z ->]. by exists z. Qed.

Lemma cs_log_run (m : M sys unit) {A} (k : unit → M cs_world A) w :
  (∀ y, (m y).2 = Ret tt) → ∃ w', (cs_log m ≫= k) w = k tt w' ∧ only_sys w w'.
Proof.
  intros Hm. specialize (Hm (srv_sys (cs_srv w))).
  destruct (m (srv_sys (cs_srv w))) as [y r] eqn:E. simpl in Hm. subst r.
  exists (set_cs_srv (set_srv_sys y (cs_srv w)) w). split; [|by exists y].
  apply bind_Ret. unfold cs_log, cs_on, srv_log, zoom. by rewrite E.
Qed.

Lemma openStatusLogFile_total y : (openStatusLogFile y).2 = Ret tt.
Proof. by destruct (openStatusLogFile_frame y) as (y' & -> & _). Qed.

Lemma set_default_selects t0 s :
  head tables = Some t0 →
  (count (λ t, String.eqb (table_name t) (table_name t0)) tables ≤ 1)%nat →
  ∃ y, setDefaultConfigTable tables s
       = (set_srv_sys y (set_cf_tbl (Some (entries t0)) s), Ret tt).
Proof.
  unfold setDefaultConfigTable. destruct tables as [|t rest]; [done|].
  intros [= ->] Hc. rewrite (bind_Ret (modify _) _ _ _ tt eq_refl).
  unfold count in Hc. simpl in Hc. rewrite String.eqb_refl in Hc. simpl in Hc.
  assert (existsb (λ t, String.eqb (table_name t) (table_name t0)) rest = false) as ->.
  { apply not_true_is_false. intros Hx. apply existsb_exists in Hx as (x & Hin & Hx).
    apply in_split in Hin as (l1 & l2 & ->).
    rewrite List.filter_app, length_app in Hc. simpl in Hc. rewrite Hx in Hc. simpl in Hc. lia. }
  cbn [when]. rewrite bind_ret_l. apply logConfigTableName_run.
Qed.

Lemma select_wanted o t s :
  wanted_table o = Some t →
  (count (λ u, String.eqb (table_name u) (table_name t)) tables ≤ 1)%nat →
  ∃ y, (match so_cnf o with
        | Some cnf => setConfigTable tables cnf
        | None => setDefaultConfigTable tables
        end) s = (set_srv_sys y (set_cf_tbl (Some (entries t)) s), Ret tt).
Proof.
  unfold wanted_table. destruct (so_cnf o) as [cnf|].
  - destruct (list_find _ tables) as [[i u]|] eqn:El; [|done]. intros [= ->] Hc.
    apply list_find_Some in El as El'. destruct El' as (_ & Hn & _).
    apply String.eqb_eq in Hn. subst cnf.
    pose proof (setConfigTable_selects tables (table_name t) s Hc) as Hs.
    by rewrite El in Hs.
  - by apply set_default_selects.
Qed.

Ltac log_step :=
  match goal with |- context [(cs_log ?m ≫= ?k) ?w] =>
    let E := fresh "E" in
    destruct (cs_log_run m k w) as (? & E & [? ->]);
      [done || apply openStatusLogFile_total|rewrite E; clear E]
  end.

Lemma server_setup_selects o t w :
  so_help o = false → so_positional o = false → wanted_table o = Some t →
  (count (λ u, String.eqb (table_name u) (table_name t)) tables ≤ 1)%nat →
  ∃ y, server_setup o w
    = (set_cs_srv (set_srv_sys y (set_cf_tbl (Some (entries t)) (cs_srv w))) w, Ret tt).
Proof.
  intros Hh Hp Ht Hc. unfold server_setup. rewrite Hh, Hp. cbn [orb when]. rewrite bind_ret_l.
  do 5 log_step.
  match goal with |- context [cs_on ?m ?w5] =>
    destruct (select_wanted o t (cs_srv w5) Ht Hc) as (y & E) end.
  exists y. unfold cs_on, zoom. rewrite E. done.
Qed.

(** C17. config_server does what its command line and its tables say: with the
    options read, the table they name (the first one by default) in the list once,
    and its port free, the program binds that port and sends for the requests that
    arrive, in their order, the replies of the contract [served]: from the first
    matching row of that table, the not-found error where none matches, the
    address of the one starting node for fox ends. It returns 0 when a second
    starting node ended the service, and otherwise waits for the next request. *)
Theorem config_server_main_serves o t rqs w :
  so_help o = false → so_positional o = false → wanted_table o = Some t →
  (count (λ u, String.eqb (table_name u) (table_name t)) tables ≤ 1)%nat →
  Z.of_nat (length (entries t)) < 2 ^ 32 →
  foxStartInfo (cs_srv w) = fox_init → cs_sent w = [] →
  bindable (server_ep o) = true →
  ∃ w', config_server_main (Some o) rqs w
      = (w', if service_ended (cs_sent w') then Ret 0 else Fault (FSpin "no request"))
    ∧ cs_bound w' = Some (server_ep o)
    ∧ served (entries t) None rqs (cs_sent w').
Proof.
  intros Hh Hp Ht Hc Hl Hf Hs Hb. unfold config_server_main.
  destruct (server_setup_selects o t w) as (y & E); [done..|].
  rewrite (bind_Ret _ _ _ _ _ E). unfold bind_server. rewrite Hb.
  rewrite (bind_Ret (modify _) _ _ _ tt eq_refl).
  match goal with |- context [(server_loop rqs ≫= _) ?w1] =>
    destruct (server_loop_served (entries t) rqs None w1) as (s' & reps & E1 & Hr);
      [done|done|by simpl; rewrite Hf|] end.
  cbn [cs_bound cs_sent set_cs_bound set_cs_srv] in E1. rewrite Hs in E1.
  exists (CsWorld s' (Some (server_ep o)) reps). split; [|done].
  unfold mbind, M_bind. rewrite E1. simpl. by destruct (service_ended reps).
Qed.

Lemma missing_table_exits cnf s :
  (∀ t, t ∈ tables → table_name t ≠ cnf) →
  ∃ s', setConfigTable tables cnf s = (s', Fault (FExit EXIT_FAILURE)).
Proof.
  intros Hno.
  assert (list_find (λ t, String.eqb (table_name t) cnf = true) tables = None) as El.
  { apply list_find_None, Forall_forall. intros t Ht Hq. apply String.eqb_eq in Hq.
    by apply (Hno t). }
  assert (count (λ t, String.eqb (table_name t) cnf) tables ≤ 1)%nat as Hc.
  { clear El. induction tables as [|t l IH]; [apply Nat.le_0_l|]. unfold count in *. simpl.
    rewrite (proj2 (String.eqb_neq _ _)) by (apply Hno; left).
    apply IH. intros u Hu. apply Hno. by right. }
  pose proof (setConfigTable_selects tables cnf s Hc) as Hs. rewrite El in Hs.
  destruct Hs as (s' & E & _). by exists s'.
Qed.

(** It answers nobody when the command line is not understood, asks for help, names
    a table that is not there, or a port that is taken. *)
Lemma config_server_main_refuses o rqs w :
  (match o with
   | None => True
   | Some o => so_help o = true ∨ so_positional o = true
               ∨ bindable (server_ep o) = false
               ∨ ∃ cnf, so_cnf o = Some cnf ∧ ∀ t, t ∈ tables → table_name t ≠ cnf
   end) →
  ∃ w' f, config_server_main o rqs w = (w', Fault f) ∧ cs_sent w' = cs_sent w.
Proof.
  destruct o as [o|]; [|intros _; by do 2 eexists]. intros Ho.
  unfold config_server_main.
  assert (∃ w1 r, server_setup o w = (w1, r) ∧ cs_sent w1 = cs_sent w
    ∧ (bindable (server_ep o) = true → ∃ f, r = Fault f)) as (w1 & r & E & Es & Hr).
  { unfold server_setup. destruct (so_help o || so_positional o) eqn:Eh.
    { do 2 eexists. split_and!; [reflexivity|done|by eexists]. }
    apply orb_false_iff in Eh as [E1 E2]. cbn [when]. rewrite bind_ret_l. do 5 log_step.
    unfold cs_on, zoom.
    match goal with |- context [(match so_cnf o with _ => _ end) ?s] =>
      destruct ((match so_cnf o with
                 | Some cnf => setConfigTable tables cnf
                 | None => setDefaultConfigTable tables
                 end) s) as [s' r] eqn:Er end.
    do 2 eexists. split_and!; [reflexivity|done|]. intros Hb.
    destruct Ho as [Ho|[Ho|[Ho|(cnf & Ec & Hno)]]]; [congruence..|].
    rewrite Ec in Er. eapply missing_table_exits in Hno. destruct Hno as [s2 Hno].
    rewrite Hno in Er. simplify_eq. by eexists. }
  destruct r as [[]|f]; [|by do 2 eexists; unfold mbind, M_bind; rewrite E].
  rewrite (bind_Ret _ _ _ _ _ E). unfold bind_server.
  destruct (bindable (server_ep o)); [by destruct (Hr eq_refl)|]. by do 2 eexists.
Qed.
End ServerMain.

(** ** config_client *)
Record client_options := ClientOptions {
  co_help : bool;
  co_ch_name : option string;
  co_ch_ip : option string;
  co_ch_pid : option Z;        (* uint32_t *)
  co_ch_tid : option Z;
  co_ch_nr : option Z;
  co_sv_ip : option string;
  co_sv_p : option Z;
  co_console : option bool
}.

Section ClientMain.
Context `{Env} {N : Type} `{ConfNet N} (help_text : string).

Definition channel_ip (o : client_options) : M (N * sys) string :=
  match co_ch_ip o with
  | Some quad => mret quad
  | None =>
      '(rc, tmp_buf) ← net_sys getIPDottedQuad;
      if rc =? 0 then mret tmp_buf
      else
        net_sys (logFail "config_client.cpp" 85 "unable to obtain IP address") ;;
        mret "NO.IP.ADDR"
  end.

(** main; [h], [par] (7 numbers) and [log_f] are never initialised. *)
Definition config_client_main (o : option client_options) (h : handler_type)
    (par : list Z) (log_f : log_format) : M (N * sys) Z :=
  match o with
  | None => abort "an exception of the option parser"
  | Some o =>
      when (co_help o) (net_sys (say (help_text +:+ nl)) ;; exit EXIT_FAILURE) ;;
      net_sys (setLogFileName "/tmp/conf_client") ;;
      net_sys (toggleConsoleLog (default false (co_console o))) ;;
      net_sys openStatusLogFile ;;
      ch_dotted_quad ← channel_ip o;
      getConfigFromServer (default conf_server_default_ip (co_sv_ip o))
        (default conf_server_default_port (co_sv_p o))
        (default "default_channel" (co_ch_name o)) ch_dotted_quad
        (default (u32 getpid) (co_ch_pid o)) (default (u32 gettid) (co_ch_tid o))
        (i32 (default (u32 (-1)) (co_ch_nr o))) h par log_f ;;
      mret 0
  end.

(** The request the options describe, for a channel of address [quad]. *)
Definition client_request (o : client_options) (quad : string) (par : list Z) : conf_req_msg :=
  request_of (default "default_channel" (co_ch_name o)) quad
    (default (u32 getpid) (co_ch_pid o)) (default (u32 gettid) (co_ch_tid o))
    (i32 (default (u32 (-1)) (co_ch_nr o))) par.

Lemma own_quad_IP y y' : IP y = IP y' → own_quad y = own_quad y'.
Proof.
  intros E. unfold own_quad, getIPDottedQuad. monad_simpl. rewrite E.
  destruct (IP y'); [done|]. destruct getifaddrs as [l|]; [|done]. by destruct (first_quad l).
Qed.

(** The address the log file is named after is the one found again later. *)
Lemma own_quad_open y y' : openStatusLogFile y = (y', Ret tt) → own_quad y' = own_quad y.
Proof.
  unfold openStatusLogFile, own_quad, getIPDottedQuad. monad_simpl.
  destruct (ofs_open (logf y)); simpl; [by intros [= <-]|].
  destruct (IP y) eqn:Ei; simpl; [intros [= <-]; simpl; by rewrite Ei|].
  destruct getifaddrs as [l|]; simpl; [|intros [= <-]; simpl; by rewrite Ei].
  destruct (first_quad l) as [q|] eqn:Eq; simpl; intros [= <-]; simpl; rewrite ?Ei, ?Eq; done.
Qed.

Lemma channel_ip_run o n y :
  (∀ quad, co_ch_ip o = Some quad → (String.length quad < MAX_STR_SIZE)%nat) →
  (String.length (own_quad y) < MAX_STR_SIZE)%nat →
  ∃ quad y', channel_ip o (n, y) = ((n, y'), Ret quad)
    ∧ (String.length quad < MAX_STR_SIZE)%nat ∧ log_only y y'
    ∧ quad = default (own_quad y) (co_ch_ip o).
Proof.
  intros Hip Hown. unfold channel_ip. destruct (co_ch_ip o) as [quad|].
  { exists quad, y. split_and!; [done|by apply Hip|done|done]. }
  unfold own_quad in *.
  destruct (getIPDottedQuad_frame y) as (y1 & [z q] & E & L & _). rewrite E in *. simpl in *.
  rewrite (bind_Ret (net_sys getIPDottedQuad) _ (n, y) (n, y1) (z, q))
    by (unfold net_sys, zoom; simpl; by rewrite E).
  cbv beta iota. destruct (Z.eqb_spec z 0) as [->|Hz].
  { exists q, y1. by split_and!. }
  destruct (logFail_frame "config_client.cpp" 85 "unable to obtain IP address" y1)
    as (y2 & E2 & L2).
  exists "NO.IP.ADDR", y2. split_and!; [|by destruct z|by etrans|by destruct z].
  unfold net_sys. monad_simpl. by rewrite E2.
Qed.

(** With an answer, and nothing left in [par] that passes for parameters, the
    program sends the request of its options to the server of its options, and
    ends well whatever the answer is. *)
Lemma config_client_main_asks o h par log_f n n' y msg :
  co_help o = false →
  (String.length (default "default_channel" (co_ch_name o)) < MAX_STR_SIZE)%nat →
  (∀ quad, co_ch_ip o = Some quad → (String.length quad < MAX_STR_SIZE)%nat) →
  (String.length (own_quad y) < MAX_STR_SIZE)%nat →
  -1 ≤ arr_at par 0 ≤ 6 →
  ask ("tcp://" +:+ default conf_server_default_ip (co_sv_ip o) +:+ ":"
         +:+ zstr (default conf_server_default_port (co_sv_p o)))
    (client_request o (default (own_quad y) (co_ch_ip o)) par) n = (n', Some msg) →
  (Z.to_nat (nr_parameters msg) < length par)%nat →
  ∃ y', config_client_main (Some o) h par log_f (n, y) = ((n', y'), Ret 0).
Proof.
  intros Hh Hname Hip Hown Hpar Hask Hlen. unfold config_client_main. rewrite Hh.
  cbn [when]. rewrite bind_ret_l.
  rewrite (bind_Ret (net_sys (setLogFileName _)) _ _ (n, set_outfile_name "/tmp/conf_client" y) tt)
    by done.
  rewrite (bind_Ret (net_sys (toggleConsoleLog _)) _ _ (n, set_to_console
    (default false (co_console o)) (set_outfile_name "/tmp/conf_client" y)) tt) by done.
  set (y1 := set_to_console _ _).
  destruct (openStatusLogFile_frame y1) as (y2 & E2 & _).
  rewrite (bind_Ret (net_sys openStatusLogFile) _ _ (n, y2) tt)
    by (unfold net_sys, zoom; simpl; by rewrite E2).
  destruct (channel_ip_run o n y2) as (quad & y3 & E3 & Hq & _ & Eq); [done|..].
  { by rewrite (own_quad_open y1 y2 E2), (own_quad_IP y1 y). }
  rewrite (own_quad_open y1 y2 E2), (own_quad_IP y1 y) in Eq by done.
  rewrite (bind_Ret _ _ _ _ _ E3).
  destruct (getConfigFromServer_spec (default conf_server_default_ip (co_sv_ip o))
    (default conf_server_default_port (co_sv_p o)) (default "default_channel" (co_ch_name o))
    quad (default (u32 getpid) (co_ch_pid o)) (default (u32 gettid) (co_ch_tid o))
    (i32 (default (u32 (-1)) (co_ch_nr o))) h par log_f n n' y3 msg) as (y4 & E4 & _);
    [done|done|done|by subst quad|done|].
  rewrite (bind_Ret _ _ _ _ _ E4). by exists y4.
Qed.
End ClientMain.

(** ** Concrete runs *)
Definition demo_server_options : server_options :=
  ServerOptions false false (Some true) (Some "fox_test") (Some 9200).

Lemma config_server_main_serves_witness :
  ∃ w', @config_server_main demo_env conf_tables demo_reply "help" (λ _, true)
      (Some demo_server_options) demo_requests (CsWorld (srv_init (sys_init true)) None [])
    = (w', if service_ended (cs_sent w') then Ret 0 else Fault (FSpin "no request"))
    ∧ cs_bound w' = Some "tcp://*:9200"
    ∧ served (entries fox_test) None demo_requests (cs_sent w').
Proof.
  exact (@config_server_main_serves demo_env conf_tables demo_reply "help" (λ _, true)
    demo_server_options fox_test demo_requests (CsWorld (srv_init (sys_init true)) None [])
    eq_refl eq_refl eq_refl ltac:(by_decide) eq_refl eq_refl eq_refl eq_refl).
Defined.

(** The second starting node, the sixth request, ends the program. *)
Example config_server_main_ends :
  let r := @config_server_main demo_env conf_tables demo_reply "help" (λ _, true)
    (Some demo_server_options) demo_requests (CsWorld (srv_init (sys_init true)) None []) in
  r.2 = Ret 0 ∧ length (cs_sent r.1) = 6%nat.
Proof. by vm_compute. Qed.

(** A name that is no table, and a port in use. *)
Example config_server_main_wrong_table :
  (@config_server_main demo_env conf_tables demo_reply "help" (λ _, true)
    (Some (ServerOptions false false None (Some "no such table") None)) demo_requests
    (CsWorld (srv_init (sys_init true)) None [])).2 = Fault (FExit EXIT_FAILURE).
Proof. by vm_compute. Qed.

Example config_server_main_port_taken :
  (@config_server_main demo_env conf_tables demo_reply "help" (λ _, false)
    (Some demo_server_options) demo_requests (CsWorld (srv_init (sys_init true)) None [])).2
  = Fault (FAbort "an exception of zmq::socket_t::bind").
Proof. by vm_compute. Qed.
