(* ===== verification/Fox.v ===== *)
(** * Fox channels: src/cp/handlers/fox_start_handler.cpp and
    src/cp/handlers/fox_end_handler.cpp

    The starting node registers its address with the configuration server and
    echoes what the ending nodes send; an ending node asks the server for that
    address, connects to it, and logs the round-trip time of every tuple. *)
From S2P Require Import Prelude Util Rand TimeStamp Platform Log Formats Closure.
From S2P Require Import NullDefect NetConf ConfTables ConfigServer NetClient.

Definition fox_start_default_port : Z := 9104.
Definition FOX_END_RETRY : nat := 10.
Definition NANO_S_PER_S_Z : Z := 1000000000.

(** What the handlers use of the operating system and ZeroMQ: the result codes
    of sends and receives, by the clock readings before them, and of
    pthread_create; the nanoseconds of CLOCK_REALTIME, if it can be read; what is
    in memory before init_rand, and which of two arguments is evaluated first. *)
Class FoxOs := {
  zmq_send_rc : nat → Z;
  zmq_recv_rc : nat → Z;
  pthread_create_rc : Z;
  fox_realtime : option Z;
  stale_rand : Z;
  draws_right_first : bool
}.

Definition init_rand_rc `{FoxOs} : Z := (init_rand fox_realtime stale_rand).2.
Definition identity_draw `{FoxOs} : Z * Z :=
  draw_two draws_right_first (init_rand fox_realtime stale_rand).1.

(** The socket of an ending node: its identity and the end point it is
    connected to. *)
Record foxend_ext := FoxendExt { fx_identity : string; fx_peer : string }.

(** ** Text *)

(** getline(stream, word, delim): the words between delimiters; nothing after
    a last delimiter. *)
Fixpoint split_words (word : string) (delim : ascii) (s : string) : list string :=
  match s with
  | EmptyString => if String.eqb word "" then [] else [word]
  | String c s =>
      if Ascii.eqb c delim then word :: split_words "" delim s
      else split_words (word +:+ String c "") delim s
  end.

(** atoi: white space, a sign, the leading digits; 0 when there are none. *)
Definition atoi (s : string) : Z :=
  let s := skip_spaces s in
  let '(neg, s) :=
    match s with
    | String "-"%char s' => (true, s')
    | String "+"%char s' => (false, s')
    | _ => (false, s)
    end in
  let v := (take_digits 0 s).1 in
  if neg : bool then - v else v.

Definition split_ip (str : string) (delim : ascii) : list Z :=
  map atoi (split_words "" delim str).

Section Fox.
Context `{Env} {N : Type} `{ConfNet N} `{FoxOs}.

(** ** The starting node *)
Definition FoxStartHandler (tuple : Z) : CM unit unit :=
  ts ← sysm clock_gettime_tsc;
  emit (sample_line tuple ts).

Definition zmq_check (file : string) (line : Z) (msg : string) (rc : Z)
    {E} : CM E unit :=
  when (rc <? 0) (sysm (logFail_err file line msg rc) ;; exit EXIT_FAILURE).

(** One round of FoxStartReceiver: a message [tuple] from [identity] is stamped,
    echoed and logged. The result is what is sent back. *)
Definition fox_receive (identity : string) (tuple : Z)
    : CM unit (string * Z) :=
  let file := "handlers/fox_start_handler.cpp" in
  cs ← get;
  zmq_check file 48 "Error in ZMQ socket receive" (zmq_recv_rc (clk cs.2)) ;;
  zmq_check file 53 "Error in ZMQ socket receive" (zmq_recv_rc (clk cs.2)) ;;
  ts ← sysm clock_gettime_tsc;
  cs ← get;
  zmq_check file 59 "Error in ZMQ socket send" (zmq_send_rc (clk cs.2)) ;;
  zmq_check file 64 "Error in ZMQ socket send" (zmq_send_rc (clk cs.2)) ;;
  emit (sample_line tuple ts) ;;
  mret (identity, tuple).

Definition fox_fail_line (ch_msg : string) (mychannel : Z) (what : string)
    : string :=
  "Ch: " +:+ ch_msg +:+ ", ch_nr " +:+ zstr mychannel +:+ what.

(** The parameters of the registration request. *)
Definition start_par (words : list Z) (par : list Z) : option (list Z) :=
  match words with
  | a :: b :: c :: d :: _ => Some ([5; a; b; c; d; fox_start_default_port] ++ drop 6 par)
  | _ => None
  end.

(** The closure made, and the results of the look-up passed by reference. *)
Definition initFoxStartHandler (ch_msg : string) (mychannel : Z)
    (ch_h : handler_type) (par : list Z) (f : log_format)
    : M (N * sys) ((closure unit + closure defect_ext) * conf_result) :=
  '(_, tmpAddr) ← net_sys getIPDottedQuad;
  match start_par (split_ip tmpAddr ".") par with
  | None => undefined "addr_vector out of range"
  | Some par =>
      res ← getConfigFromDefaultServer ch_msg mychannel ch_h par f;
      if negb (cr_ret res) then
        net_sys (logFail "handlers/fox_start_handler.cpp" 103
          (fox_fail_line ch_msg mychannel
             ": unable to obtain configuration from server")) ;;
        mret (inr (initDefectHandler f ch_msg), res)
      else
        let tmp := set_parm_handler_f None
          (set_handler_f (Some FoxStartHandler_fn) (closure_new f tt)) in
        if pthread_create_rc <? 0 then
          net_sys (logFail "handlers/fox_start_handler.cpp" 121
            (fox_fail_line ch_msg mychannel "failed to create thread")) ;;
          exit 0
        else mret (inl tmp, res)
  end.

(** ** The ending node *)
Definition ns_of (ts : timespec) : Z := tv_sec ts * NANO_S_PER_S_Z + tv_nsec ts.

Definition fox_end_line (tuple : Z) (ts : timespec) (rtt_ns : Z) : string :=
  zstr tuple +:+ ", " +:+ zstr (tv_sec ts) +:+ ", " +:+ zstr (tv_nsec ts)
  +:+ ", " +:+ zstr (tsc ts) +:+ ", " +:+ zstr rtt_ns +:+ nl.

(** The difference is computed in unsigned long and converted. *)
Definition FoxEndHandler (tuple : Z) : CM foxend_ext unit :=
  let file := "handlers/fox_end_handler.cpp" in
  ts ← sysm clock_gettime_tsc;
  cs ← get;
  zmq_check file 39 "Error in ZMQ socket send" (zmq_send_rc (clk cs.2)) ;;
  zmq_check file 45 "Error in ZMQ socket receive" (zmq_recv_rc (clk cs.2)) ;;
  ts2 ← sysm clock_gettime_tsc;
  let rtt_ns := i64 (u64 (u64 (ns_of ts2) - u64 (ns_of ts))) in
  emit (fox_end_line tuple ts rtt_ns).

Definition setArgFoxEndHandler (nr_par : Z) (par : arg_val)
    : CM foxend_ext Z := mret 0.

(** The retry loop: at most [n] more look-ups, while no parameters came. [ret]
    is the result of the last one. *)
Fixpoint fox_end_loop (n : nat) (ch_msg : string) (mychannel : Z)
    (res : conf_result) : M (N * sys) conf_result :=
  match n with
  | O => mret res
  | S n =>
      if negb (arr_at (cr_par res) 0 =? 0) then mret res
      else
        res ← getConfigFromDefaultServer ch_msg mychannel (cr_h res) (cr_par res)
                (cr_format res);
        fox_end_loop n ch_msg mychannel
          (ConfResult (cr_ret res && negb (arr_at (cr_par res) 0 =? -1))
             (cr_h res) (cr_par res) (cr_format res))
  end.

Definition fox_peer (par : list Z) : string :=
  "tcp://" +:+ zstr (arr_at par 1) +:+ "." +:+ zstr (arr_at par 2) +:+ "."
  +:+ zstr (arr_at par 3) +:+ "." +:+ zstr (arr_at par 4) +:+ ":"
  +:+ zstr (arr_at par 5).

Definition initFoxEndHandler (ch_msg : string) (mychannel : Z)
    (ch_h : handler_type) (par : list Z) (f : log_format)
    : M (N * sys) ((closure foxend_ext + closure defect_ext) * conf_result) :=
  when (init_rand_rc =? -1)
    (net_sys (logFail_err "handlers/fox_end_handler.cpp" 70
       "Error in initializing drand48" init_rand_rc) ;;
     exit EXIT_FAILURE) ;;
  let identity := identity_of identity_draw in
  res ← fox_end_loop FOX_END_RETRY ch_msg mychannel (ConfResult true ch_h par f);
  if negb (cr_ret res) then
    net_sys (logFail "handlers/fox_end_handler.cpp" 92
      (fox_fail_line ch_msg mychannel
         ": fox end unable to obtain configuration from server")) ;;
    mret (inr (initDefectHandler (cr_format res) ch_msg), res)
  else
    mret (inl (set_parm_handler_f (Some setArgFoxEndHandler_fn)
      (set_handler_f (Some FoxEndHandler_fn)
         (closure_new (cr_format res)
            (FoxendExt identity (fox_peer (cr_par res)))))), res).
End Fox.

(** ** Dotted quads *)
Fixpoint lacks (c : ascii) (s : string) : bool :=
  match s with
  | EmptyString => true
  | String a s => negb (Ascii.eqb a c) && lacks c s
  end.

Lemma split_words_sep c s : ∀ w r,
  lacks c s = true →
  split_words w c (s +:+ String c r) = (w +:+ s) :: split_words "" c r.
Proof.
  induction s as [|a s IH]; intros w r Hs.
  - change ("" +:+ String c r) with (String c r). simpl.
    by rewrite Ascii.eqb_refl, string_app_nil_r.
  - apply andb_true_iff in Hs as [Ha Hs]. rewrite string_app_cons. simpl.
    apply negb_true_iff in Ha. rewrite Ha, IH by done. by rewrite string_app_assoc.
Qed.

Lemma split_words_last c s : ∀ w,
  lacks c s = true → w +:+ s ≠ "" → split_words w c s = [w +:+ s].
Proof.
  induction s as [|a s IH]; intros w Hs Hn.
  - rewrite string_app_nil_r in *. simpl.
    destruct (String.eqb_spec w ""); [done|]. done.
  - apply andb_true_iff in Hs as [Ha Hs]. simpl.
    apply negb_true_iff in Ha. rewrite Ha.
    assert ((w +:+ String a "") +:+ s = w +:+ String a s) as Ew
      by by rewrite string_app_assoc.
    rewrite IH; [by rewrite Ew|done|by rewrite Ew].
Qed.

Lemma byte_text :
  Forall (λ a, lacks "." (zstr a) = true ∧ atoi (zstr a) = a ∧ zstr a ≠ ""
      ∧ (String.length (zstr a) <= 3)%nat)
    (seqZ 0 256).
Proof. by_decide. Qed.

Definition dotted (a b c d : Z) : string :=
  zstr a +:+ "." +:+ zstr b +:+ "." +:+ zstr c +:+ "." +:+ zstr d.

Definition byte (a : Z) : Prop := 0 ≤ a < 256.

Lemma byte_text' a :
  byte a → lacks "." (zstr a) = true ∧ atoi (zstr a) = a ∧ zstr a ≠ ""
    ∧ (String.length (zstr a) <= 3)%nat.
Proof.
  intros Ha. pose proof byte_text as Ht. rewrite Forall_forall in Ht.
  apply Ht, elem_of_seqZ. unfold byte in Ha. lia.
Qed.

Lemma dot_app s : "." +:+ s = String "." s.
Proof. done. Qed.
Lemma nil_app s : "" +:+ s = s.
Proof. done. Qed.

Lemma split_ip_dotted a b c d :
  byte a → byte b → byte c → byte d →
  split_ip (dotted a b c d) "." = [a; b; c; d].
Proof.
  intros Ha Hb Hc Hd. unfold split_ip, dotted.
  destruct (byte_text' a Ha) as (La & Aa & _), (byte_text' b Hb) as (Lb & Ab & _),
    (byte_text' c Hc) as (Lc & Ac & _), (byte_text' d Hd) as (Ld & Ad & Nd & _).
  rewrite !dot_app. rewrite !split_words_sep by done. rewrite split_words_last by done.
  cbn [map]. change ("" +:+ ?s) with s. by rewrite Aa, Ab, Ac, Ad.
Qed.

(** ** The two ends and the server together *)
Section Together.
Context (ES : Env) (tables : list conf_table) (reply0 : conf_reply_msg)
  (stale : list Z).
Local Instance fox_net : ConfNet (srv * bool) :=
  conf_service ES tables reply0 stale.

(** A reply with parameters is read into [par]. *)
Lemma client_result_ok msg h par format :
  err msg = CONF_LOOKUP_SUCCESS →
  (Z.to_nat (nr_parameters msg) <= length (par_value msg))%nat →
  client_result msg h par format =
    ConfResult true (h_type msg)
      (nr_parameters msg :: reply_params msg
       ++ drop (S (Z.to_nat (nr_parameters msg))) par) (log_f msg).
Proof.
  intros He Hn. unfold client_result. rewrite He.
  rewrite map_arr_at by done. done.
Qed.


(** The address a machine finds once it has found one. *)
Lemma getIP_again (EC : Env) y y1 q :
  getIPDottedQuad y = (y1, Ret (0, q)) → getIPDottedQuad y1 = (y1, Ret (0, q)).
Proof.
  unfold getIPDottedQuad. monad_simpl. intros Hq.
  repeat case_match; simplify_eq; simpl in *; simplify_eq; done.
Qed.

Lemma own_quad_found (EC : Env) y y1 q :
  getIPDottedQuad y = (y1, Ret (0, q)) → own_quad y1 = q.
Proof.
  intros Hq. unfold own_quad. by rewrite (getIP_again EC y y1 q Hq).
Qed.

Lemma dotted_length a b c d :
  byte a → byte b → byte c → byte d →
  (String.length (dotted a b c d) < MAX_STR_SIZE)%nat.
Proof.
  intros Ha Hb Hc Hd. unfold dotted, MAX_STR_SIZE. rewrite !string_length_app.
  pose proof (byte_text' a Ha). pose proof (byte_text' b Hb).
  pose proof (byte_text' c Hc). pose proof (byte_text' d Hd).
  simpl String.length. destruct_and!. simpl. lia.
Qed.

(** The request of a starting node at address a.b.c.d. *)
Definition fox_par (a b c d : Z) (par : list Z) : list Z :=
  [5; a; b; c; d; fox_start_default_port] ++ drop 6 par.

Lemma fox_start_registers (EC : Env) (FO : FoxOs) s tbl msg nr h par f n it y y1 a b c d :
  cf_tbl s = Some tbl → Z.of_nat (length tbl) < 2 ^ 32 →
  fox_rel (foxStartInfo s) None →
  (String.length msg < MAX_STR_SIZE)%nat →
  byte a → byte b → byte c → byte d →
  getIPDottedQuad y = (y1, Ret (0, dotted a b c d)) →
  length par = S conf_server_max_param → length stale = conf_server_max_param →
  first_match (own_request msg nr (fox_par a b c d par) y1) tbl = Some (n, it) →
  ce_h_type it = FOX_START → row_ok it = true →
  0 ≤ pthread_create_rc →
  ∃ s' y' res, initFoxStartHandler msg nr h par f ((s, true), y)
    = (((s', true), y'),
       Ret (inl (set_parm_handler_f None
              (set_handler_f (Some FoxStartHandler_fn) (closure_new f tt))), res))
    ∧ cf_tbl s' = Some tbl
    ∧ fox_rel (foxStartInfo s') (Some [a; b; c; d; fox_start_default_port]).
Proof.
  intros Et Hb Hf Hmsg Ha Hbb Hc Hd Eq Hpar Hst Hm Hh Hrow Hpc.
  destruct (ask_service ES tables reply0 stale
    (own_request msg nr (fox_par a b c d par) y1) s tbl None)
    as (s1 & rep & Ea & Et1 & Hr); [done..|].
  rewrite Hm in Hr. destruct Hr as [(ret & Hht & Hlf & Hr) Hf1].
  rewrite Hh in *. destruct Hr as (_ & He & Hn & Hp). rewrite He in Ea. simpl in Ea.
  apply andb_true_iff in Hrow as [Hrow Hmax].
  apply Z.eqb_eq in Hrow. apply Z.leb_le in Hmax.
  specialize (Hp ltac:(lia)).
  destruct (getConfigFromDefaultServer_spec msg nr h (fox_par a b c d par) f
    (s, true) (s1, true) y1 rep) as (y2 & E2 & _).
  { done. }
  { rewrite (own_quad_found EC y y1 _ Eq). by apply dotted_length. }
  { by unfold fox_par, arr_at. }
  { exact Ea. }
  { rewrite Hn. unfold fox_par. simpl. rewrite length_drop, Hpar.
    unfold conf_server_max_param in *. lia. }
  unfold initFoxStartHandler.
  rewrite (bind_Ret (net_sys getIPDottedQuad) _ (s, true, y) (s, true, y1)
    (0, dotted a b c d)) by (unfold net_sys, zoom; simpl; by rewrite Eq).
  cbv beta iota. rewrite split_ip_dotted by done. cbn [start_par].
  rewrite (bind_Ret _ _ _ _ _ E2).
  assert (cr_ret (client_result rep h (fox_par a b c d par) f) = true) as ->
    by (unfold client_result; by rewrite He).
  cbn [negb]. replace (pthread_create_rc <? 0) with false by lia.
  do 3 eexists. split; [done|]. split; [done|].
  unfold fox_spec, own_request, request_of, start_params, fox_par, arr_at in Hf1.
  simpl in Hf1.
  by destruct stale as [|? [|]].
Qed.

(** An ending node connects to what the server has registered. *)
Lemma fox_end_connects (EC : Env) (FO : FoxOs) s tbl msg nr h par f n it y l :
  cf_tbl s = Some tbl → Z.of_nat (length tbl) < 2 ^ 32 →
  fox_rel (foxStartInfo s) (Some l) →
  (String.length msg < MAX_STR_SIZE)%nat →
  (String.length (own_quad y) < MAX_STR_SIZE)%nat →
  length par = S conf_server_max_param → arr_at par 0 = 0 →
  first_match (own_request msg nr par y) tbl = Some (n, it) →
  ce_h_type it = FOX_END → init_rand_rc ≠ -1 →
  ∃ s' y' cl res, initFoxEndHandler msg nr h par f ((s, true), y)
    = (((s', true), y'), Ret (inl cl, res))
    ∧ handler_f cl = Some FoxEndHandler_fn
    ∧ fx_peer (ext cl) = fox_peer (5 :: l)
    ∧ fox_rel (foxStartInfo s') (Some l).
Proof.
  intros Et Hb Hf Hmsg Hq Hpar Hp0 Hm Hh Hrand.
  destruct (ask_service ES tables reply0 stale (own_request msg nr par y)
    s tbl (Some l)) as (s1 & rep & Ea & Et1 & Hr); [done..|].
  rewrite Hm in Hr. destruct Hr as [(ret & Hht & Hlf & Hr) Hf1].
  rewrite Hh in *. destruct Hr as (_ & He & Hn & Hp). rewrite He in Ea. simpl in Ea.
  assert (length l = 5%nat) as Hl.
  { unfold fox_rel in Hf. destruct (fox_isSet _); [|done].
    destruct Hf as [Hl [= ->]]. by rewrite length_app, Hl. }
  assert (5 <= length (par_value rep))%nat as Hpv.
  { unfold reply_params in Hp. apply (f_equal length) in Hp.
    rewrite length_take, Hl, Hn in Hp. lia. }
  destruct (getConfigFromDefaultServer_spec msg nr h par f
    (s, true) (s1, true) y rep) as (y2 & E2 & _); try done; try lia.
  { rewrite Hn, Hpar. unfold conf_server_max_param. lia. }
  rewrite client_result_ok in E2 by (try done; rewrite Hn; lia).
  unfold initFoxEndHandler.
  replace (init_rand_rc =? -1) with false by lia. cbn [when]. rewrite bind_ret_l.
  assert (∀ X (k : _ → M (srv * bool * sys) X) z, (fox_end_loop FOX_END_RETRY msg nr (ConfResult true h par f)
    ≫= k) (s, true, y) = z ↔ k (ConfResult true (h_type rep)
       (nr_parameters rep :: reply_params rep
        ++ drop (S (Z.to_nat (nr_parameters rep))) par) (log_f rep)) (s1, true, y2) = z)
    as Hloop.
  { intros X k z. unfold FOX_END_RETRY. cbn [fox_end_loop cr_par cr_h cr_format].
    rewrite Hp0. cbn [Z.eqb negb].
    rewrite bind_assoc, (bind_Ret _ _ _ _ _ E2). cbn [cr_ret cr_par cr_h cr_format].
    unfold arr_at at 1 2. cbn [nth]. rewrite Hn. done. }
  do 4 eexists. split; [apply Hloop; cbn [cr_ret negb]; reflexivity|].
  cbn [cr_par ext fx_peer]. split_and!; [done| |done].
  rewrite Hn, Hp. unfold fox_peer, arr_at.
  destruct l as [|? [|? [|? [|? [|? [|]]]]]]; done.
Qed.

(** One look-up of an ending node while no starting node is registered. *)
Lemma fox_lookup_unset (EC : Env) s tbl msg nr h par f n it y :
  cf_tbl s = Some tbl → Z.of_nat (length tbl) < 2 ^ 32 →
  fox_rel (foxStartInfo s) None →
  (String.length msg < MAX_STR_SIZE)%nat →
  (String.length (own_quad y) < MAX_STR_SIZE)%nat →
  (0 < length par)%nat → arr_at par 0 = 0 →
  first_match (own_request msg nr par y) tbl = Some (n, it) →
  ce_h_type it = FOX_END →
  ∃ s' y', getConfigFromDefaultServer msg nr h par f ((s, true), y)
    = (((s', true), y'), Ret (ConfResult true FOX_END par f))
    ∧ cf_tbl s' = Some tbl ∧ fox_rel (foxStartInfo s') None ∧ log_only y y'.
Proof.
  intros Et Hb Hf Hmsg Hq Hpar Hp0 Hm Hh.
  destruct (ask_service ES tables reply0 stale (own_request msg nr par y)
    s tbl None) as (s1 & rep & Ea & Et1 & Hr); [done..|].
  rewrite Hm in Hr. destruct Hr as [(ret & Hht & Hlf & Hr) Hf1].
  rewrite Hh in *. destruct Hr as (_ & He & Hn). rewrite He in Ea. simpl in Ea.
  destruct (getConfigFromDefaultServer_spec msg nr h par f
    (s, true) (s1, true) y rep) as (y2 & E2 & L); try done; try lia.
  exists s1, y2. rewrite E2. unfold client_result. by rewrite He, Hht.
Qed.
End Together.

(** ** Properties *)
Section Properties.
Context (ES : Env) (tables : list conf_table) (reply0 : conf_reply_msg)
  (stale : list Z).
Local Instance fox_net' : ConfNet (srv * bool) :=
  conf_service ES tables reply0 stale.


(** An ending node whose server has no starting node asks ten times and is
    then given a channel all the same, connected to whatever its parameter
    array held: initFoxEndHandler does not notice that it has no address. *)
Theorem fox_end_gives_up (EC : Env) (FO : FoxOs) s tbl msg nr h par f n it y q :
  cf_tbl s = Some tbl → Z.of_nat (length tbl) < 2 ^ 32 →
  fox_rel (foxStartInfo s) None →
  (String.length msg < MAX_STR_SIZE)%nat →
  IP y = Some q → (String.length q < MAX_STR_SIZE)%nat →
  (0 < length par)%nat → arr_at par 0 = 0 →
  first_match (own_request msg nr par y) tbl = Some (n, it) →
  ce_h_type it = FOX_END → init_rand_rc ≠ -1 →
  ∃ w cl res, initFoxEndHandler msg nr h par f ((s, true), y) = (w, Ret (inl cl, res))
    ∧ handler_f cl = Some FoxEndHandler_fn ∧ fx_peer (ext cl) = fox_peer par.
Proof.
  intros Et Hb Hf Hmsg Hip Hq Hpar Hp0 Hm Hh Hrand.
  assert (∀ y, IP y = Some q → own_quad y = q) as Hown
    by (intros z Hz; unfold own_quad, getIPDottedQuad; monad_simpl; by rewrite Hz).
  assert (∀ k s h y, cf_tbl s = Some tbl → fox_rel (foxStartInfo s) None →
    IP y = Some q → first_match (own_request msg nr par y) tbl = Some (n, it) →
    ∃ w h', fox_end_loop k msg nr (ConfResult true h par f) ((s, true), y)
      = (w, Ret (ConfResult true h' par f))) as Hloop.
  { clear s h y Et Hf Hip Hm. induction k as [|k IH]; intros s h y Et Hf Hip Hm;
      [by do 2 eexists|].
    cbn [fox_end_loop cr_par cr_h cr_format]. rewrite Hp0. cbn [Z.eqb negb].
    destruct (fox_lookup_unset ES tables reply0 stale EC s tbl msg nr h par f n it y)
      as (s1 & y1 & E1 & Et1 & Hf1 & L); try done; [by rewrite Hown|].
    rewrite (bind_Ret _ _ _ _ _ E1). cbn [cr_ret cr_par cr_h cr_format].
    rewrite Hp0. cbn [Z.eqb negb andb].
    destruct L as [_ _ _ _ Lip]. rewrite Hip in Lip. specialize (Lip (mk_is_Some _ _ eq_refl)).
    apply (IH s1 FOX_END y1); try done.
    unfold own_request in *. by rewrite Hown in *. }
  unfold initFoxEndHandler. replace (init_rand_rc =? -1) with false by lia.
  cbn [when]. rewrite bind_ret_l.
  destruct (Hloop FOX_END_RETRY s h y) as (w & h' & E); [done..|].
  rewrite (bind_Ret _ _ _ _ _ E). cbn [cr_ret cr_par cr_format negb].
  by do 3 eexists.
Qed.

(** The line an ending node logs: with a reply that takes less than
    2^63 ns, the round-trip time is the difference of the two clock readings in
    nanoseconds, and the reading before the send is the time stamp. *)
Theorem fox_end_rtt (EC : Env) (FO : FoxOs) tuple c s :
  let t1 := clock (clk s) in let t2 := clock (S (clk s)) in
  ofs_ok (ch_logf c) →
  0 ≤ zmq_send_rc (S (clk s)) → 0 ≤ zmq_recv_rc (S (clk s)) →
  - 2 ^ 63 ≤ ns_of t2 - ns_of t1 < 2 ^ 63 →
  ∃ c', FoxEndHandler tuple (c, s) = ((c', set_clk (S (S (clk s))) s), Ret tt)
    ∧ ofs_ok (ch_logf c')
    ∧ ofs_file (ch_logf c') = ofs_file (ch_logf c)
        ++ [fox_end_line tuple t1 (ns_of t2 - ns_of t1)].
Proof.
  intros t1 t2 Hok Hs Hr Hrange. unfold FoxEndHandler, zmq_check, clock_gettime_tsc.
  cm_simpl. fold t1 t2.
  replace (zmq_send_rc (S (clk s)) <? 0) with false by lia. simpl.
  replace (zmq_recv_rc (S (clk s)) <? 0) with false by lia. simpl.
  fold t1 t2. rewrite wrapS_wrapU.
  assert (wrapS 64 (u64 (ns_of t2) - u64 (ns_of t1)) = ns_of t2 - ns_of t1) as ->.
  { rewrite wrapS_wrapU_sub. rewrite <- (Z.opp_involutive (u64 (ns_of t1))).
    replace (ns_of t2 - - - u64 (ns_of t1)) with (ns_of t2 - u64 (ns_of t1)) by lia.
    rewrite <- (wrapS_small 64 (ns_of t2 - ns_of t1)) by (simpl Z.sub; lia).
    unfold wrapS. f_equal. unfold wrapU.
    rewrite !Z.sub_add_distr || idtac.
    replace (ns_of t2 - ns_of t1 `mod` 2 ^ 64 + 2 ^ (64 - 1))
      with (ns_of t2 + 2 ^ (64 - 1) - ns_of t1 `mod` 2 ^ 64) by lia.
    rewrite Zminus_mod_idemp_r. f_equal. lia. }
  eexists. split; [done|]. simpl. by rewrite ofs_write_ok.
Qed.
End Properties.

(** ** Concrete runs *)
Definition demo_fox_os : FoxOs := {|
  zmq_send_rc := λ _, 1; zmq_recv_rc := λ _, 1; pthread_create_rc := 0;
  fox_realtime := Some 123456789; stale_rand := 77; draws_right_first := true
|}.

Definition demo_stale : list Z := [77; 77; 77; 77; 77; 77; 77].
Definition demo_par : list Z := [0; 8; 8; 8; 8; 8; 8; 8].

Definition start_row : conf_entry :=
  ConfEntry "fox_start" ".*" ".*" ".*" ".*" FOX_START ASCII 0 [].
Definition end_row : conf_entry :=
  ConfEntry "fox_end" ".*" ".*" ".*" ".*" FOX_END ASCII 5 [0; 0; 0; 0; 0].


Lemma fox_end_gives_up_witness :
  ∃ w cl res, @initFoxEndHandler demo_env _
      (conf_service demo_env conf_tables demo_reply demo_stale) demo_fox_os
      "fox_end" 1 NET_CONF demo_par ASCII
      ((demo_srv, true), set_IP (Some "10.0.0.7") (sys_init true)) = (w, Ret (inl cl, res))
    ∧ handler_f cl = Some FoxEndHandler_fn
    ∧ fx_peer (ext cl) = "tcp://8.8.8.8:8".
Proof.
  refine (@fox_end_gives_up demo_env conf_tables demo_reply demo_stale demo_env
    demo_fox_os demo_srv (entries fox_test) "fox_end" 1 NET_CONF demo_par ASCII
    1%nat end_row (set_IP (Some "10.0.0.7") (sys_init true)) "10.0.0.7"
    _ _ _ _ _ _ _ _ _ _ _); try done; try by vm_compute.
  all: unfold MAX_STR_SIZE; simpl; lia.
Defined.

Lemma fox_end_rtt_witness :
  let c := demo_open (FoxendExt "BEEF-000A" "tcp://10.0.0.7:9104") in
  ∃ c', @FoxEndHandler demo_env demo_fox_os 5 (c, sys_init true)
      = ((c', set_clk 2 (sys_init true)), Ret tt)
    ∧ ofs_ok (ch_logf c')
    ∧ ofs_file (ch_logf c') = [fox_end_line 5 (@clock demo_env 0) 1000000000].
Proof.
  intros c. exact (@fox_end_rtt demo_env demo_fox_os 5 c (sys_init true)
    ltac:(done) ltac:(done) ltac:(done) ltac:(by vm_compute)).
Defined.
