(* ===== verification/FastPeriodicCounter.v ===== *)
(** * The fast periodic counter:
    src/cp/handlers/fast_periodic_counter_handler.cpp

    The handler only increments an atomic counter. Sampling threads, one per
    sampling period, read the counters and write them to the channels' files;
    channels enter, leave and change threads through the threads' job queues.

    One step of a sampling thread between two points where other threads can
    interfere is a value of [thr_pc]; [thr_step] executes it, and [fstep] lets
    the threads and the application take turns. *)
From S2P Require Import Prelude TimeStamp Platform Log Formats Closure.

Definition FPC_DEFAULT_PERIOD : Z := 10 * 1000000.
Definition DEFAULT_SNOOZE_PERIOD : Z := 1000000.

Record fpc_ext := FpcExt {
  ctr : Z;
  sampled_ctr : Z;
  sampled_ts : timespec;
  total_ctr : Z;
  periodic_inc_ns : Z;
  periodic_inc : timespec;
  skipped_intervals : Z;
  isHeaderLogged : bool;
  isRefCounted : bool
}.

Definition set_ctr x e := FpcExt x (sampled_ctr e) (sampled_ts e) (total_ctr e)
  (periodic_inc_ns e) (periodic_inc e) (skipped_intervals e) (isHeaderLogged e)
  (isRefCounted e).
Definition set_sampled x ts e := FpcExt (ctr e) x ts (total_ctr e)
  (periodic_inc_ns e) (periodic_inc e) (skipped_intervals e) (isHeaderLogged e)
  (isRefCounted e).
Definition set_total_ctr x e := FpcExt (ctr e) (sampled_ctr e) (sampled_ts e) x
  (periodic_inc_ns e) (periodic_inc e) (skipped_intervals e) (isHeaderLogged e)
  (isRefCounted e).
Definition set_period x inc e := FpcExt (ctr e) (sampled_ctr e) (sampled_ts e)
  (total_ctr e) x inc (skipped_intervals e) (isHeaderLogged e) (isRefCounted e).
Definition set_skipped x e := FpcExt (ctr e) (sampled_ctr e) (sampled_ts e)
  (total_ctr e) (periodic_inc_ns e) (periodic_inc e) x (isHeaderLogged e)
  (isRefCounted e).
Definition set_isHeaderLogged x e := FpcExt (ctr e) (sampled_ctr e)
  (sampled_ts e) (total_ctr e) (periodic_inc_ns e) (periodic_inc e)
  (skipped_intervals e) x (isRefCounted e).
Definition set_isRefCounted x e := FpcExt (ctr e) (sampled_ctr e)
  (sampled_ts e) (total_ctr e) (periodic_inc_ns e) (periodic_inc e)
  (skipped_intervals e) (isHeaderLogged e) x.

Inductive job_type := INSERT_CHANNEL | MOVE_CHANNEL | DELETE_CHANNEL.

(** A job with its address; [jobCompleted] is membership in [completed]. *)
Record job := Job {
  jtype : job_type;
  FPCcl : Z;
  cur_periodic_inc_ns : Z;
  job_addr : nat
}.

(** Where a sampling thread is in thr_f. *)
Inductive thr_pc :=
  | T_start                      (* lines 292-299 *)
  | T_sample (todo : list Z)     (* lines 302-307: closures still to sample *)
  | T_process (todo : list Z)    (* lines 309-322 *)
  | T_count                      (* process_job_queue: reading the size *)
  | T_jobs (n : nat)             (* its loop, n jobs to go *)
  | T_term                       (* shallTerminate *)
  | T_remove                     (* removeThrDescriptor *)
  | T_clock.                     (* lines 332-345 *)

(** [closures] is a std::map from channel numbers, in the order of its keys. *)
Record thr_descriptor := ThrDescriptor {
  closures : list (Z * Z);
  thr_period_ns : Z;
  thr_period : timespec;
  j_queue : list job;
  ts_flush : timespec;
  pc : thr_pc
}.

Definition set_closures x d := ThrDescriptor x (thr_period_ns d) (thr_period d)
  (j_queue d) (ts_flush d) (pc d).
Definition set_j_queue x d := ThrDescriptor (closures d) (thr_period_ns d)
  (thr_period d) x (ts_flush d) (pc d).
Definition set_ts_flush x d := ThrDescriptor (closures d) (thr_period_ns d)
  (thr_period d) (j_queue d) x (pc d).
Definition set_pc x d := ThrDescriptor (closures d) (thr_period_ns d)
  (thr_period d) (j_queue d) (ts_flush d) x.

(** The channels by address, the sampling threads by period, and the globals. *)
Record fpw := Fpw {
  fpcs : gmap Z (closure fpc_ext);
  thr_map : gmap Z thr_descriptor;
  nr_open_channels : Z;
  next_job : nat;
  completed : gset nat;
  fsys : sys
}.

Definition set_fpcs x w := Fpw x (thr_map w) (nr_open_channels w) (next_job w)
  (completed w) (fsys w).
Definition set_thr_map x w := Fpw (fpcs w) x (nr_open_channels w) (next_job w)
  (completed w) (fsys w).
Definition set_nr_open_channels x w := Fpw (fpcs w) (thr_map w) x (next_job w)
  (completed w) (fsys w).
Definition set_next_job x w := Fpw (fpcs w) (thr_map w) (nr_open_channels w) x
  (completed w) (fsys w).
Definition set_completed x w := Fpw (fpcs w) (thr_map w) (nr_open_channels w)
  (next_job w) x (fsys w).
Definition set_fsys x w := Fpw (fpcs w) (thr_map w) (nr_open_channels w)
  (next_job w) (completed w) x.

Definition fpw_init (s : sys) : fpw := Fpw ∅ ∅ 0 0 ∅ s.

(** Code working on the closure at address [cl]. *)
Definition on_fpc {A} (cl : Z) (m : CM fpc_ext A) : M fpw A := λ w,
  match fpcs w !! cl with
  | Some c => let '((c', y'), r) := m (c, fsys w) in
              (set_fsys y' (set_fpcs (<[cl := c']> (fpcs w)) w), r)
  | None => (w, Fault (FUndefined "dangling channel"))
  end.

Definition fpc_sys {A} (m : M sys A) : M fpw A := zoom fsys set_fsys m.

(** [new T], and a field access through a descriptor that is in [thr_map]. *)
Definition this_thr (p : Z) : M fpw thr_descriptor :=
  w ← get;
  match thr_map w !! p with
  | Some d => mret d
  | None => undefined "deleted thr_descriptor"
  end.
Definition assign_thr (p : Z) (f : thr_descriptor → thr_descriptor) : M fpw unit :=
  modify (λ w, set_thr_map (alter f p (thr_map w)) w).

Definition split_ns (ns : Z) : timespec :=
  Timespec (i64 (ns `div` NANO_S_PER_S)) (i64 (ns `mod` NANO_S_PER_S)) 0 0.

Section Fpc.
Context `{Env}.

(** ** The handler *)
Definition FastPeriodicCounterHandler (tuple : Z) : CM fpc_ext unit :=
  assign_ext (λ e, set_ctr (u64 (ctr e + 1)) e).

(** [ctr.exchange(0)] *)
Definition exchange_ctr : CM fpc_ext Z :=
  c ← this; assign_ext (set_ctr 0) ;; mret (ctr (ext c)).

(** ** Printing *)
Definition printTimeStamp : CM fpc_ext unit :=
  c ← this;
  emit (writeTimeStampedCtr (sampled_ts (ext c)) (sampled_ctr (ext c)) true).

Definition printCtrStart (n : Z) : CM fpc_ext unit :=
  now ← sysm clock_gettime_tsc;
  emit (writeTimeStampedCtr now n true) ;;
  c ← this;
  emit ("# start, period: "
        +:+ (formatDuration_ts (periodic_inc (ext c)) 1024 true).2 +:+ nl).

Definition printTotalCount : CM fpc_ext unit :=
  c ← this;
  emit ("# total count: " +:+ zstr (total_ctr (ext c)) +:+ nl).

Definition printTruncatedPeriod (n : Z) (msg : string) : CM fpc_ext unit :=
  now ← sysm clock_gettime_tsc;
  emit (writeTimeStampedCtr now n true) ;;
  emit ("# truncated period" +:+ nl) ;;
  (if String.eqb msg "" then mret tt else emit ("# " +:+ msg +:+ nl)).

Definition printInitialHeaderAndPeriod : CM fpc_ext unit :=
  emit "# <period_end>, <number_of_events>, " ;;
  emit writeTimeStampHeader ;;
  emit nl.

Definition printSkippedIntervals : CM fpc_ext unit :=
  c ← this;
  emit "# skipped " ;;
  emit (zstr (skipped_intervals (ext c)) +:+ " intervals" +:+ nl).

(** Printed and reset, where the code prints them. *)
Definition flush_skipped : CM fpc_ext unit :=
  c ← this;
  when (0 <? skipped_intervals (ext c))
    (printSkippedIntervals ;; assign_ext (set_skipped 0)).

(** ** Jobs *)
Definition new_job (t : job_type) (cl period : Z) : M fpw job :=
  w ← get;
  modify (λ w, set_next_job (S (next_job w)) w) ;;
  mret (Job t cl (u64 period) (next_job w)).

Definition signalCompletion (jb : job) : M fpw unit :=
  modify (λ w, set_completed ({[job_addr jb]} ∪ completed w) w).

(** Blocks until the job is completed. *)
Definition waitCompletion (jb : job) : M fpw unit :=
  w ← get;
  if bool_decide (job_addr jb ∈ completed w) then mret tt
  else spin "waitCompletion".

Definition add_job (jb : job) (d : thr_descriptor) : thr_descriptor :=
  set_j_queue (j_queue d ++ [jb]) d.

Definition remove_job (p : Z) : M fpw job :=
  d ← this_thr p;
  match j_queue d with
  | jb :: q => assign_thr p (set_j_queue q) ;; mret jb
  | [] => undefined "front of an empty queue"
  end.

Definition thr_descriptor_new (period : Z) (jb : job) : thr_descriptor :=
  ThrDescriptor [] period (split_ns period) [jb] (Timespec 0 0 0 0) T_start.

Definition fpc_period (cl : Z) : M fpw Z :=
  on_fpc cl (c ← this; mret (periodic_inc_ns (ext c))).

Definition enqueueJobWithThrDescriptor (jb : job) : M fpw unit :=
  period ← fpc_period (FPCcl jb);
  w ← get;
  match thr_map w !! period with
  | None => modify (λ w,
      set_thr_map (<[period := thr_descriptor_new period jb]> (thr_map w)) w)
  | Some _ => assign_thr period (add_job jb)
  end.

Definition not_part_of (line nr : Z) (period : string) : M fpw unit :=
  fpc_sys (logFail "handlers/fast_periodic_counter_handler.cpp" line
    ("Ch: " +:+ zstr nr +:+ " not part of sampling thread for period "
     +:+ period)).

Definition dequeueJobFromThrDescriptor (jb : job) : M fpw unit :=
  c ← on_fpc (FPCcl jb) this;
  let period := periodic_inc_ns (ext c) in
  w ← get;
  match thr_map w !! period with
  | None => not_part_of 401 (ch_nr c) (formatDuration_ns period 1024 true).2
  | Some _ => assign_thr period (add_job jb)
  end.

(** [closures.insert]: a key that is present keeps its value. *)
Fixpoint map_insert (nr cl : Z) (l : list (Z * Z)) : list (Z * Z) :=
  match l with
  | [] => [(nr, cl)]
  | (k, v) :: l' =>
      if nr <? k then (nr, cl) :: l
      else if nr =? k then l
      else (k, v) :: map_insert nr cl l'
  end.

Fixpoint map_find (nr : Z) (l : list (Z * Z)) : option Z :=
  match l with
  | [] => None
  | (k, v) :: l => if nr =? k then Some v else map_find nr l
  end.

Definition map_erase (nr : Z) (l : list (Z * Z)) : list (Z * Z) :=
  List.filter (λ kv, negb (nr =? kv.1)) l.

Definition dequeue_channel (p : Z) (jb : job) : M fpw bool :=
  nr ← on_fpc (FPCcl jb) (c ← this; mret (ch_nr c));
  d ← this_thr p;
  match map_find nr (closures d) with
  | None =>
      not_part_of 201 nr (formatDuration_ts (thr_period d) 1024 true).2 ;;
      mret false
  | Some _ =>
      assign_thr p (λ d, set_closures (map_erase nr (closures d)) d) ;;
      mret true
  end.

(** ** The sampling thread *)

(** The three branches of process_job_queue's switch. *)
Definition count_events : CM fpc_ext Z :=
  ev_count ← exchange_ctr;
  assign_ext (λ e, set_total_ctr (u64 (total_ctr e + ev_count)) e) ;;
  mret ev_count.

Definition insert_channel : CM fpc_ext Z :=
  c ← this;
  when (negb (isHeaderLogged (ext c)))
    (assign_ext (set_isHeaderLogged true) ;; printInitialHeaderAndPeriod) ;;
  ev_count ← count_events;
  printCtrStart ev_count ;;
  mret (ch_nr c).

Definition leave_period (msg : string) : CM fpc_ext unit :=
  ev_count ← count_events;
  flush_skipped ;;
  printTruncatedPeriod ev_count msg.

Definition reprogram (target : Z) : CM fpc_ext unit :=
  leave_period "timer reprogrammed" ;;
  assign_ext (set_period target (split_ns target)).

Definition shut_down : CM fpc_ext unit :=
  leave_period "timer shut down" ;; printTotalCount.

Definition process_job (p : Z) (jb : job) : M fpw unit :=
  match jtype jb with
  | INSERT_CHANNEL =>
      nr ← on_fpc (FPCcl jb) insert_channel;
      assign_thr p (λ d, set_closures (map_insert nr (FPCcl jb) (closures d)) d) ;;
      signalCompletion jb
  | MOVE_CHANNEL =>
      found ← dequeue_channel p jb;
      if found : bool then
        on_fpc (FPCcl jb) (reprogram (cur_periodic_inc_ns jb)) ;;
        enqueueJobWithThrDescriptor
          (Job INSERT_CHANNEL (FPCcl jb) (u64 (-1)) (job_addr jb))
      else signalCompletion jb
  | DELETE_CHANNEL =>
      on_fpc (FPCcl jb) shut_down ;;
      _ ← dequeue_channel p jb;
      signalCompletion jb
  end.

Definition shallTerminate (p : Z) : M fpw bool :=
  d ← this_thr p;
  w ← get;
  mret (((thr_period_ns d =? FPC_DEFAULT_PERIOD) && (nr_open_channels w =? 0))
        || (bool_decide (j_queue d = []) && bool_decide (closures d = []))).

Definition removeThrDescriptor (period : Z) : M fpw bool :=
  w ← get;
  let fail line msg :=
    fpc_sys (logFail "handlers/fast_periodic_counter_handler.cpp" line msg) ;;
    mret false in
  let buf := (formatDuration_ns period 1024 true).2 in
  match thr_map w !! period with
  | None => fail 419 ("No thr_descriptor for period " +:+ buf)
  | Some d =>
      if negb (bool_decide (j_queue d = [])) then mret false
      else if negb (bool_decide (closures d = [])) then
        fail 437 ("Cannot delete thr_descriptor for period " +:+ buf
                  +:+ " because of remaining closures " +:+ nl)
      else modify (λ w, set_thr_map (delete period (thr_map w)) w) ;; mret true
  end.

Definition sample_one : CM fpc_ext unit :=
  v ← exchange_ctr;
  ts ← sysm clock_gettime_tsc;
  assign_ext (set_sampled v ts).

Definition process_one : CM fpc_ext unit :=
  c ← this;
  if sampled_ctr (ext c) =? 0 then
    assign_ext (λ e, set_skipped (u64 (skipped_intervals e + 1)) e)
  else
    assign_ext (λ e, set_total_ctr (u64 (total_ctr e + sampled_ctr e)) e) ;;
    flush_skipped ;;
    printTimeStamp.

(** The addresses of the closures, in the order of the iterators. *)
Definition addrs (d : thr_descriptor) : list Z := map snd (closures d).

Definition goto (p : Z) (x : thr_pc) : M fpw unit := assign_thr p (set_pc x).

(** Lines 292-299: the first flush time. *)
Definition first_flush (p : Z) : M fpw unit :=
  d ← this_thr p;
  now ← fpc_sys clock_gettime_tsc;
  assign_thr p (set_ts_flush
    (if thr_period_ns d =? NANO_S_PER_S
     then Timespec (i64 (tv_sec now + 1)) 0 (tsc now) (aux now)
     else addTS stale_ts now (thr_period d))).

(** Lines 332-345; the result says whether a flush is due. The sleep in
    between changes nothing. *)
Definition flush_due (p : Z) : M fpw bool :=
  now ← fpc_sys clock_gettime_tsc;
  d ← this_thr p;
  if 0 <? compareTS now (ts_flush d) then
    assign_thr p (set_ts_flush (addTS (ts_flush d) (ts_flush d) (thr_period d))) ;;
    mret true
  else mret false.

(** One step of the thread of period [p]; when removeThrDescriptor succeeds the
    thread is gone. *)
Definition thr_step (p : Z) : M fpw unit :=
  d ← this_thr p;
  match pc d with
  | T_start => first_flush p ;; goto p (T_sample (addrs d))
  | T_sample (cl :: todo) => on_fpc cl sample_one ;; goto p (T_sample todo)
  | T_sample [] => goto p (T_process (addrs d))
  | T_process (cl :: todo) => on_fpc cl process_one ;; goto p (T_process todo)
  | T_process [] => goto p T_count
  | T_count => goto p (T_jobs (length (j_queue d)))
  | T_jobs (S n) => jb ← remove_job p; goto p (T_jobs n) ;; process_job p jb
  | T_jobs O => goto p T_term
  | T_term =>
      stop ← shallTerminate p;
      goto p (if stop : bool then T_remove else T_clock)
  | T_remove =>
      gone ← removeThrDescriptor p;
      if gone : bool then mret tt else goto p T_clock
  | T_clock =>
      due ← flush_due p;
      goto p (if due : bool then T_sample (addrs d) else T_count)
  end.

(** ** The application

    The calls that submit a job are split where they wait for it. *)
Definition initFastPeriodicCounterHandler (fmt0 : log_format)
    : closure fpc_ext :=
  set_parm_handler_f (Some setArgFastPeriodicCounterHandler_fn)
    (set_handler_f (Some FastPeriodicCounterHandler_fn)
      (closure_new fmt0
        (FpcExt 0 0 (Timespec 0 0 0 0) 0 FPC_DEFAULT_PERIOD
           (split_ns FPC_DEFAULT_PERIOD) 0 false false))).

Definition fpc_openChannel_begin (cl nr : Z) (ch_msg : string) (f : log_format)
    : M fpw (option job) :=
  ok ← on_fpc cl (closure_openChannel nr ch_msg f);
  if negb ok then mret None
  else
    modify (λ w, set_nr_open_channels (u32 (nr_open_channels w + 1)) w) ;;
    on_fpc cl (assign_ext (set_isRefCounted true)) ;;
    jb ← new_job INSERT_CHANNEL cl (-1);
    enqueueJobWithThrDescriptor jb ;;
    mret (Some jb).

Definition fpc_closeChannel_begin (cl : Z) : M fpw (option job) :=
  c ← on_fpc cl this;
  if isRefCounted (ext c) then
    modify (λ w, set_nr_open_channels (u32 (nr_open_channels w - 1)) w) ;;
    on_fpc cl (assign_ext (set_isRefCounted false)) ;;
    jb ← new_job DELETE_CHANNEL cl (-1);
    dequeueJobFromThrDescriptor jb ;;
    mret (Some jb)
  else mret None.

Definition fpc_closeChannel_end (cl : Z) : M fpw unit :=
  on_fpc cl closure_closeChannel.

(** [inl] is an early return, after what else it does. *)
Inductive set_arg :=
  | SetFail (close : bool)
  | SetMove (jb : job).

Definition set_fail (line : Z) (what : string) (close : bool) : M fpw set_arg :=
  fpc_sys (logFail "handlers/fast_periodic_counter_handler.cpp" line
    ("setArgFastPeriodicCounterHandler arg " +:+ what +:+ " out of range")) ;;
  mret (SetFail close).

Definition setArg_begin (cl arg_number : Z) (arg : arg_val) : M fpw set_arg :=
  if negb (arg_number =? 0) && negb (arg_number =? -1) then
    set_fail 473 "number" true
  else
    value ← on_fpc cl
      (if arg_number =? -1 then
         par ← as_ptr arg;
         n ← par_at par 0;
         mret (if u64 n =? 1 then inr 1 else inl tt)
       else v ← as_num arg; mret (inr v));
    match value with
    | inl _ => set_fail 483 "number" false
    | inr v =>
        if v <? 0 then set_fail 490 "0 val" true
        else
          jb ← new_job MOVE_CHANNEL cl v;
          enqueueJobWithThrDescriptor jb ;;
          mret (SetMove jb)
    end.

(** The calls in one piece: [others] is what the other threads do while the
    caller waits. *)
Section Calls.
Context (others : M fpw unit).

Definition wait_for (jb : option job) : M fpw unit :=
  match jb with
  | Some jb => others ;; waitCompletion jb
  | None => mret tt
  end.

Definition fpc_openChannel (cl nr : Z) (ch_msg : string) (f : log_format)
    : M fpw bool :=
  jb ← fpc_openChannel_begin cl nr ch_msg f;
  wait_for jb ;;
  mret (bool_decide (is_Some jb)).

Definition fpc_closeChannel (cl : Z) : M fpw unit :=
  jb ← fpc_closeChannel_begin cl;
  wait_for jb ;;
  fpc_closeChannel_end cl.

Definition setArgFastPeriodicCounterHandler (cl arg_number : Z) (arg : arg_val)
    : M fpw Z :=
  r ← setArg_begin cl arg_number arg;
  match r with
  | SetFail close => when close (fpc_closeChannel cl) ;; mret (-1)
  | SetMove jb => wait_for (Some jb) ;; mret 0
  end.
End Calls.
End Fpc.
