(* ===== verification/FpcInv.v ===== *)
(** * The fast periodic counter: what is written, and who holds what

    The lines of a channel's file as records, the effect of every operation on
    one closure, and the invariant that says which sampling thread holds which
    channel and which job. *)
From S2P Require Import Prelude TimeStamp Platform Log Formats Closure.
From S2P Require Import FastPeriodicCounter.

(** ** What is written, as records *)
Inductive fpc_rec :=
  | R_header
  | R_count (ts : timespec) (n : Z)
  | R_start (inc : timespec)
  | R_skipped (n : Z)
  | R_note (msg : string)
  | R_total (n : Z).

Section Records.
Context `{Env}.

Definition render (r : fpc_rec) : list string :=
  match r with
  | R_header => ["# <period_end>, <number_of_events>, "; writeTimeStampHeader; nl]
  | R_count ts n => [writeTimeStampedCtr ts n true]
  | R_start inc =>
      ["# start, period: " +:+ (formatDuration_ts inc 1024 true).2 +:+ nl]
  | R_skipped n => ["# skipped "; zstr n +:+ " intervals" +:+ nl]
  | R_note msg => ["# " +:+ msg +:+ nl]
  | R_total n => ["# total count: " +:+ zstr n +:+ nl]
  end.

Definition render_all (l : list fpc_rec) : list string := concat (map render l).

Definition rec_events (r : fpc_rec) : Z :=
  match r with R_count _ n => n | _ => 0 end.
Definition written (l : list fpc_rec) : Z := foldr (λ r n, rec_events r + n) 0 l.

Lemma fpc_render_app l1 l2 : render_all (l1 ++ l2) = render_all l1 ++ render_all l2.
Proof. unfold render_all. by rewrite map_app, concat_app. Qed.

Lemma written_app l1 l2 : written (l1 ++ l2) = written l1 + written l2.
Proof. unfold written. induction l1 as [|r l1 IH]; simpl; lia. Qed.

(** [c'] is [c] after writing records that count [k] events. *)
Definition logs (k : Z) (c c' : closure fpc_ext) : Prop :=
  ch_nr c' = ch_nr c ∧ ofs_ok (ch_logf c') ∧
  ∃ recs, ofs_file (ch_logf c') = ofs_file (ch_logf c) ++ render_all recs
          ∧ written recs = k.

Lemma logs_emit r c :
  ofs_ok (ch_logf c) →
  logs (rec_events r) c (set_ch_logf (ofs_writes (render r) (ch_logf c)) c).
Proof.
  intros Hok. destruct (ofs_writes_ok (render r) (ch_logf c) Hok) as [H1 H2].
  split_and!; [done|done|]. exists [r]. simpl. rewrite H2. unfold render_all. simpl.
  rewrite app_nil_r. split; [done|lia].
Qed.

Lemma logs_refl c : ofs_ok (ch_logf c) → logs 0 c c.
Proof. intros. split_and!; [done|done|]. exists []. by rewrite app_nil_r. Qed.

Lemma logs_trans k1 k2 c1 c2 c3 : logs k1 c1 c2 → logs k2 c2 c3 → logs (k1 + k2) c1 c3.
Proof.
  intros (N1 & O1 & r1 & F1 & W1) (N2 & O2 & r2 & F2 & W2).
  split_and!; [congruence|done|]. exists (r1 ++ r2).
  rewrite F2, F1, fpc_render_app, written_app, W1, W2. by rewrite <- app_assoc.
Qed.

(** Changing the derived part writes nothing. *)
Lemma logs_ext k e c c' : logs k c c' → logs k c (set_ext e c').
Proof. done. Qed.
Lemma logs_ext_l k e c c' : logs k (set_ext e c) c' → logs k c c'.
Proof. done. Qed.

(** ** The operations on one closure *)
Definition counted (e : fpc_ext) : fpc_ext :=
  set_total_ctr (u64 (total_ctr e + ctr e)) (set_ctr 0 e).

Lemma count_events_run c s :
  count_events (c, s) = ((set_ext (counted (ext c)) c, s), Ret (ctr (ext c))).
Proof. done. Qed.

Lemma counted_total e : u64 (total_ctr (counted e)) = u64 (total_ctr e + ctr e).
Proof. apply wrapU_idemp. Qed.

Lemma counted_balance e :
  u64 (ctr (counted e) + total_ctr (counted e)) = u64 (ctr e + total_ctr e).
Proof.
  change (ctr (counted e)) with 0. rewrite Z.add_0_l, counted_total. f_equal. lia.
Qed.

Definition flushed (e : fpc_ext) : fpc_ext :=
  if 0 <? skipped_intervals e then set_skipped 0 e else e.

Lemma flush_skipped_run c s :
  ofs_ok (ch_logf c) →
  ∃ c', flush_skipped (c, s) = ((c', s), Ret tt) ∧ ext c' = flushed (ext c)
    ∧ logs 0 c c'.
Proof.
  intros Hok. unfold flush_skipped, flushed.
  rewrite (bind_Ret this _ (c, s) (c, s) c) by done.
  destruct (0 <? _); cbn [when]; [|exists c; by split_and!; auto using logs_refl].
  eexists. split; [reflexivity|]. split; [done|].
  apply logs_ext. exact (logs_emit (R_skipped (skipped_intervals (ext c))) c Hok).
Qed.

Lemma flushed_fields e :
  ctr (flushed e) = ctr e ∧ total_ctr (flushed e) = total_ctr e
  ∧ periodic_inc_ns (flushed e) = periodic_inc_ns e
  ∧ isRefCounted (flushed e) = isRefCounted e.
Proof. unfold flushed. by destruct (0 <? _). Qed.

(** Writing a record and going on. *)
Lemma logs_step k r e c c' :
  logs k c c' →
  logs (k + rec_events r) c
    (set_ext e (set_ch_logf (ofs_writes (render r) (ch_logf c')) c')).
Proof. intros Hl. eapply logs_trans; [done|]. apply logs_ext, logs_emit, Hl. Qed.

Lemma leave_period_run msg c s :
  ofs_ok (ch_logf c) → msg ≠ "" →
  ∃ c' s', leave_period msg (c, s) = ((c', s'), Ret tt)
    ∧ ext c' = flushed (counted (ext c)) ∧ logs (ctr (ext c)) c c'.
Proof.
  intros Hok Hmsg. unfold leave_period.
  rewrite (bind_Ret _ _ _ _ _ (count_events_run c s)).
  destruct (flush_skipped_run (set_ext (counted (ext c)) c) s Hok)
    as (c1 & E1 & X1 & L1).
  rewrite (bind_Ret _ _ _ _ _ E1). unfold printTruncatedPeriod.
  rewrite (bind_Ret (sysm clock_gettime_tsc) _ (c1, s)
    (c1, set_clk (S (clk s)) s) (clock (clk s))) by done.
  destruct (String.eqb_spec msg "") as [|_]; [done|].
  do 2 eexists. split; [reflexivity|]. split; [exact X1|].
  apply logs_ext_l in L1.
  pose proof (logs_step _ (R_count (clock (clk s)) (ctr (ext c))) (ext c1) c c1 L1) as L2.
  pose proof (logs_step _ (R_note "truncated period") (ext c1) _ _ L2) as L3.
  pose proof (logs_step _ (R_note msg) (ext c1) _ _ L3) as L4.
  simpl rec_events in L4. rewrite !Z.add_0_r in L4. exact L4.
Qed.

Lemma insert_channel_run c s :
  ofs_ok (ch_logf c) →
  ∃ c' s', insert_channel (c, s) = ((c', s'), Ret (ch_nr c))
    ∧ ext c' = set_isHeaderLogged true (counted (ext c))
    ∧ logs (ctr (ext c)) c c'.
Proof.
  intros Hok. unfold insert_channel. rewrite (bind_Ret this _ (c, s) (c, s) c) by done.
  set (e1 := set_isHeaderLogged true (ext c)).
  assert (∃ c1, when (negb (isHeaderLogged (ext c)))
      (assign_ext (set_isHeaderLogged true) ;; printInitialHeaderAndPeriod) (c, s)
      = ((c1, s), Ret tt) ∧ ext c1 = e1 ∧ logs 0 c c1) as (c1 & E1 & X1 & L1).
  { destruct (isHeaderLogged (ext c)) eqn:Eh; cbn [negb when].
    - exists c. split; [done|]. split; [|by apply logs_refl].
      unfold e1. destruct c as [? ? ? ? ? ? ? ? []]. simpl in *. by subst.
    - eexists. split; [reflexivity|]. split; [done|].
      exact (logs_step 0 R_header e1 c c (logs_refl c Hok)). }
  rewrite (bind_Ret _ _ _ _ _ E1), (bind_Ret _ _ _ _ _ (count_events_run c1 s)).
  assert (ctr (ext c1) = ctr (ext c)) as Ec by by rewrite X1.
  do 2 eexists. split; [reflexivity|]. simpl.
  split; [by rewrite X1|]. rewrite Ec.
  pose proof (logs_step _ (R_count (clock (clk s)) (ctr (ext c)))
    (counted (ext c1)) c c1 L1) as L2.
  pose proof (logs_step _ (R_start (periodic_inc (ext c1))) (counted (ext c1)) _ _ L2)
    as L3.
  simpl rec_events in L3. rewrite !Z.add_0_r in L3. exact L3.
Qed.

Lemma reprogram_run target c s :
  ofs_ok (ch_logf c) →
  ∃ c' s', reprogram target (c, s) = ((c', s'), Ret tt)
    ∧ ext c' = set_period target (split_ns target) (flushed (counted (ext c)))
    ∧ logs (ctr (ext c)) c c'.
Proof.
  intros Hok. destruct (leave_period_run "timer reprogrammed" c s Hok)
    as (c1 & s1 & E1 & X1 & L1); [done|].
  unfold reprogram. rewrite (bind_Ret _ _ _ _ _ E1).
  do 2 eexists. split; [reflexivity|]. simpl. by rewrite X1.
Qed.

Lemma shut_down_run c s :
  ofs_ok (ch_logf c) →
  ∃ c' s', shut_down (c, s) = ((c', s'), Ret tt)
    ∧ ext c' = flushed (counted (ext c)) ∧ logs (ctr (ext c)) c c'.
Proof.
  intros Hok. destruct (leave_period_run "timer shut down" c s Hok)
    as (c1 & s1 & E1 & X1 & L1); [done|].
  unfold shut_down. rewrite (bind_Ret _ _ _ _ _ E1).
  do 2 eexists. split; [reflexivity|]. simpl. split; [done|].
  pose proof (logs_step _ (R_total (total_ctr (ext c1))) (ext c1) c c1 L1) as L2.
  simpl rec_events in L2. rewrite Z.add_0_r in L2. exact L2.
Qed.

Definition sampled (ts : timespec) (e : fpc_ext) : fpc_ext :=
  set_sampled (ctr e) ts (set_ctr 0 e).

Lemma sample_one_run c s :
  sample_one (c, s) = ((set_ext (sampled (clock (clk s)) (ext c)) c,
    set_clk (S (clk s)) s), Ret tt).
Proof. done. Qed.

Definition processed (e : fpc_ext) : fpc_ext :=
  if sampled_ctr e =? 0 then set_skipped (u64 (skipped_intervals e + 1)) e
  else flushed (set_total_ctr (u64 (total_ctr e + sampled_ctr e)) e).

Lemma process_one_run c s :
  ofs_ok (ch_logf c) →
  ∃ c', process_one (c, s) = ((c', s), Ret tt)
    ∧ ext c' = processed (ext c) ∧ logs (sampled_ctr (ext c)) c c'.
Proof.
  intros Hok. unfold process_one, processed.
  rewrite (bind_Ret this _ (c, s) (c, s) c) by done.
  destruct (Z.eqb_spec (sampled_ctr (ext c)) 0) as [E0|E0].
  { eexists. split; [reflexivity|]. split; [done|]. rewrite E0.
    by apply logs_ext, logs_refl. }
  set (e1 := set_total_ctr _ (ext c)).
  rewrite (bind_Ret (assign_ext _) _ (c, s) (set_ext e1 c, s) tt) by done.
  destruct (flush_skipped_run (set_ext e1 c) s Hok) as (c1 & E1 & X1 & L1).
  rewrite (bind_Ret _ _ _ _ _ E1).
  eexists. split; [reflexivity|]. split; [exact X1|].
  apply logs_ext_l in L1.
  pose proof (logs_step _ (R_count (sampled_ts (ext c1)) (sampled_ctr (ext c1)))
    (ext c1) c c1 L1) as L2.
  simpl rec_events in L2. rewrite Z.add_0_l in L2.
  assert (sampled_ctr (ext c1) = sampled_ctr (ext c)) as Es.
  { rewrite X1. unfold flushed, e1. simpl. by case_match. }
  rewrite <- Es. exact L2.
Qed.
End Records.

(** ** Who holds what *)
Definition reg (w : fpw) (p cl : Z) : Prop :=
  ∃ d, thr_map w !! p = Some d ∧ cl ∈ addrs d.
Definition hasj (w : fpw) (p : Z) (jb : job) : Prop :=
  ∃ d, thr_map w !! p = Some d ∧ jb ∈ j_queue d.

(** No job of the channel is waiting: its user is not blocked in a call. *)
Definition idle (w : fpw) (cl : Z) : Prop :=
  ∀ p jb, hasj w p jb → FPCcl jb ≠ cl.

(** Sampled, and not processed yet. *)
Definition unsaved (d : thr_descriptor) (cl : Z) : bool :=
  match pc d with
  | T_sample todo => bool_decide (cl ∈ addrs d) && negb (bool_decide (cl ∈ todo))
  | T_process todo => bool_decide (cl ∈ todo)
  | _ => false
  end.

Definition pending (w : fpw) (cl : Z) (e : fpc_ext) : Z :=
  match thr_map w !! periodic_inc_ns e with
  | Some d => if unsaved d cl then sampled_ctr e else 0
  | None => 0
  end.

Definition pc_ok (d : thr_descriptor) : Prop :=
  match pc d with
  | T_sample todo | T_process todo => ∃ done, addrs d = done ++ todo
  | T_jobs n => (n <= length (j_queue d))%nat
  | _ => True
  end.

Definition job_ok (d : thr_descriptor) (jb : job) (c : closure fpc_ext) : Prop :=
  match jtype jb with
  | INSERT_CHANNEL => isRefCounted (ext c) = true ∧ FPCcl jb ∉ addrs d
      ∧ 0 ≤ ch_nr c ∧ ofs_ok (ch_logf c)
  | MOVE_CHANNEL => (isRefCounted (ext c) = true ↔ FPCcl jb ∈ addrs d)
  | DELETE_CHANNEL => isRefCounted (ext c) = false ∧ FPCcl jb ∈ addrs d
  end.

Record thr_inv (f : gmap Z (closure fpc_ext)) (p : Z) (d : thr_descriptor)
    : Prop := ThrInv {
  ti_keys : NoDup (map fst (closures d));
  ti_closures : ∀ nr cl, (nr, cl) ∈ closures d → ∃ c, f !! cl = Some c
    ∧ ch_nr c = nr ∧ 0 ≤ nr ∧ periodic_inc_ns (ext c) = p ∧ ofs_ok (ch_logf c);
  ti_jobs : NoDup (map FPCcl (j_queue d));
  ti_job : ∀ jb, jb ∈ j_queue d → ∃ c, f !! FPCcl jb = Some c
    ∧ periodic_inc_ns (ext c) = p ∧ job_ok d jb c;
  ti_pc : pc_ok d
}.

(** The part of the invariant about channels and threads. *)
Record core (w : fpw) : Prop := Core {
  core_thr : ∀ p d, thr_map w !! p = Some d → thr_inv (fpcs w) p d;
  core_nr : ∀ cl cl' c c', fpcs w !! cl = Some c → fpcs w !! cl' = Some c' →
    ch_nr c = ch_nr c' → 0 ≤ ch_nr c → cl = cl'
}.

Record inv (w : fpw) : Prop := Inv {
  inv_core : core w;
  inv_idle : ∀ cl c, fpcs w !! cl = Some c → idle w cl →
    (isRefCounted (ext c) = true ↔ reg w (periodic_inc_ns (ext c)) cl);
  inv_ids : ∀ k, (k < next_job w)%nat → k ∈ completed w
    ∨ ∃ p jb, hasj w p jb ∧ job_addr jb = k
}.

(** *** Where a channel is *)
Lemma elem_of_addrs d cl : cl ∈ addrs d ↔ ∃ nr, (nr, cl) ∈ closures d.
Proof.
  unfold addrs. rewrite list_elem_of_In, in_map_iff. split.
  - intros ([nr v] & <- & Hin). exists nr. by apply list_elem_of_In.
  - intros [nr Hin]. exists (nr, cl). split; [done|]. by apply list_elem_of_In.
Qed.

Lemma reg_period w p cl :
  core w → reg w p cl →
  ∃ c, fpcs w !! cl = Some c ∧ periodic_inc_ns (ext c) = p ∧ ofs_ok (ch_logf c)
       ∧ 0 ≤ ch_nr c ∧ ∃ d, thr_map w !! p = Some d ∧ (ch_nr c, cl) ∈ closures d.
Proof.
  intros Hc (d & Hd & Hin). apply elem_of_addrs in Hin as [nr Hin].
  destruct (ti_closures _ _ _ (core_thr w Hc p d Hd) nr cl Hin)
    as (c & Hf & Hnr & H0 & Hp & Hok).
  exists c. subst nr. by eauto 10.
Qed.

Lemma job_period w p jb :
  core w → hasj w p jb →
  ∃ c d, fpcs w !! FPCcl jb = Some c ∧ periodic_inc_ns (ext c) = p
       ∧ thr_map w !! p = Some d ∧ job_ok d jb c.
Proof.
  intros Hc (d & Hd & Hin).
  destruct (ti_job _ _ _ (core_thr w Hc p d Hd) jb Hin) as (c & Hf & Hp & Hj).
  by exists c, d.
Qed.

(** A number leads to the channel that has it. *)
Lemma registered_nr w p d c cl nr cl' :
  core w → thr_map w !! p = Some d → fpcs w !! cl = Some c →
  (nr, cl') ∈ closures d → ch_nr c = nr → cl' = cl.
Proof.
  intros Hc Hd Hf Hin Hn.
  destruct (ti_closures _ _ _ (core_thr w Hc p d Hd) nr cl' Hin)
    as (c' & Hf' & Hnr & H0 & _).
  eapply (core_nr w Hc cl' cl c' c); congruence.
Qed.

(** *** std::map *)
Lemma map_find_In nr l cl : map_find nr l = Some cl → (nr, cl) ∈ l.
Proof.
  induction l as [|[k v] l IH]; simpl; [done|].
  destruct (Z.eqb_spec nr k) as [->|]; intros Hf; [simplify_eq; left|right; auto].
Qed.

Lemma map_find_None nr l : map_find nr l = None ↔ nr ∉ map fst l.
Proof.
  induction l as [|[k v] l IH]; simpl; [set_solver|].
  destruct (Z.eqb_spec nr k) as [->|]; [split; [done|set_solver]|].
  rewrite IH. set_solver.
Qed.

Lemma In_fst (k v : Z) l : (k, v) ∈ l → k ∈ map fst l.
Proof.
  rewrite !list_elem_of_In. intros Hin. by apply (in_map fst l (k, v)).
Qed.

Lemma map_insert_elem nr cl l k v :
  nr ∉ map fst l → ((k, v) ∈ map_insert nr cl l ↔ (k, v) = (nr, cl) ∨ (k, v) ∈ l).
Proof.
  induction l as [|[a b] l IH]; intros Hn; simpl; [set_solver|].
  simpl in Hn. destruct (nr <? a); [set_solver|].
  destruct (Z.eqb_spec nr a) as [->|]; [set_solver|].
  rewrite !elem_of_cons, IH by set_solver. naive_solver.
Qed.

Lemma map_insert_keys nr cl l :
  nr ∉ map fst l → map fst (map_insert nr cl l) ≡ₚ nr :: map fst l.
Proof.
  induction l as [|[a b] l IH]; intros Hn; simpl; [done|].
  simpl in Hn. destruct (nr <? a); [done|].
  destruct (Z.eqb_spec nr a) as [->|]; [set_solver|]. simpl.
  rewrite IH by set_solver. constructor.
Qed.

Lemma map_erase_elem nr l k v : (k, v) ∈ map_erase nr l ↔ (k, v) ∈ l ∧ k ≠ nr.
Proof.
  unfold map_erase. rewrite !list_elem_of_In, filter_In. simpl.
  rewrite negb_true_iff, Z.eqb_neq. naive_solver.
Qed.

Lemma map_erase_keys nr l : NoDup (map fst l) → NoDup (map fst (map_erase nr l)).
Proof.
  unfold map_erase. induction l as [|[k v] l IH]; simpl; intros Hn; [done|].
  apply NoDup_cons in Hn as [Hk Hn].
  destruct (negb (nr =? k)); simpl; [|auto].
  apply NoDup_cons. split; [|auto]. intros Hin. apply Hk.
  apply list_elem_of_In, in_map_iff in Hin as ([a b] & E & Hin). simpl in E. subst a.
  apply filter_In in Hin as [Hin _]. apply In_fst with b. by apply list_elem_of_In.
Qed.

(** *** Moves that keep the core *)

(** A channel changes, but for its number and period; its reference flag only
    when it has no job. *)
Lemma thr_inv_fpcs f p d cl c c' :
  thr_inv f p d → f !! cl = Some c →
  ch_nr c' = ch_nr c → periodic_inc_ns (ext c') = periodic_inc_ns (ext c) →
  (ofs_ok (ch_logf c) → ofs_ok (ch_logf c')) →
  (isRefCounted (ext c') = isRefCounted (ext c)
   ∨ ∀ jb, jb ∈ j_queue d → FPCcl jb ≠ cl) →
  thr_inv (<[cl := c']> f) p d.
Proof.
  intros [Hk Hcl Hj Hjob Hpc] Hf Hn Hp Ho Hr. split; try done.
  - intros nr cl' Hin. destruct (Hcl nr cl' Hin) as (c0 & H0 & H1 & H2 & H3 & H4).
    destruct (decide (cl' = cl)) as [->|Hne].
    + rewrite lookup_insert_eq. simplify_eq. exists c'. rewrite Hn, Hp. split_and!; auto.
    + rewrite lookup_insert_ne by done. by exists c0.
  - intros jb Hin. destruct (Hjob jb Hin) as (c0 & H0 & H1 & H2).
    destruct (decide (FPCcl jb = cl)) as [Heq|Hne].
    + destruct Hr as [Hr|Hr]; [|by destruct (Hr jb Hin)].
      rewrite Heq in *. rewrite lookup_insert_eq. simplify_eq. exists c'.
      split; [done|]. split; [congruence|]. unfold job_ok in *.
      rewrite Hr, Hn. destruct (jtype jb); naive_solver.
    + rewrite lookup_insert_ne by done. eauto.
Qed.

Lemma core_fpcs w cl c c' y :
  core w → fpcs w !! cl = Some c →
  ch_nr c' = ch_nr c → periodic_inc_ns (ext c') = periodic_inc_ns (ext c) →
  (ofs_ok (ch_logf c) → ofs_ok (ch_logf c')) →
  (isRefCounted (ext c') = isRefCounted (ext c) ∨ idle w cl) →
  core (set_fsys y (set_fpcs (<[cl := c']> (fpcs w)) w)).
Proof.
  intros [Ht Hn] Hf En Ep Ho Hr. split; simpl.
  - intros p d Hd. eapply thr_inv_fpcs; eauto.
    destruct Hr as [|Hr]; [by left|right]. intros jb Hin. eapply Hr. by exists d.
  - intros cl1 cl2 c1 c2 H1 H2.
    destruct (decide (cl1 = cl)) as [->|N1], (decide (cl2 = cl)) as [->|N2];
      rewrite ?lookup_insert_eq, ?lookup_insert_ne in H1 by done;
      rewrite ?lookup_insert_eq, ?lookup_insert_ne in H2 by done; simplify_eq;
      rewrite ?En; eauto.
Qed.

(** A thread goes on to another point. *)
Lemma alter_some {V} (f : V → V) (p : Z) (m : gmap Z V) d :
  m !! p = Some d → alter f p m = <[p := f d]> m.
Proof.
  intros Hd. apply map_eq. intros q. destruct (decide (q = p)) as [->|Hne].
  - by rewrite lookup_alter_eq, Hd, lookup_insert_eq.
  - by rewrite lookup_alter_ne, lookup_insert_ne by done.
Qed.

Definition same_held (w w' : fpw) : Prop := ∀ p,
  (λ d, (closures d, j_queue d)) <$> thr_map w !! p
  = (λ d, (closures d, j_queue d)) <$> thr_map w' !! p.

Lemma same_held_at w w' p d :
  same_held w w' → thr_map w !! p = Some d →
  ∃ d', thr_map w' !! p = Some d' ∧ closures d' = closures d ∧ j_queue d' = j_queue d.
Proof.
  intros Hs Hd. specialize (Hs p). rewrite Hd in Hs. simpl in Hs.
  destruct (thr_map w' !! p) as [d'|]; [|done]. simpl in Hs. exists d'.
  by injection Hs as -> ->.
Qed.

Lemma same_held_sym w w' : same_held w w' → same_held w' w.
Proof. intros Hs p. by rewrite (Hs p). Qed.

Lemma same_held_reg w w' p cl : same_held w w' → reg w p cl → reg w' p cl.
Proof.
  intros Hs (d & Hd & Hin). destruct (same_held_at w w' p d Hs Hd) as (d' & ? & E & _).
  exists d'. split; [done|]. unfold addrs in *. by rewrite E.
Qed.

Lemma same_held_hasj w w' p jb : same_held w w' → hasj w p jb → hasj w' p jb.
Proof.
  intros Hs (d & Hd & Hin). destruct (same_held_at w w' p d Hs Hd) as (d' & ? & _ & E).
  exists d'. by rewrite E.
Qed.

(** The rest of the invariant when no job moves. *)
Lemma inv_same w w' :
  inv w → core w' → same_held w w' →
  next_job w' = next_job w → completed w' = completed w →
  (∀ cl c', fpcs w' !! cl = Some c' → ∃ c, fpcs w !! cl = Some c
     ∧ isRefCounted (ext c') = isRefCounted (ext c)
     ∧ periodic_inc_ns (ext c') = periodic_inc_ns (ext c)) →
  inv w'.
Proof.
  intros [Hc Hi Hk] Hc' Hs En Ec Hf. split; [done| |].
  - intros cl c' Hcl Hidle. destruct (Hf cl c' Hcl) as (c & Hcl0 & -> & ->).
    rewrite (Hi cl c Hcl0).
    + split; apply same_held_reg; [done|by apply same_held_sym].
    + intros p jb Hj. eapply Hidle, same_held_hasj; eauto.
  - rewrite En, Ec. intros k Hlt. destruct (Hk k Hlt) as [|(p & jb & Hj & E)]; [by left|].
    right. exists p, jb. split; [|done]. by eapply same_held_hasj.
Qed.

Lemma thr_inv_held f p d d' :
  thr_inv f p d → closures d' = closures d → j_queue d' = j_queue d → pc_ok d' →
  thr_inv f p d'.
Proof.
  intros [Hk Hcl Hj Hjob _] E1 E2 Hpc. split; rewrite ?E1, ?E2; try done.
  intros jb Hin. destruct (Hjob jb Hin) as (c & ? & ? & Hok). exists c.
  split; [done|]. split; [done|]. unfold job_ok, addrs in *. by rewrite E1.
Qed.

Lemma core_held w p d d' :
  core w → thr_map w !! p = Some d → closures d' = closures d →
  j_queue d' = j_queue d → pc_ok d' → core (set_thr_map (<[p := d']> (thr_map w)) w).
Proof.
  intros [Ht Hn] Hd E1 E2 Hpc. split; simpl; [|done].
  intros q d0 Hq. rewrite lookup_insert in Hq. case_decide; simplify_eq; [|eauto].
  eapply thr_inv_held; eauto.
Qed.

Lemma same_held_upd w w' p d d' :
  thr_map w !! p = Some d → thr_map w' = <[p := d']> (thr_map w) →
  closures d' = closures d → j_queue d' = j_queue d → same_held w w'.
Proof.
  intros Hd Ew E1 E2 q. rewrite Ew. destruct (decide (q = p)) as [->|Hne].
  - rewrite lookup_insert_eq, Hd. simpl. by rewrite E1, E2.
  - by rewrite lookup_insert_ne.
Qed.

(** A job is put into the queue of its channel's thread; the thread is started
    if there is none. *)
Definition with_job (w : fpw) (period : Z) (jb : job) : gmap Z thr_descriptor :=
  match thr_map w !! period with
  | Some d => <[period := add_job jb d]> (thr_map w)
  | None => <[period := thr_descriptor_new period jb]> (thr_map w)
  end.

Lemma core_put w c jb :
  core w → fpcs w !! FPCcl jb = Some c → idle w (FPCcl jb) →
  (∀ d, thr_map w !! periodic_inc_ns (ext c) = Some d → job_ok d jb c) →
  (thr_map w !! periodic_inc_ns (ext c) = None →
   job_ok (thr_descriptor_new (periodic_inc_ns (ext c)) jb) jb c) →
  core (set_thr_map (with_job w (periodic_inc_ns (ext c)) jb) w).
Proof.
  intros Hc Hf Hidle Hok Hnew. split; [|apply Hc].
  simpl. unfold with_job. set (p := periodic_inc_ns (ext c)) in *.
  intros q d' Hq. destruct (thr_map w !! p) as [d|] eqn:Hd.
  - destruct (decide (q = p)) as [->|Hne].
    2:{ rewrite lookup_insert_ne in Hq by done. by apply (core_thr w Hc). }
    rewrite lookup_insert_eq in Hq. simplify_eq.
    destruct (core_thr w Hc p d Hd) as [Hk Hcl Hj Hjob Hpc].
    split; simpl; try done.
    + rewrite map_app. apply NoDup_app. split; [done|]. split; [|apply NoDup_singleton].
      intros cl Hin Hin'. apply list_elem_of_singleton in Hin'. subst cl.
      apply list_elem_of_In, in_map_iff in Hin as (jb' & E & Hin).
      apply list_elem_of_In in Hin. eapply Hidle; [by exists d|done].
    + intros jb' Hin. apply elem_of_app in Hin as [Hin|Hin].
      * destruct (Hjob jb' Hin) as (c' & ? & ? & ?). by exists c'.
      * apply list_elem_of_singleton in Hin. subst jb'. exists c.
        split; [done|]. split; [done|]. exact (Hok d eq_refl).
    + unfold pc_ok in *. simpl. destruct (pc d); try done.
      rewrite length_app. lia.
  - destruct (decide (q = p)) as [->|Hne].
    2:{ rewrite lookup_insert_ne in Hq by done. by apply (core_thr w Hc). }
    rewrite lookup_insert_eq in Hq. simplify_eq.
    split; simpl; [apply NoDup_nil_2|set_solver|apply NoDup_singleton| |done].
    intros jb' Hin. apply list_elem_of_singleton in Hin. subst jb'. exists c.
    split; [done|]. split; [done|]. by apply Hnew.
Qed.

Lemma with_job_reg w period jb p cl :
  reg (set_thr_map (with_job w period jb) w) p cl ↔ reg w p cl.
Proof.
  unfold reg, with_job. simpl.
  destruct (thr_map w !! period) as [d|] eqn:Hd; destruct (decide (p = period)) as [->|Hne];
    rewrite ?lookup_insert_eq, ?lookup_insert_ne by done; try done.
  - split; intros (d' & ? & Hin); simplify_eq; [by exists d|by exists (add_job jb d)].
  - split; intros (d' & ? & Hin); simplify_eq.
    unfold addrs in Hin. simpl in Hin. by apply not_elem_of_nil in Hin.
Qed.

Lemma with_job_hasj w period jb p jb' :
  hasj (set_thr_map (with_job w period jb) w) p jb'
  ↔ hasj w p jb' ∨ (p = period ∧ jb' = jb).
Proof.
  unfold hasj, with_job. simpl.
  destruct (thr_map w !! period) as [d|] eqn:Hd; destruct (decide (p = period)) as [->|Hne];
    rewrite ?lookup_insert_eq, ?lookup_insert_ne by done; try naive_solver.
  - split.
    + intros (d' & ? & Hin). simplify_eq. simpl in Hin.
      apply elem_of_app in Hin as [Hin|Hin]; [left; by exists d|right; set_solver].
    + intros [(d' & ? & Hin)|[_ ->]]; simplify_eq; eexists; (split; [done|]);
        simpl; set_solver.
  - split.
    + intros (d' & ? & Hin). simplify_eq. simpl in Hin. right. set_solver.
    + intros [(d' & ? & Hin)|[_ ->]]; [congruence|]. eexists. split; [done|].
      simpl. set_solver.
Qed.

(** A thread takes its first job, of channel [cl], off the queue, and the channel
    changes; the other channels of the thread stay. *)
Lemma core_take w p d jb q c c' d' :
  core w → thr_map w !! p = Some d → j_queue d = jb :: q →
  fpcs w !! FPCcl jb = Some c → ch_nr c' = ch_nr c →
  j_queue d' = q → pc_ok d' → NoDup (map fst (closures d')) →
  (∀ nr cl, cl ≠ FPCcl jb → (nr, cl) ∈ closures d' ↔ (nr, cl) ∈ closures d) →
  (∀ nr, (nr, FPCcl jb) ∈ closures d' → nr = ch_nr c' ∧ 0 ≤ nr
     ∧ periodic_inc_ns (ext c') = p ∧ ofs_ok (ch_logf c')) →
  core (set_thr_map (<[p := d']> (thr_map w))
    (set_fpcs (<[FPCcl jb := c']> (fpcs w)) w)).
Proof.
  intros Hc Hd Hq Hf En Eq Hpc Hkeys Hothers Hthis.
  set (cl := FPCcl jb) in *.
  assert (∀ p2 d2, thr_map w !! p2 = Some d2 → p2 ≠ p → cl ∉ addrs d2
    ∧ ∀ jb', jb' ∈ j_queue d2 → FPCcl jb' ≠ cl) as Hfar.
  { destruct (job_period w p jb Hc) as (c0 & d0 & Hf0 & Hp0 & _).
    { exists d. split; [done|]. rewrite Hq. left. }
    fold cl in Hf0.
    intros p2 d2 Hd2 Hne. split.
    - intros Hin. destruct (reg_period w p2 cl Hc) as (c2 & Hf2 & Hp2 & _);
        [by exists d2|]. congruence.
    - intros jb' Hin Heq. destruct (job_period w p2 jb' Hc) as (c2 & _ & Hf2 & Hp2 & _);
        [by exists d2|]. rewrite Heq in Hf2. congruence. }
  destruct (core_thr w Hc p d Hd) as [Hk Hcl Hj Hjob Hpc0].
  rewrite Hq in Hj. simpl in Hj. apply NoDup_cons in Hj as [Hj1 Hj2].
  assert (∀ jb', jb' ∈ q → FPCcl jb' ≠ cl) as Hqcl.
  { intros jb' Hin Heq. apply Hj1. change (FPCcl jb) with cl. rewrite <- Heq.
    by apply list_elem_of_fmap_2. }
  split; simpl.
  2:{ intros cl1 cl2 c1 c2 H1 H2.
      destruct (decide (cl1 = cl)) as [->|N1], (decide (cl2 = cl)) as [->|N2];
        rewrite ?lookup_insert_eq, ?lookup_insert_ne in H1 by done;
        rewrite ?lookup_insert_eq, ?lookup_insert_ne in H2 by done; simplify_eq;
        rewrite ?En; eauto using core_nr. }
  intros p2 d2 Hd2. destruct (decide (p2 = p)) as [->|Hne].
  2:{ rewrite lookup_insert_ne in Hd2 by done.
      destruct (Hfar p2 d2 Hd2 Hne) as [Ha Hb].
      destruct (core_thr w Hc p2 d2 Hd2) as [Hk' Hcl' Hj' Hjob' Hpc'].
      split; try done.
      - intros nr cl' Hin. rewrite lookup_insert_ne; [by apply Hcl'|].
        intros <-. apply Ha. apply elem_of_addrs. by exists nr.
      - intros jb' Hin. rewrite lookup_insert_ne; [by apply Hjob'|].
        intros Heq. by apply (Hb jb' Hin). }
  rewrite lookup_insert_eq in Hd2. simplify_eq. split; try done.
  - intros nr cl' Hin. destruct (decide (cl' = cl)) as [->|Hne].
    + rewrite lookup_insert_eq. destruct (Hthis nr Hin) as (-> & ? & ? & ?).
      by exists c'.
    + rewrite lookup_insert_ne by done. apply Hcl. by apply Hothers.
  - intros jb' Hin. pose proof (Hqcl jb' Hin) as Hne.
    rewrite lookup_insert_ne by done.
    destruct (Hjob jb') as (c0 & H0 & H1 & H2); [rewrite Hq; by right|].
    exists c0. split; [done|]. split; [done|].
    assert (FPCcl jb' ∈ addrs d2 ↔ FPCcl jb' ∈ addrs d) as Ha.
    { rewrite !elem_of_addrs. split; intros [nr Hn]; exists nr; by apply Hothers. }
    unfold job_ok in *. destruct (jtype jb'); by rewrite Ha.
Qed.

(** *** A job taken off its queue *)
Definition taken (w : fpw) (p cl : Z) (d' : thr_descriptor)
    (c' : closure fpc_ext) (done : gset nat) (y : sys) : fpw :=
  Fpw (<[cl := c']> (fpcs w)) (<[p := d']> (thr_map w)) (nr_open_channels w)
    (next_job w) done y.

(** What it takes: [d'] is the thread without its first job [jb], whose channel
    went from [c] to [c'], the other channels staying where they are. *)
Record take_ok (w : fpw) (p : Z) (d d' : thr_descriptor) (jb : job)
    (c c' : closure fpc_ext) : Prop := TakeOk {
  tk_thr : thr_map w !! p = Some d;
  tk_queue : j_queue d = jb :: j_queue d';
  tk_chan : fpcs w !! FPCcl jb = Some c;
  tk_nr : ch_nr c' = ch_nr c;
  tk_pc : pc_ok d';
  tk_keys : NoDup (map fst (closures d'));
  tk_others : ∀ nr cl, cl ≠ FPCcl jb →
    (nr, cl) ∈ closures d' ↔ (nr, cl) ∈ closures d;
  tk_this : ∀ nr, (nr, FPCcl jb) ∈ closures d' → nr = ch_nr c' ∧ 0 ≤ nr
    ∧ periodic_inc_ns (ext c') = p ∧ ofs_ok (ch_logf c')
}.

Section Taken.
Context (w : fpw) (p : Z) (d d' : thr_descriptor) (jb : job)
  (c c' : closure fpc_ext) (dn : gset nat) (y : sys).
Context (Hi : inv w) (Ht : take_ok w p d d' jb c c').
Let cl := FPCcl jb.
Let w' := taken w p cl d' c' dn y.

Lemma taken_core : core w'.
Proof.
  destruct Ht as [H1 H2 H3 H4 H5 H6 H7 H8].
  destruct (core_take w p d jb (j_queue d') c c' d' (inv_core w Hi)) as [T N]; try done.
Qed.

Lemma taken_job : hasj w p jb.
Proof. exists d. split; [apply Ht|]. rewrite (tk_queue _ _ _ _ _ _ _ Ht). left. Qed.

Lemma taken_job_period q jb' : hasj w q jb' → FPCcl jb' = cl → q = p.
Proof.
  intros Hj E. destruct (job_period w q jb' (inv_core w Hi) Hj) as (c1 & d1 & F1 & P1 & _).
  destruct (job_period w p jb (inv_core w Hi) taken_job) as (c2 & d2 & F2 & P2 & _).
  rewrite E in F1. fold cl in F2. congruence.
Qed.

Lemma taken_hasj q jb' : hasj w' q jb' ↔ hasj w q jb' ∧ FPCcl jb' ≠ cl.
Proof.
  destruct Ht as [Hd Hq _ _ _ _ _ _].
  pose proof (ti_jobs _ _ _ (core_thr w (inv_core w Hi) p d Hd)) as Hnd.
  rewrite Hq in Hnd. simpl in Hnd. apply NoDup_cons in Hnd as [Hnd _].
  unfold hasj, w'. simpl. destruct (decide (q = p)) as [->|Hne].
  - rewrite lookup_insert_eq. split.
    + intros (d0 & [= <-] & Hin). split; [exists d; split; [done|]; rewrite Hq; by right|].
      intros E. apply Hnd. change (FPCcl jb) with cl. rewrite <- E.
      by apply list_elem_of_fmap_2.
    + intros [(d0 & Hd0 & Hin) E]. simplify_eq. exists d'. split; [done|].
      rewrite Hq in Hin. apply elem_of_cons in Hin as [->|]; [|done]. by destruct E.
  - rewrite lookup_insert_ne by done. split; [|naive_solver].
    intros (d0 & Hd0 & Hin). split; [by exists d0|]. intros E.
    apply Hne. apply (taken_job_period q jb'); [by exists d0|done].
Qed.

Lemma taken_reg q cl' : cl' ≠ cl → (reg w' q cl' ↔ reg w q cl').
Proof.
  intros Hne. destruct Ht as [Hd _ _ _ _ _ Ho _]. unfold reg, w'. simpl.
  destruct (decide (q = p)) as [->|Hq]; [|by rewrite lookup_insert_ne].
  rewrite lookup_insert_eq, Hd.
  assert (cl' ∈ addrs d' ↔ cl' ∈ addrs d) as Ha.
  { rewrite !elem_of_addrs. split; intros [nr Hin]; exists nr; by apply Ho. }
  split; intros (d0 & [= <-] & Hin); eexists; (split; [done|]); by apply Ha.
Qed.

Lemma taken_reg_cl q : reg w' q cl ↔ q = p ∧ cl ∈ addrs d'.
Proof.
  unfold reg, w'. simpl. destruct (decide (q = p)) as [->|Hq].
  - rewrite lookup_insert_eq. split; [by intros (? & [= <-] & ?)|].
    intros [_ Hin]. by exists d'.
  - rewrite lookup_insert_ne by done. split; [|by intros [? _]].
    intros (d0 & Hd0 & Hin). exfalso. apply Hq.
    destruct (reg_period w q cl (inv_core w Hi)) as (c1 & F1 & P1 & _); [by exists d0|].
    destruct (job_period w p jb (inv_core w Hi) taken_job) as (c2 & d2 & F2 & P2 & _).
    fold cl in F2. congruence.
Qed.

Lemma taken_idle_cl : idle w' cl.
Proof. intros q jb' Hj. by apply taken_hasj in Hj as [_ ?]. Qed.

Lemma taken_idle cl' : cl' ≠ cl → idle w' cl' → idle w cl'.
Proof.
  intros Hne Hid q jb' Hj E. apply (Hid q jb'); [|done].
  apply taken_hasj. split; [done|congruence].
Qed.

Lemma taken_ids k :
  (k < next_job w)%nat → k ≠ job_addr jb → k ∈ completed w ∨
    ∃ q jb', hasj w' q jb' ∧ job_addr jb' = k.
Proof.
  intros Hk Hne. destruct (inv_ids w Hi k Hk) as [|(q & jb' & Hj & E)]; [by left|].
  right. exists q, jb'. split; [|done]. apply taken_hasj. split; [done|].
  intros Ecl. apply Hne. rewrite <- E. f_equal.
  assert (q = p) as -> by by eapply taken_job_period.
  destruct Ht as [Hd Hq _ _ _ _ _ _].
  pose proof (ti_jobs _ _ _ (core_thr w (inv_core w Hi) p d Hd)) as Hnd.
  destruct Hj as (d0 & Hd0 & Hin). assert (d0 = d) as -> by congruence.
  rewrite Hq in Hin, Hnd.
  apply elem_of_cons in Hin as [->|Hin]; [done|]. exfalso.
  simpl in Hnd. apply NoDup_cons in Hnd as [Hnd _]. apply Hnd.
  change (FPCcl jb) with cl. rewrite <- Ecl. by apply list_elem_of_fmap_2.
Qed.

(** The job is completed. *)
Lemma inv_completed :
  dn = {[job_addr jb]} ∪ completed w →
  (isRefCounted (ext c') = true ↔ periodic_inc_ns (ext c') = p ∧ cl ∈ addrs d') →
  inv w'.
Proof.
  intros Edn Hr. split; [apply taken_core| |].
  - intros cl' c0 Hc0 Hid. destruct (decide (cl' = cl)) as [->|Hne].
    + simpl in Hc0. rewrite lookup_insert_eq in Hc0. injection Hc0 as <-.
      rewrite taken_reg_cl. exact Hr.
    + simpl in Hc0. rewrite lookup_insert_ne in Hc0 by done.
      rewrite taken_reg by done. apply (inv_idle w Hi); [done|].
      by apply taken_idle.
  - intros k Hk. simpl in Hk. change (completed w') with dn. rewrite Edn.
    destruct (decide (k = job_addr jb)) as [->|Hne]; [left; set_solver|].
    destruct (taken_ids k Hk Hne) as [|]; [left; set_solver|by right].
Qed.

(** The job is passed on to another thread. *)
Lemma inv_passed jb' :
  dn = completed w → FPCcl jb' = cl → job_addr jb' = job_addr jb →
  jtype jb' = INSERT_CHANNEL → cl ∉ addrs d' →
  isRefCounted (ext c') = true → 0 ≤ ch_nr c' → ofs_ok (ch_logf c') →
  inv (set_thr_map (with_job w' (periodic_inc_ns (ext c')) jb') w').
Proof.
  intros Edn Ecl Eid Et Hna Hr H0 Ho.
  assert (fpcs w' !! FPCcl jb' = Some c') as Hf
    by (rewrite Ecl; simpl; by rewrite lookup_insert_eq).
  split.
  - apply core_put; [apply taken_core|done|rewrite Ecl; apply taken_idle_cl| |].
    + intros d0 Hd0. unfold job_ok. rewrite Et. split_and!; try done.
      intros Hin. assert (reg w' (periodic_inc_ns (ext c')) cl) as Hreg
        by (rewrite <- Ecl; by exists d0).
      by apply taken_reg_cl in Hreg as [_ ?].
    + intros _. unfold job_ok. rewrite Et. split_and!; try done.
      unfold addrs. simpl. apply not_elem_of_nil.
  - intros cl' c0 Hc0 Hid.
    assert (cl' ≠ cl) as Hne.
    { intros ->. apply (Hid (periodic_inc_ns (ext c')) jb'); [|done].
      apply with_job_hasj. by right. }
    rewrite with_job_reg, taken_reg by done.
    simpl in Hc0. rewrite lookup_insert_ne in Hc0 by done.
    apply (inv_idle w Hi); [done|]. apply taken_idle; [done|].
    intros q jb0 Hj. apply (Hid q). apply with_job_hasj. by left.
  - intros k Hk. simpl in Hk.
    change (completed _) with dn. rewrite Edn.
    destruct (decide (k = job_addr jb)) as [->|Hne].
    + right. exists (periodic_inc_ns (ext c')), jb'. split; [|done].
      apply with_job_hasj. by right.
    + destruct (taken_ids k Hk Hne) as [|(q & jb0 & Hj & E)]; [by left|].
      right. exists q, jb0. split; [|done]. apply with_job_hasj. by left.
Qed.
End Taken.
