(* ===== verification/FpcThread.v ===== *)
(** * The fast periodic counter: the steps of a sampling thread

    Every step of a thread returns, keeps the invariant of FpcInv.v, and keeps
    the accounts: an event is in exactly one of the atomic counter, a sample not
    yet written, and the total written. *)
From S2P Require Import Prelude TimeStamp Platform Log Formats Closure.
From S2P Require Import FastPeriodicCounter FpcInv.

(** ** Accounts *)
Section Accounts.
Context `{Env}.

Definition balance (w : fpw) (cl : Z) (c : closure fpc_ext) : Z :=
  ctr (ext c) + pending w cl (ext c) + total_ctr (ext c).

(** What the file of a channel says is the total, and every one of the [n]
    events is in the counter, in a sample, or in the total. *)
Definition accounts (w : fpw) (n : Z → nat) : Prop := ∀ cl,
  match fpcs w !! cl with
  | None => n cl = 0%nat
  | Some c =>
      (∃ recs, ofs_file (ch_logf c) = render_all recs
               ∧ u64 (written recs) = u64 (total_ctr (ext c)))
      ∧ u64 (balance w cl c) = u64 (Z.of_nat (n cl))
  end.

Definition moved (w w' : fpw) (cl : Z) (c c' : closure fpc_ext) : Prop :=
  (∃ recs, ofs_file (ch_logf c') = ofs_file (ch_logf c) ++ render_all recs
     ∧ u64 (total_ctr (ext c')) = u64 (total_ctr (ext c) + written recs))
  ∧ u64 (balance w' cl c') = u64 (balance w cl c).

Lemma accounts_moved w w' n :
  accounts w n →
  (∀ cl, fpcs w' !! cl = None → fpcs w !! cl = None) →
  (∀ cl c', fpcs w' !! cl = Some c' →
     ∃ c, fpcs w !! cl = Some c ∧ moved w w' cl c c') →
  accounts w' n.
Proof.
  intros Ha Hn Hm cl. specialize (Ha cl). specialize (Hn cl).
  destruct (fpcs w' !! cl) as [c'|] eqn:Hf; [|by rewrite Hn in Ha].
  destruct (Hm cl c' Hf) as (c & Hc & (recs & Hfile & Htot) & Hbal).
  rewrite Hc in Ha. destruct Ha as [(recs0 & Hfile0 & Htot0) Hbal0].
  split; [|congruence]. exists (recs0 ++ recs).
  rewrite Hfile, Hfile0, fpc_render_app, written_app. split; [done|].
  rewrite Htot, <- wrapU_idemp_add, Htot0. by rewrite wrapU_idemp_add.
Qed.

Lemma moved_refl w w' cl c :
  pending w' cl (ext c) = pending w cl (ext c) → moved w w' cl c c.
Proof.
  intros Hp. split; [|unfold balance; by rewrite Hp].
  exists []. rewrite app_nil_r. simpl. by rewrite Z.add_0_r.
Qed.

(** One channel and one thread change. *)
Definition upd_cl (cl : Z) (c : closure fpc_ext) (y : sys) (w : fpw) : fpw :=
  set_fsys y (set_fpcs (<[cl := c]> (fpcs w)) w).
Definition upd_thr (p : Z) (d : thr_descriptor) (w : fpw) : fpw :=
  set_thr_map (<[p := d]> (thr_map w)) w.

Lemma accounts_upd w w' n p d d' cl c c' :
  accounts w n → thr_map w !! p = Some d → fpcs w !! cl = Some c →
  thr_map w' = <[p := d']> (thr_map w) → fpcs w' = <[cl := c']> (fpcs w) →
  (∀ cl', cl' ≠ cl → unsaved d' cl' = unsaved d cl') →
  moved w w' cl c c' → accounts w' n.
Proof.
  intros Ha Hd Hc Et Ef Hu Hm. apply (accounts_moved w); [done| |].
  - intros cl'. rewrite Ef. destruct (decide (cl' = cl)) as [->|];
      [by rewrite lookup_insert_eq|by rewrite lookup_insert_ne].
  - intros cl' c0. rewrite Ef. destruct (decide (cl' = cl)) as [->|Hne].
    + rewrite lookup_insert_eq. intros [= <-]. by exists c.
    + rewrite lookup_insert_ne by done. intros Hc0. exists c0. split; [done|].
      apply moved_refl. unfold pending. rewrite Et.
      destruct (decide (periodic_inc_ns (ext c0) = p)) as [->|];
        [rewrite lookup_insert_eq, Hd, Hu by done; done|by rewrite lookup_insert_ne].
Qed.

(** Only a thread changes, or only its point of execution. *)
Lemma accounts_thr w w' n p d d' :
  accounts w n → thr_map w !! p = Some d →
  thr_map w' = <[p := d']> (thr_map w) → fpcs w' = fpcs w →
  (∀ cl, unsaved d' cl = unsaved d cl) → accounts w' n.
Proof.
  intros Ha Hd Et Ef Hu. apply (accounts_moved w); [done|by rewrite Ef|].
  rewrite Ef. intros cl c Hc. exists c. split; [done|].
  apply moved_refl. unfold pending. rewrite Et.
  destruct (decide (periodic_inc_ns (ext c) = p)) as [->|];
    [by rewrite lookup_insert_eq, Hd, Hu|by rewrite lookup_insert_ne].
Qed.

(** ** Runs *)
Lemma this_thr_run p d w : thr_map w !! p = Some d → this_thr p w = (w, Ret d).
Proof. intros Hd. unfold this_thr. monad_simpl. by rewrite Hd. Qed.

Lemma assign_thr_run p f d w :
  thr_map w !! p = Some d → assign_thr p f w = (upd_thr p (f d) w, Ret tt).
Proof.
  intros Hd. unfold assign_thr, upd_thr. monad_simpl. by rewrite (alter_some _ _ _ d).
Qed.

Lemma on_fpc_run {A} cl (m : CM fpc_ext A) c c' y a w :
  fpcs w !! cl = Some c → m (c, fsys w) = ((c', y), Ret a) →
  on_fpc cl m w = (upd_cl cl c' y w, Ret a).
Proof. intros Hc Hm. unfold on_fpc. by rewrite Hc, Hm. Qed.

Lemma fpc_sys_log l m w :
  ∃ y, fpc_sys (logFail "handlers/fast_periodic_counter_handler.cpp" l m) w
    = (set_fsys y w, Ret tt).
Proof.
  destruct (logFail_frame "handlers/fast_periodic_counter_handler.cpp" l m (fsys w))
    as (y & E & _). exists y. unfold fpc_sys, zoom. by rewrite E.
Qed.

(** [w'] is a next world in which the invariant and the accounts hold. *)
Definition good (n : Z → nat) (r : fpw * outcome unit) : Prop :=
  ∃ w', r = (w', Ret tt) ∧ inv w' ∧ accounts w' n.

(** Only the point of execution changes. *)
Lemma good_goto w n p d x y :
  inv w → accounts w n → thr_map w !! p = Some d →
  pc_ok (set_pc x d) → (∀ cl, unsaved (set_pc x d) cl = unsaved d cl) →
  good n (goto p x (set_fsys y w)).
Proof.
  intros Hi Ha Hd Hpc Hu. eexists. split; [by apply assign_thr_run|].
  assert (core (upd_thr p (set_pc x d) (set_fsys y w))) as Hc'.
  { apply (core_held (set_fsys y w) p d); try done. destruct (inv_core w Hi). by split. }
  split.
  - apply (inv_same w); try done.
    + by apply (same_held_upd _ _ p d (set_pc x d)).
    + intros cl c Hc. by exists c.
  - by apply (accounts_thr w _ n p d (set_pc x d)).
Qed.

Lemma good_goto0 w n p d x :
  inv w → accounts w n → thr_map w !! p = Some d →
  pc_ok (set_pc x d) → (∀ cl, unsaved (set_pc x d) cl = unsaved d cl) →
  good n (goto p x w).
Proof.
  intros. replace w with (set_fsys (fsys w) w) by by destruct w.
  by apply (good_goto w n p d).
Qed.

(** *** Sampling and processing *)
Lemma addrs_nodup f p d : thr_inv f p d → NoDup (addrs d).
Proof.
  intros [Hk Hcl _ _ _]. unfold addrs.
  assert (∀ nr cl, (nr, cl) ∈ closures d → ch_nr <$> f !! cl = Some nr) as Hg.
  { intros nr cl Hin. destruct (Hcl nr cl Hin) as (c & -> & <- & _). done. }
  clear Hcl. revert Hk Hg. generalize (closures d). intros l.
  induction l as [|[nr cl] l IH]; intros Hk Hg; simpl; [apply NoDup_nil_2|].
  simpl in Hk. apply NoDup_cons in Hk as [Hk1 Hk2]. apply NoDup_cons. split.
  - intros Hin. apply list_elem_of_In, in_map_iff in Hin as ([nr' cl'] & E & Hin).
    simpl in E. subst cl'. apply list_elem_of_In in Hin. apply Hk1.
    assert (nr' = nr) as ->; [|by eapply In_fst].
    pose proof (Hg nr cl ltac:(left)). pose proof (Hg nr' cl ltac:(by right)).
    congruence.
  - apply IH; [done|]. intros nr' cl' Hin. apply Hg. by right.
Qed.

Lemma listed_channel w p d cl :
  inv w → thr_map w !! p = Some d → cl ∈ addrs d →
  ∃ c, fpcs w !! cl = Some c ∧ periodic_inc_ns (ext c) = p ∧ ofs_ok (ch_logf c).
Proof.
  intros Hi Hd Hin. destruct (reg_period w p cl (inv_core w Hi)) as (c & ? & ? & ? & _);
    [by exists d|]. by exists c.
Qed.

(** A channel of the thread changes its counts and the thread goes on. *)
Lemma good_visit w n p d cl c c' y x :
  inv w → accounts w n → thr_map w !! p = Some d → fpcs w !! cl = Some c →
  ch_nr c' = ch_nr c → periodic_inc_ns (ext c') = periodic_inc_ns (ext c) →
  isRefCounted (ext c') = isRefCounted (ext c) → ofs_ok (ch_logf c') →
  pc_ok (set_pc x d) →
  (∀ cl', cl' ≠ cl → unsaved (set_pc x d) cl' = unsaved d cl') →
  moved w (upd_thr p (set_pc x d) (upd_cl cl c' y w)) cl c c' →
  good n (goto p x (upd_cl cl c' y w)).
Proof.
  intros Hi Ha Hd Hc En Ep Er Ho Hpc Hu Hm.
  eexists. split; [by apply assign_thr_run|]. split.
  - apply (inv_same w); try done.
    + apply (core_held (upd_cl cl c' y w) p d); try done.
      apply (core_fpcs w cl c); auto. apply Hi.
    + by apply (same_held_upd _ _ p d (set_pc x d)).
    + intros cl' c0. simpl. destruct (decide (cl' = cl)) as [->|];
        [rewrite lookup_insert_eq; intros [= <-]; by exists c
        |rewrite lookup_insert_ne by done; intros; by exists c0].
  - by apply (accounts_upd w _ n p d (set_pc x d) cl c c').
Qed.

Lemma pending_at w p d cl e :
  thr_map w !! p = Some d → periodic_inc_ns e = p →
  pending w cl e = if unsaved d cl then sampled_ctr e else 0.
Proof. intros Hd Hp. unfold pending. by rewrite Hp, Hd. Qed.

Lemma good_sample w n p d cl todo :
  inv w → accounts w n → thr_map w !! p = Some d → pc d = T_sample (cl :: todo) →
  good n ((on_fpc cl sample_one ;; goto p (T_sample todo)) w).
Proof.
  intros Hi Ha Hd Hx.
  pose proof (core_thr w (inv_core w Hi) p d Hd) as Ht.
  pose proof (addrs_nodup _ _ _ Ht) as Hnd.
  pose proof (ti_pc _ _ _ Ht) as Hpc. unfold pc_ok in Hpc. rewrite Hx in Hpc.
  destruct Hpc as [done0 Hdone].
  assert (cl ∈ addrs d) as Hin by (rewrite Hdone; set_solver).
  assert (cl ∉ todo) as Hnt.
  { rewrite Hdone in Hnd. apply NoDup_app in Hnd as (_ & _ & Hnd).
    by apply NoDup_cons in Hnd as [? _]. }
  destruct (listed_channel w p d cl Hi Hd Hin) as (c & Hc & Hp & Ho).
  rewrite (bind_Ret _ _ _ _ _ (on_fpc_run cl _ c _ _ _ w Hc (sample_one_run c (fsys w)))).
  apply (good_visit w n p d cl c); try done.
  - exists (done0 ++ [cl]). simpl. by rewrite <- app_assoc.
  - intros cl' Hne. unfold unsaved. simpl. rewrite Hx. f_equal. f_equal.
    apply bool_decide_ext. set_solver.
  - split; [exists []; simpl; by rewrite app_nil_r, Z.add_0_r|].
    unfold balance. f_equal.
    rewrite (pending_at w p d) by done.
    rewrite (pending_at _ p (set_pc (T_sample todo) d)) by
      (simpl; rewrite ?lookup_insert_eq; done).
    unfold unsaved. simpl. rewrite Hx, (bool_decide_eq_true_2 (cl ∈ addrs d)) by done.
    rewrite (bool_decide_eq_true_2 (cl ∈ cl :: todo)) by set_solver.
    rewrite (bool_decide_eq_false_2 (cl ∈ todo)) by done. simpl. rewrite andb_false_r. lia.
Qed.

Lemma processed_fields e :
  ctr (processed e) = ctr e ∧ sampled_ctr (processed e) = sampled_ctr e
  ∧ periodic_inc_ns (processed e) = periodic_inc_ns e
  ∧ isRefCounted (processed e) = isRefCounted e
  ∧ u64 (total_ctr (processed e)) = u64 (total_ctr e + sampled_ctr e).
Proof.
  unfold processed, flushed. destruct (Z.eqb_spec (sampled_ctr e) 0) as [E0|].
  - by rewrite E0, Z.add_0_r.
  - destruct (0 <? _); simpl; by rewrite wrapU_idemp.
Qed.

Lemma good_process w n p d cl todo :
  inv w → accounts w n → thr_map w !! p = Some d → pc d = T_process (cl :: todo) →
  good n ((on_fpc cl process_one ;; goto p (T_process todo)) w).
Proof.
  intros Hi Ha Hd Hx.
  pose proof (core_thr w (inv_core w Hi) p d Hd) as Ht.
  pose proof (addrs_nodup _ _ _ Ht) as Hnd.
  pose proof (ti_pc _ _ _ Ht) as Hpc. unfold pc_ok in Hpc. rewrite Hx in Hpc.
  destruct Hpc as [done0 Hdone].
  assert (cl ∈ addrs d) as Hin by (rewrite Hdone; set_solver).
  assert (cl ∉ todo) as Hnt.
  { rewrite Hdone in Hnd. apply NoDup_app in Hnd as (_ & _ & Hnd).
    by apply NoDup_cons in Hnd as [? _]. }
  destruct (listed_channel w p d cl Hi Hd Hin) as (c & Hc & Hp & Ho).
  destruct (process_one_run c (fsys w) Ho) as (c' & E & X & (Ln & Lo & recs & Lf & Lw)).
  rewrite (bind_Ret _ _ _ _ _ (on_fpc_run cl _ c _ _ _ w Hc E)).
  destruct (processed_fields (ext c)) as (Q1 & Q2 & Q3 & Q4 & Q5).
  apply (good_visit w n p d cl c); rewrite ?X, ?Q3, ?Q4; try done.
  - exists (done0 ++ [cl]). simpl. by rewrite <- app_assoc.
  - intros cl' Hne. unfold unsaved. simpl. rewrite Hx.
    apply bool_decide_ext. set_solver.
  - split; [exists recs; by rewrite Lf, X, Q5, Lw|].
    unfold balance. rewrite X, Q1.
    rewrite (pending_at w p d) by done.
    rewrite (pending_at _ p (set_pc (T_process todo) d)) by
      (rewrite ?Q3; simpl; rewrite ?lookup_insert_eq; done).
    unfold unsaved. simpl. rewrite Hx, (bool_decide_eq_true_2 (cl ∈ cl :: todo)) by set_solver.
    rewrite (bool_decide_eq_false_2 (cl ∈ todo)) by done.
    rewrite Z.add_0_r, (Z.add_comm (ctr _)), <- wrapU_idemp_add, Q5, wrapU_idemp_add.
    f_equal. lia.
Qed.

(** *** Clock, termination *)
Lemma keep_ts_flush w n p d t y :
  inv w → accounts w n → thr_map w !! p = Some d →
  inv (upd_thr p (set_ts_flush t d) (set_fsys y w))
  ∧ accounts (upd_thr p (set_ts_flush t d) (set_fsys y w)) n.
Proof.
  intros Hi Ha Hd.
  assert (core (upd_thr p (set_ts_flush t d) (set_fsys y w))) as Hc'.
  { apply (core_held (set_fsys y w) p d); try done.
    - destruct (inv_core w Hi). by split.
    - exact (ti_pc _ _ _ (core_thr w (inv_core w Hi) p d Hd)). }
  split; [|by apply (accounts_thr w _ n p d (set_ts_flush t d))].
  apply (inv_same w); try done.
  - by apply (same_held_upd _ _ p d (set_ts_flush t d)).
  - intros cl c Hc. by exists c.
Qed.

Lemma good_after_ts w n p d t y x :
  inv w → accounts w n → thr_map w !! p = Some d →
  pc_ok (set_pc x d) → (∀ cl, unsaved (set_pc x d) cl = unsaved d cl) →
  good n (goto p x (upd_thr p (set_ts_flush t d) (set_fsys y w))).
Proof.
  intros Hi Ha Hd Hpc Hu.
  destruct (keep_ts_flush w n p d t y Hi Ha Hd) as [Hi1 Ha1].
  apply (good_goto0 _ n p (set_ts_flush t d)); try done.
  simpl. by rewrite lookup_insert_eq.
Qed.

Lemma addrs_suffix d : ∃ done, addrs d = done ++ addrs d.
Proof. by exists []. Qed.

(** Every channel is listed, so none is sampled and unsaved. *)
Lemma unsaved_all d cl :
  bool_decide (cl ∈ addrs d) && negb (bool_decide (cl ∈ addrs d)) = false.
Proof. by destruct (bool_decide _). Qed.

Lemma good_start w n p d :
  inv w → accounts w n → thr_map w !! p = Some d → pc d = T_start →
  good n ((first_flush p ;; goto p (T_sample (addrs d))) w).
Proof.
  intros Hi Ha Hd Hx. unfold first_flush. rewrite bind_assoc.
  rewrite (bind_Ret _ _ _ _ _ (this_thr_run p d w Hd)), bind_assoc.
  rewrite (bind_Ret (fpc_sys clock_gettime_tsc) _ w
    (set_fsys (set_clk (S (clk (fsys w))) (fsys w)) w) (clock (clk (fsys w)))) by done.
  rewrite (bind_Ret _ _ _ _ _ (assign_thr_run p _ d (set_fsys _ w) Hd)).
  apply good_after_ts; try done.
  - exact (addrs_suffix d).
  - intros cl. unfold unsaved. simpl. rewrite Hx. exact (unsaved_all d cl).
Qed.

Lemma good_clock w n p d :
  inv w → accounts w n → thr_map w !! p = Some d → pc d = T_clock →
  good n ((due ← flush_due p; goto p (if due : bool then T_sample (addrs d) else T_count)) w).
Proof.
  intros Hi Ha Hd Hx. unfold flush_due. rewrite bind_assoc.
  rewrite (bind_Ret (fpc_sys clock_gettime_tsc) _ w
    (set_fsys (set_clk (S (clk (fsys w))) (fsys w)) w) (clock (clk (fsys w)))) by done.
  rewrite bind_assoc, (bind_Ret _ _ _ _ _ (this_thr_run p d (set_fsys _ w) Hd)).
  destruct (0 <? _).
  - rewrite bind_assoc, (bind_Ret _ _ _ _ _ (assign_thr_run p _ d (set_fsys _ w) Hd)).
    rewrite bind_ret_l. apply good_after_ts; try done.
    + exact (addrs_suffix d).
    + intros cl. unfold unsaved. simpl. rewrite Hx. exact (unsaved_all d cl).
  - rewrite bind_ret_l. apply (good_goto w n p d); try done.
    intros cl. unfold unsaved. simpl. by rewrite Hx.
Qed.

(** A thread that is removed holds no channel and no job. *)
Lemma good_delete w n p d :
  inv w → accounts w n → thr_map w !! p = Some d →
  j_queue d = [] → closures d = [] →
  good n (set_thr_map (delete p (thr_map w)) w, Ret tt).
Proof.
  intros Hi Ha Hd Ej Ec. eexists. split; [reflexivity|].
  set (w' := set_thr_map (delete p (thr_map w)) w).
  assert (∀ q cl, reg w' q cl ↔ reg w q cl) as Hreg.
  { intros q cl. unfold reg, w'. simpl. split; intros (d0 & Hd0 & Hin).
    - apply lookup_delete_Some in Hd0 as [_ Hd0]. by exists d0.
    - exists d0. split; [|done]. apply lookup_delete_Some. split; [|done].
      intros <-. simplify_eq. unfold addrs in Hin. rewrite Ec in Hin.
      by apply not_elem_of_nil in Hin. }
  assert (∀ q jb, hasj w' q jb ↔ hasj w q jb) as Hhas.
  { intros q jb. unfold hasj, w'. simpl. split; intros (d0 & Hd0 & Hin).
    - apply lookup_delete_Some in Hd0 as [_ Hd0]. by exists d0.
    - exists d0. split; [|done]. apply lookup_delete_Some. split; [|done].
      intros <-. simplify_eq. rewrite Ej in Hin. by apply not_elem_of_nil in Hin. }
  destruct Hi as [[Ht Hn] Hidle Hids]. split.
  - split.
    + split; [|exact Hn]. intros q d0 Hq. simpl in Hq.
      apply lookup_delete_Some in Hq as [_ Hq]. by apply Ht.
    + intros cl c Hc Hid. rewrite Hreg. apply Hidle; [done|].
      intros q jb Hj. apply (Hid q). by apply Hhas.
    + intros k Hk. destruct (Hids k Hk) as [|(q & jb & Hj & E)]; [by left|right].
      exists q, jb. by rewrite Hhas.
  - apply (accounts_moved w); [done|done|]. intros cl c Hc. exists c. split; [done|].
    apply moved_refl. unfold pending, w'. simpl.
    destruct (decide (periodic_inc_ns (ext c) = p)) as [->|Hne].
    + rewrite lookup_delete_eq, Hd. unfold unsaved.
      pose proof (ti_pc _ _ _ (Ht p d Hd)) as Hpc. unfold pc_ok, addrs in Hpc.
      unfold addrs. rewrite Ec in *. simpl in *.
      destruct (pc d) as [|todo|todo| | | | |]; try done.
      destruct Hpc as [done0 Hdone]. by destruct done0, todo.
    + by rewrite lookup_delete_ne.
Qed.

Lemma good_remove w n p d :
  inv w → accounts w n → thr_map w !! p = Some d → pc d = T_remove →
  good n ((gone ← removeThrDescriptor p;
           if gone : bool then mret tt else goto p T_clock) w).
Proof.
  intros Hi Ha Hd Hx. unfold removeThrDescriptor.
  rewrite bind_assoc, (bind_Ret get _ w w w) by done. cbv zeta. rewrite Hd.
  destruct (decide (j_queue d = [])) as [Ej|Ej].
  2:{ rewrite (bool_decide_eq_false_2 (j_queue d = [])) by done. cbn [negb].
      rewrite bind_ret_l. apply (good_goto0 w n p d); try done.
      intros cl. unfold unsaved. simpl. by rewrite Hx. }
  rewrite (bool_decide_eq_true_2 (j_queue d = [])) by done. cbn [negb].
  destruct (decide (closures d = [])) as [Ec|Ec].
  - rewrite (bool_decide_eq_true_2 (closures d = [])) by done. cbn [negb].
    rewrite bind_assoc.
    rewrite (bind_Ret (modify _) _ w (set_thr_map (delete p (thr_map w)) w) tt) by done.
    rewrite bind_ret_l. by apply (good_delete w n p d).
  - rewrite (bool_decide_eq_false_2 (closures d = [])) by done. cbn [negb].
    rewrite bind_assoc. edestruct (fpc_sys_log 437) as (y & E).
    rewrite (bind_Ret _ _ _ _ _ E), bind_ret_l.
    apply (good_goto w n p d); try done.
    intros cl. unfold unsaved. simpl. by rewrite Hx.
Qed.

(** *** Jobs *)
Lemma upd_cl_same cl c w : fpcs w !! cl = Some c → upd_cl cl c (fsys w) w = w.
Proof.
  intros Hc. unfold upd_cl, set_fpcs. rewrite insert_id by done. by destruct w.
Qed.

Lemma on_fpc_read {A} cl (g : closure fpc_ext → A) c w :
  fpcs w !! cl = Some c → on_fpc cl (c ← this; mret (g c)) w = (w, Ret (g c)).
Proof.
  intros Hc. rewrite (on_fpc_run cl _ c c (fsys w) (g c)) by done.
  by rewrite upd_cl_same.
Qed.

Lemma enqueue_run jb c w :
  fpcs w !! FPCcl jb = Some c →
  enqueueJobWithThrDescriptor jb w
  = (set_thr_map (with_job w (periodic_inc_ns (ext c)) jb) w, Ret tt).
Proof.
  intros Hc. unfold enqueueJobWithThrDescriptor, fpc_period.
  rewrite (bind_Ret _ _ _ _ _ (on_fpc_read (FPCcl jb) _ c w Hc)).
  rewrite (bind_Ret get _ w w w) by done. unfold with_job.
  destruct (thr_map w !! periodic_inc_ns (ext c)) as [d|] eqn:Hd; [|done].
  by apply assign_thr_run.
Qed.

Lemma dequeue_run p jb d c w :
  thr_map w !! p = Some d → fpcs w !! FPCcl jb = Some c →
  match map_find (ch_nr c) (closures d) with
  | None => ∃ y, dequeue_channel p jb w = (set_fsys y w, Ret false)
  | Some _ => dequeue_channel p jb w
      = (upd_thr p (set_closures (map_erase (ch_nr c) (closures d)) d) w, Ret true)
  end.
Proof.
  intros Hd Hc. unfold dequeue_channel.
  destruct (map_find (ch_nr c) (closures d)) eqn:Ef.
  - rewrite (bind_Ret _ _ _ _ _ (on_fpc_read (FPCcl jb) _ c w Hc)).
    rewrite (bind_Ret _ _ _ _ _ (this_thr_run p d w Hd)), Ef.
    by rewrite (bind_Ret _ _ _ _ _ (assign_thr_run p _ d w Hd)).
  - edestruct (fpc_sys_log 201) as (y & E). exists y.
    rewrite (bind_Ret _ _ _ _ _ (on_fpc_read (FPCcl jb) _ c w Hc)).
    rewrite (bind_Ret _ _ _ _ _ (this_thr_run p d w Hd)), Ef.
    unfold not_part_of. by rewrite (bind_Ret _ _ _ _ _ E).
Qed.

Lemma unsaved_addrs d cl : pc_ok d → unsaved d cl = true → cl ∈ addrs d.
Proof.
  unfold pc_ok, unsaved. intros Hpc. destruct (pc d); try done.
  - intros Hu. apply andb_true_iff in Hu as [Hu _]. by apply bool_decide_eq_true in Hu.
  - intros Hu. apply bool_decide_eq_true in Hu. destruct Hpc as [done0 ->]. set_solver.
Qed.

Lemma pending_unreg w cl e :
  (∀ p d, thr_map w !! p = Some d → pc_ok d) →
  (∀ d, thr_map w !! periodic_inc_ns e = Some d → cl ∈ addrs d → unsaved d cl = false) →
  pending w cl e = 0.
Proof.
  intros Hpc Hr. unfold pending.
  destruct (thr_map w !! periodic_inc_ns e) as [d|] eqn:Hd; [|done].
  destruct (unsaved d cl) eqn:Hu; [|done].
  rewrite (Hr d) in Hu; [done|done|]. apply unsaved_addrs; [by eapply Hpc|done].
Qed.

Lemma pending_with_job w period jb cl e :
  pending (set_thr_map (with_job w period jb) w) cl e = pending w cl e.
Proof.
  unfold pending, with_job. simpl. set (p := periodic_inc_ns e).
  destruct (thr_map w !! period) as [d|] eqn:Hd; destruct (decide (p = period)) as [->|];
    rewrite ?lookup_insert_eq, ?lookup_insert_ne by done; try done; by rewrite Hd.
Qed.

Lemma accounts_with_job w period jb n :
  accounts w n → accounts (set_thr_map (with_job w period jb) w) n.
Proof.
  intros Ha. apply (accounts_moved w); [done|done|].
  intros cl c Hc. exists c. split; [done|]. apply moved_refl, pending_with_job.
Qed.

Definition in_jobs (d : thr_descriptor) : Prop := ∃ m, pc d = T_jobs m.

Lemma in_jobs_unsaved d cl : in_jobs d → unsaved d cl = false.
Proof. intros [m Hm]. unfold unsaved. by rewrite Hm. Qed.

(** A job leaves the accounts as they are when it adds to the total what it takes
    out of the counter. *)
Lemma accounts_taken w n p d d' jb c c' dn y :
  inv w → accounts w n → take_ok w p d d' jb c c' → in_jobs d → in_jobs d' →
  (∃ recs, ofs_file (ch_logf c') = ofs_file (ch_logf c) ++ render_all recs
     ∧ u64 (total_ctr (ext c')) = u64 (total_ctr (ext c) + written recs)) →
  u64 (ctr (ext c') + total_ctr (ext c')) = u64 (ctr (ext c) + total_ctr (ext c)) →
  accounts (taken w p (FPCcl jb) d' c' dn y) n.
Proof.
  intros Hi Ha Ht Hd Hd' Hrecs Hbal.
  apply (accounts_upd w _ n p d d' (FPCcl jb) c c'); try done; try apply Ht.
  { intros cl' _. by rewrite !in_jobs_unsaved. }
  split; [done|]. unfold balance.
  rewrite (pending_unreg w), (pending_unreg (taken _ _ _ _ _ _ _)), !Z.add_0_r; [done| | | |].
  - intros q d0 Hq. eapply ti_pc, (core_thr (taken _ _ _ _ _ _ _)); [|done].
    by eapply taken_core.
  - intros d0 Hd0 Hin.
    assert (reg (taken w p (FPCcl jb) d' c' dn y) (periodic_inc_ns (ext c')) (FPCcl jb))
      as Hreg by by exists d0.
    apply (taken_reg_cl w p d d' jb c c' dn y Hi Ht) in Hreg as [E _].
    simpl in Hd0. rewrite E, lookup_insert_eq in Hd0. injection Hd0 as <-.
    by apply in_jobs_unsaved.
  - intros q d0 Hq. by eapply ti_pc, core_thr; [apply Hi|].
  - intros d0 Hd0 Hin.
    destruct (job_period w p jb (inv_core w Hi)) as (c0 & d1 & F & P & D & _);
      [by eapply taken_job|].
    destruct Ht as [T1 _ T3 _ _ _ _ _].
    assert (c0 = c) as -> by congruence. rewrite P in Hd0.
    assert (d0 = d) as -> by congruence. by apply in_jobs_unsaved.
Qed.

Lemma upd_thr_twice p d1 d2 w : upd_thr p d2 (upd_thr p d1 w) = upd_thr p d2 w.
Proof. unfold upd_thr, set_thr_map. simpl. by rewrite insert_insert_eq. Qed.

Lemma taken_eq w p cl d1 d' c' y dn :
  dn = completed w →
  upd_thr p d' (upd_cl cl c' y (upd_thr p d1 w)) = taken w p cl d' c' dn y.
Proof.
  intros ->. unfold upd_thr, upd_cl, set_thr_map, set_fsys, set_fpcs, taken. simpl.
  by rewrite insert_insert_eq.
Qed.

Lemma signal_taken w p cl d' c' y jb :
  signalCompletion jb (taken w p cl d' c' (completed w) y)
  = (taken w p cl d' c' ({[job_addr jb]} ∪ completed w) y, Ret tt).
Proof. done. Qed.

(** The thread with its first job taken off. *)
Definition popped (m : nat) (q : list job) (d : thr_descriptor) : thr_descriptor :=
  set_pc (T_jobs m) (set_j_queue q d).

Section OneJob.
Context (w : fpw) (n : Z → nat) (p : Z) (d : thr_descriptor) (m : nat)
  (jb : job) (q : list job) (c : closure fpc_ext).
Context (Hi : inv w) (Ha : accounts w n) (Hd : thr_map w !! p = Some d)
  (Hx : pc d = T_jobs (S m)) (Hq : j_queue d = jb :: q)
  (Hc : fpcs w !! FPCcl jb = Some c) (Hp : periodic_inc_ns (ext c) = p)
  (Hok : job_ok d jb c).
Let cl := FPCcl jb.

Lemma queue_long : (m <= length q)%nat.
Proof.
  pose proof (ti_pc _ _ _ (core_thr w (inv_core w Hi) p d Hd)) as Hpc.
  unfold pc_ok in Hpc. rewrite Hx, Hq in Hpc. simpl in Hpc. lia.
Qed.

Lemma key_of_channel nr : (nr, cl) ∈ closures d → nr = ch_nr c.
Proof.
  intros Hin.
  destruct (ti_closures _ _ _ (core_thr w (inv_core w Hi) p d Hd) nr cl Hin)
    as (c0 & H0 & <- & _). unfold cl in H0. congruence.
Qed.

Lemma channel_of_key cl' : (ch_nr c, cl') ∈ closures d → cl' = cl.
Proof.
  intros Hin. by eapply (registered_nr w p d c cl); [apply Hi| | | |].
Qed.

Lemma good_insert :
  jtype jb = INSERT_CHANNEL →
  good n (process_job p jb (upd_thr p (popped m q d) w)).
Proof.
  intros Et. unfold job_ok in Hok. rewrite Et in Hok. destruct Hok as (Hr & Hna & H0 & Ho).
  unfold process_job. rewrite Et. fold cl.
  destruct (insert_channel_run c (fsys w) Ho) as (c' & y & E & X & (Ln & Lo & recs & Lf & Lw)).
  rewrite (bind_Ret _ _ _ _ _ (on_fpc_run cl _ c c' y _ (upd_thr p (popped m q d) w) Hc E)).
  rewrite (bind_Ret _ _ _ _ _ (assign_thr_run p _ (popped m q d)
    (upd_cl cl c' y (upd_thr p (popped m q d) w)) (lookup_insert_eq _ _ _))).
  set (d' := set_closures _ _). rewrite (taken_eq w p cl _ d' c' y (completed w) eq_refl).
  assert (ch_nr c ∉ map fst (closures d)) as Hkey.
  { intros Hin. apply list_elem_of_In, in_map_iff in Hin as ([nr v] & Enr & Hin).
    simpl in Enr. subst nr. apply list_elem_of_In in Hin.
    apply Hna, elem_of_addrs. exists (ch_nr c). by rewrite (channel_of_key v Hin) in Hin. }
  assert (take_ok w p d d' jb c c') as Htake.
  { split; try done.
    - exact queue_long.
    - simpl. rewrite map_insert_keys by done. apply NoDup_cons. split; [done|].
      apply (core_thr w (inv_core w Hi) p d Hd).
    - intros nr cl' Hne. simpl. rewrite map_insert_elem by done. naive_solver.
    - intros nr Hin. simpl in Hin. apply map_insert_elem in Hin; [|done].
      destruct Hin as [[= ->]|Hin].
      + rewrite Ln, X. by split_and!.
      + exfalso. apply Hna, elem_of_addrs. by exists nr. }
  rewrite signal_taken. eexists. split; [reflexivity|]. split.
  - eapply inv_completed; [done|done|done|]. rewrite X. simpl.
    split; [|by rewrite Hr]. intros _. split; [done|]. apply elem_of_addrs.
    exists (ch_nr c). simpl. apply map_insert_elem; [done|by left].
  - eapply (accounts_taken w n p d d' jb c c'); try done.
    + by exists (S m).
    + by exists m.
    + exists recs. rewrite X, Lf, Lw. split; [done|]. apply counted_total.
    + rewrite X. apply counted_balance.
Qed.

Lemma erased_elem nr cl' :
  cl' ≠ cl →
  (nr, cl') ∈ map_erase (ch_nr c) (closures d) ↔ (nr, cl') ∈ closures d.
Proof.
  intros Hne. rewrite map_erase_elem. split; [by intros [? _]|].
  intros Hin. split; [done|]. intros ->. by apply Hne, channel_of_key.
Qed.

Lemma erased_not nr : (nr, cl) ∉ map_erase (ch_nr c) (closures d).
Proof.
  intros Hin. apply map_erase_elem in Hin as [Hin Hne]. by apply Hne, key_of_channel.
Qed.

(** A channel that leaves the thread. *)
Lemma take_leave c' :
  ch_nr c' = ch_nr c →
  take_ok w p d (set_closures (map_erase (ch_nr c) (closures d)) (popped m q d)) jb c c'.
Proof.
  intros Hn. split; try done.
  - exact queue_long.
  - simpl. apply map_erase_keys, (core_thr w (inv_core w Hi) p d Hd).
  - intros nr cl' Hne. by apply erased_elem.
  - intros nr Hin. by destruct (erased_not nr).
Qed.

Lemma leave_unlisted :
  cl ∉ addrs (set_closures (map_erase (ch_nr c) (closures d)) (popped m q d)).
Proof. intros Hin. apply elem_of_addrs in Hin as [nr Hin]. by apply (erased_not nr). Qed.

Lemma found_key : cl ∈ addrs d → map_find (ch_nr c) (closures d) = Some cl.
Proof.
  intros Hin. apply elem_of_addrs in Hin as [nr Hin].
  pose proof (key_of_channel nr Hin) as ->.
  destruct (map_find (ch_nr c) (closures d)) as [v|] eqn:Ef.
  - f_equal. by apply channel_of_key, map_find_In.
  - apply map_find_None in Ef. by apply In_fst in Hin.
Qed.

Lemma not_found_key : cl ∉ addrs d → map_find (ch_nr c) (closures d) = None.
Proof.
  intros Hna. destruct (map_find (ch_nr c) (closures d)) as [v|] eqn:Ef; [|done].
  exfalso. apply map_find_In in Ef. apply Hna, elem_of_addrs. exists (ch_nr c).
  by rewrite (channel_of_key v Ef) in Ef.
Qed.

Lemma good_delete_job :
  jtype jb = DELETE_CHANNEL →
  good n (process_job p jb (upd_thr p (popped m q d) w)).
Proof.
  intros Et. unfold job_ok in Hok. rewrite Et in Hok. destruct Hok as (Hr & Hin).
  destruct (listed_channel w p d cl Hi Hd Hin) as (c0 & Hc0 & _ & Ho).
  assert (c0 = c) as -> by (unfold cl in Hc0; congruence).
  unfold process_job. rewrite Et. fold cl.
  destruct (shut_down_run c (fsys w) Ho) as (c' & y & E & X & (Ln & Lo & recs & Lf & Lw)).
  rewrite (bind_Ret _ _ _ _ _ (on_fpc_run cl _ c c' y _ (upd_thr p (popped m q d) w) Hc E)).
  pose proof (dequeue_run p jb (popped m q d) c'
    (upd_cl cl c' y (upd_thr p (popped m q d) w)) (lookup_insert_eq _ _ _)
    (lookup_insert_eq _ _ _)) as Edeq.
  change (closures (popped m q d)) with (closures d) in Edeq.
  rewrite Ln, (found_key Hin) in Edeq. rewrite (bind_Ret _ _ _ _ _ Edeq).
  set (d' := set_closures _ _). rewrite (taken_eq w p cl _ d' c' y (completed w) eq_refl).
  destruct (flushed_fields (counted (ext c))) as (F1 & F2 & F3 & F4).
  pose proof (take_leave c' Ln) as Htake.
  rewrite signal_taken. eexists. split; [reflexivity|]. split.
  - eapply inv_completed; [done|exact Htake|done|]. rewrite X, F4. simpl. rewrite Hr.
    split; [done|]. intros [_ Hin']. by apply leave_unlisted in Hin'.
  - eapply (accounts_taken w n p d d' jb c c'); try done.
    + by exists (S m).
    + by exists m.
    + exists recs. rewrite X, Lf, Lw, F2. split; [done|]. apply counted_total.
    + rewrite X, F1, F2. apply counted_balance.
Qed.

Lemma good_move_listed :
  jtype jb = MOVE_CHANNEL → cl ∈ addrs d →
  good n (process_job p jb (upd_thr p (popped m q d) w)).
Proof.
  intros Et Hin. unfold job_ok in Hok. rewrite Et in Hok.
  unfold process_job. rewrite Et. fold cl.
  pose proof (dequeue_run p jb (popped m q d) c (upd_thr p (popped m q d) w)
    (lookup_insert_eq _ _ _) Hc) as Edeq.
  change (closures (popped m q d)) with (closures d) in Edeq.
  destruct (listed_channel w p d cl Hi Hd Hin) as (c0 & Hc0 & _ & Ho).
  assert (c0 = c) as -> by (unfold cl in Hc0; congruence).
  pose proof (reg_period w p cl (inv_core w Hi)
    ltac:(by exists d)) as (c1 & Hc1 & _ & _ & H0 & _).
  assert (c1 = c) as -> by (unfold cl in Hc1; congruence).
  rewrite (found_key Hin) in Edeq. rewrite (bind_Ret _ _ _ _ _ Edeq).
  set (d' := set_closures _ _).
  destruct (reprogram_run (cur_periodic_inc_ns jb) c (fsys w) Ho)
    as (c' & y & E & X & (Ln & Lo & recs & Lf & Lw)).
  rewrite (bind_Ret _ _ _ _ _ (on_fpc_run cl _ c c' y _
    (upd_thr p d' (upd_thr p (popped m q d) w)) Hc E)).
  rewrite upd_thr_twice.
  change (upd_cl cl c' y (upd_thr p d' w)) with (taken w p cl d' c' (completed w) y).
  pose proof (take_leave c' Ln) as Htake. fold d' in Htake.
  rewrite (enqueue_run _ c') by (simpl; apply lookup_insert_eq).
  destruct (flushed_fields (counted (ext c))) as (F1 & F2 & F3 & F4).
  eexists. split; [reflexivity|]. split.
  - eapply inv_passed; try done; [exact leave_unlisted| |by rewrite Ln].
    rewrite X. simpl. rewrite F4. by apply Hok.
  - apply accounts_with_job.
    eapply (accounts_taken w n p d d' jb c c'); try done.
    + by exists (S m).
    + by exists m.
    + exists recs. rewrite X. simpl. rewrite Lf, Lw, F2. split; [done|].
      apply counted_total.
    + rewrite X. simpl. rewrite F1, F2. apply counted_balance.
Qed.

(** The thread has left the channel to another one meanwhile. *)
Lemma good_move_gone :
  jtype jb = MOVE_CHANNEL → cl ∉ addrs d →
  good n (process_job p jb (upd_thr p (popped m q d) w)).
Proof.
  intros Et Hin. unfold job_ok in Hok. rewrite Et in Hok.
  unfold process_job. rewrite Et. fold cl.
  pose proof (dequeue_run p jb (popped m q d) c (upd_thr p (popped m q d) w)
    (lookup_insert_eq _ _ _) Hc) as Edeq.
  change (closures (popped m q d)) with (closures d) in Edeq.
  rewrite (not_found_key Hin) in Edeq. destruct Edeq as (y & Edeq).
  rewrite (bind_Ret _ _ _ _ _ Edeq).
  set (d' := popped m q d).
  assert (set_fsys y (upd_thr p d' w) = taken w p cl d' c (completed w) y) as ->.
  { unfold taken, set_fsys, upd_thr, set_thr_map. simpl.
    by rewrite (insert_id (fpcs w) cl c Hc). }
  assert (take_ok w p d d' jb c c) as Htake.
  { split; try done.
    - exact queue_long.
    - apply (core_thr w (inv_core w Hi) p d Hd).
    - intros nr Hn. exfalso. apply Hin, elem_of_addrs. by exists nr. }
  rewrite signal_taken. eexists. split; [reflexivity|]. split.
  - eapply inv_completed; [done|exact Htake|done|]. rewrite Hok.
    split; [done|]. by intros [_ ?].
  - eapply (accounts_taken w n p d d' jb c c); try done.
    + by exists (S m).
    + by exists m.
    + exists []. rewrite app_nil_r. simpl. by rewrite Z.add_0_r.
Qed.

Lemma good_move :
  jtype jb = MOVE_CHANNEL →
  good n (process_job p jb (upd_thr p (popped m q d) w)).
Proof.
  intros Et. destruct (decide (cl ∈ addrs d)) as [Hin|Hin];
    [by apply good_move_listed|by apply good_move_gone].
Qed.
End OneJob.

Lemma good_jobs w n p d m :
  inv w → accounts w n → thr_map w !! p = Some d → pc d = T_jobs (S m) →
  good n ((jb ← remove_job p; goto p (T_jobs m) ;; process_job p jb) w).
Proof.
  intros Hi Ha Hd Hx.
  pose proof (ti_pc _ _ _ (core_thr w (inv_core w Hi) p d Hd)) as Hpc.
  unfold pc_ok in Hpc. rewrite Hx in Hpc.
  destruct (j_queue d) as [|jb q] eqn:Hq; [simpl in Hpc; lia|].
  assert (remove_job p w = (upd_thr p (set_j_queue q d) w, Ret jb)) as E.
  { unfold remove_job. rewrite (bind_Ret _ _ _ _ _ (this_thr_run p d w Hd)), Hq.
    by rewrite (bind_Ret _ _ _ _ _ (assign_thr_run p _ d w Hd)). }
  rewrite (bind_Ret _ _ _ _ _ E).
  rewrite (bind_Ret (goto p (T_jobs m)) _ _ _ _ (assign_thr_run p _ (set_j_queue q d)
    (upd_thr p (set_j_queue q d) w) (lookup_insert_eq _ _ _))), upd_thr_twice.
  destruct (job_period w p jb (inv_core w Hi)) as (c & d0 & Hc & Hp & Hd0 & Hok).
  { exists d. split; [done|]. rewrite Hq. left. }
  assert (d0 = d) as -> by congruence.
  destruct (jtype jb) eqn:Et.
  - by eapply good_insert.
  - by eapply good_move.
  - by eapply good_delete_job.
Qed.

(** A step of a thread never faults, and keeps the invariant and the accounts. *)
Lemma thr_step_good w n p d :
  inv w → accounts w n → thr_map w !! p = Some d → good n (thr_step p w).
Proof.
  intros Hi Ha Hd. unfold thr_step.
  rewrite (bind_Ret _ _ _ _ _ (this_thr_run p d w Hd)).
  destruct (pc d) as [|[|cl todo]|[|cl todo]| |[|m]| | |] eqn:Hx.
  - by apply good_start.
  - apply (good_goto0 w n p d); try done; [exact (addrs_suffix d)|].
    intros cl. unfold unsaved. simpl. rewrite Hx.
    rewrite (bool_decide_eq_false_2 (cl ∈ [])) by apply not_elem_of_nil.
    simpl. by rewrite andb_true_r.
  - by apply (good_sample w n p d).
  - apply (good_goto0 w n p d); try done.
    intros cl. unfold unsaved. simpl. rewrite Hx.
    by rewrite (bool_decide_eq_false_2 (cl ∈ [])) by apply not_elem_of_nil.
  - by apply (good_process w n p d).
  - apply (good_goto0 w n p d); try done; [unfold pc_ok; simpl; lia|].
    intros cl. unfold unsaved. simpl. by rewrite Hx.
  - apply (good_goto0 w n p d); try done.
    intros cl. unfold unsaved. simpl. by rewrite Hx.
  - by apply (good_jobs w n p d m).
  - unfold shallTerminate. rewrite bind_assoc.
    rewrite (bind_Ret _ _ _ _ _ (this_thr_run p d w Hd)), bind_assoc.
    rewrite (bind_Ret get _ w w w), bind_ret_l by done.
    destruct (_ || _); (apply (good_goto0 w n p d); [done|done|done|exact I|]);
      intros cl; unfold unsaved; simpl; by rewrite Hx.
  - by apply (good_remove w n p d).
  - by apply (good_clock w n p d).
Qed.
End Accounts.
