(* ===== verification/FpcRun.v ===== *)
(** * The fast periodic counter: runs

    Sampling threads and application take turns in any order. In every world
    that can be reached no event is lost, no job is lost, and no thread is
    stuck. *)
From S2P Require Import Prelude TimeStamp Platform Log Formats Closure.
From S2P Require Import FastPeriodicCounter FpcInv FpcThread.

Section Run.
Context `{Env}.

(** ** Turns

    A channel is used by one thread of the application at a time: while its
    call waits for a job ([idle] does not hold) no other parameter or close
    call is made on it. Events come at any time. *)
Inductive fstep : option Z → fpw → fpw → Prop :=
  | f_event cl t w w' :
      on_fpc cl (FastPeriodicCounterHandler t) w = (w', Ret tt) →
      fstep (Some cl) w w'
  | f_thread p w w' : thr_step p w = (w', Ret tt) → fstep None w w'
  | f_open cl nr msg f fmt0 w w' r :
      fpcs w !! cl = None → 0 ≤ nr →
      (∀ cl' c', fpcs w !! cl' = Some c' → ch_nr c' ≠ nr) →
      fpc_openChannel_begin cl nr msg f
        (set_fpcs (<[cl := set_ch_nr nr (initFastPeriodicCounterHandler fmt0)]>
                     (fpcs w)) w) = (w', Ret r) →
      fstep None w w'
  | f_close_begin cl w w' r :
      idle w cl → fpc_closeChannel_begin cl w = (w', Ret r) → fstep None w w'
  | f_close_end cl c w w' :
      idle w cl → fpcs w !! cl = Some c → isRefCounted (ext c) = false →
      fpc_closeChannel_end cl w = (w', Ret tt) → fstep None w w'
  | f_set cl n arg w w' r :
      idle w cl → setArg_begin cl n arg w = (w', Ret r) → fstep None w w'.

(** Runs, with the events in them, the last first. *)
Inductive fsteps (w0 : fpw) : list (option Z) → fpw → Prop :=
  | fs_refl : fsteps w0 [] w0
  | fs_step l w x w' : fsteps w0 l w → fstep x w w' → fsteps w0 (x :: l) w'.

Definition events (l : list (option Z)) (cl : Z) : nat :=
  count (λ x, bool_decide (x = Some cl)) l.

(** ** Channels that no thread holds *)
Lemma core_away w cl c c' y :
  core w → fpcs w !! cl = Some c → ch_nr c' = ch_nr c →
  idle w cl → (∀ p, ¬ reg w p cl) →
  core (upd_cl cl c' y w).
Proof.
  intros [Ht Hn] Hf En Hid Hna. split; simpl.
  - intros p d Hd. destruct (Ht p d Hd) as [Hk Hcl Hj Hjob Hpc]. split; try done.
    + intros nr cl' Hin. rewrite lookup_insert_ne; [by apply Hcl|].
      intros <-. apply (Hna p). exists d. split; [done|]. apply elem_of_addrs. by exists nr.
    + intros jb Hin. rewrite lookup_insert_ne; [by apply Hjob|].
      intros E. by apply (Hid p jb); [exists d|].
  - intros cl1 cl2 c1 c2 H1 H2.
    destruct (decide (cl1 = cl)) as [->|N1], (decide (cl2 = cl)) as [->|N2];
      rewrite ?lookup_insert_eq, ?lookup_insert_ne in H1 by done;
      rewrite ?lookup_insert_eq, ?lookup_insert_ne in H2 by done; simplify_eq;
      rewrite ?En; eauto.
Qed.

Lemma unreg_period w cl c p :
  inv w → fpcs w !! cl = Some c → idle w cl → isRefCounted (ext c) = false →
  ¬ reg w p cl.
Proof.
  intros Hi Hc Hid Hr Hreg.
  destruct (reg_period w p cl (inv_core w Hi) Hreg) as (c0 & F & P & _).
  assert (c0 = c) as -> by congruence. subst p.
  apply (inv_idle w Hi cl c Hc Hid) in Hreg. congruence.
Qed.

(** ** Events *)
Definition bump (n : Z → nat) (cl : Z) : Z → nat :=
  λ x, if decide (x = cl) then S (n x) else n x.

Lemma good_event w n cl t w' :
  inv w → accounts w n →
  on_fpc cl (FastPeriodicCounterHandler t) w = (w', Ret tt) →
  inv w' ∧ accounts w' (bump n cl).
Proof.
  intros Hi Ha E. unfold on_fpc in E.
  destruct (fpcs w !! cl) as [c|] eqn:Hc; [|done].
  cbn in E. set (c' := set_ext _ c) in E. injection E as <-.
  change (inv (upd_cl cl c' (fsys w) w) ∧ accounts (upd_cl cl c' (fsys w) w) (bump n cl)).
  split.
  - apply (inv_same w); try done.
    + apply (core_fpcs w cl c); try done; [apply Hi|by left].
    + intros cl' c0. simpl. destruct (decide (cl' = cl)) as [->|];
        [rewrite lookup_insert_eq; intros [= <-]; by exists c
        |rewrite lookup_insert_ne by done; intros; by exists c0].
  - intros cl'. simpl. specialize (Ha cl'). unfold bump.
    destruct (decide (cl' = cl)) as [->|Hne].
    + rewrite lookup_insert_eq. rewrite Hc in Ha. destruct Ha as [Hrec Hbal].
      split; [exact Hrec|]. unfold balance in *.
      change (total_ctr (ext c')) with (total_ctr (ext c)).
      change (pending _ cl (ext c')) with (pending w cl (ext c)).
      change (ctr (ext c')) with (u64 (ctr (ext c) + 1)).
      rewrite <- Z.add_assoc, wrapU_idemp_add, Nat2Z.inj_succ.
      replace (ctr (ext c) + 1 + (pending w cl (ext c) + total_ctr (ext c)))
        with ((ctr (ext c) + pending w cl (ext c) + total_ctr (ext c)) + 1) by lia.
      rewrite <- wrapU_idemp_add, Hbal, wrapU_idemp_add. f_equal.
    + rewrite lookup_insert_ne by done. destruct (fpcs w !! cl') as [c0|]; [|done].
      exact Ha.
Qed.

(** ** Submitting a job *)

(** A channel without a job changes its reference flag or file and gets a job. *)
Definition submitted (w : fpw) (cl : Z) (c' : closure fpc_ext) (k : Z) (y : sys)
    (jb : job) : fpw :=
  let w1 := Fpw (<[cl := c']> (fpcs w)) (thr_map w) k (S (next_job w)) (completed w) y in
  set_thr_map (with_job w1 (periodic_inc_ns (ext c')) jb) w1.

Lemma inv_submitted w cl c c' k y jb :
  inv w → fpcs w !! cl = Some c → idle w cl → FPCcl jb = cl →
  job_addr jb = next_job w →
  ch_nr c' = ch_nr c → periodic_inc_ns (ext c') = periodic_inc_ns (ext c) →
  (ofs_ok (ch_logf c) → ofs_ok (ch_logf c')) →
  (∀ d, thr_map w !! periodic_inc_ns (ext c') = Some d → job_ok d jb c') →
  (thr_map w !! periodic_inc_ns (ext c') = None →
   job_ok (thr_descriptor_new (periodic_inc_ns (ext c')) jb) jb c') →
  inv (submitted w cl c' k y jb).
Proof.
  intros Hi Hc Hid Ecl Ead En Ep Ho Hok Hnew. unfold submitted.
  set (w1 := Fpw _ _ _ _ _ _).
  assert (core w1) as Hc1.
  { destruct (core_fpcs w cl c c' y (inv_core w Hi) Hc En Ep Ho (or_intror Hid)) as [T N].
    split; done. }
  assert (∀ p cl', reg w1 p cl' ↔ reg w p cl') as Hreg by done.
  split.
  - apply core_put; rewrite ?Ecl; try done. simpl. by rewrite lookup_insert_eq.
  - intros cl' c0 Hc0 Hid0.
    assert (cl' ≠ cl) as Hne.
    { intros ->. apply (Hid0 (periodic_inc_ns (ext c')) jb); [|done].
      apply with_job_hasj. by right. }
    rewrite with_job_reg, Hreg. simpl in Hc0. rewrite lookup_insert_ne in Hc0 by done.
    apply (inv_idle w Hi); [done|]. intros q jb0 Hj. apply (Hid0 q).
    apply with_job_hasj. by left.
  - intros j Hj. simpl in Hj. destruct (decide (j = next_job w)) as [->|Hne].
    + right. exists (periodic_inc_ns (ext c')), jb. split; [|done].
      apply with_job_hasj. by right.
    + destruct (inv_ids w Hi j ltac:(lia)) as [|(q & jb0 & Hq & E)]; [by left|].
      right. exists q, jb0. split; [|done]. apply with_job_hasj. by left.
Qed.

Lemma accounts_submitted w n cl c c' k y jb :
  accounts w n → fpcs w !! cl = Some c →
  ofs_file (ch_logf c') = ofs_file (ch_logf c) →
  ctr (ext c') = ctr (ext c) → total_ctr (ext c') = total_ctr (ext c) →
  sampled_ctr (ext c') = sampled_ctr (ext c) →
  periodic_inc_ns (ext c') = periodic_inc_ns (ext c) →
  accounts (submitted w cl c' k y jb) n.
Proof.
  intros Ha Hc Ef E1 E2 E3 E4. apply accounts_with_job.
  apply (accounts_moved w); [done| |].
  - intros cl'. simpl. destruct (decide (cl' = cl)) as [->|];
      [by rewrite lookup_insert_eq|by rewrite lookup_insert_ne].
  - intros cl' c0. simpl. destruct (decide (cl' = cl)) as [->|Hne].
    + rewrite lookup_insert_eq. intros [= <-]. exists c. split; [done|]. split.
      * exists []. rewrite app_nil_r. simpl. by rewrite Z.add_0_r, E2.
      * unfold balance, pending. simpl. by rewrite E1, E2, E3, E4.
    + rewrite lookup_insert_ne by done. intros Hc0. exists c0. split; [done|].
      by apply moved_refl.
Qed.

(** ** Opening *)
Lemma inv_new w n cl c y :
  inv w → accounts w n → fpcs w !! cl = None →
  isRefCounted (ext c) = false →
  (∀ cl' c', fpcs w !! cl' = Some c' → ch_nr c' ≠ ch_nr c) →
  ofs_file (ch_logf c) = [] → ctr (ext c) = 0 → total_ctr (ext c) = 0 →
  inv (upd_cl cl c y w) ∧ accounts (upd_cl cl c y w) n
  ∧ idle (upd_cl cl c y w) cl ∧ (∀ p, ¬ reg (upd_cl cl c y w) p cl).
Proof.
  intros Hi Ha Hnone Hr Hnr Hfile Hctr Htot.
  assert (idle w cl) as Hid.
  { intros p jb Hj E.
    destruct (job_period w p jb (inv_core w Hi) Hj) as (c0 & _ & F & _). congruence. }
  assert (∀ p, ¬ reg w p cl) as Hna.
  { intros p Hreg. destruct (reg_period w p cl (inv_core w Hi) Hreg) as (c0 & F & _).
    congruence. }
  split_and!; try done.
  - destruct Hi as [[Ht Hn] Hidle Hids]. split; [split|..]; simpl.
    + intros p d Hd. destruct (Ht p d Hd) as [Hk Hcl Hj Hjob Hpc]. split; try done.
      * intros nr cl' Hin. rewrite lookup_insert_ne; [by apply Hcl|].
        intros <-. apply (Hna p). exists d. split; [done|]. apply elem_of_addrs. by exists nr.
      * intros jb Hin. rewrite lookup_insert_ne; [by apply Hjob|].
        intros E. by apply (Hid p jb); [exists d|].
    + intros cl1 cl2 c1 c2 H1 H2.
      destruct (decide (cl1 = cl)) as [->|N1], (decide (cl2 = cl)) as [->|N2];
        rewrite ?lookup_insert_eq, ?lookup_insert_ne in H1 by done;
        rewrite ?lookup_insert_eq, ?lookup_insert_ne in H2 by done; simplify_eq; eauto;
        intros E; exfalso; eapply Hnr; eauto.
    + intros cl' c0 Hc0 Hid0. destruct (decide (cl' = cl)) as [->|Hne].
      * rewrite lookup_insert_eq in Hc0. simplify_eq. rewrite Hr.
        split; [done|]. intros Hreg. by destruct (Hna _ Hreg).
      * rewrite lookup_insert_ne in Hc0 by done. by apply Hidle.
    + exact Hids.
  - intros cl'. specialize (Ha cl'). simpl. destruct (decide (cl' = cl)) as [->|Hne].
    + rewrite Hnone in Ha. rewrite lookup_insert_eq. split.
      * exists []. by rewrite Hfile, Htot.
      * unfold balance. rewrite Hctr, Htot, Ha, (pending_unreg _); [done| |].
        { intros p d Hd. simpl in Hd. by eapply ti_pc, core_thr; [apply Hi|]. }
        intros d Hd Hin. exfalso. by eapply Hna; exists d.
    + rewrite lookup_insert_ne by done. exact Ha.
Qed.

(** The file of a channel is empty once openChannel has run, opened or not. *)
Lemma open_file nr msg f (c : closure fpc_ext) s :
  ofs_open (ch_logf c) = false → ofs_file (ch_logf c) = [] →
  ∃ c' s' ok, closure_openChannel nr msg f (c, s) = ((c', s'), Ret ok)
    ∧ ext c' = ext c ∧ ch_nr c' = nr ∧ ofs_file (ch_logf c') = []
    ∧ (ok = true → ofs_ok (ch_logf c')).
Proof.
  intros Hop Hf.
  destruct (closure_openChannel_spec nr msg f c s Hop)
    as (c' & s' & ok & E & _ & En & _ & _ & _ & _ & Ex & Hm).
  exists c', s', ok. split_and!; try done.
  - destruct (getIPDottedQuad s) as [s1 [[[|z|z] ip]|]]; simpl in Hm;
      destruct_and!; try congruence.
    destruct ok; match goal with
      | HT : true = true → _ = _ |- _ => by rewrite HT
      | HF : false = false → _ = _ |- _ => by rewrite HF
      end.
  - intros ->. destruct (getIPDottedQuad s) as [s1 [[[|z|z] ip]|]]; simpl in Hm;
      destruct_and!; try done.
    match goal with HT : true = true → _ = _ |- _ => by rewrite HT end.
Qed.

Lemma good_open w n cl nr msg f fmt0 w' r :
  inv w → accounts w n → fpcs w !! cl = None → 0 ≤ nr →
  (∀ cl' c', fpcs w !! cl' = Some c' → ch_nr c' ≠ nr) →
  fpc_openChannel_begin cl nr msg f
    (set_fpcs (<[cl := set_ch_nr nr (initFastPeriodicCounterHandler fmt0)]>
                 (fpcs w)) w) = (w', Ret r) →
  inv w' ∧ accounts w' n.
Proof.
  intros Hi Ha Hnone H0 Hnr E. unfold fpc_openChannel_begin in E.
  set (c0 := set_ch_nr nr (initFastPeriodicCounterHandler fmt0)) in E.
  destruct (open_file nr msg f c0 (fsys w) eq_refl eq_refl)
    as (c1 & y & ok & Eo & Ex & En & Efile & Hopen).
  rewrite (bind_Ret _ _ _ _ _ (on_fpc_run cl _ c0 c1 y ok
    (set_fpcs (<[cl := c0]> (fpcs w)) w) (lookup_insert_eq _ _ _) Eo)) in E.
  assert (upd_cl cl c1 y (set_fpcs (<[cl := c0]> (fpcs w)) w) = upd_cl cl c1 y w) as Ew.
  { unfold upd_cl, set_fsys, set_fpcs. simpl. by rewrite insert_insert_eq. }
  rewrite Ew in E.
  destruct (inv_new w n cl c1 y) as (Hi1 & Ha1 & Hid1 & Hna1); try done;
    rewrite ?Ex, ?En; try done.
  destruct ok; cbn [negb] in E; [|by injection E as <- _].
  rewrite (bind_Ret (modify _) _ (upd_cl cl c1 y w)
    (set_nr_open_channels (u32 (nr_open_channels w + 1)) (upd_cl cl c1 y w)) tt)
    in E by done.
  set (c2 := set_ext (set_isRefCounted true (ext c1)) c1).
  rewrite (bind_Ret _ _ _ _ _ (on_fpc_run cl (assign_ext (set_isRefCounted true)) c1 c2 y tt
    (set_nr_open_channels (u32 (nr_open_channels w + 1)) (upd_cl cl c1 y w))
    (lookup_insert_eq _ _ _) eq_refl)) in E.
  unfold new_job in E. rewrite bind_assoc in E.
  set (w2 := upd_cl cl c2 y _) in E.
  rewrite (bind_Ret get _ w2 w2 w2), bind_assoc in E by done.
  rewrite (bind_Ret (modify _) _ w2 (set_next_job (S (next_job w2)) w2) tt), bind_ret_l
    in E by done.
  set (jb := Job INSERT_CHANNEL cl (u64 (-1)) (next_job w2)) in E.
  rewrite (bind_Ret _ _ _ _ _ (enqueue_run jb c2 (set_next_job (S (next_job w2)) w2)
    (lookup_insert_eq _ _ _))) in E.
  assert (w' = submitted (upd_cl cl c1 y w) cl c2 (u32 (nr_open_channels w + 1)) y jb) as ->.
  { injection E as <- _. reflexivity. }
  split.
  - apply (inv_submitted (upd_cl cl c1 y w) cl c1); try done.
    + simpl. by rewrite lookup_insert_eq.
    + intros d Hd. unfold job_ok. simpl. split_and!; [done| |by rewrite En|by apply Hopen].
      intros Hin. eapply Hna1. by exists d.
    + intros _. unfold job_ok. simpl. split_and!; [done| |by rewrite En|by apply Hopen].
      unfold addrs. simpl. apply not_elem_of_nil.
  - apply (accounts_submitted (upd_cl cl c1 y w) n cl c1); try done.
    simpl. by rewrite lookup_insert_eq.
Qed.

(** ** Closing *)
Lemma read_run cl c w : fpcs w !! cl = Some c → on_fpc cl this w = (w, Ret c).
Proof.
  intros Hc. rewrite (on_fpc_run cl this c c (fsys w) c) by done. by rewrite upd_cl_same.
Qed.

(** The thread of a channel in use exists, and gets the job. *)
Lemma close_begin_run w cl c :
  inv w → fpcs w !! cl = Some c → idle w cl → isRefCounted (ext c) = true →
  let jb := Job DELETE_CHANNEL cl (u64 (-1)) (next_job w) in
  fpc_closeChannel_begin cl w
  = (submitted w cl (set_ext (set_isRefCounted false (ext c)) c)
       (u32 (nr_open_channels w - 1)) (fsys w) jb, Ret (Some jb)).
Proof.
  intros Hi Hc Hid Hr jb. unfold fpc_closeChannel_begin.
  rewrite (bind_Ret _ _ _ _ _ (read_run cl c w Hc)), Hr.
  set (w1 := set_nr_open_channels (u32 (nr_open_channels w - 1)) w).
  rewrite (bind_Ret (modify _) _ w w1 tt) by done.
  set (c2 := set_ext (set_isRefCounted false (ext c)) c).
  rewrite (bind_Ret _ _ _ _ _ (on_fpc_run cl (assign_ext (set_isRefCounted false)) c c2
    (fsys w) tt w1 Hc eq_refl)).
  unfold new_job. rewrite bind_assoc. set (w2 := upd_cl cl c2 (fsys w) w1).
  rewrite (bind_Ret get _ w2 w2 w2), bind_assoc by done.
  set (w3 := set_next_job (S (next_job w2)) w2).
  rewrite (bind_Ret (modify _) _ w2 w3 tt), bind_ret_l by done.
  change (Job _ _ _ _) with jb.
  pose proof (inv_idle w Hi cl c Hc Hid) as [Hreg _].
  destruct (Hreg Hr) as (d & Hd & _).
  assert (dequeueJobFromThrDescriptor jb w3
    = (set_thr_map (with_job w3 (periodic_inc_ns (ext c2)) jb) w3, Ret tt)) as E.
  { unfold dequeueJobFromThrDescriptor.
    rewrite (bind_Ret _ _ _ _ _ (read_run cl c2 w3 (lookup_insert_eq _ _ _))).
    cbv zeta. rewrite (bind_Ret get _ w3 w3 w3) by done.
    change (periodic_inc_ns (ext c2)) with (periodic_inc_ns (ext c)).
    unfold with_job. change (thr_map w3) with (thr_map w). rewrite Hd.
    exact (assign_thr_run _ (add_job jb) d w3 Hd). }
  by rewrite (bind_Ret _ _ _ _ _ E).
Qed.

Lemma good_close_begin w n cl w' r :
  inv w → accounts w n → idle w cl →
  fpc_closeChannel_begin cl w = (w', Ret r) → inv w' ∧ accounts w' n.
Proof.
  intros Hi Ha Hid E. destruct (fpcs w !! cl) as [c|] eqn:Hc.
  2:{ unfold fpc_closeChannel_begin, on_fpc in E. unfold mbind, M_bind in E.
      by rewrite Hc in E. }
  destruct (isRefCounted (ext c)) eqn:Hr.
  - rewrite (close_begin_run w cl c) in E by done. injection E as <- _.
    pose proof (inv_idle w Hi cl c Hc Hid) as [Hreg _].
    destruct (Hreg Hr) as (d & Hd & Hin). split.
    + apply (inv_submitted w cl c); try done.
      * intros d0 Hd0. simpl in Hd0. assert (d0 = d) as -> by congruence.
        unfold job_ok. simpl. by split.
      * simpl. congruence.
    + by apply (accounts_submitted w n cl c).
  - unfold fpc_closeChannel_begin in E.
    rewrite (bind_Ret _ _ _ _ _ (read_run cl c w Hc)), Hr in E.
    by injection E as <- _.
Qed.

Lemma closeChannel_frame (c c' : closure fpc_ext) s s' :
  closure_closeChannel (c, s) = ((c', s'), Ret tt) →
  ext c' = ext c ∧ ch_nr c' = ch_nr c ∧ ofs_file (ch_logf c') = ofs_file (ch_logf c).
Proof.
  intros E. destruct (ch_logf_name c) as [nm|] eqn:En.
  - destruct (closure_closeChannel_spec c s) as (s1 & E1 & _); [by exists nm|].
    rewrite E1 in E. injection E as <- _.
    destruct (closed_form_handler c) as (_ & _ & _ & ->). rewrite closed_form_file.
    split_and!; try done. unfold closed_form. by destruct (ofs_open _).
  - unfold closure_closeChannel, deref_name in E. cm_simpl. rewrite En in E.
    destruct (ofs_open (ch_logf c)); simpl in E; [done|].
    destruct (isCloseCalled c); simpl in E; [|done]. by injection E as <- _.
Qed.

Lemma good_close_end w n cl c w' :
  inv w → accounts w n → idle w cl → fpcs w !! cl = Some c →
  isRefCounted (ext c) = false →
  fpc_closeChannel_end cl w = (w', Ret tt) → inv w' ∧ accounts w' n.
Proof.
  intros Hi Ha Hid Hc Hr E. unfold fpc_closeChannel_end, on_fpc in E. rewrite Hc in E.
  destruct (closure_closeChannel (c, fsys w)) as [[c' y] r] eqn:Ec.
  injection E as <- ->. destruct (closeChannel_frame c c' _ y Ec) as (Ex & En & Ef).
  change (inv (upd_cl cl c' y w) ∧ accounts (upd_cl cl c' y w) n). split.
  - apply (inv_same w); try done.
    + apply (core_away w cl c); try done; [apply Hi|].
      intros p. by apply (unreg_period w cl c).
    + intros cl' c0. simpl. destruct (decide (cl' = cl)) as [->|].
      * rewrite lookup_insert_eq. intros [= <-]. exists c. by rewrite Ex.
      * rewrite lookup_insert_ne by done. intros; by exists c0.
  - intros cl'. specialize (Ha cl'). simpl. destruct (decide (cl' = cl)) as [->|Hne].
    + rewrite lookup_insert_eq. rewrite Hc in Ha. unfold balance, pending in *. simpl.
      by rewrite Ex, Ef.
    + rewrite lookup_insert_ne by done. exact Ha.
Qed.

(** ** Setting the period *)
Lemma set_fail_good w n line what close w' r :
  inv w → accounts w n → set_fail line what close w = (w', Ret r) →
  inv w' ∧ accounts w' n.
Proof.
  intros Hi Ha E. unfold set_fail in E. edestruct (fpc_sys_log line) as (y & Ey).
  rewrite (bind_Ret _ _ _ _ _ Ey) in E. injection E as <- _.
  split; [|exact Ha]. destruct Hi as [[T N] I K]. by split; [split|..].
Qed.

Lemma good_move_begin w n cl v w' r :
  inv w → accounts w n → idle w cl →
  (jb ← new_job MOVE_CHANNEL cl v;
   enqueueJobWithThrDescriptor jb ;; mret (SetMove jb)) w = (w', Ret r) →
  inv w' ∧ accounts w' n.
Proof.
  intros Hi Ha Hid E. unfold new_job in E.
  rewrite bind_assoc, (bind_Ret get _ w w w), bind_assoc in E by done.
  set (w1 := set_next_job (S (next_job w)) w) in E.
  rewrite (bind_Ret (modify _) _ w w1 tt), bind_ret_l in E by done.
  set (jb := Job MOVE_CHANNEL cl (u64 v) (next_job w)) in E.
  destruct (fpcs w !! cl) as [c|] eqn:Hc.
  2:{ unfold enqueueJobWithThrDescriptor, fpc_period, on_fpc in E.
      unfold mbind, M_bind in E. change (fpcs w1) with (fpcs w) in E.
      change (FPCcl jb) with cl in E. by rewrite Hc in E. }
  rewrite (bind_Ret _ _ _ _ _ (enqueue_run jb c w1 Hc)) in E.
  assert (w' = submitted w cl c (nr_open_channels w) (fsys w) jb) as ->.
  { injection E as <- _. unfold submitted. by rewrite (insert_id (fpcs w) cl c Hc). }
  pose proof (inv_idle w Hi cl c Hc Hid) as Hreg. split.
  - apply (inv_submitted w cl c); try done.
    + intros d Hd. unfold job_ok. simpl. rewrite Hreg. unfold reg. naive_solver.
    + intros Hd. unfold job_ok. simpl. rewrite Hreg. unfold addrs, reg. simpl.
      split; [intros (d & ? & _); congruence|]. intros Hin. by apply not_elem_of_nil in Hin.
  - by apply (accounts_submitted w n cl c).
Qed.

Lemma good_set w n cl k arg w' r :
  inv w → accounts w n → idle w cl →
  setArg_begin cl k arg w = (w', Ret r) → inv w' ∧ accounts w' n.
Proof.
  intros Hi Ha Hid E. unfold setArg_begin in E.
  destruct (negb (k =? 0) && negb (k =? -1)); [by eapply set_fail_good|].
  apply bind_Ret_inv in E as (w1 & v & E1 & E).
  assert (w1 = w) as ->.
  { unfold on_fpc in E1. destruct (fpcs w !! cl) as [c|] eqn:Hc; [|done].
    match type of E1 with context [?m (c, fsys w)] =>
      assert ((m (c, fsys w)).1 = (c, fsys w)) as Es
    end.
    { destruct (k =? -1), arg; cm_simpl; try done. unfold par_at.
      by destruct par as [|z par]. }
    destruct (_ (c, fsys w)) as [[c' y'] r'] eqn:Er in E1. rewrite Er in Es.
    simpl in Es. injection Es as -> ->. injection E1 as <- _.
    exact (upd_cl_same cl c w Hc). }
  destruct v as [[]|v]; [by eapply set_fail_good|].
  destruct (v <? 0); [by eapply set_fail_good|].
  by eapply good_move_begin.
Qed.

(** ** Every run *)
Lemma accounts_ext w n m : (∀ x, n x = m x) → accounts w n → accounts w m.
Proof.
  intros He Ha cl. specialize (Ha cl). by destruct (fpcs w !! cl); rewrite <- He.
Qed.

Lemma fstep_good x w w' n :
  fstep x w w' → inv w → accounts w n →
  inv w' ∧ accounts w' (match x with Some cl => bump n cl | None => n end).
Proof.
  intros Hs Hi Ha.
  destruct Hs as [cl t w w' E|p w w' E|cl nr msg f fmt0 w w' r Hn H0 Hnr E
    |cl w w' r Hid E|cl c w w' Hid Hc Hr E|cl k arg w w' r Hid E].
  - by eapply good_event.
  - destruct (thr_map w !! p) as [d|] eqn:Hd.
    + destruct (thr_step_good w n p d Hi Ha Hd) as (w1 & E1 & ? & ?).
      rewrite E in E1. by injection E1 as ->.
    + unfold thr_step, this_thr in E. monad_simpl. by rewrite Hd in E.
  - by eapply good_open.
  - by eapply good_close_begin.
  - by eapply good_close_end.
  - by eapply good_set.
Qed.

Lemma fsteps_good s l w :
  fsteps (fpw_init s) l w → inv w ∧ accounts w (events l).
Proof.
  induction 1 as [|l w x w' _ [Hi Ha] Hs].
  - split; [|by intros cl; simpl; rewrite lookup_empty].
    split; [split|..]; simpl; try (intros *; by rewrite lookup_empty). lia.
  - destruct (fstep_good x w w' (events l) Hs Hi Ha) as [Hi' Ha'].
    split; [done|]. eapply accounts_ext; [|exact Ha']. intros cl. unfold events, count.
    destruct x as [cl'|]; simpl.
    + unfold bump. destruct (decide (cl = cl')) as [->|Hne].
      * by rewrite bool_decide_eq_true_2.
      * by rewrite bool_decide_eq_false_2 by congruence.
    + done.
Qed.

(** ** Properties *)

(** C9. No event is lost or counted twice, in any interleaving of the sampling
    threads with handler calls, openings, period changes and closings: the
    counts written to a channel's file add up to its total, and every handler
    call is in exactly one of the atomic counter, a sample the thread has taken
    and not yet processed, and the total (all modulo 2^64). Once the channel is
    closed and its call has returned no sample is left over, so the file
    accounts for all calls but those made after the shut-down. *)
Theorem fpc_conserves_events s l w cl c :
  fsteps (fpw_init s) l w → fpcs w !! cl = Some c →
  ∃ recs, ofs_file (ch_logf c) = render_all recs
    ∧ u64 (written recs) = u64 (total_ctr (ext c))
    ∧ u64 (ctr (ext c) + pending w cl (ext c) + total_ctr (ext c))
      = u64 (Z.of_nat (events l cl))
    ∧ (isRefCounted (ext c) = false → idle w cl →
       u64 (written recs + ctr (ext c)) = u64 (Z.of_nat (events l cl))).
Proof.
  intros Hs Hc. destruct (fsteps_good s l w Hs) as [Hi Ha].
  specialize (Ha cl). rewrite Hc in Ha. destruct Ha as [(recs & Hf & Hw) Hbal].
  exists recs. split_and!; try done. intros Hr Hid.
  rewrite <- Hbal. unfold balance. rewrite pending_unreg.
  - rewrite Z.add_0_r, <- wrapU_idemp_add, Hw, wrapU_idemp_add. f_equal. lia.
  - intros p d Hd. by eapply ti_pc, core_thr; [apply Hi|].
  - intros d Hd Hin. exfalso.
    eapply (unreg_period w cl c _ Hi Hc Hid Hr). by exists d.
Qed.

(** C10. The termination race: in every world that can be reached, each sampling
    thread can go on; each job ever submitted is completed or in the queue of a
    thread that is still in thr_map, although threads remove themselves; and
    closing a channel in use finds its thread, whose queue then has the job. *)
Theorem fpc_no_job_lost s l w :
  fsteps (fpw_init s) l w →
  (∀ p d, thr_map w !! p = Some d → ∃ w', thr_step p w = (w', Ret tt))
  ∧ (∀ k, (k < next_job w)%nat → k ∈ completed w
       ∨ ∃ p d jb, thr_map w !! p = Some d ∧ jb ∈ j_queue d ∧ job_addr jb = k)
  ∧ (∀ cl c, fpcs w !! cl = Some c → isRefCounted (ext c) = true → idle w cl →
       ∃ w' jb, fpc_closeChannel_begin cl w = (w', Ret (Some jb))
         ∧ hasj w' (periodic_inc_ns (ext c)) jb).
Proof.
  intros Hs. destruct (fsteps_good s l w Hs) as [Hi Ha]. split_and!.
  - intros p d Hd. destruct (thr_step_good w _ p d Hi Ha Hd) as (w' & E & _). by exists w'.
  - intros k Hk. destruct (inv_ids w Hi k Hk) as [|(p & jb & (d & Hd & Hin) & E)];
      [by left|right; by exists p, d, jb].
  - intros cl c Hc Hr Hid. do 2 eexists.
    split; [by apply (close_begin_run w cl c)|]. apply with_job_hasj. by right.
Qed.
End Run.

(** ** A concrete run: a channel is opened, its thread takes it over, and two of
    three events are sampled and written *)
Section Demo.
Local Existing Instance demo_env.

Inductive turn := TEvent (cl : Z) | TThread (p : Z).

Definition play (t : turn) (w : fpw) : fpw * outcome unit :=
  match t with
  | TEvent cl => on_fpc cl (FastPeriodicCounterHandler 0) w
  | TThread p => thr_step p w
  end.

Fixpoint play_all (ts : list turn) (w : fpw) : option fpw :=
  match ts with
  | [] => Some w
  | t :: ts =>
      match play t w with
      | (w', Ret _) => play_all ts w'
      | _ => None
      end
  end.

Definition label (t : turn) : option Z :=
  match t with TEvent cl => Some cl | TThread _ => None end.

Lemma play_all_sound ts w0 l w w' :
  fsteps w0 l w → play_all ts w = Some w' → fsteps w0 (rev (map label ts) ++ l) w'.
Proof.
  revert l w. induction ts as [|t ts IH]; intros l w Hs Hp; simpl in *.
  { by injection Hp as <-. }
  destruct (play t w) as [w1 [[]|]] eqn:Et; [|done].
  rewrite <- app_assoc. eapply IH; [|done]. simpl. econstructor; [done|].
  destruct t; simpl in *; by econstructor.
Qed.

Definition demo_open_world : fpw :=
  (fpc_openChannel_begin 1 0 "a" ASCII
     (set_fpcs (<[1 := set_ch_nr 0 (initFastPeriodicCounterHandler ASCII)]>
                  (fpcs (fpw_init (sys_init true))))
        (fpw_init (sys_init true)))).1.

Definition demo_turns : list turn :=
  replicate 7 (TThread 10000000) ++ [TEvent 1; TEvent 1] ++
  replicate 6 (TThread 10000000) ++ [TEvent 1].

Definition demo_trace : list (option Z) := rev (map label demo_turns) ++ [None].

Definition demo_world : fpw := default (fpw_init (sys_init true))
  (play_all demo_turns demo_open_world).

Lemma demo_run : fsteps (fpw_init (sys_init true)) demo_trace demo_world.
Proof.
  assert (fsteps (fpw_init (sys_init true)) [None] demo_open_world) as H0.
  { econstructor; [constructor|].
    apply (f_open 1 0 "a" ASCII ASCII _ _
      (Some (Job INSERT_CHANNEL 1 18446744073709551615 0))); [done|done|done|].
    unfold demo_open_world. etrans; [apply surjective_pairing|]. f_equal. }
  apply (play_all_sound demo_turns _ _ demo_open_world); [exact H0|].
  unfold demo_world. destruct (play_all _ _) eqn:E; [done|].
  exfalso. by vm_compute in E.
Qed.

Lemma fpc_conserves_events_witness :
  ∃ c recs, fpcs demo_world !! 1 = Some c
    ∧ total_ctr (ext c) = 2 ∧ ctr (ext c) = 1
    ∧ ofs_file (ch_logf c) = render_all recs ∧ u64 (written recs) = u64 2.
Proof.
  assert (∃ c, fpcs demo_world !! 1 = Some c ∧ total_ctr (ext c) = 2 ∧ ctr (ext c) = 1)
    as (c & Hc & Ht & H1).
  { destruct (fpcs demo_world !! 1) as [c|] eqn:E.
    - exists c. split; [done|]. split;
        [change (total_ctr (ext c)) with (default 0 ((λ c, total_ctr (ext c)) <$> Some c))
        |change (ctr (ext c)) with (default 0 ((λ c, ctr (ext c)) <$> Some c))];
        rewrite <- E; by vm_compute.
    - exfalso. apply (f_equal (λ o, bool_decide (is_Some o))) in E. by vm_compute in E. }
  destruct (@fpc_conserves_events demo_env (sys_init true) demo_trace demo_world 1 c
    demo_run Hc) as (recs & Hf & Hw & _).
  exists c, recs. rewrite Ht in Hw. by split_and!.
Defined.

Lemma fpc_no_job_lost_witness :
  ∃ p d w', thr_map demo_world !! p = Some d ∧ thr_step p demo_world = (w', Ret tt).
Proof.
  destruct (@fpc_no_job_lost demo_env (sys_init true) demo_trace demo_world demo_run)
    as (HA & _).
  destruct (thr_map demo_world !! 10000000) as [d|] eqn:E.
  - destruct (HA _ d E) as (w' & Ew). exists 10000000, d, w'.
    split; [exact E|exact Ew].
  - exfalso. apply (f_equal (λ o, bool_decide (is_Some o))) in E. by vm_compute in E.
Defined.
End Demo.
