(* ===== verification/TscSlave.v ===== *)
(** * Time-stamp counter slaves: src/cp/tsc/tsc_slave.cpp, tsc_messages.h

    A slave registers with the master, then serves measurement commands until
    the master ends the session. In a measurement one slave (isServer) sends
    requests to the other and reads its clock before and after each; the other
    answers each request with a reading of its own clock. The sender reports the
    round trip of the fewest cycles. *)
From S2P Require Import Prelude Rand TimeStamp Platform Log Floats Exec Doubles.

Definition MAX_IPV4_STR_SIZE : nat := 15.
Definition LLONG_MAX : Z := 9223372036854775807.
Definition tsc_master_default_port : Z := 9101.
Definition tsc_command_default_port : Z := 9103.

(** strncpy of [MAX_IPV4_STR_SIZE] characters into a zeroed array of one more,
    and strncmp of as many. *)
Definition strncpy_ip (s : string) : string := String.substring 0 MAX_IPV4_STR_SIZE s.
Definition strncmp_ip (s t : string) : bool :=
  String.eqb (strncpy_ip s) (strncpy_ip t).

(** ** Messages *)
Record TSC_req_cyc := TscReqCyc {
  reply_cyc : Z;
  reply_ns : Z;
  reply_aux : Z
}.

Record MSG_register_request := RegisterRequest {
  from_ip : string;
  mrr_tsc_freq : Z
}.

Record MSG_measure_req := MeasureReq {
  rq_from_ip : string;
  rq_from_port : Z;
  rq_to_ip : string;
  rq_to_port : Z;
  rq_finished : Z;
  iter_per_measurement : Z
}.

(** The readings of one round trip, as they are sent to the master. *)
Record times := Times {
  rtt_ns : Z;
  from_cyc : Z;
  from_ns : Z;
  to_cyc : Z;
  to_ns : Z;
  end_cyc : Z;
  end_ns : Z;
  from_aux : Z;
  to_aux : Z;
  end_aux : Z
}.

Definition times0 : times := Times 0 0 0 0 0 0 0 0 0 0.

Record MSG_measure_result := MeasureResult_msg {
  slave_from_ip : string;
  slave_from_port : Z;
  slave_to_ip : string;
  slave_to_port : Z;
  meas : times;
  mr_finished : Z
}.

Definition mm_res0 : MSG_measure_result := MeasureResult_msg "" 0 "" 0 times0 0.

(** One round trip as the sender records it. *)
Record RTT_data := RttData {
  ts_stt : Z;
  ns_stt : Z;
  ts_end : Z;
  ns_end : Z;
  rtt_reply : TSC_req_cyc;
  aux_stt : Z;
  aux_end : Z
}.

(** ** Process state: the library's state, the address in [info] and the files
    written and closed. *)
Record slave := Slave {
  sl_sys : sys;
  sl_ipv4 : string;
  sl_files : list (string * ofstream)
}.

Definition set_sl_sys y p := Slave y (sl_ipv4 p) (sl_files p).
Definition add_sl_file f p := Slave (sl_sys p) (sl_ipv4 p) (sl_files p ++ [f]).
Definition set_sl_ipv4 x p := Slave (sl_sys p) x (sl_files p).
Definition slave_sys {A} : M sys A → M slave A := zoom sl_sys set_sl_sys.

(** What the host supplies: the nanoseconds of CLOCK_REALTIME, if it can be read,
    what is in memory before init_rand seeds the generator, and what the script
    query_tsc prints, if popen can start it. *)
Class TscHost := {
  tsc_realtime : option Z;
  tsc_stale_rand : Z;
  query_tsc_pipe : option string
}.

(** exec of query_tsc.cpp; [None] is the exception of a popen that fails. *)
Definition query_exec (pipe : option string) : option string :=
  match pipe with
  | Some pipe => Some (exec_result pipe)
  | None => None
  end.

(** The MHz that are printed, in Hz; an exception of exec or stod ends the program. *)
Definition tsc_mhz `{TscHost} : option double := out ← query_exec query_tsc_pipe; stod out.

Definition tsc_init_rand `{TscHost} : Z := (init_rand tsc_realtime tsc_stale_rand).2.

Definition slave_file : string := "tsc_slave.cpp".

(** The nanoseconds of a reading, as an int64_t. *)
Definition nanos (t : timespec) : Z := i64 (i64 (tv_sec t * NANO_S_PER_S) + tv_nsec t).

Definition csv (l : list string) : string := String.concat "," l.

Definition rtt_log_header : string :=
  "# slave_1_address, slave_1_start_ns, slave_1_start_tsc, slave_1_end_ns, slave_1_end_tsc, slave_2_address, slave_2_ns, slave_2_tsc, min_rtt (ns), slave_1_start_aux, slave_1_end_aux, slave_2_aux"
  +:+ nl.

Definition ip_port (ip : string) (port : Z) : string := ip +:+ ":" +:+ zstr port.

Section TscSlave.
Context `{Env} `{TscHost}.

(** ** The side that sends *)

(** One round: clock, request, reply, clock. *)
Definition rtt_iteration (reply : TSC_req_cyc) : M slave RTT_data :=
  _ts_stt ← slave_sys clock_gettime_tsc;
  _ts_end ← slave_sys clock_gettime_tsc;
  mret (RttData (i64 (tsc _ts_stt)) (nanos _ts_stt) (i64 (tsc _ts_end))
          (nanos _ts_end) reply (aux _ts_stt) (aux _ts_end)).

(** A missing reply blocks the receive. *)
Fixpoint rtt_loop (nr_iter : nat) (replies : list TSC_req_cyc) : M slave (list RTT_data) :=
  match nr_iter, replies with
  | O, _ => mret []
  | S _, [] => spin "no reply from the other slave"
  | S n, reply :: replies =>
      d ← rtt_iteration reply; ds ← rtt_loop n replies; mret (d :: ds)
  end.

(** The search for the round trip with the fewest cycles. *)
Definition select_step (best : Z * times) (r : RTT_data) : Z * times :=
  let cur_ts := i64 (ts_end r - ts_stt r) in
  if cur_ts <? best.1 then
    (cur_ts, Times 0 (ts_stt r) (ns_stt r) (reply_cyc (rtt_reply r))
               (reply_ns (rtt_reply r)) (ts_end r) (ns_end r) (aux_stt r)
               (reply_aux (rtt_reply r)) (aux_end r))
  else best.

Definition select_min (l : list RTT_data) : times :=
  (foldl select_step (LLONG_MAX, times0) l).2.

(** What is kept of every round for the log. *)
Definition fill_mm_res (r : RTT_data) : times :=
  Times (i64 (ns_stt r - ns_end r)) (ts_stt r) (ns_stt r) (reply_cyc (rtt_reply r))
    (reply_ns (rtt_reply r)) (ts_end r) (ns_end r) (aux_stt r)
    (reply_aux (rtt_reply r)) (aux_end r).

Definition rtt_log_line (q : MSG_measure_req) (r : RTT_data) : string :=
  let m := fill_mm_res r in
  csv [ip_port (rq_from_ip q) (rq_from_port q);
       zstr (from_ns m); zstr (from_cyc m); zstr (end_ns m); zstr (end_cyc m);
       ip_port (rq_to_ip q) (rq_to_port q);
       zstr (to_ns m); zstr (to_cyc m); zstr (i64 (end_ns m - from_ns m));
       zstr (from_aux m); zstr (end_aux m); zstr (to_aux m)] +:+ nl.

Definition slave_ofstream (name : string) (l : list string) : M slave unit :=
  modify (add_sl_file
    (name, ofs_close (ofs_writes l (ofs_do_open (creatable name) ofs_new)))).

Definition set_meas (t : times) (r : MSG_measure_result) : MSG_measure_result :=
  MeasureResult_msg (slave_from_ip r) (slave_from_port r) (slave_to_ip r)
    (slave_to_port r) t (mr_finished r).

Definition stamp (t : timespec) : string :=
  default uninit_buf (formatTS t 1024 def_format).2.

Definition measure_from (q : MSG_measure_req) (nr_iter : Z)
    (replies : list TSC_req_cyc) : M slave (timespec * timespec * times) :=
  (if tsc_init_rand =? -1 then
     slave_sys (logFail slave_file 299
       ("Error in initializing drand48: " +:+ zstr tsc_init_rand)) ;; exit 1
   else mret tt) ;;
  slave_sys (logStatus slave_file 340
    ("Sending " +:+ zstr nr_iter +:+ " synchronous DEALER->ROUTER messages...")) ;;
  now ← slave_sys clock_gettime_tsc;
  let filename := "/tmp/tsc_slave_rtt_log_" +:+ stamp now +:+ ".txt" in
  ts_rtt_stt ← slave_sys clock_gettime_tsc;
  RTTs ← rtt_loop (Z.to_nat nr_iter) replies;
  ts_rtt_end ← slave_sys clock_gettime_tsc;
  slave_ofstream filename (rtt_log_header :: map (rtt_log_line q) RTTs) ;;
  mret (ts_rtt_stt, ts_rtt_end, select_min RTTs).

(** ** The side that answers *)
Definition answer : M slave TSC_req_cyc :=
  ts ← slave_sys clock_gettime_tsc;
  mret (TscReqCyc (i64 (tsc ts)) (nanos ts) (aux ts)).

Fixpoint answer_loop (nr_iter : nat) : M slave (list TSC_req_cyc) :=
  match nr_iter with
  | O => mret []
  | S n => m ← answer; ms ← answer_loop n; mret (m :: ms)
  end.

Definition responder_times : times := Times (-1) (-1) 0 (-1) 0 0 0 0 0 0.

Definition measure_to (nr_iter : Z)
    : M slave (timespec * timespec * list TSC_req_cyc) :=
  ts_rtt_stt ← slave_sys clock_gettime_tsc;
  ms ← answer_loop (Z.to_nat nr_iter);
  ts_rtt_end ← slave_sys clock_gettime_tsc;
  mret (ts_rtt_stt, ts_rtt_end, ms).

(** ** Both *)
Definition tscfreq_log (stt end_ : timespec) : list string :=
  ["# Core No, system clock (ns), TSC (cyc)" +:+ nl;
   csv [zstr (aux stt); zstr (nanos stt); zstr (tsc stt)] +:+ nl;
   csv [zstr (aux stt); zstr (nanos end_); zstr (tsc end_)] +:+ nl].

(** [peer] are the replies of the other slave; the result holds the replies
    this slave sends to the other. *)
Definition measure_tsc_rtt (isServer : bool) (q : MSG_measure_req)
    (mm_res : MSG_measure_result) (nr_iter : Z) (peer : list TSC_req_cyc)
    : M slave (Z * MSG_measure_result * list TSC_req_cyc) :=
  '(stt, end_, res, sent) ←
    (if isServer then
       '(stt, end_, t) ← measure_from q nr_iter peer; mret (stt, end_, set_meas t mm_res, [])
     else
       '(stt, end_, ms) ← measure_to nr_iter;
       mret (stt, end_, set_meas responder_times mm_res, ms));
  slave_ofstream ("/tmp/tsc_slave_tscfreq_" +:+ stamp stt +:+ ".txt")
    [string_concat (tscfreq_log stt end_)] ;;
  mret (0, res, sent).

(** ** Commands of the master *)

(** Which side this slave takes in a measurement. The test against the second
    address, when the first one fails, does not change the result. *)
Definition is_server (ipv4 : string) (port : Z) (q : MSG_measure_req) : bool :=
  strncmp_ip ipv4 (rq_from_ip q) && (rq_from_port q =? port).

(** One round of the loop: the message sent back, the replies to the other
    slave, and whether the loop ends. *)
Definition serve_command (sv_port_nr : Z) (msg : option MSG_measure_req)
    (peer : list TSC_req_cyc)
    : M slave (MSG_measure_result * list TSC_req_cyc * bool) :=
  match msg with
  | None => slave_sys (logFail slave_file 220 "Wrong message received") ;; exit 1
  | Some q =>
      if rq_finished q =? 0 then
        p ← get;
        let nr_iterpm := iter_per_measurement q in
        (if nr_iterpm <? 0 then undefined "new of a negative size" else mret tt) ;;
        '(_, r, sent) ← measure_tsc_rtt (is_server (sl_ipv4 p) sv_port_nr q) q mm_res0
                          nr_iterpm peer;
        mret (MeasureResult_msg (strncpy_ip (rq_from_ip q)) (rq_from_port q)
                (strncpy_ip (rq_to_ip q)) (rq_to_port q) (meas r) 0, sent, false)
      else
        mret (MeasureResult_msg "" 0 "" 0 times0 1, [], true)
  end.

(** The messages of one session, with the replies of the other slave where it
    is asked to send; the answers sent back. Without a further message the
    receive blocks. *)
Fixpoint get_commands (sv_port_nr : Z)
    (msgs : list (option MSG_measure_req * list TSC_req_cyc))
    : M slave (list (MSG_measure_result * list TSC_req_cyc)) :=
  match msgs with
  | [] => spin "no command from the master"
  | (msg, peer) :: msgs =>
      '(r, sent, finished) ← serve_command sv_port_nr msg peer;
      if finished : bool then mret [(r, sent)]
      else rs ← get_commands sv_port_nr msgs; mret ((r, sent) :: rs)
  end.

(** ** Registration *)
Definition register_request : M slave MSG_register_request :=
  p ← get;
  (if tsc_init_rand =? -1 then exit 1 else mret tt) ;;
  match tsc_mhz with
  | None =>
      slave_sys (logFail slave_file 163 "Exception in DEALER/ROUTER connection") ;; exit 1
  | Some tsc_mhz =>
      match to_long_long (dmul tsc_mhz (of_int 1000000)) with
      | None => undefined "frequency outside of long long"
      | Some tsc_freq => mret (RegisterRequest (strncpy_ip (sl_ipv4 p)) tsc_freq)
      end
  end.

(** [reply]: the port in the answer of the master; [None]: it has another
    size. *)
Definition register_reply (sv_ip : string) (sv_port_nr : Z) (reply : option Z)
    : M slave Z :=
  match reply with
  | None => slave_sys (logFail slave_file 185 "Registration failed") ;; exit 1
  | Some port =>
      slave_sys (logStatus slave_file 191
        ("Registered to tcp://" +:+ ip_port sv_ip sv_port_nr)) ;;
      slave_sys (logStatus slave_file 195
        ("Assigned port number: " +:+ zstr port +:+ nl)) ;;
      mret port
  end.

Definition register_to_master (sv_ip : string) (sv_port_nr : Z)
    (master : MSG_register_request → option Z) : M slave Z :=
  mrr ← register_request; register_reply sv_ip sv_port_nr (master mrr).

(** Before the first registration. *)
Definition slave_init (console_log : bool) : M slave unit :=
  slave_sys (setLogFileName "/tmp/tsc_slave") ;;
  slave_sys (toggleConsoleLog console_log) ;;
  slave_sys openStatusLogFile ;;
  slave_sys (modify (λ s, set_console (console s ++
    ["Console log: " +:+ (if console_log then "enabled" else "disabled") +:+ nl]) s)) ;;
  '(_, ip) ← slave_sys getIPDottedQuad;
  modify (set_sl_ipv4 (strncpy_ip ip)).

(** ** What the loops compute *)
Definition rtt_sample (t1 t2 : timespec) (reply : TSC_req_cyc) : RTT_data :=
  RttData (i64 (tsc t1)) (nanos t1) (i64 (tsc t2)) (nanos t2) reply (aux t1) (aux t2).

Fixpoint rtt_samples (c : nat) (replies : list TSC_req_cyc) : list RTT_data :=
  match replies with
  | [] => []
  | r :: replies => rtt_sample (clock c) (clock (S c)) r :: rtt_samples (S (S c)) replies
  end.

Definition answer_of (ts : timespec) : TSC_req_cyc :=
  TscReqCyc (i64 (tsc ts)) (nanos ts) (aux ts).

Definition answers (c n : nat) : list TSC_req_cyc := map (λ k, answer_of (clock k)) (seq c n).

Definition adv (n : nat) (p : slave) : slave :=
  set_sl_sys (set_clk (n + clk (sl_sys p)) (sl_sys p)) p.

Lemma slave_clock p :
  slave_sys clock_gettime_tsc p = (adv 1 p, Ret (clock (clk (sl_sys p)))).
Proof. done. Qed.

Lemma adv_adv m n p : adv m (adv n p) = adv (m + n) p.
Proof. unfold adv, set_sl_sys, set_clk. simpl. by rewrite Nat.add_assoc. Qed.

Lemma adv_0 p : adv 0 p = p.
Proof. by destruct p as [[] ? ?]. Qed.

Lemma clk_adv n p : clk (sl_sys (adv n p)) = (n + clk (sl_sys p))%nat.
Proof. done. Qed.

Lemma rtt_loop_run replies p :
  rtt_loop (length replies) replies p
  = (adv (2 * length replies) p, Ret (rtt_samples (clk (sl_sys p)) replies)).
Proof.
  revert p. induction replies as [|r rs IH]; intros p; [by rewrite adv_0|].
  simpl rtt_loop.
  assert (rtt_iteration r p = (adv 2 p, Ret (rtt_sample (clock (clk (sl_sys p)))
    (clock (S (clk (sl_sys p)))) r))) as E1 by done.
  rewrite (bind_Ret _ _ _ _ _ E1), (bind_Ret _ _ _ _ _ (IH (adv 2 p))), adv_adv.
  change (length (r :: rs)) with (S (length rs)).
  by replace (2 * length rs + 2)%nat with (2 * S (length rs))%nat by lia.
Qed.

Lemma rtt_loop_blocks n replies p :
  (length replies < n)%nat → ∃ p' why, rtt_loop n replies p = (p', Fault (FSpin why)).
Proof.
  revert n p. induction replies as [|r rs IH]; intros [|n] p Hn; simpl in Hn; try lia.
  { by do 2 eexists. }
  destruct (IH n (adv 2 p)) as (p' & why & E1); [lia|]. exists p', why.
  simpl rtt_loop.
  assert (rtt_iteration r p = (adv 2 p, Ret (rtt_sample (clock (clk (sl_sys p)))
    (clock (S (clk (sl_sys p)))) r))) as E2 by done.
  rewrite (bind_Ret _ _ _ _ _ E2). unfold mbind, M_bind. by rewrite E1.
Qed.

Lemma answer_loop_run n p :
  answer_loop n p = (adv n p, Ret (answers (clk (sl_sys p)) n)).
Proof.
  revert p. induction n as [|n IH]; intros p; [by rewrite adv_0|].
  simpl answer_loop.
  assert (answer p = (adv 1 p, Ret (answer_of (clock (clk (sl_sys p)))))) as E1 by done.
  rewrite (bind_Ret _ _ _ _ _ E1), (bind_Ret _ _ _ _ _ (IH (adv 1 p))), adv_adv.
  by rewrite Nat.add_1_r.
Qed.

Lemma length_answers c n : length (answers c n) = n.
Proof. unfold answers. by rewrite length_map, length_seq. Qed.

Lemma length_rtt_samples c rs : length (rtt_samples c rs) = length rs.
Proof. revert c. induction rs as [|r rs IH]; intros c; simpl; [done|by rewrite IH]. Qed.

(** Round k of a measurement that starts at clock reading [c] of the sender. *)
Lemma rtt_samples_lookup c rs k r :
  rs !! k = Some r →
  rtt_samples c rs !! k
  = Some (rtt_sample (clock (c + 2 * k)) (clock (S (c + 2 * k))) r).
Proof.
  revert c k. induction rs as [|r' rs IH]; intros c [|k] Hk; simpl in Hk |- *; try done.
  - simplify_eq. by rewrite Nat.add_0_r.
  - rewrite IH by done. by replace (S (S c) + 2 * k)%nat with (c + 2 * S k)%nat by lia.
Qed.

(** ** The fewest cycles *)
Definition cycles (r : RTT_data) : Z := i64 (ts_end r - ts_stt r).

Definition times_of (r : RTT_data) : times :=
  Times 0 (ts_stt r) (ns_stt r) (reply_cyc (rtt_reply r)) (reply_ns (rtt_reply r))
    (ts_end r) (ns_end r) (aux_stt r) (reply_aux (rtt_reply r)) (aux_end r).

(** [r] is the first of the rounds with the fewest cycles. *)
Definition first_min : list RTT_data → RTT_data → Prop := first_least cycles.

Lemma select_fold l :
  Forall (λ r, cycles r < LLONG_MAX) l → l ≠ [] →
  ∃ r, first_min l r ∧ foldl select_step (LLONG_MAX, times0) l = (cycles r, times_of r).
Proof.
  induction l as [|r l IH] using rev_ind; [done|]. intros Hl _.
  rewrite Forall_app, Forall_singleton in Hl. destruct Hl as [Hl Hr].
  rewrite foldl_app. simpl.
  destruct (decide (l = [])) as [->|Hne].
  - exists r. split; [by exists [], []|]. simpl. unfold select_step.
    fold (cycles r). cbn [fst]. by rewrite (proj2 (Z.ltb_lt _ _) Hr).
  - destruct (IH Hl Hne) as (r0 & F & ->).
    exists (if cycles r <? cycles r0 then r else r0). split; [by apply first_least_snoc|].
    unfold select_step. fold (cycles r). cbn [fst]. by destruct (cycles r <? cycles r0).
Qed.

Lemma select_min_first l :
  Forall (λ r, cycles r < LLONG_MAX) l → l ≠ [] →
  ∃ r, first_min l r ∧ select_min l = times_of r.
Proof.
  intros Hl Hne. destruct (select_fold l Hl Hne) as (r & F & E1).
  exists r. split; [done|]. unfold select_min. by rewrite E1.
Qed.

(** ** Runs of the operations *)
Lemma slave_log (m : M sys unit) p :
  (∀ s, ∃ s', m s = (s', Ret tt) ∧ log_only s s') →
  ∃ s', slave_sys m p = (set_sl_sys s' p, Ret tt) ∧ log_only (sl_sys p) s'.
Proof.
  intros Hm. destruct (Hm (sl_sys p)) as (s' & E1 & L). exists s'.
  unfold slave_sys, zoom. by rewrite E1.
Qed.

Definition rtt_file (q : MSG_measure_req) (RTTs : list RTT_data) (name : string)
    : string * ofstream :=
  (name, ofs_close (ofs_writes (rtt_log_header :: map (rtt_log_line q) RTTs)
                      (ofs_do_open (creatable name) ofs_new))).

(** The sender reads its clock once for the name of the log, once before and
    once after the rounds, and twice in each. *)
Lemma measure_from_run q n replies p :
  tsc_init_rand ≠ -1 → n = Z.of_nat (length replies) →
  let c := clk (sl_sys p) in
  let RTTs := rtt_samples (c + 2) replies in
  ∃ s', measure_from q n replies p
      = (add_sl_file (rtt_file q RTTs ("/tmp/tsc_slave_rtt_log_" +:+ stamp (clock c) +:+ ".txt"))
           (set_sl_sys s' p),
         Ret (clock (S c), clock (c + 2 + 2 * length replies), select_min RTTs))
    ∧ clk s' = (c + 3 + 2 * length replies)%nat.
Proof.
  intros Hr -> c RTTs. unfold measure_from.
  rewrite (proj2 (Z.eqb_neq _ _) Hr), bind_ret_l.
  destruct (slave_log (logStatus slave_file 340
    ("Sending " +:+ zstr (Z.of_nat (length replies))
     +:+ " synchronous DEALER->ROUTER messages...")) p) as (s1 & E1 & L1);
    [intros s; apply logStatus_frame|].
  rewrite (bind_Ret _ _ _ _ _ E1), (bind_Ret _ _ _ _ _ (slave_clock _)).
  rewrite (bind_Ret _ _ _ _ _ (slave_clock _)), Nat2Z.id.
  rewrite (bind_Ret _ _ _ _ _ (rtt_loop_run replies _)).
  rewrite (bind_Ret _ _ _ _ _ (slave_clock _)).
  assert (clk s1 = c) as Ec by apply L1.
  rewrite !adv_adv, !clk_adv. cbn [sl_sys set_sl_sys]. rewrite Ec.
  replace (1 + 1 + c)%nat with (c + 2)%nat by lia. fold RTTs.
  replace (2 * length replies + 1 + 1 + c)%nat with (c + 2 + 2 * length replies)%nat by lia.
  eexists. split; [reflexivity|]. simpl. lia.
Qed.

Definition freq_file (stt end_ : timespec) : string * ofstream :=
  let name := "/tmp/tsc_slave_tscfreq_" +:+ stamp stt +:+ ".txt" in
  (name, ofs_close (ofs_write (string_concat (tscfreq_log stt end_))
                      (ofs_do_open (creatable name) ofs_new))).

(** What a measurement leaves untouched. *)
Definition same_ip (p p' : slave) : Prop := sl_ipv4 p' = sl_ipv4 p.

Definition valid_req (q : MSG_measure_req) (n : nat) : Prop :=
  rq_finished q = 0 ∧ iter_per_measurement q = Z.of_nat n.

Definition result_of (q : MSG_measure_req) (t : times) : MSG_measure_result :=
  MeasureResult_msg (strncpy_ip (rq_from_ip q)) (rq_from_port q)
    (strncpy_ip (rq_to_ip q)) (rq_to_port q) t 0.

(** The sending side of a command: the answer to the master. *)
Lemma serve_from port q replies p :
  tsc_init_rand ≠ -1 → valid_req q (length replies) →
  is_server (sl_ipv4 p) port q = true →
  ∃ p', serve_command port (Some q) replies p
      = (p', Ret (result_of q (select_min (rtt_samples (clk (sl_sys p) + 2) replies)),
                  [], false))
    ∧ same_ip p p'.
Proof.
  intros Hr [Hf Hn] Hs. unfold serve_command. rewrite Hf. cbv iota beta.
  change (0 =? 0) with true. cbv iota.
  rewrite (bind_Ret get _ _ _ _ eq_refl), Hs, Hn.
  rewrite (proj2 (Z.ltb_ge _ _)) by lia. cbv zeta iota. rewrite bind_ret_l.
  destruct (measure_from_run q _ replies p Hr eq_refl) as (s' & E1 & _).
  unfold measure_tsc_rtt. cbv iota. rewrite !bind_assoc.
  rewrite (bind_Ret _ _ _ _ _ E1), bind_ret_l.
  rewrite !bind_assoc. eexists. split; [reflexivity|done].
Qed.

(** The answering side: what it sends to the other slave, and to the master. *)
Lemma serve_to port q n replies p :
  valid_req q n → is_server (sl_ipv4 p) port q = false →
  ∃ p', serve_command port (Some q) replies p
      = (p', Ret (result_of q responder_times, answers (S (clk (sl_sys p))) n, false))
    ∧ same_ip p p'.
Proof.
  intros [Hf Hn] Hs. unfold serve_command. rewrite Hf. change (0 =? 0) with true.
  cbv iota. rewrite (bind_Ret get _ _ _ _ eq_refl), Hs, Hn.
  rewrite (proj2 (Z.ltb_ge _ _)) by lia. cbv zeta iota. rewrite bind_ret_l.
  unfold measure_tsc_rtt, measure_to. cbv iota. rewrite !bind_assoc.
  rewrite (bind_Ret _ _ _ _ _ (slave_clock _)), !bind_assoc, Nat2Z.id.
  rewrite (bind_Ret _ _ _ _ _ (answer_loop_run n _)), !bind_assoc.
  rewrite (bind_Ret _ _ _ _ _ (slave_clock _)).
  eexists. split; [reflexivity|done].
Qed.

(** The end of a session. *)
Lemma serve_finish port q replies p :
  rq_finished q ≠ 0 →
  serve_command port (Some q) replies p
  = (p, Ret (MeasureResult_msg "" 0 "" 0 times0 1, [], true)).
Proof. intros Hf. unfold serve_command. by rewrite (proj2 (Z.eqb_neq _ _) Hf). Qed.
End TscSlave.
