(* ===== verification/TscMaster.v ===== *)
(** * Time-stamp counter master: src/cp/tsc/tsc_master.cpp

    The master waits for its slaves, gives each a port, has every ordered pair
    of slaves measured, one pair after the other, and writes the results in the
    order of their round-trip times. *)
From Stdlib Require Import Sorting.Sorted.
From S2P Require Import Prelude TimeStamp Platform Log TscSlave.

(** The class of tsc_master.cpp. *)
Record MeasureResult := MkMeasureResult {
  m_from_ip : string;
  m_from_port : Z;
  m_to_ip : string;
  m_to_port : Z;
  m_rtt_ns : Z;
  m_from_cyc : Z;
  m_from_ns : Z;
  m_to_cyc : Z;
  m_to_ns : Z;
  m_end_cyc : Z;
  m_end_ns : Z;
  m_from_aux : Z;
  m_to_aux : Z;
  m_end_aux : Z
}.

(** What the master keeps of a slave: address, port, socket (NULL at first),
    frequency. A socket is the endpoint it is connected to. *)
Record peer := Peer {
  p_ip : string;
  p_port : Z;
  p_sock : option string;
  p_freq : Z
}.

Definition set_p_sock x p := Peer (p_ip p) (p_port p) x (p_freq p).

(** What the standard library leaves open: the order in which an
    std::unordered_map lists its elements, and where std::sort puts elements
    that compare equal. *)
Class StdCpp := {
  um_order : gmap string peer → list (string * peer);
  std_sort : list MeasureResult → list MeasureResult
}.

Definition rtt_le (a b : MeasureResult) : Prop := m_rtt_ns a ≤ m_rtt_ns b.

Class StdCppLaws `{StdCpp} : Prop := {
  um_order_perm m : um_order m ≡ₚ map_to_list m;
  std_sort_perm l : std_sort l ≡ₚ l;
  std_sort_sorted l : StronglySorted rtt_le (std_sort l)
}.

(** The sockets of the master, as ZeroMQ documents them: send a request, wait
    until one of the sockets has an answer (for each whether it has one), and
    take it. A message of another size than an answer is [None]. *)
Class TscNet (N : Type) := {
  net_send : string → MSG_measure_req → M N unit;
  net_poll : list string → M N (list bool);
  net_recv : string → M N (option MSG_measure_result)
}.

Record master (N : Type) := Master {
  ms_sys : sys;
  ms_net : N;
  ms_results : list MeasureResult;    (* measResultList *)
  ms_files : list (string * ofstream);
  ms_iteration : Z;                   (* uint32_t *)
  ms_nr_iterpm : Z;                   (* uint32_t *)
  ms_nonstop : bool
}.
Arguments Master {N}. Arguments ms_sys {N}. Arguments ms_net {N}.
Arguments ms_results {N}. Arguments ms_files {N}. Arguments ms_iteration {N}.
Arguments ms_nr_iterpm {N}. Arguments ms_nonstop {N}.

Definition set_ms_sys {N} y (s : master N) := Master y (ms_net s) (ms_results s)
  (ms_files s) (ms_iteration s) (ms_nr_iterpm s) (ms_nonstop s).
Definition set_ms_net {N} (n : N) (s : master N) := Master (ms_sys s) n (ms_results s)
  (ms_files s) (ms_iteration s) (ms_nr_iterpm s) (ms_nonstop s).
Definition set_ms_results {N} l (s : master N) := Master (ms_sys s) (ms_net s) l
  (ms_files s) (ms_iteration s) (ms_nr_iterpm s) (ms_nonstop s).
Definition set_ms_files {N} l (s : master N) := Master (ms_sys s) (ms_net s)
  (ms_results s) l (ms_iteration s) (ms_nr_iterpm s) (ms_nonstop s).
Definition set_ms_iteration {N} i (s : master N) := Master (ms_sys s) (ms_net s)
  (ms_results s) (ms_files s) i (ms_nr_iterpm s) (ms_nonstop s).
Definition set_ms_nr_iterpm {N} i (s : master N) := Master (ms_sys s) (ms_net s)
  (ms_results s) (ms_files s) (ms_iteration s) i (ms_nonstop s).
Definition set_ms_nonstop {N} b (s : master N) := Master (ms_sys s) (ms_net s)
  (ms_results s) (ms_files s) (ms_iteration s) (ms_nr_iterpm s) b.

Definition on_sys {N A} : M sys A → M (master N) A := zoom ms_sys set_ms_sys.
Definition on_net {N A} : M N A → M (master N) A := zoom ms_net set_ms_net.

Definition master_file : string := "tsc_master.cpp".

(** Runs an operation on each element in turn. *)
Fixpoint each {S A} (f : A → M S unit) (l : list A) : M S unit :=
  match l with
  | [] => mret tt
  | a :: l => f a ;; each f l
  end.

Section TscMaster.
Context `{Env} `{StdCpp}.

(** ** Registration *)

(** The do/while loop: the first port from [port] on whose slave_id is free. *)
Fixpoint free_port (fuel : nat) (slaves : gmap string peer) (cur_ip : string)
    (port : Z) : M sys Z :=
  match fuel with
  | O => spin "no free port"
  | S fuel =>
      match slaves !! ip_port cur_ip port with
      | Some _ => free_port fuel slaves cur_ip (i32 (port + 1))
      | None => mret port
      end
  end.

Definition register_slave (mrr : MSG_register_request) (slaves : gmap string peer)
    (ofs_reg : ofstream) : M sys (gmap string peer * ofstream * Z) :=
  let cur_ip := from_ip mrr in
  cur_port ← free_port (S (size slaves)) slaves cur_ip tsc_command_default_port;
  let slave_id := ip_port cur_ip cur_port in
  let log := slave_id +:+ "," +:+ zstr (mrr_tsc_freq mrr) +:+ nl in
  logStatus master_file 256 log ;;
  mret (<[slave_id := Peer cur_ip cur_port None (mrr_tsc_freq mrr)]> slaves,
        ofs_write log ofs_reg, cur_port).

(** The loop over the messages that arrive; the ports sent back. *)
Fixpoint slave_registration (slaves : gmap string peer) (msg_ctr nr_slaves : Z)
    (ofs_reg : ofstream) (msgs : list MSG_register_request)
    : M sys (gmap string peer * ofstream * list Z) :=
  if msg_ctr <? nr_slaves then
    match msgs with
    | [] => spin "no registration request"
    | mrr :: msgs =>
        '(slaves, ofs_reg, cur_port) ← register_slave mrr slaves ofs_reg;
        '(slaves, ofs_reg, ports) ←
          slave_registration slaves (msg_ctr + 1) nr_slaves ofs_reg msgs;
        mret (slaves, ofs_reg, cur_port :: ports)
    end
  else mret (slaves, ofs_reg, []).

(** ** Measurement *)
Context {N : Type} `{TscNet N}.

Definition endpoint (p : peer) : string := "tcp://" +:+ ip_port (p_ip p) (p_port p).

Definition connect_all (slaves : gmap string peer) : gmap string peer :=
  (λ p, set_p_sock (Some (endpoint p)) p) <$> slaves.

(** All ordered pairs of slaves with different ids. *)
Definition all_pairs (l : list (string * peer)) : list (peer * peer) :=
  concat (map (λ it_1, map (λ it_2, (it_1.2, it_2.2))
                         (filter (λ it_2, it_1.1 ≠ it_2.1) l)) l).

Definition measure_request (nr_iterpm : Z) (sender receiver : peer)
    : MSG_measure_req :=
  MeasureReq (strncpy_ip (p_ip sender)) (p_port sender)
    (strncpy_ip (p_ip receiver)) (p_port receiver) 0 (i32 nr_iterpm).

(** The request to one of the two slaves of a pair; its socket. *)
Definition send_request (slaves : gmap string peer) (sender receiver target : peer)
    : M (master N) string :=
  let slave_id := ip_port (p_ip target) (p_port target) in
  match slaves !! slave_id with
  | None =>
      on_sys (logFail master_file 321
        ("Slave " +:+ quote slave_id +:+ " is not found.")) ;; exit 1
  | Some tup =>
      match p_sock tup with
      | None => on_sys (logFail master_file 327 "Socket should have been prepared.") ;;
                exit 1
      | Some sock =>
          s ← get;
          on_net (net_send sock (measure_request (ms_nr_iterpm s) sender receiver)) ;;
          mret sock
      end
  end.

(** The record made of an answer. *)
Definition measure_result (mma : MSG_measure_result) : MeasureResult :=
  let t := meas mma in
  MkMeasureResult (slave_from_ip mma) (slave_from_port mma) (slave_to_ip mma)
    (slave_to_port mma) (i64 (end_ns t - from_ns t)) (from_cyc t) (from_ns t)
    (to_cyc t) (to_ns t) (end_cyc t) (end_ns t)
    (u32 (from_aux t)) (u32 (to_aux t)) (u32 (end_aux t)).

(** An answer; that of the slave that replied to the other one is dropped. *)
Definition take_result (slaves : gmap string peer) (msg : option MSG_measure_result)
    : M (master N) unit :=
  match msg with
  | None => on_sys (logFail master_file 367 "Wrong message received") ;; exit 1
  | Some mma =>
      match slaves !! ip_port (slave_from_ip mma) (slave_from_port mma) with
      | None => undefined "end() dereferenced"
      | Some _ =>
          if from_cyc (meas mma) =? -1 then mret tt
          else modify (λ s, set_ms_results (ms_results s ++ [measure_result mma]) s)
      end
  end.

(** The sockets that have an answer, in the order of the array. *)
Definition take_ready (slaves : gmap string peer) (sr : string * bool)
    : M (master N) unit :=
  if sr.2 then msg ← on_net (net_recv sr.1); take_result slaves msg else mret tt.

(** [while (numSocketsToPoll > 0)]: zmq::poll waits until at least one socket
    has an answer. *)
Fixpoint poll_loop (fuel : nat) (slaves : gmap string peer) (socks : list string)
    (numSocketsToPoll : Z) : M (master N) unit :=
  if 0 <? numSocketsToPoll then
    match fuel with
    | O => spin "poll reports no socket"
    | S fuel =>
        revents ← on_net (net_poll socks);
        each (take_ready slaves) (zip socks revents) ;;
        poll_loop fuel slaves socks
          (numSocketsToPoll - Z.of_nat (count (λ b, b) revents))
    end
  else mret tt.

Definition measure_pair (slaves : gmap string peer) (pr : peer * peer)
    : M (master N) unit :=
  sock1 ← send_request slaves pr.1 pr.2 pr.1;
  sock2 ← send_request slaves pr.1 pr.2 pr.2;
  poll_loop 2 slaves [sock1; sock2] 2.

Definition finish_request : MSG_measure_req := MeasureReq "" 0 "" 0 1 0.

Definition finish_slave (it : string * peer) : M (master N) unit :=
  match p_sock it.2 with
  | None => undefined "NULL socket"
  | Some sock =>
      on_net (net_send sock finish_request) ;;
      msg ← on_net (net_recv sock);
      match msg with
      | None => undefined "cast of a message of another size"
      | Some mma =>
          when (mr_finished mma =? 0)
            (on_sys (logFail master_file 425
               "Wrong message: The current RTT session should have been finished here."))
      end
  end.

Definition result_line (it : MeasureResult) : string :=
  csv [ip_port (m_from_ip it) (m_from_port it);
       zstr (m_from_ns it); zstr (m_from_cyc it); zstr (m_end_ns it);
       zstr (m_end_cyc it); ip_port (m_to_ip it) (m_to_port it);
       zstr (m_to_ns it); zstr (m_to_cyc it); zstr (m_rtt_ns it);
       zstr (m_from_aux it); zstr (m_end_aux it); zstr (m_to_aux it)] +:+ nl.

Definition request_measurement (slaves : gmap string peer) (ofs : ofstream)
    : M (master N) ofstream :=
  let slaves := connect_all slaves in
  each (measure_pair slaves) (all_pairs (um_order slaves)) ;;
  each finish_slave (um_order slaves) ;;
  modify (λ s, set_ms_results (std_sort (ms_results s)) s) ;;
  s ← get;
  mret (ofs_writes (map result_line (ms_results s)) ofs).

(** ** The main loop *)
Record master_options := MasterOptions {
  o_port_number : Z;
  o_nr_slaves : Z;
  o_console_log : bool;
  o_interval : Z;
  o_iteration : Z;
  o_nr_iterpm : Z;
  o_periodic : bool
}.

Definition checkTerminate (s : master N) : bool :=
  negb (ms_nonstop s || (negb (ms_nonstop s) && (0 <? ms_iteration s))).

(** [do { pselect; clock } while (now < budgetEnd)]. *)
Fixpoint wait_budget (fuel : nat) (budgetEnd : timespec) : M sys unit :=
  match fuel with
  | O => spin "the clock does not reach the end of the period"
  | S fuel =>
      now ← clock_gettime_tsc;
      if compareTS now budgetEnd <? 0 then wait_budget fuel budgetEnd else mret tt
  end.

Definition register_log_header : string := "# slave_ip, slave_port, tsc_freq" +:+ nl.

Definition open_ofs (name header : string) : ofstream :=
  ofs_write header (ofs_do_open (creatable name) ofs_new).

(** One turn of the loop; [msgs] are the registrations that arrive, and the
    result the ports they are answered with. *)
Definition master_round (o : master_options) (waits : nat)
    (msgs : list MSG_register_request) : M (master N) (list Z) :=
  now ← on_sys clock_gettime_tsc;
  let budgetEnd := addTS stale_ts now (Timespec (o_interval o) 0 0 0) in
  let filename1 := "/tmp/tsc_master_register_log_" +:+ stamp now +:+ ".txt" in
  let filename2 := "/tmp/tsc_master_minrtt_log_" +:+ stamp now +:+ ".txt" in
  '(slaves, logofs_reg, ports) ←
    on_sys (slave_registration ∅ 0 (o_nr_slaves o)
              (open_ofs filename1 register_log_header) msgs);
  logofs ← request_measurement slaves (open_ofs filename2 rtt_log_header);
  modify (set_ms_results []) ;;
  modify (λ s, set_ms_files (ms_files s ++ [(filename1, ofs_close logofs_reg);
                                            (filename2, ofs_close logofs)]) s) ;;
  modify (λ s, set_ms_iteration (u32 (ms_iteration s - 1)) s) ;;
  modify (λ s, if ms_iteration s <=? 6 then set_ms_nr_iterpm 100 s else s) ;;
  on_sys (wait_budget waits budgetEnd) ;;
  mret ports.

Fixpoint main_loop (o : master_options) (waits : nat)
    (arrivals : list (list MSG_register_request)) : M (master N) (list (list Z)) :=
  s ← get;
  if checkTerminate s then mret []
  else
    match arrivals with
    | [] => spin "no registration request"
    | msgs :: arrivals =>
        ports ← master_round o waits msgs;
        rest ← main_loop o waits arrivals;
        mret (ports :: rest)
    end.

(** The globals after the options are read. *)
Definition init_iteration (o : master_options) : M (master N) unit :=
  modify (set_ms_nr_iterpm (o_nr_iterpm o)) ;;
  modify (set_ms_nonstop false) ;;
  modify (set_ms_iteration
    (if negb (o_periodic o) && (o_iteration o =? 0) then 1 else o_iteration o)) ;;
  when (o_periodic o && (o_iteration o =? 0)) (modify (set_ms_nonstop true)).

Definition master_main (o : master_options) (waits : nat)
    (arrivals : list (list MSG_register_request)) : M (master N) (list (list Z)) :=
  on_sys (setLogFileName "/tmp/tsc_master") ;;
  on_sys (toggleConsoleLog (o_console_log o)) ;;
  on_sys openStatusLogFile ;;
  on_sys (modify (λ s, set_console (console s ++
    ["Console log: " +:+ (if o_console_log o then "enabled" else "disabled") +:+ nl]) s)) ;;
  init_iteration o ;;
  ports ← main_loop o waits arrivals;
  on_sys closeStatusLogFile ;;
  mret ports.

Definition listen_port (o : master_options) : Z :=
  if o_port_number o =? -1 then tsc_master_default_port else o_port_number o.
End TscMaster.

(** ** Names of slaves *)
Fixpoint no_colon (s : string) : bool :=
  match s with
  | EmptyString => true
  | String c s => negb (Ascii.eqb c ":"%char) && no_colon s
  end.

Lemma no_colon_app s t : no_colon (s +:+ t) = no_colon s && no_colon t.
Proof.
  induction s as [|c s IH]; [done|]. rewrite string_app_cons. simpl.
  by rewrite IH, andb_assoc.
Qed.

Lemma no_colon_digit d : no_colon (String (pretty_N_char d) "") = true.
Proof. unfold pretty_N_char. by repeat case_match. Qed.

Lemma no_colon_pretty_go x s : no_colon s = true → no_colon (pretty_N_go x s) = true.
Proof.
  revert s. induction (N.lt_wf_0 x) as [x _ IH]; intros s Hs.
  destruct (decide (0 < x)%N) as [Hx|Hx].
  - rewrite pretty_N_go_step by done. apply IH; [by apply N.div_lt|].
    pose proof (no_colon_digit (x `mod` 10)) as Hd. simpl in Hd |- *.
    by rewrite andb_true_r in Hd; rewrite Hd.
  - replace x with 0%N by lia. by rewrite pretty_N_go_0.
Qed.

Lemma no_colon_pretty (x : N) : no_colon (pretty x) = true.
Proof.
  unfold pretty, pretty_N. case_decide; [done|]. by apply no_colon_pretty_go.
Qed.

Lemma no_colon_zstr z : no_colon (zstr z) = true.
Proof.
  unfold zstr, pretty, pretty_Z. destruct z as [|p|p]; [done|apply no_colon_pretty|].
  rewrite no_colon_app. simpl. apply no_colon_pretty.
Qed.

Lemma last_colon a b s t :
  no_colon s = true → no_colon t = true →
  a +:+ String ":" s = b +:+ String ":" t → a = b ∧ s = t.
Proof.
  intros Hs Ht. revert b. induction a as [|c a IH]; intros [|c' b] E1; simpl in E1;
    simplify_eq.
  - done.
  - exfalso. change (String.append b (String ":" t)) with (b +:+ String ":" t) in Hs.
    rewrite no_colon_app in Hs. simpl in Hs. by rewrite andb_false_r in Hs.
  - exfalso. change (String.append a (String ":" s)) with (a +:+ String ":" s) in Ht.
    rewrite no_colon_app in Ht. simpl in Ht. by rewrite andb_false_r in Ht.
  - destruct (IH b) as [-> ->]; done.
Qed.

(** An address and a port are read off a slave's name. *)
Lemma ip_port_inj a p b q : ip_port a p = ip_port b q → a = b ∧ p = q.
Proof.
  unfold ip_port. intros E1. destruct (last_colon a b (zstr p) (zstr q)) as [-> E2];
    [apply no_colon_zstr..|exact E1|]. split; [done|]. by apply (inj zstr).
Qed.

(** ** Registration *)
Definition same_host (ip : string) (ips : list string) : Z :=
  Z.of_nat (count (String.eqb ip) ips).

Lemma same_host_bounds ip ips : 0 ≤ same_host ip ips ≤ Z.of_nat (length ips).
Proof.
  unfold same_host, count. pose proof (List.filter_length_le (String.eqb ip) ips). lia.
Qed.

Lemma same_host_snoc ip ips ip' :
  same_host ip (ips ++ [ip']) = same_host ip ips + (if String.eqb ip ip' then 1 else 0).
Proof.
  unfold same_host. rewrite count_app. unfold count at 2. simpl.
  destruct (String.eqb ip ip'); simpl; lia.
Qed.

(** The ports given to the slaves of an address are consecutive. *)
Record reg_inv (ips : list string) (slaves : gmap string peer) : Prop := RegInv {
  ri_ports ip p : is_Some (slaves !! ip_port ip p)
                  ↔ tsc_command_default_port ≤ p < tsc_command_default_port + same_host ip ips;
  ri_names k t : slaves !! k = Some t → k = ip_port (p_ip t) (p_port t);
  ri_size : size slaves = length ips
}.

Section Registration.
Context `{Env} `{StdCpp}.

Lemma free_port_run ips slaves ip k fuel y :
  reg_inv ips slaves → Z.of_nat (length ips) < 2 ^ 31 - 10000 →
  0 ≤ k ≤ same_host ip ips → same_host ip ips - k < Z.of_nat fuel →
  free_port fuel slaves ip (tsc_command_default_port + k) y
  = (y, Ret (tsc_command_default_port + same_host ip ips)).
Proof.
  intros I Hl. pose proof (same_host_bounds ip ips) as Hb.
  revert k. induction fuel as [|fuel IH]; intros k Hk Hf; [lia|]. simpl.
  pose proof (ri_ports _ _ I ip (tsc_command_default_port + k)) as [Hp1 Hp2].
  destruct (slaves !! ip_port ip (tsc_command_default_port + k)) as [t|] eqn:Et.
  - destruct Hp1 as [_ Hp]; [by eexists|].
    replace (i32 (tsc_command_default_port + k + 1))
      with (tsc_command_default_port + (k + 1)).
    + apply IH; lia.
    + unfold tsc_command_default_port in *. unwrap. lia.
  - destruct (decide (k = same_host ip ips)) as [->|Hne]; [done|].
    destruct Hp2; [lia|done].
Qed.

Definition new_peer (m : MSG_register_request) (ips : list string) : peer :=
  Peer (from_ip m) (tsc_command_default_port + same_host (from_ip m) ips) None
    (mrr_tsc_freq m).
Definition peer_id (p : peer) : string := ip_port (p_ip p) (p_port p).
Definition register_line (p : peer) : string :=
  peer_id p +:+ "," +:+ zstr (p_freq p) +:+ nl.

Lemma register_slave_run ips slaves m ofs y :
  reg_inv ips slaves → Z.of_nat (length ips) < 2 ^ 31 - 10000 →
  let p := new_peer m ips in
  ∃ y', register_slave m slaves ofs y
      = (y', Ret (<[peer_id p := p]> slaves, ofs_write (register_line p) ofs, p_port p))
    ∧ log_only y y'
    ∧ slaves !! peer_id p = None
    ∧ reg_inv (ips ++ [from_ip m]) (<[peer_id p := p]> slaves).
Proof.
  intros I Hl p. unfold register_slave.
  pose proof (same_host_bounds (from_ip m) ips) as Hb.
  assert (free_port (S (size slaves)) slaves (from_ip m) tsc_command_default_port y
    = (y, Ret (p_port p))) as E1.
  { change tsc_command_default_port with (tsc_command_default_port + 0).
    apply (free_port_run ips); [done..|lia|]. rewrite (ri_size _ _ I). lia. }
  rewrite (bind_Ret _ _ _ _ _ E1). cbv zeta.
  destruct (logStatus_frame master_file 256 (register_line p) y) as (y1 & E2 & L).
  rewrite (bind_Ret _ _ _ _ _ E2). exists y1.
  assert (slaves !! peer_id p = None) as Hn.
  { apply eq_None_not_Some. unfold peer_id. rewrite (ri_ports _ _ I). simpl. lia. }
  split_and!; [reflexivity|done|done|]. constructor.
  - intros ip q. rewrite same_host_snoc.
    destruct (decide (ip_port ip q = peer_id p)) as [E3|Hne].
    + rewrite E3, lookup_insert_eq. apply ip_port_inj in E3 as [-> ->].
      simpl. rewrite String.eqb_refl. split; [lia|by eexists].
    + rewrite lookup_insert_ne, (ri_ports _ _ I) by done.
      destruct (String.eqb_spec ip (from_ip m)) as [->|]; [|lia].
      assert (q ≠ p_port p) by (intros ->; by apply Hne). simpl in *. lia.
  - intros k t Hk. destruct (decide (k = peer_id p)) as [->|Hne].
    + rewrite lookup_insert_eq in Hk. by simplify_eq.
    + rewrite lookup_insert_ne in Hk by done. by apply (ri_names _ _ I).
  - rewrite map_size_insert_None by done. rewrite (ri_size _ _ I), length_app. simpl. lia.
Qed.

(** The slaves in the order in which they register, after those of [ips]. *)
Fixpoint registered (ips : list string) (msgs : list MSG_register_request) : list peer :=
  match msgs with
  | [] => []
  | m :: msgs => new_peer m ips :: registered (ips ++ [from_ip m]) msgs
  end.

Definition named_peers (l : list peer) : list (string * peer) :=
  map (λ p, (peer_id p, p)) l.

Lemma length_registered ips msgs : length (registered ips msgs) = length msgs.
Proof. revert ips. induction msgs as [|m msgs IH]; intros ips; simpl; auto. Qed.

Lemma registered_lookup ips msgs i m :
  msgs !! i = Some m →
  registered ips msgs !! i = Some (new_peer m (ips ++ map from_ip (take i msgs))).
Proof.
  revert ips i. induction msgs as [|m' msgs IH]; intros ips [|i] Hi; simpl in *; try done.
  - simplify_eq. by rewrite app_nil_r.
  - rewrite (IH _ _ Hi). by rewrite <- app_assoc.
Qed.

Lemma slave_registration_run ips slaves msgs rest nr ofs y :
  reg_inv ips slaves → nr = Z.of_nat (length ips + length msgs) → nr < 2 ^ 31 - 10000 →
  let ps := registered ips msgs in
  ∃ y' slaves',
    slave_registration slaves (Z.of_nat (length ips)) nr ofs (msgs ++ rest) y
    = (y', Ret (slaves', ofs_writes (map register_line ps) ofs, map p_port ps))
    ∧ log_only y y' ∧ reg_inv (ips ++ map from_ip msgs) slaves'
    ∧ map_to_list slaves' ≡ₚ map_to_list slaves ++ named_peers ps.
Proof.
  revert ips slaves ofs y. induction msgs as [|m msgs IH]; intros ips slaves ofs y I Hnr Hl.
  { exists y, slaves. rewrite !app_nil_r. split_and!; [|done..].
    simpl in Hnr. rewrite Nat.add_0_r in Hnr. subst nr.
    destruct rest; simpl; by rewrite Z.ltb_irrefl. }
  simpl in Hnr. simpl slave_registration. rewrite (proj2 (Z.ltb_lt _ _)) by lia.
  destruct (register_slave_run ips slaves m ofs y I ltac:(lia))
    as (y1 & E1 & L1 & Hn & I1).
  rewrite (bind_Ret _ _ _ _ _ E1).
  destruct (IH _ _ (ofs_write (register_line (new_peer m ips)) ofs) y1 I1)
    as (y2 & slaves' & E2 & L2 & I2 & P); [rewrite length_app; simpl; lia|done|].
  exists y2, slaves'. split_and!.
  - rewrite length_app in E2. simpl in E2.
    replace (Z.of_nat (length ips + 1)) with (Z.of_nat (length ips) + 1) in E2 by lia.
    by rewrite (bind_Ret _ _ _ _ _ E2).
  - by etrans.
  - by rewrite <- app_assoc in I2.
  - rewrite P, map_to_list_insert by done. simpl. apply Permutation_middle.
Qed.

Lemma reg_inv_empty : reg_inv [] ∅.
Proof.
  constructor; [|done..]. intros ip p. rewrite lookup_empty.
  unfold same_host, count. simpl. split; [by intros [? ?]|lia].
Qed.

(** C34. The registration of the slaves returns once nr_slaves requests have
    arrived. Slave number i gets the port 9103 plus the number of earlier slaves
    on the same address, so no two share an address and a port; the map holds
    exactly the registered slaves under their names, and the log one line for
    each, in order. *)
Theorem slave_registration_assigns msgs rest ofs y :
  Z.of_nat (length msgs) < 2 ^ 31 - 10000 → ofs_ok ofs →
  let nr_slaves := Z.of_nat (length msgs) in
  let ps := registered [] msgs in
  (∃ y' slaves ofs',
     slave_registration ∅ 0 nr_slaves ofs (msgs ++ rest) y
     = (y', Ret (slaves, ofs', map p_port ps))
     ∧ map_to_list slaves ≡ₚ named_peers ps
     ∧ ofs_file ofs' = ofs_file ofs ++ map register_line ps
     ∧ size slaves = length msgs)
  ∧ NoDup (map peer_id ps)
  ∧ ∀ i m, msgs !! i = Some m →
      ps !! i = Some (Peer (from_ip m)
        (9103 + same_host (from_ip m) (map from_ip (take i msgs))) None (mrr_tsc_freq m)).
Proof.
  intros Hl Ho nr_slaves ps.
  destruct (slave_registration_run [] ∅ msgs rest nr_slaves ofs y reg_inv_empty eq_refl Hl)
    as (y' & slaves & E1 & _ & I & P).
  rewrite map_to_list_empty in P. simpl in P.
  split_and!.
  - exists y', slaves, (ofs_writes (map register_line ps) ofs).
    split_and!; [exact E1|exact P|by apply ofs_writes_ok|].
    rewrite (ri_size _ _ I). apply length_map.
  - pose proof (NoDup_fst_map_to_list slaves) as Hd. rewrite P in Hd.
    unfold named_peers in Hd. by rewrite map_map in Hd.
  - intros i m Hi. exact (registered_lookup [] msgs i m Hi).
Qed.
End Registration.

Lemma slave_registration_assigns_witness :
  let msgs := [RegisterRequest "10.0.0.7" 2400000000; RegisterRequest "10.0.0.8" 1;
               RegisterRequest "10.0.0.7" 2400000000] in
  let ofs := Ofstream true false [] in
  ∃ y' slaves ofs',
    @slave_registration demo_env ∅ 0 3 ofs msgs (@sys_init true)
    = (y', Ret (slaves, ofs', [9103; 9103; 9104]))
    ∧ size slaves = 3%nat.
Proof.
  intros msgs ofs.
  destruct (@slave_registration_assigns demo_env msgs [] ofs (@sys_init true)
    ltac:(vm_compute; reflexivity) ltac:(done)) as ((y' & sl & ofs' & E & _ & _ & Hs) & _).
  exists y', sl, ofs'. split; [exact E|exact Hs].
Defined.
