(* ===== verification/TscRun.v ===== *)
(** * A session of the master with its slaves

    The master of TscMaster and any number of slaves of TscSlave, each on a
    machine with a clock of its own, connected by sockets that lose nothing.
    Answers arrive in any order. A measurement of two slaves is run side after
    side: the answering side looks at nothing the sender sends, so its replies
    do not depend on how the two are interleaved. *)
From Stdlib Require Import Sorting.Sorted.
From stdpp Require Import sorting.
From S2P Require Import Prelude TimeStamp Platform Log TscSlave TscMaster.

(** A slave that waits for commands on its port. *)
Record node := Node { nd_port : Z; nd_slave : slave }.

(** The slaves by endpoint, the requests they have received, and the answers
    that are on their way to the socket of the same endpoint. *)
Record cluster := Cluster {
  cl_nodes : gmap string node;
  cl_mail : gmap string MSG_measure_req;
  cl_out : gmap string MSG_measure_result;
  cl_polls : nat
}.

Section Cluster.
Context (node_env : string → Env) (node_host : string → TscHost)
  (arrival : nat → string → bool).

(** The slave at [e] serves its request; what it sends to the other slave. If
    its process ends, no answer is ever sent. *)
Definition serve_at (e : string) (peer : list TSC_req_cyc)
    : M cluster (list TSC_req_cyc) :=
  c ← get;
  match cl_nodes c !! e, cl_mail c !! e with
  | Some nd, Some q =>
      match @serve_command (node_env e) (node_host e) (nd_port nd) (Some q) peer
              (nd_slave nd) with
      | (p', Ret (r, sent, _)) =>
          modify (λ _, Cluster (<[e := Node (nd_port nd) p']> (cl_nodes c))
            (delete e (cl_mail c)) (<[e := r]> (cl_out c)) (cl_polls c)) ;;
          mret sent
      | (_, Fault _) => spin "the slave is gone"
      end
  | _, _ => spin "no request"
  end.

Definition is_sender (c : cluster) (e : string) : bool :=
  match cl_nodes c !! e, cl_mail c !! e with
  | Some nd, Some q => is_server (sl_ipv4 (nd_slave nd)) (nd_port nd) q
  | _, _ => false
  end.

(** The slaves behind two sockets, when both have a request and one of them is
    to send. *)
Definition work (socks : list string) : M cluster unit :=
  c ← get;
  match socks with
  | [e1; e2] =>
      match cl_mail c !! e1, cl_mail c !! e2 with
      | Some _, Some _ =>
          if is_sender c e1 && negb (is_sender c e2) then
            sent ← serve_at e2 []; serve_at e1 sent ;; mret tt
          else if negb (is_sender c e1) && is_sender c e2 then
            sent ← serve_at e1 []; serve_at e2 sent ;; mret tt
          else spin "both slaves wait for the other"
      | _, _ => mret tt
      end
  | _ => mret tt
  end.

Definition has_answer (c : cluster) (e : string) : bool :=
  bool_decide (is_Some (cl_out c !! e)).

#[export] Instance cluster_net : TscNet cluster := {|
  net_send e q :=
    modify (λ c, Cluster (cl_nodes c) (<[e := q]> (cl_mail c)) (cl_out c) (cl_polls c));
  net_poll socks :=
    work socks ;;
    c ← get;
    modify (λ c, Cluster (cl_nodes c) (cl_mail c) (cl_out c) (S (cl_polls c))) ;;
    let arrived := map (λ e, has_answer c e && arrival (cl_polls c) e) socks in
    if existsb (has_answer c) socks
    then mret (if existsb (λ b, b) arrived then arrived else map (has_answer c) socks)
    else spin "poll waits for an answer";
  net_recv e :=
    c ← get;
    (if has_answer c e then mret [] else serve_at e []) ;;
    c ← get;
    match cl_out c !! e with
    | Some r =>
        modify (λ c, Cluster (cl_nodes c) (cl_mail c) (delete e (cl_out c)) (cl_polls c)) ;;
        mret (Some r)
    | None => spin "no answer"
    end
|}.

(** ** The slaves of a pair *)
Definition with_out (c : cluster) (o : gmap string MSG_measure_result) : cluster :=
  Cluster (cl_nodes c) (cl_mail c) o (cl_polls c).

Definition served (c : cluster) (e : string) (nd : node) (r : MSG_measure_result)
    : cluster :=
  Cluster (<[e := nd]> (cl_nodes c)) (delete e (cl_mail c)) (<[e := r]> (cl_out c))
    (cl_polls c).

Lemma serve_at_to e nd q n peer c :
  cl_nodes c !! e = Some nd → cl_mail c !! e = Some q → valid_req q n →
  is_server (sl_ipv4 (nd_slave nd)) (nd_port nd) q = false →
  ∃ p' k, serve_at e peer c = (served c e (Node (nd_port nd) p') (result_of q responder_times),
                               Ret (@answers (node_env e) k n))
          ∧ same_ip (nd_slave nd) p'.
Proof.
  intros En Eq V S. unfold serve_at. rewrite (bind_Ret get _ _ _ _ eq_refl), En, Eq.
  destruct (@serve_to (node_env e) (node_host e) (nd_port nd) q n peer (nd_slave nd) V S)
    as (p' & E1 & S1).
  rewrite E1. by eexists p', _.
Qed.

Lemma serve_at_from e nd q replies c :
  cl_nodes c !! e = Some nd → cl_mail c !! e = Some q → valid_req q (length replies) →
  @tsc_init_rand (node_host e) ≠ -1 →
  is_server (sl_ipv4 (nd_slave nd)) (nd_port nd) q = true →
  ∃ p' k, serve_at e replies c
          = (served c e (Node (nd_port nd) p')
               (result_of q (select_min (@rtt_samples (node_env e) k replies))), Ret [])
          ∧ same_ip (nd_slave nd) p'.
Proof.
  intros En Eq V Hr S. unfold serve_at. rewrite (bind_Ret get _ _ _ _ eq_refl), En, Eq.
  destruct (@serve_from (node_env e) (node_host e) (nd_port nd) q replies (nd_slave nd)
    Hr V S) as (p' & E1 & S1).
  rewrite E1. by eexists p', _.
Qed.

(** Both slaves of a pair serve its request. *)
Lemma work_pair e1 e2 nd1 nd2 q n c :
  e1 ≠ e2 → cl_nodes c !! e1 = Some nd1 → cl_nodes c !! e2 = Some nd2 →
  cl_mail c = <[e2 := q]> (<[e1 := q]> ∅) → cl_out c = ∅ → valid_req q n →
  @tsc_init_rand (node_host e1) ≠ -1 →
  is_server (sl_ipv4 (nd_slave nd1)) (nd_port nd1) q = true →
  is_server (sl_ipv4 (nd_slave nd2)) (nd_port nd2) q = false →
  ∃ p1 p2 k1 k2,
    let RTTs := @rtt_samples (node_env e1) k1 (@answers (node_env e2) k2 n) in
    work [e1; e2] c
    = (Cluster (<[e1 := Node (nd_port nd1) p1]> (<[e2 := Node (nd_port nd2) p2]> (cl_nodes c)))
         ∅ (<[e1 := result_of q (select_min RTTs)]> (<[e2 := result_of q responder_times]> ∅))
         (cl_polls c), Ret tt)
    ∧ same_ip (nd_slave nd1) p1 ∧ same_ip (nd_slave nd2) p2.
Proof.
  intros Hne En1 En2 Em Eo V Hr S1 S2. unfold work.
  rewrite (bind_Ret get _ _ _ _ eq_refl).
  assert (cl_mail c !! e1 = Some q) as Em1.
  { by rewrite Em, lookup_insert_ne, lookup_insert_eq by done. }
  assert (cl_mail c !! e2 = Some q) as Em2 by by rewrite Em, lookup_insert_eq.
  rewrite Em1, Em2.
  assert (is_sender c e1 = true) as -> by (unfold is_sender; by rewrite En1, Em1).
  assert (is_sender c e2 = false) as -> by (unfold is_sender; by rewrite En2, Em2).
  cbn [negb andb].
  destruct (serve_at_to e2 nd2 q n [] c En2 Em2 V S2) as (p2 & k2 & E2 & I2).
  rewrite (bind_Ret _ _ _ _ _ E2).
  destruct (serve_at_from e1 nd1 q (@answers (node_env e2) k2 n)
    (served c e2 (Node (nd_port nd2) p2) (result_of q responder_times)))
    as (p1 & k1 & E1 & I1); [| |by rewrite length_answers|done..|].
  { simpl. by rewrite lookup_insert_ne. }
  { simpl. by rewrite lookup_delete_ne. }
  rewrite (bind_Ret _ _ _ _ _ E1). exists p1, p2, k1, k2.
  split_and!; [|done..]. unfold served. simpl. rewrite Em, Eo.
  rewrite delete_insert_eq, delete_insert_ne, delete_insert_eq by done.
  by rewrite delete_empty, delete_empty.
Qed.

Lemma work_idle e1 e2 c : cl_mail c = ∅ → work [e1; e2] c = (c, Ret tt).
Proof. intros Em. unfold work. rewrite (bind_Ret get _ _ _ _ eq_refl), Em. done. Qed.

Definition polled (c : cluster) : cluster :=
  Cluster (cl_nodes c) (cl_mail c) (cl_out c) (S (cl_polls c)).

(** A poll after which at least one of the two sockets has an answer: it reports
    some of them, and one at least. *)
Lemma poll_pair e1 e2 c c1 :
  work [e1; e2] c = (c1, Ret tt) → has_answer c1 e1 || has_answer c1 e2 = true →
  ∃ b1 b2, net_poll [e1; e2] c = (polled c1, Ret [b1; b2])
    ∧ b1 || b2 = true ∧ (b1 = true → has_answer c1 e1 = true)
    ∧ (b2 = true → has_answer c1 e2 = true).
Proof.
  intros E1 Ha. unfold net_poll, cluster_net. cbn [map].
  rewrite (bind_Ret _ _ _ _ _ E1), (bind_Ret get _ _ _ _ eq_refl).
  rewrite (bind_Ret (modify _) _ _ _ tt eq_refl). cbv zeta. cbn [existsb].
  rewrite orb_false_r, Ha.
  destruct (has_answer c1 e1), (has_answer c1 e2), (arrival (cl_polls c1) e1),
    (arrival (cl_polls c1) e2); try discriminate Ha; cbn [andb orb];
    do 2 eexists; (split; [reflexivity|done]).
Qed.

(** ** The master reads the answers *)
Context `{Env} `{StdCpp}.

Implicit Types s : master cluster.

Definition at_net (c : cluster) s := set_ms_net c s.

Lemma on_net_run {A} (m : M cluster A) s c' r :
  m (ms_net s) = (c', r) → on_net m s = (at_net c' s, r).
Proof. intros E1. unfold on_net, zoom. by rewrite E1. Qed.

Lemma has_answer_lookup c e : has_answer c e = true → ∃ r, cl_out c !! e = Some r.
Proof. unfold has_answer. intros Hb%bool_decide_eq_true. exact Hb. Qed.

Definition taken (c : cluster) (e : string) : cluster := with_out c (delete e (cl_out c)).

Lemma net_recv_run c e r :
  cl_out c !! e = Some r → net_recv e c = (taken c e, Ret (Some r)).
Proof.
  intros Eo. unfold net_recv, cluster_net. rewrite (bind_Ret get _ _ _ _ eq_refl).
  assert (has_answer c e = true) as -> by (apply bool_decide_eq_true; by eexists).
  rewrite bind_ret_l, (bind_Ret get _ _ _ _ eq_refl), Eo. done.
Qed.

(** What an answer adds to the results. *)
Definition recorded (r : MSG_measure_result) : list MeasureResult :=
  if from_cyc (meas r) =? -1 then [] else [measure_result r].

Definition add_results (l : list MeasureResult) s := set_ms_results (ms_results s ++ l) s.

Lemma take_ready_run sl e r s :
  cl_out (ms_net s) !! e = Some r →
  is_Some (sl !! ip_port (slave_from_ip r) (slave_from_port r)) →
  take_ready sl (e, true) s
  = (add_results (recorded r) (at_net (taken (ms_net s) e) s), Ret tt).
Proof.
  intros Eo [t Ht]. unfold take_ready. cbn [fst snd].
  rewrite (bind_Ret _ _ _ _ _ (on_net_run _ _ _ _ (net_recv_run _ _ _ Eo))).
  unfold take_result. rewrite Ht. unfold recorded, add_results.
  destruct (from_cyc (meas r) =? -1); [|done].
  unfold at_net, set_ms_results, set_ms_net, mret, M_ret. simpl. by rewrite app_nil_r.
Qed.

Lemma take_ready_skip sl e s : take_ready sl (e, false) s = (s, Ret tt).
Proof. done. Qed.

(** One answer is still to come. *)
Lemma poll_loop_last sl e1 e2 e r s :
  e1 ≠ e2 → (e = e1 ∨ e = e2) → cl_mail (ms_net s) = ∅ →
  cl_out (ms_net s) = <[e := r]> ∅ →
  is_Some (sl !! ip_port (slave_from_ip r) (slave_from_port r)) →
  ∃ k, poll_loop 1 sl [e1; e2] 1 s
     = (add_results (recorded r) (at_net (Cluster (cl_nodes (ms_net s)) ∅ ∅ k) s), Ret tt).
Proof.
  intros Hne He Em Eo F.
  assert (∀ e', has_answer (ms_net s) e' = bool_decide (e' = e)) as Ha.
  { intros e'. unfold has_answer. rewrite Eo. destruct (decide (e' = e)) as [->|Hn].
    - rewrite lookup_insert_eq.
      rewrite (bool_decide_eq_true_2 (e = e)) by done.
      apply bool_decide_eq_true_2. by eexists.
    - rewrite lookup_insert_ne, lookup_empty by congruence.
      by rewrite (bool_decide_eq_false_2 (e' = e)) by done. }
  destruct (poll_pair e1 e2 (ms_net s) (ms_net s)) as (b1 & b2 & E2 & Hb & B1 & B2);
    [by apply work_idle| |].
  { rewrite !Ha. apply orb_true_iff.
    destruct He as [->| ->]; [left|right]; by apply bool_decide_eq_true_2. }
  rewrite !Ha in B1, B2. exists (S (cl_polls (ms_net s))).
  cbn [poll_loop]. change (0 <? 1) with true. cbv iota.
  rewrite (bind_Ret _ _ _ _ _ (on_net_run _ _ _ _ E2)). cbn [zip_with each].
  assert (∀ s', s' = add_results (recorded r) (at_net (taken (polled (ms_net s)) e) s) →
    s' = add_results (recorded r) (at_net (Cluster (cl_nodes (ms_net s)) ∅ ∅
           (S (cl_polls (ms_net s)))) s)) as Hend.
  { intros s' ->. unfold taken, with_out. simpl.
    by rewrite Em, Eo, delete_insert_eq, delete_empty. }
  assert (take_ready sl (e, true) (at_net (polled (ms_net s)) s)
    = (add_results (recorded r) (at_net (taken (polled (ms_net s)) e) s), Ret tt)) as T.
  { rewrite (take_ready_run sl e r); [done| |done]. simpl. by rewrite Eo, lookup_insert_eq. }
  destruct He as [-> | ->].
  - rewrite (bool_decide_eq_false_2 (e2 = e1)) in B2 by done.
    destruct b2; [by specialize (B2 eq_refl)|]. rewrite orb_false_r in Hb. subst b1.
    rewrite bind_assoc, (bind_Ret _ _ _ _ _ T), bind_assoc.
    rewrite (bind_Ret _ _ _ _ _ (take_ready_skip _ _ _)). by rewrite (Hend _ eq_refl).
  - rewrite (bool_decide_eq_false_2 (e1 = e2)) in B1 by done.
    destruct b1; [by specialize (B1 eq_refl)|]. simpl in Hb. subst b2.
    rewrite bind_assoc, (bind_Ret _ _ _ _ _ (take_ready_skip _ _ _)).
    rewrite bind_assoc, (bind_Ret _ _ _ _ _ T). by rewrite (Hend _ eq_refl).
Qed.
(** The two answers of a pair are read, in whatever order they arrive. *)
Lemma poll_loop_pair sl e1 e2 r1 r2 s c1 :
  e1 ≠ e2 → work [e1; e2] (ms_net s) = (c1, Ret tt) → cl_mail c1 = ∅ →
  cl_out c1 = <[e1 := r1]> (<[e2 := r2]> ∅) →
  is_Some (sl !! ip_port (slave_from_ip r1) (slave_from_port r1)) →
  is_Some (sl !! ip_port (slave_from_ip r2) (slave_from_port r2)) →
  recorded r2 = [] →
  ∃ k, poll_loop 2 sl [e1; e2] 2 s
     = (add_results (recorded r1) (at_net (Cluster (cl_nodes c1) ∅ ∅ k) s), Ret tt).
Proof.
  intros Hne E1 Em Eo F1 F2 Hr2.
  assert (cl_out c1 !! e1 = Some r1) as O1 by by rewrite Eo, lookup_insert_eq.
  assert (cl_out c1 !! e2 = Some r2) as O2.
  { by rewrite Eo, lookup_insert_ne, lookup_insert_eq. }
  assert (has_answer c1 e1 = true) as A1 by (apply bool_decide_eq_true; by eexists).
  destruct (poll_pair e1 e2 (ms_net s) c1 E1) as (b1 & b2 & E2 & Hb & _ & _).
  { by rewrite A1. }
  assert (delete e1 (cl_out c1) = <[e2 := r2]> ∅) as D1.
  { rewrite Eo, delete_insert_eq. apply delete_id. by rewrite lookup_insert_ne. }
  assert (delete e2 (cl_out c1) = <[e1 := r1]> ∅) as D2.
  { by rewrite Eo, delete_insert_ne, delete_insert_eq, delete_empty by done. }
  cbn [poll_loop]. change (0 <? 2) with true. cbv iota.
  rewrite (bind_Ret _ _ _ _ _ (on_net_run _ _ _ _ E2)). cbn [zip_with each].
  rewrite bind_assoc. destruct b1, b2; try done.
  - rewrite (bind_Ret _ _ _ _ _ (take_ready_run sl e1 r1 (at_net (polled c1) s) O1 F1)), bind_assoc.
    rewrite (bind_Ret _ _ _ _ _ (take_ready_run sl e2 r2
      (add_results (recorded r1) (at_net (taken (polled c1) e1) (at_net (polled c1) s)))
      ltac:(simpl; by rewrite D1, lookup_insert_eq) F2)).
    exists (S (cl_polls c1)). rewrite Hr2. unfold taken, with_out. simpl.
    rewrite Em, D1, delete_insert_eq, delete_empty.
    unfold add_results, at_net, set_ms_results, set_ms_net. simpl.
    by rewrite app_nil_r.
  - rewrite (bind_Ret _ _ _ _ _ (take_ready_run sl e1 r1 (at_net (polled c1) s) O1 F1)), bind_assoc.
    rewrite (bind_Ret _ _ _ _ _ (take_ready_skip _ _ _)).
    destruct (poll_loop_last sl e1 e2 e2 r2
      (add_results (recorded r1) (at_net (taken (polled c1) e1) (at_net (polled c1) s))))
      as (k & E3); [done|by right|done|exact D1|done|].
    exists k. rewrite Hr2 in E3. etrans; [exact E3|].
    unfold add_results, at_net, set_ms_results, set_ms_net. simpl. by rewrite app_nil_r.
  - rewrite (bind_Ret _ _ _ _ _ (take_ready_skip _ _ _)), bind_assoc.
    rewrite (bind_Ret _ _ _ _ _ (take_ready_run sl e2 r2 (at_net (polled c1) s) O2 F2)).
    destruct (poll_loop_last sl e1 e2 e1 r1
      (add_results (recorded r2) (at_net (taken (polled c1) e2) (at_net (polled c1) s))))
      as (k & E3); [done|by left|done|exact D2|done|].
    exists k. rewrite Hr2 in E3. etrans; [rewrite Hr2; exact E3|].
    unfold add_results, at_net, set_ms_results, set_ms_net. simpl. by rewrite app_nil_r.
Qed.

(** ** One pair *)

(** Every slave the master knows runs at its address and waits for commands. *)
Record cluster_ok (slaves : gmap string peer) (c : cluster) : Prop := ClusterOk {
  ok_nodes k p : slaves !! k = Some p →
    ∃ nd, cl_nodes c !! ("tcp://" +:+ k) = Some nd
          ∧ nd_port nd = p_port p ∧ sl_ipv4 (nd_slave nd) = p_ip p;
  ok_mail : cl_mail c = ∅;
  ok_out : cl_out c = ∅
}.

(** Names and addresses as registration makes them. *)
Definition peers_ok (slaves : gmap string peer) : Prop :=
  ∀ k p, slaves !! k = Some p → k = peer_id p ∧ strncpy_ip (p_ip p) = p_ip p.

Definition good_hosts : Prop :=
  ∀ e, @tsc_init_rand (node_host e) ≠ -1
       ∧ ∀ k, 0 ≤ tsc (@clock (node_env e) k) < LLONG_MAX.

Definition record_of (n : Z) (a b : peer) (r : RTT_data) : MeasureResult :=
  measure_result (result_of (measure_request n a b) (times_of r)).

(** A record of the measurement of [a] and [b]: the first round with the fewest
    cycles of [n] rounds, timed by the clocks of the two. *)
Definition measured (n : nat) (a b : peer) (x : MeasureResult) : Prop :=
  ∃ k1 k2 r,
    first_min (@rtt_samples (node_env (endpoint a)) k1
                 (@answers (node_env (endpoint b)) k2 n)) r
    ∧ x = record_of (Z.of_nat n) a b r.

Lemma endpoint_id p : endpoint p = "tcp://" +:+ peer_id p.
Proof. done. Qed.

Lemma tcp_inj a b : "tcp://" +:+ a = "tcp://" +:+ b → a = b.
Proof. intros E1. by injection E1. Qed.

Lemma samples_fit e k rs :
  good_hosts →
  Forall (λ r, cycles r < LLONG_MAX ∧ 0 ≤ ts_stt r) (@rtt_samples (node_env e) k rs).
Proof.
  intros G. revert k. induction rs as [|r rs IH]; intros k; simpl; constructor; [|done].
  destruct (G e) as [_ Hk]. pose proof (Hk k). pose proof (Hk (S k)).
  unfold cycles, rtt_sample, LLONG_MAX in *. simpl. unwrap. lia.
Qed.

Lemma is_server_sender nd a b n :
  nd_port nd = p_port a → sl_ipv4 (nd_slave nd) = p_ip a →
  strncpy_ip (p_ip a) = p_ip a →
  is_server (sl_ipv4 (nd_slave nd)) (nd_port nd) (measure_request n a b) = true.
Proof.
  intros Ep Ei Hi. unfold is_server, strncmp_ip. simpl. rewrite Ep, Ei, !Hi.
  by rewrite String.eqb_refl, Z.eqb_refl.
Qed.

Lemma is_server_receiver nd a b n :
  nd_port nd = p_port b → sl_ipv4 (nd_slave nd) = p_ip b →
  strncpy_ip (p_ip a) = p_ip a → strncpy_ip (p_ip b) = p_ip b →
  peer_id a ≠ peer_id b →
  is_server (sl_ipv4 (nd_slave nd)) (nd_port nd) (measure_request n a b) = false.
Proof.
  intros Ep Ei Ha Hb Hne. unfold is_server, strncmp_ip. simpl.
  rewrite Ep, Ei, !Ha, !Hb.
  destruct (String.eqb_spec (p_ip b) (p_ip a)) as [E1|]; [|done].
  destruct (Z.eqb_spec (p_port a) (p_port b)) as [E2|]; [|done].
  destruct Hne. unfold peer_id. by rewrite E1, E2.
Qed.

Definition mail_for (c : cluster) (e : string) (q : MSG_measure_req) : cluster :=
  Cluster (cl_nodes c) (<[e := q]> (cl_mail c)) (cl_out c) (cl_polls c).

Lemma send_request_run slaves a b t s :
  slaves !! peer_id t = Some t →
  send_request (connect_all slaves) a b t s
  = (at_net (mail_for (ms_net s) (endpoint t) (measure_request (ms_nr_iterpm s) a b)) s,
     Ret (endpoint t)).
Proof.
  intros Ht. unfold send_request.
  assert (connect_all slaves !! peer_id t = Some (set_p_sock (Some (endpoint t)) t)) as Hc.
  { unfold connect_all. by rewrite lookup_fmap, Ht. }
  change (ip_port (p_ip t) (p_port t)) with (peer_id t). rewrite Hc. cbn [p_sock set_p_sock].
  by rewrite (bind_Ret get _ _ _ _ eq_refl).
Qed.

(** The record of a measurement that is sent is never the mark of the other
    side. *)
Lemma recorded_from q e k rs n :
  good_hosts → length rs = n → (0 < n)%nat →
  ∃ r, first_min (@rtt_samples (node_env e) k rs) r
    ∧ recorded (result_of q (select_min (@rtt_samples (node_env e) k rs)))
      = [measure_result (result_of q (times_of r))].
Proof.
  intros G Hl Hn. pose proof (samples_fit e k rs G) as F.
  destruct (select_min_first (@rtt_samples (node_env e) k rs)) as (r & Fm & ->).
  - eapply Forall_impl; [exact F|]. by intros ? [? ?].
  - intros E1%(f_equal length). rewrite length_rtt_samples in E1. simpl in E1. lia.
  - exists r. split; [done|]. unfold recorded.
    destruct Fm as (l1 & l2 & E1 & _). rewrite E1, Forall_app, Forall_cons in F.
    destruct F as (_ & [_ Hs] & _). simpl.
    by rewrite (proj2 (Z.eqb_neq _ _)) by lia.
Qed.

Definition connected (p : peer) : peer := set_p_sock (Some (endpoint p)) p.

Lemma cluster_ok_insert slaves c k nd p' :
  cluster_ok slaves c → cl_nodes c !! ("tcp://" +:+ k) = Some nd →
  same_ip (nd_slave nd) p' →
  ∀ j p, slaves !! j = Some p →
    ∃ nd', <["tcp://" +:+ k := Node (nd_port nd) p']> (cl_nodes c) !! ("tcp://" +:+ j) = Some nd'
           ∧ nd_port nd' = p_port p ∧ sl_ipv4 (nd_slave nd') = p_ip p.
Proof.
  intros O En Hs j p Hj. destruct (ok_nodes _ _ O j p Hj) as (nd' & E1 & E2 & E3).
  destruct (decide (k = j)) as [->|Hne].
  - rewrite lookup_insert_eq. eexists. split; [done|]. simpl.
    rewrite Hs. by simplify_eq.
  - rewrite lookup_insert_ne by (by intros ?%tcp_inj). eauto.
Qed.

Lemma measure_pair_run slaves a b n s :
  peers_ok slaves → good_hosts → (0 < n)%nat → Z.of_nat n < 2 ^ 31 →
  slaves !! peer_id a = Some a → slaves !! peer_id b = Some b →
  peer_id a ≠ peer_id b → cluster_ok slaves (ms_net s) → ms_nr_iterpm s = Z.of_nat n →
  ∃ c' x, measure_pair (connect_all slaves) (connected a, connected b) s
          = (add_results [x] (at_net c' s), Ret tt)
    ∧ cluster_ok slaves c' ∧ measured n a b x.
Proof.
  intros P G Hn0 Hn Ha Hb Hne O Em. set (q := measure_request (Z.of_nat n) a b).
  destruct (P _ _ Ha) as [_ Ia], (P _ _ Hb) as [_ Ib].
  destruct (ok_nodes _ _ O _ _ Ha) as (nd1 & En1 & Ep1 & Ei1).
  destruct (ok_nodes _ _ O _ _ Hb) as (nd2 & En2 & Ep2 & Ei2).
  assert (endpoint a ≠ endpoint b) as Hee by by intros ?%tcp_inj.
  set (s1 := at_net (mail_for (ms_net s) (endpoint a) q) s).
  set (s2 := at_net (mail_for (ms_net s1) (endpoint b) q) s1).
  assert (measure_pair (connect_all slaves) (connected a, connected b) s
    = poll_loop 2 (connect_all slaves) [endpoint a; endpoint b] 2 s2) as Estep.
  { pose proof (send_request_run slaves a b a s Ha) as E1. rewrite Em in E1.
    pose proof (send_request_run slaves a b b s1 Hb) as E2.
    change (ms_nr_iterpm s1) with (ms_nr_iterpm s) in E2. rewrite Em in E2.
    unfold measure_pair. cbn [fst snd].
    by rewrite (bind_Ret _ _ _ _ _ E1), (bind_Ret _ _ _ _ _ E2). }
  destruct (work_pair (endpoint a) (endpoint b) nd1 nd2 q n (ms_net s2))
    as (p1 & p2 & k1 & k2 & Ew & S1 & S2);
    [done|exact En1|exact En2| | | |apply G| | |].
  { simpl. by rewrite (ok_mail _ _ O). }
  { simpl. apply O. }
  { split; [done|]. unfold q. simpl. unwrap. lia. }
  { by apply is_server_sender. }
  { by apply is_server_receiver. }
  set (RTTs := @rtt_samples (node_env (endpoint a)) k1
                 (@answers (node_env (endpoint b)) k2 n)) in *.
  destruct (recorded_from q (endpoint a) k1 (@answers (node_env (endpoint b)) k2 n) n)
    as (r & Fm & Er); [done|apply length_answers|done|].
  fold RTTs in Fm, Er.
  assert (is_Some (connect_all slaves !! ip_port (strncpy_ip (strncpy_ip (p_ip a))) (p_port a)))
    as Hfind.
  { rewrite !Ia. exists (connected a). unfold connect_all. rewrite lookup_fmap.
    change (ip_port (p_ip a) (p_port a)) with (peer_id a). by rewrite Ha. }
  destruct (poll_loop_pair (connect_all slaves) (endpoint a) (endpoint b)
    (result_of q (select_min RTTs)) (result_of q responder_times) s2 _ Hee Ew)
    as (k & Ep); [done..|].
  rewrite Er in Ep. rewrite Estep, Ep. do 2 eexists. split_and!.
  - reflexivity.
  - constructor; [|done..]. intros j p Hj. cbn [cl_nodes].
    assert (cluster_ok slaves (Cluster
      (<[endpoint b := Node (nd_port nd2) p2]> (cl_nodes (ms_net s))) ∅ ∅ 0)) as O2.
    { constructor; [|done..].
      by apply (cluster_ok_insert slaves (ms_net s) (peer_id b) nd2 p2 O). }
    eapply (cluster_ok_insert slaves _ (peer_id a) nd1 p1 O2); [|done..].
    simpl. by rewrite lookup_insert_ne.
  - exists k1, k2, r. split; [exact Fm|done].
Qed.

(** ** All pairs, and the end of the session *)
Definition pair_ok (slaves : gmap string peer) (pr : peer * peer) : Prop :=
  ∃ a b, pr = (connected a, connected b) ∧ slaves !! peer_id a = Some a
         ∧ slaves !! peer_id b = Some b ∧ peer_id a ≠ peer_id b.

Lemma measure_pairs_run slaves n prs s :
  peers_ok slaves → good_hosts → (0 < n)%nat → Z.of_nat n < 2 ^ 31 →
  Forall (pair_ok slaves) prs → cluster_ok slaves (ms_net s) →
  ms_nr_iterpm s = Z.of_nat n →
  ∃ c' xs, each (measure_pair (connect_all slaves)) prs s
           = (add_results xs (at_net c' s), Ret tt)
    ∧ cluster_ok slaves c' ∧ Forall2 (λ pr x, measured n pr.1 pr.2 x) prs xs.
Proof.
  intros P G Hn0 Hn F. revert s.
  induction F as [|pr prs (a & b & -> & Ha & Hb & Hne) _ IH]; intros s O Em.
  { exists (ms_net s), []. split_and!; [|done|constructor].
    unfold add_results, at_net, set_ms_results, set_ms_net. rewrite app_nil_r.
    by destruct s. }
  destruct (measure_pair_run slaves a b n s) as (c1 & x & E1 & O1 & M1); [done..|].
  destruct (IH (add_results [x] (at_net c1 s)) O1 Em) as (c2 & xs & E2 & O2 & F2).
  exists c2, (x :: xs). split_and!; [|done|by constructor].
  cbn [each]. rewrite (bind_Ret _ _ _ _ _ E1), E2.
  unfold add_results, at_net, set_ms_results, set_ms_net. simpl. by rewrite <- app_assoc.
Qed.

Lemma finish_slave_run slaves k p s :
  slaves !! k = Some p → k = peer_id p → cluster_ok slaves (ms_net s) →
  ∃ c', finish_slave (k, connected p) s = (at_net c' s, Ret tt) ∧ cluster_ok slaves c'.
Proof.
  intros Hk -> O. destruct (ok_nodes _ _ O _ _ Hk) as (nd & En & _ & _).
  unfold finish_slave. cbn [snd p_sock connected set_p_sock].
  set (c1 := mail_for (ms_net s) (endpoint p) finish_request).
  assert (on_net (net_send (endpoint p) finish_request) s = (at_net c1 s, Ret tt))
    as E1 by done.
  rewrite (bind_Ret _ _ _ _ _ E1).
  set (done_msg := MeasureResult_msg "" 0 "" 0 times0 1).
  assert (serve_at (endpoint p) [] c1 = (served c1 (endpoint p) nd done_msg, Ret []))
    as E2.
  { unfold serve_at. rewrite (bind_Ret get _ _ _ _ eq_refl).
    change (cl_nodes c1 !! endpoint p) with (cl_nodes (ms_net s) !! ("tcp://" +:+ peer_id p)).
    rewrite En. simpl. rewrite lookup_insert_eq. by destruct nd. }
  set (c2 := served c1 (endpoint p) nd done_msg).
  assert (cl_out c2 !! endpoint p = Some done_msg) as E3 by apply lookup_insert_eq.
  assert (net_recv (endpoint p) c1 = (taken c2 (endpoint p), Ret (Some done_msg))) as E4.
  { unfold net_recv, cluster_net. rewrite (bind_Ret get _ _ _ _ eq_refl).
    assert (has_answer c1 (endpoint p) = false) as ->.
    { apply bool_decide_eq_false_2. simpl. rewrite (ok_out _ _ O), lookup_empty.
      by intros [? ?]. }
    rewrite (bind_Ret _ _ _ _ _ E2), (bind_Ret get _ _ _ _ eq_refl).
    fold c2. by rewrite E3. }
  rewrite (bind_Ret _ _ _ _ _ (on_net_run _ (at_net c1 s) _ _ E4)).
  eexists. split; [reflexivity|]. constructor; simpl.
  - intros j t Hj. rewrite insert_id by done. by apply O.
  - by rewrite (ok_mail _ _ O), delete_insert_eq, delete_empty.
  - by rewrite (ok_out _ _ O), delete_insert_eq, delete_empty.
Qed.

Lemma finish_all_run slaves l s :
  Forall (λ it, ∃ p, it.2 = connected p ∧ slaves !! it.1 = Some p ∧ it.1 = peer_id p) l →
  cluster_ok slaves (ms_net s) →
  ∃ c', each finish_slave l s = (at_net c' s, Ret tt) ∧ cluster_ok slaves c'.
Proof.
  intros F. revert s. induction F as [|[k it] l (p & E1 & E2 & E3) _ IH]; intros s O.
  { exists (ms_net s). split; [|done]. unfold at_net, set_ms_net. by destruct s. }
  simpl in E1, E2, E3. subst it. destruct (finish_slave_run slaves k p s E2 E3 O)
    as (c1 & Ef & O1).
  destruct (IH (at_net c1 s) O1) as (c2 & El & O2).
  exists c2. split; [|done]. cbn [each]. by rewrite (bind_Ret _ _ _ _ _ Ef), El.
Qed.

Lemma elem_of_concat {A} (x : A) (ls : list (list A)) :
  x ∈ concat ls ↔ ∃ l, x ∈ l ∧ l ∈ ls.
Proof.
  rewrite list_elem_of_In, in_concat. split; intros (l & E1 & E2); exists l;
    split; by apply list_elem_of_In.
Qed.

(** The names of the pairs. *)
Definition pair_ids (pr : peer * peer) : string * string := (peer_id pr.1, peer_id pr.2).

Definition named (l : list (string * peer)) : Prop :=
  NoDup (map fst l) ∧ Forall (λ it, it.1 = peer_id it.2) l.

Lemma NoDup_pairs (ks l : list string) (f : string → string → Prop)
    `{∀ i j, Decision (f i j)} :
  NoDup ks → NoDup l →
  NoDup (concat (map (λ i, map (λ j, (i, j)) (filter (f i) l)) ks)).
Proof.
  intros Hk Hl. induction Hk as [|i ks Hi _ IH]; simpl; [constructor|].
  apply NoDup_app. split_and!; [|intros [i' j] H1' H2'|done].
  - apply (NoDup_fmap_2 (λ j, (i, j))). by apply NoDup_filter.
  - apply list_elem_of_fmap in H1' as (j' & E1 & _). simplify_eq.
    apply elem_of_concat in H2' as (r & Hr & (i2 & -> & Hi2)%list_elem_of_fmap).
    apply list_elem_of_fmap in Hr as (j2 & E2 & _). by simplify_eq.
Qed.

Definition id_pairs (ks : list string) : list (string * string) :=
  concat (map (λ i, map (λ j, (i, j)) (filter (λ j, i ≠ j) ks)) ks).

Lemma elem_of_id_pairs ks i j : (i, j) ∈ id_pairs ks ↔ i ∈ ks ∧ j ∈ ks ∧ i ≠ j.
Proof.
  unfold id_pairs. rewrite elem_of_concat. split.
  - intros (r & Hr & (i' & -> & Hi)%list_elem_of_fmap).
    apply list_elem_of_fmap in Hr as (j' & E1 & [Hne Hj]%list_elem_of_filter).
    by simplify_eq.
  - intros (Hi & Hj & Hne). exists (map (λ j, (i, j)) (filter (λ j, i ≠ j) ks)). split.
    + apply list_elem_of_fmap. exists j. split; [done|]. by apply list_elem_of_filter.
    + apply list_elem_of_fmap. by exists i.
Qed.

Lemma map_filter_fst (i : string) (l : list (string * peer)) :
  map fst (filter (λ it, i ≠ it.1) l) = filter (λ j, i ≠ j) (map fst l).
Proof.
  induction l as [|it l IH]; [done|]. simpl. rewrite !filter_cons.
  destruct (decide (i ≠ it.1)); simpl; by rewrite IH.
Qed.

Lemma all_pairs_ids l :
  Forall (λ it, it.1 = peer_id it.2) l → map pair_ids (all_pairs l) = id_pairs (map fst l).
Proof.
  intros F. rewrite Forall_forall in F. unfold all_pairs, id_pairs.
  rewrite concat_map, !map_map. f_equal.
  apply map_ext_in. intros it1 Hi%list_elem_of_In.
  rewrite <- map_filter_fst, !map_map. apply map_ext_in.
  intros it2 [_ Hj]%list_elem_of_In%list_elem_of_filter.
  unfold pair_ids. simpl. by rewrite <- (F it1), <- (F it2).
Qed.

Lemma order_elem `{!StdCppLaws} slaves it :
  it ∈ um_order (connect_all slaves) ↔
  ∃ p, it.2 = connected p ∧ slaves !! it.1 = Some p.
Proof.
  rewrite (um_order_perm (connect_all slaves)). destruct it as [k t]. simpl.
  rewrite elem_of_map_to_list. unfold connect_all. rewrite lookup_fmap_Some.
  naive_solver.
Qed.

Lemma order_keys `{!StdCppLaws} slaves :
  NoDup (map fst (um_order (connect_all slaves)))
  ∧ ∀ i, i ∈ map fst (um_order (connect_all slaves)) ↔ is_Some (slaves !! i).
Proof.
  split.
  - rewrite (um_order_perm (connect_all slaves)). apply NoDup_fst_map_to_list.
  - intros i. rewrite list_elem_of_fmap. split.
    + intros ([k t] & -> & (p & _ & Hp)%order_elem). by eexists.
    + intros [p Hp]. exists (i, connected p). split; [done|]. apply order_elem. eauto.
Qed.

Lemma all_pairs_ok `{!StdCppLaws} slaves :
  peers_ok slaves → Forall (pair_ok slaves) (all_pairs (um_order (connect_all slaves))).
Proof.
  intros P. apply Forall_forall. intros pr. unfold all_pairs. rewrite elem_of_concat.
  intros (r & Hr & (it1 & -> & Hi1)%list_elem_of_fmap).
  apply list_elem_of_fmap in Hr as (it2 & -> & [Hne Hi2]%list_elem_of_filter).
  apply order_elem in Hi1 as (a & Ea & Ha). apply order_elem in Hi2 as (b & Eb & Hb).
  destruct (P _ _ Ha) as [Na _], (P _ _ Hb) as [Nb _].
  exists a, b. rewrite Ea, Eb, <- Na, <- Nb. done.
Qed.

(** The lines of a session: one for every ordered pair, in the order of the
    round-trip times. *)
Record session_results (slaves : gmap string peer) (n : nat)
    (xs : list ((string * string) * MeasureResult)) : Prop := SessionResults {
  sr_sorted : StronglySorted rtt_le (map snd xs);
  sr_once : NoDup (map fst xs);
  sr_pairs i j : (i, j) ∈ map fst xs ↔ is_Some (slaves !! i) ∧ is_Some (slaves !! j) ∧ i ≠ j;
  sr_measured i j x : ((i, j), x) ∈ xs →
    ∃ a b, slaves !! i = Some a ∧ slaves !! j = Some b ∧ measured n a b x
}.

Lemma request_measurement_run `{!StdCppLaws} slaves n ofs s :
  peers_ok slaves → good_hosts → (0 < n)%nat → Z.of_nat n < 2 ^ 31 →
  cluster_ok slaves (ms_net s) → ms_nr_iterpm s = Z.of_nat n → ms_results s = [] →
  ∃ c' xs,
    request_measurement slaves ofs s
    = (set_ms_results (map snd xs) (at_net c' s),
       Ret (ofs_writes (map (λ x, result_line x.2) xs) ofs))
    ∧ session_results slaves n xs ∧ cluster_ok slaves c'.
Proof.
  intros P G Hn0 Hn O Em Er. set (prs := all_pairs (um_order (connect_all slaves))).
  pose proof (all_pairs_ok slaves P) as Fp. fold prs in Fp.
  destruct (order_keys slaves) as [Dk Hk].
  assert (map pair_ids prs = id_pairs (map fst (um_order (connect_all slaves)))) as Eids.
  { apply all_pairs_ids, Forall_forall. intros it (p & Ep & Hp)%order_elem.
    rewrite Ep. by apply (P _ _ Hp). }
  destruct (measure_pairs_run slaves n prs s) as (c1 & rs & E1 & O1 & F1); [done..|].
  destruct (finish_all_run slaves (um_order (connect_all slaves))
    (add_results rs (at_net c1 s))) as (c2 & E2 & O2); [|done|].
  { apply Forall_forall. intros it (p & Ep & Hp)%order_elem.
    exists p. split_and!; [done..|]. by apply (P _ _ Hp). }
  set (xs0 := zip (map pair_ids prs) rs).
  assert (length (map pair_ids prs) = length rs) as Hl.
  { rewrite length_map. by apply Forall2_length in F1. }
  assert (map snd xs0 = rs) as Es by (apply snd_zip; lia).
  assert (map fst xs0 = map pair_ids prs) as Ef by (apply fst_zip; lia).
  assert (std_sort rs ≡ₚ map snd xs0) as (xs & Exs & Pxs)%Permutation_map_inv
    by (rewrite Es; apply std_sort_perm).
  exists c2, xs. split_and!.
  - unfold request_measurement. cbv zeta. fold prs.
    rewrite (bind_Ret _ _ _ _ _ E1), (bind_Ret _ _ _ _ _ E2).
    rewrite (bind_Ret (modify _) _ _ _ tt eq_refl), (bind_Ret get _ _ _ _ eq_refl).
    unfold add_results, at_net, set_ms_results, set_ms_net. simpl.
    rewrite <- (map_map snd result_line), <- Exs, Er. done.
  - constructor.
    + rewrite <- Exs. apply std_sort_sorted.
    + rewrite <- Pxs, Ef, Eids. by apply NoDup_pairs.
    + intros i j. rewrite <- Pxs, Ef, Eids, elem_of_id_pairs. by rewrite !Hk.
    + intros i j x Hx. rewrite <- Pxs in Hx. unfold xs0 in Hx.
      apply list_elem_of_lookup in Hx as (m & Hm).
      apply lookup_zip_with_Some in Hm as (ij & x' & [= <- <-] & Hij & Hx').
      change (map pair_ids prs) with (pair_ids <$> prs) in Hij.
      apply list_lookup_fmap_Some in Hij as (pr & Epr & Hpr).
      destruct (proj1 (Forall_lookup _ _) Fp m pr Hpr) as (a & b & -> & Ha & Hb & _).
      pose proof (Forall2_lookup_lr _ _ _ _ _ _ F1 Hpr Hx') as Hm.
      injection Epr as -> ->. exists a, b. by split_and!.
  - exact O2.
Qed.

(** C3. A session measures every ordered pair of different slaves once: with the
    slaves waiting at their addresses, the master's measurement returns, for any
    order of the slaves and of their answers, and writes one line for every
    ordered pair, in the order of the round-trip times. The line of a pair is the
    first of the rounds with the fewest cycles, as the sending slave timed it
    with its own clock, with the reply the other slave read off its clock. The
    slaves end up waiting again. *)
Theorem cluster_measures_all_pairs `{!StdCppLaws} slaves n ofs s :
  peers_ok slaves → good_hosts → (0 < n)%nat → Z.of_nat n < 2 ^ 31 →
  cluster_ok slaves (ms_net s) → ms_nr_iterpm s = Z.of_nat n → ms_results s = [] →
  ofs_ok ofs →
  ∃ s' ofs' (xs : list ((string * string) * MeasureResult)),
    request_measurement slaves ofs s = (s', Ret ofs')
    ∧ ofs_file ofs' = ofs_file ofs ++ map (λ x, result_line x.2) xs
    ∧ session_results slaves n xs
    ∧ cluster_ok slaves (ms_net s').
Proof.
  intros P G Hn0 Hn O Em Er Ho.
  destruct (request_measurement_run slaves n ofs s) as (c' & xs & E1 & R & O'); [done..|].
  do 3 eexists. split_and!; [exact E1|by apply ofs_writes_ok|exact R|exact O'].
Qed.

(** ** The main loop *)
Lemma registered_peers_ok slaves msgs :
  map_to_list slaves ≡ₚ named_peers (registered [] msgs) →
  Forall (λ m, strncpy_ip (from_ip m) = from_ip m) msgs → peers_ok slaves.
Proof.
  intros Hp F k p Hk. apply elem_of_map_to_list in Hk. rewrite Hp in Hk.
  apply list_elem_of_fmap in Hk as (p' & [= -> <-] & Hin). split; [done|].
  apply list_elem_of_lookup in Hin as (i & Hi).
  assert (is_Some (msgs !! i)) as [m Hm].
  { apply lookup_lt_is_Some. rewrite <- (length_registered [] msgs).
    by eapply lookup_lt_Some. }
  rewrite (registered_lookup [] msgs i m Hm) in Hi. simplify_eq. simpl.
  by apply (proj1 (Forall_lookup _ _) F i).
Qed.

Definition budget_end (o : master_options) (t : timespec) : timespec :=
  addTS stale_ts t (Timespec (o_interval o) 0 0 0).

(** Some reading within [waits] of the end of the round is past its period. *)
Definition clock_passes (o : master_options) (waits : nat) : Prop :=
  ∀ c, ∃ j, (j < waits)%nat ∧ 0 ≤ compareTS (clock (S c + j)) (budget_end o (clock c)).

Lemma wait_budget_run waits b y :
  (∃ j, (j < waits)%nat ∧ 0 ≤ compareTS (clock (clk y + j)) b) →
  ∃ n, wait_budget waits b y = (set_clk n y, Ret tt).
Proof.
  revert y. induction waits as [|waits IH]; intros y (j & Hj & Hb); [lia|].
  cbn [wait_budget].
  assert (clock_gettime_tsc y = (set_clk (S (clk y)) y, Ret (clock (clk y)))) as E1 by done.
  rewrite (bind_Ret _ _ _ _ _ E1).
  destruct (Z.ltb_spec (compareTS (clock (clk y)) b) 0).
  - destruct j as [|j]; [rewrite Nat.add_0_r in Hb; lia|].
    destruct (IH (set_clk (S (clk y)) y)) as (n & E2).
    { exists j. split; [lia|]. by rewrite Nat.add_succ_r in Hb. }
    exists n. by rewrite E2.
  - by eexists.
Qed.

(** What the two logs of a round hold. *)
Definition round_files (slaves : gmap string peer) (msgs : list MSG_register_request)
    (n : nat) (f : (string * ofstream) * (string * ofstream)) : Prop :=
  ofs_file f.1.2 = register_log_header :: map register_line (registered [] msgs)
  ∧ ∃ xs, session_results slaves n xs
      ∧ ofs_file f.2.2 = rtt_log_header :: map (λ x, result_line x.2) xs.

Definition two_files (f : (string * ofstream) * (string * ofstream))
    : list (string * ofstream) := [f.1; f.2].

Context (creates : ∀ name, creatable name = true).

Lemma open_ofs_new name header :
  open_ofs name header = Ofstream true false [header].
Proof. unfold open_ofs, ofs_do_open. by rewrite creates. Qed.

(** Before a round: the slaves wait, and nothing is left of earlier rounds. *)
Record round_ready (slaves : gmap string peer) (n : nat) (s : master cluster)
    : Prop := RoundReady {
  rr_slaves : cluster_ok slaves (ms_net s);
  rr_iter : ms_nr_iterpm s = Z.of_nat n;
  rr_results : ms_results s = []
}.

(** The number of iterations of the next round when [k] rounds remain. *)
Definition next_iter (k n : nat) : nat := if (k <=? 6)%nat then 100 else n.

Lemma on_sys_run {A} (m : M sys A) s y r :
  m (ms_sys s) = (y, r) → on_sys m s = (set_ms_sys y s, r).
Proof. intros E1. unfold on_sys, zoom. by rewrite E1. Qed.

(** What a log has been given when it is closed. *)
Lemma log_closed l h : ofs_file (ofs_close (ofs_writes l (Ofstream true false [h]))) = h :: l.
Proof.
  destruct (ofs_writes_ok l (Ofstream true false [h])) as [[Ho _] Hf]; [done|].
  unfold ofs_close. by rewrite Ho.
Qed.

Lemma master_round_run `{!StdCppLaws} o waits msgs slaves n k s :
  o_nr_slaves o = Z.of_nat (length msgs) → o_nr_slaves o < 2 ^ 31 - 10000 →
  map_to_list slaves ≡ₚ named_peers (registered [] msgs) →
  peers_ok slaves → good_hosts → clock_passes o waits →
  (0 < n)%nat → Z.of_nat n < 2 ^ 31 → round_ready slaves n s →
  ms_iteration s = Z.of_nat (S k) → Z.of_nat k < 2 ^ 32 - 1 →
  ∃ s' f,
    master_round o waits msgs s = (s', Ret (map p_port (registered [] msgs)))
    ∧ round_ready slaves (next_iter k n) s' ∧ ms_iteration s' = Z.of_nat k
    ∧ ms_nonstop s' = ms_nonstop s ∧ ms_files s' = ms_files s ++ two_files f
    ∧ round_files slaves msgs n f.
Proof.
  intros Hnr Hlt Hsl P G Hc Hn0 Hn R Hit Hk. destruct R as [Rn Rp Rr].
  unfold master_round. cbv zeta.
  set (c := clk (ms_sys s)). set (s1 := set_ms_sys (set_clk (S c) (ms_sys s)) s).
  assert (on_sys clock_gettime_tsc s = (s1, Ret (clock c))) as E1 by done.
  rewrite (bind_Ret _ _ _ _ _ E1).
  set (name1 := "/tmp/tsc_master_register_log_" +:+ stamp (clock c) +:+ ".txt").
  set (name2 := "/tmp/tsc_master_minrtt_log_" +:+ stamp (clock c) +:+ ".txt").
  rewrite !open_ofs_new.
  destruct (slave_registration_run [] ∅ msgs [] (o_nr_slaves o)
    (Ofstream true false [register_log_header]) (ms_sys s1) reg_inv_empty Hnr Hlt)
    as (y2 & slaves' & E2 & L2 & _ & P2).
  rewrite app_nil_r in E2. rewrite map_to_list_empty in P2. simpl app in P2.
  assert (slaves' = slaves) as -> by (apply map_to_list_inj; by rewrite P2, Hsl).
  set (s2 := set_ms_sys y2 s1).
  change (Z.of_nat (length (@nil string))) with 0 in E2.
  rewrite (bind_Ret _ _ _ _ _ (on_sys_run _ s1 _ _ E2)). fold s2.
  destruct (request_measurement_run slaves n (Ofstream true false [rtt_log_header]) s2)
    as (c3 & xs & E3 & X & O3); [done..|].
  rewrite (bind_Ret _ _ _ _ _ E3).
  do 4 rewrite (bind_Ret (modify _) _ _ _ tt eq_refl).
  assert (u32 (ms_iteration s - 1) = Z.of_nat k) as Hu by (rewrite Hit; unwrap; lia).
  unfold at_net, s2, s1.
  cbn [set_ms_results set_ms_files set_ms_iteration set_ms_net set_ms_sys ms_sys ms_net
       ms_results ms_files ms_iteration ms_nr_iterpm ms_nonstop].
  rewrite Hu. set (f1 := ofs_writes _ (Ofstream true false [register_log_header])).
  set (f2 := ofs_writes _ (Ofstream true false [rtt_log_header])).
  set (s4 := Master y2 c3 [] (ms_files s ++ two_files ((name1, ofs_close f1), (name2, ofs_close f2)))
               (Z.of_nat k) (Z.of_nat (next_iter k n)) (ms_nonstop s)).
  match goal with |- context [(_ ≫= _) ?st] => assert (st = s4) as -> end.
  { unfold s4, next_iter.
    destruct (Z.leb_spec (Z.of_nat k) 6), (Nat.leb_spec k 6); try lia; [done|].
    by rewrite <- Rp. }
  assert (clk y2 = S c) as Ey by apply L2.
  destruct (wait_budget_run waits (budget_end o (clock c)) y2) as (m & E5).
  { rewrite Ey. apply Hc. }
  rewrite (bind_Ret _ _ _ _ _ (on_sys_run _ s4 _ _ E5)).
  do 2 eexists. split_and!; [reflexivity|by constructor|done..|].
  split; [apply log_closed|]. exists xs. split; [exact X|apply log_closed].
Qed.

(** The iterations of each round when [k] rounds are to come. *)
Fixpoint round_iters (k n : nat) : list nat :=
  match k with
  | O => []
  | S k => n :: round_iters k (next_iter k n)
  end.

Lemma main_loop_run `{!StdCppLaws} o waits msgs slaves n k s :
  o_nr_slaves o = Z.of_nat (length msgs) → o_nr_slaves o < 2 ^ 31 - 10000 →
  map_to_list slaves ≡ₚ named_peers (registered [] msgs) →
  peers_ok slaves → good_hosts → clock_passes o waits →
  (0 < n)%nat → Z.of_nat n < 2 ^ 31 → round_ready slaves n s →
  ms_iteration s = Z.of_nat k → Z.of_nat k < 2 ^ 32 → ms_nonstop s = false →
  ∃ s' fs,
    main_loop o waits (replicate k msgs) s
    = (s', Ret (replicate k (map p_port (registered [] msgs))))
    ∧ cluster_ok slaves (ms_net s') ∧ ms_files s' = ms_files s ++ concat (map two_files fs)
    ∧ Forall2 (round_files slaves msgs) (round_iters k n) fs.
Proof.
  intros Hnr Hlt Hsl P G Hc. revert n s. induction k as [|k IH]; intros n s Hn0 Hn R Hit Hk Hs.
  { exists s, []. simpl. rewrite app_nil_r. unfold main_loop.
    rewrite (bind_Ret get _ _ _ _ eq_refl). unfold checkTerminate. rewrite Hs, Hit.
    split_and!; [done|apply R|done|constructor]. }
  destruct (master_round_run o waits msgs slaves n k s) as (s1 & f & E1 & R1 & I1 & S1 & F1 & W1);
    [done..|lia|].
  destruct (IH (next_iter k n) s1) as (s2 & fs & E2 & O2 & F2 & W2);
    [unfold next_iter; case_match; lia..|done|done|lia|congruence|].
  exists s2, (f :: fs). split_and!; [|done| |by constructor].
  - cbn [replicate main_loop]. rewrite (bind_Ret get _ _ _ _ eq_refl).
    assert (checkTerminate s = false) as ->.
    { unfold checkTerminate. rewrite Hs, Hit. cbn [orb andb negb].
      by rewrite (proj2 (Z.ltb_lt _ _)) by lia. }
    by rewrite (bind_Ret _ _ _ _ _ E1), (bind_Ret _ _ _ _ _ E2).
  - rewrite F2, F1. simpl. by rewrite <- !app_assoc.
Qed.

(** The rounds that the options ask for: without the periodic option one at
    least; [None] if the master is to go on for ever. *)
Definition rounds_wanted (o : master_options) : option nat :=
  if o_iteration o =? 0 then (if o_periodic o then None else Some 1%nat)
  else Some (Z.to_nat (o_iteration o)).

(** The state in which the loop is entered. *)
Lemma init_iteration_run o k s :
  rounds_wanted o = Some k → 0 ≤ o_iteration o →
  init_iteration o s
  = (set_ms_iteration (Z.of_nat k) (set_ms_nonstop false (set_ms_nr_iterpm (o_nr_iterpm o) s)),
     Ret tt).
Proof.
  intros Hk Hi. unfold init_iteration.
  do 3 rewrite (bind_Ret (modify _) _ _ _ tt eq_refl).
  unfold rounds_wanted in Hk. destruct (Z.eqb_spec (o_iteration o) 0) as [E1|E1].
  - destruct (o_periodic o); by simplify_eq.
  - simplify_eq. rewrite !andb_false_r, Z2Nat.id by done. done.
Qed.

(** C13. tsc_master ends: started with the slaves waiting, it runs exactly the
    number of rounds asked for, in each of which the slaves get the same ports
    again and are measured pair by pair, writes two logs per round and returns.
    The first round takes the number of iterations given on the command line,
    every later one too as long as more than 6 rounds follow it, and the last
    ones 100. *)
Theorem master_main_terminates `{!StdCppLaws} o waits msgs slaves n k s :
  o_nr_slaves o = Z.of_nat (length msgs) → o_nr_slaves o < 2 ^ 31 - 10000 →
  Forall (λ m, strncpy_ip (from_ip m) = from_ip m) msgs →
  map_to_list slaves ≡ₚ named_peers (registered [] msgs) →
  good_hosts → clock_passes o waits →
  o_nr_iterpm o = Z.of_nat n → (0 < n)%nat → Z.of_nat n < 2 ^ 31 →
  0 ≤ o_iteration o < 2 ^ 32 → rounds_wanted o = Some k →
  cluster_ok slaves (ms_net s) → ms_results s = [] →
  ∃ s' fs,
    master_main o waits (replicate k msgs) s
    = (s', Ret (replicate k (map p_port (registered [] msgs))))
    ∧ ms_files s' = ms_files s ++ concat (map two_files fs)
    ∧ Forall2 (round_files slaves msgs) (round_iters k n) fs.
Proof.
  intros Hnr Hlt Hips Hsl G Hc Hm Hn0 Hn Hit Hk O Hr.
  pose proof (registered_peers_ok slaves msgs Hsl Hips) as P.
  assert (setLogFileName "/tmp/tsc_master" (ms_sys s)
    = (set_outfile_name "/tmp/tsc_master" (ms_sys s), Ret tt)) as E1 by done.
  unfold master_main. rewrite (bind_Ret _ _ _ _ _ (on_sys_run _ _ _ _ E1)).
  rewrite (bind_Ret (on_sys (toggleConsoleLog _)) _ _ _ tt eq_refl).
  match goal with |- context [(on_sys openStatusLogFile ≫= _) ?st] => set (s1 := st) end.
  destruct (openStatusLogFile_frame (ms_sys s1)) as (y2 & E2 & _).
  rewrite (bind_Ret _ _ _ _ _ (on_sys_run _ _ _ _ E2)).
  rewrite (bind_Ret (on_sys (modify _)) _ _ _ tt eq_refl).
  match goal with |- context [(init_iteration o ≫= _) ?st] => set (s3 := st) end.
  rewrite (bind_Ret _ _ _ _ _ (init_iteration_run o k s3 Hk (proj1 Hit))).
  match goal with |- context [(main_loop _ _ _ ≫= _) ?st] => set (s4 := st) end.
  destruct (main_loop_run o waits msgs slaves n k s4) as (s5 & fs & E5 & _ & F5 & W5);
    [done..|by constructor|done| |done|].
  { unfold rounds_wanted in Hk. repeat case_match; simplify_eq; lia. }
  rewrite (bind_Ret _ _ _ _ _ E5).
  assert (∃ y6, closeStatusLogFile (ms_sys s5) = (y6, Ret tt)) as (y6 & E6).
  { unfold closeStatusLogFile. rewrite (bind_Ret get _ _ _ _ eq_refl). unfold when.
    case_match; by eexists. }
  rewrite (bind_Ret _ _ _ _ _ (on_sys_run _ _ _ _ E6)).
  do 2 eexists. split_and!; [reflexivity|exact F5|exact W5].
Qed.
End Cluster.

(** ** A concrete cluster *)
#[local] Instance rtt_le_dec a b : Decision (rtt_le a b).
Proof. unfold rtt_le. apply _. Defined.

Definition demo_std : StdCpp :=
  {| um_order := map_to_list; std_sort := merge_sort rtt_le |}.

#[local] Instance demo_std_laws : @StdCppLaws demo_std.
Proof.
  assert (Total rtt_le) by (intros a b; unfold rtt_le; lia).
  assert (Transitive rtt_le) by (intros a b c; unfold rtt_le; lia).
  constructor; [done|apply merge_sort_Permutation|].
  intros l. by apply StronglySorted_merge_sort.
Qed.

Definition tsc_env (skew : Z) : Env :=
  let t n := 7000 + skew + (37 * Z.of_nat n) `mod` 1009 in
  {| env_libc := demo_libc; clock := λ n, Timespec (1000 + Z.of_nat n) 500 (t n) 3;
     tsc_clock := t;
     stale_ts := Timespec 0 0 0 0;
     fresh_mem := λ _, Timespec 0 0 0 0;
     pad_word := 0;
     aligned_alloc_ok := λ _, true;
     realloc_aligned := λ _, Aligned;
     getifaddrs := None;
     creatable := λ _, true;
     getpid := 1;
     gettid := 1 |}.

Definition demo_host : TscHost := {|
  tsc_realtime := Some 123456789; tsc_stale_rand := 77;
  query_tsc_pipe := Some ("2400.000" +:+ nl)
|}.

Definition demo_peer (ip : string) : peer := Peer ip 9103 None 2400000000.
Definition demo_node (ip : string) : node := Node 9103 (Slave (sys_init true) ip []).
Definition demo_slaves : gmap string peer :=
  <["10.0.0.7:9103" := demo_peer "10.0.0.7"]>
    (<["10.0.0.8:9103" := demo_peer "10.0.0.8"]> ∅).
Definition demo_cluster : cluster :=
  Cluster (list_to_map [("tcp://10.0.0.7:9103", demo_node "10.0.0.7");
                        ("tcp://10.0.0.8:9103", demo_node "10.0.0.8")]) ∅ ∅ 0.
Definition demo_clocks (e : string) : Env :=
  tsc_env (if String.eqb e "tcp://10.0.0.7:9103" then 0 else 5000).
Definition demo_master : master cluster :=
  Master (sys_init true) demo_cluster [] [] 1 3 false.

Lemma demo_slaves_inv k p :
  demo_slaves !! k = Some p →
  (k = "10.0.0.7:9103" ∧ p = demo_peer "10.0.0.7")
  ∨ (k = "10.0.0.8:9103" ∧ p = demo_peer "10.0.0.8").
Proof.
  unfold demo_slaves.
  intros [[<- <-]|[_ [[<- <-]|[_ Hn]]%lookup_insert_Some]]%lookup_insert_Some;
    [by left|by right|by rewrite lookup_empty in Hn].
Qed.

Lemma demo_hosts : good_hosts demo_clocks (λ _, demo_host).
Proof.
  intros e. split; [done|]. intros k. unfold demo_clocks, tsc_env, LLONG_MAX. simpl.
  pose proof (Z.mod_pos_bound (37 * Z.of_nat k) 1009). destruct (String.eqb _ _); lia.
Qed.

Lemma cluster_measures_all_pairs_witness :
  ∃ s' ofs' xs,
    @request_measurement demo_env demo_std cluster
      (cluster_net demo_clocks (λ _, demo_host) (λ k _, Nat.odd k)) demo_slaves
      (Ofstream true false [rtt_log_header]) demo_master = (s', Ret ofs')
    ∧ ofs_file ofs' = rtt_log_header :: map (λ x, result_line x.2) xs
    ∧ ("10.0.0.8:9103", "10.0.0.7:9103") ∈ map fst xs.
Proof.
  destruct (@cluster_measures_all_pairs demo_clocks (λ _, demo_host) (λ k _, Nat.odd k)
    demo_env demo_std demo_std_laws demo_slaves 3 (Ofstream true false [rtt_log_header])
    demo_master) as (s' & ofs' & xs & E1 & F1 & R & _).
  - by intros k p [[-> ->]|[-> ->]]%demo_slaves_inv.
  - exact demo_hosts.
  - lia.
  - lia.
  - constructor; [|done..].
    intros k p [[-> ->]|[-> ->]]%demo_slaves_inv; by eexists.
  - done.
  - done.
  - done.
  - exists s', ofs', xs. split_and!; [exact E1|exact F1|].
    apply (sr_pairs _ _ _ _ R). split_and!; [by eexists..|done].
Defined.

Definition demo_options : master_options :=
  MasterOptions (-1) 2 false 0 2 3 false.

Definition still_env : Env :=
  {| env_libc := demo_libc; clock := λ _, Timespec 1000 500 7000 3;
     tsc_clock := λ _, 7000;
     stale_ts := Timespec 0 0 0 0;
     fresh_mem := λ _, Timespec 0 0 0 0;
     pad_word := 0;
     aligned_alloc_ok := λ _, true;
     realloc_aligned := λ _, Aligned;
     getifaddrs := None;
     creatable := λ _, true;
     getpid := 1;
     gettid := 1 |}.

Lemma still_clock_passes : @clock_passes still_env demo_options 1.
Proof. intros c. exists 0%nat. split; [lia|done]. Qed.

Lemma master_main_terminates_witness :
  let msgs := [RegisterRequest "10.0.0.7" 2400000000; RegisterRequest "10.0.0.8" 2400000000] in
  ∃ s' fs,
    @master_main still_env demo_std cluster
      (cluster_net demo_clocks (λ _, demo_host) (λ k _, Nat.odd k)) demo_options 1
      [msgs; msgs] demo_master = (s', Ret [[9103; 9103]; [9103; 9103]])
    ∧ ms_files s' = concat (map two_files fs)
    ∧ Forall2 (round_files demo_clocks demo_slaves msgs) [3%nat; 100%nat] fs.
Proof.
  intros msgs.
  destruct (@master_main_terminates demo_clocks (λ _, demo_host) (λ k _, Nat.odd k)
    still_env demo_std ltac:(done) demo_std_laws demo_options 1 msgs demo_slaves 3 2 demo_master)
    as (s' & fs & E1 & F1 & W1).
  - done.
  - done.
  - by repeat constructor.
  - change demo_slaves with (list_to_map (M:=gmap string peer)
      (named_peers (registered [] msgs))).
    rewrite map_to_list_to_map; [done|by_decide].
  - exact demo_hosts.
  - exact still_clock_passes.
  - done.
  - lia.
  - lia.
  - done.
  - done.
  - constructor; [|done..].
    intros k p [[-> ->]|[-> ->]]%demo_slaves_inv; by eexists.
  - done.
  - exists s', fs. split_and!; [exact E1|exact F1|exact W1].
Defined.

(** The same session evaluated. *)
Example demo_session :
  (let '(_, r) := @request_measurement demo_env demo_std cluster
      (cluster_net demo_clocks (λ _, demo_host) (λ k _, Nat.odd k)) demo_slaves
      (Ofstream true false []) demo_master in
   match r with Ret o => ofs_file o | _ => [] end)
  = ["10.0.0.7:9103,1002000000500,7074,1003000000500,7111,10.0.0.8:9103,1001000000500,12037,1000000000,3,3,3" +:+ nl;
     "10.0.0.8:9103,1007000000500,12259,1008000000500,12296,10.0.0.7:9103,1010000000500,7370,1000000000,3,3,3" +:+ nl].
Proof. vm_compute. reflexivity. Qed.
