(* ===== verification/TscOld.v ===== *)
(** * The older measurement tools: src/cp/tsc/tsc_slave_1.cpp, tsc_slave_2.cpp and
    tsc.cpp

    tsc_slave_1 sends messages to tsc_slave_2, which stamps them and sends them
    back; both read the counters with PAPI. In synchronous mode a message waits for
    the reply to the one before it; in asynchronous mode messages go out in bulks. *)
From S2P Require Import Prelude Util Rand TimeStamp Platform Log TscSlave TscMaster.

#[local] Open Scope Z_scope.

Record TSC_msg := TscMsg {
  req_cyc_start : Z;
  req_nsec_start : Z;
  m_reply_cyc : Z;
  reply_nsec_start : Z;
  reply_nsec_end : Z
}.

Definition set_req c n m := TscMsg c n (m_reply_cyc m) (reply_nsec_start m) (reply_nsec_end m).
Definition set_reply c s e m := TscMsg (req_cyc_start m) (req_nsec_start m) c s e.
Definition set_reply_cyc c m := set_reply c (reply_nsec_start m) (reply_nsec_end m) m.

(** ** What the machine supplies: PAPI's counters by the readings before, CPUID by
    the leaf (register EDX), and uninitialised messages. *)
Class Papi := {
  PAPI_real_cyc : nat → Z;
  PAPI_real_nsec : nat → Z;
  PAPI_library_ok : bool;
  papi_version : Z;
  cpuid_edx : Z → option Z;
  stale_msg : TSC_msg
}.

(** A message as it arrives: a whole TSC_msg, or something of another size. *)
Inductive wire := Whole (m : TSC_msg) | OfSize (size : Z).
Definition TSC_msg_size : Z := 40.

(** Sockets to the other program. zmq.hpp returns bool where the code tests for
    rc < 0, so these tests never hold; [None] of a receive is waiting for ever. *)
Class TscLink (N : Type) := {
  lk_send : TSC_msg → N → N;
  lk_recv : N → N * option wire;
  lk_poll : N → N * option wire         (* poll without waiting, and receive *)
}.

Record tool (N : Type) := Tool {
  tl_sys : sys;
  tl_papi : nat;
  tl_net : N;
  tl_files : list (string * ofstream)
}.
Arguments Tool {N}. Arguments tl_sys {N}. Arguments tl_papi {N}. Arguments tl_net {N}.
Arguments tl_files {N}.

Section Tool.
Context {N : Type}.
Definition set_tl_sys (y : sys) (s : tool N) := Tool y (tl_papi s) (tl_net s) (tl_files s).
Definition set_tl_papi n (s : tool N) := Tool (tl_sys s) n (tl_net s) (tl_files s).
Definition set_tl_net (x : N) (s : tool N) := Tool (tl_sys s) (tl_papi s) x (tl_files s).
Definition add_tl_file f (s : tool N) := Tool (tl_sys s) (tl_papi s) (tl_net s) (tl_files s ++ [f]).
Definition tl_on {A} : M sys A → M (tool N) A := zoom tl_sys set_tl_sys.
Definition tl_say (line : string) : M (tool N) unit :=
  tl_on (modify (λ s, set_console (console s ++ [line]) s)).

Context `{Papi}.
Definition real_cyc : M (tool N) Z :=
  s ← get; modify (set_tl_papi (S (tl_papi s))) ;; mret (PAPI_real_cyc (tl_papi s)).
Definition real_nsec : M (tool N) Z :=
  s ← get; modify (set_tl_papi (S (tl_papi s))) ;; mret (PAPI_real_nsec (tl_papi s)).
End Tool.

(** ** tsc.cpp *)
Section Cpuid.
Context `{Env} `{Papi}.

Definition cpuid_bit (leaf bit : Z) (line : Z) (warning : string) : M sys bool :=
  match cpuid_edx leaf with
  | None => logStatus "tsc.cpp" line warning ;; mret false
  | Some edx => mret (Z.testbit edx bit)
  end.

Definition check_rdtsc : M sys bool :=
  cpuid_bit 1 4 18 "Warning: CPUID request (value 1) unsupported!".
Definition check_rdtscp : M sys bool :=
  cpuid_bit 2147483649 27 40 "Warning: CPUID request unsupported!".
Definition get_tsc_freq : Z := 0.
End Cpuid.

(** ** tsc_slave_1: statistics of the round trips *)
Record stats := Stats {
  min_cyc : Z;
  min_nsec : Z;
  min_reply : Z;        (* reply_cyc: of the fastest round trip *)
  accum_nsec : Z
}.
Definition stats0 : stats := Stats LLONG_MAX LLONG_MAX 0 0.

Definition note_rtt (cur_cyc cur_nsec : Z) (msg : TSC_msg) (st : stats) : stats :=
  Stats (Z.min (min_cyc st) cur_cyc)
    (if cur_nsec <? min_nsec st then cur_nsec else min_nsec st)
    (if cur_nsec <? min_nsec st then m_reply_cyc msg else min_reply st)
    (i64 (accum_nsec st + cur_nsec)).

Definition duration_of (ns : Z) : string := (formatDuration_ns (u64 ns) 1024 true).2.
Definition avg_line (avg : Z) : string := "Avg RTT/request: " +:+ duration_of avg +:+ nl.
Definition min_lines (buf : string) (st : stats) : list string :=
  ["Min RTT/request: " +:+ buf +:+ nl;
   "Min cyc/request: " +:+ l2aCommas (min_cyc st) +:+ nl;
   "Min reply cycle: " +:+ l2aCommas (min_reply st) +:+ nl].
Definition elapsed_line (ns : Z) : string := "Elapsed Time: " +:+ duration_of ns +:+ nl.

Section Slave1.
Context `{Env} `{Papi} {N : Type} `{TscLink N} (sv_dotted_quad : string).

Definition send (m : TSC_msg) : M (tool N) unit :=
  modify (λ s, set_tl_net (lk_send m (tl_net s)) s).
Definition recv : M (tool N) wire :=
  s ← get;
  let '(n, m) := lk_recv (tl_net s) in
  modify (set_tl_net n) ;;
  match m with Some m => mret m | None => spin "no message" end.
Definition poll : M (tool N) (option wire) :=
  s ← get;
  let '(n, m) := lk_poll (tl_net s) in
  modify (set_tl_net n) ;; mret m.

(** The cast of the data to TSC_msg, with and without a test of the size. *)
Definition as_msg (w : wire) : M (tool N) TSC_msg :=
  match w with
  | Whole m => mret m
  | OfSize n => undefined "read past the end of a message"
  end.
Definition as_whole (msg_ctr : Z) (w : wire) : M (tool N) TSC_msg :=
  match w with
  | Whole m => mret m
  | OfSize n =>
      tl_say ("Error: message of wrong size received" +:+ nl) ;;
      tl_say ("Received: " +:+ zstr n +:+ " expected: " +:+ zstr TSC_msg_size +:+ nl) ;;
      tl_say ("Message counter: " +:+ zstr msg_ctr +:+ nl) ;;
      exit EXIT_FAILURE
  end.

(** The time is read, and the message goes out. *)
Definition send_stamped (m : TSC_msg) : M (tool N) TSC_msg :=
  c ← real_cyc;
  n ← real_nsec;
  send (set_req c n m) ;;
  mret (set_req c n m).

Definition makeLogFileName (name : string) : M (tool N) string :=
  '(_, tmp_buf) ← tl_on getIPDottedQuad;
  mret (name +:+ ":" +:+ tmp_buf +:+ ":" +:+ zstr getpid +:+ ".txt").

Definition write_file (name : string) (l : list string) : M (tool N) unit :=
  modify (add_tl_file (name, ofs_close (ofs_writes l (ofs_do_open (creatable name) ofs_new)))).

(** *** Synchronous *)
Definition data_header : string :=
  "req_ns_send, reply_ns_receive, reply_ns_send, req_ns_receive" +:+ nl.
Definition data_line (msg : TSC_msg) (req_nsec_end : Z) : string :=
  csv [zstr (req_nsec_start msg); zstr (reply_nsec_start msg); zstr (reply_nsec_end msg);
       zstr req_nsec_end] +:+ nl.

Fixpoint sync_rounds (n : nat) (m : TSC_msg) (st : stats) (lines : list string)
    : M (tool N) (TSC_msg * stats * list string) :=
  match n with
  | O => mret (m, st, lines)
  | S n =>
      m ← send_stamped m;
      w ← recv;
      msg ← as_msg w;
      req_nsec_end ← real_nsec;
      cyc ← real_cyc;
      let cur_cyc := i64 (cyc - req_cyc_start msg) in
      let cur_nsec := i64 (req_nsec_end - req_nsec_start msg) in
      sync_rounds n m (note_rtt cur_cyc cur_nsec msg st)
        (lines ++ [data_line msg req_nsec_end])
  end.

Definition do_bulk_sync_send_and_recv (nr_iter : Z) : M (tool N) unit :=
  tl_say ("Sending " +:+ zstr nr_iter +:+ " synchronous REQ->REP messages") ;;
  tl_say ("..." +:+ nl) ;;
  overall_start_nsec ← real_nsec;
  name ← makeLogFileName ("/tmp/tsc_slave_1_data_to_" +:+ sv_dotted_quad);
  '(m, st, lines) ← sync_rounds (Z.to_nat nr_iter) stale_msg stats0 [data_header];
  write_file name lines ;;
  name ← makeLogFileName ("/tmp/tsc_slave_1_summary_to_" +:+ sv_dotted_quad);
  send (set_req (req_cyc_start m) 0 m) ;;
  overall_end_nsec ← real_nsec;
  let overall_nsec := i64 (overall_end_nsec - overall_start_nsec) in
  (if nr_iter =? 0 then undefined "division by zero" else mret tt) ;;
  let avg_nsec := Z.quot (accum_nsec st) nr_iter in
  tl_say (avg_line avg_nsec) ;;
  each tl_say (min_lines (duration_of (min_nsec st)) st) ;;
  tl_say (elapsed_line overall_nsec) ;;
  (* the buffer now holds what l2aCommas left there *)
  write_file name (avg_line avg_nsec :: min_lines (l2aCommas (min_reply st)) st
                   ++ [elapsed_line overall_nsec]).

(** *** Asynchronous, with one socket *)

(** One message, or a bulk, or what is left of one. *)
Definition bulk (fail_fast : bool) (nr_iter ctr bulk_sz : Z) : Z :=
  if fail_fast then 1 else if bulk_sz <=? nr_iter - ctr then bulk_sz else nr_iter - ctr.

Fixpoint send_bulk (n : nat) (m : TSC_msg) : M (tool N) TSC_msg :=
  match n with
  | O => mret m
  | S n => m ← send_stamped m; send_bulk n m
  end.

Definition take_reply (msg : TSC_msg) (st : stats) : M (tool N) stats :=
  cyc ← real_cyc;
  nsec ← real_nsec;
  mret (note_rtt (i64 (cyc - req_cyc_start msg)) (i64 (nsec - req_nsec_start msg)) msg st).

(** [do ... while (!fail_fast && received < to_recv)]: the statistics, and how many
    replies were received. *)
Fixpoint recv_bulk (polls : nat) (fail_fast : bool) (to_recv received : Z) (st : stats)
    : M (tool N) (stats * Z) :=
  match polls with
  | O => spin "replies are missing"
  | S polls =>
      r ← poll;
      st ← (match r with Some w => msg ← as_msg w; take_reply msg st | None => mret st end);
      let received := (match r with Some _ => received + 1 | None => received end) in
      if negb fail_fast && (received <? to_recv)
      then recv_bulk polls fail_fast to_recv received st
      else mret (st, received)
  end.

Fixpoint async_rounds (rounds polls : nat) (fail_fast : bool) (nr_iter bulk_sz sent_ctr recv_ctr : Z)
    (m : TSC_msg) (st : stats) : M (tool N) (stats * Z) :=
  match rounds with
  | O => spin "replies are missing"
  | S rounds =>
      if nr_iter <=? recv_ctr then mret (st, recv_ctr)
      else
        let to_send := if sent_ctr <? nr_iter then bulk fail_fast nr_iter sent_ctr bulk_sz else 0 in
        m ← send_bulk (Z.to_nat to_send) m;
        '(st, received) ← recv_bulk polls fail_fast
                            (bulk fail_fast nr_iter recv_ctr bulk_sz) 0 st;
        async_rounds rounds polls fail_fast nr_iter bulk_sz
          (sent_ctr + Z.of_nat (Z.to_nat to_send)) (recv_ctr + received) m st
  end.

Definition async_report (st : stats) (recv_ctr overall_nsec : Z) : M (tool N) unit :=
  (if recv_ctr =? 0 then undefined "division by zero" else mret tt) ;;
  tl_say (avg_line (Z.quot (accum_nsec st) recv_ctr)) ;;
  each tl_say (min_lines (duration_of (min_nsec st)) st) ;;
  tl_say (elapsed_line overall_nsec).

Definition async_intro (nr_iter bulk_sz : Z) : M (tool N) unit :=
  tl_say ("Sending " +:+ zstr nr_iter +:+ " asynchronous DEALER->ROUTER messages") ;;
  tl_say ("..." +:+ nl) ;;
  tl_say ("(user-defined bulk size: " +:+ zstr bulk_sz +:+ ")" +:+ nl).

Definition do_bulk_async_send_and_recv (rounds polls : nat) (nr_iter bulk_sz : Z)
    : M (tool N) unit :=
  async_intro nr_iter bulk_sz ;;
  overall_start_nsec ← real_nsec;
  '(st, recv_ctr) ← async_rounds rounds polls (bulk_sz =? -1) nr_iter bulk_sz 0 0 stale_msg stats0;
  overall_end_nsec ← real_nsec;
  async_report st recv_ctr (i64 (overall_end_nsec - overall_start_nsec)).

(** *** Asynchronous, with a thread and a socket for each direction *)
Fixpoint send_all (rounds : nat) (fail_fast : bool) (nr_iter bulk_sz sent_ctr : Z) (m : TSC_msg)
    : M (tool N) unit :=
  match rounds with
  | O => spin "nothing is sent"
  | S rounds =>
      if nr_iter <=? sent_ctr then mret tt
      else
        let to_send := bulk fail_fast nr_iter sent_ctr bulk_sz in
        m ← send_bulk (Z.to_nat to_send) m;
        send_all rounds fail_fast nr_iter bulk_sz (sent_ctr + Z.of_nat (Z.to_nat to_send)) m
  end.

(** The result is g_overall_start_nsec. *)
Definition do_bulk_async_send (rounds : nat) (nr_iter bulk_sz : Z) : M (tool N) Z :=
  async_intro nr_iter bulk_sz ;;
  g_overall_start_nsec ← real_nsec;
  send_all rounds (bulk_sz =? -1) nr_iter bulk_sz 0 stale_msg ;;
  mret g_overall_start_nsec.

Fixpoint recv_all (n : nat) (recv_ctr : Z) (st : stats) : M (tool N) stats :=
  match n with
  | O => mret st
  | S n =>
      _ ← recv;                     (* the identity *)
      w ← recv;
      msg ← as_whole (recv_ctr + 1) w;
      st ← take_reply msg st;
      recv_all n (recv_ctr + 1) st
  end.

Definition do_bulk_async_recv (nr_iter g_overall_start_nsec : Z) : M (tool N) unit :=
  st ← recv_all (Z.to_nat nr_iter) 0 stats0;
  overall_end_nsec ← real_nsec;
  async_report st (Z.max 0 nr_iter) (i64 (overall_end_nsec - g_overall_start_nsec)).
End Slave1.

(** *** main *)
Record slave_1_options := Slave1Options {
  s1_help : bool;
  s1_sv_ip : option string;
  s1_sv_p : option Z;              (* uint32_t *)
  s1_async : bool;
  s1_multisocket : bool;
  s1_console : bool;
  s1_bulk_sz : Z;                  (* -1 when not given *)
  s1_iterations : string           (* "1KB" when not given *)
}.

Definition tsc_master_default_ip : string := "165.132.106.144".

Section Setup.
Context `{Env} `{Papi} {N : Type}.

Definition papi_setup (name : string) (console : bool) : M (tool N) unit :=
  tl_on (setLogFileName name) ;;
  tl_on (toggleConsoleLog console) ;;
  tl_on openStatusLogFile.

Definition papi_check (file : string) (line : Z) : M (tool N) unit :=
  (if PAPI_library_ok then mret tt
   else tl_on (logFail_err file line "PAPI_library_init" papi_version)) ;;
  ok ← tl_on check_rdtsc;
  if ok : bool then mret tt
  else tl_say ("ERROR: RDTSC instruction not supported, exiting..." +:+ nl) ;; exit EXIT_FAILURE.

(** The identity of a dealer socket needs the random generator. *)
Definition dealer `{TscHost} : M (tool N) unit :=
  if tsc_init_rand =? -1 then exit EXIT_FAILURE else mret tt.

Definition bind_to (bindable : string → bool) (port : Z) : M (tool N) unit :=
  if bindable ("tcp://*:" +:+ zstr port) then mret tt
  else abort "an exception of zmq::socket_t::bind".
End Setup.

Section Slave1Main.
Context `{Env} `{Papi} `{TscHost} {N : Type} `{TscLink N}.
Context (help_text : string) (bindable : string → bool) (rounds polls : nat).

Definition async_send_and_recv (nr_iterations bulk_sz : Z) : M (tool N) unit :=
  dealer ;; do_bulk_async_send_and_recv rounds polls nr_iterations bulk_sz.
Definition async_send (nr_iterations bulk_sz : Z) : M (tool N) Z :=
  dealer ;; do_bulk_async_send rounds nr_iterations bulk_sz.
Definition async_recv (sv_port_nr nr_iterations g_overall_start_nsec : Z) : M (tool N) unit :=
  bind_to bindable sv_port_nr ;; do_bulk_async_recv nr_iterations g_overall_start_nsec.

(** [threads]: what two threads do together, in some interleaving; the second reads
    the global the first one writes. *)
Definition slave_1_main
    (threads : M (tool N) Z → (Z → M (tool N) unit) → M (tool N) unit)
    (o : option slave_1_options) : M (tool N) Z :=
  match o with
  | None => abort "an exception of the option parser"
  | Some o =>
      when (s1_help o)
        (tl_say (help_text +:+ nl) ;;
         tl_say ("number_of_iterations accepts postfix modifiers: " +:+ nl) ;;
         tl_say ("KB, KiB, MB, MiB, GB, GiB" +:+ nl) ;;
         exit EXIT_FAILURE) ;;
      match convertA2I (s1_iterations o) with
      | Fault f => raise f
      | Ret v =>
          let nr_iterations := i32 v in
          papi_setup "/tmp/tsc_slave_1" (s1_console o) ;;
          papi_check "tsc_slave_1.cpp" 98 ;;
          let sv_dotted_quad := default tsc_master_default_ip (s1_sv_ip o) in
          let sv_port_nr := default tsc_master_default_port (s1_sv_p o) in
          (if s1_async o then
             if s1_multisocket o then
               threads (async_send nr_iterations (s1_bulk_sz o))
                 (async_recv sv_port_nr nr_iterations)
             else async_send_and_recv nr_iterations (s1_bulk_sz o)
           else if s1_multisocket o then mret tt
           else do_bulk_sync_send_and_recv sv_dotted_quad nr_iterations) ;;
          tl_on closeStatusLogFile ;;
          mret 0
      end
  end.
End Slave1Main.

(** ** tsc_slave_2 *)
Section Slave2.
Context `{Env} `{Papi} `{TscHost} {N : Type} `{TscLink N}.

(** One round of the synchronous loop: [None] is the message that ends it. *)
Definition sync_answer (w : wire) : M (tool N) (option TSC_msg) :=
  received_ns ← real_nsec;
  received_cyc ← real_cyc;
  m ← as_msg w;
  if req_nsec_start m =? 0 then mret None
  else
    end_ ← real_nsec;
    mret (Some (set_reply received_cyc received_ns end_ m)).

Fixpoint do_bulk_receive (rounds : nat) : M (tool N) unit :=
  match rounds with
  | O => spin "no message"
  | S rounds =>
      w ← recv;
      r ← sync_answer w;
      match r with
      | None => mret tt
      | Some m => send m ;; do_bulk_receive rounds
      end
  end.

(** The asynchronous loops, which nothing ends; the identity in front of a message
    goes back with it. *)
Definition stamp_reply (tsc : bool) (m : TSC_msg) : M (tool N) TSC_msg :=
  if tsc then c ← real_cyc; mret (set_reply_cyc c m) else mret m.

Fixpoint dealer_router_receive (rounds : nat) (tsc : bool) (msg_ctr : Z) : M (tool N) unit :=
  match rounds with
  | O => spin "no message"
  | S rounds =>
      _ ← recv;
      w ← recv;
      let msg_ctr := msg_ctr + 1 in
      m ← as_whole msg_ctr w;
      m ← stamp_reply tsc m;
      send m ;;
      dealer_router_receive rounds tsc msg_ctr
  end.

(** The same with the replies on a socket of their own. *)
Definition async_recv_and_send (rounds : nat) (tsc : bool) : M (tool N) unit :=
  dealer_router_receive rounds tsc 0.

Record slave_2_options := Slave2Options {
  s2_help : bool;
  s2_async : bool;
  s2_multisocket : bool;
  s2_console : bool;
  s2_tsc : bool;
  s2_port : option Z
}.

Definition slave_2_port (o : slave_2_options) : Z := default tsc_master_default_port (s2_port o).

Definition slave_2_main (help_text : string) (rounds : nat) (bindable : string → bool)
    (o : option slave_2_options) : M (tool N) Z :=
  match o with
  | None => abort "an exception of the option parser"
  | Some o =>
      when (s2_help o) (tl_say (help_text +:+ nl) ;; exit EXIT_FAILURE) ;;
      papi_setup "/tmp/tsc_slave_2" (s2_console o) ;;
      tl_say "Console log: " ;;
      tl_say ((if s2_console o then "enabled" else "disabled") +:+ nl) ;;
      papi_check "tsc_slave_2.cpp" 77 ;;
      when (bool_decide (s2_port o = None)) (tl_say ("default port is chosen" +:+ nl)) ;;
      bind_to bindable (slave_2_port o) ;;
      (if s2_async o then
         if s2_multisocket o then
           dealer ;; async_recv_and_send rounds (s2_tsc o)
         else dealer_router_receive rounds (s2_tsc o) 0
       else if s2_multisocket o then mret tt
       else do_bulk_receive rounds) ;;
      tl_on closeStatusLogFile ;;
      mret 0
  end.
End Slave2.

(** ** The two programs together, in synchronous mode

    Every message of tsc_slave_1 is answered by a round of tsc_slave_2, which has a
    clock of its own. *)
Record link := Link {
  ln_peer : tool unit;
  ln_reply : option TSC_msg;
  ln_done : bool;
  ln_answered : nat
}.

Definition slave_2_link (P2 : Papi) : TscLink link :=
  let take l := match ln_reply l with
                | Some r => (Link (ln_peer l) None (ln_done l) (ln_answered l), Some (Whole r))
                | None => (l, None)
                end in {|
  lk_send m l :=
    if ln_done l then l
    else match @sync_answer P2 unit (Whole m) (ln_peer l) with
         | (p, Ret (Some r)) => Link p (Some r) false (S (ln_answered l))
         | (p, Ret None) => Link p None true (ln_answered l)
         | (p, Fault _) => Link p None true (ln_answered l)
         end;
  lk_recv := take;
  lk_poll := take
|}.

(** One round trip: the message as it comes back, and the two readings after it. *)
Record trip := Trip { tr_msg : TSC_msg; tr_end_nsec : Z; tr_end_cyc : Z }.
Definition trip_nsec (t : trip) : Z := i64 (tr_end_nsec t - req_nsec_start (tr_msg t)).
Definition trip_cyc (t : trip) : Z := i64 (tr_end_cyc t - req_cyc_start (tr_msg t)).
Definition note_trip (st : stats) (t : trip) : stats :=
  note_rtt (trip_cyc t) (trip_nsec t) (tr_msg t) st.
Definition trip_line (t : trip) : string := data_line (tr_msg t) (tr_end_nsec t).

(** *** The statistics *)
Definition least (f : trip → Z) (l : list trip) : Z := foldl (λ a t, Z.min a (f t)) LLONG_MAX l.

Lemma stats_spec l :
  Forall (λ t, trip_nsec t < LLONG_MAX) l → l ≠ [] →
  ∃ t, first_least trip_nsec l t
    ∧ min_nsec (foldl note_trip stats0 l) = trip_nsec t
    ∧ min_reply (foldl note_trip stats0 l) = m_reply_cyc (tr_msg t)
    ∧ min_cyc (foldl note_trip stats0 l) = least trip_cyc l
    ∧ accum_nsec (foldl note_trip stats0 l) = i64 (foldl (λ a t, a + trip_nsec t) 0 l).
Proof.
  induction l as [|t l IH] using rev_ind; [done|]. intros Hl _.
  rewrite Forall_app, Forall_singleton in Hl. destruct Hl as [Hl Ht].
  unfold least. rewrite !foldl_app. cbn [foldl].
  destruct (decide (l = [])) as [->|Hne].
  - exists t. cbn [foldl note_trip note_rtt stats0 min_nsec min_reply min_cyc accum_nsec].
    unfold note_trip, note_rtt. cbn [stats0 min_nsec min_reply min_cyc accum_nsec].
    rewrite (proj2 (Z.ltb_lt _ _) Ht). split_and!; try done. by exists [], [].
  - destruct (IH Hl Hne) as (t0 & F & E1 & E2 & E3 & E4).
    exists (if trip_nsec t <? trip_nsec t0 then t else t0). split; [by apply first_least_snoc|].
    unfold note_trip at 1 3 5 7. unfold note_rtt.
    cbn [min_nsec min_reply min_cyc accum_nsec]. rewrite E1, E2, E3, E4.
    split_and!; [by destruct (trip_nsec t <? _)..|done|].
    apply wrapS_idemp_add.
Qed.

(** *** Runs *)
Section Session.
Context `{Env} (P1 P2 : Papi).
#[local] Instance the_link : TscLink link := slave_2_link P2.
#[local] Existing Instance P1.

(** The trip that starts with reading [p] of tsc_slave_1 and [q] of tsc_slave_2. *)
Definition trip_at (p q : nat) : trip :=
  Trip (TscMsg (@PAPI_real_cyc P1 p) (@PAPI_real_nsec P1 (S p)) (@PAPI_real_cyc P2 (S q))
          (@PAPI_real_nsec P2 q) (@PAPI_real_nsec P2 (S (S q))))
    (@PAPI_real_nsec P1 (S (S p))) (@PAPI_real_cyc P1 (S (S (S p)))).

Fixpoint trips (n p q : nat) : list trip :=
  match n with
  | O => []
  | S n => trip_at p q :: trips n (4 + p) (3 + q)
  end.

Lemma send_stamped_run m y p peer a files :
  @PAPI_real_nsec P1 (S p) ≠ 0 →
  let q := tl_papi peer in
  let m' := set_req (@PAPI_real_cyc P1 p) (@PAPI_real_nsec P1 (S p)) m in
  send_stamped m (Tool y p (Link peer None false a) files)
  = (Tool y (S (S p)) (Link (set_tl_papi (3 + q)%nat peer) (Some (tr_msg (trip_at p q))) false (S a))
       files, Ret m').
Proof.
  intros Hn q m'. unfold send_stamped, real_cyc, real_nsec, send. monad_simpl.
  unfold sync_answer, real_cyc, real_nsec, as_msg. monad_simpl.
  destruct (Z.eqb_spec (@PAPI_real_nsec P1 (S p)) 0); [done|]. done.
Qed.

Lemma recv_run y p peer m a files :
  recv (Tool y p (Link peer (Some m) false a) files)
  = (Tool y p (Link peer None false a) files, Ret (Whole m)).
Proof. done. Qed.

Lemma as_msg_run m (s : tool link) : as_msg (Whole m) s = (s, Ret m).
Proof. done. Qed.
Lemma nsec_run (s : tool link) :
  real_nsec s = (set_tl_papi (S (tl_papi s)) s, Ret (@PAPI_real_nsec P1 (tl_papi s))).
Proof. done. Qed.
Lemma cyc_run (s : tool link) :
  real_cyc s = (set_tl_papi (S (tl_papi s)) s, Ret (@PAPI_real_cyc P1 (tl_papi s))).
Proof. done. Qed.

Lemma sync_rounds_run n : ∀ m st lines y p peer a files,
  (∀ k, (k < n)%nat → @PAPI_real_nsec P1 (S (4 * k + p)) ≠ 0) →
  ∃ m', sync_rounds n m st lines (Tool y p (Link peer None false a) files)
    = (Tool y (4 * n + p) (Link (set_tl_papi (3 * n + tl_papi peer)%nat peer) None false (n + a)) files,
       Ret (m', foldl note_trip st (trips n p (tl_papi peer)),
            lines ++ map trip_line (trips n p (tl_papi peer)))).
Proof.
  induction n as [|n IH]; intros m st lines y p peer a files Hn.
  { exists m. simpl. rewrite app_nil_r. by destruct peer. }
  cbn [sync_rounds].
  rewrite (bind_Ret _ _ _ _ _ (send_stamped_run m y p peer a files (Hn 0%nat ltac:(lia)))).
  rewrite (bind_Ret _ _ _ _ _ (recv_run _ _ _ _ _ _)).
  rewrite (bind_Ret _ _ _ _ _ (as_msg_run _ _)), (bind_Ret _ _ _ _ _ (nsec_run _)).
  rewrite (bind_Ret _ _ _ _ _ (cyc_run _)).
  cbv zeta. unfold set_tl_papi at 1 2. cbn [tl_sys tl_papi tl_net tl_files].
  set (t := trip_at p (tl_papi peer)).
  destruct (IH (set_req (@PAPI_real_cyc P1 p) (@PAPI_real_nsec P1 (S p)) m)
    (note_trip st t) (lines ++ [trip_line t]) y (4 + p)%nat
    (set_tl_papi (3 + tl_papi peer)%nat peer) (S a) files) as (m' & E).
  { intros k Hk. replace (S (4 * k + (4 + p))) with (S (4 * S k + p)) by lia.
    apply Hn. lia. }
  exists m'. etrans; [exact E|]. cbn [trips foldl map tl_papi set_tl_papi].
  rewrite <- app_assoc. cbn [app]. f_equal.
  replace (4 * n + (4 + p))%nat with (4 * S n + p)%nat by lia.
  replace (3 * n + (3 + tl_papi peer))%nat with (3 * S n + tl_papi peer)%nat by lia.
  by replace (n + S a)%nat with (S n + a)%nat by lia.
Qed.
Definition said (l : list string) (y : sys) : sys := set_console (console y ++ l) y.

Lemma say_run line (s : tool link) :
  tl_say line s = (set_tl_sys (said [line] (tl_sys s)) s, Ret tt).
Proof. done. Qed.

Lemma each_say_run l : ∀ s : tool link,
  ∃ y, each tl_say l s = (set_tl_sys y s, Ret tt) ∧ console y = console (tl_sys s) ++ l.
Proof.
  induction l as [|x l IH]; intros s.
  { exists (tl_sys s). rewrite app_nil_r. split; [by destruct s|done]. }
  cbn [each]. rewrite (bind_Ret _ _ _ _ _ (say_run x s)).
  destruct (IH (set_tl_sys (said [x] (tl_sys s)) s)) as (y & -> & Ec).
  exists y. split; [done|]. rewrite Ec. simpl. by rewrite <- app_assoc.
Qed.

Lemma file_name_run name (s : tool link) :
  ∃ y f, makeLogFileName name s = (set_tl_sys y s, Ret f) ∧ console y = console (tl_sys s).
Proof.
  destruct (getIPDottedQuad_frame (tl_sys s)) as (y & [z q] & E & _ & _ & Ec).
  exists y. eexists. split; [|done]. unfold makeLogFileName.
  rewrite (bind_Ret (tl_on getIPDottedQuad) _ s (set_tl_sys y s) (z, q)); [done|].
  unfold tl_on, zoom. by rewrite E.
Qed.

Lemma stop_run m (s : tool link) peer a :
  tl_net s = Link peer None false a →
  ∃ peer', send (set_req (req_cyc_start m) 0 m) s
           = (set_tl_net (Link peer' None true a) s, Ret tt).
Proof. intros E. eexists. unfold send, modify. rewrite E. reflexivity. Qed.

Ltac fields :=
  cbn [tl_sys tl_papi tl_net tl_files set_tl_sys set_tl_papi set_tl_net add_tl_file said
       set_console console].

(** What the console and the summary file show. *)
Definition report (buf : string) (avg elapsed : Z) (st : stats) : list string :=
  avg_line avg :: min_lines buf st ++ [elapsed_line elapsed].

Definition sync_intro (nr_iter : Z) : list string :=
  ["Sending " +:+ zstr nr_iter +:+ " synchronous REQ->REP messages"; "..." +:+ nl].

Lemma do_bulk_sync_run ip n s peer :
  tl_net s = Link peer None false 0 →
  (∀ k, (k < S n)%nat → @PAPI_real_nsec P1 (S (4 * k + S (tl_papi s))) ≠ 0) →
  let st := foldl note_trip stats0 (trips (S n) (S (tl_papi s)) (tl_papi peer)) in
  let avg := Z.quot (accum_nsec st) (Z.of_nat (S n)) in
  ∃ s' peer' f1 f2 elapsed,
    do_bulk_sync_send_and_recv ip (Z.of_nat (S n)) s = (s', Ret tt)
    ∧ tl_net s' = Link peer' None true (S n)
    ∧ tl_files s' = tl_files s
      ++ [(f1, ofs_close (ofs_writes
             (data_header :: map trip_line (trips (S n) (S (tl_papi s)) (tl_papi peer)))
             (ofs_do_open (creatable f1) ofs_new)));
          (f2, ofs_close (ofs_writes (report (l2aCommas (min_reply st)) avg elapsed st)
             (ofs_do_open (creatable f2) ofs_new)))]
    ∧ console (tl_sys s')
      = console (tl_sys s) ++ sync_intro (Z.of_nat (S n))
        ++ report (duration_of (min_nsec st)) avg elapsed st.
Proof.
  intros En Hn st avg. unfold do_bulk_sync_send_and_recv.
  rewrite (bind_Ret _ _ _ _ _ (say_run _ _)), (bind_Ret _ _ _ _ _ (say_run _ _)).
  rewrite (bind_Ret _ _ _ _ _ (nsec_run _)).
  edestruct (file_name_run ("/tmp/tsc_slave_1_data_to_" +:+ ip)) as (y1 & f1 & E1 & C1).
  rewrite (bind_Ret _ _ _ _ _ E1). clear E1. rewrite Nat2Z.id.
  destruct s as [y0 p net files]. simpl in En. subst net.
  unfold set_tl_sys, set_tl_papi. cbn [tl_sys tl_papi tl_net tl_files] in *.
  destruct (sync_rounds_run (S n) stale_msg stats0 [data_header] y1 (S p) peer 0 files Hn)
    as (m' & E2).
  rewrite (bind_Ret _ _ _ _ _ E2). clear E2. cbv beta iota.
  rewrite (bind_Ret (write_file _ _) _ _ _ tt eq_refl).
  edestruct (file_name_run ("/tmp/tsc_slave_1_summary_to_" +:+ ip)) as (y2 & f2 & E3 & C2).
  rewrite (bind_Ret _ _ _ _ _ E3). clear E3.
  edestruct stop_run as (peer' & E4); [|rewrite (bind_Ret _ _ _ _ _ E4); clear E4]; [done|].
  rewrite (bind_Ret _ _ _ _ _ (nsec_run _)). cbv zeta.
  rewrite (proj2 (Z.eqb_neq _ _)) by lia. rewrite bind_ret_l.
  rewrite (bind_Ret _ _ _ _ _ (say_run _ _)).
  edestruct (each_say_run (min_lines (duration_of (min_nsec st)) st)) as (y3 & E5 & C3).
  rewrite (bind_Ret _ _ _ _ _ E5). clear E5. rewrite (bind_Ret _ _ _ _ _ (say_run _ _)).
  rewrite Nat.add_0_r in *. revert C3. fields. intros C3.
  do 5 eexists. split; [reflexivity|]. fields. split; [reflexivity|].
  split; [by rewrite <- app_assoc|].
  rewrite C3. fields. rewrite C2. fields. rewrite C1. fields.
  unfold report, sync_intro. generalize (min_lines (duration_of (min_nsec st)) st). intros l.
  rewrite <- !app_assoc. reflexivity.
Qed.
Lemma trips_length n : ∀ p q, length (trips n p q) = n.
Proof. induction n as [|n IH]; intros p q; [done|]. simpl. by rewrite IH. Qed.

Lemma closed_file l b : b = true → ofs_file (ofs_close (ofs_writes l (ofs_do_open b ofs_new))) = l.
Proof.
  intros ->. destruct (ofs_writes_ok l (ofs_do_open true ofs_new)) as [Ho Hf]; [done|].
  unfold ofs_close. destruct (ofs_open _); exact Hf.
Qed.

(** C15. A synchronous session: tsc_slave_1 ends with one line per message in its data
    file, each with the two readings of its own clock around the two of the other
    one's; tsc_slave_2 answers every message and ends on the one after the last; and
    the console shows the round trip of the fewest nanoseconds, the fewest cycles and
    the mean. In the summary file the line of the shortest round trip shows the
    cycles of its reply instead. *)
Theorem sync_session ip n s peer :
  tl_net s = Link peer None false 0 → (∀ f, creatable f = true) →
  (∀ k, (k < S n)%nat → @PAPI_real_nsec P1 (S (4 * k + S (tl_papi s))) ≠ 0) →
  let ts := trips (S n) (S (tl_papi s)) (tl_papi peer) in
  Forall (λ t, trip_nsec t < LLONG_MAX) ts →
  ∃ s' peer' f1 o1 f2 o2 t avg mid elapsed,
    do_bulk_sync_send_and_recv ip (Z.of_nat (S n)) s = (s', Ret tt)
    ∧ tl_net s' = Link peer' None true (S n)
    ∧ tl_files s' = tl_files s ++ [(f1, o1); (f2, o2)]
    ∧ ofs_file o1 = data_header :: map trip_line ts
    ∧ first_least trip_nsec ts t
    ∧ avg = avg_line (Z.quot (i64 (foldl (λ a t, a + trip_nsec t) 0 ts)) (Z.of_nat (S n)))
    ∧ mid = ["Min cyc/request: " +:+ l2aCommas (least trip_cyc ts) +:+ nl;
             "Min reply cycle: " +:+ l2aCommas (m_reply_cyc (tr_msg t)) +:+ nl; elapsed]
    ∧ console (tl_sys s') = console (tl_sys s) ++ sync_intro (Z.of_nat (S n))
        ++ avg :: ("Min RTT/request: " +:+ duration_of (trip_nsec t) +:+ nl) :: mid
    ∧ ofs_file o2
      = avg :: ("Min RTT/request: " +:+ l2aCommas (m_reply_cyc (tr_msg t)) +:+ nl) :: mid.
Proof.
  intros En Hcr Hn ts Hl.
  destruct (stats_spec ts Hl) as (t & F & E1 & E2 & E3 & E4); [done|].
  destruct (do_bulk_sync_run ip n s peer En Hn) as (s' & peer' & f1 & f2 & el & E & N & Fs & C).
  fold ts in Fs, C. unfold report, min_lines in Fs, C. rewrite E1, E2, E3, E4 in *.
  do 6 eexists. exists t. do 3 eexists. split; [exact E|]. split; [exact N|]. split; [exact Fs|].
  split; [apply closed_file, Hcr|]. split; [exact F|]. split; [reflexivity|].
  split; [reflexivity|]. split; [exact C|]. rewrite closed_file by apply Hcr. reflexivity.
Qed.
End Session.

(** ** Asynchronous: every message comes back

    A link that answers: of the messages in flight one arrives after at most
    [patience] more polls in vain, which are never more than [lk_bound]. [peak] is the
    largest number of messages in flight so far. *)
Class FairLink (N : Type) `{TscLink N} := {
  inflight : N → Z;
  patience : N → nat;
  peak : N → Z;
  lk_bound : nat;
  fair_send m n : inflight (lk_send m n) = inflight n + 1
    ∧ (patience (lk_send m n) <= lk_bound)%nat
    ∧ peak (lk_send m n) = Z.max (peak n) (inflight n + 1);
  fair_poll n :
    match lk_poll n with
    | (n', Some w) => 0 < inflight n ∧ (∃ m, w = Whole m) ∧ inflight n' = inflight n - 1
        ∧ (patience n' <= lk_bound)%nat ∧ peak n' = peak n
    | (n', None) => inflight n' = inflight n ∧ peak n' = peak n
        ∧ (0 < inflight n → (patience n' < patience n)%nat)
    end
}.

Section Async.
Context `{Env} `{Papi} {N : Type} `{TscLink N} `{!FairLink N}.
Implicit Types s : tool N.

Lemma send_bulk_run n : ∀ m s,
  ∃ m' s', send_bulk n m s = (s', Ret m')
    ∧ inflight (tl_net s') = inflight (tl_net s) + Z.of_nat n
    ∧ peak (tl_net s') ≤ Z.max (peak (tl_net s)) (inflight (tl_net s) + Z.of_nat n)
    ∧ ((0 < n)%nat → (patience (tl_net s') <= lk_bound)%nat).
Proof.
  induction n as [|n IH]; intros m s.
  { exists m, s. split; [done|]. split; [lia|]. split; [lia|lia]. }
  cbn [send_bulk].
  set (m1 := set_req (PAPI_real_cyc (tl_papi s)) (PAPI_real_nsec (S (tl_papi s))) m).
  set (s1 := Tool (tl_sys s) (S (S (tl_papi s))) (lk_send m1 (tl_net s)) (tl_files s)).
  assert (send_stamped m s = (s1, Ret m1)) as E1 by done.
  rewrite (bind_Ret _ _ _ _ _ E1).
  destruct (fair_send m1 (tl_net s)) as (F1 & F2 & F3).
  destruct (IH m1 s1) as (m' & s' & E & I & P & Q). exists m', s'. split; [done|].
  subst s1. cbn [tl_net] in *. split; [lia|]. split; [lia|].
  intros _. destruct n; [|apply Q; lia]. by injection E as <- _.
Qed.

Lemma poll_run s :
  poll s = (set_tl_net (lk_poll (tl_net s)).1 s, Ret (lk_poll (tl_net s)).2).
Proof. unfold poll. monad_simpl. by destruct (lk_poll (tl_net s)). Qed.

Lemma recv_bulk_run to_recv polls : ∀ received st s,
  0 ≤ received < to_recv → to_recv - received ≤ inflight (tl_net s) →
  (S lk_bound * (Z.to_nat (to_recv - received) - 1) + patience (tl_net s) < polls)%nat →
  ∃ st' s', recv_bulk polls false to_recv received st s = (s', Ret (st', to_recv))
    ∧ inflight (tl_net s') = inflight (tl_net s) - (to_recv - received)
    ∧ peak (tl_net s') = peak (tl_net s).
Proof.
  induction polls as [|polls IH]; intros received st s Hr Hi Hp; [by apply Nat.nlt_0_r in Hp|].
  cbn [recv_bulk]. rewrite (bind_Ret _ _ _ _ _ (poll_run s)).
  pose proof (fair_poll (tl_net s)) as F. destruct (lk_poll (tl_net s)) as [n' [w|]].
  - destruct F as (F1 & (msg & ->) & F2 & F3 & F4). cbn [fst snd].
    set (s1 := set_tl_net n' s).
    set (st1 := note_rtt (i64 (PAPI_real_cyc (tl_papi s) - req_cyc_start msg))
                  (i64 (PAPI_real_nsec (S (tl_papi s)) - req_nsec_start msg)) msg st).
    rewrite (bind_Ret (as_msg (Whole msg) ≫= _) _ s1 (set_tl_papi (S (S (tl_papi s))) s1) st1)
      by done.
    cbv zeta. cbn [negb andb].
    destruct (Z.ltb_spec (received + 1) to_recv) as [Hlt|Hge].
    + destruct (IH (received + 1) st1 (set_tl_papi (S (S (tl_papi s))) s1))
        as (st' & s' & E & I' & P'); [lia|unfold s1; simpl; lia|..].
      { cbn [tl_net set_tl_papi set_tl_net s1].
        destruct (Z_of_nat_complete (to_recv - received - 2) ltac:(lia)) as [k Hk].
        replace (Z.to_nat (to_recv - received) - 1)%nat with (S k) in Hp by lia.
        replace (Z.to_nat (to_recv - (received + 1)) - 1)%nat with k by lia.
        rewrite Nat.mul_succ_r in Hp. unfold s1. simpl tl_net. lia. }
      exists st', s'. split; [exact E|]. simpl in I', P'. split; [lia|congruence].
    + exists st1, (set_tl_papi (S (S (tl_papi s))) s1).
      replace (received + 1) with to_recv by lia. split; [done|]. simpl. split; [lia|done].
  - destruct F as (F1 & F2 & F3). cbn [fst snd]. rewrite bind_ret_l. cbv zeta. cbn [negb andb].
    rewrite (proj2 (Z.ltb_lt _ _)) by lia. specialize (F3 ltac:(lia)).
    destruct (IH received st (set_tl_net n' s)) as (st' & s' & E & I' & P');
      [lia|simpl; lia|simpl tl_net; lia|].
    exists st', s'. split; [exact E|]. simpl in I', P'. split; [lia|congruence].
Qed.
Lemma bulk_range nr_iter ctr bulk_sz :
  0 < bulk_sz → ctr < nr_iter →
  1 ≤ bulk false nr_iter ctr bulk_sz ≤ bulk_sz ∧ ctr + bulk false nr_iter ctr bulk_sz ≤ nr_iter.
Proof. intros. unfold bulk. zcase; lia. Qed.

Lemma async_rounds_run polls nr_iter bulk_sz rounds :
  0 < bulk_sz → (S lk_bound * Z.to_nat bulk_sz < polls)%nat →
  ∀ ctr m st s,
  0 ≤ ctr ≤ nr_iter → inflight (tl_net s) = 0 → nr_iter - ctr < Z.of_nat rounds →
  ∃ st' s', async_rounds rounds polls false nr_iter bulk_sz ctr ctr m st s
            = (s', Ret (st', nr_iter))
    ∧ inflight (tl_net s') = 0
    ∧ peak (tl_net s') ≤ Z.max (peak (tl_net s)) bulk_sz.
Proof.
  intros Hb Hp. induction rounds as [|rounds IH]; intros ctr m st s Hc Hi Hr; [lia|].
  cbn [async_rounds]. destruct (Z.leb_spec nr_iter ctr) as [Hge|Hlt].
  { exists st, s. replace ctr with nr_iter by lia. split; [done|]. split; [done|lia]. }
  rewrite (proj2 (Z.ltb_lt _ _)) by lia. cbv zeta.
  pose proof (bulk_range nr_iter ctr bulk_sz Hb Hlt) as [Hk1 Hk2].
  set (k := bulk false nr_iter ctr bulk_sz) in *.
  destruct (send_bulk_run (Z.to_nat k) m s) as (m1 & s1 & E1 & I1 & P1 & Q1).
  rewrite (bind_Ret _ _ _ _ _ E1). specialize (Q1 ltac:(lia)). rewrite Z2Nat.id in * by lia.
  destruct (recv_bulk_run k polls 0 st s1) as (st2 & s2 & E2 & I2 & P2); [lia|lia|..].
  { assert (Z.to_nat (k - 0) - 1 + 1 <= Z.to_nat bulk_sz)%nat as Hle by lia.
    apply (Nat.mul_le_mono_l _ _ (S lk_bound)) in Hle.
    rewrite Nat.mul_add_distr_l, Nat.mul_1_r in Hle. lia. }
  rewrite (bind_Ret _ _ _ _ _ E2). cbv beta iota.
  destruct (IH (ctr + k) m1 st2 s2) as (st' & s' & E & I' & P'); [lia..|].
  exists st', s'. split; [exact E|]. split; [done|]. lia.
Qed.


(** A bulk size of 0 sends nothing, and the program waits for ever. *)
Lemma bulk_zero_never_ends rounds polls nr_iter m st : ∀ s,
  (0 < polls)%nat → 0 < nr_iter → inflight (tl_net s) = 0 →
  ∃ s', async_rounds rounds polls false nr_iter 0 0 0 m st s
        = (s', Fault (FSpin "replies are missing")).
Proof.
  induction rounds as [|rounds IH]; intros s Hp Hn Hi; [by eexists|].
  destruct polls as [|polls]; [lia|]. cbn [async_rounds].
  rewrite (proj2 (Z.leb_gt _ _)), (proj2 (Z.ltb_lt _ _)) by lia. cbv zeta.
  assert (bulk false nr_iter 0 0 = 0) as -> by (unfold bulk; zcase; lia).
  rewrite (bind_Ret (send_bulk (Z.to_nat 0) m) _ s s m) by done.
  assert (recv_bulk (S polls) false 0 0 st s
    = (set_tl_net (lk_poll (tl_net s)).1 s, Ret (st, 0))
    ∧ inflight (lk_poll (tl_net s)).1 = 0) as [E I].
  { cbn [recv_bulk]. rewrite (bind_Ret _ _ _ _ _ (poll_run s)).
    pose proof (fair_poll (tl_net s)) as F. destruct (lk_poll (tl_net s)) as [n' [w|]].
    - destruct F as [F _]. lia.
    - destruct F as [F _]. simpl. split; [done|lia]. }
  rewrite (bind_Ret _ _ _ _ _ E). cbv beta iota. apply IH; [lia|done|done].
Qed.
End Async.

(** ** Concrete runs *)
Definition demo_papi (offset step : Z) : Papi := {|
  PAPI_real_cyc := λ n, 24 * (offset + step * Z.of_nat n);
  PAPI_real_nsec := λ n, 10 * (offset + step * Z.of_nat n);
  PAPI_library_ok := true;
  papi_version := 0;
  cpuid_edx := λ _, Some 16;
  stale_msg := TscMsg 7 7 7 7 7
|}.

Definition demo_tool : tool link :=
  Tool (sys_init false) 0 (Link (Tool (sys_init false) 0 () []) None false 0) [].

(** Three messages between two machines, the clock of the second one 100 ns ahead. *)
Lemma sync_session_witness :
  let ts := @trips (demo_papi 100 3) (demo_papi 110 2) 3 1 0 in
  ∃ s' peer' f1 o1 f2 o2 t avg mid elapsed,
    @do_bulk_sync_send_and_recv demo_env (demo_papi 100 3) link (slave_2_link (demo_papi 110 2))
      "10.0.0.8" 3 demo_tool = (s', Ret tt)
    ∧ tl_net s' = Link peer' None true 3
    ∧ tl_files s' = [] ++ [(f1, o1); (f2, o2)]
    ∧ ofs_file o1 = data_header :: map trip_line ts
    ∧ first_least trip_nsec ts t
    ∧ avg = avg_line (Z.quot (i64 (foldl (λ a t, a + trip_nsec t) 0 ts)) 3)
    ∧ mid = ["Min cyc/request: " +:+ l2aCommas (least trip_cyc ts) +:+ nl;
             "Min reply cycle: " +:+ l2aCommas (m_reply_cyc (tr_msg t)) +:+ nl; elapsed]
    ∧ console (tl_sys s') = [] ++ sync_intro 3
        ++ avg :: ("Min RTT/request: " +:+ duration_of (trip_nsec t) +:+ nl) :: mid
    ∧ ofs_file o2
      = avg :: ("Min RTT/request: " +:+ l2aCommas (m_reply_cyc (tr_msg t)) +:+ nl) :: mid.
Proof.
  refine (@sync_session demo_env (demo_papi 100 3) (demo_papi 110 2) "10.0.0.8" 2 demo_tool
    (Tool (sys_init false) 0 () []) eq_refl (λ _, eq_refl) _ _).
  - intros k Hk. simpl. lia.
  - by_decide.
Defined.

(** A link that keeps a message back for one poll. *)
Definition slow_link : Type := list TSC_msg * bool * Z.
#[local] Instance demo_slow : TscLink slow_link := {
  lk_send m n :=
    let '(q, ready, pk) := n in (q ++ [m], ready, Z.max pk (Z.of_nat (S (length q))));
  lk_recv n := (n, None);
  lk_poll n :=
    match n with
    | (m :: q, true, pk) => ((q, false, pk), Some (Whole m))
    | (q, _, pk) => ((q, true, pk), None)
    end
}.

#[local] Instance demo_fair : FairLink slow_link.
Proof.
  refine (Build_FairLink slow_link demo_slow (λ n, Z.of_nat (length n.1.1))
    (λ n, if n.1.2 then 0 else 1)%nat snd 1 _ _).
  - intros m [[q b] pk]. simpl. rewrite length_app. simpl. split; [lia|].
    split; [by destruct b; lia|lia].
  - intros [[[|m q] []] pk]; simpl; split_and?; try done; try lia; by eexists.
Defined.


(** Without bit 4 of EDX there is no rdtsc. *)
Example cpuid_without_tsc :
  (@check_rdtsc demo_env {| PAPI_real_cyc := λ _, 0; PAPI_real_nsec := λ _, 0;
     PAPI_library_ok := true; papi_version := 0; cpuid_edx := λ _, Some 15;
     stale_msg := TscMsg 0 0 0 0 0 |} (sys_init false)).2 = Ret false.
Proof. by vm_compute. Qed.

(** No messages asked for: the mean divides by 0. *)
Example sync_nothing :
  (@do_bulk_sync_send_and_recv demo_env (demo_papi 100 3) link (slave_2_link (demo_papi 110 2))
     "10.0.0.8" 0 demo_tool).2 = Fault (FUndefined "division by zero").
Proof. by vm_compute. Qed.
