(* ===== verification/EmitLoad.v ===== *)
(** * Data generator: loading tuples, src/cp/cpp_emit/emit.cpp

    A sender replays tuples loaded beforehand: every thread has an array of
    replay_size tuples, filled one tuple at a time through loadOneTuple, or at
    once from the Java agent. A tuple is its bytes, for the string arrays and
    the byte arrays alike. *)
From S2P Require Import Prelude TimeStamp.

(** The global g_svars. Its vectors exist after initDGSender only; before that
    they are as good as empty, since every use of them is undefined or fails an
    assertion. *)
Record sv_vars := SvVars {
  sv_port_nr : Z;
  emit_dur : Z;
  pill_dur : Z;
  tup_idx_offset : Z;
  time_budget : Z;
  per_sec_throughput : Z;
  slag : Z;
  nr_threads : Z;
  replay_size : Z;             (* uint64_t *)
  remaining_replay_size : Z;   (* uint64_t *)
  sarrays : list (list string);
  barrays : list (list string);
  s_pills : list (list string);
  b_pills : list (list string);
  thr_id : Z;                  (* size_t *)
  iter : Z                     (* uint64_t *)
}.

Definition set_sarrays x v := SvVars (sv_port_nr v) (emit_dur v) (pill_dur v)
  (tup_idx_offset v) (time_budget v) (per_sec_throughput v) (slag v) (nr_threads v)
  (replay_size v) (remaining_replay_size v) x (barrays v) (s_pills v) (b_pills v)
  (thr_id v) (iter v).
Definition set_barrays x v := SvVars (sv_port_nr v) (emit_dur v) (pill_dur v)
  (tup_idx_offset v) (time_budget v) (per_sec_throughput v) (slag v) (nr_threads v)
  (replay_size v) (remaining_replay_size v) (sarrays v) x (s_pills v) (b_pills v)
  (thr_id v) (iter v).
Definition set_b_pills x v := SvVars (sv_port_nr v) (emit_dur v) (pill_dur v)
  (tup_idx_offset v) (time_budget v) (per_sec_throughput v) (slag v) (nr_threads v)
  (replay_size v) (remaining_replay_size v) (sarrays v) (barrays v) (s_pills v) x
  (thr_id v) (iter v).
Definition set_remaining x v := SvVars (sv_port_nr v) (emit_dur v) (pill_dur v)
  (tup_idx_offset v) (time_budget v) (per_sec_throughput v) (slag v) (nr_threads v)
  (replay_size v) x (sarrays v) (barrays v) (s_pills v) (b_pills v)
  (thr_id v) (iter v).
Definition set_cursor t i v := SvVars (sv_port_nr v) (emit_dur v) (pill_dur v)
  (tup_idx_offset v) (time_budget v) (per_sec_throughput v) (slag v) (nr_threads v)
  (replay_size v) (remaining_replay_size v) (sarrays v) (barrays v) (s_pills v)
  (b_pills v) t i.

Definition TIME_BUDGET : Z := 1000 * 1000.

(** The state of the globals before any call. *)
Definition sv_vars0 : sv_vars := SvVars 0 0 0 0 0 0 0 0 0 0 [] [] [] [] 0 0.

Definition no_tuples (nr_threads : Z) : list (list string) :=
  replicate (Z.to_nat nr_threads) [].

Definition initDGSender (port emit pill offset throughput slag threads : Z)
    : M sv_vars unit :=
  let replay := u64 (throughput * emit) in
  modify (λ _, SvVars port emit pill offset TIME_BUDGET throughput slag threads
    replay (u64 (replay * threads)) (no_tuples threads) (no_tuples threads)
    (no_tuples threads) (no_tuples threads) 0 0).

(** [vector::at(i)->push_back(x)]. *)
Definition push_at (i : Z) (x : string) (l : list (list string))
    : option (list (list string)) :=
  match l !! Z.to_nat i with
  | Some a => Some (<[Z.to_nat i := a ++ [x]]> l)
  | None => None
  end.

Definition loadOneTuple (s : string) : M sv_vars Z :=
  v ← get;
  (if bool_decide (barrays v = []) then abort "assertion failed" else mret tt) ;;
  (if 0 <? remaining_replay_size v then
     match push_at (thr_id v) s (barrays v) with
     | None => undefined "std::out_of_range"
     | Some l =>
         modify (set_barrays l) ;;
         modify (λ v, set_remaining (u64 (remaining_replay_size v - 1)) v) ;;
         modify (λ v, if u64 (replay_size v - iter v) =? 1
                      then set_cursor (u64 (thr_id v + 1)) 0 v
                      else set_cursor (thr_id v) (u64 (iter v + 1)) v)
     end
   else mret tt) ;;
  v ← get;
  mret (i64 (remaining_replay_size v)).

(** Every thread gets the same poison pill. *)
Definition loadPoisonPills (s : string) : M sv_vars unit :=
  v ← get;
  (if bool_decide (barrays v = []) then abort "assertion failed" else mret tt) ;;
  modify (set_b_pills (map (λ l, l ++ [s]) (b_pills v))).

(** The Java agent's get_tuple, by index. *)
Definition prepare_replays (get_tuple : Z → string) (offset size : Z) : list string :=
  map (λ i, get_tuple (i64 (offset + Z.of_nat i))) (seq 0 (Z.to_nat size)).

Definition loadAllStrTuples (get_tuple : Z → string) : M sv_vars unit :=
  modify (λ v, set_sarrays
    (imap (λ i l, l ++ prepare_replays get_tuple
                    (u64 (Z.of_nat i * replay_size v + tup_idx_offset v)) (replay_size v))
       (sarrays v)) v).

(** The arrays runDGSender hands to its threads: the byte arrays when the first
    string array is empty. *)
Definition choose_arrays : M sv_vars (list (list string) * list (list string)) :=
  v ← get;
  match sarrays v, barrays v with
  | [] :: _, (_ :: _) :: _ => mret (barrays v, b_pills v)
  | [] :: _, [] :: _ => abort "assertion failed: no tuple is loaded"
  | (_ :: _) :: _, _ => mret (sarrays v, s_pills v)
  | _, _ => undefined "front of an empty vector"
  end.

(** ** Loading tuple by tuple *)
Fixpoint load_each (ts : list string) : M sv_vars (list Z) :=
  match ts with
  | [] => mret []
  | s :: ts => r ← loadOneTuple s; rs ← load_each ts; mret (r :: rs)
  end.

(** The arrays when the tuples [ts] were dealt out, [r] to a thread. *)
Definition dealt (n r : nat) (ts : list string) : list (list string) :=
  map (λ i, take r (drop (i * r) ts)) (seq 0 n).

Record load_inv (n r : nat) (ts : list string) (v : sv_vars) : Prop := LoadInv {
  li_replay : replay_size v = Z.of_nat r;
  li_remaining : remaining_replay_size v = Z.of_nat (n * r) - Z.of_nat (length ts);
  li_arrays : barrays v = dealt n r ts;
  li_thr : thr_id v = Z.of_nat (length ts / r);
  li_iter : iter v = Z.of_nat (length ts mod r)
}.

Lemma dealt_lookup n r ts i :
  (i < n)%nat → dealt n r ts !! i = Some (take r (drop (i * r) ts)).
Proof.
  intros Hi. unfold dealt. change (map ?f ?l) with (f <$> l).
  rewrite list_lookup_fmap, lookup_seq_lt by done. done.
Qed.

Lemma length_dealt n r ts : length (dealt n r ts) = n.
Proof. unfold dealt. by rewrite length_map, length_seq. Qed.

(** One more tuple goes to the thread whose turn it is. *)
Lemma dealt_snoc n r ts s :
  (0 < r)%nat → (length ts < n * r)%nat →
  push_at (Z.of_nat (length ts / r)) s (dealt n r ts) = Some (dealt n r (ts ++ [s])).
Proof.
  intros Hr Hl. set (k := length ts) in *.
  assert (k / r < n)%nat as Hn by (apply Nat.Div0.div_lt_upper_bound; lia).
  pose proof (Nat.div_mod k r ltac:(lia)) as Hd.
  pose proof (Nat.mod_upper_bound k r ltac:(lia)) as Hm.
  unfold push_at. rewrite Nat2Z.id, dealt_lookup by done. f_equal.
  apply list_eq. intros i. destruct (decide (i < n)%nat) as [Hi|Hi].
  - rewrite (dealt_lookup n r (ts ++ [s])) by done.
    destruct (decide (i = (k / r)%nat)) as [->|Hne].
    + rewrite list_lookup_insert_eq by (by rewrite length_dealt). f_equal.
      rewrite drop_app_le by (fold k; nia).
      rewrite (take_ge (drop _ ts)) by (rewrite length_drop; fold k; nia).
      rewrite take_ge; [done|]. rewrite length_app, length_drop. simpl. fold k. nia.
    + rewrite list_lookup_insert_ne, dealt_lookup by done. f_equal.
      destruct (decide (i < k / r)%nat).
      * rewrite drop_app_le by (fold k; nia).
        by rewrite take_app_le by (rewrite length_drop; fold k; nia).
      * rewrite !drop_ge; [done| |fold k; nia]. rewrite length_app. simpl. fold k. nia.
  - rewrite !lookup_ge_None_2; [done|rewrite length_dealt; lia|].
    rewrite length_insert, length_dealt. lia.
Qed.

Lemma next_turn k r :
  (0 < r)%nat →
  ((S k) / r)%nat = (if (r - k mod r =? 1)%nat then S (k / r) else k / r)%nat
  ∧ (S k mod r)%nat = (if (r - k mod r =? 1)%nat then 0 else S (k mod r))%nat.
Proof.
  intros Hr. pose proof (Nat.div_mod k r ltac:(lia)) as Hd.
  pose proof (Nat.mod_upper_bound k r ltac:(lia)) as Hm.
  set (q := (k / r)%nat) in *. set (m := (k mod r)%nat) in *. clearbody q m.
  destruct (Nat.eqb_spec (r - m) 1).
  - split; symmetry; [apply (Nat.div_unique _ _ _ 0)|apply (Nat.mod_unique _ _ (S q))]; nia.
  - split; symmetry;
      [apply (Nat.div_unique _ _ _ (S m))|apply (Nat.mod_unique _ _ q)]; nia.
Qed.

Lemma factor_bounds n r :
  (0 < n * r)%nat → Z.of_nat (n * r) < 2 ^ 63 →
  Z.of_nat n < 2 ^ 63 ∧ Z.of_nat r < 2 ^ 63.
Proof.
  intros H0 Hb. assert (n ≠ 0%nat ∧ r ≠ 0%nat) as [? ?] by (split; intros ->; lia).
  assert (n <= n * r)%nat by nia. assert (r <= n * r)%nat by nia. lia.
Qed.

Lemma load_step n r ts v s :
  (0 < r)%nat → (length ts < n * r)%nat → Z.of_nat (n * r) < 2 ^ 63 →
  load_inv n r ts v →
  ∃ v', loadOneTuple s v
        = (v', Ret (Z.of_nat (n * r) - Z.of_nat (length (ts ++ [s]))))
    ∧ load_inv n r (ts ++ [s]) v'.
Proof.
  intros Hr Hl Hb [Ir Im Ia It Ii].
  pose proof (Nat.mod_upper_bound (length ts) r ltac:(lia)) as Hmod.
  destruct (next_turn (length ts) r Hr) as [Ed Em].
  destruct (factor_bounds n r) as [Hnb Hrb]; [lia|done|].
  assert (length ts / r < n)%nat as Hn by (apply Nat.Div0.div_lt_upper_bound; lia).
  unfold loadOneTuple. rewrite (bind_Ret get _ _ _ _ eq_refl).
  rewrite bool_decide_eq_false_2.
  2: { rewrite Ia. intros E1%(f_equal length). rewrite length_dealt in E1. simpl in E1. lia. }
  rewrite bind_ret_l, (proj2 (Z.ltb_lt _ _)) by lia.
  rewrite It, Ia, dealt_snoc by done.
  rewrite !bind_assoc, (bind_Ret (modify _) _ _ _ tt eq_refl).
  rewrite !bind_assoc, (bind_Ret (modify _) _ _ _ tt eq_refl).
  rewrite (bind_Ret (modify _) _ _ _ tt eq_refl), (bind_Ret get _ _ _ _ eq_refl).
  assert (u64 (remaining_replay_size v - 1)
    = Z.of_nat (n * r) - Z.of_nat (length (ts ++ [s]))) as Erem.
  { rewrite Im, length_app. simpl. unwrap. lia. }
  assert (u64 (replay_size v - iter v) = Z.of_nat (r - length ts mod r)) as Eturn.
  { rewrite Ir, Ii. unwrap. lia. }
  eexists. split.
  - unfold mret, M_ret. do 2 f_equal. simpl. rewrite Eturn.
    destruct (Z.of_nat (r - length ts mod r) =? 1); simpl; rewrite Erem;
      rewrite length_app; simpl; unwrap; lia.
  - simpl. rewrite Eturn, Ii. rewrite length_app in Erem. simpl in Erem.
    rewrite Nat.add_1_r in Erem.
    destruct (Nat.eqb_spec (r - length ts mod r) 1) as [E1|E1].
    + rewrite E1. cbv iota. constructor; simpl; rewrite ?length_app, ?Nat.add_1_r, ?Ed, ?Em;
        simpl; try done. rewrite It. unwrap. lia.
    + rewrite (proj2 (Z.eqb_neq _ _)) by lia.
      constructor; simpl; rewrite ?length_app, ?Nat.add_1_r, ?Ed, ?Em; simpl; try done.
      unwrap. lia.
Qed.

Lemma load_each_run n r ts ts' v :
  (0 < r)%nat → (length (ts ++ ts') <= n * r)%nat → Z.of_nat (n * r) < 2 ^ 63 →
  load_inv n r ts v →
  ∃ v', load_each ts' v
        = (v', Ret (map (λ i, Z.of_nat (n * r) - Z.of_nat (length ts + S i))
                      (seq 0 (length ts'))))
    ∧ load_inv n r (ts ++ ts') v'.
Proof.
  intros Hr Hl Hb. revert ts v Hl. induction ts' as [|s ts' IH]; intros ts v Hl I.
  { exists v. by rewrite app_nil_r. }
  rewrite length_app in Hl. simpl in Hl.
  destruct (load_step n r ts v s Hr ltac:(lia) Hb I) as (v1 & E1 & I1).
  destruct (IH (ts ++ [s]) v1) as (v2 & E2 & I2);
    [rewrite !length_app; simpl; lia|done|].
  rewrite <- app_assoc in I2. exists v2. split; [|exact I2]. cbn [load_each].
  rewrite (bind_Ret _ _ _ _ _ E1), (bind_Ret _ _ _ _ _ E2).
  unfold mret, M_ret. do 2 f_equal. rewrite length_app. simpl.
  f_equal. rewrite <- seq_shift, map_map. apply map_ext. intros i. lia.
Qed.

(** A thread's array is complete: another load changes nothing. *)
Lemma load_full n r ts v s :
  (0 < n)%nat → length ts = (n * r)%nat → load_inv n r ts v →
  loadOneTuple s v = (v, Ret 0).
Proof.
  intros Hn Hl [Ir Im Ia It Ii]. unfold loadOneTuple.
  rewrite (bind_Ret get _ _ _ _ eq_refl), bool_decide_eq_false_2.
  2: { rewrite Ia. intros E1%(f_equal length). rewrite length_dealt in E1. simpl in E1. lia. }
  rewrite bind_ret_l, Im, Hl. rewrite (proj2 (Z.ltb_ge _ _)) by lia.
  rewrite bind_ret_l, (bind_Ret get _ _ _ _ eq_refl), Im, Hl.
  by rewrite Z.sub_diag.
Qed.

Lemma init_load_inv n r port emit pill offset throughput slg v :
  (0 < r)%nat → throughput * emit = Z.of_nat r → Z.of_nat (n * r) < 2 ^ 63 →
  (0 < n)%nat →
  ∃ v', initDGSender port emit pill offset throughput slg (Z.of_nat n) v = (v', Ret tt)
        ∧ load_inv n r [] v'.
Proof.
  intros Hr Hx Hb Hn. destruct (factor_bounds n r) as [Hnb Hrb]; [nia|done|].
  eexists. split; [reflexivity|].
  assert (u64 (throughput * emit) = Z.of_nat r) as E1 by (rewrite Hx; unwrap; lia).
  constructor; simpl.
  - exact E1.
  - rewrite E1. unwrap. lia.
  - unfold no_tuples, dealt. rewrite Nat2Z.id.
    rewrite (map_ext _ (λ _, [])) by (intros i; by rewrite drop_nil, take_nil).
    change (map ?f ?l) with (f <$> l). by rewrite (const_fmap _ _ []), length_seq by done.
  - by rewrite Nat.Div0.div_0_l.
  - by rewrite Nat.Div0.mod_0_l.
Qed.

(** Loading deals the tuples out: after initDGSender for n threads with r
    tuples each, loading n * r tuples one by one reports after each how many are
    missing, and leaves thread i with the tuples i * r, ..., i * r + r - 1 in the
    order in which they were loaded. Further tuples are ignored. *)
Theorem load_deals_tuples n r port emit pill offset throughput slg ts extra v :
  (0 < n)%nat → (0 < r)%nat → throughput * emit = Z.of_nat r →
  Z.of_nat (n * r) < 2 ^ 63 → length ts = (n * r)%nat →
  ∃ v', (initDGSender port emit pill offset throughput slg (Z.of_nat n) ;; load_each ts) v
        = (v', Ret (map (λ i, Z.of_nat (n * r - S i)) (seq 0 (n * r))))
    ∧ barrays v' = map (λ i, take r (drop (i * r) ts)) (seq 0 n)
    ∧ concat (barrays v') = ts
    ∧ loadOneTuple extra v' = (v', Ret 0).
Proof.
  intros Hn Hr Hx Hb Hl.
  destruct (init_load_inv n r port emit pill offset throughput slg v) as (v1 & E1 & I1);
    [done..|].
  destruct (load_each_run n r [] ts v1 Hr ltac:(simpl; lia) Hb I1) as (v2 & E2 & I2).
  exists v2. split_and!.
  - rewrite (bind_Ret _ _ _ _ _ E1), E2, Hl. do 2 f_equal. apply map_ext_in.
    intros i Hi%in_seq. simpl. lia.
  - apply I2.
  - rewrite (li_arrays _ _ _ _ I2). simpl. clear -Hl. revert ts Hl.
    induction n as [|n IH]; intros ts Hl; [by destruct ts|].
    unfold dealt. cbn [seq map concat]. rewrite <- seq_shift, map_map, drop_0.
    etrans; [|apply (take_drop r ts)]. f_equal.
    etrans; [|apply (IH (drop r ts)); rewrite length_drop; lia].
    unfold dealt. f_equal. apply map_ext. intros i. by rewrite drop_drop.
  - by apply (load_full n r ts).
Qed.

Lemma load_deals_tuples_witness :
  ∃ v', (initDGSender 9200 1 0 0 2 0 3 ;; load_each ["a"; "b"; "c"; "d"; "e"; "f"]) sv_vars0
        = (v', Ret [5; 4; 3; 2; 1; 0])
    ∧ barrays v' = [["a"; "b"]; ["c"; "d"]; ["e"; "f"]].
Proof.
  destruct (load_deals_tuples 3 2 9200 1 0 0 2 0 ["a"; "b"; "c"; "d"; "e"; "f"] "g" sv_vars0)
    as (v' & E1 & E2 & _); [lia..|done|].
  exists v'. split; [exact E1|exact E2].
Defined.
