(* ===== verification/EmitPace.v ===== *)
(** * Data generator: paced emission, src/cp/cpp_emit/emit.cpp

    A sender thread replays its array of tuples at a given rate: after every
    tuple it polls the clock until the time of one emission is over, after every
    batch (the tuples of a millisecond) until the millisecond is over, and it
    stops after a batch that ends past the duration. *)
From S2P Require Import Prelude TimeStamp Platform Log EmitLoad.

Definition POLL_ENQUEUE_OVERHEAD : Z := 1900.

(** What the generator needs of the profiler: channels and the clock; [p_clk]
    counts its readings. *)
Class Profiler (W : Type) := {
  p_clk : W → nat;
  p_openChannel : string → M W Z;    (* ASCII, NET_CONF *)
  p_logTS : Z → Z → M W unit;
  p_getTS : M W timespec
}.

(** A call of the profiler returns, after at most [calls] readings. *)
Class ProfilerLaws (W : Type) `{Env} `{Profiler W} := {
  calls : nat;
  law_getTS w : ∃ w', p_getTS w = (w', Ret (clock (p_clk w))) ∧ p_clk w' = S (p_clk w);
  law_open n w : ∃ w' h, p_openChannel n w = (w', Ret h)
                   ∧ (p_clk w <= p_clk w' <= p_clk w + calls)%nat;
  law_log h x w : ∃ w', p_logTS h x w = (w', Ret tt)
                   ∧ (p_clk w <= p_clk w' <= p_clk w + calls)%nat
}.

(** ** The loops, for any way to send the next tuple *)
Section Loops.
Context `{Env} {S : Type} (getTS : M S timespec) (send_next : M S unit).

(** [do { getTS(&curTime); } while (compareTS(&curTime, &limit) < 0)]. *)
Fixpoint poll_until (waits : nat) (limit : timespec) : M S timespec :=
  match waits with
  | O => spin "the clock does not reach the limit"
  | Datatypes.S waits =>
      curTime ← getTS;
      if compareTS curTime limit <? 0 then poll_until waits limit else mret curTime
  end.

Fixpoint emit_batch (waits : nat) (TS_RESIDUE : timespec) (n : nat)
    (curTime : timespec) : M S timespec :=
  match n with
  | O => mret curTime
  | Datatypes.S n =>
      send_next ;;
      let emitEnd := addTS stale_ts curTime TS_RESIDUE in
      curTime ← poll_until waits emitEnd;
      emit_batch waits TS_RESIDUE n curTime
  end.

Fixpoint emit_rounds (waits rounds : nat) (TS_RESIDUE TS_BUDGET TS_END : timespec)
    (per_ms : nat) (curTime budgetEnd : timespec) : M S unit :=
  match rounds with
  | O => spin "the end of the emission is not reached"
  | Datatypes.S rounds =>
      curTime ← emit_batch waits TS_RESIDUE per_ms curTime;
      let budgetEnd := addTS budgetEnd budgetEnd TS_BUDGET in
      curTime ← poll_until waits budgetEnd;
      if 0 <=? compareTS curTime TS_END then mret tt
      else emit_rounds waits rounds TS_RESIDUE TS_BUDGET TS_END per_ms curTime budgetEnd
  end.

(** The tuples of [dur] seconds. *)
Definition emit_for (waits rounds : nat) (dur residue budget : Z) (per_ms : Z)
    : M S unit :=
  TS_START ← getTS;
  let TS_NULL := Timespec 0 0 0 0 in
  let TS_END := Timespec (i64 (tv_sec TS_START + dur)) (tv_nsec TS_START) 0 0 in
  let curTime := addTS stale_ts TS_START TS_NULL in
  let budgetEnd := addTS stale_ts TS_START TS_NULL in
  emit_rounds waits rounds (Timespec 0 residue 0 0) (Timespec 0 budget 0 0) TS_END
    (Z.to_nat per_ms) curTime budgetEnd.
End Loops.

(** ** A sender thread *)

(** The state of the profiler, what was sent on the socket (with the number of
    clock readings taken before), the tuple to send next, and standard output. *)
Record emitter (W : Type) := Emitter {
  em_prof : W;
  em_sent : list (nat * string);
  em_iter : nat;
  em_cout : list string
}.
Arguments Emitter {W}. Arguments em_prof {W}. Arguments em_sent {W}.
Arguments em_iter {W}. Arguments em_cout {W}.

Definition set_em_prof {W} (w : W) (s : emitter W) :=
  Emitter w (em_sent s) (em_iter s) (em_cout s).
Definition set_em_iter {W} i (s : emitter W) :=
  Emitter (em_prof s) (em_sent s) i (em_cout s).

Section Sender.
Context `{Env} {W : Type} `{!Profiler W}.

Definition on_prof {A} : M W A → M (emitter W) A := zoom em_prof set_em_prof.

Definition push_socket (m : string) : M (emitter W) unit :=
  modify (λ s, Emitter (em_prof s) (em_sent s ++ [(p_clk (em_prof s), m)]) (em_iter s)
                 (em_cout s)).
Definition say (m : string) : M (emitter W) unit :=
  modify (λ s, Emitter (em_prof s) (em_sent s) (em_iter s) (em_cout s ++ [m])).

(** The tuple under the iterator is sent; the iterator goes on, and from the end
    back to the beginning. *)
Definition send_tuple (vec : list string) : M (emitter W) unit :=
  s ← get;
  match vec !! em_iter s with
  | None => undefined "end of the vector dereferenced"
  | Some str =>
      push_socket str ;;
      modify (set_em_iter (if (S (em_iter s) =? length vec)%nat then 0 else S (em_iter s))%nat)
  end.

(** NANO_S_PER_S and MILLI_S_PER_S are unsigned. *)
Definition per_ms_throughput (per_sec : Z) : Z :=
  if MILLI_S_PER_S <? u64 per_sec then i64 (u64 per_sec `div` MILLI_S_PER_S) else per_sec.
Definition budget_per_emission (per_sec : Z) : Z := i64 (NANO_S_PER_S `div` u64 per_sec).

(** One phase of the scheduler: the tuples of [vec] for [dur] seconds. The fuel is
    the number of milliseconds, of which every round takes one at least. *)
Definition phase_rounds (dur : Z) : nat := Nat.max 1 (Z.to_nat (dur * MILLI_S_PER_S)).

Definition emit_phase (waits : nat) (svvs : sv_vars) (dur residue : Z)
    (vec : list string) : M (emitter W) unit :=
  modify (set_em_iter 0) ;;
  emit_for (on_prof p_getTS) (send_tuple vec) waits (phase_rounds dur) dur residue
    (time_budget svvs) (per_ms_throughput (per_sec_throughput svvs)).

(** The message the socket is opened with, with its NUL. *)
Definition init_message : string := "init" +:+ String "000"%char "".

(** A thread once its channels are open. *)
Definition run_sender (waits : nat) (tid : Z) (svvs : sv_vars) (v v2 : list string)
    (ch_fpc ch_blk ch_ovr : Z) : M (emitter W) unit :=
  say ("[tid: " +:+ zstr tid +:+ "] Entering into a mute state.." +:+ nl) ;;
  push_socket init_message ;;
  say ("[tid: " +:+ zstr tid +:+ "] Begin pushing to the downstream pipeline nodes." +:+ nl) ;;
  (if per_sec_throughput svvs =? 0 then undefined "division by zero" else mret tt) ;;
  let budget := budget_per_emission (per_sec_throughput svvs) in
  let overhead := i64 (POLL_ENQUEUE_OVERHEAD + slag svvs) in
  let residue := i64 (budget - overhead) in
  (if budget <? overhead then exit 1 else mret tt) ;;
  emit_phase waits svvs (emit_dur svvs) residue v ;;
  (if 0 <? pill_dur svvs then emit_phase waits svvs (pill_dur svvs) residue v2
   else mret tt) ;;
  on_prof (p_logTS ch_fpc (-1)) ;;
  on_prof (p_logTS ch_ovr (-1)) ;;
  on_prof (p_logTS ch_blk (-1)).

(** A thread of runDGSender; the two barriers only start the threads together. *)
Definition mt_emitScheduler (waits : nat) (tid : Z) (svvs : sv_vars)
    (v v2 : list string) : M (emitter W) unit :=
  ch_fpc ← on_prof (p_openChannel "SwigCPPDGServer      FPC_10MS");
  ch_blk ← on_prof (p_openChannel "SwigCPPDGServer    BLKFPC10MS");
  ch_ovr ← on_prof (p_openChannel "SwigCPPDGServer       OVERRUN");
  ch_bid ← on_prof (p_openChannel "SwigCPPDGServer      IDENTITY");
  run_sender waits tid svvs v v2 ch_fpc ch_blk ch_ovr.

(** ** A clock that goes on *)
Definition em_clk (s : emitter W) : nat := p_clk (em_prof s).

(** Readings [lo] to [hi]: they fit, do not go back, and in any [waits] of them
    the time advances by [D] nanoseconds. *)
Record clock_ok (lo hi waits : nat) (D : Z) : Prop := ClockOk {
  ck_fits c : (lo <= c < hi)%nat → ts_wf (clock c) ∧ 0 ≤ tv_sec (clock c) < 2 ^ 61;
  ck_mono c : (lo <= c)%nat → (S c < hi)%nat → ts_ns (clock c) ≤ ts_ns (clock (S c));
  ck_adv c : (lo <= c)%nat → (c + waits < hi)%nat →
             ts_ns (clock c) + D ≤ ts_ns (clock (c + waits))
}.

Lemma ck_le lo hi waits D c c' :
  clock_ok lo hi waits D → (lo <= c)%nat → (c <= c')%nat → (c' < hi)%nat →
  ts_ns (clock c) ≤ ts_ns (clock c').
Proof.
  intros K Hl Hc Hh. induction Hc as [|c' Hc IH]; [lia|].
  etrans; [apply IH; lia|]. apply (ck_mono _ _ _ _ K); lia.
Qed.

Lemma ck_ts_fits lo hi waits D c :
  clock_ok lo hi waits D → (lo <= c < hi)%nat → ts_fits (clock c).
Proof.
  intros K Hc. destruct (ck_fits _ _ _ _ K c Hc) as [Hw Hs]. split; [done|]. lia.
Qed.

Lemma compareTS_ge a b : ts_wf a → ts_wf b → 0 ≤ compareTS a b ↔ ts_ns b ≤ ts_ns a.
Proof.
  intros Ha Hb. rewrite compareTS_spec by done.
  destruct (Z.compare_spec (ts_ns a) (ts_ns b)); lia.
Qed.

(** What polling leaves alone. *)
Definition same_output (s s' : emitter W) : Prop :=
  em_sent s' = em_sent s ∧ em_iter s' = em_iter s.

Context `{!ProfilerLaws W}.

Lemma getTS_run s :
  ∃ s', on_prof p_getTS s = (s', Ret (clock (em_clk s)))
        ∧ em_clk s' = S (em_clk s) ∧ same_output s s'.
Proof.
  destruct (law_getTS (em_prof s)) as (w' & E1 & E2). exists (set_em_prof w' s).
  unfold on_prof, zoom. rewrite E1. done.
Qed.

Lemma poll_until_run waits limit s :
  (∃ j, (j < waits)%nat ∧ 0 ≤ compareTS (clock (em_clk s + j)) limit) →
  ∃ s' j, poll_until (on_prof p_getTS) waits limit s = (s', Ret (clock (em_clk s + j)))
    ∧ em_clk s' = S (em_clk s + j) ∧ (j < waits)%nat
    ∧ 0 ≤ compareTS (clock (em_clk s + j)) limit ∧ same_output s s'.
Proof.
  revert s. induction waits as [|waits IH]; intros s (j & Hj & Hb); [lia|].
  destruct (getTS_run s) as (s1 & E1 & C1 & O1). cbn [poll_until].
  rewrite (bind_Ret _ _ _ _ _ E1).
  destruct (Z.ltb_spec (compareTS (clock (em_clk s)) limit) 0) as [Hlt|Hge].
  - destruct j as [|j]; [rewrite Nat.add_0_r in Hb; lia|].
    destruct (IH s1) as (s2 & k & E2 & C2 & Hk & Hc & O2).
    { exists j. split; [lia|]. rewrite C1. by rewrite Nat.add_succ_r in Hb. }
    rewrite C1 in *. exists s2, (S k). rewrite Nat.add_succ_r.
    destruct O1, O2. split_and!; [exact E2|exact C2|lia|exact Hc|split; congruence].
  - exists s1, 0%nat. rewrite Nat.add_0_r. split_and!; [done|done|lia|lia|done].
Qed.

(** The thread has just read the clock, and [curTime] holds that instant. *)
Record at_time (lo c : nat) (curTime : timespec) (s : emitter W) : Prop := AtTime {
  at_clk : em_clk s = S c;
  at_lo : (lo <= c)%nat;
  at_fits : ts_fits curTime;
  at_ns : ts_ns curTime = ts_ns (clock c)
}.

(** Waiting for a limit at most [D] away: the next reading taken is past it. *)
Lemma poll_at lo hi waits D c curTime limit s :
  clock_ok lo hi waits D → at_time lo c curTime s → (c + waits < hi)%nat → (0 < waits)%nat →
  ts_wf limit → ts_ns limit ≤ ts_ns (clock c) + D →
  ∃ s' c', poll_until (on_prof p_getTS) waits limit s = (s', Ret (clock c'))
    ∧ at_time lo c' (clock c') s' ∧ (c < c' <= c + waits)%nat
    ∧ ts_ns limit ≤ ts_ns (clock c') ∧ same_output s s'.
Proof.
  intros K [Ac Al Af An] Hh Hw Lw Ln.
  destruct (poll_until_run waits limit s) as (s1 & j & E1 & C1 & Hj & Hb & O1).
  { exists (pred waits). split; [lia|]. rewrite Ac.
    replace (S c + pred waits)%nat with (c + waits)%nat by lia.
    apply compareTS_ge; [by apply (ck_fits _ _ _ _ K); lia|done|].
    etrans; [exact Ln|]. by apply (ck_adv _ _ _ _ K). }
  rewrite Ac in *. exists s1, (S c + j)%nat.
  pose proof (ck_ts_fits lo hi waits D (S c + j) K ltac:(lia)) as F.
  split_and!; [done|by constructor; [done|lia| |]|lia..| |done].
  apply compareTS_ge; [apply F|done|done].
Qed.

(** ** What is sent *)

(** From reading [c] on, messages that start at place [it] of [vec], [residue]
    nanoseconds apart at least. *)
Record paced (vec : list string) (it c : nat) (residue : Z) (sends : list (nat * string))
    : Prop := Paced {
  pc_tuple j x : sends !! j = Some x → vec !! ((it + j) mod length vec)%nat = Some x.2;
  pc_time j x : sends !! j = Some x →
    ts_ns (clock c) + Z.of_nat j * residue ≤ ts_ns (clock (pred x.1))
}.

Lemma send_tuple_run vec s :
  (em_iter s < length vec)%nat →
  ∃ str, vec !! em_iter s = Some str
    ∧ send_tuple vec s
      = (Emitter (em_prof s) (em_sent s ++ [(em_clk s, str)])
           (S (em_iter s) mod length vec) (em_cout s), Ret tt).
Proof.
  intros Hi. destruct (lookup_lt_is_Some_2 _ _ Hi) as [str Hs]. exists str.
  split; [done|]. unfold send_tuple. rewrite (bind_Ret get _ _ _ _ eq_refl), Hs.
  rewrite (bind_Ret (push_socket _) _ _ _ tt eq_refl). unfold modify, set_em_iter.
  cbn [em_prof em_sent em_iter em_cout].
  assert ((if (S (em_iter s) =? length vec)%nat then 0 else S (em_iter s))%nat
    = (S (em_iter s) mod length vec)%nat) as ->; [|done].
  destruct (Nat.eqb_spec (S (em_iter s)) (length vec)) as [->|].
  - symmetry. apply Nat.Div0.mod_same.
  - symmetry. apply Nat.mod_small. lia.
Qed.

Lemma small_ts_fits n : 0 ≤ n < NANO_S_PER_S → ts_fits (Timespec 0 n 0 0).
Proof. intros Hn. split; [exact Hn|]. simpl. lia. Qed.

Lemma small_ts_ns n : ts_ns (Timespec 0 n 0 0) = n.
Proof. done. Qed.

Lemma fits_of_ns lo hi waits D t c :
  clock_ok lo hi waits D → ts_wf t → (lo <= c < hi)%nat →
  0 ≤ ts_ns t ≤ ts_ns (clock c) + NANO_S_PER_S → ts_fits t.
Proof.
  intros K Hw Hc Hn. destruct (ck_fits _ _ _ _ K c Hc) as [Hcw Hcs].
  ts_unfold. change (2 ^ 61) with 2305843009213693952 in *. lia.
Qed.

Section Emission.
Context (lo hi waits : nat) (D residue : Z) (vec : list string).
Context (K : clock_ok lo hi waits D) (Hwaits : (0 < waits)%nat).
Context (Hres : 0 ≤ residue < NANO_S_PER_S) (HD : residue ≤ D).
Context (Hvec : vec ≠ []).

Lemma length_vec_pos : (0 < length vec)%nat.
Proof. destruct vec; [done|simpl; lia]. Qed.

(** A message sent at [c], followed by messages [residue] later. *)
Lemma paced_cons it c c' str sends :
  vec !! (it mod length vec)%nat = Some str →
  ts_ns (clock c) + residue ≤ ts_ns (clock c') →
  paced vec (S it) c' residue sends → paced vec it c residue ((S c, str) :: sends).
Proof.
  intros Hs Hc [Pt Pp]. constructor; intros [|j] x Hx; simpl in Hx.
  - simplify_eq. by rewrite Nat.add_0_r.
  - specialize (Pt _ _ Hx). by rewrite Nat.add_succ_comm in Pt.
  - simplify_eq. simpl. lia.
  - specialize (Pp _ _ Hx). lia.
Qed.

Lemma emit_batch_run n it c curTime s :
  at_time lo c curTime s → (c + n * waits < hi)%nat →
  em_iter s = (it mod length vec)%nat →
  ∃ s' c' curTime' sends,
    emit_batch (on_prof p_getTS) (send_tuple vec) waits (Timespec 0 residue 0 0) n curTime s
    = (s', Ret curTime')
    ∧ at_time lo c' curTime' s' ∧ (c <= c' <= c + n * waits)%nat
    ∧ em_iter s' = ((it + n) mod length vec)%nat
    ∧ em_sent s' = em_sent s ++ sends ∧ length sends = n
    ∧ paced vec it c residue sends
    ∧ ts_ns (clock c) + Z.of_nat n * residue ≤ ts_ns (clock c').
Proof.
  pose proof length_vec_pos as Hv.
  revert it c curTime s. induction n as [|n IH]; intros it c curTime s A Hh Hit.
  { exists s, c, curTime, []. rewrite (Nat.add_0_r it), app_nil_r.
    split_and!; try lia; try done; by constructor. }
  cbn [emit_batch].
  destruct (send_tuple_run vec s) as (str & Hs & E1);
    [rewrite Hit; apply Nat.mod_upper_bound; lia|].
  rewrite (bind_Ret _ _ _ _ _ E1). set (s1 := Emitter _ _ _ _).
  assert (at_time lo c curTime s1) as A1 by (destruct A; by constructor).
  destruct (addTS_spec stale_ts curTime (Timespec 0 residue 0 0)) as [Aw An];
    [apply A|by apply small_ts_fits|].
  rewrite small_ts_ns in An.
  destruct (poll_at lo hi waits D c curTime (addTS stale_ts curTime (Timespec 0 residue 0 0)) s1)
    as (s2 & c1 & E2 & A2 & Hc1 & Hl & O2 & I2); [exact K|exact A1|nia|exact Hwaits|exact Aw| |].
  { rewrite An, (at_ns _ _ _ _ A). lia. }
  cbv zeta. rewrite (bind_Ret _ _ _ _ _ E2).
  destruct (IH (S it) c1 (clock c1) s2 A2) as (s3 & c3 & cur3 & sends & E3 & A3 & Hc3 & I3 & S3 & L3 & P3 & T3).
  { lia. }
  { rewrite I2. cbn [em_iter s1]. rewrite Hit.
    by rewrite <- (Nat.add_1_r (it mod _)), Nat.Div0.add_mod_idemp_l, Nat.add_1_r. }
  rewrite An, (at_ns _ _ _ _ A) in Hl.
  exists s3, c3, cur3, ((S c, str) :: sends). split_and!.
  - exact E3.
  - exact A3.
  - lia.
  - lia.
  - rewrite I3. f_equal. lia.
  - rewrite S3, O2. cbn [em_sent s1]. rewrite (at_clk _ _ _ _ A). by rewrite <- app_assoc.
  - simpl. lia.
  - apply (paced_cons it c c1); [|lia|exact P3]. by rewrite <- Hit.
  - lia.
Qed.

Lemma paced_app it c c' n l1 l2 :
  length l1 = n → ts_ns (clock c) + Z.of_nat n * residue ≤ ts_ns (clock c') →
  paced vec it c residue l1 → paced vec (it + n) c' residue l2 →
  paced vec it c residue (l1 ++ l2).
Proof.
  intros Hl Hc [T1 P1] [T2 P2]. constructor; intros j x Hx;
    apply lookup_app_Some in Hx as [Hx|[Hj Hx]]; [by apply T1| |by apply P1|].
  - specialize (T2 _ _ Hx). by replace (it + n + (j - length l1))%nat with (it + j)%nat in T2 by lia.
  - specialize (P2 _ _ Hx). nia.
Qed.

(** At most [P] messages before the first [B] nanoseconds are over, [P] more
    before the next, and so on. *)
Definition rated (start B : Z) (P k : nat) (sends : list (nat * string)) : Prop :=
  ∀ j x, sends !! j = Some x →
    start + Z.of_nat (k + j / P) * B ≤ ts_ns (clock (pred x.1)).

Lemma rated_app start B P k c l1 l2 :
  0 ≤ B → length l1 = P → start + Z.of_nat k * B ≤ ts_ns (clock c) →
  (∀ j x, l1 !! j = Some x → ts_ns (clock c) ≤ ts_ns (clock (pred x.1))) →
  rated start B P (S k) l2 → rated start B P k (l1 ++ l2).
Proof.
  intros HB Hl Hc H1' H2' j x Hx. apply lookup_app_Some in Hx as [Hx|[Hj Hx]].
  - pose proof (lookup_lt_Some _ _ _ Hx). rewrite Nat.div_small by lia.
    specialize (H1' _ _ Hx). rewrite Nat.add_0_r. lia.
  - specialize (H2' _ _ Hx). destruct (decide (P = 0%nat)) as [->|HP].
    { change (_ / 0)%nat with 0%nat in H2' |- *. nia. }
    replace (k + j / P)%nat with (S k + (j - length l1) / P)%nat; [exact H2'|].
    replace j with (j - length l1 + 1 * P)%nat at 2 by lia.
    rewrite Nat.div_add by done. lia.
Qed.

Context (P : nat) (B : Z) (HB : 0 ≤ B < NANO_S_PER_S) (HBD : B ≤ D).

(** One round: the tuples of an interval, and waiting for its end. *)
Lemma emit_round_run k it c curTime budgetEnd start s :
  at_time lo c curTime s → (c + S P * waits < hi)%nat →
  em_iter s = (it mod length vec)%nat → 0 ≤ start →
  ts_fits budgetEnd → ts_ns budgetEnd = start + Z.of_nat k * B →
  start + Z.of_nat k * B ≤ ts_ns (clock c) →
  let b1 := addTS budgetEnd budgetEnd (Timespec 0 B 0 0) in
  ts_wf b1 ∧ ts_ns b1 = start + Z.of_nat (S k) * B ∧
  ∃ s1 cur1 s2 c2 sends,
    emit_batch (on_prof p_getTS) (send_tuple vec) waits (Timespec 0 residue 0 0) P curTime s
    = (s1, Ret cur1)
    ∧ poll_until (on_prof p_getTS) waits b1 s1 = (s2, Ret (clock c2))
    ∧ at_time lo c2 (clock c2) s2 ∧ (c < c2 <= c + S P * waits)%nat
    ∧ ts_ns b1 ≤ ts_ns (clock c2)
    ∧ em_iter s2 = ((it + P) mod length vec)%nat
    ∧ em_sent s2 = em_sent s ++ sends ∧ length sends = P
    ∧ paced vec it c residue sends ∧ rated start B P k sends
    ∧ ts_ns (clock c) + Z.of_nat P * residue ≤ ts_ns (clock c2).
Proof.
  intros A Hh Hit Hs Bf Bn Hc b1.
  destruct (emit_batch_run P it c curTime s A)
    as (s1 & c1 & cur1 & l1 & E1 & A1 & Hc1 & I1 & S1 & L1 & P1 & T1); [nia|done|].
  destruct (addTS_spec budgetEnd budgetEnd (Timespec 0 B 0 0)) as [Aw An];
    [done|by apply small_ts_fits|].
  rewrite small_ts_ns, Bn in An. fold b1 in Aw, An.
  assert (start + Z.of_nat k * B ≤ ts_ns (clock c1)) as Hc1'.
  { etrans; [exact Hc|]. apply (ck_le lo hi waits D); [done|apply A|lia|nia]. }
  destruct (poll_at lo hi waits D c1 cur1 b1 s1) as (s2 & c2 & E2 & A2 & Hc2 & Hl2 & O2 & I2);
    [exact K|exact A1|nia|exact Hwaits|exact Aw|rewrite An; lia|].
  assert (ts_ns (clock c1) ≤ ts_ns (clock c2)) as H12.
  { apply (ck_le lo hi waits D); [done|apply A1|lia|nia]. }
  split_and!; [done|lia|]. exists s1, cur1, s2, c2, l1.
  split_and!; [done|done|done|nia|nia|done|congruence|congruence|done|done| |lia].
  intros j x Hx. pose proof (lookup_lt_Some _ _ _ Hx). rewrite Nat.div_small by lia.
  pose proof (pc_time _ _ _ _ _ P1 _ _ Hx). nia.
Qed.

Lemma emit_rounds_run rounds k it c curTime budgetEnd TS_END start s :
  at_time lo c curTime s → (c + rounds * (S P * waits) < hi)%nat →
  em_iter s = (it mod length vec)%nat → (0 < rounds)%nat → 0 ≤ start →
  ts_fits budgetEnd → ts_ns budgetEnd = start + Z.of_nat k * B →
  start + Z.of_nat k * B ≤ ts_ns (clock c) →
  ts_wf TS_END → ts_ns TS_END ≤ start + Z.of_nat (k + rounds) * B →
  ∃ s' c' m sends,
    emit_rounds (on_prof p_getTS) (send_tuple vec) waits rounds (Timespec 0 residue 0 0)
      (Timespec 0 B 0 0) TS_END P curTime budgetEnd s = (s', Ret tt)
    ∧ em_clk s' = S c' ∧ (c <= c' <= c + rounds * (S P * waits))%nat
    ∧ (1 <= m <= rounds)%nat ∧ length sends = (m * P)%nat
    ∧ em_sent s' = em_sent s ++ sends
    ∧ paced vec it c residue sends ∧ rated start B P k sends
    ∧ ts_ns TS_END ≤ ts_ns (clock c').
Proof.
  revert k it c curTime budgetEnd s.
  induction rounds as [|rounds IH]; intros k it c curTime budgetEnd s A Hh Hit Hr Hs Bf Bn Hc Ew En;
    [lia|].
  cbn [emit_rounds].
  destruct (emit_round_run k it c curTime budgetEnd start s) as (Aw & An & s1 & cur1 & s2 & c2
    & l1 & E1 & E2 & A2 & Hc2 & Hl2 & I2 & S2 & L1 & P1 & R1 & T2); [done|nia|done..|].
  set (b1 := addTS budgetEnd budgetEnd (Timespec 0 B 0 0)) in *.
  rewrite (bind_Ret _ _ _ _ _ E1). cbv zeta. rewrite (bind_Ret _ _ _ _ _ E2).
  destruct (Z.leb_spec 0 (compareTS (clock c2) TS_END)) as [Hge|Hlt].
  - exists s2, c2, 1%nat, l1.
    split_and!; [done|apply A2|nia|nia|lia|lia|lia|done|done|done|].
    apply compareTS_ge; [apply A2|done|done].
  - assert (ts_ns (clock c2) < ts_ns TS_END) as Hlt'.
    { apply Z.nle_gt. intros Hge%compareTS_ge; [lia|apply A2|done]. }
    destruct (IH (S k) (it + P)%nat c2 (clock c2) b1 s2) as
      (s3 & c3 & m & l2 & E3 & C3 & Hc3 & Hm & L3 & S3 & P3 & R3 & T3); try done.
    + nia.
    + destruct rounds; [|lia]. rewrite Nat.add_1_r in En. lia.
    + apply (fits_of_ns lo hi waits D _ c2); [done..|destruct A2; nia|]. lia.
    + lia.
    + by rewrite Nat.add_succ_comm.
    + exists s3, c3, (S m), (l1 ++ l2).
      split_and!; [exact E3|exact C3|nia|nia|lia|lia|rewrite length_app, L1, L3; lia| | | |exact T3].
      * rewrite S3, S2. by rewrite <- app_assoc.
      * apply (paced_app it c c2 P); [done|lia|done|exact P3].
      * apply (rated_app start B P k c); [lia|done|done| |exact R3].
        intros j x Hx. pose proof (pc_time _ _ _ _ _ P1 _ _ Hx). nia.
Qed.
End Emission.

(** ** A phase *)
Record phase_sent (vec : list string) (P : nat) (residue dur : Z) (c : nat)
    (sends : list (nat * string)) : Prop := PhaseSent {
  ph_length : ∃ m, (1 <= m <= phase_rounds dur)%nat ∧ length sends = (m * P)%nat;
  ph_paced : paced vec 0 c residue sends;
  ph_rated : rated (ts_ns (clock c)) TIME_BUDGET P 0 sends
}.

(** Clock readings of a phase, at most. *)
Definition phase_readings (waits P : nat) (dur : Z) : nat :=
  S (phase_rounds dur * (S P * waits)).

Lemma emit_phase_run lo hi waits D svvs dur residue vec s :
  let P := Z.to_nat (per_ms_throughput (per_sec_throughput svvs)) in
  clock_ok lo hi waits D → (0 < waits)%nat → 0 ≤ residue < NANO_S_PER_S → residue ≤ D →
  TIME_BUDGET ≤ D → vec ≠ [] → time_budget svvs = TIME_BUDGET → 0 ≤ dur < 2 ^ 60 →
  (lo <= em_clk s)%nat → (em_clk s + phase_readings waits P dur < hi)%nat →
  ∃ s' sends,
    emit_phase waits svvs dur residue vec s = (s', Ret tt)
    ∧ (em_clk s <= em_clk s' <= em_clk s + phase_readings waits P dur)%nat
    ∧ em_sent s' = em_sent s ++ sends ∧ phase_sent vec P residue dur (em_clk s) sends.
Proof.
  intros P K Hw Hr HD HBD Hv Hb Hdur Hlo Hhi. unfold phase_readings in *.
  unfold emit_phase, emit_for. rewrite (bind_Ret (modify _) _ _ _ tt eq_refl).
  set (s0 := set_em_iter 0 s). set (c := em_clk s) in *.
  destruct (getTS_run s0) as (s1 & E1 & C1 & O1 & I1). change (em_clk s0) with c in E1, C1.
  rewrite (bind_Ret _ _ _ _ _ E1). cbv zeta.
  destruct (ck_fits _ _ _ _ K c) as [Cw Cs]; [nia|].
  pose proof (ck_ts_fits _ _ _ _ c K ltac:(nia)) as Cf.
  destruct (addTS_spec stale_ts (clock c) (Timespec 0 0 0 0)) as [Aw An];
    [done|by apply small_ts_fits|].
  rewrite small_ts_ns, Z.add_0_r in An.
  set (t0 := addTS stale_ts (clock c) (Timespec 0 0 0 0)) in *.
  assert (ts_fits t0) as Tf.
  { apply (fits_of_ns lo hi waits D _ c); [done..|nia|]. rewrite An.
    clear -Cw Cs. ts_unfold. lia. }
  assert (i64 (tv_sec (clock c) + dur) = tv_sec (clock c) + dur) as Esec.
  { change (2 ^ 61) with 2305843009213693952 in Cs.
    change (2 ^ 60) with 1152921504606846976 in Hdur. unwrap. lia. }
  rewrite Esec, Hb. fold P.
  destruct (emit_rounds_run lo hi waits D residue vec K Hw Hr HD Hv P TIME_BUDGET
    ltac:(done) HBD (phase_rounds dur) 0 0 c t0 t0
    (Timespec (tv_sec (clock c) + dur) (tv_nsec (clock c)) 0 0) (ts_ns (clock c)) s1)
    as (s2 & c2 & m & sends & E2 & C2 & Hc2 & Hm & L2 & S2 & P2 & R2 & _).
  - by constructor.
  - lia.
  - rewrite I1. symmetry. apply Nat.Div0.mod_0_l.
  - unfold phase_rounds. lia.
  - clear -Cw Cs. ts_unfold. lia.
  - done.
  - rewrite An. lia.
  - lia.
  - exact Cw.
  - unfold phase_rounds, TIME_BUDGET. clear -Hdur. ts_unfold.
    change MILLI_S_PER_S with 1000. lia.
  - exists s2, sends. rewrite C2. split_and!; [exact E2|lia|lia| |].
    + by rewrite S2, O1.
    + constructor; [by exists m|exact P2|exact R2].
Qed.

Lemma on_prof_open n s :
  ∃ s' h, on_prof (p_openChannel n) s = (s', Ret h)
    ∧ (em_clk s <= em_clk s' <= em_clk s + calls)%nat ∧ em_sent s' = em_sent s.
Proof.
  destruct (law_open n (em_prof s)) as (w' & h & E1 & C1). exists (set_em_prof w' s), h.
  unfold on_prof, zoom. rewrite E1. done.
Qed.

Lemma on_prof_log h x s :
  ∃ s', on_prof (p_logTS h x) s = (s', Ret tt) ∧ em_sent s' = em_sent s.
Proof.
  destruct (law_log h x (em_prof s)) as (w' & E1 & C1). exists (set_em_prof w' s).
  unfold on_prof, zoom. rewrite E1. done.
Qed.

(** While the array lasts, the messages are its tuples, each once. *)
Lemma phase_prefix vec P residue dur c sends :
  phase_sent vec P residue dur c sends → (length sends <= length vec)%nat →
  map snd sends = take (length sends) vec.
Proof.
  intros [_ [Pt _] _] Hl. apply list_eq. intros j.
  change (map snd sends) with (snd <$> sends). rewrite list_lookup_fmap.
  destruct (sends !! j) as [x|] eqn:Ex; simpl.
  - pose proof (lookup_lt_Some _ _ _ Ex). specialize (Pt _ _ Ex). simpl in Pt.
    rewrite Nat.mod_small in Pt by lia. by rewrite lookup_take_lt.
  - apply lookup_ge_None in Ex. rewrite lookup_take_ge by done. done.
Qed.

Lemma phase_length vec per_sec residue dur c sends :
  1000 < per_sec < 2 ^ 63 → 1 ≤ dur →
  phase_sent vec (Z.to_nat (per_ms_throughput per_sec)) residue dur c sends →
  Z.of_nat (length sends) ≤ per_sec * dur.
Proof.
  intros Hp Hd [(m & Hm & ->) _ _]. unfold per_ms_throughput, MILLI_S_PER_S, phase_rounds in *.
  change MILLI_S_PER_S with 1000 in *.
  assert (u64 per_sec = per_sec) as -> by (unwrap; lia).
  rewrite (proj2 (Z.ltb_lt _ _)) by lia.
  pose proof (Z.mul_div_le per_sec 1000 ltac:(lia)).
  pose proof (Z.div_pos per_sec 1000 ltac:(lia) ltac:(lia)).
  assert (i64 (per_sec `div` 1000) = per_sec `div` 1000) as -> by (unwrap; lia).
  rewrite Nat2Z.inj_mul, Z2Nat.id by done. nia.
Qed.

(** The arithmetic of the scheduler stays within its types. *)
Lemma residue_facts per_sec slg :
  let residue := NANO_S_PER_S `div` per_sec - (POLL_ENQUEUE_OVERHEAD + slg) in
  0 < per_sec < 2 ^ 63 → 0 ≤ slg → 0 ≤ residue →
  budget_per_emission per_sec = NANO_S_PER_S `div` per_sec
  ∧ i64 (POLL_ENQUEUE_OVERHEAD + slg) = POLL_ENQUEUE_OVERHEAD + slg
  ∧ i64 (NANO_S_PER_S `div` per_sec - (POLL_ENQUEUE_OVERHEAD + slg)) = residue
  ∧ residue < NANO_S_PER_S.
Proof.
  intros residue Hp Hs Hr.
  assert (0 ≤ NANO_S_PER_S `div` per_sec ≤ NANO_S_PER_S) as Hdiv.
  { split; [apply Z.div_pos; [done|lia]|apply Z.div_le_upper_bound; [lia|]].
    change NANO_S_PER_S with 1000000000. nia. }
  unfold residue, budget_per_emission, POLL_ENQUEUE_OVERHEAD in *.
  change NANO_S_PER_S with 1000000000 in *.
  assert (u64 per_sec = per_sec) as -> by (unwrap; lia).
  split_and!; [unwrap; lia..|lia].
Qed.

Lemma open_four {A} n1 n2 n3 n4 (k : Z → Z → Z → Z → M (emitter W) A) s :
  ∃ s' h1 h2 h3 h4,
    (a ← on_prof (p_openChannel n1); b ← on_prof (p_openChannel n2);
     c ← on_prof (p_openChannel n3); d ← on_prof (p_openChannel n4); k a b c d) s
    = k h1 h2 h3 h4 s'
    ∧ (em_clk s <= em_clk s' <= em_clk s + 4 * calls)%nat ∧ em_sent s' = em_sent s.
Proof.
  destruct (on_prof_open n1 s) as (s1 & h1 & E1 & C1 & S1).
  destruct (on_prof_open n2 s1) as (s2 & h2 & E2 & C2 & S2).
  destruct (on_prof_open n3 s2) as (s3 & h3 & E3 & C3 & S3).
  destruct (on_prof_open n4 s3) as (s4 & h4 & E4 & C4 & S4).
  exists s4, h1, h2, h3, h4.
  rewrite (bind_Ret _ _ _ _ _ E1), (bind_Ret _ _ _ _ _ E2), (bind_Ret _ _ _ _ _ E3),
    (bind_Ret _ _ _ _ _ E4).
  split_and!; [done|lia|lia|congruence].
Qed.

Lemma log_three h1 h2 h3 x s :
  ∃ s', (on_prof (p_logTS h1 x) ;; on_prof (p_logTS h2 x) ;; on_prof (p_logTS h3 x)) s
        = (s', Ret tt) ∧ em_sent s' = em_sent s.
Proof.
  destruct (on_prof_log h1 x s) as (s1 & E1 & S1).
  destruct (on_prof_log h2 x s1) as (s2 & E2 & S2).
  destruct (on_prof_log h3 x s2) as (s3 & E3 & S3).
  exists s3. rewrite (bind_Ret _ _ _ _ _ E1), (bind_Ret _ _ _ _ _ E2), E3.
  split; [done|congruence].
Qed.

End Sender.

(** ** A concrete sender *)

(** A clock that advances by 0.4 ms with every reading, and a profiler whose
    channels ignore what they are told. *)
Definition tick_ns (n : nat) : Z := 1000000000000 + 400000 * Z.of_nat n.

Definition tick_env : Env :=
  {| env_libc := demo_libc; clock := λ n, Timespec (tick_ns n `div` NANO_S_PER_S) (tick_ns n `mod` NANO_S_PER_S) 0 0;
     tsc_clock := λ _, 0;
     stale_ts := Timespec 0 0 0 0;
     fresh_mem := λ _, Timespec 0 0 0 0;
     pad_word := 0;
     aligned_alloc_ok := λ _, true;
     realloc_aligned := λ _, Aligned;
     getifaddrs := None;
     creatable := λ _, true;
     getpid := 1;
     gettid := 1 |}.

Definition null_profiler (E0 : Env) : Profiler sys := {|
  p_clk := clk;
  p_openChannel := λ _, mret 0;
  p_logTS := λ _ _, mret tt;
  p_getTS := clock_gettime_tsc
|}.

#[local] Instance null_profiler_laws (E0 : Env) : @ProfilerLaws sys E0 (null_profiler E0).
Proof.
  refine (@Build_ProfilerLaws sys E0 (null_profiler E0) 0 _ _ _).
  - intros w. by eexists.
  - intros n w. do 2 eexists. split; [reflexivity|]. simpl. lia.
  - intros h x w. eexists. split; [reflexivity|]. simpl. lia.
Defined.

Lemma tick_clock_ok : @clock_ok tick_env 0 (100 * 300) 3 1000000.
Proof.
  assert (∀ n, ts_ns (@clock tick_env n) = tick_ns n) as Hn.
  { intros n. unfold ts_ns. simpl. rewrite Z.mul_comm. symmetry. by apply Z.div_mod. }
  constructor.
  - intros c Hc. simpl. split; [by apply Z.mod_pos_bound|]. unfold tick_ns.
    change NANO_S_PER_S with 1000000000. change (2 ^ 61) with 2305843009213693952.
    split; [apply Z.div_pos; lia|]. apply Z.div_lt_upper_bound; lia.
  - intros c _ _. rewrite !Hn. unfold tick_ns. lia.
  - intros c _ _. rewrite !Hn. unfold tick_ns. lia.
Qed.

