(* ===== verification/EmitRecv.v ===== *)
(** * Data generator: the receiver, src/cp/cpp_emit/emit.cpp

    One client thread per server address puts the tuples it receives into a queue
    of its own; the consumer takes them from the queues in turn. The queues are
    lock-free and have one producer and one consumer each, so the steps of an
    interleaving are the pushes and the single tries of the consumer's loop. *)
From S2P Require Import Prelude TimeStamp Platform EmitLoad EmitPace.

Definition QUEUE_SIZE : Z := 500 * 1000.

(** The queues of a channel, and the static variable i of mt_recvStr. *)
Record receiver := Receiver {
  rc_queues : list (list string);
  rc_i : nat
}.

Definition set_rc_queues q r := Receiver q (rc_i r).
Definition set_rc_i i r := Receiver (rc_queues r) i.

(** [q->push(str)]: fails when the queue is full. *)
Definition queue_push (str : string) (q : list string) : option (list string) :=
  if Z.of_nat (length q) <? QUEUE_SIZE then Some (q ++ [str]) else None.

(** [vec_q[i]->pop(str)]. *)
Definition pop_at (i : nat) : M receiver (option string) :=
  r ← get;
  match rc_queues r !! i with
  | None => undefined "vector index out of range"
  | Some [] => mret None
  | Some (str :: q) =>
      modify (set_rc_queues (<[i := q]> (rc_queues r))) ;; mret (Some str)
  end.

(** One round of the loop of mt_recvStr (mt_fetchStr is the same function), for
    one queue, for two, and for more. *)
Definition recv_try : M receiver (option string) :=
  r ← get;
  let nr_q := length (rc_queues r) in
  if (nr_q =? 1)%nat then pop_at 0
  else if (nr_q =? 2)%nat then
    ret ← pop_at (rc_i r);
    modify (set_rc_i (if (rc_i r =? 0)%nat then 1%nat else 0%nat)) ;;
    mret ret
  else
    ret ← pop_at (rc_i r);
    modify (set_rc_i (if (S (rc_i r) =? nr_q)%nat then 0%nat else S (rc_i r))) ;;
    mret ret.

(** A call while the client threads do nothing: it returns the first tuple
    found, NULL without queues, and polls on when all queues are empty. *)
Fixpoint recv_loop (fuel : nat) : M receiver string :=
  match fuel with
  | O => spin "all queues are empty"
  | S fuel =>
      ret ← recv_try;
      match ret with
      | Some str => mret str
      | None => recv_loop fuel
      end
  end.

Definition mt_recvStr : M receiver (option string) :=
  r ← get;
  if (length (rc_queues r) =? 0)%nat then mret None
  else str ← recv_loop (length (rc_queues r)); mret (Some str).

(** ** The client threads *)

(** A message goes to the queue of the thread: one step when there is room. *)
Definition client_push (tid : nat) (msg : string) (r : receiver) : option receiver :=
  match rc_queues r !! tid with
  | Some q =>
      match queue_push (c_string msg) q with
      | Some q' => Some (set_rc_queues (<[tid := q']> (rc_queues r)) r)
      | None => None
      end
  | None => None
  end.

(** The queues that mt_run and openSelfFeedChannel create. *)
Definition open_queues (nr_threads : Z) : list (list string) :=
  replicate (Z.to_nat nr_threads) [].

(** What mt_client does for a message apart from that: its two log calls. *)
Definition client_logs `{Env} {W : Type} `{!Profiler W} (ch_fl ch_cli : Z) : M W unit :=
  p_logTS ch_fl 0 ;; p_logTS ch_cli 0.

(** ** The self feeder *)

Definition sample_tuple : string :=
  "{" +:+ quote "user_id" +:+ ": " +:+ quote "06461f9b-ed9b-45f6-b944-76224da5cd95" +:+ ","
  +:+ " " +:+ quote "page_id" +:+ ": " +:+ quote "d890b51d-46ad-49db-95ff-fae3255712d9" +:+ ","
  +:+ " " +:+ quote "ad_id" +:+ ": " +:+ quote "b9f90277-6c53-4b45-a329-fcd2338f11e7" +:+ ","
  +:+ " " +:+ quote "ad_type" +:+ ": " +:+ quote "mail" +:+ ","
  +:+ " " +:+ quote "event_type" +:+ ": " +:+ quote "view" +:+ ","
  +:+ " " +:+ quote "event_time" +:+ ": " +:+ quote "1534761527997" +:+ ","
  +:+ " " +:+ quote "tuple_idx" +:+ ": " +:+ quote "1" +:+ ","
  +:+ " " +:+ quote "ip_address" +:+ ": " +:+ quote "10.140.0.121" +:+ "}".

Record feeder (W : Type) := Feeder {
  fd_prof : W;
  fd_queue : list string;
  fd_cout : list string
}.
Arguments Feeder {W}. Arguments fd_prof {W}. Arguments fd_queue {W}.
Arguments fd_cout {W}.

Section SelfFeeder.
Context `{Env} {W : Type} `{!Profiler W}.

Definition on_fprof {A} : M W A → M (feeder W) A :=
  zoom fd_prof (λ w s, Feeder w (fd_queue s) (fd_cout s)).

Definition fsay (m : string) : M (feeder W) unit :=
  modify (λ s, Feeder (fd_prof s) (fd_queue s) (fd_cout s ++ [m])).

(** A tuple is pushed and logged; a full queue is waited for. *)
Definition feed_one (ch_cli : Z) : M (feeder W) unit :=
  s ← get;
  match queue_push sample_tuple (fd_queue s) with
  | None => spin "the queue is full"
  | Some q => modify (λ s, Feeder (fd_prof s) q (fd_cout s)) ;; on_fprof (p_logTS ch_cli 0)
  end.

Definition mt_selfFeeder (waits : nat) (tid : Z) (svvs : sv_vars) : M (feeder W) unit :=
  ch_cli ← on_fprof (p_openChannel "SwigCPPDGClient      FPC_10MS");
  fsay ("[tid: " +:+ zstr tid +:+ "] Entering into a mute state.." +:+ nl) ;;
  fsay ("[tid: " +:+ zstr tid +:+ "] Begin feeding to the spsc queues." +:+ nl) ;;
  (if per_sec_throughput svvs =? 0 then undefined "division by zero" else mret tt) ;;
  let per_ms := i64 (u64 (per_sec_throughput svvs) `div` MILLI_S_PER_S) in
  let budget := budget_per_emission (per_sec_throughput svvs) in
  let residue := i64 (budget - slag svvs) in
  (if budget <? slag svvs then exit 1 else mret tt) ;;
  emit_for (on_fprof p_getTS) (feed_one ch_cli) waits (phase_rounds (emit_dur svvs))
    (emit_dur svvs) residue (time_budget svvs) per_ms ;;
  fsay ("[tid: " +:+ zstr tid +:+ "] Finished feeding to the spsc queues." +:+ nl).
End SelfFeeder.

(** ** Client threads and consumer, interleaved *)

(** [sent t]: the tuples thread [t] has pushed; [got]: the tuples the consumer
    has taken, with the queue each came from; [tries]: rounds of its loop. *)
Record history := History {
  sent : nat → list string;
  got : list (nat * string);
  tries : nat
}.

Definition push_history (t : nat) (x : string) (h : history) : history :=
  History (λ t', if decide (t' = t) then sent h t' ++ [x] else sent h t') (got h) (tries h).

(** The queue the next try looks at. *)
Definition turn (r : receiver) : nat :=
  if (length (rc_queues r) =? 1)%nat then 0%nat else rc_i r.

Inductive rstep : receiver * history → receiver * history → Prop :=
  | RPush t msg r r' h :
      client_push t msg r = Some r' →
      rstep (r, h) (r', push_history t (c_string msg) h)
  | RTryNone r r' h :
      recv_try r = (r', Ret None) →
      rstep (r, h) (r', History (sent h) (got h) (S (tries h)))
  | RTrySome str r r' h :
      recv_try r = (r', Ret (Some str)) →
      rstep (r, h) (r', History (sent h) (got h ++ [(turn r, str)]) (S (tries h))).

Definition from_queue (t : nat) (l : list (nat * string)) : list string :=
  map snd (filter (λ x, x.1 = t) l).

(** What was pushed to a queue is what was taken from it, then what is in it. *)
Record recv_inv (n : nat) (r : receiver) (h : history) : Prop := RecvInv {
  rv_count : length (rc_queues r) = n;
  rv_turn : (turn r < n)%nat;
  rv_i : turn r = (tries h mod n)%nat;
  rv_fifo t q : rc_queues r !! t = Some q → sent h t = from_queue t (got h) ++ q
}.

Definition recv_start (n : nat) : receiver := Receiver (replicate n []) 0.
Definition no_history : history := History (λ _, []) [] 0.

Lemma from_queue_snoc t l t' x :
  from_queue t (l ++ [(t', x)]) = from_queue t l ++ (if decide (t' = t) then [x] else []).
Proof.
  unfold from_queue. rewrite filter_app, map_app, filter_cons, filter_nil. simpl.
  by destruct (decide (t' = t)).
Qed.

Lemma recv_try_step r q :
  (turn r < length (rc_queues r))%nat → rc_queues r !! turn r = Some q →
  recv_try r =
  (let r' := match q with [] => r
             | _ :: q' => set_rc_queues (<[turn r := q']> (rc_queues r)) r end in
   if (length (rc_queues r) =? 1)%nat then r'
   else set_rc_i (S (rc_i r) mod length (rc_queues r)) r',
   Ret (head q)).
Proof.
  intros Ht Hq. unfold recv_try. rewrite (bind_Ret get _ _ _ _ eq_refl). cbv zeta.
  unfold turn in *. destruct (Nat.eqb_spec (length (rc_queues r)) 1) as [E1|E1].
  { unfold pop_at. rewrite (bind_Ret get _ _ _ _ eq_refl), Hq. by destruct q. }
  assert (pop_at (rc_i r) r = (match q with [] => r
    | _ :: q' => set_rc_queues (<[rc_i r := q']> (rc_queues r)) r end, Ret (head q))) as E2.
  { unfold pop_at. rewrite (bind_Ret get _ _ _ _ eq_refl), Hq. by destruct q. }
  assert (∀ b c : nat, b = c → ∀ r' : receiver, (modify (set_rc_i b) ;; mret (head q)) r'
    = (set_rc_i c r', Ret (head q))) as E3 by (by intros ? ? ->).
  destruct (Nat.eqb_spec (length (rc_queues r)) 2) as [E4|E4];
    rewrite (bind_Ret _ _ _ _ _ E2); apply E3.
  - rewrite E4 in *. destruct (rc_i r) as [|[|?]]; [done|done|lia].
  - destruct (Nat.eqb_spec (S (rc_i r)) (length (rc_queues r))) as [->|].
    + symmetry. apply Nat.Div0.mod_same.
    + symmetry. apply Nat.mod_small. lia.
Qed.

(** The state after a try that took [q']. *)
Lemma turn_next r :
  (0 < length (rc_queues r))%nat → (turn r < length (rc_queues r))%nat →
  ∀ qs, length qs = length (rc_queues r) →
  turn (if (length (rc_queues r) =? 1)%nat then set_rc_queues qs r
        else set_rc_i (S (rc_i r) mod length (rc_queues r)) (set_rc_queues qs r))
  = (S (turn r) mod length (rc_queues r))%nat.
Proof.
  intros Hn Ht qs Hq. unfold turn in *.
  destruct (Nat.eqb_spec (length (rc_queues r)) 1) as [E1|E1]; cbn [rc_queues set_rc_queues set_rc_i rc_i];
    rewrite Hq.
  - rewrite E1. done.
  - by rewrite (proj2 (Nat.eqb_neq _ _) E1).
Qed.

Lemma queues_id r : set_rc_queues (rc_queues r) r = r.
Proof. by destruct r. Qed.

(** A try in one equation: the queue in turn loses its head. *)
Lemma recv_try_run r q :
  (turn r < length (rc_queues r))%nat → rc_queues r !! turn r = Some q →
  ∃ r', recv_try r = (r', Ret (head q))
    ∧ rc_queues r' = <[turn r := tail q]> (rc_queues r)
    ∧ turn r' = (S (turn r) mod length (rc_queues r))%nat.
Proof.
  intros Ht Hq. rewrite (recv_try_step r q Ht Hq). cbv zeta.
  eexists. split; [reflexivity|].
  assert (match q with [] => r | _ :: q' => set_rc_queues (<[turn r := q']> (rc_queues r)) r end
    = set_rc_queues (<[turn r := tail q]> (rc_queues r)) r) as ->.
  { destruct q; simpl; [|done]. by rewrite list_insert_id, queues_id. }
  split; [by destruct (_ =? _)%nat|].
  apply turn_next; [lia|done|]. apply length_insert.
Qed.

Lemma rstep_inv n a b :
  (0 < n)%nat → rstep a b → recv_inv n a.1 a.2 → recv_inv n b.1 b.2.
Proof.
  intros Hn Hs [Ic It Ii If]. destruct Hs as [t msg r r' h E1|r r' h E1|x r r' h E1]; simpl in *.
  - unfold client_push in E1. destruct (rc_queues r !! t) as [q|] eqn:Eq; [|done].
    unfold queue_push in E1. destruct (_ <? _); [|done]. simplify_eq.
    assert (turn (set_rc_queues (<[t := q ++ [c_string msg]]> (rc_queues r)) r) = turn r) as Et.
    { unfold turn. simpl. by rewrite length_insert. }
    constructor; simpl.
    + by rewrite length_insert.
    + unfold turn. simpl. rewrite length_insert. exact It.
    + unfold turn in *. simpl. by rewrite length_insert.
    + intros t' q' Hq'. destruct (decide (t' = t)) as [->|Hne].
      * rewrite list_lookup_insert_eq in Hq' by (by eapply lookup_lt_Some).
        simplify_eq. by rewrite (If _ _ Eq), app_assoc.
      * rewrite list_lookup_insert_ne in Hq' by done. by apply If.
  - assert (∃ q, rc_queues r !! turn r = Some q) as [q Hq]
      by (apply lookup_lt_is_Some_2; lia).
    destruct (recv_try_run r q) as (r1 & E2 & Q2 & T2); [lia|done|].
    rewrite E2 in E1. simplify_eq. destruct q; [|done]. simpl in Q2.
    rewrite list_insert_id in Q2 by done.
    constructor; simpl.
    + by rewrite Q2.
    + rewrite T2. apply Nat.mod_upper_bound. lia.
    + rewrite T2, Ii. by rewrite <- (Nat.add_1_r (tries h mod _)),
        Nat.Div0.add_mod_idemp_l, Nat.add_1_r.
    + intros t' q'. rewrite Q2. apply If.
  - assert (∃ q, rc_queues r !! turn r = Some q) as [q Hq]
      by (apply lookup_lt_is_Some_2; lia).
    destruct (recv_try_run r q) as (r1 & E2 & Q2 & T2); [lia|done|].
    rewrite E2 in E1. destruct q as [|y q]; [done|]. simpl in E1, Q2. simplify_eq.
    constructor; simpl.
    + by rewrite Q2, length_insert.
    + rewrite T2. apply Nat.mod_upper_bound. lia.
    + rewrite T2, Ii. by rewrite <- (Nat.add_1_r (tries h mod _)),
        Nat.Div0.add_mod_idemp_l, Nat.add_1_r.
    + intros t' q' Hq'. rewrite from_queue_snoc. rewrite Q2 in Hq'.
      destruct (decide (turn r = t')) as [<-|Hne].
      * rewrite list_lookup_insert_eq in Hq' by lia. simplify_eq.
        by rewrite (If _ _ Hq), <- app_assoc.
      * rewrite list_lookup_insert_ne in Hq' by done. rewrite app_nil_r. by apply If.
Qed.

Lemma recv_inv_start n : (0 < n)%nat → recv_inv n (recv_start n) no_history.
Proof.
  intros Hn. constructor; simpl.
  - apply length_replicate.
  - unfold turn. simpl. by destruct (_ =? _)%nat.
  - unfold turn. simpl. rewrite Nat.Div0.mod_0_l. by destruct (_ =? _)%nat.
  - intros t q Hq. apply lookup_replicate in Hq as [-> _]. done.
Qed.

(** The loop finds the next tuple in the order of the turns. *)
Lemma recv_loop_finds n fuel d r x q :
  length (rc_queues r) = n → (turn r < n)%nat → (d < fuel)%nat → (d < n)%nat →
  (∀ e, (e < d)%nat → rc_queues r !! ((turn r + e) mod n)%nat = Some []) →
  rc_queues r !! ((turn r + d) mod n)%nat = Some (x :: q) →
  ∃ r', recv_loop fuel r = (r', Ret x)
    ∧ rc_queues r' = <[((turn r + d) mod n)%nat := q]> (rc_queues r).
Proof.
  revert d r. induction fuel as [|fuel IH]; intros d r Hl Ht Hf Hd He Hx; [lia|].
  cbn [recv_loop]. destruct d as [|d].
  - rewrite Nat.add_0_r, Nat.mod_small in Hx |- * by done.
    destruct (recv_try_run r (x :: q)) as (r1 & E1 & Q1 & _); [lia|done|].
    exists r1. rewrite (bind_Ret _ _ _ _ _ E1). done.
  - pose proof (He 0%nat ltac:(lia)) as H0'. rewrite Nat.add_0_r, Nat.mod_small in H0' by done.
    destruct (recv_try_run r []) as (r1 & E1 & Q1 & T1); [lia|done|].
    rewrite (bind_Ret _ _ _ _ _ E1). simpl in Q1 |- *. rewrite list_insert_id in Q1 by done.
    rewrite Hl in T1.
    assert (∀ e, ((turn r1 + e) mod n = (turn r + S e) mod n)%nat) as Hs.
    { intros e. rewrite T1, Nat.Div0.add_mod_idemp_l. f_equal. lia. }
    destruct (IH d r1) as (r2 & E2 & Q2); [by rewrite Q1|rewrite T1; apply Nat.mod_upper_bound; lia|lia|lia| | |].
    + intros e He'. rewrite Hs, Q1. apply He. lia.
    + by rewrite Hs, Q1.
    + exists r2. split; [exact E2|]. by rewrite Q2, Hs, Q1.
Qed.

Lemma reachable_inv n a b :
  (0 < n)%nat → rtc rstep a b → recv_inv n a.1 a.2 → recv_inv n b.1 b.2.
Proof.
  intros Hn Hs. induction Hs as [|a b c Hab _ IH]; [done|].
  intros I. apply IH. by apply (rstep_inv n a).
Qed.

(** C29. The receiver loses nothing and is fair. In every interleaving of n client
    threads with the consumer's loop, the tuples pushed to a queue are those
    taken from it, in that order, followed by those still in it; try number k of
    the loop looks at queue k modulo n, so every queue comes up once in n tries.
    A call of mt_recvStr returns the head of the first queue that is not empty,
    in the order of the turns, and takes nothing else. *)
Theorem receiver_takes_turns n r h :
  (0 < n)%nat → rtc rstep (recv_start n, no_history) (r, h) →
  (∀ t, (t < n)%nat → ∃ q, rc_queues r !! t = Some q
                           ∧ sent h t = from_queue t (got h) ++ q)
  ∧ turn r = (tries h mod n)%nat
  ∧ ∀ d x q, (d < n)%nat →
      (∀ e, (e < d)%nat → rc_queues r !! ((turn r + e) mod n)%nat = Some []) →
      rc_queues r !! ((turn r + d) mod n)%nat = Some (x :: q) →
      ∃ r', mt_recvStr r = (r', Ret (Some x))
        ∧ rc_queues r' = <[((turn r + d) mod n)%nat := q]> (rc_queues r).
Proof.
  intros Hn Hs.
  destruct (reachable_inv n _ _ Hn Hs (recv_inv_start n Hn)) as [Ic It Ii If].
  simpl in *. split_and!.
  - intros t Ht. destruct (lookup_lt_is_Some_2 (rc_queues r) t) as [q Hq]; [lia|]. eauto.
  - exact Ii.
  - intros d x q Hd He Hx.
    destruct (recv_loop_finds n n d r x q) as (r' & E1 & Q1); [done..|].
    exists r'. split; [|done]. unfold mt_recvStr. rewrite (bind_Ret get _ _ _ _ eq_refl).
    rewrite (proj2 (Nat.eqb_neq _ _)) by lia. rewrite Ic. by rewrite (bind_Ret _ _ _ _ _ E1).
Qed.

Lemma receiver_takes_turns_witness :
  let r := Receiver [["b"]; []; ["c"]] 1 in
  ∃ r', mt_recvStr r = (r', Ret (Some "c")) ∧ rc_queues r' = [["b"]; []; []].
Proof.
  intros r.
  set (s0 := no_history). set (s1 := push_history 0 "a" s0).
  set (s2 := push_history 2 "c" s1).
  set (s3 := History (sent s2) [(0%nat, "a")] 1). set (s4 := push_history 0 "b" s3).
  assert (rtc rstep (recv_start 3, no_history) (r, s4)) as Hs.
  { set (r1 := Receiver [["a"]; []; []] 0). set (r2 := Receiver [["a"]; []; ["c"]] 0).
    set (r3 := Receiver [[]; []; ["c"]] 1).
    eapply rtc_l; [apply (RPush 0 "a" (recv_start 3) r1); reflexivity|].
    eapply rtc_l; [apply (RPush 2 "c" r1 r2); reflexivity|].
    eapply rtc_l; [apply (RTrySome "a" r2 r3); reflexivity|].
    eapply rtc_l; [apply (RPush 0 "b" r3 r); reflexivity|].
    apply rtc_refl. }
  destruct (receiver_takes_turns 3 r s4 ltac:(lia) Hs) as (_ & _ & Hf).
  destruct (Hf 1%nat "c" [] ltac:(lia)) as (r' & E1 & Q1).
  - intros [|e] He; [reflexivity|lia].
  - reflexivity.
  - exists r'. split; [exact E1|exact Q1].
Defined.
