(* ===== verification/EmitZmq.v ===== *)
(** * Data generator: ZeroMQ channels and their timers, src/cp/cpp_emit/emit.cpp

    A consumer can read tuples from a ZeroMQ socket directly. The channels that
    hand out buckets of tuples share a timer object, which a detached thread
    advances; closing a channel stops the thread and frees the object. Objects
    live in maps from addresses, 0 is the NULL pointer, and an address that is
    not in its map is freed or was never valid. *)
From S2P Require Import Prelude Util TimeStamp Platform Log EmitLoad EmitPace EmitRecv.

Definition MEBIBYTE : Z := 1024 * 1024.
Definition TCP_BUF_SIZE : Z := MEBIBYTE * 12.
Definition RECV_TIMEOUT : Z := 0.
Definition BKT_TIMEOUT : Z := TIME_BUDGET.
Definition BKT_TIMER_BUDGET : Z := BKT_TIMEOUT `div` 10.
Definition CACHELINE_SIZE : Z := 64.

(** What comes from outside: the result of the n-th attempt to receive ([None]:
    nothing arrived in time), the end points a socket can connect to, whether a
    socket can be written to, the tuples of the Java agent, the date of the build,
    and closeChannel. *)
Class ZmqOs (W : Type) := {
  incoming : nat → option string;
  connectable : string → bool;
  writable : nat → bool;              (* the n-th poll of emit *)
  get_jstring : nat → string;         (* from the Java agent *)
  build_date : string;
  p_closeChannel : Z → M W unit
}.

(** ** Data *)
Inductive sockopt :=
  | ZMQ_RCVBUF (val : Z) | ZMQ_RCVTIMEO (val : Z) | ZMQ_SNDBUF (val : Z) | ZMQ_IMMEDIATE (val : Z).

Record socket := Socket {
  so_opts : list sockopt;
  so_peer : option string;
  so_open : bool
}.

Record timer_vars := TimerVars {
  elapsed_intervals : Z;      (* uint64_t *)
  terminate : bool;
  terminated : bool
}.

Record zmq_vars := ZmqVars {
  z_tm : Z;                   (* timer_vars* *)
  z_tmo : Z;                  (* timeout_vars* *)
  sv_address : string;
  z_sock : socket;
  z_ch_fpc : Z;
  z_ch_bid : Z
}.

Record tcp_vars := TcpVars {
  sv_addresses : list string;
  isServer : bool;
  t_nr_threads : Z;
  queues : option receiver;   (* NULL on a server *)
  t_sock : option socket;
  t_item : bool;              (* a poll item exists *)
  t_ch_fpc : Z
}.

(** Where a timer thread is, with its local variables. *)
Inductive timer_pc :=
  | FnInit | FnTest | FnTick | FnEnd                    (* timer_fn *)
  | OptInit (start : timespec)                          (* timer_opt_fn *)
  | OptTest (start now budgetEnd : timespec)
  | OptPoll (start now budgetEnd : timespec)
  | OptCount (start now budgetEnd : timespec)
  | OptEnd
  | TimerExited.

#[global] Instance timer_pc_eq_dec : EqDecision timer_pc.
Proof. solve_decision. Defined.

Record zworld (W : Type) := ZWorld {
  zw_prof : W;
  zw_next : Z;                        (* the next address *)
  zw_chans : gmap Z zmq_vars;
  zw_tcps : gmap Z tcp_vars;
  zw_timers : gmap Z timer_vars;
  zw_tmos : gmap Z (list Z);          (* next_timeout of each thread *)
  g_tm_vars : Z;
  g_tmo_vars : Z;
  zw_threads : list (Z * timer_pc);
  zw_clients : list (Z * Z * string);   (* mt_client: channel, tid, address *)
  zw_recvs : nat;
  zw_cout : list string;
  zw_sent : list string               (* by emit and st_run, on their sockets *)
}.
Arguments ZWorld {W}. Arguments zw_prof {W}. Arguments zw_next {W}. Arguments zw_chans {W}.
Arguments zw_tcps {W}. Arguments zw_timers {W}. Arguments zw_tmos {W}.
Arguments g_tm_vars {W}. Arguments g_tmo_vars {W}. Arguments zw_threads {W}.
Arguments zw_clients {W}. Arguments zw_recvs {W}.
Arguments zw_cout {W}. Arguments zw_sent {W}.

Section Fields.
Context {W : Type}.
Implicit Types s : zworld W.

Definition set_zw_prof (x : W) s : zworld W := ZWorld x (zw_next s) (zw_chans s) (zw_tcps s) (zw_timers s)
  (zw_tmos s) (g_tm_vars s) (g_tmo_vars s) (zw_threads s) (zw_clients s) (zw_recvs s) (zw_cout s) (zw_sent s).
Definition set_zw_next x s : zworld W := ZWorld (zw_prof s) x (zw_chans s) (zw_tcps s) (zw_timers s)
  (zw_tmos s) (g_tm_vars s) (g_tmo_vars s) (zw_threads s) (zw_clients s) (zw_recvs s) (zw_cout s) (zw_sent s).
Definition set_zw_chans x s : zworld W := ZWorld (zw_prof s) (zw_next s) x (zw_tcps s) (zw_timers s)
  (zw_tmos s) (g_tm_vars s) (g_tmo_vars s) (zw_threads s) (zw_clients s) (zw_recvs s) (zw_cout s) (zw_sent s).
Definition set_zw_tcps x s : zworld W := ZWorld (zw_prof s) (zw_next s) (zw_chans s) x (zw_timers s)
  (zw_tmos s) (g_tm_vars s) (g_tmo_vars s) (zw_threads s) (zw_clients s) (zw_recvs s) (zw_cout s) (zw_sent s).
Definition set_zw_timers x s : zworld W := ZWorld (zw_prof s) (zw_next s) (zw_chans s) (zw_tcps s) x
  (zw_tmos s) (g_tm_vars s) (g_tmo_vars s) (zw_threads s) (zw_clients s) (zw_recvs s) (zw_cout s) (zw_sent s).
Definition set_zw_tmos x s : zworld W := ZWorld (zw_prof s) (zw_next s) (zw_chans s) (zw_tcps s)
  (zw_timers s) x (g_tm_vars s) (g_tmo_vars s) (zw_threads s) (zw_clients s) (zw_recvs s)
  (zw_cout s) (zw_sent s).
Definition set_globals tm tmo s : zworld W := ZWorld (zw_prof s) (zw_next s) (zw_chans s) (zw_tcps s)
  (zw_timers s) (zw_tmos s) tm tmo (zw_threads s) (zw_clients s) (zw_recvs s) (zw_cout s) (zw_sent s).
Definition set_zw_threads x s : zworld W := ZWorld (zw_prof s) (zw_next s) (zw_chans s) (zw_tcps s)
  (zw_timers s) (zw_tmos s) (g_tm_vars s) (g_tmo_vars s) x (zw_clients s) (zw_recvs s) (zw_cout s) (zw_sent s).
Definition set_zw_clients x s : zworld W := ZWorld (zw_prof s) (zw_next s) (zw_chans s) (zw_tcps s)
  (zw_timers s) (zw_tmos s) (g_tm_vars s) (g_tmo_vars s) (zw_threads s) x (zw_recvs s) (zw_cout s) (zw_sent s).
Definition set_zw_recvs x s : zworld W := ZWorld (zw_prof s) (zw_next s) (zw_chans s) (zw_tcps s)
  (zw_timers s) (zw_tmos s) (g_tm_vars s) (g_tmo_vars s) (zw_threads s) (zw_clients s) x
  (zw_cout s) (zw_sent s).
Definition set_zw_cout x s : zworld W := ZWorld (zw_prof s) (zw_next s) (zw_chans s) (zw_tcps s)
  (zw_timers s) (zw_tmos s) (g_tm_vars s) (g_tmo_vars s) (zw_threads s) (zw_clients s)
  (zw_recvs s) x (zw_sent s).
Definition set_zw_sent x s : zworld W := ZWorld (zw_prof s) (zw_next s) (zw_chans s) (zw_tcps s)
  (zw_timers s) (zw_tmos s) (g_tm_vars s) (g_tmo_vars s) (zw_threads s) (zw_clients s)
  (zw_recvs s) (zw_cout s) x.
End Fields.

Definition set_z_timer tm tmo z :=
  ZmqVars tm tmo (sv_address z) (z_sock z) (z_ch_fpc z) (z_ch_bid z).
Definition set_z_sock k z :=
  ZmqVars (z_tm z) (z_tmo z) (sv_address z) k (z_ch_fpc z) (z_ch_bid z).
Definition set_queues q t := TcpVars (sv_addresses t) (isServer t) (t_nr_threads t) q (t_sock t)
  (t_item t) (t_ch_fpc t).
Definition set_elapsed n t := TimerVars n (terminate t) (terminated t).
Definition set_terminate b t := TimerVars (elapsed_intervals t) b (terminated t).
Definition set_terminated b t := TimerVars (elapsed_intervals t) (terminate t) b.
Definition timer_new : timer_vars := TimerVars 0 false false.

Section EmitZmq.
Context `{Env} {W : Type} `{!Profiler W} `{!ZmqOs W}.

Definition zprof {A} : M W A → M (zworld W) A := zoom zw_prof set_zw_prof.
Definition zsay (m : string) : M (zworld W) unit :=
  modify (λ s, set_zw_cout (zw_cout s ++ [m]) s).

Definition new_object : M (zworld W) Z :=
  s ← get; modify (set_zw_next (zw_next s + 1)) ;; mret (zw_next s).

(** [*p]: the object at an address. *)
Definition zchan (ch : Z) : M (zworld W) zmq_vars :=
  s ← get;
  match zw_chans s !! ch with
  | Some z => mret z
  | None => undefined "no channel at this address"
  end.
Definition put_chan (ch : Z) (z : zmq_vars) : M (zworld W) unit :=
  modify (λ s, set_zw_chans (<[ch := z]> (zw_chans s)) s).

Definition timer (tm : Z) : M (zworld W) timer_vars :=
  s ← get;
  match zw_timers s !! tm with
  | Some t => mret t
  | None => undefined "no timer at this address"
  end.
Definition on_timer (tm : Z) (f : timer_vars → timer_vars) : M (zworld W) unit :=
  t ← timer tm; modify (λ s, set_zw_timers (<[tm := f t]> (zw_timers s)) s).

Definition build_info : M (zworld W) unit :=
  let dt := "[" +:+ build_date +:+ "] " in
  let mar := string_rep " "%char (String.length dt) in
  zsay (nl +:+ dt +:+ "v0.3.3-shyang-2" +:+ nl
        +:+ mar +:+ "1. Object Factory (*)" +:+ nl
        +:+ mar +:+ "2. Using lfence (*)" +:+ nl
        +:+ mar +:+ "3. Unbounded tuple preloading (*)" +:+ nl +:+ nl).

(** ** Sockets *)
Definition receive : M (zworld W) (option string) :=
  s ← get; modify (set_zw_recvs (S (zw_recvs s))) ;; mret (incoming (zw_recvs s)).

(** A socket without a timeout: recv comes back with a message only. *)
Fixpoint recv_blocking (fuel : nat) : M (zworld W) string :=
  match fuel with
  | O => spin "no message arrives"
  | S fuel => m ← receive;
              match m with Some m => mret m | None => recv_blocking fuel end
  end.

Definition connect (opts : list sockopt) (address : string) : M (zworld W) socket :=
  if connectable ("tcp://" +:+ address)
  then mret (Socket opts (Some ("tcp://" +:+ address)) true)
  else abort "zmq::error_t".

(** ** Opening *)
Definition openZMQChannel (fuel : nat) (address : string) : M (zworld W) Z :=
  ch ← new_object;
  build_info ;;
  fpc ← zprof (p_openChannel "SwigCPPDGClient      FPC_10MS");
  sock ← connect [ZMQ_RCVBUF TCP_BUF_SIZE] address;
  put_chan ch (ZmqVars 0 0 address sock fpc 0) ;;
  recv_blocking fuel ;;
  mret ch.

(** A new thread is at the beginning of its function. *)
Definition start_thread (tm : Z) (pc : timer_pc) : M (zworld W) unit :=
  modify (λ s, set_zw_threads (zw_threads s ++ [(tm, pc)]) s).

Definition new_timer : M (zworld W) Z :=
  tm ← new_object;
  modify (λ s, set_zw_timers (<[tm := timer_new]> (zw_timers s)) s) ;;
  mret tm.

Definition openZMQBucketChannel (fuel : nat) (address : string) : M (zworld W) Z :=
  ch ← new_object;
  build_info ;;
  s ← get;
  when (g_tm_vars s =? 0)
    (tm ← new_timer;
     modify (set_globals tm (g_tmo_vars s)) ;;
     start_thread tm FnInit) ;;
  s ← get;
  sock ← connect [ZMQ_RCVBUF TCP_BUF_SIZE; ZMQ_RCVTIMEO RECV_TIMEOUT] address;
  put_chan ch (ZmqVars (g_tm_vars s) 0 address sock 0 0) ;;
  recv_blocking fuel ;;
  mret ch.

Definition openZMQBktOptChannel (fuel : nat) (address : string) : M (zworld W) Z :=
  ch ← new_object;
  build_info ;;
  fpc ← zprof (p_openChannel "SwigCPPDGClient      FPC_10MS");
  bid ← zprof (p_openChannel "SwigCPPDGClient      IDENTITY");
  sock ← connect [ZMQ_RCVBUF TCP_BUF_SIZE; ZMQ_RCVTIMEO RECV_TIMEOUT] address;
  put_chan ch (ZmqVars 0 0 address sock fpc bid) ;;
  recv_blocking fuel ;;
  mret ch.

(** The timer and the timeouts of the threads, for the first channel that asks. *)
Definition initTimeoutVars (ch nr_threads : Z) : M (zworld W) unit :=
  s ← get;
  when ((g_tm_vars s =? 0) && (g_tmo_vars s =? 0))
    (let nr_bytes := u64 (CACHELINE_SIZE * nr_threads) in
     (if aligned_alloc_ok nr_bytes then mret tt
      else zsay ("aligned_malloc of timer_vars failed" +:+ nl) ;; exit 1) ;;
     tmo ← new_object;
     tm ← new_timer;
     modify (λ s, set_zw_tmos (<[tmo := replicate (Z.to_nat nr_threads) 1]> (zw_tmos s)) s) ;;
     now ← zprof p_getTS;
     on_timer tm (set_elapsed 0) ;;
     start_thread tm (OptInit (Timespec (tv_sec now) (tv_nsec now) 0 0)) ;;
     modify (set_globals tm tmo)) ;;
  z ← zchan ch;
  s ← get;
  put_chan ch (set_z_timer (g_tm_vars s) (g_tmo_vars s) z).

(** The address of an entry: its array and its index. *)
Definition getTimeoutVars (ch tid : Z) : M (zworld W) (Z * Z) :=
  z ← zchan ch; mret (z_tmo z, tid).

(** ** Reading *)

(** The bytes the caller gets are those of a message that is destroyed on return. *)
Definition fetchZMQStr (fuel : nat) (ch : Z) : M (zworld W) string :=
  z ← zchan ch;
  m ← recv_blocking fuel;
  zprof (p_logTS (z_ch_fpc z) 0) ;;
  mret m.

Definition fetchZMQStrNB (ch : Z) : M (zworld W) (option string) :=
  z ← zchan ch; receive.

Definition fetchZMQStrNB2 (ch : Z) : M (zworld W) (option string) :=
  z ← zchan ch;
  m ← receive;
  match m with
  | None => mret None
  | Some m => zprof (p_logTS (z_ch_fpc z) 0) ;; mret (Some m)
  end.
Definition fetchZMQStrNB3 (ch : Z) : M (zworld W) (option string) := fetchZMQStrNB2 ch.

Definition elapsedIntervals (ch : Z) : M (zworld W) Z :=
  z ← zchan ch;
  if z_tm z =? 0 then mret 0 else t ← timer (z_tm z); mret (elapsed_intervals t).

(** ** The timer threads: one step of thread [i] *)
Definition TS_TIMER : timespec := Timespec 0 BKT_TIMER_BUDGET 0 0.

Definition timer_fn_step (tm : Z) (pc : timer_pc) : M (zworld W) timer_pc :=
  match pc with
  | FnInit => on_timer tm (set_terminated false) ;; mret FnTest
  | FnTest => t ← timer tm; mret (if terminate t then FnEnd else FnTick)
  | FnTick =>
      now ← zprof p_getTS;
      on_timer tm (set_elapsed (u64 (tv_sec now * NANO_S_PER_S + tv_nsec now))) ;;
      mret FnTest
  | FnEnd => on_timer tm (set_terminated true) ;; mret TimerExited
  | pc => mret pc
  end.

Definition timer_opt_fn_step (tm : Z) (pc : timer_pc) : M (zworld W) timer_pc :=
  match pc with
  | OptInit start =>
      on_timer tm (set_terminated false) ;;
      mret (OptTest start (addTS stale_ts start (Timespec 0 0 0 0)) (addTS stale_ts start TS_TIMER))
  | OptTest start now budgetEnd =>
      t ← timer tm;
      mret (if terminate t then OptEnd else OptPoll start now budgetEnd)
  | OptPoll start _ budgetEnd =>
      now ← zprof p_getTS;
      mret (if compareTS now budgetEnd <? 0 then OptPoll start now budgetEnd
            else OptCount start now budgetEnd)
  | OptCount start now budgetEnd =>
      on_timer tm (λ t, set_elapsed (u64 (elapsed_intervals t + 1)) t) ;;
      mret (OptTest start now (addTS budgetEnd budgetEnd TS_TIMER))
  | OptEnd => on_timer tm (set_terminated true) ;; mret TimerExited
  | pc => mret pc
  end.

Definition timer_step (tm : Z) (pc : timer_pc) : M (zworld W) timer_pc :=
  match pc with
  | FnInit | FnTest | FnTick | FnEnd => timer_fn_step tm pc
  | _ => timer_opt_fn_step tm pc
  end.

Definition thread_step (i : nat) : M (zworld W) unit :=
  s ← get;
  match zw_threads s !! i with
  | Some (tm, pc) =>
      pc ← timer_step tm pc;
      modify (λ s, set_zw_threads (<[i := (tm, pc)]> (zw_threads s)) s)
  | None => mret tt
  end.

(** ** Closing *)

(** What happens before the wait. *)
Definition close_begin (ch : Z) : M (zworld W) unit :=
  z ← zchan ch;
  if z_tm z =? 0 then mret tt else on_timer (z_tm z) (set_terminate true).

(** [while (!tm->terminated)], while the threads run as in [sched]. *)
Fixpoint close_wait (tm : Z) (sched : list nat) : M (zworld W) unit :=
  t ← timer tm;
  if terminated t then mret tt
  else match sched with
       | [] => spin "the timer thread has not ended"
       | i :: sched => thread_step i ;; close_wait tm sched
       end.

(** What happens after it; [tm->timer_thr] is read through the pointer. *)
Definition close_end (ch : Z) : M (zworld W) unit :=
  z ← zchan ch;
  timer (z_tm z) ;;
  modify (λ s, set_zw_timers (delete (z_tm z) (zw_timers s)) s) ;;
  zprof (p_closeChannel (z_ch_fpc z)) ;;
  modify (λ s, set_zw_chans (delete ch (zw_chans s)) s).

Definition closeZMQChannel (sched : list nat) (ch : Z) : M (zworld W) unit :=
  z ← zchan ch;
  close_begin ch ;;
  (if z_tm z =? 0 then mret tt else close_wait (z_tm z) sched) ;;
  close_end ch.

(** ** TCP channels *)
Definition tcp (ch : Z) : M (zworld W) tcp_vars :=
  s ← get;
  match zw_tcps s !! ch with
  | Some t => mret t
  | None => undefined "no channel at this address"
  end.
Definition put_tcp (ch : Z) (t : tcp_vars) : M (zworld W) unit :=
  modify (λ s, set_zw_tcps (<[ch := t]> (zw_tcps s)) s).

Fixpoint start_clients (n : nat) (ch : Z) (i : Z) (addresses : list string)
    : M (zworld W) unit :=
  match n with
  | O => mret tt
  | S n =>
      match addresses !! Z.to_nat i with
      | None => undefined "vector index out of range"
      | Some a => modify (λ s, set_zw_clients (zw_clients s ++ [(ch, i, a)]) s) ;;
                  start_clients n ch (i + 1) addresses
      end
  end.

Definition mt_run (ch : Z) : M (zworld W) unit :=
  t ← tcp ch;
  if isServer t then mret tt
  else
    put_tcp ch (set_queues (Some (Receiver (open_queues (t_nr_threads t)) 0)) t) ;;
    start_clients (Z.to_nat (t_nr_threads t)) ch 0 (sv_addresses t).

Definition openTCPChannel (isServer : bool) (addresses : list string) (nr_threads : Z)
    : M (zworld W) Z :=
  ch ← new_object;
  build_info ;;
  put_tcp ch (TcpVars addresses isServer nr_threads None None false 0) ;;
  mt_run ch ;;
  mret ch.

(** A client thread up to its loop: its channels, its socket, the first message. *)
Definition mt_client_open (fuel : nat) (address : string) : M (zworld W) (Z * Z * Z) :=
  ch_cli ← zprof (p_openChannel "SwigCPPDGClient      FPC_10MS");
  ch_fl ← zprof (p_openChannel "SwigCPPDGClient     FIRSTLAST");
  ch_fox ← zprof (p_openChannel "SwigCPPDGClient      FOXSTART");
  connect [ZMQ_RCVBUF 12582912] address ;;
  recv_blocking fuel ;;
  zprof (p_logTS ch_fox 1) ;;
  mret (ch_cli, ch_fl, ch_fox).

(** One round of the loop: a message is queued, then logged. *)
Definition mt_client_round (fuel : nat) (ch tid ch_cli ch_fl : Z) : M (zworld W) unit :=
  m ← recv_blocking fuel;
  t ← tcp ch;
  match queues t with
  | None => undefined "no queues"
  | Some r =>
      match client_push (Z.to_nat tid) m r with
      | None => spin "the queue is full"
      | Some r => put_tcp ch (set_queues (Some r) t) ;; zprof (client_logs ch_fl ch_cli)
      end
  end.

(** The single-threaded alternative, which openTCPChannel does not call. *)
Definition send_on (m : string) : M (zworld W) unit :=
  modify (λ s, set_zw_sent (zw_sent s ++ [m]) s).

Definition st_run (fuel : nat) (ch : Z) : M (zworld W) unit :=
  t ← tcp ch;
  if isServer t then
    fpc ← zprof (p_openChannel "SwigCPPDGServer      FPC_10MS");
    (if connectable "tcp://*:0" then mret tt else abort "zmq::error_t") ;;
    zsay ("Entering into a mute state.." +:+ nl) ;;
    put_tcp ch (TcpVars (sv_addresses t) (isServer t) (t_nr_threads t) (queues t)
      (Some (Socket [ZMQ_SNDBUF TCP_BUF_SIZE; ZMQ_IMMEDIATE 1] (Some "tcp://*:0") true)) true fpc) ;;
    send_on init_message ;;
    zsay ("Begin pushing to the downstream pipeline nodes." +:+ nl)
  else
    fpc ← zprof (p_openChannel "SwigCPPDGClient      FPC_10MS");
    match sv_addresses t with
    | [] => undefined "vector index out of range"
    | a :: _ =>
        sock ← connect [ZMQ_RCVBUF TCP_BUF_SIZE] a;
        put_tcp ch (TcpVars (sv_addresses t) (isServer t) (t_nr_threads t) (queues t)
          (Some sock) false fpc) ;;
        recv_blocking fuel ;;
        mret tt
    end.

Definition st_recvStr (fuel : nat) (ch : Z) : M (zworld W) string :=
  t ← tcp ch;
  match t_sock t with
  | None => undefined "no socket"
  | Some _ => m ← recv_blocking fuel; zprof (p_logTS (t_ch_fpc t) 0) ;; mret (c_string m)
  end.

Definition st_cleanup (ch : Z) : M (zworld W) unit :=
  t ← tcp ch;
  match t_sock t with
  | None => undefined "no socket"
  | Some _ => modify (λ s, set_zw_tcps (delete ch (zw_tcps s)) s)
  end.
Definition mt_cleanup (ch : Z) : M (zworld W) unit := st_cleanup ch.

(** The loop of emit: [i] polls were made; what is counted is the polls in vain. *)
Fixpoint emit_loop (n i : nat) (t : tcp_vars) (blocked : Z) : M (zworld W) Z :=
  match n with
  | O => mret blocked
  | S n =>
      if t_item t then
        if writable i then
          send_on (get_jstring i +:+ String "000"%char "") ;; emit_loop n (S i) t blocked
        else emit_loop n (S i) t (i32 (blocked + 1))
      else abort "zmq::error_t: poll of NULL"
  end.

Definition nr_iterations : Z := 1000 * 1000.

Definition emit (ch tupleIdx : Z) : M (zworld W) Z :=
  t ← tcp ch;
  start ← zprof p_getTS;
  blocked ← emit_loop (Z.to_nat nr_iterations) 0 t 0;
  end_ ← zprof p_getTS;
  let diff := subtractTS stale_ts start end_ in
  let quotient := (divideTS stale_ts diff nr_iterations).1 in
  let text ts := default uninit_buf (formatTS ts 1024 def_format).2 in
  zsay ("Start:     " +:+ text start +:+ nl) ;;
  zsay ("End:       " +:+ text end_ +:+ nl) ;;
  zsay ("Duration:  " +:+ (formatDuration_ts diff 1024 true).2 +:+ nl) ;;
  zsay ("Calls:     " +:+ l2aCommas nr_iterations +:+ nl) ;;
  zsay ("time/call: " +:+ (formatDuration_ts quotient 1024 true).2 +:+ nl) ;;
  zsay ("blocked: " +:+ zstr blocked +:+ nl) ;;
  mret tupleIdx.

(** ** Tests of the interface *)
Definition prepareFetchingTest : M (zworld W) Z :=
  zprof (p_openChannel "SwigCPPDGClient      FPC_10MS").

Definition fetchCStr : string := sample_tuple.

(** The static variable is the counter handed in; it is returned incremented. *)
Definition fetchInt (ch_fpc temp_int : Z) : M (zworld W) (Z * Z) :=
  zprof (p_logTS ch_fpc temp_int) ;; mret (temp_int, i64 (temp_int + 1)).
End EmitZmq.
