(* ===== verification/EmitZmqRun.v ===== *)
(** * Data generator: the timers of ZeroMQ channels, src/cp/cpp_emit/emit.cpp

    The calls of EmitZmq interleaved with the steps of the timer threads: no
    thread touches a freed timer, the count of intervals does not drift, and a
    channel can be closed. *)
From S2P Require Import Prelude TimeStamp Platform Log EmitLoad EmitPace EmitRecv EmitZmq.

(** ** Calls that leave the timers alone *)
Section Timers.
Context `{Env} {W : Type} `{!Profiler W} `{!ZmqOs W} `{!ProfilerLaws W}.
Context (law_close : ∀ h w, ∃ w', p_closeChannel h w = (w', Ret tt)
           ∧ (p_clk w <= p_clk w' <= p_clk w + calls)%nat).

Definition zclk (s : zworld W) : nat := p_clk (zw_prof s).

Record same_timers (s s' : zworld W) : Prop := SameTimers {
  sm_timers : zw_timers s' = zw_timers s;
  sm_threads : zw_threads s' = zw_threads s;
  sm_next : zw_next s ≤ zw_next s';
  sm_clk : (zclk s <= zclk s')%nat
}.

#[local] Instance same_timers_po : PreOrder same_timers.
Proof.
  split; [by split|]. intros s1 s2 s3 [] []. split; [congruence|congruence|lia|].
  by eapply Nat.le_trans.
Qed.

Definition quiet {A} (m : M (zworld W) A) : Prop := ∀ s, same_timers s (m s).1.

Lemma quiet_ret {A} (a : A) : quiet (mret a).
Proof. by intros s. Qed.
Lemma quiet_raise {A} f : quiet (raise f : M (zworld W) A).
Proof. by intros s. Qed.
Lemma quiet_get : quiet get.
Proof. by intros s. Qed.
Lemma quiet_bind {A B} (m : M (zworld W) A) (k : A → M (zworld W) B) :
  quiet m → (∀ a, quiet (k a)) → quiet (m ≫= k).
Proof.
  intros Hm Hk s. specialize (Hm s). unfold mbind, M_bind.
  destruct (m s) as [s1 [a|f]]; [|done]. etrans; [exact Hm|]. apply Hk.
Qed.
Lemma quiet_modify f : (∀ s, same_timers s (f s)) → quiet (modify f).
Proof. intros Hf s. apply Hf. Qed.
Lemma quiet_zprof {A} (m : M W A) :
  (∀ w, (p_clk w <= p_clk (m w).1)%nat) → quiet (zprof m).
Proof.
  intros Hm s. specialize (Hm (zw_prof s)). unfold zprof, zoom.
  destruct (m (zw_prof s)) as [w r]. by split.
Qed.
Lemma quiet_open n : quiet (zprof (p_openChannel n)).
Proof. apply quiet_zprof. intros w. destruct (law_open n w) as (w' & h & -> & ?). simpl. lia. Qed.
Lemma quiet_log h x : quiet (zprof (p_logTS h x)).
Proof. apply quiet_zprof. intros w. destruct (law_log h x w) as (w' & -> & ?). simpl. lia. Qed.
Lemma quiet_close h : quiet (zprof (p_closeChannel h)).
Proof. apply quiet_zprof. intros w. destruct (law_close h w) as (w' & -> & ?). simpl. lia. Qed.
Lemma quiet_getTS : quiet (zprof p_getTS).
Proof. apply quiet_zprof. intros w. destruct (law_getTS w) as (w' & -> & ?). simpl. lia. Qed.

Lemma quiet_new_object : quiet new_object.
Proof. intros s. split; simpl; (done || lia). Qed.

Lemma quiet_receive : quiet receive.
Proof. by intros s. Qed.

Lemma quiet_blocking fuel : quiet (recv_blocking fuel).
Proof.
  induction fuel as [|fuel IH]; [apply quiet_raise|]. apply quiet_bind; [apply quiet_receive|].
  intros [m|]; [apply quiet_ret|exact IH].
Qed.

Lemma quiet_clients n ch i l : quiet (start_clients n ch i l).
Proof.
  revert i. induction n as [|n IH]; intros i; [apply quiet_ret|]. simpl.
  destruct (l !! Z.to_nat i); [|apply quiet_raise].
  apply quiet_bind; [by apply quiet_modify|intros _; apply IH].
Qed.

Ltac quiet :=
  repeat first
    [ apply quiet_ret | apply quiet_raise | apply quiet_get | apply quiet_open
    | apply quiet_log | apply quiet_close | apply quiet_getTS | apply quiet_new_object
    | apply quiet_receive | apply quiet_blocking | apply quiet_clients
    | apply quiet_modify; done
    | apply quiet_bind; [|intros ?]
    | match goal with |- quiet (match ?x with _ => _ end) => destruct x end ].

Lemma quiet_plain fuel a : quiet (openZMQChannel fuel a).
Proof. unfold openZMQChannel, build_info, zsay, connect, put_chan, abort. quiet. Qed.
Lemma quiet_bktopt fuel a : quiet (openZMQBktOptChannel fuel a).
Proof. unfold openZMQBktOptChannel, build_info, zsay, connect, put_chan, abort. quiet. Qed.
Lemma quiet_tcp b l n : quiet (openTCPChannel b l n).
Proof. unfold openTCPChannel, build_info, zsay, mt_run, tcp, put_tcp, undefined. quiet. Qed.
Lemma quiet_fetch fuel ch : quiet (fetchZMQStr fuel ch).
Proof. unfold fetchZMQStr, zchan, undefined. quiet. Qed.
Lemma quiet_fetchNB ch : quiet (fetchZMQStrNB ch).
Proof. unfold fetchZMQStrNB, zchan, undefined. quiet. Qed.
Lemma quiet_fetchNB2 ch : quiet (fetchZMQStrNB2 ch).
Proof. unfold fetchZMQStrNB2, zchan, undefined. quiet. Qed.
Lemma quiet_elapsed ch : quiet (elapsedIntervals ch).
Proof. unfold elapsedIntervals, timer, zchan, undefined. quiet. Qed.
Lemma quiet_st_run fuel ch : quiet (st_run fuel ch).
Proof. unfold st_run, tcp, put_tcp, send_on, zsay, connect, abort, undefined. quiet. Qed.
Lemma quiet_st_recv fuel ch : quiet (st_recvStr fuel ch).
Proof. unfold st_recvStr, tcp, undefined. quiet. Qed.
Lemma quiet_cleanup ch : quiet (st_cleanup ch).
Proof. unfold st_cleanup, tcp, undefined. quiet. Qed.
Lemma quiet_emit_loop n i t b : quiet (emit_loop n i t b).
Proof.
  revert i b. induction n as [|n IH]; intros i b; [apply quiet_ret|]. simpl.
  unfold send_on, abort. quiet; apply IH.
Qed.
Lemma quiet_emit ch x : quiet (emit ch x).
Proof.
  unfold emit, tcp, zsay, undefined. cbv zeta.
  repeat first [apply quiet_emit_loop | quiet; apply quiet_emit_loop | quiet].
Qed.
Lemma quiet_client_open fuel a : quiet (mt_client_open fuel a).
Proof. unfold mt_client_open, connect, abort. quiet. Qed.
Lemma quiet_client_round fuel ch tid c f : quiet (mt_client_round fuel ch tid c f).
Proof.
  unfold mt_client_round, tcp, put_tcp, undefined, spin. quiet. unfold client_logs.
  intros s. unfold zprof, zoom.
  destruct (law_log f 0 (zw_prof s)) as (w1 & E1 & L1).
  destruct (law_log c 0 w1) as (w2 & E2 & L2).
  rewrite (bind_Ret _ _ _ _ _ E1), E2. split; simpl; [done|done|lia|]. unfold zclk. simpl. lia.
Qed.

(** ** The timers *)
Definition B : Z := BKT_TIMER_BUDGET.

Context (hi waits : nat) (K : clock_ok 0 hi waits B).
Context (Hsec : ∀ c, (c < hi)%nat → tv_sec (clock c) < 2 ^ 50).

(** A time read before the [c]-th reading. *)
Definition read_at (c : nat) (t : timespec) : Prop :=
  ts_wf t ∧ 0 ≤ tv_sec t < 2 ^ 50 ∧ ∃ c0, (c0 < c)%nat ∧ ts_ns t = ts_ns (clock c0).

(** After [k] intervals: [budgetEnd] is where the next one ends, counted from the
    start, and the last reading is not before the [k]-th. *)
Record count_ok (c : nat) (start now budgetEnd : timespec) (k : Z) : Prop := CountOk {
  co_k : 0 ≤ k;
  co_start : read_at c start;
  co_now : read_at c now;
  co_end : ts_fits budgetEnd ∧ ts_ns budgetEnd = ts_ns start + (k + 1) * B;
  co_past : ts_ns start + k * B ≤ ts_ns now
}.

Definition pc_ok (c : nat) (t : timer_vars) (pc : timer_pc) : Prop :=
  match pc with
  | OptInit start => elapsed_intervals t = 0 ∧ read_at c start
  | OptTest start now b | OptPoll start now b => count_ok c start now b (elapsed_intervals t)
  | OptCount start now b =>
      count_ok c start now b (elapsed_intervals t) ∧ ts_ns b ≤ ts_ns now
  | _ => True
  end.

Definition thread_ok (s : zworld W) (x : Z * timer_pc) : Prop :=
  x.1 < zw_next s
  ∧ (x.2 ≠ TimerExited →
     ∃ t, zw_timers s !! x.1 = Some t ∧ terminated t = false ∧ pc_ok (zclk s) t x.2).

Record timers_inv (s : zworld W) : Prop := TimersInv {
  ti_nodup : NoDup (map fst (zw_threads s));
  ti_threads : Forall (thread_ok s) (zw_threads s);
  ti_fresh tm t : zw_timers s !! tm = Some t → tm < zw_next s
}.

Lemma read_at_le c c' t : (c <= c')%nat → read_at c t → read_at c' t.
Proof. intros Hc (? & ? & c0 & ? & ?). split_and!; try done; try lia. exists c0. split; [lia|done]. Qed.

Lemma count_ok_le c c' st now b k : (c <= c')%nat → count_ok c st now b k → count_ok c' st now b k.
Proof. intros Hc []. split; try done; by eapply read_at_le. Qed.

Lemma pc_ok_le c c' t pc : (c <= c')%nat → pc_ok c t pc → pc_ok c' t pc.
Proof.
  intros Hc. destruct pc; simpl; try done.
  - intros [? ?]. split; [done|]. by eapply read_at_le.
  - by apply count_ok_le.
  - by apply count_ok_le.
  - intros [? ?]. split; [|done]. by eapply count_ok_le.
Qed.

Lemma thread_ok_mono s s' x :
  (∀ t, zw_timers s !! x.1 = Some t → ∃ t', zw_timers s' !! x.1 = Some t'
     ∧ elapsed_intervals t' = elapsed_intervals t ∧ terminated t' = terminated t) →
  zw_next s ≤ zw_next s' → (zclk s <= zclk s')%nat → thread_ok s x → thread_ok s' x.
Proof.
  intros Ht Hn Hc [Hx Hok]. split; [lia|]. intros Hne. destruct (Hok Hne) as (t & E & Htd & Hpc).
  destruct (Ht t E) as (t' & E' & He & Hd). exists t'. split_and!; [done|congruence|].
  eapply pc_ok_le; [exact Hc|]. destruct (x.2); simpl in *; by rewrite ?He.
Qed.

Lemma quiet_inv {A} (m : M (zworld W) A) s : quiet m → timers_inv s → timers_inv (m s).1.
Proof.
  intros Hm [I1 I2 I3]. destruct (Hm s) as [E1 E2 E3 E4]. split; rewrite ?E1, ?E2; [done| |].
  - eapply Forall_impl; [exact I2|]. intros x. apply thread_ok_mono; [|lia|done].
    intros t. rewrite E1. eauto.
  - intros tm t Ht. pose proof (I3 tm t Ht). lia.
Qed.

(** Every call keeps the invariant while the clock readings last. *)
Record pres {A} (m : M (zworld W) A) : Prop := Pres {
  pr_clk s : (zclk s <= zclk (m s).1)%nat;
  pr_inv s : timers_inv s → (zclk (m s).1 <= hi)%nat → timers_inv (m s).1
}.

Lemma pres_quiet {A} (m : M (zworld W) A) : quiet m → pres m.
Proof. intros Hm. split; [apply Hm|]. intros s Hs _. by apply quiet_inv. Qed.

Lemma pres_bind {A A'} (m : M (zworld W) A) (k : A → M (zworld W) A') :
  pres m → (∀ a, pres (k a)) → pres (m ≫= k).
Proof.
  intros Hm Hk. split; intros s.
  - pose proof (pr_clk m Hm s) as C1. unfold mbind, M_bind.
    destruct (m s) as [s1 [a|f]]; [|done]. pose proof (pr_clk (k a) (Hk a) s1). simpl in *. lia.
  - intros Hs Hle. pose proof (pr_inv m Hm s Hs) as I1. unfold mbind, M_bind in *.
    destruct (m s) as [s1 [a|f]]; [|by apply I1].
    pose proof (pr_clk (k a) (Hk a) s1). apply (pr_inv (k a) (Hk a)); [|done].
    apply I1. simpl. lia.
Qed.

Lemma add_thread tm pc t s :
  timers_inv s → zw_timers s !! tm = Some t → tm ∉ map fst (zw_threads s) →
  terminated t = false → pc_ok (zclk s) t pc →
  timers_inv (set_zw_threads (zw_threads s ++ [(tm, pc)]) s).
Proof.
  intros [I1 I2 I3] Ht Hn Hd Hp. split; [| |exact I3].
  - simpl. rewrite map_app. apply NoDup_app. split_and!; [done| |by apply NoDup_singleton].
    intros x Hx Hx'. simpl in Hx'. apply list_elem_of_singleton in Hx'. by subst.
  - simpl. apply Forall_app. split; [exact I2|]. apply Forall_singleton. split; [by eapply I3|].
    intros _. by exists t.
Qed.

Lemma fresh_thread s tm : timers_inv s → zw_next s ≤ tm → tm ∉ map fst (zw_threads s).
Proof.
  intros [_ I2 _] Hle Hin. apply list_elem_of_fmap in Hin as (x & -> & Hx).
  rewrite Forall_forall in I2. destruct (I2 x Hx) as [? _]. lia.
Qed.

(** A new timer object, and nothing else that matters. *)
Lemma add_timer s s' tm :
  timers_inv s → zw_next s ≤ tm < zw_next s' → zw_timers s' = <[tm := timer_new]> (zw_timers s) →
  zw_threads s' = zw_threads s → (zclk s <= zclk s')%nat → timers_inv s'.
Proof.
  intros [I1 I2 I3] Hn Et Eth Hc. split; rewrite ?Eth; [done| |].
  - eapply Forall_impl; [exact I2|]. intros x Hx. apply (thread_ok_mono s s'); [|lia|exact Hc|exact Hx].
    intros t Ht. rewrite Et, lookup_insert_ne; [eauto|]. pose proof (I3 _ _ Ht). lia.
  - intros tm' t. rewrite Et. destruct (decide (tm' = tm)) as [->|]; [lia|].
    rewrite lookup_insert_ne by done. intros Ht. pose proof (I3 _ _ Ht). lia.
Qed.

Definition bucket_timer : M (zworld W) unit :=
  tm ← new_timer;
  s ← get;
  modify (set_globals tm (g_tmo_vars s)) ;;
  start_thread tm FnInit.

Lemma pres_bucket fuel a : pres (openZMQBucketChannel fuel a).
Proof.
  unfold openZMQBucketChannel, build_info, zsay, connect, put_chan, abort.
  apply pres_bind; [apply pres_quiet, quiet_new_object|intros ch].
  apply pres_bind; [apply pres_quiet; quiet|intros _].
  apply pres_bind; [apply pres_quiet; quiet|intros s0].
  apply pres_bind; [|intros _; apply pres_quiet; quiet].
  destruct (g_tm_vars s0 =? 0); [|apply pres_quiet; quiet].
  split; intros s; [done|]. intros Hs _. monad_simpl.
  set (s1 := set_globals _ _ _).
  apply (add_thread _ _ timer_new s1).
  - by apply (add_timer s s1 (zw_next s)); simpl; try done; lia.
  - by simpl; rewrite lookup_insert_eq.
  - apply (fresh_thread s); [done|lia].
  - done.
  - done.
Qed.

Lemma clock_range c : (c < hi)%nat → ts_wf (clock c) ∧ 0 ≤ tv_sec (clock c) < 2 ^ 50.
Proof.
  intros Hc. destruct (ck_fits _ _ _ _ K c ltac:(lia)) as [F1 F2]. pose proof (Hsec c Hc). split; [done|lia].
Qed.

Lemma zgetTS_run s :
  ∃ w', zprof p_getTS s = (set_zw_prof w' s, Ret (clock (zclk s))) ∧ p_clk w' = S (zclk s).
Proof.
  destruct (law_getTS (zw_prof s)) as (w' & E & Hc). exists w'. unfold zprof, zoom.
  by rewrite E.
Qed.

Lemma on_timer_run tm f t (s : zworld W) :
  zw_timers s !! tm = Some t →
  on_timer tm f s = (set_zw_timers (<[tm := f t]> (zw_timers s)) s, Ret tt).
Proof. intros Ht. unfold on_timer, timer. monad_simpl. by rewrite Ht. Qed.

Lemma read_now c t :
  (S c <= hi)%nat → ts_wf t → ts_ns t = ts_ns (clock c) → tv_sec t = tv_sec (clock c) →
  read_at (S c) t.
Proof.
  intros Hc Hw Hn Hs. destruct (clock_range c ltac:(lia)) as [_ R]. split_and!; [done|lia|lia|].
  exists c. split; [lia|done].
Qed.

Lemma pres_init ch n : pres (initTimeoutVars ch n).
Proof.
  unfold initTimeoutVars.
  apply pres_bind; [apply pres_quiet; quiet|intros s0].
  apply pres_bind; [|intros _; unfold zchan, put_chan, undefined; apply pres_quiet; quiet].
  destruct (_ && _); [|apply pres_quiet; quiet]. cbn [when]. cbv zeta.
  apply pres_bind; [unfold zsay, exit; apply pres_quiet; quiet|intros _].
  match goal with |- pres ?m => assert (∀ s, (zclk s <= zclk (m s).1)%nat
    ∧ (timers_inv s → (zclk (m s).1 <= hi)%nat → timers_inv (m s).1)) as Hall end.
  { intros s. rewrite (bind_Ret new_object _ s (set_zw_next (zw_next s + 1) s) (zw_next s) eq_refl).
    set (s1 := set_zw_next _ s). set (tm := zw_next s1).
    rewrite (bind_Ret new_timer _ s1 (set_zw_timers (<[tm := timer_new]> (zw_timers s1))
      (set_zw_next (zw_next s1 + 1) s1)) tm eq_refl).
    rewrite (bind_Ret (modify _) _ _ _ tt eq_refl). set (s2 := set_zw_tmos _ _).
    destruct (zgetTS_run s2) as (w' & E & Hc). rewrite (bind_Ret _ _ _ _ _ E).
    set (s3 := set_zw_prof w' s2).
    assert (zw_timers s3 !! tm = Some timer_new) as Ht by (simpl; by rewrite lookup_insert_eq).
    rewrite (bind_Ret _ _ _ _ _ (on_timer_run tm (set_elapsed 0) timer_new s3 Ht)).
    set (s4 := set_zw_timers _ s3). unfold start_thread. monad_simpl.
    change (zclk s2) with (zclk s) in *.
    split; [unfold zclk in *; simpl; lia|].
    intros Hs Hle. unfold zclk in Hle. simpl in Hle. rewrite Hc in Hle.
    match goal with |- timers_inv (set_globals _ _ ?x) =>
      enough (timers_inv x) as [J1 J2 J3] by (split; [exact J1|exact J2|exact J3]) end.
    apply (add_thread tm _ timer_new s4).
    - apply (add_timer s s4 tm); try done; [simpl; lia| |unfold zclk in *; simpl; lia].
      simpl. by rewrite insert_insert_eq.
    - simpl. by rewrite lookup_insert_eq.
    - apply (fresh_thread s); [done|simpl; lia].
    - done.
    - split; [done|]. unfold zclk at 1. simpl. rewrite Hc. apply read_now; [done| |done|done].
      by apply clock_range. }
  split; intros s; apply Hall.
Qed.

Lemma pres_close_begin ch : pres (close_begin ch).
Proof.
  unfold close_begin. apply pres_bind; [unfold zchan, undefined; apply pres_quiet; quiet|intros z].
  destruct (z_tm z =? 0); [apply pres_quiet; quiet|].
  split; intros s; unfold on_timer, timer; monad_simpl; destruct (zw_timers s !! z_tm z) as [t|] eqn:Et;
    simpl; try done.
  intros [I1 I2 I3] _. split; [done| |].
  - eapply Forall_impl; [exact I2|]. intros x. apply thread_ok_mono; [|done|done].
    intros t' Ht'. simpl. destruct (decide (x.1 = z_tm z)) as [E|].
    + rewrite E in *. simplify_eq. rewrite lookup_insert_eq. by eexists.
    + rewrite lookup_insert_ne by done. by exists t'.
  - intros tm t'. simpl. destruct (decide (tm = z_tm z)) as [->|].
    + intros _. by eapply I3.
    + rewrite lookup_insert_ne by done. apply I3.
Qed.

(** A timer is freed after its thread has ended. *)
Lemma close_end_inv ch s z t :
  timers_inv s → zw_chans s !! ch = Some z → zw_timers s !! z_tm z = Some t →
  terminated t = true →
  ∃ s', close_end ch s = (s', Ret tt) ∧ timers_inv s' ∧ (zclk s <= zclk s')%nat
    ∧ zw_timers s' = delete (z_tm z) (zw_timers s).
Proof.
  intros [I1 I2 I3] Hz Ht Htd. unfold close_end, zchan, timer. monad_simpl. rewrite Hz. simpl.
  rewrite Ht. destruct (law_close (z_ch_fpc z) (zw_prof s)) as (w' & E & Hc).
  unfold zprof. monad_simpl. rewrite E. simpl.
  eexists. split; [reflexivity|]. split_and!; [|unfold zclk; simpl; lia|done].
  split; [done| |].
  - simpl. eapply Forall_impl; [exact I2|]. intros x [Hx Hok]. split; [done|]. intros Hne.
    destruct (Hok Hne) as (t' & Et' & Htd' & Hpc). exists t'. split_and!; [|done|].
    + simpl. rewrite lookup_delete_ne; [done|]. intros Ee. rewrite Ee in Ht. congruence.
    + eapply pc_ok_le; [|exact Hpc]. unfold zclk. simpl. lia.
  - intros tm t'. simpl. intros Hd. apply lookup_delete_Some in Hd as [_ Hd]. by eapply I3.
Qed.

(** ** One step of a thread *)

(** A thread that is told to end does so within [m] steps. *)
Definition ends (m c : nat) (pc : timer_pc) : Prop :=
  match pc with
  | FnInit | FnTick | OptInit _ | OptCount _ _ _ => (3 <= m)%nat
  | FnTest | OptTest _ _ _ => (2 <= m)%nat
  | FnEnd | OptEnd => (1 <= m)%nat
  | OptPoll _ _ b => ∃ j, ts_ns b ≤ ts_ns (clock (c + j)) ∧ (j + 4 <= m)%nat
  | TimerExited => True
  end.

Record stepped (s : zworld W) (tm : Z) (pc : timer_pc) (t : timer_vars) (w' : W)
    (t' : timer_vars) (pc' : timer_pc) : Prop := Stepped {
  sp_run : timer_step tm pc s
    = (set_zw_timers (<[tm := t']> (zw_timers s)) (set_zw_prof w' s), Ret pc');
  sp_clk : (zclk s <= p_clk w' <= S (zclk s))%nat;
  sp_ok : (p_clk w' <= hi)%nat → pc_ok (p_clk w') t' pc';
  sp_alive : terminated t' = bool_decide (pc' = TimerExited);
  sp_told : terminate t' = terminate t;
  sp_ends m : terminate t = true → (p_clk w' <= hi)%nat → ends (S m) (zclk s) pc →
    ends m (p_clk w') pc'
}.

Lemma timer_step_write s tm pc pc' f t :
  zw_timers s !! tm = Some t → terminated t = false →
  timer_step tm pc s = (on_timer tm f ;; mret pc') s →
  (terminated (f t) = bool_decide (pc' = TimerExited)) → terminate (f t) = terminate t →
  (zclk s ≤ hi → pc_ok (zclk s) (f t) pc')%nat →
  (∀ m, ends (S m) (zclk s) pc → ends m (zclk s) pc') →
  stepped s tm pc t (zw_prof s) (f t) pc'.
Proof.
  intros Ht Hd E Ha Htm Hok Hends. split; try done; [|unfold zclk; lia|intros m _ _; apply Hends].
  rewrite E, (bind_Ret _ _ _ _ _ (on_timer_run _ _ _ _ Ht)). by destruct s.
Qed.

Lemma timer_step_look s tm pc pc' t :
  zw_timers s !! tm = Some t → terminated t = false → timer_step tm pc s = (s, Ret pc') →
  pc' ≠ TimerExited → (zclk s ≤ hi → pc_ok (zclk s) t pc')%nat →
  (∀ m, terminate t = true → ends (S m) (zclk s) pc → ends m (zclk s) pc') →
  stepped s tm pc t (zw_prof s) t pc'.
Proof.
  intros Ht Hd E Hne Hok Hends. split; try done; [|unfold zclk; lia| |].
  - rewrite E, insert_id by done. by destruct s.
  - by rewrite bool_decide_eq_false_2.
  - intros m Htd _. by apply Hends.
Qed.

Lemma timer_look {A} tm t (k : timer_vars → M (zworld W) A) s :
  zw_timers s !! tm = Some t → (timer tm ≫= k) s = k t s.
Proof. intros Ht. unfold timer. monad_simpl. by rewrite Ht. Qed.

Lemma budget_fits : ts_fits TS_TIMER ∧ ts_ns TS_TIMER = B.
Proof. by vm_compute. Qed.

(** The end of the next interval. *)
Lemma next_end c st now b k :
  (c <= hi)%nat → count_ok c st now b k → ts_ns b ≤ ts_ns now →
  count_ok c st now (addTS b b TS_TIMER) (k + 1) ∧ k + 1 < 2 ^ 64.
Proof.
  intros Hc [Ck Cs Cn [Ef En] Cp] Hb. destruct budget_fits as [B1 B2].
  destruct (addTS_spec b b TS_TIMER Ef B1) as [A1 A2]. rewrite B2 in A2.
  destruct Cn as (N1 & N2 & c0 & N3 & N4). destruct Cs as (S1 & S2 & c1 & S3 & S4).
  assert (B = 100000) as EB by done. rewrite EB in *.
  assert (0 ≤ ts_ns st) by (ts_unfold; lia).
  assert (ts_ns now < 1125899906842624 * 1000000000) as Hlim
    by (clear - N1 N2; change (2 ^ 50) with 1125899906842624 in N2; ts_unfold; lia).
  split.
  - split; [lia|split_and!; [done|lia|lia|by exists c1]|split_and!; [done|lia|lia|by exists c0]| |lia].
    split; [|lia]. split; [done|]. clear - A1 A2 Ef Hb Hlim.
    generalize dependent (addTS b b TS_TIMER). intros b' A1 A2. ts_unfold. lia.
  - change (2 ^ 64) with 18446744073709551616. lia.
Qed.

(** The first interval. *)
Lemma first_end c st :
  (c <= hi)%nat → read_at c st →
  count_ok c st (addTS stale_ts st (Timespec 0 0 0 0)) (addTS stale_ts st TS_TIMER) 0.
Proof.
  intros Hle Hr. pose proof Hr as (S1 & S2 & c1 & S3 & S4).
  assert (ts_fits st) as Hf.
  { split; [done|]. clear - S2. change (2 ^ 50) with 1125899906842624 in S2.
    change (2 ^ 62) with 4611686018427387904. lia. }
  destruct (addTS_spec stale_ts st (Timespec 0 0 0 0) Hf ltac:(by vm_compute)) as [A1 A2].
  destruct budget_fits as [B1 B2]. destruct (addTS_spec stale_ts st TS_TIMER Hf B1) as [A3 A4].
  rewrite B2 in A4. change (ts_ns (Timespec 0 0 0 0)) with 0 in A2.
  assert (tv_sec (addTS stale_ts st (Timespec 0 0 0 0)) = tv_sec st) as A5.
  { clear - S1 S2 A1 A2. change (2 ^ 50) with 1125899906842624 in S2. ts_unfold. lia. }
  split; [lia|done| | |lia].
  - split_and!; [done|lia|lia|]. exists c1. split; [done|lia].
  - split; [|lia]. split; [done|]. clear - S1 S2 A3 A4.
    change (2 ^ 50) with 1125899906842624 in S2. change B with 100000 in A4.
    generalize dependent (addTS stale_ts st TS_TIMER). intros b A3 A4. ts_unfold. lia.
Qed.

(** A look at the clock: before the end of the interval, or after it. *)
Lemma timer_poll_run s tm t st now b :
  zw_timers s !! tm = Some t → terminated t = false → pc_ok (zclk s) t (OptPoll st now b) →
  ∃ w' pc', stepped s tm (OptPoll st now b) t w' t pc'.
Proof.
  intros Ht Hd Hok.
  destruct (zgetTS_run s) as (w' & E & Hc).
  exists w', (if compareTS (clock (zclk s)) b <? 0 then OptPoll st (clock (zclk s)) b
                 else OptCount st (clock (zclk s)) b).
  split; try done.
  - unfold timer_step, timer_opt_fn_step. rewrite (bind_Ret _ _ _ _ _ E).
    by rewrite insert_id by done.
  - unfold zclk in *. lia.
  - rewrite Hc. intros Hle. simpl in Hok.
    destruct (clock_range (zclk s) ltac:(lia)) as [F1 F2].
    assert (count_ok (S (zclk s)) st (clock (zclk s)) b (elapsed_intervals t)) as Hco.
    { destruct Hok as [Ck Cs Cn Ce Cp]. split; [done| | |done|].
      - eapply read_at_le; [|exact Cs]. lia.
      - apply read_now; done.
      - etrans; [exact Cp|]. destruct Cn as (_ & _ & c0 & N3 & ->).
        apply (ck_le 0 hi waits B); [exact K|lia|lia|lia]. }
    destruct (Z.ltb_spec (compareTS (clock (zclk s)) b) 0) as [Hlt|Hge]; simpl; [exact Hco|].
    split; [exact Hco|]. apply compareTS_ge in Hge; [done|done|apply (co_end _ _ _ _ _ Hco)].
  - rewrite Hd. by destruct (_ <? 0).
  - intros m _ Hle (j & Hj & Hm). rewrite Hc in *.
    destruct (clock_range (zclk s) ltac:(lia)) as [F1 _].
    pose proof (co_end _ _ _ _ _ Hok) as [[Fb _] _].
    destruct (Z.ltb_spec (compareTS (clock (zclk s)) b) 0) as [Hlt|Hge]; simpl; [|lia].
    destruct j as [|j].
    + rewrite Nat.add_0_r in Hj. apply compareTS_ge in Hj; [lia|done|done].
    + exists j. rewrite Nat.add_succ_r in Hj. split; [done|lia].
Qed.

Lemma timer_step_run s tm pc t :
  zw_timers s !! tm = Some t → terminated t = false → pc ≠ TimerExited →
  pc_ok (zclk s) t pc → ∃ w' t' pc', stepped s tm pc t w' t' pc'.
Proof.
  intros Ht Hd Hne Hok. destruct pc as [| | | |st|st now b|st now b|st now b| |]; try done.
  - do 3 eexists. apply (timer_step_write s tm FnInit FnTest (set_terminated false)); try done.
    simpl. lia.
  - do 3 eexists. eapply (timer_step_look s tm FnTest (if terminate t then FnEnd else FnTick) t);
      try done; [|by destruct (terminate t)..|intros m ->; simpl; lia].
    unfold timer_step, timer_fn_step. by rewrite (timer_look tm t).
  - destruct (zgetTS_run s) as (w' & E & Hc).
    exists w', (set_elapsed (u64 (ts_ns (clock (zclk s)))) t), FnTest.
    split; try done; [|unfold zclk in *; lia|simpl; lia].
    unfold timer_step, timer_fn_step. rewrite (bind_Ret _ _ _ _ _ E).
    by rewrite (bind_Ret _ _ _ _ _ (on_timer_run tm _ t (set_zw_prof w' s) Ht)).
  - do 3 eexists. by apply (timer_step_write s tm FnEnd TimerExited (set_terminated true)).
  - destruct Hok as [He Hr]. do 3 eexists.
    apply (timer_step_write s tm (OptInit st) (OptTest st (addTS stale_ts st (Timespec 0 0 0 0))
      (addTS stale_ts st TS_TIMER)) (set_terminated false)); try done; [|simpl; lia].
    intros Hle. simpl. rewrite He. by apply first_end.
  - do 3 eexists. eapply (timer_step_look s tm _ (if terminate t then OptEnd else OptPoll st now b) t);
      try done; [|by destruct (terminate t)..|intros m ->; simpl; lia].
    unfold timer_step, timer_opt_fn_step. by rewrite (timer_look tm t).
  - destruct (timer_poll_run s tm t st now b Ht Hd Hok) as (w' & pc' & Hs). by exists w', t, pc'.
  - simpl in Hok. destruct Hok as [Hco Hb].
    exists (zw_prof s), (set_elapsed (u64 (elapsed_intervals t + 1)) t),
      (OptTest st now (addTS b b TS_TIMER)).
    apply (timer_step_write s tm (OptCount st now b) _
      (λ t, set_elapsed (u64 (elapsed_intervals t + 1)) t)); try done; [|simpl; lia].
    intros Hle. destruct (next_end _ _ _ _ _ Hle Hco Hb) as [Hn Hk]. simpl.
    pose proof (co_k _ _ _ _ _ Hco). by rewrite wrapU_small by lia.
  - do 3 eexists. by apply (timer_step_write s tm OptEnd TimerExited (set_terminated true)).
Qed.

Lemma thread_step_run i tm pc t s w' t' pc' :
  zw_threads s !! i = Some (tm, pc) → stepped s tm pc t w' t' pc' →
  thread_step i s = (set_zw_threads (<[i := (tm, pc')]> (zw_threads s))
    (set_zw_timers (<[tm := t']> (zw_timers s)) (set_zw_prof w' s)), Ret tt).
Proof.
  intros Hi [E _ _ _ _ _]. unfold thread_step. rewrite (bind_Ret get _ _ _ _ eq_refl), Hi.
  by rewrite (bind_Ret _ _ _ _ _ E).
Qed.

Lemma step_inv i tm pc t s w' t' pc' :
  timers_inv s → zw_threads s !! i = Some (tm, pc) → stepped s tm pc t w' t' pc' →
  (p_clk w' <= hi)%nat →
  timers_inv (set_zw_threads (<[i := (tm, pc')]> (zw_threads s))
    (set_zw_timers (<[tm := t']> (zw_timers s)) (set_zw_prof w' s))).
Proof.
  intros [I1 I2 I3] Hi [E Hc Hok Ha _ _] Hle.
  assert (tm < zw_next s) as Htm by (rewrite Forall_lookup in I2; by destruct (I2 _ _ Hi)).
  split.
  - simpl. rewrite list_fmap_insert. simpl.
    rewrite list_insert_id; [done|]. by rewrite list_lookup_fmap, Hi.
  - apply Forall_lookup. intros j x Hj. simpl in Hj.
    rewrite list_lookup_insert_Some in Hj. destruct Hj as [(<- & <- & _)|[Hne Hj]].
    + split; [done|]. simpl. intros Hx. exists t'. rewrite lookup_insert_eq.
      split_and!; [done|by rewrite Ha, bool_decide_eq_false_2|]. by apply Hok.
    + rewrite Forall_lookup in I2. specialize (I2 j x Hj).
      assert (x.1 ≠ tm) as Hx.
      { intros Hx. apply Hne. eapply (NoDup_lookup _ i j tm I1); rewrite list_lookup_fmap.
        - by rewrite Hi.
        - rewrite Hj. simpl. by rewrite Hx. }
      destruct I2 as [J1 J2]. split; [done|]. intros Hpc. destruct (J2 Hpc) as (t0 & T1 & T2 & T3).
      exists t0. simpl. rewrite lookup_insert_ne by done. split_and!; [done|done|].
      eapply pc_ok_le; [|exact T3]. unfold zclk at 2. simpl. lia.
  - intros tm' t0. simpl. destruct (decide (tm' = tm)) as [->|]; [done|].
    rewrite lookup_insert_ne by done. apply I3.
Qed.

(** ** Interleavings of the program's calls with the timer threads *)
Inductive zcall :=
  | COpen (fuel : nat) (address : string)
  | COpenBucket (fuel : nat) (address : string)
  | COpenBktOpt (fuel : nat) (address : string)
  | CInitTimeout (ch nr_threads : Z)
  | CFetch (fuel : nat) (ch : Z)
  | CFetchNB (ch : Z)
  | CFetchNB2 (ch : Z)
  | CElapsed (ch : Z)
  | CCloseBegin (ch : Z)
  | CTCP (isServer : bool) (addresses : list string) (nr_threads : Z)
  | CClientOpen (fuel : nat) (address : string)
  | CClientRound (fuel : nat) (ch tid ch_cli ch_fl : Z)
  | CStRun (fuel : nat) (ch : Z)
  | CStRecv (fuel : nat) (ch : Z)
  | CCleanup (ch : Z)
  | CEmit (ch tupleIdx : Z).

Definition zcall_run (c : zcall) : M (zworld W) unit :=
  match c with
  | COpen fuel a => openZMQChannel fuel a ;; mret tt
  | COpenBucket fuel a => openZMQBucketChannel fuel a ;; mret tt
  | COpenBktOpt fuel a => openZMQBktOptChannel fuel a ;; mret tt
  | CInitTimeout ch n => initTimeoutVars ch n
  | CFetch fuel ch => fetchZMQStr fuel ch ;; mret tt
  | CFetchNB ch => fetchZMQStrNB ch ;; mret tt
  | CFetchNB2 ch => fetchZMQStrNB2 ch ;; mret tt
  | CElapsed ch => elapsedIntervals ch ;; mret tt
  | CCloseBegin ch => close_begin ch
  | CTCP b l n => openTCPChannel b l n ;; mret tt
  | CClientOpen fuel a => mt_client_open fuel a ;; mret tt
  | CClientRound fuel ch tid c f => mt_client_round fuel ch tid c f
  | CStRun fuel ch => st_run fuel ch
  | CStRecv fuel ch => st_recvStr fuel ch ;; mret tt
  | CCleanup ch => st_cleanup ch
  | CEmit ch x => emit ch x ;; mret tt
  end.

Inductive zstep : zworld W → zworld W → Prop :=
  | ZCall c s s' : zcall_run c s = (s', Ret tt) → zstep s s'
  | ZThread i s s' : thread_step i s = (s', Ret tt) → zstep s s'
  | ZCloseEnd ch z t s s' :      (* the wait of closeZMQChannel is over *)
      zw_chans s !! ch = Some z → zw_timers s !! z_tm z = Some t → terminated t = true →
      close_end ch s = (s', Ret tt) → zstep s s'.

Definition zw_start (w : W) : zworld W := ZWorld w 1 ∅ ∅ ∅ ∅ 0 0 [] [] 0 [] [].

Lemma pres_call c : pres (zcall_run c).
Proof.
  destruct c; simpl; try (apply pres_bind; [|intros _; apply pres_quiet, quiet_ret]).
  - apply pres_quiet, quiet_plain.
  - apply pres_bucket.
  - apply pres_quiet, quiet_bktopt.
  - apply pres_init.
  - apply pres_quiet, quiet_fetch.
  - apply pres_quiet, quiet_fetchNB.
  - apply pres_quiet, quiet_fetchNB2.
  - apply pres_quiet, quiet_elapsed.
  - apply pres_close_begin.
  - apply pres_quiet, quiet_tcp.
  - apply pres_quiet, quiet_client_open.
  - apply pres_quiet, quiet_client_round.
  - apply pres_quiet, quiet_st_run.
  - apply pres_quiet, quiet_st_recv.
  - apply pres_quiet, quiet_cleanup.
  - apply pres_quiet, quiet_emit.
Qed.

(** A thread takes its step whatever the others did. *)
Lemma thread_step_total i s :
  timers_inv s →
  ∃ s', thread_step i s = (s', Ret tt) ∧ (zclk s <= zclk s')%nat
    ∧ ((zclk s' <= hi)%nat → timers_inv s').
Proof.
  intros Hs. destruct (zw_threads s !! i) as [[tm pc]|] eqn:Hi.
  2:{ exists s. unfold thread_step. rewrite (bind_Ret get _ _ _ _ eq_refl), Hi. done. }
  pose proof (ti_threads _ Hs) as Hf. rewrite Forall_lookup in Hf.
  destruct (Hf i _ Hi) as [_ Hok]. simpl in Hok.
  destruct (decide (pc = TimerExited)) as [->|Hne].
  - exists (set_zw_threads (<[i := (tm, TimerExited)]> (zw_threads s)) s). split; [|split; [done|]].
    + unfold thread_step. by rewrite (bind_Ret get _ _ _ _ eq_refl), Hi.
    + intros _. rewrite list_insert_id by done. by destruct s.
  - destruct (Hok Hne) as (t & Ht & Hd & Hpc).
    destruct (timer_step_run s tm pc t Ht Hd Hne Hpc) as (w' & t' & pc' & Hst).
    eexists. split; [by apply (thread_step_run i tm pc t)|]. split.
    + unfold zclk at 2. simpl. apply (sp_clk _ _ _ _ _ _ _ Hst).
    + intros Hle. by apply (step_inv i tm pc t).
Qed.

Lemma zstep_inv s s' :
  zstep s s' → timers_inv s →
  (zclk s <= zclk s')%nat ∧ ((zclk s' <= hi)%nat → timers_inv s').
Proof.
  intros Hst Hs. destruct Hst as [c s s' E|i s s' E|ch z t s s' Hz Ht Htd E].
  - pose proof (pr_clk _ (pres_call c) s) as Hc. pose proof (pr_inv _ (pres_call c) s Hs) as Hi.
    by rewrite E in Hc, Hi.
  - destruct (thread_step_total i s Hs) as (s1 & E1 & Hc & Hi). rewrite E in E1. by simplify_eq.
  - destruct (close_end_inv ch s z t Hs Hz Ht Htd) as (s1 & E1 & Hi & Hc & _).
    rewrite E in E1. by simplify_eq.
Qed.

(** Runs within the readings the clock is known for. *)
Definition zrun (s s' : zworld W) : Prop := zstep s s' ∧ (zclk s' <= hi)%nat.

Lemma zrun_inv s s' : rtc zrun s s' → timers_inv s → timers_inv s'.
Proof.
  induction 1 as [|s s1 s' [Hst Hle] Hr IH]; [done|]. intros Hs. apply IH.
  by apply (zstep_inv s s1).
Qed.

Lemma zstart_inv w : timers_inv (zw_start w).
Proof. split; [by constructor|by constructor|]. intros tm t Ht. simpl in Ht. by rewrite lookup_empty in Ht. Qed.

(** The wait of closeZMQChannel: [m] steps of the thread end it. *)
Lemma close_wait_run m i tm pc t s :
  timers_inv s → zw_threads s !! i = Some (tm, pc) → zw_timers s !! tm = Some t →
  (pc = TimerExited → terminated t = true) → terminate t = true →
  ends m (zclk s) pc → (zclk s + m <= hi)%nat →
  ∃ s' t', close_wait tm (replicate m i) s = (s', Ret tt) ∧ timers_inv s'
    ∧ zw_chans s' = zw_chans s ∧ zw_timers s' !! tm = Some t' ∧ terminated t' = true.
Proof.
  revert pc t s. induction m as [|m IH]; intros pc t s Hs Hi Ht Hex Htd Hends Hle.
  all: cbn [replicate close_wait]; rewrite (timer_look tm t) by done.
  all: destruct (terminated t) eqn:Hd; [by exists s, t|].
  all: assert (pc ≠ TimerExited) as Hne by (intros ->; by specialize (Hex eq_refl)).
  { exfalso. destruct pc; simpl in Hends; try lia; [|done]. destruct Hends as (j & _ & ?). lia. }
  pose proof (ti_threads _ Hs) as Hf. rewrite Forall_lookup in Hf.
  destruct (Hf i _ Hi) as [_ Hok]. destruct (Hok Hne) as (t0 & Ht0 & _ & Hpc). simpl in *.
  rewrite Ht in Ht0. injection Ht0 as <-.
  destruct (timer_step_run s tm pc t Ht Hd Hne Hpc) as (w' & t' & pc' & Hst).
  rewrite (bind_Ret _ _ _ _ _ (thread_step_run i tm pc t s w' t' pc' Hi Hst)).
  pose proof Hst as [_ Hclk _ Hal Htl Hen]. set (s1 := set_zw_threads _ _).
  destruct (IH pc' t' s1) as (s' & t2 & E & Hs' & Hch & T1 & T2).
  - apply (step_inv i tm pc t); [done|done|done|lia].
  - simpl. apply list_lookup_insert_eq. by eapply lookup_lt_Some.
  - simpl. apply lookup_insert_eq.
  - intros ->. by rewrite Hal, bool_decide_eq_true_2.
  - congruence.
  - apply Hen; [done|lia|done].
  - unfold zclk in *. simpl. lia.
  - exists s', t2. done.
Qed.

(** From wherever it is, a thread ends within a few steps more than the clock takes
    for an interval. *)
Lemma ends_soon s pc t :
  pc_ok (zclk s) t pc → (zclk s + waits <= hi)%nat → ends (waits + 4) (zclk s) pc.
Proof.
  intros Hpc Hle. destruct pc; simpl in *; try lia. destruct Hpc as [Ck Cs Cn [_ Ce] Cp].
  destruct Cn as (_ & _ & c0 & N1 & N2). pose proof (ck_adv _ _ _ _ K (zclk s - 1) ltac:(lia)) as Ha.
  assert (zclk s - 1 + waits < hi)%nat as Hlt by lia. specialize (Ha Hlt).
  pose proof (ck_le 0 hi waits B c0 (zclk s - 1) K ltac:(lia) ltac:(lia) ltac:(lia)) as Hm.
  assert (0 < waits)%nat.
  { destruct (decide (waits = 0%nat)) as [E|]; [|lia]. rewrite E, Nat.add_0_r in Ha.
    change B with 100000 in Ha. lia. }
  exists (waits - 1)%nat. replace (zclk s + (waits - 1))%nat with (zclk s - 1 + waits)%nat by lia.
  split; [lia|lia].
Qed.

Lemma close_returns s ch z i pc :
  timers_inv s → zw_chans s !! ch = Some z → z_tm z ≠ 0 →
  zw_threads s !! i = Some (z_tm z, pc) → pc ≠ TimerExited → (zclk s + waits + 4 <= hi)%nat →
  ∃ s', closeZMQChannel (replicate (waits + 4) i) ch s = (s', Ret tt)
    ∧ zw_timers s' !! z_tm z = None.
Proof.
  intros Hs Hz Hnz Hi Hne Hle.
  pose proof (ti_threads _ Hs) as Hf. rewrite Forall_lookup in Hf.
  destruct (Hf i _ Hi) as [_ Hok]. destruct (Hok Hne) as (t & Ht & Hd & Hpc). simpl in Ht, Hpc.
  unfold closeZMQChannel. assert (zchan ch s = (s, Ret z)) as Ez
    by (unfold zchan; monad_simpl; by rewrite Hz).
  rewrite (bind_Ret _ _ _ _ _ Ez).
  set (s1 := set_zw_timers (<[z_tm z := set_terminate true t]> (zw_timers s)) s).
  assert (close_begin ch s = (s1, Ret tt)) as Eb.
  { unfold close_begin. rewrite (bind_Ret _ _ _ _ _ Ez).
    destruct (Z.eqb_spec (z_tm z) 0); [done|]. by rewrite (on_timer_run _ _ t). }
  rewrite (bind_Ret _ _ _ _ _ Eb). destruct (Z.eqb_spec (z_tm z) 0); [done|].
  assert (timers_inv s1) as Hs1.
  { pose proof (pr_inv _ (pres_close_begin ch) s Hs) as Hi1. rewrite Eb in Hi1. apply Hi1. simpl. 
    unfold s1, zclk in *. simpl. lia. }
  destruct (close_wait_run (waits + 4) i (z_tm z) pc (set_terminate true t) s1)
    as (s2 & t2 & E2 & Hs2 & Hch & T1 & T2); try done.
  - simpl. apply lookup_insert_eq.
  - apply (ends_soon s1 pc t); [exact Hpc|]. unfold s1, zclk in *. simpl. lia.
  - unfold s1, zclk in *. simpl. lia.
  - rewrite (bind_Ret _ _ _ _ _ E2).
    destruct (close_end_inv ch s2 z t2 Hs2) as (s3 & E3 & _ & _ & E4); [by rewrite Hch|done|done|].
    exists s3. split; [done|]. rewrite E4. apply lookup_delete_eq.
Qed.

End Timers.

(** ** A machine *)
Definition demo_zmq : ZmqOs sys := {|
  incoming := λ _, Some "init";
  connectable := λ _, true;
  writable := λ _, true;
  get_jstring := λ _, sample_tuple;
  build_date := "Jan  1 2020 00:00:00";
  p_closeChannel := λ _, mret tt
|}.

#[local] Existing Instance tick_env.
#[local] Existing Instance null_profiler.
#[local] Existing Instance null_profiler_laws.
#[local] Existing Instance demo_zmq.

Lemma tick_zmq_ok : clock_ok 0 1000 1 B.
Proof.
  assert (∀ n, ts_ns (clock n) = tick_ns n) as Hn.
  { intros n. unfold ts_ns. simpl. rewrite Z.mul_comm. symmetry. by apply Z.div_mod. }
  change B with 100000. constructor.
  - intros c Hc. simpl. split; [by apply Z.mod_pos_bound|]. unfold tick_ns.
    change NANO_S_PER_S with 1000000000. change (2 ^ 61) with 2305843009213693952.
    split; [apply Z.div_pos; lia|]. apply Z.div_lt_upper_bound; lia.
  - intros c _ _. rewrite !Hn. unfold tick_ns. lia.
  - intros c _ _. rewrite !Hn. unfold tick_ns. lia.
Qed.

Lemma tick_sec c : (c < 1000)%nat → tv_sec (clock c) < 2 ^ 50.
Proof.
  intros Hc. simpl. unfold tick_ns. change NANO_S_PER_S with 1000000000.
  change (2 ^ 50) with 1125899906842624. apply Z.div_lt_upper_bound; lia.
Qed.

Lemma demo_close h w : ∃ w', p_closeChannel h w = (w', Ret tt)
  ∧ (p_clk w <= p_clk w' <= p_clk w + calls)%nat.
Proof. exists w. split; [done|]. simpl. lia. Qed.

Lemma zrun_call c s :
  (zcall_run c s).2 = Ret tt → (zclk (zcall_run c s).1 <= 1000)%nat → zrun 1000 s (zcall_run c s).1.
Proof.
  intros E Hle. split; [|done]. apply (ZCall c). rewrite (surjective_pairing (zcall_run c s)).
  by rewrite E.
Qed.

Lemma zrun_thread i s :
  (thread_step i s).2 = Ret tt → (zclk (thread_step i s).1 <= 1000)%nat →
  zrun 1000 s (thread_step i s).1.
Proof.
  intros E Hle. split; [|done]. apply (ZThread i). rewrite (surjective_pairing (thread_step i s)).
  by rewrite E.
Qed.

Definition demo_open : zworld sys :=
  (zcall_run (CInitTimeout 1 4)
    (zcall_run (COpenBktOpt 1 "10.0.0.8:9106") (zw_start (sys_init true))).1).1.
Definition demo_after (n : nat) : zworld sys := Nat.iter n (λ s, (thread_step 0 s).1) demo_open.

Lemma demo_step n :
  (thread_step 0 (demo_after n)).2 = Ret tt → (zclk (thread_step 0 (demo_after n)).1 <= 1000)%nat →
  zrun 1000 (demo_after n) (demo_after (S n)).
Proof. apply (zrun_thread 0 (demo_after n)). Qed.


(** A channel without a timer cannot be closed: the deletion goes through its NULL
    pointer. *)
Example plain_close_faults :
  (closeZMQChannel [] 1 (openZMQChannel 1 "10.0.0.8:9106" (zw_start (sys_init true))).1).2
  = Fault (FUndefined "no timer at this address").
Proof. vm_compute. reflexivity. Qed.

(** Two channels share the timer: closing the second reads it after it was freed. *)
Example second_close_faults :
  let s2 := (openZMQBucketChannel 1 "10.0.0.8:9106"
    (openZMQBucketChannel 1 "10.0.0.8:9106" (zw_start (sys_init true))).1).1 in
  let '(s3, r) := closeZMQChannel [0%nat; 0%nat; 0%nat] 1 s2 in
  r = Ret tt ∧ (closeZMQChannel [0%nat] 3 s3).2 = Fault (FUndefined "no timer at this address").
Proof. vm_compute. done. Qed.

(** After a bucket channel, the timeouts are never allocated. *)
Example timeouts_stay_null :
  let s2 := (initTimeoutVars 3 4 (openZMQBktOptChannel 1 "10.0.0.8:9106"
    (openZMQBucketChannel 1 "10.0.0.8:9106" (zw_start (sys_init true))).1).1).1 in
  (getTimeoutVars 3 2 s2).2 = Ret (0, 2).
Proof. vm_compute. reflexivity. Qed.

(** emit needs a poll item, and openTCPChannel makes none. *)
Example emit_aborts :
  (emit 1 0 (openTCPChannel true [] 1 (zw_start (sys_init true))).1).2
  = Fault (FAbort "zmq::error_t: poll of NULL").
Proof. vm_compute. reflexivity. Qed.
