(* ===== verification/EmitRun.v ===== *)
(** * The data generator as a whole: runDGSender and openSelfFeedChannel of
    src/cp/cpp_emit/emit.cpp

    The threads themselves are [mt_emitScheduler] (EmitPace.v) and [mt_selfFeeder]
    (EmitRecv.v); here is what starts them, with which tuples, and what becomes of
    the arrays. *)
From S2P Require Import Prelude Util TimeStamp Platform Log EmitLoad EmitPace EmitRecv.
From S2P Require Import EmitZmq.

(** ** runDGSender *)

(** The globals, and whether the arrays of initDGSender still exist. *)
Record generator := Generator { dg_vars : sv_vars; dg_alive : bool }.
Definition set_dg_vars v g := Generator v (dg_alive g).
Definition set_dg_alive b g := Generator (dg_vars g) b.

(** A thread with the tuples and the pills it is given. *)
Record sender := Sender { sd_tid : Z; sd_v : list string; sd_v2 : list string }.

Definition dg_init (port emit pill offset throughput slag threads : Z) : M generator unit :=
  zoom dg_vars set_dg_vars (initDGSender port emit pill offset throughput slag threads) ;;
  modify (set_dg_alive true).

(** [at] throws on an index out of range, with threads running: the program
    aborts. *)
Fixpoint start_senders (n : nat) (i : Z) (arrs pills : list (list string))
    : M generator (list sender) :=
  match n with
  | O => mret []
  | S n =>
      match arrs !! Z.to_nat i, pills !! Z.to_nat i with
      | Some v, Some v2 =>
          l ← start_senders n (i + 1) arrs pills; mret (Sender i v v2 :: l)
      | _, _ => abort "std::out_of_range"
      end
  end.

(** [joined]: every thread ends. Then all arrays are deleted, and the pointers to
    them stay in the globals. *)
Definition runDGSender (joined : bool) : M generator (list sender) :=
  g ← get;
  (if dg_alive g then mret tt else undefined "the arrays are not there") ;;
  '(arrs, pills) ← zoom dg_vars set_dg_vars choose_arrays;
  l ← start_senders (Z.to_nat (nr_threads (dg_vars g))) 0 arrs pills;
  (if joined then mret tt else spin "a sender thread does not end") ;;
  modify (set_dg_alive false) ;;
  mret l.

(** *** Loading leaves the rest of the globals alone *)
Record load_frame (v v' : sv_vars) : Prop := LoadFrame {
  lf_sarrays : sarrays v' = sarrays v;
  lf_pills : b_pills v' = b_pills v;
  lf_threads : nr_threads v' = nr_threads v
}.

#[global] Instance load_frame_po : PreOrder load_frame.
Proof. split; [done|]. intros v1 v2 v3 [] []. constructor; congruence. Qed.

Lemma loadOneTuple_frame s v : load_frame v (loadOneTuple s v).1.
Proof.
  unfold loadOneTuple, abort. monad_simpl.
  destruct (bool_decide _); [done|]. simpl. destruct (0 <? _); [|done].
  destruct (push_at _ _ _); [|done]. simpl. by destruct (u64 _ =? 1).
Qed.

Lemma load_each_frame ts : ∀ v, load_frame v (load_each ts v).1.
Proof.
  induction ts as [|s ts IH]; intros v; [done|]. simpl.
  pose proof (loadOneTuple_frame s v) as F. unfold mbind, M_bind.
  destruct (loadOneTuple s v) as [v1 [r|f]]; [|done]. simpl in F.
  pose proof (IH v1) as F1. destruct (load_each ts v1) as [v2 [rs|f]]; by etrans.
Qed.

Lemma start_senders_run g (arrs : list (list string)) (pill : string) n : ∀ i,
  (i + n <= length arrs)%nat →
  start_senders n (Z.of_nat i) arrs (map (λ l, [pill]) arrs) g
  = (g, Ret (zip_with (λ j v, Sender (Z.of_nat j) v [pill]) (seq i n)
               (take n (drop i arrs)))).
Proof.
  induction n as [|n IH]; intros i Hi; [done|].
  destruct (lookup_lt_is_Some_2 arrs i ltac:(lia)) as [v Hv].
  cbn [start_senders]. rewrite Nat2Z.id, Hv, list_lookup_fmap, Hv. cbn.
  replace (Z.of_nat i + 1) with (Z.of_nat (S i)) by lia.
  rewrite (bind_Ret _ _ _ _ _ (IH (S i) ltac:(lia))).
  rewrite (drop_S _ _ _ Hv). done.
Qed.

Lemma dealt_length n r ts : length (dealt n r ts) = n.
Proof. unfold dealt. by rewrite length_map, length_seq. Qed.

Lemma dealt_first n r ts :
  (0 < r)%nat → length ts = (S n * r)%nat → ∃ x l a, dealt (S n) r ts = (x :: l) :: a.
Proof.
  intros Hr Hl. unfold dealt. cbn [seq map]. simpl Nat.mul. rewrite drop_0.
  destruct ts as [|x ts]; [simpl in Hl; lia|]. destruct r as [|r]; [lia|].
  simpl take. by do 3 eexists.
Qed.

Lemma zip_with_seq_imap {A B} (f : nat → A → B) l :
  zip_with f (seq 0 (length l)) l = imap f l.
Proof.
  apply list_eq. intros i. rewrite list_lookup_imap, lookup_zip_with.
  destruct (decide (i < length l)%nat) as [Hi|Hi].
  - by rewrite lookup_seq_lt.
  - by rewrite lookup_seq_ge, (lookup_ge_None_2 l) by lia.
Qed.

(** What is loaded is sent: after the arrays were filled tuple by tuple and the
    pills loaded, runDGSender starts one thread per part, the i-th with the i-th part
    of the tuples and the pill, and deletes the arrays when they have ended; running
    it again without a new initialisation uses freed memory. *)
Theorem run_sends_what_is_loaded n r port emit pill offset throughput slg ts p g :
  (0 < r)%nat → throughput * emit = Z.of_nat r →
  Z.of_nat (S n * r) < 2 ^ 63 → length ts = (S n * r)%nat →
  ∃ g', (dg_init port emit pill offset throughput slg (Z.of_nat (S n)) ;;
         zoom dg_vars set_dg_vars (load_each ts) ;;
         zoom dg_vars set_dg_vars (loadPoisonPills p) ;;
         runDGSender true) g
    = (g', Ret (imap (λ i v, Sender (Z.of_nat i) v [p])
                  (map (λ i, take r (drop (i * r) ts)) (seq 0 (S n)))))
    ∧ dg_alive g' = false
    ∧ runDGSender true g' = (g', Fault (FUndefined "the arrays are not there")).
Proof.
  intros Hr Hx Hb Hl.
  destruct (init_load_inv (S n) r port emit pill offset throughput slg (dg_vars g))
    as (v1 & E1 & I1); [done..|lia|].
  destruct (load_each_run (S n) r [] ts v1 Hr ltac:(simpl in *; lia) Hb I1) as (v2 & E2 & I2).
  pose proof (load_each_frame ts v1) as F. rewrite E2 in F. cbn [fst] in F. destruct F as [F1 F2 F3].
  injection E1 as Ev1. rewrite <- Ev1 in F1, F2, F3.
  cbn [sarrays b_pills nr_threads] in F1, F2, F3. unfold no_tuples in F1, F2.
  rewrite Nat2Z.id in F1, F2.
  rewrite (bind_Ret _ _ g (Generator v1 true) tt) by (rewrite <- Ev1; done).
  rewrite (bind_Ret (zoom _ _ (load_each ts)) _ _ (Generator v2 true)
    (map (λ i, Z.of_nat (S n * r) - Z.of_nat (length (@nil string) + S i)) (seq 0 (length ts))))
    by (unfold zoom; simpl dg_vars; by rewrite E2).
  pose proof (li_arrays _ _ _ _ I2) as Ea. simpl app in Ea.
  set (v3 := set_b_pills (map (λ l, l ++ [p]) (b_pills v2)) v2).
  destruct (dealt_first n r ts Hr Hl) as (x & l & a & Ed).
  rewrite (bind_Ret (zoom _ _ (loadPoisonPills p)) _ _ (Generator v3 true) tt).
  2:{ unfold zoom, loadPoisonPills. monad_simpl. rewrite Ea, Ed. done. }
  assert (zoom dg_vars set_dg_vars choose_arrays (Generator v3 true)
    = (Generator v3 true, Ret (barrays v2, b_pills v3))) as Ec.
  { unfold zoom, choose_arrays, v3. monad_simpl. by rewrite F1, Ea, Ed. }
  unfold runDGSender at 1. rewrite (bind_Ret get _ _ _ _ eq_refl). cbn [dg_alive dg_vars].
  rewrite bind_ret_l, (bind_Ret _ _ _ _ _ Ec). cbv beta iota.
  replace (nr_threads v3) with (Z.of_nat (S n)) by (unfold v3; simpl nr_threads; by rewrite F3).
  rewrite Nat2Z.id.
  assert (b_pills v3 = map (λ _, [p]) (barrays v2)) as ->.
  { unfold v3. simpl b_pills. rewrite F2, Ea.
    apply list_eq_same_length with (S n); rewrite ?length_map, ?length_replicate, ?dealt_length;
      [done..|].
    intros i y z Hi Hy Hz. rewrite list_lookup_fmap in Hy, Hz.
    rewrite lookup_replicate_2 in Hy by done.
    destruct (dealt (S n) r ts !! i); simpl in *; congruence. }
  rewrite Ea. change 0 with (Z.of_nat 0) at 1.
  rewrite (bind_Ret _ _ _ _ _ (start_senders_run _ (dealt (S n) r ts) p (S n) 0
    ltac:(by rewrite dealt_length))).
  rewrite bind_ret_l, (bind_Ret (modify _) _ _ _ tt eq_refl).
  exists (Generator v3 false). split; [|done].
  rewrite drop_0, (take_ge (dealt _ _ _)) by (by rewrite dealt_length).
  pose proof (zip_with_seq_imap (λ i v, Sender (Z.of_nat i) v [p]) (dealt (S n) r ts)) as Ez.
  rewrite dealt_length in Ez. by rewrite Ez.
Qed.

(** ** openSelfFeedChannel *)
Section SelfFeed.
Context `{Env} {W : Type} `{!Profiler W} `{!ZmqOs W}.

(** The channel, and the threads started on its queues: the i-th runs
    [mt_selfFeeder] with these settings. [new tcp_vars()] leaves zeros. *)
Definition openSelfFeedChannel (emit_dur per_sec_throughput slag nr_threads : Z)
    : M (zworld W) (Z * list (Z * sv_vars)) :=
  ch ← new_object;
  build_info ;;
  put_tcp ch (TcpVars [] false nr_threads (Some (Receiver (open_queues nr_threads) 0)) None
                false 0) ;;
  let vars := SvVars 0 emit_dur 0 0 TIME_BUDGET per_sec_throughput slag nr_threads 0 0
                [] [] [] [] 0 0 in
  mret (ch, map (λ i, (Z.of_nat i, vars)) (seq 0 (Z.to_nat nr_threads))).

(** One thread per queue, and a channel from which mt_recvStr can read. *)
Lemma openSelfFeedChannel_run dur rate slg n s :
  0 ≤ n →
  ∃ s' feeders t r, openSelfFeedChannel dur rate slg n s = (s', Ret (zw_next s, feeders))
    ∧ zw_tcps s' !! zw_next s = Some t ∧ queues t = Some r
    ∧ length (rc_queues r) = Z.to_nat n ∧ Forall (λ q, q = []) (rc_queues r)
    ∧ map fst feeders = map Z.of_nat (seq 0 (Z.to_nat n)).
Proof.
  intros Hn. unfold openSelfFeedChannel. rewrite (bind_Ret new_object _ _ _ _ eq_refl).
  rewrite (bind_Ret build_info _ _ _ tt eq_refl), (bind_Ret (put_tcp _ _) _ _ _ tt eq_refl).
  do 4 eexists. split; [done|]. cbn. rewrite lookup_insert_eq. split_and!; [done|done|..].
  - simpl. unfold open_queues. by rewrite length_replicate.
  - simpl. unfold open_queues. by apply Forall_replicate.
  - rewrite map_map. by apply map_ext.
Qed.
End SelfFeed.

Lemma run_sends_what_is_loaded_witness :
  ∃ g', (dg_init 9200 1 1 0 2 0 3 ;;
         zoom dg_vars set_dg_vars (load_each ["a"; "b"; "c"; "d"; "e"; "f"]) ;;
         zoom dg_vars set_dg_vars (loadPoisonPills "pill") ;;
         runDGSender true) (Generator sv_vars0 false)
    = (g', Ret [Sender 0 ["a"; "b"] ["pill"]; Sender 1 ["c"; "d"] ["pill"];
                Sender 2 ["e"; "f"] ["pill"]])
    ∧ dg_alive g' = false
    ∧ runDGSender true g' = (g', Fault (FUndefined "the arrays are not there")).
Proof.
  exact (run_sends_what_is_loaded 2 2 9200 1 1 0 2 0 ["a"; "b"; "c"; "d"; "e"; "f"] "pill"
    (Generator sv_vars0 false) ltac:(lia) eq_refl eq_refl eq_refl).
Defined.
