(* ===== verification/Gpio.v ===== *)
(** * GPIO round trips: src/cp/handlers/gpiortt_handler.cpp

    On boards with GPIO pins, two nodes measure the cycles between toggling a
    line and seeing the other node toggle its own. The client's handler signals,
    waits and logs; a thread of the master answers. The pins a node reads are
    hardware: a call is given the values its waiting loop reads, and GpioRun puts
    the two boards together. The registers are part of the closure's state here,
    since one channel of a node owns the board. *)
From S2P Require Import Prelude TimeStamp Platform Log Formats Closure.

Definition FSEL_ALL : Z := 0xFFFFFFFF.
Definition BLOCK_SIZE : Z := 4 * 1024.
Definition PIN_LINE_M : Z := 8.
Definition PIN_LINE_C : Z := 9.
Definition PIN_BARR_M : Z := 10.
Definition PIN_BARR_C : Z := 11.
Definition PIN (target pin : Z) : Z := Z.land (Z.shiftr target pin) 1.
Definition CONFIRM_ITER : Z := 64.
Definition PMU_MODULE : string := "pmu_access".
Definition CPU_PERF : string := "performance".
Definition MAX_FREQ : string := "max_freq".
Definition MIN_FREQ : string := "min_freq".
Definition RAND_MAX : Z := 2147483647.

(** The two registers a node writes: a 0 in fsel makes the pin an output, driven
    with the bit of outp. *)
Record board := Board { fsel : Z; outp : Z }.

Record GPIORTT_ext := GPIORTTExt {
  gp_start : Z;
  gp_end : Z;
  elapsed : Z;
  cpu_num : Z;
  cpu_khz : Z;
  fd : Z;
  isMaster : bool;
  gpio : bool;             (* map_base and gpio: mapped *)
  confirm_iter : Z;
  barr_m : Z;
  barr_c : Z;
  line_m : Z;
  line_c : Z;
  regs : board;
  cycles : nat;            (* readings of the cycle counter so far *)
  servers : nat            (* threads created *)
}.

Section Setters.
Implicit Types e : GPIORTT_ext.
Definition set_times st en el k e := GPIORTTExt st en el (cpu_num e) (cpu_khz e) (fd e)
  (isMaster e) (gpio e) (confirm_iter e) (barr_m e) (barr_c e) (line_m e) (line_c e)
  (regs e) k (servers e).
Definition set_cpu n khz e := GPIORTTExt (gp_start e) (gp_end e) (elapsed e) n khz (fd e)
  (isMaster e) (gpio e) (confirm_iter e) (barr_m e) (barr_c e) (line_m e) (line_c e)
  (regs e) (cycles e) (servers e).
Definition set_isMaster b e := GPIORTTExt (gp_start e) (gp_end e) (elapsed e) (cpu_num e)
  (cpu_khz e) (fd e) b (gpio e) (confirm_iter e) (barr_m e) (barr_c e) (line_m e)
  (line_c e) (regs e) (cycles e) (servers e).
Definition set_map f g it e := GPIORTTExt (gp_start e) (gp_end e) (elapsed e) (cpu_num e)
  (cpu_khz e) f (isMaster e) g it (barr_m e) (barr_c e) (line_m e)
  (line_c e) (regs e) (cycles e) (servers e).
Definition set_barr m c e := GPIORTTExt (gp_start e) (gp_end e) (elapsed e) (cpu_num e)
  (cpu_khz e) (fd e) (isMaster e) (gpio e) (confirm_iter e) m c (line_m e)
  (line_c e) (regs e) (cycles e) (servers e).
Definition set_line m c e := GPIORTTExt (gp_start e) (gp_end e) (elapsed e) (cpu_num e)
  (cpu_khz e) (fd e) (isMaster e) (gpio e) (confirm_iter e) (barr_m e) (barr_c e) m c
  (regs e) (cycles e) (servers e).
Definition set_regs r e := GPIORTTExt (gp_start e) (gp_end e) (elapsed e) (cpu_num e)
  (cpu_khz e) (fd e) (isMaster e) (gpio e) (confirm_iter e) (barr_m e) (barr_c e)
  (line_m e) (line_c e) r (cycles e) (servers e).
Definition set_servers n e := GPIORTTExt (gp_start e) (gp_end e) (elapsed e) (cpu_num e)
  (cpu_khz e) (fd e) (isMaster e) (gpio e) (confirm_iter e) (barr_m e) (barr_c e)
  (line_m e) (line_c e) (regs e) (cycles e) n.
End Setters.

(** C's [!x] of an uint32_t. *)
Definition sense_reverse (x : Z) : Z := if x =? 0 then 1 else 0.

(** [outp ^= 1UL << pin] *)
Definition toggle (pin : Z) (b : board) : board :=
  Board (fsel b) (u32 (Z.lxor (outp b) (Z.shiftl 1 pin))).
(** [fsel &= ~(1 << pin)] and [outp &= ~(1 << pin)] *)
Definition clear_bit (x pin : Z) : Z := Z.land x (u32 (Z.lnot (Z.shiftl 1 pin))).

(** The writes of initGPIO to the registers, in their order. *)
Definition init_writes (master : bool) : list (board → board) :=
  let line := if master then PIN_LINE_M else PIN_LINE_C in
  let barr := if master then PIN_BARR_M else PIN_BARR_C in
  [λ b, Board (Z.lor (fsel b) FSEL_ALL) (outp b);
   λ b, Board (clear_bit (fsel b) line) (outp b);
   λ b, Board (clear_bit (fsel b) barr) (outp b);
   λ b, Board (fsel b) (clear_bit (outp b) line);
   λ b, Board (fsel b) (clear_bit (outp b) barr)].

(** What the operating system and the processor say. *)
Class Pmu := {
  shell : string → option string;     (* output of a command; None: popen fails *)
  rand_value : Z;
  open_gpiomem : Z;
  mmap_ok : bool;
  pthread_create_ret : Z;
  pthread_detach_ret : Z;
  setaffinity_ret : Z → Z;            (* by CPU *)
  pmccntr : nat → Z                   (* the n-th reading of the cycle counter *)
}.

Definition gpio_file : string := "handlers/gpiortt_handler.cpp".

Section Gpio.
Context `{Env} `{Pmu}.

(** *** The checks *)

(** The 16 bytes read into [buf], as the string strstr looks through. *)
Definition read_buf (out : string) : CM GPIORTT_ext string :=
  let buf := c_string (String.substring 0 16 out) in
  if (String.length buf =? 16)%nat then undefined "buf has no terminator" else mret buf.

Definition cpufreq (cpu : Z) (what : string) : string :=
  "cat /sys/devices/system/cpu/cpu" +:+ zstr cpu +:+ "/cpufreq/scaling_" +:+ what.

Definition checkGovernerStatus : CM GPIORTT_ext bool :=
  c ← this;
  match shell (cpufreq (cpu_num (ext c)) "governor") with
  | None => sysm (logFail gpio_file 261 "setArgGPIORTTHandler popen failed") ;; mret false
  | Some out =>
      if (String.length out =? 0)%nat then mret false
      else
        buf ← read_buf out;
        if strstr buf CPU_PERF then mret true
        else
          sysm (logFail gpio_file 271 ("setArgGPIORTTHandler CPU"
            +:+ zstr (cpu_num (ext c)) +:+ ": " +:+ buf)) ;;
          mret false
  end.

(** One of the two frequencies: what it leaves in [checkStatus], or [None] when
    the function returns at once. *)
Definition check_freq (what : string) (popen_line line : Z) (maxStr : string)
    (checkStatus : bool) : CM GPIORTT_ext (option bool) :=
  c ← this;
  match shell (cpufreq (cpu_num (ext c)) what) with
  | None =>
      sysm (logFail gpio_file popen_line "setArgGPIORTTHandler popen failed") ;; mret None
  | Some out =>
      if (String.length out =? 0)%nat then mret (Some false)
      else
        buf ← read_buf out;
        if strstr buf maxStr then mret (Some checkStatus)
        else
          sysm (logFail gpio_file line ("setArgGPIORTTHandler CPU"
            +:+ zstr (cpu_num (ext c)) +:+ ": " +:+ MAX_FREQ +:+ ": " +:+ buf
            +:+ " (" +:+ maxStr +:+ ")")) ;;
          mret (Some false)
  end.

Definition checkMaxFrequency : CM GPIORTT_ext bool :=
  c ← this;
  let maxStr := zstr (cpu_khz (ext c)) in
  (if (15 <? String.length maxStr)%nat then undefined "maxStr overflows" else mret tt) ;;
  r ← check_freq MAX_FREQ 293 304 maxStr true;
  match r with
  | None => mret false
  | Some checkStatus =>
      r ← check_freq MIN_FREQ 318 328 maxStr checkStatus;
      match r with None => mret false | Some checkStatus => mret checkStatus end
  end.

Definition checkPMUAvailability : CM GPIORTT_ext bool :=
  match shell ("lsmod | grep " +:+ PMU_MODULE) with
  | None => undefined "fread from NULL"
  | Some out => mret (negb (String.length out =? 0)%nat)
  end.

(** *** The pins *)

(** The part of initGPIO before the registers are written. *)
Definition map_gpio : CM GPIORTT_ext bool :=
  let one := u32 (rand_value `div` RAND_MAX + 1) in
  assign_ext (λ e, set_map open_gpiomem (gpio e) (u32 (one * CONFIRM_ITER)) e) ;;
  if open_gpiomem <? 0 then
    sysm (logFail gpio_file 368 ("Unable to open /dev/gpiomem. Here is possible solution:"
      +:+ nl +:+ nl +:+ "    (1) Double-check for a root-access" +:+ nl
      +:+ "    (2) Add username to a group with an access to the file." +:+ nl
      +:+ "        See /etc/udev/rules.d/10-odroid.rules" +:+ nl)) ;;
    mret false
  else if negb mmap_ok then
    sysm (logFail gpio_file 375 ("Mmap failed." +:+ nl)) ;; mret false
  else
    assign_ext (λ e, set_map (fd e) true (confirm_iter e) e) ;; mret true.

Definition initGPIO : CM GPIORTT_ext bool :=
  ok ← map_gpio;
  if negb ok then mret false
  else
    assign_ext (λ e, set_regs (foldl (λ b f, f b) (regs e) (init_writes (isMaster e))) e) ;;
    mret true.

(** [while (PIN(inp, pin) != sense)]: what is left of the readings when the loop
    ends. *)
Fixpoint wait_pin (pin sense : Z) (inp : list Z) : option (list Z) :=
  match inp with
  | [] => None
  | r :: inp => if PIN r pin =? sense then Some inp else wait_pin pin sense inp
  end.

Definition wait_for (pin sense : Z) (inp : list Z) : CM GPIORTT_ext unit :=
  match wait_pin pin sense inp with
  | Some _ => mret tt
  | None => spin "the other node does not toggle its pin"
  end.

Definition deref_gpio : CM GPIORTT_ext unit :=
  c ← this;
  if gpio (ext c) then mret tt else undefined "NULL gpio dereferenced".

(** *** The client: barrier and calls *)
Definition client_barrier_signal : CM GPIORTT_ext unit :=
  assign_ext (λ e, set_barr (sense_reverse (barr_m e)) (sense_reverse (barr_c e)) e) ;;
  deref_gpio ;;
  assign_ext (λ e, set_regs (toggle PIN_BARR_C (regs e)) e).

Definition client_signal : CM GPIORTT_ext unit :=
  assign_ext (λ e, set_line (sense_reverse (line_m e)) (sense_reverse (line_c e)) e) ;;
  assign_ext (λ e, set_times (pmccntr (cycles e)) (gp_end e) (elapsed e) (S (cycles e)) e) ;;
  deref_gpio ;;
  assign_ext (λ e, set_regs (toggle PIN_LINE_C (regs e)) e).

Definition client_finish (tuple : Z) : CM GPIORTT_ext unit :=
  assign_ext (λ e, set_times (gp_start e) (pmccntr (cycles e)) (elapsed e) (S (cycles e)) e) ;;
  assign_ext (λ e, set_times (gp_start e) (gp_end e) (u64 (gp_end e - gp_start e))
                     (cycles e) e) ;;
  c ← this;
  emit (zstr tuple +:+ ", " +:+ zstr (elapsed (ext c)) +:+ nl).

(** A call, given the readings of its loop. *)
Definition GPIORTTHandler_client (inp : list Z) (tuple : Z) : CM GPIORTT_ext unit :=
  c ← this;
  if isMaster (ext c) then mret tt
  else
    client_signal ;;
    c ← this;
    wait_for PIN_LINE_M (line_m (ext c)) inp ;;
    client_finish tuple.

(** *** The master's thread *)
Definition server_barrier_signal : CM GPIORTT_ext unit :=
  assign_ext (λ e, set_barr (sense_reverse (barr_m e)) (barr_c e) e) ;;
  deref_gpio ;;
  assign_ext (λ e, set_regs (toggle PIN_BARR_M (regs e)) e).

Definition server_reverse : CM GPIORTT_ext unit :=
  assign_ext (λ e, set_line (sense_reverse (line_m e)) (sense_reverse (line_c e)) e).

Definition server_answer : CM GPIORTT_ext unit :=
  deref_gpio ;;
  assign_ext (λ e, set_regs (toggle PIN_LINE_M (regs e)) e).

(** *** Parameters *)
Definition gpio_fail (line : Z) (msg : string) : CM GPIORTT_ext Z :=
  sysm (logFail gpio_file line msg) ;; closure_closeChannel ;; mret (-1).

(** The thread is only created here; it runs beside. *)
Definition start_server : CM GPIORTT_ext Z :=
  if negb (pthread_create_ret =? 0) then
    gpio_fail 211 "setArgGPIORTTHandler pthread_create failed"
  else
    assign_ext (λ e, set_servers (S (servers e)) e) ;;
    if negb (pthread_detach_ret =? 0) then
      gpio_fail 217 "setArgGPIORTTHandler pthread_detach failed"
    else mret 0.

Definition client_barrier (inp : list Z) : CM GPIORTT_ext Z :=
  c ← this;
  if negb (setaffinity_ret (cpu_num (ext c)) =? 0) then
    gpio_fail 230 "setArgGPIORTTHandler pthread_setaffinity_np failed"
  else
    client_barrier_signal ;;
    c ← this;
    wait_for PIN_BARR_M (barr_m (ext c)) inp ;;
    mret 0.

(** An argument by number; [inp] are the readings of the client's barrier. *)
Definition setArgGPIORTT_num (inp : list Z) (arg_number arg_value : Z) : CM GPIORTT_ext Z :=
  if arg_number =? 0 then
    assign_ext (λ e, set_cpu (u64 arg_value) (cpu_khz e) e) ;;
    ok ← checkGovernerStatus;
    if negb ok then
      gpio_fail 166 "setArgGPIORTTHandler CPU governer is not configured to performance"
    else mret 0
  else if arg_number =? 1 then
    assign_ext (λ e, set_cpu (cpu_num e) (u64 arg_value) e) ;;
    ok ← checkMaxFrequency;
    if negb ok then gpio_fail 175 "setArgGPIORTTHandler max/min frequency is not set"
    else
      ok ← checkPMUAvailability;
      if negb ok then gpio_fail 181 "setArgGPIORTTHandler PMU instruction is not enabled"
      else mret 0
  else if negb (bool_decide (arg_value = 0 ∨ arg_value = 1)) then
    gpio_fail 193 "setArgGPIORTTHandler Master/Client is not configured"
  else
    assign_ext (set_isMaster (arg_value =? 1)) ;;
    ok ← initGPIO;
    if negb ok then gpio_fail 199 "setArgGPIORTTHandler Unable to initialize GPIO"
    else if arg_value =? 1 then start_server else client_barrier inp.

Definition setArgGPIORTTHandler (inp : list Z) (arg_number : Z) (arg : arg_val)
    : CM GPIORTT_ext Z :=
  if negb (bool_decide (arg_number = 2 ∨ arg_number = 1 ∨ arg_number = 0
                        ∨ arg_number = -1)) then
    gpio_fail 141 "setArgGPIORTTHandler arg number out of range"
  else if arg_number =? -1 then
    par ← as_ptr arg;
    n ← par_at par 0;
    if negb (u64 n =? 3) then gpio_fail 150 "setArgGPIORTTHandler arg number out of range"
    else
      par1 ← par_at par 1;
      ret ← setArgGPIORTT_num inp 0 (i64 par1);
      if ret =? -1 then mret (-1)
      else
        par2 ← par_at par 2;
        ret ← setArgGPIORTT_num inp 1 (i64 par2);
        if ret =? -1 then mret (-1)
        else
          par3 ← par_at par 3;
          setArgGPIORTT_num inp 2 (i64 par3)
  else
    v ← as_num arg;
    setArgGPIORTT_num inp arg_number v.

(** The format is left unset. *)
Definition initGPIORTTHandler (fmt0 : log_format) (b : board) : closure GPIORTT_ext :=
  set_parm_handler_f (Some setArgGPIORTTHandler_fn)
    (set_handler_f (Some GPIORTTHandler_client_fn)
      (closure_new fmt0 (GPIORTTExt 0 0 0 0 0 0 false false 0 0 0 0 0 b 0 0))).
End Gpio.
