(* ===== verification/GpioRun.v ===== *)
(** * GPIO round trips: two boards

    The client's calls and the master's thread as machines with one step per
    access to a pin. The nodes are wired pin to pin ([Wiring]); any interleaving
    of their steps is a run. *)
From S2P Require Import Prelude TimeStamp Platform Log Formats Closure Gpio.

(** What a node reads from its pins, given its registers and those of the other
    node: a pin one of them drives has the level of the driver, a pin nobody
    drives is low. *)
Class Wiring := {
  INP : board → board → Z;
  INP_driven own other p :
    8 ≤ p ≤ 11 → Z.testbit (fsel own) p = true → Z.testbit (fsel other) p = false →
    Z.testbit (INP own other) p = Z.testbit (outp other) p;
  INP_floating own other p :
    8 ≤ p ≤ 11 → Z.testbit (fsel own) p = true → Z.testbit (fsel other) p = true →
    Z.testbit (INP own other) p = false
}.

(** The client: the writes of initGPIO, its barrier, then its calls. *)
Inductive client_pc :=
  | CInit (j : nat) | CBarrier | CBarrWait | CIdle
  | CWait (tuple : Z) | CFinish (tuple : Z) | CEnd.

(** The master: the writes of initGPIO, then its thread. *)
Inductive server_pc :=
  | SInit (j : nat) | SStart | SBarrWait | SBarrSignal
  | SLoop | SWait | SAnswer | SEnd.

#[global] Instance client_pc_eq_dec : EqDecision client_pc.
Proof. solve_decision. Defined.
#[global] Instance server_pc_eq_dec : EqDecision server_pc.
Proof. solve_decision. Defined.

(** What the two nodes do to each other. *)
Inductive event := Begin (tuple : Z) | Answer | End_ (tuple : Z).

Section Machines.
Context `{Env} `{Pmu}.

Definition init_write (j : nat) : CM GPIORTT_ext bool :=
  c ← this;
  match init_writes (isMaster (ext c)) !! j with
  | Some f => assign_ext (λ e, set_regs (f (regs e)) e) ;; mret true
  | None => mret false
  end.

(** One step of the client: the next program point, the tuples left and what the
    step did. A waiting loop that goes round stays where it is. *)
Definition client_step (inp : Z) (pc : client_pc) (todo : list Z)
    : CM GPIORTT_ext (client_pc * list Z * list event) :=
  c ← this;
  match pc with
  | CInit j =>
      more ← init_write j;
      mret (if (more : bool) then CInit (S j) else CBarrier, todo, [])
  | CBarrier =>
      if negb (setaffinity_ret (cpu_num (ext c)) =? 0) then
        gpio_fail 230 "setArgGPIORTTHandler pthread_setaffinity_np failed" ;;
        mret (CEnd, todo, [])
      else client_barrier_signal ;; mret (CBarrWait, todo, [])
  | CBarrWait =>
      mret (if PIN inp PIN_BARR_M =? barr_m (ext c) then CIdle else CBarrWait, todo, [])
  | CIdle =>
      match todo with
      | [] => mret (CIdle, [], [])
      | t :: todo =>
          if isMaster (ext c) then mret (CIdle, todo, [])
          else client_signal ;; mret (CWait t, todo, [Begin t])
      end
  | CWait t =>
      mret (if PIN inp PIN_LINE_M =? line_m (ext c) then CFinish t else CWait t, todo, [])
  | CFinish t => client_finish t ;; mret (CIdle, todo, [End_ t])
  | CEnd => mret (CEnd, todo, [])
  end.

(** One step of the master: initGPIO, then GPIORTTHandler_server. *)
Definition server_step (inp : Z) (pc : server_pc)
    : CM GPIORTT_ext (server_pc * list event) :=
  c ← this;
  match pc with
  | SInit j =>
      more ← init_write j;
      mret (if (more : bool) then SInit (S j) else SStart, [])
  | SStart =>
      if negb (isMaster (ext c)) then mret (SEnd, [])
      else if negb (setaffinity_ret (cpu_num (ext c)) =? 0) then
        gpio_fail 416 "setArgGPIORTTHandler pthread_setaffinity_np failed" ;;
        mret (SEnd, [])
      else
        assign_ext (λ e, set_barr (barr_m e) (sense_reverse (barr_c e)) e) ;;
        mret (SBarrWait, [])
  | SBarrWait =>
      mret (if PIN inp PIN_BARR_C =? barr_c (ext c) then SBarrSignal else SBarrWait, [])
  | SBarrSignal => server_barrier_signal ;; mret (SLoop, [])
  | SLoop =>
      if isMaster (ext c) then server_reverse ;; mret (SWait, []) else mret (SEnd, [])
  | SWait =>
      mret (if PIN inp PIN_LINE_C =? line_c (ext c) then SAnswer else SWait, [])
  | SAnswer => server_answer ;; mret (SLoop, [Answer])
  | SEnd => mret (SEnd, [])
  end.

(** ** Two nodes *)
Record rig := Rig {
  master : closure GPIORTT_ext * sys;
  m_pc : server_pc;
  client : closure GPIORTT_ext * sys;
  c_pc : client_pc;
  todo : list Z;
  trace : list event
}.

Definition node_regs (n : closure GPIORTT_ext * sys) : board := regs (ext n.1).

(** A step of the client ([true]) or of the master. *)
Definition rig_step `{Wiring} (who : bool) (a : rig) : option rig :=
  if who then
    match client_step (INP (node_regs (client a)) (node_regs (master a))) (c_pc a) (todo a)
            (client a) with
    | (c', Ret (cs', l', ev)) => Some (Rig (master a) (m_pc a) c' cs' l' (trace a ++ ev))
    | _ => None
    end
  else
    match server_step (INP (node_regs (master a)) (node_regs (client a))) (m_pc a)
            (master a) with
    | (m', Ret (ms', ev)) => Some (Rig m' ms' (client a) (c_pc a) (todo a) (trace a ++ ev))
    | _ => None
    end.

Inductive gstep `{Wiring} (a b : rig) : Prop :=
  | GStep who : rig_step who a = Some b → gstep a b.

(** A step that is not a round of a waiting loop. *)
Definition gstep_eff `{Wiring} (a b : rig) : Prop := gstep a b ∧ a ≠ b.

(** A run with a given schedule, every step of which moves on. *)
Fixpoint sched `{Wiring} (l : list bool) (a : rig) : option rig :=
  match l with
  | [] => Some a
  | who :: l =>
      match rig_step who a with
      | Some b => if bool_decide (m_pc a = m_pc b ∧ c_pc a = c_pc b) then None else sched l b
      | None => None
      end
  end.

Lemma sched_run `{Wiring} l a b : sched l a = Some b → nsteps gstep_eff (length l) a b.
Proof.
  revert a. induction l as [|who l IH]; intros a E; simplify_eq/=; [constructor|].
  destruct (rig_step who a) as [a'|] eqn:Ea; [|done].
  destruct (bool_decide_reflect (m_pc a = m_pc a' ∧ c_pc a = c_pc a')) as [|Hne]; [done|].
  econstructor; [|by apply IH]. split; [by econstructor|]. intros ->. by apply Hne.
Qed.
End Machines.

(** ** Pins *)
Lemma PIN_testbit x p : 0 ≤ p → PIN x p = Z.b2z (Z.testbit x p).
Proof.
  intros Hp. unfold PIN. change 1 with (Z.ones 1). rewrite Z.land_ones by done.
  change (2 ^ 1) with 2. rewrite <- Z.bit0_mod, Z.shiftr_spec by done. done.
Qed.

(** The registers of a node: [a] is the level of its line, [b] of its barrier. *)
Definition node_out (is_master a b : bool) : board :=
  let line := if is_master then PIN_LINE_M else PIN_LINE_C in
  let barr := if is_master then PIN_BARR_M else PIN_BARR_C in
  Board (clear_bit (clear_bit FSEL_ALL line) barr)
    (Z.lor (Z.shiftl (Z.b2z a) line) (Z.shiftl (Z.b2z b) barr)).

Definition init_board (is_master : bool) (j : nat) : board :=
  foldl (λ b f, f b) (Board FSEL_ALL 0) (take j (init_writes is_master)).

Lemma init_board_end m j : (5 <= j)%nat → init_board m j = node_out m false false.
Proof. intros Hj. unfold init_board. rewrite take_ge by done. by destruct m. Qed.

Lemma init_board_next m j f :
  init_writes m !! j = Some f → f (init_board m j) = init_board m (S j).
Proof.
  intros E. unfold init_board. rewrite (take_S_r _ _ _ E), foldl_snoc. done.
Qed.

Lemma toggle_line (is_master a b : bool) :
  toggle (if is_master then PIN_LINE_M else PIN_LINE_C) (node_out is_master a b)
  = node_out is_master (negb a) b.
Proof. by destruct is_master, a, b. Qed.

Lemma toggle_barr (is_master a : bool) :
  toggle (if is_master then PIN_BARR_M else PIN_BARR_C) (node_out is_master a false)
  = node_out is_master a true.
Proof. by destruct is_master, a. Qed.

Lemma sense_reverse_b2z b : sense_reverse (Z.b2z b) = Z.b2z (negb b).
Proof. by destruct b. Qed.

(** ** Where the nodes are *)
Definition c_signalled (pc : client_pc) : bool :=
  match pc with CInit _ | CBarrier => false | _ => true end.
Definition s_signalled (pc : server_pc) : bool :=
  match pc with SLoop | SWait | SAnswer => true | _ => false end.
Definition s_reversed (pc : server_pc) : bool :=
  match pc with SWait | SAnswer => true | _ => false end.
Definition s_started (pc : server_pc) : bool :=
  match pc with SInit _ | SStart => false | _ => true end.
Definition c_calling (pc : client_pc) : bool :=
  match pc with CWait _ | CFinish _ => true | _ => false end.
Definition c_idle (pc : client_pc) : bool :=
  match pc with CIdle | CWait _ | CFinish _ => true | _ => false end.

(** The registers of the client after it began [s] calls, and of the master after
    it answered [r]. *)
Definition client_board (pc : client_pc) (s : nat) : board :=
  match pc with
  | CInit j => init_board false j
  | _ => node_out false (Nat.odd s) (c_signalled pc)
  end.
Definition server_board (pc : server_pc) (r : nat) : board :=
  match pc with
  | SInit j => init_board true j
  | _ => node_out true (Nat.odd r) (s_signalled pc)
  end.

(** While a node initialises, a pin of it is not driven or is low. *)
Lemma init_board_pin is_master j p :
  8 ≤ p ≤ 11 → Z.testbit (fsel (init_board is_master j)) p = true ∨
  (Z.testbit (fsel (init_board is_master j)) p = false
   ∧ outp (init_board is_master j) = 0).
Proof.
  intros Hp. assert (p = 8 ∨ p = 9 ∨ p = 10 ∨ p = 11) as Hc by lia.
  destruct (decide (5 <= j)%nat) as [Hj|Hj].
  - rewrite init_board_end by done.
    destruct is_master; destruct_or! Hc; subst p; vm_compute; auto.
  - destruct j as [|[|[|[|[|j]]]]]; [..|lia];
      destruct is_master; destruct_or! Hc; subst p; vm_compute; auto.
Qed.

Section Reads.
Context `{Wiring}.

(** Before the other node drives the line high, it reads low. *)
Lemma read_init is_master own j p :
  8 ≤ p ≤ 11 → Z.testbit (fsel own) p = true →
  Z.testbit (INP own (init_board is_master j)) p = false.
Proof.
  intros Hp Ho.
  destruct (init_board_pin is_master j p Hp) as [E|[E E0]].
  - by apply INP_floating.
  - rewrite INP_driven, E0 by done. apply Z.testbit_0_l.
Qed.

Lemma read_out is_master own a b p :
  8 ≤ p ≤ 11 → Z.testbit (fsel own) p = true →
  Z.testbit (fsel (node_out is_master a b)) p = false →
  Z.testbit (INP own (node_out is_master a b)) p
  = Z.testbit (outp (node_out is_master a b)) p.
Proof. intros. by apply INP_driven. Qed.

(** What the client sees of the master's barrier and line. *)
Lemma client_reads_barr pc s ms r :
  c_signalled pc = true →
  PIN (INP (client_board pc s) (server_board ms r)) PIN_BARR_M = Z.b2z (s_signalled ms).
Proof.
  intros Hc. rewrite PIN_testbit by done. f_equal.
  assert (client_board pc s = node_out false (Nat.odd s) true) as ->
    by (destruct pc; by simplify_eq/=).
  assert (Z.testbit (fsel (node_out false (Nat.odd s) true)) PIN_BARR_M = true) as Ho
    by reflexivity.
  destruct ms; cbn [server_board s_signalled]; try (rewrite read_out by done; by destruct (Nat.odd r)).
  apply read_init; [unfold PIN_BARR_M; lia|done].
Qed.

Lemma client_reads_line pc s ms r :
  c_signalled pc = true → s_signalled ms = true →
  PIN (INP (client_board pc s) (server_board ms r)) PIN_LINE_M = Z.b2z (Nat.odd r).
Proof.
  intros Hc Hs. rewrite PIN_testbit by done. f_equal.
  assert (client_board pc s = node_out false (Nat.odd s) true) as ->
    by (destruct pc; by simplify_eq/=).
  assert (server_board ms r = node_out true (Nat.odd r) true) as ->
    by (destruct ms; by simplify_eq/=).
  rewrite read_out by done. by destruct (Nat.odd r).
Qed.

(** What the master sees of the client's. *)
Lemma server_reads_barr ms r pc s :
  s_started ms = true →
  PIN (INP (server_board ms r) (client_board pc s)) PIN_BARR_C = Z.b2z (c_signalled pc).
Proof.
  intros Hm. rewrite PIN_testbit by done. f_equal.
  assert (∃ b, server_board ms r = node_out true (Nat.odd r) b) as [b ->]
    by (destruct ms; simplify_eq/=; eauto).
  assert (Z.testbit (fsel (node_out true (Nat.odd r) b)) PIN_BARR_C = true) as Ho
    by reflexivity.
  destruct pc; cbn [client_board c_signalled]; try (rewrite read_out by done; by destruct (Nat.odd s)).
  apply read_init; [unfold PIN_BARR_C; lia|done].
Qed.

Lemma server_reads_line ms r pc s :
  s_signalled ms = true → c_signalled pc = true →
  PIN (INP (server_board ms r) (client_board pc s)) PIN_LINE_C = Z.b2z (Nat.odd s).
Proof.
  intros Hs Hc. rewrite PIN_testbit by done. f_equal.
  assert (client_board pc s = node_out false (Nat.odd s) true) as ->
    by (destruct pc; by simplify_eq/=).
  assert (server_board ms r = node_out true (Nat.odd r) true) as ->
    by (destruct ms; by simplify_eq/=).
  rewrite read_out by done. by destruct (Nat.odd s).
Qed.
End Reads.

(** ** The invariant *)
Section Runs.
Context `{Env} `{Pmu} `{Wiring}.

(** The line logged for tuple number [i]: its own two readings of the counter. *)
Definition gpio_line (k0 i : nat) (tuple : Z) : string :=
  zstr tuple +:+ ", "
  +:+ zstr (u64 (pmccntr (k0 + 2 * i + 1) - pmccntr (k0 + 2 * i))) +:+ nl.

Definition rounds (ts : list Z) : list event :=
  concat (map (λ t, [Begin t; Answer; End_ t]) ts).

Section Session.
Variables (ts : list Z) (k0 : nat) (file0 : list string).

(** The client began [s] calls and finished [k]. *)
Record client_node (n : closure GPIORTT_ext * sys) (pc : client_pc) (s k : nat) : Prop := {
  cn_master : isMaster (ext n.1) = false;
  cn_gpio : gpio (ext n.1) = true;
  cn_cpu : setaffinity_ret (cpu_num (ext n.1)) = 0;
  cn_barr : barr_m (ext n.1) = Z.b2z (c_signalled pc);
  cn_line : line_m (ext n.1) = Z.b2z (Nat.odd s);
  cn_regs : regs (ext n.1) = client_board pc s;
  cn_cycles : cycles (ext n.1) = (k0 + s + k)%nat;
  cn_start : c_calling pc = true → gp_start (ext n.1) = pmccntr (k0 + 2 * k);
  cn_file : ofs_ok (ch_logf n.1);
  cn_log : ofs_file (ch_logf n.1) = file0 ++ imap (gpio_line k0) (take k ts)
}.

(** The master answered [r] calls. *)
Record server_node (n : closure GPIORTT_ext * sys) (pc : server_pc) (r : nat) : Prop := {
  sn_master : isMaster (ext n.1) = true;
  sn_gpio : gpio (ext n.1) = true;
  sn_cpu : setaffinity_ret (cpu_num (ext n.1)) = 0;
  sn_barrm : barr_m (ext n.1) = Z.b2z (s_signalled pc);
  sn_barr : barr_c (ext n.1) = Z.b2z (s_started pc);
  sn_line : line_c (ext n.1) = Z.b2z (xorb (Nat.odd r) (s_reversed pc));
  sn_regs : regs (ext n.1) = server_board pc r
}.

(** How far the two are from each other. *)
Record in_step (ms : server_pc) (pc : client_pc) (s r k : nat) : Prop := {
  is_answered : (k <= r <= s)%nat;
  is_begun : s = (k + if c_calling pc then 1 else 0)%nat;
  is_total : (s <= length ts)%nat;
  is_through : c_idle pc = true → s_signalled ms = true;
  is_waiting : c_idle pc = false → s = 0%nat ∧ pc ≠ CEnd;
  is_signal : ms = SBarrSignal ∨ s_signalled ms = true → c_signalled pc = true;
  is_end : ms ≠ SEnd;
  is_before : s_signalled ms = false → r = 0%nat;
  is_finish t : pc = CFinish t → r = s;
  is_tuple t : pc = CWait t ∨ pc = CFinish t → ts !! k = Some t;
  is_answer : ms = SAnswer → s = S r;
  is_cinit j : pc = CInit j → (j <= 5)%nat;
  is_sinit j : ms = SInit j → (j <= 5)%nat
}.

Record rig_inv (a : rig) (s r k : nat) : Prop := {
  ri_client : client_node (client a) (c_pc a) s k;
  ri_server : server_node (master a) (m_pc a) r;
  ri_step : in_step (m_pc a) (c_pc a) s r k;
  ri_todo : todo a = drop s ts;
  ri_trace : trace a = take (s + r + k) (rounds ts)
}.

(** Steps to go. *)
Definition client_left (pc : client_pc) (s : nat) : nat :=
  match pc with
  | CInit j => 8 - j | CBarrier => 2 | CBarrWait => 1 | CIdle | CEnd => 0
  | CWait _ => 2 | CFinish _ => 1
  end + 3 * (length ts - s).
Definition server_left (pc : server_pc) (r : nat) : nat :=
  match pc with
  | SInit j => 10 - j + 3 * length ts | SStart => 4 + 3 * length ts
  | SBarrWait => 3 + 3 * length ts | SBarrSignal => 2 + 3 * length ts
  | SLoop => 1 + 3 * (length ts - r) | SWait => 3 * (length ts - r)
  | SAnswer => 3 * (length ts - r) - 1 | SEnd => 0
  end.
Definition left (a : rig) (s r : nat) : nat :=
  client_left (c_pc a) s + server_left (m_pc a) r.

(** *** The steps of the client *)
Ltac run_step := unfold client_step, server_step, init_write, client_barrier_signal,
  client_signal, client_finish, server_barrier_signal, server_reverse, server_answer,
  deref_gpio; cm_simpl.

Lemma init_writes_lookup is_master j :
  (∃ f, init_writes is_master !! j = Some f ∧ (j < 5)%nat)
  ∨ (init_writes is_master !! j = None ∧ (5 <= j)%nat).
Proof.
  destruct (init_writes is_master !! j) as [f|] eqn:E.
  - left. exists f. split; [done|]. apply lookup_lt_Some in E. by destruct is_master.
  - right. split; [done|]. apply lookup_ge_None in E. by destruct is_master.
Qed.

Lemma client_run_init n j inp l :
  client_node n (CInit j) 0 0 →
  ∃ n' pc, client_step inp (CInit j) l n = (n', Ret (pc, l, []))
    ∧ client_node n' pc 0 0
    ∧ ((pc = CInit (S j) ∧ (j < 5)%nat) ∨ pc = CBarrier ∧ (5 <= j)%nat).
Proof.
  intros []. destruct n as [c y]. run_step. rewrite cn_master0.
  destruct (init_writes_lookup false j) as [(f & E & Hj)|[E Hj]]; rewrite E; simpl.
  - do 2 eexists. split; [done|]. split; [|auto]. split; try done; simpl in *.
    rewrite cn_regs0. by apply init_board_next.
  - do 2 eexists. split; [done|]. split; [|auto]. split; try done; simpl in *.
    rewrite cn_regs0. by rewrite init_board_end.
Qed.

Lemma client_run_barrier n inp l :
  client_node n CBarrier 0 0 →
  ∃ n', client_step inp CBarrier l n = (n', Ret (CBarrWait, l, []))
    ∧ client_node n' CBarrWait 0 0.
Proof.
  intros []. destruct n as [c y]. run_step. rewrite cn_cpu0. simpl. rewrite cn_gpio0. simpl.
  eexists. split; [done|]. split; try done; simpl in *.
  - by rewrite cn_barr0.
  - rewrite cn_regs0. apply (toggle_barr false false).
Qed.

Lemma client_run_begin n s t inp l :
  client_node n CIdle s s →
  ∃ n', client_step inp CIdle (t :: l) n = (n', Ret (CWait t, l, [Begin t]))
    ∧ client_node n' (CWait t) (S s) s.
Proof.
  intros []. destruct n as [c y]. run_step. rewrite cn_master0. simpl. rewrite cn_gpio0. simpl.
  eexists. split; [done|]. split; try done; simpl in *.
  - by rewrite cn_line0, sense_reverse_b2z, Nat.odd_succ, Nat.negb_odd.
  - rewrite cn_regs0, Nat.odd_succ, <- Nat.negb_odd. apply (toggle_line false).
  - lia.
  - intros _. rewrite cn_cycles0. f_equal. lia.
Qed.

Lemma client_run_finish n k t inp l :
  client_node n (CFinish t) (S k) k → ts !! k = Some t →
  ∃ n', client_step inp (CFinish t) l n = (n', Ret (CIdle, l, [End_ t]))
    ∧ client_node n' CIdle (S k) (S k).
Proof.
  intros [] Ht. destruct n as [c y]. run_step.
  eexists. split; [done|]. split; try done; simpl in *.
  - lia.
  - by rewrite ofs_write_ok.
  - rewrite ofs_write_ok by done. simpl.
    rewrite cn_log0, (take_S_r _ _ _ Ht), imap_app, <- app_assoc. do 2 f_equal. simpl.
    rewrite length_take, Nat.add_0_r. apply lookup_lt_Some in Ht.
    rewrite Nat.min_l by lia. unfold gpio_line.
    rewrite cn_start0 by done. rewrite cn_cycles0.
    by replace (k0 + S k + k)%nat with (k0 + 2 * k + 1)%nat by lia.
Qed.

(** A round of a waiting loop, and its end. *)
Lemma client_run_barrwait n inp l :
  client_step inp CBarrWait l n
  = (n, Ret (if PIN inp PIN_BARR_M =? barr_m (ext n.1) then CIdle else CBarrWait, l, [])).
Proof. by destruct n. Qed.

Lemma client_run_wait n t inp l :
  client_step inp (CWait t) l n
  = (n, Ret (if PIN inp PIN_LINE_M =? line_m (ext n.1) then CFinish t else CWait t, l, [])).
Proof. by destruct n. Qed.

Lemma client_node_pc n pc pc' s k :
  client_node n pc s k → c_signalled pc = true → c_signalled pc' = true →
  (c_calling pc' = true → c_calling pc = true) →
  client_node n pc' s k.
Proof.
  intros [] Hs Hs' Hc. split; try done.
  - by rewrite Hs', <- Hs.
  - rewrite cn_regs0. destruct pc, pc'; by simplify_eq/=.
  - auto.
Qed.

(** *** The steps of the master *)
Lemma server_run_init n j inp :
  server_node n (SInit j) 0 →
  ∃ n' ms, server_step inp (SInit j) n = (n', Ret (ms, []))
    ∧ server_node n' ms 0
    ∧ ((ms = SInit (S j) ∧ (j < 5)%nat) ∨ ms = SStart ∧ (5 <= j)%nat).
Proof.
  intros []. destruct n as [c y]. run_step. rewrite sn_master0.
  destruct (init_writes_lookup true j) as [(f & E & Hj)|[E Hj]]; rewrite E; simpl.
  - do 2 eexists. split; [done|]. split; [|auto]. split; try done; simpl in *.
    rewrite sn_regs0. by apply init_board_next.
  - do 2 eexists. split; [done|]. split; [|auto]. split; try done; simpl in *.
    rewrite sn_regs0. by rewrite init_board_end.
Qed.

Lemma server_run_start n inp :
  server_node n SStart 0 →
  ∃ n', server_step inp SStart n = (n', Ret (SBarrWait, [])) ∧ server_node n' SBarrWait 0.
Proof.
  intros []. destruct n as [c y]. run_step. rewrite sn_master0. simpl. rewrite sn_cpu0.
  simpl. eexists. split; [done|]. split; try done; simpl in *. by rewrite sn_barr0.
Qed.

Lemma server_run_signal n inp :
  server_node n SBarrSignal 0 →
  ∃ n', server_step inp SBarrSignal n = (n', Ret (SLoop, [])) ∧ server_node n' SLoop 0.
Proof.
  intros []. destruct n as [c y]. run_step. rewrite sn_gpio0. simpl.
  eexists. split; [done|]. split; try done; simpl in *.
  - by rewrite sn_barrm0.
  - rewrite sn_regs0. apply (toggle_barr true false).
Qed.

Lemma server_run_loop n r inp :
  server_node n SLoop r →
  ∃ n', server_step inp SLoop n = (n', Ret (SWait, [])) ∧ server_node n' SWait r.
Proof.
  intros []. destruct n as [c y]. run_step. rewrite sn_master0. simpl.
  eexists. split; [done|]. split; try done; simpl in *.
  rewrite sn_line0, sense_reverse_b2z. by destruct (Nat.odd r).
Qed.

Lemma server_run_answer n r inp :
  server_node n SAnswer r →
  ∃ n', server_step inp SAnswer n = (n', Ret (SLoop, [Answer])) ∧ server_node n' SLoop (S r).
Proof.
  intros []. destruct n as [c y]. run_step. rewrite sn_gpio0. simpl.
  eexists. split; [done|]. split; try done; cbn [fst ext set_ext regs line_c set_regs s_reversed
    server_board s_signalled] in *.
  - rewrite sn_line0, Nat.odd_succ, <- Nat.negb_odd. by destruct (Nat.odd r).
  - rewrite sn_regs0, Nat.odd_succ, <- Nat.negb_odd. apply (toggle_line true).
Qed.

Lemma server_run_barrwait n inp :
  server_step inp SBarrWait n
  = (n, Ret (if PIN inp PIN_BARR_C =? barr_c (ext n.1) then SBarrSignal else SBarrWait, [])).
Proof. by destruct n. Qed.

Lemma server_run_wait n inp :
  server_step inp SWait n
  = (n, Ret (if PIN inp PIN_LINE_C =? line_c (ext n.1) then SAnswer else SWait, [])).
Proof. by destruct n. Qed.

Lemma server_node_pc n ms ms' r :
  server_node n ms r → s_signalled ms = s_signalled ms' → s_started ms = true →
  s_started ms' = true → s_reversed ms = s_reversed ms' → server_node n ms' r.
Proof.
  intros [] Hs Ha Hb Hr. split; try done.
  - by rewrite <- Hs.
  - by rewrite sn_barr0, Ha, Hb.
  - by rewrite <- Hr.
  - rewrite sn_regs0. destruct ms, ms'; by simplify_eq/=.
Qed.

(** *** The events *)
Lemma rounds_lookup k t d :
  ts !! k = Some t → (d < 3)%nat →
  rounds ts !! (3 * k + d)%nat = [Begin t; Answer; End_ t] !! d.
Proof.
  intros E Hd. unfold rounds. revert k E. induction ts as [|x l IH]; intros [|k] E; try done.
  - simplify_eq/=. by destruct d as [|[|[|?]]]; [..|lia].
  - assert (3 * S k + d = S (S (S (3 * k + d))))%nat as -> by lia. by apply IH.
Qed.

Lemma rounds_length : length (rounds ts) = (3 * length ts)%nat.
Proof. unfold rounds. induction ts as [|x l IH]; [done|]. simpl. rewrite IH. lia. Qed.

Lemma trace_next tr n ev n' :
  tr = take n (rounds ts) → rounds ts !! n = Some ev → n' = S n →
  tr ++ [ev] = take n' (rounds ts).
Proof. intros -> E ->. symmetry. by apply take_S_r. Qed.

(** *** Every step keeps the invariant *)
Ltac in_step := split; simpl in *; intros; simplify_eq/=; try done; try lia; try tauto;
  try naive_solver lia.

(** A step of a thread that is at [cs] changes nothing, or brings it on. *)
Definition client_good (cs : client_pc) : Prop :=
  ∀ m ms c l tr s r k c' cs' l' ev,
    rig_inv (Rig m ms c cs l tr) s r k →
    client_step (INP (node_regs c) (node_regs m)) cs l c = (c', Ret (cs', l', ev)) →
    Rig m ms c' cs' l' (tr ++ ev) = Rig m ms c cs l tr
    ∨ ∃ s' k', rig_inv (Rig m ms c' cs' l' (tr ++ ev)) s' r k'
               ∧ (client_left cs' s' < client_left cs s)%nat.

Definition server_good (ms : server_pc) : Prop :=
  ∀ m c cs l tr s r k m' ms' ev,
    rig_inv (Rig m ms c cs l tr) s r k →
    server_step (INP (node_regs m) (node_regs c)) ms m = (m', Ret (ms', ev)) →
    Rig m' ms' c cs l (tr ++ ev) = Rig m ms c cs l tr
    ∨ ∃ r', rig_inv (Rig m' ms' c cs l (tr ++ ev)) s r' k
            ∧ (server_left ms' r' < server_left ms r)%nat.

Ltac client_at := intros m ms c l tr s r k c' cs' l' ev [Hc Hs Hi Hl Ht] E;
  unfold node_regs in E; simpl in *;
  rewrite (cn_regs _ _ _ _ Hc), (sn_regs _ _ _ Hs) in E; pose proof Hi as [].
Ltac server_at := intros m c cs l tr s r k m' ms' ev [Hc Hs Hi Hl Ht] E;
  unfold node_regs in E; simpl in *;
  rewrite (cn_regs _ _ _ _ Hc), (sn_regs _ _ _ Hs) in E; pose proof Hi as [].

Lemma client_good_init j : client_good (CInit j).
Proof.
  client_at.
  destruct (is_waiting0 eq_refl) as [-> _]. assert (k = 0%nat) as -> by lia.
  destruct (client_run_init c j (INP (client_board (CInit j) 0) (server_board ms r)) l Hc)
    as (n & pc & E1 & Hn & Hpc). rewrite E1 in E. injection E as <- <- <- <-. rewrite app_nil_r.
  right. exists 0%nat, 0%nat. split.
  - split; try done. destruct Hpc as [[-> ?]|[-> ?]]; in_step.
  - pose proof (is_cinit0 j eq_refl).
    destruct Hpc as [[-> ?]|[-> ?]]; unfold client_left; lia.
Qed.

Lemma client_good_barrier : client_good CBarrier.
Proof.
  client_at.
  destruct (is_waiting0 eq_refl) as [-> _]. assert (k = 0%nat) as -> by lia.
  destruct (client_run_barrier c (INP (client_board CBarrier 0) (server_board ms r)) l Hc)
    as (n & E1 & Hn). rewrite E1 in E. injection E as <- <- <- <-. rewrite app_nil_r.
  right. exists 0%nat, 0%nat. split; [split; try done; in_step|unfold client_left; lia].
Qed.

Lemma client_good_barrwait : client_good CBarrWait.
Proof.
  client_at.
  destruct (is_waiting0 eq_refl) as [-> _]. assert (k = 0%nat) as -> by lia.
  rewrite client_run_barrwait, (cn_barr _ _ _ _ Hc), client_reads_barr in E by done.
  injection E as <- <- <- <-. rewrite app_nil_r. simpl.
  destruct (s_signalled ms) eqn:Es; simpl; [|by left].
  right. exists 0%nat, 0%nat. split; [|unfold client_left; lia].
  split; try done; first [by apply (client_node_pc _ CBarrWait)|in_step].
Qed.

Lemma client_good_idle : client_good CIdle.
Proof.
  client_at.
  assert (s = k) as -> by (simpl in *; lia). assert (r = k) as -> by lia.
  destruct (ts !! k) as [t|] eqn:Et.
  - rewrite Hl, (drop_S _ _ _ Et) in E.
    destruct (client_run_begin c k t (INP (client_board CIdle k) (server_board ms k))
      (drop (S k) ts) Hc) as (n & E1 & Hn). rewrite E1 in E. injection E as <- <- <- <-.
    pose proof (lookup_lt_Some _ _ _ Et).
    right. exists (S k), k. split; [|unfold client_left; lia].
    split; try done; simpl.
    + in_step.
    + apply (trace_next _ _ _ _ Ht); [|lia].
      replace (k + k + k)%nat with (3 * k + 0)%nat by lia.
      by apply (rounds_lookup k t 0 Et); lia.
  - apply lookup_ge_None in Et. rewrite Hl, drop_ge in E by done.
    left. destruct c. cm_simpl. injection E as <- <- <- <-. by rewrite app_nil_r, Hl, drop_ge.
Qed.

Lemma client_good_wait t : client_good (CWait t).
Proof.
  client_at.
  assert (s = S k) as -> by (simpl in *; lia).
  assert (s_signalled ms = true) as Es by auto.
  rewrite client_run_wait, (cn_line _ _ _ _ Hc), client_reads_line in E by done.
  injection E as <- <- <- <-. rewrite app_nil_r.
  assert (r = S k ∨ r = k) as [->| ->] by lia.
  - rewrite Z.eqb_refl. right. exists (S k), k. split; [|unfold client_left; lia].
    split; try done; first [by apply (client_node_pc _ (CWait t))|in_step].
  - left. rewrite Nat.odd_succ, <- Nat.negb_odd. by destruct (Nat.odd k).
Qed.

Lemma client_good_finish t : client_good (CFinish t).
Proof.
  client_at.
  assert (s = S k) as -> by (simpl in *; lia). rewrite (is_finish0 t eq_refl) in *.
  assert (ts !! k = Some t) as Et by auto.
  destruct (client_run_finish c k t (INP (client_board (CFinish t) (S k))
    (server_board ms (S k))) l Hc Et) as (n & E1 & Hn). rewrite E1 in E. injection E as <- <- <- <-.
  right. exists (S k), (S k). split; [|unfold client_left; lia].
  split; try done; simpl.
  - in_step.
  - apply (trace_next _ _ _ _ Ht); [|lia].
    replace (S k + S k + k)%nat with (3 * k + 2)%nat by lia.
    by apply (rounds_lookup k t 2 Et); lia.
Qed.

Lemma client_inv m ms c cs l tr s r k c' cs' l' ev :
  rig_inv (Rig m ms c cs l tr) s r k →
  client_step (INP (node_regs c) (node_regs m)) cs l c = (c', Ret (cs', l', ev)) →
  Rig m ms c' cs' l' (tr ++ ev) = Rig m ms c cs l tr
  ∨ ∃ s' k', rig_inv (Rig m ms c' cs' l' (tr ++ ev)) s' r k'
             ∧ (client_left cs' s' < client_left cs s)%nat.
Proof.
  revert m ms c l tr s r k c' cs' l' ev. change (client_good cs).
  destruct cs; auto using client_good_init, client_good_barrier, client_good_barrwait,
    client_good_idle, client_good_wait, client_good_finish.
  client_at. by destruct (is_waiting0 eq_refl).
Qed.

Lemma server_good_init j : server_good (SInit j).
Proof.
  server_at.
  assert (r = 0%nat) as -> by auto.
  destruct (server_run_init m j (INP (server_board (SInit j) 0) (client_board cs s)) Hs)
    as (n & pc & E1 & Hn & Hpc). rewrite E1 in E. injection E as <- <- <-. rewrite app_nil_r.
  right. exists 0%nat. split.
  - split; try done. destruct Hpc as [[-> ?]|[-> ?]]; in_step.
  - pose proof (is_sinit0 j eq_refl).
    destruct Hpc as [[-> ?]|[-> ?]]; unfold server_left; lia.
Qed.

Lemma server_good_start : server_good SStart.
Proof.
  server_at.
  assert (r = 0%nat) as -> by auto.
  destruct (server_run_start m (INP (server_board SStart 0) (client_board cs s)) Hs)
    as (n & E1 & Hn). rewrite E1 in E. injection E as <- <- <-. rewrite app_nil_r.
  right. exists 0%nat. split; [split; try done; in_step|unfold server_left; lia].
Qed.

Lemma server_good_barrwait : server_good SBarrWait.
Proof.
  server_at.
  assert (r = 0%nat) as -> by auto.
  rewrite server_run_barrwait, (sn_barr _ _ _ Hs), server_reads_barr in E by done.
  injection E as <- <- <-. rewrite app_nil_r.
  destruct (c_signalled cs) eqn:Es; simpl; [|by left].
  right. exists 0%nat. split; [|unfold server_left; lia].
  split; try done; first [by apply (server_node_pc _ SBarrWait)|in_step].
Qed.

Lemma server_good_barrsignal : server_good SBarrSignal.
Proof.
  server_at.
  assert (r = 0%nat) as -> by auto.
  destruct (server_run_signal m (INP (server_board SBarrSignal 0) (client_board cs s)) Hs)
    as (n & E1 & Hn). rewrite E1 in E. injection E as <- <- <-. rewrite app_nil_r.
  right. exists 0%nat. split; [split; try done; in_step|unfold server_left; lia].
Qed.

Lemma server_good_loop : server_good SLoop.
Proof.
  server_at.
  destruct (server_run_loop m r (INP (server_board SLoop r) (client_board cs s)) Hs)
    as (n & E1 & Hn). rewrite E1 in E. injection E as <- <- <-. rewrite app_nil_r.
  right. exists r. split; [split; try done; in_step|unfold server_left; lia].
Qed.

Lemma server_good_wait : server_good SWait.
Proof.
  server_at.
  assert (c_signalled cs = true) as Es by auto.
  rewrite server_run_wait, (sn_line _ _ _ Hs), server_reads_line in E by done.
  injection E as <- <- <-. rewrite app_nil_r.
  assert (s = r ∨ s = S r) as [->| ->].
  { simpl in *. destruct (c_calling cs); lia. }
  - left. simpl. by destruct (Nat.odd r).
  - assert (Z.b2z (Nat.odd (S r)) =? Z.b2z (xorb (Nat.odd r) true) = true)
      as -> by (rewrite Nat.odd_succ, <- Nat.negb_odd; by destruct (Nat.odd r)).
    right. exists r. split; [|unfold server_left; lia].
    split; try done; first [by apply (server_node_pc _ SWait)|in_step].
Qed.

Lemma server_good_answer : server_good SAnswer.
Proof.
  server_at.
  rewrite (is_answer0 eq_refl) in *.
  destruct (server_run_answer m r (INP (server_board SAnswer r) (client_board cs (S r))) Hs)
    as (n & E1 & Hn). rewrite E1 in E. injection E as <- <- <-.
  right. exists (S r). assert (r = k) as ->.
  { simpl in *. destruct (c_calling cs); lia. }
  assert (∃ t, ts !! k = Some t) as [t Et] by (apply lookup_lt_is_Some_2; lia).
  split; [|unfold server_left; lia].
  split; try done; simpl.
  - destruct cs; in_step.
  - apply (trace_next _ _ _ _ Ht); [|lia].
    replace (S k + k + k)%nat with (3 * k + 1)%nat by lia.
    by apply (rounds_lookup k t 1 Et); lia.
Qed.

Lemma server_inv m ms c cs l tr s r k m' ms' ev :
  rig_inv (Rig m ms c cs l tr) s r k →
  server_step (INP (node_regs m) (node_regs c)) ms m = (m', Ret (ms', ev)) →
  Rig m' ms' c cs l (tr ++ ev) = Rig m ms c cs l tr
  ∨ ∃ r', rig_inv (Rig m' ms' c cs l (tr ++ ev)) s r' k
          ∧ (server_left ms' r' < server_left ms r)%nat.
Proof.
  revert m c cs l tr s r k m' ms' ev. change (server_good ms).
  destruct ms; auto using server_good_init, server_good_start, server_good_barrwait,
    server_good_barrsignal, server_good_loop, server_good_wait, server_good_answer.
  by server_at.
Qed.

(** *** Runs *)
Lemma gstep_inv a b s r k :
  rig_inv a s r k → gstep a b →
  a = b ∨ ∃ s' r' k', rig_inv b s' r' k' ∧ (left b s' r' < left a s r)%nat.
Proof.
  intros I [who E]. destruct a as [m ms c cs l tr]. unfold rig_step in E. simpl in E.
  destruct who.
  - destruct (client_step _ cs l c) as [c' [[[cs' l'] ev]|f]] eqn:Ec; simplify_eq.
    destruct (client_inv _ _ _ _ _ _ _ _ _ _ _ _ _ I Ec) as [->|(s' & k' & I' & Hlt)];
      [by left|]. right. exists s', r, k'. split; [done|]. unfold left. simpl. lia.
  - destruct (server_step _ ms m) as [m' [[ms' ev]|f]] eqn:Em; simplify_eq.
    destruct (server_inv _ _ _ _ _ _ _ _ _ _ _ _ I Em) as [->|(r' & I' & Hlt)];
      [by left|]. right. exists s, r', k. split; [done|]. unfold left. simpl. lia.
Qed.

Lemma run_inv n a b s r k :
  rig_inv a s r k → nsteps gstep_eff n a b →
  ∃ s' r' k', rig_inv b s' r' k' ∧ (n + left b s' r' <= left a s r)%nat.
Proof.
  intros I Hs. revert s r k I. induction Hs as [a|n a b c [Hab Hne] _ IH]; intros s r k I.
  { by exists s, r, k. }
  destruct (gstep_inv a b s r k I Hab) as [?|(s1 & r1 & k1 & I1 & Hlt)]; [done|].
  destruct (IH s1 r1 k1 I1) as (s2 & r2 & k2 & I2 & Hle).
  exists s2, r2, k2. split; [done|]. lia.
Qed.

(** The client moves on, or waits for the master. *)
Lemma client_moves m ms c cs l tr s r k :
  rig_inv (Rig m ms c cs l tr) s r k →
  (∃ b, gstep_eff (Rig m ms c cs l tr) b)
  ∨ (cs = CBarrWait ∧ s_signalled ms = false) ∨ (∃ t, cs = CWait t ∧ s = S r)
  ∨ (cs = CIdle ∧ k = length ts).
Proof.
  intros [Hc Hs Hi Hl Ht]. simpl in *.
  assert (∀ c' cs' l' ev,
    client_step (INP (node_regs c) (node_regs m)) cs l c = (c', Ret (cs', l', ev)) →
    cs ≠ cs' → ∃ b, gstep_eff (Rig m ms c cs l tr) b) as Hgo.
  { intros c' cs' l' ev E Hne. eexists (Rig m ms c' cs' l' (tr ++ ev)).
    split; [|by intros [=]]. apply (GStep _ _ true). unfold rig_step. simpl. by rewrite E. }
  unfold node_regs in Hgo.
  rewrite (cn_regs _ _ _ _ Hc), (sn_regs _ _ _ Hs) in Hgo.
  pose proof Hi as [].
  destruct cs as [j| | | |t|t|].
  - left. destruct (is_waiting0 eq_refl) as [-> _]. assert (k = 0%nat) as -> by lia.
    destruct (client_run_init c j (INP (client_board (CInit j) 0) (server_board ms r)) l Hc)
      as (n & pc & E & _ & Hpc). eapply Hgo; [exact E|].
    destruct Hpc as [[-> _]|[-> _]]; [|done]. intros [=]. lia.
  - left. destruct (is_waiting0 eq_refl) as [-> _]. assert (k = 0%nat) as -> by lia.
    destruct (client_run_barrier c (INP (client_board CBarrier 0) (server_board ms r)) l Hc)
      as (n & E & _). by eapply Hgo.
  - destruct (s_signalled ms) eqn:Es; [left|by auto].
    eapply Hgo; [apply client_run_barrwait|].
    by rewrite (cn_barr _ _ _ _ Hc), client_reads_barr, Es by done.
  - assert (s = k) as -> by (simpl in *; lia).
    destruct (ts !! k) as [t|] eqn:Et.
    + left. rewrite Hl, (drop_S _ _ _ Et) in Hgo |- *.
      destruct (client_run_begin c k t (INP (client_board CIdle k) (server_board ms r))
        (drop (S k) ts) Hc) as (n & E & _). by eapply Hgo.
    + right. right. right. split; [done|]. apply lookup_ge_None in Et. lia.
  - assert (s = S k) as -> by (simpl in *; lia).
    assert (s_signalled ms = true) as Es by auto.
    assert (r = S k ∨ r = k) as [->| ->] by lia; [|by (right; right; left; exists t)].
    left. eapply Hgo; [apply client_run_wait|].
    by rewrite (cn_line _ _ _ _ Hc), client_reads_line, Z.eqb_refl by done.
  - left. assert (s = S k) as -> by (simpl in *; lia).
    assert (ts !! k = Some t) as Et by auto.
    destruct (client_run_finish c k t (INP (client_board (CFinish t) (S k))
      (server_board ms r)) l Hc Et) as (n & E & _). by eapply Hgo.
  - by destruct (is_waiting0 eq_refl).
Qed.

(** The master moves on, or waits for the client. *)
Lemma server_moves m ms c cs l tr s r k :
  rig_inv (Rig m ms c cs l tr) s r k →
  (∃ b, gstep_eff (Rig m ms c cs l tr) b)
  ∨ (ms = SBarrWait ∧ c_signalled cs = false) ∨ (ms = SWait ∧ s = r).
Proof.
  intros [Hc Hs Hi Hl Ht]. simpl in *.
  assert (∀ m' ms' ev,
    server_step (INP (node_regs m) (node_regs c)) ms m = (m', Ret (ms', ev)) →
    ms ≠ ms' → ∃ b, gstep_eff (Rig m ms c cs l tr) b) as Hgo.
  { intros m' ms' ev E Hne. eexists (Rig m' ms' c cs l (tr ++ ev)).
    split; [|by intros [=]]. apply (GStep _ _ false). unfold rig_step. simpl. by rewrite E. }
  unfold node_regs in Hgo.
  rewrite (cn_regs _ _ _ _ Hc), (sn_regs _ _ _ Hs) in Hgo.
  pose proof Hi as [].
  destruct ms as [j| | | | | | |]; try (assert (r = 0%nat) as -> by auto).
  - left. destruct (server_run_init m j (INP (server_board (SInit j) 0) (client_board cs s))
      Hs) as (n & pc & E & _ & Hpc). eapply Hgo; [exact E|].
    destruct Hpc as [[-> _]|[-> _]]; [|done]. intros [=]. lia.
  - left. destruct (server_run_start m (INP (server_board SStart 0) (client_board cs s)) Hs)
      as (n & E & _). by eapply Hgo.
  - destruct (c_signalled cs) eqn:Es; [left|by auto].
    eapply Hgo; [apply server_run_barrwait|].
    by rewrite (sn_barr _ _ _ Hs), server_reads_barr, Es by done.
  - left. destruct (server_run_signal m (INP (server_board SBarrSignal 0)
      (client_board cs s)) Hs) as (n & E & _). by eapply Hgo.
  - left. destruct (server_run_loop m r (INP (server_board SLoop r) (client_board cs s)) Hs)
      as (n & E & _). by eapply Hgo.
  - assert (c_signalled cs = true) as Es by auto.
    assert (s = r ∨ s = S r) as [->| ->] by (destruct (c_calling cs); lia); [by auto|].
    left. eapply Hgo; [apply server_run_wait|].
    rewrite (sn_line _ _ _ Hs), server_reads_line, Nat.odd_succ, <- Nat.negb_odd by done.
    by destruct (Nat.odd r).
  - left. destruct (server_run_answer m r (INP (server_board SAnswer r) (client_board cs s))
      Hs) as (n & E & _). by eapply Hgo.
  - done.
Qed.

(** Nobody waits for ever: while a call is left, a step is possible. *)
Lemma run_goes_on a s r k :
  rig_inv a s r k → k = length ts ∧ c_pc a = CIdle ∨ ∃ b, gstep_eff a b.
Proof.
  intros I. destruct a as [m ms c cs l tr].
  destruct (client_moves _ _ _ _ _ _ _ _ _ I) as [?|Hc]; [by auto|].
  destruct (server_moves _ _ _ _ _ _ _ _ _ I) as [?|Hm]; [by auto|].
  destruct I as [_ _ Hi _ _]. simpl in *. pose proof Hi as [].
  destruct Hc as [[-> Es]|[(t & -> & ->)|[-> ->]]]; [| |by auto].
  - destruct Hm as [[-> ?]|[-> ?]]; done.
  - destruct Hm as [[-> ?]|[-> ?]]; [done|lia].
Qed.
End Session.

(** A node whose parameters 0 and 1 are set and whose GPIO memory is mapped, while
    all its pins are inputs. *)
Record fresh_node (is_master : bool) (n : closure GPIORTT_ext * sys) : Prop := {
  fn_master : isMaster (ext n.1) = is_master;
  fn_gpio : gpio (ext n.1) = true;
  fn_cpu : setaffinity_ret (cpu_num (ext n.1)) = 0;
  fn_senses : barr_m (ext n.1) = 0 ∧ barr_c (ext n.1) = 0 ∧ line_m (ext n.1) = 0
              ∧ line_c (ext n.1) = 0;
  fn_regs : regs (ext n.1) = Board FSEL_ALL 0
}.

Definition rig_start (m c : closure GPIORTT_ext * sys) (ts : list Z) : rig :=
  Rig m (SInit 0) c (CInit 0) ts [].

Lemma rig_start_inv ts m c :
  fresh_node true m → fresh_node false c → ofs_ok (ch_logf c.1) →
  rig_inv ts (cycles (ext c.1)) (ofs_file (ch_logf c.1)) (rig_start m c ts) 0 0 0.
Proof.
  intros [? ? ? (M1 & M2 & M3 & M4) ?] [? ? ? (C1 & C2 & C3 & C4) ?] Ho.
  split; simpl; try done.
  - split; try done; simpl; [lia|]. by rewrite app_nil_r.
  - split; simpl; intros; simplify_eq; try done; try lia; naive_solver.
Qed.

(** The calls that returned. *)
Definition ended (tr : list event) : nat :=
  count (λ e, match e with End_ _ => true | _ => false end) tr.

Lemma ended_take ts s r k :
  (k <= r <= s)%nat → (s <= S k)%nat → (s <= length ts)%nat →
  ended (take (s + r + k) (rounds ts)) = k.
Proof.
  revert s r k. induction ts as [|t ts IH]; intros s r k Hr Hs Hl.
  - simpl in Hl. assert (k = 0%nat) as -> by lia. unfold rounds, ended, count. simpl.
    by rewrite take_nil.
  - unfold rounds in *. simpl. destruct k as [|k].
    + destruct s as [|[|?]], r as [|[|?]]; try lia; reflexivity.
    + destruct s as [|s]; [lia|]. destruct r as [|r]; [lia|].
      replace (S s + S r + S k)%nat with (S (S (S (s + r + k)))) by lia.
      simpl in Hl. specialize (IH s r k ltac:(lia) ltac:(lia) ltac:(lia)).
      unfold ended, count in *. simpl. by rewrite IH.
Qed.

End Runs.

(** ** Concrete boards *)
Definition demo_pmu : Pmu := {|
  shell := λ _, Some "performance";
  rand_value := 0;
  open_gpiomem := 3;
  mmap_ok := true;
  pthread_create_ret := 0;
  pthread_detach_ret := 0;
  setaffinity_ret := λ _, 0;
  pmccntr := λ n, 1000 + 250 * Z.of_nat n
|}.

Lemma demo_wiring_driven (own other : board) p :
  8 ≤ p ≤ 11 → Z.testbit (fsel own) p = true → Z.testbit (fsel other) p = false →
  Z.testbit (Z.land (fsel own) (Z.land (Z.lnot (fsel other)) (outp other))) p
  = Z.testbit (outp other) p.
Proof. intros Hp E1 E2. by rewrite !Z.land_spec, Z.lnot_spec, E1, E2 by lia. Qed.

Lemma demo_wiring_floating (own other : board) p :
  8 ≤ p ≤ 11 → Z.testbit (fsel own) p = true → Z.testbit (fsel other) p = true →
  Z.testbit (Z.land (fsel own) (Z.land (Z.lnot (fsel other)) (outp other))) p = false.
Proof. intros Hp E1 E2. by rewrite !Z.land_spec, Z.lnot_spec, E1, E2 by lia. Qed.

Definition demo_wiring : Wiring := {|
  INP := λ own other, Z.land (fsel own) (Z.land (Z.lnot (fsel other)) (outp other));
  INP_driven := demo_wiring_driven;
  INP_floating := demo_wiring_floating
|}.

Definition demo_node (is_master : bool) (b : board) : closure GPIORTT_ext * sys :=
  (demo_open (GPIORTTExt 0 0 0 2 1800000 3 is_master true 64 0 0 0 0 b 0 0), @sys_init true).

(** Two calls, and the thread of the master starting late. *)
Definition demo_schedule : list bool :=
  replicate 7 true ++ replicate 9 false ++ [true; false; true; false; false]
  ++ [true; true; true; false; false; false] ++ [true; true].


(** A board left by an earlier run drives its barrier high until initGPIO has
    cleared it: the client, started first, passes the barrier before the master has
    done anything. *)
Definition stale_board : board := node_out true true true.

Example stale_barrier_passes :
  ∃ r, @sched demo_env demo_pmu demo_wiring (replicate 11 true)
         (rig_start (demo_node true stale_board) (demo_node false (Board FSEL_ALL 0)) [7])
       = Some r
    ∧ m_pc r = SInit 0 ∧ trace r = [Begin 7; End_ 7].
Proof. eexists. split; [vm_compute; reflexivity|]. split; reflexivity. Qed.
