(* ===== verification/FoxClients.v ===== *)
(** * The fox clients: src/cp/fox_clients/

    Two programs that use a pair of fox channels. fox_start_client opens the
    channels of the starting node and waits for a signal; fox_end_client logs
    tuples at a fixed interval, on a schedule it keeps with nanosleep. They use the
    profiler through the interface [Client]. *)
From S2P Require Import Prelude Util TimeStamp Platform.

(** The interface: channels in ASCII with NET_CONF, the clock, and nanosleep. *)
Class Client (W : Type) := {
  fc_openChannel : string → M W Z;
  fc_isOpen : Z → M W bool;
  fc_logTS : Z → Z → M W unit;
  fc_clock : M W timespec;
  fc_nanosleep : timespec → M W unit
}.

Record fclient (W : Type) := FClient {
  fc_prof : W;
  fc_cout : list string;
  fc_cerr : list string
}.
Arguments FClient {W}. Arguments fc_prof {W}. Arguments fc_cout {W}. Arguments fc_cerr {W}.

Definition set_fc_prof {W} (w : W) (s : fclient W) := FClient w (fc_cout s) (fc_cerr s).

Section FoxClients.
Context `{Env} {W : Type} `{!Client W} (help_text : string).

Definition on_client {A} : M W A → M (fclient W) A := zoom fc_prof set_fc_prof.
Definition fc_say (line : string) : M (fclient W) unit :=
  modify (λ s, FClient (fc_prof s) (fc_cout s ++ [line]) (fc_cerr s)).
Definition fc_complain (line : string) : M (fclient W) unit :=
  modify (λ s, FClient (fc_prof s) (fc_cout s) (fc_cerr s ++ [line])).

(** Both programs open two channels and give up unless both are open. *)
Definition open_both (name : string) : M (fclient W) (Z * Z) :=
  ch0 ← on_client (fc_openChannel name);
  ch1 ← on_client (fc_openChannel "ODROIDN2   GPIORTT");
  b0 ← on_client (fc_isOpen ch0);
  b ← (if b0 : bool then on_client (fc_isOpen ch1) else mret false);
  (if b : bool then mret tt
   else fc_complain ("Channel failed to open." +:+ nl) ;; exit EXIT_FAILURE) ;;
  mret (ch0, ch1).

(** fox_start_client: [None] is an exception of the option parser, [Some true] is
    -h. sigsuspend returns when a signal is delivered. *)
Definition fox_start_client (help : option bool) (signal : bool) : M (fclient W) Z :=
  match help with
  | None => abort "an exception of the option parser"
  | Some help =>
      (if help : bool then fc_say (help_text +:+ nl) ;; exit EXIT_FAILURE else mret tt) ;;
      _ ← open_both "fox_start";
      if signal then mret 0 else spin "no signal"
  end.

(** *** fox_end_client *)
Record end_options := EndOptions {
  eo_help : bool;
  eo_iterations : option string;   (* default "1MB" *)
  eo_interval : option Z           (* uint32_t, default a millisecond *)
}.

(** [while (doSnooze && ...)]: sleep until the clock has passed [ts_wait], and
    give the next time to wait for. *)
Fixpoint doSnooze (waits : nat) (periodic_inc ts_wait : timespec) : M W timespec :=
  match waits with
  | O => spin "the clock does not pass the time to wait for"
  | S waits =>
      ts_now ← fc_clock;
      if 0 <? compareTS ts_now ts_wait then mret (addTS ts_wait ts_wait periodic_inc)
      else
        let ts_sleep := subtractTS stale_ts ts_now ts_wait in
        let ts_sleep :=
          if 0 <? compareTS ts_sleep periodic_inc
          then Timespec (tv_sec periodic_inc) (tv_nsec periodic_inc) (tsc ts_sleep) (aux ts_sleep)
          else ts_sleep in
        fc_nanosleep ts_sleep ;;
        doSnooze waits periodic_inc ts_wait
  end.

(** The loop on [iter], with [rounds] rounds to go; nothing is logged in the first. *)
Fixpoint end_rounds (waits rounds : nat) (ch0 ch1 iter : Z) (skippedFirst : bool)
    (periodic_inc ts_wait : timespec) : M W unit :=
  match rounds with
  | O => mret tt
  | S rounds =>
      when skippedFirst (fc_logTS ch0 iter ;; fc_logTS ch1 iter) ;;
      ts_wait ← doSnooze waits periodic_inc ts_wait;
      end_rounds waits rounds ch0 ch1 (iter + 1) true periodic_inc ts_wait
  end.

Definition period_of (interval : Z) : timespec :=
  Timespec (interval `div` NANO_S_PER_S) (interval `mod` NANO_S_PER_S) (tsc stale_ts) (aux stale_ts).

(** The time of the first tuple: seconds and nanoseconds added one by one. *)
Definition first_wait (ts_wait periodic_inc : timespec) : timespec :=
  Timespec (i64 (tv_sec ts_wait + tv_sec periodic_inc))
    (i64 (tv_nsec ts_wait + tv_nsec periodic_inc)) (tsc ts_wait) (aux ts_wait).

Definition fox_end_client (waits : nat) (o : option end_options) : M (fclient W) Z :=
  match o with
  | None => abort "an exception of the option parser"
  | Some o =>
      (if eo_help o then
         fc_say (help_text +:+ nl) ;;
         fc_say ("number_of_iterations accepts postfix modifiers: " +:+ nl) ;;
         fc_say ("KB, KiB, MB, MiB, GB, GiB" +:+ nl) ;;
         exit EXIT_FAILURE
       else mret tt) ;;
      match convertA2I (default "1MB" (eo_iterations o)) with
      | Fault f => raise f
      | Ret v =>
          let nr_iterations := i32 v in
          let periodic_inc := period_of (default 1000000 (eo_interval o)) in
          '(ch0, ch1) ← open_both "fox_end";
          ts_wait ← on_client fc_clock;
          on_client (end_rounds waits (Z.to_nat (nr_iterations + 1)) ch0 ch1 0 false
                       periodic_inc (first_wait ts_wait periodic_inc)) ;;
          mret 0
      end
  end.

Lemma end_rounds_S waits rounds ch0 ch1 iter skippedFirst periodic_inc ts_wait :
  end_rounds waits (S rounds) ch0 ch1 iter skippedFirst periodic_inc ts_wait
  = (when skippedFirst (fc_logTS ch0 iter ;; fc_logTS ch1 iter) ;;
     ts_wait ← doSnooze waits periodic_inc ts_wait;
     end_rounds waits rounds ch0 ch1 (iter + 1) true periodic_inc ts_wait).
Proof. done. Qed.
End FoxClients.

(** ** What the clients rely on

    [fc_time] is the instant in nanoseconds and [fc_logged] what was logged: when,
    to which channel, and the tuple. A call takes from 1 to [D] nanoseconds, and
    nanosleep what it is asked for in addition. *)
Class ClientLaws (W : Type) `{!Client W} := {
  fc_time : W → Z;
  fc_logged : W → list (Z * Z * Z);
  fc_cost : Z;
  law_open name w : ∃ w' h, fc_openChannel name w = (w', Ret h)
    ∧ fc_logged w' = fc_logged w;
  law_isOpen h w : ∃ w' b, fc_isOpen h w = (w', Ret b) ∧ fc_logged w' = fc_logged w;
  law_logTS h x w : ∃ w', fc_logTS h x w = (w', Ret tt)
    ∧ fc_logged w' = fc_logged w ++ [(fc_time w, h, x)]
    ∧ fc_time w ≤ fc_time w' ≤ fc_time w + fc_cost;
  law_clock w : 0 ≤ fc_time w < 2 ^ 61 * NANO_S_PER_S →
    ∃ w' ts, fc_clock w = (w', Ret ts) ∧ fc_logged w' = fc_logged w
    ∧ ts_wf ts ∧ ts_ns ts = fc_time w' ∧ fc_time w < fc_time w' ≤ fc_time w + fc_cost;
  law_nanosleep d w : 0 ≤ tv_sec d → ts_wf d →
    ∃ w', fc_nanosleep d w = (w', Ret tt) ∧ fc_logged w' = fc_logged w
    ∧ fc_time w + ts_ns d ≤ fc_time w' ≤ fc_time w + ts_ns d + fc_cost
}.

Section Schedule.
Context `{Env} {W : Type} `{!Client W} `{!ClientLaws W}.
Context (inc : Z) (Hinc : 0 < inc < 2 ^ 32) (HD : 0 < fc_cost ∧ 5 * fc_cost ≤ inc).

Definition in_range (t : Z) : Prop := 0 ≤ t < 2 ^ 60 * NANO_S_PER_S.

Ltac nano := change NANO_S_PER_S with 1000000000 in *; change (2 ^ 32) with 4294967296 in *;
  change (2 ^ 60) with 1152921504606846976 in *; change (2 ^ 61) with 2305843009213693952 in *;
  change (2 ^ 62) with 4611686018427387904 in *.

Lemma period_run : ts_fits (period_of inc) ∧ ts_ns (period_of inc) = inc.
Proof. unfold ts_fits, ts_wf, ts_ns, period_of. simpl. nano. zmod. Qed.

Lemma fits_of t : ts_wf t → 0 ≤ ts_ns t < 2 ^ 61 * NANO_S_PER_S → ts_fits t.
Proof. unfold ts_fits, ts_wf, ts_ns. nano. lia. Qed.

(** One wait, from at most an interval before its end. *)
Lemma doSnooze_run waits wait w :
  ts_wf wait → in_range (ts_ns wait) → 0 ≤ fc_time w →
  ts_ns wait - inc ≤ fc_time w → fc_time w + fc_cost ≤ ts_ns wait →
  ∃ w', doSnooze (S (S waits)) (period_of inc) wait w
        = (w', Ret (addTS wait wait (period_of inc)))
    ∧ fc_logged w' = fc_logged w
    ∧ ts_ns wait < fc_time w' ≤ ts_ns wait + 2 * fc_cost.
Proof.
  intros Hwf Hr H0 Hlo Hhi. unfold in_range in *. destruct period_run as [Pf Pn].
  destruct (law_clock w) as (w1 & t1 & E1 & L1 & F1 & N1 & T1); [nano; lia|].
  cbn [doSnooze]. rewrite (bind_Ret _ _ _ _ _ E1).
  rewrite compareTS_spec by done.
  destruct (Z.compare_spec (ts_ns t1) (ts_ns wait)) as [Hc|Hc|Hc]; [..|lia];
    cbn [Z.ltb Z.compare].
  all: destruct (subtractTS_spec stale_ts t1 wait) as [Sw Sn];
    [apply fits_of; [done|nano; lia]|apply fits_of; [done|nano; lia]|].
  all: set (sl := subtractTS stale_ts t1 wait) in *.
  all: assert (0 <? compareTS sl (period_of inc) = false) as ->
    by (apply Z.ltb_ge; rewrite compareTS_spec by (try done; apply Pf);
        destruct (Z.compare_spec (ts_ns sl) (ts_ns (period_of inc))); lia).
  all: destruct (law_nanosleep sl w1) as (w2 & E2 & L2 & T2);
    [unfold ts_wf, ts_ns in *; nano; lia|done|].
  all: rewrite (bind_Ret _ _ _ _ _ E2).
  all: destruct (law_clock w2) as (w3 & t3 & E3 & L3 & F3 & N3 & T3); [nano; lia|].
  all: rewrite (bind_Ret _ _ _ _ _ E3); rewrite compareTS_spec by done.
  all: destruct (Z.compare_spec (ts_ns t3) (ts_ns wait)) as [?|?|?]; [lia..|].
  all: exists w3; split; [done|]; split; [congruence|lia].
Qed.

(** The tuples of the schedule, on both channels and in order: tuple [k] after
    k intervals and at most three calls later. *)
Definition on_time (t0 k t : Z) : Prop := t0 + k * inc < t ≤ t0 + k * inc + 3 * fc_cost.

Fixpoint tuples (ch0 ch1 t0 k : Z) (l : list (Z * Z * Z)) : Prop :=
  match l with
  | [] => True
  | (t1, c1, x1) :: (t2, c2, x2) :: l =>
      on_time t0 k t1 ∧ on_time t0 k t2 ∧ c1 = ch0 ∧ c2 = ch1 ∧ x1 = k ∧ x2 = k
      ∧ tuples ch0 ch1 t0 (k + 1) l
  | _ => False
  end.

(** From the second round on: the clock is just past the time of tuple [k]. *)
Lemma end_rounds_run waits ch0 ch1 t0 rounds : ∀ k wait w,
  ts_wf wait → ts_ns wait = t0 + (k + 1) * inc → 0 ≤ t0 → 0 ≤ k →
  in_range (t0 + (k + Z.of_nat rounds + 1) * inc) →
  t0 + k * inc < fc_time w ≤ t0 + k * inc + 2 * fc_cost →
  ∃ w' l, end_rounds (S (S waits)) rounds ch0 ch1 k true (period_of inc) wait w = (w', Ret tt)
    ∧ fc_logged w' = fc_logged w ++ l ∧ tuples ch0 ch1 t0 k l ∧ length l = (2 * rounds)%nat.
Proof.
  induction rounds as [|rounds IH]; intros k wait w Hwf Hw H0 Hk Hr Ht.
  { exists w, []. rewrite app_nil_r. split_and!; try done. }
  cbn [end_rounds]. cbn [when].
  destruct (law_logTS ch0 k w) as (w1 & E1 & L1 & T1).
  destruct (law_logTS ch1 k w1) as (w2 & E2 & L2 & T2).
  assert ((fc_logTS ch0 k ;; fc_logTS ch1 k) w = (w2, Ret tt)) as E
    by (rewrite (bind_Ret _ _ _ _ _ E1); done).
  rewrite (bind_Ret _ _ _ _ _ E).
  assert (0 ≤ k * inc) by nia. unfold in_range in *.
  rewrite Nat2Z.inj_succ in Hr.
  assert (in_range (ts_ns wait)) as Hwr.
  { unfold in_range. rewrite Hw. nia. }
  destruct (doSnooze_run waits wait w2) as (w3 & E3 & L3 & T3); [done|done|lia|lia|lia|].
  rewrite (bind_Ret _ _ _ _ _ E3).
  destruct period_run as [Pf Pn]. unfold in_range in Hwr.
  destruct (addTS_spec wait wait (period_of inc)) as [Aw An];
    [apply fits_of; [done|nano; lia]|done|].
  rewrite Hw, Pn in An. rewrite Hw in T3.
  destruct (IH (k + 1) (addTS wait wait (period_of inc)) w3) as (w4 & l & E4 & L4 & T4 & Ll);
    [done|lia|done|lia|by replace (k + 1 + Z.of_nat rounds + 1) with (k + Z.succ (Z.of_nat rounds) + 1) by lia|lia|].
  exists w4, ((fc_time w, ch0, k) :: (fc_time w1, ch1, k) :: l). split; [done|].
  split; [by rewrite L4, L3, L2, L1, <- !app_assoc|]. split; [|simpl; lia].
  cbn [tuples]. unfold on_time. split_and!; (done || lia).
Qed.

Lemma first_wait_ok ts :
  ts_wf ts → in_range (ts_ns ts) → tv_nsec ts + inc `mod` NANO_S_PER_S < NANO_S_PER_S →
  ts_wf (first_wait ts (period_of inc)) ∧ ts_ns (first_wait ts (period_of inc)) = ts_ns ts + inc.
Proof.
  intros Hw Hr Hc. unfold in_range in *.
  unfold first_wait, period_of, ts_wf, ts_ns in *. cbn [tv_sec tv_nsec]. nano.
  pose proof (Z.div_mod inc 1000000000 ltac:(lia)).
  pose proof (Z.mod_pos_bound inc 1000000000 ltac:(lia)).
  rewrite !(wrapS_small 64) by (simpl Z.sub; change (2 ^ 63) with 9223372036854775808; lia). lia.
Qed.

(** All rounds, from the first reading on. *)
Lemma end_rounds_first waits ch0 ch1 ts n w :
  ts_wf ts → tv_nsec ts + inc `mod` NANO_S_PER_S < NANO_S_PER_S →
  fc_time w = ts_ns ts → 0 ≤ fc_time w → in_range (fc_time w + (Z.of_nat n + 2) * inc) →
  ∃ w' l, end_rounds (S (S waits)) (S n) ch0 ch1 0 false (period_of inc)
      (first_wait ts (period_of inc)) w = (w', Ret tt)
    ∧ fc_logged w' = fc_logged w ++ l ∧ tuples ch0 ch1 (ts_ns ts) 1 l ∧ length l = (2 * n)%nat.
Proof.
  intros F Hcarry Ht H0 Hr. assert (0 ≤ Z.of_nat n * inc) as Hni by nia.
  unfold in_range in Hr.
  destruct (first_wait_ok ts F) as [Fw Fn]; [unfold in_range; nano; lia|done|].
  set (fw := first_wait _ _) in *. rewrite end_rounds_S. cbn [when]. rewrite bind_ret_l.
  destruct (doSnooze_run waits fw w) as (w2 & E2 & L2 & T2);
    [done|unfold in_range; nano; lia|lia|lia|lia|].
  rewrite (bind_Ret _ _ _ _ _ E2). destruct period_run as [Pf Pn].
  destruct (addTS_spec fw fw (period_of inc)) as [Aw An];
    [apply fits_of; [done|nano; lia]|done|].
  rewrite Pn in An.
  destruct (end_rounds_run waits ch0 ch1 (ts_ns ts) n (0 + 1) (addTS fw fw (period_of inc)) w2)
    as (w3 & l & E3 & L3 & T3 & Le); [done|lia|lia|lia|unfold in_range; nano; lia|lia|].
  exists w3, l. by rewrite <- L2.
Qed.

(** The schedule of fox_end_client: with its channels open, calls of the profiler
    that take at most a fifth of the interval together, and a first reading whose
    nanoseconds do not carry, the client ends after it logged the tuples 1 to n to
    both channels, in order, tuple k after k intervals and at most three calls
    later: it is never early and does not drift. *)
Theorem fox_end_client_keeps_schedule help_text waits o s s1 ch0 ch1 v n w ts :
  eo_help o = false → convertA2I (default "1MB" (eo_iterations o)) = Ret v →
  i32 v = Z.of_nat n → default 1000000 (eo_interval o) = inc →
  open_both "fox_end" s = (s1, Ret (ch0, ch1)) →
  0 ≤ fc_time (fc_prof s1) → in_range (fc_time (fc_prof s1) + (Z.of_nat n + 3) * inc) →
  fc_clock (fc_prof s1) = (w, Ret ts) →
  tv_nsec ts + inc `mod` NANO_S_PER_S < NANO_S_PER_S →
  ∃ s' l, fox_end_client help_text (S (S waits)) (Some o) s = (s', Ret 0)
    ∧ fc_logged (fc_prof s') = fc_logged (fc_prof s1) ++ l
    ∧ tuples ch0 ch1 (ts_ns ts) 1 l ∧ length l = (2 * n)%nat.
Proof.
  intros Hh Hv Hn Hi Ho H0 Hr Hc Hcarry. unfold fox_end_client. rewrite Hh, Hv. cbv zeta.
  rewrite bind_ret_l, Hi, (bind_Ret _ _ _ _ _ Ho). cbv beta iota.
  assert (0 <= Z.of_nat n * inc) as Hni by nia.
  destruct (law_clock (fc_prof s1)) as (w1 & t1 & E1 & L1 & F1 & N1 & T1);
    [unfold in_range in *; nano; lia|].
  rewrite Hc in E1. injection E1 as <- <-.
  rewrite (bind_Ret (on_client fc_clock) _ s1 (set_fc_prof w s1) ts)
    by (unfold on_client, zoom; by rewrite Hc).
  destruct (end_rounds_first waits ch0 ch1 ts n w) as (w' & l & E & Ll & Tl & Le);
    [done|done|lia|lia|unfold in_range in *; nano; lia|].
  rewrite Hn. replace (Z.to_nat (Z.of_nat n + 1)) with (S n) by lia.
  exists (set_fc_prof w' s1), l. split; [|split; [simpl; congruence|done]].
  rewrite (bind_Ret _ _ _ (set_fc_prof w' s1) tt); [done|].
  unfold on_client, zoom. cbn [fc_prof set_fc_prof]. by rewrite E.
Qed.
End Schedule.

(** ** A profiler whose calls take a microsecond each *)
Definition demo_ts (t : Z) : timespec := Timespec (t `div` NANO_S_PER_S) (t `mod` NANO_S_PER_S) 0 0.

#[local] Instance demo_client : Client (Z * list (Z * Z * Z)) := {
  fc_openChannel name := λ w, (w, Ret (Z.of_nat (String.length name)));
  fc_isOpen h := λ w, (w, Ret true);
  fc_logTS h x := λ w, ((w.1 + 1000, w.2 ++ [(w.1, h, x)]), Ret tt);
  fc_clock := λ w, ((w.1 + 1000, w.2), Ret (demo_ts (w.1 + 1000)));
  fc_nanosleep d := λ w, ((w.1 + ts_ns d + 1000, w.2), Ret tt)
}.

#[local] Instance demo_client_laws : ClientLaws (Z * list (Z * Z * Z)).
Proof.
  refine (Build_ClientLaws _ demo_client fst snd 1000 _ _ _ _ _).
  - intros name w. by do 2 eexists.
  - intros h w. by do 2 eexists.
  - intros h x w. eexists. split_and!; [done|done|simpl; lia..].
  - intros w Hw. do 2 eexists. split; [done|]. split; [done|].
    assert (ts_ns (demo_ts (w.1 + 1000)) = w.1 + 1000) as E.
    { unfold ts_ns, demo_ts. cbn [tv_sec tv_nsec]. rewrite Z.mul_comm. symmetry.
      by apply Z.div_mod. }
    rewrite E. split_and!; [|simpl; lia..].
    unfold ts_wf, demo_ts. cbn [tv_nsec]. by apply Z.mod_pos_bound.
  - intros d w H0 Hw. eexists. split_and!; [done|done|simpl; lia..].
Defined.

Definition demo_end (iterations : string) : end_options := EndOptions false (Some iterations) None.
Definition demo_fclient (t : Z) : fclient (Z * list (Z * Z * Z)) := FClient (t, []) [] [].

(** Three tuples, a millisecond apart. *)
Lemma fox_end_client_keeps_schedule_witness :
  ∃ s' l, @fox_end_client demo_env _ demo_client "help" 2 (Some (demo_end "3"))
      (demo_fclient 5000000000) = (s', Ret 0)
    ∧ (fc_prof s').2 = [] ++ l ∧ @tuples _ _ demo_client_laws 1000000 7 18 5000001000 1 l
    ∧ length l = 6%nat.
Proof.
  refine (@fox_end_client_keeps_schedule demo_env _ demo_client demo_client_laws 1000000 _ _
    "help" 0 (demo_end "3") (demo_fclient 5000000000) (demo_fclient 5000000000) 7 18 3 3 _
    (demo_ts 5000001000) _ _ _ _ _ _ _ _ _); try done; simpl; try lia.
Defined.

(** When the nanoseconds of the first reading and of the interval carry, the first
    time to wait for is not normalised, compareTS takes the beginning of the next
    second to be after it, and tuple 1 can come early: here after 1 microsecond,
    with an interval of 0.2 s. *)
Example first_tuple_early :
  fc_logged (fc_prof (@fox_end_client demo_env _ demo_client "help" 200
    (Some (EndOptions false (Some "1") (Some 200000000))) (demo_fclient 5999998500)).1)
  = [(6000000500, 7, 1); (6000001500, 18, 1)].
Proof. vm_compute. reflexivity. Qed.

(** The documented suffix GB does not fit: 3 GB are a negative int, and no tuple is
    sent. *)
Example fox_end_client_3GB :
  let r := @fox_end_client demo_env _ demo_client "help" 2 (Some (demo_end "3GB"))
    (demo_fclient 5000000000) in
  r.2 = Ret 0 ∧ fc_logged (fc_prof r.1) = [].
Proof. by vm_compute. Qed.
