(* ===== verification/Stable.v ===== *)
(** * Code that stays within a relation

    [stable R m]: whatever state [m] starts in, the state it leaves is related
    by the preorder [R], also when it faults, and the fault is none of those a
    call of the wrong function on a channel would be. Stability is closed under
    the constructs of the monad, so that the code of every component is stable
    by its structure; the relation used here says that the function pointers of
    a closure only change to those of a closed channel. *)
From S2P Require Import Prelude TimeStamp Platform Log Formats Closure.
From S2P Require Import NullDefect Downsample XoY FirstLast Median Identity.
From S2P Require Import PeriodicCounter IoThread NetConf NetClient Fox.
From S2P Require Import FastPeriodicCounter.

(** The two faults of Channels.v that the types of the closures exclude. *)
Definition no_channel : string := "not a channel".
Definition other_class : string := "closure of another type".

Definition tolerable (f : fault) : bool :=
  match f with
  | FUndefined why =>
      negb (String.eqb why no_channel) && negb (String.eqb why other_class)
  | _ => true
  end.

Definition sound {A} (r : outcome A) : Prop :=
  match r with Ret _ => True | Fault f => tolerable f = true end.

Definition stable {S A} (R : S → S → Prop) (m : M S A) : Prop :=
  ∀ s, R s (m s).1 ∧ sound (m s).2.

(** Every closure has this relation to what it becomes. *)
Definition tag_le {E} (c c' : closure E) : Prop :=
  (handler_f c' = handler_f c ∨ handler_f c' = Some NullHandler_fn)
  ∧ (parm_handler_f c' = parm_handler_f c ∨ parm_handler_f c' = None).

#[global] Instance tag_le_po {E} : PreOrder (@tag_le E).
Proof.
  split; [by intros c; split; left|].
  intros c1 c2 c3 [[H1|H1] [H2|H2]] [[H3|H3] [H4|H4]];
    split; rewrite ?H3, ?H4, ?H1, ?H2; tauto.
Qed.

Section Rules.
Context {S : Type} (R : S → S → Prop) `{!PreOrder R}.

Lemma stable_ret {A} (a : A) : stable R (mret a).
Proof. intros s. by split. Qed.

Lemma stable_bind {A B} (m : M S A) (k : A → M S B) :
  stable R m → (∀ a, stable R (k a)) → stable R (m ≫= k).
Proof.
  intros Hm Hk s. destruct (Hm s) as [H1 H2].
  unfold mbind, M_bind. destruct (m s) as [s1 [a|f]]; simpl in *; [|done].
  destruct (Hk a s1) as [H3 H4]. split; [by etrans|done].
Qed.

Lemma stable_get : stable R get.
Proof. intros s. by split. Qed.
Lemma stable_gets {X} (f : S → X) : stable R (gets f).
Proof. intros s. by split. Qed.
Lemma stable_modify f : (∀ s, R s (f s)) → stable R (modify f).
Proof. intros Hf s. by split; [apply Hf|]. Qed.
Lemma stable_raise {A} f : tolerable f = true → stable R (@raise S A f).
Proof. intros Hf s. by split. Qed.
Lemma stable_when b (m : M S unit) : stable R m → stable R (when b m).
Proof. intros Hm. destruct b; [done|apply stable_ret]. Qed.
End Rules.

Lemma stable_zoom {S T A} (R : S → S → Prop) (Q : T → T → Prop)
    (view : S → T) (upd : T → S → S) (m : M T A) :
  stable Q m → (∀ s t, Q (view s) t → R s (upd t s)) →
  stable R (zoom view upd m).
Proof.
  intros Hm HQ s. destruct (Hm (view s)) as [H1 H2]. unfold zoom.
  destruct (m (view s)) as [t r]. by split; [apply HQ|].
Qed.

(** The relations, level by level. *)
Definition any {S} (s s' : S) : Prop := True.
#[global] Instance any_po {S} : PreOrder (@any S).
Proof. by split. Qed.

Definition cm_le {E} (x y : closure E * sys) : Prop := tag_le x.1 y.1.
#[global] Instance cm_le_po {E} : PreOrder (@cm_le E).
Proof. split; [by intros ?; unfold cm_le|]. intros x y z. unfold cm_le. by etrans. Qed.

Definition map_le {E} (f g : gmap Z (closure E)) : Prop := ∀ a c,
  f !! a = Some c → ∃ c', g !! a = Some c' ∧ tag_le c c'.
#[global] Instance map_le_po {E} : PreOrder (@map_le E).
Proof.
  split.
  - intros f a c Hc. by exists c.
  - intros f g h H1 H2 a c Hc. destruct (H1 a c Hc) as (c1 & E1 & L1).
    destruct (H2 a c1 E1) as (c2 & E2 & L2). exists c2. split; [done|by etrans].
Qed.

Lemma map_le_insert {E} (f : gmap Z (closure E)) a c c' :
  f !! a = Some c → tag_le c c' → map_le f (<[a := c']> f).
Proof.
  intros Ha Hc b d Hb. destruct (decide (a = b)) as [<-|Hne].
  - rewrite Ha in Hb. injection Hb as <-. exists c'. by rewrite lookup_insert_eq.
  - exists d. by rewrite lookup_insert_ne.
Qed.

Definition bst_le (x y : bst) : Prop := map_le (chans x) (chans y).
Definition fpw_le (x y : fpw) : Prop := map_le (fpcs x) (fpcs y).
#[global] Instance bst_le_po : PreOrder bst_le.
Proof. split; [by intros ?; unfold bst_le|]. intros x y z. unfold bst_le. by etrans. Qed.
#[global] Instance fpw_le_po : PreOrder fpw_le.
Proof. split; [by intros ?; unfold fpw_le|]. intros x y z. unfold fpw_le. by etrans. Qed.

Section CmRules.
Context {E : Type}.

Lemma stable_this : stable (@cm_le E) this.
Proof. apply stable_gets, _. Qed.
Lemma stable_sysm {A} (m : M sys A) : stable any m → stable (@cm_le E) (sysm m).
Proof. intros Hm. apply (stable_zoom _ any); [done|]. intros [c s] t _. split; by left. Qed.
Lemma stable_assign (f : closure E → closure E) :
  (∀ c, tag_le c (f c)) → stable cm_le (assign f).
Proof. intros Hf. apply stable_modify. intros [c s]. apply Hf. Qed.
Lemma stable_assign_ext (f : E → E) : stable cm_le (assign_ext f).
Proof. apply stable_assign. intros c. split; by left. Qed.
Lemma stable_emit s : stable (@cm_le E) (emit s).
Proof. apply stable_assign. intros c. split; by left. Qed.
End CmRules.

Lemma stable_on_closure {A} cl (m : CM buf_ext A) :
  stable cm_le m → stable bst_le (on_closure cl m).
Proof.
  intros Hm s. unfold on_closure. destruct (chans s !! cl) as [c|] eqn:Ec.
  2:{ by split. }
  destruct (Hm (c, bsys s)) as [H1 H2].
  destruct (m (c, bsys s)) as [[c' y] r]. split; [|done].
  by apply (map_le_insert _ _ c).
Qed.

Lemma stable_on_fpc {A} cl (m : CM fpc_ext A) :
  stable cm_le m → stable fpw_le (on_fpc cl m).
Proof.
  intros Hm s. unfold on_fpc. destruct (fpcs s !! cl) as [c|] eqn:Ec.
  2:{ by split. }
  destruct (Hm (c, fsys s)) as [H1 H2].
  destruct (m (c, fsys s)) as [[c' y] r]. split; [|done].
  by apply (map_le_insert _ _ c).
Qed.

Lemma stable_bsys {A} (m : M sys A) :
  stable any m → stable bst_le (zoom bsys set_bsys m).
Proof. intros Hm. apply (stable_zoom _ any); [done|]. intros s t _. by unfold bst_le. Qed.
Lemma stable_fpc_sys {A} (m : M sys A) : stable any m → stable fpw_le (fpc_sys m).
Proof. intros Hm. apply (stable_zoom _ any); [done|]. intros s t _. by unfold fpw_le. Qed.
Lemma stable_net_sys {N A} (m : M sys A) :
  stable any m → stable (@any (N * sys)) (net_sys m).
Proof. intros Hm. by apply (stable_zoom _ any). Qed.

Create HintDb stable discriminated.
#[export] Hint Resolve stable_this stable_assign_ext stable_emit : stable.

(** Applies the rule for the head of the code; what is left are calls, which
    the hint database knows. *)
Ltac stable_step :=
  lazymatch goal with
  | |- ∀ _, _ => intros ?
  | |- stable _ (_ ≫= _) => apply stable_bind; [apply _| |intros ?]
  | |- stable _ (mret _) => apply stable_ret; apply _
  | |- stable _ get => apply stable_get; apply _
  | |- stable _ (gets _) => apply stable_gets; apply _
  | |- stable _ (modify _) =>
      apply stable_modify; intros ?; first [done | by split; left | by unfold bst_le | by unfold fpw_le]
  | |- stable _ (when _ _) => apply stable_when; [apply _|]
  | |- stable _ (undefined _) => apply stable_raise; [apply _|reflexivity]
  | |- stable _ (spin _) => apply stable_raise; [apply _|reflexivity]
  | |- stable _ (exit _) => apply stable_raise; [apply _|reflexivity]
  | |- stable _ (sysm _) => apply stable_sysm
  | |- stable _ (assign _) =>
      apply stable_assign; intros ?; split; by (left + right)
  | |- stable _ (on_closure _ _) => apply stable_on_closure
  | |- stable _ (on_fpc _ _) => apply stable_on_fpc
  | |- stable _ (zoom bsys set_bsys _) => apply stable_bsys
  | |- stable _ (fpc_sys _) => apply stable_fpc_sys
  | |- stable _ (net_sys _) =>
      first [apply stable_net_sys | solve [eauto 3 with stable nocore]]
  | |- stable _ (match ?x with _ => _ end) => destruct x
  | |- stable _ (let _ := _ in _) => cbv zeta
  | |- stable _ _ => solve [eauto 2 with stable nocore]
  end.
Ltac stable := repeat stable_step.

(** ** The code of the components *)
Section Code.
Context `{Env}.

Lemma stable_clock : stable any clock_gettime_tsc.
Proof. unfold clock_gettime_tsc. stable. Qed.
Lemma stable_clock_only old : stable any (clock_gettime_tsc_only old).
Proof. unfold clock_gettime_tsc_only. stable. Qed.
Lemma stable_getIP : stable any getIPDottedQuad.
Proof. unfold getIPDottedQuad. stable. Qed.
#[local] Hint Resolve stable_clock stable_clock_only stable_getIP : stable.
Lemma stable_openStatusLogFile : stable any openStatusLogFile.
Proof. unfold openStatusLogFile. stable. Qed.
#[local] Hint Resolve stable_openStatusLogFile : stable.
Lemma stable_log_line m : stable any (log_line m).
Proof. unfold log_line. stable. Qed.
#[local] Hint Resolve stable_log_line : stable.
Lemma stable_logFail f l m : stable any (logFail f l m).
Proof. apply stable_log_line. Qed.
Lemma stable_logStatus f l m : stable any (logStatus f l m).
Proof. apply stable_log_line. Qed.
Lemma stable_logFail_err f l m e : stable any (logFail_err f l m e).
Proof. apply stable_log_line. Qed.
End Code.
#[export] Hint Resolve stable_clock stable_clock_only stable_getIP
  stable_openStatusLogFile stable_logFail stable_logStatus stable_logFail_err
  : stable.

(** *** The base class and the plain handlers *)
Section Handlers.
Context `{Env} `{Libm} `{Qsort}.

Lemma stable_openChannel {E} nr msg f :
  stable (@cm_le E) (closure_openChannel nr msg f).
Proof. unfold closure_openChannel. stable. Qed.
Lemma stable_deref_name {E} (c : closure E) : stable cm_le (deref_name c).
Proof. unfold deref_name. stable. Qed.
#[local] Hint Resolve stable_deref_name : stable.
Lemma stable_closeChannel {E} : stable (@cm_le E) closure_closeChannel.
Proof. unfold closure_closeChannel. stable. Qed.
#[local] Hint Resolve stable_closeChannel : stable.
Lemma stable_as_num {E} a : stable (@cm_le E) (as_num a).
Proof. unfold as_num. stable. Qed.
Lemma stable_as_ptr {E} a : stable (@cm_le E) (as_ptr a).
Proof. unfold as_ptr. stable. Qed.
Lemma stable_par_at {E} par i : stable (@cm_le E) (par_at par i).
Proof. unfold par_at. stable. Qed.
#[local] Hint Resolve stable_as_num stable_as_ptr stable_par_at : stable.

Lemma stable_defect_report line fn : stable cm_le (defect_report line fn).
Proof. unfold defect_report. stable. Qed.
#[local] Hint Resolve stable_defect_report : stable.
Lemma stable_DefectHandler t : stable cm_le (DefectHandler t).
Proof. unfold DefectHandler. stable. Qed.
Lemma stable_setArgDefect n a : stable cm_le (setArgDefectHandler n a).
Proof. unfold setArgDefectHandler. stable. Qed.

Lemma stable_DownsampleHandler t : stable cm_le (DownsampleHandler t).
Proof. unfold DownsampleHandler. stable. Qed.
Lemma stable_setArgDownsample n a : stable cm_le (setArgDownsampleHandler n a).
Proof.
  unfold setArgDownsampleHandler, setArgDownsample_num, Downsample.fail_line.
  stable.
Qed.

Lemma stable_XoYHandler t : stable cm_le (XoYHandler t).
Proof. unfold XoYHandler. stable. Qed.
Lemma stable_xoy_fail line msg : stable cm_le (xoy_fail line msg).
Proof. unfold xoy_fail. stable. Qed.
#[local] Hint Resolve stable_xoy_fail : stable.
Lemma stable_setArgXoY n a : stable cm_le (setArgXoYHandler n a).
Proof. unfold setArgXoYHandler, setArgXoY_num. stable. Qed.

Lemma stable_FirstlastHandler t : stable cm_le (FirstlastHandler t).
Proof. unfold FirstlastHandler. stable. Qed.
Lemma stable_firstlast_close : stable cm_le firstlast_closeChannel.
Proof. unfold firstlast_closeChannel. stable. Qed.

Lemma stable_buf_read i : stable cm_le (buf_read i).
Proof. unfold buf_read. stable. Qed.
Lemma stable_buf_write i t : stable cm_le (buf_write i t).
Proof. unfold buf_write. stable. Qed.
Lemma stable_buf_sort n : stable cm_le (buf_sort n).
Proof. unfold buf_sort. stable. Qed.
#[local] Hint Resolve stable_buf_read stable_buf_write stable_buf_sort : stable.
Lemma stable_MedianHandler t : stable cm_le (MedianHandler t).
Proof. unfold MedianHandler. stable. Qed.
Lemma stable_setArgMedian n a : stable cm_le (setArgMedianHandler n a).
Proof. unfold setArgMedianHandler, median_fail. stable. Qed.

Lemma stable_call_write {E} t ts : stable (@cm_le E) (call_write t ts).
Proof.
  unfold call_write, writeInAscii, writeInAsciiTsc, writeInBinary,
    writeInBinaryTsc. stable.
Qed.
#[local] Hint Resolve stable_call_write : stable.
Lemma stable_IdentityHandler t : stable cm_le (IdentityHandler t).
Proof. unfold IdentityHandler. stable. Qed.
Lemma stable_IdentityHandlerTsc t : stable cm_le (IdentityHandlerTsc t).
Proof. unfold IdentityHandlerTsc. stable. Qed.

Lemma stable_udiv x y : stable cm_le (udiv x y).
Proof. unfold udiv. stable. Qed.
#[local] Hint Resolve stable_udiv : stable.
Lemma stable_pc_header : stable cm_le PeriodicCounter.printInitialHeaderAndPeriod.
Proof. unfold PeriodicCounter.printInitialHeaderAndPeriod, printPeriod. stable. Qed.
Lemma stable_flushCtr now : stable cm_le (flushCtr now).
Proof.
  unfold flushCtr, printCtr, PeriodicCounter.printSkippedIntervals. stable.
Qed.
Lemma stable_getNextShot now : stable cm_le (getNextShot_and_flushCtr now).
Proof.
  unfold getNextShot_and_flushCtr, printCtr,
    PeriodicCounter.printSkippedIntervals. stable.
Qed.
#[local] Hint Resolve stable_pc_header stable_flushCtr stable_getNextShot : stable.
Lemma stable_pc_close : stable cm_le pc_closeChannel.
Proof. unfold pc_closeChannel. stable. Qed.
#[local] Hint Resolve stable_pc_close : stable.
Lemma stable_PeriodicCounterHandler t : stable cm_le (PeriodicCounterHandler t).
Proof. unfold PeriodicCounterHandler. stable. Qed.
Lemma stable_setArgPeriodicCounter n a :
  stable cm_le (setArgPeriodicCounterHandler n a).
Proof. unfold setArgPeriodicCounterHandler, pc_refuse, printPeriod. stable. Qed.
End Handlers.
#[export] Hint Resolve stable_openChannel stable_deref_name stable_closeChannel
  stable_as_num stable_as_ptr stable_par_at stable_DefectHandler
  stable_setArgDefect stable_DownsampleHandler stable_setArgDownsample
  stable_XoYHandler stable_setArgXoY stable_FirstlastHandler
  stable_firstlast_close stable_MedianHandler stable_setArgMedian
  stable_call_write stable_IdentityHandler stable_IdentityHandlerTsc
  stable_pc_close stable_PeriodicCounterHandler stable_setArgPeriodicCounter
  : stable.

(** *** Buffered channels *)
Section Buffered.
Context `{Env} `{Sizes} `{Squash}.

Lemma stable_enqueue b : stable bst_le (enqueueBlockUntilSuccess b).
Proof. unfold enqueueBlockUntilSuccess, enqueueBlock. stable. Qed.
Lemma stable_this_block : stable cm_le this_block.
Proof. unfold this_block. stable. Qed.
#[local] Hint Resolve stable_enqueue stable_this_block : stable.
Lemma stable_writeOnBlock b t ts : stable cm_le (writeOnBlock b t ts).
Proof. unfold writeOnBlock. stable. Qed.
#[local] Hint Resolve stable_writeOnBlock : stable.
Lemma stable_refill : stable cm_le refill.
Proof. unfold refill, dequeueEmptyBlockPolling, dequeueEmptyBlock. stable. Qed.
#[local] Hint Resolve stable_refill : stable.
Lemma stable_buffer_enqueue a : stable bst_le (buffer_enqueue a).
Proof. unfold buffer_enqueue. stable. Qed.
#[local] Hint Resolve stable_buffer_enqueue : stable.
Lemma stable_BufferIdentityHandler a t : stable bst_le (BufferIdentityHandler a t).
Proof. unfold BufferIdentityHandler, buffer_write, buffer_refill. stable. Qed.
Lemma stable_BufferIdentityHandlerTsc a t :
  stable bst_le (BufferIdentityHandlerTsc a t).
Proof.
  unfold BufferIdentityHandlerTsc, buffer_write_tsc, writeOnBlockTsc,
    writeInAscii, writeInBinary. stable.
Qed.
Lemma stable_buffer_close a : stable bst_le (buffer_closeChannel a).
Proof. unfold buffer_closeChannel. stable. Qed.

(** The IO thread and the compression threads. *)
Lemma stable_sendBack b : stable bst_le (sendBackBlockUntilSuccess b).
Proof. unfold sendBackBlockUntilSuccess, sendBackBlock. stable. Qed.
Lemma stable_write_samples l : stable cm_le (write_samples l).
Proof. induction l as [|[t ts] l IH]; simpl; stable. Qed.
Lemma stable_close_logf : stable cm_le close_logf.
Proof. unfold close_logf. stable. Qed.
Lemma stable_vec_at {A} (l : list A) i : stable bst_le (vec_at l i).
Proof. unfold vec_at. stable. Qed.
Lemma stable_writeCompressed b : stable cm_le (writeCompressed b).
Proof. unfold writeCompressed. stable. Qed.
#[local] Hint Resolve stable_sendBack stable_write_samples stable_close_logf
  stable_vec_at stable_writeCompressed : stable.
Lemma stable_put_next nr v : stable bst_le (put_next nr v).
Proof. unfold put_next. stable. Qed.
Lemma stable_put_pending nr v : stable bst_le (put_pending nr v).
Proof. unfold put_pending. stable. Qed.
#[local] Hint Resolve stable_put_next stable_put_pending : stable.
Lemma stable_drain nr q : stable bst_le (drain_pending nr q).
Proof. induction q as [|b q IH]; simpl; stable. Qed.
#[local] Hint Resolve stable_drain : stable.
Lemma stable_io_round : stable bst_le io_round.
Proof.
  unfold io_round, write_block, writeCompressedBlock, writeUncompressedBlock,
    channel_nr. stable.
Qed.
Lemma stable_comp_round : stable bst_le comp_round.
Proof.
  unfold comp_round, compressBlockAndSend, compress_and_return, compressBlock,
    enqueueFullBlockFromCompThread. stable.
Qed.
End Buffered.
#[export] Hint Resolve stable_BufferIdentityHandler stable_BufferIdentityHandlerTsc
  stable_buffer_close stable_io_round stable_comp_round stable_refill : stable.

(** *** Fast periodic counters *)
Section Fpc.
Context `{Env}.

Lemma stable_this_thr p : stable fpw_le (this_thr p).
Proof. unfold this_thr. stable. Qed.
Lemma stable_assign_thr p f : stable fpw_le (assign_thr p f).
Proof. unfold assign_thr. stable. Qed.
#[local] Hint Resolve stable_this_thr stable_assign_thr : stable.
Lemma stable_exchange : stable cm_le exchange_ctr.
Proof. unfold exchange_ctr. stable. Qed.
#[local] Hint Resolve stable_exchange : stable.
Lemma stable_flush_skipped : stable cm_le flush_skipped.
Proof. unfold flush_skipped, printSkippedIntervals. stable. Qed.
Lemma stable_count_events : stable cm_le count_events.
Proof. unfold count_events. stable. Qed.
#[local] Hint Resolve stable_flush_skipped stable_count_events : stable.
Lemma stable_leave_period msg : stable cm_le (leave_period msg).
Proof. unfold leave_period, printTruncatedPeriod. stable. Qed.
#[local] Hint Resolve stable_leave_period : stable.
Lemma stable_insert_channel : stable cm_le insert_channel.
Proof.
  unfold insert_channel, printInitialHeaderAndPeriod, printCtrStart. stable.
Qed.
Lemma stable_reprogram x : stable cm_le (reprogram x).
Proof. unfold reprogram. stable. Qed.
Lemma stable_shut_down : stable cm_le shut_down.
Proof. unfold shut_down, printTotalCount. stable. Qed.
Lemma stable_sample_one : stable cm_le sample_one.
Proof. unfold sample_one. stable. Qed.
Lemma stable_process_one : stable cm_le process_one.
Proof. unfold process_one, printTimeStamp. stable. Qed.
Lemma stable_FastPeriodicCounterHandler t :
  stable cm_le (FastPeriodicCounterHandler t).
Proof. unfold FastPeriodicCounterHandler. stable. Qed.
#[local] Hint Resolve stable_insert_channel stable_reprogram stable_shut_down
  stable_sample_one stable_process_one stable_FastPeriodicCounterHandler : stable.

Lemma stable_not_part_of l n p : stable fpw_le (not_part_of l n p).
Proof. unfold not_part_of. stable. Qed.
#[local] Hint Resolve stable_not_part_of : stable.
Lemma stable_new_job t cl p : stable fpw_le (new_job t cl p).
Proof. unfold new_job. stable. Qed.
Lemma stable_enqueueJob jb : stable fpw_le (enqueueJobWithThrDescriptor jb).
Proof. unfold enqueueJobWithThrDescriptor, fpc_period. stable. Qed.
Lemma stable_dequeueJob jb : stable fpw_le (dequeueJobFromThrDescriptor jb).
Proof. unfold dequeueJobFromThrDescriptor. stable. Qed.
Lemma stable_dequeue_channel p jb : stable fpw_le (dequeue_channel p jb).
Proof. unfold dequeue_channel. stable. Qed.
Lemma stable_remove_job p : stable fpw_le (remove_job p).
Proof. unfold remove_job. stable. Qed.
#[local] Hint Resolve stable_new_job stable_enqueueJob stable_dequeueJob
  stable_dequeue_channel stable_remove_job : stable.
Lemma stable_process_job p jb : stable fpw_le (process_job p jb).
Proof. unfold process_job, signalCompletion. stable. Qed.
#[local] Hint Resolve stable_process_job : stable.
Lemma stable_thr_step p : stable fpw_le (thr_step p).
Proof.
  unfold thr_step, first_flush, flush_due, goto, shallTerminate,
    removeThrDescriptor. stable.
Qed.

Context (others : M fpw unit) (Hothers : stable fpw_le others).

Lemma stable_wait_for jb : stable fpw_le (wait_for others jb).
Proof using Hothers. unfold wait_for, waitCompletion. stable. Qed.
#[local] Hint Resolve stable_wait_for : stable.
Lemma stable_fpc_open a nr msg f : stable fpw_le (fpc_openChannel others a nr msg f).
Proof using Hothers. unfold fpc_openChannel, fpc_openChannel_begin. stable. Qed.
Lemma stable_fpc_close a : stable fpw_le (fpc_closeChannel others a).
Proof using Hothers.
  unfold fpc_closeChannel, fpc_closeChannel_begin, fpc_closeChannel_end. stable.
Qed.
#[local] Hint Resolve stable_fpc_close : stable.
Lemma stable_setArgFpc a n v :
  stable fpw_le (setArgFastPeriodicCounterHandler others a n v).
Proof using Hothers.
  unfold setArgFastPeriodicCounterHandler, setArg_begin, set_fail. stable.
Qed.
End Fpc.
#[export] Hint Resolve stable_thr_step stable_FastPeriodicCounterHandler
  stable_fpc_open stable_fpc_close stable_setArgFpc : stable.

(** *** The configuration client and the fox channels *)
Section Net.
Context `{Env} {N : Type} `{ConfNet N} `{FoxOs}.

Lemma stable_log_client line msg : stable (@any (N * sys)) (log_client line msg).
Proof. unfold log_client. stable. Qed.
#[local] Hint Resolve stable_log_client : stable.
Lemma stable_read_reply msg h par f : stable (@any (N * sys)) (read_reply msg h par f).
Proof. unfold read_reply. stable. Qed.
#[local] Hint Resolve stable_read_reply : stable.
Lemma stable_lookup name nr h par f :
  stable (@any (N * sys)) (getConfigFromDefaultServer name nr h par f).
Proof. unfold getConfigFromDefaultServer, getConfigFromServer, make_request. stable. Qed.
#[local] Hint Resolve stable_lookup : stable.
Lemma stable_fox_end_loop n msg nr r : stable (@any (N * sys)) (fox_end_loop n msg nr r).
Proof. revert r. induction n as [|n IH]; intros r; simpl; stable. Qed.
#[local] Hint Resolve stable_fox_end_loop : stable.
Lemma stable_initFoxStart msg nr h par f :
  stable (@any (N * sys)) (initFoxStartHandler msg nr h par f).
Proof. unfold initFoxStartHandler. stable. Qed.
Lemma stable_initFoxEnd msg nr h par f :
  stable (@any (N * sys)) (initFoxEndHandler msg nr h par f).
Proof. unfold initFoxEndHandler. stable. Qed.

Lemma stable_zmq_check {E} file line msg rc :
  stable (@cm_le E) (zmq_check file line msg rc).
Proof. unfold zmq_check. stable. Qed.
#[local] Hint Resolve stable_zmq_check : stable.
Lemma stable_FoxStartHandler t : stable cm_le (FoxStartHandler t).
Proof. unfold FoxStartHandler. stable. Qed.
Lemma stable_FoxEndHandler t : stable cm_le (FoxEndHandler t).
Proof. unfold FoxEndHandler. stable. Qed.
End Net.
#[export] Hint Resolve stable_lookup stable_initFoxStart stable_initFoxEnd
  stable_FoxStartHandler stable_FoxEndHandler : stable.
