(* ===== verification/Channels.v ===== *)
(** * The client interface: src/cp/channels.cpp and
    src/cp/handlers/io_thread/cleanup.cpp

    A channel handle is the address of a closure. The closures live in a heap
    of objects, one constructor per class derived from [closure]; a virtual
    method goes by the constructor, a call through a function pointer by the
    function stored, which casts the closure to the class it expects. The
    closures of the buffered channels and of the fast periodic counters are
    kept in the states of IoThread.v and FastPeriodicCounter.v, under the same
    address. *)
From S2P Require Import Prelude Util TimeStamp Platform Log Formats Closure.
From S2P Require Import NullDefect Downsample XoY FirstLast Median Identity.
From S2P Require Import PeriodicCounter IoThread NetConf ConfTables.
From S2P Require Import ConfigServer NetClient Fox FastPeriodicCounter.

Inductive object :=
  | NullObj (c : closure unit)
  | IdObj (c : closure id_ext)
  | DownsampleObj (c : closure downsample_ext)
  | XoYObj (c : closure XoY_ext)
  | FirstlastObj (c : closure firstlast_ext)
  | MedianObj (c : closure median_ext)
  | PCObj (c : closure pc_ext)
  | DefectObj (c : closure defect_ext)
  | FoxStartObj (c : closure unit)
  | FoxEndObj (c : closure foxend_ext)
  | BufferObj                        (* the closure is in [chans] *)
  | FPCObj.                          (* the closure is in [fpcs] *)

(** The globals of channels.cpp and of the components a channel needs; [N] is
    the state of the network. *)
Record world (N : Type) := World {
  next_channel : Z;                  (* atomic int32_t *)
  ch_info : list Z;
  oversubs_chk : bool;
  stop_oversubs_chk : bool;
  cleanup_registered : bool;
  quick_term : bool;
  objs : gmap Z object;
  next_addr : Z;
  w_fpw : fpw;
  w_bst : bst;
  w_net : N;
  w_sys : sys
}.
Arguments World {N}.
Arguments next_channel {N}.
Arguments ch_info {N}.
Arguments oversubs_chk {N}.
Arguments stop_oversubs_chk {N}.
Arguments cleanup_registered {N}.
Arguments quick_term {N}.
Arguments objs {N}.
Arguments next_addr {N}.
Arguments w_fpw {N}.
Arguments w_bst {N}.
Arguments w_net {N}.
Arguments w_sys {N}.

Section WorldSetters.
Context {N : Type}.
Implicit Types w : world N.

Definition set_next_channel x w := World x (ch_info w) (oversubs_chk w)
  (stop_oversubs_chk w) (cleanup_registered w) (quick_term w) (objs w)
  (next_addr w) (w_fpw w) (w_bst w) (w_net w) (w_sys w).
Definition set_ch_info x w := World (next_channel w) x (oversubs_chk w)
  (stop_oversubs_chk w) (cleanup_registered w) (quick_term w) (objs w)
  (next_addr w) (w_fpw w) (w_bst w) (w_net w) (w_sys w).
Definition set_oversubs_chk x w := World (next_channel w) (ch_info w) x
  (stop_oversubs_chk w) (cleanup_registered w) (quick_term w) (objs w)
  (next_addr w) (w_fpw w) (w_bst w) (w_net w) (w_sys w).
Definition set_stop_oversubs_chk x w := World (next_channel w) (ch_info w)
  (oversubs_chk w) x (cleanup_registered w) (quick_term w) (objs w)
  (next_addr w) (w_fpw w) (w_bst w) (w_net w) (w_sys w).
Definition set_cleanup_registered x w := World (next_channel w) (ch_info w)
  (oversubs_chk w) (stop_oversubs_chk w) x (quick_term w) (objs w)
  (next_addr w) (w_fpw w) (w_bst w) (w_net w) (w_sys w).
Definition set_quick_term x w := World (next_channel w) (ch_info w)
  (oversubs_chk w) (stop_oversubs_chk w) (cleanup_registered w) x (objs w)
  (next_addr w) (w_fpw w) (w_bst w) (w_net w) (w_sys w).
Definition set_objs x w := World (next_channel w) (ch_info w)
  (oversubs_chk w) (stop_oversubs_chk w) (cleanup_registered w) (quick_term w)
  x (next_addr w) (w_fpw w) (w_bst w) (w_net w) (w_sys w).
Definition set_next_addr x w := World (next_channel w) (ch_info w)
  (oversubs_chk w) (stop_oversubs_chk w) (cleanup_registered w) (quick_term w)
  (objs w) x (w_fpw w) (w_bst w) (w_net w) (w_sys w).
Definition set_fpw x w := World (next_channel w) (ch_info w)
  (oversubs_chk w) (stop_oversubs_chk w) (cleanup_registered w) (quick_term w)
  (objs w) (next_addr w) x (w_bst w) (w_net w) (w_sys w).
Definition set_bst x w := World (next_channel w) (ch_info w)
  (oversubs_chk w) (stop_oversubs_chk w) (cleanup_registered w) (quick_term w)
  (objs w) (next_addr w) (w_fpw w) x (w_net w) (w_sys w).
Definition set_net (x : N) w := World (next_channel w) (ch_info w)
  (oversubs_chk w) (stop_oversubs_chk w) (cleanup_registered w) (quick_term w)
  (objs w) (next_addr w) (w_fpw w) (w_bst w) x (w_sys w).
Definition set_wsys x w := World (next_channel w) (ch_info w)
  (oversubs_chk w) (stop_oversubs_chk w) (cleanup_registered w) (quick_term w)
  (objs w) (next_addr w) (w_fpw w) (w_bst w) (w_net w) x.

Definition world_init (n : N) (s : sys) : world N :=
  World 0 [] false false false false ∅ 1 (fpw_init s) (bst_init s) n s.

(** Code of a component, run on its part of the world. *)
Definition world_sys {A} (m : M sys A) : M (world N) A := zoom w_sys set_wsys m.
Definition world_net {A} (m : M (N * sys) A) : M (world N) A :=
  zoom (λ w, (w_net w, w_sys w)) (λ p w, set_net p.1 (set_wsys p.2 w)) m.
Definition world_fpw {A} (m : M fpw A) : M (world N) A :=
  zoom (λ w, set_fsys (w_sys w) (w_fpw w))
    (λ f w, set_fpw f (set_wsys (fsys f) w)) m.
Definition world_bst {A} (m : M bst A) : M (world N) A :=
  zoom (λ w, set_bsys (w_sys w) (w_bst w))
    (λ b w, set_bst b (set_wsys (bsys b) w)) m.

(** Code on the closure [c] of class [inj] at address [a]. *)
Definition world_obj {E A} (inj : closure E → object) (a : Z) (c : closure E)
    (m : CM E A) : M (world N) A := λ w,
  let '((c', s'), r) := m (c, w_sys w) in
  (set_objs (<[a := inj c']> (objs w)) (set_wsys s' w), r).

Definition deref (a : Z) : M (world N) object :=
  w ← get;
  match objs w !! a with
  | Some o => mret o
  | None => undefined "not a channel"
  end.

(** Code that needs the base class only. *)
Definition on_base {A} (a : Z) (m : ∀ E, CM E A) : M (world N) A :=
  o ← deref a;
  match o with
  | NullObj c => world_obj NullObj a c (m _)
  | IdObj c => world_obj IdObj a c (m _)
  | DownsampleObj c => world_obj DownsampleObj a c (m _)
  | XoYObj c => world_obj XoYObj a c (m _)
  | FirstlastObj c => world_obj FirstlastObj a c (m _)
  | MedianObj c => world_obj MedianObj a c (m _)
  | PCObj c => world_obj PCObj a c (m _)
  | DefectObj c => world_obj DefectObj a c (m _)
  | FoxStartObj c => world_obj FoxStartObj a c (m _)
  | FoxEndObj c => world_obj FoxEndObj a c (m _)
  | BufferObj => world_bst (on_closure a (m _))
  | FPCObj => world_fpw (on_fpc a (m _))
  end.

Definition field {X} (f : ∀ E, closure E → X) (a : Z) : M (world N) X :=
  on_base a (λ E, c ← this; mret (f E c)).
End WorldSetters.

Definition ch_file : string := "channels.cpp".

(** A function pointer is called with a closure of a class it does not expect. *)
Definition bad_cast {S A} : M S A := undefined "closure of another type".

Section Channels.
Context `{Env} `{Libm} `{Qsort} `{Sizes} `{Squash} {N : Type} `{ConfNet N} `{FoxOs}.
(** What the other threads do while a call waits for them. *)
Context (others : M fpw unit) (io_others : M bst unit).
(** The local array [par] of openChannel before it is filled. *)
Context (stale_words : list Z).

(** ** Objects *)
Definition new_object (o : object) : M (world N) Z :=
  w ← get;
  modify (λ w, set_next_addr (next_addr w + 1)
                 (set_objs (<[next_addr w := o]> (objs w)) w)) ;;
  mret (next_addr w).

Definition new_defect (f : log_format) (ch_msg : string) : M (world N) Z :=
  new_object (DefectObj (initDefectHandler f ch_msg)).

(** The virtual methods openChannel and closeChannel. *)
Definition virtual_openChannel (a nr : Z) (ch_msg : string) (f : log_format)
    : M (world N) bool :=
  o ← deref a;
  match o with
  | DefectObj c => world_obj DefectObj a c (defect_openChannel nr ch_msg f)
  | FPCObj => world_fpw (fpc_openChannel others a nr ch_msg f)
  | _ => on_base a (λ _, closure_openChannel nr ch_msg f)
  end.

Definition virtual_closeChannel (a : Z) : M (world N) unit :=
  o ← deref a;
  match o with
  | FirstlastObj c => world_obj FirstlastObj a c firstlast_closeChannel
  | PCObj c => world_obj PCObj a c pc_closeChannel
  | DefectObj c => world_obj DefectObj a c defect_closeChannel
  | BufferObj => world_bst (buffer_closeChannel a)
  | FPCObj => world_fpw (fpc_closeChannel others a)
  | _ => on_base a (λ _, closure_closeChannel)
  end.

(** [handler_f(ch_cl, tuple)] *)
Definition call_handler (fn : handler_fn) (a tuple : Z) : M (world N) unit :=
  o ← deref a;
  match fn, o with
  | NullHandler_fn, _ => mret tt
  | IdentityHandler_fn, IdObj c => world_obj IdObj a c (IdentityHandler tuple)
  | IdentityHandlerTsc_fn, IdObj c =>
      world_obj IdObj a c (IdentityHandlerTsc tuple)
  | DownsampleHandler_fn, DownsampleObj c =>
      world_obj DownsampleObj a c (DownsampleHandler tuple)
  | XoYHandler_fn, XoYObj c => world_obj XoYObj a c (XoYHandler tuple)
  | FirstlastHandler_fn, FirstlastObj c =>
      world_obj FirstlastObj a c (FirstlastHandler tuple)
  | MedianHandler_fn, MedianObj c => world_obj MedianObj a c (MedianHandler tuple)
  | PeriodicCounterHandler_fn, PCObj c =>
      world_obj PCObj a c (PeriodicCounterHandler tuple)
  | DefectHandler_fn, DefectObj c => world_obj DefectObj a c (DefectHandler tuple)
  | FoxStartHandler_fn, FoxStartObj c =>
      world_obj FoxStartObj a c (FoxStartHandler tuple)
  | FoxEndHandler_fn, FoxEndObj c => world_obj FoxEndObj a c (FoxEndHandler tuple)
  | BufferIdentityHandler_fn, BufferObj => world_bst (BufferIdentityHandler a tuple)
  | BufferIdentityHandlerTsc_fn, BufferObj =>
      world_bst (BufferIdentityHandlerTsc a tuple)
  | FastPeriodicCounterHandler_fn, FPCObj =>
      world_fpw (on_fpc a (FastPeriodicCounterHandler tuple))
  | _, _ => bad_cast
  end.

(** [parm_handler_f(ch_cl, arg_number, arg)] *)
Definition call_parm (fn : parm_fn) (a n : Z) (arg : arg_val) : M (world N) Z :=
  o ← deref a;
  match fn, o with
  | setArgDownsampleHandler_fn, DownsampleObj c =>
      world_obj DownsampleObj a c (setArgDownsampleHandler n arg)
  | setArgXoYHandler_fn, XoYObj c => world_obj XoYObj a c (setArgXoYHandler n arg)
  | setArgMedianHandler_fn, MedianObj c =>
      world_obj MedianObj a c (setArgMedianHandler n arg)
  | setArgPeriodicCounterHandler_fn, PCObj c =>
      world_obj PCObj a c (setArgPeriodicCounterHandler n arg)
  | setArgDefectHandler_fn, DefectObj c =>
      world_obj DefectObj a c (setArgDefectHandler n arg)
  | setArgFoxEndHandler_fn, FoxEndObj c =>
      world_obj FoxEndObj a c (setArgFoxEndHandler n arg)
  | setArgFastPeriodicCounterHandler_fn, FPCObj =>
      world_fpw (setArgFastPeriodicCounterHandler others a n arg)
  | _, _ => bad_cast
  end.

(** ** Opening *)

(** What the look-up at the configuration server changed: the handler type,
    the parameters and the format; [None] when it failed. *)
Definition net_lookup (ch_msg : string) (mychannel : Z) (h : handler_type)
    (f : log_format) : M (world N) conf_result :=
  let par := 0 :: stale_words in
  if bool_decide (h = NET_CONF) then
    world_net (getConfigFromDefaultServer ch_msg mychannel h par f)
  else mret (ConfResult true h par f).

(** The switch of openChannel. [inl] is a closure, with the look-up results a
    fox handler may have changed; [inr] the channel an early return yields. *)
Definition make_channel (ch_msg : string) (mychannel : Z) (r : conf_result)
    : M (world N) ((Z * conf_result) + Z) :=
  let f := cr_format r in
  let made o := a ← new_object o; mret (inl (a, r)) in
  let refused msg :=
    _ ← new_object (NullObj (initNullHandler f));
    world_sys (logFail ch_file (msg : Z * string).1 msg.2) ;;
    d ← new_defect f ch_msg;
    mret (inr d) in
  match cr_h r with
  | IDENTITY => made (IdObj (initIdentityHandler f))
  | BUFFER_IDENTITY | BUFFER_IDENTITY_COMP =>
      w ← get;
      world_bst (initBufferIdentityHandler (next_addr w) f
                   (bool_decide (cr_h r = BUFFER_IDENTITY_COMP))) ;;
      made BufferObj
  | MEDIAN => c ← world_sys (initMedianHandler f); made (MedianObj c)
  | DOWNSAMPLE => made (DownsampleObj (initDownsampleHandler f))
  | XOY => made (XoYObj (initXoYHandler f))
  | FIRSTLAST => made (FirstlastObj (initFirstlastHandler f))
  | PERIODICCOUNTER =>
      c ← world_sys (initPeriodicCounterHandler f); made (PCObj c)
  | FASTPERIODICCOUNTER =>
      w ← get;
      world_fpw (modify (λ v, set_fpcs
        (<[next_addr w := initFastPeriodicCounterHandler f]> (fpcs v)) v)) ;;
      made FPCObj
  | NULLH => made (NullObj (initNullHandler f))
  | FOX_START =>
      '(c, r) ← world_net (initFoxStartHandler ch_msg mychannel (cr_h r) (cr_par r) f);
      a ← new_object match c with inl c => FoxStartObj c | inr c => DefectObj c end;
      mret (inl (a, r))
  | FOX_END =>
      '(c, r) ← world_net (initFoxEndHandler ch_msg mychannel (cr_h r) (cr_par r) f);
      a ← new_object match c with inl c => FoxEndObj c | inr c => DefectObj c end;
      mret (inl (a, r))
  | GPIORTT =>
      refused (128, "Ch: " +:+ quote ch_msg +:+ " supported only on aarch64")
  | _ => refused (137, "Ch: " +:+ quote ch_msg +:+ " unsupported handler type")
  end.

Definition register_channel (a : Z) : M (world N) unit :=
  w ← get;
  when (bool_decide (ch_info w = [])) (modify (set_cleanup_registered true)) ;;
  modify (λ w, set_ch_info (ch_info w ++ [a]) w).

Definition ch_line (ch_msg : string) (mychannel : Z) (what : string) : string :=
  "Ch: " +:+ ch_msg +:+ ", ch_nr " +:+ zstr mychannel +:+ what.

(** The arguments of the configuration server reach the handler. *)
Definition forward_parameters (a : Z) (ch_msg : string) (mychannel : Z)
    (r : conf_result) : M (world N) Z :=
  let fail line what :=
    world_sys (logFail ch_file line (ch_line ch_msg mychannel what)) ;;
    new_defect (cr_format r) ch_msg in
  if 0 <? arr_at (cr_par r) 0 then
    p ← field (λ _, parm_handler_f) a;
    match p with
    | None => fail 167 (": closure without handler function"
                        +:+ ", check channel's network configuration")
    | Some fn =>
        retv ← call_parm fn a (-1) (Ptr (cr_par r));
        if retv =? -1 then fail 177 ": unable to set configuration arguments"
        else mret a
    end
  else mret a.

(** From the switch on. *)
Definition open_with (ch_msg : string) (mychannel : Z) (h : handler_type)
    (r : conf_result) : M (world N) Z :=
  w ← get;
  when (negb (oversubs_chk w)) (modify (set_oversubs_chk true)) ;;
  made ← make_channel ch_msg mychannel r;
  match made with
  | inr d => mret d
  | inl (a, r) =>
      register_channel a ;;
      on_base a (λ _, assign (set_ch_nr mychannel)) ;;
      ok ← virtual_openChannel a mychannel ch_msg (cr_format r);
      if negb ok then new_defect (cr_format r) ch_msg
      else if bool_decide (h = NET_CONF)
      then forward_parameters a ch_msg mychannel r
      else mret a
  end.

Definition openChannel (ch_msg : string) (f : log_format) (h : handler_type)
    : M (world N) Z :=
  w ← get;
  when (next_channel w =? 0) (world_sys openStatusLogFile) ;;
  let mychannel := next_channel w in
  modify (set_next_channel (i32 (mychannel + 1))) ;;
  r ← net_lookup ch_msg mychannel h f;
  if negb (cr_ret r) then
    world_sys (logFail ch_file 74 (ch_line ch_msg mychannel
      ": unable to obtain configuration from server")) ;;
    new_defect (cr_format r) ch_msg
  else open_with ch_msg mychannel h r.

(** ** The other calls of the interface *)
Definition isOpen (ch : Z) : M (world N) bool :=
  w ← get;
  if bool_decide (ch ∈ ch_info w) then field (λ _ c, ofs_open (ch_logf c)) ch
  else mret false.

Definition closeChannel (ch : Z) : M (world N) unit := virtual_closeChannel ch.

Definition parameterizeChannel (ch arg_number : Z) (arg : arg_val)
    : M (world N) Z :=
  p ← field (λ _, parm_handler_f) ch;
  match p with
  | None =>
      closeChannel ch ;;
      nr ← field (λ _, ch_nr) ch;
      world_sys (logFail ch_file 213
        ("Ch: " +:+ zstr nr +:+ " does not support parameterization.")) ;;
      mret (-1)
  | Some fn => call_parm fn ch arg_number arg
  end.

(** The overload for a literal; [r0] is the uninitialised result object. After
    an invalid literal the channel is closed, and parameterised all the same. *)
Definition parameterizeChannel_str (ch arg_number : Z) (arg_value : string)
    (r0 : conv_result) : M (world N) Z :=
  let r := convertA2Inoexit arg_value r0 in
  when (negb (1 =? valid r))
    (closeChannel ch ;;
     nr ← field (λ _, ch_nr) ch;
     world_sys (logFail ch_file 235
       ("Ch: " +:+ zstr nr +:+ " invalid parameter value: " +:+ err_msg r))) ;;
  parameterizeChannel ch arg_number (Num (i64 (result r))).

Definition logTS (ch tuple : Z) : M (world N) unit :=
  if tuple =? -1 then closeChannel ch
  else
    h ← field (λ _, handler_f) ch;
    match h with
    | Some fn => call_handler fn ch tuple
    | None => undefined "NULL handler_f called"
    end.

Definition nologTS (ch tuple : Z) : M (world N) unit := mret tt.

(** ** cleanup.cpp *)
Fixpoint close_each (l : list Z) : M (world N) unit :=
  match l with
  | [] => mret tt
  | a :: l => virtual_closeChannel a ;; close_each l
  end.

Definition closeAllChannels : M (world N) unit :=
  w ← get;
  close_each (ch_info w).

(** [buffer_write_thread->join()] *)
Definition join_io_thread : M (world N) unit :=
  world_bst (io_others ;; s ← get;
             if io_running s then spin "join" else mret tt).

Definition cleanUpAtNormalExit : M (world N) unit :=
  modify (set_stop_oversubs_chk true) ;;
  closeAllChannels ;;
  w ← get;
  when (io_thread_created (w_bst w)) join_io_thread.

Definition cleanUpAtAbnormalExit : M (world N) unit :=
  modify (set_stop_oversubs_chk true) ;;
  w ← get;
  if negb (num_buf_comp_ch (w_bst w) =? 0) || io_thread_created (w_bst w) then
    modify (set_quick_term true) ;; closeAllChannels
  else closeAllChannels ;; exit 0.
End Channels.
