(* ===== verification/ChannelsTyped.v ===== *)
(** * Every call reaches a function of the channel's own class

    [typed w]: the function pointers of every closure of the heap are functions
    that expect the class the closure was created with, or the null handler; the
    registered channels are in the heap, once each. All calls of the interface
    and all steps of the other threads preserve it, and no call on a handle the
    library gave out ends in a call of another class's function. *)
From S2P Require Import Prelude Util TimeStamp Platform Log Formats Closure.
From S2P Require Import NullDefect Downsample XoY FirstLast Median Identity.
From S2P Require Import PeriodicCounter IoThread NetConf ConfTables.
From S2P Require Import ConfigServer NetClient Fox FastPeriodicCounter.
From S2P Require Import Stable Channels.

Inductive class :=
  | CNull | CId | CDownsample | CXoY | CFirstlast | CMedian | CPC | CDefect
  | CFoxStart | CFoxEnd | CBuffer | CFPC
  | CGpio.  (* no object of it on this machine *)

Definition class_of (o : object) : class :=
  match o with
  | NullObj _ => CNull | IdObj _ => CId | DownsampleObj _ => CDownsample
  | XoYObj _ => CXoY | FirstlastObj _ => CFirstlast | MedianObj _ => CMedian
  | PCObj _ => CPC | DefectObj _ => CDefect | FoxStartObj _ => CFoxStart
  | FoxEndObj _ => CFoxEnd | BufferObj => CBuffer | FPCObj => CFPC
  end.

(** The class a function casts its argument to; none for the null handler. *)
Definition handler_class (f : handler_fn) : option class :=
  match f with
  | NullHandler_fn => None
  | IdentityHandler_fn | IdentityHandlerTsc_fn => Some CId
  | DownsampleHandler_fn => Some CDownsample
  | XoYHandler_fn => Some CXoY
  | FirstlastHandler_fn => Some CFirstlast
  | MedianHandler_fn => Some CMedian
  | PeriodicCounterHandler_fn => Some CPC
  | FastPeriodicCounterHandler_fn => Some CFPC
  | BufferIdentityHandler_fn | BufferIdentityHandlerTsc_fn => Some CBuffer
  | DefectHandler_fn => Some CDefect
  | FoxStartHandler_fn => Some CFoxStart
  | FoxEndHandler_fn => Some CFoxEnd
  | GPIORTTHandler_client_fn => Some CGpio
  end.

Definition parm_class (f : parm_fn) : class :=
  match f with
  | setArgDownsampleHandler_fn => CDownsample
  | setArgXoYHandler_fn => CXoY
  | setArgMedianHandler_fn => CMedian
  | setArgPeriodicCounterHandler_fn => CPC
  | setArgFastPeriodicCounterHandler_fn => CFPC
  | setArgDefectHandler_fn => CDefect
  | setArgFoxEndHandler_fn => CFoxEnd
  | setArgGPIORTTHandler_fn => CGpio
  end.

(** The two function pointers of a closure fit its class; only an identity
    channel can be without a handler. *)
Definition fits (k : class) (t : option handler_fn * option parm_fn) : Prop :=
  match t.1 with
  | None => k = CId
  | Some f => handler_class f = None ∨ handler_class f = Some k
  end
  ∧ match t.2 with None => True | Some g => parm_class g = k end.

Definition tags {E} (c : closure E) := (handler_f c, parm_handler_f c).

Definition fades (t t' : option handler_fn * option parm_fn) : Prop :=
  (t'.1 = t.1 ∨ t'.1 = Some NullHandler_fn) ∧ (t'.2 = t.2 ∨ t'.2 = None).

Lemma fades_tags {E} (c c' : closure E) : tag_le c c' → fades (tags c) (tags c').
Proof. done. Qed.

Lemma fits_fades k t t' : fits k t → fades t t' → fits k t'.
Proof.
  unfold fits, fades. destruct t as [h p], t' as [h' p']. simpl.
  intros [H1 H2] [[->| ->] [->| ->]]; simpl; auto.
Qed.

Section Typed.
Context {N : Type}.
Implicit Types w : world N.

Definition tags_at w (a : Z) (o : object) :=
  match o with
  | NullObj c | FoxStartObj c => Some (tags c)
  | IdObj c => Some (tags c) | DownsampleObj c => Some (tags c)
  | XoYObj c => Some (tags c) | FirstlastObj c => Some (tags c)
  | MedianObj c => Some (tags c) | PCObj c => Some (tags c)
  | DefectObj c => Some (tags c) | FoxEndObj c => Some (tags c)
  | BufferObj => tags <$> chans (w_bst w) !! a
  | FPCObj => tags <$> fpcs (w_fpw w) !! a
  end.

Definition obj_typed w (a : Z) (o : object) : Prop :=
  a < next_addr w ∧ ∃ t, tags_at w a o = Some t ∧ fits (class_of o) t.

Record typed w : Prop := Typed {
  ty_objs : ∀ a o, objs w !! a = Some o → obj_typed w a o;
  ty_nodup : NoDup (ch_info w);
  ty_info : ∀ a, a ∈ ch_info w → is_Some (objs w !! a)
}.

Definition class_at w (a : Z) : option class := class_of <$> objs w !! a.

(** What a call that creates no channel does to the heap. *)
Record calls w w' : Prop := Calls {
  ca_info : ch_info w' = ch_info w;
  ca_addr : next_addr w' = next_addr w;
  ca_class : ∀ a, class_at w' a = class_at w a;
  ca_tags : ∀ a o o' t, objs w !! a = Some o → objs w' !! a = Some o' →
    tags_at w a o = Some t → ∃ t', tags_at w' a o' = Some t' ∧ fades t t'
}.

#[global] Instance calls_po : PreOrder calls.
Proof.
  split.
  - intros w. split; [done..|]. intros a o o' t H1 H2 Ht.
    rewrite H1 in H2. injection H2 as <-. exists t. split; [done|].
    by split; left.
  - intros w1 w2 w3 [] []. split; try congruence.
    intros a o o' t H1 H3 Ht.
    assert (is_Some (objs w2 !! a)) as [o2 H2].
    { apply (fmap_is_Some class_of). change (is_Some (class_at w2 a)).
      rewrite ca_class0. unfold class_at. by rewrite H1. }
    destruct (ca_tags0 a o o2 t H1 H2 Ht) as (t2 & Ht2 & F1).
    destruct (ca_tags1 a o2 o' t2 H2 H3 Ht2) as (t3 & Ht3 & F2).
    exists t3. split; [done|]. revert F1 F2. unfold fades.
    intros [[A|A] [B|B]] [[C|C] [D|D]]; split; rewrite ?C, ?D, ?A, ?B; tauto.
Qed.

Lemma class_at_some w a k :
  class_at w a = Some k → ∃ o, objs w !! a = Some o ∧ class_of o = k.
Proof.
  unfold class_at. destruct (objs w !! a) as [o|] eqn:Eo; [|done].
  intros [= <-]. by exists o.
Qed.

Lemma calls_handle w w' a :
  calls w w' → is_Some (class_at w a) → is_Some (class_at w' a).
Proof. intros [_ _ Hc _]. by rewrite Hc. Qed.

Lemma calls_typed w w' : calls w w' → typed w → typed w'.
Proof.
  intros Hc [Ho Hn Hi]. pose proof (λ a, calls_handle _ _ a Hc) as Hh.
  destruct Hc as [E1 E2 Ec Et]. split.
  - intros a o' Ho'. assert (class_at w a = Some (class_of o')) as Ha.
    { rewrite <- Ec. unfold class_at. by rewrite Ho'. }
    apply class_at_some in Ha as (o & Hoa & Ek).
    destruct (Ho a o Hoa) as (Hlt & t & Ht & Hf).
    destruct (Et a o o' t Hoa Ho' Ht) as (t' & Ht' & F).
    split; [by rewrite E2|]. exists t'. split; [done|]. rewrite <- Ek.
    by eapply fits_fades.
  - by rewrite E1.
  - intros a. rewrite E1. intros Hin. specialize (Hi a Hin).
    specialize (Hh a). unfold class_at in Hh.
    rewrite !fmap_is_Some in Hh. by apply Hh.
Qed.

(** [g] has what [f] has on the addresses of channels, up to fading tags. *)
Definition le_on {E} w (f g : gmap Z (closure E)) : Prop := ∀ a c,
  is_Some (objs w !! a) → f !! a = Some c → ∃ c', g !! a = Some c' ∧ tag_le c c'.

Lemma map_le_on {E} w (f g : gmap Z (closure E)) : map_le f g → le_on w f g.
Proof. intros Hm a c _. apply Hm. Qed.

Lemma calls_same w w' :
  ch_info w' = ch_info w → next_addr w' = next_addr w → objs w' = objs w →
  le_on w (chans (w_bst w)) (chans (w_bst w')) →
  le_on w (fpcs (w_fpw w)) (fpcs (w_fpw w')) → calls w w'.
Proof.
  intros E1 E2 E3 Hb Hf. split; [done..| |].
  { intros a. unfold class_at. by rewrite E3. }
  intros a o o' t H1 H2 Ht. rewrite E3, H1 in H2. injection H2 as <-.
  assert (is_Some (objs w !! a)) as Ha by (by rewrite H1).
  assert (∀ x, Some x = Some t → ∃ t', Some x = Some t' ∧ fades t t') as Hsame.
  { intros x [= ->]. exists t. split; [done|]. by split; left. }
  destruct o; simpl in Ht; simpl; try by apply Hsame.
  - destruct (chans (w_bst w) !! a) as [c|] eqn:Ec; [|done]. injection Ht as <-.
    destruct (Hb a c Ha Ec) as (c' & -> & L). by exists (tags c').
  - destruct (fpcs (w_fpw w) !! a) as [c|] eqn:Ec; [|done]. injection Ht as <-.
    destruct (Hf a c Ha Ec) as (c' & -> & L). by exists (tags c').
Qed.

Ltac same := intros; apply calls_same; simpl; first [done|by apply map_le_on].

Lemma stable_world_sys {A} (m : M sys A) :
  stable any m → stable calls (@world_sys N A m).
Proof. intros Hm. apply (stable_zoom _ any); [done|same]. Qed.
Lemma stable_world_net {A} (m : M (N * sys) A) :
  stable any m → stable calls (world_net m).
Proof. intros Hm. apply (stable_zoom _ any); [done|same]. Qed.
Lemma stable_world_bst {A} (m : M bst A) :
  stable bst_le m → stable calls (@world_bst N A m).
Proof. intros Hm. apply (stable_zoom _ bst_le); [done|same]. Qed.
Lemma stable_world_fpw {A} (m : M fpw A) :
  stable fpw_le m → stable calls (@world_fpw N A m).
Proof. intros Hm. apply (stable_zoom _ fpw_le); [done|same]. Qed.

(** Code on the closure at a handle. *)
Definition at_handle {A} (a : Z) (m : M (world N) A) : Prop :=
  ∀ w, is_Some (class_at w a) → calls w (m w).1 ∧ sound (m w).2.

Lemma at_stable {A} a (m : M (world N) A) : stable calls m → at_handle a m.
Proof. intros Hm w _. apply Hm. Qed.

Lemma at_bind {A B} a (m : M (world N) A) (k : A → M (world N) B) :
  at_handle a m → (∀ x, at_handle a (k x)) → at_handle a (m ≫= k).
Proof.
  intros Hm Hk w Hw. destruct (Hm w Hw) as [H1 H2].
  unfold mbind, M_bind. destruct (m w) as [w1 [x|f]]; simpl in *; [|done].
  destruct (Hk x w1) as [H3 H4]; [by eapply calls_handle|].
  split; [by etrans|done].
Qed.

(** A class whose closures are in the heap itself. *)
Class Plain {E} (inj : closure E → object) := {
  plain_class : ∀ c c', class_of (inj c) = class_of (inj c');
  plain_tags : ∀ w a c, tags_at w a (inj c) = Some (tags c)
}.

Lemma world_obj_calls {E A} (inj : closure E → object) `{!Plain inj} a c
    (m : CM E A) w :
  stable cm_le m → objs w !! a = Some (inj c) →
  calls w (world_obj inj a c m w).1 ∧ sound (world_obj inj a c m w).2.
Proof.
  intros Hm Ha. destruct (Hm (c, w_sys w)) as [H1 H2]. unfold world_obj.
  destruct (m (c, w_sys w)) as [[c' s'] r]. simpl in *. split; [|done].
  split; [done..| |].
  - intros b. unfold class_at. simpl. destruct (decide (a = b)) as [<-|Hne].
    + rewrite lookup_insert_eq, Ha. simpl. f_equal. apply plain_class.
    + by rewrite lookup_insert_ne.
  - intros b o o' t Hb Hb' Ht. simpl in Hb'.
    destruct (decide (a = b)) as [<-|Hne].
    + rewrite Ha in Hb. injection Hb as <-. rewrite lookup_insert_eq in Hb'.
      injection Hb' as <-. rewrite plain_tags in Ht. injection Ht as <-.
      exists (tags c'). by rewrite plain_tags.
    + rewrite lookup_insert_ne in Hb' by done. rewrite Hb in Hb'.
      injection Hb' as <-. exists t. split; [by destruct o|]. by split; left.
Qed.

#[global] Instance plain_null : Plain NullObj. Proof. by split. Qed.
#[global] Instance plain_id : Plain IdObj. Proof. by split. Qed.
#[global] Instance plain_down : Plain DownsampleObj. Proof. by split. Qed.
#[global] Instance plain_xoy : Plain XoYObj. Proof. by split. Qed.
#[global] Instance plain_fl : Plain FirstlastObj. Proof. by split. Qed.
#[global] Instance plain_med : Plain MedianObj. Proof. by split. Qed.
#[global] Instance plain_pc : Plain PCObj. Proof. by split. Qed.
#[global] Instance plain_def : Plain DefectObj. Proof. by split. Qed.
#[global] Instance plain_fs : Plain FoxStartObj. Proof. by split. Qed.
#[global] Instance plain_fe : Plain FoxEndObj. Proof. by split. Qed.

(** [deref] at a handle, then code for the object found. *)
Lemma at_deref {A} a (k : object → M (world N) A) :
  (∀ o w, objs w !! a = Some o → calls w (k o w).1 ∧ sound (k o w).2) →
  at_handle a (deref a ≫= k).
Proof.
  intros Hk w Hw. unfold class_at in Hw. rewrite fmap_is_Some in Hw.
  destruct Hw as [o Ho]. rewrite (bind_Ret (deref a) k w w o); [by apply Hk|].
  unfold deref. monad_simpl. by rewrite Ho.
Qed.

Lemma at_base {A} a (m : ∀ E, CM E A) :
  (∀ E, stable cm_le (m E)) → at_handle a (on_base a m).
Proof.
  intros Hm. apply at_deref. intros o w Ho.
  destruct o; try (apply world_obj_calls; [apply _|apply Hm|done]).
  - apply stable_world_bst, stable_on_closure, Hm.
  - apply stable_world_fpw, stable_on_fpc, Hm.
Qed.

Lemma at_field {X} (f : ∀ E, closure E → X) a : at_handle a (field f a).
Proof. apply at_base. intros E. stable. Qed.

(** The function pointers a handle is read to have are those of its closure. *)
Lemma field_tags {X} (f : ∀ E, closure E → X)
    (g : option handler_fn * option parm_fn → X) a w k :
  (∀ E c, f E c = g (tags c)) → typed w → class_at w a = Some k →
  ∃ w' t, field f a w = (w', Ret (g t)) ∧ calls w w' ∧ fits k t.
Proof.
  intros Hf Hw Ha. destruct (at_field f a w) as [Hc _]; [by rewrite Ha|].
  apply class_at_some in Ha as (o & Ho & <-).
  destruct (ty_objs w Hw a o Ho) as (_ & t & Ht & Hfit).
  assert ((field f a w).2 = Ret (g t)) as E.
  { unfold field, on_base, deref. rewrite (bind_Ret _ _ w w o);
      [|monad_simpl; by rewrite Ho].
    destruct o; simpl in Ht;
      try (injection Ht as <-; unfold world_obj; cm_simpl; by rewrite Hf).
    - destruct (chans (w_bst w) !! a) as [c|] eqn:Ec; [|done]. injection Ht as <-.
      unfold world_bst, on_closure. cm_simpl. rewrite Ec. simpl. by rewrite Hf.
    - destruct (fpcs (w_fpw w) !! a) as [c|] eqn:Ec; [|done]. injection Ht as <-.
      unfold world_fpw, on_fpc. cm_simpl. rewrite Ec. simpl. by rewrite Hf. }
  exists (field f a w).1, t. split; [|done]. rewrite <- E. by destruct (field f a w).
Qed.
End Typed.

(** Closes the case of one object: its own code, or the code of the base. *)
Ltac by_obj :=
  first
  [ apply world_obj_calls; [apply _|solve [stable]|done]
  | apply stable_world_bst; solve [stable]
  | apply stable_world_fpw; solve [stable] ].

Section Calls.
Context `{Env} `{Libm} `{Qsort} `{Sizes} `{Squash} {N : Type} `{ConfNet N} `{FoxOs}.
Context (others : M fpw unit) (Hothers : stable fpw_le others).
Implicit Types w : world N.

#[local] Hint Extern 0 (stable fpw_le others) => exact Hothers : stable.

Lemma at_open a nr msg f :
  at_handle (N:=N) a (virtual_openChannel others a nr msg f).
Proof using Hothers.
  apply at_deref. intros o w Ho.
  assert (∀ w, is_Some (objs w !! a) → calls w (on_base (N:=N) a
    (λ _, closure_openChannel nr msg f) w).1
    ∧ sound (on_base (N:=N) a (λ _, closure_openChannel nr msg f) w).2) as Hb.
  { intros v Hv. apply at_base; [intros E; stable|].
    unfold class_at. by rewrite fmap_is_Some. }
  destruct o; first [apply Hb; by eexists | by_obj].
Qed.

Lemma at_close a : at_handle (N:=N) a (virtual_closeChannel others a).
Proof using Hothers.
  apply at_deref. intros o w Ho.
  assert (∀ w, is_Some (objs w !! a) → calls w (on_base (N:=N) a
    (λ _, closure_closeChannel) w).1
    ∧ sound (on_base (N:=N) a (λ _, closure_closeChannel) w).2) as Hb.
  { intros v Hv. apply at_base; [intros E; stable|].
    unfold class_at. by rewrite fmap_is_Some. }
  destruct o; first [apply Hb; by eexists | by_obj].
Qed.

(** A function called on a closure of its class. *)
Lemma call_handler_calls fn a t w k :
  class_at w a = Some k → handler_class fn = None ∨ handler_class fn = Some k →
  calls w (call_handler fn a t w).1 ∧ sound (call_handler fn a t w).2.
Proof.
  intros Ha Hk. apply class_at_some in Ha as (o & Ho & <-).
  unfold call_handler. rewrite (bind_Ret (deref a) _ w w o)
    by (unfold deref; monad_simpl; by rewrite Ho).
  destruct fn, o; simpl in Hk; destruct_or! Hk; simplify_eq;
    first [by_obj | by split].
Qed.

Lemma call_parm_calls fn a n v w :
  class_at w a = Some (parm_class fn) →
  calls w (call_parm others fn a n v w).1 ∧ sound (call_parm others fn a n v w).2.
Proof using Hothers.
  intros Ha. apply class_at_some in Ha as (o & Ho & Hk).
  unfold call_parm. rewrite (bind_Ret (deref a) _ w w o)
    by (unfold deref; monad_simpl; by rewrite Ho).
  destruct fn, o; simpl in Hk; simplify_eq; by_obj.
Qed.

(** ** The calls on a handle *)

(** A call on a handle in a typed world: still typed, and sound. *)
Definition typed_call {A} (a : Z) (m : M (world N) A) : Prop := ∀ w,
  typed w → is_Some (class_at w a) → calls w (m w).1 ∧ sound (m w).2.

Lemma typed_at {A} a (m : M (world N) A) : at_handle a m → typed_call a m.
Proof. intros Hm w _. apply Hm. Qed.

Lemma typed_bind {A B} a (m : M (world N) A) (k : A → M (world N) B) :
  typed_call a m → (∀ x, typed_call a (k x)) → typed_call a (m ≫= k).
Proof.
  intros Hm Hk w Hw Ha. destruct (Hm w Hw Ha) as [D1 D2].
  unfold mbind, M_bind. destruct (m w) as [w1 [x|f]]; simpl in *; [|done].
  destruct (Hk x w1) as [D3 D4];
    [by eapply calls_typed|by eapply calls_handle|].
  split; [by etrans|done].
Qed.

Lemma typed_logTS a t : typed_call a (logTS others a t).
Proof using Hothers.
  unfold logTS. destruct (t =? -1); [apply typed_at, at_close|].
  intros w Hw [k Ha].
  destruct (field_tags (λ _ c, handler_f c) fst a w k) as (w' & t' & E & Hc & Hf);
    [done..|].
  rewrite (bind_Ret _ _ _ _ _ E). destruct Hf as [Hf _].
  assert (class_at w' a = Some k) as Ha' by by (destruct Hc as [_ _ -> _]).
  destruct t' as [[fn|] p]; simpl in *; [|by split].
  destruct (call_handler_calls fn a t w' k Ha' Hf). split; [by etrans|done].
Qed.

Lemma typed_log_fail {A} a file line (msg : string) (x : A) :
  typed_call a (world_sys (logFail file line msg) ;; mret x).
Proof.
  apply typed_at, at_stable. apply stable_bind; [apply _| |].
  - apply stable_world_sys. stable.
  - intros _. apply stable_ret, _.
Qed.

Lemma typed_parm a n v : typed_call a (parameterizeChannel others a n v).
Proof using Hothers.
  intros w Hw [k Ha]. unfold parameterizeChannel.
  destruct (field_tags (λ _ c, parm_handler_f c) snd a w k)
    as (w' & t' & E & Hc & Hf); [done..|].
  rewrite (bind_Ret _ _ _ _ _ E). destruct Hf as [_ Hf].
  assert (class_at w' a = Some k) as Ha' by by (destruct Hc as [_ _ -> _]).
  destruct t' as [h [fn|]]; simpl in *.
  - destruct (call_parm_calls fn a n v w'); [by subst k|].
    split; [by etrans|done].
  - assert (typed w') as Hw' by by eapply calls_typed.
    match goal with |- calls w (?m w').1 ∧ _ =>
      assert (typed_call a m) as Hm end.
    { apply typed_bind; [apply typed_at, at_close|intros _].
      apply typed_bind; [apply typed_at, at_field|intros nr]. apply typed_log_fail. }
    destruct (Hm w' Hw' ltac:(by rewrite Ha')). split; [by etrans|done].
Qed.

Lemma typed_parm_str a n s r :
  typed_call a (parameterizeChannel_str others a n s r).
Proof using Hothers.
  apply typed_bind; [|intros _; apply typed_parm].
  unfold when. destruct (negb _); [|intros w _ _; by split].
  apply typed_bind; [apply typed_at, at_close|intros _].
  apply typed_bind; [apply typed_at, at_field|intros nr].
  apply typed_at, at_stable, stable_world_sys. stable.
Qed.

Lemma typed_isOpen a : typed_call a (isOpen (N:=N) a).
Proof.
  intros w Hw Ha. unfold isOpen. rewrite (bind_Ret get _ w w w) by done.
  case_bool_decide; [by apply at_field|by split].
Qed.

Lemma close_each_calls l w :
  typed w → (∀ a, a ∈ l → is_Some (class_at w a)) →
  calls w (close_each others l w).1 ∧ sound (close_each others l w).2.
Proof using Hothers.
  revert w. induction l as [|a l IH]; intros w Hw Hl; [by split|].
  simpl. destruct (at_close a w) as [D1 D2]; [apply Hl; by left|].
  unfold mbind, M_bind. destruct (virtual_closeChannel others a w) as [w1 [[]|f]];
    simpl in *; [|done].
  destruct (IH w1) as [D3 D4].
  - by eapply calls_typed.
  - intros b Hb. eapply calls_handle; [done|]. apply Hl. by right.
  - split; [by etrans|done].
Qed.

Lemma typed_closeAll w :
  typed w → calls w (closeAllChannels others w).1
            ∧ sound (closeAllChannels others w).2.
Proof using Hothers.
  intros Hw. unfold closeAllChannels. rewrite (bind_Ret get _ w w w) by done.
  apply close_each_calls; [done|]. intros a Ha. unfold class_at.
  rewrite fmap_is_Some. by apply (ty_info w Hw).
Qed.

(** ** Creating channels *)
Record extends w w' : Prop := Extends {
  ex_info : ∃ l, ch_info w' = ch_info w ++ l;
  ex_class : ∀ a k, class_at w a = Some k → class_at w' a = Some k
}.

#[local] Instance extends_po : PreOrder extends.
Proof.
  split.
  - intros w. split; [|done]. exists []. by rewrite app_nil_r.
  - intros w1 w2 w3 [[l1 E1] K1] [[l2 E2] K2]. split; [|by auto].
    exists (l1 ++ l2). by rewrite E2, E1, app_assoc.
Qed.

Lemma calls_extends w w' : calls w w' → extends w w'.
Proof.
  intros [Ei _ Ec _]. split; [exists []; by rewrite app_nil_r|].
  intros a k. by rewrite Ec.
Qed.

(** From a typed world where [P] holds: typed, sound, and [Q] of the result. *)
Definition opens {A} (P : world N → Prop) (m : M (world N) A)
    (Q : A → world N → Prop) : Prop := ∀ w, typed w → P w →
  typed (m w).1 ∧ extends w (m w).1
  ∧ match (m w).2 with Ret x => Q x (m w).1 | Fault f => tolerable f = true end.

Lemma opens_ret {A} (x : A) P Q : (∀ w, P w → Q x w) → opens P (mret x) Q.
Proof. intros HQ w Hw HP. split_and!; simpl; [done..|by apply HQ]. Qed.

Lemma opens_bind {A B} P (m : M (world N) A) Q (k : A → M (world N) B) Q' :
  opens P m Q → (∀ x, opens (Q x) (k x) Q') → opens P (m ≫= k) Q'.
Proof.
  intros Hm Hk w Hw HP. destruct (Hm w Hw HP) as (D1 & D2 & D3).
  unfold mbind, M_bind. destruct (m w) as [w1 [x|f]]; simpl in *; [|done].
  destruct (Hk x w1 D1 D3) as (D4 & D5 & D6). split_and!; [done|by etrans|done].
Qed.

Lemma opens_get {A} P (k : world N → M (world N) A) Q :
  (∀ v, opens (λ w, P w ∧ w = v) (k v) Q) → opens P (get ≫= k) Q.
Proof.
  intros Hk w Hw HP. rewrite (bind_Ret get k w w w) by done. by apply (Hk w).
Qed.

Lemma opens_calls {A} (P : world N → Prop) (m : M (world N) A) Q :
  (∀ w, typed w → P w → calls w (m w).1 ∧ sound (m w).2) →
  (∀ w w' x, typed w → P w → calls w w' → m w = (w', Ret x) → Q x w') → opens P m Q.
Proof.
  intros Hm HQ w Hw HP. destruct (Hm w Hw HP) as [D1 D2].
  split_and!; [by eapply calls_typed|by apply calls_extends|].
  destruct (m w) as [w1 [x|f]] eqn:Em; simpl in *; [|done].
  by apply (HQ w w1).
Qed.

(** Code that leaves a property of the classes and of [ch_info] alone. *)
Lemma opens_stable {A} (P : world N → Prop) (m : M (world N) A) :
  stable calls m → (∀ w w', P w → calls w w' → P w') → opens P m (λ _, P).
Proof.
  intros Hm HP. apply opens_calls; [intros w _ _; apply Hm|].
  intros w w' x _ Hw Hc _. by apply (HP w).
Qed.

Lemma opens_weaken {A} P P' (m : M (world N) A) Q Q' :
  opens P m Q → (∀ w, P' w → P w) → (∀ x w, Q x w → Q' x w) → opens P' m Q'.
Proof.
  intros Hm HP HQ w Hw Hw'. destruct (Hm w Hw (HP w Hw')) as (D1 & D2 & D3).
  split_and!; [done..|]. destruct (m w).2; [by apply HQ|done].
Qed.

(** A channel that is not registered yet. *)
Definition fresh_channel (a : Z) w : Prop :=
  is_Some (class_at w a) ∧ a ∉ ch_info w.
Definition handle (a : Z) w : Prop := is_Some (class_at w a).

Lemma handle_calls a w w' : handle a w → calls w w' → handle a w'.
Proof. intros Hh Hc. by eapply calls_handle. Qed.
Lemma fresh_calls a w w' : fresh_channel a w → calls w w' → fresh_channel a w'.
Proof.
  intros [Hh Hn] Hc. split; [by eapply calls_handle|]. by destruct Hc as [-> _ _ _].
Qed.

Lemma opens_new o :
  opens (λ w, ∃ t, tags_at w (next_addr w) o = Some t ∧ fits (class_of o) t)
    (new_object o) fresh_channel.
Proof.
  intros w Hw (t & Ht & Hfit). unfold new_object. monad_simpl.
  assert (∀ a o', objs w !! a = Some o' → a ≠ next_addr w) as Hne.
  { intros a o' Ho ->. destruct (ty_objs w Hw _ _ Ho). lia. }
  split_and!.
  - split; simpl.
    + intros a o' Ho. destruct (decide (a = next_addr w)) as [->|Hd].
      * rewrite lookup_insert_eq in Ho. injection Ho as <-. split; simpl; [lia|].
        exists t. split; [|done]. by destruct o.
      * rewrite lookup_insert_ne in Ho by done.
        destruct (ty_objs w Hw a o' Ho) as (Hlt & t' & Ht' & Hf').
        split; simpl; [lia|]. exists t'. split; [|done]. by destruct o'.
    + apply (ty_nodup w Hw).
    + intros a Ha. destruct (ty_info w Hw a Ha) as [o' Ho].
      rewrite lookup_insert_ne by (by intros <-; eapply Hne). by exists o'.
  - split; [exists []; by rewrite app_nil_r|]. intros a k Ha.
    apply class_at_some in Ha as (o' & Ho & <-). unfold class_at. simpl.
    rewrite lookup_insert_ne by (by intros <-; eapply Hne). by rewrite Ho.
  - split; unfold class_at; simpl.
    + by rewrite lookup_insert_eq.
    + intros Ha. destruct (ty_info w Hw _ Ha) as [o' Ho]. by eapply Hne.
Qed.

(** A closure of a plain class with the right tags. *)
Lemma opens_plain {E} (inj : closure E → object) `{!Plain (N:=N) inj} c P :
  fits (class_of (inj c)) (tags c) → opens P (new_object (inj c)) fresh_channel.
Proof.
  intros Hf. eapply opens_weaken; [apply opens_new| |done].
  intros w _. exists (tags c). by rewrite plain_tags.
Qed.

Lemma opens_defect f msg P :
  opens P (new_defect f msg) (λ a w, handle a w).
Proof.
  eapply opens_weaken; [apply (opens_plain DefectObj)|done|by intros ? ? []].
  by split; [right|].
Qed.

(** *** The constructors give closures that fit their class *)
Lemma init_median_fits f s s' c :
  initMedianHandler f s = (s', Ret c) → fits CMedian (tags c).
Proof.
  unfold initMedianHandler. destruct (aligned_alloc _) as [b|].
  - intros [= _ <-]. by split; [right|].
  - intros E. apply bind_Ret_inv in E as (s1 & [] & _ & [= _ <-]).
    by split; [left|].
Qed.

Lemma init_pc_fits f s s' c :
  initPeriodicCounterHandler f s = (s', Ret c) → fits CPC (tags c).
Proof.
  unfold initPeriodicCounterHandler. intros E.
  apply bind_Ret_inv in E as (s1 & ts & _ & [= _ <-]). by split; [right|].
Qed.

Lemma init_fox_start_fits msg nr h par f x x' c r :
  initFoxStartHandler msg nr h par f x = (x', Ret (c, r)) →
  match c with inl c => fits CFoxStart (tags c) | inr c => fits CDefect (tags c) end.
Proof.
  unfold initFoxStartHandler. intros E.
  apply bind_Ret_inv in E as (x1 & [z q] & _ & E).
  destruct (start_par _ _); [|done].
  apply bind_Ret_inv in E as (x2 & res & _ & E). destruct (negb _).
  - apply bind_Ret_inv in E as (x3 & u & _ & E). injection E as _ <- <-.
    by split; [right|].
  - destruct (_ <? 0).
    + by apply bind_Ret_inv in E as (x3 & u & _ & E).
    + injection E as _ <- <-. by split; [right|].
Qed.

Lemma init_fox_end_fits msg nr h par f x x' c r :
  initFoxEndHandler msg nr h par f x = (x', Ret (c, r)) →
  match c with inl c => fits CFoxEnd (tags c) | inr c => fits CDefect (tags c) end.
Proof.
  unfold initFoxEndHandler. intros E.
  apply bind_Ret_inv in E as (x1 & u & _ & E).
  apply bind_Ret_inv in E as (x2 & res & _ & E). destruct (negb _).
  - apply bind_Ret_inv in E as (x3 & u' & _ & E). injection E as _ <- <-.
    by split; [right|].
  - injection E as _ <- <-. by split; [right|].
Qed.

Lemma init_id_fits f : fits CId (tags (initIdentityHandler f)).
Proof. by destruct f; split; simpl; auto. Qed.

(** A buffered channel's closure is put at its address; the others fade. *)
Definition but_le (a : Z) (x y : bst) : Prop := ∀ b c,
  b ≠ a → chans x !! b = Some c → ∃ c', chans y !! b = Some c' ∧ tag_le c c'.

#[local] Instance but_le_po a : PreOrder (but_le a).
Proof.
  split.
  - intros x b c _ Hc. by exists c.
  - intros x y z Hxy Hyz b c Hb Hc. destruct (Hxy b c Hb Hc) as (c1 & Hc1 & L1).
    destruct (Hyz b c1 Hb Hc1) as (c2 & Hc2 & L2). exists c2. split; [done|by etrans].
Qed.

Lemma stable_but {A} a (m : M bst A) : stable bst_le m → stable (but_le a) m.
Proof. intros Hm s. destruct (Hm s) as [D1 D2]. split; [|done]. intros b c _. apply D1. Qed.

Lemma stable_log_times n line msg : stable bst_le (log_times n line msg).
Proof. induction n as [|n IH]; simpl; stable. Qed.
#[local] Hint Resolve stable_log_times : stable.

Lemma init_buffer_stable a f comp :
  stable (but_le a) (initBufferIdentityHandler a f comp).
Proof.
  unfold initBufferIdentityHandler. cbv zeta.
  do 3 (apply stable_bind; [apply _|apply stable_but; stable|intros _]).
  apply stable_bind; [apply _|apply stable_but; stable|intros s].
  apply stable_bind; [apply _|apply stable_but; stable|intros _].
  apply stable_bind; [apply _| |intros _; apply stable_but; stable].
  apply stable_modify. intros x b c Hb Hc. exists c. split; [|done].
  simpl. by rewrite lookup_insert_ne.
Qed.

Lemma init_buffer_fits a f comp s s' :
  initBufferIdentityHandler a f comp s = (s', Ret tt) →
  ∃ c, chans s' !! a = Some c ∧ fits CBuffer (tags c).
Proof.
  unfold initBufferIdentityHandler. cbv zeta. intros E.
  apply bind_Ret_inv in E as (s1 & [] & _ & E).
  apply bind_Ret_inv in E as (s2 & [] & _ & E).
  apply bind_Ret_inv in E as (s3 & [] & _ & E).
  apply bind_Ret_inv in E as (s4 & v & _ & E).
  apply bind_Ret_inv in E as (s5 & [] & _ & E).
  apply bind_Ret_inv in E as (s6 & [] & E6 & E).
  match type of E6 with
  | modify (λ s, set_chans (<[a := ?c]> _) s) _ = _ => set (c0 := c) in E6
  end.
  assert (fits CBuffer (tags c0)) as Hf.
  { unfold c0. destruct f; simpl; split; simpl; auto. }
  injection E6 as <-.
  destruct (stable_on_closure a refill stable_refill
              (set_chans (<[a:=c0]> (chans s5)) s5)) as [Hle _].
  rewrite E in Hle. destruct (Hle a c0) as (c' & Hc' & Ht).
  { simpl. by rewrite lookup_insert_eq. }
  exists c'. split; [done|]. eapply fits_fades; [exact Hf|]. exact Ht.
Qed.

(** *** The switch of openChannel *)
Lemma fresh_address w a : typed w → is_Some (objs w !! a) → a ≠ next_addr w.
Proof. intros Hw [o Ho] ->. destruct (ty_objs w Hw _ _ Ho). lia. Qed.

Lemma world_bst_init w f comp :
  typed w →
  let m := world_bst (N:=N) (initBufferIdentityHandler (next_addr w) f comp) in
  calls w (m w).1 ∧ sound (m w).2.
Proof.
  intros Hw m. unfold m, world_bst, zoom.
  destruct (init_buffer_stable (next_addr w) f comp
              (set_bsys (w_sys w) (w_bst w))) as [D1 D2].
  destruct (initBufferIdentityHandler _ _ _ _) as [s' r]. simpl in *.
  split; [|done]. apply calls_same; simpl; [done..| |by apply map_le_on].
  intros a c Ha Hc. apply D1; [by apply fresh_address|done].
Qed.

Definition made_post (x : (Z * conf_result) + Z) w : Prop :=
  match x with inl (a, _) => fresh_channel a w | inr d => handle d w end.

Lemma opens_made o r P :
  opens P (new_object (N:=N) o) fresh_channel →
  opens P (a ← new_object o; mret (inl (a, r))) made_post.
Proof.
  intros Hn. eapply opens_bind; [exact Hn|]. intros a. by apply opens_ret.
Qed.

Lemma opens_init {E} (inj : closure E → object) `{!Plain (N:=N) inj}
    (m : M sys (closure E)) r :
  stable any m →
  (∀ s s' c, m s = (s', Ret c) → fits (class_of (inj c)) (tags c)) →
  opens (λ _, True) (c ← world_sys m; a ← new_object (inj c); mret (inl (a, r)))
    made_post.
Proof.
  intros Hm Hf.
  apply (opens_bind _ _ (λ c _, fits (class_of (inj c)) (tags c))).
  - apply opens_calls; [intros w _ _; by apply stable_world_sys|].
    intros w w' c _ _ _ Er. unfold world_sys, zoom in Er.
    destruct (m (w_sys w)) as [s' r'] eqn:Em. injection Er as _ ->. by eapply Hf.
  - intros c w Hw HP. by apply (opens_made _ _ (λ _, True)); [apply opens_plain|..].
Qed.

Lemma opens_refused f line msg name :
  opens (λ _, True)
    (_ ← new_object (NullObj (initNullHandler f));
     world_sys (logFail ch_file line msg) ;;
     d ← new_defect f name; mret (inr d)) made_post.
Proof.
  eapply opens_bind;
    [apply (opens_plain NullObj _ (λ _, True)); split; simpl; auto|]. intros a.
  eapply opens_bind.
  { eapply opens_stable; [apply stable_world_sys; stable|by intros; eapply fresh_calls]. }
  intros []. eapply opens_bind; [apply opens_defect|]. intros d. by apply opens_ret.
Qed.

Lemma opens_fox {E} (inj : closure E → object) `{!Plain (N:=N) inj}
    (m : M (N * sys) ((closure E + closure defect_ext) * conf_result)) :
  stable any m →
  (∀ x x' c r, m x = (x', Ret (c, r)) → match c with
     | inl c => fits (class_of (inj c)) (tags c)
     | inr c => fits CDefect (tags c) end) →
  opens (λ _, True) ('(c, r) ← world_net m;
     a ← new_object match c with inl c => inj c | inr c => DefectObj c end;
     mret (inl (a, r))) made_post.
Proof.
  intros Hm Hf.
  apply (opens_bind _ _ (λ cr _, match cr.1 with
     | inl c => fits (class_of (inj c)) (tags c)
     | inr c => fits CDefect (tags c) end)).
  - apply opens_calls; [intros w _ _; by apply stable_world_net|].
    intros w w' [c r] _ _ _ Er. unfold world_net, zoom in Er.
    destruct (m (w_net w, w_sys w)) as [x' r'] eqn:Em. injection Er as _ ->.
    by eapply Hf.
  - intros [c r] w Hw HP.
    destruct c as [c|c]; by apply (opens_made _ _ (λ _, True)); [apply opens_plain|..].
Qed.

Lemma opens_make name nr r :
  opens (λ _, True) (make_channel name nr r) made_post.
Proof.
  assert (∀ comp, opens (λ _, True) (w ← get;
     world_bst (initBufferIdentityHandler (next_addr w) (cr_format r) comp) ;;
     a ← new_object BufferObj; mret (inl (a, r))) made_post) as Hbuf.
  { intros comp. apply opens_get. intros v. eapply opens_bind;
      [apply (opens_calls _ _ (λ _ w, ∃ t, tags_at w (next_addr w) BufferObj = Some t
                ∧ fits CBuffer t))|intros []; apply opens_made, opens_new].
    - intros w Hw [_ <-]. by apply world_bst_init.
    - intros w w' [] Hw [_ <-] Hc E. unfold world_bst, zoom in E.
      destruct (initBufferIdentityHandler _ _ _ _) as [s' r'] eqn:Es.
      injection E as <- ->. apply init_buffer_fits in Es as (c & Es & Hf).
      exists (tags c). split; [|done]. simpl. by rewrite Es. }
  unfold make_channel. cbv zeta.
  destruct (cr_h r);
    lazymatch goal with
    | |- opens _ (new_object _ ≫= λ _, world_sys _ ≫= _) _ => apply opens_refused
    | |- opens _ (get ≫= λ _, world_bst _ ≫= _) _ => apply Hbuf
    | |- opens _ (new_object (?f _) ≫= _) _ =>
        apply opens_made, (opens_plain f);
          first [apply init_id_fits | split; simpl; auto]
    | _ => idtac
    end.
  - apply (opens_init MedianObj); [|apply init_median_fits].
    unfold initMedianHandler, median_fail. stable.
  - apply (opens_init PCObj); [|apply init_pc_fits].
    unfold initPeriodicCounterHandler. stable.
  - apply opens_get. intros v. eapply opens_bind;
      [apply (opens_calls _ _ (λ _ w, ∃ t, tags_at w (next_addr w) FPCObj = Some t
                ∧ fits CFPC t))|intros []; apply opens_made, opens_new].
    + intros w Hw [_ <-]. split; [|done]. apply calls_same; simpl; [done..| |].
      { by apply map_le_on. }
      intros a c Ha Hc. exists c. split; [|done].
      by rewrite lookup_insert_ne by (intros <-; by eapply fresh_address).
    + intros w w' [] Hw [_ <-] Hc [= <-]. simpl. rewrite lookup_insert_eq.
      eexists. split; [done|]. by split; [right|].
  - apply (opens_fox FoxStartObj); [stable|apply init_fox_start_fits].
  - apply (opens_fox FoxEndObj); [stable|apply init_fox_end_fits].
Qed.

(** *** openChannel *)
Context (stale_words : list Z).

Lemma opens_register a :
  opens (fresh_channel a) (register_channel a) (λ _, handle a).
Proof.
  intros w Hw [Ha Hn]. unfold register_channel, when.
  set (w1 := if bool_decide (ch_info w = []) then set_cleanup_registered true w else w).
  assert (objs w1 = objs w ∧ ch_info w1 = ch_info w ∧ next_addr w1 = next_addr w
          ∧ w_bst w1 = w_bst w ∧ w_fpw w1 = w_fpw w) as (E1 & E2 & E3 & E4 & E5).
  { unfold w1. by case_bool_decide. }
  rewrite (bind_Ret get _ w w w) by done.
  rewrite (bind_Ret _ _ w w1 tt) by (unfold w1; by case_bool_decide).
  unfold modify. simpl.
  assert (∀ b, class_at (set_ch_info (ch_info w1 ++ [a]) w1) b = class_at w b) as Hc.
  { intros b. unfold class_at. simpl. by rewrite E1. }
  split_and!; [split| |by unfold handle; rewrite Hc].
  - simpl. rewrite E1. intros b o Ho. destruct (ty_objs w Hw b o Ho) as (Hlt & t & Ht & Hf).
    split; simpl; [lia|]. exists t. split; [|done]. rewrite <- Ht.
    by destruct o; simpl; rewrite ?E4, ?E5.
  - simpl. rewrite E2. apply NoDup_app. split_and!; [apply (ty_nodup w Hw)| |].
    + intros b Hb. rewrite list_elem_of_singleton. by intros ->.
    + apply NoDup_singleton.
  - simpl. rewrite E1, E2. intros b. rewrite elem_of_app, list_elem_of_singleton.
    intros [Hb| ->]; [by apply (ty_info w Hw)|]. unfold class_at in Ha.
    by rewrite fmap_is_Some in Ha.
  - split; [exists [a]; simpl; by rewrite E2|]. intros b k. by rewrite Hc.
Qed.

Lemma opens_call {A} a (m : M (world N) A) :
  typed_call a m → opens (handle a) m (λ _, handle a).
Proof.
  intros Hm. apply opens_calls; [intros w Hw Ha; by apply Hm|].
  intros w w' x _ Ha Hc _. by eapply handle_calls.
Qed.

Lemma opens_fail_line f msg line what P :
  opens P (world_sys (logFail ch_file line what) ;; new_defect f msg) handle.
Proof.
  eapply (opens_bind _ _ (λ _ _, True)); [|intros []; apply opens_defect].
  apply opens_calls; [|done]. intros w _ _. apply stable_world_sys. stable.
Qed.

Lemma opens_forward a msg nr r :
  opens (handle a) (forward_parameters others a msg nr r) handle.
Proof using Hothers.
  unfold forward_parameters. cbv zeta.
  destruct (0 <? _); [|by apply opens_ret].
  apply (opens_bind _ _ (λ p w, ∃ k, class_at w a = Some k
           ∧ match p with None => True | Some g => parm_class g = k end)).
  { apply opens_calls; [intros w _ Ha; by apply at_field|].
    intros w w' p Hw [k Ha] Hc E.
    destruct (field_tags (λ _, parm_handler_f) snd a w k)
      as (w1 & t & E1 & _ & Hf); [done..|].
    rewrite E1 in E. injection E as <- <-. exists k. split; [|by apply Hf].
    by destruct Hc as [_ _ -> _]. }
  intros [fn|]; [|apply opens_fail_line].
  apply (opens_bind _ _ (λ _, handle a)).
  - apply opens_calls.
    + intros w _ (k & Ha & Hk). apply call_parm_calls. by rewrite Ha, Hk.
    + intros w w' x _ (k & Ha & _) Hc _. eapply handle_calls; [|done]. by exists k.
  - intros retv. destruct (retv =? -1); [apply opens_fail_line|by apply opens_ret].
Qed.

Lemma opens_with msg nr h r :
  opens (λ _, True) (open_with others msg nr h r) handle.
Proof using Hothers.
  unfold open_with. apply opens_get. intros v.
  eapply (opens_bind _ _ (λ _ _, True)).
  { apply opens_calls; [|done]. intros w _ _.
    destruct (negb (oversubs_chk v)); simpl; (split; [|done]);
      apply calls_same; simpl; try done; by apply map_le_on. }
  intros []. eapply opens_bind; [apply opens_make|].
  intros [[a r']|d]; [|by apply opens_ret].
  eapply opens_bind; [apply opens_register|intros []].
  eapply opens_bind.
  { apply opens_call, typed_at, at_base. intros E. stable. }
  intros []. eapply opens_bind; [apply opens_call, typed_at, at_open|].
  intros ok. destruct (negb ok); [apply opens_defect|].
  case_bool_decide; [apply opens_forward|by apply opens_ret].
Qed.

Lemma opens_openChannel msg f h :
  opens (λ _, True) (openChannel others stale_words msg f h) handle.
Proof using Hothers.
  unfold openChannel. apply opens_get. intros v.
  eapply (opens_bind _ _ (λ _ _, True)).
  { apply opens_calls; [|done]. intros w _ _.
    destruct (next_channel v =? 0); [apply stable_world_sys; stable|by split]. }
  intros []. cbv zeta. eapply (opens_bind _ _ (λ _ _, True)).
  { apply opens_calls; [|done]. intros w _ _. split; [|done].
    apply calls_same; simpl; try done; by apply map_le_on. }
  intros []. eapply (opens_bind _ _ (λ _ _, True)).
  { apply opens_calls; [|done]. intros w _ _. unfold net_lookup. cbv zeta.
    case_bool_decide; [apply stable_world_net; stable|by split]. }
  intros r. destruct (negb (cr_ret r)); [apply opens_fail_line|apply opens_with].
Qed.
End Calls.

(** ** Runs of the program *)
Section Runs.
Context `{Env} `{Libm} `{Qsort} `{Sizes} `{Squash} {N : Type} `{ConfNet N} `{FoxOs}.
Implicit Types w : world N.

(** A schedule of the sampling threads, and one of the IO thread ([true]) and
    the compression threads. *)
Fixpoint sampling (l : list Z) : M fpw unit :=
  match l with
  | [] => mret tt
  | p :: l => thr_step p ;; sampling l
  end.

Fixpoint writing (l : list bool) : M bst unit :=
  match l with
  | [] => mret tt
  | b :: l => _ ← (if b then io_round else comp_round); writing l
  end.

Lemma stable_sampling l : stable fpw_le (sampling l).
Proof. induction l as [|p l IH]; simpl; stable. Qed.
Lemma stable_writing l : stable bst_le (writing l).
Proof. induction l as [|[] l IH]; simpl; stable. Qed.

(** The calls of the interface, each with what the other threads do while it
    waits, and the steps of those threads. *)
Inductive call :=
  | COpen (name : string) (f : log_format) (h : handler_type)
      (stale : list Z) (l : list Z)
  | CIsOpen (a : Z)
  | CClose (a : Z) (l : list Z)
  | CParm (a n v : Z) (l : list Z)
  | CParmStr (a n : Z) (v : string) (l : list Z)
  | CLog (a tuple : Z) (l : list Z)
  | CNormalExit (l : list Z) (io : list bool)
  | CAbnormalExit (l : list Z)
  | CSampling (p : Z)
  | CWriting (io : bool).

(** The handle a call returns, if it opens a channel. *)
Definition perform (c : call) : M (world N) (option Z) :=
  let unit (m : M (world N) unit) := m ;; mret None in
  let no_result := ConvResult 0 0 "" in
  match c with
  | COpen name f h stale l =>
      a ← openChannel (sampling l) stale name f h; mret (Some a)
  | CIsOpen a => _ ← isOpen a; mret None
  | CClose a l => unit (closeChannel (sampling l) a)
  | CParm a n v l => _ ← parameterizeChannel (sampling l) a n (Num v); mret None
  | CParmStr a n v l =>
      _ ← parameterizeChannel_str (sampling l) a n v no_result; mret None
  | CLog a tuple l => unit (logTS (sampling l) a tuple)
  | CNormalExit l io => unit (cleanUpAtNormalExit (sampling l) (writing io))
  | CAbnormalExit l => unit (cleanUpAtAbnormalExit (sampling l))
  | CSampling p => unit (world_fpw (thr_step p))
  | CWriting io => unit (world_bst (writing [io]))
  end.

Definition handle_of (c : call) : option Z :=
  match c with
  | CIsOpen a | CClose a _ | CParm a _ _ _ | CParmStr a _ _ _ | CLog a _ _ => Some a
  | _ => None
  end.

(** A client uses the handles it was given. *)
Definition well_used (c : call) w : Prop :=
  ∀ a, handle_of c = Some a → is_Some (objs w !! a).

(** The worlds a run comes through, whatever the outcomes of the calls. *)
Inductive reaches : world N → Prop :=
  | reaches_init n s : reaches (world_init n s)
  | reaches_call w c : reaches w → well_used c w → reaches (perform c w).1.

Definition returned (x : option Z) w : Prop :=
  match x with Some a => is_Some (objs w !! a) | None => True end.

Lemma stable_set_stop x : stable (@calls N) (modify (set_stop_oversubs_chk x)).
Proof. intros w. split; [|done]. by apply calls_same; simpl; try apply map_le_on. Qed.
Lemma stable_set_quick x : stable (@calls N) (modify (set_quick_term x)).
Proof. intros w. split; [|done]. by apply calls_same; simpl; try apply map_le_on. Qed.

Lemma opens_unit {A} P (m : M (world N) A) :
  (∀ w, typed w → P w → calls w (m w).1 ∧ sound (m w).2) →
  opens P (m ≫= λ _, mret None) returned.
Proof.
  intros Hm. eapply (opens_bind _ _ (λ _ _, True)); [by apply opens_calls|].
  intros x. by apply opens_ret.
Qed.

Lemma opens_closeAll l P :
  opens P (closeAllChannels (N:=N) (sampling l)) (λ _ _, True).
Proof.
  apply opens_calls; [|done]. intros w Hw _.
  apply typed_closeAll; [apply stable_sampling|done].
Qed.

Lemma opens_exits l io c :
  c = CNormalExit l io ∨ c = CAbnormalExit l →
  opens (λ _, True) (perform c) returned.
Proof.
  intros Hc. assert (∀ m : M (world N) unit, stable calls m →
    opens (λ _, True) m (λ _ _, True)) as Hs.
  { intros m Hm. apply opens_calls; [|done]. intros w _ _. apply Hm. }
  destruct Hc as [-> | ->]; simpl;
    (eapply (opens_bind _ _ (λ _ _, True)); [|by intros []; apply opens_ret]).
  - eapply opens_bind; [apply Hs, stable_set_stop|intros []].
    eapply opens_bind; [apply opens_closeAll|intros []].
    apply opens_get. intros v. eapply opens_weaken; [apply Hs|done|done].
    unfold when. destruct (io_thread_created _); [|apply stable_ret, _].
    apply stable_world_bst. pose proof (stable_writing io). stable.
  - eapply opens_bind; [apply Hs, stable_set_stop|intros []].
    apply opens_get. intros v. destruct (_ || _).
    + eapply opens_bind; [|intros []; apply opens_closeAll].
      eapply opens_weaken; [apply Hs, stable_set_quick|done|done].
    + eapply opens_bind; [apply opens_closeAll|intros []]. apply Hs.
      apply stable_raise; [apply _|done].
Qed.

Lemma opens_perform c : opens (well_used c) (perform c) returned.
Proof.
  assert (∀ w a, is_Some (objs w !! a) → is_Some (class_at w a)) as Hh.
  { intros w a Ha. unfold class_at. by rewrite fmap_is_Some. }
  assert (∀ A (m : M (world N) A) a, typed_call a m → handle_of c = Some a →
    opens (well_used c) (m ≫= λ _, mret None) returned) as Hcall.
  { intros A m a Hm Ha. apply opens_unit. intros w Hw Hu. apply Hm; [done|].
    by apply Hh, Hu. }
  pose proof stable_sampling as Hs.
  destruct c as [name f h st l|a|a l|a n v l|a n v l|a t l|l io|l|p|io]; simpl.
  - eapply opens_bind.
    { eapply opens_weaken; [by apply opens_openChannel|done|done]. }
    intros a. apply opens_ret. intros w Ha. unfold handle, class_at in Ha.
    by rewrite fmap_is_Some in Ha.
  - by eapply Hcall; [apply typed_isOpen|].
  - by eapply Hcall; [by apply typed_at, at_close|].
  - by eapply Hcall; [by apply typed_parm|].
  - by eapply Hcall; [by apply typed_parm_str|].
  - by eapply Hcall; [by apply typed_logTS|].
  - eapply opens_weaken; [apply (opens_exits l io (CNormalExit l io)); by left|done|done].
  - eapply opens_weaken; [apply (opens_exits l [] (CAbnormalExit l)); by right|done|done].
  - apply opens_unit. intros w _ _. apply stable_world_fpw. stable.
  - apply opens_unit. intros w _ _. apply stable_world_bst, (stable_writing [io]).
Qed.

Lemma reaches_typed w : reaches w → typed w.
Proof.
  induction 1 as [n s|w c _ IH Hu]; [|by apply (opens_perform c w IH Hu)].
  split; [done|apply NoDup_nil_2|by intros ? ?%elem_of_nil].
Qed.

(** C2. The channels are used as what they are. In every world a run comes
    through - any calls on handles the library returned, with the sampling, IO
    and compression threads in between and while a call waits - the function
    pointers of every channel are functions of its class or the null handler,
    and only an identity channel may have none. The next call keeps that, does
    not call a function of another class nor follow a handle that is none, and
    a handle it returns is one. *)
Theorem calls_keep_types w c :
  reaches w → well_used c w →
  (∀ a o, objs w !! a = Some o →
     ∃ t, tags_at w a o = Some t ∧ fits (class_of o) t)
  ∧ reaches (perform c w).1
  ∧ (perform c w).2 ≠ Fault (FUndefined "closure of another type")
  ∧ (perform c w).2 ≠ Fault (FUndefined "not a channel")
  ∧ (∀ a, (perform c w).2 = Ret (Some a) → is_Some (objs (perform c w).1 !! a))
  ∧ (∀ a k, class_at w a = Some k → class_at (perform c w).1 a = Some k).
Proof.
  intros Hr Hu. pose proof (reaches_typed w Hr) as Hw.
  destruct (opens_perform c w Hw Hu) as (Hw' & [_ Hk] & Ho).
  split_and!; [|by constructor| | | |exact Hk].
  - intros a o Hoa. by destruct (ty_objs w Hw a o Hoa).
  - intros E. by rewrite E in Ho.
  - intros E. by rewrite E in Ho.
  - intros a E. by rewrite E in Ho.
Qed.
End Runs.

(** ** A run: a down-sampled channel is opened, and a tuple logged to it *)
Section Demo.
#[local] Existing Instances demo_env demo_libm demo_qsort demo_squash demo_fox_os.

Definition silent_net : ConfNet unit := {|
  ask := λ _ _ n, (n, None); stale_par := [0; 0; 0; 0; 0; 0; 0] |}.
#[local] Existing Instance silent_net.

Definition demo_start : world unit := world_init tt (sys_init true).
Definition demo_opened : world unit :=
  (perform (COpen "demo" ASCII DOWNSAMPLE [] []) demo_start).1.

Lemma calls_keep_types_witness :
  reaches demo_opened ∧ well_used (CLog 1 5 []) demo_opened
  ∧ (perform (CLog 1 5 []) demo_opened).2
    ≠ Fault (FUndefined "closure of another type").
Proof.
  assert (reaches demo_opened) as Hr.
  { apply reaches_call; [apply reaches_init|]. intros a Ha. done. }
  assert (well_used (CLog 1 5 []) demo_opened) as Hu.
  { intros a [= <-]. by_decide. }
  split_and!; [exact Hr|exact Hu|].
  apply (calls_keep_types demo_opened (CLog 1 5 []) Hr Hu).
Defined.
End Demo.
