(* ===== verification/ChannelsOpen.v ===== *)
(** * Opening and closing channels

    What openChannel does for every handler that needs neither the network nor
    a thread, what a closed channel still does, and the way from a table row
    of the configuration server to the lines of a log file. *)
From S2P Require Import Prelude Util TimeStamp Platform Log Formats Closure.
From S2P Require Import NullDefect Downsample XoY FirstLast Median Identity.
From S2P Require Import PeriodicCounter IoThread NetConf ConfTables.
From S2P Require Import ConfigServer NetClient Fox FastPeriodicCounter.
From S2P Require Import Stable Channels ChannelsTyped.

(** ** The address of the machine does not change *)
Section OwnIp.
Context `{Env}.

(** What getIPDottedQuad finds, now and at every later call. *)
Definition own_ip (s : sys) : option string :=
  match IP s with
  | Some ip => Some ip
  | None => match getifaddrs with Some l => first_quad l | None => None end
  end.

Definition same_ip (s s' : sys) : Prop := own_ip s' = own_ip s.
#[local] Instance same_ip_po : PreOrder same_ip.
Proof. split; [done|]. intros x y z. unfold same_ip. congruence. Qed.

Lemma getIP_own s :
  (getIPDottedQuad s).2
  = Ret match own_ip s with Some ip => (0, ip) | None => (-1, "0.0.0.0") end
  ∧ same_ip s (getIPDottedQuad s).1.
Proof.
  unfold getIPDottedQuad, own_ip, same_ip, own_ip. monad_simpl.
  destruct (IP s) as [ip|] eqn:Ei; [by simpl; rewrite Ei|].
  destruct getifaddrs as [l|]; [|by simpl; rewrite Ei].
  destruct (first_quad l); simpl; [done|by rewrite Ei].
Qed.

Lemma ip_getIP : stable same_ip getIPDottedQuad.
Proof. intros s. destruct (getIP_own s) as [E1 E2]. by rewrite E1. Qed.
#[local] Hint Resolve ip_getIP : stable.
Lemma ip_clock : stable same_ip clock_gettime_tsc.
Proof. unfold clock_gettime_tsc. stable. Qed.
Lemma ip_openStatusLogFile : stable same_ip openStatusLogFile.
Proof. unfold openStatusLogFile. stable. Qed.
#[local] Hint Resolve ip_clock ip_openStatusLogFile : stable.
Lemma ip_log_line m : stable same_ip (log_line m).
Proof. unfold log_line. stable. Qed.
Lemma ip_logFail f l m : stable same_ip (logFail f l m).
Proof. apply ip_log_line. Qed.
Lemma ip_logStatus f l m : stable same_ip (logStatus f l m).
Proof. apply ip_log_line. Qed.
#[local] Hint Resolve ip_logFail ip_logStatus : stable.
Lemma ip_initMedian f : stable same_ip (initMedianHandler f).
Proof. unfold initMedianHandler, median_fail. stable. Qed.
Lemma ip_initPC f : stable same_ip (initPeriodicCounterHandler f).
Proof. unfold initPeriodicCounterHandler. stable. Qed.
End OwnIp.

(** ** The part all channels have *)

(** A closure without its derived fields. *)
Definition base {E} (c : closure E) : closure unit :=
  Closure (handler_f c) (write_handler_f c) (parm_handler_f c) (ch_nr c)
    (ch_logf c) (ch_logf_name c) (isCloseCalled c) (format c) tt.

Definition base_of {N} (w : world N) (a : Z) (o : object) : option (closure unit) :=
  match o with
  | NullObj c | FoxStartObj c => Some c
  | IdObj c => Some (base c) | DownsampleObj c => Some (base c)
  | XoYObj c => Some (base c) | FirstlastObj c => Some (base c)
  | MedianObj c => Some (base c) | PCObj c => Some (base c)
  | DefectObj c => Some (base c) | FoxEndObj c => Some (base c)
  | BufferObj => base <$> chans (w_bst w) !! a
  | FPCObj => base <$> fpcs (w_fpw w) !! a
  end.

Definition base_at {N} (w : world N) (a : Z) : option (closure unit) :=
  objs w !! a ≫= base_of w a.

(** The class of the channel each plain handler type gives. *)
Definition plain_type (h : handler_type) : option class :=
  match h with
  | IDENTITY => Some CId | MEDIAN => Some CMedian | DOWNSAMPLE => Some CDownsample
  | XOY => Some CXoY | FIRSTLAST => Some CFirstlast
  | PERIODICCOUNTER => Some CPC | NULLH => Some CNull
  | _ => None
  end.

(** What stays the same when a channel is opened. *)
Record quiet {N} (w w' : world N) : Prop := Quiet {
  q_fpw : w_fpw w' = w_fpw w;
  q_bst : w_bst w' = w_bst w;
  q_net : w_net w' = w_net w
}.
#[global] Instance quiet_po {N} : PreOrder (@quiet N).
Proof. split; [done|]. intros x y z [] []. split; congruence. Qed.

Section Opening.
Context `{Env} `{Libm} `{Qsort} `{Sizes} `{Squash} {N : Type} `{ConfNet N} `{FoxOs}.
Context (others : M fpw unit) (stale_words : list Z).
Implicit Types w : world N.

(** A class whose virtual openChannel is that of the base class. *)
Class Simple {E} (inj : closure E → object) := {
  simple_plain :: Plain (N:=N) inj;
  simple_base : ∀ w a c, base_of w a (inj c) = Some (base c);
  simple_on_base : ∀ A a c (m : ∀ E, CM E A) w, objs w !! a = Some (inj c) →
    on_base a m w = world_obj inj a c (m E) w;
  simple_open : ∀ a c nr msg f w, objs w !! a = Some (inj c) →
    virtual_openChannel others a nr msg f w
    = on_base a (λ _, closure_openChannel nr msg f) w
}.

Lemma deref_run {A} a o (k : object → M (world N) A) w :
  objs w !! a = Some o → (deref a ≫= k) w = k o w.
Proof. intros Ho. apply bind_Ret. unfold deref. monad_simpl. by rewrite Ho. Qed.

Ltac simple :=
  split; [apply _|by intros ? ? [? ? ? ? ? ? ? ? []]| |];
  intros; [unfold on_base|unfold virtual_openChannel];
  match goal with
  | Ho : objs _ !! _ = Some _ |- _ => by rewrite (deref_run _ _ _ _ Ho)
  end.

#[global] Instance simple_null : Simple NullObj. Proof. simple. Qed.
#[global] Instance simple_id : Simple IdObj. Proof. simple. Qed.
#[global] Instance simple_down : Simple DownsampleObj. Proof. simple. Qed.
#[global] Instance simple_xoy : Simple XoYObj. Proof. simple. Qed.
#[global] Instance simple_fl : Simple FirstlastObj. Proof. simple. Qed.
#[global] Instance simple_med : Simple MedianObj. Proof. simple. Qed.
#[global] Instance simple_pc : Simple PCObj. Proof. simple. Qed.
#[global] Instance simple_fs : Simple FoxStartObj. Proof. simple. Qed.
#[global] Instance simple_fe : Simple FoxEndObj. Proof. simple. Qed.

Definition with_new (o : object) (s : sys) w : world N :=
  set_next_addr (next_addr w + 1)
    (set_objs (<[next_addr w := o]> (objs w)) (set_wsys s w)).

(** A fresh closure: no function but those of its class, no file. *)
Record unopened {E} (k : class) (c : closure E) : Prop := Unopened {
  un_logf : ch_logf c = ofs_new;
  un_close : isCloseCalled c = false;
  un_fits : fits k (tags c)
}.

(** The switch makes the object [o], in any world with system state [y]. *)
Definition makes name nr r (y : sys) (o : object) (s : sys) : Prop := ∀ w,
  w_sys w = y →
  make_channel name nr r w = (with_new o s w, Ret (inl (next_addr w, r))).

Lemma made_new r o w :
  (a ← new_object o; mret (inl (a, r))) w
  = (with_new o (w_sys w) w, Ret (inl (next_addr w, r) : (Z * conf_result) + Z)).
Proof. by destruct w. Qed.

Lemma made_sys {E} (m : M sys (closure E)) (inj : closure E → object) r c s w :
  m (w_sys w) = (s, Ret c) →
  (c ← world_sys m; a ← new_object (inj c); mret (inl (a, r))) w
  = (with_new (inj c) s w, Ret (inl (next_addr w, r) : (Z * conf_result) + Z)).
Proof.
  intros Em. rewrite (bind_Ret _ _ w (set_wsys s w) c)
    by (unfold world_sys, zoom; by rewrite Em).
  by destruct w.
Qed.

Lemma make_plain name nr r k y :
  plain_type (cr_h r) = Some k →
  ∃ E (inj : closure E → object) c s, Simple inj
    ∧ class_of (inj c) = k ∧ unopened k c ∧ makes name nr r y (inj c) s
    ∧ same_ip y s.
Proof.
  intros Hk.
  destruct r as [ret h par f]. simpl in *.
  destruct h; try discriminate Hk; injection Hk as <-;
    unfold make_channel; cbn [cr_h cr_format].
  - exists id_ext, IdObj, (initIdentityHandler f), y.
    split_and!; [apply _|done| |by intros w <-; apply made_new|done]. split; [by destruct f..|].
    apply init_id_fits.
  - destruct (initMedianHandler f y) as [s [c|ft]] eqn:Em.
    + exists median_ext, MedianObj, c, s. pose proof (init_median_fits _ _ _ _ Em).
      split_and!; [apply _|done| | |].
      * split; [| |done]; revert Em; unfold initMedianHandler;
          (destruct (aligned_alloc _);
           [intros [= _ <-]|intros E; apply bind_Ret_inv in E
              as (s1 & [] & _ & [= _ <-])]); done.
      * intros w <-. by apply made_sys.
      * destruct (ip_initMedian f y) as [Hi _]. by rewrite Em in Hi.
    + exfalso. revert Em. unfold initMedianHandler.
      destruct (aligned_alloc _); [done|].
      destruct (logFail_frame "handlers/median_handler.cpp" 56
        "initMedianHandler aligned alloc" y) as (s' & El & _).
      by rewrite (bind_Ret _ _ _ _ _ El).
  - exists downsample_ext, DownsampleObj, (initDownsampleHandler f), y.
    split_and!; [apply _|done| |by intros w <-; apply made_new|done]. by split; [..|split; [right|]].
  - exists XoY_ext, XoYObj, (initXoYHandler f), y.
    split_and!; [apply _|done| |by intros w <-; apply made_new|done]. by split; [..|split; [right|]].
  - exists firstlast_ext, FirstlastObj, (initFirstlastHandler f), y.
    split_and!; [apply _|done| |by intros w <-; apply made_new|done]. by split; [..|split; [right|]].
  - destruct (initPeriodicCounterHandler f y) as [s [c|ft]] eqn:Em.
    + exists pc_ext, PCObj, c, s. pose proof (init_pc_fits _ _ _ _ Em).
      split_and!; [apply _|done| | |].
      * split; [| |done]; revert Em; unfold initPeriodicCounterHandler;
          intros E; apply bind_Ret_inv in E as (s1 & ts & _ & [= _ <-]); done.
      * intros w <-. by apply made_sys.
      * destruct (ip_initPC f y) as [Hi _]. by rewrite Em in Hi.
    + by exfalso.
  - exists unit, NullObj, (initNullHandler f), y.
    split_and!; [apply _|done| |by intros w <-; apply made_new|done]. by split; [..|split; [left|]].
Qed.

Lemma world_obj_run {E A} (inj : closure E → object) a c (m : CM E A) w c' s' x :
  m (c, w_sys w) = ((c', s'), Ret x) →
  world_obj inj a c m w
  = (set_objs (<[a := inj c']> (objs w)) (set_wsys s' w), Ret x).
Proof. intros Em. unfold world_obj. by rewrite Em. Qed.

(** The file a channel is to write, and whether it can be opened. *)
Definition open_file (s : sys) (nr : Z) (f : log_format) (name : string)
    : option string :=
  match own_ip s with
  | Some ip =>
      let path := logf_path ip nr f name in
      if openable f && creatable path then Some path else None
  | None => None
  end.

(** [c] became [c'] as channel [nr]; the file, when it could be opened. *)
Record opened_as {E} (nr : Z) (file : option string) (c c' : closure E) : Prop :=
  OpenedAs {
    oa_nr : ch_nr c' = nr;
    oa_tags : tags c' = tags c;
    oa_write : write_handler_f c' = write_handler_f c;
    oa_ext : ext c' = ext c;
    oa_close : isCloseCalled c' = isCloseCalled c;
    oa_file : match file with
              | Some path => ch_logf c' = Ofstream true false []
                             ∧ ch_logf_name c' = Some path
              | None => ofs_open (ch_logf c') = false
              end
  }.

Lemma register_run a w :
  ∃ w', register_channel a w = (w', Ret tt) ∧ objs w' = objs w
    ∧ ch_info w' = ch_info w ++ [a] ∧ next_channel w' = next_channel w
    ∧ next_addr w' = next_addr w ∧ w_sys w' = w_sys w ∧ quiet w w'.
Proof.
  unfold register_channel, when. rewrite (bind_Ret get _ w w w) by done.
  case_bool_decide; eexists; split_and!; done.
Qed.

(** The three calls of openChannel on the new closure. *)
Lemma open_simple {E} (inj : closure E → object) `{!Simple inj} c a nr name f w :
  objs w !! a = Some (inj c) → ofs_open (ch_logf c) = false →
  let file := open_file (w_sys w) nr f name in
  ∃ w1 w2 w3 c', register_channel a w = (w1, Ret tt)
    ∧ on_base a (λ _, assign (set_ch_nr nr)) w1 = (w2, Ret tt)
    ∧ virtual_openChannel others a nr name f w2
      = (w3, Ret (bool_decide (is_Some file)))
    ∧ opened_as nr file c c'
    ∧ objs w3 = <[a := inj c']> (objs w) ∧ ch_info w3 = ch_info w ++ [a]
    ∧ next_channel w3 = next_channel w ∧ next_addr w3 = next_addr w
    ∧ quiet w w3.
Proof.
  intros Ha Ho file.
  destruct (register_run a w) as (w1 & E1 & Q1 & Q2 & Q3 & Q4 & Q5 & Q6).
  set (c1 := set_ch_nr nr c).
  set (w2 := set_objs (<[a := inj c1]> (objs w1)) (set_wsys (w_sys w1) w1)).
  assert (on_base a (λ _, assign (set_ch_nr nr)) w1 = (w2, Ret tt)) as E2.
  { rewrite (simple_on_base _ _ c) by (by rewrite Q1). by apply world_obj_run. }
  assert (objs w2 !! a = Some (inj c1)) as Ha2 by (simpl; apply lookup_insert_eq).
  destruct (closure_openChannel_spec nr name f c1 (w_sys w2) Ho)
    as (c' & s' & ok & Er & _ & Hnr & Hh & Hp & Hw & Hcl & He & Hm).
  destruct (getIP_own (w_sys w2)) as [Eip _]. rewrite Eip in Hm.
  exists w1, w2, (set_objs (<[a := inj c']> (objs w2)) (set_wsys s' w2)), c'.
  assert (own_ip (w_sys w2) = own_ip (w_sys w)) as Es by (simpl; by rewrite Q5).
  rewrite Es in Hm.
  assert (ok = bool_decide (is_Some file) ∧ opened_as nr file c c') as [Hok Hop].
  { unfold file, open_file. destruct (own_ip (w_sys w)) as [ip|].
    - destruct Hm as (Hn & -> & Ho' & Ht & Hf). destruct (_ && _) eqn:Eok.
      + rewrite bool_decide_eq_true_2 by by eexists. split; [done|].
        split; simpl; try done; [by unfold tags; rewrite Hh, Hp|by split; [apply Ht|]].
      + rewrite bool_decide_eq_false_2 by (by intros []). split; [done|].
        split; simpl; try done. by unfold tags; rewrite Hh, Hp.
    - destruct Hm as (-> & Hn & Hl).
      rewrite bool_decide_eq_false_2 by (by intros []). split; [done|].
      split; simpl; try done; [by unfold tags; rewrite Hh, Hp|by rewrite Hl]. }
  split_and!; try done.
  - rewrite (simple_open _ c1) by done. rewrite (simple_on_base _ _ c1) by done.
    rewrite (world_obj_run _ _ _ _ _ _ _ _ Er). by rewrite Hok.
  - simpl. by rewrite insert_insert_eq, Q1.
  - by destruct Q6.
Qed.

(** openChannel from the switch on, when that makes a simple object. *)
Lemma open_with_made {E} (inj : closure E → object) `{!Simple inj} c s name nr h r w :
  makes name nr r (w_sys w) (inj c) s → ch_logf c = ofs_new → same_ip (w_sys w) s →
  let a := next_addr w in
  let file := open_file (w_sys w) nr (cr_format r) name in
  ∃ w3 c', opened_as nr file c c'
    ∧ objs w3 = <[a := inj c']> (objs w) ∧ ch_info w3 = ch_info w ++ [a]
    ∧ next_channel w3 = next_channel w ∧ next_addr w3 = a + 1 ∧ quiet w w3
    ∧ open_with others name nr h r w
      = (if bool_decide (is_Some file) then
           if bool_decide (h = NET_CONF) then forward_parameters others a name nr r
           else mret a
         else new_defect (cr_format r) name) w3.
Proof.
  intros Hm Hc Hip a file. unfold open_with. rewrite (bind_Ret get _ w w w) by done.
  set (w0 := if negb (oversubs_chk w) then set_oversubs_chk true w else w).
  rewrite (bind_Ret _ _ w w0 tt) by (unfold w0; by destruct (oversubs_chk w)).
  assert (objs w0 = objs w ∧ ch_info w0 = ch_info w ∧ next_channel w0 = next_channel w
    ∧ next_addr w0 = next_addr w ∧ w_sys w0 = w_sys w ∧ quiet w w0)
    as (P1 & P2 & P3 & P4 & P5 & P6).
  { unfold w0. by destruct (oversubs_chk w). }
  rewrite (bind_Ret _ _ _ _ _ (Hm w0 P5)), P4. fold a.
  destruct (open_simple inj c a nr name (cr_format r) (with_new (inj c) s w0))
    as (w1 & w2 & w3 & c' & E1 & E2 & E3 & Hop & Q1 & Q2 & Q3 & Q4 & Q5).
  { simpl. rewrite P4. apply lookup_insert_eq. }
  { by rewrite Hc. }
  assert (open_file (w_sys (with_new (inj c) s w0)) nr (cr_format r) name = file)
    as Ef.
  { unfold file, open_file. simpl. by rewrite Hip. }
  rewrite Ef in E3, Hop. exists w3, c'. split_and!; try done.
  - rewrite Q1. simpl. by rewrite P4, insert_insert_eq, P1.
  - by rewrite Q2; simpl; rewrite P2.
  - by rewrite Q3.
  - by rewrite Q4; simpl; rewrite P4.
  - etrans; [exact P6|]. by destruct Q5.
  - rewrite (bind_Ret _ _ _ _ _ E1), (bind_Ret _ _ _ _ _ E2).
    rewrite (bind_Ret _ _ _ _ _ E3).
    case_bool_decide; simpl; [|done]. by case_bool_decide.
Qed.

(** The part of openChannel in front of the look-up. *)
Definition numbered w w1 : Prop :=
  next_channel w1 = i32 (next_channel w + 1) ∧ objs w1 = objs w
  ∧ ch_info w1 = ch_info w ∧ next_addr w1 = next_addr w
  ∧ same_ip (w_sys w) (w_sys w1) ∧ quiet w w1.

Lemma openChannel_begin name f h w :
  ∃ w1, numbered w w1 ∧ openChannel others stale_words name f h w
    = (r ← net_lookup stale_words name (next_channel w) h f;
       if negb (cr_ret r) then
         world_sys (logFail ch_file 74 (ch_line name (next_channel w)
           ": unable to obtain configuration from server")) ;;
         new_defect (cr_format r) name
       else open_with others name (next_channel w) h r) w1.
Proof.
  unfold openChannel. rewrite (bind_Ret get _ w w w) by done.
  assert (∃ s, (when (next_channel w =? 0) (world_sys openStatusLogFile)) w
    = (set_wsys s w, Ret tt) ∧ same_ip (w_sys w) s) as (s & Es & Hs).
  { unfold when. destruct (next_channel w =? 0).
    - destruct (openStatusLogFile_frame (w_sys w)) as (s & Eo & _).
      exists s. unfold world_sys, zoom. rewrite Eo. split; [done|].
      destruct (ip_openStatusLogFile (w_sys w)) as [Hi _]. by rewrite Eo in Hi.
    - exists (w_sys w). split; [by destruct w|done]. }
  rewrite (bind_Ret _ _ _ _ _ Es). cbv zeta.
  exists (set_next_channel (i32 (next_channel w + 1)) (set_wsys s w)).
  by rewrite (bind_Ret (modify _) _ _ _ tt eq_refl).
Qed.

Lemma new_defect_run f name w :
  new_defect f name w
  = (with_new (DefectObj (initDefectHandler f name)) (w_sys w) w, Ret (next_addr w)).
Proof. by destruct w. Qed.

(** C18. Opening a channel of one of the seven handler types that need neither
    the network nor a thread of their own always returns a handle. The channel
    gets the next number and is registered; it has the class of its type and
    the function pointers of that class. When the machine has an address, the
    format is any but LZO1X_TSC and the file can be created, the handle
    returned is the channel, open on an empty file with the name made of
    address, number, format and message; otherwise it is a defect channel, and
    the registered one has no open file. All older channels are unchanged. *)
Theorem openChannel_plain name f h k w :
  typed w → plain_type h = Some k →
  let nr := next_channel w in
  let a := next_addr w in
  ∃ w' c, openChannel others stale_words name f h w
      = (w', Ret (if bool_decide (is_Some (open_file (w_sys w) nr f name)) then a
                 else a + 1))
    ∧ next_channel w' = i32 (nr + 1) ∧ ch_info w' = ch_info w ++ [a]
    ∧ (∀ b, b < a → objs w' !! b = objs w !! b)
    ∧ class_at w' a = Some k ∧ base_at w' a = Some c
    ∧ ch_nr c = nr ∧ fits k (tags c)
    ∧ match open_file (w_sys w) nr f name with
      | Some path => ch_logf c = Ofstream true false []
                     ∧ ch_logf_name c = Some path
      | None => ofs_open (ch_logf c) = false
                ∧ class_at w' (a + 1) = Some CDefect ∧ a + 1 ∉ ch_info w'
      end.
Proof.
  intros Hw Hk nr a.
  destruct (openChannel_begin name f h w) as (w1 & (N1 & N2 & N3 & N4 & N5 & N6) & ->).
  assert (h ≠ NET_CONF) as Hh by (by intros ->).
  rewrite (bind_Ret _ _ w1 w1 (ConfResult true h (0 :: stale_words) f))
    by (unfold net_lookup; by rewrite bool_decide_eq_false_2).
  cbn [cr_ret negb].
  set (r := ConfResult true h (0 :: stale_words) f).
  destruct (make_plain name nr r k (w_sys w1) Hk)
    as (E & inj & c & s & Hs & Hcl & Hun & Hmake & Hip).
  destruct (open_with_made inj c s name nr h r w1 Hmake (un_logf _ _ Hun) Hip)
    as (w3 & c' & Hop & Q1 & Q2 & Q3 & Q4 & Q5 & Eq).
  rewrite (plain_class c c') in Hcl.
  fold nr. rewrite Eq, (bool_decide_eq_false_2 (h = NET_CONF)) by done. cbn [cr_format r].
  assert (open_file (w_sys w1) nr f name = open_file (w_sys w) nr f name) as Ef.
  { unfold open_file. by rewrite N5. }
  cbn [cr_format r] in Hop. rewrite N4, Ef in *. fold a in Q1, Q2, Q4.
  assert (∀ w', (∀ b, b < a + 1 → objs w' !! b = objs w3 !! b) →
    (∀ b, b < a → objs w' !! b = objs w !! b)
    ∧ class_at w' a = Some k ∧ base_at w' a = Some (base c')) as Hobs.
  { intros w' Hlt. split_and!.
    - intros b Hb. rewrite Hlt, Q1, lookup_insert_ne, N2 by lia. done.
    - unfold class_at. rewrite Hlt, Q1, lookup_insert_eq by lia. simpl. by rewrite Hcl.
    - unfold base_at. rewrite Hlt, Q1, lookup_insert_eq by lia. simpl.
      apply simple_base. }
  destruct Hop as [Onr Ot _ _ _ Of].
  assert (fits k (tags (base c'))) as Hf.
  { pose proof (un_fits _ _ Hun) as Hf. by rewrite <- Ot in Hf. }
  destruct (open_file (w_sys w) nr f name) as [path|]; simpl.
  - exists w3, (base c'). destruct (Hobs w3) as (B1 & B2 & B3); [done|].
    rewrite N1, N3 in *. destruct Of. by split_and!.
  - exists (with_new (DefectObj (initDefectHandler f name)) (w_sys w3) w3), (base c').
    destruct (Hobs (with_new (DefectObj (initDefectHandler f name)) (w_sys w3) w3))
      as (B1 & B2 & B3).
    { intros b Hb. simpl. rewrite Q4. by rewrite lookup_insert_ne by lia. }
    split_and!; try done.
    + by rewrite new_defect_run, Q4.
    + simpl. by rewrite Q3.
    + simpl. by rewrite Q2, N3.
    + unfold class_at. simpl. by rewrite Q4, lookup_insert_eq.
    + simpl. rewrite Q2, N3. rewrite elem_of_app, list_elem_of_singleton.
      intros [Hin|?]; [|lia]. destruct (ty_info w Hw _ Hin) as [o Ho].
      destruct (ty_objs w Hw _ _ Ho). lia.
Qed.

(** ** Logging to an open channel *)
Fixpoint log_each (ch : Z) (l : list Z) : M (world N) unit :=
  match l with
  | [] => mret tt
  | t :: l => logTS others ch t ;; log_each ch l
  end.

Lemma field_simple {E X} (inj : closure E → object) `{!Simple inj}
    (f : ∀ E, closure E → X) a c w :
  objs w !! a = Some (inj c) → field f a w = (w, Ret (f E c)).
Proof.
  intros Ha. unfold field. rewrite (simple_on_base _ _ c) by done.
  rewrite (world_obj_run _ _ _ _ _ c (w_sys w) (f E c)) by done.
  rewrite insert_id by done. by destruct w.
Qed.

(** A channel whose handler [fn] runs [h], and keeps being the handler. *)
Lemma log_each_run {E} (inj : closure E → object) `{!Simple inj} fn
    (h : Z → CM E unit) l a c w :
  (∀ t c w, objs w !! a = Some (inj c) →
     call_handler fn a t w = world_obj inj a c (h t) w) →
  (∀ t, stable (λ x y, handler_f y.1 = handler_f x.1) (h t)) →
  Forall (λ t, t ≠ -1) l → objs w !! a = Some (inj c) → handler_f c = Some fn →
  log_each a l w = world_obj inj a c (log_all h l) w.
Proof.
  intros Hcall Hkeep Hl. revert c w. induction Hl as [|t l Ht Hl IH]; intros c w Ha Hf.
  { unfold world_obj. simpl. rewrite insert_id by done. by destruct w. }
  simpl log_each. unfold logTS. destruct (Z.eqb_spec t (-1)) as [|_]; [done|].
  unfold world_obj at 1. simpl log_all.
  destruct (Hkeep t (c, w_sys w)) as [Hk _].
  assert ((h0 ← field (λ _, handler_f) a;
           match h0 with
           | Some fn => call_handler fn a t
           | None => undefined "NULL handler_f called"
           end) w = world_obj inj a c (h t) w) as Eq.
  { rewrite (bind_Ret _ _ _ _ _ (field_simple inj (λ _, handler_f) a c w Ha)).
    rewrite Hf. by apply Hcall. }
  unfold mbind at 1, M_bind at 1. rewrite Eq. unfold world_obj.
  unfold mbind at 1, M_bind at 1.
  destruct (h t (c, w_sys w)) as [[c1 s1] [[]|ft]]; simpl in *; [|done].
  rewrite (IH c1); [|by simpl; rewrite lookup_insert_eq|by rewrite Hk].
  unfold world_obj. simpl. destruct (log_all h l (c1, s1)) as [[c2 s2] r].
  by rewrite insert_insert_eq.
Qed.

Lemma downsample_keeps_handler t :
  stable (λ x y, handler_f y.1 = handler_f x.1) (DownsampleHandler t).
Proof.
  intros [c s]. destruct (decide (counter (ext c) < factor (ext c))).
  - by rewrite DownsampleHandler_skip.
  - by rewrite DownsampleHandler_log by lia.
Qed.

Lemma downsample_keeps_name t :
  stable (λ x y, ch_logf_name y.1 = ch_logf_name x.1) (DownsampleHandler t).
Proof.
  intros [c s]. destruct (decide (counter (ext c) < factor (ext c))).
  - by rewrite DownsampleHandler_skip.
  - by rewrite DownsampleHandler_log by lia.
Qed.

Lemma stable_log_all {E} (R : closure E * sys → closure E * sys → Prop) `{!PreOrder R}
    (h : Z → CM E unit) l : (∀ t, stable R (h t)) → stable R (log_all h l).
Proof. intros Hh. induction l as [|t l IH]; simpl; stable; by apply Hh. Qed.

(** Two states with the same value of a field. *)
#[global] Instance field_eq_po {S X} (f : S → X) : PreOrder (λ x y, f y = f x).
Proof. split; [by intros ?|]. intros x y z. congruence. Qed.

(** The look-up of a channel that is configured by the server leaves the
    address of the machine alone. *)
Definition net_ip (x y : N * sys) : Prop := same_ip x.2 y.2.
#[local] Instance net_ip_po : PreOrder net_ip.
Proof. split; [by intros ?|]. intros x y z. unfold net_ip, same_ip. congruence. Qed.

Lemma ip_net_sys {A} (m : M sys A) : stable same_ip m → stable net_ip (net_sys m).
Proof. intros Hm. by apply (stable_zoom _ same_ip). Qed.
#[local] Hint Resolve ip_net_sys ip_logFail ip_logStatus ip_getIP : stable.
Lemma ip_log_client line msg : stable net_ip (log_client line msg).
Proof. unfold log_client. stable. Qed.
#[local] Hint Resolve ip_log_client : stable.
Lemma ip_lookup name nr h par f :
  stable net_ip (getConfigFromDefaultServer name nr h par f).
Proof.
  unfold getConfigFromDefaultServer, getConfigFromServer, make_request, read_reply.
  stable.
Qed.

Lemma own_quad_ip y y' : same_ip y y' → own_quad y' = own_quad y.
Proof.
  intros Hs. unfold own_quad.
  by rewrite (proj1 (getIP_own y)), (proj1 (getIP_own y')), Hs.
Qed.

(** A down-sampled channel gets its factor from the server. *)
Lemma forward_downsample a name nr f n rest c w :
  objs w !! a = Some (DownsampleObj c) →
  parm_handler_f c = Some setArgDownsampleHandler_fn → - 2 ^ 63 ≤ n < 2 ^ 63 →
  forward_parameters others a name nr (ConfResult true DOWNSAMPLE (1 :: n :: rest) f) w
  = (set_objs (<[a := DownsampleObj (set_ext (set_factor n (ext c)) c)]> (objs w)) w,
     Ret a).
Proof.
  intros Ha Hp Hn. unfold forward_parameters. cbn [cr_par arr_at nth].
  change (0 <? 1) with true. cbv iota zeta.
  rewrite (bind_Ret _ _ _ _ _ (field_simple DownsampleObj (λ _, parm_handler_f) a c w Ha)).
  rewrite Hp. set (c' := set_ext (set_factor n (ext c)) c).
  rewrite (bind_Ret _ _ w
    (set_objs (<[a := DownsampleObj c']> (objs w)) (set_wsys (w_sys w) w)) 0).
  - by destruct w.
  - unfold call_parm. rewrite (deref_run a _ _ w Ha). apply world_obj_run.
    rewrite setArg_array. change (negb (u64 1 =? 1)) with false. cbv iota.
    unfold setArgDownsample_num. change (negb (0 =? 0)) with false. cbn [andb].
    rewrite wrapS_small by (pow2; lia). done.
Qed.
End Opening.

(** ** From the configuration server to the log file *)
Section EndToEnd.
Context (ES EC : Env) `{Libm} `{Qsort} `{Sizes} `{Squash} `{FoxOs} (tables : list conf_table)
  (reply0 : conf_reply_msg) (stale : list Z).
Context (others : M fpw unit) (stale_words : list Z).
#[local] Instance server_net : ConfNet (srv * bool) :=
  conf_service ES tables reply0 stale.

(** The look-up of the new channel, served. *)
Lemma lookup_served name nr f w s tbl b i it n :
  w_net w = (s, true) → cf_tbl s = Some tbl → Z.of_nat (length tbl) < 2 ^ 32 →
  fox_rel (foxStartInfo s) b →
  length stale_words = conf_server_max_param →
  (String.length name < MAX_STR_SIZE)%nat →
  (String.length (own_quad (w_sys w)) < MAX_STR_SIZE)%nat →
  first_match (own_request name nr (0 :: stale_words) (w_sys w)) tbl = Some (i, it) →
  row_ok it = true → ce_h_type it = DOWNSAMPLE → ce_par_value it = [n] →
  ∃ s' y', net_lookup stale_words name nr NET_CONF f w
      = (set_net (s', true) (set_wsys y' w),
         Ret (ConfResult true DOWNSAMPLE (1 :: n :: drop 1 stale_words) (ce_log_f it)))
    ∧ same_ip (w_sys w) y' ∧ cf_tbl s' = Some tbl.
Proof.
  intros Hnet Htbl Hlen Hfox Hst Hname Hquad Hmatch Hrow Hh Hpar.
  destruct (net_conf_end_to_end ES EC tables reply0 stale name nr NET_CONF
    (0 :: stale_words) f s (w_sys w) tbl b i it) as (s' & y' & El & Ht' & _);
    [done..|by simpl; rewrite Hst|done|done|by rewrite Hh|by rewrite Hh|].
  change (the_net ES tables reply0 stale) with server_net in El.
  assert (ce_nr_parameters it = 1) as Hnp.
  { unfold row_ok in Hrow. apply andb_true_iff in Hrow as [Hr _].
    apply Z.eqb_eq in Hr. by rewrite Hpar in Hr. }
  rewrite Hh, Hpar, Hnp in El. exists s', y'. split_and!; [| |done].
  - unfold net_lookup, world_net, zoom. rewrite bool_decide_eq_true_2 by done.
    by rewrite Hnet, El.
  - destruct (ip_lookup (N:=srv * bool) name nr NET_CONF (0 :: stale_words) f
      ((s, true), w_sys w)) as [Hi _]. by rewrite El in Hi.
Qed.

(** The new channel, opened with the factor of the reply. *)
Lemma open_downsample name nr f n rest path w :
  open_file (w_sys w) nr f name = Some path → - 2 ^ 63 ≤ n < 2 ^ 63 →
  let a := next_addr w in
  let r := ConfResult true DOWNSAMPLE (1 :: n :: rest) f in
  ∃ w' c, open_with others name nr NET_CONF r w = (w', Ret a)
    ∧ objs w' !! a = Some (DownsampleObj c) ∧ w_net w' = w_net w
    ∧ ext c = DownsampleExt n 1 ∧ handler_f c = Some DownsampleHandler_fn
    ∧ ch_logf c = Ofstream true false [] ∧ ch_logf_name c = Some path.
Proof.
  intros Hfile Hn a r.
  destruct (open_with_made others DownsampleObj (initDownsampleHandler f)
    (w_sys w) name nr NET_CONF r w) as (w3 & c & Hop & Q1 & Q2 & Q3 & Q4 & Q5 & Eq);
    [by intros v <-; apply made_new|done..|].
  change (cr_format r) with f in *. rewrite Hfile in *.
  rewrite Eq, (bool_decide_eq_true_2 (is_Some _)) by by eexists.
  rewrite bool_decide_eq_true_2 by done. fold a in Q1.
  destruct Hop as [Onr Ot Ow Oe Oc [Of On]]. injection Ot as Oh Op.
  assert (objs w3 !! a = Some (DownsampleObj c)) as Ha
    by (rewrite Q1; apply lookup_insert_eq).
  set (c1 := set_ext (set_factor n (ext c)) c).
  exists (set_objs (<[a := DownsampleObj c1]> (objs w3)) w3), c1. split_and!.
  - apply forward_downsample; [done|by rewrite Op|done].
  - apply lookup_insert_eq.
  - by destruct Q5.
  - simpl. by rewrite Oe.
  - done.
  - done.
  - done.
Qed.

(** Logging to a down-sampled channel. *)
Lemma log_downsample l a c (w : world (srv * bool)) :
  objs w !! a = Some (DownsampleObj c) → handler_f c = Some DownsampleHandler_fn →
  counter (ext c) = 1 → 1 ≤ factor (ext c) → ofs_ok (ch_logf c) →
  Forall (λ t, t ≠ -1) l →
  ∃ c' s', log_each others a l w
      = (set_objs (<[a := DownsampleObj c']> (objs w)) (set_wsys s' w), Ret tt)
    ∧ ofs_file (ch_logf c') = ofs_file (ch_logf c)
        ++ stamped (clk (w_sys w)) (every (factor (ext c)) 1 l)
    ∧ ch_logf_name c' = ch_logf_name c.
Proof.
  intros Ha Hh Hc Hf Hok Hl.
  destruct (downsample_run l c (w_sys w)) as (c' & s' & Er & _ & _ & _ & _ & El);
    [unfold downsample_wf; lia|done|].
  exists c', s'. split_and!.
  - rewrite (log_each_run others DownsampleObj DownsampleHandler_fn
      DownsampleHandler l a c w); [by apply world_obj_run| |
      apply downsample_keeps_handler|done..].
    intros t d v Hv. unfold call_handler. by rewrite (deref_run _ _ _ _ Hv).
  - by rewrite El, Hc.
  - destruct (stable_log_all _ _ l downsample_keeps_name (c, w_sys w)) as [Hk _].
    by rewrite Er in Hk.
Qed.

(** C1. The whole way from a row of the server's table to a log file: when a
    client opens a NET_CONF channel, the first row that matches the request asks
    for down-sampling by n, and the log file can be created, then the handle
    returned is an open channel in the row's format, and of the tuples logged to
    it exactly the n-th, 2n-th, 3n-th, ... are written, in order, with their
    clock readings. The server keeps its table. *)
Theorem net_conf_channel_downsamples name f (w : world (srv * bool)) s tbl b i it n
    path l :
  w_net w = (s, true) → cf_tbl s = Some tbl → Z.of_nat (length tbl) < 2 ^ 32 →
  fox_rel (foxStartInfo s) b →
  length stale_words = conf_server_max_param →
  (String.length name < MAX_STR_SIZE)%nat →
  (String.length (own_quad (w_sys w)) < MAX_STR_SIZE)%nat →
  first_match (own_request name (next_channel w) (0 :: stale_words) (w_sys w)) tbl
    = Some (i, it) →
  row_ok it = true → ce_h_type it = DOWNSAMPLE → ce_par_value it = [n] →
  1 ≤ n < 2 ^ 63 →
  open_file (w_sys w) (next_channel w) (ce_log_f it) name = Some path →
  Forall (λ t, t ≠ -1) l →
  let a := next_addr w in
  ∃ w1 w2 s' k, openChannel others stale_words name f NET_CONF w = (w1, Ret a)
    ∧ log_each others a l w1 = (w2, Ret tt)
    ∧ (ofs_file ∘ ch_logf) <$> base_at w2 a = Some (stamped k (every n 1 l))
    ∧ ch_logf_name <$> base_at w2 a = Some (Some path)
    ∧ w_net w2 = (s', true) ∧ cf_tbl s' = Some tbl.
Proof.
  intros Hnet Htbl Hlen Hfox Hst Hname Hquad Hmatch Hrow Hh Hpar Hn Hfile Hl a.
  destruct (openChannel_begin others stale_words name f NET_CONF w)
    as (w0 & (N1 & N2 & N3 & N4 & N5 & [_ _ N6]) & ->).
  assert (own_request name (next_channel w) (0 :: stale_words) (w_sys w0)
    = own_request name (next_channel w) (0 :: stale_words) (w_sys w)) as Hreq.
  { unfold own_request. by rewrite (own_quad_ip _ _ N5). }
  destruct (lookup_served name (next_channel w) f w0 s tbl b i it n)
    as (s' & y' & El & Hip & Ht');
    [by rewrite N6|done|done|done|done|done|by rewrite (own_quad_ip _ _ N5)
    |by rewrite Hreq|done|done|done|].
  rewrite (bind_Ret _ _ _ _ _ El). cbn [cr_ret negb].
  destruct (open_downsample name (next_channel w) (ce_log_f it) n
    (drop 1 stale_words) path (set_net (s', true) (set_wsys y' w0)))
    as (w1 & c & Eo & Ha & Hn1 & He & Hf & Hlf & Hnm); [|lia|].
  { rewrite <- Hfile. unfold open_file. simpl. by rewrite Hip, N5. }
  simpl next_addr in *. rewrite N4 in *.
  destruct (log_downsample l a c w1) as (c' & y2 & E2 & Ec & En);
    [done|done|by rewrite He|rewrite He; simpl; lia|by rewrite Hlf|done|].
  exists w1, (set_objs (<[a := DownsampleObj c']> (objs w1)) (set_wsys y2 w1)), s',
    (clk (w_sys w1)).
  assert (base_at (set_objs (<[a := DownsampleObj c']> (objs w1)) (set_wsys y2 w1)) a
          = Some (base c')) as ->
    by (unfold base_at; simpl; by rewrite lookup_insert_eq).
  split_and!; try done; simpl; f_equal.
  - by rewrite Ec, Hlf, He.
  - by rewrite En.
Qed.
End EndToEnd.

(** ** Closing *)
Section Closing.
Context `{Env} `{Libm} `{Qsort} `{Sizes} `{Squash} {N : Type} `{ConfNet N} `{FoxOs}.
Context (others : M fpw unit).
Implicit Types w : world N.

(** No handler and no open file. *)
Definition shut {E} (c : closure E) : Prop :=
  handler_f c = Some NullHandler_fn ∧ ofs_open (ch_logf c) = false.

(** A normal return of [m] leaves the closure shut. *)
Definition shuts {E} (m : CM E unit) : Prop := ∀ x x',
  m x = (x', Ret tt) → shut x'.1.

Lemma shuts_bind {E A} (m : CM E A) (k : A → CM E unit) :
  (∀ x, shuts (k x)) → shuts (m ≫= k).
Proof. intros Hk x x' Em. apply bind_Ret_inv in Em as (x1 & y & _ & Em). by eapply Hk. Qed.

Lemma closure_close_shuts {E} : shuts (@closure_closeChannel _ E).
Proof.
  intros [c s] x' Em. unfold closure_closeChannel in Em.
  rewrite (bind_Ret (assign _) _ _ (set_handler_f (Some NullHandler_fn) c, s) tt) in Em
    by done.
  rewrite (bind_Ret this _ _ (set_handler_f (Some NullHandler_fn) c, s)
    (set_handler_f (Some NullHandler_fn) c)) in Em by done.
  simpl in Em. destruct (ofs_open (ch_logf c)) eqn:Eo.
  - apply bind_Ret_inv in Em as (x1 & [] & E1 & Em). injection E1 as <-.
    apply bind_Ret_inv in Em as (x2 & n & E2 & Em).
    unfold deref_name in E2. simpl in E2. destruct (ch_logf_name c); [|done].
    injection E2 as <- <-.
    match type of Em with sysm (logStatus ?f ?l ?m) _ = _ =>
      destruct (sysm_log_end (logStatus f l m)
        (set_ch_logf (ofs_close (ch_logf c)) (set_handler_f (Some NullHandler_fn) c)) s)
        as (s' & E3 & _); [apply logStatus_frame|]
    end.
    simpl in Em, E3. rewrite E3 in Em. injection Em as <-. split; [done|].
    simpl. unfold ofs_close. by rewrite Eo.
  - destruct (negb (isCloseCalled c)).
    + apply bind_Ret_inv in Em as (x2 & n & E2 & Em).
      unfold deref_name in E2. simpl in E2. destruct (ch_logf_name c); [|done].
      injection E2 as <- <-. apply bind_Ret_inv in Em as (x3 & [] & E3 & Em).
      match type of E3 with sysm (logStatus ?f ?l ?m) _ = _ =>
        destruct (sysm_log_end (logStatus f l m) (set_handler_f (Some NullHandler_fn) c) s)
          as (s' & E4 & _); [apply logStatus_frame|]
      end.
      rewrite E4 in E3. injection E3 as <-. by injection Em as <-.
    + by injection Em as <-.
Qed.

Lemma firstlast_close_shuts : shuts firstlast_closeChannel.
Proof. do 2 (apply shuts_bind; intros ?). apply closure_close_shuts. Qed.
Lemma pc_close_shuts : shuts pc_closeChannel.
Proof. do 5 (apply shuts_bind; intros ?). apply closure_close_shuts. Qed.

(** The classes whose closeChannel ends with that of the base class, in the
    calling thread and without a job. *)
Definition plain_class_b (k : class) : bool :=
  match k with CDefect | CBuffer | CFPC => false | _ => true end.

(** The closing of one channel, and what it does to the objects. *)
Lemma close_objs a w w' x :
  virtual_closeChannel others a w = (w', x) → ∀ b, b ≠ a → objs w' !! b = objs w !! b.
Proof.
  intros Em b Hb. unfold virtual_closeChannel in Em.
  destruct (objs w !! a) as [o|] eqn:Ho.
  2:{ unfold deref, mbind, M_bind, get, undefined, raise in Em. rewrite Ho in Em.
      by injection Em as <- _. }
  assert (∀ E (inj : closure E → object) c (m : CM E unit) (v v' : world N) y,
    world_obj inj a c m v = (v', y) → objs v = objs w → objs v' !! b = objs w !! b)
    as Hobj.
  { intros E inj c m v v' y Ev Eo. unfold world_obj in Ev.
    destruct (m (c, w_sys v)) as [[c' s'] r]. injection Ev as <- _. simpl.
    rewrite lookup_insert_ne by done. by rewrite Eo. }
  assert (∀ A (m : M bst A) (v v' : world N) y, world_bst m v = (v', y) → objs v' = objs v) as Hbst.
  { intros A m v v' y Ev. unfold world_bst, zoom in Ev. destruct (m _).
    by injection Ev as <- _. }
  assert (∀ A (m : M fpw A) (v v' : world N) y, world_fpw m v = (v', y) → objs v' = objs v) as Hfpw.
  { intros A m v v' y Ev. unfold world_fpw, zoom in Ev. destruct (m _).
    by injection Ev as <- _. }
  rewrite (deref_run a o _ w Ho) in Em.
  destruct o; try (by eapply Hobj);
    try (by rewrite (Hbst _ _ _ _ _ Em)); try (by rewrite (Hfpw _ _ _ _ _ Em));
    unfold on_base in Em; rewrite (deref_run _ _ _ _ Ho) in Em; by eapply Hobj.
Qed.

Lemma close_shut a w w' k :
  class_at w a = Some k → plain_class_b k = true →
  virtual_closeChannel others a w = (w', Ret tt) →
  class_at w' a = Some k ∧ ∃ c, base_at w' a = Some c ∧ shut c.
Proof.
  intros Ha Hk Em. apply class_at_some in Ha as (o & Ho & <-).
  unfold virtual_closeChannel in Em. rewrite (deref_run a o _ w Ho) in Em.
  assert (∀ E (inj : closure E → object) c (m : CM E unit), Plain (N:=N) inj →
    (∀ w c, base_of w a (inj c) = Some (base c)) → shuts m →
    world_obj inj a c m w = (w', Ret tt) →
    class_at w' a = Some (class_of (inj c)) ∧ ∃ c, base_at w' a = Some c ∧ shut c)
    as Hobj.
  { intros E inj c m Hp Hb Hm Ev. unfold world_obj in Ev.
    destruct (m (c, w_sys w)) as [[c' s'] r] eqn:Er. injection Ev as <- ->.
    unfold class_at, base_at. simpl. rewrite lookup_insert_eq. simpl. split.
    - f_equal. apply plain_class.
    - exists (base c'). split; [apply Hb|]. exact (Hm _ _ Er). }
  destruct o; try done;
    try (unfold on_base in Em; rewrite (deref_run _ _ _ _ Ho) in Em);
    eapply Hobj; try exact Em;
    first [apply _ | apply closure_close_shuts | apply firstlast_close_shuts
          | apply pc_close_shuts | by intros ? [? ? ? ? ? ? ? ? []]].
Qed.

Lemma plain_simple a k w :
  class_at w a = Some k → plain_class_b k = true →
  ∃ E (inj : closure E → object) c, Simple (N:=N) others inj ∧ objs w !! a = Some (inj c).
Proof.
  intros Ha Hk. apply class_at_some in Ha as (o & Ho & <-).
  destruct o as [c|c|c|c|c|c|c|c|c|c| |]; try done;
    [exists unit, NullObj, c|exists id_ext, IdObj, c
    |exists downsample_ext, DownsampleObj, c|exists XoY_ext, XoYObj, c
    |exists firstlast_ext, FirstlastObj, c|exists median_ext, MedianObj, c
    |exists pc_ext, PCObj, c|exists unit, FoxStartObj, c
    |exists foxend_ext, FoxEndObj, c]; (split; [apply _|done]).
Qed.

Lemma log_each_shut l a k c w :
  class_at w a = Some k → plain_class_b k = true → base_at w a = Some c → shut c →
  Forall (λ t, t ≠ -1) l → log_each others a l w = (w, Ret tt).
Proof.
  intros Ha Hk Hb [Hh _] Hl.
  destruct (plain_simple a k w Ha Hk) as (E & inj & d & Hs & Hd).
  assert (handler_f d = Some NullHandler_fn) as Hf.
  { unfold base_at in Hb. rewrite Hd in Hb. simpl in Hb.
    rewrite (simple_base others) in Hb. by injection Hb as <-. }
  induction Hl as [|t l Ht Hl IH]; [done|]. simpl.
  rewrite (bind_Ret _ _ w w tt); [done|]. unfold logTS.
  destruct (Z.eqb_spec t (-1)); [done|].
  rewrite (bind_Ret _ _ _ _ _ (field_simple others inj (λ _, handler_f) a d w Hd)), Hf.
  unfold call_handler. by rewrite (deref_run _ _ _ _ Hd).
Qed.

(** A closed channel stays closed. When closeChannel - or logging the poison
    pill -1, which is the same - returns for a channel that is not buffered, no
    fast periodic counter and not defect, isOpen answers no, and logging any
    tuples, however many, changes nothing at all and returns. *)
Theorem closed_channel_is_silent a k w w' l :
  class_at w a = Some k → plain_class_b k = true →
  closeChannel others a w = (w', Ret tt) →
  logTS others a (-1) w = (w', Ret tt)
  ∧ isOpen a w' = (w', Ret false)
  ∧ (Forall (λ t, t ≠ -1) l → log_each others a l w' = (w', Ret tt)).
Proof.
  intros Ha Hk Em. destruct (close_shut a w w' k Ha Hk Em) as (Ha' & c & Hb & Hc).
  split_and!; [done| |by eapply log_each_shut].
  unfold isOpen. rewrite (bind_Ret get _ w' w' w') by done.
  case_bool_decide; [|done].
  destruct (plain_simple a k w' Ha' Hk) as (E & inj & d & Hs & Hd).
  rewrite (field_simple others inj _ a d w' Hd). do 2 f_equal.
  unfold base_at in Hb. rewrite Hd in Hb. simpl in Hb.
  rewrite (simple_base others) in Hb. injection Hb as <-. by destruct Hc.
Qed.

Lemma close_each_shut l w w' :
  NoDup l → close_each others l w = (w', Ret tt) →
  (∀ b, b ∉ l → objs w' !! b = objs w !! b)
  ∧ ∀ a k, a ∈ l → class_at w a = Some k → plain_class_b k = true →
      class_at w' a = Some k ∧ ∃ c, base_at w' a = Some c ∧ shut c.
Proof.
  intros Hn. revert w. induction Hn as [|a l Ha Hn IH]; intros w Em.
  { injection Em as <-. split; [done|]. by intros ? ? ?%elem_of_nil. }
  simpl in Em. apply bind_Ret_inv in Em as (w1 & [] & E1 & Em).
  pose proof (close_objs a w w1 _ E1) as Hsame. destruct (IH w1 Em) as [I1 I2].
  split.
  - intros b Hb. rewrite elem_of_cons in Hb. rewrite I1, Hsame by tauto. done.
  - intros b k Hb Hbk Hk. destruct (decide (b = a)) as [->|Hne].
    + destruct (close_shut a w w1 k Hbk Hk E1) as (Ha1 & c & Hc1 & Hc2).
      assert (objs w' !! a = objs w1 !! a) as Eo by by apply I1.
      split; [unfold class_at in *; by rewrite Eo|]. exists c. split; [|done].
      unfold base_at in *. rewrite Eo.
      apply class_at_some in Ha1 as (o & Ho & <-). rewrite Ho in *.
      simpl in *. by destruct o.
    + apply I2; [apply elem_of_cons in Hb; tauto| |done].
      unfold class_at. rewrite Hsame by done. exact Hbk.
Qed.

End Closing.

(** ** Runs *)
Section Demo.
#[local] Existing Instances demo_env demo_libm demo_qsort demo_squash demo_fox_os silent_net.

Lemma openChannel_plain_witness :
  typed demo_start
  ∧ ∃ w' c, openChannel (mret tt) [] "demo" ASCII DOWNSAMPLE demo_start = (w', Ret 1)
    ∧ base_at w' 1 = Some c ∧ ch_logf c = Ofstream true false [].
Proof.
  assert (typed demo_start) as Hw by apply reaches_typed, reaches_init.
  split; [exact Hw|].
  destruct (openChannel_plain (mret tt) [] "demo" ASCII DOWNSAMPLE CDownsample
    demo_start Hw eq_refl) as (w' & c & E & _ & _ & _ & _ & Hb & _ & _ & Hc).
  assert (open_file (w_sys demo_start) (next_channel demo_start) ASCII "demo"
    = Some (logf_path "10.0.0.7" 0 ASCII "demo")) as Ef by by vm_compute.
  rewrite Ef in E, Hc. exists w', c. split; [exact E|]. split; [exact Hb|apply Hc].
Defined.

Definition demo_closed : world unit :=
  (closeChannel (mret tt) 1 demo_opened).1.

Lemma closed_channel_is_silent_witness :
  class_at demo_opened 1 = Some CDownsample
  ∧ log_each (mret tt) 1 [7; 8; 9] demo_closed = (demo_closed, Ret tt)
  ∧ isOpen 1 demo_closed = (demo_closed, Ret false).
Proof.
  assert (class_at demo_opened 1 = Some CDownsample) as Ha by by vm_compute.
  assert (closeChannel (mret tt) 1 demo_opened = (demo_closed, Ret tt)) as Ec
    by by vm_compute.
  destruct (closed_channel_is_silent (mret tt) 1 CDownsample demo_opened demo_closed
    [7; 8; 9] Ha eq_refl Ec) as (_ & Ho & Hl).
  split; [exact Ha|]. split; [|exact Ho]. apply Hl. by repeat constructor.
Defined.

End Demo.

Definition demo_downsample_row : conf_entry :=
  ConfEntry "sampled" ".*" ".*" ".*" ".*" DOWNSAMPLE ASCII 1 [3].
Definition demo_downsample_srv : srv :=
  Srv (Some [demo_row; demo_downsample_row]) fox_init [] (sys_init true).
Definition demo_client : world (srv * bool) :=
  world_init (demo_downsample_srv, true) (sys_init true).

Lemma net_conf_channel_downsamples_witness :
  ∃ w1 w2 k, @openChannel demo_env demo_libm code_sizes _
      (conf_service demo_env conf_tables demo_reply [1; 2; 3; 4; 5; 6; 7])
      demo_fox_os (mret tt) [9; 9; 9; 9; 9; 9; 9] "sampled" ASCII NET_CONF demo_client
      = (w1, Ret 1)
    ∧ @log_each demo_env demo_qsort code_sizes _ demo_fox_os (mret tt) 1 [10; 20; 30; 40; 50; 60; 70] w1 = (w2, Ret tt)
    ∧ (ofs_file ∘ ch_logf) <$> base_at w2 1
      = Some (@stamped demo_env k [30; 60]).
Proof.
  destruct (@net_conf_channel_downsamples demo_env demo_env demo_libm demo_qsort code_sizes
    demo_fox_os conf_tables demo_reply [1; 2; 3; 4; 5; 6; 7] (mret tt)
    [9; 9; 9; 9; 9; 9; 9] "sampled" ASCII demo_client demo_downsample_srv
    [demo_row; demo_downsample_row] None 1%nat demo_downsample_row 3
    (@logf_path demo_env "10.0.0.7" 0 ASCII "sampled") [10; 20; 30; 40; 50; 60; 70])
    as (w1 & w2 & s' & k & E1 & E2 & E3 & _);
    [done|done|done|done|done|unfold MAX_STR_SIZE; simpl; lia
    |vm_compute; lia|by vm_compute|done|done|done|lia|by vm_compute
    |by repeat constructor|].
  exists w1, w2, k. split; [exact E1|]. split; [exact E2|exact E3].
Defined.
