(* ===== verification/Ntplogd.v ===== *)
(** * NTP daemon: src/cp/ntplogd/core.cpp

    The program asks chronyd for the error of the system clock at regular
    intervals and logs it. The clock and the output of a command depend on what
    the program did before; reading the clock, running a command and sleeping are
    the events that count. *)

From S2P Require Import Prelude Util TimeStamp Platform Log Floats Exec.

(** ** Tokens: [while (std::getline(ss, token, delim)) push_back(token)]. *)
Fixpoint getlines (delim : ascii) (s : string) : list string :=
  match s with
  | EmptyString => []
  | String c s =>
      if Ascii.eqb c delim then EmptyString :: getlines delim s
      else match getlines delim s with
           | t :: ts => String c t :: ts
           | [] => [String c EmptyString]
           end
  end.

Example getlines_ex : getlines "," "ab,,c," = ["ab"; ""; "c"] ∧ getlines "," "ab,c" = ["ab"; "c"].
Proof. done. Qed.

(** ** State *)
Record clock_error := ClockError {
  system_time_offset : double;
  root_delay : double;
  root_dispersion : double
}.

Inductive os_event := ReadClock | RanCommand | Slept (ns : Z).

Class NtpOs := {
  now : list os_event → timespec;                  (* latest event first *)
  popen : string → list os_event → option string   (* None: it fails *)
}.

Record ntp := Ntp {
  nt_sys : sys;
  nt_past : list os_event;
  ntplogd_logf : ofstream;
  cout : list string;
  console_log : bool;
  interval : Z;
  iteration : Z;
  periodic : bool;
  nonstop : bool
}.

Definition set_nt_sys x n := Ntp x (nt_past n) (ntplogd_logf n) (cout n) (console_log n)
  (interval n) (iteration n) (periodic n) (nonstop n).
Definition set_nt_past x n := Ntp (nt_sys n) x (ntplogd_logf n) (cout n) (console_log n)
  (interval n) (iteration n) (periodic n) (nonstop n).
Definition set_nt_logf x n := Ntp (nt_sys n) (nt_past n) x (cout n) (console_log n)
  (interval n) (iteration n) (periodic n) (nonstop n).
Definition set_cout x n := Ntp (nt_sys n) (nt_past n) (ntplogd_logf n) x (console_log n)
  (interval n) (iteration n) (periodic n) (nonstop n).
Definition set_iteration x n := Ntp (nt_sys n) (nt_past n) (ntplogd_logf n) (cout n)
  (console_log n) (interval n) x (periodic n) (nonstop n).
Definition set_nonstop x n := Ntp (nt_sys n) (nt_past n) (ntplogd_logf n) (cout n)
  (console_log n) (interval n) (iteration n) (periodic n) x.

(** The command line after cxxopts parsed it: an option that is not given leaves
    its variable alone. *)
Record options := Options {
  op_console : option bool;
  op_periodic : option bool;
  op_interval : option Z;
  op_iteration : option Z;
  op_help : option string     (* the usage text, where help is asked for *)
}.

Section Ntplogd.
Context `{Env} `{NtpOs}.

Definition nt_clock : M ntp timespec :=
  s ← get;
  modify (set_nt_past (ReadClock :: nt_past s)) ;;
  mret (now (ReadClock :: nt_past s)).

Definition sleep_for (ns : Z) : M ntp unit :=
  modify (λ s, set_nt_past (Slept ns :: nt_past s) s).

Definition nt_say (m : string) : M ntp unit := modify (λ s, set_cout (cout s ++ [m]) s).

(** ** exec.cpp: the command *)
Definition exec (cmd : string) : M ntp string :=
  s ← get;
  modify (set_nt_past (RanCommand :: nt_past s)) ;;
  match popen cmd (RanCommand :: nt_past s) with
  | None => abort "runtime_error: popen() failed!"
  | Some pipe => mret (exec_result pipe)
  end.

(** ** core.cpp *)
Definition shallTerminate (s : ntp) : bool :=
  negb (nonstop s || (negb (nonstop s) && (0 <? iteration s))).

Definition set_log_file_as (name : string) : M ntp unit :=
  '(r, tmp_buf) ← zoom nt_sys set_nt_sys getIPDottedQuad;
  (if negb (r =? 0) then
     zoom nt_sys set_nt_sys (logFail "ntplogd/core.cpp" 197 "getting IP address") ;;
     exit EXIT_FAILURE
   else mret tt) ;;
  let name_buf := "/tmp/ntplogd:" +:+ tmp_buf +:+ ":" +:+ zstr getpid +:+ ":" +:+ zstr gettid
                  +:+ ":" +:+ name +:+ ".txt" in
  modify (λ s, set_nt_logf (ofs_do_open (creatable name_buf) (ntplogd_logf s)) s) ;;
  s ← get;
  if ofs_fail (ntplogd_logf s) then
    zoom nt_sys set_nt_sys (logFail "ntplogd/core.cpp" 209 ("open file " +:+ name_buf)) ;;
    exit EXIT_FAILURE
  else mret tt.

Definition clock_err_text (ts : timespec) (err : clock_error) : string :=
  default uninit_buf (formatTS ts 1024 def_format).2 +:+ ", "
  +:+ fixed9 (system_time_offset err) +:+ ", "
  +:+ fixed9 (root_delay err) +:+ ", "
  +:+ fixed9 (root_dispersion err)
  +:+ ", [" +:+ zstr (tv_sec ts) +:+ ", " +:+ zstr (tv_nsec ts) +:+ ", " +:+ zstr (tsc ts)
  +:+ "]" +:+ nl.

Definition print_clock_err (ts : timespec) (err : clock_error) : M ntp unit :=
  modify (λ s, set_nt_logf (ofs_write (clock_err_text ts err) (ntplogd_logf s)) s).

(** [str_vec.at(i)], then [std::stod]. *)
Definition stod_at (str_vec : list string) (i : nat) : M ntp double :=
  match str_vec !! i with
  | None => abort "out_of_range"
  | Some t =>
      match stod t with
      | None => abort "invalid_argument or out_of_range"
      | Some d => mret d
      end
  end.

Definition get_clock_err : M ntp clock_error :=
  ss ← exec "chronyc -c tracking";
  let str_vec := getlines ","%char ss in
  off ← stod_at str_vec 4;
  del ← stod_at str_vec 10;
  disp ← stod_at str_vec 11;
  mret (ClockError off del disp).

(** One task: a reading of the clock and one measurement, logged but the first time. *)
Definition run_task (skippedFirst : bool) : M ntp unit :=
  ts_now ← nt_clock;
  err ← get_clock_err;
  when skippedFirst
    (print_clock_err ts_now err ;;
     modify (λ s, set_iteration (u32 (iteration s - 1)) s)).

(** The inner loop: whether the program is to end, and the next time to wait for. *)
Fixpoint snooze (waits : nat) (periodic_inc_ns : Z) (periodic_inc ts_wait : timespec)
    : M ntp (bool * timespec) :=
  match waits with
  | O => spin "the clock does not pass the time to wait for"
  | S waits =>
      s ← get;
      if shallTerminate s then mret (true, ts_wait)
      else
        ts_now ← nt_clock;
        if 0 <? compareTS ts_now ts_wait
        then mret (false, addTS ts_wait ts_wait periodic_inc)
        else
          let ts_sleep := subtractTS stale_ts ts_now ts_wait in
          let sleep_ns := u64 (tv_sec ts_sleep * NANO_S_PER_S + tv_nsec ts_sleep) in
          let sleep_ns := if periodic_inc_ns <? sleep_ns then periodic_inc_ns else sleep_ns in
          sleep_for sleep_ns ;;
          snooze waits periodic_inc_ns periodic_inc ts_wait
  end.

Fixpoint run_rounds (waits rounds : nat) (periodic_inc_ns : Z) (periodic_inc : timespec)
    (skippedFirst : bool) (ts_wait : timespec) : M ntp unit :=
  match rounds with
  | O => spin "iterations are left"
  | S rounds =>
      run_task skippedFirst ;;
      '(terminate, ts_wait) ← snooze waits periodic_inc_ns periodic_inc ts_wait;
      if terminate : bool then mret tt
      else run_rounds waits rounds periodic_inc_ns periodic_inc true ts_wait
  end.

Definition run_interval_of (waits rounds : nat) (nsec : Z) : M ntp unit :=
  let periodic_inc_ns := nsec in
  let periodic_inc := Timespec (i64 (periodic_inc_ns `div` NANO_S_PER_S))
                        (i64 (periodic_inc_ns `mod` NANO_S_PER_S))
                        (tsc stale_ts) (aux stale_ts) in
  ts_wait ← nt_clock;
  let ts_wait := Timespec (i64 (tv_sec ts_wait + 1)) 0 (tsc ts_wait) (aux ts_wait) in
  run_rounds waits rounds periodic_inc_ns periodic_inc false ts_wait.

Definition nt_given (o : options) (s : ntp) : ntp :=
  Ntp (nt_sys s) (nt_past s) (ntplogd_logf s) (cout s) (default false (op_console o))
    (default 1 (op_interval o)) (default 0 (op_iteration o)) (default false (op_periodic o))
    false.

(** main; [None] is an exception of the parser. *)
Definition ntplogd_main (waits rounds : nat) (o : option options) : M ntp Z :=
  match o with
  | None => abort "an exception of the option parser"
  | Some o =>
      modify (nt_given o) ;;
      (match op_help o with
       | Some text => nt_say (text +:+ nl) ;; exit EXIT_FAILURE
       | None => mret tt
       end) ;;
      zoom nt_sys set_nt_sys (setLogFileName "/tmp/ntplogd_logfile") ;;
      s ← get;
      zoom nt_sys set_nt_sys (toggleConsoleLog (console_log s)) ;;
      nt_say ("Console log: " +:+ (if console_log s then "enabled" else "disabled") +:+ nl) ;;
      set_log_file_as "clock_error" ;;
      s ← get;
      when (negb (periodic s)) (modify (set_iteration 1) ;; modify (set_nonstop false)) ;;
      s ← get;
      when (periodic s && (iteration s =? 0)) (modify (set_nonstop true)) ;;
      s ← get;
      run_interval_of waits rounds (u64 (interval s * NANO_S_PER_S)) ;;
      mret 0
  end.
End Ntplogd.

(** ** The schedule *)
Section Schedule.
Context `{Env} `{NtpOs}.

Definition ev_cost (e : os_event) : Z := match e with Slept ns => ns | _ => 0 end.

(** A history of at most [bound] events, with no sleep longer than [inc]. *)
Definition nap (inc : Z) (e : os_event) : Prop := 0 ≤ ev_cost e ≤ inc.
Definition history (bound : nat) (inc : Z) (h : list os_event) : Prop :=
  (length h <= bound)%nat ∧ Forall (nap inc) h.

(** On these the clock is in range and advances with every event: by more than what
    was slept, and by at most [D] ns more. *)
Record world_ok (bound : nat) (inc D : Z) : Prop := WorldOk {
  wk_fits h : history bound inc h → ts_wf (now h) ∧ - 2 ^ 61 ≤ tv_sec (now h) < 2 ^ 61;
  wk_step e h : history bound inc (e :: h) →
    ts_ns (now h) + ev_cost e < ts_ns (now (e :: h)) ≤ ts_ns (now h) + ev_cost e + D
}.

(** What a run of the command says, where it is complete. *)
Definition tracking_err (pipe : string) : option clock_error :=
  let v := getlines ","%char (exec_result pipe) in
  off ← v !! 4%nat ≫= stod; del ← v !! 10%nat ≫= stod; disp ← v !! 11%nat ≫= stod;
  Some (ClockError off del disp).

Definition sampled (t : timespec) (e : clock_error) : Prop :=
  ∃ h pipe, t = now (ReadClock :: h)
    ∧ popen "chronyc -c tracking" (RanCommand :: ReadClock :: h) = Some pipe
    ∧ tracking_err pipe = Some e.

Definition chrony_answers (bound : nat) (inc : Z) : Prop :=
  ∀ h, history bound inc h →
    ∃ pipe e, popen "chronyc -c tracking" (RanCommand :: h) = Some pipe
      ∧ tracking_err pipe = Some e.

Lemma get_clock_err_run s pipe e :
  popen "chronyc -c tracking" (RanCommand :: nt_past s) = Some pipe →
  tracking_err pipe = Some e →
  get_clock_err s = (set_nt_past (RanCommand :: nt_past s) s, Ret e).
Proof.
  intros Hp He. unfold get_clock_err, exec. unfold tracking_err in He. monad_simpl.
  rewrite Hp. simpl. unfold stod_at. monad_simpl.
  destruct (getlines _ _ !! 4%nat) as [t4|]; [|done]. simpl in He.
  destruct (stod t4) as [d4|]; [|done]. simpl in *.
  destruct (getlines _ _ !! 10%nat) as [t10|]; [|done]. simpl in He.
  destruct (stod t10) as [d10|]; [|done]. simpl in *.
  destruct (getlines _ _ !! 11%nat) as [t11|]; [|done]. simpl in He.
  destruct (stod t11) as [d11|]; [|done]. simpl in *. by simplify_eq.
Qed.

Context (bound : nat) (D inc : Z) (Hw : world_ok bound inc D).
Context (Hinc : NANO_S_PER_S ≤ inc < 2 ^ 62) (HD : 6 * D ≤ inc).

(** Events that happened after [h]. *)
Definition grows (h h' : list os_event) (k : nat) : Prop :=
  ∃ es, h' = es ++ h ∧ (length es <= k)%nat ∧ Forall (nap inc) es.

Lemma grows_trans h1 h2 h3 j k :
  grows h1 h2 j → grows h2 h3 k → grows h1 h3 (j + k).
Proof.
  intros (e1 & -> & L1 & S1) (e2 & -> & L2 & S2). exists (e2 ++ e1).
  rewrite app_assoc, length_app. split_and!; [done|lia|]. by apply Forall_app.
Qed.

Lemma grows_le h h' j k : grows h h' j → (j <= k)%nat → grows h h' k.
Proof. intros (es & ? & ? & ?) Hjk. exists es. split_and!; (done || lia). Qed.

Lemma grows_history h h' k :
  grows h h' k → (length h + k <= bound)%nat → Forall (nap inc) h → history bound inc h'.
Proof.
  intros (es & -> & L & S) Hb Hh. split; [rewrite length_app; lia|by apply Forall_app].
Qed.

Lemma grows_nap h h' k : grows h h' k → Forall (nap inc) h → Forall (nap inc) h'.
Proof. intros (es & -> & _ & S) Hh. by apply Forall_app. Qed.

Lemma grows_length h h' k : grows h h' k → (length h' <= length h + k)%nat.
Proof. intros (es & -> & L & _). rewrite length_app. lia. Qed.

Lemma set_past_id s : set_nt_past (nt_past s) s = s.
Proof. by destruct s. Qed.

Lemma nap_event e : (∀ ns, e ≠ Slept ns) → nap inc e.
Proof.
  intros He. change NANO_S_PER_S with 1000000000 in Hinc.
  destruct e; unfold nap; simpl; try lia. by destruct (He ns).
Qed.

Lemma later_than h t :
  history bound inc h → ts_wf t → (0 <? compareTS (now h) t) = (ts_ns t <? ts_ns (now h)).
Proof.
  intros Hb Ht. destruct (wk_fits _ _ _ Hw h Hb) as [Hn _].
  rewrite compareTS_spec by done. destruct (Z.compare_spec (ts_ns (now h)) (ts_ns t)); zcase; lia.
Qed.

Ltac past := split; [simpl in *; lia|
  repeat first [assumption | apply Forall_cons; split; [by apply nap_event|]]].

Lemma snooze_step waits pinc W s :
  shallTerminate s = false → ts_fits W → (length (nt_past s) + 2 <= bound)%nat → Forall (nap inc) (nt_past s) →
  ts_ns W - inc ≤ ts_ns (now (nt_past s)) →
  let h1 := ReadClock :: nt_past s in
  let rem := ts_ns W - ts_ns (now h1) in
  snooze (S waits) inc pinc W s
  = if rem <? 0 then (set_nt_past h1 s, Ret (false, addTS W W pinc))
    else snooze waits inc pinc W (set_nt_past (Slept rem :: h1) s).
Proof.
  intros Ht HW Hb Hh Hlo h1 rem. destruct HW as [HWf HWr].
  pose proof (wk_step _ _ _ Hw ReadClock (nt_past s) ltac:(past)) as R1.
  fold h1 in R1. cbn [ev_cost] in R1.
  cbn [snooze]. rewrite (bind_Ret get _ _ _ _ eq_refl), Ht.
  rewrite (bind_Ret nt_clock _ s (set_nt_past h1 s) (now h1) eq_refl).
  rewrite later_than by (done || past).
  destruct (Z.ltb_spec rem 0), (Z.ltb_spec (ts_ns W) (ts_ns (now h1))); try lia; [done|].
  destruct (wk_fits _ _ _ Hw h1 ltac:(past)) as [F1 F2].
  destruct (subtractTS_spec stale_ts (now h1) W) as [_ S2]; [split; [done|lia]|done|].
  set (slp := subtractTS stale_ts (now h1) W) in *.
  assert (u64 (tv_sec slp * NANO_S_PER_S + tv_nsec slp) = rem) as ->.
  { fold (ts_ns slp). rewrite S2. apply wrapU_small. pow2. lia. }
  destruct (Z.ltb_spec inc rem) as [|_]; [lia|]. by destruct s.
Qed.

(** A wait that is not longer than one period ends after at most one sleep. *)
Lemma snooze_run pinc W s :
  shallTerminate s = false → ts_fits W → (length (nt_past s) + 4 <= bound)%nat → Forall (nap inc) (nt_past s) →
  ts_ns W - inc ≤ ts_ns (now (nt_past s)) →
  ∃ h', snooze 2 inc pinc W s = (set_nt_past h' s, Ret (false, addTS W W pinc))
    ∧ grows (nt_past s) h' 3
    ∧ ts_ns W < ts_ns (now h') ≤ Z.max (ts_ns W + 2 * D) (ts_ns (now (nt_past s)) + D).
Proof.
  intros Ht HW Hb Hh Hlo.
  pose proof (wk_step _ _ _ Hw ReadClock (nt_past s) ltac:(past)) as R1.
  rewrite snooze_step by (done || lia). set (h1 := ReadClock :: nt_past s) in *.
  cbn [ev_cost] in R1. destruct (Z.ltb_spec (ts_ns W - ts_ns (now h1)) 0).
  { exists h1. split_and!; [done| |lia..].
    exists [ReadClock]. split_and!; [done|simpl; lia|]. by repeat constructor; apply nap_event. }
  set (rem := ts_ns W - ts_ns (now h1)) in *. set (h2 := Slept rem :: h1).
  assert (nap inc (Slept rem)) as Hrem by (unfold nap; simpl; lia).
  assert (Forall (nap inc) h2) as Hh2
    by (repeat (apply Forall_cons; split); [done|by apply nap_event|done]).
  pose proof (wk_step _ _ _ Hw (Slept rem) h1 ltac:(split; [simpl; lia|exact Hh2])) as R2.
  pose proof (wk_step _ _ _ Hw ReadClock h2 ltac:(past)) as R3.
  fold h2 in R2. cbn [ev_cost] in R2, R3.
  rewrite snooze_step by (simpl; done || lia).
  destruct (Z.ltb_spec (ts_ns W - ts_ns (now (ReadClock :: nt_past (set_nt_past h2 s)))) 0) as [_|Hc];
    [|simpl in Hc; lia].
  exists (ReadClock :: h2). split_and!; [by destruct s| |lia..].
  exists [ReadClock; Slept rem; ReadClock]. split_and!; [done|simpl; lia|].
  repeat (apply Forall_cons; split); first [done|by apply nap_event|by constructor].
Qed.

Context (Hc : chrony_answers bound inc).

Lemma run_task_run sk s :
  (length (nt_past s) + 2 <= bound)%nat → Forall (nap inc) (nt_past s) →
  ∃ e, sampled (now (ReadClock :: nt_past s)) e
    ∧ run_task sk s =
      ((let s' := set_nt_past (RanCommand :: ReadClock :: nt_past s) s in
        if sk then set_iteration (u32 (iteration s - 1)) (set_nt_logf
          (ofs_write (clock_err_text (now (ReadClock :: nt_past s)) e) (ntplogd_logf s)) s')
        else s'), Ret tt).
Proof.
  intros Hb Hh. destruct (Hc (ReadClock :: nt_past s) ltac:(past)) as (pipe & e & Hp & He).
  exists e. split; [by exists (nt_past s), pipe|]. unfold run_task.
  rewrite (bind_Ret nt_clock _ s (set_nt_past (ReadClock :: nt_past s) s) _ eq_refl).
  rewrite (bind_Ret _ _ _ _ _ (get_clock_err_run (set_nt_past (ReadClock :: nt_past s) s)
    pipe e Hp He)). by destruct sk.
Qed.

Definition period : timespec :=
  Timespec (i64 (inc `div` NANO_S_PER_S)) (i64 (inc `mod` NANO_S_PER_S))
    (tsc stale_ts) (aux stale_ts).

Lemma period_spec : ts_fits period ∧ ts_ns period = inc.
Proof.
  unfold period. ts_unfold. pow2. rewrite !wrapS_small by (pow2; zmod). split; zmod.
Qed.

(** The next time to wait for is in range: it is less than a period away. *)
Lemma next_wait W h :
  history bound inc h → ts_fits W → ts_ns W < ts_ns (now h) →
  ts_fits (addTS W W period) ∧ ts_ns (addTS W W period) = ts_ns W + inc.
Proof.
  intros Hb HW Hlt. destruct period_spec as [P1 P2].
  destruct (addTS_spec W W period HW P1) as [A1 A2]. rewrite P2 in A2.
  destruct (wk_fits _ _ _ Hw h Hb) as [N1 N2]. split; [|done]. split; [done|].
  generalize dependent (addTS W W period). intros W' A1 A2. clear P1 P2.
  ts_unfold. change (2 ^ 61) with 2305843009213693952 in *. lia.
Qed.

(** The lines of a run: the k-th is a sample taken after the k-th limit, and not
    much later. *)
Definition on_schedule (W0 : Z) (l : list (timespec * clock_error)) : Prop :=
  ∀ k t e, l !! k = Some (t, e) →
    sampled t e
    ∧ W0 + Z.of_nat k * inc < ts_ns t ≤ W0 + Z.of_nat k * inc + 4 * D.

Lemma on_schedule_cons W0 t e l :
  sampled t e → W0 < ts_ns t ≤ W0 + 4 * D → on_schedule (W0 + inc) l →
  on_schedule W0 ((t, e) :: l).
Proof.
  intros Hs Ht Hl [|k] t' e' E; simpl in E; simplify_eq.
  - split; [done|]. lia.
  - destruct (Hl k t' e' E). split; [done|]. lia.
Qed.

Definition line_of (x : timespec * clock_error) : string := clock_err_text x.1 x.2.

Lemma run_rounds_S rounds inc_ns pinc sk W :
  run_rounds 2 (S rounds) inc_ns pinc sk W
  = (run_task sk ;; '(terminate, W') ← snooze 2 inc_ns pinc W;
     if terminate : bool then mret tt else run_rounds 2 rounds inc_ns pinc true W').
Proof. done. Qed.

Lemma run_rounds_run n W s :
  iteration s = Z.of_nat (S n) → Z.of_nat (S n) < 2 ^ 32 → nonstop s = false →
  ofs_ok (ntplogd_logf s) → ts_fits W →
  (length (nt_past s) + 6 * S n <= bound)%nat → Forall (nap inc) (nt_past s) →
  ts_ns W - inc < ts_ns (now (nt_past s)) ≤ ts_ns W - inc + 3 * D →
  ∃ l h', run_rounds 2 (S n) inc period true W s
      = (set_iteration 0 (set_nt_logf (Ofstream true false
            (ofs_file (ntplogd_logf s) ++ map line_of l)) (set_nt_past h' s)), Ret tt)
    ∧ length l = S n ∧ on_schedule (ts_ns W - inc) l
    ∧ grows (nt_past s) h' (6 * S n).
Proof.
  revert W s. induction n as [|n IH]; intros W s Hn Hn32 Hns Ho HW Hb Hh Hlim.
  all: destruct (run_task_run true s ltac:(lia) Hh) as (e & Hs & Et).
  all: rewrite run_rounds_S, (bind_Ret _ _ _ _ _ Et); clear Et.
  all: rewrite ofs_write_ok, Hn by done; cbv zeta.
  all: pose proof (wk_step _ _ _ Hw ReadClock (nt_past s) ltac:(past)) as R1.
  all: set (t := now (ReadClock :: nt_past s)) in *.
  all: set (h2 := RanCommand :: ReadClock :: nt_past s).
  all: assert (grows (nt_past s) h2 2) as G2
    by (exists [RanCommand; ReadClock]; split_and!; [done|done|];
        by repeat constructor; apply nap_event).
  all: cbn [ev_cost] in R1.
  - exists [(t, e)], h2. unfold snooze. rewrite (bind_Ret _ _ _ (set_iteration 0 (set_nt_logf
      (Ofstream true false (ofs_file (ntplogd_logf s) ++ [clock_err_text t e]))
      (set_nt_past h2 s))) (true, W)).
    + split_and!; [done|done| |].
      * apply on_schedule_cons; [done|lia|]. intros k t' e' E. by rewrite lookup_nil in E.
      * eapply grows_le; [exact G2|lia].
    + monad_simpl. unfold shallTerminate. simpl. by rewrite Hns.
  - assert (u32 (Z.of_nat (S (S n)) - 1) = Z.of_nat (S n)) as ->
      by (rewrite wrapU_small; lia).
    set (s1 := set_iteration _ _).
    pose proof (wk_step _ _ _ Hw RanCommand (ReadClock :: nt_past s) ltac:(past)) as R2.
    fold t h2 in R2. cbn [ev_cost] in R2.
    destruct (snooze_run period W s1) as (h' & E & G & L1 & L2).
    { unfold shallTerminate. simpl. by rewrite Hns. }
    { done. }
    { simpl. lia. }
    { by apply (grows_nap _ _ _ G2). }
    { change (nt_past s1) with h2. lia. }
    change (nt_past s1) with h2 in *.
    pose proof (grows_trans _ _ _ _ _ G2 G) as G'. pose proof (grows_length _ _ _ G') as GL.
    rewrite (bind_Ret _ _ _ _ _ E).
    pose proof (grows_history _ _ _ G' ltac:(lia) Hh) as Hh'.
    destruct (next_wait W h' Hh' HW L1) as [F1 F2].
    destruct (IH (addTS W W period) (set_nt_past h' s1)) as (l & h'' & E2 & Hl & Hsch & G3);
      try done; try (simpl; lia); [apply Hh'|].
    exists ((t, e) :: l), h''. split_and!; [|simpl; lia| |].
    + cbv beta iota. rewrite E2. simpl. by rewrite <- app_assoc.
    + apply on_schedule_cons; [done|lia|].
      replace (ts_ns W - inc + inc) with (ts_ns (addTS W W period) - inc) by lia. done.
    + eapply grows_le; [exact (grows_trans _ _ _ _ _ G' G3)|lia].
Qed.

(** The first second that begins after the start. *)
Definition first_limit (h : list os_event) : Z :=
  (tv_sec (now (ReadClock :: h)) + 1) * NANO_S_PER_S.

Lemma run_interval_of_run n s :
  iteration s = Z.of_nat (S n) → Z.of_nat (S n) < 2 ^ 32 → nonstop s = false →
  ofs_ok (ntplogd_logf s) → (length (nt_past s) + 6 * S (S n) <= bound)%nat →
  Forall (nap inc) (nt_past s) →
  ∃ l h', run_interval_of 2 (S (S n)) inc s
      = (set_iteration 0 (set_nt_logf (Ofstream true false
            (ofs_file (ntplogd_logf s) ++ map line_of l)) (set_nt_past h' s)), Ret tt)
    ∧ length l = S n ∧ on_schedule (first_limit (nt_past s)) l
    ∧ grows (nt_past s) h' (6 * S (S n)).
Proof.
  intros Hn Hn32 Hns Ho Hb Hh. unfold run_interval_of. fold period.
  set (h1 := ReadClock :: nt_past s). set (s1 := set_nt_past h1 s).
  rewrite (bind_Ret nt_clock _ s s1 (now h1) eq_refl). cbv zeta. fold period.
  destruct (wk_fits _ _ _ Hw h1 ltac:(past)) as [F1 F2].
  rewrite (wrapS_small 64 (tv_sec (now h1) + 1)) by (pow2; lia).
  set (W := Timespec _ 0 _ _).
  assert (ts_fits W ∧ ts_ns W = first_limit (nt_past s)
    ∧ ts_ns W - NANO_S_PER_S ≤ ts_ns (now h1) < ts_ns W) as (W1 & W2 & W3).
  { unfold W, first_limit. fold h1. ts_unfold.
    change (2 ^ 61) with 2305843009213693952 in *. lia. }
  destruct (run_task_run false s1 ltac:(simpl; lia) ltac:(apply Forall_cons; split; [by apply nap_event|done])) as (e & _ & Et).
  rewrite run_rounds_S, (bind_Ret _ _ _ _ _ Et). clear Et. cbv zeta. cbv iota.
  change (nt_past s1) with h1. set (h3 := RanCommand :: ReadClock :: h1).
  pose proof (wk_step _ _ _ Hw ReadClock h1 ltac:(past)) as R1.
  pose proof (wk_step _ _ _ Hw RanCommand (ReadClock :: h1) ltac:(past)) as R2.
  fold h3 in R2. cbn [ev_cost] in R1, R2.
  assert (grows (nt_past s) h3 3) as G3
    by (exists [RanCommand; ReadClock; ReadClock]; split_and!; [done|done|];
        by repeat constructor; apply nap_event).
  destruct (snooze_run period W (set_nt_past h3 s1)) as (h' & E & G & L1 & L2).
  { unfold shallTerminate. simpl. rewrite Hns, Hn. done. }
  { done. }
  { simpl. lia. }
  { by apply (grows_nap _ _ _ G3). }
  { simpl. lia. }
  change (nt_past (set_nt_past h3 s1)) with h3 in *.
  pose proof (grows_trans _ _ _ _ _ G3 G) as G'. pose proof (grows_length _ _ _ G') as GL.
  rewrite (bind_Ret _ _ _ _ _ E). cbv beta iota.
  pose proof (grows_history _ _ _ G' ltac:(lia) Hh) as Hh'.
  destruct (next_wait W h' Hh' W1 L1) as [N1 N2].
  destruct (run_rounds_run n (addTS W W period) (set_nt_past h' (set_nt_past h3 s1)))
    as (l & h'' & E2 & Hl & Hsch & G4); try done; try (simpl; lia); [apply Hh'|].
  exists l, h''. split_and!; [by rewrite E2|done| |].
  - rewrite <- W2. by replace (ts_ns W) with (ts_ns (addTS W W period) - inc) by lia.
  - eapply grows_le; [exact (grows_trans _ _ _ _ _ G' G4)|lia].
Qed.
End Schedule.

(** ** The program *)
Definition nt_start (md0_exists : bool) : ntp :=
  Ntp (sys_init md0_exists) [] ofs_new [] false 1 0 false false.

(** The measurements a command line asks for; not periodic means once. *)
Definition wanted (o : options) : Z :=
  if default false (op_periodic o) then default 0 (op_iteration o) else 1.

Section Program.
Context `{Env} `{NtpOs}.

Lemma set_log_file_as_run name ifs quad s :
  getifaddrs = Some ifs → first_quad ifs = Some quad → IP (nt_sys s) = None →
  (∀ f, creatable f = true) → ntplogd_logf s = ofs_new →
  set_log_file_as name s
  = (set_nt_logf (Ofstream true false []) (set_nt_sys (set_IP (Some quad) (nt_sys s)) s), Ret tt).
Proof.
  intros Hi Hq Hip Hcr Hl. unfold set_log_file_as, getIPDottedQuad. monad_simpl.
  rewrite Hip, Hi, Hq. simpl. unfold ofs_do_open. rewrite Hl, Hcr. done.
Qed.

Lemma set_name_run s :
  zoom nt_sys set_nt_sys (setLogFileName "/tmp/ntplogd_logfile") s
  = (set_nt_sys (set_outfile_name "/tmp/ntplogd_logfile" (nt_sys s)) s, Ret tt).
Proof. done. Qed.

Lemma toggle_run b s :
  zoom nt_sys set_nt_sys (toggleConsoleLog b) s
  = (set_nt_sys (set_to_console b (nt_sys s)) s, Ret tt).
Proof. done. Qed.

(** C8. With a clock that advances a little with every step (and by what is slept),
    and while chronyd answers, ntplogd ends after the measurements it was asked for,
    one line each and the first, uncounted measurement left out; the k-th line is
    taken after second k * interval of the schedule and at most 4 steps later, so the
    schedule does not drift; it never sleeps for more than an interval, and it takes
    at most 6 steps per measurement. *)
Theorem ntplogd_keeps_schedule bound D md0_exists o ifs quad n :
  let inc := default 1 (op_interval o) * NANO_S_PER_S in
  world_ok bound inc D → chrony_answers bound inc →
  getifaddrs = Some ifs → first_quad ifs = Some quad → (∀ f, creatable f = true) →
  op_help o = None → wanted o = Z.of_nat (S n) → Z.of_nat (S n) < 2 ^ 32 →
  1 ≤ default 1 (op_interval o) < 2 ^ 32 →
  6 * D ≤ inc → (6 * S (S n) <= bound)%nat →
  ∃ s' l, ntplogd_main 2 (S (S n)) (Some o) (nt_start md0_exists) = (s', Ret 0)
    ∧ ofs_file (ntplogd_logf s') = map line_of l ∧ length l = S n
    ∧ on_schedule D inc (first_limit []) l
    ∧ history (6 * S (S n)) inc (nt_past s').
Proof.
  intros inc Hw Hc Hi Hq Hcr Hh Hn Hn32 Hint HD Hb.
  assert (NANO_S_PER_S ≤ inc < 2 ^ 62) as Hinc.
  { unfold inc. change NANO_S_PER_S with 1000000000. pow2.
    change (2 ^ 62) with 4611686018427387904. lia. }
  assert (u64 inc = inc) as Hu.
  { apply wrapU_small. change (2 ^ 62) with 4611686018427387904 in Hinc. pow2.
    change NANO_S_PER_S with 1000000000 in Hinc. lia. }
  unfold ntplogd_main. rewrite (bind_Ret (modify _) _ _ _ tt eq_refl), Hh.
  rewrite (bind_Ret (mret tt) _ _ _ tt eq_refl).
  rewrite (bind_Ret _ _ _ _ _ (set_name_run _)).
  rewrite (bind_Ret get _ _ _ _ eq_refl).
  rewrite (bind_Ret _ _ _ _ _ (toggle_run _ _)).
  rewrite (bind_Ret (nt_say _) _ _ _ tt eq_refl).
  match goal with |- context [(set_log_file_as _ ≫= _) ?s] =>
    rewrite (bind_Ret _ _ _ _ _ (set_log_file_as_run "clock_error" ifs quad s Hi Hq eq_refl
      Hcr eq_refl)) end.
  rewrite (bind_Ret get _ _ _ _ eq_refl).
  set (s0 := set_nt_logf _ _).
  set (s1 := if default false (op_periodic o) then s0 else set_iteration 1 s0).
  rewrite (bind_Ret (when _ _) _ s0 s1 tt).
  2:{ unfold s1. change (periodic s0) with (default false (op_periodic o)).
      destruct (default false (op_periodic o)); done. }
  assert (iteration s1 = Z.of_nat (S n)) as Hit.
  { unfold s1. unfold wanted in Hn. destruct (default false (op_periodic o)); done. }
  rewrite (bind_Ret get _ _ _ _ eq_refl), Hit, andb_false_r.
  rewrite (bind_Ret (when false _) _ _ _ tt eq_refl), (bind_Ret get _ _ _ _ eq_refl).
  assert (interval s1 = default 1 (op_interval o) ∧ nt_past s1 = [] ∧ nonstop s1 = false
    ∧ ntplogd_logf s1 = Ofstream true false []) as (-> & Hp & Hns & Hl)
    by (unfold s1; by destruct (default false (op_periodic o))).
  fold inc. rewrite Hu.
  destruct (run_interval_of_run bound D inc Hw Hinc HD Hc n s1 Hit Hn32 Hns)
    as (l & h' & E & L1 & L2 & es & Ees & G1 & G2).
  { by rewrite Hl. }
  { rewrite Hp. simpl. lia. }
  { by rewrite Hp. }
  rewrite (bind_Ret _ _ _ _ _ E). rewrite Hp in Ees, L2. rewrite app_nil_r in Ees. subst es.
  eexists _, l. split; [done|]. simpl. rewrite Hl. split_and!; try done.
Qed.
End Program.

(** ** The values *)
(** A field of the report: no comma, no blank, no NUL. *)
Definition plain_char (c : ascii) : bool :=
  negb (Ascii.eqb c ",") && negb (is_space c) && negb (Ascii.eqb c "000").

(** The report [chronyc -c] prints: fields with commas between them. *)
Definition csv (fields : list string) : string := String.concat "," fields.

Lemma csv_chars p fields :
  p ","%char = true → Forall (λ f, all_chars p f = true) fields → all_chars p (csv fields) = true.
Proof.
  intros Hp. induction 1 as [|f fields Hf Hl IH]; [done|]. destruct fields as [|g l]; [done|].
  change (csv (f :: g :: l)) with (f +:+ "," +:+ csv (g :: l)).
  rewrite !all_chars_app, Hf, IH. simpl. by rewrite Hp.
Qed.

Lemma getlines_field f rest :
  all_chars plain_char f = true →
  getlines "," (f +:+ "," +:+ rest) = f :: getlines "," rest.
Proof.
  induction f as [|c f IH]; [done|]. rewrite string_app_cons. simpl.
  unfold plain_char at 1. rewrite !andb_true_iff, !negb_true_iff. intros [[[-> _] _] Hf].
  by rewrite IH.
Qed.

Lemma getlines_last f : f ≠ EmptyString → all_chars plain_char f = true → getlines "," f = [f].
Proof.
  intros Hne. induction f as [|c f IH]; [done|]. simpl. clear Hne.
  unfold plain_char at 1. rewrite !andb_true_iff, !negb_true_iff. intros [[[-> _] _] Hf].
  destruct f as [|d f]; [done|]. by rewrite IH.
Qed.

Lemma getlines_csv fields :
  Forall (λ f, all_chars plain_char f = true) fields →
  last fields ≠ Some EmptyString → getlines "," (csv fields) = fields.
Proof.
  induction 1 as [|f fields Hf Hl IH]; [done|]. intros Hlast.
  destruct fields as [|g l]; [apply getlines_last; [naive_solver|done]|].
  change (csv (f :: g :: l)) with (f +:+ "," +:+ csv (g :: l)).
  rewrite getlines_field, IH; done.
Qed.

Lemma trim_line s :
  all_chars (λ c, negb (is_space c)) s = true → trim (s +:+ nl) = s.
Proof.
  intros Hs. unfold trim, ltrim.
  assert (skip_spaces (s +:+ nl) = s +:+ nl ∨ s = EmptyString) as [->| ->]; [| |done].
  { destruct s as [|c s]; [by right|]. left. rewrite string_app_cons. simpl in *.
    apply andb_true_iff in Hs as [Hc _]. apply negb_true_iff in Hc. by rewrite Hc. }
  induction s as [|c s IH]; [done|]. rewrite string_app_cons. simpl in *.
  apply andb_true_iff in Hs as [Hc Hs]. apply negb_true_iff in Hc. rewrite IH by done.
  destruct s; [by rewrite Hc|done].
Qed.

Lemma c_string_all s : all_chars (λ c, negb (Ascii.eqb c "000")) s = true → c_string s = s.
Proof.
  induction s as [|c s IH]; [done|]. simpl. rewrite andb_true_iff, negb_true_iff.
  intros [-> Hs]. by rewrite IH.
Qed.

Lemma exec_report fields :
  Forall (λ f, all_chars plain_char f = true) fields →
  exec_result (csv fields +:+ nl) = csv fields.
Proof.
  intros Hf. rewrite exec_result_spec.
  - apply trim_line, csv_chars; [done|]. eapply Forall_impl; [exact Hf|]. intros f Hp.
    eapply all_chars_impl; [|exact Hp]. intros c. unfold plain_char. by destruct (is_space c), (Ascii.eqb c ",").
  - apply c_string_all. rewrite all_chars_app, andb_true_iff. split; [|done].
    apply csv_chars; [done|]. eapply Forall_impl; [exact Hf|]. intros f Hp.
    eapply all_chars_impl; [|exact Hp]. intros c. unfold plain_char.
    by destruct (is_space c), (Ascii.eqb c ","), (Ascii.eqb c "000").
Qed.

(** C32. The clock errors chronyd reports are logged digit by digit: reading the
    report, converting three of its fields to doubles and printing these with nine
    digits gives the fields back, for values of up to 52 days. *)
Theorem ntplogd_copies_values `{Env} `{NtpOs} s fields n1 n2 n3 v1 v2 v3 ts :
  popen "chronyc -c tracking" (RanCommand :: nt_past s) = Some (csv fields +:+ nl) →
  Forall (λ f, all_chars plain_char f = true) fields → last fields ≠ Some EmptyString →
  fields !! 4%nat = Some (sign_text n1 +:+ decimal9 v1) →
  fields !! 10%nat = Some (sign_text n2 +:+ decimal9 v2) →
  fields !! 11%nat = Some (sign_text n3 +:+ decimal9 v3) →
  0 ≤ v1 < 2 ^ 52 → 0 ≤ v2 < 2 ^ 52 → 0 ≤ v3 < 2 ^ 52 →
  ∃ s' e, get_clock_err s = (s', Ret e)
    ∧ clock_err_text ts e
      = default uninit_buf (formatTS ts 1024 def_format).2 +:+ ", "
        +:+ (sign_text n1 +:+ decimal9 v1) +:+ ", " +:+ (sign_text n2 +:+ decimal9 v2) +:+ ", "
        +:+ (sign_text n3 +:+ decimal9 v3) +:+ ", [" +:+ zstr (tv_sec ts) +:+ ", "
        +:+ zstr (tv_nsec ts) +:+ ", " +:+ zstr (tsc ts) +:+ "]" +:+ nl.
Proof.
  intros Hp Hf Hl F1 F2 F3 V1 V2 V3.
  destruct (stod_decimal9 n1 v1 V1) as (d1 & S1 & P1).
  destruct (stod_decimal9 n2 v2 V2) as (d2 & S2 & P2).
  destruct (stod_decimal9 n3 v3 V3) as (d3 & S3 & P3).
  eexists _, (ClockError d1 d2 d3). split.
  - apply get_clock_err_run with (csv fields +:+ nl); [exact Hp|].
    unfold tracking_err. rewrite exec_report, getlines_csv by done.
    cbv zeta. rewrite F1, F2, F3. simpl. by rewrite S1, S2, S3.
  - unfold clock_err_text. cbn [system_time_offset root_delay root_dispersion].
    by rewrite P1, P2, P3.
Qed.

(** ** A machine *)
Definition demo_elapsed (h : list os_event) : Z := foldr (λ e t, 1000 + ev_cost e + t) 0 h.

Definition demo_report : list string :=
  ["A9FEA97B"; "169.254.169.123"; "4"; "1700000000.123456789"; "-0.000001234"; "0.000000561";
   "0.000010000"; "-3.145"; "0.002"; "0.075"; "0.000440501"; "0.000214000"; "16.2"; "Normal"].

#[local] Instance demo_ntp : NtpOs := {
  now := λ h,
    let t := 1000300000000 + demo_elapsed h in
    Timespec (t `div` NANO_S_PER_S) (t `mod` NANO_S_PER_S) (demo_elapsed h) 0;
  popen := λ _ _, Some (csv demo_report +:+ nl)
}.
#[local] Existing Instance demo_env.

Definition demo_options : options := Options None (Some true) (Some 2) (Some 2) None.

Lemma demo_elapsed_bound inc h :
  Forall (nap inc) h → 0 ≤ demo_elapsed h ≤ Z.of_nat (length h) * (1000 + inc).
Proof.
  unfold nap. induction 1 as [|e h He Hh IH]; [simpl; lia|].
  change (demo_elapsed (e :: h)) with (1000 + ev_cost e + demo_elapsed h).
  rewrite length_cons, Nat2Z.inj_succ. lia.
Qed.

Lemma demo_world : world_ok 18 2000000000 1000.
Proof.
  assert (∀ h, ts_ns (now h) = 1000300000000 + demo_elapsed h) as Hn
    by (intros h; unfold ts_ns; cbn [now demo_ntp tv_sec tv_nsec];
        rewrite Z.mul_comm; symmetry; by apply Z.div_mod).
  split.
  - intros h [Hl Hh]. apply demo_elapsed_bound in Hh. cbn [now demo_ntp]. unfold ts_wf.
    cbn [tv_sec tv_nsec]. change NANO_S_PER_S with 1000000000.
    change (2 ^ 61) with 2305843009213693952. split; [by apply Z.mod_pos_bound|].
    split; [apply Z.div_le_lower_bound|apply Z.div_lt_upper_bound]; lia.
  - intros e h _. rewrite !Hn.
    change (demo_elapsed (e :: h)) with (1000 + ev_cost e + demo_elapsed h). lia.
Qed.

Lemma demo_answers : chrony_answers 18 2000000000.
Proof. intros h _. eexists _, _. split; [reflexivity|vm_compute; reflexivity]. Qed.

Lemma ntplogd_keeps_schedule_witness :
  ∃ s' l, ntplogd_main 2 3 (Some demo_options) (nt_start false) = (s', Ret 0)
    ∧ ofs_file (ntplogd_logf s') = map line_of l ∧ length l = 2%nat
    ∧ on_schedule 1000 2000000000 1001000000000 l
    ∧ history 18 2000000000 (nt_past s').
Proof.
  exact (ntplogd_keeps_schedule 18 1000 false demo_options _ "10.0.0.7" 1
    demo_world demo_answers eq_refl eq_refl (λ _, eq_refl) eq_refl eq_refl eq_refl
    ltac:(simpl; lia) ltac:(simpl; unfold NANO_S_PER_S, MICRO_S_PER_S, MILLI_S_PER_S; lia)
    ltac:(lia)).
Defined.

Lemma ntplogd_copies_values_witness :
  ∃ s' e, get_clock_err (nt_start false) = (s', Ret e)
    ∧ clock_err_text (Timespec 1001 7 42 0) e
      = "1970-01-01_00:00:41:000000007, -0.000001234, 0.000440501, 0.000214000, [1001, 7, 42]" +:+ nl.
Proof.
  exact (ntplogd_copies_values (nt_start false) demo_report true false false 1234 440501 214000
    (Timespec 1001 7 42 0) eq_refl ltac:(by repeat constructor) ltac:(done) eq_refl eq_refl
    eq_refl ltac:(lia) ltac:(lia) ltac:(lia)).
Defined.
