(* ===== verification/CpuUtil.v ===== *)
(** * CPU time sampling: src/cp/os/cpu_util.cpp

    A thread of the profiler reads /proc/stat every second, computes how busy the
    CPUs were since the reading before, and reports once when they leave too
    little room. The code for NUMA nodes is never reached (Numa_node_tot stays 0)
    and is left out. *)
From Stdlib Require Import QArith Qpower Lqa.
From S2P Require Import Prelude Util Floats TimeStamp Platform Log.

Definition cpu_util_spare : Z := 50.
Definition buffGRW : Z := 8192.
Definition TICS_EDGE : Z := 20.
Definition SIZEOF_CPU_t : Z := 160.

(** ** Data *)
Record CT_t := CT {
  ct_u : Z; ct_n : Z; ct_s : Z; ct_i : Z;    (* unsigned long long *)
  ct_w : Z; ct_x : Z; ct_y : Z; ct_z : Z;
  ct_tot : Z                                 (* long long *)
}.

Record CPU_t := CPU {
  cur : CT_t;
  sav : CT_t;
  edge : Z;
  cpu_id : Z
}.

Definition zero_CT : CT_t := CT 0 0 0 0 0 0 0 0 0.
Definition zero_CPU : CPU_t := CPU zero_CT zero_CT 0 0.

(** What the system gives: the number of CPUs online, whether /proc/stat opens, its
    contents at each reading, which allocations succeed, and whether the thread is
    to stop at each look at the flag. *)
Class CpuOs := {
  sysconf_nproc : Z;
  stat_opens : bool;
  proc_stat : nat → string;
  alloc_ok : Z → bool;
  stop_seen : nat → bool
}.

Record cpu_state := CpuState {
  smp_num_cpus : Z;
  fp : bool;
  Cpu_tics : option (list CPU_t);
  Cpu_faux_tot : Z;
  buf : option Z;            (* its size, siz; None: NULL *)
  readings : nat;
  checks : nat;
  stdout : list string;
  cu_sys : sys
}.

Definition set_smp n s := CpuState n (fp s) (Cpu_tics s) (Cpu_faux_tot s) (buf s)
  (readings s) (checks s) (stdout s) (cu_sys s).
Definition set_fp b s := CpuState (smp_num_cpus s) b (Cpu_tics s) (Cpu_faux_tot s) (buf s)
  (readings s) (checks s) (stdout s) (cu_sys s).
Definition set_tics l s := CpuState (smp_num_cpus s) (fp s) l (Cpu_faux_tot s) (buf s)
  (readings s) (checks s) (stdout s) (cu_sys s).
Definition set_faux n s := CpuState (smp_num_cpus s) (fp s) (Cpu_tics s) n (buf s)
  (readings s) (checks s) (stdout s) (cu_sys s).
Definition set_buf b s := CpuState (smp_num_cpus s) (fp s) (Cpu_tics s) (Cpu_faux_tot s) b
  (readings s) (checks s) (stdout s) (cu_sys s).
Definition set_readings n s := CpuState (smp_num_cpus s) (fp s) (Cpu_tics s) (Cpu_faux_tot s)
  (buf s) n (checks s) (stdout s) (cu_sys s).
Definition set_checks n s := CpuState (smp_num_cpus s) (fp s) (Cpu_tics s) (Cpu_faux_tot s)
  (buf s) (readings s) n (stdout s) (cu_sys s).
Definition set_stdout l s := CpuState (smp_num_cpus s) (fp s) (Cpu_tics s) (Cpu_faux_tot s)
  (buf s) (readings s) (checks s) l (cu_sys s).
Definition set_cu_sys x s := CpuState (smp_num_cpus s) (fp s) (Cpu_tics s) (Cpu_faux_tot s)
  (buf s) (readings s) (checks s) (stdout s) x.

(** ** Text: the conversions of sscanf(3) *)

(** Up to [k] conversions [" %llu"]; the first that fails ends the scan. *)
Fixpoint scan_llu (k : nat) (s : string) : list Z :=
  match k with
  | O => []
  | S k => match strtoull s with
           | Some (v, rest) => v :: scan_llu k rest
           | None => []
           end
  end.

Definition LONG_MAX : Z := 9223372036854775807.

(** [%d]: strtol, stored in an int. *)
Definition scan_d (s : string) : option (Z * string) :=
  let s := skip_spaces s in
  let '(neg, s) :=
    match s with
    | String "-"%char s' => (true, s')
    | String "+"%char s' => (false, s')
    | _ => (false, s)
    end in
  if starts_with_digit s then
    let '(v, rest) := take_digits 0 s in
    Some (i32 (if neg : bool then Z.max (- v) (- LONG_MAX - 1) else Z.min v LONG_MAX), rest)
  else None.

Definition after_cpu (s : string) : option string :=
  if String.prefix "cpu" s then Some (String.substring 3 (String.length s) s) else None.

(** ["cpu %llu ... %llu"]: the values stored. *)
Definition sscanf_cpu (s : string) : list Z :=
  match after_cpu s with Some s => scan_llu 8 s | None => [] end.

(** ["cpu%d %llu ... %llu"]: the number and the values stored. *)
Definition sscanf_cpud (s : string) : option Z * list Z :=
  match after_cpu s with
  | Some s =>
      match scan_d s with
      | Some (id, s) => (Some id, scan_llu 8 s)
      | None => (None, [])
      end
  | None => (None, [])
  end.

(** The first fields of a [CT_t] are overwritten, as many as were converted. *)
Definition store_fields (v : list Z) (c : CT_t) : CT_t :=
  let f i old := default old (v !! i) in
  CT (f 0%nat (ct_u c)) (f 1%nat (ct_n c)) (f 2%nat (ct_s c)) (f 3%nat (ct_i c))
    (f 4%nat (ct_w c)) (f 5%nat (ct_x c)) (f 6%nat (ct_y c)) (f 7%nat (ct_z c)) (ct_tot c).

(** strchr(s, '\n'), and one further; [None] is NULL. *)
Fixpoint next_line (s : string) : option string :=
  match s with
  | EmptyString => None
  | String c s => if Ascii.eqb c "010"%char then Some s else next_line s
  end.

Section CpuUtil.
Context `{Env} `{CpuOs}.

Definition cu_say (m : string) : M cpu_state unit :=
  modify (λ s, set_stdout (stdout s ++ [m]) s).

Definition cpuinfo : M cpu_state unit :=
  modify (set_smp (if sysconf_nproc <? 1 then 1 else sysconf_nproc)).

(** Whether calloc(3) gives memory; alloc_r does the same with realloc(3). *)
Definition alloc_c (num : Z) : M cpu_state bool :=
  let num := if num =? 0 then num + 1 else num in
  when (negb (alloc_ok num)) (cu_say ("Fail to allocate memory!" +:+ nl)) ;;
  mret (alloc_ok num).
Definition alloc_r (num : Z) : M cpu_state bool := alloc_c num.

(** ** cpus_refresh *)
Definition open_stat : M cpu_state unit :=
  s ← get;
  if fp s then mret tt
  else
    (if stat_opens then modify (set_fp true)
     else cu_say ("Fail to open /proc/stat!" +:+ nl)) ;;
    ok ← alloc_c ((1 + smp_num_cpus s + 1) * SIZEOF_CPU_t);
    modify (set_tics (if ok : bool
                      then Some (replicate (Z.to_nat (1 + smp_num_cpus s + 1)) zero_CPU)
                      else None)).

(** The loop around fread: [tot_read] bytes are in the buffer, the file has [len]. *)
Fixpoint slurp (fuel : nat) (tot_read len : Z) : M cpu_state Z :=
  match fuel with
  | O => spin "the file does not end"
  | S fuel =>
      s ← get;
      match buf s with
      | None => undefined "fread to NULL"
      | Some siz =>
          let num := Z.min (siz - tot_read) (len - tot_read) in
          if 0 <? num then
            let tot_read := tot_read + num in
            if tot_read <? siz then mret tot_read
            else
              ok ← alloc_r (siz + buffGRW);
              modify (set_buf (if ok : bool then Some (siz + buffGRW) else None)) ;;
              slurp fuel tot_read len
          else mret tot_read
      end
  end.

(** The file from its beginning, as a C string. *)
Definition read_stat : M cpu_state string :=
  s ← get;
  when (bool_decide (buf s = None))
    (ok ← alloc_c buffGRW; modify (set_buf (if ok : bool then Some buffGRW else None))) ;;
  let text := proc_stat (readings s) in
  modify (set_readings (S (readings s))) ;;
  tot_read ← slurp (S (String.length text)) 0 (Z.of_nat (String.length text));
  s ← get;
  match buf s with
  | None => undefined "write to NULL"
  | Some siz =>
      if tot_read <? siz then mret (c_string text) else undefined "write past the buffer"
  end.

(** Cpu_tics[i], read and changed. *)
Definition on_cpu (i : Z) (f : CPU_t → CPU_t) : M cpu_state CPU_t :=
  s ← get;
  match Cpu_tics s ≫= (.!! Z.to_nat i) with
  | Some c =>
      modify (set_tics (option_map (<[Z.to_nat i := f c]>) (Cpu_tics s))) ;; mret (f c)
  | None => undefined "no such CPU"
  end.

Definition set_cur_tot (c : CPU_t) : CPU_t :=
  let t := cur c in
  CPU (CT (ct_u t) (ct_n t) (ct_s t) (ct_i t) (ct_w t) (ct_x t) (ct_y t) (ct_z t)
         (i64 (ct_u t + ct_s t + ct_n t + ct_i t + ct_w t + ct_x t + ct_y t + ct_z t)))
    (sav c) (edge c) (cpu_id c).

Definition new_edge (n : Z) (c : CPU_t) : Z :=
  Z.quot (Z.quot (i64 (ct_tot (cur c) - ct_tot (sav c))) n) (Z.quot 100 TICS_EDGE).

(** The summary line. *)
Definition refresh_sum (bp : string) : M cpu_state Z :=
  s ← get;
  let v := sscanf_cpu bp in
  sum ← on_cpu (smp_num_cpus s)
          (λ c, CPU (store_fields v (cur c)) (cur c) (edge c) (cpu_id c));
  when (length v <? 4)%nat (cu_say ("Fail to sscanf cpu!" +:+ nl)) ;;
  sum ← on_cpu (smp_num_cpus s) (λ c,
          let c := set_cur_tot c in
          CPU (cur c) (sav c) (new_edge (smp_num_cpus s) c) (cpu_id c));
  mret (edge sum).

(** One turn of the loop over the CPUs; false is the break. *)
Definition refresh_cpu (i sum_edge : Z) (bp : string) : M cpu_state bool :=
  let '(id, v) := sscanf_cpud bp in
  on_cpu i (λ c, CPU (store_fields v (cur c)) (cur c) (edge c) (default (cpu_id c) id)) ;;
  if (length (option_list id) + length v <? 4)%nat then mret false
  else
    on_cpu i (λ c, CPU (cur c) (sav c) sum_edge (cpu_id c)) ;;
    mret true.

(** The loop, for the [n] CPUs from [i]; the number of those that have a line. *)
Fixpoint refresh_cpus (n : nat) (i sum_edge : Z) (bp : string) : M cpu_state Z :=
  match n with
  | O => mret i
  | S n =>
      match next_line bp with
      | None => undefined "sscanf of NULL + 1"
      | Some bp =>
          ok ← refresh_cpu i sum_edge bp;
          if ok : bool then refresh_cpus n (i + 1) sum_edge bp else mret i
      end
  end.

Definition cpus_refresh : M cpu_state unit :=
  open_stat ;;
  s ← get;
  (if fp s then mret tt else undefined "rewind of NULL") ;;
  bp ← read_stat;
  sum_edge ← refresh_sum bp;
  i ← refresh_cpus (Z.to_nat (smp_num_cpus s)) 0 sum_edge bp;
  modify (set_faux i).

(** ** cpu_tics: floats *)
Definition TRIMz (x : Z) : Z := if i64 x <? 0 then 0 else i64 x.

Definition float_of (z : Z) : Q := rnd FLOAT (inject_Z z).

Definition cpu_tics (cpu : CPU_t) : Q :=
  let d f := TRIMz (u64 (f (cur cpu) - f (sav cpu))) in
  let u := d ct_u in let s := d ct_s in let n := d ct_n in let i := d ct_i in
  let w := d ct_w in let x := d ct_x in let y := d ct_y in let z := d ct_z in
  let tot := i64 (u + s + n + i + w + x + y + z) in
  let idle := tot <? edge cpu in
  let keep (v : Z) := if idle then 0%Z else v in
  let tot := keep tot in
  let tot := if tot <? 1 then 1 else tot in
  let scale := rnd FLOAT (rnd DOUBLE (100 / float_of tot)%Q) in
  let pct_user := rnd FLOAT (float_of (i64 (keep u + keep n)) * scale)%Q in
  let pct_syst := rnd FLOAT (float_of (i64 (keep s + keep x + keep y)) * scale)%Q in
  rnd FLOAT (pct_user + pct_syst)%Q.

Definition summary_show : M cpu_state Q :=
  cpus_refresh ;;
  s ← get;
  match Cpu_tics s with
  | None => undefined "Cpu_tics is NULL"
  | Some l =>
      mret (foldl (λ sum c, rnd FLOAT (sum + cpu_tics c)%Q) 0%Q
              (take (Z.to_nat (Cpu_faux_tot s)) l))
  end.

(** ** The thread *)
Definition oversubs_message : string := "Current CPU utilization exceeds the threshold!".

(** [waits] looks at the flag; [print] tells whether the message was sent. *)
Fixpoint chk_loop (waits : nat) (threshold : Z) (print : Z) : M cpu_state unit :=
  match waits with
  | O => spin "the flag is not set"
  | S waits =>
      s ← get;
      modify (set_checks (S (checks s))) ;;
      if stop_seen (checks s) then mret tt
      else
        cpu_util ← summary_show;
        if negb (Qle_bool cpu_util (float_of threshold)) && (print =? 0) then
          zoom cu_sys set_cu_sys (logFail "os/cpu_util.cpp" 311 oversubs_message) ;;
          chk_loop waits threshold 1
        else chk_loop waits threshold print
  end.

Definition runOversubsChk (waits : nat) : M cpu_state unit :=
  cpuinfo ;;
  s ← get;
  chk_loop waits (i32 (smp_num_cpus s * 100 - cpu_util_spare)) 0.
End CpuUtil.

(** ** /proc/stat *)
Definition counters_text (v : list Z) : string :=
  string_concat (map (λ z, " " +:+ zstr z) v).

Definition stat_line (label : string) (v : list Z) (guests : string) : string :=
  "cpu" +:+ label +:+ counters_text v +:+ guests +:+ nl.

(** The lines of the CPUs from number [i] on. *)
Fixpoint cpu_lines (i : Z) (cpus : list (list Z)) (guests : string) : string :=
  match cpus with
  | [] => EmptyString
  | v :: cpus => stat_line (zstr i) v guests +:+ cpu_lines (i + 1) cpus guests
  end.

(** One reading: the summary, a line per CPU, and what follows. *)
Record frame := Frame { fr_sum : list Z; fr_cpus : list (list Z) }.
Definition stat_text (f : frame) (guests tail : string) : string :=
  stat_line " " (fr_sum f) guests +:+ cpu_lines 0 (fr_cpus f) guests +:+ tail.

Definition counters_ok (v : list Z) : Prop := length v = 8%nat ∧ Forall (λ z, 0 ≤ z < 2 ^ 59) v.

(** The columns after the eighth: no digit first, no end of line. *)
Definition guests_ok (guests : string) : Prop :=
  starts_with_digit guests = false
  ∧ all_chars (λ c, negb (Ascii.eqb c "010")) guests = true.

Lemma next_line_skip s t :
  all_chars (λ c, negb (Ascii.eqb c "010")) s = true → next_line (s +:+ nl +:+ t) = Some t.
Proof.
  induction s as [|c s IH]; [done|]. rewrite string_app_cons. simpl.
  destruct (Ascii.eqb c "010"); [done|]. exact IH.
Qed.

Lemma digit_not_nl s :
  all_chars is_digit s = true → all_chars (λ c, negb (Ascii.eqb c "010")) s = true.
Proof.
  apply all_chars_impl. intros c. destruct (Ascii.eqb_spec c "010") as [->|]; [by vm_compute|done].
Qed.

Lemma counters_not_nl v :
  Forall (λ z, 0 ≤ z < 2 ^ 59) v →
  all_chars (λ c, negb (Ascii.eqb c "010")) (counters_text v) = true.
Proof.
  induction 1 as [|z v Hz Hv IH]; [done|]. unfold counters_text in *. simpl.
  rewrite all_chars_app, IH, andb_true_r. apply digit_not_nl, zstr_digits. lia.
Qed.

Lemma next_stat_line label v guests t :
  all_chars (λ c, negb (Ascii.eqb c "010")) label = true → counters_ok v → guests_ok guests →
  next_line (stat_line label v guests +:+ t) = Some t.
Proof.
  intros Hl [_ Hv] [_ Hg]. unfold stat_line.
  replace (("cpu" +:+ label +:+ counters_text v +:+ guests +:+ nl) +:+ t)
    with (("cpu" +:+ label +:+ counters_text v +:+ guests) +:+ nl +:+ t)
    by (by rewrite <- !string_app_assoc).
  apply next_line_skip. rewrite !all_chars_app, Hl, counters_not_nl, Hg by done. done.
Qed.

Lemma counters_text_cons z v rest :
  counters_text (z :: v) +:+ rest = String " " (zstr z +:+ counters_text v +:+ rest).
Proof.
  unfold counters_text. cbn [map string_concat foldr].
  by rewrite !string_app_assoc.
Qed.

Lemma scan_counters v rest :
  Forall (λ z, 0 ≤ z < 2 ^ 59) v → starts_with_digit rest = false →
  scan_llu (length v) (counters_text v +:+ rest) = v.
Proof.
  intros Hv Hr. induction Hv as [|z v Hz Hv IH]; [done|].
  rewrite counters_text_cons. cbn [length scan_llu].
  change (strtoull (String " " ?s)) with (strtoull s). rewrite strtoull_zstr.
  - f_equal. exact IH.
  - split; [lia|]. pow2. change (2 ^ 59) with 576460752303423488 in Hz. lia.
  - destruct v; [exact Hr|]. by rewrite counters_text_cons.
Qed.

Lemma substring_long n s : (String.length s <= n)%nat → String.substring 0 n s = s.
Proof.
  revert n. induction s as [|c s IH]; intros [|n] Hn; simpl in *; try done; [lia|].
  rewrite IH; [done|lia].
Qed.

Lemma after_cpu_app s : after_cpu ("cpu" +:+ s) = Some s.
Proof.
  unfold after_cpu.
  assert (String.prefix "cpu" ("cpu" +:+ s) = true) as -> by (by destruct s). f_equal.
  change (String.substring 0 (String.length ("cpu" +:+ s)) s = s).
  apply substring_long. rewrite string_length_app. lia.
Qed.

Lemma sscanf_cpu_line v guests t :
  counters_ok v → guests_ok guests → sscanf_cpu (stat_line " " v guests +:+ t) = v.
Proof.
  intros [Hl Hv] [Hg _]. unfold stat_line, sscanf_cpu. rewrite string_app_assoc, after_cpu_app.
  rewrite <- Hl at 1. rewrite !string_app_assoc.
  assert (∀ s, scan_llu (length v) (" " +:+ s) = scan_llu (length v) s) as ->
    by (intros s; rewrite Hl; done).
  apply scan_counters; [done|]. destruct guests; [done|exact Hg].
Qed.

Lemma sscanf_cpud_line i v guests t :
  0 ≤ i < 2 ^ 31 → counters_ok v → guests_ok guests →
  sscanf_cpud (stat_line (zstr i) v guests +:+ t) = (Some i, v).
Proof.
  intros Hi [Hl Hv] [Hg _]. unfold stat_line, sscanf_cpud. rewrite string_app_assoc, after_cpu_app.
  rewrite !string_app_assoc.
  assert (∀ r, starts_with_digit r = false → scan_d (zstr i +:+ r) = Some (i, r)) as Hd.
  { intros r Hr. unfold scan_d.
    pose proof (zstr_starts_with_digit i r ltac:(lia)) as Hs.
    assert (skip_spaces (zstr i +:+ r) = zstr i +:+ r) as ->
      by (destruct (zstr i +:+ r) as [|[[] [] [] [] [] [] [] []] s]; done).
    assert (match zstr i +:+ r with
            | String "-"%char s' => (true, s')
            | String "+"%char s' => (false, s')
            | _ => (false, zstr i +:+ r)
            end = (false, zstr i +:+ r)) as ->
      by (destruct (zstr i +:+ r) as [|[[] [] [] [] [] [] [] []] s]; done).
    rewrite Hs, take_digits_zstr, take_digits_stop by (done || lia).
    do 2 f_equal. unfold LONG_MAX. pow2. rewrite Z.min_l by lia. by rewrite wrapS_small by width. }
  rewrite Hd.
  - f_equal. rewrite <- Hl at 1. apply scan_counters; [done|]. destruct guests; [done|exact Hg].
  - destruct v as [|z v]; [done|]. done.
Qed.

(** ** One refresh *)
Definition fields (c : CT_t) : list Z :=
  [ct_u c; ct_n c; ct_s c; ct_i c; ct_w c; ct_x c; ct_y c; ct_z c].

Lemma store_fields_all v c : length v = 8%nat → fields (store_fields v c) = v.
Proof. intros Hl. do 8 (destruct v as [|? v]; [done|]). by destruct v. Qed.

Definition zsum (v : list Z) : Z := foldr Z.add 0 v.

(** What /proc/stat says, reading by reading. *)
Class Stat `{CpuOs} := {
  ncpu : nat;
  frames : nat → frame;
  guests : string;
  tail : string
}.

Record stat_ok `{Stat} : Prop := StatOk {
  st_alloc z : alloc_ok z = true;
  st_opens : stat_opens = true;
  st_text k : proc_stat k = stat_text (frames k) guests tail;
  st_c k : c_string (proc_stat k) = proc_stat k;   (* no NUL *)
  st_guests : guests_ok guests;
  st_ncpu : (1 <= ncpu <= 256)%nat;
  st_len k : length (fr_cpus (frames k)) = ncpu;
  st_sum k : counters_ok (fr_sum (frames k));
  st_cpus k : Forall counters_ok (fr_cpus (frames k))
}.

Section Refresh.
Context `{Env} `{Stat} (Hst : stat_ok).

Lemma on_cpu_run i f s l c :
  Cpu_tics s = Some l → l !! i = Some c →
  on_cpu (Z.of_nat i) f s = (set_tics (Some (<[i := f c]> l)) s, Ret (f c)).
Proof.
  intros Hl Hc. unfold on_cpu. rewrite (bind_Ret get _ _ _ _ eq_refl).
  rewrite Nat2Z.id. monad_simpl. rewrite Hl. simpl. by rewrite Hc.
Qed.

Lemma alloc_c_run z s : alloc_c z s = (s, Ret true).
Proof. unfold alloc_c. cbv zeta. rewrite (st_alloc Hst). done. Qed.

(** The file fits the buffer with its NUL, however long it is. *)
Lemma slurp_run fuel tot_read len siz s :
  buf s = Some siz → 0 ≤ tot_read < siz → tot_read ≤ len → len - tot_read < Z.of_nat fuel →
  ∃ siz', slurp fuel tot_read len s = (set_buf (Some siz') s, Ret len) ∧ 0 ≤ len < siz'.
Proof.
  revert tot_read siz s. induction fuel as [|fuel IH]; intros tot siz s Hb Ht Hl Hf; [lia|].
  cbn [slurp]. rewrite (bind_Ret get _ _ _ _ eq_refl), Hb. cbv zeta.
  destruct (Z.ltb_spec 0 (Z.min (siz - tot) (len - tot))) as [Hpos|Hz].
  - destruct (Z.ltb_spec (tot + Z.min (siz - tot) (len - tot)) siz).
    + exists siz. replace (tot + Z.min (siz - tot) (len - tot)) with len by lia.
      split; [|lia]. rewrite <- Hb. by destruct s.
    + rewrite (bind_Ret _ _ _ _ _ (alloc_c_run _ _)).
      rewrite (bind_Ret (modify _) _ _ _ tt eq_refl).
      destruct (IH (tot + Z.min (siz - tot) (len - tot)) (siz + buffGRW)
        (set_buf (Some (siz + buffGRW)) s)) as (siz' & E & Hs); try done; unfold buffGRW; try lia.
      exists siz'. unfold buffGRW in E. by rewrite E.
  - exists siz. replace len with tot by lia. split; [|lia]. rewrite <- Hb. by destruct s.
Qed.

Definition buf_ok (s : cpu_state) : Prop := ∀ siz, buf s = Some siz → 0 < siz.

Lemma read_stat_run s :
  buf_ok s →
  ∃ siz, read_stat s = (set_readings (S (readings s)) (set_buf (Some siz) s),
      Ret (proc_stat (readings s))) ∧ 0 < siz.
Proof.
  intros Hb. unfold read_stat. rewrite (bind_Ret get _ _ _ _ eq_refl).
  assert (∃ siz, when (bool_decide (buf s = None))
    (ok ← alloc_c buffGRW; modify (set_buf (if ok : bool then Some buffGRW else None))) s
    = (set_buf (Some siz) s, Ret tt) ∧ 0 < siz) as (siz & E & Hs).
  { destruct (buf s) as [siz|] eqn:Eb.
    - exists siz. split; [|by apply Hb]. rewrite bool_decide_eq_false_2 by done.
      unfold when. rewrite <- Eb. by destruct s.
    - exists buffGRW. split; [|done]. rewrite bool_decide_eq_true_2 by done. unfold when.
      by rewrite (bind_Ret _ _ _ _ _ (alloc_c_run _ _)). }
  rewrite (bind_Ret _ _ _ _ _ E). cbv zeta. rewrite (bind_Ret (modify _) _ _ _ tt eq_refl).
  set (s1 := set_readings _ _). set (text := proc_stat (readings s)).
  destruct (slurp_run (S (String.length text)) 0 (Z.of_nat (String.length text)) siz s1)
    as (siz' & E2 & Hs'); try done; try lia.
  rewrite (bind_Ret _ _ _ _ _ E2), (bind_Ret get _ _ _ _ eq_refl).
  cbn [buf set_buf]. destruct (Z.ltb_spec (Z.of_nat (String.length text)) siz'); [|lia].
  exists siz'. split; [|lia]. unfold text. rewrite (st_c Hst). done.
Qed.

Definition edge_of (n v_tot old_tot : Z) : Z :=
  Z.quot (Z.quot (i64 (i64 v_tot - old_tot)) n) 5.

Lemma refresh_sum_run v rest s l c :
  counters_ok v → Cpu_tics s = Some l → smp_num_cpus s = Z.of_nat ncpu → l !! ncpu = Some c →
  ∃ c', refresh_sum (stat_line " " v guests +:+ rest) s
      = (set_tics (Some (<[ncpu := c']> l)) s,
         Ret (edge_of (Z.of_nat ncpu) (zsum v) (ct_tot (cur c))))
    ∧ ct_tot (cur c') = i64 (zsum v).
Proof.
  intros Hv Hl Hn Hc. pose proof Hv as [H8 _]. unfold refresh_sum.
  rewrite (bind_Ret get _ _ _ _ eq_refl), sscanf_cpu_line by (done || apply (st_guests Hst)).
  cbv zeta. rewrite Hn, H8. rewrite (bind_Ret _ _ _ _ _ (on_cpu_run _ _ _ _ _ Hl Hc)).
  rewrite (bind_Ret (when false _) _ _ _ tt eq_refl).
  assert (ncpu < length l)%nat by (by eapply lookup_lt_Some).
  set (c1 := CPU _ _ _ _).
  match goal with |- context [on_cpu _ ?f] =>
    assert (on_cpu (Z.of_nat ncpu) f (set_tics (Some (<[ncpu := c1]> l)) s)
      = (set_tics (Some (<[ncpu := f c1]> l)) s, Ret (f c1))) as E
    by (by rewrite (on_cpu_run ncpu f (set_tics (Some (<[ncpu := c1]> l)) s) (<[ncpu := c1]> l) c1
          eq_refl) by (by apply list_lookup_insert_eq); rewrite list_insert_insert_eq) end.
  rewrite (bind_Ret _ _ _ _ _ E). clear E. cbv zeta.
  assert (ct_tot (cur (set_cur_tot c1)) = i64 (zsum v)) as Et.
  { unfold c1, set_cur_tot. cbn [cur ct_tot]. f_equal.
    do 8 (destruct v as [|? v]; [done|]). destruct v; [|done].
    cbn -[Z.add]. unfold zsum. cbn [foldr]. lia. }
  set (c2 := CPU (cur (set_cur_tot c1)) _ _ _).
  exists c2. split; [|exact Et].
  enough (edge c2 = edge_of (Z.of_nat ncpu) (zsum v) (ct_tot (cur c))) as -> by done.
  unfold c2, new_edge, edge_of. cbn [edge]. by rewrite Et.
Qed.

Lemma refresh_cpu_run i e v rest s l c :
  Z.of_nat i < 65536 → counters_ok v → Cpu_tics s = Some l → l !! i = Some c →
  refresh_cpu (Z.of_nat i) e (stat_line (zstr (Z.of_nat i)) v guests +:+ rest) s
  = (set_tics (Some (<[i := CPU (store_fields v (cur c)) (cur c) e (Z.of_nat i)]> l)) s, Ret true).
Proof.
  intros Hi Hv Hl Hc. pose proof Hv as [H8 _]. unfold refresh_cpu.
  rewrite sscanf_cpud_line by (try done; try apply (st_guests Hst); pow2; lia).
  rewrite (bind_Ret _ _ _ _ _ (on_cpu_run _ _ _ _ _ Hl Hc)).
  rewrite H8. change ((length (option_list (Some (Z.of_nat i))) + 8 <? 4)%nat) with false.
  cbv beta iota.
  assert (i < length l)%nat by (by eapply lookup_lt_Some).
  set (c1 := CPU _ _ _ _).
  erewrite bind_Ret.
  2:{ apply (on_cpu_run i _ _ (<[i:=c1]> l) c1); [done|]. by apply list_lookup_insert_eq. }
  by rewrite list_insert_insert_eq.
Qed.

(** The loop over the CPUs: every entry gets its line, the entry before goes to [sav]. *)
Lemma refresh_cpus_run cpus i e bp rest s l :
  Cpu_tics s = Some l → next_line bp = Some (cpu_lines (Z.of_nat i) cpus guests +:+ rest) →
  Forall counters_ok cpus → Z.of_nat (i + length cpus) <= 65536 → (i + length cpus <= length l)%nat →
  ∃ l', refresh_cpus (length cpus) (Z.of_nat i) e bp s
      = (set_tics (Some l') s, Ret (Z.of_nat (i + length cpus)))
    ∧ length l' = length l
    ∧ (∀ j, (j < i ∨ i + length cpus <= j)%nat → l' !! j = l !! j)
    ∧ (∀ j v, cpus !! j = Some v → ∃ c, l !! (i + j)%nat = Some c
        ∧ l' !! (i + j)%nat
          = Some (CPU (store_fields v (cur c)) (cur c) e (Z.of_nat (i + j)))).
Proof.
  intros Hl Hn Hv. revert i bp s l Hl Hn.
  induction Hv as [|v cpus Hv Hvs IH]; intros i bp s l Hl Hn Hi Hlen.
  - exists l. rewrite Nat.add_0_r, <- Hl. split_and!; try done. by destruct s.
  - cbn [length] in *. cbn [refresh_cpus]. rewrite Hn. cbn [cpu_lines].
    destruct (lookup_lt_is_Some_2 l i ltac:(lia)) as [c Hc].
    rewrite string_app_assoc, (bind_Ret _ _ _ _ _ (refresh_cpu_run i e v _ s l c
      ltac:(lia) Hv Hl Hc)).
    set (c1 := CPU _ _ _ _). set (s1 := set_tics _ s).
    destruct (IH (S i) (stat_line (zstr (Z.of_nat i)) v guests
        +:+ cpu_lines (Z.of_nat i + 1) cpus guests +:+ rest) s1 (<[i:=c1]> l))
      as (l' & E & L1 & L2 & L3); [done| |lia|by rewrite length_insert; lia|].
    { rewrite next_stat_line; [|apply digit_not_nl, zstr_digits; lia|done|apply (st_guests Hst)].
      do 3 f_equal. lia. }
    replace (Z.of_nat (S i)) with (Z.of_nat i + 1) in E by lia. rewrite E.
    exists l'. rewrite length_insert in L1. split_and!.
    + by replace (S i + length cpus)%nat with (i + S (length cpus))%nat by lia.
    + done.
    + intros j Hj. rewrite L2 by lia. apply list_lookup_insert_ne. lia.
    + intros [|j] w Hw; simpl in Hw.
      * simplify_eq. exists c. rewrite Nat.add_0_r. split; [done|].
        rewrite L2 by lia. apply list_lookup_insert_eq. lia.
      * destruct (L3 j w Hw) as (c' & C1 & C2).
        replace (i + S j)%nat with (S i + j)%nat by lia. exists c'. split; [|done].
        by rewrite list_lookup_insert_ne in C1 by lia.
Qed.

(** ** From reading to reading *)
Definition before (k i : nat) : list Z :=
  match k with
  | O => replicate 8 0
  | S k => default [] (fr_cpus (frames k) !! i)
  end.
Definition before_tot (k : nat) : Z :=
  match k with O => 0 | S k => i64 (zsum (fr_sum (frames k))) end.

Record rows (k : nat) (l : list CPU_t) : Prop := Rows {
  rw_len : length l = (ncpu + 2)%nat;
  rw_cpu i c : (i < ncpu)%nat → l !! i = Some c → fields (cur c) = before k i;
  rw_sum c : l !! ncpu = Some c → ct_tot (cur c) = before_tot k
}.

(** Between two refreshes, after [k] readings. *)
Record ready (k : nat) (s : cpu_state) : Prop := Ready {
  rd_n : smp_num_cpus s = Z.of_nat ncpu;
  rd_k : readings s = k;
  rd_buf : buf_ok s;
  rd_tics : if fp s then ∃ l, Cpu_tics s = Some l ∧ rows k l else k = 0%nat
}.

Lemma open_stat_run k s :
  ready k s →
  ∃ l, open_stat s = (set_tics (Some l) (set_fp true s), Ret tt) ∧ rows k l.
Proof.
  intros [Hn Hk Hb Ht]. unfold open_stat. rewrite (bind_Ret get _ _ _ _ eq_refl).
  destruct (fp s) eqn:Ef.
  - destruct Ht as (l & Hl & Hr). exists l. split; [|done]. rewrite <- Hl, <- Ef. by destruct s.
  - rewrite (st_opens Hst), (bind_Ret (modify _) _ _ _ tt eq_refl).
    rewrite (bind_Ret _ _ _ _ _ (alloc_c_run _ _)), Hn.
    eexists. split; [reflexivity|].
    replace (Z.to_nat (1 + Z.of_nat ncpu + 1)) with (ncpu + 2)%nat by lia. subst k.
    rewrite Ht. split.
    + by rewrite length_replicate.
    + intros i c _ Hc. by apply lookup_replicate in Hc as [-> _].
    + intros c Hc. by apply lookup_replicate in Hc as [-> _].
Qed.

Lemma cpus_refresh_run k s :
  ready k s →
  ∃ s' l, cpus_refresh s = (s', Ret tt) ∧ ready (S k) s'
    ∧ Cpu_tics s' = Some l ∧ length l = (ncpu + 2)%nat ∧ Cpu_faux_tot s' = Z.of_nat ncpu
    ∧ cu_sys s' = cu_sys s ∧ checks s' = checks s
    ∧ ∀ i v, fr_cpus (frames k) !! i = Some v →
        ∃ c, l !! i = Some c ∧ fields (cur c) = v ∧ fields (sav c) = before k i
          ∧ edge c = edge_of (Z.of_nat ncpu) (zsum (fr_sum (frames k))) (before_tot k).
Proof.
  intros Hr. destruct (open_stat_run k s Hr) as (l & E1 & Hrow).
  destruct Hr as [Hn Hk Hb Ht], Hrow as [R1 R2 R3]. pose proof (st_ncpu Hst) as Hnc.
  unfold cpus_refresh. rewrite (bind_Ret _ _ _ _ _ E1), (bind_Ret get _ _ _ _ eq_refl).
  change (fp (set_tics (Some l) (set_fp true s))) with true. cbv iota.
  rewrite (bind_Ret (mret tt) _ _ _ tt eq_refl).
  destruct (read_stat_run (set_tics (Some l) (set_fp true s)) Hb) as (siz & E2 & Hsiz).
  rewrite (bind_Ret _ _ _ _ _ E2). cbn [readings set_tics set_fp].
  rewrite (st_text Hst), Hk. unfold stat_text. set (s2 := set_readings _ _).
  destruct (lookup_lt_is_Some_2 l ncpu ltac:(lia)) as [c Hc].
  destruct (refresh_sum_run (fr_sum (frames k))
    (cpu_lines 0 (fr_cpus (frames k)) guests +:+ tail) s2 l c (st_sum Hst k) eq_refl Hn Hc)
    as (c' & E3 & Hc').
  rewrite (bind_Ret _ _ _ _ _ E3), (R3 c Hc). set (s3 := set_tics _ s2).
  destruct (refresh_cpus_run (fr_cpus (frames k)) 0
    (edge_of (Z.of_nat ncpu) (zsum (fr_sum (frames k))) (before_tot k))
    (stat_line " " (fr_sum (frames k)) guests
       +:+ cpu_lines 0 (fr_cpus (frames k)) guests +:+ tail) tail s3 (<[ncpu:=c']> l))
    as (l' & E4 & L1 & L2 & L3); [done| |apply (st_cpus Hst)|..].
  { apply next_stat_line; [done|apply (st_sum Hst)|apply (st_guests Hst)]. }
  { rewrite (st_len Hst). lia. }
  { rewrite (st_len Hst), length_insert. lia. }
  rewrite (st_len Hst) in *. rewrite length_insert in L1.
  cbn [smp_num_cpus set_tics set_fp]. rewrite Hn, Nat2Z.id.
  rewrite (bind_Ret _ _ _ _ _ E4). eexists _, l'. split; [reflexivity|].
  assert (∀ i v, fr_cpus (frames k) !! i = Some v →
        ∃ c, l' !! i = Some c ∧ fields (cur c) = v ∧ fields (sav c) = before k i
          ∧ edge c = edge_of (Z.of_nat ncpu) (zsum (fr_sum (frames k))) (before_tot k)) as Hall.
  { intros i v Hv. destruct (L3 i v Hv) as (c0 & C1 & C2). eexists. split; [exact C2|].
    assert (i < ncpu)%nat by (rewrite <- (st_len Hst k); by eapply lookup_lt_Some).
    cbn [cur sav edge]. rewrite list_lookup_insert_ne in C1 by (simpl; lia).
    pose proof (st_cpus Hst k) as Hf. rewrite Forall_lookup in Hf. destruct (Hf i v Hv) as [H8 _].
    split_and!; [by apply store_fields_all|by apply R2|done]. }
  split_and!; try done; [|lia]. split.
  - done.
  - done.
  - intros z Hz. simpl in Hz. by simplify_eq.
  - simpl. exists l'. split; [done|]. split; [lia| |].
    + intros i c0 Hi Hc0. unfold before.
      destruct (lookup_lt_is_Some_2 (fr_cpus (frames k)) i ltac:(rewrite (st_len Hst); lia)) as [v Hv].
      destruct (Hall i v Hv) as (c1 & C1 & C2 & _). rewrite Hv. simpl. by simplify_eq.
    + intros c0 Hc0. rewrite L2 in Hc0 by lia.
      rewrite list_lookup_insert_eq in Hc0 by lia. by simplify_eq.
Qed.
End Refresh.
