(* ===== verification/CpuLoad.v ===== *)
(** * What the CPU watch reports: src/cp/os/cpu_util.cpp

    The percentages of CpuUtil against the true ones, and the thread: it reports
    when, and only when, the CPUs are too busy, once. *)
From Stdlib Require Import QArith Lqa.
From S2P Require Import Prelude Util Floats TimeStamp Platform Log CpuUtil.

(** ** The percentage of one CPU *)
Definition delta (f : CT_t → Z) (c : CPU_t) : Z := f (cur c) - f (sav c).
Definition ticks (c : CPU_t) : Z :=
  delta ct_u c + delta ct_s c + delta ct_n c + delta ct_i c + delta ct_w c
  + delta ct_x c + delta ct_y c + delta ct_z c.
Definition busy (c : CPU_t) : Z :=
  delta ct_u c + delta ct_n c + (delta ct_s c + delta ct_x c + delta ct_y c).

Definition grew (f : CT_t → Z) (c : CPU_t) : Prop :=
  0 ≤ f (sav c) ≤ f (cur c) ∧ f (cur c) < 2 ^ 59.
Record counted (c : CPU_t) : Prop := Counted {
  gr_u : grew ct_u c; gr_n : grew ct_n c; gr_s : grew ct_s c; gr_i : grew ct_i c;
  gr_w : grew ct_w c; gr_x : grew ct_x c; gr_y : grew ct_y c; gr_z : grew ct_z c
}.

Lemma trim_grew f c : grew f c → TRIMz (u64 (f (cur c) - f (sav c))) = delta f c.
Proof.
  unfold grew, TRIMz, delta. intros Hg. change (2 ^ 59) with 576460752303423488 in Hg.
  rewrite wrapU_small, wrapS_small by (pow2; lia). by zcase; lia.
Qed.

Lemma delta_range f c : grew f c → 0 ≤ delta f c < 2 ^ 59.
Proof. unfold grew, delta. lia. Qed.

Lemma counted_busy c : counted c → 0 ≤ busy c ≤ ticks c.
Proof.
  intros []. unfold busy, ticks. repeat match goal with Hg : grew _ c |- _ =>
    apply delta_range in Hg end. lia.
Qed.

Lemma float_of_close z : 0 ≤ z → close 1 (float_of z) (inject_Z z).
Proof.
  intros Hz. assert (0 <= inject_Z z)%Q by (change 0%Q with (inject_Z 0); by rewrite <- Zle_Qle).
  apply close_rnd; [done|done|apply close_refl].
Qed.

(** What is shown is 100 * busy / ticks, up to seven roundings. *)
Lemma cpu_tics_close c :
  counted c → 0 < ticks c → edge c ≤ ticks c →
  close 7 (cpu_tics c) (100 * (inject_Z (busy c) / inject_Z (ticks c)))%Q.
Proof.
  intros Hc Ht He. unfold cpu_tics. destruct Hc as [Gu Gn Gs Gi Gw Gx Gy Gz].
  rewrite !trim_grew by done.
  apply delta_range in Gu, Gn, Gs, Gi, Gw, Gx, Gy, Gz.
  change (2 ^ 59) with 576460752303423488 in *.
  assert (i64 (ticks c) = ticks c) as Ei by (apply wrapS_small; unfold ticks in *; pow2; lia).
  change (delta ct_u c + delta ct_s c + delta ct_n c + delta ct_i c + delta ct_w c
    + delta ct_x c + delta ct_y c + delta ct_z c) with (ticks c). rewrite Ei. cbv zeta.
  destruct (Z.ltb_spec (ticks c) (edge c)); [lia|].
  destruct (Z.ltb_spec (ticks c) 1); [lia|].
  rewrite !wrapS_small by (pow2; lia).
  set (u := delta ct_u c + delta ct_n c). set (s := delta ct_s c + delta ct_x c + delta ct_y c).
  replace (busy c) with (u + s) by (unfold busy, u, s; lia).
  assert (0 <= u ∧ 0 <= s) as [Hu Hs] by (unfold u, s; lia).
  assert (0 < inject_Z (ticks c))%Q as Ht' by (change 0%Q with (inject_Z 0); by rewrite <- Zlt_Qlt).
  assert (0 <= inject_Z u ∧ 0 <= inject_Z s)%Q as [Hu' Hs']
    by (change 0%Q with (inject_Z 0); by rewrite <- !Zle_Qle).
  set (t := inject_Z (ticks c)) in *.
  assert (0 <= / t)%Q as Hit by (apply Qlt_le_weak; by apply Qinv_lt_0_compat).
  assert (close 4 (rnd FLOAT (rnd DOUBLE (100 / float_of (ticks c)))) (100 * / t)) as Hsc.
  { assert (0 <= 100 * / t)%Q by (apply Qmult_le_0_compat; done).
    apply close_rnd; [done|done|]. apply close_rnd; [done|done|].
    apply close_scale; [done|]. apply close_inv; [done|]. apply float_of_close. lia. }
  set (scale := rnd FLOAT _) in *.
  assert (∀ v, (0 <= v)%Z →
    close 6 (rnd FLOAT (float_of v * scale)) (inject_Z v * (100 * / t)))%Q as Hp.
  { intros v Hv. assert (0 <= inject_Z v)%Q by (change 0%Q with (inject_Z 0); by rewrite <- Zle_Qle).
    apply close_rnd; [done|repeat apply Qmult_le_0_compat; done|].
    apply (close_mul 1 4); [done|apply Qmult_le_0_compat; done|by apply float_of_close|done]. }
  assert (100 * (inject_Z (u + s) / t) == inject_Z u * (100 * / t) + inject_Z s * (100 * / t))%Q
    as Es by (rewrite inject_Z_plus; unfold Qdiv; ring).
  unfold close. rewrite Es. apply close_rnd; [done| |by apply close_add; apply Hp].
  apply (Qplus_le_compat 0 _ 0); repeat apply Qmult_le_0_compat; done.
Qed.

Section Load.
Context `{Env} `{Stat} (Hst : stat_ok).

(** ** The load of an interval *)
Definition at_ (v : list Z) (i : nat) : Z := default 0 (v !! i).
Definition busy_sum (v : list Z) : Z := at_ v 0 + at_ v 1 + (at_ v 2 + at_ v 5 + at_ v 6).

Definition cpu_busy (k i : nat) (v : list Z) : Z := busy_sum v - busy_sum (before k i).

(** Reading [k]: no counter went back, every CPU counted the same [T] ticks, and the
    summary line did not run ahead of the CPUs by more than five times. *)
Record load_ok (k : nat) (T : Z) : Prop := LoadOk {
  lo_pos : 0 < T;
  lo_mono i v : fr_cpus (frames k) !! i = Some v → Forall2 Z.le (before k i) v;
  lo_T i v : fr_cpus (frames k) !! i = Some v → zsum v - zsum (before k i) = T;
  lo_sum : 0 ≤ zsum (fr_sum (frames k)) - before_tot k ≤ 5 * (Z.of_nat ncpu * T)
}.

(** The utilisation, 100 for a CPU that is busy all the time. *)
Definition util (k : nat) (T : Z) : Q :=
  (100 * (inject_Z (zsum (imap (cpu_busy k) (fr_cpus (frames k)))) / inject_Z T))%Q.

Lemma before_ok k i :
  (i < ncpu)%nat → length (before k i) = 8%nat ∧ Forall (λ z, 0 ≤ z < 2 ^ 59) (before k i).
Proof.
  intros Hi. destruct k as [|k]; [split; [done|by apply Forall_replicate]|]. simpl.
  destruct (lookup_lt_is_Some_2 (fr_cpus (frames k)) i ltac:(rewrite (st_len Hst); lia)) as [v Hv].
  rewrite Hv. pose proof (st_cpus Hst k) as Hf. rewrite Forall_lookup in Hf. by apply (Hf i v).
Qed.

Lemma fields_at c : ct_u c = at_ (fields c) 0 ∧ ct_n c = at_ (fields c) 1 ∧ ct_s c = at_ (fields c) 2
  ∧ ct_i c = at_ (fields c) 3 ∧ ct_w c = at_ (fields c) 4 ∧ ct_x c = at_ (fields c) 5
  ∧ ct_y c = at_ (fields c) 6 ∧ ct_z c = at_ (fields c) 7.
Proof. done. Qed.

Lemma edge_low T t t0 :
  0 < T → 0 ≤ t < 2 ^ 63 → 0 ≤ t0 → t - t0 ≤ 5 * (Z.of_nat ncpu * T) → 0 ≤ t - t0 →
  edge_of (Z.of_nat ncpu) t t0 ≤ T.
Proof.
  intros HT Ht Ht0 Hd Hp. pose proof (st_ncpu Hst). unfold edge_of. pow2.
  rewrite (wrapS_small 64 t), wrapS_small by (pow2; lia).
  rewrite !Z.quot_div_nonneg by (try apply Z.quot_pos; lia).
  apply Z.div_le_upper_bound; [lia|]. apply Z.div_le_upper_bound; lia.
Qed.

Lemma zsum_range v : counters_ok v → 0 ≤ zsum v < 2 ^ 62.
Proof.
  intros [H8 Hv]. do 8 (destruct v as [|? v]; [done|]). destruct v; [|done].
  rewrite !Forall_cons in Hv. destruct_and!. unfold zsum. cbn [foldr].
  change (2 ^ 59) with 576460752303423488 in *. change (2 ^ 62) with 4611686018427387904. lia.
Qed.

Lemma before_tot_range k : 0 ≤ before_tot k.
Proof.
  destruct k as [|k]; [done|]. simpl. pose proof (zsum_range _ (st_sum Hst k)) as Hz.
  change (2 ^ 62) with 4611686018427387904 in Hz. rewrite wrapS_small by (pow2; lia). lia.
Qed.

(** The entry of one CPU after a refresh shows what the CPU did. *)
Lemma refreshed_close k T i v c :
  load_ok k T → fr_cpus (frames k) !! i = Some v →
  fields (cur c) = v → fields (sav c) = before k i →
  edge c = edge_of (Z.of_nat ncpu) (zsum (fr_sum (frames k))) (before_tot k) →
  close 7 (cpu_tics c) (100 * (inject_Z (cpu_busy k i v) / inject_Z T))%Q
  ∧ 0 ≤ cpu_busy k i v ≤ T.
Proof.
  intros HL Hv Hcur Hsav He. pose proof (st_cpus Hst k) as Hf.
  rewrite Forall_lookup in Hf. destruct (Hf i v Hv) as [H8 Hr].
  assert (i < ncpu)%nat as Hi by (rewrite <- (st_len Hst k); by eapply lookup_lt_Some).
  destruct (before_ok k i Hi) as [B8 Br].
  pose proof (lo_mono _ _ HL i v Hv) as Hm. pose proof (lo_T _ _ HL i v Hv) as HT.
  assert (∀ j, (j < 8)%nat → 0 ≤ at_ (before k i) j ≤ at_ v j ∧ at_ v j < 2 ^ 59) as Hall.
  { intros j Hj. unfold at_.
    destruct (lookup_lt_is_Some_2 v j ltac:(lia)) as [x Hx].
    destruct (lookup_lt_is_Some_2 (before k i) j ltac:(lia)) as [y Hy].
    rewrite Hx, Hy. simpl. pose proof (Forall2_lookup_lr _ _ _ _ _ _ Hm Hy Hx).
    rewrite Forall_lookup in Hr, Br. pose proof (Hr j x Hx). pose proof (Br j y Hy).
    simpl in *. lia. }
  assert (counted c) as Hc.
  { split; unfold grew; [pose proof (Hall 0%nat) as Hj|pose proof (Hall 1%nat) as Hj
      |pose proof (Hall 2%nat) as Hj|pose proof (Hall 3%nat) as Hj|pose proof (Hall 4%nat) as Hj
      |pose proof (Hall 5%nat) as Hj|pose proof (Hall 6%nat) as Hj|pose proof (Hall 7%nat) as Hj];
      specialize (Hj ltac:(lia)); rewrite <- Hcur, <- Hsav in Hj; exact Hj. }
  assert (zsum v = at_ v 0 + at_ v 1 + at_ v 2 + at_ v 3 + at_ v 4 + at_ v 5 + at_ v 6 + at_ v 7
    ∧ zsum (before k i) = at_ (before k i) 0 + at_ (before k i) 1 + at_ (before k i) 2
      + at_ (before k i) 3 + at_ (before k i) 4 + at_ (before k i) 5 + at_ (before k i) 6
      + at_ (before k i) 7) as [Z1 Z2].
  { rewrite <- Hcur, <- Hsav. unfold zsum, fields, at_. cbn. lia. }
  assert (ticks c = T ∧ busy c = cpu_busy k i v) as [Et Eb].
  { rewrite <- HT, Z1, Z2, <- Hcur, <- Hsav. unfold ticks, busy, delta, cpu_busy, busy_sum.
    rewrite <- Hsav. unfold fields, at_. cbn. lia. }
  pose proof (counted_busy c Hc) as Hbz. rewrite Et, Eb in Hbz. split; [|done].
  rewrite <- Et, <- Eb. apply cpu_tics_close; [done|rewrite Et; apply (lo_pos _ _ HL)|].
  rewrite Et, He. pose proof (lo_sum _ _ HL) as Hs. pose proof (zsum_range _ (st_sum Hst k)).
  pose proof (before_tot_range k). pose proof (lo_pos _ _ HL). pow2.
  change (2 ^ 62) with 4611686018427387904 in *. apply edge_low; lia.
Qed.

Lemma sum_close l ys k acc y :
  Forall2 (λ c y, close 7 (cpu_tics c) y ∧ 0 <= y)%Q l ys → (7 <= k)%nat →
  close k acc y → (0 <= y)%Q →
  close (k + length l) (foldl (λ sum c, rnd FLOAT (sum + cpu_tics c)%Q) acc l)
    (foldl Qplus y ys).
Proof.
  intros Hl. revert k acc y. induction Hl as [|c z l ys [Hc Hz] Hl IH]; intros k acc y Hk Ha Hy.
  - by rewrite Nat.add_0_r.
  - simpl. replace (k + S (length l))%nat with (S k + length l)%nat by lia.
    assert (0 <= y + z)%Q by lra.
    apply IH; [lia| |done]. apply close_rnd; [done|done|].
    apply close_add; [done|]. by apply (close_le 7 k).
Qed.

Definition share (T b : Z) : Q := (100 * (inject_Z b / inject_Z T))%Q.

Lemma share_sum T bs y : 0 < T →
  (foldl Qplus y (map (share T) bs) == y + share T (zsum bs))%Q.
Proof.
  intros HT. assert (¬ inject_Z T == 0)%Q.
  { intros E. apply (inject_Z_injective T 0) in E. lia. }
  revert y. induction bs as [|b bs IH]; intros y; simpl.
  - unfold share, zsum. simpl. field. done.
  - rewrite IH. unfold share. change (zsum (b :: bs)) with (b + zsum bs).
    rewrite inject_Z_plus. field. done.
Qed.

Lemma share_nonneg T b : 0 < T → 0 ≤ b → (0 <= share T b)%Q.
Proof.
  intros HT Hb. unfold share. apply Qmult_le_0_compat; [done|].
  apply Qle_shift_div_l; [change 0%Q with (inject_Z 0); by rewrite <- Zlt_Qlt|].
  rewrite Qmult_0_l. change 0%Q with (inject_Z 0). by rewrite <- Zle_Qle.
Qed.

Lemma share_le T b m : 0 < T → b ≤ m * T → (share T b <= 100 * inject_Z m)%Q.
Proof.
  intros HT Hb. unfold share. apply Qmult_le_l; [done|].
  apply Qle_shift_div_r; [change 0%Q with (inject_Z 0); by rewrite <- Zlt_Qlt|].
  rewrite <- inject_Z_mult, <- Zle_Qle. done.
Qed.

(** The distance of a percentage from the true one. *)
Lemma close_distance (k : nat) (x y m : Q) :
  (k <= 263)%nat → (0 <= y)%Q → (y <= 25600)%Q → close k x y →
  (y - (9 # 10) <= x ∧ x <= y + (9 # 10))%Q.
Proof.
  intros Hk Hy Hm Hc. apply (close_le k 263) in Hc; [|done|done]. destruct Hc as [C1 C2].
  pose proof (up_bound 263 ltac:(lia)) as U. pose proof (down_bound 263) as D.
  rewrite ulp_val in U, D. change (inject_Z (Z.of_nat 263)) with 263%Q in *.
  split; nra.
Qed.

Lemma summary_show_run k T s :
  ready k s → load_ok k T →
  ∃ s' x, summary_show s = (s', Ret x) ∧ ready (S k) s'
    ∧ cu_sys s' = cu_sys s ∧ checks s' = checks s
    ∧ (0 <= util k T <= 25600)%Q ∧ (util k T - (9 # 10) <= x <= util k T + (9 # 10))%Q.
Proof.
  intros Hr HL. destruct (cpus_refresh_run Hst k s Hr) as (s' & l & E & Hr' & Hl & Hlen & Hf & Hsys & Hch & Hall).
  unfold summary_show. rewrite (bind_Ret _ _ _ _ _ E), (bind_Ret get _ _ _ _ eq_refl), Hl, Hf.
  rewrite Nat2Z.id. eexists s', _. split; [reflexivity|].
  set (bs := imap (cpu_busy k) (fr_cpus (frames k))). pose proof (lo_pos _ _ HL) as HT.
  pose proof (st_ncpu Hst) as Hnc.
  assert (length bs = ncpu) as Hbs by (unfold bs; rewrite length_imap; apply (st_len Hst)).
  assert (Forall2 (λ c b, close 7 (cpu_tics c) (share T b) ∧ 0 ≤ b ≤ T) (take ncpu l) bs) as Hcb.
  { apply Forall2_same_length_lookup. rewrite length_take, Hbs. split; [lia|].
    intros i c b Hc Hb. unfold bs in Hb. rewrite list_lookup_imap in Hb.
    destruct (fr_cpus (frames k) !! i) as [v|] eqn:Hv; [|done]. simpl in Hb. simplify_eq.
    assert (i < ncpu)%nat by (rewrite <- (st_len Hst k); by eapply lookup_lt_Some).
    rewrite lookup_take_lt in Hc by done. destruct (Hall i v Hv) as (c' & C1 & C2 & C3 & C4).
    simplify_eq. by apply (refreshed_close k T i _ c). }
  assert (0 ≤ zsum bs ≤ Z.of_nat ncpu * T) as Hz.
  { rewrite <- Hbs. clear Hbs. generalize dependent (take ncpu l). intros l' Hcb. clear - Hcb.
    induction Hcb as [|c b l' bs [_ Hb] Hcb IH]; [simpl; lia|].
    change (zsum (b :: bs)) with (b + zsum bs). rewrite length_cons. lia. }
  assert (util k T == 0 + share T (zsum bs))%Q as Eu by (unfold util, share; fold bs; ring).
  assert (0 <= util k T ∧ util k T <= 25600)%Q as [U1 U2].
  { rewrite Eu, Qplus_0_l. split; [apply share_nonneg; lia|].
    apply Qle_trans with (100 * inject_Z (Z.of_nat ncpu))%Q; [apply share_le; lia|].
    change 25600%Q with (100 * inject_Z 256)%Q. apply Qmult_le_l; [done|]. rewrite <- Zle_Qle. lia. }
  split_and!; try done.
  all: apply (close_distance (7 + ncpu) _ _ 0); [lia|done|done|].
  all: unfold close; rewrite Eu, <- share_sum by done.
  all: pose proof (sum_close (take ncpu l) (map (share T) bs) 7 0 0) as Hs;
    rewrite length_take, Nat.min_l in Hs by lia; apply Hs; [|done|by apply (close_le 0 7), close_refl; [lia|]|done].
  all: apply Forall2_fmap_r; eapply Forall2_impl; [exact Hcb|].
  all: intros c b [? ?]; split; [done|]; apply share_nonneg; lia.
Qed.

Definition threshold : Z := Z.of_nat ncpu * 100 - cpu_util_spare.

Lemma decision k T x :
  (util k T - (9 # 10) <= x <= util k T + (9 # 10))%Q →
  if negb (Qle_bool x (float_of threshold))
  then (inject_Z threshold - 1 < util k T)%Q else (util k T < inject_Z threshold + 1)%Q.
Proof.
  intros [X1 X2]. pose proof (st_ncpu Hst) as Hn.
  assert (50 ≤ threshold ≤ 25600) as Ht by (unfold threshold, cpu_util_spare; lia).
  destruct (float_of_close threshold ltac:(lia)) as [F1 F2].
  pose proof (up_bound 1 ltac:(lia)) as U. pose proof (down_bound 1) as D.
  rewrite ulp_val in U, D. change (inject_Z (Z.of_nat 1)) with 1%Q in *.
  assert (inject_Z 50 <= inject_Z threshold <= inject_Z 25600)%Q as [T1 T2]
    by (rewrite <- !Zle_Qle; lia).
  change (inject_Z 50) with 50%Q in T1. change (inject_Z 25600) with 25600%Q in T2.
  set (t := inject_Z threshold) in *. set (f := float_of threshold) in *.
  assert (t - (1 # 100) <= f ∧ f <= t + (1 # 100))%Q as [G1 G2] by (split; nra).
  destruct (Qle_bool x f) eqn:E; simpl.
  - apply Qle_bool_iff in E. lra.
  - assert (f < x)%Q; [|lra]. apply Qnot_le_lt. intros Hle. apply Qle_bool_iff in Hle. congruence.
Qed.

(** One line in the status log. *)
Definition reported (y : sys) : sys := (logFail "os/cpu_util.cpp" 311 oversubs_message y).1.

Lemma chk_loop_run T m k s print :
  ready k s → checks s = k → print = 0 ∨ print = 1 →
  (∀ j, (k <= j < k + m)%nat → load_ok j (T j) ∧ stop_seen j = false) →
  stop_seen (k + m) = true →
  ∃ s', chk_loop (S m) threshold print s = (s', Ret tt)
    ∧ ((cu_sys s' = cu_sys s ∧ (print = 0 → ∀ j, (k <= j < k + m)%nat →
          (util j (T j) < inject_Z threshold + 1)%Q))
       ∨ (print = 0 ∧ cu_sys s' = reported (cu_sys s)
          ∧ ∃ j, (k <= j < k + m)%nat ∧ (inject_Z threshold - 1 < util j (T j))%Q)).
Proof.
  revert k s print. induction m as [|m IH]; intros k s print Hr Hk Hp HL Hstop.
  all: cbn [chk_loop]; rewrite (bind_Ret get _ _ _ _ eq_refl);
    rewrite (bind_Ret (modify _) _ _ _ tt eq_refl), Hk.
  - rewrite Nat.add_0_r in Hstop. rewrite Hstop. eexists. split; [reflexivity|].
    left. split; [done|]. intros _ j Hj. lia.
  - destruct (HL k ltac:(lia)) as [HLk ->].
    assert (ready k (set_checks (S k) s)) as Hr1 by (by destruct Hr).
    destruct (summary_show_run k (T k) _ Hr1 HLk) as (s1 & x & E & Hr2 & Hsys & Hch & _ & Hx).
    rewrite (bind_Ret _ _ _ _ _ E). pose proof (decision k (T k) x Hx) as Hd.
    assert (∀ j, (S k <= j < S k + m)%nat → load_ok j (T j) ∧ stop_seen j = false) as HL'
      by (intros j Hj; apply HL; lia).
    assert (stop_seen (S k + m) = true) as Hstop'
      by (by replace (S k + m)%nat with (k + S m)%nat by lia).
    change (checks (set_checks (S k) s)) with (S k) in Hch.
    change (cu_sys (set_checks (S k) s)) with (cu_sys s) in Hsys.
    destruct (negb (Qle_bool x (float_of threshold)) && (print =? 0)) eqn:Eb.
    + apply andb_true_iff in Eb as [Eo Ep]. apply Z.eqb_eq in Ep. rewrite Eo in Hd.
      destruct (logFail_frame "os/cpu_util.cpp" 311 oversubs_message (cu_sys s1)) as (y & El & _).
      rewrite (bind_Ret (zoom _ _ _) _ s1 (set_cu_sys y s1) tt) by (unfold zoom; by rewrite El).
      destruct (IH (S k) (set_cu_sys y s1) 1) as (s' & E' & Hc); try done; [by destruct Hr2|by right|].
      exists s'. split; [done|]. right. destruct Hc as [[Hs' _]|[? _]]; [|done].
      split_and!; [done| |exists k; split; [lia|done]].
      rewrite Hs'. unfold reported. rewrite <- Hsys, El. done.
    + destruct (IH (S k) s1 print) as (s' & E' & Hc); try done.
      exists s'. split; [done|]. rewrite Hsys in Hc. destruct Hc as [[Hs' Hno]|(Hp0 & Hs' & j & Hj & Hu)].
      * left. split; [done|]. intros Hp0 j Hj. destruct (decide (j = k)) as [->|]; [|apply Hno; (done || lia)].
        subst print. rewrite andb_true_r in Eb. by rewrite Eb in Hd.
      * right. split_and!; try done. exists j. split; [lia|done].
Qed.
End Load.

(** The state before the thread starts. *)
Definition cu_start (y : sys) : cpu_state := CpuState 0 false None 0 None 0 0 [] y.


(** ** A machine with one CPU, at 30 and then at 90 percent *)
Definition demo_counters (k : nat) : list Z :=
  match k with O => [20; 0; 10; 70; 0; 0; 0; 0] | S _ => [90; 5; 20; 80; 0; 2; 3; 0] end.
Definition demo_frame (k : nat) : frame := Frame (demo_counters k) [demo_counters k].

#[local] Instance demo_cpu_os : CpuOs := {
  sysconf_nproc := 1;
  stat_opens := true;
  proc_stat := λ k, stat_text (demo_frame k) " 0 0" ("intr 7 0 9" +:+ nl);
  alloc_ok := λ _, true;
  stop_seen := λ k, (2 <=? k)%nat
}.
#[local] Instance demo_stat : Stat := {
  ncpu := 1; frames := demo_frame; guests := " 0 0"; tail := "intr 7 0 9" +:+ nl
}.

Lemma demo_stat_ok : stat_ok.
Proof.
  assert (∀ k, counters_ok (demo_counters k)) as Hc
    by (intros [|k]; split; [done|by repeat constructor|done|by repeat constructor]).
  split; try done.
  - intros [|k]; vm_compute; reflexivity.
  - simpl. lia.
  - intros k. by repeat constructor; apply Hc.
Qed.

Lemma demo_load k : (k < 2)%nat → load_ok k 100 ∧ stop_seen k = false.
Proof.
  intros Hk. destruct k as [|[|k]]; [| |lia].
  all: split; [|done]; split; [done| | |split; by vm_compute].
  all: intros [|i] v Hv; simpl in Hv; simplify_eq.
  all: try by repeat constructor.
  all: done.
Qed.

