(* ===== verification/Converter.v ===== *)
(** * Log converter: src/postprocessing/btoa_converter.cpp

    The program rewrites binary log files as text, and decompresses compressed ones
    into binary files first. A file is its contents under its name; the letter of the
    log format between two colons of the name says what it holds. *)
From S2P Require Import Prelude TimeStamp Platform Log Formats Closure Bytes.
From S2P Require Import Identity IoThread.

(** ** Streams that read, and the names of files *)

(** What is left to read, and the two bits of the stream. *)
Record ifstream := Ifstream { if_rest : string; if_eof : bool; if_fail : bool }.

(** [s.find(sub)], and [s.replace(pos, 1, r)]. *)
Definition find (sub s : string) : option nat := String.index 0 sub s.
Definition replace1 (s : string) (pos : nat) (r : string) : string :=
  String.substring 0 pos s +:+ r +:+ String.substring (S pos) (String.length s) s.

(** The first [n] bytes and the others; [None] when there are fewer. *)
Fixpoint split_at (n : nat) (s : string) : option (string * string) :=
  match n with
  | O => Some (EmptyString, s)
  | S n =>
      match s with
      | EmptyString => None
      | String c s =>
          match split_at n s with
          | Some (l, r) => Some (String c l, r)
          | None => None
          end
      end
  end.

Lemma split_at_app a b : split_at (String.length a) (a +:+ b) = Some (a, b).
Proof.
  induction a as [|c a IH]; [done|]. rewrite string_app_cons. simpl. by rewrite IH.
Qed.

Lemma split_at_some n s : (n <= String.length s)%nat → is_Some (split_at n s).
Proof.
  revert s. induction n as [|n IH]; intros s; simpl; [by eexists|].
  destruct s as [|c s]; simpl; [lia|]. intros Hn.
  destruct (IH s) as [[l r] ->]; [lia|]. by eexists.
Qed.

Lemma split_at_length n s l r :
  split_at n s = Some (l, r) → s = l +:+ r ∧ String.length l = n.
Proof.
  revert s l. induction n as [|n IH]; intros s l; simpl; [by intros [= <- <-]|].
  destruct s as [|c s]; [done|]. destruct (split_at n s) as [[l' r']|] eqn:E; [|done].
  intros [= <- <-]. destruct (IH s l' E) as [-> <-]. done.
Qed.

(** The state of the program: the files, the output, the directories opened so far
    and the entries read from the last one. *)
Record cst := Cst {
  files : gmap string string;
  cout : list string;
  cerr : list string;
  dirs : nat;
  entries : nat
}.

Definition set_files x s := Cst x (cout s) (cerr s) (dirs s) (entries s).
Definition set_cout x s := Cst (files s) x (cerr s) (dirs s) (entries s).
Definition set_cerr x s := Cst (files s) (cout s) x (dirs s) (entries s).
Definition set_dirs x s := Cst (files s) (cout s) (cerr s) x (entries s).
Definition set_entries x s := Cst (files s) (cout s) (cerr s) (dirs s) x.

(** The rest of the machine. The directory functions are told which directory it is;
    readdir which entry and what files there are. Decompression is given what the
    output array holds; its result is the status, [None] for SQUASH_OK, the size and
    the output array. *)
Class Machine := {
  readable : string → bool;
  unread_sample : Z * timespec;        (* uninitialised local variables *)
  fresh_out : string;                  (* an array of char, uninitialised *)
  squash_decompress : string → string → string → option string * Z * string;
  opendir : nat → bool;                (* false: NULL *)
  readdir : nat → nat → gmap string string → option string;
  closedir : nat → Z
}.

Section Converter.
Context `{Env} `{Sizes} `{Machine}.

Abbreviation C := (M cst).

(** The letter of a format. *)
Definition fmt_str (f : log_format) : string := default "" (format_to_str f).
Definition found (f : log_format) (path : string) : option nat :=
  find (":" +:+ fmt_str f +:+ ":") path.

(** [log_to_read.open(path, in)]: a file that cannot be opened sets the fail bit, but
    not the eof bit. *)
Definition open_in (path : string) : C ifstream :=
  s ← get;
  mret match files s !! path with
       | Some data => if readable path then Ifstream data false false
                      else Ifstream "" false true
       | None => Ifstream "" false true
       end.

(** [log_to_write.open(path, out|trunc)]: the name of the open file. *)
Definition open_out (path : string) : C (option string) :=
  if creatable path
  then modify (λ s, set_files (<[path := ""]> (files s)) s) ;; mret (Some path)
  else mret None.

(** What [log_to_write << t] makes of the files. *)
Definition appended (h : option string) (t : string) (s : cst) : cst :=
  match h with
  | Some path =>
      set_files (<[path := default "" (files s !! path) +:+ t]> (files s)) s
  | None => s
  end.
Definition put (h : option string) (t : string) : C unit := modify (appended h t).

Definition print (t : string) : C unit := modify (λ s, set_cout (cout s ++ [t]) s).

(** ** Binary to text *)

(** readInBinary on the stream. A read that comes to the end sets both bits; one on a
    stream that has failed does nothing. *)
Definition read_sample (i : ifstream) (r : Z * timespec)
    : ifstream * (Z * timespec) :=
  if if_fail i then (i, r)
  else match readInBinary (if_rest i) with
       | Some (tuple, ts, rest) => (Ifstream rest false false, (tuple, ts))
       | None => (Ifstream "" true true, r)
       end.

Fixpoint convert_loop (fuel : nat) (i : ifstream) (r : Z * timespec)
    (h : option string) : C unit :=
  match fuel with
  | O => spin "convertBinToASCII"
  | S fuel =>
      let '(i, r) := read_sample i r in
      if if_eof i then mret tt
      else put h (ascii_record r.1 r.2) ;; convert_loop fuel i r h
  end.

(** The bound of the rounds is more than an open file needs; for a file that cannot
    be opened no bound is enough, as is shown below. *)
Definition convertBinToASCII (absolute_path : string) (idx : nat) : C unit :=
  let absolute_path := replace1 absolute_path (idx + 1) (fmt_str BINARY) in
  log_to_read ← open_in absolute_path;
  let absolute_path := replace1 absolute_path (idx + 1) (fmt_str ASCII) in
  log_to_write ← open_out absolute_path;
  convert_loop (S (String.length (if_rest log_to_read))) log_to_read unread_sample
    log_to_write.

(** ** Compressed to binary *)
Definition OUT_SIZE : Z := BUFFER_BLOCK_SIZE * 40.

(** [read(&block_size, sizeof(block_size))]: [None] when nothing is stored. *)
Definition read_size (i : ifstream) : option Z * ifstream :=
  if if_fail i then (None, i)
  else match le_read 4 (if_rest i) with
       | Some (v, rest) => (Some (i32 v), Ifstream rest false false)
       | None => (None, Ifstream "" true true)
       end.

(** [read(in, block_size)]: the array has OUT_SIZE bytes. *)
Definition read_block (block_size : option Z) (i : ifstream)
    : C (option string * ifstream) :=
  match block_size with
  | None => mret (None, i)
  | Some n =>
      if n <? 0 then undefined "negative count"
      else if OUT_SIZE <? n `min` Z.of_nat (String.length (if_rest i))
      then undefined "read beyond the end of in"
      else match split_at (Z.to_nat n) (if_rest i) with
           | Some (data, rest) => mret (Some data, Ifstream rest false false)
           | None => mret (None, Ifstream "" true true)
           end
  end.

Fixpoint decompress_loop (fuel : nat) (codec : string) (i : ifstream)
    (out : string) (h : option string) : C unit :=
  match fuel with
  | O => spin "decompress"
  | S fuel =>
      let '(block_size, i) := read_size i in
      '(data, i) ← read_block block_size i;
      if if_eof i then mret tt
      else match data with
           | None => undefined "block_size is not initialised"
           | Some data =>
               let c := if String.eqb codec (fmt_str ZSTD) then "zstd"
                        else "lzo1x" in
               let '(result, size, out) := squash_decompress c out data in
               match result with
               | None => mret tt
               | Some status =>
                   modify (λ s, set_cerr
                     (cerr s ++ ["Unable to decompress data: " +:+ status]) s)
               end ;;
               match split_at (Z.to_nat size) out with
               | Some (t, _) => put h t
               | None => undefined "write beyond the end of out"
               end ;;
               decompress_loop fuel codec i out h
           end
  end.

Definition decompress (absolute_path : string) (idx : nat) (codec : string)
    : C unit :=
  let absolute_path := replace1 absolute_path (idx + 1) codec in
  log_to_read ← open_in absolute_path;
  let absolute_path := replace1 absolute_path (idx + 1) (fmt_str BINARY) in
  log_to_write ← open_out absolute_path;
  decompress_loop (S (String.length (if_rest log_to_read))) codec log_to_read
    fresh_out log_to_write.

(** ** One file *)

(** Where ":z:" or else ":l:" is found, with the letter. *)
Definition found_codec (path : string) : option (nat * string) :=
  match found ZSTD path with
  | Some found_z => Some (found_z, fmt_str ZSTD)
  | None =>
      match found LZO1X path with
      | Some found_l => Some (found_l, fmt_str LZO1X)
      | None => None
      end
  end.

Definition convertLogFile (absolute_path : string) (decomp : bool) : C unit :=
  if decomp then
    match found_codec absolute_path with
    | Some (idx, codec) =>
        print ("Decompressing " +:+ absolute_path +:+ "..") ;;
        decompress absolute_path idx codec
    | None => mret tt
    end
  else
    match found BINARY absolute_path with
    | Some found_b =>
        print ("Converting " +:+ absolute_path +:+ "..") ;;
        convertBinToASCII absolute_path found_b
    | None => mret tt
    end.

Definition convertLogFileToAscii (absolute_path : string) : C unit :=
  match found_codec absolute_path with
  | Some (idx, codec) =>
      print ("Decompressing " +:+ absolute_path +:+ "..") ;;
      decompress absolute_path idx codec ;;
      print "Converting decompressed data.." ;;
      convertBinToASCII absolute_path idx
  | None =>
      match found BINARY absolute_path with
      | Some found_b =>
          print ("Converting " +:+ absolute_path +:+ "..") ;;
          convertBinToASCII absolute_path found_b
      | None => mret tt
      end
  end.

(** The arguments after the program's name. *)
Fixpoint convertGivenFiles (argv : list string) : C unit :=
  match argv with
  | [] => mret tt
  | path :: argv => convertLogFileToAscii path ;; convertGivenFiles argv
  end.

(** ** All files of the directory *)
Fixpoint convertAllLogFiles (fuel : nat) (dir : nat) (decomp : bool) : C unit :=
  match fuel with
  | O => spin "readdir"
  | S fuel =>
      s ← get;
      modify (set_entries (S (entries s))) ;;
      match readdir dir (entries s) (files s) with
      | None => mret tt
      | Some filename =>
          convertLogFile (path_to_output +:+ "/" +:+ filename) decomp ;;
          convertAllLogFiles fuel dir decomp
      end
  end.

Definition openDirectory : C (option nat) :=
  s ← get;
  modify (λ s, set_entries 0 (set_dirs (S (dirs s)) s)) ;;
  mret (if opendir (dirs s) then Some (dirs s) else None).

Definition closeDirectory (dir : nat) : C Z := mret (closedir dir).

Definition convert (fuel : nat) (decomp : bool) : C unit :=
  dir ← openDirectory;
  match dir with
  | None => print "Cannot Open Directory!" ;; exit 1
  | Some dir =>
      convertAllLogFiles fuel dir decomp ;;
      ret ← closeDirectory dir;
      if ret =? -1 then print "Cannot Close Directory!" ;; exit 1
      else mret tt
  end.

Definition main (fuel : nat) (argv : list string) : C Z :=
  match argv with
  | [] => convert fuel true ;; convert fuel false
  | _ => convertGivenFiles argv
  end ;;
  mret 0.

(** ** The loops *)

Lemma appended_app h a b s : appended h b (appended h a s) = appended h (a +:+ b) s.
Proof.
  destruct h as [p|]; [|done]. unfold appended, set_files. simpl. f_equal.
  by rewrite lookup_insert_eq, insert_insert_eq, <- string_app_assoc.
Qed.

Lemma appended_nil path t s :
  appended (Some path) t (set_files (<[path := ""]> (files s)) s)
  = set_files (<[path := t]> (files s)) s.
Proof.
  unfold appended, set_files. simpl. by rewrite lookup_insert_eq, insert_insert_eq.
Qed.

(** The samples a reader finds in a file; the bytes after the last complete record
    are not looked at. *)
Definition records (data : string) : list (Z * timespec) :=
  read_all (S (String.length data)) data.

Lemma readInBinary_length s t ts rest :
  readInBinary s = Some (t, ts, rest) →
  String.length s = (40 + String.length rest)%nat.
Proof.
  unfold readInBinary, mbind, option_bind. intros E.
  repeat match type of E with
  | context [match le_read ?n ?x with _ => _ end] =>
      destruct (le_read n x) as [[? ?]|] eqn:?; [|done]
  end.
  injection E as <- <- <-.
  repeat match goal with H : le_read _ _ = Some _ |- _ =>
    apply le_read_length in H end.
  lia.
Qed.

Lemma le_read_some n s : (n <= String.length s)%nat → is_Some (le_read n s).
Proof.
  revert s. induction n as [|n IH]; intros s; simpl; [by eexists|].
  destruct s as [|c s]; simpl; [lia|]. intros Hn.
  destruct (IH s) as [[v r] ->]; [lia|]. by eexists.
Qed.

Lemma readInBinary_none s :
  readInBinary s = None → (String.length s < 40)%nat.
Proof.
  unfold readInBinary, mbind, option_bind. intros E.
  destruct (decide (String.length s < 40)%nat) as [|Hl]; [done|exfalso].
  repeat match type of E with
  | context [match le_read ?n ?x with _ => _ end] =>
      let El := fresh "El" in
      destruct (le_read n x) as [[? ?]|] eqn:El;
        [apply le_read_length in El
        |apply eq_None_not_Some in El; apply El, le_read_some; lia]
  end.
  done.
Qed.

Lemma read_all_length fuel s :
  (String.length s < fuel)%nat → length (read_all fuel s) = (String.length s `div` 40)%nat.
Proof.
  revert s. induction fuel as [|fuel IH]; intros s Hf; [lia|]. cbn [read_all].
  destruct (readInBinary s) as [[[t ts] rest]|] eqn:E.
  - apply readInBinary_length in E. cbn [length]. rewrite IH by lia.
    rewrite E. replace (40 + String.length rest)%nat with (String.length rest + 1 * 40)%nat by lia.
    rewrite Nat.div_add by lia. lia.
  - apply readInBinary_none in E. by rewrite Nat.div_small.
Qed.

Definition text (l : list (Z * timespec)) : string :=
  string_concat (map (λ r, ascii_record r.1 r.2) l).

Lemma text_app l1 l2 : text (l1 ++ l2) = text l1 +:+ text l2.
Proof. unfold text. by rewrite map_app, string_concat_app. Qed.

Lemma convert_loop_run fuel data r h s :
  (String.length data < fuel)%nat →
  convert_loop fuel (Ifstream data false false) r h (appended h "" s)
  = (appended h (text (read_all fuel data)) s, Ret tt).
Proof.
  assert (∀ t, (String.length data < fuel)%nat →
    convert_loop fuel (Ifstream data false false) r h (appended h t s)
    = (appended h (t +:+ text (read_all fuel data)) s, Ret tt)) as Hgen; [|apply Hgen].
  revert data r. induction fuel as [|fuel IH]; intros data r t Hf; [lia|].
  cbn [convert_loop read_all]. unfold read_sample. cbn [if_fail if_rest].
  cbv beta iota zeta. destruct (readInBinary data) as [[[tuple ts] rest]|] eqn:E;
    cbn [if_eof]; cbv iota.
  - apply readInBinary_length in E.
    rewrite (bind_Ret _ _ _ (appended h (t +:+ ascii_record tuple ts) s) tt)
      by (unfold put, modify; by rewrite appended_app).
    rewrite IH by lia. by rewrite string_app_assoc.
  - simpl. by rewrite string_app_nil_r.
Qed.

(** The file cannot be opened: every round writes the same line. *)
Lemma convert_loop_stuck fuel r h s t :
  convert_loop fuel (Ifstream "" false true) r h (appended h t s)
  = (appended h (t +:+ string_concat (replicate fuel (ascii_record r.1 r.2))) s,
     Fault (FSpin "convertBinToASCII")).
Proof.
  revert t. induction fuel as [|fuel IH]; intros t.
  { simpl. by rewrite string_app_nil_r. }
  cbn [convert_loop]. unfold read_sample. cbn [if_fail if_eof]. cbv beta iota zeta.
  rewrite (bind_Ret _ _ _ (appended h (t +:+ ascii_record r.1 r.2) s) tt)
    by (unfold put, modify; by rewrite appended_app).
  rewrite IH. by rewrite string_app_assoc.
Qed.

(** The contents of a file that can be opened. *)
Definition opened (path : string) (s : cst) : option string :=
  data ← files s !! path; if readable path then Some data else None.

Lemma open_in_opened path s :
  open_in path s = (s, Ret match opened path s with
                           | Some data => Ifstream data false false
                           | None => Ifstream "" false true
                           end).
Proof.
  unfold open_in, opened. rewrite (bind_Ret get _ _ _ _ eq_refl).
  destruct (files s !! path) as [data|]; [|done]. simpl. by destruct (readable path).
Qed.

Definition with_file (path t : string) (s : cst) : cst :=
  set_files (<[path := t]> (files s)) s.

Lemma with_file_appended path t s :
  with_file path t s = appended (Some path) t (with_file path "" s).
Proof. symmetry. apply appended_nil. Qed.

Lemma open_out_run path s :
  creatable path = true → open_out path s = (with_file path "" s, Ret (Some path)).
Proof. intros E. unfold open_out. by rewrite E. Qed.

Lemma appended_empty path s :
  appended (Some path) "" (with_file path "" s) = with_file path "" s.
Proof. apply appended_nil. Qed.

Lemma convertBinToASCII_run path idx data s :
  let bin := replace1 path (idx + 1) (fmt_str BINARY) in
  let txt := replace1 bin (idx + 1) (fmt_str ASCII) in
  opened bin s = Some data → creatable txt = true →
  convertBinToASCII path idx s = (with_file txt (text (records data)) s, Ret tt).
Proof.
  intros bin txt Ho Hc. unfold convertBinToASCII. fold bin. fold txt.
  rewrite (bind_Ret _ _ _ _ _ (open_in_opened bin s)), Ho.
  rewrite (bind_Ret _ _ _ _ _ (open_out_run txt s Hc)). cbn [if_rest].
  rewrite <- (appended_empty txt s), convert_loop_run by lia.
  by rewrite <- with_file_appended.
Qed.

(** ** Decompression *)

(** A compressed file: each block is its size and its bytes. *)
Definition packed_file (l : list string) : string :=
  string_concat (map (λ b, le_bytes 4 (Z.of_nat (String.length b)) +:+ b) l).

(** The library makes [data] of [bytes], whatever the output array of the program
    held before. *)
Definition unpacks (codec data bytes : string) : Prop :=
  Z.of_nat (String.length bytes) ≤ OUT_SIZE
  ∧ ∀ out, Z.of_nat (String.length out) = OUT_SIZE →
      ∃ rest, squash_decompress codec out bytes
              = (None, Z.of_nat (String.length data), data +:+ rest)
        ∧ Z.of_nat (String.length (data +:+ rest)) = OUT_SIZE.

Lemma read_size_run n rest :
  0 ≤ n < 2 ^ 31 →
  read_size (Ifstream (le_bytes 4 n +:+ rest) false false)
  = (Some n, Ifstream rest false false).
Proof.
  intros Hn. unfold read_size. cbn [if_fail if_rest]. rewrite le_read_bytes.
  change (8 * Z.of_nat 4) with 32. rewrite wrapS_wrapU, wrapS_small; [done|lia|].
  pow2. lia.
Qed.

Lemma read_block_run data rest s :
  Z.of_nat (String.length data) ≤ OUT_SIZE →
  read_block (Some (Z.of_nat (String.length data)))
    (Ifstream (data +:+ rest) false false) s
  = (s, Ret (Some data, Ifstream rest false false)).
Proof.
  intros Hd. unfold read_block. rewrite (proj2 (Z.ltb_ge _ _)) by lia.
  rewrite (proj2 (Z.ltb_ge _ _)) by lia. cbn [if_rest].
  by rewrite Nat2Z.id, split_at_app.
Qed.

Lemma packed_file_length l :
  (length l <= String.length (packed_file l))%nat.
Proof.
  unfold packed_file. induction l as [|b l IH]; [simpl; lia|].
  change (string_concat (map ?f (b :: l))) with (f b +:+ string_concat (map f l)).
  cbv beta. rewrite !string_length_app, le_bytes_length. simpl length. lia.
Qed.

Lemma decompress_loop_run fuel fmt codec out h s t ds bs :
  fmt = ZSTD ∧ codec = "zstd" ∨ fmt = LZO1X ∧ codec = "lzo1x" →
  Forall2 (unpacks codec) ds bs → OUT_SIZE < 2 ^ 31 →
  Z.of_nat (String.length out) = OUT_SIZE → (length bs < fuel)%nat →
  decompress_loop fuel (fmt_str fmt) (Ifstream (packed_file bs) false false) out h
    (appended h t s)
  = (appended h (t +:+ string_concat ds) s, Ret tt).
Proof.
  intros Hfmt Hall Hsz. revert fuel out t.
  induction Hall as [|d b ds bs [Hb Hd] _ IH]; intros fuel out t Hout Hf;
    (destruct fuel as [|fuel]; [simpl in Hf; lia|]); cbn [decompress_loop].
  { simpl. by rewrite string_app_nil_r. }
  change (packed_file (b :: bs)) with
    ((le_bytes 4 (Z.of_nat (String.length b)) +:+ b) +:+ packed_file bs).
  rewrite string_app_assoc, read_size_run by lia. cbv beta iota zeta.
  rewrite (bind_Ret _ _ _ _ _ (read_block_run b (packed_file bs) _ Hb)).
  cbv beta iota. cbn [if_eof]. cbv iota.
  replace (if String.eqb (fmt_str fmt) (fmt_str ZSTD) then "zstd" else "lzo1x")
    with codec by (by destruct Hfmt as [[-> ->]|[-> ->]]).
  destruct (Hd out Hout) as (rest & -> & Hlen). cbv beta iota zeta.
  rewrite bind_ret_l, Nat2Z.id, split_at_app.
  rewrite (bind_Ret _ _ _ (appended h (t +:+ d) s) tt)
    by (unfold put, modify; by rewrite appended_app).
  rewrite IH; [|done|simpl in Hf; lia]. by rewrite string_app_assoc.
Qed.

Lemma decompress_run path idx fmt codec ds bs s :
  let pk := replace1 path (idx + 1) (fmt_str fmt) in
  let bin := replace1 pk (idx + 1) (fmt_str BINARY) in
  fmt = ZSTD ∧ codec = "zstd" ∨ fmt = LZO1X ∧ codec = "lzo1x" →
  Forall2 (unpacks codec) ds bs → OUT_SIZE < 2 ^ 31 →
  Z.of_nat (String.length fresh_out) = OUT_SIZE →
  opened pk s = Some (packed_file bs) → creatable bin = true →
  decompress path idx (fmt_str fmt) s
  = (with_file bin (string_concat ds) s, Ret tt).
Proof.
  intros pk bin Hfmt Hall Hsz Hout Ho Hc. unfold decompress. fold pk. fold bin.
  rewrite (bind_Ret _ _ _ _ _ (open_in_opened pk s)), Ho.
  rewrite (bind_Ret _ _ _ _ _ (open_out_run bin s Hc)). cbn [if_rest].
  rewrite <- (appended_empty bin s), (decompress_loop_run _ _ _ _ _ _ _ _ _ Hfmt Hall Hsz Hout).
  - by rewrite <- with_file_appended.
  - pose proof (packed_file_length bs). lia.
Qed.

(** ** Properties *)

(** C23. A binary file that can be opened is converted in as many rounds as it has
    complete records of 40 bytes, each of which becomes one line, and one round
    more, whatever the bytes are; the bytes after the last complete record are
    ignored. A file that is missing or not readable is not reported: no round of the
    loop is the last, and each appends the same line, made of uninitialised
    variables, to the output file, so that the program never ends. *)
Theorem conversion_ends_iff_opened path idx s :
  let bin := replace1 path (idx + 1) (fmt_str BINARY) in
  let txt := replace1 bin (idx + 1) (fmt_str ASCII) in
  creatable txt = true →
  (∀ data, opened bin s = Some data →
     convertBinToASCII path idx s = (with_file txt (text (records data)) s, Ret tt)
     ∧ length (records data) = (String.length data `div` 40)%nat)
  ∧ (opened bin s = None →
     let line := ascii_record unread_sample.1 unread_sample.2 in
     open_in bin s = (s, Ret (Ifstream "" false true))
     ∧ open_out txt s = (with_file txt "" s, Ret (Some txt))
     ∧ ∀ rounds,
         convert_loop rounds (Ifstream "" false true) unread_sample (Some txt)
           (with_file txt "" s)
         = (with_file txt (string_concat (replicate rounds line)) s,
            Fault (FSpin "convertBinToASCII"))).
Proof.
  intros bin txt Hc. split.
  - intros data Ho. split; [by apply convertBinToASCII_run|].
    apply read_all_length. lia.
  - intros Ho line. split; [by rewrite open_in_opened, Ho|].
    split; [by apply open_out_run|]. intros rounds.
    rewrite <- (appended_empty txt s), convert_loop_stuck.
    by rewrite <- with_file_appended.
Qed.
End Converter.

(** ** A machine for the witnesses, with a library that does not compress *)
Section Demo.
#[local] Existing Instance demo_env.

Definition demo_machine : Machine := {|
  readable := λ p, negb (String.eqb p "/tmp/c:b:locked");
  unread_sample := (77, stale_ts);
  fresh_out := string_rep "?" 80;
  squash_decompress := λ _ out d,
    match split_at (String.length d) out with
    | Some (_, rest) => (None, Z.of_nat (String.length d), d +:+ rest)
    | None => (Some "output buffer too small", 0, out)
    end;
  opendir := λ _, true;
  readdir := λ _ k _, ["."; ".."; "md0"; "c:b:x"] !! k;
  closedir := λ _, 0
|}.

#[local] Existing Instance demo_machine.

Definition demo_files (l : list (string * string)) : cst :=
  Cst (list_to_map l) [] [] 0 0.

Lemma conversion_ends_iff_opened_witness :
  let s := demo_files
    [("/tmp/c:b:x", binary_record 5 (clock 0) +:+ "spare"); ("/tmp/c:b:locked", "")] in
  (convertBinToASCII "/tmp/c:b:x" 6 s).2 = Ret tt
  ∧ ∀ n, (convert_loop n (Ifstream "" false true) (77, stale_ts)
            (Some "/tmp/c:a:locked") (with_file "/tmp/c:a:locked" "" s)).2
         = Fault (FSpin "convertBinToASCII").
Proof.
  intros s. split.
  - destruct (@conversion_ends_iff_opened demo_env demo_machine "/tmp/c:b:x" 6 s
      eq_refl) as [E _].
    destruct (E _ eq_refl) as [E1 _]. rewrite E1. reflexivity.
  - intros n.
    destruct (@conversion_ends_iff_opened demo_env demo_machine "/tmp/c:b:locked" 6 s
      eq_refl) as [_ E].
    destruct (E eq_refl) as (_ & _ & E1).
    exact (f_equal snd (E1 n)).
Defined.
End Demo.
