(* ===== verification/ConverterLogs.v ===== *)
(** * Log converter: the logs of channels, and the directory

    The file a channel wrote, through the program of Converter.v: the name of the
    file, binary channels, compressed channels, and what the program does without
    arguments. *)
From S2P Require Import Prelude Util TimeStamp Platform Log Formats Closure Bytes.
From S2P Require Import Identity IoThread ReorderBuffer IoFlush CompFlush Stable.
From S2P Require Import Converter.

(** ** Where the letter is in the name of a log file *)

(** No colon that [f] follows, nor a colon at the end. *)
Fixpoint colon_safe (f : ascii) (s : string) : bool :=
  match s with
  | EmptyString => true
  | String c s =>
      (negb (Ascii.eqb c ":")
       || match s with String d _ => negb (Ascii.eqb d f) | EmptyString => false end)
      && colon_safe f s
  end.

(** Characters that are neither a colon nor one of the three letters. *)
Definition plain_char (c : ascii) : bool :=
  negb (existsb (Ascii.eqb c) [":"; "b"; "z"; "l"]%char).
Definition plain (s : string) : Prop := all_chars plain_char s = true.

Definition sep (f : ascii) : string := String ":" (String f ":").

Lemma index_sep f t : String.index 0 (sep f) (sep f +:+ t) = Some 0%nat.
Proof.
  unfold sep. rewrite !string_app_cons.
  change ("" +:+ t) with t. cbn [String.index String.prefix].
  destruct (Ascii.ascii_dec ":" ":") as [_|]; [|done].
  destruct (Ascii.ascii_dec f f) as [_|]; [|done]. by destruct t.
Qed.

Lemma index_cons f c s :
  String.index 0 (sep f) (String c s)
  = if String.prefix (sep f) (String c s) then Some 0%nat
    else S <$> String.index 0 (sep f) s.
Proof. done. Qed.

Lemma index_colon_safe f s t :
  colon_safe f s = true →
  String.index 0 (sep f) (s +:+ t) = Nat.add (String.length s) <$> String.index 0 (sep f) t.
Proof.
  induction s as [|c s IH]; intros Hs.
  { change ("" +:+ t) with t. by destruct (String.index 0 (sep f) t). }
  cbn [colon_safe] in Hs. apply andb_true_iff in Hs as [H1 H2]. specialize (IH H2).
  rewrite string_app_cons.
  rewrite index_cons.
  replace (String.prefix (sep f) (String c (s +:+ t))) with false.
  - rewrite IH. by destruct (String.index 0 (sep f) t).
  - symmetry. unfold sep. cbn [String.prefix].
    destruct (Ascii.ascii_dec ":" c) as [<-|]. 2: done.
    destruct s as [|d s]; [done|]. simpl in H1. rewrite string_app_cons.
    cbn [String.prefix]. destruct (Ascii.ascii_dec f d) as [->|]; [|reflexivity].
    by rewrite Ascii.eqb_refl in H1.
Qed.

Lemma plain_zstr z : plain (zstr z).
Proof.
  assert (∀ n, 0 ≤ n → plain (zstr n)) as Hpos.
  { intros n Hn. apply (all_chars_impl is_digit); [|by apply zstr_digits].
    intros c. unfold plain_char, is_digit. simpl.
    repeat match goal with |- context [Ascii.eqb c ?d] =>
      destruct (Ascii.eqb_spec c d) as [->|]; [done|] end. done. }
  destruct (decide (0 ≤ z)) as [|Hz]; [by apply Hpos|].
  replace (zstr z) with ("-" +:+ zstr (- z)) by (destruct z; [lia|lia|done]).
  unfold plain. rewrite all_chars_app. simpl. apply Hpos. lia.
Qed.

Lemma colon_safe_plain f p t :
  plain p → colon_safe f (p +:+ t) = colon_safe f t.
Proof.
  unfold plain. induction p as [|c p IH]; [done|]. rewrite string_app_cons. simpl.
  intros [Hc Hp]%andb_true_iff. rewrite (IH Hp).
  destruct (Ascii.eqb_spec c ":") as [->|]; done.
Qed.

(** After a colon, a plain piece of text and another colon. *)
Lemma colon_safe_field f p t :
  f ∈ ["b"; "z"; "l"]%char → plain p →
  colon_safe f (String ":" (p +:+ String ":" t)) = colon_safe f (String ":" t).
Proof.
  intros Hf Hp.
  assert (∀ d s, Ascii.eqb d f = false →
    colon_safe f (String ":" (String d s)) = colon_safe f (String d s)) as Hd.
  { intros d s E. cbn [colon_safe]. by rewrite E. }
  destruct p as [|c p].
  { apply Hd. list_cases Hf. }
  rewrite string_app_cons, Hd, <- string_app_cons; [by apply colon_safe_plain|].
  unfold plain in Hp. simpl in Hp. apply andb_true_iff in Hp as [Hc _].
  destruct (Ascii.eqb_spec c f) as [->|]; [|done].
  list_cases Hf; discriminate Hc.
Qed.

(** The name up to the colon before the letter, and from the letter's colon on. *)
Section Names.
Context `{Env}.

Definition name_head (ip : string) (nr : Z) : string :=
  "/tmp/md0/cloud_profiler" +:+ String ":" (ip +:+ String ":" (zstr getpid +:+
    String ":" (zstr gettid +:+ String ":" ("ch" +:+ zstr nr)))).
Definition name_tail (msg : string) : string := replace_char " " "_" msg +:+ ".txt".

Lemma logf_path_parts ip nr fmt msg f :
  fmt_str fmt = String f "" →
  logf_path ip nr fmt msg = name_head ip nr +:+ sep f +:+ name_tail msg.
Proof.
  intros Hf. unfold logf_path, name_head, name_tail, fmt_str in *.
  destruct (format_to_str fmt) as [x|]; [|done]. simpl in Hf. subst x.
  repeat (rewrite ?string_app_assoc, ?string_app_cons). reflexivity.
Qed.

Lemma name_head_safe f ip nr :
  f ∈ ["b"; "z"; "l"]%char → plain ip → colon_safe f (name_head ip nr) = true.
Proof.
  intros Hf Hip. unfold name_head.
  assert (∀ t, colon_safe f ("/tmp/md0/cloud_profiler" +:+ t) = colon_safe f t) as ->
    by done.
  rewrite !colon_safe_field by (done || apply plain_zstr).
  assert (Ascii.eqb "c" f = false) as E by (list_cases Hf).
  rewrite string_app_cons. cbn [colon_safe]. rewrite E. change ("h" +:+ ?x) with (String "h" x).
  cbn [colon_safe]. simpl. rewrite <- (string_app_nil_r (zstr nr)).
  by rewrite colon_safe_plain by apply plain_zstr.
Qed.

(** The first place where the letter of the format is. *)
Lemma found_own ip nr fmt msg f :
  f ∈ ["b"; "z"; "l"]%char → fmt_str fmt = String f "" → plain ip →
  found fmt (logf_path ip nr fmt msg) = Some (String.length (name_head ip nr)).
Proof.
  intros Hf Hfmt Hip. unfold found, find. rewrite Hfmt, (logf_path_parts _ _ _ _ f Hfmt).
  change (":" +:+ String f "" +:+ ":") with (sep f).
  rewrite index_colon_safe by (by apply name_head_safe).
  rewrite index_sep. simpl. by rewrite Nat.add_0_r.
Qed.

(** A message without a colon has no letter between colons. *)
Definition no_colon (s : string) : Prop :=
  all_chars (λ c, negb (Ascii.eqb c ":")) s = true.

Lemma index_no_colon f s : no_colon s → String.index 0 (sep f) s = None.
Proof.
  unfold no_colon. induction s as [|c s IH]; [done|]. intros [Hc Hs]%andb_true_iff.
  rewrite index_cons, (IH Hs). unfold sep. cbn [String.prefix].
  destruct (Ascii.ascii_dec ":" c) as [<-|]; [discriminate Hc|reflexivity].
Qed.

Lemma index_colon_no_colon f s :
  no_colon s → String.index 0 (sep f) (String ":" s) = None.
Proof.
  intros Hs. rewrite index_cons, index_no_colon by done.
  assert (String.prefix (sep f) (String ":" s) = false) as ->; [|reflexivity].
  unfold sep. cbn [String.prefix]. destruct (Ascii.ascii_dec ":" ":"); [|done].
  destruct s as [|d s]; [done|]. cbn [String.prefix].
  destruct (Ascii.ascii_dec f d); [|done].
  destruct s as [|x s]; [done|]. cbn [String.prefix]. destruct (Ascii.ascii_dec ":" x) as [<-|]; [|done].
  unfold no_colon in Hs. simpl in Hs. by rewrite andb_false_r in Hs.
Qed.

Lemma found_other ip nr fmt fmt' msg f f' :
  f ∈ ["b"; "z"; "l"]%char → fmt_str fmt = String f "" → fmt_str fmt' = String f' "" →
  f ≠ f' → f ≠ ":"%char → f' ≠ ":"%char → plain ip → no_colon msg →
  found fmt (logf_path ip nr fmt' msg) = None.
Proof.
  intros Hf Hfmt Hfmt' Hne Hc Hc' Hip Hmsg. unfold found, find.
  rewrite Hfmt, (logf_path_parts _ _ _ _ f' Hfmt').
  change (":" +:+ String f "" +:+ ":") with (sep f).
  rewrite index_colon_safe by (by apply name_head_safe).
  assert (no_colon (name_tail msg)) as Ht.
  { unfold name_tail, no_colon. rewrite all_chars_app. apply andb_true_iff. split; [|done].
    clear -Hmsg. unfold no_colon in Hmsg.
    induction msg as [|c msg IH]; [done|]. simpl in *. apply andb_true_iff in Hmsg as [H1 H2].
    rewrite (IH H2), andb_true_r. by destruct (Ascii.eqb_spec c " "). }
  assert (String.index 0 (sep f) (sep f' +:+ name_tail msg) = None) as ->; [|done].
  change (sep f' +:+ name_tail msg)
    with (String ":" (String f' (String ":" (name_tail msg)))).
  do 2 rewrite index_cons. rewrite index_colon_no_colon by done. unfold sep.
  cbn [String.prefix]. destruct (Ascii.ascii_dec ":" ":"); [|done].
  destruct (Ascii.ascii_dec f f'); [done|].
  destruct (Ascii.ascii_dec ":" f'); [congruence|reflexivity].
Qed.

Lemma substring_all m t : (String.length t <= m)%nat → String.substring 0 m t = t.
Proof.
  revert m. induction t as [|c t IH]; intros [|m]; simpl; try done; [lia|].
  intros Hm. by rewrite IH by lia.
Qed.

Lemma substring_prefix p t : String.substring 0 (String.length p) (p +:+ t) = p.
Proof.
  induction p as [|c p IH]; [by destruct t|].
  rewrite string_app_cons. simpl. by rewrite IH.
Qed.

Lemma substring_rest p t m :
  (String.length t <= m)%nat → String.substring (String.length p) m (p +:+ t) = t.
Proof.
  intros Hm. induction p as [|c p IH]; [by apply substring_all|].
  by rewrite string_app_cons.
Qed.

Lemma replace1_at p c r t :
  replace1 (p +:+ String c t) (String.length p) r = p +:+ r +:+ t.
Proof.
  unfold replace1. rewrite substring_prefix. do 2 f_equal.
  replace (p +:+ String c t) with ((p +:+ String c "") +:+ t)
    by (by rewrite string_app_assoc).
  replace (S (String.length p)) with (String.length (p +:+ String c ""))
    by (rewrite string_length_app; simpl; lia).
  apply substring_rest. rewrite string_length_app. lia.
Qed.

Lemma replace1_name ip nr fmt fmt' msg f f' :
  fmt_str fmt = String f "" → fmt_str fmt' = String f' "" →
  replace1 (logf_path ip nr fmt msg) (String.length (name_head ip nr) + 1) (fmt_str fmt')
  = logf_path ip nr fmt' msg.
Proof.
  intros Hf Hf'. rewrite (logf_path_parts _ _ _ _ f Hf), (logf_path_parts _ _ _ _ f' Hf').
  unfold sep. rewrite !string_app_cons.
  replace (name_head ip nr +:+ String ":" (String f (String ":" ("" +:+ name_tail msg))))
    with ((name_head ip nr +:+ ":") +:+ String f (String ":" (name_tail msg)))
    by (by rewrite string_app_assoc).
  replace (String.length (name_head ip nr) + 1)%nat
    with (String.length (name_head ip nr +:+ ":")) by (by rewrite string_length_app).
  rewrite replace1_at, Hf'. by rewrite !string_app_assoc.
Qed.
End Names.

(** ** Logs of channels *)
Section Logs.
Context `{Env} `{Sizes} `{Machine} `{Squash}.

Lemma binary_record_length t ts : String.length (binary_record t ts) = 40%nat.
Proof.
  unfold binary_record, timespec_bytes.
  by rewrite !string_length_app, !le_bytes_length.
Qed.

Lemma records_of l :
  Forall (λ r, - 2 ^ 63 ≤ r.1 < 2 ^ 63 ∧ timespec_ok r.2) l →
  records (string_concat (map (λ r, binary_record r.1 r.2) l)) = l.
Proof.
  intros Hl. unfold records. set (data := string_concat _).
  assert (∀ n, (length l < n)%nat → read_all n data = l) as Hn.
  { unfold data. induction Hl as [|[t ts] l [Ht Hts] _ IH]; intros n Hn.
    { by destruct n. }
    destruct n as [|n]; [lia|]. cbn [length map string_concat foldr read_all].
    simpl in Ht, Hts. rewrite readInBinary_record by done.
    f_equal. apply IH. simpl in Hn. lia. }
  apply Hn. unfold data. clear. induction l as [|r l IH]; [simpl; lia|].
  cbn [length map]. change (string_concat (?a :: ?x)) with (a +:+ string_concat x).
  rewrite string_length_app, binary_record_length. lia.
Qed.

Definition printed (l : list string) (x : cst) : cst := set_cout (cout x ++ l) x.

Lemma no_codec ip nr msg :
  plain ip → no_colon msg → found_codec (logf_path ip nr BINARY msg) = None.
Proof.
  intros Hip Hmsg. unfold found_codec.
  rewrite (found_other ip nr ZSTD BINARY msg "z" "b"),
    (found_other ip nr LZO1X BINARY msg "l" "b"); by_decide || done.
Qed.

Lemma convertLogFile_binary ip nr msg l x :
  let bin := logf_path ip nr BINARY msg in
  let txt := logf_path ip nr ASCII msg in
  plain ip → no_colon msg → Forall sample_ok l → creatable txt = true →
  opened bin x = Some (string_concat (map (λ r, binary_record r.1 r.2) l)) →
  convertLogFileToAscii bin x
  = (with_file txt (text l) (printed ["Converting " +:+ bin +:+ ".."] x), Ret tt)
  ∧ convertLogFile bin false x = convertLogFileToAscii bin x.
Proof.
  intros bin txt Hip Hmsg Hl Hc Ho.
  set (y := printed ["Converting " +:+ bin +:+ ".."] x).
  assert (convertBinToASCII bin (String.length (name_head ip nr)) y
    = (with_file txt (text l) y, Ret tt)) as E.
  { unfold bin, txt. rewrite (convertBinToASCII_run _ _
      (string_concat (map (λ r, binary_record r.1 r.2) l)));
      rewrite ?(replace1_name ip nr BINARY BINARY msg "b" "b") by done;
      rewrite ?(replace1_name ip nr BINARY ASCII msg "b" "a") by done; try done.
    by rewrite records_of. }
  assert (found_codec bin = None) as Hn by by apply no_codec.
  assert (found BINARY bin = Some (String.length (name_head ip nr))) as Hf
    by (apply (found_own ip nr BINARY msg "b"); by_decide || done).
  unfold convertLogFileToAscii, convertLogFile. rewrite Hn, Hf.
  unfold print. rewrite !(bind_Ret (modify _) _ _ _ tt eq_refl).
  split; [exact E|done].
Qed.

(** ** Compressed channels *)

(** The law of the library the program relies on: what was compressed is restored,
    in an array with room for it, whatever the array held. *)
Definition decompression_inverts : Prop := ∀ codec level d bytes out,
  squash_compress codec level d = Some bytes →
  (String.length d <= String.length out)%nat →
  ∃ rest, squash_decompress codec out bytes
          = (None, Z.of_nat (String.length d), d +:+ rest)
    ∧ String.length (d +:+ rest) = String.length out.

(** No block of the size the IO thread writes grows beyond the input array. *)
Definition blocks_fit : Prop := ∀ codec level d bytes,
  Z.of_nat (String.length d) ≤ OUT_SIZE → squash_compress codec level d = Some bytes →
  Z.of_nat (String.length bytes) ≤ OUT_SIZE.

Definition compressions_succeed : Prop :=
  ∀ codec level d, is_Some (squash_compress codec level d).

Lemma raw_bytes_records l :
  raw_bytes l = string_concat (map (λ r, binary_record r.1 r.2) l).
Proof. done. Qed.

Lemma raw_bytes_length l : String.length (raw_bytes l) = (40 * length l)%nat.
Proof.
  rewrite raw_bytes_records. induction l as [|r l IH]; [done|].
  cbn [length map]. change (string_concat (?a :: ?x)) with (a +:+ string_concat x).
  rewrite string_length_app, binary_record_length. lia.
Qed.

Lemma concat_raw_bytes sent :
  string_concat (map (λ b, raw_bytes (samples b)) sent)
  = string_concat (map (λ r, binary_record r.1 r.2) (all_samples sent)).
Proof.
  unfold all_samples. induction sent as [|b sent IH]; [done|].
  cbn [map concat]. rewrite map_app, string_concat_app.
  change (string_concat (?a :: ?x)) with (a +:+ string_concat x). by rewrite IH.
Qed.

Lemma frames_packed_file fmt sent :
  string_concat (concat (map frame (map (packed fmt) sent)))
  = packed_file (map (λ b, packed_bytes fmt (samples b)) sent).
Proof.
  unfold packed_file. induction sent as [|b sent IH]; [done|].
  cbn [map concat]. rewrite string_concat_app, IH.
  change (string_concat (?a :: ?x)) with (a +:+ string_concat x). f_equal.
  unfold frame, payload_bytes, packed. simpl. rewrite Z.eqb_refl. simpl.
  by rewrite string_app_nil_r.
Qed.

Lemma blocks_unpack fmt sent :
  compressions_succeed → decompression_inverts → blocks_fit →
  Forall (λ b, raw_block true (ch_cl b) b ∧ block_idx b ≤ BUFFER_BLOCK_SIZE) sent →
  Forall2 (unpacks (codec_of fmt)) (map (λ b, raw_bytes (samples b)) sent)
    (map (λ b, packed_bytes fmt (samples b)) sent).
Proof.
  intros Hsq Hinv Hfit. induction 1 as [|b sent [[_ _ _ Hi] Hmax] _ IH]; [constructor|].
  cbn [map]. constructor; [|exact IH].
  destruct (Hsq (codec_of fmt) (level_of fmt) (raw_bytes (samples b))) as [bytes E].
  assert (Z.of_nat (String.length (raw_bytes (samples b))) ≤ OUT_SIZE) as Hd.
  { rewrite raw_bytes_length. unfold OUT_SIZE. lia. }
  unfold packed_bytes. rewrite E. simpl. split; [by apply (Hfit _ _ _ _ Hd E)|].
  intros out Hout. destruct (Hinv _ _ _ _ out E) as (rest & E1 & E2); [lia|].
  exists rest. by rewrite E1, E2.
Qed.

(** The size and the state of the file after each of the two conversions. *)
Lemma convertLogFile_packed ip nr fmt msg sent x :
  let pk := logf_path ip nr fmt msg in
  let bin := logf_path ip nr BINARY msg in
  let txt := logf_path ip nr ASCII msg in
  fmt = ZSTD ∨ fmt = LZO1X → plain ip → no_colon msg →
  Forall2 (unpacks (codec_of fmt)) (map (λ b, raw_bytes (samples b)) sent)
    (map (λ b, packed_bytes fmt (samples b)) sent) →
  Forall sample_ok (all_samples sent) →
  OUT_SIZE < 2 ^ 31 → Z.of_nat (String.length fresh_out) = OUT_SIZE →
  creatable bin = true → creatable txt = true → readable bin = true →
  opened pk x = Some (packed_file (map (λ b, packed_bytes fmt (samples b)) sent)) →
  ∃ x', convertLogFileToAscii pk x = (x', Ret tt)
    ∧ files x' = <[txt := text (all_samples sent)]>
        (<[bin := string_concat (map (λ r, binary_record r.1 r.2) (all_samples sent))]>
           (files x)).
Proof.
  intros pk bin txt Hfmt Hip Hmsg Hun Hok Hsz Hout Hcb Hct Hrd Ho.
  assert (∃ f, fmt_str fmt = String f "" ∧
    found_codec pk = Some (String.length (name_head ip nr), fmt_str fmt)) as (f & Ef & Ec).
  { unfold found_codec, pk. destruct Hfmt as [-> | ->].
    - exists "z"%char. split; [done|].
      by rewrite (found_own ip nr ZSTD msg "z") by (done || by_decide).
    - exists "l"%char. split; [done|].
      rewrite (found_other ip nr ZSTD LZO1X msg "z" "l") by (done || by_decide).
      by rewrite (found_own ip nr LZO1X msg "l") by (done || by_decide). }
  assert (∀ g g' h h', fmt_str g = String h "" → fmt_str g' = String h' "" →
    replace1 (logf_path ip nr g msg) (String.length (name_head ip nr) + 1) (fmt_str g')
    = logf_path ip nr g' msg) as Hrep by (intros g g' h h'; apply replace1_name).
  set (raw := string_concat (map (λ b, raw_bytes (samples b)) sent)) in *.
  set (y := printed ["Decompressing " +:+ pk +:+ ".."] x).
  assert (decompress pk (String.length (name_head ip nr)) (fmt_str fmt) y
    = (with_file bin raw y, Ret tt)) as Ed.
  { pose proof (decompress_run pk (String.length (name_head ip nr)) fmt (codec_of fmt)
      (map (λ b, raw_bytes (samples b)) sent)
      (map (λ b, packed_bytes fmt (samples b)) sent) y) as E. cbv zeta in E. unfold pk in E.
    rewrite (Hrep fmt fmt f f Ef Ef), (Hrep fmt BINARY f "b"%char Ef eq_refl) in E.
    apply E; try done. destruct Hfmt as [-> | ->]; [left|right]; by split. }
  set (z := printed ["Converting decompressed data.."] (with_file bin raw y)).
  assert (convertBinToASCII pk (String.length (name_head ip nr)) z
    = (with_file txt (text (all_samples sent)) z, Ret tt)) as Eb.
  { pose proof (convertBinToASCII_run pk (String.length (name_head ip nr)) raw z) as E.
    cbv zeta in E. unfold pk in E.
    rewrite (Hrep fmt BINARY f "b"%char Ef eq_refl),
      (Hrep BINARY ASCII "b"%char "a"%char eq_refl eq_refl) in E.
    unfold pk. rewrite E; [|unfold opened; simpl; rewrite lookup_insert_eq; simpl;
      fold bin; by rewrite Hrd|done].
    unfold raw. by rewrite concat_raw_bytes, records_of. }
  exists (with_file txt (text (all_samples sent)) z). split.
  - unfold convertLogFileToAscii. rewrite Ec. unfold print.
    rewrite (bind_Ret (modify _) _ _ y tt eq_refl), (bind_Ret _ _ _ _ _ Ed).
    rewrite (bind_Ret (modify _) _ _ z tt eq_refl). exact Eb.
  - simpl. unfold raw. by rewrite concat_raw_bytes.
Qed.

(** C22. The text the program makes of the log of a binary channel is the text that a
    channel in the ASCII format would have written of the same calls, byte for byte,
    under the name it would have had. *)
Theorem converted_log_is_ascii_log ts s ip nr msg x :
  plain ip → no_colon msg → Forall (λ t, - 2 ^ 63 ≤ t < 2 ^ 63) ts →
  (∀ k, (clk s ≤ k < clk s + length ts)%nat → timespec_ok (clock k)) →
  creatable (logf_path ip nr ASCII msg) = true →
  let start fmt := set_ch_logf (Ofstream true false []) (initIdentityHandler fmt) in
  ∃ cb sb ca sa,
    log_all IdentityHandler ts (start BINARY, s) = ((cb, sb), Ret tt)
    ∧ log_all IdentityHandler ts (start ASCII, s) = ((ca, sa), Ret tt)
    ∧ (opened (logf_path ip nr BINARY msg) x = Some (contents (ch_logf cb)) →
       ∃ x', convertLogFileToAscii (logf_path ip nr BINARY msg) x = (x', Ret tt)
         ∧ files x' = <[logf_path ip nr ASCII msg := contents (ch_logf ca)]> (files x)).
Proof.
  intros Hip Hmsg Hts Hclk Hc start. destruct writes_all as (Wa & _ & Wb & _).
  destruct (identity_run binary_record writeInBinary_fn ts (start BINARY) s eq_refl)
    as (ob & Eb & _ & Cb); [done|done|].
  destruct (identity_run ascii_record writeInAscii_fn ts (start ASCII) s eq_refl)
    as (oa & Ea & _ & Ca); [done|done|].
  do 4 eexists. split; [exact Eb|]. split; [exact Ea|].
  change (contents (ch_logf (set_ch_logf ?o ?c))) with (contents o).
  change (contents (ch_logf (start ?f))) with "" in Cb, Ca.
  rewrite Cb, Ca. intros Ho.
  destruct (convertLogFile_binary ip nr msg (Identity.samples (clk s) ts) x)
    as [E _]; [done|done|by apply samples_ok|done|done|].
  rewrite E. eexists. split; [done|]. done.
Qed.

End Logs.

(** ** Without arguments: the files of one directory *)
Section Directory.
Context `{Env} `{Sizes} `{Machine}.

Fixpoint slashes (s : string) : nat :=
  match s with
  | EmptyString => 0
  | String c s => (if Ascii.eqb c "/" then 1 else 0) + slashes s
  end.

Lemma slashes_app s t : slashes (s +:+ t) = (slashes s + slashes t)%nat.
Proof.
  induction s as [|c s IH]; [done|]. rewrite string_app_cons. simpl. rewrite IH. lia.
Qed.

Lemma slashes_substring n m s : (slashes (String.substring n m s) <= slashes s)%nat.
Proof.
  revert n m. induction s as [|c s IH]; intros [|n] [|m]; simpl; try lia.
  - specialize (IH 0%nat m). lia.
  - specialize (IH n 0%nat). lia.
  - specialize (IH n (S m)). lia.
Qed.

Lemma slashes_prefix_rest n m s :
  (slashes (String.substring 0 n s) + slashes (String.substring (S n) m s) <= slashes s)%nat.
Proof.
  revert n m. induction s as [|c s IH]; intros [|n] m; simpl; try lia.
  - pose proof (slashes_substring 0 m s). lia.
  - specialize (IH n m). destruct m; simpl in *; lia.
Qed.

Lemma slashes_replace1 s pos f :
  (slashes (replace1 s pos (fmt_str f)) <= slashes s)%nat.
Proof.
  unfold replace1. rewrite !slashes_app.
  pose proof (slashes_prefix_rest pos (String.length s) s).
  assert (slashes (fmt_str f) = 0%nat) as -> by by destruct f. lia.
Qed.

(** The files below a directory of /tmp stay what they are. *)
Definition keeps_below (s s' : cst) : Prop :=
  ∀ p, (2 < slashes p)%nat → files s' !! p = files s !! p.

#[local] Instance keeps_below_po : PreOrder keeps_below.
Proof.
  split; [by intros s p|]. intros s1 s2 s3 E1 E2 p Hp. by rewrite E2, E1.
Qed.

Lemma keeps_file path t s :
  (slashes path <= 2)%nat → keeps_below s (set_files (<[path := t]> (files s)) s).
Proof. intros Hp p Hlt. simpl. apply lookup_insert_ne. intros ->. lia. Qed.

Definition shallow (h : option string) : Prop :=
  match h with Some path => (slashes path <= 2)%nat | None => True end.

Lemma put_keeps h t : shallow h → stable keeps_below (put h t).
Proof.
  intros Hh. apply (stable_modify keeps_below). intros s. destruct h as [path|]; [|done].
  by apply keeps_file.
Qed.

Lemma open_in_keeps path : stable keeps_below (open_in path).
Proof. apply (stable_bind keeps_below); [apply (stable_get keeps_below)|]. intros s. apply (stable_ret keeps_below). Qed.

(** What is written next goes to the file that was opened. *)
Lemma open_out_keeps {A} path (k : option string → M cst A) :
  (slashes path <= 2)%nat → (∀ h, shallow h → stable keeps_below (k h)) →
  stable keeps_below (open_out path ≫= k).
Proof.
  intros Hp Hk s. unfold open_out. destruct (creatable path).
  - pose proof (stable_bind keeps_below (modify (λ s, set_files (<[path := ""]> (files s)) s))
      (λ _, k (Some path))) as E.
    rewrite bind_assoc. apply E; [|by intros _; apply Hk].
    apply (stable_modify keeps_below). intros s1. by apply keeps_file.
  - rewrite bind_ret_l. by apply (Hk None).
Qed.

Lemma convert_loop_keeps fuel i r h : shallow h → stable keeps_below (convert_loop fuel i r h).
Proof.
  intros Hh. revert i r. induction fuel as [|fuel IH]; intros i r; cbn [convert_loop].
  { by apply (stable_raise keeps_below). }
  destruct (read_sample i r) as [i' r']. destruct (if_eof i').
  - apply (stable_ret keeps_below).
  - apply (stable_bind keeps_below); [by apply put_keeps|]. intros _. apply IH.
Qed.

Lemma convertBinToASCII_keeps path idx :
  (slashes path <= 2)%nat → stable keeps_below (convertBinToASCII path idx).
Proof.
  intros Hp. unfold convertBinToASCII. apply (stable_bind keeps_below); [apply open_in_keeps|].
  intros i. apply open_out_keeps.
  - etransitivity; [apply slashes_replace1|]. etransitivity; [apply slashes_replace1|done].
  - intros h. apply convert_loop_keeps.
Qed.

Lemma read_block_keeps n i : stable keeps_below (read_block n i).
Proof.
  destruct n as [n|]; [|apply (stable_ret keeps_below)]. unfold read_block.
  repeat case_match; by apply (stable_ret keeps_below) || apply (stable_raise keeps_below).
Qed.

Lemma decompress_loop_keeps fuel codec i out h :
  shallow h → stable keeps_below (decompress_loop fuel codec i out h).
Proof.
  intros Hh. revert i out. induction fuel as [|fuel IH]; intros i out; cbn [decompress_loop].
  { by apply (stable_raise keeps_below). }
  destruct (read_size i) as [n i1]. apply (stable_bind keeps_below); [apply read_block_keeps|].
  intros [data i2]. destruct (if_eof i2); [apply (stable_ret keeps_below)|].
  destruct data as [data|]; [|by apply (stable_raise keeps_below)].
  destruct (squash_decompress _ out data) as [[result size] out'].
  apply (stable_bind keeps_below); [|].
  { destruct result; [apply (stable_modify keeps_below); by intros ? p|apply (stable_ret keeps_below)]. }
  intros _. apply (stable_bind keeps_below); [|].
  { destruct (split_at _ out') as [[t ?]|]; [by apply put_keeps|].
    by apply (stable_raise keeps_below). }
  intros _. apply IH.
Qed.

Lemma decompress_keeps path idx f :
  (slashes path <= 2)%nat → stable keeps_below (decompress path idx (fmt_str f)).
Proof.
  intros Hp. unfold decompress. apply (stable_bind keeps_below); [apply open_in_keeps|].
  intros i. apply open_out_keeps.
  - etransitivity; [apply slashes_replace1|]. etransitivity; [apply slashes_replace1|done].
  - intros h. apply decompress_loop_keeps.
Qed.

Lemma found_codec_letter path idx codec :
  found_codec path = Some (idx, codec) → ∃ f, codec = fmt_str f.
Proof.
  unfold found_codec. repeat case_match; intros [= <- <-]; by eexists.
Qed.

Lemma print_keeps t : stable keeps_below (print t).
Proof. apply (stable_modify keeps_below). by intros s p. Qed.

Lemma convertLogFile_keeps path decomp :
  (slashes path <= 2)%nat → stable keeps_below (convertLogFile path decomp).
Proof.
  intros Hp. unfold convertLogFile. destruct decomp.
  - destruct (found_codec path) as [[idx codec]|] eqn:E; [|apply (stable_ret keeps_below)].
    apply found_codec_letter in E as [f ->].
    apply (stable_bind keeps_below); [apply print_keeps|]. intros _. by apply decompress_keeps.
  - destruct (found BINARY path); [|apply (stable_ret keeps_below)].
    apply (stable_bind keeps_below); [apply print_keeps|]. intros _.
    by apply convertBinToASCII_keeps.
Qed.

(** The entries of a directory are names without a slash. *)
Definition entry_names : Prop :=
  ∀ dir k fs name, readdir dir k fs = Some name → slashes name = 0%nat.

Lemma convert_keeps fuel decomp :
  entry_names → stable keeps_below (convert fuel decomp).
Proof.
  intros Hn. unfold convert, openDirectory. apply (stable_bind keeps_below); [|].
  { apply (stable_bind keeps_below); [apply (stable_get keeps_below)|]. intros s.
    apply (stable_bind keeps_below); [apply (stable_modify keeps_below); by intros ? p|].
    intros _. apply (stable_ret keeps_below). }
  intros [dir|].
  2:{ apply (stable_bind keeps_below); [apply print_keeps|]. intros _.
      by apply (stable_raise keeps_below). }
  apply (stable_bind keeps_below); [|].
  - induction fuel as [|fuel IH]; cbn [convertAllLogFiles].
    { by apply (stable_raise keeps_below). }
    apply (stable_bind keeps_below); [apply (stable_get keeps_below)|]. intros s.
    apply (stable_bind keeps_below); [apply (stable_modify keeps_below); by intros ? p|]. intros _.
    destruct (readdir dir (entries s) (files s)) as [name|] eqn:E; [|apply (stable_ret keeps_below)].
    apply (stable_bind keeps_below); [|intros _; exact IH].
    apply convertLogFile_keeps. rewrite !slashes_app, (Hn _ _ _ _ E). simpl. lia.
  - intros _. unfold closeDirectory. apply (stable_bind keeps_below); [apply (stable_ret keeps_below)|].
    intros ret. destruct (ret =? -1); [|apply (stable_ret keeps_below)].
    apply (stable_bind keeps_below); [apply print_keeps|]. intros _.
    by apply (stable_raise keeps_below).
Qed.

(** C25. Run without arguments, which is documented to convert all log files, the
    program converts no log of a channel: openChannel puts them in /tmp/md0, the
    program looks in /tmp, and a directory has no entry with a slash. No file that
    has the name of a log is changed or made, whatever the files are, also when the
    run ends in an error or does not end. *)
Theorem default_run_converts_no_log fuel s ip nr fmt msg :
  entry_names →
  files (main fuel [] s).1 !! logf_path ip nr fmt msg
  = files s !! logf_path ip nr fmt msg.
Proof.
  intros Hn. assert (stable keeps_below (main fuel [])) as Hs.
  { unfold main. apply (stable_bind keeps_below); [|intros _; apply (stable_ret keeps_below)].
    apply (stable_bind keeps_below); [by apply convert_keeps|]. intros _.
    by apply convert_keeps. }
  apply (proj1 (Hs s)). unfold logf_path. rewrite !slashes_app. simpl. lia.
Qed.
End Directory.

(** ** The logs of the demonstrations *)
Lemma converted_log_is_ascii_log_witness :
  let x := demo_files [(@logf_path demo_env "10.0.0.7" 3 BINARY "m",
    @binary_record demo_env 5 (@clock demo_env 0)
    +:+ @binary_record demo_env (-6) (@clock demo_env 1))] in
  ∃ x', @convertLogFileToAscii demo_env code_sizes demo_machine
          (@logf_path demo_env "10.0.0.7" 3 BINARY "m") x = (x', Ret tt)
    ∧ files x' !! @logf_path demo_env "10.0.0.7" 3 ASCII "m"
      = Some ("5, 1000, 500, 7000, 3" +:+ nl +:+ "-6, 1001, 500, 7010, 3" +:+ nl).
Proof.
  intros x.
  destruct (@converted_log_is_ascii_log demo_env code_sizes demo_machine [5; -6]
    (@sys_init true) "10.0.0.7" 3 "m" x) as (cb & sb & ca & sa & Eb & Ea & Hc);
    [reflexivity|reflexivity|by_decide| |reflexivity|].
  { intros k Hk. unfold timespec_ok. simpl in Hk |- *. pow2. lia. }
  vm_compute in Eb. injection Eb as <- <-. vm_compute in Ea. injection Ea as <- <-.
  destruct Hc as (x' & E & F); [vm_compute; reflexivity|].
  exists x'. split; [exact E|]. rewrite F, lookup_insert_eq. vm_compute. reflexivity.
Defined.

Lemma default_run_converts_no_log_witness :
  let log := @logf_path demo_env "10.0.0.7" 3 BINARY "m" in
  let x := demo_files [(log, "")] in
  files (@main demo_env code_sizes demo_machine 5 [] x).1
    !! @logf_path demo_env "10.0.0.7" 3 ASCII "m" = None.
Proof.
  intros log x.
  rewrite (@default_run_converts_no_log demo_env code_sizes demo_machine); [reflexivity|].
  intros dir k fs name Hk. apply list_elem_of_lookup_2 in Hk. list_cases Hk.
Defined.

Section Demo.
#[local] Existing Instances demo_env demo_sizes demo_squash demo_machine.

Definition demo_c13 : bst := (compress_and_return demo_b0 demo_c12).1.
Definition demo_n0 : block_data := packed ZSTD demo_b0.
Definition demo_c14 : bst := (enqueueFullBlockFromCompThread demo_n0 demo_c13).1.
Definition demo_c15 : bst := (io_round demo_c14).1.

Lemma demo_done : csteps demo_ctr (demo_c15, demo_idle).
Proof.
  assert (∀ a b, csteps demo_ctr a → tstep a b → csteps demo_ctr b) as Hstep.
  { intros a b Ha Hb. refine (csteps_step demo_ctr a None b Ha _). by constructor. }
  assert (tstep (demo_c12, [WRaw demo_b0; WIdle; WIdle; WIdle])
                (demo_c13, [WDone demo_n0; WIdle; WIdle; WIdle])) as T1
    by (refine (c_pack demo_c12 _ _ 0 demo_b0 demo_n0 _ _); [done|vm_compute; reflexivity]).
  assert (tstep (demo_c13, [WDone demo_n0; WIdle; WIdle; WIdle]) (demo_c14, demo_idle)) as T2
    by (refine (c_push demo_c13 _ _ 0 demo_n0 _ _); [done|vm_compute; reflexivity]).
  assert (tstep (demo_c14, demo_idle) (demo_c15, demo_idle)) as T3
    by (eapply c_io; vm_compute; reflexivity).
  exact (Hstep _ _ (Hstep _ _ (Hstep _ _ demo_early T1) T2) T3).
Qed.

Definition demo_log : string :=
  match chans demo_c15 !! 1 with Some c => contents (ch_logf c) | None => "" end.

End Demo.
