(* ===== verification/Barrier.v ===== *)
(** * Barrier of threads: src/cp/armfreq/barrier.cpp

    Each thread counts its calls of barrier_wait in a counter of its own and waits
    until no counter is behind. Threads run in any interleaving; an access to a
    counter is one step, as the counters are atomic. The test programs under
    src/cp_test have copies of this code. *)
From S2P Require Import Prelude.

Definition MAX_ALLOC_NR_THREADS : nat := 4096.

(** The global variables; a counter is a uint64_t. *)
Record bar := Bar { ctr : list Z; nr_threads : Z }.

Definition set_ctr x b := Bar x (nr_threads b).

(** Zero-initialised, as static variables are. *)
Definition bar_static : bar := Bar (replicate MAX_ALLOC_NR_THREADS 0) 0.

(** [None] when the array is left. *)
Definition barrier_init (n : Z) (b : bar) : option bar :=
  if bool_decide (Z.to_nat n <= length (ctr b))%nat
  then Some (Bar (replicate (Z.to_nat n) 0 ++ drop (Z.to_nat n) (ctr b)) n)
  else None.

(** Where a thread is: outside of barrier_wait, after the increment, and in the loop
    with my_level and thr. *)
Inductive bpc :=
  | BOut
  | BEntered
  | BLoop (my_level : Z) (thr : nat).

#[global] Instance bpc_eq_dec : EqDecision bpc.
Proof. solve_decision. Defined.

(** A step of [barrier_wait(tid)]; [None] when the array is left. *)
Definition barrier_wait (tid : nat) (pc : bpc) (b : bar) : option (bpc * bar) :=
  match pc with
  | BOut =>
      c ← ctr b !! tid;
      Some (BEntered, set_ctr (<[tid := wrapU 64 (c + 1)]> (ctr b)) b)
  | BEntered =>
      my_level ← ctr b !! tid;
      Some (BLoop my_level 0, b)
  | BLoop my_level thr =>
      if Z.of_nat thr <? nr_threads b then
        c ← ctr b !! thr;
        if c <? my_level then Some (pc, b) else Some (BLoop my_level (S thr), b)
      else Some (BOut, b)
  end.

(** ** Threads

    A thread is what it does: actions of its own, and calls of barrier_wait, which
    are the [None]s. *)
Section Threads.
Context {A : Type}.

Record bthread := BThread {
  bt_pc : bpc;
  bt_done : list (option A);
  bt_todo : list (option A)
}.

Definition is_wait (o : option A) : bool := match o with None => true | _ => false end.
Definition waits (l : list (option A)) : nat := count is_wait l.

(** Calls that have begun. *)
Definition inside (pc : bpc) : nat := match pc with BOut => 0 | _ => 1 end.
Definition entered (t : bthread) : nat := waits (bt_done t) + inside (bt_pc t).

Definition bsys : Type := bar * list bthread.

(** A step of thread [i]. Where it would not change anything, because a counter is
    behind, it is still a step. *)
Inductive bstep : bsys → bsys → Prop :=
  | b_work b ts i t a rest :
      ts !! i = Some t → bt_pc t = BOut → bt_todo t = Some a :: rest →
      bstep (b, ts) (b, <[i := BThread BOut (bt_done t ++ [Some a]) rest]> ts)
  | b_wait b b' ts i t rest pc' :
      ts !! i = Some t → bt_todo t = None :: rest →
      barrier_wait i (bt_pc t) b = Some (pc', b') → pc' ≠ BOut →
      bstep (b, ts) (b', <[i := BThread pc' (bt_done t) (None :: rest)]> ts)
  | b_leave b b' ts i t rest :
      ts !! i = Some t → bt_todo t = None :: rest →
      barrier_wait i (bt_pc t) b = Some (BOut, b') →
      bstep (b, ts) (b', <[i := BThread BOut (bt_done t ++ [None]) rest]> ts).

Definition bstart (b : bar) (progs : list (list (option A))) : bsys :=
  (b, map (λ p, BThread BOut [] p) progs).

(** ** The invariant *)
Definition reached (b : bar) (n : nat) : Prop :=
  ∀ j c, (Z.of_nat j < nr_threads b) → ctr b !! j = Some c → Z.of_nat n ≤ c.

Record thread_inv (b : bar) (i : nat) (t : bthread) : Prop := ThreadInv {
  ti_ctr : ctr b !! i = Some (Z.of_nat (entered t));
  ti_past : reached b (waits (bt_done t));
  ti_loop l k : bt_pc t = BLoop l k →
    l = Z.of_nat (entered t) ∧ Z.of_nat k ≤ nr_threads b
    ∧ ∀ j c, (j < k)%nat → ctr b !! j = Some c → l ≤ c;
  ti_todo : bt_pc t ≠ BOut → ∃ rest, bt_todo t = None :: rest
}.

Record bar_inv (progs : list (list (option A))) (s : bsys) : Prop := BarInv {
  bi_nr : nr_threads s.1 = Z.of_nat (length progs);
  bi_len : length s.2 = length progs;
  bi_prog i t : s.2 !! i = Some t → progs !! i = Some (bt_done t ++ bt_todo t);
  bi_thr i t : s.2 !! i = Some t → thread_inv s.1 i t
}.

Lemma waits_app l1 l2 : waits (l1 ++ l2) = (waits l1 + waits l2)%nat.
Proof. apply count_app. Qed.

(** Counters only grow. *)
Definition grows (b b' : bar) : Prop :=
  nr_threads b' = nr_threads b
  ∧ ∀ j c', ctr b' !! j = Some c' → ∃ c, ctr b !! j = Some c ∧ c ≤ c'.

Lemma grows_refl b : grows b b.
Proof. split; [done|]. intros j c Hc. by exists c. Qed.

Lemma grows_incr b i c :
  ctr b !! i = Some c → grows b (set_ctr (<[i := c + 1]> (ctr b)) b).
Proof.
  intros Hi. split; [done|]. intros j c' Hj. simpl in Hj.
  destruct (decide (j = i)) as [->|Hne].
  - rewrite list_lookup_insert_eq in Hj by (by eapply lookup_lt_Some).
    injection Hj as <-. exists c. split; [done|lia].
  - rewrite list_lookup_insert_ne in Hj by done. by exists c'.
Qed.

Lemma thread_inv_grow b b' j t :
  thread_inv b j t → grows b b' → ctr b' !! j = ctr b !! j → thread_inv b' j t.
Proof.
  intros [I1 I2 I3 I4] [Hn Hg] Hj. split; [by rewrite Hj| | |done].
  - intros k c' Hk Hc. rewrite Hn in Hk. destruct (Hg k c' Hc) as (c & E & Hle).
    pose proof (I2 k c Hk E). lia.
  - intros l k Hpc. destruct (I3 l k Hpc) as (E1 & E2 & E3). rewrite Hn.
    split; [done|]. split; [done|]. intros m c' Hm Hc.
    destruct (Hg m c' Hc) as (c & E & Hle). pose proof (E3 m c Hm E). lia.
Qed.

Lemma waits_le_prog progs s i t :
  bar_inv progs s → s.2 !! i = Some t →
  ∃ p, progs !! i = Some p ∧ (waits (bt_done t) + waits (bt_todo t) = waits p)%nat.
Proof.
  intros Hi Ht. exists (bt_done t ++ bt_todo t).
  split; [by apply (bi_prog _ _ Hi)|]. by rewrite waits_app.
Qed.

Definition short (progs : list (list (option A))) : Prop :=
  Forall (λ p, Z.of_nat (waits p) < 2 ^ 64) progs.

(** A step of barrier_wait, for the thread that takes it. *)
Lemma barrier_wait_inv b b' i t rest pc' :
  thread_inv b i t → bt_todo t = None :: rest → 0 ≤ nr_threads b →
  Z.of_nat (waits (bt_done t)) + 1 < 2 ^ 64 →
  barrier_wait i (bt_pc t) b = Some (pc', b') →
  grows b b' ∧ (∀ j, j ≠ i → ctr b' !! j = ctr b !! j)
  ∧ thread_inv b' i
      (if decide (pc' = BOut) then BThread BOut (bt_done t ++ [None]) rest
       else BThread pc' (bt_done t) (None :: rest)).
Proof.
  intros Hi Ht Hnr Hw E. pose proof Hi as [I1 I2 I3 I4]. unfold entered in *.
  destruct (bt_pc t) as [| |l k] eqn:Epc; simpl in I1, E.
  - rewrite I1 in E. simpl in E. injection E as <- <-.
    rewrite wrapU_small by lia.
    destruct (grows_incr b i _ I1) as [G1 G2]. rewrite decide_False by done.
    split; [by split|]. split; [intros j Hj; simpl; by rewrite list_lookup_insert_ne|].
    split; simpl; [| |done|by eexists].
    + unfold entered. simpl. rewrite list_lookup_insert_eq by (by eapply lookup_lt_Some).
      f_equal. lia.
    + intros j c Hj Hc. destruct (G2 j c Hc) as (c0 & E0 & Hle).
      pose proof (I2 j c0 Hj E0). lia.
  - rewrite I1 in E. simpl in E. injection E as <- <-. rewrite decide_False by done.
    split; [apply grows_refl|]. split; [done|].
    split; simpl; [done|done| |by eexists].
    intros l k [= <- <-]. split; [done|]. split; [lia|]. intros j c Hj. lia.
  - destruct (I3 l k eq_refl) as (El & Hk & Hpast). simpl in El.
    destruct (Z.ltb_spec (Z.of_nat k) (nr_threads b)) as [Hlt|Hge].
    + destruct (ctr b !! k) as [c|] eqn:Ek; [|done]. simpl in E.
      assert (b' = b ∧ ∃ k', pc' = BLoop l k' ∧ (k' = k ∨ k' = S k ∧ l ≤ c))
        as (-> & k' & -> & Hk').
      { destruct (Z.ltb_spec c l) as [?|?]; injection E as <- <-;
          (split; [done|]); eexists; (split; [done|]); tauto. }
      rewrite decide_False by done. split; [apply grows_refl|]. split; [done|].
      split; simpl; [done|done| |by eexists].
      intros l1 k1 [= <- <-]. split; [done|].
      destruct Hk' as [->|[-> Hc]]; [by split|]. split; [lia|].
      intros j c' Hj Hc'. destruct (decide (j = k)) as [->|]; [congruence|].
      apply (Hpast j c'); [lia|done].
    + injection E as <- <-. rewrite decide_True by done.
      split; [apply grows_refl|]. split; [done|].
      split; simpl; [| |done|done].
      * unfold entered. simpl. rewrite I1, waits_app. change (waits [None]) with 1%nat. f_equal. lia.
      * intros j c Hj Hc. rewrite waits_app. change (waits [None]) with 1%nat.
        assert (l ≤ c) by (apply (Hpast j c); [lia|done]). lia.
Qed.

Lemma bar_inv_insert progs b b' ts i t t' :
  bar_inv progs (b, ts) → ts !! i = Some t → grows b b' →
  (∀ j, j ≠ i → ctr b' !! j = ctr b !! j) → thread_inv b' i t' →
  bt_done t' ++ bt_todo t' = bt_done t ++ bt_todo t →
  bar_inv progs (b', <[i := t']> ts).
Proof.
  intros [B1 B2 B3 B4] Ht Hg Hj Hi Hp. simpl in *.
  assert (∀ j u, <[i := t']> ts !! j = Some u → (j = i ∧ u = t') ∨ (j ≠ i ∧ ts !! j = Some u))
    as Hins.
  { intros j u. destruct (decide (j = i)) as [->|Hne].
    - rewrite list_lookup_insert_eq by (by eapply lookup_lt_Some). intros [= <-]. by left.
    - rewrite list_lookup_insert_ne by done. by right. }
  split; simpl.
  - rewrite (proj1 Hg). done.
  - by rewrite length_insert.
  - intros j u [[-> ->]|[Hne Hu]]%Hins; [rewrite Hp|]; by apply B3.
  - intros j u [[-> ->]|[Hne Hu]]%Hins; [done|].
    apply (thread_inv_grow b); [by apply B4|done|by apply Hj].
Qed.

Lemma bstep_inv progs s s' :
  short progs → bar_inv progs s → bstep s s' → bar_inv progs s'.
Proof.
  intros Hshort Hs Hstep.
  assert (∀ i t rest, s.2 !! i = Some t → bt_todo t = None :: rest →
    Z.of_nat (waits (bt_done t)) + 1 < 2 ^ 64) as Hw.
  { intros i t rest Ht Hr. destruct (waits_le_prog _ _ _ _ Hs Ht) as (p & Hp & E).
    pose proof (Forall_lookup_1 _ _ _ _ Hshort Hp) as Hb. simpl in Hb.
    rewrite Hr in E. change (waits (None :: rest)) with (S (waits rest)) in E. lia. }
  destruct Hstep as [b ts i t a rest Ht Epc Hr|b b' ts i t rest pc' Ht Hr E Hne
                    |b b' ts i t rest Ht Hr E].
  - apply (bar_inv_insert progs b b ts i t); [done|done|apply grows_refl|done| |].
    + destruct (bi_thr _ _ Hs i t Ht) as [I1 I2 I3 I4]. simpl in *.
      unfold entered in I1. rewrite Epc in I1. simpl in I1.
      split; simpl; unfold entered; simpl; [| |done|done]; rewrite waits_app;
        change (waits [Some a]) with 0%nat; rewrite ?Nat.add_0_r in *; done.
    + simpl. by rewrite Hr, <- app_assoc.
  - destruct (barrier_wait_inv b b' i t rest pc') as (G & Hj & Hi);
      [by apply (bi_thr _ _ Hs)|done|pose proof (bi_nr _ _ Hs) as En; simpl in En; lia
      |by eapply Hw|done|].
    rewrite decide_False in Hi by done.
    apply (bar_inv_insert progs b b' ts i t); try done. simpl. by rewrite Hr.
  - destruct (barrier_wait_inv b b' i t rest BOut) as (G & Hj & Hi);
      [by apply (bi_thr _ _ Hs)|done|pose proof (bi_nr _ _ Hs) as En; simpl in En; lia
      |by eapply Hw|done|].
    rewrite decide_True in Hi by done.
    apply (bar_inv_insert progs b b' ts i t); try done. simpl. by rewrite Hr, <- app_assoc.
Qed.

Lemma bstart_inv progs b b0 :
  barrier_init (Z.of_nat (length progs)) b = Some b0 → bar_inv progs (bstart b0 progs).
Proof.
  unfold barrier_init. rewrite Nat2Z.id. case_bool_decide as Hlen; [|done].
  intros [= <-]. split; simpl; [done|by rewrite length_map| |].
  - intros i t. rewrite list_lookup_fmap. destruct (progs !! i); [|done]. by intros [= <-].
  - intros i t Ht. assert (i < length progs)%nat as Hi.
    { apply lookup_lt_Some in Ht. by rewrite length_map in Ht. }
    rewrite list_lookup_fmap in Ht. destruct (progs !! i) as [p|]; [|done].
    injection Ht as <-. split; simpl; [| |done|done].
    + rewrite lookup_app_l by (by rewrite length_replicate).
      by apply lookup_replicate.
    + intros j c Hj. simpl in Hj |- *. rewrite lookup_app_l by (rewrite length_replicate; lia).
      intros [-> _]%lookup_replicate. done.
Qed.

Definition breachable (b : bar) (progs : list (list (option A))) (s : bsys) : Prop :=
  rtc bstep (bstart b progs) s.

Lemma breachable_inv progs b b0 s :
  barrier_init (Z.of_nat (length progs)) b = Some b0 → short progs →
  breachable b0 progs s → bar_inv progs s.
Proof.
  intros Hb Hs Hr. unfold breachable in Hr. pose proof (bstart_inv _ _ _ Hb) as Hi.
  induction Hr as [s|s1 s2 s3 H12 _ IH]; [done|]. apply IH. by eapply bstep_inv.
Qed.

(** ** Every step counts *)
Definition cost (n : nat) (o : option A) : nat := match o with None => n + 4 | _ => 1 end.
Definition spent (pc : bpc) : nat :=
  match pc with BOut => 0 | BEntered => 1 | BLoop _ k => 2 + k end.
Definition left_to_do (n : nat) (t : bthread) : nat :=
  sum_list_with (cost n) (bt_todo t) - spent (bt_pc t).
Definition bar_load (s : bsys) : nat :=
  sum_list_with (left_to_do (length s.2)) s.2.

Lemma sum_insert {B} (f : B → nat) l i x y :
  l !! i = Some x →
  (sum_list_with f (<[i := y]> l) + f x = sum_list_with f l + f y)%nat.
Proof.
  revert i. induction l as [|z l IH]; intros [|i] Hi; simpl in *; [done|done| |].
  - injection Hi as ->. lia.
  - specialize (IH i Hi). lia.
Qed.

Lemma load_insert b b' ts i t t' :
  ts !! i = Some t → (left_to_do (length ts) t' < left_to_do (length ts) t)%nat →
  (bar_load (b', <[i := t']> ts) < bar_load (b, ts))%nat.
Proof.
  intros Ht Hlt. unfold bar_load. simpl. rewrite length_insert.
  pose proof (sum_insert (left_to_do (length ts)) ts i t t' Ht). lia.
Qed.

Lemma bstep_load progs s s' :
  bar_inv progs s → bstep s s' → s' = s ∨ (bar_load s' < bar_load s)%nat.
Proof.
  intros Hs Hstep. pose proof (bi_len _ _ Hs) as Hlen. pose proof (bi_nr _ _ Hs) as Hnr.
  destruct Hstep as [b ts i t a rest Ht Epc Hr|b b' ts i t rest pc' Ht Hr E Hne
                    |b b' ts i t rest Ht Hr E]; simpl in *.
  - right. apply (load_insert _ _ _ _ t); [done|]. unfold left_to_do. simpl.
    rewrite Epc, Hr. simpl. lia.
  - assert (∀ k l, bt_pc t = BLoop l k → (k <= length ts)%nat) as Hk.
    { intros k l Epc. destruct (ti_loop _ _ _ (bi_thr _ _ Hs i t Ht) l k Epc) as (_ & Hk & _).
      simpl in Hk. lia. }
    assert (pc' = bt_pc t ∧ b' = b ∨ spent pc' = S (spent (bt_pc t))
            ∧ (spent (bt_pc t) <= length ts + 2)%nat) as [[-> ->]|[Hsp Hle]].
    { destruct (bt_pc t) as [| |l k] eqn:Epc; simpl in E.
      - destruct (ctr b !! i); [|done]. simpl in E. injection E as <- <-. right. simpl. lia.
      - destruct (ctr b !! i); [|done]. simpl in E. injection E as <- <-. right. simpl. lia.
      - specialize (Hk k l eq_refl). destruct (Z.of_nat k <? nr_threads b).
        + destruct (ctr b !! k) as [c|]; [|done]. simpl in E.
          destruct (c <? l); injection E as <- <-; [by left|right; simpl; lia].
        + injection E as <- <-. done. }
    + left. f_equal. rewrite <- Hr. rewrite list_insert_id; [done|].
      rewrite Ht. by destruct t.
    + right. apply (load_insert _ _ _ _ t); [done|]. unfold left_to_do. simpl.
      rewrite Hr. simpl. lia.
  - right. apply (load_insert _ _ _ _ t); [done|]. unfold left_to_do. simpl. rewrite Hr. simpl.
    destruct (bt_pc t) as [| |l k] eqn:Epc; simpl in E.
    + by destruct (ctr b !! i).
    + by destruct (ctr b !! i).
    + destruct (ti_loop _ _ _ (bi_thr _ _ Hs i t Ht) l k Epc) as (_ & Hk & _).
      simpl in Hk. simpl. lia.
Qed.

(** All threads have done what they have to do. *)
Definition all_done (s : bsys) : Prop := Forall (λ t, bt_todo t = []) s.2.

Definition same_waits (progs : list (list (option A))) : Prop :=
  ∀ p q, p ∈ progs → q ∈ progs → waits p = waits q.

Lemma changed (b b' : bar) (ts : list bthread) i t t' :
  ts !! i = Some t → t' ≠ t → (b', <[i := t']> ts) ≠ (b, ts).
Proof.
  intros Ht Hne [= _ E]. apply (f_equal (.!! i)) in E.
  rewrite list_lookup_insert_eq in E by (by eapply lookup_lt_Some). congruence.
Qed.

(** A thread that is not in the loop can go on. *)
Lemma outside_goes_on progs b ts i t :
  bar_inv progs (b, ts) → ts !! i = Some t → bt_todo t ≠ [] →
  (∀ l k, bt_pc t ≠ BLoop l k) → ∃ s', bstep (b, ts) s' ∧ s' ≠ (b, ts).
Proof.
  intros Hs Ht Htodo Hpc. pose proof (bi_thr _ _ Hs i t Ht) as [I1 _ _ I4]. simpl in *.
  destruct (bt_todo t) as [|[a|] rest] eqn:Er; [done| |].
  { destruct (decide (bt_pc t = BOut)) as [Epc|Hne];
      [|destruct (I4 Hne) as [? [=]]].
    eexists. split; [by eapply b_work|]. apply (changed _ _ _ _ t); [done|].
    intros E. apply (f_equal (length ∘ bt_todo)) in E. simpl in E. rewrite Er in E.
    simpl in E. lia. }
  destruct (bt_pc t) as [| |l k] eqn:Epc; [| |by destruct (Hpc l k)].
  - eexists. split; [eapply (b_wait _ _ _ _ t rest BEntered); [done|done| |done]|].
    + rewrite Epc. simpl. by rewrite I1.
    + apply (changed _ _ _ _ t); [done|]. intros E%(f_equal bt_pc). simpl in E. congruence.
  - eexists. split; [eapply (b_wait _ _ _ _ t rest (BLoop _ 0)); [done|done| |done]|].
    + rewrite Epc. simpl. by rewrite I1.
    + apply (changed _ _ _ _ t); [done|]. intros E%(f_equal bt_pc). simpl in E. congruence.
Qed.

(** A thread that spins waits for one that has made fewer calls, or as many and is
    outside; so some thread can go on. *)
Lemma thread_goes_on progs b ts n i t :
  bar_inv progs (b, ts) → same_waits progs →
  ts !! i = Some t → bt_todo t ≠ [] → waits (bt_done t) = n →
  ∃ s', bstep (b, ts) s' ∧ s' ≠ (b, ts).
Proof.
  intros Hs Hsame. revert i t.
  induction n as [n IH] using lt_wf_ind. intros i t Ht Htodo Hn.
  destruct (bt_pc t) as [| |l k] eqn:Epc;
    [eapply outside_goes_on; [done|done|done|congruence].. |].
  pose proof (bi_thr _ _ Hs i t Ht) as [I1 I2 I3 I4]. simpl in *.
  destruct I4 as [rest Er]; [congruence|].
  destruct (I3 l k Epc) as (El & Hk & Hpast).
  destruct (Z.ltb_spec (Z.of_nat k) (nr_threads b)) as [Hkn|Hkn].
  2:{ eexists. split; [eapply (b_leave _ b _ _ t rest); [done|done|]|].
      - rewrite Epc. simpl. by rewrite (proj2 (Z.ltb_ge _ _)).
      - apply (changed _ _ _ _ t); [done|]. intros E%(f_equal bt_pc). simpl in E. congruence. }
  pose proof (bi_nr _ _ Hs) as Hnr. pose proof (bi_len _ _ Hs) as Hlen. simpl in *.
  destruct (ts !! k) as [u|] eqn:Eu; [|apply lookup_ge_None in Eu; lia].
  pose proof (ti_ctr _ _ _ (bi_thr _ _ Hs k u Eu)) as Hc. simpl in Hc.
  destruct (Z.ltb_spec (Z.of_nat (entered u)) l) as [Hsp|Hok].
  2:{ eexists. split; [eapply (b_wait _ b _ _ t rest (BLoop l (S k))); [done|done| |done]|].
      - rewrite Epc. simpl. rewrite (proj2 (Z.ltb_lt _ _)) by done. rewrite Hc. simpl.
        by rewrite (proj2 (Z.ltb_ge _ _)).
      - apply (changed _ _ _ _ t); [done|]. intros E%(f_equal bt_pc). simpl in E.
        rewrite Epc in E. injection E. lia. }
  pose proof (I2 k _ Hkn Hc) as Hge. unfold entered in *. rewrite Epc in El. simpl in El.
  destruct (waits_le_prog _ _ _ _ Hs Ht) as (p & Hp & Ep).
  destruct (waits_le_prog _ _ _ _ Hs Eu) as (q & Hq & Eq).
  pose proof (Hsame p q (list_elem_of_lookup_2 _ _ _ Hp) (list_elem_of_lookup_2 _ _ _ Hq))
    as Epq.
  rewrite Er in Ep. change (waits (None :: rest)) with (S (waits rest)) in Ep.
  assert (bt_todo u ≠ []) as Hu.
  { intros E. rewrite E in Eq. change (waits []) with 0%nat in Eq. lia. }
  destruct (decide (waits (bt_done u) < n)%nat) as [Hlt|Hge'].
  { by apply (IH _ Hlt k u). }
  eapply outside_goes_on; [done|exact Eu|done|].
  intros l' k' E. rewrite E in Hsp. simpl in Hsp. lia.
Qed.

(** No thread is past a call that another has not begun. *)
Lemma entered_ge progs s i j t u :
  bar_inv progs s → s.2 !! i = Some t → s.2 !! j = Some u →
  (waits (bt_done t) <= entered u)%nat.
Proof.
  intros Hs Ht Hu. pose proof (ti_ctr _ _ _ (bi_thr _ _ Hs j u Hu)) as Hc.
  pose proof (bi_nr _ _ Hs) as Hnr. pose proof (bi_len _ _ Hs) as Hlen.
  pose proof (lookup_lt_Some _ _ _ Hu).
  pose proof (ti_past _ _ _ (bi_thr _ _ Hs i t Ht) j _ ltac:(lia) Hc). lia.
Qed.

(** Some thread can go on until all have finished. *)
Lemma barrier_goes_on progs s :
  same_waits progs → short progs → bar_inv progs s →
  (all_done s ∨ ∃ s', bstep s s' ∧ s' ≠ s)
  ∧ ∃ n s', nsteps bstep n s s' ∧ (n <= bar_load s)%nat ∧ all_done s'.
Proof.
  intros Hsame Hsh Hs.
  assert (∀ a, bar_inv progs a → all_done a ∨ ∃ a', bstep a a' ∧ a' ≠ a) as Hgo.
  { intros [c ts] Ha. destruct (decide (Forall (λ t, bt_todo t = []) ts)) as [|Hn]; [by left|].
    apply not_Forall_Exists in Hn; [|intros x; apply _].
    apply Exists_exists in Hn as (t & [i Ht]%list_elem_of_lookup & Hne).
    right. by eapply thread_goes_on. }
  split; [by apply Hgo|].
  remember (bar_load s) as n eqn:En. assert (bar_load s <= n)%nat as Hn by lia. clear En.
  revert s Hs Hn. induction n as [n IH] using lt_wf_ind. intros s Hs Hn.
  destruct (Hgo s Hs) as [Hd|(s1 & H1 & Hne)].
  - exists 0%nat, s. split; [constructor|]. split; [lia|done].
  - destruct (bstep_load _ _ _ Hs H1) as [?|Hlt]; [done|].
    destruct (IH (bar_load s1) ltac:(lia) s1) as (m & s' & Hm & Hle & Hd);
      [by eapply bstep_inv|lia|].
    exists (S m), s'. split; [by econstructor|]. split; [lia|done].
Qed.

(** ** Properties *)

(** C27. No thread is past its n-th call of barrier_wait before every thread has
    begun its n-th call, in any interleaving of any number of threads that do
    anything in between; so what the threads do before the call comes before what
    any of them does after it, and their numbers of calls differ by one at most. *)
Theorem barrier_separates progs b b0 s i j t u :
  barrier_init (Z.of_nat (length progs)) b = Some b0 → short progs →
  breachable b0 progs s → s.2 !! i = Some t → s.2 !! j = Some u →
  (waits (bt_done t) <= entered u)%nat
  ∧ (entered t <= entered u + 1)%nat.
Proof.
  intros Hb Hsh Hr Ht Hu. pose proof (breachable_inv _ _ _ _ Hb Hsh Hr) as Hs.
  pose proof (entered_ge _ _ _ _ _ _ Hs Ht Hu) as Hle.
  split; [done|]. unfold entered in *. destruct (bt_pc t); simpl; lia.
Qed.

(** C26. The barrier lets all threads pass. When all threads call barrier_wait equally
    often, then in every reachable state some thread can take a step that changes
    something, until all have done what they have to do; every step but that of a
    thread that looks at a counter that is behind takes load away, so that the
    threads finish in at most [bar_load] such steps. No call waits for ever. *)
Theorem barrier_releases progs b b0 s :
  barrier_init (Z.of_nat (length progs)) b = Some b0 → short progs →
  same_waits progs → breachable b0 progs s →
  (∀ s', bstep s s' → s' = s ∨ (bar_load s' < bar_load s)%nat)
  ∧ (all_done s ∨ ∃ s', bstep s s' ∧ s' ≠ s)
  ∧ ∃ n s', nsteps bstep n s s' ∧ (n <= bar_load s)%nat ∧ all_done s'.
Proof.
  intros Hb Hsh Hsame Hr. pose proof (breachable_inv _ _ _ _ Hb Hsh Hr) as Hs.
  split; [intros s'; by apply (bstep_load progs)|]. by apply (barrier_goes_on progs).
Qed.
End Threads.
Arguments bthread : clear implicits.
Arguments bsys : clear implicits.

(** ** Two threads, of which one is early *)
Definition demo_progs : list (list (option nat)) :=
  [[Some 1; None; Some 2]; [None; Some 3]]%nat.
Definition demo_bar : bar :=
  Bar (replicate 2 0 ++ drop 2 (ctr bar_static)) 2.
Definition demo_early_bar : bsys nat :=
  (set_ctr (<[1%nat := 1]> (ctr demo_bar)) demo_bar,
   [BThread BOut [] [Some 1; None; Some 2]; BThread BEntered [] [None; Some 3]]%nat).

Lemma demo_bar_init : barrier_init 2 bar_static = Some demo_bar.
Proof. reflexivity. Qed.

Lemma demo_progs_short : short demo_progs.
Proof. repeat constructor; reflexivity. Qed.

Lemma demo_early_reachable : breachable demo_bar demo_progs demo_early_bar.
Proof.
  apply rtc_once. unfold bstart. simpl.
  refine (b_wait demo_bar _ _ 1 (BThread BOut [] [None; Some 3%nat]) [Some 3%nat] BEntered
    _ _ _ _); reflexivity || done.
Qed.

Lemma barrier_separates_witness :
  let t := BThread BOut [] [Some 1; None; Some 2]%nat in
  let u := BThread BEntered [] [None; Some 3]%nat in
  (waits (bt_done u) <= entered t)%nat ∧ (entered u <= entered t + 1)%nat.
Proof.
  intros t u. exact (barrier_separates demo_progs bar_static demo_bar demo_early_bar 1 0 u t
    demo_bar_init demo_progs_short demo_early_reachable eq_refl eq_refl).
Defined.

Lemma barrier_releases_witness :
  ∃ n s', nsteps bstep n demo_early_bar s' ∧ (n <= 14)%nat ∧ all_done s'.
Proof.
  destruct (barrier_releases demo_progs bar_static demo_bar demo_early_bar demo_bar_init
    demo_progs_short) as (_ & _ & n & s' & Hn & Hle & Hd).
  - assert (∀ p, p ∈ demo_progs → waits p = 1%nat) as E.
    { intros p Hp. unfold demo_progs in Hp. list_cases Hp. }
    intros p q Hp Hq. by rewrite (E p), (E q).
  - exact demo_early_reachable.
  - exists n, s'. split; [exact Hn|]. split; [|exact Hd].
    assert (bar_load demo_early_bar = 14%nat) as E by (vm_compute; reflexivity).
    rewrite E in Hle. exact Hle.
Defined.
