(* ===== verification/ArmFreq.v ===== *)
(** * Counter frequency test: src/cp/armfreq/clock_test.cpp

    Six threads measure how many cycles a busy loop takes, meet at the barrier and
    then write what they measured, each to its own log file. The readings of the
    clock and of the cycle counter are inputs. *)
From Stdlib Require Import QArith.
From S2P Require Import Prelude Util Floats Doubles TimeStamp Platform Log Barrier.

#[local] Open Scope Z_scope.

Definition MAX_NR_THREADS : nat := 6.

(** ** The busy loop: [do { n -= decrement; } while (n > 0)] on a uint64_t *)
Fixpoint countdown (fuel : nat) (decrement n : Z) : option Z :=
  match fuel with
  | O => None
  | S fuel =>
      let n := wrapU 64 (n - decrement) in
      if 0 <? n then countdown fuel decrement n else Some n
  end.

(** It ends when the decrement divides what is counted down. *)
Lemma countdown_ends k d :
  0 < d → (0 < k)%nat → d * Z.of_nat k < 2 ^ 64 → countdown k d (d * Z.of_nat k) = Some 0.
Proof.
  intros Hd. induction k as [|k IH]; [lia|]. intros _ Hlt. cbn [countdown].
  assert (d * Z.of_nat (S k) - d = d * Z.of_nat k) as -> by lia.
  rewrite wrapU_small by nia. destruct k as [|k].
  - by rewrite Z.mul_0_r.
  - rewrite (proj2 (Z.ltb_lt _ _)) by nia. apply IH; nia.
Qed.

(** ** One measurement *)
Record reading := Reading {
  rd_start : timespec;
  rd_cycles0 : Z;
  rd_end : timespec;
  rd_cycles1 : Z
}.

Record test_info := TestInfo {
  ti_ts : timespec;
  ti_offset : double;
  ti_offset_avg : double;
  cycles_ref : Z;
  nsec_ref : double;
  freq_ref : double;
  cycles_now : Z;
  nsec_now : double;
  freq_now : double;
  cycles_tot : Z;
  nsec_tot : double;
  freq_avg : double
}.

Definition d0 : double := Finite false 0.

(** [ti] before the loop; the fields that are not set are set before they are read. *)
Definition ti_start : test_info :=
  TestInfo (Timespec 0 0 0 0) d0 d0 0 d0 d0 0 d0 d0 0 d0 d0.

Definition nsec_of (r : reading) : double :=
  dadd (of_int (u64 ((tv_sec (rd_end r) - tv_sec (rd_start r)) * NANO_S_PER_S)))
       (of_int (i64 (tv_nsec (rd_end r) - tv_nsec (rd_start r)))).
Definition cycles_of (r : reading) : Z := u64 (rd_cycles1 r - rd_cycles0 r).
Definition freq_of (cycles : Z) (nsec : double) : double :=
  dmul (ddiv (of_int cycles) nsec) (of_int NANO_S_PER_S).

Definition measure (ti : test_info) (r : reading) : test_info :=
  let nsec := nsec_of r in
  let cycles := cycles_of r in
  let freq := freq_of cycles nsec in
  let '(c_ref, n_ref, f_ref) :=
    if is_zero (freq_ref ti) then (cycles, nsec, freq)
    else (cycles_ref ti, nsec_ref ti, freq_ref ti) in
  let c_tot := u64 (cycles_tot ti + cycles) in
  let n_tot := dadd (nsec_tot ti) nsec in
  let f_avg := freq_of c_tot n_tot in
  TestInfo (Timespec (tv_sec (rd_end r)) (tv_nsec (rd_end r)) (tsc (rd_end r))
              (aux (ti_ts ti)))
    (dsub freq f_ref) (dsub freq f_avg) c_ref n_ref f_ref cycles nsec freq
    c_tot n_tot f_avg.

(** [measure_list] after the loop. *)
Fixpoint measurements (ti : test_info) (rs : list reading) : list test_info :=
  match rs with
  | [] => []
  | r :: rs => let ti := measure ti r in ti :: measurements ti rs
  end.

(** ** The log *)
Section ArmFreq.
Context `{Env}.

(** [setw(n)] *)
Definition setw (n : nat) (s : string) : string := pad_left " "%char n s.

Definition print_test_info (ts : timespec) (ti : test_info) : string :=
  default uninit_buf (formatTS ts 1024 def_format).2
  +:+ ", " +:+ setw 12 (fixed0 (freq_now ti))
  +:+ ", " +:+ setw 12 (fixed0 (freq_avg ti))
  +:+ ", " +:+ setw 9 (fixed0 (ti_offset ti))
  +:+ ", " +:+ setw 9 (fixed0 (ti_offset_avg ti))
  +:+ ", [" +:+ zstr (tv_sec ts) +:+ ", " +:+ zstr (tv_nsec ts) +:+ ", " +:+ zstr (tsc ts)
  +:+ "]" +:+ nl.

Definition armfreq_header : string :=
  "# epoch_time:ns, cur_freq, avg_freq, offset, offset_avg, [tv_sec, tv_nsec, tsc]" +:+ nl.

(** The name of the open file; every thread has its own number of the system. *)
Definition set_log_file_as (os_tid : Z) (name : string) : M sys string :=
  '(r, tmp_buf) ← getIPDottedQuad;
  (if negb (r =? 0) then
     logFail "clock_test.cpp" 226 "getting IP address" ;; exit EXIT_FAILURE
   else mret tt) ;;
  let name_buf := "/tmp/cloud_profiler:" +:+ tmp_buf +:+ ":" +:+ zstr getpid +:+ ":"
                  +:+ zstr os_tid +:+ ":" +:+ name +:+ ".txt" in
  if creatable name_buf then mret name_buf
  else logFail "clock_test.cpp" 239 ("open file " +:+ name_buf) ;; exit EXIT_FAILURE.

(** ** The threads *)
Inductive action :=
  | OpenLog                       (* set_log_file_as, which writes the header *)
  | Measure (r : reading)
  | PrintInfo (ti : test_info).

(** thread_f without [infinite], as the barrier sees it; [rs] are the readings of its
    [iter] iterations. *)
Definition thread_f (rs : list reading) : list (option action) :=
  Some OpenLog :: map (λ r, Some (Measure r)) rs
  ++ None :: map (λ ti, Some (PrintInfo ti)) (measurements ti_start rs).

(** What is in the log of a thread after the actions it did. *)
Definition log_of (l : list (option action)) : string :=
  string_concat (omap (λ o, match o with
    | Some OpenLog => Some armfreq_header
    | Some (PrintInfo ti) => Some (print_test_info (ti_ts ti) ti)
    | _ => None
    end) l).

Definition is_print (o : option action) : bool :=
  match o with Some (PrintInfo _) => true | _ => false end.
Definition measured (l : list (option action)) : list reading :=
  omap (λ o, match o with Some (Measure r) => Some r | _ => None end) l.

(** The command line after it was parsed; [None] without -h, and the two counters
    that -t prints. *)
Record arm_options := ArmOptions {
  ao_help : option string;
  ao_infinite : bool;
  ao_test : bool;
  ao_console : bool;
  ao_cntfrq : Z;
  ao_cntpct : Z
}.

Definition say (m : string) : M sys unit :=
  modify (λ s, set_console (console s ++ [m +:+ nl]) s).

Definition arm_test (o : arm_options) : M sys unit :=
  say "sizeof:" ;; say "    uint32_t: 4" ;; say "    unsigned short: 2" ;;
  say "    unsigned: 4" ;; say "    unsigned int: 4" ;; say "    unsigned long: 8" ;;
  say "The frequency of the system counter: " ;; say ("    " +:+ zstr (ao_cntfrq o)) ;;
  say "Current System counter value: " ;; say ("    " +:+ zstr (ao_cntpct o)).

(** Up to the start of the threads; with -f they never end, and neither does the
    program. *)
Definition arm_main (o : arm_options) : M sys bar :=
  match ao_help o with
  | Some help => say help ;; exit EXIT_FAILURE
  | None =>
      (if ao_test o then arm_test o ;; exit EXIT_FAILURE else mret tt) ;;
      setLogFileName "/tmp/armfreq_logfile" ;;
      toggleConsoleLog (ao_console o) ;;
      modify (λ s, set_console (console s ++ ["Console log: "]) s) ;;
      say (if ao_console o then "enabled" else "disabled") ;;
      match barrier_init (Z.of_nat MAX_NR_THREADS) bar_static with
      | None => undefined "more threads than counters"
      | Some b => if ao_infinite o then spin "while (decrement == 1)" else mret b
      end
  end.

(** ** Before and after the barrier *)
Definition before (rs : list reading) : list (option action) :=
  Some OpenLog :: map (λ r, Some (Measure r)) rs.
Definition after (rs : list reading) : list (option action) :=
  map (λ ti, Some (PrintInfo ti)) (measurements ti_start rs).

Lemma thread_f_split rs : thread_f rs = before rs ++ None :: after rs.
Proof. done. Qed.

Lemma waits_somes {A B} (f : B → A) l : waits (map (λ x, Some (f x)) l) = 0%nat.
Proof. induction l as [|x l IH]; [done|]. exact IH. Qed.

Lemma thread_f_waits rs : waits (thread_f rs) = 1%nat.
Proof.
  rewrite thread_f_split, waits_app.
  change (waits (before rs)) with (waits (map (λ r, Some (Measure r)) rs)).
  change (waits (None :: after rs)) with (S (waits (after rs))).
  unfold after. by rewrite !waits_somes.
Qed.

Lemma measured_app l1 l2 : measured (l1 ++ l2) = measured l1 ++ measured l2.
Proof. apply omap_app. Qed.

Lemma measured_before rs : measured (before rs) = rs.
Proof.
  unfold before, measured. simpl. induction rs as [|r rs IH]; [done|]. simpl. by rewrite IH.
Qed.

Lemma measured_after l : measured (map (λ ti, Some (PrintInfo ti)) l) = [].
Proof. induction l as [|x l IH]; [done|]. exact IH. Qed.

(** What a thread has done is a part of the first phase, or all of it and more. *)
Lemma thread_f_done rs done todo :
  done ++ todo = thread_f rs →
  (∃ x, before rs = done ++ x ∧ (∀ rest, todo = None :: rest → x = []))
  ∨ ∃ y, done = before rs ++ None :: y ∧ after rs = y ++ todo.
Proof.
  rewrite thread_f_split. intros [(k & -> & E)|(k & Eb & E)]%app_eq_inv.
  - destruct k as [|o y]; simpl in E.
    + left. exists []. by rewrite !app_nil_r.
    + injection E as <- E. right. by exists y.
  - left. exists k. split; [done|]. intros rest ->. destruct k as [|o k]; [done|].
    injection E as <- _. exfalso.
    pose proof (waits_somes Measure rs) as Hw.
    change (waits (map (λ x, Some (Measure x)) rs)) with (waits (before rs)) in Hw.
    rewrite Eb, waits_app in Hw. change (waits (None :: k)) with (S (waits k)) in Hw. lia.
Qed.

Lemma before_prints rs done x : before rs = done ++ x → existsb is_print done = false.
Proof.
  intros E. assert (existsb is_print (before rs) = false) as Hb.
  { clear. unfold before. simpl. induction rs as [|r rs IH]; [done|exact IH]. }
  rewrite E, existsb_app in Hb. by apply orb_false_iff in Hb as [? _].
Qed.

Lemma measured_all rs done todo :
  done ++ todo = thread_f rs →
  (1 <= waits done)%nat ∨ (∃ rest, todo = None :: rest) → measured done = rs.
Proof.
  intros E Hw. destruct (thread_f_done rs done todo E) as [(x & Eb & Hx)|(y & -> & Ey)].
  - destruct Hw as [Hw|[rest Hr]].
    + pose proof (waits_somes Measure rs) as H0.
      change (waits (map (λ x, Some (Measure x)) rs)) with (waits (before rs)) in H0.
      rewrite Eb, waits_app in H0. lia.
    + rewrite (Hx rest Hr), app_nil_r in Eb. rewrite <- Eb. apply measured_before.
  - rewrite measured_app, measured_before. change (measured (None :: y)) with (measured y).
    pose proof (measured_after (measurements ti_start rs)) as Ea.
    fold (after rs) in Ea. rewrite Ey, measured_app in Ea.
    apply app_eq_nil in Ea as [-> _]. by rewrite app_nil_r.
Qed.

Lemma log_of_thread rs :
  log_of (thread_f rs)
  = armfreq_header +:+ string_concat
      (map (λ ti, print_test_info (ti_ts ti) ti) (measurements ti_start rs)).
Proof.
  unfold log_of, thread_f. cbn [omap list_omap]. rewrite omap_app.
  assert (∀ l, omap (λ o, match o with
    | Some OpenLog => Some armfreq_header
    | Some (PrintInfo ti) => Some (print_test_info (ti_ts ti) ti)
    | _ => None end) (map (λ r, Some (Measure r)) l) = []) as Em
    by (intros l; induction l as [|r l IH]; [done|exact IH]).
  rewrite Em. simpl. do 2 f_equal.
  generalize (measurements ti_start rs). intros l. induction l as [|ti l IH]; [done|].
  simpl. by rewrite IH.
Qed.

(** ** Property *)

End ArmFreq.

(** ** Six threads with two measurements each *)
Definition demo_readings : list reading :=
  [Reading (Timespec 100 0 7 0) 500 (Timespec 101 500000000 9 0) 3000000500;
   Reading (Timespec 102 0 11 0) 18446744073709551000
     (Timespec 102 900000000 13 0) 1799999384].

(** The cycle counter wraps in the second one. *)
Example demo_measurements :
  map (λ ti, (fixed0 (freq_now ti), fixed0 (freq_avg ti), fixed0 (ti_offset ti)))
    (measurements ti_start demo_readings)
  = [("2000000000", "2000000000", "0"); ("2000000000", "2000000000", "0")].
Proof. vm_compute. reflexivity. Qed.

Example demo_countdown : countdown 10 1 10 = Some 0 ∧ countdown 9 1 10 = None.
Proof. vm_compute. done. Qed.

